(* ===== verification/_CoqProject ===== *)
-Q . S2P
Prelude.v
Types.v
Utils.v
Text.v
Filters.v
Impersonate.v
Time.v
Pool.v
Cache.v
Fork.v
Storage.v
FeeModel.v
Sealer.v
Blockchain.v
Inner.v
Sealing.v
VmRunner.v
Running.v
Executor.v
GasEstim.v
Node.v
Api.v
Serving.v
AddressMap.v
TraceTypes.v
Traces.v
TraceWriter.v
Resolver.v
TraceDecode.v
AbiUtils.v
Config.v
Cli.v
ErrorDefs.v
Errors.v
NodeErrors.v
L1Anvil.v
L1Commit.v
L1Sender.v
L1Watcher.v
L1Sidecar.v
Diagnostics.v
SystemContracts.v
BatchThread.v
Printing.v
Reports.v
Logging.v
ServerBuild.v
Predeploys.v
Start.v
RpcServer.v
Notices.v
ConsoleAbi.v
Program.v
Tasks.v
