(* ===== verification/Prelude.v ===== *)
(** * anvil-zksync: a verification development of the in-memory node

    anvil-zksync is a local zkSync node for development: it keeps a chain in
    memory, on its own or on top of a fork of a remote network, runs the
    transactions that are sent to it in the zkSync VM, serves the JSON-RPC API,
    and can settle its batches on an L1 of its own.  This library models the
    crates of the repository ([core], [common], [types], [config], [cli],
    [traces], [console], [l1_sidecar], [api_decl], [api_server] and
    [zksync_error], all under [crates]) and proves what makes them correct.

    ** The program and its model

    A transaction comes in through the API, waits in the pool, is taken in a
    batch by a sealer or by a request to mine, is run by the VM runner on top of
    the storage, and the result is sealed into a block of the chain.  One task,
    the node executor, does everything that changes the node; the API only
    reads, or asks the executor.  The L1 sidecar watches an L1 for priority
    requests, which go into the same pool, and sends the sealed batches to it.
    Around the node are the command line with the configuration, the server, and
    what is shown to the user: call traces, reports, logs.

    The foundations:
    - [Prelude]: machine integers, the monad [M S E A] of operations that change
      a state, fail, panic or block for ever, tactics and the lemmas on lists,
      maps and big-endian words that the components share.
    - [Types]: the data the components exchange (blocks, receipts, logs,
      transactions, call traces), with the interfaces [TransactionApi] and
      [FeeApi] of [zksync_types].
    - [Utils]: [utils.rs]; [Text]: the printing of numbers and hexadecimal.

    The node (paths under [core/src]):
    - [Filters]: [filters.rs], the filters of [eth_newFilter] and its kin.
    - [Impersonate]: [node/impersonate.rs].
    - [Time]: [node/inner/time.rs], the clock of the blocks.
    - [Pool]: [node/pool.rs] and [types/src/transaction_order.rs].
    - [Cache]: [common/src/cache.rs], the cache of remote answers on disk.
    - [Fork]: [node/inner/fork.rs], the client of the remote network.
    - [Storage]: [deps/mod.rs], [node/inner/fork_storage.rs], [node/keys.rs]
      and [node/state_override.rs]: storage on top of a fork.
    - [FeeModel]: [node/fee_model.rs].
    - [Sealer]: [node/sealer.rs], when a block is made.
    - [Blockchain]: [node/inner/blockchain.rs] and the blocks of
      [node/in_memory.rs].
    - [Inner]: [node/inner/in_memory_inner.rs], the state of the node; the
      theorems about it are in [Sealing].
    - [VmRunner]: [node/inner/vm_runner.rs] and what the batch executor does to
      the VM ([node/batch/factory.rs], [node/batch/executor.rs]); the theorems
      about it are in [Running].  [BatchThread]: the thread of the batch
      executor, its choice of VM and its channels.
    - [Executor]: [node/inner/node_executor.rs], its commands and its handle.
    - [Tasks]: the executor with its channel, the sealer and the requests as
      tasks that run at the same time.
    - [GasEstim]: gas estimation, of [in_memory_inner.rs].
    - [SystemContracts]: [system_contracts.rs] and [deps/system_contracts.rs].
    - [Node]: [node/in_memory.rs] and [node/in_memory_ext.rs], the methods of
      the [anvil], [evm] and [hardhat] namespaces.
    - [Api]: [node/eth.rs], [node/zks.rs] and [node/debug.rs].
    - [Serving]: theorems about [Node] and [Api] together.

    Errors:
    - [ErrorDefs], [Errors]: the crate [zksync_error].
    - [NodeErrors]: [core/src/node/error.rs] and [api_server/src/error.rs].

    Command line, start and server:
    - [Config]: the crate [config]; [Cli]: [cli/src/cli.rs] and [utils.rs].
    - [Start]: the steps of [cli/src/main.rs] that put a node together, and the
      periodic dump of the state; [Predeploys]:
      [common/src/utils/predeploys.rs].
    - [ServerBuild]: the names of the methods ([api_decl]) and the server that
      is merged from the namespaces ([api_server/src/server.rs]).
    - [RpcServer]: what every method of every namespace calls
      ([api_server/src/impls]), as one function from requests to answers.
    - [Program]: [start_program] and [main] as a whole, composed of the parts
      above, from the arguments to the servers.

    The L1 sidecar ([l1_sidecar]):
    - [L1Anvil]: its configuration and the L1 process; [L1Commit]: the metadata
      of batches and the calls about them; [L1Sender]: the tasks that send
      batches; [L1Watcher]: the task that reads priority requests;
      [L1Sidecar]: the sidecar that the API talks to.

    What the user is shown:
    - [AddressMap], [Resolver]: [common/src/address_map.rs] and [resolver.rs].
    - [TraceTypes], [Traces], [TraceDecode], [TraceWriter]: call traces
      ([types/src/traces.rs] and the crate [traces]): building and filtering the
      arena, decoding, rendering.
    - [AbiUtils]: [traces/src/abi_utils.rs], texts and calldata.
    - [ConsoleAbi]: the events of [console/src/ds.rs], the functions of
      [console/src/hh.rs] and the decoder that the node starts from.
    - [Diagnostics]: what the node works out about a transaction it ran.
    - [Printing], [Reports]: [core/src/formatter].
    - [Logging]: [core/src/observability.rs] and [common/src/shell.rs].
    - [Notices]: the report after a transaction and the description of the
      configuration.

    A struct is a [Record] with the fields of the source, an operation a
    [Definition] with its name (with the prefix of its component where a name
    is used twice: [exec_set_code], [node_set_code]), [?] is [throw], [expect],
    [unwrap] and overflow of [U256] are [Panic].  In most files an operation
    runs to its end before the next one starts; where a task waits for a lock it
    holds itself the outcome is [Deadlock].  How tasks interleave is a step
    relation of its own: [Tasks] for the node, in which a step is what happens
    under one lock, and [BatchThread] for the thread of a batch and its handle.
    [u32] and [u64] arithmetic wraps, saturates or is cast as the source says.

    ** Interfaces

    What is not in the repository is an argument, a class whose laws, where a
    theorem needs some, are a class of their own:
    - the VM: [VmApi], [CallVm], [SandboxVm], and [VmInstance] and [BatchVms] for
      its variants.  The laws are [VmLaws] and [InstanceLaws] (snapshots are a
      stack), [BatchVmsLaws] and [VmReads] (the VM does not write to the storage
      it reads from);
    - the remote network ([Remote]) and the database of selectors
      ([SelectorDatabase], [SignaturesFile]);
    - [zksync_types] and its kin: [TransactionApi], [KeyApi], [ChainApi],
      [BlockApi], [VmResultApi], [EstimationApi], [RequestApi], [FeeApi],
      [PubdataApi], and the methods of other crates' namespaces ([EraApi] with
      [EraLaws]);
    - the runtime and the host: channels and timers ([Channel], [Ticker]),
      files, sockets and keys ([HostApi], [StartApi], [DumpApi], [WalletApi],
      [CliApi], [PredeployAbi]), JSON and gzip ([NodeApi]), the contents of the archives of
      contracts ([ArtifactApi] with [WellFormedArtifacts]);
    - the L1: the node and its process ([L1Provider] with [ClockLaws]), the
      embedded configuration ([Embedded]), commitments, Merkle trees and call
      data ([CommitmentApi], [MerkleApi], [CallAbi], [Random] with
      [CommitmentLaws] and [MerkleLaws]), the contracts' answers ([L1Records],
      [L1Accepts], [L1TxApi], [QueueLaws]);
    - texts and styles of other crates: [AbiApi], [TraceText], [Terminal],
      [ShellTerminal], [Colors], [CostText] with [UnitsLaws], [ViewApi],
      [DocumentationApi], [DirectiveApi] with [DirectiveLaws], [ErrorText],
      [RpcApi], [ConfigText], [ActionText], [DsText].

    Every theorem with hypotheses has a witness on the sample instances of the
    [Sample*] modules, which compute.

    ** What is proved

    - Mining ([Executor], [Sealing], [Running], [Serving]): the end-to-end
      behaviour of a request for a block, what a run of a batch returns, what
      sealing it does to chain, storage, filters and clock, and that the API
      serves it; halted transactions leave no trace; when the executor stops.
    - The tasks ([Tasks]): under every interleaving the node is as after the
      commands one by one in the order in which they were sent, and each request
      gets the answer to its own; every transaction is in one place, and none is
      lost while the executor runs; with automatic mining and no new requests all
      of them come to rest with the work done.
    - The batch thread ([BatchThread]): a request to it gives what the VM
      operation gives, under every interleaving, and once its handle is dropped
      it ends.
    - State ([Sealing], [Node]): dump and load, snapshots and their
      identifiers, reset, reads at earlier blocks and the bound on the archive.
    - Chain ([Blockchain]): which blocks are accepted, and that accepted ones
      stay retrievable and ordered.
    - Storage ([Storage], [Serving]): the storage with its caches refines a
      plain store on top of the remote; keys round trip; overrides change what
      they name; what the API sets it reads back.
    - Fork and cache ([Fork], [Cache]): cached reads are transparent, where a
      fork before a transaction starts, the cache survives a restart.
    - Pool, sealer, clock, fees, filters: order and batches, no transaction is
      left behind, timestamps increase, base fees are applied, a poll reports
      what was asked for.
    - Gas estimation ([GasEstim]): the search ends close to the least limit that
      works, and what is suggested was tried.
    - L1 ([L1Commit], [L1Sender], [L1Watcher], [L1Sidecar]): the metadata of a
      batch is that of the block and is drawn once; batches are committed,
      proved and executed in order, each once; the pool receives the L1's queue
      as it is; what the API answers with and without an L1.
    - Start ([Config], [Cli], [Start], [SystemContracts]): what the arguments
      mean and which are refused, which node is put together from them, which
      system contracts it gets, that the periodic dump always answers.
    - The program ([Program]): what was launched serves, through the API, the
      network that the arguments describe, with one server per host; a silent
      program writes nothing, whether it starts or fails.
    - Server ([ServerBuild], [RpcServer]): which methods are served and that
      merging the namespaces does not fail; what a request can change: the
      answer is the one of the node, the sidecar or the log filter, and a
      refused method changes nothing.
    - Errors ([ErrorDefs], [Errors], [NodeErrors]): an error is identified by its
      code, packing keeps it, and its documentation is found.
    - Shown to the user ([Traces], [TraceDecode], [Diagnostics], [Notices] and
      the others): the arena is the tree of calls, filtering keeps what the
      verbosity asks for, decoding and rendering change no structure, balance
      changes are those of the transfers, which reports follow a transaction,
      and calldata round trips.

    ** Fuel and bounds

    Loops that are not structural have fuel, and it is proved to be enough:
    [take_loop] of the pool has one unit per transaction, [drain] of the sealer
    one more than the messages in the channel, [immediate_poll] two passes, the
    search for the gas limit [SEARCH_FUEL] = 65 halvings of a 64-bit range.
    The recursions over an arena ([filter_node_recursively], [write_node],
    [read_tree]) have a unit per node, of which a path takes one per level.  The
    tasks of the node have no fuel: [work_left] bounds their steps.  The
    periodic dumper needs two rounds of its loop, the wait for the L1
    [WAIT_FUEL] = 122 rounds of half a second in a minute, and a request to the
    batch thread at most nine steps.  Decimal numbers print with 78 digits,
    enough for 256 bits.  The archive keeps 129 states, the node 100 snapshots.

    ** What is not modelled

    The VM, the remote network and the libraries above are arguments.  Left out
    of the repository's own code are: the unit tests and the crates that are
    tests ([e2e-tests-rust], [spec-tests], [core/src/testing.rs], the mocks of
    [fork.rs] and [in_memory.rs]); the progress bars; the BoojumOS VM
    ([boojumos.rs]) and the tracers whose every method is [todo!()] or empty;
    [console/src/console_log.rs] and [core/src/node/call_error_tracer.rs], which
    belong to no module; the build scripts; the conversions between error types
    that [zksync_error] generates for every component alike; [Debug] and [Clone]
    implementations; wakers, and locks beyond what is said above.  What could be
    added are further theorems about the definitions here. *)

From Stdlib Require Export ZArith Lia Sorted.
From stdpp Require Export base tactics numbers list option strings gmap.

#[global] Set Default Goal Selector "!".

Declare Scope node_scope.
Delimit Scope node_scope with node.

(** ** Machine integers

    Every Rust integer is a [Z]; the width is written out in the operation.
    [U64] and [U256] of the [primitive-types] crate are [Z] as well: their
    checked operations answer [None], their [as_*] conversions panic when the
    value does not fit. *)
Section Integers.
Local Open Scope Z_scope.

Definition u8_max : Z := 2 ^ 8 - 1.
Definition u16_max : Z := 2 ^ 16 - 1.
Definition u32_max : Z := 2 ^ 32 - 1.
Definition u64_max : Z := 2 ^ 64 - 1.
Definition u128_max : Z := 2 ^ 128 - 1.
Definition u256_max : Z := 2 ^ 256 - 1.
Definition i128_max : Z := 2 ^ 127 - 1.
Definition i128_min : Z := - 2 ^ 127.

(** The value ranges, as decidable predicates. *)
Definition is_u32 (x : Z) : Prop := 0 <= x <= u32_max.
Definition is_u64 (x : Z) : Prop := 0 <= x <= u64_max.
Definition is_u256 (x : Z) : Prop := 0 <= x <= u256_max.

(** [u64::saturating_add], [u64::saturating_sub] and
    [i128::saturating_sub]. *)
Definition saturating_add_u64 (a b : Z) : Z := Z.min (a + b) u64_max.
Definition saturating_sub_u64 (a b : Z) : Z := Z.max (a - b) 0.
Definition saturating_sub_i128 (a b : Z) : Z :=
  Z.max i128_min (Z.min (a - b) i128_max).

(** Plain [+], [-], [*] on [u32], [u64]: the release profile of the
    workspace has no overflow checks, so they wrap. *)
Definition wrapping_add_u64 (a b : Z) : Z := (a + b) mod 2 ^ 64.
Definition wrapping_sub_u64 (a b : Z) : Z := (a - b) mod 2 ^ 64.
Definition wrapping_mul_u64 (a b : Z) : Z := (a * b) mod 2 ^ 64.
Definition wrapping_add_u32 (a b : Z) : Z := (a + b) mod 2 ^ 32.

(** [x as u16], [x as u32]: truncation. *)
Definition as_u16 (x : Z) : Z := x mod 2 ^ 16.
Definition as_u32 (x : Z) : Z := x mod 2 ^ 32.

(** [U256::checked_add]; the operator [+] of [U256] panics instead. *)
Definition checked_add_u256 (a b : Z) : option Z :=
  if a + b <=? u256_max then Some (a + b) else None.
Definition checked_mul_u256 (a b : Z) : option Z :=
  if a * b <=? u256_max then Some (a * b) else None.

(** [U256::overflowing_add(..).0]. *)
Definition overflowing_add_u256 (a b : Z) : Z := (a + b) mod 2 ^ 256.

Lemma saturating_add_u64_le a b : 0 <= b -> a <= u64_max -> a <= saturating_add_u64 a b.
Proof. unfold saturating_add_u64; lia. Qed.

Lemma saturating_add_u64_range a b :
  is_u64 a -> is_u64 b -> is_u64 (saturating_add_u64 a b).
Proof. unfold is_u64, saturating_add_u64; lia. Qed.

Lemma saturating_add_u64_lt a b :
  0 < b -> a < u64_max -> a < saturating_add_u64 a b.
Proof. unfold saturating_add_u64; lia. Qed.

Lemma wrapping_add_u64_range a b : is_u64 (wrapping_add_u64 a b).
Proof.
  unfold is_u64, wrapping_add_u64, u64_max.
  pose proof (Z.mod_pos_bound (a + b) (2 ^ 64)); lia.
Qed.

Lemma as_u32_small x : is_u32 x -> as_u32 x = x.
Proof. unfold is_u32, as_u32, u32_max; intros; apply Z.mod_small; lia. Qed.

Lemma wrapping_add_u32_small a b :
  0 <= a + b <= u32_max -> wrapping_add_u32 a b = a + b.
Proof. unfold wrapping_add_u32, u32_max; intros; apply Z.mod_small; lia. Qed.

Lemma wrapping_add_u64_small a b :
  0 <= a + b <= u64_max -> wrapping_add_u64 a b = a + b.
Proof. unfold wrapping_add_u64, u64_max; intros; apply Z.mod_small; lia. Qed.
End Integers.

(** ** Results and effectful operations

    [result] is Rust's [Result].  An operation that may also change state,
    fail with [?] or panic is a function [M S E A] from a state to an
    [outcome]: it returns ([Ret]), stops with an error that the caller sees
    ([Throw], the changes made so far are kept, as in Rust), unwinds ([Panic],
    with the message of the [panic!], [expect] or [unwrap] site), or waits for
    ever on a lock that is never released ([Deadlock]). *)
Inductive result (A E : Type) :=
| Ok (a : A)
| Err (e : E).
Arguments Ok {_ _} _.
Arguments Err {_ _} _.

Definition ok_or {A E} (o : option A) (e : E) : result A E :=
  match o with Some a => Ok a | None => Err e end.

Inductive outcome (S E A : Type) :=
| Ret (a : A) (s : S)
| Throw (e : E) (s : S)
| Panic (msg : string)
| Deadlock.
Arguments Ret {_ _ _} _ _.
Arguments Throw {_ _ _} _ _.
Arguments Panic {_ _ _} _.
Arguments Deadlock {_ _ _}.

Definition M (S E A : Type) : Type := S → outcome S E A.

Section Monad.
Context {S E : Type}.

#[global] Instance M_ret : MRet (M S E) := λ A a s, Ret a s.

#[global] Instance M_bind : MBind (M S E) := λ A B f m s,
  match m s with
  | Ret a s' => f a s'
  | Throw e s' => Throw e s'
  | Panic msg => Panic msg
  | Deadlock => Deadlock
  end.

Definition throw {A} (e : E) : M S E A := λ s, Throw e s.
Definition panic {A} (msg : string) : M S E A := λ _, Panic msg.
Definition deadlock {A} : M S E A := λ _, Deadlock.
Definition gets {A} (f : S → A) : M S E A := λ s, Ret (f s) s.
Definition modify (f : S → S) : M S E unit := λ s, Ret tt (f s).

(** [opt.expect(msg)] *)
Definition expect {A} (msg : string) (o : option A) : M S E A :=
  match o with Some a => mret a | None => panic msg end.

(** [opt.ok_or(e)?] *)
Definition try_option {A} (e : E) (o : option A) : M S E A :=
  match o with Some a => mret a | None => throw e end.

(** [res?] *)
Definition try_result {A} (r : result A E) : M S E A :=
  match r with Ok a => mret a | Err e => throw e end.

(** [let result = async { .. }.await;]: the error becomes a value. *)
Definition capture {E' A} (m : M S E A) : M S E' (result A E) := λ s,
  match m s with
  | Ret a s' => Ret (Ok a) s'
  | Throw e s' => Ret (Err e) s'
  | Panic msg => Panic msg
  | Deadlock => Deadlock
  end.

(** The state an outcome leaves behind, when it leaves one. *)
Definition final_state {A} (o : outcome S E A) : option S :=
  match o with
  | Ret _ s | Throw _ s => Some s
  | Panic _ | Deadlock => None
  end.

(** [Returns m s a s']: [m] run in [s] returns [a] and leaves [s']. *)
Definition Returns {A} (m : M S E A) (s : S) (a : A) (s' : S) : Prop :=
  m s = Ret a s'.
End Monad.

(** Running an operation of a part of the state. *)
Definition zoom {S T E A} (get : S → T) (set : T → S → S) (m : M T E A) : M S E A :=
  λ s, match m (get s) with
       | Ret a t => Ret a (set t s)
       | Throw e t => Throw e (set t s)
       | Panic msg => Panic msg
       | Deadlock => Deadlock
       end.

(** [res.map_err(f)] *)
Definition map_err {S E E' A} (f : E → E') (m : M S E A) : M S E' A := λ s,
  match m s with
  | Ret a s' => Ret a s'
  | Throw e s' => Throw (f e) s'
  | Panic msg => Panic msg
  | Deadlock => Deadlock
  end.

(** A loop [for x in xs { body(x)?; }]. *)
Fixpoint for_each {S E A} (body : A → M S E unit) (xs : list A) : M S E unit :=
  match xs with
  | [] => mret tt
  | x :: xs => body x;; for_each body xs
  end.

(** [iter.map(f).collect::<Result<Vec<_>, _>>()] and the loops that push one
    result per element. *)
Fixpoint map_m {S E A B} (f : A → M S E B) (xs : list A) : M S E (list B) :=
  match xs with
  | [] => mret []
  | x :: xs => y ← f x; ys ← map_m f xs; mret (y :: ys)
  end.

Section MonadLemmas.
Context {S E : Type}.

Lemma bind_Ret {A B} (m : M S E A) (f : A → M S E B) s b s' :
  (m ≫= f) s = Ret b s' ↔ ∃ a s1, m s = Ret a s1 ∧ f a s1 = Ret b s'.
Proof.
  unfold mbind, M_bind; destruct (m s) eqn:E1; split;
    try (intros; discriminate); try (intros (?&?&?&?); discriminate).
  - intros; eauto.
  - intros (a'&s1&[= <- <-]&?); done.
Qed.

Lemma bind_Throw {A B} (m : M S E A) (f : A → M S E B) s e s' :
  (m ≫= f) s = Throw e s' ↔
  m s = Throw e s' ∨ ∃ a s1, m s = Ret a s1 ∧ f a s1 = Throw e s'.
Proof.
  unfold mbind, M_bind; destruct (m s) eqn:E1; naive_solver.
Qed.

Lemma bind_run {A B} (m : M S E A) (f : A → M S E B) s a s1 :
  m s = Ret a s1 → (m ≫= f) s = f a s1.
Proof. intros H; unfold mbind, M_bind; by rewrite H. Qed.

Lemma map_m_ret {A B} (f : A → M S E B) (g : A → B) xs s :
  (∀ x, x ∈ xs → f x s = Ret (g x) s) → map_m f xs s = Ret (g <$> xs) s.
Proof.
  induction xs as [|x xs IH]; intros H; [done|]. cbn [map_m fmap list_fmap].
  erewrite bind_run; [|by apply H; left]. erewrite bind_run; [done|].
  apply IH. intros y Hy. apply H. by right.
Qed.

Lemma map_m_length {A B} (f : A → M S E B) xs s ys s' :
  map_m f xs s = Ret ys s' → length ys = length xs.
Proof.
  revert s ys s'; induction xs as [|x xs IH]; intros s ys s' H; simpl in *.
  { by injection H as <- _. }
  apply bind_Ret in H as (y&s1&_&H); apply bind_Ret in H as (ys'&s2&H&Hr).
  injection Hr as <- _; simpl; f_equal; eauto.
Qed.

(** An invariant kept by each step of a loop is kept by the loop. *)
Lemma for_each_invariant {A} (body : A → M S E unit) (I : S → Prop) xs s u s' :
  (∀ x s u s', x ∈ xs → I s → body x s = Ret u s' → I s') →
  I s → for_each body xs s = Ret u s' → I s'.
Proof.
  revert s; induction xs as [|x xs IH]; intros s Hstep HI H; simpl in *.
  { by injection H as _ <-. }
  apply bind_Ret in H as ([]&s1&H1&H2).
  eapply IH; [|eapply (Hstep x); [left|exact HI|exact H1]|exact H2].
  intros; eapply Hstep; eauto; by right.
Qed.
End MonadLemmas.

(** Operations that return or panic, and do neither fail nor block. *)
Section NoThrow.
Context {S E : Type}.

Definition no_throw {A} (m : M S E A) : Prop :=
  ∀ s, (∃ a s', m s = Ret a s') ∨ (∃ msg, m s = Panic msg).

Lemma no_throw_ret {A} (a : A) : no_throw (mret a).
Proof. left; by eexists _, _. Qed.
Lemma no_throw_panic {A} msg : no_throw (panic (A := A) msg).
Proof. right; by eexists. Qed.
Lemma no_throw_gets {A} (f : S → A) : no_throw (gets f).
Proof. left; by eexists _, _. Qed.
Lemma no_throw_modify f : no_throw (modify f).
Proof. left; by eexists _, _. Qed.
Lemma no_throw_expect {A} msg (o : option A) : no_throw (expect msg o).
Proof. destruct o; [apply no_throw_ret|apply no_throw_panic]. Qed.
Lemma no_throw_bind {A B} (m : M S E A) (f : A → M S E B) :
  no_throw m → (∀ a, no_throw (f a)) → no_throw (m ≫= f).
Proof.
  intros Hm Hf s. unfold mbind, M_bind.
  destruct (Hm s) as [(a&s'&->)|(msg&->)]; [apply Hf|right; eauto].
Qed.
End NoThrow.

(** ** Automation

    [run_m] evaluates the monadic plumbing of a goal; [inv_m H] takes apart a
    hypothesis [(x ← m; k) s = Ret a s']. *)
Ltac run_m :=
  cbv [mbind mret M_bind M_ret throw panic gets modify expect try_option
       try_result capture zoom Returns final_state] in *; simpl in *.

Ltac inv_m H :=
  match type of H with
  | (_ ≫= _) _ = Ret _ _ =>
      let a := fresh "a" in let s := fresh "s" in
      let H1 := fresh H in let H2 := fresh H in
      apply bind_Ret in H as (a & s & H1 & H2)
  end.

(** One step of a run: [tac] evaluates the operation in front. *)
Ltac step_m tac := erewrite bind_run; [cbv beta|tac].

(** Case analysis on every [if] and [match] of the goal, closing the branches
    that arithmetic or the constructors rule out. *)
Ltac case_matches :=
  repeat (case_match; simplify_eq/=; try done; try lia).

(** Boolean comparisons as propositions. *)
Ltac zbool :=
  repeat match goal with
  | H : (_ <? _)%Z = true |- _ => apply Z.ltb_lt in H
  | H : (_ <? _)%Z = false |- _ => apply Z.ltb_ge in H
  | H : (_ <=? _)%Z = true |- _ => apply Z.leb_le in H
  | H : (_ <=? _)%Z = false |- _ => apply Z.leb_gt in H
  | H : (_ =? _)%Z = true |- _ => apply Z.eqb_eq in H
  | H : (_ =? _)%Z = false |- _ => apply Z.eqb_neq in H
  end.

Create HintDb node discriminated.
#[export] Hint Resolve no_throw_ret no_throw_panic no_throw_gets no_throw_modify no_throw_expect
  no_throw_bind : node.
#[export] Hint Resolve saturating_add_u64_range saturating_add_u64_le
  wrapping_add_u64_range : node.

(** ** Lists, options and maps *)
Section Generic.
(** [slice.iter().enumerate()] *)
Definition enumerate {A} (l : list A) : list (nat * A) := imap (λ i x, (i, x)) l.

Lemma length_enumerate {A} (l : list A) : length (enumerate l) = length l.
Proof. apply length_imap. Qed.

Lemma lookup_enumerate {A} (l : list A) i :
  enumerate l !! i = (λ x, (i, x)) <$> l !! i.
Proof. unfold enumerate; by rewrite list_lookup_imap. Qed.

Lemma elem_of_rev {A} (x : A) (l : list A) : x ∈ rev l ↔ x ∈ l.
Proof. by rewrite !list_elem_of_In, <-in_rev. Qed.

Lemma StronglySorted_snoc {A} (R : A → A → Prop) l x :
  StronglySorted R l → Forall (λ y, R y x) l → StronglySorted R (l ++ [x]).
Proof.
  induction 1 as [|y l Hs IH Hy]; simpl; [repeat constructor|].
  intros [? ?]%Forall_cons. constructor; [by apply IH|].
  apply Forall_app; split; [done|by constructor].
Qed.

Lemma StronglySorted_rev {A} (R : A → A → Prop) l :
  StronglySorted R l → StronglySorted (λ a b, R b a) (rev l).
Proof.
  induction 1 as [|y l Hs IH Hy]; simpl; [constructor|].
  apply StronglySorted_snoc; [done|]. apply List.Forall_rev. exact Hy.
Qed.

(** [map.extend(pairs)]: later pairs win. *)
Definition extend {K V} `{Countable K} (m : gmap K V) (l : list (K * V)) : gmap K V :=
  foldl (λ m kv, <[kv.1 := kv.2]> m) m l.

Lemma extend_app {K V} `{Countable K} (m : gmap K V) l1 l2 :
  extend m (l1 ++ l2) = extend (extend m l1) l2.
Proof. apply foldl_app. Qed.

Lemma lookup_extend_notin {K V} `{Countable K} (m : gmap K V) l k :
  k ∉ l.*1 → extend m l !! k = m !! k.
Proof.
  revert m; induction l as [|[k' v'] l IH]; intros m Hk; csimpl in *; [done|].
  apply not_elem_of_cons in Hk as [Hne Hk].
  unfold extend in *; simpl. rewrite IH by done. by rewrite lookup_insert_ne.
Qed.

Lemma lookup_extend_in {K V} `{Countable K} (m : gmap K V) l k v :
  NoDup l.*1 → (k, v) ∈ l → extend m l !! k = Some v.
Proof.
  revert m; induction l as [|[k' v'] l IH]; intros m Hnd Hin; csimpl in *.
  { by apply elem_of_nil in Hin. }
  apply NoDup_cons in Hnd as [Hni Hnd].
  apply elem_of_cons in Hin as [[= -> ->]|Hin].
  - unfold extend; simpl. fold (extend (<[k':=v']> m) l).
    rewrite lookup_extend_notin by done. by rewrite lookup_insert_eq.
  - by apply IH.
Qed.

(** Extending with all the pairs of a map is the left-biased union. *)
Lemma extend_map_to_list {K V} `{Countable K} (m m' : gmap K V) :
  extend m (map_to_list m') = m' ∪ m.
Proof.
  apply map_eq; intros k. destruct (m' !! k) as [v|] eqn:Hk.
  - rewrite (lookup_union_Some_l _ _ _ v Hk).
    apply lookup_extend_in; [apply NoDup_fst_map_to_list|].
    by apply elem_of_map_to_list.
  - rewrite lookup_union_r by done. apply lookup_extend_notin.
    intros ([k' v]&->&Hin)%list_elem_of_fmap.
    apply elem_of_map_to_list in Hin; simpl in *; congruence.
Qed.
End Generic.

(** ** Fixed-width big-endian words *)
Section BigEndian.
Local Open Scope Z_scope.

(** The [n] bytes of a word, most significant first, and back. *)
Fixpoint be_bytes (n : nat) (x : Z) : list Z :=
  match n with
  | O => []
  | S n => (x / 256 ^ Z.of_nat n) mod 256 :: be_bytes n x
  end.

Definition of_be_bytes (bs : list Z) : Z := foldl (λ acc b, acc * 256 + b) 0 bs.

Definition is_byte (b : Z) : Prop := 0 <= b < 256.

Lemma length_be_bytes n x : length (be_bytes n x) = n.
Proof. induction n; simpl; congruence. Qed.

Lemma be_bytes_range n x : Forall is_byte (be_bytes n x).
Proof. induction n; constructor; [apply Z.mod_pos_bound; lia|done]. Qed.

Lemma foldl_be acc bs :
  foldl (λ acc b, acc * 256 + b) acc bs = acc * 256 ^ Z.of_nat (length bs) + of_be_bytes bs.
Proof.
  unfold of_be_bytes. revert acc. induction bs as [|b bs IH]; intros acc; [simpl; lia|].
  cbn [foldl length]. rewrite IH, (IH (0 * 256 + b)), Nat2Z.inj_succ, Z.pow_succ_r by lia. lia.
Qed.

Lemma of_be_bytes_cons b bs :
  of_be_bytes (b :: bs) = b * 256 ^ Z.of_nat (length bs) + of_be_bytes bs.
Proof. unfold of_be_bytes at 1. cbn [foldl]. by rewrite foldl_be. Qed.

Lemma of_be_bytes_range bs :
  Forall is_byte bs → 0 <= of_be_bytes bs < 256 ^ Z.of_nat (length bs).
Proof.
  induction 1 as [|b bs Hb _ IH]; [done|]. unfold is_byte in Hb.
  rewrite of_be_bytes_cons. cbn [length]. rewrite Nat2Z.inj_succ, Z.pow_succ_r by lia. nia.
Qed.

Lemma of_be_bytes_be_bytes n x : of_be_bytes (be_bytes n x) = x mod 256 ^ Z.of_nat n.
Proof.
  induction n as [|n IH]; [by rewrite Z.mod_1_r|]. cbn [be_bytes].
  rewrite of_be_bytes_cons, length_be_bytes, IH, Nat2Z.inj_succ, Z.pow_succ_r by lia.
  rewrite (Z.mul_comm 256 (256 ^ _)), Z.rem_mul_r by lia. lia.
Qed.

Lemma be_bytes_add n a x : be_bytes n (a * 256 ^ Z.of_nat n + x) = be_bytes n x.
Proof.
  assert (H : ∀ m, (m <= n)%nat → be_bytes m (a * 256 ^ Z.of_nat n + x) = be_bytes m x).
  { induction m as [|m IH]; intros Hm; simpl; [done|]. rewrite IH by lia. f_equal.
    replace (256 ^ Z.of_nat n) with (256 ^ (Z.of_nat n - Z.of_nat m - 1) * 256 * 256 ^ Z.of_nat m).
    2: { rewrite <-Z.mul_assoc, <-Z.pow_succ_r, <-Z.pow_add_r by lia. f_equal; lia. }
    rewrite Z.mul_assoc, Z.div_add_l by lia.
    rewrite Z.mul_assoc, Z.add_comm, Z.mod_add by lia. done. }
  by apply H.
Qed.

Lemma be_bytes_of_be_bytes bs : Forall is_byte bs → be_bytes (length bs) (of_be_bytes bs) = bs.
Proof.
  induction 1 as [|b bs Hb Hbs IH]; [done|]. cbn [length be_bytes].
  rewrite of_be_bytes_cons. rewrite be_bytes_add, IH. f_equal.
  rewrite Z.div_add_l by lia. pose proof (of_be_bytes_range bs Hbs).
  rewrite (Z.div_small (of_be_bytes bs)) by lia. rewrite Z.add_0_r. by apply Z.mod_small.
Qed.
End BigEndian.
