(* ===== verification/Types.v ===== *)
(** * Data of the node

    The types of the [zksync_types], [zksync_web3_decl] and [zksync_multivm]
    crates that the node stores and passes around, with the fields its code
    reads or writes, and the classes that stand for the functions of those
    crates that the node calls.

    Hashes, addresses and the fixed-width words of these crates are [Z]: an
    [H256] is the big-endian value of its 32 bytes, so that [u256_to_h256] and
    [h256_to_u256] are the identity on values, and a byte string is the list
    of its byte values. *)
From S2P Require Import Prelude.
From Stdlib Require Import SpecFloat.

Abbreviation H256 := Z.
Abbreviation Address := Z.
Abbreviation Bytes := (list Z).
(** [StorageKey]: an account and a slot of it. *)
Abbreviation StorageKey := (Z * Z)%type.
Abbreviation StorageValue := Z.

(** ** Block identifiers *)
Inductive BlockNumber :=
| Committed
| Finalized
| Latest
| L1Committed
| Earliest
| Pending
| Number (n : Z).

Inductive BlockId :=
| IdHash (hash : H256)
| IdNumber (number : BlockNumber).

Inductive BlockIdVariant :=
| VariantNumber (block_number : BlockNumber)
| VariantNumberObject (block_number : BlockNumber)
| VariantHashObject (block_hash : H256).

#[global] Instance BlockNumber_eq_dec : EqDecision BlockNumber.
Proof. solve_decision. Defined.
#[global] Instance BlockId_eq_dec : EqDecision BlockId.
Proof. solve_decision. Defined.

(** ** Logs and receipts *)
Record Log := mkLog {
  log_address : Address;
  log_topics : list H256;
  log_data : Bytes;
  log_block_hash : option H256;
  log_block_number : option Z;
  log_l1_batch_number : option Z;
  log_transaction_hash : option H256;
  log_transaction_index : option Z;
  log_log_index : option Z;
  log_transaction_log_index : option Z;
  log_log_type : option string;
  log_removed : option bool;
  log_block_timestamp : option Z;
}.

#[global] Instance Log_eq_dec : EqDecision Log.
Proof. solve_decision. Defined.

(** The VM's own L2-to-L1 log (the contents of [UserL2ToL1Log] and of
    [SystemL2ToL1Log]) and the API's rendering. *)
Record UserL2ToL1Log := mkUserLog {
  ul_shard_id : Z;
  ul_is_service : bool;
  ul_tx_number_in_block : Z;
  ul_sender : Address;
  ul_key : H256;
  ul_value : H256;
}.

Record L2ToL1Log := mkL2ToL1Log {
  l2l1_block_hash : option H256;
  l2l1_block_number : Z;
  l2l1_l1_batch_number : option Z;
  l2l1_log_index : Z;
  l2l1_transaction_index : Z;
  l2l1_transaction_hash : H256;
  l2l1_transaction_log_index : Z;
  l2l1_tx_index_in_l1_batch : option Z;
  l2l1_shard_id : Z;
  l2l1_is_service : bool;
  l2l1_sender : Address;
  l2l1_key : H256;
  l2l1_value : H256;
}.

Record TransactionReceipt := mkReceipt {
  rc_transaction_hash : H256;
  rc_transaction_index : Z;
  rc_block_hash : H256;
  rc_block_number : Z;
  rc_l1_batch_tx_index : option Z;
  rc_l1_batch_number : option Z;
  rc_from : Address;
  rc_to : option Address;
  rc_cumulative_gas_used : Z;
  rc_gas_used : option Z;
  rc_contract_address : option Address;
  rc_logs : list Log;
  rc_l2_to_l1_logs : list L2ToL1Log;
  rc_status : Z;
  rc_effective_gas_price : option Z;
  rc_transaction_type : option Z;
  rc_logs_bloom : Z;
}.

(** ** Call traces *)
Inductive FarCallOpcode := FarNormal | FarDelegate | FarMimic.
Inductive CallType := CallKind (opcode : FarCallOpcode) | CreateKind | NearCallKind.
Inductive DebugCallType := DebugTypeCall | DebugTypeCreate.

Inductive Call := mkCall
  (c_type : CallType) (c_from c_to : Address) (c_gas c_gas_used c_value : Z)
  (c_input c_output : Bytes) (c_error c_revert_reason : option string)
  (c_calls : list Call).

Inductive DebugCall := mkDebugCall
  (dc_type : DebugCallType) (dc_from dc_to : Address) (dc_gas dc_gas_used dc_value : Z)
  (dc_output dc_input : Bytes) (dc_error dc_revert_reason : option string)
  (dc_calls : list DebugCall).

Definition dc_gas_used (d : DebugCall) : Z :=
  let (_, _, _, _, g, _, _, _, _, _, _) := d in g.
Definition dc_output (d : DebugCall) : Bytes :=
  let (_, _, _, _, _, _, o, _, _, _, _) := d in o.
Definition dc_revert_reason (d : DebugCall) : option string :=
  let (_, _, _, _, _, _, _, _, _, r, _) := d in r.
Definition dc_calls (d : DebugCall) : list DebugCall :=
  let (_, _, _, _, _, _, _, _, _, _, cs) := d in cs.

(** ** Transactions *)
Inductive TransactionType :=
| LegacyTransaction
| EIP2930Transaction
| EIP1559Transaction
| EIP712Transaction
| PriorityOpTransaction
| ProtocolUpgradeTransaction.

#[global] Instance TransactionType_eq_dec : EqDecision TransactionType.
Proof. solve_decision. Defined.

Record Fee := mkFee {
  gas_limit : Z;
  max_fee_per_gas : Z;
  max_priority_fee_per_gas : Z;
  gas_per_pubdata_limit : Z;
}.

Record L1TxCommonData := mkL1Data {
  l1_gas_limit : Z;
  l1_max_fee_per_gas : Z;
  l1_to_mint : Z;
  l1_onchain_data : Bytes;
}.

Record L2TxCommonData := mkL2Data {
  l2_nonce : Z;
  l2_fee : Fee;
  l2_initiator_address : Address;
  l2_signature : Bytes;
  l2_transaction_type : TransactionType;
  l2_input : option (H256 * Bytes);
}.

Record ProtocolUpgradeTxCommonData := mkUpgradeData {
  up_sender : Address;
  up_upgrade_id : Z;
  up_max_fee_per_gas : Z;
  up_gas_limit : Z;
  up_gas_per_pubdata_limit : Z;
  up_eth_block : Z;
  up_canonical_tx_hash : H256;
  up_to_mint : Z;
  up_refund_recipient : Address;
}.

Inductive ExecuteTransactionCommon :=
| L1 (data : L1TxCommonData)
| L2 (data : L2TxCommonData)
| ProtocolUpgrade (data : ProtocolUpgradeTxCommonData).

Record Execute := mkExecute {
  contract_address : option Address;
  calldata : Bytes;
  value : Z;
  factory_deps : list Bytes;
}.

Record Transaction := mkTransaction {
  common_data : ExecuteTransactionCommon;
  execute : Execute;
  received_timestamp_ms : Z;
  raw_bytes : option Bytes;
}.

#[global] Instance Fee_eq_dec : EqDecision Fee.
Proof. solve_decision. Defined.
#[global] Instance L1TxCommonData_eq_dec : EqDecision L1TxCommonData.
Proof. solve_decision. Defined.
#[global] Instance L2TxCommonData_eq_dec : EqDecision L2TxCommonData.
Proof. solve_decision. Defined.
#[global] Instance ProtocolUpgradeTxCommonData_eq_dec : EqDecision ProtocolUpgradeTxCommonData.
Proof. solve_decision. Defined.
#[global] Instance ExecuteTransactionCommon_eq_dec : EqDecision ExecuteTransactionCommon.
Proof. solve_decision. Defined.
#[global] Instance Execute_eq_dec : EqDecision Execute.
Proof. solve_decision. Defined.
#[global] Instance Transaction_eq_dec : EqDecision Transaction.
Proof. solve_decision. Defined.

(** The methods of [zksync_types::Transaction] the node calls. *)
Class TransactionApi := {
  tx_hash : Transaction → H256;
  initiator_account : Transaction → Address;
  recipient_account : Transaction → option Address;
  tx_gas_limit : Transaction → Z;
  tx_max_fee_per_gas : Transaction → Z;
  gas_per_pubdata_byte_limit : Transaction → Z;
  tx_format : Transaction → Z;
  encoding_len : Transaction → Z;
  payer : Transaction → Address;
  extract_chain_id : L2TxCommonData → option Z;
}.

(** The API's transaction. *)
Record ApiTransaction := mkApiTransaction {
  at_hash : H256;
  at_nonce : Z;
  at_block_hash : option H256;
  at_block_number : option Z;
  at_transaction_index : option Z;
  at_from : option Address;
  at_to : option Address;
  at_value : Z;
  at_gas_price : option Z;
  at_gas : Z;
  at_input : Bytes;
  at_v : option Z;
  at_r : option Z;
  at_s : option Z;
  at_y_parity : option Z;
  at_raw : option Bytes;
  at_transaction_type : option Z;
  at_max_fee_per_gas : option Z;
  at_max_priority_fee_per_gas : option Z;
  at_chain_id : Z;
  at_l1_batch_number : option Z;
  at_l1_batch_tx_index : option Z;
}.

Definition default_ApiTransaction : ApiTransaction :=
  mkApiTransaction 0 0 None None None None None 0 None 0 [] None None None None
    None None None None 0 None None.

Inductive TransactionVariant :=
| Full (tx : ApiTransaction)
| JustHash (hash : H256).

Definition variant_hash (v : TransactionVariant) : H256 :=
  match v with Full tx => at_hash tx | JustHash h => h end.

(** ** Blocks and batches *)
Record Block (TX : Type) := mkBlock {
  b_hash : H256;
  b_parent_hash : H256;
  b_uncles_hash : H256;
  b_number : Z;
  b_l1_batch_number : option Z;
  b_base_fee_per_gas : Z;
  b_timestamp : Z;
  b_l1_batch_timestamp : option Z;
  b_transactions : list TX;
  b_gas_used : Z;
  b_gas_limit : Z;
  b_logs_bloom : Z;
  b_author : Address;
  b_state_root : H256;
  b_transactions_root : H256;
  b_receipts_root : H256;
  b_extra_data : Bytes;
  b_difficulty : Z;
  b_total_difficulty : Z;
  b_seal_fields : list Bytes;
  b_uncles : list H256;
  b_size : Z;
  b_mix_hash : H256;
  b_nonce : Z;
}.
Arguments mkBlock {_}.
Arguments b_hash {_} _.
Arguments b_parent_hash {_} _.
Arguments b_uncles_hash {_} _.
Arguments b_number {_} _.
Arguments b_l1_batch_number {_} _.
Arguments b_base_fee_per_gas {_} _.
Arguments b_timestamp {_} _.
Arguments b_l1_batch_timestamp {_} _.
Arguments b_transactions {_} _.
Arguments b_gas_used {_} _.
Arguments b_gas_limit {_} _.
Arguments b_logs_bloom {_} _.
Arguments b_author {_} _.
Arguments b_state_root {_} _.
Arguments b_transactions_root {_} _.
Arguments b_receipts_root {_} _.
Arguments b_extra_data {_} _.
Arguments b_difficulty {_} _.
Arguments b_total_difficulty {_} _.
Arguments b_seal_fields {_} _.
Arguments b_uncles {_} _.
Arguments b_size {_} _.
Arguments b_mix_hash {_} _.
Arguments b_nonce {_} _.

(** [Block::with_transactions]: the same block over other transactions. *)
Definition with_transactions {A B} (txs : list B) (b : Block A) : Block B :=
  mkBlock (b_hash b) (b_parent_hash b) (b_uncles_hash b) (b_number b)
    (b_l1_batch_number b) (b_base_fee_per_gas b) (b_timestamp b)
    (b_l1_batch_timestamp b) txs (b_gas_used b) (b_gas_limit b) (b_logs_bloom b)
    (b_author b) (b_state_root b) (b_transactions_root b) (b_receipts_root b)
    (b_extra_data b) (b_difficulty b) (b_total_difficulty b) (b_seal_fields b)
    (b_uncles b) (b_size b) (b_mix_hash b) (b_nonce b).

Record PubdataIndependentInput := mkPubdataIndependent {
  pi_l1_gas_price : Z;
  pi_fair_l2_gas_price : Z;
  pi_fair_pubdata_price : Z;
}.

Inductive BatchFeeInput :=
| L1Pegged (l1_gas_price fair_l2_gas_price : Z)
| PubdataIndependent (input : PubdataIndependentInput).

Record L2BlockEnv := mkL2BlockEnv {
  lb_number : Z;
  lb_timestamp : Z;
  lb_prev_block_hash : H256;
  lb_max_virtual_blocks_to_create : Z;
}.

Record L1BatchEnv := mkL1BatchEnv {
  be_previous_batch_hash : option H256;
  be_number : Z;
  be_timestamp : Z;
  be_fee_input : BatchFeeInput;
  be_fee_account : Address;
  be_enforced_base_fee : option Z;
  be_first_l2_block : L2BlockEnv;
}.

Record BaseSystemContractsHashes := mkContractHashes {
  bootloader_hash : H256;
  default_aa_hash : H256;
  evm_emulator_hash : option H256;
}.

Record L1BatchHeader := mkBatchHeader {
  bh_number : Z;
  bh_timestamp : Z;
  bh_l1_tx_count : Z;
  bh_l2_tx_count : Z;
  bh_priority_ops_onchain_data : list Bytes;
  bh_l2_to_l1_logs : list UserL2ToL1Log;
  bh_l2_to_l1_messages : list Bytes;
  bh_used_contract_hashes : list Z;
  bh_base_system_contracts_hashes : BaseSystemContractsHashes;
  bh_system_logs : list H256;
  bh_protocol_version : option Z;
  bh_pubdata_input : option Bytes;
  bh_fee_address : Address;
}.

(** ** VM results

    The parts of [VmExecutionResultAndLogs] and [FinishedL1Batch] the node
    reads. A revert carries its encoded data and its display string; a halt
    its display string. *)
Record VmRevertReason := mkRevertReason {
  revert_encoded_data : Bytes;
  revert_display : string;
}.

Inductive ExecutionResult :=
| Success (output : Bytes)
| Revert (output : VmRevertReason)
| Halt (reason : string).

(** [ExecutionResult::is_failed]: a revert and a halt both fail. *)
Definition is_failed (r : ExecutionResult) : bool :=
  match r with Success _ => false | Revert _ | Halt _ => true end.

Record VmEvent := mkVmEvent {
  ev_address : Address;
  ev_indexed_topics : list H256;
  ev_value : Bytes;
}.

(** One entry of [logs.storage_logs]: is it a write, and to which key. *)
Record StorageLogQuery := mkStorageLogQuery {
  sl_is_write : bool;
  sl_key : StorageKey;
  sl_value : H256;
}.

Record VmResult := mkVmResult {
  vr_result : ExecutionResult;
  vr_storage_logs : list StorageLogQuery;
  vr_events : list VmEvent;
  vr_user_l2_to_l1_logs : list UserL2ToL1Log;
  vr_system_l2_to_l1_logs : list UserL2ToL1Log;
  vr_gas_used : Z;
  vr_computational_gas_used : Z;
  vr_pubdata_published : Z;
  vr_gas_refunded : Z;
  vr_dynamic_factory_deps : list (H256 * Bytes);
}.

Record FinishedL1Batch := mkFinishedBatch {
  fb_block_tip_execution_result : ExecutionResult;
  fb_events : list VmEvent;
  fb_user_l2_to_l1_logs : list UserL2ToL1Log;
  fb_system_logs : list H256;
  fb_used_contract_hashes : list Z;
  fb_pubdata_input : option Bytes;
  fb_state_diffs : option (list (Address * Z * Z * Z));
}.

(** ** Results of executed transactions ([in_memory.rs]) *)
Record TxExecutionInfo := mkTxExecutionInfo {
  info_tx : Transaction;
  info_batch_number : Z;
  info_miniblock_number : Z;
}.

Record TransactionResult := mkTransactionResult {
  tr_info : TxExecutionInfo;
  tr_new_bytecodes : list (H256 * Bytes);
  tr_receipt : TransactionReceipt;
  tr_debug : DebugCall;
}.

(** [TransactionResult::debug_info]: the debug call, with its sub-calls
    dropped when only the top-level call is asked for. *)
Definition debug_info (only_top : bool) (tr : TransactionResult) : DebugCall :=
  let 'mkDebugCall ty from to gas used value output input error reason calls := tr_debug tr in
  mkDebugCall ty from to gas used value output input error reason
    (if only_top then [] else calls).

(** [BlockContext] of [in_memory_inner.rs]. *)
Record BlockContext := mkBlockContext {
  bc_hash : H256;
  bc_batch : Z;
  bc_miniblock : Z;
  bc_timestamp : Z;
  bc_prev_block_hash : H256;
}.

Definition set_bc_hash (h : H256) (c : BlockContext) : BlockContext :=
  mkBlockContext h (bc_batch c) (bc_miniblock c) (bc_timestamp c) (bc_prev_block_hash c).

(** ** Details reported by the [zks] API *)
Inductive BlockStatus := Sealed | Verified.

Record BlockDetails := mkBlockDetails {
  bd_number : Z;
  bd_l1_batch_number : Z;
  bd_timestamp : Z;
  bd_l1_tx_count : Z;
  bd_l2_tx_count : Z;
  bd_root_hash : option H256;
  bd_status : BlockStatus;
  bd_commit_tx_hash : option H256;
  bd_committed_at : option Z;
  bd_prove_tx_hash : option H256;
  bd_proven_at : option Z;
  bd_execute_tx_hash : option H256;
  bd_executed_at : option Z;
  bd_l1_gas_price : Z;
  bd_l2_fair_gas_price : Z;
  bd_fair_pubdata_price : option Z;
  bd_base_system_contracts_hashes : BaseSystemContractsHashes;
  bd_operator_address : Address;
  bd_protocol_version : option Z;
}.

Inductive TransactionStatus := StatusPending | StatusIncluded | StatusVerified | StatusFailed.

Record TransactionDetails := mkTxDetails {
  td_is_l1_originated : bool;
  td_status : TransactionStatus;
  td_fee : Z;
  td_gas_per_pubdata : Z;
  td_initiator_address : Address;
  td_received_at : Z * Z;
  td_eth_commit_tx_hash : option H256;
  td_eth_prove_tx_hash : option H256;
  td_eth_execute_tx_hash : option H256;
}.

Record BridgeAddresses := mkBridgeAddresses {
  l1_shared_default_bridge : option Address;
  l2_shared_default_bridge : option Address;
  l1_erc20_default_bridge : option Address;
  l2_erc20_default_bridge : option Address;
  l1_weth_bridge : option Address;
  l2_weth_bridge : option Address;
  l2_legacy_shared_bridge : option Address;
}.

Record Token := mkToken {
  tok_l1_address : Address;
  tok_l2_address : Address;
  tok_name : string;
  tok_symbol : string;
  tok_decimals : Z;
}.

(** ** Fee parameters

    The fee model of [zksync_types]: its configuration record, and the
    functions of the crate the node calls.  An [f64] or [f32] is a
    [spec_float]. *)
Abbreviation f64 := spec_float.
Abbreviation f32 := spec_float.

Definition f64_zero : f64 := S754_zero false.
Definition f64_one : f64 := S754_finite false 4503599627370496 (-52).

Record FeeModelConfigV2 := mkFeeModelConfig {
  minimal_l2_gas_price : Z;
  compute_overhead_part : f64;
  pubdata_overhead_part : f64;
  batch_overhead_l1_gas : Z;
  max_gas_per_batch : Z;
  max_pubdata_per_batch : Z;
}.

(** [BaseTokenConversionRatio]; both parts are non-zero [u64]s. *)
Record BaseTokenConversionRatio := mkRatio {
  numerator : Z;
  denominator : Z;
}.
Definition default_ratio : BaseTokenConversionRatio := mkRatio 1 1.

Inductive FeeParams (P1 P2 : Type) :=
| ParamsV1 (p : P1)
| ParamsV2 (p : P2).
Arguments ParamsV1 {_ _} _.
Arguments ParamsV2 {_ _} _.

Class FeeApi := {
  FeeParamsV1 : Type;
  FeeParamsV2 : Type;
  FeeParamsV2_new : FeeModelConfigV2 → Z → Z → BaseTokenConversionRatio → FeeParamsV2;
  v2_config : FeeParamsV2 → FeeModelConfigV2;
  v2_l1_gas_price : FeeParamsV2 → Z;
  v2_l1_pubdata_price : FeeParamsV2 → Z;
  fee_params_scale : FeeParams FeeParamsV1 FeeParamsV2 → f64 → f64 → BatchFeeInput;
  into_pubdata_independent : BatchFeeInput → PubdataIndependentInput;
  input_fair_pubdata_price : BatchFeeInput → Z;
  input_fair_l2_gas_price : BatchFeeInput → Z;
  (** [derive_base_fee_and_gas_per_pubdata] for the latest VM version. *)
  derive_base_fee_and_gas_per_pubdata : BatchFeeInput → Z * Z;
}.

(** ** Concrete parameters

    An instance of [TransactionApi] that computes, on which the theorems can
    be evaluated: the hash of a sample transaction is the number in its raw
    bytes, the other methods read the obvious fields. *)
Module Sample.
Definition api : TransactionApi := {|
  tx_hash tx := match raw_bytes tx with Some (h :: _) => h | _ => 0%Z end;
  initiator_account tx :=
    match common_data tx with L2 d => l2_initiator_address d | _ => 0%Z end;
  recipient_account tx := contract_address (execute tx);
  tx_gas_limit tx :=
    match common_data tx with
    | L1 d => l1_gas_limit d | L2 d => gas_limit (l2_fee d) | ProtocolUpgrade _ => 0%Z end;
  tx_max_fee_per_gas tx :=
    match common_data tx with
    | L1 d => l1_max_fee_per_gas d | L2 d => max_fee_per_gas (l2_fee d) | ProtocolUpgrade _ => 0%Z end;
  gas_per_pubdata_byte_limit tx :=
    match common_data tx with L2 d => gas_per_pubdata_limit (l2_fee d) | _ => 800%Z end;
  tx_format tx :=
    match common_data tx with L1 _ => 255%Z | L2 _ => 2%Z | ProtocolUpgrade _ => 254%Z end;
  encoding_len tx := Z.of_nat (length (calldata (execute tx)));
  payer tx :=
    match common_data tx with L2 d => l2_initiator_address d | _ => 0%Z end;
  extract_chain_id _ := Some 260%Z;
|}.

(** An L2 transaction with a hash, a sender and a gas price. *)
Definition l2 (hash from price : Z) : Transaction :=
  mkTransaction
    (L2 (mkL2Data 0 (mkFee 100000 price 0 800) from [] EIP1559Transaction (Some (hash, []))))
    (mkExecute (Some 77%Z) [] 0 []) 0 (Some [hash]).

Definition fee : FeeApi := {|
  FeeParamsV1 := unit;
  FeeParamsV2 := FeeModelConfigV2 * (Z * Z) * BaseTokenConversionRatio;
  FeeParamsV2_new config l1 pubdata ratio := (config, (l1, pubdata), ratio);
  v2_config p := p.1.1;
  v2_l1_gas_price p := p.1.2.1;
  v2_l1_pubdata_price p := p.1.2.2;
  fee_params_scale p _ _ :=
    match p with
    | ParamsV1 _ => L1Pegged 0 0
    | ParamsV2 p =>
        PubdataIndependent
          (mkPubdataIndependent p.1.2.1 (minimal_l2_gas_price p.1.1) p.1.2.2)
    end;
  into_pubdata_independent i :=
    match i with
    | L1Pegged l1 l2 => mkPubdataIndependent l1 l2 (l1 * 17)
    | PubdataIndependent i => i
    end;
  input_fair_pubdata_price i :=
    match i with L1Pegged l1 _ => (l1 * 17)%Z | PubdataIndependent i => pi_fair_pubdata_price i end;
  input_fair_l2_gas_price i :=
    match i with L1Pegged _ l2 => l2 | PubdataIndependent i => pi_fair_l2_gas_price i end;
  derive_base_fee_and_gas_per_pubdata i :=
    match i with
    | L1Pegged _ l2 => (l2, 1%Z)
    | PubdataIndependent i => (pi_fair_l2_gas_price i, 1%Z)
    end;
|}.
End Sample.
