(* ===== verification/Utils.v ===== *)
(** * Utilities

    [crates/core/src/utils.rs]: block tags, grouping of digits, debug output
    of a transaction, splitting of millisecond timestamps. *)
From S2P Require Import Prelude Types.
From Stdlib Require Import Ascii.
Local Open Scope Z_scope.

(** [to_real_block_number] *)
Definition to_real_block_number (block_number : BlockNumber) (latest_block_number : Z) : Z :=
  match block_number with
  | Finalized | Pending | Committed | L1Committed | Latest => latest_block_number
  | Earliest => 0
  | Number n => n
  end.

(** [utc_datetime_from_epoch_ms]: the seconds and nanoseconds handed to
    [DateTime::from_timestamp]. *)
Definition utc_datetime_from_epoch_ms (millis : Z) : Z * Z :=
  let secs := millis / 1000 in
  let nanos := (millis mod 1000) * 1000000 in
  (secs, nanos).

(** ** Digit grouping ([to_human_size]) *)
Section HumanSize.
(** [format!("{:?}", input)] prints a [U256] in decimal; the digits, most
    significant first. *)
Fixpoint digits_rev (fuel : nat) (n : Z) : list Z :=
  match fuel with
  | O => []
  | S fuel => if n <? 10 then [n] else (n mod 10) :: digits_rev fuel (n / 10)
  end.

Definition digit_char (d : Z) : ascii := ascii_of_nat (48 + Z.to_nat d).

(** 78 digits hold every [U256]. *)
Definition decimal (n : Z) : list ascii := digit_char <$> rev (digits_rev 78 n).

Definition underscore : ascii := "_"%char.

(** The closure of the [flat_map]: an underscore before every third
    character counted from the right. *)
Definition group_step (iv : nat * ascii) : list ascii :=
  let (index, val) := iv in
  if (0 <? index)%nat && (index mod 3 =? 0)%nat then [underscore; val] else [val].

Definition to_human_size (input : Z) : list ascii :=
  let tmp := mjoin (group_step <$> enumerate (rev (decimal input))) in
  rev tmp.
End HumanSize.

(** ** Debug output *)

(** [call_to_debug_call]; a near call is [unreachable!], so it has no
    translation. *)
Fixpoint call_to_debug_call (c : Call) : option DebugCall :=
  let 'mkCall ty from to gas gas_used value input output error reason calls := c in
  let fix go (l : list Call) : option (list DebugCall) :=
    match l with
    | [] => Some []
    | x :: xs =>
        match call_to_debug_call x, go xs with
        | Some y, Some ys => Some (y :: ys)
        | _, _ => None
        end
    end in
  match go calls with
  | None => None
  | Some calls =>
      match ty with
      | CallKind _ => Some (mkDebugCall DebugTypeCall from to gas gas_used value output input error reason calls)
      | CreateKind => Some (mkDebugCall DebugTypeCreate from to gas gas_used value output input error reason calls)
      | NearCallKind => None
      end
  end.

Fixpoint calls_to_debug_calls (l : list Call) : option (list DebugCall) :=
  match l with
  | [] => Some []
  | x :: xs =>
      match call_to_debug_call x, calls_to_debug_calls xs with
      | Some y, Some ys => Some (y :: ys)
      | _, _ => None
      end
  end.

Section DebugOutput.
Context {TA : TransactionApi}.

(** [CONTRACT_DEPLOYER_ADDRESS] of [zksync_types]. *)
Context (CONTRACT_DEPLOYER_ADDRESS : Address).

(** [create_debug_output]: [None] is the [unreachable!] of a near call; the
    error is the text of [Web3Error::SubmitTransactionError]. *)
Definition create_debug_output (tx : Transaction) (result : VmResult)
    (traces : list Call) : option (Prelude.result DebugCall string) :=
  let calltype :=
    match recipient_account tx with
    | Some addr => if addr =? CONTRACT_DEPLOYER_ADDRESS then DebugTypeCreate else DebugTypeCall
    | None => DebugTypeCall
    end in
  let to := default 0 (recipient_account tx) in
  match vr_result result with
  | Success output =>
      match calls_to_debug_calls traces with
      | None => None
      | Some calls =>
          Some (Ok (mkDebugCall calltype (initiator_account tx) to (tx_gas_limit tx)
            (vr_gas_used result) (value (execute tx)) output
            (calldata (execute tx)) None None calls))
      end
  | Revert output =>
      match calls_to_debug_calls traces with
      | None => None
      | Some calls =>
          Some (Ok (mkDebugCall calltype (initiator_account tx) to (tx_gas_limit tx)
            (vr_gas_used result) (value (execute tx)) (revert_encoded_data output)
            (calldata (execute tx)) None (Some (revert_display output)) calls))
      end
  | Halt reason => Some (Err reason)
  end.
End DebugOutput.
