(* ===== verification/Text.v ===== *)
(** * Text

    The rendering of bytes, numbers and lists as text that the other printing
    components share: [crates/common/src/utils/format.rs],
    [crates/types/src/numbers.rs] and [crates/traces/src/format/numbers.rs].

    A string is the sequence of its UTF-8 bytes. *)
From S2P Require Import Prelude.
From S2P Require Import Types.
From S2P Require Import Utils.
From Stdlib Require Import Ascii.
Local Open Scope Z_scope.

(** ** Bytes and numbers *)

Definition hex_char (d : Z) : ascii :=
  ascii_of_nat (Z.to_nat (if d <? 10 then 48 + d else 87 + d)).

(** [hex::encode]: two lower-case digits per byte. *)
Fixpoint hex_encode (bs : list Z) : string :=
  match bs with
  | [] => EmptyString
  | b :: bs => String (hex_char (b / 16)) (String (hex_char (b mod 16)) (hex_encode bs))
  end.

(** [hex::decode]: pairs of hexadecimal digits. *)
Definition hex_digit (c : ascii) : option Z :=
  let n := Z.of_nat (nat_of_ascii c) in
  if (48 <=? n) && (n <=? 57) then Some (n - 48)
  else if (97 <=? n) && (n <=? 102) then Some (n - 87)
  else if (65 <=? n) && (n <=? 70) then Some (n - 55)
  else None.
Fixpoint hex_decode (s : string) : Prelude.result Bytes string :=
  match s with
  | EmptyString => Ok []
  | String _ EmptyString => Err "Odd number of digits"
  | String a (String b rest) =>
      match hex_digit a, hex_digit b with
      | Some x, Some y =>
          match hex_decode rest with
          | Ok bs => Ok (x * 16 + y :: bs)
          | Err e => Err e
          end
      | _, _ => Err "Invalid character"
      end
  end.

(** The text of an [H160] or [H256] in full. *)
Definition hex_address (a : Address) : string := hex_encode (be_bytes 20 a).
Definition hex_h256 (h : H256) : string := hex_encode (be_bytes 32 h).

Fixpoint string_of_list (l : list ascii) : string :=
  match l with [] => EmptyString | c :: l => String c (string_of_list l) end.

(** [n.to_string()] of an unsigned integer. *)
Definition dec (n : Z) : string := string_of_list (decimal n).

(** [&s[..n]] on ASCII text, and [s.chars().take(n)]. *)
Fixpoint str_take (n : nat) (s : string) : string :=
  match n, s with
  | S n, String c s => String c (str_take n s)
  | _, _ => EmptyString
  end.

(** [write_interspersed] and [Vec<String>::join]: the items with the separator
    before every item but the first. *)
Fixpoint concat_sep (separator : string) (items : list string) : string :=
  match items with
  | [] => ""
  | item :: items => separator +:+ item +:+ concat_sep separator items
  end.

Definition write_interspersed (separator : string) (items : list string) : string :=
  match items with
  | [] => ""
  | item :: items => item +:+ concat_sep separator items
  end.

Definition trimmed_hex (s : list Z) : string :=
  let n := 32%nat in
  if (length s <=? n)%nat then hex_encode s
  else hex_encode (take (n / 2) s) +:+ "…" +:+ hex_encode (drop (length s - n / 2) s)
    +:+ " (" +:+ dec (Z.of_nat (length s)) +:+ " bytes)".

(** ** Signed numbers and exponential notation *)

Inductive Sign := NonNegative | Negative.

#[global] Instance Sign_eq_dec : EqDecision Sign.
Proof. solve_decision. Defined.

Definition sign_display (s : Sign) : string :=
  match s with NonNegative => "+" | Negative => "-" end.

Record SignedU256 := mkSignedU256 {
  sign : Sign;
  inner : Z;
}.

#[global] Instance SignedU256_eq_dec : EqDecision SignedU256.
Proof. solve_decision. Defined.

Definition signed_display (v : SignedU256) : string :=
  (if bool_decide (sign v = Negative) then "-" else "") +:+ dec (inner v).

(** [From<T> for SignedU256] *)
Definition signed_of_u256 (v : Z) : SignedU256 := mkSignedU256 NonNegative v.

Record NumberExponentialRepr := mkExponential {
  ne_value : SignedU256;
  ne_mantissa : string;
  ne_exponent : nat;
}.

(** [s.trim_end_matches('0')] *)
Fixpoint trim_end_zeros (s : string) : string :=
  match s with
  | EmptyString => EmptyString
  | String c s =>
      match trim_end_zeros s with
      | EmptyString => if Ascii.eqb c "0"%char then EmptyString else String c EmptyString
      | t => String c t
      end
  end.

(** [mantissa.insert(1, '.')] when the mantissa has more than one digit. *)
Definition insert_point (mantissa : string) : string :=
  match mantissa with
  | String d (String _ _ as rest) => String d (String "."%char rest)
  | m => m
  end.

Definition to_exp_notation (value : SignedU256) (precision : nat) (trim : bool) :
    NumberExponentialRepr :=
  let stringified := dec (inner value) in
  let exponent := (String.length stringified - 1)%nat in
  let mantissa := str_take precision stringified in
  let mantissa := if trim then trim_end_zeros mantissa else mantissa in
  mkExponential value (insert_point mantissa) exponent.

(** [From<SignedU256> for NumberExponentialRepr] *)
Definition exponential (val : SignedU256) : NumberExponentialRepr := to_exp_notation val 4 true.

Definition exponential_display (n : NumberExponentialRepr) : string :=
  (if bool_decide (sign (ne_value n) = Negative) then "-" else "")
    +:+ ne_mantissa n +:+ "e" +:+ dec (Z.of_nat (ne_exponent n)).

(** [PrettyNumberExponentialRepr]; [dimmed] of the [colored] crate is the
    argument. *)
Definition pretty_number (dimmed : string → string) (n : NumberExponentialRepr) : string :=
  if inner (ne_value n) =? 0 then "0"
  else signed_display (ne_value n) +:+
    (if 10000 <? inner (ne_value n)
     then " " +:+ dimmed ("[" +:+ exponential_display n +:+ "]") else "").

(** ** What the notation tells

    The value of a mantissa and exponent, scaled by [10 ^ (number of digits
    after the point)], to state how far the notation is from the number. *)
Definition digit_value (c : ascii) : Z := Z.of_nat (nat_of_ascii c) - 48.

(** The number written by a string of digits, a point left out. *)
Fixpoint read_digits (acc : Z) (s : string) : Z :=
  match s with
  | EmptyString => acc
  | String c s =>
      if Ascii.eqb c "."%char then read_digits acc s
      else read_digits (acc * 10 + digit_value c) s
  end.

(** The digits of a mantissa, the point left out. *)
Fixpoint count_digits (s : string) : nat :=
  match s with
  | EmptyString => 0
  | String c s => if Ascii.eqb c "."%char then count_digits s else S (count_digits s)
  end.

(** ** Hexadecimal text reads back *)

Lemma hex_digit_char d : 0 <= d < 16 → hex_digit (hex_char d) = Some d.
Proof.
  intros Hd.
  assert (Hf : forallb (λ d, bool_decide (hex_digit (hex_char d) = Some d)) (seqZ 0 16) = true)
    by (vm_compute; reflexivity).
  rewrite forallb_forall in Hf. eapply bool_decide_eq_true_1, Hf.
  apply list_elem_of_In, elem_of_seqZ; lia.
Qed.

Lemma hex_decode_encode bs : Forall is_byte bs → hex_decode (hex_encode bs) = Ok bs.
Proof.
  induction 1 as [|b bs Hb _ IH]; [done|]. unfold is_byte in Hb. cbn [hex_encode hex_decode].
  pose proof (Z.div_mod b 16). pose proof (Z.mod_pos_bound b 16).
  rewrite !hex_digit_char, IH by lia. do 2 f_equal. lia.
Qed.

Lemma hex_encode_inj bs bs' :
  Forall is_byte bs → Forall is_byte bs' → hex_encode bs = hex_encode bs' → bs = bs'.
Proof.
  intros H H' E. apply hex_decode_encode in H, H'. rewrite E in H. congruence.
Qed.

(** ** Decimal digits *)

(** The number that a list of digits writes, most significant first. *)
Definition of_digits (ds : list Z) : Z := foldl (λ acc d, acc * 10 + d) 0 ds.

Lemma foldl_digits acc ds :
  foldl (λ acc d, acc * 10 + d) acc ds = acc * 10 ^ Z.of_nat (length ds) + of_digits ds.
Proof.
  unfold of_digits. revert acc. induction ds as [|d ds IH]; intros acc; [simpl; lia|].
  cbn [foldl length]. rewrite IH, (IH (0 * 10 + d)), Nat2Z.inj_succ, Z.pow_succ_r by lia. lia.
Qed.

Lemma of_digits_app ds ds' :
  of_digits (ds ++ ds') = of_digits ds * 10 ^ Z.of_nat (length ds') + of_digits ds'.
Proof. unfold of_digits at 1. rewrite foldl_app. by rewrite foldl_digits. Qed.

Definition is_digit (d : Z) : Prop := 0 <= d < 10.

Lemma of_digits_range ds : Forall is_digit ds → 0 <= of_digits ds < 10 ^ Z.of_nat (length ds).
Proof.
  induction ds as [|d ds IH] using rev_ind; [done|].
  rewrite Forall_app, Forall_singleton. intros [H Hd]. apply IH in H. unfold is_digit in Hd.
  rewrite of_digits_app, length_app. cbn [length].
  rewrite Nat2Z.inj_add, Z.pow_add_r by lia. change (Z.of_nat 1) with 1.
  change (of_digits [d]) with (0 * 10 + d). rewrite Z.pow_1_r. nia.
Qed.

(** What [digits_rev] computes when the fuel is enough. *)
Lemma digits_rev_spec fuel n :
  0 <= n < 10 ^ Z.of_nat fuel → (fuel ≠ 0)%nat →
  let ds := rev (digits_rev fuel n) in
  Forall is_digit ds ∧ of_digits ds = n ∧ (0 < length ds)%nat ∧
  (0 < n → 10 ^ Z.of_nat (length ds - 1) <= n).
Proof.
  revert n; induction fuel as [|fuel IH]; intros n Hn Hf; [done|]. cbn [digits_rev].
  rewrite Nat2Z.inj_succ, Z.pow_succ_r in Hn by lia.
  destruct (Z.ltb_spec n 10) as [Hlt|Hge].
  { cbn [rev app length]. change (of_digits [n]) with (0 * 10 + n). rewrite Forall_singleton.
    unfold is_digit. cbn. lia. }
  pose proof (Z.div_mod n 10). pose proof (Z.mod_pos_bound n 10).
  destruct fuel as [|fuel]; [simpl in Hn; lia|].
  destruct (IH (n / 10)) as (Hd & Hv & Hl & Hle); [lia|done|].
  cbn [rev]. set (ds := rev (digits_rev (S fuel) (n / 10))) in *.
  rewrite of_digits_app, length_app, Hv. cbn [length]. split_and!.
  - apply Forall_app; split; [done|]. apply Forall_singleton; unfold is_digit; lia.
  - change (of_digits [n mod 10]) with (0 * 10 + n mod 10). change (10 ^ Z.of_nat 1) with 10. lia.
  - lia.
  - intros _. replace (length ds + 1 - 1)%nat with (S (length ds - 1)) by lia.
    rewrite Nat2Z.inj_succ, Z.pow_succ_r by lia. specialize (Hle ltac:(lia)). lia.
Qed.

(** The first digits of a number are the number divided by a power of ten. *)
Lemma of_digits_take k ds :
  Forall is_digit ds →
  let r := Z.of_nat (length ds - k) in
  of_digits (take k ds) * 10 ^ r <= of_digits ds < (of_digits (take k ds) + 1) * 10 ^ r.
Proof.
  intros Hd r. rewrite <-(take_drop k ds) in Hd. apply Forall_app in Hd as [_ Hd].
  apply of_digits_range in Hd. rewrite length_drop in Hd. fold r in Hd.
  rewrite <-(take_drop k ds) at 2 3. rewrite of_digits_app, length_drop. fold r. lia.
Qed.

Lemma decimal_spec n :
  0 <= n <= u256_max →
  ∃ ds, decimal n = digit_char <$> ds ∧ Forall is_digit ds ∧ of_digits ds = n ∧
    (0 < length ds)%nat ∧ (0 < n → 10 ^ Z.of_nat (length ds - 1) <= n).
Proof.
  intros Hn. exists (rev (digits_rev 78 n)). split; [done|].
  apply digits_rev_spec; [|done]. assert (u256_max < 10 ^ Z.of_nat 78) by (vm_compute; done). lia.
Qed.

(** ** The digits of a printed number *)

(** The text of a list of digits. *)
Definition digits_text (ds : list Z) : string := string_of_list (digit_char <$> ds).

Lemma digit_char_value d : is_digit d →
  digit_value (digit_char d) = d ∧ Ascii.eqb (digit_char d) "." = false ∧
  Ascii.eqb (digit_char d) "0" = (d =? 0).
Proof.
  unfold is_digit. intros Hd.
  assert (Hc : d = 0 ∨ d = 1 ∨ d = 2 ∨ d = 3 ∨ d = 4 ∨ d = 5 ∨ d = 6 ∨ d = 7 ∨ d = 8 ∨ d = 9) by lia.
  by destruct_or! Hc; subst d; vm_compute.
Qed.

Lemma read_digits_text acc ds :
  Forall is_digit ds → read_digits acc (digits_text ds) = foldl (λ acc d, acc * 10 + d) acc ds.
Proof.
  intros H. revert acc. induction H as [|d ds Hd _ IH]; intros acc; [done|].
  apply digit_char_value in Hd as (Hv & Hp & _). unfold digits_text in *.
  cbn [fmap list_fmap string_of_list read_digits foldl]. by rewrite Hp, Hv, IH.
Qed.

(** A printed number is read back, so different numbers print differently. *)
Lemma read_dec n : 0 <= n <= u256_max → read_digits 0 (dec n) = n.
Proof.
  intros Hn. destruct (decimal_spec n Hn) as (ds & Hds & Hd & Hn' & _).
  unfold dec. rewrite Hds. fold (digits_text ds). rewrite read_digits_text by done. exact Hn'.
Qed.

Lemma dec_inj n m : 0 <= n <= u256_max → 0 <= m <= u256_max → dec n = dec m → n = m.
Proof. intros Hn Hm He. rewrite <-(read_dec n Hn), <-(read_dec m Hm), He. done. Qed.

Lemma count_digits_text ds : Forall is_digit ds → count_digits (digits_text ds) = length ds.
Proof.
  induction 1 as [|d ds Hd _ IH]; [done|]. apply digit_char_value in Hd as (_ & Hp & _).
  unfold digits_text in *. cbn [fmap list_fmap string_of_list count_digits]. rewrite Hp. simpl; lia.
Qed.

Lemma length_digits_text ds : String.length (digits_text ds) = length ds.
Proof. unfold digits_text. induction ds; simpl; auto. Qed.

Lemma str_take_text k ds : str_take k (digits_text ds) = digits_text (take k ds).
Proof.
  revert k; induction ds as [|d ds IH]; intros [|k]; [done..|].
  unfold digits_text in *. simpl. by rewrite IH.
Qed.

(** Trimming removes zeros at the end only. *)
Lemma trim_end_zeros_text ds :
  Forall is_digit ds →
  ∃ ds' j, trim_end_zeros (digits_text ds) = digits_text ds' ∧ ds = ds' ++ replicate j 0.
Proof.
  induction 1 as [|d ds Hd _ IH]; [by exists [], 0%nat|]. destruct IH as (ds' & j & E & ->).
  apply digit_char_value in Hd as (_ & _ & Hz). change (digits_text (d :: ds' ++ replicate j 0)) with
    (String (digit_char d) (digits_text (ds' ++ replicate j 0))). cbn [trim_end_zeros].
  rewrite E. destruct ds' as [|d' ds']; cbn; rewrite ?Hz; [destruct (Z.eqb_spec d 0) as [Hd0|Hd0]|].
  - subst d. by exists [], (S j).
  - by exists [d], j.
  - by exists (d :: d' :: ds'), j.
Qed.

Lemma of_digits_zeros j : of_digits (replicate j 0) = 0.
Proof. unfold of_digits. induction j; simpl; auto. Qed.

(** A point does not change the digits. *)
Lemma insert_point_digits ds :
  Forall is_digit ds →
  read_digits 0 (insert_point (digits_text ds)) = of_digits ds ∧
  count_digits (insert_point (digits_text ds)) = length ds.
Proof.
  intros H. pose proof (read_digits_text 0 ds H) as Hr. pose proof (count_digits_text ds H) as Hc.
  destruct ds as [|d [|d' ds]]; [done..|]. apply Forall_cons in H as [Hd H].
  apply digit_char_value in Hd as (_ & Hp & _).
  unfold digits_text in *. cbn [fmap list_fmap string_of_list insert_point read_digits count_digits] in *.
  rewrite Hp in *. split; [exact Hr|exact Hc].
Qed.

(** The mantissa of a printed number, its digits kept apart. *)
Lemma exponential_digits s n ds :
  0 <= n <= u256_max → decimal n = digit_char <$> ds → Forall is_digit ds →
  let r := exponential (mkSignedU256 s n) in
  ∃ ms j, take 4 ds = ms ++ replicate j 0 ∧ ne_exponent r = (length ds - 1)%nat ∧
    read_digits 0 (ne_mantissa r) = of_digits ms ∧ count_digits (ne_mantissa r) = length ms.
Proof.
  intros Hn Hdec Hd. unfold exponential, to_exp_notation. cbn [inner ne_exponent ne_mantissa].
  unfold dec. rewrite Hdec. fold (digits_text ds). rewrite length_digits_text, str_take_text.
  assert (Hd4 : Forall is_digit (take 4 ds)) by by apply Forall_take.
  destruct (trim_end_zeros_text _ Hd4) as (ms & j & -> & E). exists ms, j.
  rewrite E in Hd4. apply Forall_app in Hd4 as [Hms _].
  destruct (insert_point_digits _ Hms) as [-> ->]. by rewrite E.
Qed.

(** The exponential notation of a number that is not zero (the hint shown
    beside numbers in traces): with at most four digits in its mantissa and
    the exact order of magnitude as its exponent, it is never above the number
    and less than a thousandth of the number below it. *)
Theorem exponential_bounds s n :
  0 < n <= u256_max →
  let r := exponential (mkSignedU256 s n) in
  let m := read_digits 0 (ne_mantissa r) in
  let k := Z.of_nat (count_digits (ne_mantissa r)) in
  let e := Z.of_nat (ne_exponent r) in
  1 <= k <= 4 ∧ 10 ^ e <= n < 10 ^ (e + 1) ∧
  m * 10 ^ (e + 1) <= n * 10 ^ k ∧ 1000 * (n * 10 ^ k - m * 10 ^ (e + 1)) < n * 10 ^ k.
Proof.
  intros Hn. destruct (decimal_spec n) as (ds & Hdec & Hd & Hv & Hl & Hmag); [lia|].
  destruct (exponential_digits s n ds ltac:(lia) Hdec Hd) as (ms & j & E & He & Hm & Hk).
  cbn zeta in *. rewrite He, Hm, Hk. clear He Hm Hk. specialize (Hmag ltac:(lia)).
  pose proof (of_digits_range ds Hd) as Hr. rewrite Hv in Hr.
  pose proof (of_digits_take 4 ds Hd) as Ht. cbn zeta in Ht. rewrite Hv, E in Ht.
  rewrite of_digits_app, length_replicate, of_digits_zeros in Ht.
  assert (Hlen : length (take 4 ds) = (length ms + j)%nat) by by rewrite E, length_app, length_replicate.
  rewrite length_take in Hlen. set (r := Z.of_nat (length ds - 4)) in *.
  set (k := Z.of_nat (length ms)). set (m := of_digits ms) in *.
  replace (Z.of_nat (length ds - 1) + 1) with (k + (Z.of_nat j + r)) by lia.
  replace (Z.of_nat (length ds)) with (Z.of_nat (length ds - 1) + 1) in Hr by lia.
  replace (k + (Z.of_nat j + r)) with (Z.of_nat (length ds - 1) + 1) at 1 by lia.
  assert (Hpow : 10 ^ (k + (Z.of_nat j + r)) = 10 ^ k * (10 ^ Z.of_nat j * 10 ^ r))
    by (rewrite !Z.pow_add_r by lia; done).
  rewrite Hpow. pose proof (Z.pow_pos_nonneg 10 k). split_and!; [|unfold k; lia|lia|lia|nia|].
  - unfold k. destruct ms; [|simpl; lia]. exfalso. change m with 0 in *.
    assert (10 ^ r <= 10 ^ Z.of_nat (length ds - 1)) by (apply Z.pow_le_mono_r; lia). lia.
  - destruct (Nat.le_gt_cases (length ds) 4) as [Hs|Hs].
    + replace r with 0 in * by lia. nia.
    + assert (10 ^ Z.of_nat (length ds - 1) = 1000 * 10 ^ r) as E3.
      { replace (Z.of_nat (length ds - 1)) with (3 + r) by lia. by rewrite Z.pow_add_r by lia. }
      rewrite E3 in Hmag. nia.
Qed.

(** The notation of 2^64 is 1.844e19. *)
Lemma exponential_bounds_witness :
  exponential_display (exponential (mkSignedU256 NonNegative (2 ^ 64))) = "1.844e19" ∧
  1000 * (2 ^ 64 * 10 ^ 4 - 1844 * 10 ^ 20) < 2 ^ 64 * 10 ^ 4.
Proof.
  split; [vm_compute; reflexivity|]. apply (exponential_bounds NonNegative (2 ^ 64)).
  unfold u256_max; lia.
Defined.
