(* ===== verification/Filters.v ===== *)
(** * Subscription filters

    [crates/core/src/filters.rs]: block, log and pending-transaction filters,
    the identifiers they get, the updates they collect and the polling that
    empties them.  A [HashMap] is a [gmap], a [HashSet] a [gset]; the four
    topic positions are a list that [topics_wf] keeps at length four. *)
From S2P Require Import Prelude Types Utils.
Local Open Scope Z_scope.

(** ** Data *)
Record BlockFilter := mkBlockFilter { bf_updates : list H256 }.

Record LogFilter := mkLogFilter {
  from_block : BlockNumber;
  to_block : BlockNumber;
  addresses : list Address;
  topics : list (option (gset H256));
  lf_updates : list Log;
}.

Record PendingTransactionFilter := mkPendingFilter { pf_updates : list H256 }.

Inductive FilterType :=
| FBlock (f : BlockFilter)
| FLog (f : LogFilter)
| FPending (f : PendingTransactionFilter).

Inductive FilterChanges :=
| ChangesEmpty
| ChangesHashes (hashes : list H256)
| ChangesLogs (logs : list Log).

Record EthFilters := mkEthFilters {
  id_counter : Z;
  filters : gmap Z FilterType;
}.

(** [EthFilters::default()] *)
Definition empty_filters : EthFilters := mkEthFilters 0 ∅.

(** [LogFilter::new] *)
Definition LogFilter_new (from to : BlockNumber) (addrs : list Address)
    (tops : list (option (gset H256))) : LogFilter :=
  mkLogFilter from to addrs tops [].

(** ** Matching *)

(** One iteration of the topic loop: does position [i] accept [topic]? *)
Definition topic_matches (slot : option (gset H256)) (topic : H256) : bool :=
  match slot with
  | Some topic_set =>
      if negb (bool_decide (topic_set = ∅)) && negb (bool_decide (topic ∈ topic_set))
      then false else true
  | None => true
  end.

(** The loop over [log.topics.iter().take(4).enumerate()] with the array
    [matched_topic], all of whose entries start as [true]. *)
Definition matched_topics (tops : list (option (gset H256))) (log_tops : list H256) : list bool :=
  foldl (λ acc it, if topic_matches (default None (tops !! it.1)) it.2 then acc
                   else <[it.1 := false]> acc)
    (replicate 4 true) (enumerate (take 4 log_tops)).

(** [LogFilter::matches]; [None] is the [expect] on a log without a block
    number. *)
Definition matches (f : LogFilter) (log : Log) (latest_block_number : Z) : option bool :=
  let from := to_real_block_number (from_block f) latest_block_number in
  let to := to_real_block_number (to_block f) latest_block_number in
  match log_block_number log with
  | None => None
  | Some n =>
      if (n <? from) || (n >? to) then Some false
      else if negb (bool_decide (addresses f = []))
           && forallb (λ a, negb (a =? log_address log)) (addresses f) then Some false
      else Some (forallb id (matched_topics (topics f) (log_topics log)))
  end.

(** ** Installing and removing filters *)
Section Install.
(** The common prefix of the three [add_*] methods. *)
Definition add_filter (f : FilterType) (s : EthFilters) : result Z string * EthFilters :=
  match checked_add_u256 (id_counter s) 1 with
  | None => (Err "overflow"%string, s)
  | Some id => (Ok id, mkEthFilters id (<[id := f]> (filters s)))
  end.

Definition add_block_filter : EthFilters → result Z string * EthFilters :=
  add_filter (FBlock (mkBlockFilter [])).

Definition add_log_filter (from to : BlockNumber) (addrs : list Address)
    (tops : list (option (gset H256))) : EthFilters → result Z string * EthFilters :=
  add_filter (FLog (mkLogFilter from to addrs tops [])).

Definition add_pending_transaction_filter : EthFilters → result Z string * EthFilters :=
  add_filter (FPending (mkPendingFilter [])).

Definition remove_filter (id : Z) (s : EthFilters) : bool * EthFilters :=
  (bool_decide (is_Some (filters s !! id)),
   mkEthFilters (id_counter s) (delete id (filters s))).

Definition get_filter (s : EthFilters) (id : Z) : option FilterType := filters s !! id.
End Install.

(** ** Polling *)

(** The updates a filter holds, as the poll reports them, and the filter with
    its updates cleared. *)
Definition changes_of (f : FilterType) : FilterChanges :=
  match f with
  | FBlock f => match bf_updates f with [] => ChangesEmpty | u => ChangesHashes u end
  | FLog f => match lf_updates f with [] => ChangesEmpty | u => ChangesLogs u end
  | FPending f => match pf_updates f with [] => ChangesEmpty | u => ChangesHashes u end
  end.

Definition clear_updates (f : FilterType) : FilterType :=
  match f with
  | FBlock _ => FBlock (mkBlockFilter [])
  | FLog f => FLog (mkLogFilter (from_block f) (to_block f) (addresses f) (topics f) [])
  | FPending _ => FPending (mkPendingFilter [])
  end.

(** [get_new_changes] *)
Definition get_new_changes (id : Z) (s : EthFilters) : result FilterChanges string * EthFilters :=
  match filters s !! id with
  | None => (Err "invalid filter"%string, s)
  | Some f => (Ok (changes_of f),
               mkEthFilters (id_counter s) (<[id := clear_updates f]> (filters s)))
  end.

(** ** Notifications *)
Definition push_block (hash : H256) (f : FilterType) : FilterType :=
  match f with
  | FBlock f => FBlock (mkBlockFilter (bf_updates f ++ [hash]))
  | f => f
  end.

Definition push_pending (hash : H256) (f : FilterType) : FilterType :=
  match f with
  | FPending f => FPending (mkPendingFilter (pf_updates f ++ [hash]))
  | f => f
  end.

Definition push_log (log : Log) (latest : Z) (f : FilterType) : option FilterType :=
  match f with
  | FLog f =>
      b ← matches f log latest;
      Some (FLog (if (b : bool) then
        mkLogFilter (from_block f) (to_block f) (addresses f) (topics f) (lf_updates f ++ [log])
      else f))
  | f => Some f
  end.

(** [notify_new_block] *)
Definition notify_new_block (hash : H256) (s : EthFilters) : EthFilters :=
  mkEthFilters (id_counter s) (push_block hash <$> filters s).

(** [notify_new_pending_transaction] *)
Definition notify_new_pending_transaction (hash : H256) (s : EthFilters) : EthFilters :=
  mkEthFilters (id_counter s) (push_pending hash <$> filters s).

(** [notify_new_log]: [None] when one of the filters panics on the log. *)
Definition notify_new_log (log : Log) (latest_block_number : Z) (s : EthFilters) : option EthFilters :=
  let pushed := push_log log latest_block_number <$> filters s in
  if bool_decide (map_Forall (λ _ o, is_Some o) pushed)
  then Some (mkEthFilters (id_counter s) (omap id pushed)) else None.

(** ** Specification of matching

    What a log filter selects, as a proposition: the block range, the address
    list and, position by position, the topics the log has. *)
Definition in_range (f : LogFilter) (latest n : Z) : Prop :=
  to_real_block_number (from_block f) latest <= n <= to_real_block_number (to_block f) latest.

Definition address_selected (f : LogFilter) (a : Address) : Prop :=
  addresses f = [] ∨ a ∈ addresses f.

Definition topics_selected (f : LogFilter) (ts : list H256) : Prop :=
  ∀ i t S, (i < 4)%nat → ts !! i = Some t → topics f !! i = Some (Some S) →
    S = ∅ ∨ t ∈ S.

Definition selects (f : LogFilter) (log : Log) (latest : Z) : Prop :=
  (∃ n, log_block_number log = Some n ∧ in_range f latest n) ∧
  address_selected f (log_address log) ∧ topics_selected f (log_topics log).

Section MatchingLemmas.
Lemma topic_matches_true slot t :
  topic_matches slot t = true ↔ (∀ S, slot = Some S → S = ∅ ∨ t ∈ S).
Proof.
  unfold topic_matches. destruct slot as [S|]; [|by split].
  destruct (decide (S = ∅)) as [He|He].
  { rewrite (bool_decide_true (S = ∅)) by done; simpl. split; [|done]. naive_solver. }
  rewrite (bool_decide_false (S = ∅)) by done; simpl.
  destruct (decide (t ∈ S)).
  - rewrite bool_decide_true by done; simpl. naive_solver.
  - rewrite bool_decide_false by done; simpl. split; [done|].
    intros H. destruct (H S eq_refl); done.
Qed.

Lemma forallb_insert_false (acc : list bool) i :
  (i < length acc)%nat → forallb id (<[i := false]> acc) = false.
Proof.
  revert i; induction acc as [|b acc IH]; intros i Hi; simpl in *; [lia|].
  destruct i as [|i]; [done|]. simpl. rewrite IH by lia. by rewrite andb_false_r.
Qed.

(** The topic loop accepts exactly when every position it visits does. *)
Lemma topics_fold (tops : list (option (gset H256))) (l : list (nat * H256)) (acc : list bool) :
  Forall (λ it, (it.1 < length acc)%nat) l →
  forallb id (foldl (λ acc it, if topic_matches (default None (tops !! it.1)) it.2 then acc
                               else <[it.1 := false]> acc) acc l) =
  forallb id acc && forallb (λ it, topic_matches (default None (tops !! it.1)) it.2) l.
Proof.
  revert acc; induction l as [|[i t] l IH]; intros acc Hl; simpl.
  { by rewrite andb_true_r. }
  apply Forall_cons in Hl as [Hi Hl]; simpl in Hi.
  destruct (topic_matches _ t) eqn:Ht; simpl.
  - by rewrite IH.
  - rewrite IH by (by rewrite length_insert). rewrite forallb_insert_false by done.
    by rewrite andb_false_r.
Qed.

Lemma matched_topics_spec (f : LogFilter) (ts : list H256) :
  forallb id (matched_topics (topics f) ts) = true ↔ topics_selected f ts.
Proof.
  unfold matched_topics. rewrite topics_fold; simpl.
  2:{ apply Forall_forall; intros [i t] (k&Hk)%list_elem_of_lookup; simpl.
      rewrite lookup_enumerate in Hk. destruct (take 4 ts !! k) eqn:Ht; simplify_eq/=.
      apply lookup_lt_Some in Ht. rewrite length_take in Ht. lia. }
  rewrite forallb_forall. unfold topics_selected. split.
  - intros H i t S Hi Ht HS.
    assert (In (i, t) (enumerate (take 4 ts))) as Hin.
    { apply list_elem_of_In, (list_elem_of_lookup_2 _ i). rewrite lookup_enumerate.
      rewrite lookup_take_lt by done. by rewrite Ht. }
    specialize (H _ Hin); cbn [fst snd] in H. rewrite HS in H.
    exact (proj1 (topic_matches_true _ _) H S eq_refl).
  - intros H [i t] Hin%list_elem_of_In; simpl.
    apply list_elem_of_lookup in Hin as [k Hk]. rewrite lookup_enumerate in Hk.
    destruct (take 4 ts !! k) eqn:Ht; simplify_eq/=.
    apply lookup_take_Some in Ht as [Ht Hlt].
    apply topic_matches_true; intros S HS. apply (H i t S); [done..|].
    destruct (topics f !! i) as [o|] eqn:Ho; simpl in HS; [by rewrite HS|done].
Qed.

Lemma addresses_check (addrs : list Address) a :
  negb (bool_decide (addrs = [])) && forallb (λ b, negb (b =? a)) addrs = false ↔
  addrs = [] ∨ a ∈ addrs.
Proof.
  destruct addrs as [|b addrs]; [simpl; naive_solver|].
  rewrite bool_decide_false by done. remember (b :: addrs) as l eqn:Hl. simpl.
  rewrite <-Bool.not_true_iff_false, forallb_forall. split.
  - intros H. right. destruct (decide (a ∈ l)) as [|Hn]; [done|]. exfalso; apply H.
    intros x Hx%list_elem_of_In. destruct (x =? a) eqn:E; [|done].
    apply Z.eqb_eq in E as ->. done.
  - intros [->|Hin] H; [done|]. apply list_elem_of_In in Hin.
    specialize (H _ Hin). by rewrite Z.eqb_refl in H.
Qed.
End MatchingLemmas.

(** A log filter accepts a log exactly when the log's block lies in the
    (resolved) block range, its address is listed (an empty list lists every
    address), and every topic of the log, among the first four, is in the
    topic set of its position (absent and empty sets accept everything); it
    panics exactly on logs without a block number. *)
Theorem matches_selects (f : LogFilter) (log : Log) (latest : Z) :
  (matches f log latest = Some true ↔ selects f log latest) ∧
  (matches f log latest = None ↔ log_block_number log = None).
Proof.
  unfold matches, selects, in_range, address_selected.
  destruct (log_block_number log) as [n|]; [|naive_solver].
  destruct (n <? _) eqn:E1; simpl.
  { apply Z.ltb_lt in E1. split; [|done]. split; [done|]. intros [(n'&[= <-]&?) _]; lia. }
  destruct (n >? _) eqn:E2; simpl.
  { apply Z.gtb_lt in E2. split; [|done]. split; [done|]. intros [(n'&[= <-]&?) _]; lia. }
  apply Z.ltb_ge in E1. rewrite Z.gtb_ltb in E2. apply Z.ltb_ge in E2.
  destruct (negb _ && _) eqn:E3.
  { split; [|done]. split; [done|]. intros (_&Ha&_).
    apply addresses_check in Ha. congruence. }
  apply addresses_check in E3. split; [|done]. rewrite <-matched_topics_spec.
  split; [intros [= ->]; eauto 10|]. intros (_&_&->). done.
Qed.

(** ** Sequences of operations

    The node's requests and notifications, one by one, from any component that
    holds the lock. *)
Inductive FilterOp :=
| OpAddBlock
| OpAddLog (from to : BlockNumber) (addrs : list Address) (tops : list (option (gset H256)))
| OpAddPending
| OpRemove (id : Z)
| OpPoll (id : Z)
| OpNotifyBlock (hash : H256)
| OpNotifyPending (hash : H256)
| OpNotifyLog (log : Log) (latest : Z).

(** One operation: the identifier it hands out, if it is an installation that
    succeeds, and the next state; [None] is a panic. *)
Definition filter_op (op : FilterOp) (s : EthFilters) : option (option Z * EthFilters) :=
  let installed (r : result Z string * EthFilters) :=
    (match r.1 with Ok id => Some id | Err _ => None end, r.2) in
  match op with
  | OpAddBlock => Some (installed (add_block_filter s))
  | OpAddLog from to addrs tops => Some (installed (add_log_filter from to addrs tops s))
  | OpAddPending => Some (installed (add_pending_transaction_filter s))
  | OpRemove id => Some (None, (remove_filter id s).2)
  | OpPoll id => Some (None, (get_new_changes id s).2)
  | OpNotifyBlock hash => Some (None, notify_new_block hash s)
  | OpNotifyPending hash => Some (None, notify_new_pending_transaction hash s)
  | OpNotifyLog log latest => s' ← notify_new_log log latest s; Some (None, s')
  end.

(** The identifiers handed out by a sequence of operations, in order. *)
Fixpoint filter_ops (ops : list FilterOp) (s : EthFilters) : option (list Z * EthFilters) :=
  match ops with
  | [] => Some ([], s)
  | op :: ops =>
      r ← filter_op op s;
      r' ← filter_ops ops r.2;
      Some (match r.1 with Some id => id :: r'.1 | None => r'.1 end, r'.2)
  end.

(** Installed identifiers are between 1 and the counter. *)
Definition filters_wf (s : EthFilters) : Prop :=
  0 <= id_counter s <= u256_max ∧
  ∀ id, is_Some (filters s !! id) → 1 <= id <= id_counter s.

Lemma empty_filters_wf : filters_wf empty_filters.
Proof. split; [unfold u256_max; simpl; lia|]. by intros id [? ?]. Qed.

Lemma add_filter_wf f s :
  filters_wf s → filters_wf (add_filter f s).2 ∧
  (∀ id, (add_filter f s).1 = Ok id →
     id = id_counter s + 1 ∧ id_counter (add_filter f s).2 = id ∧ filters s !! id = None) ∧
  (∀ e, (add_filter f s).1 = Err e → (add_filter f s).2 = s).
Proof.
  intros [Hc Hids]. unfold add_filter, checked_add_u256. destruct (_ <=? _) eqn:E; simpl.
  - apply Z.leb_le in E. split; [split|]; simpl; [lia| |].
    + intros id. rewrite lookup_insert. case_decide; [subst; lia|].
      intros ?%Hids; lia.
    + split; [|done]. intros id [= <-]. split_and!; [done..|].
      destruct (filters s !! (id_counter s + 1)) eqn:Hl; [|done].
      specialize (Hids (id_counter s + 1)). rewrite Hl in Hids.
      destruct Hids; [eauto|lia].
  - split; [done|]. split; [done|]. done.
Qed.

Lemma map_filters_wf (g : gmap Z FilterType) s :
  filters_wf s → (∀ id, is_Some (g !! id) → is_Some (filters s !! id)) →
  filters_wf (mkEthFilters (id_counter s) g).
Proof. intros [Hc Hids] Hg. split; [done|]. intros id Hid; eauto. Qed.

(** Every operation keeps the invariant; one that hands out an identifier
    hands out the successor of the counter, one that does not leaves the
    counter alone. *)
Lemma filter_op_wf op s o s' :
  filters_wf s → filter_op op s = Some (o, s') →
  filters_wf s' ∧
  match o with
  | Some id => id = id_counter s + 1 ∧ id_counter s' = id ∧ filters s !! id = None
  | None => id_counter s' = id_counter s
  end.
Proof.
  intros Hwf Hop.
  assert (Hadd : ∀ f, let r := add_filter f s in
    (match r.1 with Ok id => Some id | Err _ => None end, r.2) = (o, s') →
    filters_wf s' ∧ match o with
      | Some id => id = id_counter s + 1 ∧ id_counter s' = id ∧ filters s !! id = None
      | None => id_counter s' = id_counter s end).
  { intros f r [= Ho <-]. destruct (add_filter_wf f s Hwf) as (Hw&Hok&Herr).
    split; [done|]. subst r. destruct (add_filter f s).1 eqn:E; simplify_eq.
    - by apply Hok.
    - by rewrite (Herr _ eq_refl). }
  destruct op; simpl in Hop; simplify_eq.
  - by eapply Hadd.
  - by eapply Hadd.
  - by eapply Hadd.
  - split; [|done]. apply map_filters_wf; [done|]. intros i. rewrite lookup_delete.
    case_decide; [by intros [? ?]|done].
  - unfold get_new_changes. destruct (filters s !! id) eqn:E; simpl; [|done].
    split; [|done]. apply map_filters_wf; [done|]. intros i. rewrite lookup_insert.
    case_decide; [subst; by rewrite E|done].
  - split; [|done]. apply map_filters_wf; [done|]. intros i. by rewrite lookup_fmap, fmap_is_Some.
  - split; [|done]. apply map_filters_wf; [done|]. intros i. by rewrite lookup_fmap, fmap_is_Some.
  - apply bind_Some in Hop as (s1&Hs1&[= <- <-]). unfold notify_new_log in Hs1.
    case_bool_decide; simplify_eq. split; [|done]. apply map_filters_wf; [done|].
    intros i. rewrite lookup_omap, lookup_fmap.
    destruct (filters s !! i) eqn:E; simpl; [eauto|by intros [? ?]].
Qed.

(** Whatever is installed, removed, polled or notified, and in whatever
    order, the identifiers handed out are 1, 2, 3, ... without a gap: no two
    filters of any kind ever share an identifier and a removed filter's
    identifier is not reused. *)
Theorem filter_ids_sequential (ops : list FilterOp) (ids : list Z) (s : EthFilters) :
  filter_ops ops empty_filters = Some (ids, s) →
  ids = seqZ 1 (id_counter s) ∧ filters_wf s.
Proof.
  assert (Hgen : ∀ ops s0 ids s, filters_wf s0 → filter_ops ops s0 = Some (ids, s) →
    filters_wf s ∧ id_counter s0 <= id_counter s ∧
    ids = seqZ (id_counter s0 + 1) (id_counter s - id_counter s0)).
  { clear. induction ops as [|op ops IH]; intros s0 ids s Hwf H; simpl in H.
    { injection H as <- <-. by rewrite Z.sub_diag. }
    apply bind_Some in H as ([o s1]&Hop&H). apply bind_Some in H as ([ids' s2]&Hops&H).
    simplify_eq/=. destruct (filter_op_wf _ _ _ _ Hwf Hop) as [Hwf1 Ho].
    destruct (IH _ _ _ Hwf1 Hops) as (Hwf2&Hle&Hids). split; [done|].
    destruct o as [id|].
    - destruct Ho as (->&Hc&_). split; [lia|]. rewrite Hids, Hc.
      rewrite (seqZ_cons (id_counter s0 + 1)) by lia. f_equal. f_equal; lia.
    - rewrite Ho in *. done. }
  intros H. destruct (Hgen _ _ _ _ empty_filters_wf H) as (Hwf&_&Hids).
  split; [|done]. rewrite Hids. simpl. by rewrite Z.sub_0_r.
Qed.

Definition filter_ids_sample_ops : list FilterOp :=
  [OpAddBlock; OpAddPending; OpRemove 2; OpAddLog Latest Latest [] []; OpNotifyBlock 7; OpPoll 1].

Lemma filter_ids_sequential_witness :
  ∃ ids s, filter_ops filter_ids_sample_ops empty_filters = Some (ids, s) ∧
    ids = [1; 2; 3] ∧ ids = seqZ 1 (id_counter s) ∧ filters_wf s.
Proof.
  eexists _, _. split; [vm_compute; reflexivity|]. split; [reflexivity|].
  apply (filter_ids_sequential filter_ids_sample_ops). vm_compute; reflexivity.
Defined.

(** ** What a poll reports

    [Event]s are the notifications; [notify_all] delivers them in order. *)
Inductive Event :=
| EvBlock (hash : H256)
| EvPending (hash : H256)
| EvLog (log : Log) (latest : Z).

Definition notify (e : Event) (s : EthFilters) : option EthFilters :=
  match e with
  | EvBlock h => Some (notify_new_block h s)
  | EvPending h => Some (notify_new_pending_transaction h s)
  | EvLog log latest => notify_new_log log latest s
  end.

Fixpoint notify_all (es : list Event) (s : EthFilters) : option EthFilters :=
  match es with
  | [] => Some s
  | e :: es => s' ← notify e s; notify_all es s'
  end.

(** The specification: the sub-sequence of the events a filter asked for. *)
Definition wanted_hashes (f : FilterType) (es : list Event) : list H256 :=
  omap (λ e, match f, e with
             | FBlock _, EvBlock h => Some h
             | FPending _, EvPending h => Some h
             | _, _ => None end) es.

Definition wanted_logs (f : FilterType) (es : list Event) : list Log :=
  omap (λ e, match f, e with
             | FLog lf, EvLog log latest =>
                 if decide (matches lf log latest = Some true) then Some log else None
             | _, _ => None end) es.

Definition expected_changes (f : FilterType) (es : list Event) : FilterChanges :=
  match f with
  | FLog _ => match wanted_logs f es with [] => ChangesEmpty | l => ChangesLogs l end
  | _ => match wanted_hashes f es with [] => ChangesEmpty | l => ChangesHashes l end
  end.

(** The filter after receiving the events. *)
Definition received (f : FilterType) (es : list Event) : FilterType :=
  match f with
  | FBlock b => FBlock (mkBlockFilter (bf_updates b ++ wanted_hashes f es))
  | FPending b => FPending (mkPendingFilter (pf_updates b ++ wanted_hashes f es))
  | FLog l => FLog (mkLogFilter (from_block l) (to_block l) (addresses l) (topics l)
                      (lf_updates l ++ wanted_logs f es))
  end.

Lemma notify_received e s s' id f :
  notify e s = Some s' → filters s !! id = Some f →
  filters s' !! id = Some (received f [e]).
Proof.
  intros Hn Hf. destruct e as [h|h|log latest]; simpl in Hn; simplify_eq/=.
  - rewrite lookup_fmap, Hf; simpl. f_equal.
    destruct f as [[u]|[? ? ? ? u]|[u]]; simpl; by rewrite ?app_nil_r.
  - rewrite lookup_fmap, Hf; simpl. f_equal.
    destruct f as [[u]|[? ? ? ? u]|[u]]; simpl; by rewrite ?app_nil_r.
  - unfold notify_new_log in Hn. case_bool_decide as Hall; simplify_eq/=.
    rewrite lookup_omap, lookup_fmap, Hf; simpl.
    specialize (Hall id). rewrite lookup_fmap, Hf in Hall. specialize (Hall _ eq_refl).
    destruct f as [[u]|[fb tb ad tp u]|[u]]; simpl in *; rewrite ?app_nil_r; try done.
    destruct (matches _ log latest) as [[]|] eqn:Em; simpl in *; [..|by destruct Hall];
      (try case_decide; simpl; rewrite ?app_nil_r; congruence).
Qed.

Lemma received_app f es1 es2 : received (received f es1) es2 = received f (es1 ++ es2).
Proof.
  destruct f as [[u]|[fb tb ad tp u]|[u]]; unfold received; simpl; do 2 f_equal;
    rewrite <-app_assoc; f_equal; unfold wanted_hashes, wanted_logs; by rewrite omap_app.
Qed.

Lemma notify_all_received es s s' id f :
  notify_all es s = Some s' → filters s !! id = Some f →
  filters s' !! id = Some (received f es).
Proof.
  revert s f; induction es as [|e es IH]; intros s f H Hf; simpl in H.
  { simplify_eq. destruct f as [[u]|[fb tb ad tp u]|[u]]; simpl; by rewrite app_nil_r. }
  apply bind_Some in H as (s1&H1&H2).
  rewrite (IH _ _ H2 (notify_received _ _ _ _ _ H1 Hf)). by rewrite received_app.
Qed.

Lemma changes_of_received f es :
  changes_of f = ChangesEmpty → changes_of (received f es) = expected_changes f es.
Proof.
  destruct f as [[[|? ?]]|[fb tb ad tp [|? ?]]|[[|? ?]]]; simpl; try done;
    intros _; unfold expected_changes; simpl; by case_match.
Qed.


Definition sample_log (addr : Address) (n : Z) : Log :=
  mkLog addr [] [] None (Some n) None None None None None None None None.
Definition sample_filters : EthFilters :=
  (add_log_filter Latest (Number 9) [5] [] (add_block_filter empty_filters).2).2.

Definition sample_events : list Event :=
  [EvBlock 8; EvLog (sample_log 5 3) 3; EvLog (sample_log 6 3) 3].
Definition sample_after : EthFilters :=
  default empty_filters (notify_all sample_events sample_filters).

