(* ===== verification/Impersonate.v ===== *)
(** * Impersonated accounts

    [crates/core/src/node/impersonate.rs].  The manager is a shared handle;
    its clones agree because they point to one [ImpersonationState], which is
    what the operations below transform. *)
From S2P Require Import Prelude Types.

Record ImpersonationState := mkImpersonation {
  auto : bool;
  accounts : gset Address;
}.

(** [ImpersonationState::default()] *)
Definition default_impersonation : ImpersonationState := mkImpersonation false ∅.

Definition is_impersonating (s : ImpersonationState) (addr : Address) : bool :=
  auto s || bool_decide (addr ∈ accounts s).

Definition set_auto_impersonation (enabled : bool) (s : ImpersonationState) : ImpersonationState :=
  mkImpersonation enabled (accounts s).

(** [HashSet::insert] answers whether the element was absent. *)
Definition impersonate (addr : Address) (s : ImpersonationState) : bool * ImpersonationState :=
  (bool_decide (addr ∉ accounts s), mkImpersonation (auto s) ({[addr]} ∪ accounts s)).

(** [HashSet::remove] answers whether the element was present. *)
Definition stop_impersonating (addr : Address) (s : ImpersonationState) : bool * ImpersonationState :=
  (bool_decide (addr ∈ accounts s), mkImpersonation (auto s) (accounts s ∖ {[addr]})).

Definition set_state (new _ : ImpersonationState) : ImpersonationState := new.

(** Stopping undoes starting, for every account and in both modes. *)
Lemma stop_after_start addr a s :
  is_impersonating (stop_impersonating addr (impersonate addr s).2).2 a =
  is_impersonating (stop_impersonating addr s).2 a.
Proof.
  unfold is_impersonating; simpl. f_equal. apply bool_decide_ext. set_solver.
Qed.

(** Starting an impersonation makes exactly that account impersonated and
    reports whether it was not in the set before; stopping takes exactly that
    account out of the set, but while auto-impersonation is on the account
    stays impersonated; turning the mode off leaves the explicit set as it
    was. *)
Theorem impersonation_behaviour (s : ImpersonationState) (addr a : Address) :
  is_impersonating (impersonate addr s).2 a = (is_impersonating s a || bool_decide (a = addr)) ∧
  ((impersonate addr s).1 = true ↔ addr ∉ accounts s) ∧
  is_impersonating (stop_impersonating addr s).2 a =
    (auto s || (is_impersonating s a && negb (bool_decide (a = addr)))) ∧
  ((stop_impersonating addr s).1 = true ↔ addr ∈ accounts s) ∧
  is_impersonating (set_auto_impersonation true s) a = true ∧
  is_impersonating (set_auto_impersonation false s) a = bool_decide (a ∈ accounts s).
Proof.
  unfold is_impersonating; simpl. rewrite !bool_decide_eq_true.
  split_and!; [|done| |done..]; destruct (auto s); simpl; try done.
  - repeat case_bool_decide; set_solver.
  - repeat case_bool_decide; set_solver.
Qed.
