(* ===== verification/Time.v ===== *)
(** * The node's clock

    [crates/core/src/node/inner/time.rs].  One [TimeState] behind a lock is
    shared by the node, the VM runner and the API; the operations below are
    the methods of [Time] on that state.  Timestamps are [u64] seconds. *)
From S2P Require Import Prelude Types.
From Stdlib Require Import Sorted.
Local Open Scope Z_scope.

Record TimeState := mkTime {
  current_timestamp : Z;
  next_timestamp : option Z;
  interval_opt : option Z;
}.

(** [Time::new] *)
Definition Time_new (current : Z) : TimeState := mkTime current None None.

(** [TimeState::interval] *)
Definition interval (s : TimeState) : Z := default 1 (interval_opt s).

Definition set_current_timestamp_unchecked (timestamp : Z) (s : TimeState) : Z * TimeState :=
  let diff := saturating_sub_i128 timestamp (current_timestamp s) in
  (diff, mkTime timestamp None (interval_opt s)).

(** [TimestampBackwardsError] *)
Record TimestampBackwards := mkBackwards {
  timestamp_requested : Z;
  timestamp_now : Z;
}.

Definition enforce_next_timestamp (timestamp : Z) (s : TimeState)
    : result unit TimestampBackwards * TimeState :=
  if timestamp <=? current_timestamp s then
    (Err (mkBackwards timestamp (current_timestamp s)), s)
  else
    (Ok tt, mkTime (current_timestamp s) (Some timestamp) (interval_opt s)).

Definition increase_time (seconds : Z) (s : TimeState) : Z * TimeState :=
  let next := saturating_add_u64 (current_timestamp s) seconds in
  (next, mkTime next None (interval_opt s)).

Definition get_block_timestamp_interval (s : TimeState) : option Z := interval_opt s.

Definition set_block_timestamp_interval (seconds : option Z) (s : TimeState) : TimeState :=
  mkTime (current_timestamp s) (next_timestamp s) seconds.

Definition remove_block_timestamp_interval (s : TimeState) : bool * TimeState :=
  (bool_decide (is_Some (interval_opt s)),
   mkTime (current_timestamp s) (next_timestamp s) None).

Definition peek_next_timestamp (s : TimeState) : Z :=
  match next_timestamp s with
  | Some t => t
  | None => saturating_add_u64 (current_timestamp s) (interval s)
  end.

Definition advance_timestamp (s : TimeState) : Z * TimeState :=
  let next :=
    match next_timestamp s with
    | Some t => t
    | None => saturating_add_u64 (current_timestamp s) (interval s)
    end in
  (next, mkTime next None (interval_opt s)).

Definition reset_to (timestamp : Z) (s : TimeState) : TimeState :=
  mkTime timestamp None (interval_opt s).

(** ** Invariant *)
Definition time_wf (s : TimeState) : Prop :=
  is_u64 (current_timestamp s) ∧
  (∀ t, next_timestamp s = Some t → current_timestamp s < t <= u64_max) ∧
  (∀ i, interval_opt s = Some i → is_u64 i).

(** Every operation of the clock, with [u64] arguments. *)
Inductive TimeOp :=
| TSet (timestamp : Z)
| TEnforce (timestamp : Z)
| TIncrease (seconds : Z)
| TInterval (seconds : option Z)
| TRemoveInterval
| TAdvance
| TReset (timestamp : Z).

Definition time_op_wf (op : TimeOp) : Prop :=
  match op with
  | TSet t | TEnforce t | TIncrease t | TReset t => is_u64 t
  | TInterval o => ∀ i, o = Some i → is_u64 i
  | TRemoveInterval | TAdvance => True
  end.

Definition time_op (op : TimeOp) (s : TimeState) : TimeState :=
  match op with
  | TSet t => (set_current_timestamp_unchecked t s).2
  | TEnforce t => (enforce_next_timestamp t s).2
  | TIncrease d => (increase_time d s).2
  | TInterval o => set_block_timestamp_interval o s
  | TRemoveInterval => (remove_block_timestamp_interval s).2
  | TAdvance => (advance_timestamp s).2
  | TReset t => reset_to t s
  end.

Lemma interval_u64 s : time_wf s → is_u64 (interval s).
Proof.
  intros (_&_&Hi). unfold interval. destruct (interval_opt s) as [i|]; simpl; [by apply Hi|].
  by vm_compute.
Qed.

Lemma time_op_preserves_wf op s : time_wf s → time_op_wf op → time_wf (time_op op s).
Proof.
  intros Hwf Hop. pose proof (interval_u64 _ Hwf) as Hiv. destruct Hwf as (Hc&Hn&Hi).
  destruct op; simpl in *; unfold time_wf; simpl; try (split_and!; done).
  - unfold enforce_next_timestamp. case_match eqn:E; simpl; [done|]. apply Z.leb_gt in E.
    split_and!; [done| |done]. intros t [= <-]. destruct Hop; lia.
  - split_and!; [|done..]. auto with node.
  - split_and!; [|done..]. destruct (next_timestamp s) as [t|] eqn:E.
    + destruct (Hn t eq_refl), Hc. split; lia.
    + auto with node.
Qed.

(** ** Peeking and advancing agree *)
Lemma advance_peek s : (advance_timestamp s).1 = peek_next_timestamp s.
Proof. done. Qed.

Lemma advance_ge s : time_wf s → current_timestamp s <= (advance_timestamp s).1 <= u64_max.
Proof.
  intros Hwf. pose proof (interval_u64 _ Hwf) as [? ?]. destruct Hwf as ([? ?]&Hn&_).
  unfold advance_timestamp; simpl. destruct (next_timestamp s) as [t|] eqn:E.
  - specialize (Hn t eq_refl). lia.
  - unfold saturating_add_u64. lia.
Qed.

Lemma advance_gt s :
  time_wf s → interval_opt s ≠ Some 0 → current_timestamp s < u64_max →
  current_timestamp s < (advance_timestamp s).1.
Proof.
  intros Hwf Hz Hlt. pose proof (interval_u64 _ Hwf) as [? ?]. destruct Hwf as (_&Hn&_).
  unfold advance_timestamp; simpl. destruct (next_timestamp s) as [t|] eqn:E.
  - specialize (Hn t eq_refl). lia.
  - apply saturating_add_u64_lt; [|done]. unfold interval in *.
    destruct (interval_opt s) as [i|]; simpl in *; [|lia].
    destruct (decide (i = 0)) as [->|]; [done|lia].
Qed.

(** ** Timestamps of a run

    The operations that do not set the clock by fiat: the timestamps that
    [advance_timestamp] hands out while they run. *)
Definition forward_op (op : TimeOp) : Prop :=
  match op with
  | TSet _ | TReset _ => False
  | TInterval o => o ≠ Some 0
  | _ => True
  end.

Fixpoint time_run (ops : list TimeOp) (s : TimeState) : list Z * TimeState :=
  match ops with
  | [] => ([], s)
  | op :: ops =>
      let r := time_run ops (time_op op s) in
      (match op with TAdvance => (advance_timestamp s).1 :: r.1 | _ => r.1 end, r.2)
  end.

Lemma forward_op_mono op s :
  time_wf s → time_op_wf op → forward_op op →
  current_timestamp s <= current_timestamp (time_op op s).
Proof.
  intros Hwf Hop Hf. pose proof (advance_ge _ Hwf) as Ha.
  destruct op; simpl in *; try done; try lia.
  - unfold enforce_next_timestamp. destruct (_ <=? _); simpl; lia.
  - apply saturating_add_u64_le; [by destruct Hop|by destruct Hwf as [[? ?] _]].
Qed.

Lemma forward_op_interval op s :
  interval_opt s ≠ Some 0 → forward_op op → interval_opt (time_op op s) ≠ Some 0.
Proof.
  intros Hi Hf. destruct op; simpl in *; try done.
  unfold enforce_next_timestamp. by case_match.
Qed.

Lemma time_run_mono ops s :
  time_wf s → Forall time_op_wf ops → Forall forward_op ops →
  current_timestamp s <= current_timestamp (time_run ops s).2.
Proof.
  revert s; induction ops as [|op ops IH]; intros s Hwf Ho Hf; simpl; [lia|].
  apply Forall_cons in Ho as [Ho1 Ho2], Hf as [Hf1 Hf2].
  pose proof (forward_op_mono op s Hwf Ho1 Hf1).
  pose proof (IH _ (time_op_preserves_wf op s Hwf Ho1) Ho2 Hf2). lia.
Qed.

(** C30: as long as nobody sets the clock directly and no zero interval is
    installed, the timestamps handed out for successive blocks strictly
    increase, all of them past the starting time, until the clock reaches the
    last 64-bit second. *)
Theorem timestamps_increase (ops : list TimeOp) (s : TimeState) :
  time_wf s → interval_opt s ≠ Some 0 →
  Forall time_op_wf ops → Forall forward_op ops →
  current_timestamp (time_run ops s).2 < u64_max →
  StronglySorted Z.lt (current_timestamp s :: (time_run ops s).1).
Proof.
  revert s; induction ops as [|op ops IH]; intros s Hwf Hi Ho Hf Hend; simpl in *.
  { repeat constructor. }
  apply Forall_cons in Ho as [Ho1 Ho2], Hf as [Hf1 Hf2].
  pose proof (time_op_preserves_wf op s Hwf Ho1) as Hwf1.
  pose proof (forward_op_interval op s Hi Hf1) as Hi1.
  pose proof (forward_op_mono op s Hwf Ho1 Hf1) as Hm1.
  pose proof (time_run_mono ops _ Hwf1 Ho2 Hf2) as Hm2.
  specialize (IH _ Hwf1 Hi1 Ho2 Hf2 Hend).
  apply StronglySorted_inv in IH as [Hs Hall].
  assert (Hweak : StronglySorted Z.lt (current_timestamp s :: (time_run ops (time_op op s)).1)).
  { constructor; [done|]. eapply Forall_impl; [exact Hall|]. simpl; intros; lia. }
  destruct op; simpl in *; try done.
  pose proof (advance_gt s Hwf Hi) as Hgt. specialize (Hgt ltac:(lia)).
  constructor; [by constructor|]. constructor; [exact Hgt|].
  eapply Forall_impl; [exact Hall|]. simpl. unfold advance_timestamp in *; simpl in *. lia.
Qed.

Definition sample_ops : list TimeOp :=
  [TAdvance; TEnforce 2000; TAdvance; TInterval (Some 5); TIncrease 100; TAdvance].

Lemma timestamps_increase_witness :
  StronglySorted Z.lt (1000 :: (time_run sample_ops (Time_new 1000)).1) ∧
  (time_run sample_ops (Time_new 1000)).1 = [1001; 2000; 2105].
Proof.
  split; [|reflexivity]. apply (timestamps_increase sample_ops (Time_new 1000)).
  - unfold time_wf, is_u64, u64_max; simpl. split_and!; [lia..|done|done].
  - done.
  - rewrite Forall_forall; intros op Hop. unfold sample_ops in Hop.
    repeat (apply elem_of_cons in Hop as [->|Hop]; [unfold time_op_wf, is_u64, u64_max;
      first [lia | done | intros i [= <-]; lia]|]). by apply elem_of_nil in Hop.
  - unfold sample_ops. repeat constructor; done.
  - vm_compute; reflexivity.
Defined.

(** From any sequence of clock operations the clock stays a 64-bit value,
    an enforced next timestamp stays in the future and a configured interval
    stays a 64-bit value; [enforce_next_timestamp] refuses exactly the
    timestamps that are not in the future and then changes nothing; the
    difference reported by setting the clock is exact; and peeking predicts
    the timestamp the next block gets. *)
Theorem clock_wellformed (ops : list TimeOp) (start t : Z) :
  is_u64 start → is_u64 t → Forall time_op_wf ops →
  let s := foldl (λ s op, time_op op s) (Time_new start) ops in
  time_wf s ∧
  ((∃ e, (enforce_next_timestamp t s).1 = Err e) ↔ t <= current_timestamp s) ∧
  (∀ e, (enforce_next_timestamp t s).1 = Err e → (enforce_next_timestamp t s).2 = s) ∧
  (set_current_timestamp_unchecked t s).1 = t - current_timestamp s ∧
  (advance_timestamp s).1 = peek_next_timestamp s.
Proof.
  intros Hstart Ht Hops s.
  assert (Hwf : time_wf s).
  { subst s. assert (time_wf (Time_new start)) as H0 by done. revert H0.
    generalize (Time_new start). induction Hops as [|op ops Hop Hops IH]; intros s0 H0; simpl; [done|].
    apply IH. by apply time_op_preserves_wf. }
  split; [done|]. clearbody s. unfold enforce_next_timestamp.
  destruct (t <=? current_timestamp s) eqn:E; zbool; simpl.
  - split; [split; [done|eauto]|]. split; [by intros ? _|].
    destruct Hwf as [[? ?] _], Ht. unfold set_current_timestamp_unchecked, saturating_sub_i128; simpl.
    unfold i128_min, i128_max, u64_max in *. split; [lia|done].
  - split; [split; [by intros [? ?]|lia]|]. split; [done|].
    destruct Hwf as [[? ?] _], Ht. unfold set_current_timestamp_unchecked, saturating_sub_i128; simpl.
    unfold i128_min, i128_max, u64_max in *. split; [lia|done].
Qed.

Lemma clock_wellformed_witness :
  time_wf (foldl (λ s op, time_op op s) (Time_new 1000) [TAdvance; TEnforce 500]) ∧
  ∃ e, (enforce_next_timestamp 1001
          (foldl (λ s op, time_op op s) (Time_new 1000) [TAdvance; TEnforce 500])).1 = Err e.
Proof.
  assert (Hu : ∀ x, 0 <= x <= 5000 → is_u64 x) by (unfold is_u64, u64_max; lia).
  destruct (clock_wellformed [TAdvance; TEnforce 500] 1000 1001) as (H1&H2&_).
  - apply Hu; lia.
  - apply Hu; lia.
  - repeat constructor; simpl; apply Hu; lia.
  - split; [exact H1|]. apply H2. vm_compute. discriminate.
Defined.

(** A zero interval makes the clock stand still: the next two blocks get the
    timestamp of the last one. *)
Example zero_interval_stalls :
  let s := set_block_timestamp_interval (Some 0) (Time_new 1000) in
  (advance_timestamp s).1 = 1000 ∧ (advance_timestamp (advance_timestamp s).2).1 = 1000.
Proof. split; reflexivity. Qed.
