(* ===== verification/Pool.v ===== *)
(** * The transaction pool

    [crates/core/src/node/pool.rs] and
    [crates/types/src/transaction_order.rs].  The [BTreeSet] is the list of
    its elements in ascending order; [bt_insert] keeps it so and, like the
    real set, leaves an element that compares equal in place.  The listener
    channels of the [futures] crate are a parameter: the class [Channel]. *)
From S2P Require Import Prelude Types Impersonate.
From Stdlib Require Import Sorted Permutation.
From stdpp Require Import sorting.
Local Open Scope Z_scope.

(** ** Ordering of transactions *)
Inductive TransactionOrder := Fifo | Fees.

Definition default_order : TransactionOrder := Fees.

(** [FromStr] and [Display] of [TransactionOrder]; [lower] is
    [str::to_lowercase] on ASCII. *)
Definition lower_char (c : Ascii.ascii) : Ascii.ascii :=
  let n := Ascii.nat_of_ascii c in
  if (65 <=? n)%nat && (n <=? 90)%nat then Ascii.ascii_of_nat (n + 32) else c.

Fixpoint lower (s : string) : string :=
  match s with
  | EmptyString => EmptyString
  | String c s => String (lower_char c) (lower s)
  end.

Definition order_from_str (s : string) : result TransactionOrder string :=
  let s := lower s in
  if bool_decide (s = "fees"%string) then Ok Fees
  else if bool_decide (s = "fifo"%string) then Ok Fifo
  else Err ("Unknown TransactionOrder: `" +:+ s +:+ "`")%string.

Definition order_display (o : TransactionOrder) : string :=
  match o with Fifo => "fifo" | Fees => "fees" end.

Section Pool.
Context {TA : TransactionApi}.

(** [TransactionOrder::priority] *)
Definition priority_of (o : TransactionOrder) (tx : Transaction) : Z :=
  match o with
  | Fifo => 0
  | Fees => tx_max_fee_per_gas tx
  end.

Record PoolTransaction := mkPoolTx {
  transaction : Transaction;
  submission_number : Z;
  priority : Z;
}.

(** [Ord for PoolTransaction]: by priority, earlier submissions greater. *)
Definition pool_cmp (a b : PoolTransaction) : comparison :=
  match priority a ?= priority b with
  | Eq => submission_number b ?= submission_number a
  | c => c
  end.

(** [BTreeSet::insert] *)
Fixpoint bt_insert (x : PoolTransaction) (l : list PoolTransaction) : list PoolTransaction :=
  match l with
  | [] => [x]
  | y :: ys =>
      match pool_cmp x y with
      | Lt => x :: y :: ys
      | Eq => y :: ys
      | Gt => y :: bt_insert x ys
      end
  end.

(** ** Listeners *)
Inductive SendOutcome (C : Type) := Sent (c : C) | ChanFull (c : C) | Disconnected.
Arguments Sent {_} _.
Arguments ChanFull {_} _.
Arguments Disconnected {_}.

(** [futures::channel::mpsc]: a bounded channel, sending to it without
    waiting, and receiving what is buffered ([None] when there is nothing
    now). *)
Class Channel := {
  chan : Type;
  chan_new : Z → chan;
  try_send : chan → H256 → SendOutcome chan;
  poll_next : chan → option (H256 * chan);
  (** How many messages are buffered; receiving one takes one out. *)
  chan_len : chan → nat;
  poll_next_len c h c' : poll_next c = Some (h, c') → (chan_len c' < chan_len c)%nat;
}.
Context {CH : Channel}.

Record TxPool := mkPool {
  pool_inner : list PoolTransaction;
  pool_order : TransactionOrder;
  pool_submission_number : Z;
  pool_listeners : list chan;
}.

Definition set_pool_inner (l : list PoolTransaction) (p : TxPool) : TxPool :=
  mkPool l (pool_order p) (pool_submission_number p) (pool_listeners p).

(** [TxPool::new] *)
Definition TxPool_new (o : TransactionOrder) : TxPool := mkPool [] o 0 [].

(** [notify_listeners]: [retain_mut] keeps a listener unless its receiver is
    gone. *)
Definition notify_listeners (tx_hash : H256) (ls : list chan) : list chan :=
  omap (λ l, match try_send l tx_hash with
             | Sent c => Some c
             | ChanFull c => Some c
             | Disconnected => None
             end) ls.

Definition TX_LISTENER_BUFFER_SIZE : Z := 2048.

(** [add_tx_listener]: the pool keeps the sending half; the channel is
    handed to the caller as the receiving half. *)
Definition add_tx_listener (p : TxPool) : chan * TxPool :=
  let c := chan_new TX_LISTENER_BUFFER_SIZE in
  (c, mkPool (pool_inner p) (pool_order p) (pool_submission_number p) (pool_listeners p ++ [c])).

(** ** Adding *)

(** The body shared by [add_tx] and the loop of [add_txs]. *)
Definition add_tx (tx : Transaction) (p : TxPool) : TxPool :=
  let hash := tx_hash tx in
  let prio := priority_of (pool_order p) tx in
  let n := wrapping_add_u64 (pool_submission_number p) 1 in
  mkPool (bt_insert (mkPoolTx tx n prio) (pool_inner p)) (pool_order p) n
    (notify_listeners hash (pool_listeners p)).

Definition add_txs (txs : list Transaction) (p : TxPool) : TxPool :=
  foldl (λ p tx, add_tx tx p) p txs.

(** ** Removing *)
Definition drop_transactions (f : PoolTransaction → bool) (p : TxPool)
    : list Transaction * TxPool :=
  let matching := filter (λ t, f t = true) (pool_inner p) in
  let other := filter (λ t, f t = false) (pool_inner p) in
  (transaction <$> matching, set_pool_inner other p).

Definition drop_transaction (hash : H256) (p : TxPool) : option Transaction * TxPool :=
  let r := drop_transactions (λ t, tx_hash (transaction t) =? hash) p in
  (head r.1, r.2).

Definition clear (p : TxPool) : TxPool := set_pool_inner [] p.

(** ** Taking a batch *)
Record TxBatch := mkTxBatch {
  impersonating : bool;
  txs : list Transaction;
}.

(** [Vec::insert(i, x)] *)
Definition vec_insert {A} (i : nat) (x : A) (l : list A) : list A :=
  take i l ++ x :: drop i l.

Definition tx_impersonating (st : ImpersonationState) (t : PoolTransaction) : bool :=
  is_impersonating st (initiator_account (transaction t)).

(** The [while] loop of [take_uniform]: [fuel] bounds its iterations, each of
    which pops an element of [guard]. *)
Fixpoint take_loop (fuel : nat) (st : ImpersonationState) (imp : bool) (n number : nat)
    (guard : list PoolTransaction) (taken : list Transaction)
    : list PoolTransaction * list Transaction :=
  match fuel with
  | O => (guard, taken)
  | S fuel =>
      if (number <? n)%nat then
        match last guard with
        | None => (guard, taken)
        | Some next_tx =>
            if negb (eqb imp (tx_impersonating st next_tx)) then (guard, taken)
            else take_loop fuel st imp n (S number) (removelast guard)
                   (vec_insert number (transaction next_tx) taken)
        end
      else (guard, taken)
  end.

Definition take_uniform (st : ImpersonationState) (n : nat) (p : TxPool)
    : option TxBatch * TxPool :=
  if (n =? 0)%nat then (None, p)
  else
    match last (pool_inner p) with
    | None => (None, p)
    | Some head_tx =>
        let guard := removelast (pool_inner p) in
        let imp := tx_impersonating st head_tx in
        let r := take_loop (length guard) st imp n 1 guard [transaction head_tx] in
        (Some (mkTxBatch imp r.2), set_pool_inner r.1 p)
    end.

(** ** The order of the pool *)
Definition pool_lt (a b : PoolTransaction) : Prop :=
  priority a < priority b ∨ (priority a = priority b ∧ submission_number b < submission_number a).

Definition pool_sorted (l : list PoolTransaction) : Prop := StronglySorted pool_lt l.

Lemma pool_cmp_spec a b :
  match pool_cmp a b with
  | Lt => pool_lt a b
  | Gt => pool_lt b a
  | Eq => priority a = priority b ∧ submission_number a = submission_number b
  end.
Proof.
  unfold pool_cmp, pool_lt. destruct (Z.compare_spec (priority a) (priority b)); [|lia..].
  destruct (Z.compare_spec (submission_number b) (submission_number a)); lia.
Qed.

Lemma pool_lt_trans a b c : pool_lt a b → pool_lt b c → pool_lt a c.
Proof. unfold pool_lt; lia. Qed.

Lemma bt_insert_elem x l y : y ∈ bt_insert x l → y = x ∨ y ∈ l.
Proof.
  induction l as [|z l IH]; simpl; [by rewrite list_elem_of_singleton; left|].
  destruct (pool_cmp x z).
  - by right.
  - rewrite elem_of_cons. tauto.
  - rewrite !elem_of_cons. naive_solver.
Qed.

Lemma bt_insert_sorted x l : pool_sorted l → pool_sorted (bt_insert x l).
Proof.
  induction 1 as [|y l Hs IH Hy]; simpl; [repeat constructor|].
  pose proof (pool_cmp_spec x y) as Hc. destruct (pool_cmp x y).
  - by constructor.
  - constructor; [by constructor|]. constructor; [done|].
    eapply Forall_impl; [exact Hy|]. eauto using pool_lt_trans.
  - constructor; [done|]. rewrite Forall_forall in *. intros z [->|Hz]%bt_insert_elem; auto.
Qed.

(** An element that compares equal to none of the pool is really added. *)
Lemma bt_insert_perm x l :
  Forall (λ y, pool_cmp x y ≠ Eq) l → bt_insert x l ≡ₚ x :: l.
Proof.
  induction l as [|y l IH]; simpl; [done|]. intros [Hy Hl]%Forall_cons.
  destruct (pool_cmp x y); [done..|]. rewrite IH by done. by constructor.
Qed.

Lemma pool_lt_cmp a b : submission_number a ≠ submission_number b → pool_cmp a b ≠ Eq.
Proof. intros Hne H. pose proof (pool_cmp_spec a b) as Hc. rewrite H in Hc. lia. Qed.

(** ** The loop of [take_uniform] *)
Lemma vec_insert_end {A} (x : A) (l : list A) : vec_insert (length l) x l = l ++ [x].
Proof. unfold vec_insert. rewrite take_ge, drop_ge by lia. done. Qed.

Lemma removelast_last {A} (l : list A) x : last l = Some x → l = removelast l ++ [x].
Proof.
  intros H. assert (l ≠ []) as Hne by (by intros ->).
  rewrite (app_removelast_last x Hne) at 1. do 2 f_equal.
  rewrite (app_removelast_last x Hne) in H at 1. rewrite last_snoc in H. congruence.
Qed.

(** What the loop has taken ([more], greatest first) and what stops it. *)
Lemma take_loop_spec st imp n fuel number guard taken :
  (length guard <= fuel)%nat → number = length taken →
  ∃ rest more,
    take_loop fuel st imp n number guard taken = (rest, taken ++ (transaction <$> more)) ∧
    guard = rest ++ rev more ∧
    Forall (λ t, tx_impersonating st t = imp) more ∧
    (more = [] ∨ number + length more <= n)%nat ∧
    ((n <= number + length more)%nat ∨ rest = [] ∨
     ∃ t, last rest = Some t ∧ tx_impersonating st t ≠ imp).
Proof.
  revert number guard taken; induction fuel as [|fuel IH];
    intros number guard taken Hf Hn; simpl.
  { destruct guard; [|simpl in Hf; lia]. exists [], []. rewrite app_nil_r.
    split_and!; auto. }
  destruct (number <? n)%nat eqn:E; [apply Nat.ltb_lt in E|apply Nat.ltb_ge in E].
  2:{ exists guard, []. simpl. rewrite !app_nil_r. split_and!; auto. left; lia. }
  destruct (last guard) as [t|] eqn:El.
  2:{ apply last_None in El as ->. exists [], []. rewrite app_nil_r. split_and!; auto. }
  destruct (eqb imp (tx_impersonating st t)) eqn:Eb; simpl.
  2:{ exists guard, []. simpl. rewrite !app_nil_r. split_and!; auto. right; right.
      exists t. split; [done|]. intros Ht. rewrite Ht in Eb. by rewrite eqb_reflx in Eb. }
  apply eqb_prop in Eb. pose proof (removelast_last _ _ El) as Hg.
  destruct (IH (S number) (removelast guard) (taken ++ [transaction t]))
    as (rest&more&Hr&Hg'&Hall&Hle&Hstop).
  { rewrite Hg in Hf. rewrite length_app in Hf; simpl in Hf. lia. }
  { rewrite length_app; simpl; lia. }
  exists rest, (t :: more). subst number. rewrite vec_insert_end. split_and!.
  - rewrite Hr. by rewrite <-app_assoc.
  - rewrite Hg, Hg'. simpl. by rewrite app_assoc.
  - by constructor.
  - right. destruct Hle as [->|Hle]; simpl in *; lia.
  - simpl. destruct Hstop as [?|[?|?]]; [left; lia|auto..].
Qed.
End Pool.

Arguments Sent {_} _.
Arguments ChanFull {_} _.
Arguments Disconnected {_}.

Section PoolTheorems.
Context {TA : TransactionApi} {CH : Channel}.

Lemma take_uniform_run (st : ImpersonationState) (n : nat) (p : TxPool) :
  match take_uniform st n p with
  | (None, p') => p' = p ∧ (n = 0%nat ∨ pool_inner p = [])
  | (Some b, p') =>
      ∃ taken rest,
        pool_inner p = rest ++ rev taken ∧ p' = set_pool_inner rest p ∧
        txs b = transaction <$> taken ∧
        (0 < length taken <= n)%nat ∧
        Forall (λ t, tx_impersonating st t = impersonating b) taken ∧
        (length taken = n ∨ rest = [] ∨
         ∃ t, last rest = Some t ∧ tx_impersonating st t ≠ impersonating b)
  end.
Proof.
  unfold take_uniform. destruct (n =? 0)%nat eqn:En.
  { apply Nat.eqb_eq in En. auto. }
  apply Nat.eqb_neq in En. destruct (last (pool_inner p)) as [t|] eqn:El.
  2:{ apply last_None in El. auto. }
  pose proof (removelast_last _ _ El) as Hg.
  destruct (take_loop_spec st (tx_impersonating st t) n (length (removelast (pool_inner p)))
    1 (removelast (pool_inner p)) [transaction t]) as (rest&more&Hr&Hg'&Hall&Hle&Hstop); [done..|].
  rewrite Hr; simpl. exists (t :: more), rest. simpl. split_and!; try done.
  - rewrite Hg at 1. rewrite Hg' at 1. by rewrite app_assoc.
  - lia.
  - destruct Hle as [->|?]; simpl; lia.
  - by constructor.
  - destruct Hstop as [?|[?|?]]; auto. left. destruct Hle as [->|?]; simpl in *; lia.
Qed.

(** [take_uniform] answers nothing, and changes nothing, exactly when it
    is asked for nothing or the pool is empty.  Otherwise it removes from the
    top of the pool, in order, a non-empty run of at most [n] transactions
    that all have the impersonation status announced in the batch, and the
    run is as long as possible: it stops only at [n], at the end of the pool
    or before a transaction of the other status. *)
Theorem take_uniform_spec (st : ImpersonationState) (n : nat) (p : TxPool) :
  match take_uniform st n p with
  | (None, p') => p' = p ∧ (n = 0%nat ∨ pool_inner p = [])
  | (Some b, p') =>
      ∃ taken rest,
        pool_inner p = rest ++ rev taken ∧ p' = set_pool_inner rest p ∧
        txs b = transaction <$> taken ∧
        (0 < length taken <= n)%nat ∧
        Forall (λ t, tx_impersonating st t = impersonating b) taken ∧
        (length taken = n ∨ rest = [] ∨
         ∃ t, last rest = Some t ∧ tx_impersonating st t ≠ impersonating b)
  end.
Proof. apply take_uniform_run. Qed.

(** The pool entries of a list of submissions, numbered from one. *)
Definition entries (o : TransactionOrder) (l : list Transaction) : list PoolTransaction :=
  imap (λ i tx, mkPoolTx tx (Z.of_nat i + 1) (priority_of o tx)) l.

Lemma entries_snoc o l tx :
  entries o (l ++ [tx]) = entries o l ++ [mkPoolTx tx (Z.of_nat (length l) + 1) (priority_of o tx)].
Proof. unfold entries. rewrite imap_app; simpl. by rewrite Nat.add_0_r. Qed.

Lemma entries_submission o l t :
  t ∈ entries o l → 1 <= submission_number t <= Z.of_nat (length l).
Proof.
  intros (i&Hi)%list_elem_of_lookup. unfold entries in Hi.
  rewrite list_lookup_imap in Hi. destruct (l !! i) eqn:E; simplify_eq/=.
  apply lookup_lt_Some in E. lia.
Qed.

Lemma add_txs_state o l :
  Z.of_nat (length l) < 2 ^ 64 →
  let p := add_txs l (TxPool_new o) in
  pool_order p = o ∧ pool_submission_number p = Z.of_nat (length l) ∧
  pool_sorted (pool_inner p) ∧ pool_inner p ≡ₚ entries o l.
Proof.
  induction l as [|tx l IH] using rev_ind; intros Hlen; simpl.
  { split_and!; [done..| |done]. constructor. }
  rewrite length_app in *; simpl in *. specialize (IH ltac:(lia)).
  unfold add_txs in *. rewrite foldl_snoc; simpl.
  set (p := foldl _ (TxPool_new o) l) in *. destruct IH as (Ho&Hn&Hs&Hp).
  rewrite Ho, Hn. rewrite wrapping_add_u64_small by (unfold u64_max; lia).
  split_and!; [done|lia|by apply bt_insert_sorted|].
  rewrite entries_snoc, bt_insert_perm.
  - by rewrite Hp, Permutation_app_comm.
  - rewrite Hp. apply Forall_forall. intros t Ht%entries_submission.
    apply pool_lt_cmp; simpl; lia.
Qed.

(** A strictly sorted pool is determined by its elements. *)
Lemma pool_sorted_unique l1 l2 :
  pool_sorted l1 → pool_sorted l2 → l1 ≡ₚ l2 → l1 = l2.
Proof.
  intros H1 H2 Hp. apply (StronglySorted_unique_strong pool_lt); try done.
  intros x1 x2 _ _. unfold pool_lt; lia.
Qed.

Lemma entries_priority o l t : t ∈ entries o l → priority t = priority_of o (transaction t).
Proof.
  intros (i&Hi)%list_elem_of_lookup. unfold entries in Hi.
  rewrite list_lookup_imap in Hi. by destruct (l !! i) eqn:E; simplify_eq/=.
Qed.

Lemma entries_fifo_sorted l : pool_sorted (rev (entries Fifo l)).
Proof.
  induction l as [|tx l IH] using rev_ind; [constructor|].
  rewrite entries_snoc, rev_app_distr; simpl. constructor; [done|].
  apply Forall_forall. intros t Ht. rewrite elem_of_rev in Ht. right; simpl.
  rewrite (entries_priority _ _ _ Ht). apply entries_submission in Ht. simpl. lia.
Qed.

(** C19: submitting fewer than 2^64 transactions to a fresh pool loses and
    duplicates none of them: the pool holds exactly the submissions, in the
    order of their priorities with earlier submissions ahead of later ones
    of the same priority.  Under the [fifo] order the batches therefore come
    out in submission order; under the [fees] order no transaction is taken
    before one that pays more. *)
Theorem pool_schedule (o : TransactionOrder) (l : list Transaction) :
  Z.of_nat (length l) < 2 ^ 64 →
  let p := add_txs l (TxPool_new o) in
  pool_inner p ≡ₚ entries o l ∧
  StronglySorted (λ a b, pool_lt b a) (rev (pool_inner p)) ∧
  (o = Fifo → transaction <$> rev (pool_inner p) = l) ∧
  (o = Fees → StronglySorted (λ a b, tx_max_fee_per_gas b <= tx_max_fee_per_gas a)
                (transaction <$> rev (pool_inner p))).
Proof.
  intros Hlen p. destruct (add_txs_state o l Hlen) as (_&_&Hs&Hp). fold p in Hs, Hp.
  assert (Hrev : StronglySorted (λ a b, pool_lt b a) (rev (pool_inner p))).
  { by apply StronglySorted_rev. }
  split_and!; [done|done| |].
  - intros ->. rewrite (pool_sorted_unique (pool_inner p) (rev (entries Fifo l))).
    + rewrite rev_involutive. unfold entries. rewrite fmap_imap. simpl.
      change (imap (const (λ tx : Transaction, tx)) l = l). by rewrite imap_const, list_fmap_id.
    + done.
    + apply entries_fifo_sorted.
    + by rewrite Hp, <-Permutation_rev.
  - intros ->. assert (Hpr : Forall (λ t, priority t = tx_max_fee_per_gas (transaction t)) (rev (pool_inner p))).
    { apply Forall_forall. intros t Ht. rewrite elem_of_rev in Ht. rewrite Hp in Ht.
      by apply entries_priority in Ht. }
    clear Hp. induction Hrev as [|t ts Hrev IH Ht]; simpl; [constructor|].
    apply Forall_cons in Hpr as [Hpt Hpr]. constructor; [by apply IH|].
    rewrite Forall_fmap, Forall_forall in *. intros t' Ht'; simpl.
    specialize (Ht _ Ht'). specialize (Hpr _ Ht').
    unfold pool_lt in Ht. lia.
Qed.

(** Dropping a transaction removes every pool entry with that hash and
    no other, keeps the order of the rest, and answers with a transaction of
    that hash exactly when the pool had one. *)
Theorem drop_transaction_spec (hash : H256) (p : TxPool) :
  let r := drop_transaction hash p in
  (∀ t, t ∈ pool_inner r.2 ↔ t ∈ pool_inner p ∧ tx_hash (transaction t) ≠ hash) ∧
  pool_inner r.2 `sublist_of` pool_inner p ∧
  (r.1 = None ↔ ∀ t, t ∈ pool_inner p → tx_hash (transaction t) ≠ hash) ∧
  (∀ tx, r.1 = Some tx → tx_hash tx = hash ∧ tx ∈ transaction <$> pool_inner p).
Proof.
  unfold drop_transaction, drop_transactions; simpl. split_and!.
  - intros t. rewrite list_elem_of_filter, Z.eqb_neq. tauto.
  - apply sublist_filter.
  - rewrite head_None. split.
    + intros Hnil t Ht Heq.
      assert (transaction t ∈ transaction <$>
        filter (λ t, (tx_hash (transaction t) =? hash) = true) (pool_inner p)) as Hin.
      { apply list_elem_of_fmap_2, list_elem_of_filter. by rewrite Z.eqb_eq. }
      rewrite Hnil in Hin. by apply elem_of_nil in Hin.
    + intros Hall. destruct (filter _ _) as [|t l] eqn:E; [done|].
      assert (t ∈ filter (λ t, (tx_hash (transaction t) =? hash) = true) (pool_inner p)) as Ht.
      { rewrite E. left. }
      apply list_elem_of_filter in Ht as [Ht%Z.eqb_eq Hin]. by apply Hall in Hin.
  - intros tx Htx%head_Some_elem_of. apply list_elem_of_fmap in Htx as (t&->&Ht).
    apply list_elem_of_filter in Ht as [Ht%Z.eqb_eq Hin].
    split; [done|]. by apply list_elem_of_fmap_2.
Qed.
End PoolTheorems.

(** A channel that buffers as many messages as it is created with. *)
Module SamplePool.
#[refine] Instance channel : Channel := {|
  chan := Z * list H256;
  chan_new n := (n, []);
  try_send c h :=
    if Z.of_nat (length c.2) <? c.1 then Sent (c.1, c.2 ++ [h]) else ChanFull c;
  poll_next c := match c.2 with [] => None | h :: hs => Some (h, (c.1, hs)) end;
  chan_len c := length c.2;
|}.
Proof. intros [n [|h' l]] h c' H; simplify_eq/=; lia. Defined.

Definition submissions : list Transaction :=
  [Sample.l2 11 1 50; Sample.l2 12 2 70; Sample.l2 13 1 70].
End SamplePool.

Lemma pool_schedule_witness :
  tx_hash (TransactionApi := Sample.api) <$>
    (transaction <$> rev (pool_inner
      (@add_txs Sample.api SamplePool.channel SamplePool.submissions
        (@TxPool_new SamplePool.channel Fees)))) = [12; 13; 11] ∧
  transaction <$> rev (pool_inner
      (@add_txs Sample.api SamplePool.channel SamplePool.submissions
        (@TxPool_new SamplePool.channel Fifo))) = SamplePool.submissions.
Proof.
  split; [vm_compute; reflexivity|].
  destruct (@pool_schedule Sample.api SamplePool.channel Fifo SamplePool.submissions)
    as (_&_&H&_); [vm_compute; reflexivity|]. by apply H.
Defined.
