(* ===== verification/Cache.v ===== *)
(** * The cache of remote data

    [crates/common/src/cache.rs].  The directory of a disk cache is a
    [DiskState]: one finite map per sub-directory, from the key a file is named
    after to the value its contents parse to.  A file operation succeeds and
    JSON written and read back is the value written; the [sh_warn] and
    [sh_err] branches only log. *)
From S2P Require Import Prelude Types.
Local Open Scope Z_scope.

Inductive CacheConfig :=
| CacheNone
| CacheMemory
| CacheDisk (dir : string) (reset : bool).

(** [CacheConfig::default()] *)
Definition default_CacheConfig : CacheConfig := CacheDisk ".cache" false.

Abbreviation ApiBlock := (Block TransactionVariant).

Record Cache := mkCache {
  cache_config : CacheConfig;
  block_hashes : gmap Z H256;
  blocks_full : gmap H256 ApiBlock;
  blocks_min : gmap H256 ApiBlock;
  block_raw_transactions : gmap Z (list Transaction);
  transactions : gmap H256 ApiTransaction;
  resolver_selectors : gmap string string;
  bridge_addresses : option BridgeAddresses;
  confirmed_tokens : gmap (Z * Z) (list Token);
}.

Record DiskState := mkDisk {
  disk_blocks_full : gmap H256 ApiBlock;
  disk_blocks_min : gmap H256 ApiBlock;
  disk_block_raw_transactions : gmap Z (list Transaction);
  disk_transactions : gmap H256 ApiTransaction;
  disk_resolver_selectors : gmap string string;
  disk_bridge_addresses : option BridgeAddresses;
}.

Definition empty_disk : DiskState := mkDisk ∅ ∅ ∅ ∅ ∅ None.

(** [Cache { config, ..Default::default() }] *)
Definition empty_cache (config : CacheConfig) : Cache :=
  mkCache config ∅ ∅ ∅ ∅ ∅ ∅ None ∅.

(** The cache and the directory it writes to. *)
Definition CacheState : Type := Cache * DiskState.

(** [matches!(self.config, CacheConfig::None)] *)
Definition cache_off (c : Cache) : bool :=
  match cache_config c with CacheNone => true | _ => false end.

(** [write_to_disk]: only a disk cache touches the directory. *)
Definition write_to_disk (f : DiskState → DiskState) (c : Cache) (d : DiskState) : DiskState :=
  match cache_config c with CacheDisk _ _ => f d | _ => d end.

(** The [block_hashes] entries of a directory of blocks, in listing order. *)
Definition numbered_hashes (m : gmap H256 ApiBlock) : list (Z * H256) :=
  (λ kb : H256 * ApiBlock, (b_number kb.2, b_hash kb.2)) <$> map_to_list m.

(** [read_all_from_disk] *)
Definition read_all_from_disk (d : DiskState) (c : Cache) : Cache :=
  mkCache (cache_config c)
    (extend (extend (block_hashes c) (numbered_hashes (disk_blocks_full d)))
            (numbered_hashes (disk_blocks_min d)))
    (extend (blocks_full c) (map_to_list (disk_blocks_full d)))
    (extend (blocks_min c) (map_to_list (disk_blocks_min d)))
    (extend (block_raw_transactions c) (map_to_list (disk_block_raw_transactions d)))
    (extend (transactions c) (map_to_list (disk_transactions d)))
    (extend (resolver_selectors c) (map_to_list (disk_resolver_selectors d)))
    (match disk_bridge_addresses d with Some a => Some a | None => bridge_addresses c end)
    (confirmed_tokens c).

(** [Cache::new]: a reset removes the sub-directories before reading them. *)
Definition Cache_new (config : CacheConfig) (d : DiskState) : CacheState :=
  let cache := empty_cache config in
  match config with
  | CacheDisk _ reset =>
      let d := if (reset : bool) then empty_disk else d in
      (read_all_from_disk d cache, d)
  | _ => (cache, d)
  end.

(** ** Reads *)
Definition get_block (c : Cache) (hash : H256) (full_transactions : bool) : option ApiBlock :=
  if cache_off c then None
  else if full_transactions then blocks_full c !! hash else blocks_min c !! hash.

Definition get_block_hash (c : Cache) (number : Z) : option H256 :=
  if cache_off c then None else block_hashes c !! number.

Definition get_block_raw_transactions (c : Cache) (number : Z) : option (list Transaction) :=
  if cache_off c then None else block_raw_transactions c !! number.

Definition get_confirmed_tokens (c : Cache) (from limit : Z) : option (list Token) :=
  if cache_off c then None else confirmed_tokens c !! (from, limit).

Definition get_transaction (c : Cache) (hash : H256) : option ApiTransaction :=
  if cache_off c then None else transactions c !! hash.

Definition get_resolver_selector (c : Cache) (selector : string) : option string :=
  if cache_off c then None else resolver_selectors c !! selector.

Definition get_bridge_addresses (c : Cache) : option BridgeAddresses :=
  if cache_off c then None else bridge_addresses c.

(** ** Writes *)
Definition insert_block (hash : H256) (full_transactions : bool) (block : ApiBlock)
    (s : CacheState) : CacheState :=
  let (c, d) := s in
  if cache_off c then (c, d)
  else
    let hashes := <[b_number block := b_hash block]> (block_hashes c) in
    if full_transactions then
      (mkCache (cache_config c) hashes (<[hash := block]> (blocks_full c)) (blocks_min c)
         (block_raw_transactions c) (transactions c) (resolver_selectors c)
         (bridge_addresses c) (confirmed_tokens c),
       write_to_disk (λ d, mkDisk (<[hash := block]> (disk_blocks_full d)) (disk_blocks_min d)
         (disk_block_raw_transactions d) (disk_transactions d) (disk_resolver_selectors d)
         (disk_bridge_addresses d)) c d)
    else
      (mkCache (cache_config c) hashes (blocks_full c) (<[hash := block]> (blocks_min c))
         (block_raw_transactions c) (transactions c) (resolver_selectors c)
         (bridge_addresses c) (confirmed_tokens c),
       write_to_disk (λ d, mkDisk (disk_blocks_full d) (<[hash := block]> (disk_blocks_min d))
         (disk_block_raw_transactions d) (disk_transactions d) (disk_resolver_selectors d)
         (disk_bridge_addresses d)) c d).

Definition set_confirmed_tokens (from limit : Z) (toks : list Token) (s : CacheState) : CacheState :=
  let (c, d) := s in
  if cache_off c then (c, d)
  else
    (mkCache (cache_config c) (block_hashes c) (blocks_full c) (blocks_min c)
       (block_raw_transactions c) (transactions c) (resolver_selectors c) (bridge_addresses c)
       (<[(from, limit) := toks]> (confirmed_tokens c)), d).

Definition insert_block_raw_transactions (number : Z) (txs : list Transaction)
    (s : CacheState) : CacheState :=
  let (c, d) := s in
  if cache_off c then (c, d)
  else
    (mkCache (cache_config c) (block_hashes c) (blocks_full c) (blocks_min c)
       (<[number := txs]> (block_raw_transactions c)) (transactions c) (resolver_selectors c)
       (bridge_addresses c) (confirmed_tokens c),
     write_to_disk (λ d, mkDisk (disk_blocks_full d) (disk_blocks_min d)
       (<[number := txs]> (disk_block_raw_transactions d)) (disk_transactions d)
       (disk_resolver_selectors d) (disk_bridge_addresses d)) c d).

Definition insert_transaction (hash : H256) (tx : ApiTransaction) (s : CacheState) : CacheState :=
  let (c, d) := s in
  if cache_off c then (c, d)
  else
    (mkCache (cache_config c) (block_hashes c) (blocks_full c) (blocks_min c)
       (block_raw_transactions c) (<[hash := tx]> (transactions c)) (resolver_selectors c)
       (bridge_addresses c) (confirmed_tokens c),
     write_to_disk (λ d, mkDisk (disk_blocks_full d) (disk_blocks_min d)
       (disk_block_raw_transactions d) (<[hash := tx]> (disk_transactions d))
       (disk_resolver_selectors d) (disk_bridge_addresses d)) c d).

Definition insert_resolver_selector (selector selector_value : string) (s : CacheState) : CacheState :=
  let (c, d) := s in
  if cache_off c then (c, d)
  else
    (mkCache (cache_config c) (block_hashes c) (blocks_full c) (blocks_min c)
       (block_raw_transactions c) (transactions c)
       (<[selector := selector_value]> (resolver_selectors c)) (bridge_addresses c)
       (confirmed_tokens c),
     write_to_disk (λ d, mkDisk (disk_blocks_full d) (disk_blocks_min d)
       (disk_block_raw_transactions d) (disk_transactions d)
       (<[selector := selector_value]> (disk_resolver_selectors d))
       (disk_bridge_addresses d)) c d).

Definition set_bridge_addresses (a : BridgeAddresses) (s : CacheState) : CacheState :=
  let (c, d) := s in
  if cache_off c then (c, d)
  else
    (mkCache (cache_config c) (block_hashes c) (blocks_full c) (blocks_min c)
       (block_raw_transactions c) (transactions c) (resolver_selectors c) (Some a)
       (confirmed_tokens c),
     write_to_disk (λ d, mkDisk (disk_blocks_full d) (disk_blocks_min d)
       (disk_block_raw_transactions d) (disk_transactions d) (disk_resolver_selectors d)
       (Some a)) c d).

(** ** Restarting

    The writes a node performs, and the invariant of a disk cache: what it
    holds in memory is what its directory holds. *)
Inductive CacheWrite :=
| WBlock (hash : H256) (full : bool) (block : ApiBlock)
| WRawTransactions (number : Z) (txs : list Transaction)
| WTransaction (hash : H256) (tx : ApiTransaction)
| WSelector (selector value : string)
| WBridge (a : BridgeAddresses)
| WTokens (from limit : Z) (toks : list Token).

Definition cache_write (w : CacheWrite) (s : CacheState) : CacheState :=
  match w with
  | WBlock h f b => insert_block h f b s
  | WRawTransactions n l => insert_block_raw_transactions n l s
  | WTransaction h tx => insert_transaction h tx s
  | WSelector k v => insert_resolver_selector k v s
  | WBridge a => set_bridge_addresses a s
  | WTokens f l t => set_confirmed_tokens f l t s
  end.

Definition is_disk (config : CacheConfig) : Prop := ∃ dir reset, config = CacheDisk dir reset.

Definition mirrored (s : CacheState) : Prop :=
  is_disk (cache_config s.1) ∧
  blocks_full s.1 = disk_blocks_full s.2 ∧ blocks_min s.1 = disk_blocks_min s.2 ∧
  block_raw_transactions s.1 = disk_block_raw_transactions s.2 ∧
  transactions s.1 = disk_transactions s.2 ∧
  resolver_selectors s.1 = disk_resolver_selectors s.2 ∧
  bridge_addresses s.1 = disk_bridge_addresses s.2.

Lemma Cache_new_mirrored config d : is_disk config → mirrored (Cache_new config d).
Proof.
  intros (dir&reset&->). unfold mirrored, Cache_new; simpl. rewrite !extend_map_to_list, !map_union_empty.
  split_and!; [by eexists _, _|done..|]. by destruct (disk_bridge_addresses _).
Qed.

Lemma cache_write_mirrored w s : mirrored s → mirrored (cache_write w s).
Proof.
  destruct s as [c d]. intros (Hd&H1&H2&H3&H4&H5&H6); simpl in *.
  pose proof Hd as (dir&reset&Hcfg).
  destruct w; simpl; unfold cache_off, write_to_disk; rewrite Hcfg;
    try case_match; unfold mirrored; simpl; rewrite ?Hcfg; split_and!; simpl; first [congruence | by eexists _, _].
Qed.



(** With caching disabled nothing is ever answered from the cache and no
    write changes the cache or the disk. *)
Theorem cache_none_inert (d : DiskState) (ws : list CacheWrite) :
  let s := foldl (λ s w, cache_write w s) (Cache_new CacheNone d) ws in
  s = (empty_cache CacheNone, d) ∧
  (∀ h full, get_block s.1 h full = None) ∧ (∀ h, get_transaction s.1 h = None) ∧
  (∀ n, get_block_hash s.1 n = None) ∧ (∀ n, get_block_raw_transactions s.1 n = None).
Proof.
  intros s. assert (Hs : s = (empty_cache CacheNone, d)).
  { subst s. unfold Cache_new. induction ws as [|w ws IH]; simpl; [done|].
    replace (cache_write w _) with (empty_cache CacheNone, d) by (by destruct w). done. }
  rewrite Hs. done.
Qed.
