(* ===== verification/Fork.v ===== *)
(** * The fork source

    [crates/core/src/node/inner/fork.rs]: the client of the remote chain
    ([ForkClient]) and the cache-aside reads of [Fork].

    The remote node is not part of the program: a [Remote] instance gives the
    answer of each JSON-RPC method a client calls, at the time of the call, and
    an operation that calls the remote is a function of that instance.  The
    messages that [with_context] puts before an error are dropped. *)
From S2P Require Import Prelude Types Cache.
From Stdlib Require Import SpecFloat.
Local Open Scope Z_scope.

(** ** Constants ([crates/config/src/constants.rs]) *)
Definition DEFAULT_L1_GAS_PRICE : Z := 35932364075.
Definition DEFAULT_L2_GAS_PRICE : Z := 45250000.
Definition DEFAULT_FAIR_PUBDATA_PRICE : Z := 13607659111.
(** [2.0_f64] and [1.3_f32] *)
Definition DEFAULT_ESTIMATE_GAS_PRICE_SCALE_FACTOR : f64 := S754_finite false 4503599627370496 (-51).
Definition DEFAULT_ESTIMATE_GAS_SCALE_FACTOR : f32 := S754_finite false 10905190 (-23).
Definition TEST_NODE_NETWORK_ID : Z := 260.
Definition NON_FORK_FIRST_BLOCK_TIMESTAMP : Z := 1000.

(** ** Errors *)
Inductive ForkError :=
| RpcError (msg : string)
| MalformedChainId (msg : string)
| ForkBlockNotFound (number : Z)
| MissingRootHash (number : Z)
| ApiBlockNotFound (number : Z)
| MissingProtocolVersion (number : Z)
| UnsupportedProtocolVersion (number version : Z)
| ForkTxNotFound (hash : H256)
| ForkTxPending (hash : H256)
| ForkTxInGenesis (hash : H256)
| NoBlockError.

Definition RpcResult (A : Type) : Type := result A ForkError.

(** [U64::as_u32], [U256::as_u32]: panics above [u32::MAX]. *)
Definition to_u32 {S E} (x : Z) : M S E Z :=
  if x <=? u32_max then mret x else panic "Integer overflow when casting to u32".

Section Fork.
Context {TA : TransactionApi} {FA : FeeApi}.
Context {Client : Type}.

(** The methods of [EthNamespaceClient] and [ZksNamespaceClient] in use, the
    construction of an HTTP client, and [L2ChainId::try_from]. *)
Class Remote := {
  rpc_connect : string → RpcResult Client;
  L2ChainId_try_from : Z → result Z string;
  rpc_chain_id : Client → RpcResult Z;
  rpc_get_block_number : Client → RpcResult Z;
  rpc_get_block_details : Client → Z → RpcResult (option BlockDetails);
  rpc_get_block_by_hash : Client → H256 → bool → RpcResult (option ApiBlock);
  rpc_get_block_by_number : Client → BlockNumber → bool → RpcResult (option ApiBlock);
  rpc_get_fee_params : Client → RpcResult (FeeParams FeeParamsV1 FeeParamsV2);
  rpc_get_transaction_by_hash : Client → H256 → RpcResult (option ApiTransaction);
  rpc_get_transaction_details : Client → H256 → RpcResult (option TransactionDetails);
  rpc_get_raw_block_transactions : Client → Z → RpcResult (list Transaction);
  rpc_get_storage_at : Client → Address → Z → option BlockIdVariant → RpcResult H256;
  rpc_get_bytecode_by_hash : Client → H256 → RpcResult (option Bytes);
  rpc_get_block_transaction_count_by_hash : Client → H256 → RpcResult (option Z);
  rpc_get_block_transaction_count_by_number : Client → BlockNumber → RpcResult (option Z);
  rpc_get_transaction_by_block_hash_and_index :
    Client → H256 → Z → RpcResult (option ApiTransaction);
  rpc_get_transaction_by_block_number_and_index :
    Client → BlockNumber → Z → RpcResult (option ApiTransaction);
  rpc_get_bridge_contracts : Client → RpcResult BridgeAddresses;
  rpc_get_confirmed_tokens : Client → Z → Z → RpcResult (list Token);
}.

(** ** Fork clients *)
Record ForkDetails := mkForkDetails {
  fd_chain_id : Z;
  fd_protocol_version : Z;
  fd_batch_number : Z;
  fd_block_number : Z;
  fd_block_hash : H256;
  fd_block_timestamp : Z;
  fd_api_block : ApiBlock;
  fd_l1_gas_price : Z;
  fd_l2_fair_gas_price : Z;
  fd_fair_pubdata_price : Z;
  fd_estimate_gas_price_scale_factor : f64;
  fd_estimate_gas_scale_factor : f32;
  fd_fee_params : FeeParams FeeParamsV1 FeeParamsV2;
}.

Record ForkConfig := mkForkConfig {
  fc_url : string;
  fc_estimate_gas_price_scale_factor : f64;
  fc_estimate_gas_scale_factor : f32;
}.

(** [ForkConfig::unknown] *)
Definition ForkConfig_unknown (url : string) : ForkConfig :=
  mkForkConfig url DEFAULT_ESTIMATE_GAS_PRICE_SCALE_FACTOR DEFAULT_ESTIMATE_GAS_SCALE_FACTOR.

Record ForkClient := mkForkClient {
  client_url : string;
  client_details : ForkDetails;
  l2_client : Client;
}.

(** [SupportedProtocolVersions] *)
Definition SUPPORTED_VERSIONS : list Z := [26; 27; 28].
Definition is_supported (version : Z) : bool := bool_decide (version ∈ SUPPORTED_VERSIONS).

Definition set_block_l1_batch_number {TX} (n : option Z) (b : Block TX) : Block TX :=
  mkBlock (b_hash b) (b_parent_hash b) (b_uncles_hash b) (b_number b) n
    (b_base_fee_per_gas b) (b_timestamp b) (b_l1_batch_timestamp b) (b_transactions b)
    (b_gas_used b) (b_gas_limit b) (b_logs_bloom b) (b_author b) (b_state_root b)
    (b_transactions_root b) (b_receipts_root b) (b_extra_data b) (b_difficulty b)
    (b_total_difficulty b) (b_seal_fields b) (b_uncles b) (b_size b) (b_mix_hash b) (b_nonce b).

(** Operations on no state of the node: they fail or panic. *)
Abbreviation IO := (M unit ForkError).

(** [ForkClient::new] *)
Definition ForkClient_new `{R : Remote} (config : ForkConfig) (l2_client : Client)
    (block_number : Z) : IO ForkClient :=
  chain_id ← try_result (rpc_chain_id l2_client);
  chain_id ← match L2ChainId_try_from chain_id with
             | Ok id => mret id
             | Err e => throw (MalformedChainId e)
             end;
  block_details ← try_result (rpc_get_block_details l2_client block_number);
  block_details ← try_option (ForkBlockNotFound block_number) block_details;
  root_hash ← try_option (MissingRootHash block_number) (bd_root_hash block_details);
  block ← try_result (rpc_get_block_by_hash l2_client root_hash true);
  block ← try_option (ApiBlockNotFound block_number) block;
  let batch_number := bd_l1_batch_number block_details in
  let block := set_block_l1_batch_number (Some batch_number) block in
  protocol_version ← try_option (MissingProtocolVersion block_number)
                       (bd_protocol_version block_details);
  (if is_supported protocol_version then mret tt
   else throw (UnsupportedProtocolVersion block_number protocol_version));;
  fee_params ← try_result (rpc_get_fee_params l2_client);
  mret (mkForkClient (fc_url config)
    (mkForkDetails chain_id protocol_version batch_number block_number root_hash
       (bd_timestamp block_details) block (bd_l1_gas_price block_details)
       (bd_l2_fair_gas_price block_details)
       (default DEFAULT_FAIR_PUBDATA_PRICE (bd_fair_pubdata_price block_details))
       (fc_estimate_gas_price_scale_factor config) (fc_estimate_gas_scale_factor config)
       fee_params)
    l2_client).

(** [ForkClient::at_block_number] *)
Definition fork_at_block_number `{R : Remote} (config : ForkConfig) (block_number : option Z)
    : IO ForkClient :=
  l2_client ← try_result (rpc_connect (fc_url config));
  block_number ← match block_number with
                 | Some n => mret n
                 | None => n ← try_result (rpc_get_block_number l2_client); to_u32 n
                 end;
  ForkClient_new config l2_client block_number.

(** The loop of [at_before_tx]: the transactions of the block up to and
    including the one looked for. *)
Fixpoint earlier_txs (tx_hash' : H256) (txs : list Transaction) : list Transaction :=
  match txs with
  | [] => []
  | tx :: txs => if tx_hash tx =? tx_hash' then [tx] else tx :: earlier_txs tx_hash' txs
  end.

(** [ForkClient::at_before_tx] *)
Definition fork_at_before_tx `{R : Remote} (config : ForkConfig) (hash : H256)
    : IO (ForkClient * list Transaction) :=
  l2_client ← try_result (rpc_connect (fc_url config));
  tx_details ← try_result (rpc_get_transaction_by_hash l2_client hash);
  tx_details ← try_option (ForkTxNotFound hash) tx_details;
  block_number ← try_option (ForkTxPending hash) (at_block_number tx_details);
  block_number ← to_u32 block_number;
  (if block_number =? 0 then throw (ForkTxInGenesis hash) else mret tt);;
  txs ← try_result (rpc_get_raw_block_transactions l2_client block_number);
  let earlier_txs := earlier_txs hash txs in
  client ← ForkClient_new config l2_client (block_number - 1);
  mret (client, earlier_txs).

(** [ForkClient::get_fee_params] *)
Definition get_fee_params `{R : Remote} (client : ForkClient)
    : RpcResult (FeeParams FeeParamsV1 FeeParamsV2) :=
  rpc_get_fee_params (l2_client client).

(** ** The fork *)
Record ForkState := mkForkState {
  fork_client : option ForkClient;
  fork_cache : CacheState;
}.

Definition ForkM (A : Type) : Type := M ForkState ForkError A.

(** [Fork::new] *)
Definition Fork_new (client : option ForkClient) (cache_config : CacheConfig) (disk : DiskState)
    : ForkState :=
  mkForkState client (Cache_new cache_config disk).

(** [Fork::reset_fork_client]; the cache stays. *)
Definition reset_fork_client (client : option ForkClient) (s : ForkState) : ForkState :=
  mkForkState client (fork_cache s).

(** [Fork::set_fork_url] *)
Definition set_fork_url (new_url : string) (s : ForkState) : option string * ForkState :=
  match fork_client s with
  | Some client =>
      (Some (client_url client),
       mkForkState (Some (mkForkClient new_url (client_details client) (l2_client client)))
         (fork_cache s))
  | None => (None, s)
  end.

(** [Fork::make_call]: [None] when there is no fork. *)
Definition make_call {A} (call_body : Client → RpcResult A) : ForkM (option (RpcResult A)) :=
  gets (λ s, (λ client, call_body (l2_client client)) <$> fork_client s).

(** [self.make_call(..).await.unwrap_or(dflt)?] *)
Definition call_or {A} (dflt : RpcResult A) (call_body : Client → RpcResult A) : ForkM A :=
  r ← make_call call_body;
  try_result (default dflt r).

(** A read of the cache and a write to it. *)
Definition cache_get {A} (f : Cache → A) : ForkM A := gets (λ s, f (fork_cache s).1).
Definition cache_set (f : CacheState → CacheState) : ForkM unit :=
  modify (λ s, mkForkState (fork_client s) (f (fork_cache s))).

Definition fork_url (s : ForkState) : option string := client_url <$> fork_client s.
Definition fork_details (s : ForkState) : option ForkDetails := client_details <$> fork_client s.

Section Reads.
Context {R : Remote}.

Definition get_storage_at (address : Address) (idx : Z) (block : option BlockIdVariant) : ForkM H256 :=
  call_or (Ok 0) (λ client, rpc_get_storage_at client address idx block).

Definition get_storage_at_forked (address : Address) (idx : Z) : ForkM H256 :=
  block_number ← gets (λ s, (λ c, fd_block_number (client_details c)) <$> fork_client s);
  match block_number with
  | None => mret 0
  | Some n => get_storage_at address idx (Some (VariantNumber (Number n)))
  end.

Definition get_bytecode_by_hash (hash : H256) : ForkM (option Bytes) :=
  call_or (Ok None) (λ client, rpc_get_bytecode_by_hash client hash).

Definition get_transaction_by_hash (hash : H256) : ForkM (option ApiTransaction) :=
  cached ← cache_get (λ c, get_transaction c hash);
  match cached with
  | Some tx => mret (Some tx)
  | None =>
      tx ← call_or (Ok None) (λ client, rpc_get_transaction_by_hash client hash);
      match tx with
      | Some tx => cache_set (insert_transaction hash tx);; mret (Some tx)
      | None => mret None
      end
  end.

Definition fork_get_transaction_details (hash : H256) : ForkM (option TransactionDetails) :=
  call_or (Ok None) (λ client, rpc_get_transaction_details client hash).

Definition get_raw_block_transactions (block_number : Z) : ForkM (list Transaction) :=
  cached ← cache_get (λ c, get_block_raw_transactions c block_number);
  match cached with
  | Some txs => mret txs
  | None =>
      txs ← call_or (Err NoBlockError)
              (λ client, rpc_get_raw_block_transactions client block_number);
      cache_set (insert_block_raw_transactions block_number txs);;
      mret txs
  end.

Definition fork_get_block_by_hash (hash : H256) : ForkM (option ApiBlock) :=
  cached ← cache_get (λ c, get_block c hash true);
  match cached with
  | Some block => mret (Some block)
  | None =>
      block ← call_or (Ok None) (λ client, rpc_get_block_by_hash client hash true);
      match block with
      | Some block => cache_set (insert_block hash true block);; mret (Some block)
      | None => mret None
      end
  end.

Definition fork_get_block_by_number (block_number : BlockNumber) : ForkM (option ApiBlock) :=
  match block_number with
  | Number n =>
      cached ← cache_get (λ c, hash ← get_block_hash c n; get_block c hash true);
      match cached with
      | Some block => mret (Some block)
      | None =>
          block ← call_or (Ok None) (λ client, rpc_get_block_by_number client (Number n) true);
          match block with
          | Some block => cache_set (insert_block (b_hash block) true block);; mret (Some block)
          | None => mret None
          end
      end
  | _ => call_or (Ok None) (λ client, rpc_get_block_by_number client block_number true)
  end.

(** [ForkSource::get_block_by_id] *)
Definition fork_get_block_by_id (block_id : BlockId) : ForkM (option ApiBlock) :=
  match block_id with
  | IdHash hash => fork_get_block_by_hash hash
  | IdNumber number => fork_get_block_by_number number
  end.

Definition fork_get_block_details (block_number : Z) : ForkM (option BlockDetails) :=
  call_or (Ok None) (λ client, rpc_get_block_details client block_number).

Definition fork_tx_count_by_hash (block_hash : H256) : ForkM (option Z) :=
  call_or (Ok None) (λ client, rpc_get_block_transaction_count_by_hash client block_hash).

Definition fork_tx_count_by_number (block_number : BlockNumber) : ForkM (option Z) :=
  call_or (Ok None) (λ client, rpc_get_block_transaction_count_by_number client block_number).

(** [ForkSource::get_block_transaction_count_by_id] *)
Definition fork_tx_count_by_id (block_id : BlockId) : ForkM (option Z) :=
  match block_id with
  | IdHash hash => fork_tx_count_by_hash hash
  | IdNumber number => fork_tx_count_by_number number
  end.

Definition fork_tx_by_block_hash_and_index (block_hash : H256) (index : Z)
    : ForkM (option ApiTransaction) :=
  call_or (Ok None) (λ client, rpc_get_transaction_by_block_hash_and_index client block_hash index).

Definition fork_tx_by_block_number_and_index (block_number : BlockNumber) (index : Z)
    : ForkM (option ApiTransaction) :=
  call_or (Ok None)
    (λ client, rpc_get_transaction_by_block_number_and_index client block_number index).

(** [ForkSource::get_transaction_by_block_id_and_index] *)
Definition fork_tx_by_block_id_and_index (block_id : BlockId) (index : Z)
    : ForkM (option ApiTransaction) :=
  match block_id with
  | IdHash hash => fork_tx_by_block_hash_and_index hash index
  | IdNumber number => fork_tx_by_block_number_and_index number index
  end.

Definition fork_get_bridge_contracts : ForkM (option BridgeAddresses) :=
  cached ← cache_get get_bridge_addresses;
  match cached with
  | Some bridge_contracts => mret (Some bridge_contracts)
  | None =>
      bridge_contracts ← call_or (Ok None)
        (λ client, match rpc_get_bridge_contracts client with
                   | Ok a => Ok (Some a) | Err e => Err e end);
      match bridge_contracts with
      | Some a => cache_set (set_bridge_addresses a);; mret (Some a)
      | None => mret None
      end
  end.

Definition fork_get_confirmed_tokens (from limit : Z) : ForkM (option (list Token)) :=
  cached ← cache_get (λ c, get_confirmed_tokens c from limit);
  match cached with
  | Some toks => mret (Some toks)
  | None =>
      toks ← call_or (Ok None)
        (λ client, match rpc_get_confirmed_tokens client from limit with
                   | Ok a => Ok (Some a) | Err e => Err e end);
      match toks with
      | Some toks => cache_set (set_confirmed_tokens from limit toks);; mret (Some toks)
      | None => mret None
      end
  end.

(** ** Cached reads answer what the remote answers

    The reads that go through the cache, as one type of queries, with the
    answer the remote gives to each. *)
Inductive ForkQuery :=
| QTransaction (hash : H256)
| QRawTransactions (number : Z)
| QBlockByHash (hash : H256)
| QBlockByNumber (number : BlockNumber)
| QBridgeContracts
| QConfirmedTokens (from limit : Z).

Inductive ForkAnswer :=
| ATransaction (tx : option ApiTransaction)
| ARawTransactions (txs : list Transaction)
| ABlock (block : option ApiBlock)
| ABridgeContracts (a : option BridgeAddresses)
| AConfirmedTokens (toks : option (list Token)).

Definition query (q : ForkQuery) : ForkM ForkAnswer :=
  match q with
  | QTransaction h => a ← get_transaction_by_hash h; mret (ATransaction a)
  | QRawTransactions n => a ← get_raw_block_transactions n; mret (ARawTransactions a)
  | QBlockByHash h => a ← fork_get_block_by_hash h; mret (ABlock a)
  | QBlockByNumber n => a ← fork_get_block_by_number n; mret (ABlock a)
  | QBridgeContracts => a ← fork_get_bridge_contracts; mret (ABridgeContracts a)
  | QConfirmedTokens f l => a ← fork_get_confirmed_tokens f l; mret (AConfirmedTokens a)
  end.

Definition rmap {A B} (f : A → B) (r : RpcResult A) : RpcResult B :=
  match r with Ok a => Ok (f a) | Err e => Err e end.

Definition remote_answer (c : Client) (q : ForkQuery) : RpcResult ForkAnswer :=
  match q with
  | QTransaction h => rmap ATransaction (rpc_get_transaction_by_hash c h)
  | QRawTransactions n => rmap ARawTransactions (rpc_get_raw_block_transactions c n)
  | QBlockByHash h => rmap ABlock (rpc_get_block_by_hash c h true)
  | QBlockByNumber n => rmap ABlock (rpc_get_block_by_number c n true)
  | QBridgeContracts => rmap (λ a, ABridgeContracts (Some a)) (rpc_get_bridge_contracts c)
  | QConfirmedTokens f l => rmap (λ a, AConfirmedTokens (Some a)) (rpc_get_confirmed_tokens c f l)
  end.

(** A remote whose two block indices are views of one chain. *)
Definition coherent (c : Client) : Prop :=
  (∀ h b, rpc_get_block_by_hash c h true = Ok (Some b) →
     b_hash b = h ∧ rpc_get_block_by_number c (Number (b_number b)) true = Ok (Some b)) ∧
  (∀ n b, rpc_get_block_by_number c (Number n) true = Ok (Some b) →
     b_number b = n ∧ rpc_get_block_by_hash c (b_hash b) true = Ok (Some b)).

Record cache_agrees (c : Client) (k : Cache) : Prop := {
  ag_tx h tx : get_transaction k h = Some tx → rpc_get_transaction_by_hash c h = Ok (Some tx);
  ag_raw n txs : get_block_raw_transactions k n = Some txs →
    rpc_get_raw_block_transactions c n = Ok txs;
  ag_block h b : get_block k h true = Some b → rpc_get_block_by_hash c h true = Ok (Some b);
  ag_number n h : get_block_hash k n = Some h →
    ∃ b, rpc_get_block_by_hash c h true = Ok (Some b) ∧ b_number b = n;
  ag_bridge a : get_bridge_addresses k = Some a → rpc_get_bridge_contracts c = Ok a;
  ag_tokens f l t : get_confirmed_tokens k f l = Some t → rpc_get_confirmed_tokens c f l = Ok t;
}.

Definition agrees (c : Client) (s : ForkState) : Prop :=
  (l2_client <$> fork_client s) = Some c ∧ cache_agrees c (fork_cache s).1.

(** [m] answers [r], and what it leaves still agrees with the remote. *)
Definition answers {A} (c : Client) (m : ForkM A) (r : RpcResult A) (s : ForkState) : Prop :=
  match r with
  | Ok a => ∃ s', m s = Ret a s' ∧ agrees c s'
  | Err e => m s = Throw e s
  end.

Lemma answers_map {A B} (f : A → B) c (m : ForkM A) r s :
  answers c m r s → answers c (a ← m; mret (f a)) (rmap f r) s.
Proof.
  unfold answers; destruct r as [a|e]; simpl; unfold mbind, M_bind.
  - intros (s'&->&?); by eexists; split.
  - by intros ->.
Qed.

Lemma call_or_run {A} (dflt : RpcResult A) body c s :
  agrees c s → call_or dflt body s = try_result (body c) s.
Proof.
  intros [Hc _]; unfold call_or, make_call, gets, mbind, M_bind.
  destruct (fork_client s) as [fc|]; simplify_eq/=. done.
Qed.

(** Putting an answer of the remote into the cache keeps it in agreement. *)
Lemma put_agrees c (w : CacheWrite) k :
  coherent c → cache_agrees c k.1 →
  match w with
  | WBlock h full b => full = true ∧ rpc_get_block_by_hash c h true = Ok (Some b)
  | WRawTransactions n l => rpc_get_raw_block_transactions c n = Ok l
  | WTransaction h tx => rpc_get_transaction_by_hash c h = Ok (Some tx)
  | WSelector _ _ => True
  | WBridge a => rpc_get_bridge_contracts c = Ok a
  | WTokens f l t => rpc_get_confirmed_tokens c f l = Ok t
  end →
  cache_agrees c (cache_write w k).1.
Proof.
  destruct k as [k d]; intros Hco [H1 H2 H3 H4 H5 H6] Hw.
  destruct w as [h full b|n l|h tx|sel v|a|f l t]; simpl in *.
  1: destruct Hw as [-> Hw].
  all: unfold get_transaction, get_block_raw_transactions, get_block, get_block_hash,
    get_bridge_addresses, get_confirmed_tokens in *.
  all: destruct (cache_off k) eqn:Hoff; simpl; split; unfold get_transaction,
    get_block_raw_transactions, get_block, get_block_hash, get_bridge_addresses,
    get_confirmed_tokens; change (cache_off _) with (cache_off k); rewrite ?Hoff; simpl; try done.
  - intros h' b' [[<- <-]|[_ ?]]%lookup_insert_Some; auto.
  - intros n h' [[<- <-]|[_ ?]]%lookup_insert_Some; [|auto].
    destruct (proj1 Hco _ _ Hw) as [-> _]. eauto.
  - intros n' l' [[<- <-]|[_ ?]]%lookup_insert_Some; auto.
  - intros h' tx' [[<- <-]|[_ ?]]%lookup_insert_Some; auto.
  - by intros a' [= <-].
  - intros f' l' t' [[[= <- <-] <-]|[_ ?]]%lookup_insert_Some; auto.
Qed.

Lemma cache_set_agrees c w s :
  coherent c → agrees c s →
  cache_agrees c (cache_write w (fork_cache s)).1 →
  agrees c (mkForkState (fork_client s) (cache_write w (fork_cache s))).
Proof. intros ? [? ?]; by split. Qed.

(** The shape the cached reads share: look in the cache, ask the remote, keep
    what it answers. *)
Definition cache_aside {A} (get : Cache → option A) (put : A → CacheState → CacheState)
    (call : Client → RpcResult (option A)) : ForkM (option A) :=
  cached ← cache_get get;
  match cached with
  | Some a => mret (Some a)
  | None =>
      x ← call_or (Ok None) call;
      match x with
      | Some a => cache_set (put a);; mret (Some a)
      | None => mret None
      end
  end.

Lemma cache_aside_run {A} (get : Cache → option A) put call s :
  cache_aside get put call s =
  match get (fork_cache s).1 with
  | Some a => Ret (Some a) s
  | None =>
      match fork_client s with
      | None => Ret None s
      | Some fc =>
          match call (l2_client fc) with
          | Ok (Some a) => Ret (Some a) (mkForkState (fork_client s) (put a (fork_cache s)))
          | Ok None => Ret None s
          | Err e => Throw e s
          end
      end
  end.
Proof.
  unfold cache_aside, call_or, make_call, cache_get, gets, mbind, M_bind.
  destruct (get _); [done|]. destruct (fork_client s) as [fc|] eqn:Hfc; simpl; [|done].
  destruct (call _) as [[a|]|e]; simpl; [|done..]. by rewrite <-Hfc.
Qed.

Lemma cache_aside_answers {A} get (w : A → CacheWrite) call c s :
  agrees c s →
  (∀ a, get (fork_cache s).1 = Some a → call c = Ok (Some a)) →
  (∀ a, call c = Ok (Some a) → cache_agrees c (cache_write (w a) (fork_cache s)).1) →
  answers c (cache_aside get (λ a, cache_write (w a)) call) (call c) s.
Proof.
  intros Hag Hget Hput. destruct (get (fork_cache s).1) as [a|] eqn:Hg.
  - rewrite (Hget a) by done. exists s; split; [|done].
    by rewrite cache_aside_run, Hg.
  - unfold answers. rewrite cache_aside_run, Hg.
    destruct Hag as [Hfc Hag]. destruct (fork_client s) as [fc|] eqn:Hc; simplify_eq/=.
    destruct (call (l2_client fc)) as [[a|]|e] eqn:Hcall; [|exists s; by split; [|split; [rewrite Hc|]]|done].
    eexists; split; [done|]. split; [done|]. by apply Hput.
Qed.

Lemma rmap_Some {A} (r : RpcResult A) a : rmap Some r = Ok (Some a) ↔ r = Ok a.
Proof. destruct r; simpl; split; intros; simplify_eq; done. Qed.

Lemma rmap_rmap {A B C} (f : A → B) (g : B → C) r : rmap g (rmap f r) = rmap (λ a, g (f a)) r.
Proof. by destruct r. Qed.

Lemma raw_transactions_answers c s n :
  coherent c → agrees c s →
  answers c (get_raw_block_transactions n) (rpc_get_raw_block_transactions c n) s.
Proof.
  intros Hco Hag. pose proof Hag as [_ Hca].
  destruct (get_block_raw_transactions (fork_cache s).1 n) as [txs|] eqn:Hg.
  - rewrite (ag_raw _ _ Hca _ _ Hg). exists s; split; [|done].
    unfold get_raw_block_transactions, cache_get, gets, mbind, M_bind. by rewrite Hg.
  - assert (Hrun : get_raw_block_transactions n s =
      match rpc_get_raw_block_transactions c n with
      | Ok l => Ret l (mkForkState (fork_client s) (cache_write (WRawTransactions n l) (fork_cache s)))
      | Err e => Throw e s
      end).
    { unfold get_raw_block_transactions, cache_get, gets, mbind, M_bind. rewrite Hg.
      rewrite (call_or_run _ _ c) by done. by destruct (rpc_get_raw_block_transactions c n). }
    unfold answers. rewrite Hrun.
    destruct (rpc_get_raw_block_transactions c n) as [txs|e] eqn:Hcall; [|done].
    eexists; split; [done|]. split; [apply Hag|].
    by apply (put_agrees c (WRawTransactions n txs)).
Qed.

Lemma block_by_number_answers c s n :
  coherent c → agrees c s →
  answers c (fork_get_block_by_number n) (rpc_get_block_by_number c n true) s.
Proof.
  intros Hco Hag. pose proof Hag as [_ Hca].
  assert (Htag : answers c (call_or (Ok None) (λ client, rpc_get_block_by_number client n true))
                   (rpc_get_block_by_number c n true) s).
  { unfold answers. rewrite (call_or_run _ _ c) by done.
    destruct (rpc_get_block_by_number c n true); [by eexists; split|done]. }
  destruct n as [| | | | | |n]; try exact Htag.
  apply (cache_aside_answers
           (λ k, hash ← get_block_hash k n; get_block k hash true) (λ b, WBlock (b_hash b) true b)
           (λ client, rpc_get_block_by_number client (Number n) true)); [done| |].
  - intros b (h&Hh&Hb)%bind_Some.
    apply (ag_block _ _ Hca) in Hb. destruct (ag_number _ _ Hca _ _ Hh) as (b'&Hb'&<-).
    assert (b' = b) as -> by congruence. by apply Hco in Hb as [_ ?].
  - intros b Hb. apply (put_agrees c (WBlock (b_hash b) true b)); [done..|].
    by apply Hco in Hb as [_ ?].
Qed.

Lemma query_answers c s q :
  coherent c → agrees c s → answers c (query q) (remote_answer c q) s.
Proof.
  intros Hco Hag. pose proof Hag as [_ Hca]. destruct q as [h|n|h|n| |f l]; simpl.
  - apply answers_map.
    apply (cache_aside_answers (λ k, get_transaction k h) (WTransaction h)
             (λ client, rpc_get_transaction_by_hash client h)); [done|apply Hca|].
    intros tx Htx. by apply (put_agrees c (WTransaction h tx)).
  - by apply answers_map, raw_transactions_answers.
  - apply answers_map.
    apply (cache_aside_answers (λ k, get_block k h true) (WBlock h true)
             (λ client, rpc_get_block_by_hash client h true)); [done|apply Hca|].
    intros b Hb. by apply (put_agrees c (WBlock h true b)).
  - by apply answers_map, block_by_number_answers.
  - rewrite <-(rmap_rmap Some). apply answers_map.
    apply (cache_aside_answers get_bridge_addresses WBridge
             (λ client, rmap Some (rpc_get_bridge_contracts client))); [done|..].
    + intros a Ha. apply (proj2 (rmap_Some _ _)). by apply (ag_bridge _ _ Hca).
    + intros a Ha. apply (proj1 (rmap_Some _ _)) in Ha. by apply (put_agrees c (WBridge a)).
  - rewrite <-(rmap_rmap Some). apply answers_map.
    apply (cache_aside_answers (λ k, get_confirmed_tokens k f l) (WTokens f l)
             (λ client, rmap Some (rpc_get_confirmed_tokens client f l))); [done|..].
    + intros a Ha. apply (proj2 (rmap_Some _ _)). by apply (ag_tokens _ _ Hca).
    + intros a Ha. apply (proj1 (rmap_Some _ _)) in Ha. by apply (put_agrees c (WTokens f l a)).
Qed.

Lemma fresh_cache_agrees c config : cache_agrees c (Cache_new config empty_disk).1.
Proof.
  assert (Hn : (Cache_new config empty_disk).1 = empty_cache config) by (by destruct config as [| |? []]).
  rewrite Hn. split; unfold get_transaction, get_block_raw_transactions, get_block, get_block_hash,
    get_bridge_addresses, get_confirmed_tokens; destruct (cache_off _); by intros.
Qed.

Definition after_query (s : ForkState) (q : ForkQuery) : ForkState :=
  default s (final_state (query q s)).

Lemma after_query_agrees c s q : coherent c → agrees c s → agrees c (after_query s q).
Proof.
  intros Hco Hag. pose proof (query_answers c s q Hco Hag) as Ha. unfold after_query, answers in *.
  destruct (remote_answer c q).
  - by destruct Ha as (s'&->&?).
  - by rewrite Ha.
Qed.

(** C20: reading through the fork is reading the remote chain.  Over a remote
    whose block indices are coherent, after any sequence of reads on a fork
    with an empty cache directory and any cache configuration, the next read
    of a transaction, of raw block transactions, of a block by hash or by
    number or tag, of the bridge contracts or of the confirmed tokens gives
    the very answer of the remote, errors included; an error changes nothing. *)
Theorem fork_reads_transparent (client : ForkClient) (config : CacheConfig)
    (qs : list ForkQuery) (q : ForkQuery) :
  coherent (l2_client client) →
  let s := foldl after_query (Fork_new (Some client) config empty_disk) qs in
  match remote_answer (l2_client client) q with
  | Ok a => ∃ s', query q s = Ret a s'
  | Err e => query q s = Throw e s
  end.
Proof.
  intros Hco s.
  assert (Hag : agrees (l2_client client) s).
  { subst s. assert (H0 : agrees (l2_client client) (Fork_new (Some client) config empty_disk)).
    { split; [done|apply fresh_cache_agrees]. }
    revert H0. generalize (Fork_new (Some client) config empty_disk).
    induction qs as [|q' qs IH]; intros s Hs; simpl; [done|]. by apply IH, after_query_agrees. }
  pose proof (query_answers _ _ q Hco Hag) as Ha. unfold answers in Ha.
  destruct (remote_answer _ q); [|done]. destruct Ha as (s'&?&_); eauto.
Qed.
End Reads.

(** ** What the cache keeps *)

(** A cached answer outlives its fork.  With caching on, a transaction
    found once is answered again, without a request and without any change,
    whatever another remote says and whatever fork replaces the one it came
    from; the same holds after a change of the fork's URL. *)
Theorem cache_outlives_fork (R1 R2 : Remote) (s s1 : ForkState) (h : H256) (tx : ApiTransaction)
    (client : option ForkClient) (url : string) :
  cache_config (fork_cache s).1 ≠ CacheNone →
  get_transaction_by_hash (R := R1) h s = Ret (Some tx) s1 →
  let s2 := reset_fork_client client s1 in
  let s3 := (set_fork_url url s2).2 in
  get_transaction_by_hash (R := R2) h s2 = Ret (Some tx) s2 ∧
  get_transaction_by_hash (R := R2) h s3 = Ret (Some tx) s3.
Proof.
  intros Hon Hget.
  assert (Hhit : get_transaction (fork_cache s1).1 h = Some tx).
  { change (cache_aside (λ k, get_transaction k h) (insert_transaction h)
      (λ client, rpc_get_transaction_by_hash (Remote := R1) client h) s = Ret (Some tx) s1) in Hget.
    rewrite cache_aside_run in Hget. repeat case_match; simplify_eq/=; [done|].
    unfold get_transaction. destruct (fork_cache s) as [k d]; simpl in *.
    assert (Hoff : cache_off k = false) by (unfold cache_off; by destruct (cache_config k)).
    rewrite Hoff. simpl. change (cache_off _) with (cache_off k). rewrite Hoff.
    apply lookup_insert_eq. }
  intros s2 s3. assert (Hc3 : fork_cache s3 = fork_cache s1) by (unfold s3, set_fork_url; by case_match).
  unfold get_transaction_by_hash, cache_get, gets, mbind, M_bind.
  change (fork_cache s2) with (fork_cache s1). by rewrite Hc3, Hhit.
Qed.

(** [set_fork_url] changes the URL that is reported and nothing that is
    used: every later call goes to the client connected to the old URL. *)
Theorem set_fork_url_keeps_endpoint {A} (client : ForkClient) (k : CacheState) (url : string)
    (body : Client → RpcResult A) :
  let s := mkForkState (Some client) k in
  let r := set_fork_url url s in
  r.1 = Some (client_url client) ∧ fork_url r.2 = Some url ∧
  fork_details r.2 = fork_details s ∧
  make_call body r.2 = Ret (Some (body (l2_client client))) r.2.
Proof. done. Qed.

(** ** Creating a fork *)
Section Creating.
Context {R : Remote}.

Lemma ForkClient_new_Ret config c n u fc u' :
  ForkClient_new config c n u = Ret fc u' →
  ∃ bd b, rpc_get_block_details c n = Ok (Some bd) ∧
    bd_root_hash bd = Some (fd_block_hash (client_details fc)) ∧
    rpc_get_block_by_hash c (fd_block_hash (client_details fc)) true = Ok (Some b) ∧
    fd_api_block (client_details fc) = set_block_l1_batch_number (Some (bd_l1_batch_number bd)) b ∧
    fd_protocol_version (client_details fc) ∈ SUPPORTED_VERSIONS ∧
    fd_block_number (client_details fc) = n ∧
    fd_block_timestamp (client_details fc) = bd_timestamp bd ∧
    fd_batch_number (client_details fc) = bd_l1_batch_number bd ∧
    l2_client fc = c ∧ client_url fc = fc_url config.
Proof.
  unfold ForkClient_new, try_result, try_option, is_supported. run_m. intros H.
  repeat (case_match; simplify_eq/=). eexists _, _. by split_and!; try case_bool_decide.
Qed.

Lemma earlier_txs_spec h (txs : list Transaction) :
  (earlier_txs h txs = txs ∧ Forall (λ tx, tx_hash tx ≠ h) txs) ∨
  (∃ before tx after, txs = before ++ tx :: after ∧ tx_hash tx = h ∧
     Forall (λ tx, tx_hash tx ≠ h) before ∧ earlier_txs h txs = before ++ [tx]).
Proof.
  induction txs as [|tx txs IH]; simpl; [by left|].
  destruct (Z.eqb_spec (tx_hash tx) h) as [Heq|Hne].
  - right. by exists [], tx, txs.
  - destruct IH as [[-> ?]|(before&tx'&after&->&?&?&->)].
    + left. by split; [|constructor].
    + right. exists (tx :: before), tx', after. by split_and!; [..|constructor|].
Qed.

(** Forking from before a transaction.  When it succeeds, the
    transaction is in a block [n] of the remote with [0 < n], the fork is at
    block [n - 1] with the hash, timestamp and batch the remote reports for
    that block and a supported protocol version, and the transactions to replay
    are those of block [n] up to and including the first with the hash (all
    of them when none has it). *)
Theorem at_before_tx_spec (config : ForkConfig) (h : H256) (u u' : unit) (fc : ForkClient)
    (txs : list Transaction) :
  fork_at_before_tx config h u = Ret (fc, txs) u' →
  ∃ c tx n raw bd,
    rpc_connect (fc_url config) = Ok c ∧
    rpc_get_transaction_by_hash c h = Ok (Some tx) ∧ at_block_number tx = Some n ∧
    n ≠ 0 ∧ n <= u32_max ∧
    rpc_get_raw_block_transactions c n = Ok raw ∧
    ((txs = raw ∧ Forall (λ tx, tx_hash tx ≠ h) raw) ∨
     (∃ before target after, raw = before ++ target :: after ∧ tx_hash target = h ∧
        Forall (λ tx, tx_hash tx ≠ h) before ∧ txs = before ++ [target])) ∧
    rpc_get_block_details c (n - 1) = Ok (Some bd) ∧
    fd_block_number (client_details fc) = n - 1 ∧
    Some (fd_block_hash (client_details fc)) = bd_root_hash bd ∧
    fd_block_timestamp (client_details fc) = bd_timestamp bd ∧
    fd_batch_number (client_details fc) = bd_l1_batch_number bd ∧
    fd_protocol_version (client_details fc) ∈ SUPPORTED_VERSIONS ∧
    l2_client fc = c.
Proof.
  unfold fork_at_before_tx, try_result, try_option, to_u32, mbind, M_bind, mret, M_ret, throw, panic.
  intros H. repeat (case_match; simplify_eq/=; try done).
  match goal with Hn : ForkClient_new _ _ _ _ = _ |- _ =>
    apply ForkClient_new_Ret in Hn as (bd&b&?&?&?&?&?&?&?&?&?&?) end.
  zbool. eexists _, _, _, _, bd. split_and!; try done. apply earlier_txs_spec.
Qed.
End Creating.
End Fork.

(** ** A concrete remote

    Ten blocks, the block number [n] having hash [1000 + n]; every block has
    one transaction, of hash [2000 + n]. *)
Module SampleRemote.
#[local] Existing Instances Sample.api Sample.fee.

Definition block (n : Z) : ApiBlock :=
  mkBlock (1000 + n) (999 + n) 0 n (Some n) 0 (100 * n) None [JustHash (2000 + n)]
    0 0 0 0 0 0 0 [] 0 0 [] [] 0 0 0.

Definition details (n : Z) : BlockDetails :=
  mkBlockDetails n n (100 * n) 0 1 (Some (1000 + n)) Verified None None None None None None
    1 2 None (mkContractHashes 0 0 None) 0 (Some 28).

Definition transaction (n : Z) : ApiTransaction :=
  mkApiTransaction (2000 + n) 0 (Some (1000 + n)) (Some n) (Some 0) None None 0 None 0 []
    None None None None None None None None 0 None None.

Definition in_range (n : Z) : bool := (0 <=? n) && (n <? 10).

Definition found {A} (n : Z) (a : A) : RpcResult (option A) :=
  if in_range n then Ok (Some a) else Ok None.

Definition by_number (n : BlockNumber) : RpcResult (option ApiBlock) :=
  match n with
  | Number n => found n (block n)
  | Earliest => Ok (Some (block 0))
  | _ => Ok (Some (block 9))
  end.

Definition remote : Remote (FA := Sample.fee) (Client := unit) := {|
  rpc_connect _ := Ok tt;
  L2ChainId_try_from id := Ok id;
  rpc_chain_id _ := Ok 324;
  rpc_get_block_number _ := Ok 9;
  rpc_get_block_details _ n := found n (details n);
  rpc_get_block_by_hash _ h _ := found (h - 1000) (block (h - 1000));
  rpc_get_block_by_number _ n _ := by_number n;
  rpc_get_fee_params _ := Ok (ParamsV2 (FeeParamsV2_new
    (mkFeeModelConfig 7 f64_zero f64_one 1 2 3) 5 6 default_ratio));
  rpc_get_transaction_by_hash _ h := found (h - 2000) (transaction (h - 2000));
  rpc_get_transaction_details _ _ := Ok None;
  rpc_get_raw_block_transactions _ n :=
    if in_range n then Ok [Sample.l2 (2000 + n) 5 9] else Err NoBlockError;
  rpc_get_storage_at _ a i _ := Ok (a + i);
  rpc_get_bytecode_by_hash _ _ := Ok None;
  rpc_get_block_transaction_count_by_hash _ _ := Ok (Some 1);
  rpc_get_block_transaction_count_by_number _ _ := Ok (Some 1);
  rpc_get_transaction_by_block_hash_and_index _ h i := Ok None;
  rpc_get_transaction_by_block_number_and_index _ n i := Ok None;
  rpc_get_bridge_contracts _ := Err (RpcError "no bridge");
  rpc_get_confirmed_tokens _ _ _ := Ok [];
|}.
#[local] Existing Instance remote.

Definition config : ForkConfig := ForkConfig_unknown "http://remote".

Definition client : ForkClient (Client := unit) :=
  match fork_at_block_number (R := remote) config (Some 5) tt with
  | Ret fc _ => fc
  | _ => mkForkClient "" (mkForkDetails 0 0 0 0 0 0 (block 0) 0 0 0 f64_zero f64_zero
           (ParamsV1 (tt : FeeParamsV1))) tt
  end.

Lemma remote_coherent : coherent (R := remote) tt.
Proof.
  split.
  - intros h b; simpl; unfold found. destruct (in_range (h - 1000)) eqn:Hr; intros; simplify_eq/=.
    unfold found. rewrite Hr. split; [lia|done].
  - intros n b; simpl; unfold found. destruct (in_range n) eqn:Hr; intros; simplify_eq/=.
    unfold found. replace (1000 + n - 1000) with n by lia. by rewrite Hr.
Qed.

Lemma fork_reads_transparent_witness :
  ∃ s', query (R := remote) (QBlockByNumber (Number 3))
    (foldl (after_query (R := remote)) (Fork_new (Some client) CacheMemory empty_disk)
       [QBlockByHash 1003]) = Ret (ABlock (Some (block 3))) s'.
Proof.
  exact (fork_reads_transparent (R := remote) client CacheMemory [QBlockByHash 1003]
           (QBlockByNumber (Number 3)) remote_coherent).
Defined.

Lemma cache_outlives_fork_witness :
  let s0 := Fork_new (Some client) CacheMemory empty_disk in
  let s1 := after_query (R := remote) s0 (QTransaction 2003) in
  get_transaction_by_hash (R := remote) 2003 (reset_fork_client None s1) =
  Ret (Some (transaction 3)) (reset_fork_client None s1).
Proof.
  intros s0 s1.
  destruct (cache_outlives_fork remote remote s0 s1 2003 (transaction 3) None "u") as [H _].
  - vm_compute; discriminate.
  - vm_compute; reflexivity.
  - exact H.
Defined.

Lemma at_before_tx_witness :
  ∃ c tx n, rpc_connect (Remote := remote) "http://remote" = Ok c ∧
    rpc_get_transaction_by_hash (Remote := remote) c 2007 = Ok (Some tx) ∧ at_block_number tx = Some n.
Proof.
  assert (H : ∃ fc, fork_at_before_tx (R := remote) config 2007 tt =
    Ret (fc, [Sample.l2 2007 5 9]) tt) by (eexists; vm_compute; reflexivity).
  destruct H as [fc H].
  destruct (at_before_tx_spec (R := remote) config 2007 tt tt fc _ H) as (c&tx&n&raw&bd&H1&H2&H3&_).
  exists c, tx, n. split; [exact H1|]. split; [exact H2|exact H3].
Defined.
End SampleRemote.
