(* ===== verification/Storage.v ===== *)
(** * Storage

    [crates/core/src/deps/mod.rs] (the in-memory storage),
    [crates/core/src/node/inner/fork_storage.rs] (the storage that reads what
    it lacks from the fork, its dump and its keys as bytes),
    [crates/core/src/node/keys.rs] and
    [crates/core/src/node/state_override.rs]. *)
From S2P Require Import Prelude Types Cache Fork.
Local Open Scope Z_scope.

Abbreviation UNWRAP_ERR := "called `Result::unwrap()` on an `Err` value".

(** ** External functions on keys and bytecodes ([zksync_types]) *)
Inductive BytecodeMarker := EraVm | Evm.

Class KeyApi := {
  get_code_key : Address → StorageKey;
  get_known_code_key : H256 → StorageKey;
  get_nonce_key : Address → StorageKey;
  storage_key_for_eth_balance : Address → StorageKey;
  get_evm_code_hash_key : H256 → StorageKey;
  get_system_context_key : H256 → StorageKey;
  SYSTEM_CONTEXT_CHAIN_ID_POSITION : H256;
  (** The write logs of [get_system_context_init_logs]. *)
  get_system_context_init_logs : Z → list StorageLogQuery;
  hash_for_bytecode : Bytes → H256;
  hash_for_raw_evm_bytecode : Bytes → H256;
  pad_evm_bytecode : Bytes → Bytes;
  keccak256 : Bytes → H256;
  detect_bytecode : Bytes → BytecodeMarker;
  (** Account nonce and deployment nonce packed in one word. *)
  decompose_full_nonce : Z → Z * Z;
  nonces_to_full_nonce : Z → Z → Z;
}.

(** ** [StorageKeyLayout]; the BoojumOS keys are [todo!()]. *)
Inductive StorageKeyLayout := ZkEra | BoojumOs.

Section Keys.
Context {KA : KeyApi} {S E : Type}.

Definition layout_nonce_key (l : StorageKeyLayout) (account : Address) : M S E StorageKey :=
  match l with
  | ZkEra => mret (get_nonce_key account)
  | BoojumOs => panic "not yet implemented"
  end.

Definition get_storage_key_for_base_token (l : StorageKeyLayout) (address : Address)
    : M S E StorageKey :=
  match l with
  | ZkEra => mret (storage_key_for_eth_balance address)
  | BoojumOs => panic "not yet implemented"
  end.
End Keys.

(** ** In-memory storage *)
Record InMemoryStorage := mkStorage {
  state : gmap StorageKey StorageValue;
  factory_deps_map : gmap H256 Bytes;
}.

Record DeployedContract := mkDeployed {
  account_id : Address;
  bytecode : Bytes;
}.

(** [with_system_contracts_and_chain_id], over the list of contracts that
    [get_deployed_contracts] reads from the embedded archives. *)
Definition with_system_contracts_and_chain_id {KA : KeyApi} (chain_id : Z)
    (bytecode_hasher : Bytes → H256) (contracts : list DeployedContract) : InMemoryStorage :=
  let logs :=
    (contracts ≫= λ contract,
       let bytecode_hash := bytecode_hasher (bytecode contract) in
       [mkStorageLogQuery true (get_code_key (account_id contract)) bytecode_hash;
        mkStorageLogQuery true (get_known_code_key bytecode_hash) 1])
    ++ get_system_context_init_logs chain_id in
  mkStorage
    (extend ∅ ((λ log, (sl_key log, sl_value log)) <$> filter (λ log, sl_is_write log = true) logs))
    (extend ∅ ((λ contract, (bytecode_hasher (bytecode contract), bytecode contract)) <$> contracts)).

Definition read_value_opt (s : InMemoryStorage) (key : StorageKey) : option StorageValue :=
  state s !! key.

Definition mem_set_value (key : StorageKey) (v : StorageValue) (s : InMemoryStorage) : InMemoryStorage :=
  mkStorage (<[key := v]> (state s)) (factory_deps_map s).

Definition mem_store_factory_dep (hash : H256) (code : Bytes) (s : InMemoryStorage) : InMemoryStorage :=
  mkStorage (state s) (<[hash := code]> (factory_deps_map s)).

(** [ReadStorage for InMemoryStorage] *)
Definition mem_read_value (s : InMemoryStorage) (key : StorageKey) : StorageValue :=
  default 0 (state s !! key).
Definition mem_is_write_initial (s : InMemoryStorage) (key : StorageKey) : bool :=
  bool_decide (state s !! key = None).
Definition mem_load_factory_dep (s : InMemoryStorage) (hash : H256) : option Bytes :=
  factory_deps_map s !! hash.

(** ** The dump of a storage and its keys as bytes *)
Record SerializableForkStorage := mkSerializableForkStorage {
  ser_storage : gmap StorageKey StorageValue;
  ser_factory_deps : gmap H256 Bytes;
}.

(** [From<SerializableStorageKey> for Bytes]: 20 bytes of address, 32 of
    slot. *)
Definition key_to_bytes (key : StorageKey) : Bytes := be_bytes 20 key.1 ++ be_bytes 32 key.2.

(** [TryFrom<Bytes> for SerializableStorageKey] *)
Definition key_of_bytes (bytes : Bytes) : result StorageKey nat :=
  if decide (length bytes = 52)%nat then
    Ok (of_be_bytes (take 20 bytes), of_be_bytes (drop 20 bytes))
  else Err (length bytes).

(** [SerializableStorage] through serde: the map as a list of entries keyed
    by bytes, and back; one malformed key fails the whole. *)
Definition storage_to_entries (m : gmap StorageKey StorageValue) : list (Bytes * StorageValue) :=
  (λ kv, (key_to_bytes kv.1, kv.2)) <$> map_to_list m.

Fixpoint storage_of_entries (l : list (Bytes * StorageValue))
    : result (gmap StorageKey StorageValue) nat :=
  match l with
  | [] => Ok ∅
  | (bytes, v) :: l =>
      match key_of_bytes bytes with
      | Err n => Err n
      | Ok key =>
          match storage_of_entries l with
          | Err n => Err n
          | Ok m => Ok (<[key := v]> m)
          end
      end
  end.

(** A key whose address and slot have their widths. *)
Definition valid_key (key : StorageKey) : Prop :=
  0 <= key.1 < 2 ^ 160 ∧ 0 <= key.2 < 2 ^ 256.

(** ** Fork storage

    [ForkStorageInner::fork] is a handle on the one [ForkState] of the node
    (an [Arc]), which other components hold too, so an operation of the
    storage runs on a [ForkStorage] and that [ForkState]. *)
Record ForkStorage := mkForkStorage {
  raw_storage : InMemoryStorage;
  value_read_cache : gmap StorageKey H256;
  factory_dep_cache : gmap H256 (option Bytes);
  storage_chain_id : Z;
}.

Definition set_raw_storage (m : InMemoryStorage) (st : ForkStorage) : ForkStorage :=
  mkForkStorage m (value_read_cache st) (factory_dep_cache st) (storage_chain_id st).

Section ForkStorage.
Context {FA : FeeApi} {KA : KeyApi} {Client : Type} {E : Type}.

Definition StorageState : Type := ForkStorage * ForkState (Client := Client).
Definition StorageM (A : Type) : Type := M StorageState E A.

(** [ForkStorage::new] *)
Definition ForkStorage_new (fork : ForkState (Client := Client)) (contracts : list DeployedContract)
    (override_chain_id : option Z) : ForkStorage :=
  let chain_id :=
    match override_chain_id with
    | Some id => id
    | None => default TEST_NODE_NETWORK_ID (fd_chain_id <$> fork_details fork)
    end in
  mkForkStorage (with_system_contracts_and_chain_id chain_id hash_for_bytecode contracts)
    ∅ ∅ chain_id.

(** [utils::block_on(async { fork.. }).unwrap()] *)
Definition fork_unwrap {A} (m : ForkM (Client := Client) A) : StorageM A := λ s,
  match m s.2 with
  | Ret a fk => Ret a (s.1, fk)
  | Throw _ _ => Panic UNWRAP_ERR
  | Panic msg => Panic msg
  | Deadlock => Deadlock
  end.

Definition cache_value (key : StorageKey) (v : H256) : StorageM unit :=
  modify (λ s, (mkForkStorage (raw_storage s.1) (<[key := v]> (value_read_cache s.1))
                  (factory_dep_cache s.1) (storage_chain_id s.1), s.2)).

Definition cache_factory_dep (hash : H256) (code : option Bytes) : StorageM unit :=
  modify (λ s, (mkForkStorage (raw_storage s.1) (value_read_cache s.1)
                  (<[hash := code]> (factory_dep_cache s.1)) (storage_chain_id s.1), s.2)).

Section Reading.
Context {R : Remote (Client := Client)}.

(** [read_value_internal] *)
Definition read_value_internal (key : StorageKey) : StorageM StorageValue :=
  local ← gets (λ s, read_value_opt (raw_storage s.1) key);
  match local with
  | Some local_value => mret local_value
  | None =>
      cached ← gets (λ s, value_read_cache s.1 !! key);
      match cached with
      | Some cached_value => mret cached_value
      | None =>
          v ← fork_unwrap (get_storage_at_forked key.1 key.2);
          cache_value key v;;
          mret v
      end
  end.

(** [load_factory_dep_internal] *)
Definition load_factory_dep_internal (hash : H256) : StorageM (option Bytes) :=
  local ← gets (λ s, mem_load_factory_dep (raw_storage s.1) hash);
  match local with
  | Some code => mret (Some code)
  | None =>
      cached ← gets (λ s, factory_dep_cache s.1 !! hash);
      match cached with
      | Some v => mret v
      | None =>
          code ← fork_unwrap (get_bytecode_by_hash hash);
          cache_factory_dep hash code;;
          mret code
      end
  end.

(** [is_write_initial_internal] *)
Definition is_write_initial_internal (key : StorageKey) : StorageM bool :=
  v ← read_value_internal key;
  if negb (v =? 0) then mret false
  else gets (λ s, mem_is_write_initial (raw_storage s.1) key).
End Reading.

(** [dump_state] *)
Definition storage_dump_state (st : ForkStorage) : SerializableForkStorage :=
  mkSerializableForkStorage
    (extend (value_read_cache st) (map_to_list (state (raw_storage st))))
    (extend (omap id (factory_dep_cache st)) (map_to_list (factory_deps_map (raw_storage st)))).

(** [load_state] *)
Definition storage_load_state (d : SerializableForkStorage) (st : ForkStorage) : ForkStorage :=
  set_raw_storage
    (mkStorage (extend (state (raw_storage st)) (map_to_list (ser_storage d)))
       (extend (factory_deps_map (raw_storage st)) (map_to_list (ser_factory_deps d)))) st.

Definition set_value (key : StorageKey) (v : StorageValue) (st : ForkStorage) : ForkStorage :=
  set_raw_storage (mem_set_value key v (raw_storage st)) st.

Definition store_factory_dep (hash : H256) (code : Bytes) (st : ForkStorage) : ForkStorage :=
  set_raw_storage (mem_store_factory_dep hash code (raw_storage st)) st.

Definition set_chain_id (id : Z) (st : ForkStorage) : ForkStorage :=
  let st := mkForkStorage (raw_storage st) (value_read_cache st) (factory_dep_cache st) id in
  set_raw_storage
    (mem_set_value (get_system_context_key SYSTEM_CONTEXT_CHAIN_ID_POSITION) id (raw_storage st)) st.

(** ** What a storage holds

    The value of every key and the code of every hash, as one function: local
    data first, then what was read from the fork before, then the fork. *)
Section View.
Context {R : Remote (Client := Client)}.

Definition view (s : StorageState) (key : StorageKey) : RpcResult H256 :=
  match state (raw_storage s.1) !! key, value_read_cache s.1 !! key with
  | Some v, _ => Ok v
  | None, Some v => Ok v
  | None, None =>
      match fork_client s.2 with
      | None => Ok 0
      | Some fc =>
          rpc_get_storage_at (l2_client fc) key.1 key.2
            (Some (VariantNumber (Number (fd_block_number (client_details fc)))))
      end
  end.

Definition code_view (s : StorageState) (hash : H256) : RpcResult (option Bytes) :=
  match factory_deps_map (raw_storage s.1) !! hash, factory_dep_cache s.1 !! hash with
  | Some c, _ => Ok (Some c)
  | None, Some c => Ok c
  | None, None =>
      match fork_client s.2 with
      | None => Ok None
      | Some fc => rpc_get_bytecode_by_hash (l2_client fc) hash
      end
  end.

Definition view_cached (key : StorageKey) (v : H256) (s : StorageState) : StorageState :=
  (mkForkStorage (raw_storage s.1) (<[key := v]> (value_read_cache s.1))
     (factory_dep_cache s.1) (storage_chain_id s.1), s.2).

Definition code_cached (hash : H256) (c : option Bytes) (s : StorageState) : StorageState :=
  (mkForkStorage (raw_storage s.1) (value_read_cache s.1)
     (<[hash := c]> (factory_dep_cache s.1)) (storage_chain_id s.1), s.2).

(** A read returns the view, remembers it at most, and panics exactly when
    the remote had to be asked and failed. *)
Lemma read_value_internal_run key s :
  read_value_internal key s =
  match state (raw_storage s.1) !! key, value_read_cache s.1 !! key, view s key with
  | None, None, Ok v => Ret v (view_cached key v s)
  | _, _, Ok v => Ret v s
  | _, _, Err _ => Panic UNWRAP_ERR
  end.
Proof.
  destruct s as [st fk].
  unfold read_value_internal, view, view_cached, read_value_opt, fork_unwrap, get_storage_at_forked,
    get_storage_at, call_or, make_call, gets, mbind, M_bind; simpl.
  destruct (state _ !! key) as [v|]; simpl; [done|].
  destruct (value_read_cache st !! key) as [v|]; simpl; [done|].
  destruct (fork_client fk) as [fc|] eqn:Hfc; simpl; [|done].
  rewrite Hfc; simpl. by destruct (rpc_get_storage_at _ _ _ _).
Qed.

Lemma load_factory_dep_internal_run hash s :
  load_factory_dep_internal hash s =
  match factory_deps_map (raw_storage s.1) !! hash, factory_dep_cache s.1 !! hash, code_view s hash with
  | None, None, Ok c => Ret c (code_cached hash c s)
  | _, _, Ok c => Ret c s
  | _, _, Err _ => Panic UNWRAP_ERR
  end.
Proof.
  destruct s as [st fk].
  unfold load_factory_dep_internal, code_view, code_cached, mem_load_factory_dep, fork_unwrap,
    get_bytecode_by_hash, call_or, make_call, gets, mbind, M_bind; simpl.
  destruct (factory_deps_map _ !! hash) as [v|]; simpl; [done|].
  destruct (factory_dep_cache st !! hash) as [v|]; simpl; [done|].
  destruct (fork_client fk) as [fc|] eqn:Hfc; simpl; [|done].
  by destruct (rpc_get_bytecode_by_hash _ _).
Qed.

Lemma view_cached_view key v s k :
  view s key = Ok v → view (view_cached key v s) k = view s k.
Proof.
  unfold view; simpl. intros Hv. destruct (decide (k = key)) as [->|].
  - rewrite lookup_insert_eq. repeat case_match; congruence.
  - by rewrite lookup_insert_ne by done.
Qed.

Lemma code_cached_view hash c s h :
  code_view s hash = Ok c → code_view (code_cached hash c s) h = code_view s h.
Proof.
  unfold code_view; simpl. intros Hv. destruct (decide (h = hash)) as [->|].
  - rewrite lookup_insert_eq. repeat case_match; congruence.
  - by rewrite lookup_insert_ne by done.
Qed.

(** Two storages that hold the same; reads do not leave the class. *)
Definition same_view (s s' : StorageState) : Prop :=
  (∀ k, view s' k = view s k) ∧ (∀ h, code_view s' h = code_view s h) ∧
  raw_storage s'.1 = raw_storage s.1 ∧ s'.2 = s.2.

Lemma read_value_view key s v :
  view s key = Ok v → ∃ s', read_value_internal key s = Ret v s' ∧ same_view s s'.
Proof.
  intros Hv. rewrite read_value_internal_run, Hv.
  destruct (state (raw_storage s.1) !! key), (value_read_cache s.1 !! key);
    (eexists; split; [done|]); split_and!; try done.
  intros k; by apply view_cached_view.
Qed.

Lemma load_factory_dep_view hash s c :
  code_view s hash = Ok c → ∃ s', load_factory_dep_internal hash s = Ret c s' ∧ same_view s s'.
Proof.
  intros Hv. rewrite load_factory_dep_internal_run, Hv.
  destruct (factory_deps_map (raw_storage s.1) !! hash), (factory_dep_cache s.1 !! hash);
    (eexists; split; [done|]); split_and!; try done.
  intros k; by apply code_cached_view.
Qed.

Lemma set_value_view key v s k :
  view (set_value key v s.1, s.2) k = if decide (k = key) then Ok v else view s k.
Proof.
  unfold view; simpl. case_decide as Hk; [subst; by rewrite lookup_insert_eq|].
  by rewrite lookup_insert_ne by done.
Qed.

Lemma store_factory_dep_view hash c s h :
  code_view (store_factory_dep hash c s.1, s.2) h =
  if decide (h = hash) then Ok (Some c) else code_view s h.
Proof.
  unfold code_view; simpl. case_decide as Hk; [subst; by rewrite lookup_insert_eq|].
  by rewrite lookup_insert_ne by done.
Qed.

(** ** Refinement: a fork storage is a store over the remote *)
Inductive StorageOp :=
| OpRead (key : StorageKey)
| OpIsWriteInitial (key : StorageKey)
| OpLoadFactoryDep (hash : H256)
| OpSetValue (key : StorageKey) (v : H256)
| OpStoreFactoryDep (hash : H256) (code : Bytes).

Definition run_op (op : StorageOp) : StorageM unit :=
  match op with
  | OpRead key => read_value_internal key;; mret tt
  | OpIsWriteInitial key => is_write_initial_internal key;; mret tt
  | OpLoadFactoryDep hash => load_factory_dep_internal hash;; mret tt
  | OpSetValue key v => modify (λ s, (set_value key v s.1, s.2))
  | OpStoreFactoryDep hash code => modify (λ s, (store_factory_dep hash code s.1, s.2))
  end.

(** The specification: the last write, else what was there at the start. *)
Fixpoint last_value (ops : list StorageOp) (key : StorageKey) : option H256 :=
  match ops with
  | [] => None
  | op :: ops =>
      match last_value ops key, op with
      | Some v, _ => Some v
      | None, OpSetValue key' v => if decide (key = key') then Some v else None
      | None, _ => None
      end
  end.

Fixpoint last_code (ops : list StorageOp) (hash : H256) : option Bytes :=
  match ops with
  | [] => None
  | op :: ops =>
      match last_code ops hash, op with
      | Some c, _ => Some c
      | None, OpStoreFactoryDep hash' c => if decide (hash = hash') then Some c else None
      | None, _ => None
      end
  end.

Definition available (s : StorageState) : Prop :=
  (∀ k, ∃ v, view s k = Ok v) ∧ (∀ h, ∃ c, code_view s h = Ok c).

(** What one operation does to the view. *)
Lemma run_op_view op s :
  available s →
  ∃ s', run_op op s = Ret tt s' ∧
    (∀ k, view s' k = match last_value [op] k with Some v => Ok v | None => view s k end) ∧
    (∀ h, code_view s' h = match last_code [op] h with Some c => Ok (Some c) | None => code_view s h end).
Proof.
  intros [Hv Hc]. destruct op as [key|key|hash|key v|hash c]; simpl.
  - destruct (Hv key) as [v Hk]. destruct (read_value_view _ _ _ Hk) as (s'&Hr&H1&H2&_).
    exists s'. by rewrite (bind_run _ _ _ _ _ Hr).
  - destruct (Hv key) as [v Hk]. destruct (read_value_view _ _ _ Hk) as (s'&Hr&H1&H2&_).
    exists s'. unfold is_write_initial_internal, mbind, M_bind. rewrite Hr.
    by destruct (negb _).
  - destruct (Hc hash) as [c Hh]. destruct (load_factory_dep_view _ _ _ Hh) as (s'&Hr&H1&H2&_).
    exists s'. by rewrite (bind_run _ _ _ _ _ Hr).
  - eexists; split; [done|]. split; [|done]. intros k. rewrite set_value_view. by case_decide.
  - eexists; split; [done|]. split; [done|]. intros h. rewrite store_factory_dep_view. by case_decide.
Qed.

Lemma available_step s s' f g :
  available s →
  (∀ k, view s' k = match f k with Some v => Ok v | None => view s k end) →
  (∀ h, code_view s' h = match g h with Some c => Ok (Some c) | None => code_view s h end) →
  available s'.
Proof.
  intros [Hv Hc] H1 H2. split; intros k; rewrite ?H1, ?H2; case_match; eauto.
Qed.

Lemma run_ops_view ops s :
  available s →
  ∃ s', for_each run_op ops s = Ret tt s' ∧ available s' ∧
    (∀ k, view s' k = match last_value ops k with Some v => Ok v | None => view s k end) ∧
    (∀ h, code_view s' h = match last_code ops h with Some c => Ok (Some c) | None => code_view s h end).
Proof.
  revert s; induction ops as [|op ops IH]; intros s Hav; [by exists s|].
  destruct (run_op_view op s Hav) as (s1&Hr&H1&H2).
  destruct (IH s1 (available_step _ _ _ _ Hav H1 H2)) as (s2&Hr2&Hav2&G1&G2).
  exists s2; split; [simpl; by rewrite (bind_run _ _ _ _ _ Hr)|]. split; [done|]. split.
  - intros k. rewrite G1, H1. simpl. by destruct (last_value ops k).
  - intros h. rewrite G2, H2. simpl. by destruct (last_code ops h).
Qed.

(** C9: the storage of a node is a mutable copy of the chain it forks.
    While the remote answers, no sequence of reads and writes panics; after
    it, reading a key returns the last value written to it, or else the value
    the storage held at the start (local, already read, or the remote's at
    the forked block), and loading a factory dependency returns the last code
    stored, or else the initial one; neither read changes any later answer. *)
Theorem storage_refines_store (ops : list StorageOp) (s : StorageState) :
  available s →
  ∃ s', for_each run_op ops s = Ret tt s' ∧
    (∀ k v, (match last_value ops k with Some v => Ok v | None => view s k end) = Ok v →
       ∃ s'', read_value_internal k s' = Ret v s'' ∧ ∀ k', view s'' k' = view s' k') ∧
    (∀ h c, (match last_code ops h with Some c => Ok (Some c) | None => code_view s h end) = Ok c →
       ∃ s'', load_factory_dep_internal h s' = Ret c s'' ∧ ∀ h', code_view s'' h' = code_view s' h').
Proof.
  intros Hav. destruct (run_ops_view ops s Hav) as (s'&Hr&_&H1&H2).
  exists s'; split; [done|]. split.
  - intros k v Hv. rewrite <-H1 in Hv. destruct (read_value_view _ _ _ Hv) as (s''&?&?&_). eauto.
  - intros h c Hv. rewrite <-H2 in Hv. destruct (load_factory_dep_view _ _ _ Hv) as (s''&?&_&?&_). eauto.
Qed.

(** A write is initial exactly when the slot reads zero and the local
    storage has no entry for it; a slot that was written locally, even with
    zero, is not. *)
Theorem is_write_initial_spec (s : StorageState) (key : StorageKey) (v : H256) :
  view s key = Ok v →
  ∃ s', is_write_initial_internal key s =
          Ret (bool_decide (v = 0 ∧ state (raw_storage s.1) !! key = None)) s' ∧
        same_view s s'.
Proof.
  intros Hv. destruct (read_value_view _ _ _ Hv) as (s'&Hr&Hs). exists s'; split; [|done].
  unfold is_write_initial_internal. rewrite (bind_run _ _ _ _ _ Hr).
  destruct Hs as (_&_&Hraw&_). destruct (Z.eqb_spec v 0) as [->|Hne]; simpl.
  - unfold gets, mem_is_write_initial. rewrite Hraw. f_equal. apply bool_decide_ext. naive_solver.
  - rewrite bool_decide_eq_false_2 by naive_solver. done.
Qed.

(** ** Dump and load *)
Lemma dump_lookup (st : ForkStorage) k :
  ser_storage (storage_dump_state st) !! k =
  match state (raw_storage st) !! k with Some v => Some v | None => value_read_cache st !! k end.
Proof. simpl. rewrite extend_map_to_list, lookup_union. by destruct (state _ !! k), (_ !! k). Qed.

Lemma dump_lookup_code (st : ForkStorage) h :
  ser_factory_deps (storage_dump_state st) !! h =
  match factory_deps_map (raw_storage st) !! h with
  | Some c => Some c
  | None => mjoin (factory_dep_cache st !! h)
  end.
Proof.
  simpl. rewrite extend_map_to_list, lookup_union, lookup_omap.
  destruct (factory_deps_map _ !! h), (factory_dep_cache st !! h) as [[?|]|]; done.
Qed.

Lemma load_lookup d (st : ForkStorage) k :
  state (raw_storage (storage_load_state d st)) !! k =
  match ser_storage d !! k with Some v => Some v | None => state (raw_storage st) !! k end.
Proof. simpl. rewrite extend_map_to_list, lookup_union. by destruct (_ !! k), (_ !! k). Qed.

Lemma load_lookup_code d (st : ForkStorage) h :
  factory_deps_map (raw_storage (storage_load_state d st)) !! h =
  match ser_factory_deps d !! h with Some v => Some v | None => factory_deps_map (raw_storage st) !! h end.
Proof. simpl. rewrite extend_map_to_list, lookup_union. by destruct (_ !! h), (_ !! h). Qed.

(** Loading a dump.  In a storage that loaded the dump of another, every
    slot the other held locally or had read from its fork reads as it did
    there, whatever fork the loading storage has; every other slot reads as
    before the load.  The same for factory dependencies, where a remembered
    absence is not carried over. *)
Theorem storage_dump_load (st st' : ForkStorage) (fk fk' : ForkState (Client := Client)) :
  let s1 := (st, fk) in
  let s2 := (st', fk') in
  let s3 := (storage_load_state (storage_dump_state st) st', fk') in
  (∀ k v, state (raw_storage st) !! k = Some v ∨ value_read_cache st !! k = Some v →
     view s3 k = view s1 k) ∧
  (∀ k, state (raw_storage st) !! k = None → value_read_cache st !! k = None →
     view s3 k = view s2 k) ∧
  (∀ h c, factory_deps_map (raw_storage st) !! h = Some c ∨ factory_dep_cache st !! h = Some (Some c) →
     code_view s3 h = code_view s1 h) ∧
  (∀ h, factory_deps_map (raw_storage st) !! h = None → mjoin (factory_dep_cache st !! h) = None →
     code_view s3 h = code_view s2 h).
Proof.
  intros s1 s2 s3. unfold view, code_view, s1, s2, s3; cbn [fst snd]. split_and!.
  - intros k v. rewrite load_lookup, dump_lookup. intros [->| ->]; [done|]. by destruct (state (raw_storage st) !! k).
  - intros k H1 H2. by rewrite load_lookup, dump_lookup, H1, H2.
  - intros h c. rewrite load_lookup_code, dump_lookup_code. intros [->| ->]; [done|].
    by destruct (factory_deps_map (raw_storage st) !! h).
  - intros h H1 H2. by rewrite load_lookup_code, dump_lookup_code, H1, H2.
Qed.
End View.
End ForkStorage.

(** ** Keys as bytes *)
Lemma key_of_to_bytes key : valid_key key → key_of_bytes (key_to_bytes key) = Ok key.
Proof.
  destruct key as [a k]. intros [Ha Hk]; simpl in *. unfold key_of_bytes, key_to_bytes; cbn [fst snd].
  rewrite decide_True by (by rewrite length_app, !length_be_bytes).
  rewrite take_app_length', drop_app_length' by (symmetry; apply length_be_bytes).
  rewrite !of_be_bytes_be_bytes, !Z.mod_small; [done| |].
  - by change (256 ^ Z.of_nat 32) with (2 ^ 256).
  - by change (256 ^ Z.of_nat 20) with (2 ^ 160).
Qed.

(** Storage keys survive their 52-byte encoding, every 52-byte string is
    the encoding of the key it decodes to, every other length is refused, and
    a whole storage written with byte keys is read back unchanged. *)
Theorem storage_keys_roundtrip :
  (∀ key, valid_key key → key_of_bytes (key_to_bytes key) = Ok key) ∧
  (∀ bytes, Forall is_byte bytes → length bytes = 52%nat →
     ∃ key, key_of_bytes bytes = Ok key ∧ valid_key key ∧ key_to_bytes key = bytes) ∧
  (∀ bytes, length bytes ≠ 52%nat → key_of_bytes bytes = Err (length bytes)) ∧
  (∀ m, (∀ key v, m !! key = Some v → valid_key key) →
     storage_of_entries (storage_to_entries m) = Ok m).
Proof.
  split_and!.
  - apply key_of_to_bytes.
  - intros bs Hb Hlen. unfold key_of_bytes. rewrite decide_True by done. eexists; split; [done|].
    rewrite <-(take_drop 20 bs) in Hb. apply Forall_app in Hb as [Hb1 Hb2].
    assert (length (take 20 bs) = 20%nat) as H1 by (rewrite length_take; lia).
    assert (length (drop 20 bs) = 32%nat) as H2 by (rewrite length_drop; lia).
    pose proof (of_be_bytes_range _ Hb1) as G1. pose proof (of_be_bytes_range _ Hb2) as G2.
    rewrite H1 in G1. rewrite H2 in G2. split; [split|].
    + by change (2 ^ 160) with (256 ^ Z.of_nat 20).
    + by change (2 ^ 256) with (256 ^ Z.of_nat 32).
    + unfold key_to_bytes; cbn [fst snd]. rewrite <-H1 at 1. rewrite <-H2 at 1.
      by rewrite !be_bytes_of_be_bytes, take_drop.
  - intros bs Hlen. unfold key_of_bytes. by rewrite decide_False.
  - intros m Hm. rewrite <-(list_to_map_to_list m) at 2. unfold storage_to_entries.
    assert (Hl : ∀ kv, kv ∈ map_to_list m → valid_key kv.1).
    { intros [k v] Hin. by eapply Hm, elem_of_map_to_list. }
    revert Hl. generalize (map_to_list m). induction l as [|[k v] l IH]; intros Hl; [done|].
    rewrite fmap_cons, list_to_map_cons. cbn [storage_of_entries fst snd].
    rewrite key_of_to_bytes by (apply (Hl (k, v)); left). rewrite IH; [done|].
    intros kv Hin. apply Hl. by right.
Qed.

(** ** State overrides ([state_override.rs])

    [StorageWithOverrides] of the VM crate is an interface: its operations and
    what reading after each of them gives. *)
Inductive BytecodeOverride :=
| Unspecified (code : Bytes)
| OverrideEraVm (code : Bytes)
| OverrideEvm (code : Bytes).

Inductive OverrideState :=
| FullState (slots : list (H256 * H256))
| StateDiff (slots : list (H256 * H256)).

Record OverrideAccount := mkOverrideAccount {
  ov_balance : option Z;
  ov_nonce : option Z;
  ov_code : option BytecodeOverride;
  ov_state : option OverrideState;
}.

Class StorageWithOverrides (W : Type) := {
  ov_set_value : StorageKey → H256 → W → W;
  ov_read_value : StorageKey → W → H256;
  ov_store_factory_dep : H256 → Bytes → W → W;
  ov_insert_erased_account : Address → W → W;
  ov_read_set k k' v w :
    ov_read_value k (ov_set_value k' v w) = if decide (k = k') then v else ov_read_value k w;
  ov_read_store k h c w : ov_read_value k (ov_store_factory_dep h c w) = ov_read_value k w;
  ov_read_erased k a w : k.1 ≠ a → ov_read_value k (ov_insert_erased_account a w) = ov_read_value k w;
}.

Section Overrides.
Context {KA : KeyApi} {W : Type} {SO : StorageWithOverrides W}.

Definition set_slots (account : Address) (slots : list (H256 * H256)) (storage : W) : W :=
  foldl (λ w kv, ov_set_value (account, kv.1) kv.2 w) storage slots.

Definition apply_code_override (account : Address) (code : BytecodeOverride) (storage : W) : W :=
  let '(bytecode_kind, code) :=
    match code with
    | Unspecified code => (detect_bytecode code, code)
    | OverrideEraVm code => (EraVm, code)
    | OverrideEvm code => (Evm, code)
    end in
  let code_key := get_code_key account in
  let '(code_hash, prepared_code, storage) :=
    match bytecode_kind with
    | EraVm => (hash_for_bytecode code, code, storage)
    | Evm =>
        let versioned_hash := hash_for_raw_evm_bytecode code in
        (versioned_hash, pad_evm_bytecode code,
         ov_set_value (get_evm_code_hash_key versioned_hash) (keccak256 code) storage)
    end in
  let storage := ov_set_value code_key code_hash storage in
  let storage := ov_set_value (get_known_code_key code_hash) 1 storage in
  ov_store_factory_dep code_hash prepared_code storage.

(** The body of the loop over the accounts. *)
Definition apply_account_override (account : Address) (overrides : OverrideAccount) (storage : W) : W :=
  let storage :=
    match ov_balance overrides with
    | Some balance => ov_set_value (storage_key_for_eth_balance account) balance storage
    | None => storage
    end in
  let storage :=
    match ov_nonce overrides with
    | Some nonce =>
        let nonce_key := get_nonce_key account in
        let full_nonce := ov_read_value nonce_key storage in
        let '(_, deployment_nonce) := decompose_full_nonce full_nonce in
        ov_set_value nonce_key (nonces_to_full_nonce nonce deployment_nonce) storage
    | None => storage
    end in
  let storage :=
    match ov_code overrides with
    | Some code => apply_code_override account code storage
    | None => storage
    end in
  match ov_state overrides with
  | Some (FullState slots) =>
      ov_insert_erased_account account (set_slots account slots storage)
  | Some (StateDiff slots) => set_slots account slots storage
  | None => storage
  end.

(** [apply_state_override], in the iteration order of the accounts. *)
Definition apply_state_override (storage : W) (state_override : list (Address * OverrideAccount)) : W :=
  foldl (λ w ao, apply_account_override ao.1 ao.2 w) storage state_override.

(** The keys an override of an account may change. *)
Definition touched (account : Address) (o : OverrideAccount) (k : StorageKey) : Prop :=
  k.1 = account ∨ (k = storage_key_for_eth_balance account ∧ ov_balance o ≠ None) ∨
  (k = get_nonce_key account ∧ ov_nonce o ≠ None) ∨
  (ov_code o ≠ None ∧ (k = get_code_key account ∨ (∃ h, k = get_known_code_key h) ∨
                       (∃ h, k = get_evm_code_hash_key h))).

Lemma set_slots_read account slots w k :
  k.1 ≠ account → ov_read_value k (set_slots account slots w) = ov_read_value k w.
Proof.
  intros Hk. revert w. unfold set_slots. induction slots as [|[key v] slots IH]; intros w; simpl; [done|].
  rewrite IH, ov_read_set, decide_False; [done|]. intros ->. by apply Hk.
Qed.

Lemma apply_code_override_read account code w k :
  k ≠ get_code_key account → (∀ h, k ≠ get_known_code_key h) → (∀ h, k ≠ get_evm_code_hash_key h) →
  ov_read_value k (apply_code_override account code w) = ov_read_value k w.
Proof.
  intros H1 H2 H3. unfold apply_code_override.
  destruct code as [c|c|c]; [destruct (detect_bytecode c)|..];
    by rewrite ov_read_store, !ov_read_set, !decide_False by done.
Qed.

(** The frame of a state override: a slot that is not of an overridden
    account, nor a balance, nonce or code entry the override names, reads as
    in the storage underneath. *)
Theorem state_override_frame (w : W) (os : list (Address * OverrideAccount)) (k : StorageKey) :
  (∀ ao, ao ∈ os → ¬ touched ao.1 ao.2 k) →
  ov_read_value k (apply_state_override w os) = ov_read_value k w.
Proof.
  unfold apply_state_override. revert w.
  induction os as [|[a o] os IH]; intros w Hk; simpl; [done|].
  rewrite IH by (intros ao Hao; apply Hk; by right). clear IH.
  assert (Hn : ¬ touched a o k) by (apply (Hk (a, o)); left). clear Hk.
  unfold touched in Hn. destruct o as [bal nonce code st]; simpl in *.
  assert (Ha : k.1 ≠ a) by tauto. unfold apply_account_override; simpl.
  destruct st as [[slots|slots]|]; rewrite ?ov_read_erased, ?set_slots_read by done.
  all: destruct code as [code|]; [rewrite apply_code_override_read by naive_solver|].
  all: destruct nonce as [nonce|]; [destruct (decompose_full_nonce _);
         rewrite ov_read_set, decide_False by naive_solver|].
  all: destruct bal; [rewrite ov_read_set, decide_False by naive_solver|]; done.
Qed.

(** Overriding the nonce of an account replaces its account nonce and
    keeps its deployment nonce; overriding its balance sets the balance. *)
Theorem state_override_nonce (w : W) (a : Address) (balance nonce : Z) :
  get_nonce_key a ≠ storage_key_for_eth_balance a →
  let w' := apply_state_override w [(a, mkOverrideAccount (Some balance) (Some nonce) None None)] in
  ov_read_value (get_nonce_key a) w' =
    nonces_to_full_nonce nonce (decompose_full_nonce (ov_read_value (get_nonce_key a) w)).2 ∧
  ov_read_value (storage_key_for_eth_balance a) w' = balance.
Proof.
  intros Hne w'. unfold w', apply_state_override, apply_account_override; simpl.
  rewrite (ov_read_set (get_nonce_key a) (storage_key_for_eth_balance a)), decide_False by done.
  destruct (decompose_full_nonce _) as [an dn]; simpl.
  by rewrite !ov_read_set, decide_True, decide_False, decide_True by done.
Qed.
End Overrides.

(** ** Concrete keys and stores *)
Module SampleKeys.
(** System accounts far above the sample addresses; a full nonce is the
    deployment nonce times [2 ^ 128] plus the account nonce. *)
Definition keys : KeyApi := {|
  get_code_key a := (32770, a);
  get_known_code_key h := (32772, h);
  get_nonce_key a := (32771, a);
  storage_key_for_eth_balance a := (32778, a);
  get_evm_code_hash_key h := (32786, h);
  get_system_context_key h := (32779, h);
  SYSTEM_CONTEXT_CHAIN_ID_POSITION := 0;
  get_system_context_init_logs id := [mkStorageLogQuery true (32779, 0) id];
  hash_for_bytecode c := of_be_bytes c;
  hash_for_raw_evm_bytecode c := 1 + of_be_bytes c;
  pad_evm_bytecode c := c;
  keccak256 c := of_be_bytes c;
  detect_bytecode _ := EraVm;
  decompose_full_nonce n := (n mod 2 ^ 128, n / 2 ^ 128);
  nonces_to_full_nonce a d := d * 2 ^ 128 + a;
|}.

(** Overrides over a total store: explicit values win over erased accounts. *)
Record Store := mkStore { st_values : gmap StorageKey Z; st_erased : gset Address }.

#[global, refine] Instance store : StorageWithOverrides Store := {|
  ov_set_value k v w := mkStore (<[k := v]> (st_values w)) (st_erased w);
  ov_read_value k w := default 0 (st_values w !! k);
  ov_store_factory_dep _ _ w := w;
  ov_insert_erased_account a w := mkStore (st_values w) ({[a]} ∪ st_erased w);
|}.
Proof.
  - intros; simpl. case_decide; [subst; by rewrite lookup_insert_eq|by rewrite lookup_insert_ne].
  - done.
  - done.
Defined.
#[local] Existing Instances keys Sample.fee Sample.api SampleRemote.remote.

Lemma state_override_frame_witness :
  let w := mkStore {[ (3, 4) := 9 ]} ∅ in
  ov_read_value (3, 4) (apply_state_override w
    [(8, mkOverrideAccount (Some 1) (Some 2) None (Some (FullState [(4, 5)])))]) = ov_read_value (3, 4) w.
Proof.
  intros w. apply state_override_frame. intros ao ->%list_elem_of_singleton.
  unfold touched; simpl. naive_solver.
Defined.

Lemma state_override_nonce_witness :
  let w := mkStore {[ (32771, 8) := 5 * 2 ^ 128 + 1 ]} ∅ in
  ov_read_value (32771, 8) (apply_state_override w
    [(8, mkOverrideAccount (Some 1) (Some 2) None None)]) = 5 * 2 ^ 128 + 2.
Proof.
  intros w. destruct (state_override_nonce w 8 1 2) as [H _]; [discriminate|].
  refine (eq_trans H _). vm_compute; reflexivity.
Defined.

(** A storage forking block 5 of the sample remote, with one local slot. *)
Definition sample : StorageState (Client := unit) :=
  (mkForkStorage (mkStorage {[ (3, 4) := 9 ]} ∅) ∅ ∅ 260,
   Fork_new (Some SampleRemote.client) CacheMemory empty_disk).

Lemma sample_available : available (R := SampleRemote.remote) sample.
Proof.
  split.
  - intros k. unfold view; simpl. rewrite lookup_empty. destruct (_ !! k); [eauto|].
    simpl. eauto.
  - intros h. unfold code_view; simpl. rewrite !lookup_empty. simpl. eauto.
Qed.

Lemma storage_refines_store_witness :
  ∃ s', for_each (run_op (R := SampleRemote.remote) (E := unit))
          [OpRead (1, 2); OpSetValue (1, 2) 7; OpIsWriteInitial (5, 5)] sample = Ret tt s' ∧
    ∃ s'', read_value_internal (R := SampleRemote.remote) (E := unit) (1, 2) s' = Ret 7 s''.
Proof.
  destruct (storage_refines_store (R := SampleRemote.remote) (E := unit)
    [OpRead (1, 2); OpSetValue (1, 2) 7; OpIsWriteInitial (5, 5)] sample sample_available)
    as (s'&H&Hread&_).
  exists s'; split; [exact H|].
  destruct (Hread (1, 2) 7) as (s''&Hr&_); [vm_compute; reflexivity|].
  exists s''; exact Hr.
Defined.

Lemma is_write_initial_witness :
  ∃ s', is_write_initial_internal (R := SampleRemote.remote) (E := unit) (0, 0) sample = Ret true s'.
Proof.
  destruct (is_write_initial_spec (R := SampleRemote.remote) (E := unit) sample (0, 0) 0) as (s'&H&_);
    [vm_compute; reflexivity|].
  exists s'. refine (eq_trans H _). vm_compute; reflexivity.
Defined.
End SampleKeys.
