(* ===== verification/FeeModel.v ===== *)
(** * Fee model

    [crates/core/src/node/fee_model.rs]: the provider of batch fee inputs. *)
From S2P Require Import Prelude Types Cache Fork.
From Stdlib Require Import SpecFloat.
Local Open Scope Z_scope.

Section FeeModel.
Context {FA : FeeApi}.

Record TestNodeFeeInputProvider := mkFeeProvider {
  estimate_gas_price_scale_factor : f64;
  estimate_gas_scale_factor : f32;
  fee_params : FeeParamsV2;
  forced_base_fee : option Z;
}.

(** [eq_config] and [PartialEq for TestNodeFeeInputProvider]; [==] on floats
    is IEEE equality. *)
Definition eq_config (a b : FeeModelConfigV2) : bool :=
  (minimal_l2_gas_price a =? minimal_l2_gas_price b)
  && SFeqb (compute_overhead_part a) (compute_overhead_part b)
  && SFeqb (pubdata_overhead_part a) (pubdata_overhead_part b)
  && (batch_overhead_l1_gas a =? batch_overhead_l1_gas b)
  && (max_gas_per_batch a =? max_gas_per_batch b)
  && (max_pubdata_per_batch a =? max_pubdata_per_batch b).

Definition provider_eq (self other : TestNodeFeeInputProvider) : bool :=
  SFeqb (estimate_gas_price_scale_factor self) (estimate_gas_price_scale_factor other)
  && SFeqb (estimate_gas_scale_factor self) (estimate_gas_scale_factor other)
  && (v2_l1_gas_price (fee_params self) =? v2_l1_gas_price (fee_params other))
  && (v2_l1_pubdata_price (fee_params self) =? v2_l1_pubdata_price (fee_params other))
  && eq_config (v2_config (fee_params self)) (v2_config (fee_params other)).

(** The configuration of a node that does not fork. *)
Definition default_fee_config : FeeModelConfigV2 :=
  mkFeeModelConfig DEFAULT_L2_GAS_PRICE f64_zero f64_one 800000 200000000 500000.

(** [Default for TestNodeFeeInputProvider] *)
Definition default_provider : TestNodeFeeInputProvider :=
  mkFeeProvider DEFAULT_ESTIMATE_GAS_PRICE_SCALE_FACTOR DEFAULT_ESTIMATE_GAS_SCALE_FACTOR
    (FeeParamsV2_new default_fee_config DEFAULT_L1_GAS_PRICE DEFAULT_FAIR_PUBDATA_PRICE default_ratio)
    None.

(** [from_fee_params_and_estimate_scale_factors]; the first version of the
    fee model is [todo!()]. *)
Definition from_fee_params_and_estimate_scale_factors {S E}
    (params : FeeParams FeeParamsV1 FeeParamsV2) (price_factor : f64) (gas_factor : f32)
    : M S E TestNodeFeeInputProvider :=
  match params with
  | ParamsV1 _ => panic "not yet implemented"
  | ParamsV2 p => mret (mkFeeProvider price_factor gas_factor p None)
  end.

(** [u64::try_from(x).expect(msg)] on a [u128]. *)
Definition expect_u64 {S E} (msg : string) (x : Z) : M S E Z :=
  if x <=? u64_max then mret x else panic msg.

Definition PRICE_TOO_LARGE : string := "L1 gas price exceeded 2^64; base token ratio is too large".
Definition PUBDATA_TOO_LARGE : string := "pubdata gas price exceeded 2^64; base token ratio is too large".

(** [from_fork]; [ratio] is that of the base token configuration. *)
Definition from_fork {S E} (fork : option ForkDetails) (ratio : BaseTokenConversionRatio)
    : M S E TestNodeFeeInputProvider :=
  match fork with
  | Some fork =>
      from_fee_params_and_estimate_scale_factors (fd_fee_params fork)
        (fd_estimate_gas_price_scale_factor fork) (fd_estimate_gas_scale_factor fork)
  | None =>
      l1_gas_price ← expect_u64 PRICE_TOO_LARGE
        (DEFAULT_L1_GAS_PRICE * denominator ratio / numerator ratio);
      fair_pubdata_price ← expect_u64 PUBDATA_TOO_LARGE
        (DEFAULT_FAIR_PUBDATA_PRICE * denominator ratio / numerator ratio);
      mret (mkFeeProvider DEFAULT_ESTIMATE_GAS_PRICE_SCALE_FACTOR DEFAULT_ESTIMATE_GAS_SCALE_FACTOR
              (FeeParamsV2_new default_fee_config l1_gas_price fair_pubdata_price ratio) None)
  end.

(** [from_estimate_scale_factors] *)
Definition from_estimate_scale_factors (price_factor : f64) (gas_factor : f32)
    : TestNodeFeeInputProvider :=
  mkFeeProvider price_factor gas_factor (fee_params default_provider) (forced_base_fee default_provider).

Definition get_fee_model_config (p : TestNodeFeeInputProvider) : FeeModelConfigV2 :=
  v2_config (fee_params p).

Definition get_params (p : TestNodeFeeInputProvider) : FeeParams FeeParamsV1 FeeParamsV2 :=
  ParamsV2 (fee_params p).

Definition enforce_base_fee (p : TestNodeFeeInputProvider) (fee_input : BatchFeeInput) : BatchFeeInput :=
  match forced_base_fee p with
  | Some base_fee =>
      let i := into_pubdata_independent fee_input in
      PubdataIndependent
        (mkPubdataIndependent (pi_l1_gas_price i) base_fee (pi_fair_pubdata_price i))
  | None => fee_input
  end.

Definition get_batch_fee_input (p : TestNodeFeeInputProvider) : BatchFeeInput :=
  enforce_base_fee p (fee_params_scale (get_params p) f64_one f64_one).

Definition get_batch_fee_input_scaled (p : TestNodeFeeInputProvider) : BatchFeeInput :=
  let scale_factor := estimate_gas_price_scale_factor p in
  enforce_base_fee p (fee_params_scale (get_params p) scale_factor scale_factor).

Definition gas_price (p : TestNodeFeeInputProvider) : Z :=
  (derive_base_fee_and_gas_per_pubdata (get_batch_fee_input_scaled p)).1.

Definition fair_pubdata_price (p : TestNodeFeeInputProvider) : Z :=
  input_fair_pubdata_price (get_batch_fee_input_scaled p).

Definition set_base_fee (base_fee : Z) (p : TestNodeFeeInputProvider) : TestNodeFeeInputProvider :=
  mkFeeProvider (estimate_gas_price_scale_factor p) (estimate_gas_scale_factor p) (fee_params p)
    (Some base_fee).

(** ** Properties *)

(** A base fee that was set is the L2 gas price of every fee input from
    then on, scaled or not, the last one set winning; the L1 gas price and the
    pubdata price stay those of the fee parameters. *)
Theorem set_base_fee_spec (p : TestNodeFeeInputProvider) (fees : list Z) (base_fee : Z) :
  let p' := set_base_fee base_fee (foldl (λ p f, set_base_fee f p) p fees) in
  let plain := into_pubdata_independent (fee_params_scale (get_params p) f64_one f64_one) in
  let scale := estimate_gas_price_scale_factor p in
  let scaled := into_pubdata_independent (fee_params_scale (get_params p) scale scale) in
  get_batch_fee_input p' =
    PubdataIndependent (mkPubdataIndependent (pi_l1_gas_price plain) base_fee (pi_fair_pubdata_price plain)) ∧
  get_batch_fee_input_scaled p' =
    PubdataIndependent (mkPubdataIndependent (pi_l1_gas_price scaled) base_fee (pi_fair_pubdata_price scaled)).
Proof.
  intros p' plain scale scaled.
  assert (Hp : p' = mkFeeProvider scale (estimate_gas_scale_factor p) (fee_params p) (Some base_fee)).
  { subst p' scale. clear. revert p. induction fees as [|f fees IH]; intros p; simpl; [done|].
    by rewrite IH. }
  by rewrite Hp.
Qed.

Lemma price_fits price (r : BaseTokenConversionRatio) :
  0 < numerator r →
  (price * denominator r / numerator r <=? u64_max) = true ↔
  price * denominator r < 2 ^ 64 * numerator r.
Proof.
  intros Hn. rewrite Z.leb_le. unfold u64_max. split; intros H.
  - pose proof (Z.mul_succ_div_gt (price * denominator r) (numerator r)). nia.
  - enough (price * denominator r / numerator r < 2 ^ 64) by lia.
    apply Z.div_lt_upper_bound; lia.
Qed.

(** A node that does not fork starts exactly when its base token ratio
    keeps the L1 gas price below [2 ^ 64] (the pubdata price is then below as
    well), and panics with the message about the L1 gas price otherwise; the
    ratio one gives the default provider. *)
Theorem from_fork_ratio {S E} (ratio : BaseTokenConversionRatio) (s : S) :
  0 < numerator ratio → 0 <= denominator ratio →
  (from_fork (E := E) None ratio s =
   if DEFAULT_L1_GAS_PRICE * denominator ratio <? 2 ^ 64 * numerator ratio then
     Ret (mkFeeProvider DEFAULT_ESTIMATE_GAS_PRICE_SCALE_FACTOR DEFAULT_ESTIMATE_GAS_SCALE_FACTOR
            (FeeParamsV2_new default_fee_config
               (DEFAULT_L1_GAS_PRICE * denominator ratio / numerator ratio)
               (DEFAULT_FAIR_PUBDATA_PRICE * denominator ratio / numerator ratio) ratio) None) s
   else Panic PRICE_TOO_LARGE) ∧
  from_fork (E := E) None default_ratio s = Ret default_provider s.
Proof.
  intros Hn Hd. split; [|done]. unfold from_fork, expect_u64, mbind, M_bind.
  pose proof (price_fits DEFAULT_L1_GAS_PRICE ratio Hn) as H1.
  pose proof (price_fits DEFAULT_FAIR_PUBDATA_PRICE ratio Hn) as H2.
  destruct (Z.ltb_spec (DEFAULT_L1_GAS_PRICE * denominator ratio) (2 ^ 64 * numerator ratio)) as [Hlt|Hge].
  - rewrite (proj2 H1 Hlt); simpl. rewrite (proj2 H2); [done|].
    unfold DEFAULT_L1_GAS_PRICE, DEFAULT_FAIR_PUBDATA_PRICE in *. nia.
  - destruct (_ <=? u64_max); [pose proof (proj1 H1 eq_refl); lia|done].
Qed.
End FeeModel.

Lemma from_fork_ratio_witness :
  from_fork (FA := Sample.fee) (E := unit) None (mkRatio 1 600000000) tt = Panic PRICE_TOO_LARGE ∧
  from_fork (FA := Sample.fee) (E := unit) None (mkRatio 1 500000000) tt ≠ Panic PRICE_TOO_LARGE.
Proof.
  destruct (from_fork_ratio (FA := Sample.fee) (E := unit) (mkRatio 1 600000000) tt) as [H1 _];
    [vm_compute; reflexivity|vm_compute; discriminate|].
  destruct (from_fork_ratio (FA := Sample.fee) (E := unit) (mkRatio 1 500000000) tt) as [H2 _];
    [vm_compute; reflexivity|vm_compute; discriminate|].
  split; [exact H1|]. rewrite H2. vm_compute. discriminate.
Defined.
