(* ===== verification/Sealer.v ===== *)
(** * The block sealer

    [crates/core/src/node/sealer.rs]: when a batch of pool transactions is
    handed to the node for sealing.

    The receiving half of a channel is the state of the channel at the time
    of the poll; the waker and the lock around the mode are not state. *)
From S2P Require Import Prelude Types Impersonate Pool.

(** [tokio::time::Interval]: created with a period, polled for a tick. *)
Class Ticker := {
  ticker : Type;
  interval_at : Z → ticker;
  poll_tick : ticker → bool * ticker;
}.

Inductive Poll (A : Type) := Ready (a : A) | NotReady.
Arguments Ready {_} _.
Arguments NotReady {_}.

Section Sealer.
Context {TA : TransactionApi} {CH : Channel} {TI : Ticker}.

Record ImmediateBlockSealer := mkImmediate {
  imm_max_transactions : nat;
  imm_rx : chan;
}.

Record FixedTimeBlockSealer := mkFixedTime {
  ft_max_transactions : nat;
  ft_interval : ticker;
}.

Inductive BlockSealerMode :=
| Noop
| Immediate (sealer : ImmediateBlockSealer)
| FixedTime (sealer : FixedTimeBlockSealer).

(** [BlockSealerMode::noop], [immediate] and [fixed_time]. *)
Definition mode_noop : BlockSealerMode := Noop.
Definition mode_immediate (max_transactions : nat) (listener : chan) : BlockSealerMode :=
  Immediate (mkImmediate max_transactions listener).
Definition mode_fixed_time (max_transactions : nat) (block_time : Z) : BlockSealerMode :=
  FixedTime (mkFixedTime max_transactions (interval_at block_time)).

(** The [while let] loop that empties the receiver: [fuel] bounds its
    iterations; is there any message, and the receiver afterwards. *)
Fixpoint drain (fuel : nat) (has_new_txs : bool) (rx : chan) : bool * chan :=
  match fuel with
  | O => (has_new_txs, rx)
  | S fuel =>
      match poll_next rx with
      | Some (_, rx) => drain fuel true rx
      | None => (has_new_txs, rx)
      end
  end.

(** [ImmediateBlockSealer::poll]; [None] when [fuel] calls were not enough. *)
Fixpoint immediate_poll_fuel (fuel : nat) (st : ImpersonationState) (s : ImmediateBlockSealer)
    (pool : TxPool) : option (Poll TxBatch * ImmediateBlockSealer * TxPool) :=
  match fuel with
  | O => None
  | S fuel =>
      match take_uniform st (imm_max_transactions s) pool with
      | (Some tx_batch, pool) => Some (Ready tx_batch, s, pool)
      | (None, pool) =>
          let '(has_new_txs, rx) := drain (S (chan_len (imm_rx s))) false (imm_rx s) in
          let s := mkImmediate (imm_max_transactions s) rx in
          if has_new_txs then immediate_poll_fuel fuel st s pool
          else Some (NotReady, s, pool)
      end
  end.

(** Two calls are enough: the first empties the receiver. *)
Definition immediate_poll (st : ImpersonationState) (s : ImmediateBlockSealer) (pool : TxPool)
    : Poll TxBatch * ImmediateBlockSealer * TxPool :=
  default (NotReady, s, pool) (immediate_poll_fuel 2 st s pool).

(** [FixedTimeBlockSealer::poll] *)
Definition fixed_time_poll (st : ImpersonationState) (s : FixedTimeBlockSealer) (pool : TxPool)
    : Poll TxBatch * FixedTimeBlockSealer * TxPool :=
  let '(ready, interval) := poll_tick (ft_interval s) in
  let s := mkFixedTime (ft_max_transactions s) interval in
  if (ready : bool) then
    let '(tx_batch, pool) := take_uniform st (ft_max_transactions s) pool in
    (Ready (default (mkTxBatch false []) tx_batch), s, pool)
  else (NotReady, s, pool).

(** [BlockSealerMode::poll], which is also the closure [BlockSealer::run]
    polls. *)
Definition mode_poll (st : ImpersonationState) (m : BlockSealerMode) (pool : TxPool)
    : Poll TxBatch * BlockSealerMode * TxPool :=
  match m with
  | Noop => (NotReady, Noop, pool)
  | Immediate s =>
      let '(r, s, pool) := immediate_poll st s pool in (r, Immediate s, pool)
  | FixedTime s =>
      let '(r, s, pool) := fixed_time_poll st s pool in (r, FixedTime s, pool)
  end.

(** [BlockSealerState::is_immediate] and [set_mode]. *)
Definition is_immediate (m : BlockSealerMode) : bool :=
  match m with Immediate _ => true | _ => false end.
Definition set_mode (new _ : BlockSealerMode) : BlockSealerMode := new.

(** Iterations of the loop of [BlockSealer::run]: polls that are ready, and
    the batches sent to the node for sealing, in order. *)
Fixpoint run_polls (n : nat) (st : ImpersonationState) (m : BlockSealerMode) (pool : TxPool)
    : list TxBatch * BlockSealerMode * TxPool :=
  match n with
  | O => ([], m, pool)
  | S n =>
      match mode_poll st m pool with
      | (Ready b, m, pool) =>
          let '(bs, m, pool) := run_polls n st m pool in (b :: bs, m, pool)
      | (NotReady, m, pool) => ([], m, pool)
      end
  end.

(** ** Lemmas *)
Lemma drain_None fuel b rx :
  (chan_len rx < fuel)%nat → poll_next (drain fuel b rx).2 = None.
Proof.
  revert b rx; induction fuel as [|fuel IH]; intros b rx Hf; [lia|]. simpl.
  destruct (poll_next rx) as [[h rx']|] eqn:Hp; [|done].
  apply IH. apply poll_next_len in Hp. lia.
Qed.

Lemma drain_empty fuel b rx : poll_next rx = None → drain fuel b rx = (b, rx).
Proof. intros H; destruct fuel; simpl; by rewrite ?H. Qed.

Lemma take_uniform_None st n pool pool' :
  take_uniform st n pool = (None, pool') → pool' = pool ∧ (n = 0%nat ∨ pool_inner pool = []).
Proof. intros H. pose proof (take_uniform_run st n pool) as Hs. by rewrite H in Hs. Qed.

Lemma take_uniform_idle st n pool :
  n = 0%nat ∨ pool_inner pool = [] → take_uniform st n pool = (None, pool).
Proof.
  intros H. unfold take_uniform. destruct (Nat.eqb_spec n 0) as [|Hn]; [done|].
  destruct H as [?| ->]; [lia|done].
Qed.

Lemma immediate_poll_idle st s pool :
  imm_max_transactions s = 0%nat ∨ pool_inner pool = [] →
  ∃ rx, immediate_poll_fuel 2 st s pool =
          Some (NotReady, mkImmediate (imm_max_transactions s) rx, pool) ∧ poll_next rx = None.
Proof.
  intros Hi. cbn [immediate_poll_fuel]. rewrite (take_uniform_idle _ _ _ Hi).
  pose proof (drain_None (S (chan_len (imm_rx s))) false (imm_rx s) ltac:(lia)) as Hd.
  destruct (drain _ false (imm_rx s)) as [b rx]; cbn [snd] in Hd. destruct b; [|eauto].
  cbn [imm_max_transactions imm_rx]. rewrite (take_uniform_idle _ _ _ Hi), drain_empty by done. eauto.
Qed.

Lemma immediate_poll_busy st s pool b pool' :
  take_uniform st (imm_max_transactions s) pool = (Some b, pool') →
  immediate_poll_fuel 2 st s pool = Some (Ready b, s, pool').
Proof. intros H. cbn [immediate_poll_fuel]. by rewrite H. Qed.

(** Polling an immediate sealer terminates: the recursion of [poll] is at
    most one call deep, because the first call empties the receiver.  It is
    ready exactly when the sealer may take a transaction and the pool has
    one, with the batch [take_uniform] takes; otherwise the pool is unchanged
    and the receiver is left empty, so that only a new transaction wakes it. *)
Theorem immediate_poll_total (st : ImpersonationState) (s : ImmediateBlockSealer) (pool : TxPool) :
  ∃ r s' pool',
    (∀ fuel, (2 <= fuel)%nat → immediate_poll_fuel fuel st s pool = Some (r, s', pool')) ∧
    match r with
    | Ready b => take_uniform st (imm_max_transactions s) pool = (Some b, pool') ∧ s' = s
    | NotReady => (imm_max_transactions s = 0%nat ∨ pool_inner pool = []) ∧ pool' = pool ∧
                  poll_next (imm_rx s') = None
    end.
Proof.
  destruct (take_uniform st (imm_max_transactions s) pool) as [[b|] pool'] eqn:Ht.
  - exists (Ready b), s, pool'. split; [|done]. intros [|fuel] Hf; [lia|]. simpl. by rewrite Ht.
  - apply take_uniform_None in Ht as [-> Hi].
    destruct (immediate_poll_idle st s pool Hi) as (rx&Hr&Hn).
    exists NotReady, (mkImmediate (imm_max_transactions s) rx), pool; split; [|by split_and!].
    intros [|[|fuel]] Hf; [lia..|]. rewrite <-Hr. cbn [immediate_poll_fuel].
    rewrite (take_uniform_idle _ _ _ Hi).
    pose proof (drain_None (S (chan_len (imm_rx s))) false (imm_rx s) ltac:(lia)) as Hd.
    destruct (drain _ false (imm_rx s)) as [[] rx'']; cbn [snd] in Hd; [|done].
    cbn [imm_max_transactions imm_rx]. by rewrite (take_uniform_idle _ _ _ Hi), !drain_empty.
Qed.

(** One ready poll takes a non-empty run from the top of the pool. *)
Lemma mode_poll_immediate_busy st s pool :
  imm_max_transactions s ≠ 0%nat → pool_inner pool ≠ [] →
  ∃ b taken rest, mode_poll st (Immediate s) pool =
      (Ready b, Immediate s, set_pool_inner rest pool) ∧
    pool_inner pool = rest ++ rev taken ∧ txs b = transaction <$> taken ∧
    (0 < length taken <= imm_max_transactions s)%nat ∧
    Forall (λ t, tx_impersonating st t = impersonating b) taken.
Proof.
  intros Hn Hp. pose proof (take_uniform_run st (imm_max_transactions s) pool) as Hs.
  destruct (take_uniform st (imm_max_transactions s) pool) as [[b|] pool'] eqn:Ht;
    [|naive_solver].
  destruct Hs as (taken&rest&H1&->&H2&H3&H4&_). exists b, taken, rest. split; [|done].
  simpl. unfold immediate_poll. by rewrite (immediate_poll_busy _ _ _ _ _ Ht).
Qed.

(** An immediate sealer drains the pool.  With at least one transaction
    allowed per block, as many polls as the pool has transactions empty it:
    the batches sent for sealing contain every transaction of the pool once
    and in pool order, none is empty or larger than the limit, and each is
    uniform in its impersonation flag. *)
Theorem immediate_drains_pool (st : ImpersonationState) (s : ImmediateBlockSealer) (pool : TxPool) :
  imm_max_transactions s ≠ 0%nat →
  let '(batches, m, pool') := run_polls (S (length (pool_inner pool))) st (Immediate s) pool in
  pool_inner pool' = [] ∧
  mjoin (txs <$> batches) = transaction <$> rev (pool_inner pool) ∧
  Forall (λ b, (0 < length (txs b) <= imm_max_transactions s)%nat ∧
               Forall (λ tx, is_impersonating st (initiator_account tx) = impersonating b) (txs b)) batches.
Proof.
  intros Hn.
  assert (Hgen : ∀ fuel pool, (length (pool_inner pool) < fuel)%nat →
    let '(batches, m, pool') := run_polls fuel st (Immediate s) pool in
    pool_inner pool' = [] ∧
    mjoin (txs <$> batches) = transaction <$> rev (pool_inner pool) ∧
    Forall (λ b, (0 < length (txs b) <= imm_max_transactions s)%nat ∧
               Forall (λ tx, is_impersonating st (initiator_account tx) = impersonating b) (txs b)) batches);
    [|exact (Hgen _ pool (Nat.lt_succ_diag_r _))].
  clear pool. induction fuel as [|fuel IH]; intros pool Hf; [lia|].
  destruct (decide (pool_inner pool = [])) as [He|Hne].
  { cbn [run_polls mode_poll]. unfold immediate_poll.
    destruct (immediate_poll_idle st s pool (or_intror He)) as (rx&->&_). simpl. by rewrite He. }
  destruct (mode_poll_immediate_busy st s pool Hn Hne) as (b&taken&rest&Hp&H1&H2&H3&H4).
  cbn [run_polls]. rewrite Hp.
  specialize (IH (set_pool_inner rest pool)). simpl in IH.
  rewrite H1, length_app, length_rev in Hf. specialize (IH ltac:(lia)).
  destruct (run_polls fuel st (Immediate s) (set_pool_inner rest pool)) as [[bs m] pool'].
  destruct IH as (G1&G2&G3). split; [done|]. split.
  - rewrite fmap_cons. change (mjoin (txs b :: (txs <$> bs))) with (txs b ++ mjoin (txs <$> bs)).
    by rewrite G2, H1, H2, rev_app_distr, rev_involutive, fmap_app.
  - constructor; [|done]. rewrite H2, length_fmap. split; [done|]. by apply Forall_fmap.
Qed.

(** The other modes.  A no-op sealer never seals and never touches the
    pool; a fixed-time sealer seals exactly on a tick, the batch
    [take_uniform] takes or an empty one when there is none. *)
Theorem other_modes_poll (st : ImpersonationState) (f : FixedTimeBlockSealer) (pool : TxPool) (n : nat) :
  run_polls n st Noop pool = ([], Noop, pool) ∧
  match mode_poll st (FixedTime f) pool with
  | (Ready b, _, pool') =>
      (poll_tick (ft_interval f)).1 = true ∧
      ((take_uniform st (ft_max_transactions f) pool = (Some b, pool')) ∨
       ((ft_max_transactions f = 0%nat ∨ pool_inner pool = []) ∧ pool' = pool ∧ b = mkTxBatch false []))
  | (NotReady, _, pool') => (poll_tick (ft_interval f)).1 = false ∧ pool' = pool
  end.
Proof.
  split; [by destruct n|]. simpl. unfold fixed_time_poll.
  destruct (poll_tick (ft_interval f)) as [[] i]; simpl; [|done].
  destruct (take_uniform st (ft_max_transactions f) pool) as [[b|] pool'] eqn:Ht; simpl; [by auto|].
  apply take_uniform_None in Ht as [-> Hi]. auto.
Qed.
End Sealer.

(** ** A concrete sealer *)
Module SampleSealer.
Definition pool : TxPool (CH := SamplePool.channel) :=
  @add_txs Sample.api SamplePool.channel SamplePool.submissions
    (@TxPool_new SamplePool.channel Fifo).

Definition state : ImpersonationState := (impersonate 2 default_impersonation).2.

Definition ticks : Ticker := {|
  ticker := nat; interval_at _ := 0; poll_tick n := (Nat.even n, S n) |}.
End SampleSealer.

Lemma immediate_drains_pool_witness :
  let s := @mkImmediate SamplePool.channel 2 (@chan_new SamplePool.channel 9) in
  let '(batches, m, pool') :=
    @run_polls Sample.api SamplePool.channel SampleSealer.ticks 4 SampleSealer.state
      (Immediate s) SampleSealer.pool in
  mjoin (txs <$> batches) = SamplePool.submissions.
Proof.
  intros s.
  pose proof (@immediate_drains_pool Sample.api SamplePool.channel SampleSealer.ticks
    SampleSealer.state s SampleSealer.pool ltac:(vm_compute; discriminate)) as H.
  change (S (length (pool_inner SampleSealer.pool))) with 4%nat in H.
  destruct (run_polls _ _ _ _) as [[bs m] p']. destruct H as (_&H&_). exact H.
Defined.
