(* ===== verification/Blockchain.v ===== *)
(** * The blockchain

    [crates/core/src/node/inner/blockchain.rs] (blocks, batches and transaction
    results, and the [ReadBlockchain] view of them) with the constructors of
    blocks of [crates/core/src/node/in_memory.rs].

    The value read by the getters is the [BlockchainState] behind the lock;
    every [HashMap] is a finite map, and where the code depends on its
    iteration order the model takes the order of [map_to_list]. *)
From S2P Require Import Prelude Types Utils Filters Time Cache Fork Storage.
Local Open Scope Z_scope.

(** [U256::as_u64]: panics above [u64::MAX]. *)
Definition to_u64 {S E} (x : Z) : M S E Z :=
  if x <=? u64_max then mret x else panic "Integer overflow when casting to u64".

(** ** External functions on blocks and batches *)
Record L2Block := mkL2Block {
  l2b_number : Z;
  l2b_timestamp : Z;
  l2b_hash : H256;
}.

Class ChainApi := {
  (** [L2BlockHasher] *)
  L2BlockHasher : Type;
  hasher_new : Z → Z → H256 → L2BlockHasher;
  push_tx_hash : H256 → L2BlockHasher → L2BlockHasher;
  hasher_finalize : Z → L2BlockHasher → H256;
  legacy_hash : Z → H256;
  (** [storage] constants *)
  EMPTY_UNCLES_HASH : H256;
  SYSTEM_CONTEXT_ADDRESS : Address;
  SYSTEM_CONTEXT_BLOCK_INFO_POSITION : H256;
  (** [zksync_multivm::utils] for the latest VM version *)
  get_batch_base_fee : L1BatchEnv → Z;
  get_max_batch_gas_limit : Z;
  L1BatchHeader_new : Z → Z → BaseSystemContractsHashes → Z → L1BatchHeader;
  extract_long_l2_to_l1_messages : list VmEvent → list Bytes;
  unpack_block_info : Z → Z * Z;
  (** [load_last_l2_block], as a program that reads storage. *)
  load_last_l2_block : ∀ {S E}, (StorageKey → M S E H256) → M S E (option L2Block);
}.

Section Blocks.
Context {CA : ChainApi}.

(** [compute_hash] *)
Definition compute_hash (protocol_version number timestamp : Z) (prev_l2_block_hash : H256)
    (tx_hashes : list H256) : H256 :=
  hasher_finalize protocol_version
    (foldl (λ h tx_hash, push_tx_hash tx_hash h) (hasher_new number timestamp prev_l2_block_hash)
       tx_hashes).

(** [create_block] *)
Definition create_block {TX} (batch_env : L1BatchEnv) (hash parent_hash : H256) (number timestamp : Z)
    (transactions : list TX) (gas_used logs_bloom : Z) : Block TX :=
  mkBlock hash parent_hash EMPTY_UNCLES_HASH number (Some (be_number batch_env))
    (get_batch_base_fee batch_env) timestamp (Some (be_timestamp batch_env)) transactions gas_used
    get_max_batch_gas_limit logs_bloom 0 0 0 0 [] 0 0 [] [] 0 0 0.

(** [Genesis] ([crates/config/src/types/genesis.rs]) *)
Record Genesis := mkGenesis {
  gen_hash : option H256;
  gen_parent_hash : option H256;
  gen_block_number : option Z;
  gen_timestamp : option Z;
  gen_l1_batch_env : option L1BatchEnv;
  gen_transactions : option (list TransactionVariant);
  gen_gas_used : option Z;
  gen_logs_bloom : option Z;
}.

Definition default_contract_hashes : BaseSystemContractsHashes := mkContractHashes 0 0 None.

(** The batch environment of a genesis block. *)
Definition genesis_batch_env (timestamp : Z) : L1BatchEnv :=
  mkL1BatchEnv None 0 timestamp (PubdataIndependent (mkPubdataIndependent 0 0 0)) 0 None
    (mkL2BlockEnv 0 timestamp 0 0).

(** [create_genesis_from_json] *)
Definition create_genesis_from_json (protocol_version : Z) (genesis : Genesis) (timestamp : option Z)
    : Block TransactionVariant * L1BatchHeader :=
  let hash := legacy_hash 0 in
  let timestamp :=
    default NON_FORK_FIRST_BLOCK_TIMESTAMP
      (match timestamp with Some t => Some t | None => gen_timestamp genesis end) in
  let l1_batch_env := default (genesis_batch_env timestamp) (gen_l1_batch_env genesis) in
  (create_block l1_batch_env hash (default 0 (gen_parent_hash genesis))
     (default 0 (gen_block_number genesis)) timestamp (default [] (gen_transactions genesis))
     (default 0 (gen_gas_used genesis)) (default 0 (gen_logs_bloom genesis)),
   L1BatchHeader_new 0 timestamp default_contract_hashes protocol_version).

(** [create_genesis] *)
Definition create_genesis {TX} (protocol_version : Z) (timestamp : option Z)
    : Block TX * L1BatchHeader :=
  let hash := legacy_hash 0 in
  let timestamp := default NON_FORK_FIRST_BLOCK_TIMESTAMP timestamp in
  (create_block (genesis_batch_env timestamp) hash 0 0 timestamp [] 0 0,
   L1BatchHeader_new 0 timestamp default_contract_hashes protocol_version).

(** ** State *)
Record StoredL1BatchInfo := mkBatchInfo {
  sb_header : L1BatchHeader;
  sb_state_diffs : list (Address * Z * Z * Z);
  sb_aggregation_root : H256;
}.

Record BlockchainState := mkChain {
  protocol_version : Z;
  current_batch : Z;
  current_block : Z;
  current_block_hash : H256;
  tx_results : gmap H256 TransactionResult;
  blocks : gmap H256 ApiBlock;
  hashes : gmap Z H256;
  batches : gmap Z StoredL1BatchInfo;
}.

(** [Blockchain::new] *)
Definition Blockchain_new {FA : FeeApi} (version : Z) (fork_details : option ForkDetails)
    (genesis : option Genesis) (genesis_timestamp : option Z) : BlockchainState :=
  match fork_details with
  | Some fd =>
      mkChain (fd_protocol_version fd) (fd_batch_number fd) (fd_block_number fd) (fd_block_hash fd)
        ∅ {[ fd_block_hash fd := fd_api_block fd ]} {[ fd_block_number fd := fd_block_hash fd ]} ∅
  | None =>
      let '(genesis_block, genesis_batch_header) :=
        match genesis with
        | Some genesis => create_genesis_from_json version genesis genesis_timestamp
        | None => create_genesis version genesis_timestamp
        end in
      mkChain version 0 0 (b_hash genesis_block) ∅ {[ b_hash genesis_block := genesis_block ]}
        {[ 0 := b_hash genesis_block ]} {[ 0 := mkBatchInfo genesis_batch_header [] 0 ]}
  end.

Section Operations.
Context {E : Type}.
Abbreviation ChainM := (M BlockchainState E).

(** [BlockchainState::get_block_hash_by_number] *)
Definition chain_hash_by_number (s : BlockchainState) (number : Z) : option H256 := hashes s !! number.

(** [BlockchainState::get_block_hash_by_id] *)
Definition chain_hash_by_id (block_id : BlockId) : ChainM (option H256) :=
  match block_id with
  | IdNumber number =>
      number ← match number with
               | Finalized | Pending | Committed | L1Committed | Latest => gets current_block
               | Earliest => mret 0
               | Number n => to_u32 n
               end;
      gets (λ s, hashes s !! number)
  | IdHash hash => mret (Some hash)
  end.

(** [apply_block] *)
Definition apply_block (block : ApiBlock) (index : Z) : ChainM unit :=
  latest_block ← gets (λ s, blocks s !! current_block_hash s);
  latest_block ← expect "called `Option::unwrap()` on a `None` value" latest_block;
  modify (λ s, mkChain (protocol_version s) (current_batch s) (wrapping_add_u32 (current_block s) 1)
                 (current_block_hash s) (tx_results s) (blocks s) (hashes s) (batches s));;
  actual_l1_batch_number ← expect "block must have a l1_batch_number" (b_l1_batch_number block);
  actual ← to_u32 actual_l1_batch_number;
  batch ← gets current_batch;
  (if negb (actual =? batch) then panic "expected next block to have batch_number" else mret tt);;
  number ← to_u32 (b_number block);
  expected ← gets current_block;
  (if negb (number =? expected) then panic "expected next block to have miniblock" else mret tt);;
  timestamp ← to_u64 (b_timestamp block);
  latest_timestamp ← to_u64 (b_timestamp latest_block);
  (if timestamp <=? latest_timestamp then panic "expected next block to have timestamp bigger"
   else mret tt);;
  modify (λ s, mkChain (protocol_version s) (current_batch s) (current_block s) (b_hash block)
                 (tx_results s) (<[b_hash block := block]> (blocks s))
                 (<[number := b_hash block]> (hashes s)) (batches s)).

Definition is_l1_tx (r : TransactionResult) : bool :=
  match common_data (info_tx (tr_info r)) with L1 _ => true | _ => false end.

(** [apply_batch] *)
Definition chain_apply_batch (batch_timestamp : Z) (contract_hashes : BaseSystemContractsHashes)
    (results : list TransactionResult) (finished_l1_batch : FinishedL1Batch) (aggregation_root : H256)
    (s : BlockchainState) : BlockchainState :=
  let batch := wrapping_add_u32 (current_batch s) 1 in
  let l2_to_l1_messages := extract_long_l2_to_l1_messages (fb_events finished_l1_batch) in
  let l1_tx_count := as_u16 (Z.of_nat (length (filter (λ r, is_l1_tx r = true) results))) in
  let priority_ops_onchain_data :=
    omap (λ r, match common_data (info_tx (tr_info r)) with
               | L1 d => Some (l1_onchain_data d)
               | L2 _ | ProtocolUpgrade _ => None
               end) results in
  let header :=
    mkBatchHeader batch batch_timestamp l1_tx_count
      (as_u16 (as_u16 (Z.of_nat (length results)) - l1_tx_count))
      priority_ops_onchain_data (fb_user_l2_to_l1_logs finished_l1_batch) l2_to_l1_messages
      (fb_used_contract_hashes finished_l1_batch) contract_hashes
      (fb_system_logs finished_l1_batch) (Some (protocol_version s))
      (fb_pubdata_input finished_l1_batch) 0 in
  let batch_info :=
    mkBatchInfo header (default [] (fb_state_diffs finished_l1_batch)) aggregation_root in
  mkChain (protocol_version s) batch (current_block s) (current_block_hash s)
    (extend (tx_results s) ((λ r, (rc_transaction_hash (tr_receipt r), r)) <$> results))
    (blocks s) (hashes s) (<[batch := batch_info]> (batches s)).

(** [iter.max_by_key(|b| b.number)]: the last of the greatest. *)
Fixpoint max_by_number (l : list ApiBlock) : option ApiBlock :=
  match l with
  | [] => None
  | b :: l =>
      match max_by_number l with
      | Some b' => if b_number b' <? b_number b then Some b else Some b'
      | None => Some b
      end
  end.

(** The loop of [load_blocks]. *)
Definition insert_blocks (bs : list ApiBlock) (s : BlockchainState) : BlockchainState :=
  foldl (λ s b, mkChain (protocol_version s) (current_batch s) (current_block s) (current_block_hash s)
                  (tx_results s) (<[b_hash b := b]> (blocks s))
                  (<[as_u32 (b_number b) := b_hash b]> (hashes s)) (batches s)) s bs.

(** [load_blocks], with the node's clock. *)
Definition load_blocks (bs : list ApiBlock) : M (BlockchainState * TimeState) E unit :=
  modify (λ s, (insert_blocks bs s.1, s.2));;
  latest_block ← gets (λ s, max_by_number (map_to_list (blocks s.1)).*2);
  latest_block ← expect "called `Option::unwrap()` on a `None` value" latest_block;
  let latest_number := b_number latest_block in
  let latest_hash := b_hash latest_block in
  latest_batch_number ←
    match b_l1_batch_number latest_block with
    | Some n => to_u32 n
    | None => panic "encountered a block with no batch; this is not supposed to happen"
    end;
  latest_timestamp ← to_u64 (b_timestamp latest_block);
  modify (λ s, (mkChain (protocol_version s.1) latest_batch_number (as_u32 latest_number) latest_hash
                  (tx_results s.1) (blocks s.1) (hashes s.1) (batches s.1),
                reset_to latest_timestamp s.2)).

(** [load_transactions] *)
Definition load_transactions (transactions : list TransactionResult) (s : BlockchainState)
    : BlockchainState :=
  mkChain (protocol_version s) (current_batch s) (current_block s) (current_block_hash s)
    (extend (tx_results s) ((λ r, (rc_transaction_hash (tr_receipt r), r)) <$> transactions))
    (blocks s) (hashes s) (batches s).
End Operations.

(** [load_last_l1_batch] *)
Definition load_last_l1_batch {S E} (read_value : StorageKey → M S E H256) : M S E (option (Z * Z)) :=
  current_l1_batch_info ← read_value (SYSTEM_CONTEXT_ADDRESS, SYSTEM_CONTEXT_BLOCK_INFO_POSITION);
  let '(batch_number, batch_timestamp) := unpack_block_info current_l1_batch_info in
  let block_number := as_u32 batch_number in
  if block_number =? 0 then mret None else mret (Some (batch_number, batch_timestamp)).

(** [last_env] *)
Definition last_env {S E} (chain : BlockchainState) (read_value : StorageKey → M S E H256)
    (time : TimeState) : M S E (Z * L2Block) :=
  last_batch ← load_last_l1_batch read_value;
  let last_l1_batch_number :=
    default (current_batch chain) ((λ b : Z * Z, as_u32 b.1) <$> last_batch) in
  last_l2_block ← load_last_l2_block read_value;
  let last_l2_block :=
    default (mkL2Block (current_block chain) (current_timestamp time) (legacy_hash (current_block chain)))
      last_l2_block in
  mret (last_l1_batch_number, last_l2_block).

(** ** The read-only view ([ReadBlockchain]) *)
Section View.
Context {E : Type}.
Abbreviation ChainM := (M BlockchainState E).

Definition inspect_block_by_hash {T} (hash : H256) (f : ApiBlock → T) : ChainM (option T) :=
  gets (λ s, f <$> blocks s !! hash).

Definition inspect_block_by_number {T} (number : Z) (f : ApiBlock → T) : ChainM (option T) :=
  gets (λ s, hash ← chain_hash_by_number s number; f <$> blocks s !! hash).

Definition inspect_block_by_id {T} (block_id : BlockId) (f : ApiBlock → T) : ChainM (option T) :=
  hash ← chain_hash_by_id block_id;
  gets (λ s, hash ← hash; f <$> blocks s !! hash).

Definition inspect_tx {T} (tx_hash : H256) (f : TransactionResult → T) : ChainM (option T) :=
  gets (λ s, f <$> tx_results s !! tx_hash).

Definition inspect_batch {T} (batch_number : Z) (f : StoredL1BatchInfo → T) : ChainM (option T) :=
  gets (λ s, f <$> batches s !! batch_number).

(** A closure that panics, run on what an [inspect_*] found. *)
Definition then_run {A B} (m : ChainM (option A)) (f : A → ChainM B) : ChainM (option B) :=
  a ← m;
  match a with
  | None => mret None
  | Some a => b ← f a; mret (Some b)
  end.

Definition get_block_by_hash (hash : H256) : ChainM (option ApiBlock) := inspect_block_by_hash hash id.
Definition get_block_by_number (number : Z) : ChainM (option ApiBlock) :=
  inspect_block_by_number number id.
Definition get_block_by_id (block_id : BlockId) : ChainM (option ApiBlock) :=
  inspect_block_by_id block_id id.
Definition get_block_hash_by_number (number : Z) : ChainM (option H256) :=
  inspect_block_by_number number b_hash.
Definition get_block_hash_by_id (block_id : BlockId) : ChainM (option H256) :=
  inspect_block_by_id block_id b_hash.

Definition get_block_number_by_hash (hash : H256) : ChainM (option Z) :=
  then_run (inspect_block_by_hash hash b_number) to_u32.
Definition get_block_number_by_id (block_id : BlockId) : ChainM (option Z) :=
  then_run (inspect_block_by_id block_id b_number) to_u32.

Definition get_block_tx_hashes_by_id (block_id : BlockId) : ChainM (option (list H256)) :=
  inspect_block_by_id block_id (λ block, variant_hash <$> b_transactions block).
Definition get_block_tx_hashes_by_number (number : Z) : ChainM (option (list H256)) :=
  get_block_tx_hashes_by_id (IdNumber (Number number)).

Definition get_block_tx_by_id (block_id : BlockId) (index : nat) : ChainM (option ApiTransaction) :=
  tv ← inspect_block_by_id block_id (λ block, b_transactions block !! index);
  match mjoin tv with
  | None => mret None
  | Some (Full tx) => mret (Some tx)
  | Some (JustHash _) =>
      panic "internal error: entered unreachable code: we only store full txs in blocks"
  end.

Definition get_block_tx_count_by_id (block_id : BlockId) : ChainM (option Z) :=
  inspect_block_by_id block_id (λ block, Z.of_nat (length (b_transactions block))).

(** [get_block_details_by_number]; [version] is the protocol version of the
    [Blockchain] handle, which the state has a copy of. *)
Definition get_block_details_by_number (version number l2_fair_gas_price : Z) (fair_pubdata_price : option Z)
    (contract_hashes : BaseSystemContractsHashes) : ChainM (option BlockDetails) :=
  then_run (get_block_by_number number) (λ block,
    number ← to_u32 (b_number block);
    batch ← to_u32 (default 0 (b_l1_batch_number block));
    timestamp ← to_u64 (b_timestamp block);
    mret (mkBlockDetails number batch timestamp 1 (Z.of_nat (length (b_transactions block)))
            (Some (b_hash block)) Verified None None None None None None 0 l2_fair_gas_price
            fair_pubdata_price contract_hashes 0 (Some version))).

Definition get_tx_receipt (tx_hash : H256) : ChainM (option TransactionReceipt) :=
  inspect_tx tx_hash tr_receipt.

Definition get_tx_debug_info (tx_hash : H256) (only_top : bool) : ChainM (option DebugCall) :=
  inspect_tx tx_hash (debug_info only_top).

Definition get_zksync_tx (tx_hash : H256) : ChainM (option Transaction) :=
  inspect_tx tx_hash (λ r, info_tx (tr_info r)).

Definition get_batch_header (batch_number : Z) : ChainM (option L1BatchHeader) :=
  inspect_batch batch_number sb_header.
Definition get_batch_state_diffs (batch_number : Z) : ChainM (option (list (Address * Z * Z * Z))) :=
  inspect_batch batch_number sb_state_diffs.
Definition get_batch_aggregation_root (batch_number : Z) : ChainM (option H256) :=
  inspect_batch batch_number sb_aggregation_root.

(** [DetailedTransaction] ([crates/types]) and [get_detailed_tx] *)
Record DetailedTransaction := mkDetailed {
  dt_inner : ApiTransaction;
  dt_output : option Bytes;
  dt_revert_reason : option string;
}.

Definition get_detailed_tx (tx : ApiTransaction) : ChainM (option DetailedTransaction) :=
  inspect_tx (at_hash tx)
    (λ r, mkDetailed tx (Some (dc_output (tr_debug r))) (dc_revert_reason (tr_debug r))).

(** [get_filter_logs]; a log filter that panics on a log panics here. *)
Fixpoint matching_logs (log_filter : LogFilter) (latest : Z) (logs : list Log) : option (list Log) :=
  match logs with
  | [] => Some []
  | log :: logs =>
      m ← matches log_filter log latest;
      rest ← matching_logs log_filter latest logs;
      Some (if (m : bool) then log :: rest else rest)
  end.

Definition get_filter_logs (log_filter : LogFilter) : ChainM (list Log) :=
  latest ← gets current_block;
  logs ← gets (λ s, (map_to_list (tx_results s)).*2 ≫= (λ r, rc_logs (tr_receipt r)));
  expect "log without a block number" (matching_logs log_filter latest logs).

Context {TA : TransactionApi}.

Definition tx_type_number (t : TransactionType) : Z :=
  match t with
  | LegacyTransaction => 0
  | EIP2930Transaction => 1
  | EIP1559Transaction => 2
  | EIP712Transaction => 113
  | PriorityOpTransaction => 255
  | ProtocolUpgradeTransaction => 254
  end.

(** [get_tx_api]: an error is a value of the inner result. *)
Definition get_tx_api (hash : H256) : ChainM (result (option ApiTransaction) string) :=
  gets (λ s,
    match tx_results s !! hash with
    | None => Ok None
    | Some r =>
        let info := tr_info r in
        match common_data (info_tx info) with
        | L2 d =>
            match extract_chain_id d, l2_input d with
            | None, _ => Err "tx has malformed chain id"
            | _, None => Err "tx is missing input data"
            | Some chain_id, Some (_, data) =>
                Ok (Some (mkApiTransaction hash (l2_nonce d) (Some hash)
                  (Some (info_miniblock_number info)) (Some (rc_transaction_index (tr_receipt r)))
                  (Some (initiator_account (info_tx info))) (recipient_account (info_tx info))
                  (value (execute (info_tx info))) (Some 0) 0 data (Some chain_id) (Some 0) (Some 0)
                  (Some 0) None (Some (tx_type_number (l2_transaction_type d)))
                  (Some (max_fee_per_gas (l2_fee d))) (Some (max_priority_fee_per_gas (l2_fee d)))
                  chain_id (Some (info_batch_number info)) None))
            end
        | L1 _ | ProtocolUpgrade _ => Err "inspection of non-L2 transactions is unsupported"
        end
    end).

(** [get_tx_details]; the product of gas price and gas used panics when it
    does not fit a [U256]. *)
Definition get_tx_details (tx_hash : H256) : ChainM (option TransactionDetails) :=
  then_run (inspect_tx tx_hash id) (λ r,
    fee ← expect "arithmetic operation overflow"
            (checked_mul_u256 (default 0 (rc_effective_gas_price (tr_receipt r)))
               (default 0 (rc_gas_used (tr_receipt r))));
    let tx := info_tx (tr_info r) in
    mret (mkTxDetails false StatusIncluded fee (gas_per_pubdata_byte_limit tx) (initiator_account tx)
            (utc_datetime_from_epoch_ms (received_timestamp_ms tx)) None None None)).
End View.

(** ** Invariant

    Blocks are filed under their hash and their number, the current block is
    the one with the greatest number, and timestamps follow numbers. *)
Record chain_wf (s : BlockchainState) : Prop := {
  wf_block h b : blocks s !! h = Some b →
    b_hash b = h ∧ hashes s !! b_number b = Some h ∧
    0 <= b_number b <= current_block s ∧ 0 <= b_timestamp b <= u64_max;
  wf_number n h : hashes s !! n = Some h → ∃ b, blocks s !! h = Some b ∧ b_number b = n;
  wf_current : hashes s !! current_block s = Some (current_block_hash s);
  wf_time h1 h2 b1 b2 : blocks s !! h1 = Some b1 → blocks s !! h2 = Some b2 →
    b_number b1 < b_number b2 → b_timestamp b1 < b_timestamp b2;
  wf_u32 : current_block s <= u32_max ∧ 0 <= current_batch s <= u32_max;
}.

Lemma chain_latest s :
  chain_wf s → ∃ b, blocks s !! current_block_hash s = Some b ∧ b_number b = current_block s.
Proof. intros Hwf. exact (wf_number _ Hwf _ _ (wf_current _ Hwf)). Qed.

(** What [apply_block] asks of a block. *)
Definition accepts (s : BlockchainState) (block : ApiBlock) : Prop :=
  b_l1_batch_number block = Some (current_batch s) ∧
  b_number block = wrapping_add_u32 (current_block s) 1 ∧
  b_timestamp block <= u64_max ∧
  ∀ latest, blocks s !! current_block_hash s = Some latest → b_timestamp latest < b_timestamp block.

Definition append (block : ApiBlock) (s : BlockchainState) : BlockchainState :=
  mkChain (protocol_version s) (current_batch s) (wrapping_add_u32 (current_block s) 1) (b_hash block)
    (tx_results s) (<[b_hash block := block]> (blocks s))
    (<[wrapping_add_u32 (current_block s) 1 := b_hash block]> (hashes s)) (batches s).

Lemma wrapping_add_u32_range a b : is_u32 (wrapping_add_u32 a b).
Proof. unfold is_u32, wrapping_add_u32, u32_max. pose proof (Z.mod_pos_bound (a + b) (2 ^ 32)). lia. Qed.

Lemma apply_block_accepts {E} s block index :
  chain_wf s → accepts s block →
  apply_block (E := E) block index s = Ret tt (append block s).
Proof.
  intros Hwf (Hb&Hn&Ht&Hl). destruct (chain_latest _ Hwf) as (latest&Hlatest&_).
  pose proof (wf_u32 _ Hwf) as [_ Hu]. pose proof (wf_block _ Hwf _ _ Hlatest) as (_&_&_&Htl).
  pose proof (wrapping_add_u32_range (current_block s) 1) as Hr. unfold is_u32 in Hr.
  specialize (Hl _ Hlatest).
  unfold apply_block, to_u32, to_u64, append. run_m. rewrite Hlatest, Hb. simpl.
  rewrite (proj2 (Z.leb_le (current_batch s) u32_max)) by lia. rewrite Z.eqb_refl. simpl.
  rewrite Hn, (proj2 (Z.leb_le (wrapping_add_u32 (current_block s) 1) u32_max)) by lia.
  rewrite Z.eqb_refl. simpl.
  rewrite (proj2 (Z.leb_le (b_timestamp block) u64_max)) by done. simpl.
  rewrite (proj2 (Z.leb_le (b_timestamp latest) u64_max)) by lia. simpl.
  by rewrite (proj2 (Z.leb_gt (b_timestamp block) (b_timestamp latest))).
Qed.

Lemma apply_block_Ret {E} s block index s' :
  chain_wf s → apply_block (E := E) block index s = Ret tt s' →
  accepts s block ∧ s' = append block s.
Proof.
  intros Hwf H. unfold apply_block, to_u32, to_u64 in H. run_m.
  destruct (blocks s !! current_block_hash s) as [latest|] eqn:Hlatest; [|done].
  destruct (b_l1_batch_number block) as [n|] eqn:Hb; [|done]. simpl in H.
  destruct (n <=? u32_max); [|done]. simpl in H.
  destruct (Z.eqb_spec n (current_batch s)) as [->|]; [|done]. simpl in H.
  destruct (b_number block <=? u32_max); [|done]. simpl in H.
  destruct (Z.eqb_spec (b_number block) (wrapping_add_u32 (current_block s) 1)) as [Hn|]; [|done].
  simpl in H. destruct (Z.leb_spec (b_timestamp block) u64_max) as [Ht|]; [|done]. simpl in H.
  destruct (b_timestamp latest <=? u64_max); [|done]. simpl in H.
  destruct (Z.leb_spec (b_timestamp block) (b_timestamp latest)) as [|Hlt]; [done|].
  simplify_eq/=. split; [|unfold append; by rewrite Hn].
  split_and!; try done. intros l Hl. by simplify_eq.
Qed.

(** Appending an accepted block whose hash is new keeps the invariant. *)
Lemma append_wf s block :
  chain_wf s → accepts s block → blocks s !! b_hash block = None → current_block s < u32_max →
  chain_wf (append block s) ∧ current_block (append block s) = current_block s + 1.
Proof.
  intros Hwf (Hb&Hn&Ht&Hl) Hfresh Hlt.
  destruct (chain_latest _ Hwf) as (latest&Hlatest&Hln). specialize (Hl _ Hlatest).
  pose proof (wf_block _ Hwf _ _ Hlatest) as (_&_&Hrange&Htl).
  rewrite wrapping_add_u32_small in Hn by lia.
  assert (Hold : ∀ h b, blocks s !! h = Some b → b_timestamp b <= b_timestamp latest).
  { intros h b Hh. pose proof (wf_block _ Hwf _ _ Hh) as (Hbh&Hhash&[_ Hle]&_).
    destruct (decide (b_number b = current_block s)) as [He|Hne].
    - rewrite He, (wf_current _ Hwf) in Hhash. assert (latest = b) as -> by congruence. done.
    - pose proof (wf_time _ Hwf _ _ _ _ Hh Hlatest). lia. }
  unfold append; simpl. rewrite wrapping_add_u32_small by lia. split; [|done].
  split; cbn [blocks hashes current_block current_block_hash current_batch].
  - intros h b [[<- <-]|[Hne Hh]]%lookup_insert_Some.
    + rewrite Hn, lookup_insert_eq. split_and!; try done; lia.
    + pose proof (wf_block _ Hwf _ _ Hh) as (?&?&?&?). rewrite lookup_insert_ne by lia.
      split_and!; try done; lia.
  - intros n h [[<- <-]|[Hne Hh]]%lookup_insert_Some.
    + exists block. by rewrite lookup_insert_eq.
    + destruct (wf_number _ Hwf _ _ Hh) as (b&?&?). exists b.
      rewrite lookup_insert_ne; [done|]. congruence.
  - by rewrite lookup_insert_eq.
  - intros h1 h2 b1 b2 [[<- <-]|[_ H1]]%lookup_insert_Some [[<- <-]|[_ H2]]%lookup_insert_Some Hlt'.
    + lia.
    + pose proof (wf_block _ Hwf _ _ H2). lia.
    + pose proof (Hold _ _ H1). lia.
    + eapply wf_time; eauto.
  - pose proof (wf_u32 _ Hwf). lia.
Qed.

(** The chain after a list of blocks was applied. *)
Lemma apply_blocks_wf {E} bs s s' :
  chain_wf s → current_block s + Z.of_nat (length bs) <= u32_max →
  NoDup (b_hash <$> bs) → (∀ b, b ∈ bs → blocks s !! b_hash b = None) →
  for_each (λ b, apply_block (E := E) b 0) bs s = Ret tt s' →
  chain_wf s' ∧ current_block s' = current_block s + Z.of_nat (length bs) ∧
  (∀ h b, blocks s !! h = Some b → blocks s' !! h = Some b) ∧
  (∀ b, b ∈ bs → blocks s' !! b_hash b = Some b) ∧
  (∀ i b, bs !! i = Some b → b_number b = current_block s + 1 + Z.of_nat i).
Proof.
  revert s. induction bs as [|b bs IH]; intros s Hwf Hlen Hnd Hfresh Hrun.
  { injection Hrun as <-. split_and!; try done; [simpl; lia|]. intros b Hb. by apply elem_of_nil in Hb. }
  cbn [for_each length] in *. apply bind_Ret in Hrun as ([]&s1&H1&H2).
  apply apply_block_Ret in H1 as [Hacc ->]; [|done].
  rewrite fmap_cons in Hnd. apply NoDup_cons in Hnd as [Hni Hnd].
  destruct (append_wf s b Hwf Hacc) as [Hwf1 Hcur]; [apply Hfresh; left|lia|].
  destruct (IH (append b s) Hwf1) as (W&C&Hkeep&Hnew&Hnum); [lia|done| |done|].
  { intros b' Hb'. simpl. rewrite lookup_insert_ne; [apply Hfresh; by right|].
    intros Heq. apply Hni. rewrite Heq. by apply list_elem_of_fmap_2. }
  split_and!; [done|lia|..].
  - intros h b' Hh. apply Hkeep. simpl. rewrite lookup_insert_ne; [done|].
    intros <-. rewrite Hfresh in Hh by left. done.
  - intros b' [->|Hb']%elem_of_cons; [|by apply Hnew]. apply Hkeep. simpl. by rewrite lookup_insert_eq.
  - intros [|i] b' Hi; simplify_eq/=; [|apply Hnum in Hi; lia].
    destruct Hacc as (_&->&_). rewrite wrapping_add_u32_small; [lia|].
    pose proof (wf_block _ Hwf). destruct (chain_latest _ Hwf) as (l&Hl&Hln).
    pose proof (wf_block _ Hwf _ _ Hl) as (_&_&?&_). lia.
Qed.

Lemma lookup_by_number {E} s h b :
  chain_wf s → blocks s !! h = Some b →
  inspect_block_by_number (E := E) (b_number b) id s = Ret (Some b) s.
Proof.
  intros Hwf Hb. pose proof (wf_block _ Hwf _ _ Hb) as (_&Hh&_).
  unfold inspect_block_by_number, chain_hash_by_number, gets. by rewrite Hh; simpl; rewrite Hb.
Qed.

(** C15: the chain only grows.  When a list of blocks with new and distinct
    hashes has been applied to a well-formed chain, the chain is well formed,
    every block is found by its hash and by the number that follows its
    predecessor's, so is every block that was there before, the tags name the
    last one, and timestamps increase along the chain. *)
Theorem chain_append {E} (bs : list ApiBlock) (s s' : BlockchainState) :
  chain_wf s → current_block s + Z.of_nat (length bs) <= u32_max →
  NoDup (b_hash <$> bs) → (∀ b, b ∈ bs → blocks s !! b_hash b = None) →
  for_each (λ b, apply_block (E := E) b 0) bs s = Ret tt s' →
  chain_wf s' ∧
  (∀ i b, bs !! i = Some b →
     get_block_by_number (E := E) (current_block s + 1 + Z.of_nat i) s' = Ret (Some b) s' ∧
     get_block_by_hash (E := E) (b_hash b) s' = Ret (Some b) s') ∧
  (∀ n b, get_block_by_number (E := E) n s = Ret (Some b) s → get_block_by_number (E := E) n s' = Ret (Some b) s') ∧
  (∀ b, last bs = Some b → get_block_by_id (E := E) (IdNumber Latest) s' = Ret (Some b) s' ∧
     get_block_by_id (E := E) (IdNumber Pending) s' = Ret (Some b) s') ∧
  (∀ n1 n2 b1 b2, get_block_by_number (E := E) n1 s' = Ret (Some b1) s' →
     get_block_by_number (E := E) n2 s' = Ret (Some b2) s' → n1 < n2 → b_timestamp b1 < b_timestamp b2).
Proof.
  intros Hwf Hlen Hnd Hfresh Hrun.
  destruct (apply_blocks_wf bs s s' Hwf Hlen Hnd Hfresh Hrun) as (W&C&Hkeep&Hnew&Hnum).
  assert (Hby : ∀ s n b, chain_wf s → get_block_by_number (E := E) n s = Ret (Some b) s →
    b_number b = n ∧ ∃ h, blocks s !! h = Some b).
  { intros s0 n b W0 H. unfold get_block_by_number, inspect_block_by_number, chain_hash_by_number, gets in H.
    destruct (hashes s0 !! n) as [h|] eqn:Hh; simpl in H; [|done].
    destruct (wf_number _ W0 _ _ Hh) as (b0&Hb0&Hn0). rewrite Hb0 in H. simplify_eq/=. eauto. }
  split_and!; [done|..].
  - intros i b Hi. pose proof (Hnum _ _ Hi) as <-.
    pose proof (Hnew b (list_elem_of_lookup_2 _ _ _ Hi)) as Hb. split; [by eapply lookup_by_number|].
    unfold get_block_by_hash, inspect_block_by_hash, gets. by rewrite Hb.
  - intros n b H. destruct (Hby _ _ _ Hwf H) as (<-&h&Hb). eapply lookup_by_number; eauto.
  - intros b Hb. rewrite last_lookup in Hb.
    pose proof (Hnew b (list_elem_of_lookup_2 _ _ _ Hb)) as Hin. pose proof (Hnum _ _ Hb) as Hn.
    assert (Hn' : b_number b = current_block s').
    { rewrite Hn, C. apply lookup_lt_Some in Hb. lia. }
    pose proof (wf_block _ W _ _ Hin) as (_&Hh&_). rewrite Hn', (wf_current _ W) in Hh. simplify_eq/=.
    unfold get_block_by_id, inspect_block_by_id, chain_hash_by_id, gets, mbind, M_bind; simpl.
    by rewrite (wf_current _ W); simpl; rewrite Hh, Hin.
  - intros n1 n2 b1 b2 H1 H2 Hlt.
    destruct (Hby _ _ _ W H1) as (<-&h1&Hb1). destruct (Hby _ _ _ W H2) as (<-&h2&Hb2).
    by eapply wf_time; eauto.
Qed.

Lemma apply_block_no_throw {E} block index : no_throw (apply_block (E := E) block index).
Proof.
  unfold apply_block, to_u32, to_u64.
  repeat (first [apply no_throw_bind; [|intros ?] | case_match]; auto with node).
Qed.

(** C32: [apply_block] accepts a block exactly when it is in the current
    batch, has the next number and a later timestamp than the current block;
    anything else panics. *)
Theorem apply_block_decides {E} (s : BlockchainState) (block : ApiBlock) (index : Z) :
  chain_wf s →
  (accepts s block → apply_block (E := E) block index s = Ret tt (append block s)) ∧
  (¬ accepts s block → ∃ msg, apply_block (E := E) block index s = Panic msg).
Proof.
  intros Hwf. split; [by apply apply_block_accepts|]. intros Hna.
  destruct (apply_block_no_throw (E := E) block index s) as [([]&s'&H)|?]; [|done].
  by apply apply_block_Ret in H as [? _].
Qed.

Lemma new_chain_wf {FA : FeeApi} (version : Z) (fork : option ForkDetails)
    (genesis_timestamp : option Z) :
  is_u64 (default NON_FORK_FIRST_BLOCK_TIMESTAMP genesis_timestamp) →
  (∀ fd, fork = Some fd →
     b_hash (fd_api_block fd) = fd_block_hash fd ∧ b_number (fd_api_block fd) = fd_block_number fd ∧
     is_u32 (fd_block_number fd) ∧ is_u32 (fd_batch_number fd) ∧ is_u64 (b_timestamp (fd_api_block fd))) →
  chain_wf (Blockchain_new version fork None genesis_timestamp).
Proof.
  intros Hts Hfork. destruct fork as [fd|]; simpl.
  - destruct (Hfork fd eq_refl) as (Hh&Hn&H1&H2&H3). unfold is_u32, is_u64 in *. split; simpl.
    + intros h b [<- <-]%lookup_singleton_Some. rewrite Hh, Hn, lookup_singleton_eq.
      split_and!; try done; lia.
    + intros n h [<- <-]%lookup_singleton_Some. exists (fd_api_block fd). by rewrite lookup_singleton_eq.
    + by rewrite lookup_singleton_eq.
    + intros h1 h2 b1 b2 [_ <-]%lookup_singleton_Some [_ <-]%lookup_singleton_Some. lia.
    + lia.
  - unfold is_u64 in *. split; simpl.
    + intros h b [<- <-]%lookup_singleton_Some; simpl. rewrite lookup_singleton_eq.
      split_and!; try done; lia.
    + intros n h [<- <-]%lookup_singleton_Some. eexists. by rewrite lookup_singleton_eq.
    + by rewrite lookup_singleton_eq.
    + intros h1 h2 b1 b2 [_ <-]%lookup_singleton_Some [_ <-]%lookup_singleton_Some. lia.
    + vm_compute. split; [discriminate|split; discriminate].
Qed.

(** A new chain is well formed: a fresh one with any [u64] genesis
    timestamp, and a fork whose remote gave, for the forked block, a block
    with that number and hash. *)
Theorem blockchain_new_wf {FA : FeeApi} (version : Z) (fork : option ForkDetails)
    (genesis_timestamp : option Z) :
  is_u64 (default NON_FORK_FIRST_BLOCK_TIMESTAMP genesis_timestamp) →
  (∀ fd, fork = Some fd →
     b_hash (fd_api_block fd) = fd_block_hash fd ∧ b_number (fd_api_block fd) = fd_block_number fd ∧
     is_u32 (fd_block_number fd) ∧ is_u32 (fd_batch_number fd) ∧ is_u64 (b_timestamp (fd_api_block fd))) →
  chain_wf (Blockchain_new version fork None genesis_timestamp).
Proof. apply new_chain_wf. Qed.

Lemma onchain_data_length results :
  length (omap (λ r, match common_data (info_tx (tr_info r)) with
                     | L1 d => Some (l1_onchain_data d)
                     | L2 _ | ProtocolUpgrade _ => None
                     end) results) = length (filter (λ r, is_l1_tx r = true) results).
Proof.
  induction results as [|r rs IH]; [done|].
  csimpl. destruct (common_data (info_tx (tr_info r))) eqn:Hc.
  all: assert (Hl : is_l1_tx r = match common_data (info_tx (tr_info r)) with L1 _ => true | _ => false end)
    by done; rewrite Hc in Hl.
  - rewrite filter_cons_True by done. simpl. by rewrite IH.
  - by rewrite filter_cons_False by (by rewrite Hl).
  - by rewrite filter_cons_False by (by rewrite Hl).
Qed.

Lemma chain_apply_batch_wf ts ch results fb root s :
  chain_wf s → current_batch s < u32_max →
  chain_wf (chain_apply_batch ts ch results fb root s) ∧
  current_batch (chain_apply_batch ts ch results fb root s) = current_batch s + 1.
Proof.
  intros [H1 H2 H3 H4 H5] Hb.
  assert (Hnext : wrapping_add_u32 (current_batch s) 1 = current_batch s + 1)
    by (apply wrapping_add_u32_small; lia).
  split; [|done]. split; simpl; [done..|]. rewrite Hnext. lia.
Qed.

Lemma chain_apply_batch_results ts ch results fb root s :
  NoDup ((λ r, rc_transaction_hash (tr_receipt r)) <$> results) →
  (∀ r, r ∈ results →
     tx_results (chain_apply_batch ts ch results fb root s) !! rc_transaction_hash (tr_receipt r) = Some r) ∧
  (∀ h, h ∉ ((λ r, rc_transaction_hash (tr_receipt r)) <$> results) →
     tx_results (chain_apply_batch ts ch results fb root s) !! h = tx_results s !! h).
Proof.
  intros Hnd.
  assert (Hkeys : (λ r, rc_transaction_hash (tr_receipt r)) <$> results =
    ((λ r, (rc_transaction_hash (tr_receipt r), r)) <$> results).*1) by (by rewrite <-list_fmap_compose).
  rewrite Hkeys in *. split.
  - intros r Hr. apply lookup_extend_in; [done|]. apply list_elem_of_fmap. eauto.
  - intros h Hh. by apply lookup_extend_notin.
Qed.

(** Sealing a batch.  The batch number grows by one; its header is found
    under that number and counts every transaction once as L1 or L2, with the
    on-chain data of the L1 ones in order; each result is found by the hash of
    its receipt and results of other transactions stay; blocks are untouched,
    and so is the invariant. *)
Theorem chain_apply_batch_spec {E} (ts : Z) (ch : BaseSystemContractsHashes)
    (results : list TransactionResult) (fb : FinishedL1Batch) (root : H256) (s : BlockchainState) :
  chain_wf s → current_batch s < u32_max → Z.of_nat (length results) <= u16_max →
  NoDup ((λ r, rc_transaction_hash (tr_receipt r)) <$> results) →
  let s' := chain_apply_batch ts ch results fb root s in
  chain_wf s' ∧ current_batch s' = current_batch s + 1 ∧
  (∃ header, get_batch_header (E := E) (current_batch s') s' = Ret (Some header) s' ∧
     bh_number header = current_batch s' ∧ bh_timestamp header = ts ∧
     bh_l1_tx_count header + bh_l2_tx_count header = Z.of_nat (length results) ∧
     Z.of_nat (length (bh_priority_ops_onchain_data header)) = bh_l1_tx_count header) ∧
  get_batch_aggregation_root (E := E) (current_batch s') s' = Ret (Some root) s' ∧
  (∀ r, r ∈ results →
     get_tx_receipt (E := E) (rc_transaction_hash (tr_receipt r)) s' = Ret (Some (tr_receipt r)) s') ∧
  (∀ h, h ∉ ((λ r, rc_transaction_hash (tr_receipt r)) <$> results) →
     tx_results s' !! h = tx_results s !! h).
Proof.
  intros Hwf Hb Hlen Hnd s'.
  destruct (chain_apply_batch_wf ts ch results fb root s Hwf Hb) as [Hwf' Hcur].
  destruct (chain_apply_batch_results ts ch results fb root s Hnd) as [Hin Hout].
  set (n1 := length (filter (λ r, is_l1_tx r = true) results)).
  assert (Hn1 : (n1 <= length results)%nat) by apply length_filter.
  assert (Hu16 : ∀ x, 0 <= x <= u16_max → as_u16 x = x).
  { intros x Hx. unfold as_u16, u16_max in *. apply Z.mod_small. lia. }
  split_and!; [done|done| | | |done].
  - eexists; split.
    { unfold get_batch_header, inspect_batch, gets, s'; simpl. by rewrite lookup_insert_eq. }
    simpl. fold n1. rewrite (Hu16 (Z.of_nat n1)) by lia. rewrite (Hu16 (Z.of_nat (length results))) by lia.
    split_and!; [done..| |].
    + rewrite Hu16 by lia. lia.
    + f_equal. apply onchain_data_length.
  - unfold get_batch_aggregation_root, inspect_batch, gets, s'; simpl. by rewrite lookup_insert_eq.
  - intros r Hr. unfold get_tx_receipt, inspect_tx, gets, s'. by rewrite (Hin r Hr).
Qed.

(** ** Loading blocks *)
Lemma max_by_number_spec l b :
  max_by_number l = Some b → b ∈ l ∧ ∀ b', b' ∈ l → b_number b' <= b_number b.
Proof.
  revert b. induction l as [|b0 l IH]; intros b Hb; simpl in *; [done|].
  destruct (max_by_number l) as [b'|] eqn:Hm.
  - destruct (IH b' eq_refl) as [Hin Hle].
    destruct (Z.ltb_spec (b_number b') (b_number b0)) as [Hlt|Hge]; simplify_eq/=.
    + split; [left|]. intros x [->|Hx]%elem_of_cons; [lia|]. apply Hle in Hx. lia.
    + split; [by right|]. intros x [->|Hx]%elem_of_cons; [lia|]. by apply Hle.
  - simplify_eq/=. split; [left|]. intros x [->|Hx]%elem_of_cons; [lia|].
    destruct l as [|y l]; [by apply elem_of_nil in Hx|]. simpl in Hm.
    destruct (max_by_number l); [by destruct (_ <? _)|done].
Qed.

Lemma insert_blocks_lookup bs s b :
  NoDup (b_hash <$> bs) → b ∈ bs → blocks (insert_blocks bs s) !! b_hash b = Some b.
Proof.
  assert (Hkeep : ∀ bs s h, h ∉ (b_hash <$> bs) → blocks (insert_blocks bs s) !! h = blocks s !! h).
  { clear. induction bs as [|b' bs IH]; intros s h Hh; [done|].
    rewrite fmap_cons in Hh. apply not_elem_of_cons in Hh as [Hne Hh].
    cbn [insert_blocks foldl]. fold (insert_blocks bs). unfold insert_blocks in IH. rewrite IH by done.
    simpl. by rewrite lookup_insert_ne. }
  revert s. induction bs as [|b' bs IH]; intros s Hnd Hb; [by apply elem_of_nil in Hb|].
  rewrite fmap_cons in Hnd. apply NoDup_cons in Hnd as [Hni Hnd].
  apply elem_of_cons in Hb as [->|Hb]; [|exact (IH _ Hnd Hb)].
  specialize (Hkeep bs (insert_blocks [b'] s) (b_hash b') Hni). unfold insert_blocks in *.
  cbn [foldl] in *. rewrite Hkeep. simpl. by rewrite lookup_insert_eq.
Qed.

(** Loading blocks.  Every loaded block is found by its hash; the current
    block becomes one with the greatest number of all blocks the node knows,
    and the batch number and the clock follow it, a pending timestamp being
    forgotten. *)
Theorem load_blocks_spec {E} (bs : list ApiBlock) (s s' : BlockchainState) (t t' : TimeState) :
  load_blocks (E := E) bs (s, t) = Ret tt (s', t') →
  (∀ b, b ∈ bs → NoDup (b_hash <$> bs) → blocks s' !! b_hash b = Some b) ∧
  ∃ h latest, blocks s' !! h = Some latest ∧
    (∀ h b, blocks s' !! h = Some b → b_number b <= b_number latest) ∧
    current_block s' = as_u32 (b_number latest) ∧ current_block_hash s' = b_hash latest ∧
    b_l1_batch_number latest = Some (current_batch s') ∧
    t' = mkTime (b_timestamp latest) None (interval_opt t).
Proof.
  intros H. unfold load_blocks, to_u32, to_u64 in H. run_m.
  destruct (max_by_number _) as [latest|] eqn:Hm; [|done].
  destruct (b_l1_batch_number latest) as [n|] eqn:Hn; [|done].
  destruct (n <=? u32_max); [|done]. destruct (b_timestamp latest <=? u64_max); [|done].
  simplify_eq/=. split.
  - intros b Hb Hnd. by apply insert_blocks_lookup.
  - apply max_by_number_spec in Hm as [Hin Hle].
    apply list_elem_of_fmap in Hin as ([h b]&->&Hin). apply elem_of_map_to_list in Hin.
    exists h, b. split_and!; try done. intros h' b' Hb'. apply Hle. simpl.
    apply list_elem_of_fmap. exists (h', b'). split; [done|]. by apply elem_of_map_to_list.
Qed.
End Blocks.

(** ** A concrete chain

    A block hash that is the list of what is hashed, folded to a number, and
    storage layouts that are empty. *)
Module SampleChain.
Definition chain_api : ChainApi := {|
  L2BlockHasher := list Z;
  hasher_new n t prev := [n; t; prev];
  push_tx_hash h l := l ++ [h];
  hasher_finalize v l := foldl (λ acc x, acc * 1000 + x) v l;
  legacy_hash n := 77000 + n;
  EMPTY_UNCLES_HASH := 1;
  SYSTEM_CONTEXT_ADDRESS := 32779;
  SYSTEM_CONTEXT_BLOCK_INFO_POSITION := 7;
  get_batch_base_fee _ := 25;
  get_max_batch_gas_limit := 80000000;
  L1BatchHeader_new n t ch v := mkBatchHeader n t 0 0 [] [] [] [] ch [] (Some v) None 0;
  extract_long_l2_to_l1_messages _ := [];
  unpack_block_info x := (x / 2 ^ 128, x mod 2 ^ 128);
  load_last_l2_block _ _ _ := mret None;
|}.
#[local] Existing Instances chain_api Sample.fee.

Definition genesis : BlockchainState := Blockchain_new (CA := chain_api) 28 None None None.

Definition block (n t : Z) : ApiBlock :=
  create_block (genesis_batch_env 1000) (500 + n) (499 + n) n t [] 0 0.

Lemma genesis_chain_wf : chain_wf genesis.
Proof.
  apply (new_chain_wf 28 None None); [vm_compute; split; discriminate|done].
Defined.

Lemma chain_append_witness :
  let bs := [block 1 1001; block 2 1005] in
  ∃ s', for_each (λ b, apply_block (E := unit) b 0) bs genesis = Ret tt s' ∧
    get_block_by_number (E := unit) 2 s' = Ret (Some (block 2 1005)) s'.
Proof.
  intros bs.
  assert (H : ∃ s', for_each (λ b, apply_block (E := unit) b 0) bs genesis = Ret tt s')
    by (eexists; vm_compute; reflexivity).
  destruct H as [s' H]. exists s'; split; [exact H|].
  destruct (chain_append (E := unit) bs genesis s' genesis_chain_wf) as (_&Hi&_).
  - vm_compute; discriminate.
  - apply (bool_decide_unpack _). vm_compute; exact I.
  - intros b [->|[->|Hb]%elem_of_cons]%elem_of_cons; [vm_compute; reflexivity..|].
    by apply elem_of_nil in Hb.
  - exact H.
  - destruct (Hi 1%nat _ eq_refl) as [H2 _]. exact H2.
Defined.

Lemma apply_block_decides_witness :
  (∃ msg, apply_block (E := unit) (block 3 1001) 0 genesis = Panic msg) ∧
  apply_block (E := unit) (block 1 1001) 0 genesis = Ret tt (append (block 1 1001) genesis).
Proof.
  destruct (apply_block_decides (E := unit) genesis (block 3 1001) 0 genesis_chain_wf) as [_ H1].
  destruct (apply_block_decides (E := unit) genesis (block 1 1001) 0 genesis_chain_wf) as [H2 _].
  split.
  - apply H1. intros (_&Hn&_). vm_compute in Hn. discriminate.
  - apply H2. split_and!; try (vm_compute; reflexivity); [vm_compute; discriminate|].
    intros latest Hl. vm_compute in Hl. injection Hl as <-. vm_compute; reflexivity.
Defined.

Lemma blockchain_new_wf_witness : chain_wf (Blockchain_new (CA := chain_api) 28 None None (Some 5)).
Proof. apply (blockchain_new_wf 28 None (Some 5)); [vm_compute; split; discriminate|done]. Defined.

Definition receipt (h : H256) : TransactionReceipt :=
  mkReceipt h 0 0 1 None None 0 None 0 None None [] [] 1 None None 0.
Definition tx_result (h : H256) : TransactionResult :=
  mkTransactionResult (mkTxExecutionInfo (Sample.l2 h 5 9) 1 1) [] (receipt h)
    (mkDebugCall DebugTypeCall 0 0 0 0 0 [] [] None None []).
Definition finished : FinishedL1Batch := mkFinishedBatch (Success []) [] [] [] [] None None.

Lemma chain_apply_batch_witness :
  let s' := chain_apply_batch 1001 default_contract_hashes [tx_result 41; tx_result 42] finished 9 genesis in
  get_tx_receipt (E := unit) 42 s' = Ret (Some (receipt 42)) s'.
Proof.
  intros s'.
  destruct (chain_apply_batch_spec (E := unit) 1001 default_contract_hashes
    [tx_result 41; tx_result 42] finished 9 genesis genesis_chain_wf) as (_&_&_&_&H&_).
  - vm_compute; reflexivity.
  - vm_compute; discriminate.
  - apply (bool_decide_unpack _). vm_compute; exact I.
  - apply (H (tx_result 42)). right; left.
Defined.

Lemma load_blocks_witness :
  ∃ h latest s' t', load_blocks (E := unit) [block 7 2000; block 5 1500] (genesis, Time_new 1000) = Ret tt (s', t') ∧
    blocks s' !! h = Some latest ∧ current_block s' = as_u32 (b_number latest).
Proof.
  assert (H : ∃ s' t', load_blocks (E := unit) [block 7 2000; block 5 1500] (genesis, Time_new 1000)
    = Ret tt (s', t')) by (eexists _, _; vm_compute; reflexivity).
  destruct H as (s'&t'&H).
  destruct (load_blocks_spec (E := unit) _ _ _ _ _ H) as (_&h&latest&H1&_&H2&_).
  exists h, latest, s', t'. split; [exact H|]. split; [exact H1|exact H2].
Defined.
End SampleChain.
