(* ===== verification/Inner.v ===== *)
(** * The node's state

    [crates/core/src/node/inner/in_memory_inner.rs] without gas estimation
    (the state of the node, sealing of blocks, snapshots, dump and load, reads
    of historical storage, reset), the initialisation of
    [crates/core/src/node/inner/mod.rs] and the choice of system contracts of
    [crates/core/src/system_contracts.rs].

    The components that the code shares through [Arc]s (chain, clock, storage,
    fork, impersonation) are fields of one record. *)
From S2P Require Import Prelude Types Utils Filters Impersonate Time Cache Fork Storage.
From S2P Require Import FeeModel Blockchain.
Local Open Scope Z_scope.

(** ** Errors of the node ([zksync_error], [Web3Error]) *)
Inductive TransactionValidationError :=
| InvalidGasLimit (tx_gas_limit max_gas : Z)
| GasPerPubdataLimit (tx_gas_per_pubdata_limit max_gas : Z)
| MaxFeePerGasTooLow (max_fee l2_gas_price : Z)
| MaxPriorityFeeGreaterThanMaxFee (max_fee max_priority_fee : Z).

(** [gas_estim::GasEstimationError] *)
Inductive GasEstimationError :=
| ExceedsLimitForPublishedPubdata (pubdata_published pubdata_limit : Z)
| ExceedsBlockGasLimit (overhead gas_for_pubdata estimated_body_cost : Z)
| EstimationRevert (output : VmRevertReason)
| EstimationHalt (reason : string)
| TransactionAlwaysReverts (output : VmRevertReason)
| TransactionAlwaysHalts (reason : string).

Inductive NodeError :=
| TransactionGasEstimationFailed (inner : GasEstimationError) (transaction_data : Bytes)
| SerializationError (transaction_type : string) (from to : Address) (reason : string)
| TransactionValidationFailed (inner : TransactionValidationError) (transaction_hash : H256)
| TransactionHalt (reason : string) (transaction_hash : H256)
| GenericError (msg : string)
| InternalError (msg : string)
| PrunedBlock (number : Z)
| ForkFailed (e : ForkError)
| LoadingStateOverExistingState
| UnknownStateVersion (version : Z)
| LoadEmptyState.

(** ** System contracts *)
Inductive TxExecutionMode := VerifyExecute | EstimateFee | EthCall.

Record BaseSystemContracts := mkSystemContracts {
  bsc_code : Bytes * Bytes * option Bytes;
  bsc_hashes : BaseSystemContractsHashes;
}.

Record SystemContracts := mkContracts {
  sc_protocol_version : Z;
  baseline_contracts : BaseSystemContracts;
  playground_contracts : BaseSystemContracts;
  fee_estimate_contracts : BaseSystemContracts;
  baseline_impersonating_contracts : BaseSystemContracts;
  fee_estimate_impersonating_contracts : BaseSystemContracts;
  use_evm_emulator : bool;
  use_boojum : bool;
}.

(** [SystemContracts::contracts] *)
Definition contracts {S E} (sc : SystemContracts) (mode : TxExecutionMode) (impersonating : bool)
    : M S E BaseSystemContracts :=
  match mode, impersonating with
  | VerifyExecute, false => mret (baseline_contracts sc)
  | EstimateFee, false => mret (fee_estimate_contracts sc)
  | EthCall, false => mret (playground_contracts sc)
  | VerifyExecute, true => mret (baseline_impersonating_contracts sc)
  | EstimateFee, true => mret (fee_estimate_impersonating_contracts sc)
  | EthCall, true => panic "Account impersonating with eth_call is not supported"
  end.

Definition contracts_for_l2_call {S E} (sc : SystemContracts) : M S E BaseSystemContracts :=
  contracts sc EthCall false.
Definition contracts_for_fee_estimate {S E} (sc : SystemContracts) (impersonating : bool)
    : M S E BaseSystemContracts :=
  contracts sc EstimateFee impersonating.
Definition system_contracts_for_initiator {S E} (sc : SystemContracts) (st : ImpersonationState)
    (initiator : Address) : M S E BaseSystemContracts :=
  if is_impersonating st initiator then contracts sc VerifyExecute true
  else contracts sc VerifyExecute false.
Definition base_system_contracts_hashes (sc : SystemContracts) : BaseSystemContractsHashes :=
  bsc_hashes (baseline_contracts sc).
Definition allow_no_target (sc : SystemContracts) : bool := use_boojum sc || use_evm_emulator sc.

(** ** Configuration: the fields of [TestNodeConfig] in use here *)
Record NodeConfig := mkConfig {
  cfg_genesis : option Genesis;
  cfg_genesis_timestamp : option Z;
  cfg_chain_id : option Z;
  (** What [get_deployed_contracts] reads for a protocol version. *)
  cfg_deployed_contracts : Z → list DeployedContract;
  cfg_genesis_accounts : list Address;
  cfg_signer_accounts : list Address;
  cfg_genesis_balance : Z;
  cfg_cache_config : CacheConfig;
  cfg_max_transactions : nat;
  cfg_use_evm_interpreter : bool;
}.

Definition LEGACY_RICH_WALLETS : list Address :=
  [0x36615Cf349d7F6344891B1e7CA7C72883F5dc049; 0xa61464658AfeAf65CccaaFD3a512b69A83B77618;
   0x0D43eB5B8a47bA8900d84AA36656c92024e9772e; 0xA13c10C0D5bd6f79041B9835c63f91de35A15883;
   0x8002cD98Cfb563492A6fB3E7C8243b7B9Ad4cc92; 0x4F9133D1d3F50011A6859807C837bdCB31Aaab13;
   0xbd29A1B981925B94eEc5c4F1125AF02a2Ec4d1cA; 0xedB6F5B4aab3dD95C7806Af42881FF12BE7e9daa;
   0xe706e60ab5Dc512C36A4646D719b889F398cbBcB; 0xE90E12261CCb0F3F7976Ae611A29e84a6A85f424].

Definition RICH_WALLETS : list Address :=
  [0xBC989fDe9e54cAd2aB4392Af6dF60f04873A033A; 0x55bE1B079b53962746B2e86d12f158a41DF294A6;
   0xCE9e6063674DC585F6F3c7eaBe82B9936143Ba6C; 0xd986b0cB0D1Ad4CCCF0C4947554003fC0Be548E9;
   0x87d6ab9fE5Adef46228fB490810f0F5CB16D6d04; 0x78cAD996530109838eb016619f5931a03250489A;
   0xc981b213603171963F81C687B9fC880d33CaeD16; 0x42F3dc38Da81e984B92A95CBdAAA5fA2bd5cb1Ba;
   0x64F47EeD3dC749d13e49291d46Ea8378755fB6DF; 0xe2b8Cb53a43a56d4d2AB6131C81Bd76B86D3AFe5].

(** ** External functions *)
Class BlockApi := {
  (** [api::Transaction::from(l2_tx)] *)
  api_transaction_of_l2 : Transaction → ApiTransaction;
  build_bloom : list Z → Z;
  L2_MESSAGE_ROOT_ADDRESS : Address;
  AGG_TREE_HEIGHT_KEY : Z;
  AGG_TREE_NODES_KEY : Z;
  BATCH_COMPUTATIONAL_GAS_LIMIT : Z;
}.

(** The environment a VM is created with. *)
Record SystemEnv := mkSystemEnv {
  se_zk_porter_available : bool;
  se_version : Z;
  se_base_system_smart_contracts : BaseSystemContracts;
  se_bootloader_gas_limit : Z;
  se_execution_mode : TxExecutionMode;
  se_default_validation_computational_gas_limit : Z;
  se_chain_id : Z;
}.

(** [TxBatchExecutionResult] ([vm_runner.rs]) *)
Record TxBatchExecutionResult := mkBatchResult {
  br_tx_results : list TransactionResult;
  br_base_system_contracts_hashes : BaseSystemContractsHashes;
  br_batch_env : L1BatchEnv;
  br_block_ctxs : list BlockContext;
  br_finished_l1_batch : FinishedL1Batch;
  br_modified_storage_keys : list (StorageKey * StorageValue);
}.

(** [BlockContext::new_block] *)
Definition new_block (c : BlockContext) (t : TimeState) : BlockContext * TimeState :=
  let '(timestamp, t) := advance_timestamp t in
  (mkBlockContext 0 (bc_batch c) (saturating_add_u64 (bc_miniblock c) 1) timestamp (bc_hash c), t).

(** ** Insertion-ordered maps ([IndexMap]) *)
Definition PreviousStates : Type := list (H256 * gmap StorageKey StorageValue).

Fixpoint indexmap_insert (k : H256) (v : gmap StorageKey StorageValue) (l : PreviousStates)
    : PreviousStates :=
  match l with
  | [] => [(k, v)]
  | (k', v') :: l => if decide (k' = k) then (k, v) :: l else (k', v') :: indexmap_insert k v l
  end.

Fixpoint indexmap_get (k : H256) (l : PreviousStates) : option (gmap StorageKey StorageValue) :=
  match l with
  | [] => None
  | (k', v) :: l => if decide (k' = k) then Some v else indexmap_get k l
  end.

Definition MAX_PREVIOUS_STATES : Z := 128.

(** [archive_state] *)
Definition archive_state (st : gmap StorageKey StorageValue) (block_hash : H256)
    (previous_states : PreviousStates) : PreviousStates :=
  let previous_states :=
    if MAX_PREVIOUS_STATES <? Z.of_nat (length previous_states) then tail previous_states
    else previous_states in
  indexmap_insert block_hash st previous_states.

Section Inner.
Context {TA : TransactionApi} {FA : FeeApi} {KA : KeyApi} {CA : ChainApi} {BA : BlockApi}.
Context {Client : Type} {R : Remote (Client := Client)}.

Record InMemoryNodeInner := mkInner {
  blockchain : BlockchainState;
  (** [Blockchain::protocol_version], the handle's own copy. *)
  blockchain_version : Z;
  time : TimeState;
  fee_input_provider : TestNodeFeeInputProvider;
  node_filters : EthFilters;
  fork_storage : ForkStorage;
  fork : ForkState (Client := Client);
  config : NodeConfig;
  system_contracts : SystemContracts;
  impersonation : ImpersonationState;
  rich_accounts : gset Address;
  previous_states : PreviousStates;
  storage_key_layout : StorageKeyLayout;
}.

Abbreviation NodeM := (M InMemoryNodeInner NodeError).

(** Field updates. *)
Definition set_blockchain (c : BlockchainState) (n : InMemoryNodeInner) : InMemoryNodeInner :=
  mkInner c (blockchain_version n) (time n) (fee_input_provider n) (node_filters n) (fork_storage n)
    (fork n) (config n) (system_contracts n) (impersonation n) (rich_accounts n) (previous_states n)
    (storage_key_layout n).
Definition set_time (t : TimeState) (n : InMemoryNodeInner) : InMemoryNodeInner :=
  mkInner (blockchain n) (blockchain_version n) t (fee_input_provider n) (node_filters n)
    (fork_storage n) (fork n) (config n) (system_contracts n) (impersonation n) (rich_accounts n)
    (previous_states n) (storage_key_layout n).
Definition set_filters (f : EthFilters) (n : InMemoryNodeInner) : InMemoryNodeInner :=
  mkInner (blockchain n) (blockchain_version n) (time n) (fee_input_provider n) f (fork_storage n)
    (fork n) (config n) (system_contracts n) (impersonation n) (rich_accounts n) (previous_states n)
    (storage_key_layout n).
Definition set_storage (s : StorageState (Client := Client)) (n : InMemoryNodeInner) : InMemoryNodeInner :=
  mkInner (blockchain n) (blockchain_version n) (time n) (fee_input_provider n) (node_filters n) s.1
    s.2 (config n) (system_contracts n) (impersonation n) (rich_accounts n) (previous_states n)
    (storage_key_layout n).
Definition set_fork (f : ForkState (Client := Client)) (n : InMemoryNodeInner) : InMemoryNodeInner :=
  set_storage (fork_storage n, f) n.
Definition set_previous_states (p : PreviousStates) (n : InMemoryNodeInner) : InMemoryNodeInner :=
  mkInner (blockchain n) (blockchain_version n) (time n) (fee_input_provider n) (node_filters n)
    (fork_storage n) (fork n) (config n) (system_contracts n) (impersonation n) (rich_accounts n) p
    (storage_key_layout n).
Definition set_rich_accounts (r : gset Address) (n : InMemoryNodeInner) : InMemoryNodeInner :=
  mkInner (blockchain n) (blockchain_version n) (time n) (fee_input_provider n) (node_filters n)
    (fork_storage n) (fork n) (config n) (system_contracts n) (impersonation n) r
    (previous_states n) (storage_key_layout n).

(** Operations of the parts. *)
Definition on_chain {A} : M BlockchainState NodeError A → NodeM A := zoom blockchain set_blockchain.
Definition on_storage {A} : M (StorageState (Client := Client)) NodeError A → NodeM A :=
  zoom (λ n, (fork_storage n, fork n)) set_storage.
Definition on_fork {A} (m : ForkM (Client := Client) A) : NodeM A := λ n,
  match m (fork n) with
  | Ret a fk => Ret a (set_fork fk n)
  | Throw e fk => Throw (ForkFailed e) (set_fork fk n)
  | Panic msg => Panic msg
  | Deadlock => Deadlock
  end.
Definition modify_storage (f : ForkStorage → ForkStorage) : NodeM unit :=
  modify (λ n, set_storage (f (fork_storage n), fork n) n).

(** [create_system_env] *)
Definition create_system_env (n : InMemoryNodeInner) (c : BaseSystemContracts) (mode : TxExecutionMode)
    : SystemEnv :=
  mkSystemEnv false (blockchain_version n) c BATCH_COMPUTATIONAL_GAS_LIMIT mode
    BATCH_COMPUTATIONAL_GAS_LIMIT (storage_chain_id (fork_storage n)).

(** [create_l1_batch_env] *)
Definition create_l1_batch_env : NodeM (L1BatchEnv * BlockContext) :=
  chain ← gets blockchain;
  t ← gets time;
  env ← on_storage (last_env chain read_value_internal t);
  let '(last_l1_batch_number, last_l2_block) := env in
  let block_ctx :=
    mkBlockContext 0 (wrapping_add_u32 last_l1_batch_number 1)
      (wrapping_add_u64 (l2b_number last_l2_block) 1) (peek_next_timestamp t) (l2b_hash last_l2_block) in
  fee_input ← gets (λ n,
    match fork_details (fork n) with
    | Some fd =>
        PubdataIndependent (mkPubdataIndependent (fd_l1_gas_price fd) (fd_l2_fair_gas_price fd)
          (fd_fair_pubdata_price fd))
    | None => get_batch_fee_input (fee_input_provider n)
    end);
  let batch_env :=
    mkL1BatchEnv None (bc_batch block_ctx) (bc_timestamp block_ctx) fee_input 0 None
      (mkL2BlockEnv (as_u32 (bc_miniblock block_ctx)) (bc_timestamp block_ctx) (l2b_hash last_l2_block) 1) in
  mret (batch_env, block_ctx).

(** [n_dim_array_key_in_layout] *)
Definition n_dim_array_key_in_layout (array_key : Z) (indices : list Z) : H256 :=
  foldl (λ key index, overflowing_add_u256 (keccak256 (be_bytes 32 key)) index) array_key indices.

(** [modified_storage_keys.get(&key)], of the map collected from the pairs. *)
Definition modified_get (modified : list (StorageKey * StorageValue)) (key : StorageKey)
    : option StorageValue :=
  extend ∅ modified !! key.

Definition read_modified (modified : list (StorageKey * StorageValue)) (key : StorageKey)
    : NodeM StorageValue :=
  match modified_get modified key with
  | Some v => mret v
  | None => on_storage (read_value_internal key)
  end.

(** [read_aggregation_root] *)
Definition read_aggregation_root (modified : list (StorageKey * StorageValue)) : NodeM H256 :=
  agg_tree_height ← read_modified modified (L2_MESSAGE_ROOT_ADDRESS, AGG_TREE_HEIGHT_KEY);
  let agg_tree_root_hash_key := n_dim_array_key_in_layout AGG_TREE_NODES_KEY [agg_tree_height; 0] in
  read_modified modified (L2_MESSAGE_ROOT_ADDRESS, agg_tree_root_hash_key).

(** [archive_state(&mut self.previous_states, <current storage>, ..)] *)
Definition archive_current : NodeM unit :=
  modify (λ n, set_previous_states
    (archive_state (Storage.state (raw_storage (fork_storage n))) (current_block_hash (blockchain n))
       (previous_states n)) n).

(** [apply_batch] *)
Definition apply_batch (batch_timestamp : Z) (contract_hashes : BaseSystemContractsHashes)
    (block : ApiBlock) (virtual_block : option ApiBlock) (results : list TransactionResult)
    (finished_l1_batch : FinishedL1Batch) (modified : list (StorageKey * StorageValue)) : NodeM unit :=
  let new_bytecodes := results ≫= tr_new_bytecodes in
  aggregation_root ← read_aggregation_root modified;
  modify (λ n, set_blockchain
    (chain_apply_batch batch_timestamp contract_hashes results finished_l1_batch aggregation_root
       (blockchain n)) n);;
  archive_current;;
  on_chain (apply_block block 0);;
  for_each (λ hc, modify_storage (store_factory_dep hc.1 hc.2)) new_bytecodes;;
  for_each (λ kv, modify_storage (set_value kv.1 kv.2)) modified;;
  match virtual_block with
  | Some virtual_block => archive_current;; on_chain (apply_block virtual_block 1)
  | None => mret tt
  end.

(** The API transaction of a result, placed in its block. *)
Definition block_transaction (batch_number chain_id : Z) (ctx : BlockContext) (index : nat)
    (r : TransactionResult) : NodeM TransactionVariant :=
  let tx := info_tx (tr_info r) in
  let t :=
    match common_data tx with
    | L2 _ => api_transaction_of_l2 tx
    | L1 _ | ProtocolUpgrade _ =>
        mkApiTransaction (tx_hash tx) 0 None None None None None 0 None 0 [] None None None None None
          None None None 0 None None
    end in
  v ← (if bool_decide (at_transaction_type t = Some 0 ∨ at_transaction_type t = None) then
         match at_v t with
         | None => mret None
         | Some v =>
             let v' := v + 35 + wrapping_mul_u64 chain_id 2 in
             if v' <=? u64_max then mret (Some v') else panic "arithmetic operation overflow"
         end
       else mret (at_v t));
  mret (Full (mkApiTransaction (at_hash t) (at_nonce t) (Some (bc_hash ctx)) (Some (bc_miniblock ctx))
    (Some (Z.of_nat index)) (at_from t) (at_to t) (at_value t) (at_gas_price t) (at_gas t) (at_input t)
    v (at_r t) (at_s t) (at_y_parity t) (at_raw t) (at_transaction_type t) (at_max_fee_per_gas t)
    (at_max_priority_fee_per_gas t) (at_chain_id t) (Some batch_number) (Some 0))).

(** [fold(U256::zero(), |acc, x| acc + x)] *)
Fixpoint sum_u256 {S E} (acc : Z) (l : list Z) : M S E Z :=
  match l with
  | [] => mret acc
  | x :: l => acc ← expect "arithmetic operation overflow" (checked_add_u256 acc x); sum_u256 acc l
  end.

(** [build_bloom]'s input: the topics and then the address of every log. *)
Definition bloom_inputs (results : list TransactionResult) : list Z :=
  (results ≫= λ r, rc_logs (tr_receipt r)) ≫= λ event, log_topics event ++ [log_address event].

(** [seal_block] *)
Definition seal_block (r : TxBatchExecutionResult) : NodeM Z :=
  let results := br_tx_results r in
  let batch_env := br_batch_env r in
  ctx0 ← expect "index out of bounds" (br_block_ctxs r !! 0%nat);
  for_each (λ tr,
    modify (λ n, set_filters
      (notify_new_pending_transaction (rc_transaction_hash (tr_receipt tr)) (node_filters n)) n);;
    for_each (λ log,
      f ← gets (λ n, notify_new_log log (bc_miniblock ctx0) (node_filters n));
      f ← expect "called `Option::unwrap()` on a `None` value" f;
      modify (set_filters f)) (rc_logs (tr_receipt tr))) results;;
  chain_id ← gets (λ n, storage_chain_id (fork_storage n));
  transactions ← map_m (λ ir : nat * TransactionResult,
                    block_transaction (be_number batch_env) chain_id ctx0 ir.1 ir.2)
                   (enumerate results);
  let logs_bloom := build_bloom (bloom_inputs results) in
  gas_used ← sum_u256 0 ((λ r, dc_gas_used (tr_debug r)) <$> results);
  let block :=
    create_block batch_env (bc_hash ctx0) (bc_prev_block_hash ctx0) (bc_miniblock ctx0)
      (bc_timestamp ctx0) transactions gas_used logs_bloom in
  let virtual_block :=
    match br_block_ctxs r with
    | [_; ctx1] =>
        Some (create_block batch_env (bc_hash ctx1) (bc_prev_block_hash ctx1) (bc_miniblock ctx1)
                (bc_timestamp ctx1) [] 0 0)
    | _ => None
    end in
  apply_batch (be_timestamp batch_env) (br_base_system_contracts_hashes r) block virtual_block results
    (br_finished_l1_batch r) (br_modified_storage_keys r);;
  for_each (λ ctx, modify (λ n, set_filters (notify_new_block (bc_hash ctx) (node_filters n)) n))
    (br_block_ctxs r);;
  mret (as_u32 (bc_miniblock ctx0)).

(** ** Snapshots *)
Record Snapshot := mkSnapshot {
  snap_current_batch : Z;
  snap_current_block : Z;
  snap_current_block_hash : H256;
  snap_fee_input_provider : TestNodeFeeInputProvider;
  snap_tx_results : gmap H256 TransactionResult;
  snap_blocks : gmap H256 ApiBlock;
  snap_hashes : gmap Z H256;
  snap_filters : EthFilters;
  snap_impersonation_state : ImpersonationState;
  snap_rich_accounts : gset Address;
  snap_previous_states : PreviousStates;
  snap_raw_storage : InMemoryStorage;
  snap_value_read_cache : gmap StorageKey H256;
  snap_factory_dep_cache : gmap H256 (option Bytes);
}.

(** [snapshot] *)
Definition snapshot (n : InMemoryNodeInner) : Snapshot :=
  let chain := blockchain n in
  let st := fork_storage n in
  mkSnapshot (current_batch chain) (current_block chain) (current_block_hash chain)
    (fee_input_provider n) (tx_results chain) (blocks chain) (hashes chain) (node_filters n)
    (impersonation n) (rich_accounts n) (previous_states n) (raw_storage st) (value_read_cache st)
    (factory_dep_cache st).

(** [restore_snapshot] *)
Definition restore_snapshot (sn : Snapshot) (n : InMemoryNodeInner) : InMemoryNodeInner :=
  mkInner
    (mkChain (protocol_version (blockchain n)) (snap_current_batch sn) (snap_current_block sn)
       (snap_current_block_hash sn) (snap_tx_results sn) (snap_blocks sn) (snap_hashes sn)
       (batches (blockchain n)))
    (blockchain_version n) (time n) (snap_fee_input_provider sn) (snap_filters sn)
    (mkForkStorage (snap_raw_storage sn) (snap_value_read_cache sn) (snap_factory_dep_cache sn)
       (storage_chain_id (fork_storage n)))
    (fork n) (config n) (system_contracts n) (snap_impersonation_state sn) (snap_rich_accounts sn)
    (snap_previous_states sn) (storage_key_layout n).

(** ** Dump and load ([state.rs] has the formats) *)
Record StateV1 := mkStateV1 {
  sv_blocks : list ApiBlock;
  sv_transactions : list TransactionResult;
  sv_fork_storage : SerializableForkStorage;
  sv_historical_states : list (H256 * gmap StorageKey StorageValue);
}.

Inductive VersionedState :=
| V1 (st : StateV1)
| UnknownVersion (version : Z).

(** [dump_state] *)
Definition dump_state (preserve_historical_states : bool) (n : InMemoryNodeInner) : VersionedState :=
  let chain := blockchain n in
  V1 (mkStateV1 (map_to_list (blocks chain)).*2 (map_to_list (tx_results chain)).*2
        (storage_dump_state (fork_storage n))
        (if preserve_historical_states then previous_states n else [])).

(** [load_state] *)
Definition load_state (st : VersionedState) : NodeM bool :=
  chain ← gets blockchain;
  (if (1 <? size (blocks chain))%nat then throw LoadingStateOverExistingState else mret tt);;
  st ← match st with
       | V1 st => mret st
       | UnknownVersion v => throw (UnknownStateVersion v)
       end;
  (if bool_decide (sv_blocks st = []) then throw LoadEmptyState else mret tt);;
  zoom (λ n, (blockchain n, time n)) (λ ct n, set_time ct.2 (set_blockchain ct.1 n))
    (load_blocks (sv_blocks st));;
  modify (λ n, set_blockchain (load_transactions (sv_transactions st) (blockchain n)) n);;
  modify_storage (storage_load_state (sv_fork_storage st));;
  modify (λ n, set_previous_states
    (foldl (λ p kv, indexmap_insert kv.1 kv.2 p) (previous_states n) (sv_historical_states st)) n);;
  mret true.

(** ** Historical reads: [get_storage_at_block] *)
Definition get_storage_at_block (address : Address) (idx : Z) (block : option BlockIdVariant)
    : NodeM H256 :=
  let storage_key := (address, idx) in
  chain ← gets blockchain;
  block_number ←
    match block with
    | None => mret (current_block chain)
    | Some (VariantNumber n) | Some (VariantNumberObject n) =>
        mret (to_real_block_number n (current_block chain))
    | Some (VariantHashObject h) =>
        match blocks chain !! h with
        | Some b => mret (b_number b)
        | None => throw (InternalError "Failed to map block number to hash.")
        end
    end;
  block_number ← to_u32 block_number;
  if block_number =? current_block chain then on_storage (read_value_internal storage_key)
  else
    match hashes chain !! block_number with
    | Some block_hash =>
        states ← gets previous_states;
        st ← try_option (PrunedBlock block_number) (indexmap_get block_hash states);
        match st !! storage_key with
        | Some v => mret v
        | None => on_fork (get_storage_at_forked address idx)
        end
    | None => on_fork (get_storage_at address idx block)
    end.

(** ** Reset *)

(** [set_rich_account]: the view of the storage it writes to is discarded
    after its one modified key is copied. *)
Definition set_rich_account (address : Address) (balance : Z) : NodeM unit :=
  layout ← gets storage_key_layout;
  key ← get_storage_key_for_base_token layout address;
  modify_storage (set_value key balance);;
  modify (λ n, set_rich_accounts ({[address]} ∪ rich_accounts n) n).

Definition rich_addresses (c : NodeConfig) : list Address :=
  cfg_genesis_accounts c ++ cfg_signer_accounts c ++ LEGACY_RICH_WALLETS ++ RICH_WALLETS.

(** [reset] *)
Definition reset (fork_client_opt : option (ForkClient (Client := Client))) : NodeM unit :=
  let fork_details := client_details <$> fork_client_opt in
  modify (λ n, set_blockchain
    (Blockchain_new (blockchain_version n) fork_details (cfg_genesis (config n))
       (cfg_genesis_timestamp (config n))) n);;
  modify (λ n, set_time (set_current_timestamp_unchecked
    (default NON_FORK_FIRST_BLOCK_TIMESTAMP (fd_block_timestamp <$> fork_details)) (time n)).2 n);;
  modify (set_filters empty_filters);;
  modify (λ n, set_fork (reset_fork_client fork_client_opt (fork n)) n);;
  modify (λ n, set_storage
    (ForkStorage_new (fork n) (cfg_deployed_contracts (config n) (blockchain_version n))
       (cfg_chain_id (config n)), fork n) n);;
  modify (set_rich_accounts ∅);;
  modify (set_previous_states []);;
  c ← gets config;
  for_each (λ address, set_rich_account address (cfg_genesis_balance c)) (rich_addresses c).

(** ** Initialisation: [InMemoryNodeInner::init] with [new] *)
Definition init (fork_client_opt : option (ForkClient (Client := Client)))
    (provider : TestNodeFeeInputProvider) (filters : EthFilters) (c : NodeConfig)
    (imp : ImpersonationState) (sc : SystemContracts) (layout : StorageKeyLayout) (disk : DiskState)
    : InMemoryNodeInner :=
  let fork := Fork_new fork_client_opt (cfg_cache_config c) disk in
  let details := fork_details fork in
  let t := Time_new (default NON_FORK_FIRST_BLOCK_TIMESTAMP (fd_block_timestamp <$> details)) in
  let chain :=
    Blockchain_new (sc_protocol_version sc) details (cfg_genesis c) (cfg_genesis_timestamp c) in
  let st := ForkStorage_new fork (cfg_deployed_contracts c (sc_protocol_version sc)) (cfg_chain_id c) in
  mkInner chain (protocol_version chain) t provider filters st fork c sc imp ∅ [] layout.
End Inner.
