(* ===== verification/Sealing.v ===== *)
(** * Sealing, snapshots and history

    Theorems about the operations of [InMemoryNodeInner] ([Inner.v]): what
    sealing a batch does to the chain, the storage and the archive, that
    reading at an earlier block finds what the archive kept, that snapshots
    restore, that a dump loads. *)
From S2P Require Import Prelude Types Utils Filters Impersonate Time Cache Fork Storage.
From S2P Require Import FeeModel Blockchain Inner.
Local Open Scope Z_scope.

(** ** The archive of past states *)
Lemma indexmap_get_insert k v l k' :
  indexmap_get k' (indexmap_insert k v l) = if decide (k' = k) then Some v else indexmap_get k' l.
Proof.
  induction l as [|[k0 v0] l IH]; simpl; [repeat case_decide; congruence|].
  repeat (case_decide; simpl); try congruence.
Qed.

Lemma length_indexmap_insert k v l :
  length (indexmap_insert k v l) = if decide (is_Some (indexmap_get k l)) then length l else S (length l).
Proof.
  induction l as [|[k0 v0] l IH]; [done|]. cbn [indexmap_insert indexmap_get].
  destruct (decide (k0 = k)) as [->|Hne]; [done|]. csimpl.
  rewrite IH. by destruct (decide (is_Some (indexmap_get k l))).
Qed.

Lemma indexmap_get_tail k l v :
  NoDup l.*1 → indexmap_get k (tail l) = Some v → indexmap_get k l = Some v.
Proof.
  destruct l as [|[k0 v0] l]; simpl; [done|]. intros [Hni _]%NoDup_cons Hg.
  rewrite decide_False; [done|]. intros ->. apply Hni. clear Hni.
  induction l as [|[k1 v1] l IH]; simpl in *; [done|]. destruct (decide (k1 = k)) as [->|]; [left|right; auto].
Qed.

Lemma indexmap_insert_keys k v l :
  (indexmap_insert k v l).*1 = if decide (is_Some (indexmap_get k l)) then l.*1 else l.*1 ++ [k].
Proof.
  induction l as [|[k0 v0] l IH]; [done|]. cbn [indexmap_insert indexmap_get].
  destruct (decide (k0 = k)) as [->|Hne]; [done|]. csimpl.
  rewrite IH. by destruct (decide (is_Some (indexmap_get k l))).
Qed.

Lemma indexmap_get_key k l : is_Some (indexmap_get k l) ↔ k ∈ l.*1.
Proof.
  induction l as [|[k0 v0] l IH]; simpl.
  - split; [by intros [? ?]|by intros ?%elem_of_nil].
  - rewrite elem_of_cons, <-IH. destruct (decide (k0 = k)) as [->|]; naive_solver.
Qed.

(** The archive keeps distinct hashes, at most one more than its constant
    says. *)
Definition archive_wf (l : PreviousStates) : Prop :=
  NoDup l.*1 ∧ (Z.of_nat (length l) <= MAX_PREVIOUS_STATES + 1).

Lemma archive_state_wf st h l : archive_wf l → archive_wf (archive_state st h l).
Proof.
  intros [Hnd Hlen]. unfold archive_state.
  assert (Ht : NoDup (tail l).*1) by (destruct l; [done|by apply NoDup_cons in Hnd as [_ ?]]).
  assert (Hl : length (tail l) = pred (length l)) by (by destruct l).
  split.
  - rewrite indexmap_insert_keys. destruct (decide _) as [_|Hn].
    + by destruct (_ <? _).
    + apply NoDup_app. split_and!; [by destruct (_ <? _)| |apply NoDup_singleton].
      intros x Hx ->%list_elem_of_singleton. apply Hn. by apply indexmap_get_key.
  - rewrite length_indexmap_insert. destruct (Z.ltb_spec MAX_PREVIOUS_STATES (Z.of_nat (length l)));
      destruct (decide _); unfold MAX_PREVIOUS_STATES in *; lia.
Qed.

(** Archiving a state.  The state is found under the hash of its block;
    every other archived state stays, except that an archive of more than 128
    gives up its oldest one; so the archive never holds more than 129 states
    and, once it has that many, keeps exactly the 129 latest. *)
Theorem archive_state_spec (st : gmap StorageKey StorageValue) (h : H256) (l : PreviousStates) :
  archive_wf l →
  let l' := archive_state st h l in
  archive_wf l' ∧
  indexmap_get h l' = Some st ∧
  (∀ h' v, h' ≠ h → indexmap_get h' l' = Some v → indexmap_get h' l = Some v) ∧
  (∀ h' v, h' ≠ h → indexmap_get h' l = Some v →
     indexmap_get h' l' = Some v ∨
     (Z.of_nat (length l) = MAX_PREVIOUS_STATES + 1 ∧ head l = Some (h', v))).
Proof.
  intros Hwf l'. pose proof Hwf as [Hnd Hlen]. split_and!.
  - by apply archive_state_wf.
  - unfold l', archive_state. by rewrite indexmap_get_insert, decide_True.
  - intros h' v Hne. unfold l', archive_state. rewrite indexmap_get_insert, decide_False by done.
    destruct (_ <? _); [by apply indexmap_get_tail|done].
  - intros h' v Hne Hg. unfold l', archive_state. rewrite indexmap_get_insert, decide_False by done.
    destruct (Z.ltb_spec MAX_PREVIOUS_STATES (Z.of_nat (length l))) as [Hlt|_]; [|by left].
    destruct l as [|[k0 v0] l]; [done|]. simpl in Hg. destruct (decide (k0 = h')) as [->|].
    + simplify_eq. right. split; [lia|done].
    + by left.
Qed.

Section Sealing.
Context {TA : TransactionApi} {FA : FeeApi} {KA : KeyApi} {CA : ChainApi} {BA : BlockApi}.
Context {Client : Type} {R : Remote (Client := Client)}.

Abbreviation Node := (InMemoryNodeInner (Client := Client)).

(** ** Operations that touch nothing but the storage *)
Definition same_but_storage (n n' : Node) : Prop := ∃ st, n' = set_storage st n.

#[global] Instance same_but_storage_refl : Reflexive same_but_storage.
Proof. intros []. by eexists (_, _). Qed.
#[global] Instance same_but_storage_trans : Transitive same_but_storage.
Proof. intros n1 n2 n3 [? ->] [s ->]. by exists s. Qed.

(** Whether it returns or fails, of the node it changes the storage at most. *)
Definition node_quiet {E A} (m : M Node E A) : Prop :=
  ∀ n n', final_state (m n) = Some n' → same_but_storage n n'.

Lemma node_quiet_bind {E A B} (m : M Node E A) (f : A → M Node E B) :
  node_quiet m → (∀ a, node_quiet (f a)) → node_quiet (m ≫= f).
Proof.
  intros Hm Hf s s'. unfold mbind, M_bind. pose proof (Hm s) as Hs.
  destruct (m s) as [a s1|e s1|msg|]; simpl in *; [|intros [= <-]; by apply Hs|done|done].
  intros H. etrans; [by apply Hs|by eapply Hf].
Qed.
Lemma node_quiet_ret {E A} (a : A) : node_quiet (E := E) (mret a).
Proof. intros n n' [= <-]. reflexivity. Qed.
Lemma node_quiet_throw {E A} (e : E) : node_quiet (throw (A := A) e).
Proof. intros n n' [= <-]. reflexivity. Qed.
Lemma node_quiet_panic {E A} msg : node_quiet (E := E) (panic (A := A) msg).
Proof. done. Qed.
Lemma node_quiet_deadlock {E A} : node_quiet (E := E) (deadlock (A := A)).
Proof. done. Qed.
Lemma node_quiet_gets {E A} (f : Node → A) : node_quiet (E := E) (gets f).
Proof. intros n n' [= <-]. reflexivity. Qed.
Lemma node_quiet_expect {E A} msg (o : option A) : node_quiet (E := E) (expect msg o).
Proof. destruct o; [apply node_quiet_ret|done]. Qed.
Lemma node_quiet_on_storage {A} (m : M (StorageState (Client := Client)) NodeError A) :
  node_quiet (on_storage m).
Proof.
  intros n n'. unfold on_storage, zoom. destruct (m _); simpl; intros [= <-]; by eexists.
Qed.
Lemma node_quiet_layout_nonce {E} l a : node_quiet (E := E) (layout_nonce_key l a).
Proof. destruct l; [apply node_quiet_ret|apply node_quiet_panic]. Qed.
Lemma node_quiet_layout_balance {E} l a : node_quiet (E := E) (get_storage_key_for_base_token l a).
Proof. destruct l; [apply node_quiet_ret|apply node_quiet_panic]. Qed.
Lemma node_quiet_create_env : node_quiet create_l1_batch_env.
Proof.
  unfold create_l1_batch_env. repeat (apply node_quiet_bind; [|intros ?]).
  - apply node_quiet_gets.
  - apply node_quiet_gets.
  - apply node_quiet_on_storage.
  - destruct a1. apply node_quiet_bind; [apply node_quiet_gets|intros; apply node_quiet_ret].
Qed.

(** ** Loops that only change a part *)
Lemma for_each_modify {S E A} (g : A → S → S) l (s : S) :
  for_each (E := E) (λ x, modify (g x)) l s = Ret tt (foldl (λ s x, g x s) s l).
Proof. revert s. induction l as [|x l IH]; intros s; [done|]. apply IH. Qed.

Lemma foldl_set_storage {A} (f : A → ForkStorage → ForkStorage) l (n : Node) :
  foldl (λ (n : Node) x, set_storage (f x (fork_storage n), fork n) n) n l =
  set_storage (foldl (λ st x, f x st) (fork_storage n) l, fork n) n.
Proof. revert n. induction l as [|x l IH]; intros n; [by destruct n|]. simpl. by rewrite IH. Qed.

Lemma foldl_store_view (l : list (H256 * Bytes)) st (fk : ForkState (Client := Client)) k :
  view (foldl (λ st hc, store_factory_dep hc.1 hc.2 st) st l, fk) k = view (st, fk) k ∧
  Storage.state (raw_storage (foldl (λ st hc, store_factory_dep hc.1 hc.2 st) st l)) =
    Storage.state (raw_storage st).
Proof. revert st. induction l as [|hc l IH]; intros st; [done|]. simpl. by destruct (IH (store_factory_dep hc.1 hc.2 st)) as [-> ->]. Qed.

Lemma foldl_set_value_view (l : list (StorageKey * StorageValue)) st (fk : ForkState (Client := Client)) k :
  view (foldl (λ st kv, set_value kv.1 kv.2 st) st l, fk) k =
  match modified_get l k with Some v => Ok v | None => view (st, fk) k end.
Proof.
  induction l as [|[k0 v0] l IH] using rev_ind; [done|].
  rewrite foldl_snoc. cbn [fst snd].
  change (view (set_value k0 v0 (foldl (λ st kv, set_value kv.1 kv.2 st) st l), fk) k)
    with (view (set_value k0 v0 (foldl (λ st kv, set_value kv.1 kv.2 st) st l, fk).1,
            (foldl (λ st kv, set_value kv.1 kv.2 st) st l, fk).2) k).
  rewrite set_value_view, IH. unfold modified_get. rewrite extend_app. simpl.
  case_decide as Hk; [subst; by rewrite lookup_insert_eq|by rewrite lookup_insert_ne].
Qed.

(** A storage that lost nothing: what reads leave. *)
Lemma read_modified_run modified key (n : Node) :
  available (fork_storage n, fork n) →
  ∃ v s', read_modified modified key n = Ret v (set_storage s' n) ∧
    same_view (fork_storage n, fork n) s'.
Proof.
  intros [Hav _]. unfold read_modified. destruct (modified_get modified key) as [v|].
  - exists v, (fork_storage n, fork n). split; [by destruct n|done].
  - destruct (Hav key) as [v Hv]. destruct (read_value_view (E := NodeError) _ _ _ Hv) as (s'&Hr&Hs).
    exists v, s'. split; [|done]. unfold on_storage, zoom. by rewrite Hr.
Qed.

Lemma same_view_available (s s' : StorageState (Client := Client)) : same_view s s' → available s → available s'.
Proof.
  intros (H1&H2&_) [Hv Hc]. split; intros k; rewrite ?H1, ?H2; auto.
Qed.

Lemma same_view_trans (s1 s2 s3 : StorageState (Client := Client)) : same_view s1 s2 → same_view s2 s3 → same_view s1 s3.
Proof.
  intros (H1&H2&H3&H4) (G1&G2&G3&G4). split_and!; try congruence; intros k; by rewrite ?G1, ?G2.
Qed.

Lemma read_aggregation_root_run modified (n : Node) :
  available (fork_storage n, fork n) →
  ∃ root s', read_aggregation_root modified n = Ret root (set_storage s' n) ∧
    same_view (fork_storage n, fork n) s'.
Proof.
  intros Hav. unfold read_aggregation_root.
  destruct (read_modified_run modified (L2_MESSAGE_ROOT_ADDRESS, AGG_TREE_HEIGHT_KEY) n Hav)
    as (h&s1&H1&Hs1).
  rewrite (bind_run _ _ _ _ _ H1). cbv zeta.
  edestruct (read_modified_run modified
    (L2_MESSAGE_ROOT_ADDRESS, n_dim_array_key_in_layout AGG_TREE_NODES_KEY [h; 0]) (set_storage s1 n))
    as (root&s2&H2&Hs2); [destruct s1; by eapply same_view_available|].
  exists root, s2. split; [exact H2|]. eapply same_view_trans; [exact Hs1|]. destruct s1; exact Hs2.
Qed.

(** ** Applying a batch *)

(** Blocks that follow the head of the chain of a node. *)
Record follows (n : Node) (block : ApiBlock) (virtual_block : option ApiBlock) : Prop := {
  fo_wf : chain_wf (blockchain n);
  fo_bounds : current_block (blockchain n) + 2 <= u32_max ∧ current_batch (blockchain n) < u32_max;
  fo_batch : b_l1_batch_number block = Some (current_batch (blockchain n) + 1);
  fo_number : b_number block = current_block (blockchain n) + 1;
  fo_time : b_timestamp block <= u64_max ∧
    ∀ latest, blocks (blockchain n) !! current_block_hash (blockchain n) = Some latest →
      b_timestamp latest < b_timestamp block;
  fo_fresh : blocks (blockchain n) !! b_hash block = None;
  fo_virtual v : virtual_block = Some v →
    b_l1_batch_number v = Some (current_batch (blockchain n) + 1) ∧
    b_number v = current_block (blockchain n) + 2 ∧
    b_timestamp block < b_timestamp v <= u64_max ∧
    blocks (blockchain n) !! b_hash v = None ∧ b_hash v ≠ b_hash block;
}.

(** What [apply_batch] leaves, part by part. *)
Definition sealed_chain (chain : BlockchainState) (block : ApiBlock) (virtual_block : option ApiBlock)
    : BlockchainState :=
  match virtual_block with
  | None => append block chain
  | Some v => append v (append block chain)
  end.

Lemma sealed_chain_wf ts ch results fb root (n : Node) block virtual_block :
  follows n block virtual_block →
  let chain1 := chain_apply_batch ts ch results fb root (blockchain n) in
  accepts chain1 block ∧
  (∀ v, virtual_block = Some v → accepts (append block chain1) v) ∧
  chain_wf chain1 ∧ chain_wf (append block chain1) ∧
  chain_wf (sealed_chain chain1 block virtual_block) ∧
  current_block (sealed_chain chain1 block virtual_block) =
    current_block (blockchain n) + (match virtual_block with Some _ => 2 | None => 1 end) ∧
  blocks (sealed_chain chain1 block virtual_block) !! b_hash block = Some block.
Proof.
  intros [Hwf [Hb1 Hb2] Hbatch Hnum [Ht Hl] Hfresh Hv] chain1.
  destruct (chain_apply_batch_wf ts ch results fb root (blockchain n) Hwf Hb2) as [Hwf1 Hcur].
  destruct (chain_latest _ Hwf) as (latest&Hlatest&Hln).
  pose proof (wf_block _ Hwf _ _ Hlatest) as (_&_&Hrange&_).
  assert (Hacc : accepts chain1 block).
  { split_and!; [by rewrite Hbatch, <-Hcur| |done|done].
    change (current_block chain1) with (current_block (blockchain n)).
    rewrite wrapping_add_u32_small by lia. done. }
  destruct (append_wf chain1 block Hwf1 Hacc Hfresh) as [Hwf2 Hc2];
    [change (current_block chain1) with (current_block (blockchain n)); lia|].
  change (current_block chain1) with (current_block (blockchain n)) in Hc2.
  split; [done|]. destruct virtual_block as [v|]; cbn [sealed_chain].
  - destruct (Hv v eq_refl) as (V1&V2&V3&V4&V5).
    assert (Hacc2 : accepts (append block chain1) v).
    { split_and!; [simpl; rewrite V1; by rewrite <-Hcur| |lia|].
      - rewrite Hc2, wrapping_add_u32_small by lia. lia.
      - intros l. simpl. rewrite lookup_insert_eq. intros [= <-]. lia. }
    destruct (append_wf (append block chain1) v Hwf2 Hacc2) as [Hwf3 Hc3].
    { simpl. by rewrite lookup_insert_ne by done. }
    { rewrite Hc2. lia. }
    split_and!; try done; [by intros ? [= <-]|lia|].
    simpl. rewrite lookup_insert_ne by done. by rewrite lookup_insert_eq.
  - split_and!; try done. simpl. by rewrite lookup_insert_eq.
Qed.

Lemma apply_batch_run ts ch block virtual_block results fb modified (n : Node) :
  available (fork_storage n, fork n) → follows n block virtual_block →
  ∃ root s1 st',
    same_view (fork_storage n, fork n) s1 ∧
    st' = foldl (λ st kv, set_value kv.1 kv.2 st)
            (foldl (λ st hc, store_factory_dep hc.1 hc.2 st) s1.1 (results ≫= tr_new_bytecodes)) modified ∧
    apply_batch ts ch block virtual_block results fb modified n =
    Ret tt
      (mkInner
         (sealed_chain (chain_apply_batch ts ch results fb root (blockchain n)) block virtual_block)
         (blockchain_version n) (time n) (fee_input_provider n) (node_filters n) st' (fork n) (config n)
         (system_contracts n) (impersonation n) (rich_accounts n)
         (let prev := archive_state (Storage.state (raw_storage (fork_storage n)))
                        (current_block_hash (blockchain n)) (previous_states n) in
          match virtual_block with
          | None => prev
          | Some _ => archive_state (Storage.state (raw_storage st')) (b_hash block) prev
          end)
         (storage_key_layout n)).
Proof.
  intros Hav Hfo.
  destruct (read_aggregation_root_run modified n Hav) as (root&s1&Hroot&Hs1).
  destruct (sealed_chain_wf ts ch results fb root n block virtual_block Hfo) as (Ha1&Ha2&W1&W2&_).
  eexists root, s1, _. split; [done|]. split; [done|].
  destruct Hs1 as (_&_&Hraw&Hfk). cbn [fst snd] in Hraw, Hfk.
  unfold apply_batch. cbv zeta. rewrite (bind_run _ _ _ _ _ Hroot). cbv beta.
  step_m ltac:(reflexivity). unfold archive_current at 1. step_m ltac:(reflexivity).
  step_m ltac:(unfold on_chain, zoom; rewrite apply_block_accepts; [reflexivity|exact W1|exact Ha1]).
  step_m ltac:(unfold modify_storage;
    rewrite (for_each_modify (λ hc (n : Node), set_storage (store_factory_dep hc.1 hc.2 (fork_storage n), fork n) n));
    rewrite (foldl_set_storage (λ hc, store_factory_dep hc.1 hc.2)); reflexivity).
  step_m ltac:(unfold modify_storage;
    rewrite (for_each_modify (λ kv (n : Node), set_storage (set_value kv.1 kv.2 (fork_storage n), fork n) n));
    rewrite (foldl_set_storage (λ kv, set_value kv.1 kv.2)); reflexivity).
  destruct virtual_block as [v|].
  - unfold archive_current. step_m ltac:(reflexivity). unfold on_chain, zoom. simpl.
    rewrite apply_block_accepts; [|exact W2|by apply Ha2]. simpl. by rewrite Hraw, Hfk.
  - simpl. unfold mret, M_ret. by rewrite Hraw, Hfk.
Qed.

(** ** Sealing a block *)
Lemma notify_all_app es1 es2 s : notify_all (es1 ++ es2) s = (notify_all es1 s ≫= notify_all es2).
Proof. revert s. induction es1 as [|e es1 IH]; intros s; simpl; [done|]. destruct (notify e s); simpl; auto. Qed.

(** A loop whose iterations deliver events to the filters and do nothing
    else delivers all of them, in order. *)
Lemma for_each_notifies {A} (body : A → M Node NodeError unit) (evs : A → list Event) l (n : Node) :
  (∀ x n, x ∈ l → ∃ f, body x n = Ret tt (set_filters f n) ∧ notify_all (evs x) (node_filters n) = Some f) →
  ∃ f, for_each body l n = Ret tt (set_filters f n) ∧ notify_all (l ≫= evs) (node_filters n) = Some f.
Proof.
  revert n. induction l as [|x l IH]; intros n Hb.
  { exists (node_filters n). split; [by destruct n|done]. }
  destruct (Hb x n) as (f1&H1&E1); [left|].
  destruct (IH (set_filters f1 n)) as (f2&H2&E2); [intros; apply Hb; by right|].
  exists f2. cbn [for_each]. rewrite (bind_run _ _ _ _ _ H1), H2. split; [done|].
  change ((x :: l) ≫= evs) with (evs x ++ (l ≫= evs)). rewrite notify_all_app, E1. exact E2.
Qed.

Lemma notify_new_log_total log latest s :
  is_Some (log_block_number log) → is_Some (notify_new_log log latest s).
Proof.
  intros [bn Hbn]. unfold notify_new_log. rewrite bool_decide_eq_true_2; [eauto|].
  intros id o. rewrite lookup_fmap. intros (f&Hf&->)%fmap_Some.
  destruct f as [f|f|f]; simpl; eauto. unfold matches. rewrite Hbn.
  repeat case_match; simpl; eauto.
Qed.

Lemma sum_u256_run {S E} l acc (s : S) :
  0 <= acc → Forall (λ x, 0 <= x) l → acc + foldr Z.add 0 l <= u256_max →
  sum_u256 (E := E) acc l s = Ret (acc + foldr Z.add 0 l) s.
Proof.
  revert acc. induction l as [|x l IH]; intros acc Ha Hl Hs; simpl in *.
  { unfold mret, M_ret. f_equal. lia. }
  apply Forall_cons in Hl as [Hx Hl].
  assert (0 <= foldr Z.add 0 l) by (clear -Hl; induction Hl; simpl; lia).
  unfold checked_add_u256. rewrite (proj2 (Z.leb_le (acc + x) u256_max)) by lia.
  step_m ltac:(reflexivity). rewrite IH by (done || lia). f_equal. lia.
Qed.

(** The events a batch gives the filters. *)
Definition result_events (c0 : BlockContext) (tr : TransactionResult) : list Event :=
  EvPending (rc_transaction_hash (tr_receipt tr)) ::
  ((λ log, EvLog log (bc_miniblock c0)) <$> rc_logs (tr_receipt tr)).

Definition seal_events (c0 : BlockContext) (r : TxBatchExecutionResult) : list Event :=
  (br_tx_results r ≫= result_events c0) ++ ((λ c, EvBlock (bc_hash c)) <$> br_block_ctxs r).

(** The blocks a batch result describes. *)
Definition main_block (r : TxBatchExecutionResult) (c0 : BlockContext) (txs : list TransactionVariant)
    (gas bloom : Z) : ApiBlock :=
  create_block (br_batch_env r) (bc_hash c0) (bc_prev_block_hash c0) (bc_miniblock c0) (bc_timestamp c0)
    txs gas bloom.

Definition virtual_block_of (r : TxBatchExecutionResult) : option ApiBlock :=
  match br_block_ctxs r with
  | [_; c1] => Some (create_block (br_batch_env r) (bc_hash c1) (bc_prev_block_hash c1) (bc_miniblock c1)
                       (bc_timestamp c1) [] 0 0)
  | _ => None
  end.

(** A batch result that a node can seal. *)
Record sealable (n : Node) (r : TxBatchExecutionResult) (c0 : BlockContext) : Prop := {
  sl_ctx : head (br_block_ctxs r) = Some c0;
  sl_follows : follows n (main_block r c0 [] 0 0) (virtual_block_of r);
  sl_available : available (fork_storage n, fork n);
  sl_logs tr log : tr ∈ br_tx_results r → log ∈ rc_logs (tr_receipt tr) → is_Some (log_block_number log);
  sl_v tr v : tr ∈ br_tx_results r → at_v (api_transaction_of_l2 (info_tx (tr_info tr))) = Some v →
    v + 35 + wrapping_mul_u64 (storage_chain_id (fork_storage n)) 2 <= u64_max;
  sl_gas : Forall (λ tr, 0 <= dc_gas_used (tr_debug tr)) (br_tx_results r) ∧
    foldr Z.add 0 ((λ tr, dc_gas_used (tr_debug tr)) <$> br_tx_results r) <= u256_max;
  sl_hashes : NoDup ((λ tr, rc_transaction_hash (tr_receipt tr)) <$> br_tx_results r);
}.

Lemma follows_main n r c0 txs gas bloom v :
  follows n (main_block r c0 [] 0 0) v → follows n (main_block r c0 txs gas bloom) v.
Proof. intros [H1 H2 H3 H4 H5 H6 H7]. by split. Qed.

Lemma block_transactions_run n0 batch chain_id c0 l (n : Node) :
  (∀ tr v, tr ∈ l → at_v (api_transaction_of_l2 (info_tx (tr_info tr))) = Some v →
     v + 35 + wrapping_mul_u64 chain_id 2 <= u64_max) →
  ∃ txs, map_m (λ ir : nat * TransactionResult, block_transaction batch chain_id c0 ir.1 ir.2)
           (imap (λ i x, (n0 + i, x)%nat) l) n = Ret txs n ∧ length txs = length l.
Proof.
  revert n0. induction l as [|tr l IH]; intros n0 Hv; [by exists []|].
  destruct (IH (S n0)) as (txs&Htxs&Hlen); [intros ???; apply Hv; by right|].
  assert (Hb : ∃ tv, block_transaction batch chain_id c0 (n0 + 0) tr n = Ret tv n).
  { unfold block_transaction, mbind, M_bind.
    destruct (common_data (info_tx (tr_info tr))); simpl; try (eexists; reflexivity).
    case_bool_decide; [|eexists; reflexivity].
    destruct (at_v _) as [v|] eqn:Hav; [|eexists; reflexivity].
    rewrite (proj2 (Z.leb_le _ u64_max)); [eexists; reflexivity|]. apply (Hv tr v); [left|done]. }
  destruct Hb as [tv Htv]. exists (tv :: txs). split; [|simpl; by rewrite Hlen].
  cbn [imap map_m fst snd]. rewrite (bind_run _ _ _ _ _ Htv).
  replace (imap ((λ i x, (n0 + i, x)%nat) ∘ S) l) with (imap (λ i x, (S n0 + i, x)%nat) l).
  - by rewrite (bind_run _ _ _ _ _ Htxs).
  - apply imap_ext. intros i x _. simpl. f_equal. lia.
Qed.

(** The filters hear of every result of a batch. *)
Lemma notify_results_run (c0 : BlockContext) (results : list TransactionResult) (n : Node) :
  (∀ tr log, tr ∈ results → log ∈ rc_logs (tr_receipt tr) → is_Some (log_block_number log)) →
  ∃ f, for_each (E := NodeError) (λ tr,
      modify (λ n : Node, set_filters
        (notify_new_pending_transaction (rc_transaction_hash (tr_receipt tr)) (node_filters n)) n);;
      for_each (λ log,
        f ← gets (λ n : Node, notify_new_log log (bc_miniblock c0) (node_filters n));
        f ← expect "called `Option::unwrap()` on a `None` value" f;
        modify (set_filters f)) (rc_logs (tr_receipt tr))) results n = Ret tt (set_filters f n) ∧
    notify_all (results ≫= result_events c0) (node_filters n) = Some f.
Proof.
  intros Hlogs. apply for_each_notifies. intros tr n1 Htr.
  edestruct (for_each_notifies (λ log,
    f ← gets (λ n : Node, notify_new_log log (bc_miniblock c0) (node_filters n));
    f ← expect "called `Option::unwrap()` on a `None` value" f;
    modify (set_filters f)) (λ log, [EvLog log (bc_miniblock c0)]) (rc_logs (tr_receipt tr)))
    as (f&Hf&E).
  { intros log n2 Hlog. destruct (notify_new_log_total log (bc_miniblock c0) (node_filters n2)) as [f Hf];
      [by eapply Hlogs|].
    exists f. cbn [notify_all notify]. unfold gets, mbind, M_bind. by rewrite Hf. }
  eexists; split; [step_m ltac:(reflexivity); exact Hf|].
  unfold result_events. cbn [notify_all notify]. simpl. rewrite <-E. f_equal.
Qed.

(** The run of [seal_block], up to the transactions of the block. *)
Lemma seal_block_run (n : Node) (r : TxBatchExecutionResult) (c0 : BlockContext) :
  sealable n r c0 →
  ∃ n' f txs root s1 st' gas,
    seal_block r n = Ret (as_u32 (bc_miniblock c0)) n' ∧
    notify_all (seal_events c0 r) (node_filters n) = Some f ∧
    length txs = length (br_tx_results r) ∧
    same_view (fork_storage n, fork n) s1 ∧
    st' = foldl (λ st kv, set_value kv.1 kv.2 st)
            (foldl (λ st hc, store_factory_dep hc.1 hc.2 st) s1.1 (br_tx_results r ≫= tr_new_bytecodes))
            (br_modified_storage_keys r) ∧
    let block := main_block r c0 txs gas (build_bloom (bloom_inputs (br_tx_results r))) in
    n' = mkInner
      (sealed_chain
         (chain_apply_batch (be_timestamp (br_batch_env r)) (br_base_system_contracts_hashes r)
            (br_tx_results r) (br_finished_l1_batch r) root (blockchain n)) block (virtual_block_of r))
      (blockchain_version n) (time n) (fee_input_provider n) f st' (fork n) (config n)
      (system_contracts n) (impersonation n) (rich_accounts n)
      (let prev := archive_state (Storage.state (raw_storage (fork_storage n)))
                     (current_block_hash (blockchain n)) (previous_states n) in
       match virtual_block_of r with
       | None => prev
       | Some _ => archive_state (Storage.state (raw_storage st')) (b_hash block) prev
       end)
      (storage_key_layout n).
Proof.
  intros [Hctx Hfo Hav Hlogs Hv [Hg1 Hg2] Hnd].
  destruct (notify_results_run c0 (br_tx_results r) n Hlogs) as (f1&Hf1&E1).
  destruct (block_transactions_run 0 (be_number (br_batch_env r)) (storage_chain_id (fork_storage n)) c0
    (br_tx_results r) (set_filters f1 n)) as (txs&Htxs&Hlen); [by apply Hv|].
  set (gas := 0 + foldr Z.add 0 ((λ tr, dc_gas_used (tr_debug tr)) <$> br_tx_results r)).
  set (block := main_block r c0 txs gas (build_bloom (bloom_inputs (br_tx_results r)))).
  destruct (apply_batch_run (be_timestamp (br_batch_env r)) (br_base_system_contracts_hashes r) block
    (virtual_block_of r) (br_tx_results r) (br_finished_l1_batch r) (br_modified_storage_keys r)
    (set_filters f1 n)) as (root&s1&st'&Hs1&Hst&Hab); [done| |].
  { destruct (follows_main n r c0 txs gas (build_bloom (bloom_inputs (br_tx_results r))) _ Hfo). by split. }
  destruct (for_each_notifies (λ ctx, modify (λ n : Node,
    set_filters (notify_new_block (bc_hash ctx) (node_filters n)) n)) (λ c, [EvBlock (bc_hash c)])
    (br_block_ctxs r) (set_filters f1 n)) as (f2&Hf2&E2).
  { intros c n1 _. by eexists. }
  eexists _, f2, txs, root, s1, st', gas. split_and!; [|..|exact Hs1|exact Hst|reflexivity].
  - unfold seal_block. cbv zeta. rewrite <-head_lookup, Hctx.
    step_m ltac:(reflexivity). step_m ltac:(exact Hf1). step_m ltac:(reflexivity).
    step_m ltac:(exact Htxs). step_m ltac:(apply sum_u256_run; [lia|by apply Forall_fmap|exact Hg2]).
    step_m ltac:(exact Hab).
    rewrite (for_each_modify (λ ctx (n : Node), set_filters (notify_new_block (bc_hash ctx) (node_filters n)) n)) in Hf2.
    step_m ltac:(rewrite (for_each_modify (λ ctx (n : Node),
      set_filters (notify_new_block (bc_hash ctx) (node_filters n)) n)); reflexivity).
    unfold mret, M_ret. f_equal. injection Hf2 as Hf2.
    assert (Hfold : ∀ l (m : Node) g, foldl (λ (n : Node) ctx, set_filters (notify_new_block (bc_hash ctx) (node_filters n)) n)
        (set_filters g m) l = set_filters (foldl (λ g ctx, notify_new_block (bc_hash ctx) g) g l) m).
    { induction l as [|c l IH]; intros m g; [done|]. simpl. apply (IH (set_filters g m)). }
    rewrite Hfold in Hf2. apply (f_equal node_filters) in Hf2. simpl in Hf2.
    match goal with |- foldl ?F ?m ?l = _ => change m with (set_filters f1 m) end.
    rewrite Hfold, Hf2. done.
  - unfold seal_events. rewrite notify_all_app, E1. simpl. rewrite <-E2. simpl. f_equal.
  - done.
Qed.

(** The state archived for the head survives the archiving of the block that
    follows it. *)
Lemma archived_head st h l (vb : option ApiBlock) st2 h2 :
  archive_wf l → indexmap_get h l = None → h ≠ h2 →
  indexmap_get h (match vb with
                  | None => archive_state st h l
                  | Some _ => archive_state st2 h2 (archive_state st h l)
                  end) = Some st.
Proof.
  intros Hwf Hnew Hne.
  assert (H1 : indexmap_get h (archive_state st h l) = Some st)
    by (unfold archive_state; by rewrite indexmap_get_insert, decide_True).
  destruct vb; [|done]. unfold archive_state at 1. rewrite indexmap_get_insert, decide_False by done.
  destruct (Z.ltb_spec MAX_PREVIOUS_STATES (Z.of_nat (length (archive_state st h l)))) as [Hlt|]; [|done].
  unfold archive_state in *. set (l0 := if _ <? _ then tail l else l) in *.
  assert (Hl0 : indexmap_get h l0 = None).
  { subst l0. destruct (_ <? _); [|done]. destruct (indexmap_get h (tail l)) eqn:Ht; [|done].
    apply indexmap_get_tail in Ht; [congruence|apply Hwf]. }
  destruct l0 as [|[k0 v0] l0]; [simpl in Hlt; unfold MAX_PREVIOUS_STATES in Hlt; lia|].
  simpl in *. destruct (decide (k0 = h)) as [|Hk0]; [done|]. simpl in *.
  by rewrite decide_False in H1.
Qed.

(** What sealing [r] on [n] leaves. *)
Definition sealed (n n' : Node) (r : TxBatchExecutionResult) (c0 : BlockContext) (block : ApiBlock) : Prop :=
  chain_wf (blockchain n') ∧
  current_block (blockchain n') =
    current_block (blockchain n) + (match virtual_block_of r with Some _ => 2 | None => 1 end) ∧
  current_batch (blockchain n') = current_batch (blockchain n) + 1 ∧
  (get_block_by_number (E := NodeError) (bc_miniblock c0) (blockchain n') = Ret (Some block) (blockchain n') ∧
   b_hash block = bc_hash c0 ∧ b_parent_hash block = bc_prev_block_hash c0 ∧
   b_timestamp block = bc_timestamp c0 ∧
   length (b_transactions block) = length (br_tx_results r)) ∧
  blocks (blockchain n') !! current_block_hash (blockchain n') =
    Some (default block (virtual_block_of r)) ∧
  (∀ tr, tr ∈ br_tx_results r →
     tx_results (blockchain n') !! rc_transaction_hash (tr_receipt tr) = Some tr) ∧
  (∀ h, h ∉ ((λ tr, rc_transaction_hash (tr_receipt tr)) <$> br_tx_results r) →
     tx_results (blockchain n') !! h = tx_results (blockchain n) !! h) ∧
  (∀ k, view (fork_storage n', fork n') k =
     match modified_get (br_modified_storage_keys r) k with
     | Some v => Ok v
     | None => view (fork_storage n, fork n) k
     end) ∧
  notify_all (seal_events c0 r) (node_filters n) = Some (node_filters n') ∧
  time n' = time n ∧ fork n' = fork n ∧ impersonation n' = impersonation n.

Lemma seal_block_sealed (n : Node) (r : TxBatchExecutionResult) (c0 : BlockContext) :
  sealable n r c0 → ∃ n' block, seal_block r n = Ret (bc_miniblock c0) n' ∧ sealed n n' r c0 block.
Proof.
  intros Hs. destruct (seal_block_run n r c0 Hs) as (n'&f&txs&root&s1&st'&gas&Hrun&Hf&Hlen&Hs1&Hst&Hn').
  set (block := main_block r c0 txs gas (build_bloom (bloom_inputs (br_tx_results r)))) in *.
  pose proof (follows_main n r c0 txs gas (build_bloom (bloom_inputs (br_tx_results r))) _ (sl_follows _ _ _ Hs)) as Hfo.
  destruct (sealed_chain_wf (be_timestamp (br_batch_env r)) (br_base_system_contracts_hashes r)
    (br_tx_results r) (br_finished_l1_batch r) root n block _ Hfo) as (_&_&W1&_&W&Hcur&Hblk).
  destruct (chain_apply_batch_results (be_timestamp (br_batch_env r)) (br_base_system_contracts_hashes r)
    (br_tx_results r) (br_finished_l1_batch r) root (blockchain n) (sl_hashes _ _ _ Hs)) as [Hin Hout].
  destruct (chain_apply_batch_wf (be_timestamp (br_batch_env r)) (br_base_system_contracts_hashes r)
    (br_tx_results r) (br_finished_l1_batch r) root (blockchain n) (fo_wf _ _ _ Hfo)
    (proj2 (fo_bounds _ _ _ Hfo))) as [_ Hbatch].
  assert (Hres : ∀ c b v, tx_results (sealed_chain c b v) = tx_results c) by (by intros ?? []).
  assert (Hcb : ∀ c b v, current_batch (sealed_chain c b v) = current_batch c) by (by intros ?? []).
  exists n', block. cbv zeta in Hn'. fold block in Hn'. subst n'. unfold sealed.
  cbn [blockchain fork_storage fork node_filters time impersonation]. split_and!; try done.
  - rewrite Hrun. f_equal. apply as_u32_small. unfold is_u32.
    pose proof (fo_number _ _ _ Hfo) as Hnum. simpl in Hnum.
    pose proof (fo_bounds _ _ _ Hfo). destruct (chain_latest _ (fo_wf _ _ _ Hfo)) as (l&Hl&Hln).
    pose proof (wf_block _ (fo_wf _ _ _ Hfo) _ _ Hl) as (_&_&?&_). lia.
  - by rewrite Hcb.
  - exact (lookup_by_number _ (b_hash block) block W Hblk).
  - destruct (virtual_block_of r); simpl; by rewrite lookup_insert_eq.
  - intros tr Htr. rewrite Hres. by apply Hin.
  - intros h Hh. rewrite Hres. by apply Hout.
  - intros k. rewrite Hst, foldl_set_value_view.
    destruct (modified_get _ k); [done|].
    destruct (foldl_store_view (br_tx_results r ≫= tr_new_bytecodes) s1.1 (fork n) k) as [-> _].
    destruct Hs1 as (Hview&_&_&Hfk). simpl in Hfk. rewrite <-Hfk at 1. destruct s1; apply Hview.
Qed.

(** C2: sealing a block.  A node seals every batch result whose block
    contexts follow its chain: it returns the number of the new block and in
    the new state the chain is well formed and one block longer (two with the
    virtual block) and one batch further; the block is found by its number,
    with its hash, parent, timestamp and one transaction per result; it, or
    the virtual block, is the latest; every result is found by its hash and no other is lost; storage reads as the
    batch wrote it and as before elsewhere; the filters got the pending
    transactions and logs and then the blocks, in order; clock, fork and
    impersonation are untouched. *)
Theorem seal_block_spec (n : Node) (r : TxBatchExecutionResult) (c0 : BlockContext) :
  sealable n r c0 →
  ∃ n' block, seal_block r n = Ret (bc_miniblock c0) n' ∧
    chain_wf (blockchain n') ∧
    current_block (blockchain n') =
      current_block (blockchain n) + (match virtual_block_of r with Some _ => 2 | None => 1 end) ∧
    current_batch (blockchain n') = current_batch (blockchain n) + 1 ∧
    (get_block_by_number (E := NodeError) (bc_miniblock c0) (blockchain n') = Ret (Some block) (blockchain n') ∧
     b_hash block = bc_hash c0 ∧ b_parent_hash block = bc_prev_block_hash c0 ∧
     b_timestamp block = bc_timestamp c0 ∧
     length (b_transactions block) = length (br_tx_results r)) ∧
    blocks (blockchain n') !! current_block_hash (blockchain n') =
      Some (default block (virtual_block_of r)) ∧
    (∀ tr, tr ∈ br_tx_results r →
       tx_results (blockchain n') !! rc_transaction_hash (tr_receipt tr) = Some tr) ∧
    (∀ h, h ∉ ((λ tr, rc_transaction_hash (tr_receipt tr)) <$> br_tx_results r) →
       tx_results (blockchain n') !! h = tx_results (blockchain n) !! h) ∧
    (∀ k, view (fork_storage n', fork n') k =
       match modified_get (br_modified_storage_keys r) k with
       | Some v => Ok v
       | None => view (fork_storage n, fork n) k
       end) ∧
    notify_all (seal_events c0 r) (node_filters n) = Some (node_filters n') ∧
    time n' = time n ∧ fork n' = fork n ∧ impersonation n' = impersonation n.
Proof. intros Hs. exact (seal_block_sealed n r c0 Hs). Qed.


(** ** Snapshots *)

(** Restoring a snapshot.  Whatever happened since it was taken, the
    restored node gives the same snapshot again, and its storage reads as it
    did if the fork is still the same; restoring at once changes nothing.
    Neither the clock nor the stored batches nor the fork go back. *)
Theorem snapshot_restore (n n' : Node) :
  let m := restore_snapshot (snapshot n) n' in
  snapshot m = snapshot n ∧
  (fork_client (fork n') = fork_client (fork n) →
   ∀ k, view (fork_storage m, fork m) k = view (fork_storage n, fork n) k) ∧
  restore_snapshot (snapshot n) n = n ∧
  time m = time n' ∧ batches (blockchain m) = batches (blockchain n') ∧ fork m = fork n'.
Proof.
  intros m. split_and!; try done.
  - intros Hfc k. unfold view; simpl. by rewrite Hfc.
  - by destruct n as [[] ? ? ? ? [] ? ? ? ? ? ? ?].
Qed.

(** ** Dump and load *)
Lemma insert_blocks_inv bs s h b :
  blocks (insert_blocks bs s) !! h = Some b → (b ∈ bs ∧ b_hash b = h) ∨ blocks s !! h = Some b.
Proof.
  revert s. induction bs as [|b' bs IH]; intros s Hb; [by right|].
  apply (IH (insert_blocks [b'] s)) in Hb as [[Hb Hh]|Hb]; [left; split; [by right|done]|].
  simpl in Hb. apply lookup_insert_Some in Hb as [[<- <-]|[_ ?]]; [left; split; [left|done]|by right].
Qed.

Lemma max_by_number_None l : max_by_number l = None → l = [].
Proof. destruct l as [|b l]; simpl; [done|]. destruct (max_by_number l); [by destruct (_ <? _)|done]. Qed.

Lemma dumped_hashes (c : BlockchainState) :
  chain_wf c → NoDup (b_hash <$> (map_to_list (blocks c)).*2).
Proof.
  intros Hwf. replace (b_hash <$> (map_to_list (blocks c)).*2) with ((map_to_list (blocks c)).*1);
    [apply NoDup_fst_map_to_list|].
  rewrite <-list_fmap_compose. apply list_fmap_ext. intros i [h b] Hi. simpl.
  apply list_elem_of_lookup_2, elem_of_map_to_list in Hi. by destruct (wf_block _ Hwf _ _ Hi).
Qed.

(** The blocks of a dump. *)
Definition dumped_blocks (c : BlockchainState) : list ApiBlock := (map_to_list (blocks c)).*2.

Lemma dumped_elem (c : BlockchainState) b : b ∈ dumped_blocks c ↔ ∃ h, blocks c !! h = Some b.
Proof.
  unfold dumped_blocks. rewrite list_elem_of_fmap. split.
  - intros ([h b']&->&Hin). exists h. by apply elem_of_map_to_list.
  - intros [h Hb]. exists (h, b). split; [done|]. by apply elem_of_map_to_list.
Qed.

Lemma dumped_inserted (c c0 : BlockchainState) h b :
  chain_wf c → blocks c !! h = Some b → blocks (insert_blocks (dumped_blocks c) c0) !! h = Some b.
Proof.
  intros Hwf Hb. destruct (wf_block _ Hwf _ _ Hb) as (<-&_).
  apply insert_blocks_lookup; [by apply dumped_hashes|]. apply dumped_elem. eauto.
Qed.

(** The highest block after the insertion is the head of the dumped chain. *)
Lemma dumped_max (c c0 : BlockchainState) latest :
  chain_wf c → blocks c !! current_block_hash c = Some latest →
  (∀ h b, blocks c0 !! h = Some b → b_number b < current_block c ∨ blocks c !! h = Some b) →
  max_by_number (dumped_blocks (insert_blocks (dumped_blocks c) c0)) = Some latest.
Proof.
  intros Hwf Hlatest Hc0. set (c1 := insert_blocks (dumped_blocks c) c0).
  assert (Hl1 : latest ∈ dumped_blocks c1) by (apply dumped_elem; eexists; by apply dumped_inserted).
  assert (Hln : b_number latest = current_block c).
  { destruct (chain_latest _ Hwf) as (l&Hl&<-). congruence. }
  destruct (max_by_number _) as [b|] eqn:Hm.
  2: { apply max_by_number_None in Hm. rewrite Hm in Hl1. by apply elem_of_nil in Hl1. }
  apply max_by_number_spec in Hm as [Hb Hle]. specialize (Hle _ Hl1).
  apply dumped_elem in Hb as [h Hb].
  assert (Hn : ∃ h', blocks c !! h' = Some b).
  { apply insert_blocks_inv in Hb as [[Hb _]|Hb]; [by apply dumped_elem|].
    destruct (Hc0 _ _ Hb); [lia|eauto]. }
  destruct Hn as [h' Hb']. pose proof (wf_block _ Hwf _ _ Hb') as (_&Hh'&Hr'&_).
  assert (b_number b = current_block c) as Heq by lia.
  rewrite Heq, (wf_current _ Hwf) in Hh'. congruence.
Qed.

Lemma load_dumped_blocks (c c0 : BlockchainState) t latest bn :
  chain_wf c → blocks c !! current_block_hash c = Some latest →
  (∀ h b, blocks c0 !! h = Some b → b_number b < current_block c ∨ blocks c !! h = Some b) →
  b_l1_batch_number latest = Some bn → bn <= u32_max →
  let c1 := insert_blocks (dumped_blocks c) c0 in
  load_blocks (E := NodeError) (dumped_blocks c) (c0, t) =
    Ret tt (mkChain (protocol_version c1) bn (as_u32 (b_number latest)) (b_hash latest) (tx_results c1)
              (blocks c1) (hashes c1) (batches c1), reset_to (b_timestamp latest) t).
Proof.
  intros Hwf Hlatest Hc0 Hbn Hbnu c1. pose proof (wf_block _ Hwf _ _ Hlatest) as (_&_&_&Hts).
  unfold load_blocks, to_u32, to_u64. step_m ltac:(reflexivity). step_m ltac:(reflexivity).
  pose proof (dumped_max c c0 latest Hwf Hlatest Hc0 : max_by_number (map_to_list (blocks c1)).*2 = _) as Hmax.
  step_m ltac:(etrans; [exact (f_equal (λ o, expect _ o (c1, t)) Hmax)|reflexivity]).
  cbv zeta. step_m ltac:(rewrite Hbn, (proj2 (Z.leb_le bn u32_max)) by done; reflexivity).
  step_m ltac:(rewrite (proj2 (Z.leb_le _ u64_max)) by lia; reflexivity). done.
Qed.

Lemma load_dumped_results (c c1 : BlockchainState) h r :
  (∀ h r, tx_results c !! h = Some r → rc_transaction_hash (tr_receipt r) = h) →
  tx_results c !! h = Some r →
  tx_results (load_transactions (map_to_list (tx_results c)).*2 c1) !! h = Some r.
Proof.
  intros Hres Hr. apply lookup_extend_in.
  - rewrite <-list_fmap_compose. replace (_ <$> _) with ((map_to_list (tx_results c)).*1);
      [apply NoDup_fst_map_to_list|].
    rewrite <-list_fmap_compose. apply list_fmap_ext. intros i [h' r'] Hi. simpl.
    apply list_elem_of_lookup_2, elem_of_map_to_list in Hi. symmetry. by apply Hres.
  - apply list_elem_of_fmap. exists r. rewrite (Hres _ _ Hr). split; [done|].
    apply list_elem_of_fmap. exists (h, r). split; [done|]. by apply elem_of_map_to_list.
Qed.

(** C10: loading the dump of a node into a node with at most one block.  It
    succeeds, and then the chain has the same head, every block of the dumped
    node and every result under its hash, the clock is at the head's
    timestamp with no pending one, and storage reads as the dumped node's on
    every slot it held locally. *)
Theorem dump_load (n n0 : Node) (preserve : bool) :
  chain_wf (blockchain n) →
  (size (blocks (blockchain n0)) <= 1)%nat →
  (∀ h b, blocks (blockchain n0) !! h = Some b →
     b_number b < current_block (blockchain n) ∨ blocks (blockchain n) !! h = Some b) →
  (∀ h r, tx_results (blockchain n) !! h = Some r → rc_transaction_hash (tr_receipt r) = h) →
  (∀ h b, blocks (blockchain n) !! h = Some b → ∃ bn, b_l1_batch_number b = Some bn ∧ bn <= u32_max) →
  ∃ n1 latest, load_state (dump_state preserve n) n0 = Ret true n1 ∧
    blocks (blockchain n) !! current_block_hash (blockchain n) = Some latest ∧
    current_block (blockchain n1) = current_block (blockchain n) ∧
    current_block_hash (blockchain n1) = current_block_hash (blockchain n) ∧
    (∀ h b, blocks (blockchain n) !! h = Some b → blocks (blockchain n1) !! h = Some b) ∧
    (∀ h r, tx_results (blockchain n) !! h = Some r → tx_results (blockchain n1) !! h = Some r) ∧
    time n1 = mkTime (b_timestamp latest) None (interval_opt (time n0)) ∧
    (∀ k v, Storage.state (raw_storage (fork_storage n)) !! k = Some v →
       view (fork_storage n1, fork n1) k = Ok v).
Proof.
  intros Hwf Hsize Hn0 Hres Hbatch. destruct (chain_latest _ Hwf) as (latest&Hlatest&Hln).
  pose proof (wf_block _ Hwf _ _ Hlatest) as (Hlh&_&Hrange&_). pose proof (wf_u32 _ Hwf) as [Hu _].
  destruct (Hbatch _ _ Hlatest) as (bn&Hbn&Hbnu).
  pose proof (load_dumped_blocks _ _ (time n0) _ _ Hwf Hlatest Hn0 Hbn Hbnu) as Hload.
  assert (Hne : bool_decide (dumped_blocks (blockchain n) = []) = false).
  { apply bool_decide_eq_false_2. intros Hnil.
    assert (Hl : latest ∈ dumped_blocks (blockchain n)) by (apply dumped_elem; eauto).
    rewrite Hnil in Hl. by apply elem_of_nil in Hl. }
  eexists _, latest. split.
  { unfold load_state, dump_state. step_m ltac:(reflexivity).
    step_m ltac:(destruct (Nat.ltb_spec 1 (size (blocks (blockchain n0)))); [lia|reflexivity]).
    step_m ltac:(reflexivity).
    step_m ltac:(cbn [sv_blocks]; fold (dumped_blocks (blockchain n)); rewrite Hne; reflexivity).
    step_m ltac:(cbn [sv_blocks]; fold (dumped_blocks (blockchain n)); unfold zoom; rewrite Hload; reflexivity).
    step_m ltac:(reflexivity). step_m ltac:(reflexivity). step_m ltac:(reflexivity). reflexivity. }
  cbn [fst snd blockchain time fork_storage fork set_blockchain set_time set_storage set_previous_states
    sv_transactions sv_fork_storage].
  split_and!; try done.
  - simpl. rewrite as_u32_small by (unfold is_u32; lia). lia.
  - intros h b Hb. by apply (dumped_inserted (blockchain n) (blockchain n0)).
  - intros h r Hr. by apply load_dumped_results.
  - intros k v Hk. unfold view; cbn [fst snd]. rewrite load_lookup, dump_lookup, Hk. done.
Qed.

(** ** Reset *)
Lemma set_rich_accounts_run balance l (n : Node) :
  storage_key_layout n = ZkEra →
  ∃ st, for_each (λ address, set_rich_account address balance) l n =
      Ret tt (set_rich_accounts (list_to_set l ∪ rich_accounts n) (set_storage (st, fork n) n)) ∧
    (∀ a, a ∈ l → Storage.state (raw_storage st) !! storage_key_for_eth_balance a = Some balance) ∧
    (∀ k, (∀ a, a ∈ l → k ≠ storage_key_for_eth_balance a) →
       Storage.state (raw_storage st) !! k = Storage.state (raw_storage (fork_storage n)) !! k) ∧
    value_read_cache st = value_read_cache (fork_storage n) ∧
    storage_chain_id st = storage_chain_id (fork_storage n).
Proof.
  revert n. induction l as [|a l IH]; intros n Hlay.
  { exists (fork_storage n). split_and!; try done; [|by intros ? ?%elem_of_nil].
    destruct n. simpl. unfold mret, M_ret, set_rich_accounts, set_storage. simpl. do 2 f_equal. set_solver. }
  set (n1 := set_rich_accounts ({[a]} ∪ rich_accounts n)
     (set_storage (set_value (storage_key_for_eth_balance a) balance (fork_storage n), fork n) n)).
  destruct (IH n1 Hlay) as (st&Hrun&Hin&Hout&Hcache&Hid). exists st. split_and!; try done.
  - cbn [for_each]. step_m ltac:(unfold set_rich_account; step_m ltac:(reflexivity); rewrite Hlay;
      step_m ltac:(reflexivity); step_m ltac:(reflexivity); reflexivity).
    change (for_each (λ address, set_rich_account address balance) l n1 =
      Ret tt (set_rich_accounts (list_to_set (a :: l) ∪ rich_accounts n) (set_storage (st, fork n) n))).
    rewrite Hrun. unfold set_rich_accounts, n1. simpl. do 2 f_equal. set_solver.
  - intros a' [->|Ha']%elem_of_cons; [|by apply Hin].
    destruct (decide (Exists (λ x, storage_key_for_eth_balance a = storage_key_for_eth_balance x) l)) as [He|Hne].
    + apply Exists_exists in He as (x&Hx&->). by apply Hin.
    + rewrite Hout; [simpl; by rewrite lookup_insert_eq|]. intros x Hx Heq.
      apply Hne, Exists_exists. eauto.
  - intros k Hk. rewrite Hout by (intros x Hx; apply Hk; by right). simpl.
    rewrite lookup_insert_ne; [done|]. apply not_eq_sym, Hk. left.
Qed.

(** C31: resetting a node.  The chain restarts from the fork or from genesis,
    the clock from the fork's timestamp or from 1000, the storage from the
    system contracts with the genesis balance on every rich account, and
    filters and archive are empty; the block timestamp interval, the
    impersonated accounts, the fee provider, the cache of the fork and the
    protocol version of the node survive, the last even when the fork has
    another one. *)
Theorem reset_spec (n : Node) (client : option (ForkClient (Client := Client))) :
  storage_key_layout n = ZkEra →
  let fd := client_details <$> client in
  ∃ n', reset client n = Ret tt n' ∧
    blockchain n' = Blockchain_new (blockchain_version n) fd (cfg_genesis (config n))
                      (cfg_genesis_timestamp (config n)) ∧
    time n' = mkTime (default NON_FORK_FIRST_BLOCK_TIMESTAMP (fd_block_timestamp <$> fd)) None
                (interval_opt (time n)) ∧
    node_filters n' = empty_filters ∧ previous_states n' = [] ∧
    rich_accounts n' = list_to_set (rich_addresses (config n)) ∧
    (∀ a, a ∈ rich_addresses (config n) →
       view (fork_storage n', fork n') (storage_key_for_eth_balance a) = Ok (cfg_genesis_balance (config n))) ∧
    value_read_cache (fork_storage n') = ∅ ∧
    fork_client (fork n') = client ∧ fork_cache (fork n') = fork_cache (fork n) ∧
    fee_input_provider n' = fee_input_provider n ∧ impersonation n' = impersonation n ∧
    blockchain_version n' = blockchain_version n.
Proof.
  intros Hlay fd.
  set (fk := reset_fork_client client (fork n)).
  set (n1 := mkInner (Blockchain_new (blockchain_version n) fd (cfg_genesis (config n))
                        (cfg_genesis_timestamp (config n))) (blockchain_version n)
    (set_current_timestamp_unchecked
       (default NON_FORK_FIRST_BLOCK_TIMESTAMP (fd_block_timestamp <$> fd)) (time n)).2
    (fee_input_provider n) empty_filters
    (ForkStorage_new fk (cfg_deployed_contracts (config n) (blockchain_version n)) (cfg_chain_id (config n)))
    fk (config n) (system_contracts n) (impersonation n) ∅ [] (storage_key_layout n)).
  destruct (set_rich_accounts_run (cfg_genesis_balance (config n)) (rich_addresses (config n)) n1 Hlay)
    as (st&Hrun&Hin&_&Hcache&_).
  exists (set_rich_accounts (list_to_set (rich_addresses (config n)) ∪ rich_accounts n1)
            (set_storage (st, fork n1) n1)).
  split; [exact Hrun|]. split_and!; try reflexivity.
  - apply union_empty_r_L.
  - intros a Ha. unfold view. cbn [fst snd fork_storage set_rich_accounts set_storage]. by rewrite Hin.
  - exact Hcache.
Qed.
End Sealing.

#[export] Hint Resolve node_quiet_ret node_quiet_throw node_quiet_panic node_quiet_deadlock
  node_quiet_gets node_quiet_expect node_quiet_on_storage node_quiet_layout_nonce
  node_quiet_layout_balance node_quiet_create_env : node.

(** Takes a [node_quiet] goal apart along its binds and cases. *)
Ltac quiet_steps :=
  cbv zeta;
  repeat first
    [ progress cbv zeta
    | solve [auto with node]
    | match goal with |- node_quiet (_ ≫= _) => apply node_quiet_bind; [|intros ?] end
    | match goal with |- node_quiet (match ?x with _ => _ end) => destruct x end ].

(** ** A concrete node *)
Module SampleNode.
#[export] Existing Instances Sample.api Sample.fee SampleKeys.keys SampleChain.chain_api SampleRemote.remote.

#[export] Instance block_api : BlockApi := {|
  api_transaction_of_l2 tx :=
    mkApiTransaction (tx_hash tx) 0 None None None None None 0 None 0 [] None None None None None
      (Some 2) None None 260 None None;
  build_bloom l := foldr Z.add 0 l;
  L2_MESSAGE_ROOT_ADDRESS := 65541;
  AGG_TREE_HEIGHT_KEY := 3;
  AGG_TREE_NODES_KEY := 5;
  BATCH_COMPUTATIONAL_GAS_LIMIT := 1000000;
|}.

Definition contracts : BaseSystemContracts := mkSystemContracts ([], [], None) default_contract_hashes.
Definition system : SystemContracts :=
  mkContracts 28 contracts contracts contracts contracts contracts false false.
Definition cfg : NodeConfig :=
  mkConfig None None None (λ _, [mkDeployed 32770 [1; 2]]) [11] [12] 1000 CacheNone 1000 false.

Definition node : InMemoryNodeInner (Client := unit) :=
  init None default_provider empty_filters cfg default_impersonation system ZkEra empty_disk.

(** A batch with one transaction and its virtual block. *)
Definition result : TxBatchExecutionResult :=
  mkBatchResult [SampleChain.tx_result 41] default_contract_hashes
    (mkL1BatchEnv None 1 1001 (PubdataIndependent (mkPubdataIndependent 0 0 0)) 0 None
       (mkL2BlockEnv 1 1001 77000 1))
    [mkBlockContext 501 1 1 1001 77000; mkBlockContext 502 1 2 1002 501]
    SampleChain.finished [((32779, 0), 7)].
Definition ctx : BlockContext := mkBlockContext 501 1 1 1001 77000.

Lemma node_wf : chain_wf (blockchain node).
Proof. apply (new_chain_wf 28 None None); [vm_compute; split; discriminate|done]. Qed.

Lemma node_available : available (fork_storage node, fork node).
Proof.
  split.
  - intros k. unfold view. cbn [fst snd]. change (fork_client (fork node)) with (@None (ForkClient (Client := unit))).
    change (value_read_cache (fork_storage node)) with (∅ : gmap StorageKey H256). rewrite lookup_empty.
    destruct (_ !! k); eauto.
  - intros h. unfold code_view. cbn [fst snd].
    change (fork_client (fork node)) with (@None (ForkClient (Client := unit))).
    change (factory_dep_cache (fork_storage node)) with (∅ : gmap H256 (option Bytes)). rewrite lookup_empty.
    destruct (_ !! h); eauto.
Qed.

Lemma node_sealable : sealable node result ctx.
Proof.
  split.
  - reflexivity.
  - split; [exact node_wf|by vm_compute|reflexivity|reflexivity|split|reflexivity|].
    + by vm_compute.
    + intros latest H. vm_compute in H. injection H as <-. reflexivity.
    + intros v [= <-]. by vm_compute.
  - exact node_available.
  - intros tr log ->%list_elem_of_singleton Hlog. by apply elem_of_nil in Hlog.
  - intros tr v ->%list_elem_of_singleton. done.
  - split; [repeat constructor; done|by vm_compute].
  - apply NoDup_singleton.
Qed.

Lemma archive_state_witness :
  indexmap_get 5 (archive_state ∅ 5 [(4, ∅)]) = Some ∅.
Proof.
  destruct (archive_state_spec ∅ 5 [(4, ∅)]) as (_&H&_); [|exact H].
  split; [apply NoDup_singleton|vm_compute; discriminate].
Defined.

Lemma seal_block_witness :
  ∃ n', seal_block result node = Ret 1 n' ∧ current_block (blockchain n') = 2 ∧
    view (fork_storage n', fork n') (32779, 0) = Ok 7.
Proof.
  destruct (seal_block_spec node result ctx node_sealable) as (n'&b&H1&_&H2&_&_&_&_&_&H3&_).
  exists n'. split; [exact H1|]. split; [exact H2|]. exact (eq_trans (H3 (32779, 0)) eq_refl).
Defined.


Lemma dump_load_witness :
  ∃ n1, load_state (dump_state true node) node = Ret true n1 ∧
    current_block (blockchain n1) = current_block (blockchain node).
Proof.
  destruct (dump_load node node true node_wf) as (n1&latest&H1&_&H2&_).
  - vm_compute; reflexivity.
  - intros h b Hb. right; exact Hb.
  - intros h r Hr. discriminate.
  - intros h b Hb. unfold node, init in Hb. cbn -[b_l1_batch_number] in Hb.
    apply lookup_singleton_Some in Hb as [_ <-].
    exists 0. split; [reflexivity|vm_compute; discriminate].
  - exists n1. split; [exact H1|exact H2].
Defined.

Lemma reset_witness :
  ∃ n', reset None node = Ret tt n' ∧ time n' = mkTime 1000 None None ∧
    view (fork_storage n', fork n') (storage_key_for_eth_balance 11) = Ok 1000.
Proof.
  destruct (reset_spec node None eq_refl) as (n'&H1&_&H2&_&_&_&H3&_).
  exists n'. split; [exact H1|]. split; [exact H2|]. apply H3. left.
Defined.
End SampleNode.
