(* ===== verification/VmRunner.v ===== *)
(** * Executing batches

    [crates/core/src/node/batch/factory.rs] and [executor.rs] (the batch
    executor around the VM) and [crates/core/src/node/inner/vm_runner.rs] (the
    run of a batch of transactions).

    The VM itself is not part of the program: a [VmApi] instance gives its
    operations.  It reads the node's storage, so the operations that execute
    code are programs on the storage.  What is printed after a transaction
    is in [Notices.v]; the thread of the batch executor is in [BatchThread.v].
    The progress bar is not modelled. *)
From S2P Require Import Prelude Types Utils Filters Impersonate Time Pool Cache Fork Storage.
From S2P Require Import FeeModel Blockchain Inner.
Local Open Scope Z_scope.

(** [BatchTransactionExecutionResult] *)
Record BatchTxResult := mkBatchTxResult {
  bt_result : VmResult;
  bt_compression_ok : bool;
  bt_call_traces : list Call;
}.

(** The VM with its stack of snapshots; [vm_rollback] is [None] when there is
    no snapshot to go back to, on which the VM panics. *)
Class VmApi (S : Type) := {
  vm : Type;
  (** With the whole local storage when the VM is BoojumOS. *)
  vm_new : L1BatchEnv → SystemEnv → option InMemoryStorage → vm;
  vm_inspect_transaction : vm → Transaction → bool → M S string (BatchTxResult * vm);
  vm_make_snapshot : vm → vm;
  vm_rollback : vm → option vm;
  vm_pop_snapshot : vm → vm;
  vm_start_new_l2_block : vm → L2BlockEnv → vm;
  vm_finish_batch : vm → M S string (FinishedL1Batch * vm);
  vm_bootloader : vm → M S string (VmResult * vm);
  (** [StorageView::modified_storage_keys] of the view the VM wrote to. *)
  vm_modified_storage_keys : vm → list (StorageKey * StorageValue);
  (** [FinishedL1Batch::mock] *)
  FinishedL1Batch_mock : FinishedL1Batch;
}.

(** Functions and constants of [zksync_types] used on VM results. *)
Class VmResultApi := {
  extract_bytecodes_marked_as_known : list VmEvent → list H256;
  ACCOUNT_CODE_STORAGE_ADDRESS : Address;
  CONTRACT_DEPLOYER_ADDRESS : Address;
  h256_to_address : H256 → Address;
}.

Definition set_result (r : ExecutionResult) (v : VmResult) : VmResult :=
  mkVmResult r (vr_storage_logs v) (vr_events v) (vr_user_l2_to_l1_logs v)
    (vr_system_l2_to_l1_logs v) (vr_gas_used v) (vr_computational_gas_used v)
    (vr_pubdata_published v) (vr_gas_refunded v)
    (vr_dynamic_factory_deps v).

(** ** The batch executor ([CommandReceiver])

    Its errors are [anyhow] messages. *)
Section Executor.
Context {S : Type} {VM : VmApi S}.
Abbreviation ExecM := (M S string).

Definition rollback_vm (v : vm) : ExecM vm :=
  expect "Snapshot should be created before rolling it back" (vm_rollback v).

(** [execute_tx_in_vm_with_optional_compression] *)
Definition execute_tx_in_vm_with_optional_compression (tx : Transaction) (v : vm)
    : ExecM (BatchTxResult * vm) :=
  r ← vm_inspect_transaction v tx true;
  let '(res, v) := r in
  if bt_compression_ok res then
    mret (mkBatchTxResult (bt_result res) true (bt_call_traces res), v)
  else
    v ← rollback_vm v;
    let v := vm_make_snapshot v in
    r ← vm_inspect_transaction v tx false;
    let '(res, v) := r in
    if bt_compression_ok res then
      mret (mkBatchTxResult (bt_result res) true (bt_call_traces res), v)
    else throw "compression failed when it wasn't applied".

(** [execute_tx_in_vm] *)
Definition execute_tx_in_vm (tx : Transaction) (v : vm) : ExecM (BatchTxResult * vm) :=
  r ← vm_inspect_transaction v tx true;
  let '(res, v) := r in
  if bt_compression_ok res then
    mret (mkBatchTxResult (bt_result res) true (bt_call_traces res), v)
  else
    mret (mkBatchTxResult (set_result (Halt "Failed to publish compressed bytecodes") (bt_result res))
            true [], v).

(** [execute_tx] *)
Definition execute_tx (enforced_bytecode_compression : bool) (tx : Transaction) (v : vm)
    : ExecM (BatchTxResult * vm) :=
  let v := vm_make_snapshot (vm_pop_snapshot v) in
  if enforced_bytecode_compression then execute_tx_in_vm tx v
  else execute_tx_in_vm_with_optional_compression tx v.

(** [rollback_last_tx] *)
Definition rollback_last_tx (v : vm) : ExecM vm := rollback_vm v.

(** [finish_batch] *)
Definition finish_batch (v : vm) : ExecM (FinishedL1Batch * vm) :=
  r ← vm_finish_batch v;
  if is_failed (fb_block_tip_execution_result r.1) then
    throw "VM must not fail when finalizing block"
  else mret r.

(** [bootloader] *)
Definition bootloader (v : vm) : ExecM (VmResult * vm) :=
  r ← vm_bootloader v;
  if is_failed (vr_result r.1) then throw "VM must not fail when running bootloader"
  else mret r.

(** [MainBatchExecutor] runs these in a thread: when the thread panics the
    caller gets an error. *)
Definition in_thread {A} (m : ExecM A) : ExecM A := λ s,
  match m s with
  | Panic _ => Throw "batch executor panicked" s
  | o => o
  end.
End Executor.

(** ** Running transactions *)
Section VmRunner.
Context {TA : TransactionApi} {FA : FeeApi} {KA : KeyApi} {CA : ChainApi} {BA : BlockApi} {RA : VmResultApi}.
Context {Client : Type} {R : Remote (Client := Client)}.
Context {VM : VmApi (StorageState (Client := Client))}.
Abbreviation Node := (InMemoryNodeInner (Client := Client)).

(** What is fixed for a [VmRunner]. *)
Record VmRunner := mkVmRunner {
  enforced_bytecode_compression : bool;
  generate_system_logs : bool;
  (** What [SignaturesIdentifier::new], which sets up an HTTP client, returns
      under the node's configuration. *)
  signatures_identifier : Prelude.result unit string;
}.

(** [validate_tx] *)
Definition validate_tx (batch_env : L1BatchEnv) (tx_data : L2TxCommonData)
    : Prelude.result unit TransactionValidationError :=
  let max_gas := u64_max in
  let fee := l2_fee tx_data in
  let l2_gas_price := input_fair_l2_gas_price (be_fee_input batch_env) in
  if max_gas <? gas_limit fee then Err (InvalidGasLimit (gas_limit fee) max_gas)
  else if max_gas <? gas_per_pubdata_limit fee then
    Err (GasPerPubdataLimit (gas_per_pubdata_limit fee) max_gas)
  else if max_fee_per_gas fee <? l2_gas_price then
    Err (MaxFeePerGasTooLow (max_fee_per_gas fee) l2_gas_price)
  else if max_fee_per_gas fee <? max_priority_fee_per_gas fee then
    Err (MaxPriorityFeeGreaterThanMaxFee (max_fee_per_gas fee) (max_priority_fee_per_gas fee))
  else Ok tt.

(** The state of a run: the node, the executor's VM and the running index of
    L2-to-L1 logs. *)
Record RunState := mkRun {
  rs_node : Node;
  rs_vm : vm;
  rs_next_log_index : Z;
}.
Abbreviation RunM := (M RunState NodeError).

Definition on_node {A} : M Node NodeError A → RunM A :=
  zoom rs_node (λ n s, mkRun n (rs_vm s) (rs_next_log_index s)).

(** A command to the executor: its VM is replaced by the resulting one. *)
Definition on_vm {A} (f : vm → M (StorageState (Client := Client)) string (A * vm)) : RunM A :=
  v ← gets rs_vm;
  r ← on_node (on_storage (map_err GenericError (in_thread (f v))));
  modify (λ s, mkRun (rs_node s) r.2 (rs_next_log_index s));;
  mret r.1.

(** [run_tx_pretty], without what it prints. *)
Definition run_tx_pretty (self : VmRunner) (tx : Transaction) : RunM BatchTxResult :=
  r ← on_vm (execute_tx (enforced_bytecode_compression self) tx);
  (if bt_compression_ok r then mret tt
   else throw (TransactionHalt "Failed to publish compressed bytecodes" (tx_hash tx)));;
  (if bool_decide (length (bt_call_traces r) = 0%nat) then mret tt
   else match signatures_identifier self with
        | Ok _ => mret tt
        | Err _ => throw (GenericError "Failed to create SignaturesIdentifier")
        end);;
  mret (mkBatchTxResult (bt_result r) true (bt_call_traces r)).

(** [new_bytecodes] *)
Definition new_bytecodes {S E} (tx : Transaction) (result : VmResult) : M S E (list (H256 * Bytes)) :=
  let saved_factory_deps := extract_bytecodes_marked_as_known (vr_events result) in
  let tx_factory_deps :=
    extend (extend ∅ ((λ c, (hash_for_bytecode c, c)) <$> factory_deps (execute tx)))
      (vr_dynamic_factory_deps result) in
  map_m (λ hash, code ← expect "Failed to get factory deps on tx" (tx_factory_deps !! hash);
                 mret (hash, code)) saved_factory_deps.

(** [contract_address_from_tx_result] *)
Definition contract_address_from_tx_result (result : VmResult) : option Address :=
  (λ q, h256_to_address (sl_key q).2) <$>
  head (filter (λ q, sl_is_write q = true ∧ (sl_key q).1 = ACCOUNT_CODE_STORAGE_ADDRESS)
          (rev (vr_storage_logs result))).

(** The logs of a receipt. *)
Definition receipt_log (tx_hash : H256) (tx_index : Z) (block_ctx : BlockContext) (batch_env : L1BatchEnv)
    (ie : nat * VmEvent) : Log :=
  let '(log_idx, log) := ie in
  mkLog (ev_address log) (ev_indexed_topics log) (ev_value log) (Some (bc_hash block_ctx))
    (Some (bc_miniblock block_ctx)) (Some (be_number batch_env)) (Some tx_hash) (Some tx_index)
    (Some (Z.of_nat log_idx)) (Some (Z.of_nat log_idx)) None (Some false) (Some (bc_timestamp block_ctx)).

Definition receipt_l2_to_l1_log (tx_hash : H256) (tx_index next_log_index : Z) (block_ctx : BlockContext)
    (batch_env : L1BatchEnv) (il : nat * UserL2ToL1Log) : L2ToL1Log :=
  let '(log_index, log) := il in
  mkL2ToL1Log (Some (bc_hash block_ctx)) (bc_miniblock block_ctx) (Some (be_number batch_env))
    (next_log_index + Z.of_nat log_index) tx_index tx_hash (Z.of_nat log_index) (Some tx_index)
    (ul_shard_id log) (ul_is_service log) (ul_sender log) (ul_key log) (ul_value log).

(** The impersonated account's nonce, bumped by hand. *)
Definition bump_nonce (tx : Transaction) : M Node NodeError unit :=
  layout ← gets storage_key_layout;
  nonce_key ← layout_nonce_key layout (initiator_account tx);
  nonce ← on_storage (read_value_internal nonce_key);
  nonce ← expect "arithmetic operation overflow" (checked_add_u256 nonce 1);
  modify_storage (set_value nonce_key nonce).

(** [run_tx] *)
Definition run_tx (self : VmRunner) (tx : Transaction) (tx_index : Z) (block_ctx : BlockContext)
    (batch_env : L1BatchEnv) (impersonating : bool) : RunM TransactionResult :=
  let hash := tx_hash tx in
  let transaction_type := tx_format tx in
  (match common_data tx with
   | L2 l2_tx_data =>
       match validate_tx batch_env l2_tx_data with
       | Ok _ => mret tt
       | Err e => throw (TransactionValidationFailed e hash)
       end
   | _ => mret tt
   end);;
  r ← run_tx_pretty self tx;
  let result := bt_result r in
  (match vr_result result with
   | Halt reason => throw (TransactionHalt reason hash)
   | _ => mret tt
   end);;
  (if impersonating then on_node (bump_nonce tx) else mret tt);;
  bytecodes ← new_bytecodes tx result;
  boojum ← gets (λ s, use_boojum (system_contracts (rs_node s)));
  let bytecodes := if (boojum : bool) then bytecodes ++ vr_dynamic_factory_deps result else bytecodes in
  let logs := receipt_log hash tx_index block_ctx batch_env <$> enumerate (vr_events result) in
  gas_used ← (if vr_gas_refunded result <=? tx_gas_limit tx then
                mret (tx_gas_limit tx - vr_gas_refunded result)
              else panic "arithmetic operation overflow");
  next_log_index ← gets rs_next_log_index;
  provider ← gets (λ s, fee_input_provider (rs_node s));
  let tx_receipt :=
    mkReceipt hash tx_index (bc_hash block_ctx) (bc_miniblock block_ctx) (Some tx_index)
      (Some (be_number batch_env)) (initiator_account tx) (recipient_account tx) 0 (Some gas_used)
      (contract_address_from_tx_result result) logs
      (receipt_l2_to_l1_log hash tx_index next_log_index block_ctx batch_env <$>
         enumerate (vr_user_l2_to_l1_logs result))
      (if is_failed (vr_result result) then 0 else 1) (Some (gas_price provider))
      (Some transaction_type) 0 in
  modify (λ s, mkRun (rs_node s) (rs_vm s)
    (rs_next_log_index s + Z.of_nat (length (vr_user_l2_to_l1_logs result))));;
  debug ← match create_debug_output CONTRACT_DEPLOYER_ADDRESS tx result (bt_call_traces r) with
          | Some (Ok d) => mret d
          | Some (Err _) => panic "create debug output"
          | None => panic "internal error: entered unreachable code"
          end;
  mret (mkTransactionResult
          (mkTxExecutionInfo tx (be_number batch_env) (bc_miniblock block_ctx)) bytecodes tx_receipt debug).

(** The loop of [run_tx_batch]: a transaction that is not valid or halts is
    rolled back and skipped, another error ends the run. *)
Fixpoint run_txs (self : VmRunner) (block_ctx : BlockContext) (batch_env : L1BatchEnv)
    (impersonating : bool) (tx_index : Z) (txs : list Transaction) : RunM (list TransactionResult) :=
  match txs with
  | [] => mret []
  | tx :: txs =>
      result ← capture (run_tx self tx tx_index block_ctx batch_env impersonating);
      match result with
      | Ok tx_result =>
          rest ← run_txs self block_ctx batch_env impersonating (tx_index + 1) txs;
          mret (tx_result :: rest)
      | Err e =>
          match e with
          | TransactionValidationFailed _ _ | TransactionHalt _ _ =>
              on_vm (λ v, v' ← rollback_last_tx v; mret (tt, v'));;
              run_txs self block_ctx batch_env impersonating tx_index txs
          | _ => throw e
          end
      end
  end.

(** The context of a block, with the hash of the block that has these
    transactions. *)
Definition hash_block (version : Z) (tx_hashes : list H256) (c : BlockContext) : BlockContext :=
  set_bc_hash (compute_hash version (as_u32 (bc_miniblock c)) (bc_timestamp c) (bc_prev_block_hash c)
    tx_hashes) c.

(** The empty virtual block at the end of a batch that is not empty. *)
Definition close_blocks (version : Z) (block_ctx : BlockContext) (tx_results : list TransactionResult)
    : RunM (list BlockContext) :=
  if bool_decide (length tx_results = 0%nat) then mret [block_ctx]
  else
    t ← gets (λ s, time (rs_node s));
    let '(virtual_block_ctx, t) := new_block block_ctx t in
    on_node (modify (set_time t));;
    let virtual_block_ctx :=
      set_bc_hash (compute_hash version (as_u32 (bc_miniblock virtual_block_ctx))
        (bc_timestamp virtual_block_ctx) (bc_hash block_ctx) []) virtual_block_ctx in
    let l2_block_env :=
      mkL2BlockEnv (as_u32 (wrapping_add_u64 (bc_miniblock block_ctx) 1))
        (wrapping_add_u64 (bc_timestamp block_ctx) 1) (bc_hash block_ctx) 1 in
    on_vm (λ v, mret (tt, vm_start_new_l2_block v l2_block_env));;
    mret [block_ctx; virtual_block_ctx].

(** The end of the batch in the VM: the full flow, or one iteration of the
    bootloader around a mocked result. *)
Definition close_batch (self : VmRunner)
    : RunM (FinishedL1Batch * list (StorageKey * StorageValue)) :=
  finished_l1_batch ←
    (if generate_system_logs self then on_vm finish_batch
     else
       r ← on_vm bootloader;
       let mock := FinishedL1Batch_mock in
       mret (mkFinishedBatch (vr_result r) (fb_events mock) (fb_user_l2_to_l1_logs mock)
               (fb_system_logs mock) (fb_used_contract_hashes mock) (fb_pubdata_input mock)
               (fb_state_diffs mock)));
  modified ← gets (λ s, vm_modified_storage_keys (rs_vm s));
  (if is_failed (fb_block_tip_execution_result finished_l1_batch) then
     panic "VM must not fail when finalizing block"
   else mret tt);;
  mret (finished_l1_batch, modified).

(** [init_main_batch]: a run with a new VM, which is dropped at its end. *)
Definition with_executor {A} (batch_env : L1BatchEnv) (system_env : SystemEnv) (run : RunM A)
    : M Node NodeError A := λ n,
  let all_values :=
    if use_boojum (system_contracts n) then Some (raw_storage (fork_storage n)) else None in
  match run (mkRun n (vm_new batch_env system_env all_values) 0) with
  | Ret r s => Ret r (rs_node s)
  | Throw e s => Throw e (rs_node s)
  | Panic msg => Panic msg
  | Deadlock => Deadlock
  end.

(** [run_tx_batch] *)
Definition run_tx_batch (self : VmRunner) (batch : TxBatch) : M Node NodeError TxBatchExecutionResult :=
  let 'mkTxBatch impersonating txs := batch in
  sc ← gets system_contracts;
  base ← contracts sc VerifyExecute impersonating;
  let contract_hashes := bsc_hashes base in
  system_env ← gets (λ n, create_system_env n base VerifyExecute);
  env ← create_l1_batch_env;
  let '(batch_env, block_ctx) := env in
  advanced ← gets (λ n : Node, (advance_timestamp (time n)).1);
  modify (λ n : Node, set_time (advance_timestamp (time n)).2 n);;
  (if negb (advanced =? bc_timestamp block_ctx) then
     throw (GenericError "Advancing clock produced different timestamp than expected.")
   else mret tt);;
  let block_ctx := hash_block (se_version system_env) (tx_hash <$> txs) block_ctx in
  with_executor batch_env system_env (
    tx_results ← run_txs self block_ctx batch_env impersonating 0 txs;
    let block_ctx :=
      hash_block (se_version system_env) ((λ r, rc_transaction_hash (tr_receipt r)) <$> tx_results)
        block_ctx in
    block_ctxs ← close_blocks (se_version system_env) block_ctx tx_results;
    finished ← close_batch self;
    mret (mkBatchResult tx_results contract_hashes batch_env block_ctxs finished.1 finished.2)).
End VmRunner.
