(* ===== verification/Running.v ===== *)
(** * What a run of a batch guarantees

    Theorems about [VmRunner.v]: which transactions of a batch end up in the
    block and with which receipts, what becomes of a transaction that halts or
    is not valid, and which blocks the run produces.  The VM is any one whose
    snapshots behave as a stack ([VmLaws]). *)
From S2P Require Import Prelude Types Utils Filters Impersonate Time Pool Cache Fork Storage.
From S2P Require Import FeeModel Blockchain Inner Sealing VmRunner.
Local Open Scope Z_scope.

(** ** The interface: a VM with a stack of snapshots *)
Class VmLaws (S : Type) {VM : VmApi S} := {
  (** The states that can be gone back to, the latest first. *)
  vm_snapshots : vm → list vm;
  vm_new_snapshots : ∀ env se all, vm_snapshots (vm_new env se all) = [];
  vm_make_snapshot_spec : ∀ v, vm_snapshots (vm_make_snapshot v) = v :: vm_snapshots v;
  vm_rollback_spec : ∀ v, vm_rollback v = head (vm_snapshots v);
  vm_pop_snapshot_spec : ∀ v, vm_snapshots (vm_pop_snapshot v) = tail (vm_snapshots v);
  vm_inspect_snapshots : ∀ v tx c s r v' s',
    vm_inspect_transaction v tx c s = Ret (r, v') s' → vm_snapshots v' = vm_snapshots v;
}.

(** The VM gets the node's storage as a [ReadStorage]: it can read it, which
    fills its caches, and writes to a view of its own. *)
Class VmReads {FA : FeeApi} {Client : Type} {R : Remote (Client := Client)}
    {VM : VmApi (StorageState (Client := Client))} := {
  vm_inspect_reads : ∀ v tx c s s',
    final_state (vm_inspect_transaction v tx c s) = Some s' → same_view s s';
  vm_finish_reads : ∀ v s s', final_state (vm_finish_batch v s) = Some s' → same_view s s';
  vm_bootloader_reads : ∀ v s s', final_state (vm_bootloader v s) = Some s' → same_view s s';
}.

Section ExecutorLaws.
Context {S : Type} {VM : VmApi S} {L : VmLaws S}.

(** After a transaction was executed, rolling it back gives the VM before it. *)
Lemma execute_tx_snapshots enforced tx v s r v' s' :
  execute_tx enforced tx v s = Ret (r, v') s' →
  vm_snapshots v' = vm_pop_snapshot v :: vm_snapshots (vm_pop_snapshot v).
Proof.
  unfold execute_tx, execute_tx_in_vm, execute_tx_in_vm_with_optional_compression.
  set (v0 := vm_make_snapshot (vm_pop_snapshot v)).
  assert (H0 : vm_snapshots v0 = vm_pop_snapshot v :: vm_snapshots (vm_pop_snapshot v))
    by apply vm_make_snapshot_spec.
  destruct enforced; intros H; cbv zeta in H; apply bind_Ret in H as ([r1 v1]&s1&H1&H);
    apply vm_inspect_snapshots in H1 as Hv1.
  - destruct (bt_compression_ok r1); injection H as _ <- _; congruence.
  - destruct (bt_compression_ok r1); [injection H as _ <- _; congruence|].
    unfold rollback_vm in H. rewrite vm_rollback_spec, Hv1, H0 in H. simpl in H.
    apply bind_Ret in H as (v2&s2&[= <- <-]&H). cbv zeta in H.
    apply bind_Ret in H as ([r3 v3]&s3&H3&H). apply vm_inspect_snapshots in H3.
    rewrite vm_make_snapshot_spec in H3. destruct (bt_compression_ok r3); [|done].
    injection H as _ <- _. congruence.
Qed.

Lemma execute_tx_compressed enforced tx v s r v' s' :
  execute_tx enforced tx v s = Ret (r, v') s' → bt_compression_ok r = true.
Proof.
  unfold execute_tx, execute_tx_in_vm, execute_tx_in_vm_with_optional_compression.
  destruct enforced; intros H; cbv zeta in H; apply bind_Ret in H as ([r1 v1]&s1&_&H).
  - destruct (bt_compression_ok r1); by injection H as <- _ _.
  - destruct (bt_compression_ok r1); [by injection H as <- _ _|].
    apply bind_Ret in H as (v2&s2&_&H). apply bind_Ret in H as ([r3 v3]&s3&_&H).
    destruct (bt_compression_ok r3); [|done]. by injection H as <- _ _.
Qed.
End ExecutorLaws.

Section Running.
Context {TA : TransactionApi} {FA : FeeApi} {KA : KeyApi} {CA : ChainApi} {BA : BlockApi} {RA : VmResultApi}.
Context {Client : Type} {R : Remote (Client := Client)}.
Context {VM : VmApi (StorageState (Client := Client))}.
Abbreviation Node := (InMemoryNodeInner (Client := Client)).
Abbreviation RunS := (RunState (Client := Client)).
Abbreviation RunMo := (M RunS NodeError).

(** [quiet m]: whether it returns or fails, [m] changes of the node the
    storage at most, and does not move the index of the next log. *)
Definition quiet {A} (m : RunMo A) : Prop :=
  ∀ s s', final_state (m s) = Some s' →
    same_but_storage (rs_node s) (rs_node s') ∧ rs_next_log_index s' = rs_next_log_index s.

Lemma quiet_ret {A} (a : A) : quiet (mret a).
Proof. intros s s' [= <-]. split; [reflexivity|done]. Qed.
Lemma quiet_throw {A} e : quiet (throw (A := A) e).
Proof. intros s s' [= <-]. split; [reflexivity|done]. Qed.
Lemma quiet_panic {A} msg : quiet (panic (A := A) msg).
Proof. done. Qed.
Lemma quiet_gets {A} (f : RunS → A) : quiet (gets f).
Proof. intros s s' [= <-]. split; [reflexivity|done]. Qed.
Lemma quiet_bind {A B} (m : RunMo A) (f : A → RunMo B) :
  quiet m → (∀ a, quiet (f a)) → quiet (m ≫= f).
Proof.
  intros Hm Hf s s'. unfold mbind, M_bind. pose proof (Hm s) as Hs.
  destruct (m s) as [a s1|e s1|msg|]; simpl in *; [|intros [= <-]; by apply Hs|done|done].
  intros H. destruct (Hs s1 eq_refl) as [H1 H2]. destruct (Hf a s1 s' H) as [H3 H4].
  split; [by etrans|congruence].
Qed.
Lemma quiet_on_storage {A} (m : M (StorageState (Client := Client)) NodeError A) :
  quiet (on_node (on_storage m)).
Proof.
  intros s s'. unfold on_node, on_storage, zoom.
  destruct (m _); simpl; intros [= <-]; split; try done; by eexists.
Qed.
Lemma quiet_on_vm {A} (f : vm → M (StorageState (Client := Client)) string (A * vm)) :
  quiet (on_vm f).
Proof.
  apply quiet_bind; [apply quiet_gets|intros v].
  apply quiet_bind; [apply quiet_on_storage|intros r].
  apply quiet_bind; [|intros; apply quiet_ret]. intros s s' [= <-]. split; [reflexivity|done].
Qed.
Lemma quiet_bump_nonce tx : quiet (on_node (bump_nonce tx)).
Proof.
  assert (Hrun : ∀ n : Node, match bump_nonce tx n with
     | Ret _ n' | Throw _ n' => same_but_storage n n' | _ => True end).
  { intros n. unfold bump_nonce. step_m ltac:(reflexivity).
    unfold layout_nonce_key. destruct (storage_key_layout n); [|done].
    step_m ltac:(reflexivity). unfold mbind at 1, M_bind at 1. unfold on_storage at 1, zoom at 1.
    destruct (read_value_internal _ _) as [v st|e st|msg|]; [|by eexists|done|done].
    unfold mbind at 1, M_bind at 1. destruct (checked_add_u256 v 1); simpl; [|done].
    eexists; reflexivity. }
  intros s s'. unfold on_node, zoom. specialize (Hrun (rs_node s)).
  destruct (bump_nonce tx _); simpl; intros [= <-]; done.
Qed.
Lemma quiet_run_tx_pretty self tx : quiet (run_tx_pretty self tx).
Proof.
  apply quiet_bind; [apply quiet_on_vm|intros r].
  apply quiet_bind; [destruct (bt_compression_ok r); [apply quiet_ret|apply quiet_throw]|intros _].
  apply quiet_bind; [|intros; apply quiet_ret].
  case_bool_decide; [apply quiet_ret|].
  destruct (signatures_identifier self); [apply quiet_ret|apply quiet_throw].
Qed.

(** ** One transaction *)

(** Where a receipt says its transaction is: at index [i] of the block of
    [ctx], its L2-to-L1 logs numbered from [start]. *)
Record placed (ctx : BlockContext) (env : L1BatchEnv) (i start : Z) (tx : Transaction)
    (r : TransactionResult) : Prop := mkPlaced {
  pl_tx : info_tx (tr_info r) = tx;
  pl_hash : rc_transaction_hash (tr_receipt r) = tx_hash tx;
  pl_index : rc_transaction_index (tr_receipt r) = i;
  pl_block : rc_block_hash (tr_receipt r) = bc_hash ctx ∧
    rc_block_number (tr_receipt r) = bc_miniblock ctx ∧
    rc_l1_batch_number (tr_receipt r) = Some (be_number env);
  pl_logs : ∀ (j : nat) log, rc_logs (tr_receipt r) !! j = Some log →
    log_transaction_hash log = Some (tx_hash tx) ∧ log_transaction_index log = Some i ∧
    log_block_hash log = Some (bc_hash ctx) ∧ log_block_number log = Some (bc_miniblock ctx) ∧
    log_log_index log = Some (Z.of_nat j);
  pl_l2_logs : l2l1_log_index <$> rc_l2_to_l1_logs (tr_receipt r) =
    seqZ start (Z.of_nat (length (rc_l2_to_l1_logs (tr_receipt r))));
  pl_valid : ∀ d, common_data tx = L2 d → validate_tx env d = Ok tt;
}.

Lemma quiet_new_bytecodes tx result : quiet (new_bytecodes tx result).
Proof.
  unfold new_bytecodes. cbv zeta. generalize (extract_bytecodes_marked_as_known (vr_events result)).
  intros l. induction l as [|h l IH]; simpl; [apply quiet_ret|].
  repeat (apply quiet_bind; [|intros ?]); try apply quiet_ret; [|exact IH].
  destruct (_ !! h); [apply quiet_ret|apply quiet_panic].
Qed.

(** The part of [run_tx] before the receipt does not touch the log index. *)
Lemma quiet_check env tx :
  quiet (match common_data tx with
         | L2 d => match validate_tx env d with
                   | Ok _ => mret tt
                   | Err e => throw (TransactionValidationFailed e (tx_hash tx))
                   end
         | _ => mret tt
         end).
Proof.
  destruct (common_data tx) as [| |]; try apply quiet_ret.
  destruct (validate_tx _ _); [apply quiet_ret|apply quiet_throw].
Qed.

Lemma run_tx_Ret self tx i ctx env imp s r s' :
  run_tx self tx i ctx env imp s = Ret r s' →
  placed ctx env i (rs_next_log_index s) tx r ∧ same_but_storage (rs_node s) (rs_node s') ∧
  rs_next_log_index s' =
    rs_next_log_index s + Z.of_nat (length (rc_l2_to_l1_logs (tr_receipt r))).
Proof.
  unfold run_tx. cbv zeta. intros H.
  apply bind_Ret in H as ([]&s1&H1&H).
  assert (Hv : ∀ d, common_data tx = L2 d → validate_tx env d = Ok tt).
  { intros d Hd. rewrite Hd in H1. by destruct (validate_tx env d) as [[]|]. }
  pose proof (quiet_check env tx s s1) as [Q1 L1]; [by rewrite H1|].
  apply bind_Ret in H as (b&s2&H2&H).
  pose proof (quiet_run_tx_pretty self tx s1 s2) as [Q2 L2]; [by rewrite H2|].
  apply bind_Ret in H as ([]&s3&H3&H).
  assert (s3 = s2) as -> by (destruct (vr_result (bt_result b)); by inversion H3).
  apply bind_Ret in H as ([]&s4&H4&H).
  assert (same_but_storage (rs_node s2) (rs_node s4) ∧ rs_next_log_index s4 = rs_next_log_index s2)
    as [Q4 L4].
  { destruct imp; [|injection H4 as <-; split; [reflexivity|done]].
    by apply (quiet_bump_nonce tx s2 s4); rewrite H4. }
  apply bind_Ret in H as (bs&s5&H5&H).
  pose proof (quiet_new_bytecodes tx (bt_result b) s4 s5) as [Q5 L5]; [by rewrite H5|].
  apply bind_Ret in H as (boojum&s6&[= <- <-]&H).
  apply bind_Ret in H as (gas&s7&H7&H).
  assert (s7 = s5) as -> by (destruct (_ <=? _); by inversion H7).
  apply bind_Ret in H as (next&s8&[= <- <-]&H).
  apply bind_Ret in H as (p&s9&[= <- <-]&H).
  apply bind_Ret in H as ([]&s10&[= <-]&H).
  apply bind_Ret in H as (dbg&s11&H11&H).
  injection H as <- <-. simpl.
  match type of H11 with _ ?s0 = _ => assert (s11 = s0) as -> end.
  { by destruct (create_debug_output _ _ _ _) as [[]|]; inversion H11. }
  simpl. rewrite length_fmap, length_enumerate. split_and!.
  2: by do 3 (etrans; [eassumption|]).
  2: congruence.
  split; simpl; try done.
  - intros j log. rewrite list_lookup_fmap, lookup_enumerate.
    destruct (vr_events (bt_result b) !! j); intros [= <-]. done.
  - rewrite length_fmap, length_enumerate. apply list_eq. intros j.
    rewrite !list_lookup_fmap, lookup_enumerate.
    destruct (vr_user_l2_to_l1_logs (bt_result b) !! j) eqn:Hj; simpl.
    + apply lookup_lt_Some in Hj. rewrite lookup_seqZ_lt by lia. do 2 f_equal. congruence.
    + apply lookup_ge_None in Hj. rewrite lookup_seqZ_ge by lia. done.
Qed.

(** A failed transaction leaves the log index where it was. *)
Definition fails_quietly {A} (m : RunMo A) : Prop :=
  ∀ s e s', m s = Throw e s' →
    same_but_storage (rs_node s) (rs_node s') ∧ rs_next_log_index s' = rs_next_log_index s.

Lemma fails_quietly_bind {A B} (m : RunMo A) (f : A → RunMo B) :
  quiet m → (∀ a, fails_quietly (f a)) → fails_quietly (m ≫= f).
Proof.
  intros Hm Hf s e s' [H|(a&s1&H1&H)]%bind_Throw; [apply Hm; by rewrite H|].
  destruct (Hm s s1) as [? ?]; [by rewrite H1|]. destruct (Hf _ _ _ _ H) as [? ?].
  split; [by etrans|congruence].
Qed.

Lemma fails_quietly_no_throw {A} (m : RunMo A) : no_throw m → fails_quietly m.
Proof. intros Hm s e s' H. destruct (Hm s) as [(?&?&?)|(?&?)]; congruence. Qed.

Lemma run_tx_Throw self tx i ctx env imp : fails_quietly (run_tx self tx i ctx env imp).
Proof.
  unfold run_tx. cbv zeta.
  apply fails_quietly_bind; [apply quiet_check|intros _].
  apply fails_quietly_bind; [apply quiet_run_tx_pretty|intros b].
  apply fails_quietly_bind.
  { destruct (vr_result (bt_result b)); first [apply quiet_ret|apply quiet_throw]. }
  intros _. apply fails_quietly_bind; [destruct imp; [apply quiet_bump_nonce|apply quiet_ret]|intros _].
  apply fails_quietly_bind; [apply quiet_new_bytecodes|intros bs].
  apply fails_quietly_no_throw. repeat (apply no_throw_bind; [|intros ?]); auto with node.
  - destruct (_ <=? _); auto with node.
  - destruct (create_debug_output _ _ _ _) as [[]|]; auto with node.
Qed.

(** ** The batch *)

(** How the results of a run sit in the batch: the transactions they belong
    to are a sublist of the batch, numbered without gaps. *)
Fixpoint all_placed (ctx : BlockContext) (env : L1BatchEnv) (i start : Z)
    (rs : list TransactionResult) : Prop :=
  match rs with
  | [] => True
  | r :: rs =>
      placed ctx env i start (info_tx (tr_info r)) r ∧
      all_placed ctx env (i + 1) (start + Z.of_nat (length (rc_l2_to_l1_logs (tr_receipt r)))) rs
  end.

Lemma all_placed_lookup ctx env i start rs k r :
  all_placed ctx env i start rs → rs !! k = Some r →
  ∃ start', placed ctx env (i + Z.of_nat k) start' (info_tx (tr_info r)) r.
Proof.
  revert i start k. induction rs as [|r' rs IH]; intros i start k Hp Hk; [done|].
  destruct Hp as [H1 H2], k as [|k]; simplify_eq/=.
  - exists start. by rewrite Z.add_0_r.
  - destruct (IH _ _ _ H2 Hk) as [start' ?]. exists start'.
    replace (i + Z.of_nat (S k)) with (i + 1 + Z.of_nat k) by lia. done.
Qed.

Lemma all_placed_l2_logs ctx env i start rs :
  all_placed ctx env i start rs →
  l2l1_log_index <$> (rs ≫= λ r, rc_l2_to_l1_logs (tr_receipt r)) =
  seqZ start (Z.of_nat (length (rs ≫= λ r, rc_l2_to_l1_logs (tr_receipt r)))).
Proof.
  revert i start. induction rs as [|r rs IH]; intros i start Hp; [done|]. destruct Hp as [H1 H2].
  csimpl. rewrite fmap_app, length_app, Nat2Z.inj_add, seqZ_app by lia. f_equal.
  - apply (pl_l2_logs _ _ _ _ _ _ H1).
  - by apply (IH _ _ H2).
Qed.

Lemma run_txs_Ret self ctx env imp i txs s rs s' :
  run_txs self ctx env imp i txs s = Ret rs s' →
  ((λ r, info_tx (tr_info r)) <$> rs) `sublist_of` txs ∧
  all_placed ctx env i (rs_next_log_index s) rs ∧ same_but_storage (rs_node s) (rs_node s').
Proof.
  revert i s rs. induction txs as [|tx txs IH]; intros i s rs H.
  { injection H as <- <-. split_and!; [constructor|done|reflexivity]. }
  simpl in H. apply bind_Ret in H as (res&s1&H1&H). unfold capture in H1.
  destruct (run_tx self tx i ctx env imp s) as [r s2|e s2|msg|] eqn:Hrun; try done;
    injection H1 as <- <-.
  - apply run_tx_Ret in Hrun as (Hp&Hn&Hidx).
    apply bind_Ret in H as (rest&s3&H3&H). injection H as <- <-.
    apply IH in H3 as (Hsub&Hall&Hn'). csimpl. rewrite (pl_tx _ _ _ _ _ _ Hp). split_and!.
    + by constructor.
    + done.
    + by rewrite <-Hidx.
    + by etrans.
  - apply run_tx_Throw in Hrun as [Hn Hidx].
    assert (∃ s3, run_txs self ctx env imp i txs s3 = Ret rs s' ∧
      same_but_storage (rs_node s2) (rs_node s3) ∧ rs_next_log_index s3 = rs_next_log_index s2)
      as (s3&H3&Hn3&Hidx3).
    { destruct e; try discriminate;
        (apply bind_Ret in H as ([]&s3&H2&H); exists s3; split; [exact H|];
         match type of H2 with ?m _ = _ => apply (quiet_on_vm (λ v, v' ← rollback_last_tx v; mret (tt, v')) s2 s3) end;
         by rewrite H2). }
    apply IH in H3 as (Hsub&Hall&Hn'). split_and!.
    + by constructor.
    + by rewrite <-Hidx, <-Hidx3.
    + etrans; [exact Hn|]. by etrans.
Qed.

(** ** The environment of a batch *)
Lemma create_l1_batch_env_Ret (n : Node) env ctx n' :
  create_l1_batch_env n = Ret (env, ctx) n' →
  same_but_storage n n' ∧ bc_timestamp ctx = peek_next_timestamp (time n) ∧
  be_number env = bc_batch ctx ∧ be_timestamp env = bc_timestamp ctx ∧
  be_first_l2_block env =
    mkL2BlockEnv (as_u32 (bc_miniblock ctx)) (bc_timestamp ctx) (bc_prev_block_hash ctx) 1.
Proof.
  unfold create_l1_batch_env. intros H.
  apply bind_Ret in H as (chain&s1&[= <- <-]&H). apply bind_Ret in H as (t&s2&[= <- <-]&H).
  apply bind_Ret in H as ([num last]&s3&H3&H). cbv zeta in H.
  apply bind_Ret in H as (fee&s4&[= <- <-]&H). injection H as <- <- <-. split; [|done].
  unfold on_storage, zoom in H3. destruct (last_env _ _ _ _); try done.
  injection H3 as _ <-. by eexists.
Qed.

Lemma quiet_close_batch self : quiet (close_batch self).
Proof.
  unfold close_batch. apply quiet_bind; [|intros fb].
  { destruct (generate_system_logs self); [apply quiet_on_vm|].
    apply quiet_bind; [apply quiet_on_vm|intros; apply quiet_ret]. }
  apply quiet_bind; [apply quiet_gets|intros modified].
  apply quiet_bind; [|intros; apply quiet_ret].
  destruct (is_failed _); [apply quiet_panic|apply quiet_ret].
Qed.

(** The blocks of a batch: the block itself and, unless it is empty, the
    virtual block that follows it, at the clock's next timestamp. *)
Definition closes_with (version : Z) (t : TimeState) (c0 : BlockContext) (empty : bool)
    (ctxs : list BlockContext) (t' : TimeState) : Prop :=
  if empty then ctxs = [c0] ∧ t' = t
  else ∃ c1, ctxs = [c0; c1] ∧ bc_batch c1 = bc_batch c0 ∧
    bc_miniblock c1 = saturating_add_u64 (bc_miniblock c0) 1 ∧ bc_prev_block_hash c1 = bc_hash c0 ∧
    bc_timestamp c1 = peek_next_timestamp t ∧
    bc_hash c1 = compute_hash version (as_u32 (bc_miniblock c1)) (bc_timestamp c1) (bc_hash c0) [] ∧
    t' = (advance_timestamp t).2.

Lemma close_blocks_Ret version c0 rs s ctxs s' :
  close_blocks version c0 rs s = Ret ctxs s' →
  closes_with version (time (rs_node s)) c0 (bool_decide (length rs = 0%nat)) ctxs (time (rs_node s')) ∧
  same_but_storage (set_time (time (rs_node s')) (rs_node s)) (rs_node s').
Proof.
  unfold close_blocks, closes_with. case_bool_decide as Hrs; intros H.
  { injection H as <- <-. split; [done|]. destruct (rs_node s); reflexivity. }
  apply bind_Ret in H as (t&s1&[= <- <-]&H).
  unfold new_block in H. destruct (advance_timestamp (time (rs_node s))) as [ts t'] eqn:Ht.
  apply bind_Ret in H as ([]&s2&[= <-]&H). cbv zeta in H.
  apply bind_Ret in H as ([]&s3&H3&H). injection H as <- <-.
  match type of H3 with on_vm ?f ?s0 = _ => destruct (quiet_on_vm f s0 s3) as [[st Hst] _]; [by rewrite H3|] end.
  rewrite Hst. simpl. split; [|by exists st]. eexists. split_and!; try done.
  simpl. by rewrite <-advance_peek, Ht.
Qed.

Lemma with_executor_Ret {A} env se (run : RunMo A) (n : Node) a n' :
  with_executor env se run n = Ret a n' →
  ∃ s s', rs_node s = n ∧ rs_next_log_index s = 0 ∧ run s = Ret a s' ∧ rs_node s' = n'.
Proof.
  unfold with_executor. destruct (run _) as [a' s'| | |] eqn:Hrun; intros [= <- <-].
  eexists _, s'. split_and!; [| |exact Hrun|]; done.
Qed.

(** What a run of [txs] on [n] leaves: the result [r], whose first block is
    that of [c0], and the node [n']. *)
Definition ran (impersonating : bool) (txs : list Transaction) (n n' : Node)
    (r : TxBatchExecutionResult) (c0 : BlockContext) : Prop :=
  let included := (λ tr, info_tx (tr_info tr)) <$> br_tx_results r in
  let version := blockchain_version n in
  head (br_block_ctxs r) = Some c0 ∧
  bc_timestamp c0 = peek_next_timestamp (time n) ∧
  be_number (br_batch_env r) = bc_batch c0 ∧ be_timestamp (br_batch_env r) = bc_timestamp c0 ∧
  bc_hash c0 = compute_hash version (as_u32 (bc_miniblock c0)) (bc_timestamp c0)
                 (bc_prev_block_hash c0) (tx_hash <$> included) ∧
  included `sublist_of` txs ∧
  all_placed (hash_block version (tx_hash <$> txs) c0) (br_batch_env r) 0 0 (br_tx_results r) ∧
  (included = txs → all_placed c0 (br_batch_env r) 0 0 (br_tx_results r)) ∧
  closes_with version (advance_timestamp (time n)).2 c0 (bool_decide (length included = 0%nat))
    (br_block_ctxs r) (time n') ∧
  same_but_storage (set_time (time n') n) n' ∧
  br_base_system_contracts_hashes r =
    bsc_hashes ((if impersonating then baseline_impersonating_contracts else baseline_contracts)
                  (system_contracts n)).

Lemma run_tx_batch_Ret self impersonating txs (n n' : Node) r :
  run_tx_batch self (mkTxBatch impersonating txs) n = Ret r n' →
  ∃ c0 ctx n1, ran impersonating txs n n' r c0 ∧
    create_l1_batch_env n = Ret (br_batch_env r, ctx) n1 ∧
    set_bc_hash (bc_hash ctx) c0 = ctx.
Proof.
  unfold run_tx_batch. intros H.
  apply bind_Ret in H as (sc&s1&[= <- <-]&H).
  apply bind_Ret in H as (base&s2&H2&H).
  assert (s2 = n ∧ base = (if impersonating then baseline_impersonating_contracts else baseline_contracts)
    (system_contracts n)) as [-> ->] by (by destruct impersonating; injection H2 as <- <-).
  cbv zeta in H. apply bind_Ret in H as (se&s3&[= <- <-]&H).
  apply bind_Ret in H as ([env ctx]&n1&H4&H). pose proof H4 as Henv.
  apply create_l1_batch_env_Ret in H4 as ([st1 ->]&Hts&Hnum&Hbts&_).
  apply bind_Ret in H as (adv&s5&[= <- <-]&H). apply bind_Ret in H as ([]&s6&[= <-]&H).
  apply bind_Ret in H as ([]&s7&H7&H).
  destruct (negb _); [discriminate|]. injection H7 as <-.
  apply with_executor_Ret in H as (s&s'&Hs&Hidx&H&<-).
  apply bind_Ret in H as (rs&s8&H8&H). apply run_txs_Ret in H8 as (Hsub&Hall&[st8 H8]).
  apply bind_Ret in H as (ctxs&s9&H9&H). apply close_blocks_Ret in H9 as [Hcl [st9 H9]].
  apply bind_Ret in H as ([fb md]&s10&H10&H). injection H as <- <-.
  destruct (quiet_close_batch self s9 s10) as [[st10 Hn10] _]; [by rewrite H10|].
  rewrite Hidx in Hall. simpl in Hcl. rewrite H8, Hs in Hcl. simpl in Hcl.
  assert (Hh : ∀ l, hash_block (blockchain_version n) (tx_hash <$> txs)
      (hash_block (blockchain_version n) l (hash_block (blockchain_version n) (tx_hash <$> txs) ctx)) =
    hash_block (blockchain_version n) (tx_hash <$> txs) ctx) by done.
  assert (Hrc : (λ r0, rc_transaction_hash (tr_receipt r0)) <$> rs =
    tx_hash <$> ((λ tr, info_tx (tr_info tr)) <$> rs)).
  { rewrite <-list_fmap_compose. apply list_fmap_ext. intros k tr Hk. simpl.
    destruct (all_placed_lookup _ _ _ _ _ _ _ Hall Hk) as [? Hp]. apply (pl_hash _ _ _ _ _ _ Hp). }
  rewrite Hrc in Hcl.
  set (c0 := hash_block _ (tx_hash <$> (_ <$> rs)) _) in *.
  exists c0, ctx, (set_storage st1 n). split; [|split; [exact Henv|by destruct ctx]].
  unfold ran. cbv zeta. cbn [fst snd br_tx_results br_block_ctxs br_batch_env br_base_system_contracts_hashes].
  rewrite length_fmap. fold c0. split_and!; try done.
  - unfold closes_with in Hcl. case_bool_decide; [destruct Hcl as [-> _]; done|].
    destruct Hcl as (c1&->&_). done.
  - intros Heq. unfold c0. simpl in Hall. unfold create_system_env. rewrite Heq. exact Hall.
  - by rewrite Hn10.
  - rewrite Hn10, H9, H8, Hs. by eexists.
Qed.

(** C3: a run of a batch.  The results belong to a sublist of the batch, in
    order, each with a receipt that puts it at its position in the block, all
    its logs included, with the indices of the L2-to-L1 logs running through
    the batch from 0, and only L2 transactions that are valid for the batch
    are among them; the block's hash is that of the included transactions; the
    receipts and logs carry the hash over all transactions of the batch, which
    is the block's if none was left out; an empty batch gives one block, any
    other a virtual block right after it; of the node only the storage and the
    clock change. *)
Theorem run_tx_batch_spec (self : VmRunner) (impersonating : bool) (txs : list Transaction) (n n' : Node)
    (r : TxBatchExecutionResult) :
  run_tx_batch self (mkTxBatch impersonating txs) n = Ret r n' →
  let included := (λ tr, info_tx (tr_info tr)) <$> br_tx_results r in
  let version := blockchain_version n in
  ∃ c0, head (br_block_ctxs r) = Some c0 ∧
    bc_timestamp c0 = peek_next_timestamp (time n) ∧
    be_number (br_batch_env r) = bc_batch c0 ∧ be_timestamp (br_batch_env r) = bc_timestamp c0 ∧
    bc_hash c0 = compute_hash version (as_u32 (bc_miniblock c0)) (bc_timestamp c0)
                   (bc_prev_block_hash c0) (tx_hash <$> included) ∧
    included `sublist_of` txs ∧
    all_placed (hash_block version (tx_hash <$> txs) c0) (br_batch_env r) 0 0 (br_tx_results r) ∧
    (included = txs → all_placed c0 (br_batch_env r) 0 0 (br_tx_results r)) ∧
    closes_with version (advance_timestamp (time n)).2 c0 (bool_decide (length included = 0%nat))
      (br_block_ctxs r) (time n') ∧
    same_but_storage (set_time (time n') n) n' ∧
    br_base_system_contracts_hashes r =
      bsc_hashes ((if impersonating then baseline_impersonating_contracts else baseline_contracts)
                    (system_contracts n)).
Proof. intros H. destruct (run_tx_batch_Ret _ _ _ _ _ _ H) as (c0&_&_&Hran&_). by exists c0. Qed.

(** ** Transactions that are left out *)
Section LeftOut.
Context {L : VmLaws (StorageState (Client := Client))}.

Definition set_vm (v : vm) (s : RunS) : RunS := mkRun (rs_node s) v (rs_next_log_index s).

Lemma rollback_run (s : RunS) :
  on_vm (λ v, v' ← rollback_last_tx v; mret (tt, v')) s =
  match vm_snapshots (rs_vm s) with
  | v :: _ => Ret tt (set_vm v s)
  | [] => Throw (GenericError "batch executor panicked") s
  end.
Proof.
  unfold on_vm. step_m ltac:(reflexivity).
  unfold mbind, M_bind, on_node, on_storage, map_err, in_thread, zoom, rollback_last_tx, rollback_vm.
  rewrite vm_rollback_spec. by destruct s as [[] w i]; simpl; destruct (vm_snapshots w).
Qed.

Lemma on_vm_Ret {A} (f : vm → M (StorageState (Client := Client)) string (A * vm)) (s : RunS) a s' :
  on_vm f s = Ret a s' → ∃ st st', f (rs_vm s) st = Ret (a, rs_vm s') st'.
Proof.
  unfold on_vm. intros H. apply bind_Ret in H as (v&s1&[= <- <-]&H).
  apply bind_Ret in H as ([a' v']&s2&H2&H). injection H as <- <-.
  unfold on_node, on_storage, map_err, in_thread, zoom in H2.
  destruct (f (rs_vm s) _) as [[]| | |] eqn:Hf; simplify_eq/=. by eexists _, _.
Qed.

Lemma on_vm_Throw {A} (f : vm → M (StorageState (Client := Client)) string (A * vm)) (s : RunS) e s' :
  on_vm f s = Throw e s' → ∃ msg, e = GenericError msg.
Proof.
  unfold on_vm. intros H. apply bind_Throw in H as [H|(v&s1&[= <- <-]&H)]; [done|].
  apply bind_Throw in H as [H|(r&s2&_&H)]; [|done].
  unfold on_node, on_storage, map_err, in_thread, zoom in H.
  destruct (f (rs_vm s) _); simplify_eq/=; eauto.
Qed.

Lemma run_tx_pretty_Throw self tx s reason h s' :
  run_tx_pretty self tx s ≠ Throw (TransactionHalt reason h) s'.
Proof.
  unfold run_tx_pretty. intros H. apply bind_Throw in H as [H|(b&s2&H2&H)].
  { by apply on_vm_Throw in H as [? ?]. }
  apply on_vm_Ret in H2 as (?&?&Hex). rewrite (execute_tx_compressed _ _ _ _ _ _ _ Hex) in H.
  apply bind_Throw in H as [H|(?&s3&_&H)]; [done|].
  apply bind_Throw in H as [H|(?&s4&_&H)]; [|done].
  case_bool_decide; [done|]. by destruct (signatures_identifier self).
Qed.

Lemma run_tx_pretty_Ret self tx s b s' :
  run_tx_pretty self tx s = Ret b s' →
  vm_snapshots (rs_vm s') = vm_pop_snapshot (rs_vm s) :: vm_snapshots (vm_pop_snapshot (rs_vm s)).
Proof.
  unfold run_tx_pretty. intros H. apply bind_Ret in H as (r&s2&H2&H).
  apply bind_Ret in H as ([]&s3&H3&H). apply bind_Ret in H as ([]&s4&H4&H). injection H as _ <-.
  assert (s3 = s2) as -> by (by destruct (bt_compression_ok r); inversion H3).
  assert (s4 = s2) as -> by (case_bool_decide; [|destruct (signatures_identifier self)]; by inversion H4).
  apply on_vm_Ret in H2 as (st&st'&Hf). by eapply execute_tx_snapshots.
Qed.

Lemma new_bytecodes_Ret tx result (s : RunS) bs s' :
  new_bytecodes (E := NodeError) tx result s = Ret bs s' → s' = s.
Proof.
  unfold new_bytecodes. cbv zeta. generalize (extract_bytecodes_marked_as_known (vr_events result)).
  intros l. revert s bs. induction l as [|h l IH]; intros s bs H; [by injection H|].
  apply bind_Ret in H as (c&s1&H1&H). apply bind_Ret in H as (cs&s2&H2&H). injection H as _ <-.
  apply IH in H2 as ->. apply bind_Ret in H1 as (d&s3&H3&H). injection H as _ <-.
  by destruct (_ !! h); inversion H3.
Qed.

Lemma no_throw_new_bytecodes tx result : no_throw (S := RunS) (E := NodeError) (new_bytecodes tx result).
Proof.
  unfold new_bytecodes. cbv zeta. generalize (extract_bytecodes_marked_as_known (vr_events result)).
  intros l. induction l as [|h l IH]; simpl; auto 6 with node.
Qed.

Lemma no_throw_bump_nonce tx : no_throw (on_node (bump_nonce tx)).
Proof.
  assert (H : no_throw (bump_nonce tx)).
  { unfold bump_nonce. apply no_throw_bind; [auto with node|intros lay].
    apply no_throw_bind; [destruct lay; simpl; auto with node|intros k].
    apply no_throw_bind; [|intros v; apply no_throw_bind; [auto with node|intros v'; apply no_throw_modify]].
    intros n. unfold on_storage, zoom. rewrite read_value_internal_run.
    destruct (view _ _); simpl; destruct (Storage.state _ !! _); [|destruct (value_read_cache _ !! _)|..]; eauto;
      destruct (value_read_cache _ !! _); eauto. }
  intros s. unfold on_node, zoom. destruct (H (rs_node s)) as [(?&?&->)|(?&->)]; eauto.
Qed.

(** After the transaction was executed and did not halt, nothing fails. *)
Lemma run_tx_halted self tx i ctx env imp s reason h s' :
  run_tx self tx i ctx env imp s = Throw (TransactionHalt reason h) s' →
  vm_snapshots (rs_vm s') = vm_pop_snapshot (rs_vm s) :: vm_snapshots (vm_pop_snapshot (rs_vm s)).
Proof.
  unfold run_tx. cbv zeta. intros H. apply bind_Throw in H as [H|([]&s1&H1&H)].
  { destruct (common_data tx) as [|d|]; [done|by destruct (validate_tx env d)|done]. }
  assert (s1 = s) as ->.
  { destruct (common_data tx) as [|d|]; [|destruct (validate_tx env d)|]; by inversion H1. }
  apply bind_Throw in H as [H|(b&s2&H2&H)]; [by apply run_tx_pretty_Throw in H|].
  apply run_tx_pretty_Ret in H2. apply bind_Throw in H as [H|([]&s3&_&H)].
  { destruct (vr_result (bt_result b)); inversion H; by subst. }
  exfalso. revert H. generalize s3 s'. clear. intros s s' H.
  match type of H with ?m s = _ => assert (Hm : no_throw m) end.
  2: { destruct (Hm s) as [(?&?&?)|(?&?)]; congruence. }
  apply no_throw_bind; [destruct imp; [apply no_throw_bump_nonce|apply no_throw_ret]|intros _].
  apply no_throw_bind; [apply no_throw_new_bytecodes|intros bs].
  repeat (apply no_throw_bind; [|intros ?]); auto with node.
  - destruct (_ <=? _); auto with node.
  - destruct (create_debug_output _ _ _ _) as [[]|]; auto with node.
Qed.

Lemma run_tx_executed self tx i ctx env imp s r s' :
  run_tx self tx i ctx env imp s = Ret r s' →
  vm_snapshots (rs_vm s') = vm_pop_snapshot (rs_vm s) :: vm_snapshots (vm_pop_snapshot (rs_vm s)).
Proof.
  unfold run_tx. cbv zeta. intros H. apply bind_Ret in H as ([]&s1&H1&H).
  assert (s1 = s) as ->.
  { destruct (common_data tx) as [|d|]; [|destruct (validate_tx env d)|]; by inversion H1. }
  apply bind_Ret in H as (b&s2&H2&H). apply run_tx_pretty_Ret in H2.
  apply bind_Ret in H as ([]&s3&H3&H).
  assert (s3 = s2) as -> by (destruct (vr_result (bt_result b)); by inversion H3).
  apply bind_Ret in H as (u4&s4&H4&H).
  assert (Hv : rs_vm s4 = rs_vm s2).
  { destruct imp; [|by inversion H4]. unfold on_node, zoom in H4.
    destruct (bump_nonce tx _); try done. by inversion H4. }
  apply bind_Ret in H as (bs&s5&->%new_bytecodes_Ret&H).
  apply bind_Ret in H as (boojum&s6&[= <- <-]&H). apply bind_Ret in H as (gas&s7&H7&H).
  assert (s7 = s4) as -> by (destruct (_ <=? _); by inversion H7).
  apply bind_Ret in H as (next&s8&[= <- <-]&H). apply bind_Ret in H as (p&s9&[= <- <-]&H).
  apply bind_Ret in H as ([]&s10&[= <-]&H). apply bind_Ret in H as (dbg&s11&H11&H).
  injection H as _ <-. destruct (create_debug_output _ _ _ _) as [[]|]; try done.
  injection H11 as _ <-. simpl. by rewrite Hv.
Qed.


Lemma run_tx_invalid self tx d e i ctx env imp (s : RunS) :
  common_data tx = L2 d → validate_tx env d = Err e →
  run_tx self tx i ctx env imp s = Throw (TransactionValidationFailed e (tx_hash tx)) s.
Proof. intros Hd He. unfold run_tx. cbv zeta. by rewrite Hd, He. Qed.

Lemma run_txs_invalid self ctx env imp i tx d e txs (s : RunS) :
  common_data tx = L2 d → validate_tx env d = Err e → vm_snapshots (rs_vm s) = [] →
  run_txs self ctx env imp i (tx :: txs) s = Throw (GenericError "batch executor panicked") s.
Proof.
  intros Hd He Hs. cbn [run_txs].
  step_m ltac:(unfold capture; rewrite (run_tx_invalid _ _ d e) by done; reflexivity). cbv iota.
  unfold mbind, M_bind. by rewrite rollback_run, Hs.
Qed.

(** A transaction that does not pass validation is rolled back although
    it was never executed.  When it is the first one, the executor panics and
    the whole batch fails; after a transaction that was included, the VM goes
    back to before that transaction, whose result stays in the block. *)
Theorem invalid_tx_rolls_back_previous (self : VmRunner) (ctx : BlockContext) (env : L1BatchEnv)
    (imp : bool) (i : Z) (tx : Transaction) (d : L2TxCommonData) (e : TransactionValidationError) :
  common_data tx = L2 d → validate_tx env d = Err e →
  (∀ (s : RunS) txs, vm_snapshots (rs_vm s) = [] →
     run_txs self ctx env imp i (tx :: txs) s = Throw (GenericError "batch executor panicked") s) ∧
  (∀ (s s1 : RunS) tx0 r, run_tx self tx0 i ctx env imp s = Ret r s1 →
     run_txs self ctx env imp i [tx0; tx] s = Ret [r] (set_vm (vm_pop_snapshot (rs_vm s)) s1)).
Proof.
  intros Hd He. split; [by intros; eapply run_txs_invalid|].
  intros s s1 tx0 r H. pose proof (run_tx_executed _ _ _ _ _ _ _ _ _ H) as Hs.
  cbn [run_txs]. step_m ltac:(unfold capture; rewrite H; reflexivity). cbv iota.
  step_m ltac:(step_m ltac:(unfold capture; rewrite (run_tx_invalid _ _ d e) by done; reflexivity);
    cbv iota; step_m ltac:(rewrite rollback_run, Hs; reflexivity); reflexivity).
  done.
Qed.
End LeftOut.

(** The checks on the fee of an L2 transaction: it is accepted exactly
    when both gas limits fit in 64 bits and the maximum fee per gas covers the
    L2 gas price of the batch and the priority fee; otherwise the error names
    the first check that failed, with the two amounts. *)
Theorem validate_tx_spec (env : L1BatchEnv) (d : L2TxCommonData) :
  let fee := l2_fee d in
  let price := input_fair_l2_gas_price (be_fee_input env) in
  let limits := gas_limit fee <= u64_max ∧ gas_per_pubdata_limit fee <= u64_max in
  (validate_tx env d = Ok tt ↔
     limits ∧ price <= max_fee_per_gas fee ∧ max_priority_fee_per_gas fee <= max_fee_per_gas fee) ∧
  (∀ e, validate_tx env d = Err e →
     match e with
     | InvalidGasLimit g m => g = gas_limit fee ∧ m = u64_max ∧ m < g
     | GasPerPubdataLimit g m => g = gas_per_pubdata_limit fee ∧ m = u64_max ∧ m < g ∧ gas_limit fee <= m
     | MaxFeePerGasTooLow f p => f = max_fee_per_gas fee ∧ p = price ∧ f < p ∧ limits
     | MaxPriorityFeeGreaterThanMaxFee f p =>
         f = max_fee_per_gas fee ∧ p = max_priority_fee_per_gas fee ∧ f < p ∧ price <= f ∧ limits
     end).
Proof.
  cbv zeta. unfold validate_tx. split.
  - repeat case_match; zbool; (split; [intros [=]|intros ?]); try done; try lia.
  - intros e. repeat case_match; intros [=]; zbool; subst; simplify_eq; try done; lia.
Qed.
End Running.

(** ** A run does not lose storage *)
Section Availability.
Context {TA : TransactionApi} {FA : FeeApi} {KA : KeyApi} {CA : ChainApi} {BA : BlockApi} {RA : VmResultApi}.
Context {Client : Type} {R : Remote (Client := Client)}.
Context {VM : VmApi (StorageState (Client := Client))} {VR : VmReads (Client := Client)}.
Abbreviation Node := (InMemoryNodeInner (Client := Client)).
Abbreviation StorageS := (StorageState (Client := Client)).
Abbreviation RunMo := (M (RunState (Client := Client)) NodeError).

(** Operations of the storage, of the node and of a run that end in a storage
    that answers when they started in one. *)
Definition node_available (n : Node) : Prop := available (fork_storage n, fork n).
Definition storage_keeps {E A} (m : M StorageS E A) : Prop :=
  ∀ s s', final_state (m s) = Some s' → available s → available s'.
Definition run_keeps {A} (m : RunMo A) : Prop :=
  ∀ s s', final_state (m s) = Some s' → node_available (rs_node s) → node_available (rs_node s').

Lemma storage_keeps_bind {E A B} (m : M StorageS E A) (f : A → M StorageS E B) :
  storage_keeps m → (∀ a, storage_keeps (f a)) → storage_keeps (m ≫= f).
Proof.
  intros Hm Hf s s'. unfold mbind, M_bind. pose proof (Hm s) as Hs.
  destruct (m s) as [a s1|e s1|msg|]; simpl in *; try done; [|by apply Hs].
  intros H Ha. eapply Hf; [exact H|]. by apply Hs.
Qed.
Lemma run_keeps_bind {A B} (m : RunMo A) (f : A → RunMo B) :
  run_keeps m → (∀ a, run_keeps (f a)) → run_keeps (m ≫= f).
Proof.
  intros Hm Hf s s'. unfold mbind, M_bind. pose proof (Hm s) as Hs.
  destruct (m s) as [a s1|e s1|msg|]; simpl in *; try done; [|by apply Hs].
  intros H Ha. eapply Hf; [exact H|]. by apply Hs.
Qed.
Lemma storage_keeps_ret {E A} (a : A) : storage_keeps (E := E) (mret a).
Proof. by intros s s' [= <-]. Qed.
Lemma storage_keeps_throw {E A} (e : E) : storage_keeps (throw (A := A) e).
Proof. by intros s s' [= <-]. Qed.
Lemma storage_keeps_expect {E A} msg (o : option A) : storage_keeps (E := E) (expect msg o).
Proof. destruct o; [apply storage_keeps_ret|done]. Qed.
Lemma run_keeps_ret {A} (a : A) : run_keeps (mret a).
Proof. by intros s s' [= <-]. Qed.
Lemma run_keeps_throw {A} e : run_keeps (throw (A := A) e).
Proof. by intros s s' [= <-]. Qed.
Lemma run_keeps_panic {A} msg : run_keeps (panic (A := A) msg).
Proof. done. Qed.
Lemma run_keeps_gets {A} (f : _ → A) : run_keeps (gets f).
Proof. by intros s s' [= <-]. Qed.
Lemma run_keeps_index f : run_keeps (modify (λ s, mkRun (rs_node s) (rs_vm s) (f s))).
Proof. by intros s s' [= <-]. Qed.
Lemma run_keeps_on_vm {A} (f : vm → M StorageS string (A * vm)) :
  (∀ v, storage_keeps (f v)) → run_keeps (on_vm f).
Proof.
  intros Hf. apply run_keeps_bind; [apply run_keeps_gets|intros v]. apply run_keeps_bind.
  - intros s s'. unfold on_node, on_storage, map_err, in_thread, zoom. pose proof (Hf v (fork_storage (rs_node s), fork (rs_node s))) as Hv.
    destruct (f v _) as [[a w] st|e st|msg|]; simpl in *; intros [= <-]; unfold node_available; simpl; try done.
    all: destruct st; by apply Hv.
  - intros r. apply run_keeps_bind; [|intros; apply run_keeps_ret]. by intros s s' [= <-].
Qed.

Lemma storage_keeps_execute enforced tx v : storage_keeps (execute_tx enforced tx v).
Proof.
  assert (Hi : ∀ v c, storage_keeps (vm_inspect_transaction v tx c)).
  { intros w c s s' H. apply same_view_available. by eapply vm_inspect_reads. }
  unfold execute_tx. cbv zeta. destruct enforced.
  - apply storage_keeps_bind; [apply Hi|intros [r w]].
    destruct (bt_compression_ok r); apply storage_keeps_ret.
  - apply storage_keeps_bind; [apply Hi|intros [r w]].
    destruct (bt_compression_ok r); [apply storage_keeps_ret|].
    apply storage_keeps_bind; [apply storage_keeps_expect|intros w'].
    apply storage_keeps_bind; [apply Hi|intros [r' w'']].
    destruct (bt_compression_ok r'); [apply storage_keeps_ret|apply storage_keeps_throw].
Qed.

Lemma run_keeps_pretty self tx : run_keeps (run_tx_pretty self tx).
Proof.
  apply run_keeps_bind; [apply run_keeps_on_vm; intros; apply storage_keeps_execute|intros r].
  apply run_keeps_bind; [destruct (bt_compression_ok r); [apply run_keeps_ret|apply run_keeps_throw]|intros _].
  apply run_keeps_bind; [|intros; apply run_keeps_ret].
  case_bool_decide; [apply run_keeps_ret|].
  destruct (signatures_identifier self); [apply run_keeps_ret|apply run_keeps_throw].
Qed.

Lemma run_keeps_bump tx : run_keeps (on_node (bump_nonce tx)).
Proof.
  intros s s'. unfold on_node, zoom. destruct (bump_nonce tx (rs_node s)) as [u n'|e n'|msg|] eqn:Hb;
    simpl; try done; intros [= <-] Ha; simpl.
  - unfold bump_nonce in Hb. apply bind_Ret in Hb as (lay&n1&[= <- <-]&Hb).
    apply bind_Ret in Hb as (k&n2&H2&Hb).
    assert (n2 = rs_node s) as -> by (by destruct (storage_key_layout _); inversion H2).
    apply bind_Ret in Hb as (v&n3&H3&Hb). apply bind_Ret in Hb as (v'&n4&H4&Hb).
    assert (n4 = n3) as -> by (by destruct (checked_add_u256 v 1); inversion H4). injection Hb as _ <-.
    unfold on_storage, zoom in H3. destruct (proj1 Ha k) as [x Hx].
    destruct (read_value_view (E := NodeError) _ _ _ Hx) as (st&Hr&Hs). rewrite Hr in H3. injection H3 as _ <-.
    apply (same_view_available _ _ Hs) in Ha. unfold node_available; simpl. destruct st as [st fk].
    eapply (available_step _ _ (λ k', if decide (k' = k) then Some v' else None) (λ _, None)); [exact Ha| |done].
    intros k'. pose proof (set_value_view k v' (st, fk) k') as Hsv. simpl in *. rewrite Hsv. by case_decide.
  - destruct (no_throw_bump_nonce tx s) as [(?&?&H)|(?&H)]; unfold on_node, zoom in H; by rewrite Hb in H.
Qed.

Lemma run_keeps_run_tx self tx i ctx env imp : run_keeps (run_tx self tx i ctx env imp).
Proof.
  unfold run_tx. cbv zeta.
  apply run_keeps_bind; [|intros _].
  { destruct (common_data tx) as [|d|]; [..|]; try apply run_keeps_ret.
    destruct (validate_tx env d); [apply run_keeps_ret|apply run_keeps_throw]. }
  apply run_keeps_bind; [apply run_keeps_pretty|intros b]. apply run_keeps_bind; [|intros _].
  { destruct (vr_result (bt_result b)); first [apply run_keeps_ret|apply run_keeps_throw]. }
  apply run_keeps_bind; [destruct imp; [apply run_keeps_bump|apply run_keeps_ret]|intros _].
  apply run_keeps_bind; [|intros bs].
  { intros s s'. destruct (new_bytecodes tx (bt_result b) s) eqn:Hn; simpl; try done; intros [= <-].
    - by apply new_bytecodes_Ret in Hn as ->.
    - destruct (no_throw_new_bytecodes tx (bt_result b) s) as [(?&?&H)|(?&H)]; congruence. }
  repeat (apply run_keeps_bind; [|intros ?]);
    try first [apply run_keeps_gets|apply run_keeps_ret|apply run_keeps_index].
  - destruct (_ <=? _); [apply run_keeps_ret|apply run_keeps_panic].
  - destruct (create_debug_output _ _ _ _) as [[]|]; first [apply run_keeps_ret|apply run_keeps_panic].
Qed.

Lemma run_keeps_rollback : run_keeps (on_vm (λ v, v' ← rollback_last_tx v; mret (tt, v'))).
Proof.
  apply run_keeps_on_vm. intros v. apply storage_keeps_bind; [apply storage_keeps_expect|].
  intros; apply storage_keeps_ret.
Qed.

Lemma run_keeps_run_txs self ctx env imp i txs : run_keeps (run_txs self ctx env imp i txs).
Proof.
  revert i. induction txs as [|tx txs IH]; intros i; cbn [run_txs]; [apply run_keeps_ret|].
  apply run_keeps_bind.
  { intros s s'. unfold capture. pose proof (run_keeps_run_tx self tx i ctx env imp s) as Hk.
    destruct (run_tx self tx i ctx env imp s); simpl in *; [..|done|done]; intros [= <-]; by apply Hk. }
  intros [r|[]]; try apply run_keeps_throw.
  - apply run_keeps_bind; [apply IH|intros; apply run_keeps_ret].
  - apply run_keeps_bind; [apply run_keeps_rollback|intros; apply IH].
  - apply run_keeps_bind; [apply run_keeps_rollback|intros; apply IH].
Qed.

Lemma run_keeps_close_batch self : run_keeps (close_batch self).
Proof.
  unfold close_batch. apply run_keeps_bind; [|intros fb].
  { destruct (generate_system_logs self).
    - apply run_keeps_on_vm. intros v. apply storage_keeps_bind.
      + intros s s' H. apply same_view_available. by eapply vm_finish_reads.
      + intros r. destruct (is_failed _); [apply storage_keeps_throw|apply storage_keeps_ret].
    - apply run_keeps_bind; [|intros; apply run_keeps_ret]. apply run_keeps_on_vm. intros v.
      apply storage_keeps_bind.
      + intros s s' H. apply same_view_available. by eapply vm_bootloader_reads.
      + intros r. destruct (is_failed _); [apply storage_keeps_throw|apply storage_keeps_ret]. }
  apply run_keeps_bind; [apply run_keeps_gets|intros modified].
  apply run_keeps_bind; [|intros; apply run_keeps_ret].
  destruct (is_failed _); [apply run_keeps_panic|apply run_keeps_ret].
Qed.

Lemma run_keeps_close_blocks version c0 rs : run_keeps (close_blocks version c0 rs).
Proof.
  unfold close_blocks. case_bool_decide; [apply run_keeps_ret|].
  apply run_keeps_bind; [apply run_keeps_gets|intros t]. unfold new_block.
  destruct (advance_timestamp t) as [ts t']. apply run_keeps_bind; [by intros s s' [= <-]|intros _].
  cbv zeta. apply run_keeps_bind; [|intros; apply run_keeps_ret].
  apply run_keeps_on_vm. intros; apply storage_keeps_ret.
Qed.

(** A batch that starts with a storage that answers ends with one. *)
Lemma run_tx_batch_available self imp txs (n n' : Node) r env ctx n1 :
  run_tx_batch self (mkTxBatch imp txs) n = Ret r n' →
  create_l1_batch_env n = Ret (env, ctx) n1 → node_available n1 → node_available n'.
Proof.
  unfold run_tx_batch. intros H Henv Ha.
  apply bind_Ret in H as (sc&s1&[= <- <-]&H). apply bind_Ret in H as (base&s2&H2&H).
  assert (s2 = n) as -> by (by destruct imp; inversion H2).
  cbv zeta in H. apply bind_Ret in H as (se&s3&[= <- <-]&H).
  apply bind_Ret in H as ([env' ctx']&n1'&H4&H). rewrite Henv in H4. injection H4 as <- <- <-.
  apply bind_Ret in H as (adv&s5&[= <- <-]&H). apply bind_Ret in H as ([]&s6&[= <-]&H).
  apply bind_Ret in H as ([]&s7&H7&H).
  destruct (negb _); [discriminate|]. injection H7 as <-.
  apply with_executor_Ret in H as (s&s'&Hs&Hidx&H&<-).
  match type of H with ?m s = _ => assert (Hk : run_keeps m) end.
  2: { eapply Hk; [by rewrite H|]. by rewrite Hs. }
  apply run_keeps_bind; [apply run_keeps_run_txs|intros rs]. cbv zeta.
  apply run_keeps_bind; [apply run_keeps_close_blocks|intros ctxs].
  apply run_keeps_bind; [apply run_keeps_close_batch|intros; apply run_keeps_ret].
Qed.
End Availability.

(** ** A VM that records the transactions it executed *)
Module SampleVm.
Export SampleNode.

Inductive Vm := mkVm (executed : list H256) (snapshot : option Vm).

Definition executed (v : Vm) : list H256 := let 'mkVm l _ := v in l.
Definition saved (v : Vm) : option Vm := let 'mkVm _ o := v in o.
Fixpoint snapshots (v : Vm) : list Vm :=
  let 'mkVm _ o := v in match o with Some v' => v' :: snapshots v' | None => [] end.

(** Transaction 13 halts; every other one writes a slot, with one event and
    one message to L1. *)
Definition outcome_of (h : H256) : ExecutionResult :=
  if h =? 13 then Halt "out of luck" else Success [].
Definition vm_result (h : H256) : VmResult :=
  mkVmResult (outcome_of h) [] [mkVmEvent 7 [h] []] [mkUserLog 0 true 0 9 h h] [] 500 400 10 100 [].

#[export] Instance vm_api : VmApi (StorageState (Client := unit)) := {|
  vm := Vm;
  vm_new _ _ _ := mkVm [] None;
  vm_inspect_transaction v tx _ :=
    mret (mkBatchTxResult (vm_result (tx_hash tx)) true [], mkVm (tx_hash tx :: executed v) (saved v));
  vm_make_snapshot v := mkVm (executed v) (Some v);
  vm_rollback v := saved v;
  vm_pop_snapshot v := mkVm (executed v) (saved v ≫= saved);
  vm_start_new_l2_block v _ := v;
  vm_finish_batch v := mret (SampleChain.finished, v);
  vm_bootloader v := mret (vm_result 0, v);
  vm_modified_storage_keys v := (λ h, ((100, h), 1)) <$> executed v;
  FinishedL1Batch_mock := SampleChain.finished;
|}.

#[export, refine] Instance vm_laws : VmLaws (StorageState (Client := unit)) := {| vm_snapshots := snapshots |}.
Proof.
  - done.
  - by intros [].
  - by intros [? []].
  - by intros [? [[? []]|]].
  - intros [] tx c s r v' s' [= <- <- <-]. done.
Defined.

#[export] Instance vm_reads : VmReads (Client := unit).
Proof.
  split; intros; simplify_eq/=; by split_and!.
Qed.

#[export] Instance result_api : VmResultApi := {|
  extract_bytecodes_marked_as_known _ := [];
  ACCOUNT_CODE_STORAGE_ADDRESS := 32770;
  CONTRACT_DEPLOYER_ADDRESS := 32774;
  h256_to_address h := h mod 2 ^ 160;
|}.

Definition runner : VmRunner := mkVmRunner false false (Ok tt).
Definition tx (h : H256) : Transaction := Sample.l2 h 5 50000000.
(** A transaction whose fee does not cover the gas price. *)
Definition cheap : Transaction := Sample.l2 14 5 1.
Definition batch_ctx : BlockContext := mkBlockContext 0 1 1 1001 77000.
Definition batch_env : L1BatchEnv :=
  mkL1BatchEnv None 1 1001 (PubdataIndependent (mkPubdataIndependent 1 45250000 1)) 0 None
    (mkL2BlockEnv 1 1001 77000 1).
Definition start : RunState (Client := unit) := mkRun node (mkVm [] None) 0.

Lemma run_tx_batch_witness :
  ∃ r n', run_tx_batch runner (mkTxBatch false [tx 11; tx 13; tx 12]) node = Ret r n' ∧
    tx_hash <$> ((λ tr, info_tx (tr_info tr)) <$> br_tx_results r) = [11; 12] ∧
    l2l1_log_index <$> (br_tx_results r ≫= λ tr, rc_l2_to_l1_logs (tr_receipt tr)) = [0; 1] ∧
    length (br_block_ctxs r) = 2%nat.
Proof.
  assert (H : ∃ r n', run_tx_batch runner (mkTxBatch false [tx 11; tx 13; tx 12]) node = Ret r n' ∧
    tx_hash <$> ((λ tr, info_tx (tr_info tr)) <$> br_tx_results r) = [11; 12] ∧
    length (br_tx_results r ≫= λ tr, rc_l2_to_l1_logs (tr_receipt tr)) = 2%nat)
    by (eexists _, _; split_and!; vm_compute; reflexivity).
  destruct H as (r&n'&Hrun&Htx&Hlen). exists r, n'.
  destruct (run_tx_batch_spec runner false [tx 11; tx 13; tx 12] node n' r Hrun)
    as (c0&_&_&_&_&_&_&Hp&_&Hcl&_).
  split_and!; [exact Hrun|exact Htx| |].
  - rewrite (all_placed_l2_logs _ _ _ _ _ Hp), Hlen. reflexivity.
  - unfold closes_with in Hcl. case_bool_decide as Hb.
    + exfalso. apply (f_equal length) in Htx. rewrite length_fmap in Htx. rewrite Hb in Htx. discriminate.
    + destruct Hcl as (c1&->&_). reflexivity.
Defined.


(** The result of transaction 11 is in the block, its write is not in the VM. *)
Lemma invalid_tx_witness :
  run_txs runner batch_ctx batch_env false 0 [cheap; tx 11] start =
    Throw (GenericError "batch executor panicked") start ∧
  ∃ r s1, run_tx runner (tx 11) 0 batch_ctx batch_env false start = Ret r s1 ∧
    executed (rs_vm s1) = [11] ∧
    ∃ s2, run_txs runner batch_ctx batch_env false 0 [tx 11; cheap] start = Ret [r] s2 ∧
      executed (rs_vm s2) = [].
Proof.
  assert (Hv : ∀ d, common_data cheap = L2 d → ∃ e, validate_tx batch_env d = Err e)
    by (intros d [= <-]; eexists; vm_compute; reflexivity).
  destruct (Hv _ eq_refl) as [e He].
  destruct (invalid_tx_rolls_back_previous runner batch_ctx batch_env false 0 cheap _ e eq_refl He) as [H1 H2].
  split; [exact (H1 start [tx 11] eq_refl)|].
  assert (Hrun : ∃ r s1, run_tx runner (tx 11) 0 batch_ctx batch_env false start = Ret r s1 ∧
    executed (rs_vm s1) = [11]) by (eexists _, _; split; vm_compute; reflexivity).
  destruct Hrun as (r&s1&Hrun&Hex). exists r, s1. split; [exact Hrun|]. split; [exact Hex|].
  eexists. split; [exact (H2 start s1 (tx 11) r Hrun)|reflexivity].
Defined.
End SampleVm.
