(* ===== verification/Executor.v ===== *)
(** * The node executor

    [crates/core/src/node/inner/node_executor.rs]: the one task that changes
    the node.  Its commands are handled one after the other; a command's
    constructor says what it is answered with.

    The executor runs in a task of its own.  When its loop ends with an error
    the task is gone and the handle's requests fail from then on; what a panic
    inside a command leaves behind is not described (the outcome is [Panic]).
    Whether the caller still waits for the answer does not change the node. *)
From S2P Require Import Prelude Types Utils Filters Impersonate Time Pool Cache Fork Storage.
From S2P Require Import FeeModel Blockchain Inner Sealing VmRunner Running.
Local Open Scope Z_scope.

Section Executor.
Context {TA : TransactionApi} {FA : FeeApi} {KA : KeyApi} {CA : ChainApi} {BA : BlockApi} {RA : VmResultApi}.
Context {Client : Type} {R : Remote (Client := Client)}.
Context {VM : VmApi (StorageState (Client := Client))}.
Abbreviation Node := (InMemoryNodeInner (Client := Client)).
Abbreviation NodeMo := (M Node NodeError).

Record NodeExecutor := mkExecutor {
  vm_runner : VmRunner;
  executor_layout : StorageKeyLayout;
}.

(** [Command], indexed by the type of its answer. *)
Inductive Command : Type → Type :=
| SealBlock (tx_batch : TxBatch) : Command (Prelude.result Z NodeError)
| SealBlocks (tx_batches : list TxBatch) (interval : Z) : Command (Prelude.result (list Z) NodeError)
| SetCode (address : Address) (bytecode : Bytes) : Command unit
| SetStorage (key : StorageKey) (value : Z) : Command unit
| SetBalance (address : Address) (balance : Z) : Command unit
| SetNonce (address : Address) (nonce : Z) : Command unit
| ResetFork (url : string) (block_number : option Z) : Command (Prelude.result unit NodeError)
| ResetForkBlockNumber (block_number : Z) : Command (Prelude.result unit NodeError)
| SetForkUrl (url : string) : Command (option string)
| RemoveFork : Command unit
| IncreaseTime (delta : Z) : Command unit
| EnforceNextTimestamp (timestamp : Z) : Command (Prelude.result unit TimestampBackwards)
| SetCurrentTimestamp (timestamp : Z) : Command Z
| SetTimestampInterval (seconds : Z) : Command unit
| RemoveTimestampInterval : Command bool
| EnforceNextBaseFeePerGas (base_fee : Z) : Command unit
| SetProgressReport : Command unit.

(** An operation of the clock that also returns something. *)
Definition on_time {A} (f : TimeState → A * TimeState) : NodeMo A := λ n,
  let '(a, t) := f (time n) in Ret a (set_time t n).

Definition set_fee_provider (p : TestNodeFeeInputProvider) (n : Node) : Node :=
  mkInner (blockchain n) (blockchain_version n) (time n) p (node_filters n) (fork_storage n)
    (fork n) (config n) (system_contracts n) (impersonation n) (rich_accounts n) (previous_states n)
    (storage_key_layout n).

(** A call to a remote, which does not touch the node. *)
Definition io {A} (m : M unit ForkError A) : NodeMo A := λ n,
  match m tt with
  | Ret a _ => Ret a n
  | Throw e _ => Throw (ForkFailed e) n
  | Panic msg => Panic msg
  | Deadlock => Deadlock
  end.

(** [seal_block]: an error of the run ends the executor, an error of the
    sealing goes to the caller. *)
Definition exec_seal_block (self : NodeExecutor) (tx_batch : TxBatch)
    : NodeMo (Prelude.result Z NodeError) :=
  tx_batch_execution_result ← run_tx_batch (vm_runner self) tx_batch;
  capture (seal_block tx_batch_execution_result).

(** The loop of [seal_blocks]. *)
Fixpoint seal_batches (self : NodeExecutor) (interval : Z) (i : nat) (tx_batches : list TxBatch)
    : NodeMo (list Z) :=
  match tx_batches with
  | [] => mret []
  | tx_batch :: tx_batches =>
      (if (i =? 1)%nat then
         on_time (λ t, (tt, set_block_timestamp_interval (Some interval) t))
       else mret tt);;
      tx_batch_execution_result ← run_tx_batch (vm_runner self) tx_batch;
      number ← seal_block tx_batch_execution_result;
      block_numbers ← seal_batches self interval (S i) tx_batches;
      mret (number :: block_numbers)
  end.

(** [seal_blocks] *)
Definition exec_seal_blocks (self : NodeExecutor) (tx_batches : list TxBatch) (interval : Z)
    : NodeMo (Prelude.result (list Z) NodeError) :=
  old_interval ← gets (λ n, get_block_timestamp_interval (time n));
  result ← capture (seal_batches self interval 0 tx_batches);
  on_time (λ t, (tt, set_block_timestamp_interval old_interval t));;
  mret result.

(** [set_code] *)
Definition exec_set_code (address : Address) (bytecode : Bytes) : NodeMo unit :=
  let code_key := get_code_key address in
  let marker := detect_bytecode bytecode in
  let bytecode_hash :=
    match marker with
    | EraVm => hash_for_bytecode bytecode
    | Evm => hash_for_raw_evm_bytecode bytecode
    end in
  let bytecode := match marker with Evm => pad_evm_bytecode bytecode | EraVm => bytecode end in
  modify_storage (store_factory_dep bytecode_hash bytecode);;
  modify_storage (set_value code_key bytecode_hash).

(** [set_storage] *)
Definition exec_set_storage (key : StorageKey) (value : Z) : NodeMo unit :=
  modify_storage (set_value key value).

(** [set_balance] *)
Definition exec_set_balance (self : NodeExecutor) (address : Address) (balance : Z) : NodeMo unit :=
  balance_key ← get_storage_key_for_base_token (executor_layout self) address;
  modify_storage (set_value balance_key balance).

(** [set_nonce] *)
Definition exec_set_nonce (self : NodeExecutor) (address : Address) (nonce : Z) : NodeMo unit :=
  nonce_key ← layout_nonce_key (executor_layout self) address;
  let enforced_full_nonce := nonces_to_full_nonce nonce nonce in
  modify_storage (set_value nonce_key enforced_full_nonce).

(** [reset_fork] *)
Definition exec_reset_fork (url : string) (block_number : option Z)
    : NodeMo (Prelude.result unit NodeError) :=
  capture (
    fork_client ← io (fork_at_block_number (ForkConfig_unknown url) block_number);
    reset (Some fork_client)).

(** [reset_fork_block_number]: the guard taken at the start is still held when
    the lock is taken again. *)
Definition exec_reset_fork_block_number (block_number : Z) : NodeMo (Prelude.result unit NodeError) :=
  capture (
    url ← gets (λ n, fork_url (fork n));
    url ← try_option (GenericError "no existing fork found") url;
    details ← gets (λ n, fork_details (fork n));
    details ← try_option (GenericError "no existing fork found") details;
    fork_client ← io (fork_at_block_number
      (mkForkConfig url (fd_estimate_gas_price_scale_factor details)
         (fd_estimate_gas_scale_factor details)) (Some block_number));
    deadlock).

(** [enforce_next_base_fee_per_gas]; [U256::as_u64] panics. *)
Definition exec_enforce_base_fee (base_fee : Z) : NodeMo unit :=
  base_fee ← (if base_fee <=? u64_max then mret base_fee
              else panic "Integer overflow when casting to u64");
  modify (λ n, set_fee_provider (set_base_fee base_fee (fee_input_provider n)) n).

(** [set_fork_url] *)
Definition exec_set_fork_url (url : string) : NodeMo (option string) :=
  old_url ← gets (λ n, (set_fork_url url (fork n)).1);
  modify (λ n, set_fork (set_fork_url url (fork n)).2 n);;
  mret old_url.

(** [remove_fork] *)
Definition exec_remove_fork : NodeMo unit := reset None.

(** [increase_time] and the other commands of the clock. *)
Definition exec_increase_time (delta : Z) : NodeMo unit :=
  on_time (λ t, (tt, (increase_time delta t).2)).
Definition exec_enforce_next_timestamp (timestamp : Z)
    : NodeMo (Prelude.result unit TimestampBackwards) :=
  on_time (enforce_next_timestamp timestamp).
Definition exec_set_current_timestamp (timestamp : Z) : NodeMo Z :=
  on_time (set_current_timestamp_unchecked timestamp).
Definition exec_set_timestamp_interval (delta : Z) : NodeMo unit :=
  on_time (λ t, (tt, set_block_timestamp_interval (Some delta) t)).
Definition exec_remove_timestamp_interval : NodeMo bool := on_time remove_block_timestamp_interval.

(** The body of the loop of [run]. *)
Definition handle (self : NodeExecutor) {A} (c : Command A) : NodeMo A :=
  match c in Command A return NodeMo A with
  | SealBlock tx_batch => exec_seal_block self tx_batch
  | SealBlocks tx_batches interval => exec_seal_blocks self tx_batches interval
  | SetCode address bytecode => exec_set_code address bytecode
  | SetStorage key value => exec_set_storage key value
  | SetBalance address balance => exec_set_balance self address balance
  | SetNonce address nonce => exec_set_nonce self address nonce
  | ResetFork url block_number => exec_reset_fork url block_number
  | ResetForkBlockNumber block_number => exec_reset_fork_block_number block_number
  | SetForkUrl url => exec_set_fork_url url
  | RemoveFork => exec_remove_fork
  | IncreaseTime delta => exec_increase_time delta
  | EnforceNextTimestamp timestamp => exec_enforce_next_timestamp timestamp
  | SetCurrentTimestamp timestamp => exec_set_current_timestamp timestamp
  | SetTimestampInterval seconds => exec_set_timestamp_interval seconds
  | RemoveTimestampInterval => exec_remove_timestamp_interval
  | EnforceNextBaseFeePerGas base_fee => exec_enforce_base_fee base_fee
  | SetProgressReport => mret tt
  end.

(** ** The executor's task and its handle *)
Record ExecutorTask := mkTask {
  task_node : Node;
  (** [run] has not ended. *)
  task_running : bool;
}.

(** [node_executor_dropped_error], without the name of the action. *)
Definition node_executor_dropped_error (request_or_receive : string) : NodeError :=
  GenericError ("Failed to " +:+ request_or_receive +:+ " because node executor is dropped").

(** [execute_with_response]: the command goes through the channel, is handled
    by the loop of [run] and answered. *)
Definition execute_with_response (self : NodeExecutor) {A} (c : Command A) : M ExecutorTask NodeError A :=
  λ t,
  if task_running t then
    match handle self c (task_node t) with
    | Ret a n => Ret a (mkTask n true)
    | Throw _ n =>
        Throw (node_executor_dropped_error "receive a response to the request to") (mkTask n false)
    | Panic msg => Panic msg
    | Deadlock => Deadlock
    end
  else Throw (node_executor_dropped_error "request to") t.

(** [execute_without_response]: the sender does not see what becomes of it. *)
Definition execute_without_response (self : NodeExecutor) {A} (c : Command A) : M ExecutorTask NodeError unit :=
  λ t,
  if task_running t then
    match handle self c (task_node t) with
    | Ret _ n => Ret tt (mkTask n true)
    | Throw _ n => Ret tt (mkTask n false)
    | Panic msg => Panic msg
    | Deadlock => Deadlock
    end
  else Throw (node_executor_dropped_error "request to") t.

(** The commands whose answer is a result that is passed on with [?]. *)
Definition execute_fallible (self : NodeExecutor) {A} (c : Command (Prelude.result A NodeError))
    : M ExecutorTask NodeError A :=
  r ← execute_with_response self c;
  try_result r.

Definition seal_block_sync (self : NodeExecutor) (tx_batch : TxBatch) : M ExecutorTask NodeError Z :=
  execute_fallible self (SealBlock tx_batch).
Definition seal_blocks_sync (self : NodeExecutor) (tx_batches : list TxBatch) (interval : Z)
    : M ExecutorTask NodeError (list Z) :=
  execute_fallible self (SealBlocks tx_batches interval).
Definition reset_fork_sync (self : NodeExecutor) (url : string) (block_number : option Z)
    : M ExecutorTask NodeError unit :=
  execute_fallible self (ResetFork url block_number).
Definition reset_fork_block_number_sync (self : NodeExecutor) (block_number : Z)
    : M ExecutorTask NodeError unit :=
  execute_fallible self (ResetForkBlockNumber block_number).
Definition enforce_next_timestamp_sync (self : NodeExecutor) (timestamp : Z)
    : M ExecutorTask NodeError (Prelude.result unit TimestampBackwards) :=
  execute_with_response self (EnforceNextTimestamp timestamp).

(** The others send their command and return its answer. *)
Definition seal_block_nowait (self : NodeExecutor) (tx_batch : TxBatch) : M ExecutorTask NodeError unit :=
  execute_without_response self (SealBlock tx_batch).
Definition set_code_sync (self : NodeExecutor) (address : Address) (bytecode : Bytes)
    : M ExecutorTask NodeError unit :=
  execute_with_response self (SetCode address bytecode).
Definition set_storage_sync (self : NodeExecutor) (key : StorageKey) (value : Z)
    : M ExecutorTask NodeError unit :=
  execute_with_response self (SetStorage key value).
Definition set_balance_sync (self : NodeExecutor) (address : Address) (balance : Z)
    : M ExecutorTask NodeError unit :=
  execute_with_response self (SetBalance address balance).
Definition set_nonce_sync (self : NodeExecutor) (address : Address) (nonce : Z)
    : M ExecutorTask NodeError unit :=
  execute_with_response self (SetNonce address nonce).
Definition set_fork_url_sync (self : NodeExecutor) (url : string)
    : M ExecutorTask NodeError (option string) :=
  execute_with_response self (SetForkUrl url).
Definition remove_fork_sync (self : NodeExecutor) : M ExecutorTask NodeError unit :=
  execute_with_response self RemoveFork.
Definition increase_time_sync (self : NodeExecutor) (delta : Z) : M ExecutorTask NodeError unit :=
  execute_with_response self (IncreaseTime delta).
Definition set_current_timestamp_sync (self : NodeExecutor) (timestamp : Z) : M ExecutorTask NodeError Z :=
  execute_with_response self (SetCurrentTimestamp timestamp).
Definition set_block_timestamp_interval_nowait (self : NodeExecutor) (seconds : Z)
    : M ExecutorTask NodeError unit :=
  execute_without_response self (SetTimestampInterval seconds).
Definition remove_block_timestamp_interval_sync (self : NodeExecutor) : M ExecutorTask NodeError bool :=
  execute_with_response self RemoveTimestampInterval.
Definition enforce_next_base_fee_per_gas_sync (self : NodeExecutor) (base_fee : Z)
    : M ExecutorTask NodeError unit :=
  execute_with_response self (EnforceNextBaseFeePerGas base_fee).

(** ** Mining a block *)

(** The storage agrees with the chain about the last block and batch, as the
    system contracts recorded them. *)
Definition env_agrees (n : Node) : Prop :=
  ∃ ts h s', last_env (E := NodeError) (blockchain n) read_value_internal (time n) (fork_storage n, fork n) =
      Ret (current_batch (blockchain n), mkL2Block (current_block (blockchain n)) ts h) s' ∧
    same_view (fork_storage n, fork n) s'.

(** A node that can take a block: its parts are well formed and agree with
    each other, and there is room for two more blocks and timestamps. *)
Record ready (n : Node) : Prop := mkReady {
  rd_chain : chain_wf (blockchain n);
  rd_bounds : current_block (blockchain n) + 2 <= u32_max ∧ current_batch (blockchain n) < u32_max;
  rd_available : node_available n;
  rd_env : env_agrees n;
  rd_time : time_wf (time n);
  rd_interval : interval_opt (time n) ≠ Some 0;
  rd_future : peek_next_timestamp (time n) < u64_max;
  rd_latest latest : blocks (blockchain n) !! current_block_hash (blockchain n) = Some latest →
    b_timestamp latest <= current_timestamp (time n);
}.

(** What is not known about the outcome of a run: the hashes of its blocks
    are new, and its amounts fit their words. *)
Record acceptable (n : Node) (r : TxBatchExecutionResult) : Prop := mkAcceptable {
  ac_fresh c : c ∈ br_block_ctxs r → blocks (blockchain n) !! bc_hash c = None;
  ac_distinct : NoDup (bc_hash <$> br_block_ctxs r);
  ac_v tr v : tr ∈ br_tx_results r → at_v (api_transaction_of_l2 (info_tx (tr_info tr))) = Some v →
    v + 35 + wrapping_mul_u64 (storage_chain_id (fork_storage n)) 2 <= u64_max;
  ac_gas : Forall (λ tr, 0 <= dc_gas_used (tr_debug tr)) (br_tx_results r) ∧
    foldr Z.add 0 ((λ tr, dc_gas_used (tr_debug tr)) <$> br_tx_results r) <= u256_max;
}.

Lemma create_env_agrees (n : Node) env ctx n1 :
  env_agrees n → create_l1_batch_env n = Ret (env, ctx) n1 →
  be_number env = wrapping_add_u32 (current_batch (blockchain n)) 1 ∧
  bc_batch ctx = be_number env ∧
  bc_miniblock ctx = wrapping_add_u64 (current_block (blockchain n)) 1 ∧
  (node_available n → node_available n1).
Proof.
  intros (ts&h&s'&Henv&Hv) H. unfold create_l1_batch_env in H.
  apply bind_Ret in H as (chain&s1&[= <- <-]&H). apply bind_Ret in H as (t&s2&[= <- <-]&H).
  apply bind_Ret in H as ([num last]&s3&H3&H). unfold on_storage, zoom in H3. rewrite Henv in H3.
  injection H3 as <- <- <-. cbv zeta in H. apply bind_Ret in H as (fee&s4&[= <- <-]&H).
  injection H as <- <- <-. split_and!; try done.
  intros Ha. unfold node_available. simpl. destruct s'. by eapply same_view_available.
Qed.

Lemma advance_wf t : time_wf t → time_wf (advance_timestamp t).2.
Proof. intros Hwf. by apply (time_op_preserves_wf TAdvance). Qed.

Lemma mined_follows (n n1 : Node) imp txs r c0 env ctx n0 :
  ready n → ran imp txs n n1 r c0 → acceptable n1 r →
  create_l1_batch_env n = Ret (env, ctx) n0 → env = br_batch_env r → set_bc_hash (bc_hash ctx) c0 = ctx →
  bc_miniblock c0 = current_block (blockchain n) + 1 ∧
  follows n1 (main_block r c0 [] 0 0) (virtual_block_of r).
Proof.
  intros Hr Hran Hac Henv -> Hctx. destruct Hran as (Hhd&Hts&Hbn&_&_&_&_&_&Hcl&[st Hn1]&_).
  destruct (create_env_agrees _ _ _ _ (rd_env _ Hr) Henv) as (Hnum&Hbatch&Hmini&_).
  pose proof (rd_bounds _ Hr) as [Hb1 Hb2].
  pose proof (rd_chain _ Hr) as Hwf. destruct (chain_latest _ Hwf) as (l&Hl&Hln).
  pose proof (wf_block _ Hwf _ _ Hl) as (_&_&Hrange&_).
  pose proof (proj2 (wf_u32 _ Hwf)) as Hcb.
  rewrite wrapping_add_u32_small in Hnum by lia.
  assert (Hm0 : bc_miniblock c0 = current_block (blockchain n) + 1).
  { rewrite <-Hctx in Hmini. simpl in Hmini. rewrite Hmini. apply wrapping_add_u64_small.
    unfold u32_max, u64_max in *. lia. }
  split; [done|].
  assert (Hchain : blockchain n1 = blockchain n) by (by rewrite Hn1).
  pose proof (advance_ge _ (rd_time _ Hr)) as Hge.
  pose proof (rd_future _ Hr) as Hfut. rewrite <-advance_peek in Hfut.
  assert (Hgt : current_timestamp (time n) < (advance_timestamp (time n)).1)
    by (apply advance_gt; [apply Hr|apply Hr|lia]).
  rewrite <-advance_peek in Hts.
  split; rewrite ?Hchain; try done.
  - simpl. by rewrite Hnum.
  - simpl. split; [lia|]. intros latest Hla. pose proof (rd_latest _ Hr _ Hla). lia.
  - rewrite <-Hchain. apply (ac_fresh _ _ Hac). destruct (br_block_ctxs r); [done|]. injection Hhd as ->. left.
  - intros v Hv. unfold virtual_block_of, closes_with in *. case_bool_decide.
    { destruct Hcl as [Hcl _]. by rewrite Hcl in Hv. }
    destruct Hcl as (c1&Hcl&Hc1b&Hc1m&_&Hc1t&_). rewrite Hcl in Hv. injection Hv as <-. simpl.
    pose proof (advance_wf _ (rd_time _ Hr)) as Hwf'.
    pose proof (advance_ge _ Hwf'). rewrite <-advance_peek in Hc1t. split_and!.
    + by rewrite Hnum.
    + rewrite Hc1m, Hm0. unfold saturating_add_u64, u32_max, u64_max in *. lia.
    + rewrite Hc1t, Hts. apply (advance_gt (advance_timestamp (time n)).2); [done|apply (rd_interval _ Hr)|done].
    + lia.
    + rewrite <-Hchain. apply (ac_fresh _ _ Hac). rewrite Hcl. by right; left.
    + pose proof (ac_distinct _ _ Hac) as Hd. rewrite Hcl in Hd. csimpl in *.
      apply NoDup_cons in Hd as [Hd _]. intros Heq. apply Hd. rewrite Heq. left.
Qed.

Section Mining.
Context {VR : VmReads (Client := Client)}.

Lemma mined_sealable self imp txs (n n1 : Node) r :
  ready n → NoDup (tx_hash <$> txs) → run_tx_batch self (mkTxBatch imp txs) n = Ret r n1 →
  acceptable n1 r →
  ∃ c0, ran imp txs n n1 r c0 ∧ bc_miniblock c0 = current_block (blockchain n) + 1 ∧ sealable n1 r c0.
Proof.
  intros Hr Hnd Hrun Hac. destruct (run_tx_batch_Ret _ _ _ _ _ _ Hrun) as (c0&ctx&n0&Hran&Henv&Hctx).
  destruct (mined_follows _ _ _ _ _ _ _ _ _ Hr Hran Hac Henv eq_refl Hctx) as [Hm Hfo].
  exists c0. split; [done|]. split; [done|].
  destruct Hran as (Hhd&_&_&_&_&Hsub&Hall&_&_&[st Hn1]&_). split.
  - done.
  - done.
  - eapply run_tx_batch_available; [done|done|].
    destruct (create_env_agrees _ _ _ _ (rd_env _ Hr) Henv) as (_&_&_&Hk). apply Hk, Hr.
  - intros tr log [k Hk]%list_elem_of_lookup [j Hj]%list_elem_of_lookup.
    destruct (all_placed_lookup _ _ _ _ _ _ _ Hall Hk) as [? Hp].
    destruct (pl_logs _ _ _ _ _ _ Hp j log Hj) as (_&_&_&->&_). eauto.
  - apply (ac_v _ _ Hac).
  - apply (ac_gas _ _ Hac).
  - assert (Hh : (λ tr, rc_transaction_hash (tr_receipt tr)) <$> br_tx_results r =
      tx_hash <$> ((λ tr, info_tx (tr_info tr)) <$> br_tx_results r)).
    { rewrite <-list_fmap_compose. apply list_fmap_ext. intros k tr Hk. simpl.
      destruct (all_placed_lookup _ _ _ _ _ _ _ Hall Hk) as [? Hp]. apply (pl_hash _ _ _ _ _ _ Hp). }
    rewrite Hh. eapply sublist_NoDup; [exact Hnd|]. by apply fmap_sublist.
Qed.

(** A request for a block runs and seals it. *)
Lemma seal_command_run (self : NodeExecutor) (imp : bool) (txs : list Transaction) (n n1 : Node)
    (r : TxBatchExecutionResult) :
  ready n → NoDup (tx_hash <$> txs) →
  run_tx_batch (vm_runner self) (mkTxBatch imp txs) n = Ret r n1 → acceptable n1 r →
  ∃ n2 c0 block, handle self (SealBlock (mkTxBatch imp txs)) n = Ret (Ok (current_block (blockchain n) + 1)) n2 ∧
    bc_miniblock c0 = current_block (blockchain n) + 1 ∧ blockchain n1 = blockchain n ∧
    ran imp txs n n1 r c0 ∧ sealed n1 n2 r c0 block.
Proof.
  intros Hr Hnd Hrun Hac. destruct (mined_sealable _ _ _ _ _ _ Hr Hnd Hrun Hac) as (c0&Hran&Hm&Hs).
  destruct (seal_block_sealed _ _ _ Hs) as (n2&block&Hseal&Hsealed).
  exists n2, c0, block. split_and!; try done.
  - simpl. unfold exec_seal_block. step_m ltac:(exact Hrun). unfold capture. by rewrite Hseal, Hm.
  - by destruct Hran as (_&_&_&_&_&_&_&_&_&[st ->]&_).
Qed.

(** How many blocks a sealed batch adds. *)
Lemma ran_blocks imp txs (n n1 : Node) r c0 :
  ran imp txs n n1 r c0 →
  (match virtual_block_of r with Some _ => 2 | None => 1 end) =
  (if bool_decide (length (br_tx_results r) = 0%nat) then 1 else 2).
Proof.
  intros (_&_&_&_&_&_&_&_&Hcl&_). rewrite length_fmap in Hcl. unfold virtual_block_of, closes_with in *.
  case_bool_decide.
  - by destruct Hcl as [-> _].
  - by destruct Hcl as (c1&->&_).
Qed.

(** What a run included was asked for, under its own hash. *)
Lemma ran_included imp txs (n n1 : Node) r c0 tr :
  ran imp txs n n1 r c0 → tr ∈ br_tx_results r →
  info_tx (tr_info tr) ∈ txs ∧ rc_transaction_hash (tr_receipt tr) = tx_hash (info_tx (tr_info tr)).
Proof.
  intros (_&_&_&_&_&Hsub&Hall&_) Htr. pose proof Htr as [k Hk]%list_elem_of_lookup.
  destruct (all_placed_lookup _ _ _ _ _ _ _ Hall Hk) as [? Hp]. split.
  - eapply elem_of_sublist; [|exact Hsub]. by apply (list_elem_of_fmap_2 (λ tr, info_tx (tr_info tr))).
  - apply (pl_hash _ _ _ _ _ _ Hp).
Qed.

(** C1: mining a block.  On a node whose parts agree with each other, a batch
    whose run succeeds is sealed: the caller gets the number after the current
    block, the chain is well formed and grew by that block (and the virtual
    block unless the batch was empty) and by one batch; every transaction that
    was included is found by its hash with its result; storage reads as the
    run left it under the writes of the batch; and the clock stands at the
    timestamp of the last block, so the next block is later. *)
Theorem mine_block_spec (self : NodeExecutor) (imp : bool) (txs : list Transaction) (n n1 : Node)
    (r : TxBatchExecutionResult) :
  ready n → NoDup (tx_hash <$> txs) →
  run_tx_batch (vm_runner self) (mkTxBatch imp txs) n = Ret r n1 → acceptable n1 r →
  ∃ n2, handle self (SealBlock (mkTxBatch imp txs)) n = Ret (Ok (current_block (blockchain n) + 1)) n2 ∧
    chain_wf (blockchain n2) ∧
    current_block (blockchain n2) =
      current_block (blockchain n) + (if bool_decide (length (br_tx_results r) = 0%nat) then 1 else 2) ∧
    current_batch (blockchain n2) = current_batch (blockchain n) + 1 ∧
    (∀ tr, tr ∈ br_tx_results r →
       info_tx (tr_info tr) ∈ txs ∧
       tx_results (blockchain n2) !! tx_hash (info_tx (tr_info tr)) = Some tr) ∧
    (∀ k, view (fork_storage n2, fork n2) k =
       match modified_get (br_modified_storage_keys r) k with
       | Some v => Ok v
       | None => view (fork_storage n1, fork n1) k
       end) ∧
    (∀ latest, blocks (blockchain n2) !! current_block_hash (blockchain n2) = Some latest →
       b_timestamp latest = current_timestamp (time n2)).
Proof.
  intros Hr Hnd Hrun Hac.
  destruct (seal_command_run _ _ _ _ _ _ Hr Hnd Hrun Hac) as (n2&c0&block&Hseal&Hm&Hchain&Hran&Hsealed).
  destruct Hsealed as (Hwf&Hcur&Hbatch&Hblk&Hlast&Hin&_&Hview&_&Ht&_).
  rewrite Hchain in Hcur, Hbatch. exists n2. split_and!; try done.
  - rewrite Hcur. f_equal. by eapply ran_blocks.
  - intros tr Htr. destruct (ran_included _ _ _ _ _ _ _ Hran Htr) as [? <-]. eauto.
  - rewrite Hlast. intros latest [= <-]. rewrite Ht.
    destruct Hran as (Hhd&Hts&_&_&_&_&_&_&Hcl&_). rewrite length_fmap in Hcl.
    unfold virtual_block_of, closes_with in *. case_bool_decide.
    + destruct Hcl as [-> ->]. simpl. destruct Hblk as (_&_&_&->&_). by rewrite Hts.
    + by destruct Hcl as (c1&->&_&_&_&->&_&->).
Qed.
End Mining.

(** ** How the executor ends *)
Lemma no_throw_capture {S E E' A} (m : M S E A) s (e : E') s' : capture m s ≠ Throw e s'.
Proof. unfold capture. by destruct (m s). Qed.

Lemma no_throw_set_rich address balance : no_throw (set_rich_account (Client := Client) address balance).
Proof.
  apply no_throw_bind; [auto with node|intros l]. apply no_throw_bind; [destruct l; simpl; auto with node|].
  intros k. apply no_throw_bind; [apply no_throw_modify|intros; apply no_throw_modify].
Qed.

Lemma no_throw_for_each {S E A} (body : A → M S E unit) l :
  (∀ x, no_throw (body x)) → no_throw (for_each body l).
Proof.
  intros Hb. induction l as [|x l IH]; simpl; [auto with node|].
  apply no_throw_bind; [apply Hb|by intros _].
Qed.

Lemma no_throw_reset client : no_throw (reset (Client := Client) client).
Proof.
  unfold reset. cbv zeta.
  do 7 (apply no_throw_bind; [apply no_throw_modify|intros _]).
  apply no_throw_bind; [apply no_throw_gets|intros c].
  apply no_throw_for_each. intros; apply no_throw_set_rich.
Qed.

Lemma no_throw_Throw {S E A} (m : M S E A) s e s' : no_throw m → m s ≠ Throw e s'.
Proof. intros Hm H. destruct (Hm s) as [(?&?&?)|(?&?)]; congruence. Qed.

(** Only a request to seal a block ends the executor. *)
Lemma handle_Throw self A (c : Command A) (n : Node) e n' :
  handle self c n = Throw e n' →
  ∃ b, existT A c = existT _ (SealBlock b) ∧ run_tx_batch (vm_runner self) b n = Throw e n'.
Proof.
  destruct c; simpl; intros H; try discriminate H.
  - unfold exec_seal_block in H. apply bind_Throw in H as [H|(r&n1&_&H)]; [eauto|].
    by apply no_throw_capture in H.
  - unfold exec_seal_blocks in H. apply bind_Throw in H as [H|(o&n1&[= <- <-]&H)]; [done|].
    apply bind_Throw in H as [H|(r&n1&_&H)]; [by apply no_throw_capture in H|].
    apply bind_Throw in H as [H|(u&n2&_&H)]; done.
  - unfold exec_set_balance in H. apply bind_Throw in H as [H|(k&n1&_&H)]; [|done].
    by destruct (executor_layout self).
  - unfold exec_set_nonce in H. apply bind_Throw in H as [H|(k&n1&_&H)]; [|done].
    by destruct (executor_layout self).
  - by apply no_throw_capture in H.
  - by apply no_throw_capture in H.
  - by apply no_throw_Throw in H; [|apply no_throw_reset].
  - unfold exec_enforce_next_timestamp, on_time in H. by destruct (enforce_next_timestamp _ _).
  - unfold exec_enforce_base_fee in H. apply bind_Throw in H as [H|(k&n1&_&H)]; [|done].
    by destruct (_ <=? _).
Qed.


Section Invalid.
Context {L : VmLaws (StorageState (Client := Client))}.

(** One transaction whose fee is too low stops the node: when it is the
    first of a batch, the run of the batch fails, the caller gets an error,
    and the executor is gone for every later request. *)
Theorem invalid_tx_stops_executor (self : NodeExecutor) (imp : bool) (tx : Transaction)
    (txs : list Transaction) (d : L2TxCommonData) (e : TransactionValidationError) (n n0 : Node)
    (env : L1BatchEnv) (ctx : BlockContext) :
  create_l1_batch_env n = Ret (env, ctx) n0 →
  common_data tx = L2 d → validate_tx env d = Err e →
  ∃ n', seal_block_sync self (mkTxBatch imp (tx :: txs)) (mkTask n true) =
      Throw (node_executor_dropped_error "receive a response to the request to") (mkTask n' false) ∧
    blockchain n' = blockchain n ∧
    ∀ B (c : Command B), execute_with_response self c (mkTask n' false) =
      Throw (node_executor_dropped_error "request to") (mkTask n' false).
Proof.
  intros Henv Hd He.
  set (n1 := set_time (advance_timestamp (time n0)).2 n0).
  assert (Hbc : blockchain n1 = blockchain n).
  { by apply create_l1_batch_env_Ret in Henv as [[st ->] _]. }
  assert (Hrun : run_tx_batch (vm_runner self) (mkTxBatch imp (tx :: txs)) n =
    Throw (GenericError "batch executor panicked") n1).
  { unfold run_tx_batch. step_m ltac:(reflexivity).
    assert (Hb : ∃ base, contracts (E := NodeError) (system_contracts n) VerifyExecute imp n = Ret base n)
      by (destruct imp; eexists; reflexivity).
    destruct Hb as [base Hb]. step_m ltac:(exact Hb). cbv zeta. step_m ltac:(reflexivity).
    step_m ltac:(exact Henv). cbv iota. step_m ltac:(reflexivity). step_m ltac:(reflexivity).
    pose proof (create_l1_batch_env_Ret _ _ _ _ Henv) as ([st Hn0]&Hts&_).
    assert (Ht : (advance_timestamp (time n0)).1 = bc_timestamp ctx).
    { rewrite advance_peek, Hn0, Hts. done. }
    step_m ltac:(rewrite Ht, Z.eqb_refl; reflexivity).
    unfold with_executor. unfold mbind at 1, M_bind at 1.
    match goal with |- context [run_txs ?a ?b ?c ?i ?j ?l ?s] =>
      rewrite (run_txs_invalid a b c i j tx d e txs s Hd He) by apply vm_new_snapshots end.
    done. }
  exists n1. split_and!; [|done|done].
  unfold seal_block_sync, execute_fallible, mbind, M_bind, execute_with_response. simpl.
  unfold exec_seal_block, mbind, M_bind. by rewrite Hrun.
Qed.
End Invalid.

(** ** Single commands *)

(** Moving a fork to another block never ends: with a fork whose endpoint
    answers, the executor waits for a lock it holds itself; without a fork the
    request fails and changes nothing. *)
Theorem reset_fork_block_number_deadlocks (self : NodeExecutor) (number : Z) (n : Node) :
  match fork_client (fork n) with
  | None => handle self (ResetForkBlockNumber number) n = Ret (Err (GenericError "no existing fork found")) n
  | Some c =>
      ∀ new, fork_at_block_number
          (mkForkConfig (client_url c) (fd_estimate_gas_price_scale_factor (client_details c))
             (fd_estimate_gas_scale_factor (client_details c))) (Some number) tt = Ret new tt →
        handle self (ResetForkBlockNumber number) n = Deadlock
  end.
Proof.
  destruct (fork_client (fork n)) as [c|] eqn:Hc.
  - intros new Hnew. simpl. unfold exec_reset_fork_block_number, capture.
    step_m ltac:(reflexivity). unfold fork_url. rewrite Hc. step_m ltac:(reflexivity).
    step_m ltac:(reflexivity). unfold fork_details. rewrite Hc. step_m ltac:(reflexivity).
    step_m ltac:(unfold io; simpl; rewrite Hnew; reflexivity). done.
  - simpl. unfold exec_reset_fork_block_number, capture.
    step_m ltac:(reflexivity). unfold fork_url. by rewrite Hc.
Qed.

(** The commands that write to the storage: afterwards the slot reads as
    the value given (for code, the hash of the bytecode under its marker, and
    the bytecode, padded for EVM, is what the hash loads), every other slot
    reads as before, and nothing else of the node changes. *)
Theorem storage_commands_spec (self : NodeExecutor) (n : Node) :
  executor_layout self = ZkEra →
  (∀ c key v,
     c = SetStorage key v ∨
     (∃ a, c = SetBalance a v ∧ key = storage_key_for_eth_balance a) ∨
     (∃ a nonce, c = SetNonce a nonce ∧ key = get_nonce_key a ∧ v = nonces_to_full_nonce nonce nonce) ∨
     (∃ a code, c = SetCode a code ∧ key = get_code_key a ∧
        v = match detect_bytecode code with
            | EraVm => hash_for_bytecode code
            | Evm => hash_for_raw_evm_bytecode code
            end) →
     ∃ n', handle self c n = Ret tt n' ∧ same_but_storage n n' ∧ fork n' = fork n ∧
       ∀ k, view (fork_storage n', fork n') k =
            if decide (k = key) then Ok v else view (fork_storage n, fork n) k) ∧
  (∀ a code n', handle self (SetCode a code) n = Ret tt n' →
     ∃ h, view (fork_storage n', fork n') (get_code_key a) = Ok h ∧
       code_view (fork_storage n', fork n') h =
         Ok (Some match detect_bytecode code with EraVm => code | Evm => pad_evm_bytecode code end)).
Proof.
  intros Hlay.
  assert (Hset : ∀ st key v k, view (set_value key v st, fork n) k =
    if decide (k = key) then Ok v else view (st, fork n) k).
  { intros st key v k. apply (set_value_view key v (st, fork n) k). }
  split.
  - intros c key v Hc. destruct Hc as [->|[(a&->&->)|[(a&nonce&->&->&->)|(a&code&->&->&->)]]].
    1-3: (eexists; split; [simpl; unfold exec_set_storage, exec_set_balance, exec_set_nonce; rewrite ?Hlay;
      first [reflexivity|step_m ltac:(reflexivity); reflexivity]|];
      split; [by eexists|]; split; [done|]; intros k; apply Hset).
    simpl. unfold exec_set_code. cbv zeta. eexists. split; [reflexivity|]. split; [by eexists|].
    split; [done|]. intros k. simpl. rewrite Hset. by case_decide.
  - intros a code n' [= <-]. eexists. split; [simpl; rewrite Hset, decide_True by done; reflexivity|].
    simpl.
    match goal with |- code_view (set_value ?k ?v (store_factory_dep ?h ?c ?st), ?fk) _ = _ =>
      change (code_view (store_factory_dep h c st, fk) h = Ok (Some c));
      rewrite (store_factory_dep_view h c (st, fk) h) end.
    by rewrite decide_True.
Qed.
End Executor.

(** ** A node that mines with the sample VM *)
Module SampleExecutor.
Export SampleVm.

Definition exec : NodeExecutor := mkExecutor runner ZkEra.

Lemma node_env_agrees : env_agrees node.
Proof.
  exists 1000, 77000, (view_cached (get_system_context_key SYSTEM_CONTEXT_BLOCK_INFO_POSITION) 0
    (fork_storage node, fork node)).
  split; [vm_compute; reflexivity|]. split_and!; try reflexivity.
  intros k. apply view_cached_view. vm_compute. reflexivity.
Qed.

Lemma node_ready : ready node.
Proof.
  split.
  - exact node_wf.
  - by vm_compute.
  - exact SampleNode.node_available.
  - exact node_env_agrees.
  - by apply (time_op_preserves_wf (TReset 1000) (Time_new 0)); [split_and!|].
  - done.
  - by vm_compute.
  - intros latest H. vm_compute in H. injection H as <-. vm_compute. discriminate.
Qed.

Definition batch : list Transaction := [tx 11; tx 13; tx 12].

(** The run of the batch, evaluated. *)
Definition ran_batch : option (TxBatchExecutionResult * InMemoryNodeInner (Client := unit)) :=
  match run_tx_batch runner (mkTxBatch false batch) node with Ret r n => Some (r, n) | _ => None end.

Lemma mine_block_witness :
  ∃ n2, handle exec (SealBlock (mkTxBatch false batch)) node = Ret (Ok 1) n2 ∧
    current_block (blockchain n2) = 2.
Proof.
  destruct ran_batch as [[r n1]|] eqn:H; [|exfalso; vm_compute in H; discriminate H].
  assert (Hrun : run_tx_batch runner (mkTxBatch false batch) node = Ret r n1).
  { unfold ran_batch in H. destruct (run_tx_batch _ _ node) eqn:Hr; try discriminate H.
    injection H as <- <-. reflexivity. }
  destruct (mine_block_spec exec false batch node n1 r node_ready) as (n2&H1&_&H2&_).
  - apply (bool_decide_unpack _). vm_compute. exact I.
  - exact Hrun.
  - vm_compute in H. injection H as <- <-. split.
    + intros c Hc. repeat (apply elem_of_cons in Hc as [->|Hc]; [vm_compute; reflexivity|]).
      exact (False_ind _ (not_elem_of_nil _ Hc)).
    + apply (bool_decide_unpack _). vm_compute. exact I.
    + intros tr v Htr Hv. repeat (apply elem_of_cons in Htr as [->|Htr]; [discriminate Hv|]).
      exact (False_ind _ (not_elem_of_nil _ Htr)).
    + split; [repeat constructor; vm_compute; discriminate|vm_compute; discriminate].
  - exists n2. split; [exact H1|]. rewrite H2. vm_compute in H. injection H as <- <-. reflexivity.
Defined.

Lemma invalid_tx_stops_witness :
  ∃ n', seal_block_sync exec (mkTxBatch false [cheap; tx 11]) (mkTask node true) =
      Throw (node_executor_dropped_error "receive a response to the request to") (mkTask n' false) ∧
    execute_with_response exec (IncreaseTime 5) (mkTask n' false) =
      Throw (node_executor_dropped_error "request to") (mkTask n' false).
Proof.
  assert (Henv : ∃ env ctx n0, create_l1_batch_env node = Ret (env, ctx) n0 ∧
    input_fair_l2_gas_price (be_fee_input env) = 45250000)
    by (eexists _, _, _; split; [vm_compute; reflexivity|reflexivity]).
  destruct Henv as (env&ctx&n0&Henv&Hprice).
  destruct (invalid_tx_stops_executor exec false cheap [tx 11] _
    (MaxFeePerGasTooLow 1 45250000) node n0 env ctx Henv eq_refl) as (n'&H1&_&H2).
  - unfold validate_tx. rewrite Hprice. reflexivity.
  - exists n'. split; [exact H1|]. apply H2.
Defined.

Lemma storage_commands_witness :
  ∃ n', handle exec (SetBalance 77 5) node = Ret tt n' ∧
    view (fork_storage n', fork n') (storage_key_for_eth_balance 77) = Ok 5.
Proof.
  destruct (storage_commands_spec exec node eq_refl) as [H _].
  destruct (H (SetBalance 77 5) (storage_key_for_eth_balance 77) 5) as (n'&H1&_&_&H2).
  - right; left. exists 77. split; reflexivity.
  - exists n'. split; [exact H1|]. rewrite H2. reflexivity.
Defined.

(** A node on a fork: the request to move it never returns. *)
Definition forked : InMemoryNodeInner (Client := unit) :=
  init (Some SampleRemote.client) default_provider empty_filters cfg default_impersonation system ZkEra
    empty_disk.

Lemma reset_fork_block_number_witness :
  handle exec (ResetForkBlockNumber 3) forked = Deadlock.
Proof.
  pose proof (reset_fork_block_number_deadlocks exec 3 forked) as H. simpl in H.
  eapply H. vm_compute. reflexivity.
Defined.

(** Two blocks asked for in one request: the virtual block of the first comes
    in between. *)
Example seal_blocks_numbers :
  match seal_blocks_sync exec [mkTxBatch false [tx 11]; mkTxBatch false [tx 12]] 5 (mkTask node true) with
  | Ret numbers _ => numbers = [1; 3]
  | _ => False
  end.
Proof. vm_compute. reflexivity. Qed.
End SampleExecutor.
