(* ===== verification/GasEstim.v ===== *)
(** * Gas estimation

    [estimate_gas_impl], [estimate_l1_to_l2_gas_impl] and what they call in
    [crates/core/src/node/inner/in_memory_inner.rs].

    The VM that tries a transaction is an interface ([SandboxVm]); floats are
    the IEEE floats of the standard library, so that the scaling of the
    estimate is computed as the code computes it.  What is printed on
    the way is left to [Reports.v]. *)
From S2P Require Import Prelude Types Utils Filters Impersonate Time Cache Fork Storage.
From S2P Require Import FeeModel Blockchain Inner Sealing.
From Stdlib Require Import SpecFloat.
Local Open Scope Z_scope.

(** ** [f32] *)
Definition f32_of_u64 (n : Z) : f32 := binary_normalize 24 128 n 0 false.
Definition f32_mul (x y : f32) : f32 := SFmul 24 128 x y.

(** [x as u64]: towards zero, saturating. *)
Definition f32_as_u64 (x : f32) : Z :=
  match x with
  | S754_zero _ | S754_nan => 0
  | S754_infinity s => if s then 0 else u64_max
  | S754_finite s m e =>
      if s then 0
      else Z.min u64_max (if 0 <=? e then Z.pos m * 2 ^ e else Z.pos m / 2 ^ (- e))
  end.

(** ** Requests ([CallRequest], [L2Tx], [L1Tx] of [zksync_types]) *)
Record Eip712Meta := mkEip712 {
  em_gas_per_pubdata : Z;
  em_factory_deps : list Bytes;
  em_custom_signature : option Bytes;
  em_paymaster_params : option (Address * Bytes);
}.

Record CallRequest := mkCallRequest {
  cr_from : option Address;
  cr_to : option Address;
  cr_gas : option Z;
  cr_gas_price : option Z;
  cr_max_fee_per_gas : option Z;
  cr_max_priority_fee_per_gas : option Z;
  cr_value : option Z;
  cr_data : option Bytes;
  cr_nonce : option Z;
  cr_transaction_type : option Z;
  cr_eip712_meta : option Eip712Meta;
}.

Record L2Tx := mkL2Tx {
  l2tx_common : L2TxCommonData;
  l2tx_execute : Execute;
  l2tx_received : Z;
  l2tx_raw : option Bytes;
}.

Definition tx_of_l2 (t : L2Tx) : Transaction :=
  mkTransaction (L2 (l2tx_common t)) (l2tx_execute t) (l2tx_received t) (l2tx_raw t).

Definition MAX_TX_SIZE : Z := 1200000.
Definition ESTIMATE_GAS_ACCEPTABLE_OVERESTIMATION : Z := 1000.

(** Functions and constants of [zksync_types] and [zksync_multivm]. *)
Class EstimationApi := {
  L2Tx_from_request : CallRequest → Z → bool → Prelude.result L2Tx string;
  (** The transaction of [L1Tx::from_request]. *)
  L1Tx_from_request : CallRequest → bool → Prelude.result Transaction string;
  get_max_gas_per_pubdata_byte : Z;
  adjust_pubdata_price_for_tx : BatchFeeInput → Z → BatchFeeInput;
  derive_base_fee_and_gas_per_pubdata : BatchFeeInput → Z * Z;
  derive_overhead : Z → Z → Z → Z → Z;
  MAX_L2_TX_GAS_LIMIT : Z;
  MAX_VM_PUBDATA_PER_BATCH : Z;
}.

(** A VM on a view of the storage with some writes on top, which runs one
    transaction, with or without recording its calls. *)
Class SandboxVm (S : Type) := {
  vm_inspect_one {E} :
    L1BatchEnv → SystemEnv → option InMemoryStorage → list (StorageKey * StorageValue) →
    Transaction → bool → M S E (VmResult * list Call);
}.

(** ** The code *)
Section Estimation.
Context {TA : TransactionApi} {FA : FeeApi} {KA : KeyApi} {CA : ChainApi} {BA : BlockApi} {EA : EstimationApi}.
Context {Client : Type} {R : Remote (Client := Client)}.
Context {SV : SandboxVm (StorageState (Client := Client))}.
Abbreviation Node := (InMemoryNodeInner (Client := Client)).
Abbreviation NodeMo := (M Node NodeError).

Definition OVERFLOW : string := "arithmetic operation overflow".

Definition set_l2_fee (fee : Fee) (d : L2TxCommonData) : L2TxCommonData :=
  mkL2Data (l2_nonce d) fee (l2_initiator_address d) (l2_signature d) (l2_transaction_type d) (l2_input d).
Definition set_common (c : ExecuteTransactionCommon) (tx : Transaction) : Transaction :=
  mkTransaction c (execute tx) (received_timestamp_ms tx) (raw_bytes tx).

(** The gas limit of the attempt, and for an L1 transaction the funds it
    mints. *)
Definition with_gas_limit (limit : Z) (tx : Transaction) : NodeMo Transaction :=
  match common_data tx with
  | L1 d =>
      funds ← expect OVERFLOW (checked_mul_u256 limit (l1_max_fee_per_gas d));
      required_funds ← expect "called `Option::unwrap()` on a `None` value"
        (checked_add_u256 funds (value (execute tx)));
      mret (set_common (L1 (mkL1Data limit (l1_max_fee_per_gas d) required_funds (l1_onchain_data d))) tx)
  | L2 d =>
      let fee := l2_fee d in
      mret (set_common (L2 (set_l2_fee (mkFee limit (max_fee_per_gas fee) (max_priority_fee_per_gas fee)
              (gas_per_pubdata_limit fee)) d)) tx)
  | ProtocolUpgrade _ => panic "not implemented"
  end.

(** What the payer may have to pay. *)
Definition added_balance (tx : Transaction) : NodeMo Z :=
  match common_data tx with
  | L1 d => expect OVERFLOW (checked_mul_u256 (l1_gas_limit d) (l1_max_fee_per_gas d))
  | L2 d => expect OVERFLOW (checked_mul_u256 (gas_limit (l2_fee d)) (max_fee_per_gas (l2_fee d)))
  | ProtocolUpgrade _ => panic "not implemented"
  end.

(** [estimate_gas_step] *)
Definition estimate_gas_step (tx : Transaction) (gas_per_pubdata_byte tx_gas_limit : Z)
    (batch_env : L1BatchEnv) (system_env : SystemEnv) (trace_calls : bool) : NodeMo (VmResult * list Call) :=
  let gas_limit_with_overhead :=
    wrapping_add_u64 tx_gas_limit
      (derive_overhead tx_gas_limit (as_u32 gas_per_pubdata_byte) (encoding_len tx) (tx_format tx mod 2 ^ 8)) in
  tx ← with_gas_limit gas_limit_with_overhead tx;
  layout ← gets storage_key_layout;
  balance_key ← get_storage_key_for_base_token layout (payer tx);
  current_balance ← on_storage (read_value_internal balance_key);
  added ← added_balance tx;
  current_balance ← expect OVERFLOW (checked_add_u256 current_balance added);
  all_values ← gets (λ n : Node,
    if use_boojum (system_contracts n) then Some (raw_storage (fork_storage n)) else None);
  on_storage (vm_inspect_one batch_env system_env all_values [(balance_key, current_balance)] tx trace_calls).

(** [check_if_executable] *)
Definition check_if_executable (tx : Transaction) (gas_per_pubdata_byte : Z) (batch_env : L1BatchEnv)
    (system_env : SystemEnv) : NodeMo VmResult :=
  r ← estimate_gas_step tx gas_per_pubdata_byte
        (wrapping_add_u64 MAX_L2_TX_GAS_LIMIT (wrapping_mul_u64 MAX_VM_PUBDATA_PER_BATCH gas_per_pubdata_byte))
        batch_env system_env true;
  let failed e := throw (TransactionGasEstimationFailed e (default [] (raw_bytes tx))) in
  match vr_result r.1 with
  | Success _ => mret r.1
  | Revert output => failed (TransactionAlwaysReverts output)
  | Halt reason => failed (TransactionAlwaysHalts reason)
  end.

(** The binary search.  Every round halves the distance of the bounds, so 64
    rounds are enough for [u64] bounds; without fuel it would go on. *)
Fixpoint search_gas_limit (attempt : Z → NodeMo bool) (fuel : nat) (lower_bound upper_bound : Z) : NodeMo Z :=
  match fuel with
  | O => deadlock
  | S fuel =>
      if wrapping_add_u64 lower_bound ESTIMATE_GAS_ACCEPTABLE_OVERESTIMATION <? upper_bound then
        let mid := wrapping_add_u64 lower_bound upper_bound / 2 in
        failed ← attempt mid;
        if (failed : bool) then search_gas_limit attempt fuel (wrapping_add_u64 mid 1) upper_bound
        else search_gas_limit attempt fuel lower_bound mid
      else mret upper_bound
  end.

Definition SEARCH_FUEL : nat := 65.

(** The fee fields of the transaction, set to the base fee. *)
Definition with_base_fee (base_fee : Z) (tx : Transaction) : NodeMo Transaction :=
  match common_data tx with
  | L1 d => mret (set_common (L1 (mkL1Data (l1_gas_limit d) base_fee (l1_to_mint d) (l1_onchain_data d))) tx)
  | L2 d =>
      mret (set_common (L2 (set_l2_fee (mkFee (gas_limit (l2_fee d)) base_fee base_fee
              (gas_per_pubdata_limit (l2_fee d))) d)) tx)
  | ProtocolUpgrade _ => panic "not implemented"
  end.

Definition set_fee_input (i : BatchFeeInput) (e : L1BatchEnv) : L1BatchEnv :=
  mkL1BatchEnv (be_previous_batch_hash e) (be_number e) (be_timestamp e) i (be_fee_account e)
    (be_enforced_base_fee e) (be_first_l2_block e).

(** The gas for pubdata, known from one execution with plenty of gas. *)
Definition pubdata_gas (tx : Transaction) (gas_per_pubdata_byte : Z) (batch_env : L1BatchEnv)
    (system_env : SystemEnv) : NodeMo Z :=
  match common_data tx with
  | L1 _ => mret 0
  | _ =>
      result ← check_if_executable tx gas_per_pubdata_byte batch_env system_env;
      if as_u32 MAX_VM_PUBDATA_PER_BATCH <? vr_pubdata_published result then
        throw (TransactionGasEstimationFailed
          (ExceedsLimitForPublishedPubdata (vr_pubdata_published result) (as_u32 MAX_VM_PUBDATA_PER_BATCH))
          (default [] (raw_bytes tx)))
      else mret (wrapping_mul_u64 (vr_pubdata_published result) gas_per_pubdata_byte)
  end.

(** One attempt of the search: did it fail? *)
Definition attempt_gas (tx : Transaction) (gas_per_pubdata_byte additional : Z) (batch_env : L1BatchEnv)
    (system_env : SystemEnv) (mid : Z) : NodeMo bool :=
  r ← estimate_gas_step tx gas_per_pubdata_byte (wrapping_add_u64 additional mid) batch_env system_env false;
  mret (is_failed (vr_result r.1)).

(** The end of [estimate_gas_inner]: the fee, or why there is none. *)
Definition estimation_result (tx : Transaction) (result : ExecutionResult)
    (suggested_gas_limit overhead base_fee gas_per_pubdata_byte additional_gas_for_pubdata tx_body_gas_limit : Z)
    : NodeMo Fee :=
  let failed e := throw (TransactionGasEstimationFailed e (default [] (raw_bytes tx))) in
  match result with
  | Revert output => failed (EstimationRevert output)
  | Halt reason => failed (EstimationHalt reason)
  | Success _ =>
      if suggested_gas_limit + overhead <=? u64_max then
        mret (mkFee (suggested_gas_limit + overhead) base_fee 0 gas_per_pubdata_byte)
      else failed (ExceedsBlockGasLimit overhead additional_gas_for_pubdata tx_body_gas_limit)
  end.

(** [estimate_gas_inner] *)
Definition estimate_gas_inner (tx : Transaction) : NodeMo Fee :=
  provider ← gets fee_input_provider;
  let fee_input :=
    adjust_pubdata_price_for_tx (get_batch_fee_input_scaled provider) (gas_per_pubdata_byte_limit tx) in
  let '(base_fee, gas_per_pubdata_byte) := derive_base_fee_and_gas_per_pubdata fee_input in
  tx ← with_base_fee base_fee tx;
  env ← create_l1_batch_env;
  let batch_env := set_fee_input fee_input env.1 in
  impersonating ← gets (λ n, is_impersonating (impersonation n) (initiator_account tx));
  sc ← gets system_contracts;
  base ← contracts_for_fee_estimate sc impersonating;
  system_env ← gets (λ n, create_system_env n base EstimateFee);
  additional_gas_for_pubdata ← pubdata_gas tx gas_per_pubdata_byte batch_env system_env;
  upper_bound ← search_gas_limit
    (attempt_gas tx gas_per_pubdata_byte additional_gas_for_pubdata batch_env system_env)
    SEARCH_FUEL 0 MAX_L2_TX_GAS_LIMIT;
  let suggested_gas_limit :=
    f32_as_u64 (f32_mul (f32_of_u64 (wrapping_add_u64 upper_bound additional_gas_for_pubdata))
      (estimate_gas_scale_factor provider)) in
  r ← estimate_gas_step tx gas_per_pubdata_byte suggested_gas_limit batch_env system_env false;
  let overhead :=
    derive_overhead suggested_gas_limit (as_u32 gas_per_pubdata_byte) (encoding_len tx)
      (tx_format tx mod 2 ^ 8) in
  estimation_result tx (vr_result r.1) suggested_gas_limit overhead base_fee gas_per_pubdata_byte
    additional_gas_for_pubdata upper_bound.

(** The gas per pubdata of the request, set if it is zero. *)
Definition fill_gas_per_pubdata (req : CallRequest) : CallRequest :=
  mkCallRequest (cr_from req) (cr_to req) (cr_gas req) (cr_gas_price req) (cr_max_fee_per_gas req)
    (cr_max_priority_fee_per_gas req) (cr_value req) (cr_data req) (cr_nonce req) (cr_transaction_type req)
    ((λ m, if em_gas_per_pubdata m =? 0 then
             mkEip712 get_max_gas_per_pubdata_byte (em_factory_deps m) (em_custom_signature m)
               (em_paymaster_params m)
           else m) <$> cr_eip712_meta req).

Definition set_nonce (nonce : option Z) (req : CallRequest) : CallRequest :=
  mkCallRequest (cr_from req) (cr_to req) (cr_gas req) (cr_gas_price req) (cr_max_fee_per_gas req)
    (cr_max_priority_fee_per_gas req) (cr_value req) (cr_data req) nonce (cr_transaction_type req)
    (cr_eip712_meta req).

(** 65 zero bytes but for the recovery id. *)
Definition dummy_signature : Bytes := replicate 64 0 ++ [27].

(** [estimate_gas_impl] *)
Definition estimate_gas_impl (req : CallRequest) : NodeMo Fee :=
  req' ← match cr_nonce req with
         | Some _ => mret req
         | None =>
             layout ← gets storage_key_layout;
             nonce_key ← layout_nonce_key layout (default 0 (cr_from req));
             full_nonce ← on_storage (read_value_internal nonce_key);
             mret (set_nonce (Some (decompose_full_nonce full_nonce).1) req)
         end;
  let req' := fill_gas_per_pubdata req' in
  let is_eip712 := bool_decide (is_Some (cr_eip712_meta req')) in
  sc ← gets system_contracts;
  l2_tx ← match L2Tx_from_request req' MAX_TX_SIZE (allow_no_target sc) with
          | Ok t => mret t
          | Err reason =>
              throw (SerializationError "L2" (default 0 (cr_from req)) (default 0 (cr_to req)) reason)
          end;
  let d := l2tx_common l2_tx in
  let d :=
    mkL2Data (l2_nonce d)
      (mkFee (gas_limit (l2_fee d)) (max_fee_per_gas (l2_fee d)) (max_priority_fee_per_gas (l2_fee d))
         get_max_gas_per_pubdata_byte)
      (l2_initiator_address d)
      (if bool_decide (l2_signature d = []) then dummy_signature else l2_signature d)
      (if is_eip712 then EIP712Transaction else l2_transaction_type d) (l2_input d) in
  estimate_gas_inner (tx_of_l2 (mkL2Tx d (l2tx_execute l2_tx) (l2tx_received l2_tx) (l2tx_raw l2_tx))).

(** [estimate_l1_to_l2_gas_impl] *)
Definition estimate_l1_to_l2_gas_impl (req : CallRequest) : NodeMo Z :=
  sc ← gets system_contracts;
  tx ← match L1Tx_from_request (fill_gas_per_pubdata req) (allow_no_target sc) with
       | Ok t => mret t
       | Err reason =>
           throw (SerializationError "L1" (default 0 (cr_from req)) (default 0 (cr_to req)) reason)
       end;
  fee ← estimate_gas_inner tx;
  mret (gas_limit fee).

(** ** The search *)
Section Search.
Context (attempt : Z → NodeMo bool) (I : Node → Prop) (limit : Z).
(** Every attempt within the limit comes back. *)
Hypothesis attempt_total : ∀ g n, I n → 0 <= g <= limit → ∃ b n', attempt g n = Ret b n' ∧ I n'.
Hypothesis limit_small : limit <= 2 ^ 62.

Lemma search_step f lower upper :
  search_gas_limit attempt (S f) lower upper =
  if wrapping_add_u64 lower ESTIMATE_GAS_ACCEPTABLE_OVERESTIMATION <? upper then
    failed ← attempt (wrapping_add_u64 lower upper / 2);
    if (failed : bool) then
      search_gas_limit attempt f (wrapping_add_u64 (wrapping_add_u64 lower upper / 2) 1) upper
    else search_gas_limit attempt f lower (wrapping_add_u64 lower upper / 2)
  else mret upper.
Proof. done. Qed.

Lemma search_run f lower upper n :
  0 <= lower <= upper → upper <= limit → upper - lower < 2 ^ Z.of_nat f * 1001 → I n →
  ∃ u n', search_gas_limit attempt (S f) lower upper n = Ret u n' ∧ I n' ∧ lower <= u <= upper ∧
    (u = upper ∨ ∃ n0 n1, I n0 ∧ attempt u n0 = Ret false n1) ∧
    (∀ T, (∀ g n b n', I n → attempt g n = Ret b n' → b = (g <? T)) →
       lower <= T <= upper → T <= u <= T + ESTIMATE_GAS_ACCEPTABLE_OVERESTIMATION).
Proof.
  revert lower upper n. induction f as [|f IH]; intros lower upper n Hlo Hup Hd Hn.
  all: rewrite search_step; unfold ESTIMATE_GAS_ACCEPTABLE_OVERESTIMATION in *.
  all: rewrite (wrapping_add_u64_small lower 1000) by (unfold u64_max; lia).
  { destruct (Z.ltb_spec (lower + 1000) upper) as [Hlt|Hge]; [rewrite Z.pow_0_r in Hd; lia|].
    exists upper, n. split; [done|]. split_and!; [done|lia|lia|by left|]. intros; lia. }
  destruct (Z.ltb_spec (lower + 1000) upper) as [Hlt|Hge].
  2: { exists upper, n. split; [done|]. split_and!; [done|lia|lia|by left|]. intros; lia. }
  rewrite Nat2Z.inj_succ, Z.pow_succ_r in Hd by lia.
  rewrite (wrapping_add_u64_small lower upper) by (unfold u64_max; lia).
  pose proof (Z.div_mod (lower + upper) 2 ltac:(lia)) as Hm1.
  pose proof (Z.mod_pos_bound (lower + upper) 2 ltac:(lia)) as Hm2.
  set (mid := (lower + upper) / 2) in *.
  destruct (attempt_total mid n Hn) as (b&n1&Ha&Hn1); [lia|]. step_m ltac:(exact Ha).
  destruct b.
  - rewrite (wrapping_add_u64_small mid 1) by (unfold u64_max; lia).
    destruct (IH (mid + 1) upper n1) as (u&n'&Hu&Hn'&Hr&Hs&Ht); [lia|done|lia|done|].
    exists u, n'. split_and!; [done|done|lia|lia|done|].
    intros T Hmono HT. apply Ht; [done|]. pose proof (Hmono mid n true n1 Hn Ha) as Hm.
    symmetry in Hm; apply Z.ltb_lt in Hm. lia.
  - destruct (IH lower mid n1) as (u&n'&Hu&Hn'&Hr&Hs&Ht); [lia|lia|lia|done|].
    exists u, n'. split_and!; [done|done|lia|lia| |..].
    + right. destruct Hs as [->|Hs]; [eauto|done].
    + intros T Hmono HT. apply Ht; [done|]. pose proof (Hmono mid n false n1 Hn Ha) as Hm.
      symmetry in Hm; apply Z.ltb_ge in Hm. lia.
Qed.
End Search.

(** C12: the binary search for the gas limit.  When every attempt comes back,
    the search ends within its 65 rounds; the limit it returns is the initial
    one or was tried with success; and when attempts fail exactly below some
    threshold, it is at the threshold or at most 1000 above it.  The attempts
    may change the node as long as they keep an invariant. *)
Theorem search_gas_limit_spec (attempt : Z → NodeMo bool) (I : Node → Prop) (limit : Z) (n : Node) :
  0 <= limit <= 2 ^ 62 → I n →
  (∀ g n, I n → 0 <= g <= limit → ∃ b n', attempt g n = Ret b n' ∧ I n') →
  ∃ u n', search_gas_limit attempt SEARCH_FUEL 0 limit n = Ret u n' ∧ I n' ∧ 0 <= u <= limit ∧
    (u = limit ∨ ∃ n0 n1, I n0 ∧ attempt u n0 = Ret false n1) ∧
    (∀ threshold, 0 <= threshold <= limit →
       (∀ g n b n', I n → attempt g n = Ret b n' → b = (g <? threshold)) →
       threshold <= u <= threshold + ESTIMATE_GAS_ACCEPTABLE_OVERESTIMATION).
Proof.
  intros Hl Hn Ht. destruct (search_run attempt I limit Ht (proj2 Hl) 64 0 limit n)
    as (u&n'&H1&H2&H3&H4&H5); [lia|lia| |done|].
  - change (2 ^ Z.of_nat 64) with (2 ^ 62 * 4). lia.
  - exists u, n'. split_and!; try done; [lia..|]. intros T HT Hm. by apply H5.
Qed.

(** ** Estimation does not change the node *)
Lemma node_quiet_step tx gpp g env se tr : node_quiet (estimate_gas_step tx gpp g env se tr).
Proof.
  unfold estimate_gas_step, with_gas_limit, added_balance. quiet_steps.
Qed.

#[local] Hint Resolve node_quiet_step : node.

Lemma node_quiet_search attempt fuel lo up :
  (∀ g, node_quiet (attempt g)) → node_quiet (search_gas_limit attempt fuel lo up).
Proof.
  intros Ha. revert lo up. induction fuel as [|fuel IH]; intros lo up; cbn [search_gas_limit]; [done|].
  destruct (_ <? _); [|apply node_quiet_ret]. cbv zeta. apply node_quiet_bind; [apply Ha|].
  intros []; apply IH.
Qed.

Lemma node_quiet_contracts {E} sc mode imp : node_quiet (Client := Client) (E := E) (Inner.contracts sc mode imp).
Proof. destruct mode, imp; simpl; auto with node. Qed.

Lemma node_quiet_inner tx : node_quiet (estimate_gas_inner tx).
Proof.
  unfold estimate_gas_inner, estimation_result. apply node_quiet_bind; [auto with node|intros p]. cbv zeta.
  destruct (derive_base_fee_and_gas_per_pubdata _) as [base_fee gpp].
  apply node_quiet_bind; [unfold with_base_fee; quiet_steps|intros tx'].
  apply node_quiet_bind; [auto with node|intros env].
  apply node_quiet_bind; [auto with node|intros imp]. apply node_quiet_bind; [auto with node|intros sc].
  apply node_quiet_bind; [apply node_quiet_contracts|intros base].
  apply node_quiet_bind; [auto with node|intros se].
  apply node_quiet_bind.
  { unfold pubdata_gas, check_if_executable. quiet_steps. }
  intros additional. apply node_quiet_bind.
  { apply node_quiet_search. intros g. unfold attempt_gas.
    apply node_quiet_bind; [apply node_quiet_step|intros; auto with node]. }
  intros u. apply node_quiet_bind; [apply node_quiet_step|intros r]. quiet_steps.
Qed.

Lemma node_quiet_estimate req : node_quiet (estimate_gas_impl req).
Proof.
  unfold estimate_gas_impl. apply node_quiet_bind; [quiet_steps|intros req'].
  cbv zeta. apply node_quiet_bind; [auto with node|intros sc].
  apply node_quiet_bind; [quiet_steps|intros t]. apply node_quiet_inner.
Qed.

(** An estimate was tried.  A fee that [estimate_gas_inner] returns has
    the base fee and gas per pubdata of the scaled fee input, no priority fee,
    and a gas limit that is a suggested limit plus its overhead, without
    overflow, where the transaction succeeded when it was executed with that
    suggested limit in the environment of the estimation; whatever the
    outcome, of the node only the storage (its read caches) is touched. *)
Theorem estimate_was_tried (tx : Transaction) (n : Node) :
  (∀ n', final_state (estimate_gas_inner tx n) = Some n' → same_but_storage n n') ∧
  (∀ fee n', estimate_gas_inner tx n = Ret fee n' →
     let fee_input :=
       adjust_pubdata_price_for_tx (get_batch_fee_input_scaled (fee_input_provider n))
         (gas_per_pubdata_byte_limit tx) in
     let '(base_fee, gas_per_pubdata) := derive_base_fee_and_gas_per_pubdata fee_input in
     max_fee_per_gas fee = base_fee ∧ max_priority_fee_per_gas fee = 0 ∧
     gas_per_pubdata_limit fee = gas_per_pubdata ∧ gas_limit fee <= u64_max ∧
     ∃ tx' env se suggested r output n1,
       estimate_gas_step tx' gas_per_pubdata suggested env se false n1 = Ret r n' ∧
       vr_result r.1 = Success output ∧ be_fee_input env = fee_input ∧ se_execution_mode se = EstimateFee ∧
       execute tx' = execute tx ∧
       gas_limit fee = suggested + derive_overhead suggested (as_u32 gas_per_pubdata) (encoding_len tx')
                                     (tx_format tx' mod 2 ^ 8)).
Proof.
  split; [intros n'; apply node_quiet_inner|]. intros fee n' H. unfold estimate_gas_inner, estimation_result in H.
  apply bind_Ret in H as (p&s1&[= <- <-]&H). cbv zeta in *.
  destruct (derive_base_fee_and_gas_per_pubdata _) as [base_fee gpp].
  apply bind_Ret in H as (tx'&s2&H2&H).
  assert (execute tx' = execute tx) as He
    by (unfold with_base_fee in H2; destruct (common_data tx); inversion H2; done).
  apply bind_Ret in H as ([env ctx]&s3&_&H). cbv zeta in H.
  apply bind_Ret in H as (imp&s4&[= <- <-]&H). apply bind_Ret in H as (sc&s5&[= <- <-]&H).
  apply bind_Ret in H as (base&s6&_&H). apply bind_Ret in H as (se&s7&[= <- <-]&H).
  apply bind_Ret in H as (additional&s8&_&H). apply bind_Ret in H as (u&s9&_&H). cbv zeta in H.
  apply bind_Ret in H as (r&s10&Hr&H).
  destruct (vr_result r.1) as [output| |] eqn:Hout; [|done..].
  destruct (Z.leb_spec (f32_as_u64 (f32_mul (f32_of_u64 (wrapping_add_u64 u additional))
      (estimate_gas_scale_factor (fee_input_provider n))) +
    derive_overhead (f32_as_u64 (f32_mul (f32_of_u64 (wrapping_add_u64 u additional))
      (estimate_gas_scale_factor (fee_input_provider n)))) (as_u32 gpp) (encoding_len tx')
      (tx_format tx' mod 2 ^ 8)) u64_max) as [Hle|]; [|done].
  injection H as <- <-. simpl. split_and!; try done.
  eexists tx', _, _, _, r, output, s9. split_and!; try done.
Qed.
End Estimation.

(** ** A sandbox in which a transaction needs 50000 gas *)
Module SampleEstim.
Export SampleNode.

#[export] Instance estimation_api : EstimationApi := {|
  L2Tx_from_request req _ _ :=
    Ok (mkL2Tx (mkL2Data (default 0 (cr_nonce req)) (mkFee 0 0 0 0) (default 0 (cr_from req)) [] LegacyTransaction None)
          (mkExecute (cr_to req) (default [] (cr_data req)) (default 0 (cr_value req)) []) 0 (Some [11]));
  L1Tx_from_request req _ :=
    Ok (mkTransaction (L1 (mkL1Data 0 0 0 []))
          (mkExecute (cr_to req) (default [] (cr_data req)) (default 0 (cr_value req)) []) 0 (Some [12]));
  get_max_gas_per_pubdata_byte := 50000;
  adjust_pubdata_price_for_tx i _ := i;
  derive_base_fee_and_gas_per_pubdata i := (input_fair_l2_gas_price i, 100);
  derive_overhead _ _ _ _ := 10000;
  MAX_L2_TX_GAS_LIMIT := 72000000;
  MAX_VM_PUBDATA_PER_BATCH := 500000;
|}.

#[export] Instance sandbox : SandboxVm (StorageState (Client := unit)) := {|
  vm_inspect_one E _ _ _ _ tx _ :=
    mret (mkVmResult (if tx_gas_limit tx <? 50000 then Revert (mkRevertReason [] "out of gas") else Success [])
            [] [] [] [] 0 0 7 0 [], []);
|}.

Definition request : CallRequest :=
  mkCallRequest (Some 11) (Some 77) None None None None None None None None None.

(** The search ends at a body cost of 39551 (39300 are needed after the
    overhead and the gas for pubdata), and 1.3 times that with the gas for
    pubdata, plus the overhead, is suggested. *)
Example estimate_sample :
  match estimate_gas_impl request node with
  | Ret fee _ => gas_limit fee = 62326 ∧ gas_per_pubdata_limit fee = 100
  | _ => False
  end.
Proof. vm_compute. split; reflexivity. Qed.

Lemma search_gas_limit_witness :
  ∃ u, search_gas_limit (λ g, mret (g <? 21000)) SEARCH_FUEL 0 MAX_L2_TX_GAS_LIMIT node = Ret u node ∧
    21000 <= u <= 22000.
Proof.
  destruct (search_gas_limit_spec (λ g, mret (g <? 21000)) (λ n, n = node) MAX_L2_TX_GAS_LIMIT node)
    as (u&n'&H1&H2&_&_&H3).
  - split; vm_compute; discriminate.
  - reflexivity.
  - intros g n -> _. eexists _, _. split; reflexivity.
  - exists u. rewrite <-H2. split; [rewrite H2; rewrite H2 in H1; exact H1|].
    apply (H3 21000); [split; vm_compute; discriminate|]. intros g n b n2 _ H. injection H as <- _. reflexivity.
Defined.
End SampleEstim.
