(* ===== verification/Node.v ===== *)
(** * The in-memory node

    [crates/core/src/node/in_memory.rs] and [in_memory_ext.rs]: the node that
    the JSON-RPC server serves, with the methods of the [anvil], [evm] and
    [hardhat] namespaces.

    The node is the executor's task (which has the state of the node), the
    snapshots, the transaction pool and the sealing mode.  A method runs to its
    end before the next one starts.  The switches that only change what is
    printed ([set_show_*], [set_logging*], [set_log_level]) are in [RpcServer.v],
    the rendering of call traces is in [TraceWriter.v]. *)
From S2P Require Import Prelude Types Utils Filters Impersonate Time Pool Cache Fork Storage.
From S2P Require Import Text.
From S2P Require Import FeeModel Sealer Blockchain Inner Sealing VmRunner Running Executor GasEstim.
From Stdlib Require Import Ascii.
Local Open Scope Z_scope.

(** ** Errors ([anyhow::Error] and [Web3Error]) *)
Inductive ApiError :=
| NodeFailed (e : NodeError)
| TimestampTooLow (e : TimestampBackwards)
| Anyhow (msg : string)
| NoBlock
| SubmitTransactionError (msg : string) (data : Bytes)
| TransparentError (msg : string)
| RequestError (msg : string)
| StateDecompression (details : string)
| StateDeserialization (details : string).

(** [ResetRequest] ([crates/types/src/api.rs]) *)
Record ResetRequestForking := mkForking {
  json_rpc_url : string;
  forking_block_number : option Z;
}.
Record ResetRequest := mkResetRequest {
  reset_to_block : option Z;
  reset_forking : option ResetRequestForking;
}.

(** [strip_prefix("0x")] *)
Definition strip_0x (s : string) : option string :=
  match s with
  | String "0"%char (String "x"%char rest) => Some rest
  | _ => None
  end.

(** Functions of the crates the node is built on. *)
Class NodeApi := {
  (** [Url::from_str] *)
  url_from_str : string → option string;
  (** [validate_bytecode] *)
  validate_bytecode : Bytes → Prelude.result unit string;
  (** [serde_json] of a state. *)
  state_to_json : VersionedState → Prelude.result Bytes string;
  state_of_json : Bytes → Prelude.result VersionedState string;
  (** [GzEncoder], and [GzDecoder] with its test for a header. *)
  gz_encode : Bytes → Prelude.result Bytes string;
  gz_header : Bytes → bool;
  gz_decode : Bytes → Prelude.result Bytes string;
  (** [PackedEthSignature::default().serialize_packed()] *)
  default_signature : Bytes;
  ETH_CALL_GAS_LIMIT : Z;
  BOOJUM_CALL_GAS_LIMIT : Z;
}.

(** A VM on a storage with overrides that runs one call. *)
Class CallVm (S : Type) := {
  vm_call {E} :
    L1BatchEnv → SystemEnv → option InMemoryStorage → list (Address * OverrideAccount) → Transaction →
    M S E (VmResult * list Call);
}.

Definition MAX_SNAPSHOTS : Z := 100.

Section Node.
Context {TA : TransactionApi} {FA : FeeApi} {KA : KeyApi} {CA : ChainApi} {BA : BlockApi} {RA : VmResultApi}.
Context {NA : NodeApi} {CH : Channel} {TI : Ticker}.
Context {Client : Type} {R : Remote (Client := Client)}.
Context {VM : VmApi (StorageState (Client := Client))} {CV : CallVm (StorageState (Client := Client))}.
Context (exec : NodeExecutor).
Abbreviation Inner := (InMemoryNodeInner (Client := Client)).

Record InMemoryNode := mkNode {
  nd_task : ExecutorTask (Client := Client);
  nd_snapshots : list (Snapshot);
  nd_pool : TxPool;
  nd_sealer : BlockSealerMode;
}.
Abbreviation NM := (M InMemoryNode ApiError).

Definition nd_inner (s : InMemoryNode) : Inner := task_node (nd_task s).
Definition set_task (t : ExecutorTask) (s : InMemoryNode) : InMemoryNode :=
  mkNode t (nd_snapshots s) (nd_pool s) (nd_sealer s).
Definition set_inner (n : Inner) (s : InMemoryNode) : InMemoryNode :=
  set_task (mkTask n (task_running (nd_task s))) s.
Definition set_snapshots (l : list Snapshot) (s : InMemoryNode) : InMemoryNode :=
  mkNode (nd_task s) l (nd_pool s) (nd_sealer s).
Definition set_pool (p : TxPool) (s : InMemoryNode) : InMemoryNode :=
  mkNode (nd_task s) (nd_snapshots s) p (nd_sealer s).
Definition set_sealer (m : BlockSealerMode) (s : InMemoryNode) : InMemoryNode :=
  mkNode (nd_task s) (nd_snapshots s) (nd_pool s) m.

(** Through the handle, and directly on the shared state. *)
Definition on_handle {A} (m : M (ExecutorTask (Client := Client)) NodeError A) : NM A :=
  zoom nd_task set_task (map_err NodeFailed m).
Definition on_inner {A} (m : M Inner NodeError A) : NM A :=
  zoom nd_inner set_inner (map_err NodeFailed m).

(** *** Time *)
Definition node_increase_time (time_delta_seconds : Z) : NM Z :=
  on_handle (increase_time_sync exec time_delta_seconds);;
  mret time_delta_seconds.

Definition set_next_block_timestamp (timestamp : Z) : NM unit :=
  r ← on_handle (enforce_next_timestamp_sync exec timestamp);
  match r with Ok _ => mret tt | Err e => throw (TimestampTooLow e) end.

Definition node_set_time (timestamp : Z) : NM Z := on_handle (set_current_timestamp_sync exec timestamp).

(** *** Mining *)
Definition empty_batch : TxBatch := mkTxBatch false [].

(** [self.pool.take_uniform(max_transactions).unwrap_or(..)] *)
Definition take_batch : NM TxBatch := λ s,
  let r := take_uniform (impersonation (nd_inner s)) (cfg_max_transactions (config (nd_inner s))) (nd_pool s) in
  Ret (default empty_batch r.1) (set_pool r.2 s).

Definition mine_block : NM Z :=
  tx_batch ← take_batch;
  on_handle (seal_block_sync exec tx_batch).

Definition mine_detailed : NM (Block DetailedTransaction) :=
  block_number ← mine_block;
  block ← on_inner (on_chain (get_block_by_number block_number));
  block ← expect "freshly mined block is missing from storage" block;
  detailed_txs ← map_m (λ tx,
      match tx with
      | Full tx =>
          d ← on_inner (on_chain (get_detailed_tx tx));
          expect "freshly executed tx is missing from storage" d
      | JustHash _ => panic "internal error: entered unreachable code: we only store full txs in blocks"
      end) (b_transactions block);
  mret (with_transactions detailed_txs block).

Fixpoint take_batches (n : nat) : NM (list TxBatch) :=
  match n with
  | O => mret []
  | S n => b ← take_batch; bs ← take_batches n; mret (b :: bs)
  end.

Definition mine_blocks (num_blocks interval : option Z) : NM unit :=
  let num_blocks := default 1 num_blocks in
  let interval_sec := default 1 interval in
  if num_blocks =? 0 then mret tt
  else if (1 <? num_blocks) && (interval_sec =? 0) then
    throw (Anyhow "Provided interval is `0`; unable to produce blocks with the same timestamp")
  else
    tx_batches ← take_batches (Z.to_nat num_blocks);
    on_handle (seal_blocks_sync exec tx_batches interval_sec);;
    mret tt.

Definition get_automine : NM bool := mret true.

(** *** Snapshots *)
Definition node_snapshot : NM Z :=
  snapshots ← gets nd_snapshots;
  if MAX_SNAPSHOTS <=? Z.of_nat (length snapshots) then
    throw (Anyhow "maximum number of '100' snapshots exceeded")
  else
    snapshot ← gets (λ s, snapshot (nd_inner s));
    modify (λ s, set_snapshots (nd_snapshots s ++ [snapshot]) s);;
    gets (λ s, Z.of_nat (length (nd_snapshots s))).

Definition revert_snapshot (snapshot_id : Z) : NM bool :=
  snapshots ← gets nd_snapshots;
  let snapshot_id_index := Z.to_nat (Z.max 0 (snapshot_id - 1)) in
  if (length snapshots <=? snapshot_id_index)%nat then
    throw (Anyhow "no snapshot exists for the id")
  else
    selected_snapshot ← expect "unexpected failure, value must exist" (snapshots !! snapshot_id_index);
    modify (set_snapshots (take snapshot_id_index snapshots));;
    modify (λ s, set_inner (restore_snapshot selected_snapshot (nd_inner s)) s);;
    mret true.

(** *** Accounts and storage *)
Definition node_set_balance (address : Address) (balance : Z) : NM bool :=
  on_handle (set_balance_sync exec address balance);; mret true.

Definition node_set_nonce (address : Address) (nonce : Z) : NM bool :=
  on_handle (set_nonce_sync exec address nonce);; mret true.

Definition node_set_code (address : Address) (code : string) : NM unit :=
  code_slice ← try_option (Anyhow "code must be 0x-prefixed") (strip_0x code);
  bytecode ← match hex_decode code_slice with Ok b => mret b | Err e => throw (Anyhow e) end;
  (match detect_bytecode bytecode with
   | EraVm =>
       match validate_bytecode bytecode with
       | Ok _ => mret tt
       | Err e => throw (Anyhow "Invalid bytecode")
       end
   | Evm =>
       enabled ← gets (λ s, cfg_use_evm_interpreter (config (nd_inner s)));
       if (enabled : bool) then mret tt
       else throw (Anyhow "EVM bytecode detected in 'set_code', but EVM interpreter is disabled in config")
   end);;
  on_handle (set_code_sync exec address bytecode).

Definition set_storage_at (address : Address) (slot value : Z) : NM bool :=
  on_handle (set_storage_sync exec (address, slot) value);; mret true.

Definition node_set_rich_account (address : Address) (balance : Z) : NM unit :=
  on_inner (set_rich_account address balance).

Definition override_bytecode (address : Address) (bytecode : Bytes) : NM unit :=
  on_handle (set_code_sync exec address bytecode).

(** *** Fork *)

(** [U64::as_u32] *)
Definition as_u32_checked {S E} (n : Z) : M S E Z :=
  if n <=? u32_max then mret n else panic "Integer overflow when casting to u32".

Definition reset_network (reset_spec : option ResetRequest) : NM bool :=
  (match reset_spec with
   | Some spec =>
       match reset_to_block spec, reset_forking spec with
       | Some _, Some _ => throw (Anyhow "Only one of 'to' and 'forking' attributes can be specified")
       | Some to, None =>
           to ← as_u32_checked to;
           on_handle (reset_fork_block_number_sync exec to)
       | None, Some forking =>
           url ← try_option (Anyhow "malformed fork URL") (url_from_str (json_rpc_url forking));
           block_number ← match forking_block_number forking with
                          | Some n => n ← as_u32_checked n; mret (Some n)
                          | None => mret None
                          end;
           on_handle (reset_fork_sync exec url block_number)
       | None, None => on_handle (remove_fork_sync exec)
       end
   | None => on_handle (remove_fork_sync exec)
   end);;
  modify (set_snapshots []);;
  mret true.

Definition set_rpc_url (url : string) : NM unit :=
  url ← try_option (Anyhow "malformed fork URL") (url_from_str url);
  on_handle (set_fork_url_sync exec url);;
  mret tt.

(** *** Impersonation *)
Definition set_impersonation (i : ImpersonationState) (n : Inner) : Inner :=
  mkInner (blockchain n) (blockchain_version n) (time n) (fee_input_provider n) (node_filters n)
    (fork_storage n) (fork n) (config n) (system_contracts n) i (rich_accounts n) (previous_states n)
    (storage_key_layout n).

Definition on_impersonation {A} (f : ImpersonationState → A * ImpersonationState) : NM A := λ s,
  let r := f (impersonation (nd_inner s)) in
  Ret r.1 (set_inner (set_impersonation r.2 (nd_inner s)) s).

Definition auto_impersonate_account (enabled : bool) : NM unit :=
  on_impersonation (λ i, (tt, set_auto_impersonation enabled i)).
Definition impersonate_account (address : Address) : NM bool := on_impersonation (impersonate address).
Definition stop_impersonating_account (address : Address) : NM bool :=
  on_impersonation (stop_impersonating address).

(** *** Sealing modes and the pool *)
Definition get_immediate_sealing : NM bool := gets (λ s, is_immediate (nd_sealer s)).

Definition node_set_block_timestamp_interval (seconds : Z) : NM unit :=
  on_handle (set_block_timestamp_interval_nowait exec seconds).
Definition node_remove_block_timestamp_interval : NM bool :=
  on_handle (remove_block_timestamp_interval_sync exec).

Definition set_immediate_sealing (enable : bool) : NM unit :=
  if enable then
    listener ← gets (λ s, (add_tx_listener (nd_pool s)).1);
    modify (λ s, set_pool (add_tx_listener (nd_pool s)).2 s);;
    modify (λ s, set_sealer (mode_immediate (cfg_max_transactions (config (nd_inner s))) listener) s)
  else modify (set_sealer Noop).

Definition set_interval_sealing (seconds : Z) : NM unit :=
  if seconds =? 0 then modify (set_sealer mode_noop)
  else modify (λ s, set_sealer (mode_fixed_time (cfg_max_transactions (config (nd_inner s))) seconds) s).

Definition node_drop_transaction (hash : H256) : NM (option H256) :=
  r ← gets (λ s, drop_transaction hash (nd_pool s));
  modify (set_pool r.2);;
  mret (tx_hash <$> r.1).
Definition drop_all_transactions : NM unit := modify (λ s, set_pool (clear (nd_pool s)) s).
Definition remove_pool_transactions (address : Address) : NM unit :=
  modify (λ s, set_pool
    (drop_transactions (λ tx, initiator_account (transaction tx) =? address) (nd_pool s)).2 s).

Definition set_next_block_base_fee_per_gas (base_fee : Z) : NM unit :=
  on_handle (enforce_next_base_fee_per_gas_sync exec base_fee).

(** *** Chain id *)
Definition set_config_chain_id (id : option Z) (n : Inner) : Inner :=
  let c := config n in
  mkInner (blockchain n) (blockchain_version n) (time n) (fee_input_provider n) (node_filters n)
    (fork_storage n) (fork n)
    (mkConfig (cfg_genesis c) (cfg_genesis_timestamp c) id (cfg_deployed_contracts c)
       (cfg_genesis_accounts c) (cfg_signer_accounts c) (cfg_genesis_balance c) (cfg_cache_config c)
       (cfg_max_transactions c) (cfg_use_evm_interpreter c))
    (system_contracts n) (impersonation n) (rich_accounts n) (previous_states n) (storage_key_layout n).

Definition node_set_chain_id (id : Z) : NM unit :=
  on_inner (
    modify (set_config_chain_id (Some id));;
    modify_storage (set_chain_id id)).
Definition get_chain_id : NM Z := gets (λ s, default TEST_NODE_NETWORK_ID (cfg_chain_id (config (nd_inner s)))).
Definition node_chain_id : NM Z := gets (λ s, storage_chain_id (fork_storage (nd_inner s))).
Definition get_current_timestamp : NM Z := gets (λ s, current_timestamp (time (nd_inner s))).

(** *** Replay *)
Definition replay_txs (txs : list Transaction) : NM unit :=
  let expected_tx_hashes : gset H256 := list_to_set (tx_hash <$> txs) in
  block_number ← on_handle (seal_block_sync exec (mkTxBatch false txs));
  block ← on_inner (on_chain (get_block_by_number block_number));
  block ← expect "freshly sealed block could not be found in storage" block;
  let actual_tx_hashes : gset H256 := list_to_set (variant_hash <$> b_transactions block) in
  if bool_decide (expected_tx_hashes ∖ actual_tx_hashes = ∅) then mret tt
  else throw (NodeFailed (GenericError "Failed to replay transactions")).

(** *** Calls *)

(** [run_l2_call] *)
Definition run_l2_call (l2_tx : L2Tx) (base_contracts : BaseSystemContracts)
    (state_override : option (list (Address * OverrideAccount))) : NM ExecutionResult :=
  on_inner (
    env ← create_l1_batch_env;
    system_env ← gets (λ n, create_system_env n base_contracts EthCall);
    all_values ← gets (λ n : Inner,
      if use_boojum (system_contracts n) then Some (raw_storage (fork_storage n)) else None);
    let d := l2tx_common l2_tx in
    let d :=
      mkL2Data (l2_nonce d) (l2_fee d) (l2_initiator_address d)
        (if bool_decide (l2_signature d = []) then default_signature else l2_signature d)
        (l2_transaction_type d) (l2_input d) in
    r ← on_storage (vm_call env.1 system_env all_values (default [] state_override)
          (tx_of_l2 (mkL2Tx d (l2tx_execute l2_tx) (l2tx_received l2_tx) (l2tx_raw l2_tx))));
    mret (vr_result r.1)).

(** *** State *)
Definition generic_result {A} (r : Prelude.result A string) : NM A :=
  match r with Ok a => mret a | Err e => throw (NodeFailed (GenericError e)) end.

Definition node_dump_state (preserve_historical_states : bool) : NM Bytes :=
  state ← gets (λ s, dump_state preserve_historical_states (nd_inner s));
  json ← generic_result (state_to_json state);
  generic_result (gz_encode json).

(** Compressed or not. *)
Definition node_load_state (buf : Bytes) : NM bool :=
  decoded ← (if gz_header buf then
               match gz_decode buf with Ok b => mret b | Err e => throw (StateDecompression e) end
             else mret buf);
  state ← match state_of_json decoded with Ok st => mret st | Err e => throw (StateDeserialization e) end;
  on_inner (load_state state).

(** ** Snapshots as a stack *)

(** What can happen while the snapshot [id] is alive: anything that leaves the
    snapshots alone, new snapshots, and going back to later ones. *)
Inductive keeps_snapshot (id : Z) : InMemoryNode → InMemoryNode → Prop :=
| Keeps_other s s' : nd_snapshots s' = nd_snapshots s → keeps_snapshot id s s'
| Keeps_taken s id' s' : node_snapshot s = Ret id' s' → keeps_snapshot id s s'
| Keeps_reverted s id' s' : id < id' → revert_snapshot id' s = Ret true s' → keeps_snapshot id s s'.

Lemma node_snapshot_run s :
  node_snapshot s =
  if MAX_SNAPSHOTS <=? Z.of_nat (length (nd_snapshots s)) then
    Throw (Anyhow "maximum number of '100' snapshots exceeded") s
  else Ret (Z.of_nat (length (nd_snapshots s)) + 1)
         (set_snapshots (nd_snapshots s ++ [snapshot (nd_inner s)]) s).
Proof.
  unfold node_snapshot. step_m ltac:(reflexivity). destruct (_ <=? _); [done|].
  step_m ltac:(reflexivity). step_m ltac:(reflexivity). unfold gets. f_equal. simpl.
  rewrite length_app. simpl. lia.
Qed.

Lemma revert_snapshot_run id s :
  let i := Z.to_nat (Z.max 0 (id - 1)) in
  revert_snapshot id s =
  match nd_snapshots s !! i with
  | Some saved => Ret true (set_inner (restore_snapshot saved (nd_inner s)) (set_snapshots (take i (nd_snapshots s)) s))
  | None => Throw (Anyhow "no snapshot exists for the id") s
  end.
Proof.
  intros i. unfold revert_snapshot. step_m ltac:(reflexivity). fold i. cbv zeta.
  destruct (Nat.leb_spec (length (nd_snapshots s)) i) as [Hle|Hlt].
  { by rewrite lookup_ge_None_2. }
  apply lookup_lt_is_Some in Hlt as [saved ->]. done.
Qed.

Lemma keeps_snapshot_prefix id saved s s' :
  0 < id → keeps_snapshot id s s' →
  saved `prefix_of` nd_snapshots s → Z.of_nat (length saved) = id →
  saved `prefix_of` nd_snapshots s'.
Proof.
  intros Hid [? ? Heq|? id' ? Hs|? id' ? Hlt Hs] Hp Hlen.
  - by rewrite Heq.
  - rewrite node_snapshot_run in Hs. destruct (_ <=? _); [done|]. injection Hs as _ <-.
    simpl. by apply prefix_app_r.
  - rewrite revert_snapshot_run in Hs. destruct (_ !! _) eqn:Hl; [|done]. injection Hs as <-. simpl.
    destruct Hp as [rest ->]. rewrite take_app_ge by lia. by eexists.
Qed.


(** ** What mining takes from the pool *)
Lemma final_zoom {S T E A} (get : S → T) (set : T → S → S) (m : M T E A) s s' :
  final_state (zoom get set m s) = Some s' → ∃ t, s' = set t s.
Proof. unfold zoom. destruct (m (get s)); simpl; intros [= <-]; eauto. Qed.

Lemma final_bind {S E A B} (m : M S E A) (f : A → M S E B) s s' :
  final_state ((m ≫= f) s) = Some s' →
  (∃ e, m s = Throw e s') ∨ ∃ a s1, m s = Ret a s1 ∧ final_state (f a s1) = Some s'.
Proof.
  unfold mbind, M_bind. destruct (m s); simpl; intros H; try done.
  - right. eauto.
  - left. injection H as <-. eauto.
Qed.

(** The pool after [k] batches were taken from it. *)
Definition pool_taken (s : InMemoryNode) (p : TxPool) : TxPool :=
  (take_uniform (impersonation (nd_inner s)) (cfg_max_transactions (config (nd_inner s))) p).2.
Definition pool_after (s : InMemoryNode) (k : nat) : TxPool := Nat.iter k (pool_taken s) (nd_pool s).

Lemma pool_after_S s k :
  pool_after (set_pool (pool_after s 1) s) k = pool_after s (S k).
Proof.
  change (Nat.iter k (pool_taken s) (pool_taken s (nd_pool s)) = Nat.iter (S k) (pool_taken s) (nd_pool s)).
  by rewrite Nat.iter_succ_r.
Qed.

Lemma take_batches_run k s :
  ∃ bs, take_batches k s = Ret bs (set_pool (pool_after s k) s) ∧ length bs = k.
Proof.
  revert s. induction k as [|k IH]; intros s.
  { exists []. by destruct s. }
  cbn [take_batches]. step_m ltac:(reflexivity).
  destruct (IH (set_pool (pool_after s 1) s)) as (bs&Hbs&Hl). rewrite pool_after_S in Hbs.
  step_m ltac:(exact Hbs). eexists. split; [done|]. simpl. by rewrite Hl.
Qed.

Lemma final_handle {A} (m : M (ExecutorTask (Client := Client)) NodeError A) s s' :
  final_state (on_handle m s) = Some s' →
  nd_pool s' = nd_pool s ∧ nd_snapshots s' = nd_snapshots s ∧ nd_sealer s' = nd_sealer s.
Proof. intros [t ->]%final_zoom. done. Qed.

Lemma mine_block_final s s' :
  final_state (mine_block s) = Some s' →
  nd_pool s' = pool_after s 1 ∧ nd_snapshots s' = nd_snapshots s ∧ nd_sealer s' = nd_sealer s.
Proof.
  unfold mine_block. intros H. erewrite bind_run in H; [|reflexivity]. by apply final_handle in H.
Qed.

(** Mining and the pool.  [mine_block] takes one batch out of the pool and
    [mine_blocks] one per block, and they are gone also when the run or the
    sealing fails.  Asking for no blocks does nothing; several blocks with an
    interval of zero are refused before anything is taken. *)
Theorem mining_takes_batches (s : InMemoryNode) (num_blocks interval : option Z) :
  (∀ s', final_state (mine_block s) = Some s' →
     nd_pool s' = pool_after s 1 ∧ nd_snapshots s' = nd_snapshots s ∧ nd_sealer s' = nd_sealer s) ∧
  (default 1 num_blocks = 0 → mine_blocks num_blocks interval s = Ret tt s) ∧
  (1 < default 1 num_blocks → default 1 interval = 0 →
     mine_blocks num_blocks interval s =
       Throw (Anyhow "Provided interval is `0`; unable to produce blocks with the same timestamp") s) ∧
  (0 < default 1 num_blocks → (default 1 num_blocks = 1 ∨ default 1 interval ≠ 0) →
     ∃ batches, length batches = Z.to_nat (default 1 num_blocks) ∧
       take_batches (length batches) s = Ret batches (set_pool (pool_after s (length batches)) s) ∧
       ∀ s', final_state (mine_blocks num_blocks interval s) = Some s' →
         nd_pool s' = pool_after s (length batches) ∧
         (∀ bs, mine_blocks num_blocks interval s = Ret bs s' →
            ∃ numbers, on_handle (seal_blocks_sync exec batches (default 1 interval))
              (set_pool (pool_after s (length batches)) s) = Ret numbers s')).
Proof.
  split_and!.
  - apply mine_block_final.
  - intros H. unfold mine_blocks. by rewrite H.
  - intros H1 H2. unfold mine_blocks. rewrite H2. set (n := default 1 num_blocks) in *.
    destruct (Z.eqb_spec n 0); [lia|]. by destruct (Z.ltb_spec 1 n); [|lia].
  - intros H1 H2. unfold mine_blocks. set (n := default 1 num_blocks) in *.
    set (i := default 1 interval) in *.
    destruct (take_batches_run (Z.to_nat n) s) as (bs&Hbs&Hl). exists bs. rewrite Hl.
    split_and!; [done..|].
    destruct (Z.eqb_spec n 0); [lia|].
    replace ((1 <? n) && (i =? 0)) with false.
    2: { symmetry. destruct (Z.ltb_spec 1 n), (Z.eqb_spec i 0); try done; lia. }
    intros s' H. erewrite bind_run in H; [|exact Hbs]. split.
    + apply final_bind in H as [[e H]|(numbers&s1&H&[= <-])]; apply (f_equal final_state) in H;
        by apply final_handle in H as (->&_).
    + intros u Hu. erewrite bind_run in Hu; [|exact Hbs].
      apply bind_Ret in Hu as (numbers&s1&Hu&[= _ <-]). eauto.
Qed.

(** ** Dumped bytes *)
Section DumpedBytes.
Context (gz_law : ∀ b c, gz_encode b = Ok c → gz_header c = true ∧ gz_decode c = Ok b).

(** What is dumped can be loaded.  Dumping changes nothing, and loading the
    bytes, on any node, is loading the dumped state; so is loading the JSON
    that was not compressed.  Bytes that cannot be decoded change nothing. *)
Theorem dumped_bytes_load (preserve : bool) (s s1 t : InMemoryNode) (bytes : Bytes) :
  let state := dump_state preserve (nd_inner s) in
  (∀ json, state_to_json state = Ok json → state_of_json json = Ok state ∧ gz_header json = false) →
  node_dump_state preserve s = Ret bytes s1 →
  s1 = s ∧
  node_load_state bytes t = on_inner (load_state state) t ∧
  (∃ json, state_to_json state = Ok json ∧ node_load_state json t = on_inner (load_state state) t) ∧
  (∀ garbage, (gz_header garbage = true ∧ (∃ e, gz_decode garbage = Err e)) ∨
              (gz_header garbage = false ∧ (∃ e, state_of_json garbage = Err e)) →
     ∃ e, node_load_state garbage t = Throw e t).
Proof.
  intros state json_law. unfold node_dump_state. intros H. apply bind_Ret in H as (st&s2&[= <- <-]&H).
  apply bind_Ret in H as (json&s2&Hj&H). fold state in Hj.
  destruct (state_to_json state) as [j|] eqn:Hjson; [|done]. injection Hj as <- <-.
  destruct (gz_encode j) as [c|] eqn:Hgz; [|done]. injection H as <- <-.
  destruct (gz_law _ _ Hgz) as [Hh Hd]. destruct (json_law _ eq_refl) as [Hs Hp].
  split_and!; [done|..].
  - unfold node_load_state. rewrite Hh, Hd. step_m ltac:(reflexivity). rewrite Hs. by step_m ltac:(reflexivity).
  - exists j. split; [done|]. unfold node_load_state. rewrite Hp. step_m ltac:(reflexivity). rewrite Hs.
    by step_m ltac:(reflexivity).
  - intros g [[Hg [e He]]|[Hg [e He]]]; exists (if gz_header g then StateDecompression e else StateDeserialization e);
      unfold node_load_state, mbind, M_bind; rewrite Hg; simpl; by rewrite He.
Qed.
End DumpedBytes.
End Node.
