(* ===== verification/Api.v ===== *)
(** * The methods of the [eth], [zks] and [debug] namespaces

    [crates/core/src/node/eth.rs], [zks.rs] and [debug.rs], on the node of
    [Node.v].  What is printed on the way is in [Notices.v] and
    [Reports.v]. *)
From S2P Require Import Prelude Types Utils Filters Impersonate Time Pool Cache Fork Storage.
From S2P Require Import FeeModel Sealer Blockchain Inner Sealing VmRunner Running Executor GasEstim Node.
Local Open Scope Z_scope.

(** Functions and constants of [zksync_types] and of the Merkle tree crate. *)
Class RequestApi := {
  TransactionRequest : Type;
  (** [TransactionRequest::from(call_request)] *)
  request_of_call : CallRequest → TransactionRequest;
  (** The chain id, and the zero signature with [v = 0]. *)
  request_set_chain_id : Z → TransactionRequest → TransactionRequest;
  request_set_zero_signature : TransactionRequest → TransactionRequest;
  request_set_from : option Address → TransactionRequest → TransactionRequest;
  (** [get_signed_bytes] with the zero signature. *)
  get_signed_bytes : TransactionRequest → Prelude.result Bytes string;
  request_from_bytes : Bytes → Z → Prelude.result (TransactionRequest * H256) string;
  l2_from_transaction_request : TransactionRequest → Z → bool → Prelude.result L2Tx string;
  l2tx_set_input : Bytes → H256 → L2Tx → L2Tx;
  (** [output.to_user_friendly_string()] *)
  user_friendly : VmRevertReason → string;
  MAX_L1_TRANSACTION_GAS_LIMIT : Z;
  EIP_1559_TX_TYPE : Z;
  get_is_account_key : Address → StorageKey;
  storage_key_for_standard_token_balance : Address → Address → StorageKey;
  L2_BASE_TOKEN_ADDRESS : Address;
  l2_to_l1_logs_tree_size : Z → Z;
  log_to_bytes : UserL2ToL1Log → Bytes;
  (** [MiniMerkleTree::new(leaves, Some(size)).merkle_root_and_path(index)] *)
  merkle_root_and_path : list Bytes → Z → nat → H256 * list H256;
  (** [KeccakHasher.compress] *)
  compress : H256 → H256 → H256;
  LOG_PROOF_SUPPORTED_METADATA_VERSION : Z;
}.

(** [Filter] of a request for logs. *)
Record LogRequest := mkLogRequest {
  lr_from_block : option BlockNumber;
  lr_to_block : option BlockNumber;
  lr_address : option (list Address);
  lr_topics : option (list (option (list H256)));
}.

Record FeeHistory := mkFeeHistory {
  oldest_block : Z;
  fh_base_fee_per_gas : list Z;
  gas_used_ratio : list Z;
  reward : list (list Z);
}.

Record L2ToL1LogProof := mkLogProof {
  lp_proof : list H256;
  lp_root : H256;
  lp_id : Z;
}.
#[global] Instance L2ToL1LogProof_eq_dec : EqDecision L2ToL1LogProof.
Proof. solve_decision. Defined.

Section Api.
Context {TA : TransactionApi} {FA : FeeApi} {KA : KeyApi} {CA : ChainApi} {BA : BlockApi} {RA : VmResultApi}.
Context {NA : NodeApi} {QA : RequestApi} {EA : EstimationApi} {CH : Channel} {TI : Ticker}.
Context {Client : Type} {R : Remote (Client := Client)}.
Context {VM : VmApi (StorageState (Client := Client))} {CV : CallVm (StorageState (Client := Client))}.
Context {SV : SandboxVm (StorageState (Client := Client))}.
Context (exec : NodeExecutor).
Abbreviation Node := (InMemoryNode (Client := Client)).
Abbreviation NM := (M Node ApiError).

(** Reads of the parts. *)
Definition of_chain {A} (m : M BlockchainState NodeError A) : NM A := on_inner (on_chain m).
Definition of_fork {A} (m : ForkM (Client := Client) A) : NM A := on_inner (on_fork m).
(** [read_value_alt] and [load_factory_dep_alt] *)
Definition read_value_alt (key : StorageKey) : NM H256 := on_inner (on_storage (read_value_internal key)).
Definition load_factory_dep_alt (hash : H256) : NM (option Bytes) :=
  on_inner (on_storage (load_factory_dep_internal hash)).
Definition layout_key (f : StorageKeyLayout → Address → M Node ApiError StorageKey) (a : Address) : NM StorageKey :=
  layout ← gets (λ s, storage_key_layout (nd_inner s));
  f layout a.
Definition request_result {A} (r : Prelude.result A string) : NM A :=
  match r with Ok a => mret a | Err e => throw (RequestError e) end.

(** ** [eth] *)

(** The gas limit of a call. *)
Definition call_gas_limit (sc : SystemContracts) : Z :=
  if use_boojum sc then BOOJUM_CALL_GAS_LIMIT else ETH_CALL_GAS_LIMIT.
Definition with_call_gas (limit : Z) (t : L2Tx) : L2Tx :=
  let d := l2tx_common t in
  mkL2Tx (set_l2_fee (mkFee limit (max_fee_per_gas (l2_fee d)) (max_priority_fee_per_gas (l2_fee d))
            (gas_per_pubdata_limit (l2_fee d))) d)
    (l2tx_execute t) (l2tx_received t) (l2tx_raw t).

(** "execution reverted: message" *)
Definition pretty (what message : string) : string :=
  what +:+ (if bool_decide (message = "") then "" else ": ") +:+ message.

(** [call_impl] *)
Definition call_impl (req : CallRequest) (state_override : option (list (Address * OverrideAccount)))
    : NM Bytes :=
  sc ← gets (λ s, system_contracts (nd_inner s));
  base ← contracts_for_l2_call sc;
  tx ← request_result (L2Tx_from_request req MAX_TX_SIZE (allow_no_target sc));
  (match contract_address (l2tx_execute tx) with
   | Some to_address => read_value_alt (get_code_key to_address);; mret tt
   | None => mret tt
   end);;
  let tx := with_call_gas (call_gas_limit sc) tx in
  call_result ← run_l2_call tx base state_override;
  match call_result with
  | Success output => mret output
  | Revert output =>
      throw (SubmitTransactionError (pretty "execution reverted" (user_friendly output))
               (revert_encoded_data output))
  | Halt reason => throw (SubmitTransactionError (pretty "execution halted " reason) [])
  end.

(** [send_raw_transaction_impl] *)
Definition send_raw_transaction_impl (tx_bytes : Bytes) : NM H256 :=
  chain_id ← node_chain_id;
  sc ← gets (λ s, system_contracts (nd_inner s));
  r ← request_result (request_from_bytes tx_bytes chain_id);
  let '(tx_req, hash) := r in
  l2_tx ← request_result (l2_from_transaction_request tx_req MAX_TX_SIZE (allow_no_target sc));
  let l2_tx := l2tx_set_input tx_bytes hash l2_tx in
  if negb (hash =? tx_hash (tx_of_l2 l2_tx)) then
    throw (Anyhow "Invalid transaction data: computed hash does not match the provided hash.")
  else
    modify (λ s, set_pool (add_tx (tx_of_l2 l2_tx) (nd_pool s)) s);;
    mret hash.

(** The defaults [send_transaction_impl] fills in before the nonce. *)
Definition fill_gas (l2_gas_price : Z) (tx : CallRequest) : CallRequest :=
  let gas := Some (default MAX_L1_TRANSACTION_GAS_LIMIT (cr_gas tx)) in
  match cr_gas_price tx with
  | Some _ =>
      mkCallRequest (cr_from tx) (cr_to tx) gas (cr_gas_price tx) (cr_max_fee_per_gas tx)
        (cr_max_priority_fee_per_gas tx) (cr_value tx) (cr_data tx) (cr_nonce tx) (cr_transaction_type tx)
        (cr_eip712_meta tx)
  | None =>
      mkCallRequest (cr_from tx) (cr_to tx) gas (Some (default l2_gas_price (cr_max_fee_per_gas tx)))
        (cr_max_fee_per_gas tx) (Some (default 0 (cr_max_priority_fee_per_gas tx))) (cr_value tx) (cr_data tx)
        (cr_nonce tx)
        (match cr_transaction_type tx with Some t => Some t | None => Some EIP_1559_TX_TYPE end)
        (cr_eip712_meta tx)
  end.

(** [send_transaction_impl] *)
Definition send_transaction_impl (tx : CallRequest) : NM H256 :=
  chain_id ← node_chain_id;
  l2_gas_price ← gets (λ s, gas_price (fee_input_provider (nd_inner s)));
  (if bool_decide (is_Some (cr_gas_price tx)) &&
      (bool_decide (is_Some (cr_max_fee_per_gas tx)) || bool_decide (is_Some (cr_max_priority_fee_per_gas tx)))
   then throw (TransparentError
     "Transaction contains unsupported fields: max_fee_per_gas or max_priority_fee_per_gas")
   else mret tt);;
  let tx := fill_gas l2_gas_price tx in
  tx ← match cr_nonce tx with
       | Some _ => mret tx
       | None =>
           from ← expect "called `Option::unwrap()` on a `None` value" (cr_from tx);
           nonce_key ← layout_key layout_nonce_key from;
           full_nonce ← read_value_alt nonce_key;
           nonce ← expect "arithmetic operation overflow" (checked_add_u256 full_nonce 1);
           mret (set_nonce (Some nonce) tx)
       end;
  let tx_req := request_set_zero_signature (request_set_chain_id chain_id (request_of_call tx)) in
  bytes ← request_result (get_signed_bytes tx_req);
  r ← request_result (request_from_bytes bytes chain_id);
  let '(tx_req, hash) := r in
  let tx_req := request_set_from (cr_from tx) tx_req in
  sc ← gets (λ s, system_contracts (nd_inner s));
  l2_tx ← request_result (l2_from_transaction_request tx_req MAX_TX_SIZE (allow_no_target sc));
  let l2_tx := l2tx_set_input bytes hash l2_tx in
  allowed ← gets (λ s, is_impersonating (impersonation (nd_inner s)) (l2_initiator_address (l2tx_common l2_tx)));
  if negb (allowed : bool) then
    throw (TransparentError "Initiator address is not allowed to perform transactions")
  else
    modify (λ s, set_pool (add_tx (tx_of_l2 l2_tx) (nd_pool s)) s);;
    mret hash.

Definition get_balance_impl (address : Address) : NM Z :=
  balance_key ← layout_key get_storage_key_for_base_token address;
  read_value_alt balance_key.

(** The transactions of a block as full objects or hashes. *)
Definition show_transaction (full_transactions : bool) (tx : TransactionVariant) : NM TransactionVariant :=
  match tx with
  | Full inner => mret (if full_transactions then tx else JustHash (at_hash inner))
  | JustHash _ => if full_transactions then panic "unexpected non full transaction for block" else mret tx
  end.

Definition get_block_impl (block_id : BlockId) (full_transactions : bool) : NM (option ApiBlock) :=
  local ← of_chain (get_block_by_id block_id);
  maybe_block ← match local with
                | Some block => mret (Some block)
                | None => of_fork (fork_get_block_by_id block_id)
                end;
  match maybe_block with
  | Some block =>
      txs ← map_m (show_transaction full_transactions) (b_transactions block);
      mret (Some (with_transactions txs block))
  | None => mret None
  end.

Definition get_code_impl (address : Address) : NM Bytes :=
  code_hash ← read_value_alt (get_code_key address);
  raw_code ← load_factory_dep_alt code_hash;
  mret (default [] raw_code).

Definition get_transaction_count_impl (address : Address) : NM Z :=
  nonce_key ← layout_key layout_nonce_key address;
  full_nonce ← read_value_alt nonce_key;
  let '(account_nonce, deployment_nonce) := decompose_full_nonce full_nonce in
  code_hash ← read_value_alt (get_code_key address);
  account_info ← read_value_alt (get_is_account_key address);
  mret (if (code_hash =? 0) || negb (account_info =? 0) then account_nonce else deployment_nonce).

Definition get_transaction_receipt_impl (hash : H256) : NM (option TransactionReceipt) :=
  of_chain (get_tx_receipt hash).

Definition get_transaction_by_hash_impl (hash : H256) : NM (option ApiTransaction) :=
  r ← of_chain (get_tx_api hash);
  match r with
  | Err e => throw (Anyhow e)
  | Ok (Some tx) => mret (Some tx)
  | Ok None => of_fork (get_transaction_by_hash hash)
  end.

Definition get_block_number_impl : NM Z := gets (λ s, current_block (blockchain (nd_inner s))).

Definition eth_estimate_gas_impl (req : CallRequest) : NM Z :=
  fee ← on_inner (estimate_gas_impl req);
  mret (gas_limit fee).

Definition gas_price_impl : NM Z := gets (λ s, gas_price (fee_input_provider (nd_inner s))).

(** The topics of a request: at most four, each absent or a set. *)
Definition request_topics (t : option (list (option (list H256)))) : list (option (gset H256)) :=
  let given := (λ o : option (list H256), list_to_set <$> o) <$> take 4 (default [] t) in
  given ++ replicate (4 - length given) None.

Definition on_filters {A} (f : EthFilters → A * EthFilters) : NM A := λ s,
  let r := f (node_filters (nd_inner s)) in
  Ret r.1 (set_inner (set_filters r.2 (nd_inner s)) s).
Definition filter_result {A} (m : NM (Prelude.result A string)) : NM A :=
  r ← m;
  match r with Ok a => mret a | Err e => throw (Anyhow e) end.

Definition new_filter_impl (f : LogRequest) : NM Z :=
  filter_result (on_filters (add_log_filter (default Latest (lr_from_block f)) (default Latest (lr_to_block f))
    (default [] (lr_address f)) (request_topics (lr_topics f)))).
Definition new_block_filter_impl : NM Z := filter_result (on_filters add_block_filter).
Definition new_pending_transaction_filter_impl : NM Z :=
  filter_result (on_filters add_pending_transaction_filter).
Definition uninstall_filter_impl (id : Z) : NM bool := on_filters (remove_filter id).

Definition get_logs_impl (f : LogRequest) : NM (list Log) :=
  of_chain (get_filter_logs (LogFilter_new (default Earliest (lr_from_block f)) (default Latest (lr_to_block f))
    (default [] (lr_address f)) (request_topics (lr_topics f)))).

Definition get_filter_logs_impl (id : Z) : NM FilterChanges :=
  f ← gets (λ s, get_filter (node_filters (nd_inner s)) id);
  match f with
  | Some (FLog log_filter) => logs ← of_chain (get_filter_logs log_filter); mret (ChangesLogs logs)
  | _ => throw (Anyhow "Failed to acquire read lock for filter logs.")
  end.

Definition get_filter_changes_impl (id : Z) : NM FilterChanges := filter_result (on_filters (get_new_changes id)).

Definition get_block_transaction_count_impl (block_id : BlockId) : NM (option Z) :=
  local ← of_chain (get_block_tx_count_by_id block_id);
  count ← match local with
          | Some count => mret (Some count)
          | None => of_fork (fork_tx_count_by_id block_id)
          end;
  match count with
  | Some count => mret (Some count)
  | None => throw NoBlock
  end.

Definition get_storage_impl (address : Address) (idx : Z) (block : option BlockIdVariant) : NM H256 :=
  on_inner (get_storage_at_block address idx block).

Definition get_transaction_by_block_and_index_impl (block_id : BlockId) (index : Z)
    : NM (option ApiTransaction) :=
  local ← of_chain (get_block_tx_by_id block_id (Z.to_nat index));
  match local with
  | Some tx => mret (Some tx)
  | None => of_fork (fork_tx_by_block_id_and_index block_id index)
  end.

Definition PROTOCOL_VERSION : string := "zks/1".
Definition protocol_version_impl : string := PROTOCOL_VERSION.

Definition accounts_impl : NM (list Address) := gets (λ s, elements (rich_accounts (nd_inner s))).

(** [fee_history_impl]; the number of percentiles is what matters of them. *)
Definition fee_history_impl (block_count : Z) (reward_percentiles : option nat) : NM FeeHistory :=
  current ← gets (λ s, current_block (blockchain (nd_inner s)));
  price ← gets (λ s, gas_price (fee_input_provider (nd_inner s)));
  let block_count := Z.to_nat (Z.max 1 (Z.min (Z.min block_count 1024) (current + 1))) in
  let base_fee_per_gas := replicate block_count price in
  let oldest := (current + 1 - Z.of_nat block_count) mod 2 ^ 32 in
  last_fee ← expect "called `Option::unwrap()` on a `None` value" (last base_fee_per_gas);
  mret (mkFeeHistory oldest (base_fee_per_gas ++ [last_fee]) (replicate block_count 0)
          (replicate block_count (replicate (default 0%nat reward_percentiles) 0))).

(** ** [zks] *)
Definition estimate_fee_impl (req : CallRequest) : NM Fee := on_inner (estimate_gas_impl req).
Definition estimate_gas_l1_to_l2 (req : CallRequest) : NM Z := on_inner (estimate_l1_to_l2_gas_impl req).

Definition get_raw_block_transactions_impl (block_number : Z) : NM (list Transaction) :=
  tx_hashes ← of_chain (get_block_tx_hashes_by_number block_number);
  match tx_hashes with
  | Some tx_hashes =>
      map_m (λ h,
        tx ← of_chain (get_zksync_tx h);
        try_option (Anyhow "Unexpectedly transaction belongs to a block but could not be found") tx) tx_hashes
  | None => of_fork (get_raw_block_transactions block_number)
  end.

Definition no_bridges : BridgeAddresses := mkBridgeAddresses None None None None None None None.
Definition get_bridge_contracts_impl : NM BridgeAddresses :=
  b ← of_fork fork_get_bridge_contracts;
  mret (default no_bridges b).

Definition get_confirmed_tokens_impl (from limit : Z) : NM (list Token) :=
  t ← of_fork (fork_get_confirmed_tokens from limit);
  mret (default [mkToken 0 L2_BASE_TOKEN_ADDRESS "Ether" "ETH" 18] t).

Fixpoint token_balances (address : Address) (balances : gmap Address Z) (tokens : list Token)
    : NM (gmap Address Z) :=
  match tokens with
  | [] => mret balances
  | token :: tokens =>
      balance ← read_value_alt (storage_key_for_standard_token_balance (tok_l2_address token) address);
      token_balances address
        (if balance =? 0 then balances else <[tok_l2_address token := balance]> balances) tokens
  end.

Definition get_all_account_balances_impl (address : Address) : NM (gmap Address Z) :=
  tokens ← get_confirmed_tokens_impl 0 100;
  token_balances address ∅ tokens.

Definition get_block_details_impl (block_number : Z) : NM (option BlockDetails) :=
  hashes ← gets (λ s, base_system_contracts_hashes (system_contracts (nd_inner s)));
  p ← gets (λ s, fee_input_provider (nd_inner s));
  version ← gets (λ s, blockchain_version (nd_inner s));
  local ← of_chain (get_block_details_by_number version block_number (gas_price p)
                      (Some (fair_pubdata_price p)) hashes);
  match local with
  | Some d => mret (Some d)
  | None => of_fork (fork_get_block_details block_number)
  end.

Definition get_transaction_details_impl (hash : H256) : NM (option TransactionDetails) :=
  local ← of_chain (get_tx_details hash);
  match local with
  | Some d => mret (Some d)
  | None => of_fork (fork_get_transaction_details hash)
  end.

Definition get_bytecode_by_hash_impl (hash : H256) : NM (option Bytes) :=
  local ← load_factory_dep_alt hash;
  match local with
  | Some bytecode => mret (Some bytecode)
  | None => of_fork (get_bytecode_by_hash hash)
  end.

Definition get_base_token_l1_address_impl : NM Address := mret 1.

(** The metadata word: version, length, no batch proof, final node. *)
Definition proof_metadata (log_leaf_proof_len : nat) : H256 :=
  of_be_bytes ([LOG_PROOF_SUPPORTED_METADATA_VERSION; Z.of_nat log_leaf_proof_len mod 256; 0; 1] ++ replicate 28 0).

Definition get_l2_to_l1_log_proof_impl (tx_hash : H256) (index : option nat) : NM (option L2ToL1LogProof) :=
  receipt ← of_chain (get_tx_receipt tx_hash);
  match receipt with
  | None => mret None
  | Some tx_receipt =>
      n ← expect "" (rc_l1_batch_number tx_receipt);
      l1_batch_number ← as_u32_checked n;
      header ← of_chain (get_batch_header l1_batch_number);
      match header with
      | None => mret None
      | Some l1_batch =>
          let all_logs := bh_l2_to_l1_logs l1_batch in
          i ← expect "" (rc_l1_batch_tx_index tx_receipt);
          i ← as_u32_checked i;
          let l1_batch_tx_index := as_u16 i in
          match filter (λ il : nat * UserL2ToL1Log, ul_tx_number_in_block il.2 = l1_batch_tx_index)
                  (enumerate all_logs) !! default 0%nat index with
          | None => mret None
          | Some (l1_log_index, _) =>
              version ← gets (λ s, blockchain_version (nd_inner s));
              let '(local_root, proof) :=
                merkle_root_and_path (log_to_bytes <$> all_logs) (l2_to_l1_logs_tree_size version) l1_log_index in
              aggregated_root ← of_chain (get_batch_aggregation_root l1_batch_number);
              match aggregated_root with
              | None => mret None
              | Some aggregated_root =>
                  let log_leaf_proof := proof ++ [aggregated_root] in
                  mret (Some (mkLogProof (proof_metadata (length log_leaf_proof) :: log_leaf_proof)
                                (compress local_root aggregated_root) (as_u32 (Z.of_nat l1_log_index))))
              end
          end
      end
  end.

(** ** [debug] *)
Definition trace_block_impl (block_id : BlockId) (only_top : bool) : NM (list DebugCall) :=
  tx_hashes ← of_chain (get_block_tx_hashes_by_id block_id);
  tx_hashes ← try_option (Anyhow "Block not found") tx_hashes;
  map_m (λ h,
    d ← of_chain (get_tx_debug_info h only_top);
    try_option (Anyhow "Unexpectedly transaction belongs to a block but could not be found") d) tx_hashes.

Definition trace_call_impl (request : CallRequest) (block : option BlockId) (only_top : bool) : NM DebugCall :=
  sc ← gets (λ s, system_contracts (nd_inner s));
  base ← contracts_for_l2_call sc;
  (if bool_decide (block = None ∨ block = Some (IdNumber Latest)) then mret tt
   else throw (Anyhow "tracing only supported at `latest` block"));;
  l2_tx ← request_result (L2Tx_from_request request MAX_TX_SIZE (allow_no_target sc));
  env ← on_inner create_l1_batch_env;
  let max_fee := max_fee_per_gas (l2_fee (l2tx_common l2_tx)) in
  max_fee ← (if max_fee <=? u64_max then mret max_fee else panic "Integer overflow when casting to u64");
  let e := env.1 in
  let l1_batch_env :=
    mkL1BatchEnv (be_previous_batch_hash e) (be_number e) (be_timestamp e) (be_fee_input e) (be_fee_account e)
      (Some max_fee) (be_first_l2_block e) in
  system_env ← gets (λ s, create_system_env (nd_inner s) base EthCall);
  let d := l2tx_common l2_tx in
  let l2_tx :=
    mkL2Tx (mkL2Data (l2_nonce d) (l2_fee d) (l2_initiator_address d)
              (if bool_decide (l2_signature d = []) then default_signature else l2_signature d)
              (l2_transaction_type d) (l2_input d))
      (l2tx_execute l2_tx) (l2tx_received l2_tx) (l2tx_raw l2_tx) in
  let tx := tx_of_l2 (with_call_gas (call_gas_limit sc) l2_tx) in
  r ← on_inner (on_storage (vm_call l1_batch_env system_env None [] tx));
  let call_traces := if only_top then [] else r.2 in
  match create_debug_output CONTRACT_DEPLOYER_ADDRESS tx r.1 call_traces with
  | Some (Ok d) => mret d
  | Some (Err e) => throw (SubmitTransactionError e [])
  | None => panic "internal error: entered unreachable code"
  end.

Definition trace_transaction_impl (tx_hash : H256) (only_top : bool) : NM (option DebugCall) :=
  of_chain (get_tx_debug_info tx_hash only_top).
End Api.
