(* ===== verification/Serving.v ===== *)
(** * What the node's methods guarantee

    Theorems about the methods of [Node.v] and [Api.v] seen from a client:
    what was set is read back, what was mined is served, and which submissions
    reach the pool. *)
From S2P Require Import Prelude Types Utils Filters Impersonate Time Pool Cache Fork Storage.
From S2P Require Import FeeModel Sealer Blockchain Inner Sealing VmRunner Running Executor GasEstim Node Api.
Local Open Scope Z_scope.

Section Serving.
Context {TA : TransactionApi} {FA : FeeApi} {KA : KeyApi} {CA : ChainApi} {BA : BlockApi} {RA : VmResultApi}.
Context {NA : NodeApi} {QA : RequestApi} {EA : EstimationApi} {CH : Channel} {TI : Ticker}.
Context {Client : Type} {R : Remote (Client := Client)}.
Context {VM : VmApi (StorageState (Client := Client))} {CV : CallVm (StorageState (Client := Client))}.
Context {SV : SandboxVm (StorageState (Client := Client))}.
Context (exec : NodeExecutor).
Abbreviation Node := (InMemoryNode (Client := Client)).

(** ** Reads *)

Definition nd_storage (s : Node) : StorageState (Client := Client) :=
  (fork_storage (nd_inner s), fork (nd_inner s)).

(** A read leaves the node as it is, but for what the storage remembers. *)
Definition reads (s s' : Node) : Prop :=
  ∃ st, same_view (nd_storage s) st ∧ s' = set_inner (set_storage st (nd_inner s)) s.

Lemma set_inner_same (s : Node) : set_inner (nd_inner s) s = s.
Proof. by destruct s as [[]]. Qed.
Lemma set_storage_same (n : InMemoryNodeInner (Client := Client)) : set_storage (fork_storage n, fork n) n = n.
Proof. by destruct n. Qed.

Lemma reads_refl s : reads s s.
Proof.
  exists (nd_storage s). split; [by split_and!|].
  unfold nd_storage. by rewrite set_storage_same, set_inner_same.
Qed.

Lemma reads_storage s s' : reads s s' → same_view (nd_storage s) (nd_storage s').
Proof. intros ([st fk]&Hv&->). exact Hv. Qed.

Lemma reads_trans s1 s2 s3 : reads s1 s2 → reads s2 s3 → reads s1 s3.
Proof.
  intros (st&Hv&->) (st'&Hv'&->). exists st'. split; [|done].
  destruct st. by eapply same_view_trans.
Qed.

Lemma on_inner_storage {A} (m : M (StorageState (Client := Client)) NodeError A) s a st :
  m (nd_storage s) = Ret a st → on_inner (on_storage m) s = Ret a (set_inner (set_storage st (nd_inner s)) s).
Proof. intros H. unfold on_inner, zoom, map_err, on_storage, zoom. unfold nd_storage in H. by rewrite H. Qed.

Lemma read_value_alt_run key s v :
  view (nd_storage s) key = Ok v → ∃ s', read_value_alt key s = Ret v s' ∧ reads s s'.
Proof.
  intros Hv. destruct (read_value_view (E := NodeError) _ _ _ Hv) as (st&H&Hs).
  eexists. split; [exact (on_inner_storage _ _ _ _ H)|]. by exists st.
Qed.

Lemma load_factory_dep_alt_run hash s c :
  code_view (nd_storage s) hash = Ok c → ∃ s', load_factory_dep_alt hash s = Ret c s' ∧ reads s s'.
Proof.
  intros Hv. destruct (load_factory_dep_view (E := NodeError) _ _ _ Hv) as (st&H&Hs).
  eexists. split; [exact (on_inner_storage _ _ _ _ H)|]. by exists st.
Qed.

Lemma of_chain_run {A} (m : M BlockchainState NodeError A) (s : Node) a :
  m (blockchain (nd_inner s)) = Ret a (blockchain (nd_inner s)) → of_chain m s = Ret a s.
Proof.
  intros H. unfold of_chain, on_inner, zoom, map_err, on_chain, zoom. rewrite H.
  by destruct s as [[[] ?]].
Qed.

(** A request that the running executor answers. *)
Lemma on_handle_run {A} (c : Command A) s a n' :
  task_running (nd_task s) = true → handle exec c (nd_inner s) = Ret a n' →
  on_handle (execute_with_response exec c) s = Ret a (set_inner n' s).
Proof.
  destruct s as [[n []]]; [|done]. intros _ H.
  unfold on_handle, zoom, map_err, execute_with_response. unfold nd_inner in H. simpl in *. by rewrite H.
Qed.

Lemma on_handle_fallible {A} (c : Command (Prelude.result A NodeError)) s a n' :
  task_running (nd_task s) = true → handle exec c (nd_inner s) = Ret (Ok a) n' →
  on_handle (execute_fallible exec c) s = Ret a (set_inner n' s).
Proof.
  intros Hr H. pose proof (on_handle_run _ _ _ _ Hr H) as He.
  unfold on_handle, zoom, map_err, execute_fallible, mbind, M_bind in *.
  by destruct (execute_with_response exec c (nd_task s)); simplify_eq/=.
Qed.

(** ** What was set is read back *)

(** The node with another storage. *)
Definition with_storage (st : ForkStorage) (s : Node) : Node :=
  set_inner (set_storage (st, fork (nd_inner s)) (nd_inner s)) s.

Lemma written_view key v s k :
  view (nd_storage (with_storage (set_value key v (fork_storage (nd_inner s))) s)) k =
  if decide (k = key) then Ok v else view (nd_storage s) k.
Proof. apply (set_value_view key v (nd_storage s) k). Qed.

Lemma written_reads_back key v s :
  ∃ s', read_value_alt key (with_storage (set_value key v (fork_storage (nd_inner s))) s) = Ret v s'.
Proof.
  destruct (read_value_alt_run key (with_storage (set_value key v (fork_storage (nd_inner s))) s) v)
    as (s'&H&_); [|eauto]. by rewrite written_view, decide_True.
Qed.

Section SetGet.
Context (s : Node) (Hrun : task_running (nd_task s) = true).
Context (Hexec : executor_layout exec = ZkEra) (Hlayout : storage_key_layout (nd_inner s) = ZkEra).

Lemma balance_set_get a v :
  ∃ s1, node_set_balance exec a v s = Ret true s1 ∧ ∃ s2, get_balance_impl a s1 = Ret v s2.
Proof.
  eexists. split.
  { unfold node_set_balance. step_m ltac:(eapply on_handle_run; [done|simpl]).
    2: { unfold exec_set_balance. rewrite Hexec. reflexivity. } reflexivity. }
  unfold get_balance_impl. step_m ltac:(unfold layout_key; step_m ltac:(reflexivity); simpl; rewrite Hlayout; reflexivity).
  apply written_reads_back.
Qed.

Lemma storage_set_get a slot v :
  is_u32 (current_block (blockchain (nd_inner s))) →
  ∃ s1, set_storage_at exec a slot v s = Ret true s1 ∧ ∃ s2, get_storage_impl a slot None s1 = Ret v s2.
Proof.
  intros Hb. eexists. split.
  { unfold set_storage_at. step_m ltac:(eapply on_handle_run; [done|reflexivity]). reflexivity. }
  destruct (written_reads_back (a, slot) v s) as [s2 H]. exists s2. rewrite <-H.
  unfold get_storage_impl, read_value_alt, on_inner, zoom, map_err. simpl.
  unfold get_storage_at_block. step_m ltac:(reflexivity). step_m ltac:(reflexivity). simpl.
  assert (Hto : ∀ n, to_u32 (E := NodeError) (S := InMemoryNodeInner (Client := Client))
    (current_block (blockchain (nd_inner s))) n = Ret (current_block (blockchain (nd_inner s))) n).
  { intros n. unfold to_u32. unfold is_u32 in Hb. destruct (Z.leb_spec (current_block (blockchain (nd_inner s))) u32_max); [done|lia]. }
  step_m ltac:(apply Hto). by rewrite Z.eqb_refl.
Qed.

Lemma code_set_get a code :
  ∃ s1, override_bytecode exec a code s = Ret tt s1 ∧
    ∃ s2, get_code_impl a s1 =
      Ret (match detect_bytecode code with EraVm => code | Evm => pad_evm_bytecode code end) s2.
Proof.
  eexists. split; [unfold override_bytecode; eapply on_handle_run; [done|reflexivity]|].
  set (h := match detect_bytecode code with EraVm => _ | Evm => _ end).
  set (code' := match detect_bytecode code with Evm => _ | EraVm => _ end).
  unfold get_code_impl.
  match goal with |- ∃ s2, _ ?s1 = _ => set (s' := s1) end.
  assert (Hv : view (nd_storage s') (get_code_key a) = Ok h).
  { unfold view. simpl. by rewrite lookup_insert_eq. }
  assert (Hc : code_view (nd_storage s') h = Ok (Some code')).
  { unfold code_view. simpl. by rewrite lookup_insert_eq. }
  destruct (read_value_alt_run _ _ _ Hv) as (s2&H2&Hr). step_m ltac:(exact H2).
  destruct (reads_storage _ _ Hr) as (_&Hcode&_). rewrite <-Hcode in Hc.
  destruct (load_factory_dep_alt_run _ _ _ Hc) as (s3&H3&_). step_m ltac:(exact H3).
  exists s3. done.
Qed.

Lemma nonce_set_get a v :
  decompose_full_nonce (nonces_to_full_nonce v v) = (v, v) → available (nd_storage s) →
  ∃ s1, node_set_nonce exec a v s = Ret true s1 ∧ ∃ s2, get_transaction_count_impl a s1 = Ret v s2.
Proof.
  intros Hnonce [Hav _]. eexists. split.
  { unfold node_set_nonce. step_m ltac:(eapply on_handle_run; [done|simpl]).
    2: { unfold exec_set_nonce. rewrite Hexec. reflexivity. } reflexivity. }
  match goal with |- ∃ s2, _ ?s1 = _ => set (s' := s1) end.
  assert (Hs' : s' = with_storage (set_value (get_nonce_key a) (nonces_to_full_nonce v v) (fork_storage (nd_inner s))) s)
    by reflexivity. clearbody s'.
  assert (Hav' : ∀ k, ∃ v, view (nd_storage s') k = Ok v).
  { intros k. rewrite Hs', written_view. case_decide; eauto. }
  unfold get_transaction_count_impl.
  step_m ltac:(unfold layout_key; step_m ltac:(reflexivity); rewrite Hs'; simpl; rewrite Hlayout; reflexivity).
  rewrite <-Hs'.
  destruct (read_value_alt_run (get_nonce_key a) s' (nonces_to_full_nonce v v)) as (s2&H2&Hr2).
  { by rewrite Hs', written_view, decide_True. }
  step_m ltac:(exact H2). rewrite Hnonce. destruct (reads_storage _ _ Hr2) as (Hv2&_).
  destruct (Hav' (get_code_key a)) as [c Hc]. rewrite <-Hv2 in Hc.
  destruct (read_value_alt_run _ _ _ Hc) as (s3&H3&Hr3). step_m ltac:(exact H3).
  destruct (reads_storage _ _ Hr3) as (Hv3&_).
  destruct (Hav' (get_is_account_key a)) as [i Hi]. rewrite <-Hv2, <-Hv3 in Hi.
  destruct (read_value_alt_run _ _ _ Hi) as (s4&H4&_). step_m ltac:(exact H4).
  exists s4. by destruct (_ || _).
Qed.

(** C14: the [set] methods of the node and the getters of [eth] agree: on a
    running node, setting a balance, a nonce, a storage slot or the code of an
    account succeeds, and reading it returns what was set (the code padded when
    it is EVM bytecode; the nonce for accounts and contracts alike). *)
Theorem set_then_get :
  is_u32 (current_block (blockchain (nd_inner s))) → available (nd_storage s) →
  (∀ a v, ∃ s1, node_set_balance exec a v s = Ret true s1 ∧ ∃ s2, get_balance_impl a s1 = Ret v s2) ∧
  (∀ a v, decompose_full_nonce (nonces_to_full_nonce v v) = (v, v) →
     ∃ s1, node_set_nonce exec a v s = Ret true s1 ∧ ∃ s2, get_transaction_count_impl a s1 = Ret v s2) ∧
  (∀ a slot v,
     ∃ s1, set_storage_at exec a slot v s = Ret true s1 ∧ ∃ s2, get_storage_impl a slot None s1 = Ret v s2) ∧
  (∀ a code,
     ∃ s1, override_bytecode exec a code s = Ret tt s1 ∧
       ∃ s2, get_code_impl a s1 =
         Ret (match detect_bytecode code with EraVm => code | Evm => pad_evm_bytecode code end) s2).
Proof.
  intros Hb Hav. split_and!.
  - apply balance_set_get.
  - intros a v Hn. by apply nonce_set_get.
  - intros. by apply storage_set_get.
  - apply code_set_get.
Qed.
End SetGet.

(** ** What was mined is served *)
Section Mined.
Context {VR : VmReads (Client := Client)}.

(** C4: from the pool to the API.  When the run of the batch that is taken
    from the pool succeeds on a ready node, [mine_block] returns the number of
    the new block; the node then reports it (or the virtual block after it) as
    the latest one, the block with that number has one transaction per included
    transaction, and the receipt of every one of them is served under its hash,
    pointing to that block. *)
Theorem mined_block_served (s : Node) (n1 : InMemoryNodeInner (Client := Client)) (imp : bool)
    (txs : list Transaction) (p : TxPool) (r : TxBatchExecutionResult) :
  task_running (nd_task s) = true → ready (nd_inner s) →
  take_uniform (impersonation (nd_inner s)) (cfg_max_transactions (config (nd_inner s))) (nd_pool s) =
    (Some (mkTxBatch imp txs), p) →
  NoDup (tx_hash <$> txs) →
  run_tx_batch (vm_runner exec) (mkTxBatch imp txs) (nd_inner s) = Ret r n1 → acceptable n1 r →
  let number := current_block (blockchain (nd_inner s)) + 1 in
  ∃ s', mine_block exec s = Ret number s' ∧ nd_pool s' = p ∧ chain_wf (blockchain (nd_inner s')) ∧
    get_block_number_impl s' =
      Ret (if bool_decide (length (br_tx_results r) = 0%nat) then number else number + 1) s' ∧
    (∃ block, of_chain (get_block_by_number number) s' = Ret (Some block) s' ∧
       length (b_transactions block) = length (br_tx_results r)) ∧
    ∀ tr, tr ∈ br_tx_results r →
      info_tx (tr_info tr) ∈ txs ∧
      rc_block_number (tr_receipt tr) = number ∧
      get_transaction_receipt_impl (tx_hash (info_tx (tr_info tr))) s' = Ret (Some (tr_receipt tr)) s'.
Proof.
  intros Hrun Hready Htake Hnd Hr Hac number.
  destruct (seal_command_run _ _ _ _ _ _ Hready Hnd Hr Hac) as (n2&c0&block&Hseal&Hm&Hchain&Hran&Hsealed).
  pose proof (ran_blocks _ _ _ _ _ _ Hran) as Hblocks.
  destruct Hsealed as (Hwf&Hcur&_&(Hblk&_&_&_&Hlen)&_&Hin&_).
  exists (set_inner n2 (set_pool p s)). split_and!; try done.
  - unfold mine_block. step_m ltac:(unfold take_batch; rewrite Htake; reflexivity). cbn [fst snd default].
    by apply on_handle_fallible.
  - unfold get_block_number_impl, gets. f_equal. unfold nd_inner at 1. simpl.
    rewrite Hcur, Hchain, Hblocks. case_bool_decide; unfold number; lia.
  - exists block. split; [|done]. apply of_chain_run. unfold number. rewrite <-Hm. exact Hblk.
  - intros tr Htr. destruct (ran_included _ _ _ _ _ _ _ Hran Htr) as [Htx Hhash]. split_and!; [done|..].
    + pose proof Htr as [k Hk]%list_elem_of_lookup. destruct Hran as (_&_&_&_&_&_&Hall&_).
      destruct (all_placed_lookup _ _ _ _ _ _ _ Hall Hk) as [? Hp].
      destruct (pl_block _ _ _ _ _ _ Hp) as (_&->&_). exact Hm.
    + apply of_chain_run. unfold get_tx_receipt, inspect_tx, gets, nd_inner. simpl.
      by rewrite <-Hhash, (Hin _ Htr).
Qed.
End Mined.

(** ** Submissions *)

Lemma read_value_alt_inv key s :
  match read_value_alt key s with Ret _ s' => reads s s' | Throw _ _ => False | _ => True end.
Proof.
  unfold read_value_alt, on_inner, zoom, map_err, on_storage, zoom.
  fold (nd_storage s). rewrite read_value_internal_run.
  destruct (view (nd_storage s) key) as [v|] eqn:Hv.
  - pose proof (read_value_alt_run key s v Hv) as (s'&H&Hr).
    unfold read_value_alt, on_inner, zoom, map_err, on_storage, zoom in H.
    fold (nd_storage s) in H. rewrite read_value_internal_run, Hv in H.
    by repeat case_match; simplify_eq/=.
  - by repeat case_match.
Qed.

(** An operation that changes nothing but what the storage remembers. *)
Definition only_reads {A} (m : M Node ApiError A) : Prop :=
  ∀ s, match m s with Ret _ s' | Throw _ s' => reads s s' | _ => True end.

Lemma only_reads_bind {A B} (m : M Node ApiError A) (f : A → M Node ApiError B) :
  only_reads m → (∀ a, only_reads (f a)) → only_reads (m ≫= f).
Proof.
  intros Hm Hf s. unfold mbind, M_bind. specialize (Hm s). destruct (m s) as [a s1|e s1|msg|]; try done.
  specialize (Hf a s1). destruct (f a s1); eauto using reads_trans.
Qed.
Lemma only_reads_ret {A} (a : A) : only_reads (mret a).
Proof. intros s. apply reads_refl. Qed.
Lemma only_reads_gets {A} (f : Node → A) : only_reads (gets f).
Proof. intros s. apply reads_refl. Qed.
Lemma only_reads_throw {A} e : only_reads (throw (A := A) e).
Proof. intros s. apply reads_refl. Qed.
Lemma only_reads_expect {A} msg (o : option A) : only_reads (expect msg o).
Proof. intros s. destruct o; [apply reads_refl|done]. Qed.
Lemma only_reads_result {A} (r : Prelude.result A string) : only_reads (request_result r).
Proof. intros s. destruct r; apply reads_refl. Qed.
Lemma only_reads_value key : only_reads (read_value_alt key).
Proof. intros s. pose proof (read_value_alt_inv key s). by destruct (read_value_alt key s). Qed.
Lemma only_reads_nonce_key a : only_reads (layout_key layout_nonce_key a).
Proof. intros s. unfold layout_key, mbind, M_bind. simpl. destruct (storage_key_layout _); [apply reads_refl|done]. Qed.

(** What a submission may end with: a transaction of [allowed] is in the pool,
    or nothing changed. *)
Definition submission (allowed : Transaction → Prop) (s : Node) (o : outcome Node ApiError H256) : Prop :=
  match o with
  | Ret _ s' => ∃ tx s0, reads s s0 ∧ allowed tx ∧ s' = set_pool (add_tx tx (nd_pool s)) s0
  | Throw _ s' => reads s s'
  | _ => True
  end.

Lemma submission_bind {A} allowed (m : M Node ApiError A) f s s1 :
  only_reads m → reads s s1 → (∀ a s2, reads s s2 → submission allowed s (f a s2)) →
  submission allowed s ((m ≫= f) s1).
Proof.
  intros Hm Hr Hf. unfold mbind, M_bind. specialize (Hm s1).
  destruct (m s1); simpl; eauto using reads_trans.
Qed.

(** The sender of the transaction is impersonated. *)
Definition from_impersonated (i : ImpersonationState) (tx : Transaction) : Prop :=
  ∃ d, common_data tx = L2 d ∧ is_impersonating i (l2_initiator_address d) = true.

Lemma only_reads_default_nonce tx :
  only_reads (match cr_nonce tx with
              | Some _ => mret tx
              | None =>
                  from ← expect "called `Option::unwrap()` on a `None` value" (cr_from tx);
                  nonce_key ← layout_key layout_nonce_key from;
                  full_nonce ← read_value_alt nonce_key;
                  nonce ← expect "arithmetic operation overflow" (checked_add_u256 full_nonce 1);
                  mret (set_nonce (Some nonce) tx)
              end).
Proof.
  destruct (cr_nonce tx); [apply only_reads_ret|].
  apply only_reads_bind; [apply only_reads_expect|intros from].
  apply only_reads_bind; [apply only_reads_nonce_key|intros key].
  apply only_reads_bind; [apply only_reads_value|intros full_nonce].
  apply only_reads_bind; [apply only_reads_expect|intros nonce]. apply only_reads_ret.
Qed.

Lemma send_transaction_submits request s :
  submission (from_impersonated (impersonation (nd_inner s))) s (send_transaction_impl request s).
Proof.
  unfold send_transaction_impl.
  apply submission_bind; [apply only_reads_gets|apply reads_refl|intros chain_id s1 H1].
  apply submission_bind; [apply only_reads_gets|done|intros price s2 H2].
  apply submission_bind; [destruct (_ && _); [apply only_reads_throw|apply only_reads_ret]|done|intros _ s3 H3].
  cbv zeta. apply submission_bind; [apply only_reads_default_nonce|done|intros tx s4 H4].
  apply submission_bind; [apply only_reads_result|done|intros bytes s5 H5].
  apply submission_bind; [apply only_reads_result|done|intros [req hash] s6 H6].
  apply submission_bind; [apply only_reads_gets|done|intros sc s7 H7].
  apply submission_bind; [apply only_reads_result|done|intros l2 s8 H8].
  erewrite bind_run; [|reflexivity]. cbv beta. destruct (is_impersonating _ _) eqn:Hi; simpl; [|done].
  eexists _, s8. destruct H8 as (st&Hv&->). split_and!; [by exists st| |done].
  eexists. split; [done|exact Hi].
Qed.


(** ** Proofs of messages to L1 *)

(** Picking the [i]-th element with a property, together with its position. *)
Lemma lookup_filter_imap {A} (P : A → Prop) {HP : ∀ x, Decision (P x)} (l : list A) (o i k : nat) x :
  filter (λ il : nat * A, P il.2) (imap (λ j y, ((o + j)%nat, y)) l) !! i = Some (k, x) →
  (o <= k)%nat ∧ l !! (k - o)%nat = Some x ∧ P x ∧ length (filter P (take (k - o) l)) = i.
Proof.
  revert o i. induction l as [|y l IH]; intros o i H; [done|]. cbn [imap] in H.
  assert (Hext : imap (λ j y, ((o + S j)%nat, y)) l = imap (λ j y, ((S o + j)%nat, y)) l).
  { apply imap_ext. intros. f_equal. lia. }
  change (imap ((λ j y, ((o + j)%nat, y)) ∘ S) l) with (imap (λ j y, ((o + S j)%nat, y)) l) in H.
  rewrite Hext, filter_cons in H. simpl in H. rewrite Nat.add_0_r in H.
  destruct (decide (P y)) as [Hy|Hy].
  - destruct i as [|i].
    + injection H as <- <-. rewrite Nat.sub_diag. by split_and!.
    + destruct (IH (S o) i H) as (Hle&Hl&Hx&Hc). replace (k - o)%nat with (S (k - S o)) by lia.
      split_and!; [lia|done..|]. simpl. rewrite filter_cons_True by done. simpl. by rewrite Hc.
  - destruct (IH (S o) i H) as (Hle&Hl&Hx&Hc). replace (k - o)%nat with (S (k - S o)) by lia.
    split_and!; [lia|done..|]. simpl. by rewrite filter_cons_False.
Qed.

Lemma expect_Ret {S E A} msg (o : option A) (s : S) a s' :
  expect (E := E) msg o s = Ret a s' → o = Some a ∧ s' = s.
Proof. by destruct o; intros [= <- <-]. Qed.
Lemma as_u32_checked_Ret {S E} n (s : S) m s' : as_u32_checked (E := E) n s = Ret m s' → m = n ∧ s' = s.
Proof. unfold as_u32_checked. by destruct (_ <=? _); intros [= <- <-]. Qed.

(** A log that belongs to the transaction with this number in its batch. *)
Definition sent_by (number : Z) (l : UserL2ToL1Log) : Prop := ul_tx_number_in_block l = number.
#[local] Instance sent_by_decision number l : Decision (sent_by number l).
Proof. unfold sent_by. apply _. Defined.

(** Which message a proof is about.  A proof that is returned is for the
    message of the batch at the position it names: that message was sent by the
    transaction (by its index in the batch, in 16 bits), exactly [index] others
    of the transaction come before it, the path is the one of the Merkle tree
    over all messages of the batch at that position, extended with the
    aggregated root, and the root is the one over both; the request changes
    nothing. *)
Theorem log_proof_selects (s s' : Node) (hash : H256) (index : option nat) (p : L2ToL1LogProof) :
  get_l2_to_l1_log_proof_impl hash index s = Ret (Some p) s' →
  s' = s ∧
  ∃ receipt batch_number tx_index info (k : nat) log,
    (tr_receipt <$> tx_results (blockchain (nd_inner s)) !! hash) = Some receipt ∧
    rc_l1_batch_number receipt = Some batch_number ∧ rc_l1_batch_tx_index receipt = Some tx_index ∧
    batches (blockchain (nd_inner s)) !! batch_number = Some info ∧
    let logs := bh_l2_to_l1_logs (sb_header info) in
    let tree := merkle_root_and_path (log_to_bytes <$> logs)
                  (l2_to_l1_logs_tree_size (blockchain_version (nd_inner s))) k in
    logs !! k = Some log ∧ sent_by (as_u16 tx_index) log ∧
    length (filter (sent_by (as_u16 tx_index)) (take k logs)) = default 0%nat index ∧
    lp_id p = as_u32 (Z.of_nat k) ∧
    tail (lp_proof p) = tree.2 ++ [sb_aggregation_root info] ∧
    lp_root p = compress tree.1 (sb_aggregation_root info).
Proof.
  unfold get_l2_to_l1_log_proof_impl. intros H.
  erewrite bind_run in H; [|apply of_chain_run; reflexivity]. cbv beta in H.
  unfold get_tx_receipt, inspect_tx in H.
  destruct (tr_receipt <$> _) as [receipt|] eqn:Hrc; [|done].
  apply bind_Ret in H as (number&s1&Hn&H). apply expect_Ret in Hn as [Hn ->].
  apply bind_Ret in H as (n&s1&H1&H). apply as_u32_checked_Ret in H1 as [-> ->].
  erewrite bind_run in H; [|apply of_chain_run; reflexivity]. cbv beta in H.
  destruct (batches (blockchain (nd_inner s)) !! number) as [info|] eqn:Hinfo; [|done].
  cbn [fmap option_fmap option_map] in H. cbv zeta in H.
  apply bind_Ret in H as (tx_index&s1&Hi&H). apply expect_Ret in Hi as [Hi ->].
  apply bind_Ret in H as (n&s1&H1&H). apply as_u32_checked_Ret in H1 as [-> ->].
  destruct (filter _ _ !! _) as [[k log]|] eqn:Hf; [|done].
  erewrite bind_run in H; [|reflexivity]. cbv beta in H.
  destruct (merkle_root_and_path _ _ k) as [local_root path] eqn:Htree.
  erewrite bind_run in H; [|apply of_chain_run; reflexivity]. cbv beta in H.
  rewrite Hinfo in H. cbn [fmap option_fmap option_map] in H. injection H as <- <-.
  split; [done|]. exists receipt, number, tx_index, info, k, log. do 4 (split; [done|]).
  cbv zeta. rewrite Htree.
  destruct (lookup_filter_imap (sent_by (as_u16 tx_index)) _ 0 _ _ _ Hf) as (_&Hl&Hx&Hc).
  rewrite Nat.sub_0_r in Hl, Hc. by split_and!.
Qed.
End Serving.

(** ** A node to talk to *)
Module SampleServing.
Export SampleExecutor SampleEstim.
#[export] Existing Instances SamplePool.channel SampleSealer.ticks.

#[export] Instance node_api : NodeApi := {|
  url_from_str u := if bool_decide (u = "") then None else Some u;
  validate_bytecode b := if (length b mod 32 =? 0)%nat then Ok tt else Err "length is not divisible by 32";
  state_to_json _ := Ok [123; 125];
  state_of_json b :=
    if bool_decide (b = [123; 125]) then Ok (dump_state (Client := unit) false node) else Err "expected value";
  gz_encode b := Ok (31 :: b);
  gz_header b := bool_decide (head b = Some 31);
  gz_decode b := Ok (tail b);
  default_signature := replicate 65 0;
  ETH_CALL_GAS_LIMIT := 80000000;
  BOOJUM_CALL_GAS_LIMIT := 10000000;
|}.

#[export] Instance call_vm : CallVm (StorageState (Client := unit)) := {|
  vm_call E _ _ _ _ tx := mret (vm_result (tx_hash tx), []);
|}.

(** A transaction is encoded as its hash. *)
#[export] Instance request_api : RequestApi := {|
  TransactionRequest := H256 * option Address;
  request_of_call r := (default 0 (cr_nonce r), cr_from r);
  request_set_chain_id _ r := r;
  request_set_zero_signature r := r;
  request_set_from a r := (r.1, a);
  get_signed_bytes r := Ok [r.1];
  request_from_bytes bs _ := match bs with [h] => Ok ((h, None), h) | _ => Err "rlp" end;
  l2_from_transaction_request r _ _ :=
    Ok (mkL2Tx (mkL2Data 0 (mkFee 100000 50000000 0 800) (default 5 r.2) [] EIP1559Transaction None)
          (mkExecute (Some 77) [] 0 []) 0 None);
  l2tx_set_input bs h t :=
    let d := l2tx_common t in
    mkL2Tx (mkL2Data (l2_nonce d) (l2_fee d) (l2_initiator_address d) (l2_signature d) (l2_transaction_type d)
              (Some (h, bs))) (l2tx_execute t) (l2tx_received t) (Some bs);
  user_friendly r := "";
  MAX_L1_TRANSACTION_GAS_LIMIT := 300000000;
  EIP_1559_TX_TYPE := 2;
  get_is_account_key a := (32774, a);
  storage_key_for_standard_token_balance t a := (t, a);
  L2_BASE_TOKEN_ADDRESS := 32778;
  l2_to_l1_logs_tree_size _ := 16384;
  log_to_bytes l := [ul_tx_number_in_block l; ul_key l];
  merkle_root_and_path leaves size i := (Z.of_nat (length leaves), [size; Z.of_nat i]);
  compress a b := a * 1000 + b;
  LOG_PROOF_SUPPORTED_METADATA_VERSION := 1;
|}.

Definition start_node : InMemoryNode (Client := unit) :=
  mkNode (mkTask node true) [] (TxPool_new Fifo) Noop.

(** Does an operation return this value? *)
Definition returns {A} `{EqDecision A} (o : outcome (InMemoryNode (Client := unit)) ApiError A) (a : A) : bool :=
  match o with Ret b _ => bool_decide (b = a) | _ => false end.
Lemma returns_Ret {A} `{EqDecision A} (o : outcome (InMemoryNode (Client := unit)) ApiError A) a :
  returns o a = true → ∃ s', o = Ret a s'.
Proof. destruct o as [b s'| | |]; simpl; try done. intros ->%bool_decide_eq_true. eauto. Qed.


(** The node after two raw transactions were submitted. *)
Definition submitted : option (InMemoryNode (Client := unit)) :=
  match send_raw_transaction_impl [11] start_node with
  | Ret _ s => match send_raw_transaction_impl [12] s with Ret _ s => Some s | _ => None end
  | _ => None
  end.
Definition pending : InMemoryNode (Client := unit) := default start_node submitted.

Definition taken : TxBatch * TxPool :=
  let r := take_uniform (impersonation node) (cfg_max_transactions (config node)) (nd_pool pending) in
  (default empty_batch r.1, r.2).
Definition ran_pending : option (TxBatchExecutionResult * InMemoryNodeInner (Client := unit)) :=
  match run_tx_batch runner taken.1 node with Ret r n => Some (r, n) | _ => None end.

Lemma mined_block_served_witness :
  ∃ s', mine_block exec pending = Ret 1 s' ∧ get_block_number_impl s' = Ret 2 s' ∧
    ∃ receipt, get_transaction_receipt_impl 12 s' = Ret (Some receipt) s' ∧ rc_block_number receipt = 1.
Proof.
  destruct ran_pending as [[r n1]|] eqn:H; [|exfalso; vm_compute in H; discriminate H].
  assert (Hrun : run_tx_batch runner taken.1 node = Ret r n1).
  { unfold ran_pending in H. destruct (run_tx_batch _ _ node) eqn:Hr; try discriminate H.
    injection H as <- <-. reflexivity. }
  assert (Hres : (λ tr, tx_hash (info_tx (tr_info tr))) <$> br_tx_results r = [11; 12]).
  { vm_compute in H. injection H as <- <-. reflexivity. }
  destruct (mined_block_served exec pending n1 (impersonating taken.1) (txs taken.1) taken.2 r)
    as (s'&H1&_&_&H2&_&H3).
  - reflexivity.
  - exact node_ready.
  - vm_compute. reflexivity.
  - apply (bool_decide_unpack _). vm_compute. exact I.
  - exact Hrun.
  - vm_compute in H. injection H as <- <-. split.
    + intros c Hc. repeat (apply elem_of_cons in Hc as [->|Hc]; [vm_compute; reflexivity|]).
      exact (False_ind _ (not_elem_of_nil _ Hc)).
    + apply (bool_decide_unpack _). vm_compute. exact I.
    + intros tr v Htr Hv. repeat (apply elem_of_cons in Htr as [->|Htr]; [discriminate Hv|]).
      exact (False_ind _ (not_elem_of_nil _ Htr)).
    + split; [repeat constructor; vm_compute; discriminate|vm_compute; discriminate].
  - destruct (br_tx_results r) as [|tr1 [|tr2 [|]]] eqn:Hr; try discriminate Hres.
    injection Hres as Ht1 Ht2. destruct (H3 tr2 ltac:(by right; left)) as (_&Hb&Hrc).
    exists s'. split; [exact H1|]. split; [exact H2|]. exists (tr_receipt tr2).
    rewrite <-Ht2 at 1. split; [exact Hrc|exact Hb].
Defined.

Lemma set_then_get_witness :
  ∃ s1 s2, node_set_balance exec 77 5 start_node = Ret true s1 ∧ get_balance_impl 77 s1 = Ret 5 s2.
Proof.
  destruct (set_then_get exec start_node eq_refl eq_refl eq_refl) as [H _].
  - split; vm_compute; discriminate.
  - exact SampleNode.node_available.
  - destruct (H 77 5) as (s1&H1&s2&H2). exists s1, s2. split; [exact H1|exact H2].
Defined.

(** A batch whose second transaction sent two messages. *)
Definition messages : FinishedL1Batch :=
  mkFinishedBatch (Success []) [] [mkUserLog 0 true 0 9 7 7; mkUserLog 0 true 1 9 8 8; mkUserLog 0 true 1 9 6 6]
    [] [] None None.
Definition in_batch (h i : Z) : TransactionResult :=
  mkTransactionResult (mkTxExecutionInfo (Sample.l2 h 5 9) 1 1) []
    (mkReceipt h i 0 1 (Some i) (Some 1) 0 None 0 None None [] [] 1 None None 0)
    (mkDebugCall DebugTypeCall 0 0 0 0 0 [] [] None None []).
Definition messenger : InMemoryNode (Client := unit) :=
  set_inner (set_blockchain
    (chain_apply_batch 1001 default_contract_hashes [in_batch 41 0; in_batch 42 1] messages 9 (blockchain node)) node)
    start_node.

Lemma log_proof_witness :
  ∃ p, get_l2_to_l1_log_proof_impl 42 (Some 1%nat) messenger = Ret (Some p) messenger ∧ lp_id p = 2.
Proof.
  assert (H : returns (get_l2_to_l1_log_proof_impl 42 (Some 1%nat) messenger)
    (Some (mkLogProof [of_be_bytes ([1; 3; 0; 1] ++ replicate 28 0); 16384; 2; 9] 3009 2)) = true).
  { vm_compute. reflexivity. }
  destruct (returns_Ret _ _ H) as [s' Hp].
  destruct (log_proof_selects messenger s' 42 (Some 1%nat) _ Hp) as [-> _].
  eexists. split; [exact Hp|reflexivity].
Defined.

Lemma dumped_bytes_witness :
  ∃ bytes, node_dump_state false start_node = Ret bytes start_node ∧
    node_load_state bytes start_node = on_inner (load_state (dump_state false node)) start_node.
Proof.
  assert (Hd : node_dump_state false start_node = Ret [31; 123; 125] start_node) by reflexivity.
  destruct (dumped_bytes_load (NA := node_api)
    ltac:(intros b c H; injection H as <-; split; reflexivity) false start_node start_node start_node [31; 123; 125]
    ltac:(intros j H; injection H as <-; split; reflexivity) Hd) as (_&H&_).
  exists [31; 123; 125]. split; [exact Hd|exact H].
Defined.
End SampleServing.
