(* ===== verification/AddressMap.v ===== *)
(** * Known addresses

    [crates/common/src/address_map.rs] and the table it loads,
    [crates/common/src/data/address_map.json].  An address is the number its
    hexadecimal digits write. *)
From S2P Require Import Prelude.
From S2P Require Import Types.
Local Open Scope Z_scope.

Inductive ContractType := System | Precompile | Popular | Unknown.

#[global] Instance ContractType_eq_dec : EqDecision ContractType.
Proof. solve_decision. Defined.

Record KnownAddress := mkKnownAddress {
  ka_address : Address;
  ka_name : string;
  ka_contract_type : ContractType;
}.

(** The entries of [address_map.json], in the order of the file. *)
Definition address_map_json : list KnownAddress := [
  mkKnownAddress 0x0000000000000000000000000000000000008001 "bootloader" System;
  mkKnownAddress 0x0000000000000000000000000000000000008002 "AccountCodeStorage" System;
  mkKnownAddress 0x0000000000000000000000000000000000008003 "NonceHolder" System;
  mkKnownAddress 0x0000000000000000000000000000000000008004 "KnownCodesStorage" System;
  mkKnownAddress 0x0000000000000000000000000000000000008005 "ImmutableSimulator" System;
  mkKnownAddress 0x0000000000000000000000000000000000008006 "ContractDeployer" System;
  mkKnownAddress 0x0000000000000000000000000000000000008007 "ForceL2Deployer" System;
  mkKnownAddress 0x0000000000000000000000000000000000008008 "L1Messenger" System;
  mkKnownAddress 0x0000000000000000000000000000000000008009 "MsgValueSimulator" System;
  mkKnownAddress 0x000000000000000000000000000000000000800a "L2BaseToken" System;
  mkKnownAddress 0x000000000000000000000000000000000000800b "SystemContext" System;
  mkKnownAddress 0x000000000000000000000000000000000000800c "BootloaderUtilities" System;
  mkKnownAddress 0x000000000000000000000000000000000000800d "EventWriter" System;
  mkKnownAddress 0x000000000000000000000000000000000000800e "Compressor" System;
  mkKnownAddress 0x000000000000000000000000000000000000800f "ComplexUpgrader" System;
  mkKnownAddress 0x0000000000000000000000000000000000008010 "Keccak" Precompile;
  mkKnownAddress 0x0000000000000000000000000000000000008011 "PubdataChunkPublisher" System;
  mkKnownAddress 0x0000000000000000000000000000000000008012 "CodeOracle" System;
  mkKnownAddress 0x000000000000000000636f6e736f6c652e6c6f67 "ConsoleLog" Precompile;
  mkKnownAddress 0x0000000000000000000000000000000000010000 "Create2Factory" System;
  mkKnownAddress 0x0000000000000000000000000000000000000002 "SHA256" Precompile;
  mkKnownAddress 0x0000000000000000000000000000000000000001 "ECRecover" Precompile;
  mkKnownAddress 0x0000000000000000000000000000000000000006 "EcAdd" Precompile;
  mkKnownAddress 0x0000000000000000000000000000000000000007 "EcMul" Precompile;
  mkKnownAddress 0x0000000000000000000000000000000000000008 "EcPairing" Precompile;
  mkKnownAddress 0xc706ec7dfa5d4dc87f29f859094165e8290530f5 "GasBoundCaller" System;
  mkKnownAddress 0x0000000000000000000000000000000000000100 "P256Verify" System;
  mkKnownAddress 0x000000000000000000636f6e736f6c652e6c6f67 "console" Popular;
  mkKnownAddress 0xf39fd6e51aad88f6f4ce6ab8827279cfffb92266 "GenesisAccount" Popular;
  mkKnownAddress 0x70997970c51812dc3a010c7d01b50e0d17dc79c8 "GenesisAccount" Popular;
  mkKnownAddress 0x3c44cdddb6a900fa2b585dd299e03d12fa4293bc "GenesisAccount" Popular;
  mkKnownAddress 0x90f79bf6eb2c4f870365e785982e1f101e93b906 "GenesisAccount" Popular;
  mkKnownAddress 0x15d34aaf54267db7d7c367839aaf71a00a2c6a65 "GenesisAccount" Popular;
  mkKnownAddress 0x9965507d1a55bcc2695c58ba16fb37d819b0a4dc "GenesisAccount" Popular;
  mkKnownAddress 0x976ea74026e726554db657fa54763abd0c3a0aa9 "GenesisAccount" Popular;
  mkKnownAddress 0x14dc79964da2c08b23698b3d3cc7ca32193d9955 "GenesisAccount" Popular;
  mkKnownAddress 0x23618e81e3f5cdf7f54c3d65f7fbc0abf5b21e8f "GenesisAccount" Popular;
  mkKnownAddress 0xa0ee7a142d267c1f36714e4a8f75612f20a79720 "GenesisAccount" Popular;
  mkKnownAddress 0xbc989fde9e54cad2ab4392af6df60f04873a033a "RichAccount" Popular;
  mkKnownAddress 0x55be1b079b53962746b2e86d12f158a41df294a6 "RichAccount" Popular;
  mkKnownAddress 0xce9e6063674dc585f6f3c7eabe82b9936143ba6c "RichAccount" Popular;
  mkKnownAddress 0xd986b0cb0d1ad4cccf0c4947554003fc0be548e9 "RichAccount" Popular;
  mkKnownAddress 0x87d6ab9fe5adef46228fb490810f0f5cb16d6d04 "RichAccount" Popular;
  mkKnownAddress 0x78cad996530109838eb016619f5931a03250489a "RichAccount" Popular;
  mkKnownAddress 0xc981b213603171963f81c687b9fc880d33caed16 "RichAccount" Popular;
  mkKnownAddress 0x42f3dc38da81e984b92a95cbdaaa5fa2bd5cb1ba "RichAccount" Popular;
  mkKnownAddress 0x64f47eed3dc749d13e49291d46ea8378755fb6df "RichAccount" Popular;
  mkKnownAddress 0xe2b8cb53a43a56d4d2ab6131c81bd76b86d3afe5 "RichAccount" Popular;
  mkKnownAddress 0x36615cf349d7f6344891b1e7ca7c72883f5dc049 "RichAccount" Popular;
  mkKnownAddress 0xa61464658afeaf65cccaafd3a512b69a83b77618 "RichAccount" Popular;
  mkKnownAddress 0x0d43eb5b8a47ba8900d84aa36656c92024e9772e "RichAccount" Popular;
  mkKnownAddress 0xa13c10c0d5bd6f79041b9835c63f91de35a15883 "RichAccount" Popular;
  mkKnownAddress 0x8002cd98cfb563492a6fb3e7c8243b7b9ad4cc92 "RichAccount" Popular;
  mkKnownAddress 0x4f9133d1d3f50011a6859807c837bdcb31aaab13 "RichAccount" Popular;
  mkKnownAddress 0xbd29a1b981925b94eec5c4f1125af02a2ec4d1ca "RichAccount" Popular;
  mkKnownAddress 0xedb6f5b4aab3dd95c7806af42881ff12be7e9daa "RichAccount" Popular;
  mkKnownAddress 0xe706e60ab5dc512c36a4646d719b889f398cbbcb "RichAccount" Popular;
  mkKnownAddress 0xe90e12261ccb0f3f7976ae611a29e84a6a85f424 "RichAccount" Popular
].

(** [pairs.into_iter().map(|entry| (entry.address, entry)).collect()]: of two
    entries with the same address the later one stays. *)
Definition known_of (pairs : list KnownAddress) : gmap Address KnownAddress :=
  extend ∅ ((λ entry, (ka_address entry, entry)) <$> pairs).

Definition KNOWN_ADDRESSES : gmap Address KnownAddress := known_of address_map_json.

Definition is_precompile (address : Address) : bool :=
  match KNOWN_ADDRESSES !! address with
  | Some known => bool_decide (ka_contract_type known = Precompile)
  | None => false
  end.

Definition is_system (address : Address) : bool :=
  match KNOWN_ADDRESSES !! address with
  | Some known => bool_decide (ka_contract_type known = System)
  | None => false
  end.

(** The label a trace shows for an address. *)
Definition known_name (address : Address) : option string :=
  ka_name <$> KNOWN_ADDRESSES !! address.

(** An address has one type only. *)
Lemma not_system_and_precompile address : is_system address && is_precompile address = false.
Proof.
  unfold is_system, is_precompile. destruct (KNOWN_ADDRESSES !! address) as [[? ? []]|]; done.
Qed.

(** The table in one statement: 27 of the 58 entries are listed as system
    contracts or precompiles, and all of them are classified that way, except
    the console, which the table lists a second time. *)
Definition CONSOLE_ADDRESS : Address := 0x000000000000000000636f6e736f6c652e6c6f67.

Definition listed_as (t : ContractType) (e : KnownAddress) : bool :=
  bool_decide (ka_contract_type e = t).

Lemma table_classified :
  Forall (λ e, is_system (ka_address e) = true) (filter (listed_as System) address_map_json) ∧
  (λ e, ka_address e) <$> filter (λ e, listed_as Precompile e ∧ is_precompile (ka_address e) = false)
    address_map_json = [CONSOLE_ADDRESS] ∧
  known_name CONSOLE_ADDRESS = Some "console".
Proof. vm_compute. repeat split; repeat constructor. Qed.
