(* ===== verification/TraceTypes.v ===== *)
(** * Data of call traces

    [crates/types/src/traces.rs]: logs with their topics, decoded values and
    errors with their text, the nodes of a call trace and the arena that holds
    them. *)
From S2P Require Import Prelude Types Utils Text AddressMap.
From Stdlib Require Import Ascii.
Local Open Scope Z_scope.

(** ** Raw logs *)
Inductive L2L1Log :=
| UserLog (log : UserL2ToL1Log)
| SystemLog (log : UserL2ToL1Log).

Record LogData := mkLogData {
  topics : list H256;
  log_bytes : Bytes;
}.

Definition new_unchecked (topics : list H256) (data : Bytes) : LogData := mkLogData topics data.

Definition is_valid (l : LogData) : bool := (length (topics l) <=? 4)%nat.

Definition LogData_new (topics : list H256) (data : Bytes) : option LogData :=
  let this := new_unchecked topics data in
  if is_valid this then Some this else None.

Definition LogData_empty : LogData := mkLogData [] [].

Definition set_topics_unchecked (topics : list H256) (l : LogData) : LogData :=
  mkLogData topics (log_bytes l).

Definition set_topics_truncating (topics : list H256) (l : LogData) : LogData :=
  set_topics_unchecked (take 4 topics) l.

Definition split (l : LogData) : list H256 * Bytes := (topics l, log_bytes l).

(** A log is valid when it comes from the checked constructor or from the
    truncating setter, and the checked constructor loses nothing. *)
Lemma set_topics_truncating_valid ts l : is_valid (set_topics_truncating ts l) = true.
Proof. unfold is_valid; simpl. rewrite length_take. apply Nat.leb_le; lia. Qed.

Lemma LogData_new_split ts data l :
  LogData_new ts data = Some l → is_valid l = true ∧ split l = (ts, data).
Proof.
  unfold LogData_new. destruct (is_valid _) eqn:E; [|done]. intros H. injection H as <-. done.
Qed.

(** ** Decoded values *)
Record LabeledAddress := mkLabeledAddress {
  la_label : option string;
  la_address : Address;
}.

Inductive DecodedValue :=
| DvBool (b : bool)
| DvInt (n : SignedU256)
| DvUint (n : Z)
| DvFixedBytes (word : Bytes) (size : nat)
| DvAddress (a : LabeledAddress)
| DvFunction (f : Bytes)
| DvBytes (bs : Bytes)
| DvString (s : string)
| DvArray (vs : list DecodedValue)
| DvFixedArray (vs : list DecodedValue)
| DvTuple (vs : list DecodedValue)
| DvCustomStruct (name : string) (prop_names : list string) (tuple : list DecodedValue).

(** Induction over values, through the lists of an array. *)
Section DecodedValueInd.
Variable P : DecodedValue → Prop.
Hypothesis Hbool : ∀ b, P (DvBool b).
Hypothesis Hint_ : ∀ n, P (DvInt n).
Hypothesis Huint : ∀ n, P (DvUint n).
Hypothesis Hfixed : ∀ w n, P (DvFixedBytes w n).
Hypothesis Haddr : ∀ a, P (DvAddress a).
Hypothesis Hfun : ∀ f, P (DvFunction f).
Hypothesis Hbytes : ∀ b, P (DvBytes b).
Hypothesis Hstring : ∀ s, P (DvString s).
Hypothesis Harray : ∀ vs, Forall P vs → P (DvArray vs).
Hypothesis Hfarray : ∀ vs, Forall P vs → P (DvFixedArray vs).
Hypothesis Htuple : ∀ vs, Forall P vs → P (DvTuple vs).
Hypothesis Hstruct : ∀ n ps vs, Forall P vs → P (DvCustomStruct n ps vs).

Fixpoint DecodedValue_ind' (v : DecodedValue) : P v :=
  let fix all (vs : list DecodedValue) : Forall P vs :=
    match vs with
    | [] => @List.Forall_nil _ P
    | v :: vs => @List.Forall_cons _ P v vs (DecodedValue_ind' v) (all vs)
    end in
  match v with
  | DvBool b => Hbool b
  | DvInt n => Hint_ n
  | DvUint n => Huint n
  | DvFixedBytes w n => Hfixed w n
  | DvAddress a => Haddr a
  | DvFunction f => Hfun f
  | DvBytes b => Hbytes b
  | DvString s => Hstring s
  | DvArray vs => Harray vs (all vs)
  | DvFixedArray vs => Hfarray vs (all vs)
  | DvTuple vs => Htuple vs (all vs)
  | DvCustomStruct n ps vs => Hstruct n ps vs (all vs)
  end.
End DecodedValueInd.

Definition labeled_address_display (a : LabeledAddress) : string :=
  match la_label a with Some label => label +:+ ": " | None => "" end
    +:+ "[0x" +:+ hex_address (la_address a) +:+ "]".

(** [str::escape_debug] on ASCII; the bytes of a longer character are
    copied. *)
Definition backslash : ascii := ascii_of_nat 92.

Definition escape_char (c : ascii) : string :=
  let n := Z.of_nat (nat_of_ascii c) in
  if n =? 0 then "\0" else if n =? 9 then "\t" else if n =? 10 then "\n"
  else if n =? 13 then "\r"
  else if (n =? 34) || (n =? 39) || (n =? 92) then String backslash (String c EmptyString)
  else if (n <? 32) || (n =? 127) then
    "\u{" +:+ (if n <? 16 then String (hex_char n) EmptyString else hex_encode [n]) +:+ "}"
  else String c EmptyString.

Fixpoint escape_debug (s : string) : string :=
  match s with
  | EmptyString => EmptyString
  | String c s => escape_char c +:+ escape_debug s
  end.

(** [Display for DecodedValue]; the length of fixed bytes is at most 32, so the
    slice is in range. *)
Fixpoint value_display (v : DecodedValue) : string :=
  match v with
  | DvBool b => if b then "true" else "false"
  | DvInt n => signed_display n
  | DvUint n => dec n
  | DvFixedBytes word size => "0x" +:+ hex_encode (take size word)
  | DvAddress a => labeled_address_display a
  | DvFunction f => "0x" +:+ hex_encode f
  | DvBytes bs => "0x" +:+ hex_encode bs
  | DvString s => escape_debug s
  | DvArray vs | DvFixedArray vs => "[" +:+ write_interspersed ", " (map value_display vs) +:+ "]"
  | DvTuple vs | DvCustomStruct _ _ vs =>
      "(" +:+ write_interspersed ", " (map value_display vs) +:+ ")"
  end.

Definition as_bytes (v : DecodedValue) : option Bytes :=
  match v with DvBytes bs => Some bs | _ => None end.

(** ** UTF-8 *)

(** [std::str::from_utf8]: the text of the bytes when they are valid. *)
Definition between (lo hi b : Z) : bool := (lo <=? b) && (b <=? hi).

Fixpoint utf8_valid (bs : list Z) : bool :=
  match bs with
  | [] => true
  | b0 :: rest =>
      if b0 <=? 127 then utf8_valid rest
      else
        match rest with
        | b1 :: rest1 =>
            if between 194 223 b0 then between 128 191 b1 && utf8_valid rest1
            else
              match rest1 with
              | b2 :: rest2 =>
                  if between 224 239 b0 then
                    between (if b0 =? 224 then 160 else 128) (if b0 =? 237 then 159 else 191) b1
                      && between 128 191 b2 && utf8_valid rest2
                  else
                    match rest2 with
                    | b3 :: rest3 =>
                        between 240 244 b0
                          && between (if b0 =? 240 then 144 else 128) (if b0 =? 244 then 143 else 191) b1
                          && between 128 191 b2 && between 128 191 b3 && utf8_valid rest3
                    | [] => false
                    end
              | [] => false
              end
        | [] => false
        end
  end.

Definition text_of_bytes (bs : list Z) : string :=
  string_of_list ((λ b, ascii_of_nat (Z.to_nat b)) <$> bs).

Definition from_utf8 (bs : list Z) : option string :=
  if utf8_valid bs then Some (text_of_bytes bs) else None.

(** ** Decoded errors and return data *)
Inductive DecodedError :=
| DeEmpty
| DeCustomError (name : string) (fields : list DecodedValue)
| DeGenericCustomError (selector raw : Bytes)
| DeRevert (message : string)
| DePanic (message : string)
| DeRaw (data : Bytes)
| DeString (message : string).

Definition error_display (e : DecodedError) : string :=
  match e with
  | DeEmpty => ""
  | DeCustomError name fields =>
      name +:+ "(" +:+ write_interspersed ", " (value_display <$> fields) +:+ ")"
  | DeGenericCustomError selector raw =>
      "custom error with function selector 0x" +:+ hex_encode selector +:+
        match raw with
        | [] => ""
        | _ => ": " +:+ match from_utf8 raw with Some data => data | None => hex_encode raw end
        end
  | DeRevert message | DePanic message | DeString message => message
  | DeRaw [] => "<empty revert data>"
  | DeRaw data => trimmed_hex data
  end.

Inductive DecodedRevertData :=
| RevertValue (value : DecodedValue)
| RevertError (error : DecodedError).

Definition revert_data_display (r : DecodedRevertData) : string :=
  match r with
  | RevertValue value => value_display value
  | RevertError error => error_display error
  end.

Inductive DecodedReturnData :=
| NormalReturn (values : list DecodedValue)
| RevertReturn (data : DecodedRevertData).

Definition default_return_data : DecodedReturnData := NormalReturn [].

Definition return_data_display (r : DecodedReturnData) : string :=
  match r with
  | NormalReturn values => write_interspersed ", " (value_display <$> values)
  | RevertReturn data => revert_data_display data
  end.

Record DecodedCallData := mkDecodedCallData {
  cd_signature : string;
  cd_args : list DecodedValue;
}.

Record DecodedCallTrace := mkDecodedCallTrace {
  dt_label : option string;
  dt_return_data : DecodedReturnData;
  dt_call_data : option DecodedCallData;
}.

Definition default_decoded_trace : DecodedCallTrace :=
  mkDecodedCallTrace None default_return_data None.

Record DecodedCallEvent := mkDecodedEvent {
  de_name : option string;
  de_params : option (list (string * DecodedValue));
}.

Definition default_decoded_event : DecodedCallEvent := mkDecodedEvent None None.

Record CallLog := mkCallLog {
  cl_raw_log : VmEvent;
  cl_decoded : DecodedCallEvent;
  cl_position : Z;
}.

Definition with_position (position : Z) (l : CallLog) : CallLog :=
  mkCallLog (cl_raw_log l) (cl_decoded l) position.

Record L2L1Logs := mkL2L1Logs {
  ll_raw_log : L2L1Log;
  ll_position : Z;
}.

(** ** Execution results

    A halt is the VM's own, by its text, or made from the error of a call. *)
Inductive TraceHalt :=
| VmHalt (reason : string)
| TracerCustom (message : string).

Inductive TraceResult :=
| TraceSuccess (output : Bytes)
| TraceRevert (output : string)
| TraceHalted (reason : TraceHalt).

Definition trace_failed (r : TraceResult) : bool :=
  match r with TraceSuccess _ => false | TraceRevert _ | TraceHalted _ => true end.

(** What the VM crates print, and their default call. *)
Class TraceText := {
  (** [VmRevertReason::to_user_friendly_string] *)
  to_user_friendly_string : VmRevertReason → string;
  (** [{:?}] of a [Halt] *)
  halt_debug : TraceHalt → string;
  (** [{}] and [{:?}] of an [H256] *)
  h256_display : H256 → string;
  h256_debug : H256 → string;
  (** [Call::default()] *)
  call_default : Call;
}.

Section Results.
Context `{TraceText}.

(** [From<zksync_multivm::interface::ExecutionResult>] *)
Definition trace_result_of (value : ExecutionResult) : TraceResult :=
  match value with
  | Success output => TraceSuccess output
  | Revert output => TraceRevert (to_user_friendly_string output)
  | Halt reason => TraceHalted (VmHalt reason)
  end.

(** [ExecutionResultDisplay::display] *)
Definition trace_result_display (r : TraceResult) : string :=
  match r with
  | TraceSuccess _ => "Success"
  | TraceRevert output => "Revert: " +:+ output
  | TraceHalted reason => "Halt: " +:+ halt_debug reason
  end.

Lemma trace_result_failed r : trace_failed (trace_result_of r) = is_failed r.
Proof. by destruct r. Qed.
End Results.

(** ** Nodes and the arena *)
Record CallTrace := mkCallTrace {
  ct_success : bool;
  ct_caller : Address;
  ct_address : Address;
  ct_execution_result : TraceResult;
  ct_decoded : DecodedCallTrace;
  ct_call : Call;
}.

Inductive TraceMemberOrder :=
| OLog (index : nat)
| OCall (index : nat)
| OL1L2Log (index : nat).

Record CallTraceNode := mkNode {
  parent : option nat;
  children : list nat;
  idx : nat;
  trace : CallTrace;
  logs : list CallLog;
  l2_l1_logs : list L2L1Logs;
  ordering : list TraceMemberOrder;
}.

Section Defaults.
Context `{TraceText}.

Definition default_trace : CallTrace :=
  mkCallTrace true 0 0 (TraceSuccess []) default_decoded_trace call_default.

Definition default_node : CallTraceNode := mkNode None [] 0 default_trace [] [] [].

Definition default_arena : list CallTraceNode := [default_node].

Definition clear_arena (a : list CallTraceNode) : list CallTraceNode := [default_node].
End Defaults.

Abbreviation CallTraceArena := (list CallTraceNode).

(** Field updates. *)
Definition set_parent (p : option nat) (n : CallTraceNode) : CallTraceNode :=
  mkNode p (children n) (idx n) (trace n) (logs n) (l2_l1_logs n) (ordering n).
Definition set_children (c : list nat) (n : CallTraceNode) : CallTraceNode :=
  mkNode (parent n) c (idx n) (trace n) (logs n) (l2_l1_logs n) (ordering n).
Definition set_idx (i : nat) (n : CallTraceNode) : CallTraceNode :=
  mkNode (parent n) (children n) i (trace n) (logs n) (l2_l1_logs n) (ordering n).
Definition set_trace (t : CallTrace) (n : CallTraceNode) : CallTraceNode :=
  mkNode (parent n) (children n) (idx n) t (logs n) (l2_l1_logs n) (ordering n).
Definition set_logs (l : list CallLog) (n : CallTraceNode) : CallTraceNode :=
  mkNode (parent n) (children n) (idx n) (trace n) l (l2_l1_logs n) (ordering n).
Definition set_l2_l1_logs (l : list L2L1Logs) (n : CallTraceNode) : CallTraceNode :=
  mkNode (parent n) (children n) (idx n) (trace n) (logs n) l (ordering n).
Definition set_ordering (o : list TraceMemberOrder) (n : CallTraceNode) : CallTraceNode :=
  mkNode (parent n) (children n) (idx n) (trace n) (logs n) (l2_l1_logs n) o.
Definition set_execution_result (r : TraceResult) (t : CallTrace) : CallTrace :=
  mkCallTrace (ct_success t) (ct_caller t) (ct_address t) r (ct_decoded t) (ct_call t).
Definition set_decoded (d : DecodedCallTrace) (t : CallTrace) : CallTrace :=
  mkCallTrace (ct_success t) (ct_caller t) (ct_address t) (ct_execution_result t) d (ct_call t).

(** Operations on an arena panic on an index out of bounds, and do not fail
    otherwise. *)
Abbreviation ArenaM := (M CallTraceArena Empty_set).

(** [self.arena[i]] and [self.arena[i].. = f(..)] *)
Definition node_at (i : nat) : ArenaM CallTraceNode :=
  λ a, match a !! i with Some n => Ret n a | None => Panic "index out of bounds" end.
Definition update_node (i : nat) (f : CallTraceNode → CallTraceNode) : ArenaM unit :=
  n ← node_at i; modify (λ a, <[i := f n]> a).

Definition push_child (c : nat) (n : CallTraceNode) : CallTraceNode :=
  set_children (children n ++ [c]) n.
Definition push_order (o : TraceMemberOrder) (n : CallTraceNode) : CallTraceNode :=
  set_ordering (ordering n ++ [o]) n.

Definition add_node (parent : option nat) (node : CallTraceNode) : ArenaM nat :=
  i ← gets length;
  let node := set_parent parent (set_idx i node) in
  let node := set_ordering (OLog <$> seq 0 (length (logs node))) node in
  modify (λ a, a ++ [node]);;
  match parent with
  | Some parent_idx =>
      update_node parent_idx (push_child i);;
      p ← node_at parent_idx;
      let child_local_idx := (length (children p) - 1)%nat in
      update_node parent_idx (push_order (OCall child_local_idx))
  | None => mret tt
  end;;
  mret i.

Definition filter_out_precompiles (a : CallTraceArena) : CallTraceArena :=
  filter (λ node, is_precompile (ct_address (trace node)) = false) a.

Definition filter_out_system_contracts (a : CallTraceArena) : CallTraceArena :=
  filter (λ node, is_system (ct_address (trace node)) = false) a.

(** What [add_node] does, in one step. *)
Lemma add_node_run p node (a : CallTraceArena) pn :
  a !! p = Some pn →
  add_node (Some p) node a =
    Ret (length a)
      (<[p := push_order (OCall (length (children pn))) (push_child (length a) pn)]> a
       ++ [set_ordering (OLog <$> seq 0 (length (logs node)))
             (set_parent (Some p) (set_idx (length a) node))]).
Proof.
  intros Hp. pose proof (lookup_lt_Some _ _ _ Hp) as Hlt.
  unfold add_node, update_node, node_at. run_m.
  rewrite lookup_app_l, Hp by done. cbn.
  rewrite list_lookup_insert_eq by (rewrite length_app; lia). cbn.
  rewrite list_lookup_insert_eq by (rewrite length_app; lia). cbn.
  rewrite list_insert_insert_eq, length_app, insert_app_l by done.
  cbn [length]. do 3 f_equal. by rewrite Nat.add_sub.
Qed.

Lemma update_node_run i f (a : CallTraceArena) n :
  a !! i = Some n → update_node i f a = Ret tt (<[i := f n]> a).
Proof. intros H. unfold update_node, node_at. run_m. by rewrite H. Qed.
