(* ===== verification/Traces.v ===== *)
(** * Call trace arenas

    [crates/traces/src/lib.rs]: how the calls of a transaction become an arena
    of nodes, and how an arena is cut down to what a verbosity level shows.

    The arena is a tree laid out in a vector.  [CallTree] is that tree, [flat]
    lays a tree out, [read_tree] reads one back; building and filtering are
    characterised on trees. *)
From S2P Require Import Prelude Types Utils Text AddressMap TraceTypes.
Local Open Scope Z_scope.

(** ** Building *)
Definition c_to (c : Call) : Address :=
  let '(mkCall _ _ to _ _ _ _ _ _ _ _) := c in to.
Definition c_calls (c : Call) : list Call :=
  let '(mkCall _ _ _ _ _ _ _ _ _ _ calls) := c in calls.

Section Building.
Context `{TraceText}.

Definition execution_result_of_call (c : Call) : TraceResult :=
  let '(mkCall _ _ _ _ _ _ _ output error revert_reason _) := c in
  match revert_reason with
  | Some revert_reason => TraceRevert revert_reason
  | None =>
      match error with
      | Some err => TraceHalted (TracerCustom err)
      | None => TraceSuccess output
      end
  end.

Definition convert_call_to_call_trace (c : Call) : CallTrace :=
  let '(mkCall _ from to _ _ _ _ _ _ _ _) := c in
  let label := ka_name <$> KNOWN_ADDRESSES !! to in
  let execution_result := execution_result_of_call c in
  mkCallTrace (negb (trace_failed execution_result)) from to execution_result
    (mkDecodedCallTrace label default_return_data None) c.

Definition logs_for_call (tx_result : VmResult) (c : Call) : list CallLog :=
  omap (λ '(i, vm_event),
          if ev_address vm_event =? c_to c
          then Some (mkCallLog vm_event default_decoded_event (Z.of_nat i)) else None)
    (enumerate (vr_events tx_result)).

Definition l2_l1_logs_for_call (tx_result : VmResult) (c : Call) : list L2L1Logs :=
  ((λ log, mkL2L1Logs (UserLog log) (ul_tx_number_in_block log)) <$>
     filter (λ log, ul_sender log = c_to c) (vr_user_l2_to_l1_logs tx_result))
  ++ ((λ log, mkL2L1Logs (SystemLog log) (ul_tx_number_in_block log)) <$>
        filter (λ log, ul_sender log = c_to c) (vr_system_l2_to_l1_logs tx_result)).

Definition node_for_call (tx_result : VmResult) (c : Call) : CallTraceNode :=
  mkNode None [] 0 (convert_call_to_call_trace c) (logs_for_call tx_result c)
    (l2_l1_logs_for_call tx_result c) [].

Fixpoint process_call_and_subcalls (tx_result : VmResult) (c : Call) (parent_idx : nat) :
    ArenaM unit :=
  new_parent_idx ← add_node (Some parent_idx) (node_for_call tx_result c);
  let '(mkCall _ _ _ _ _ _ _ _ _ _ calls) := c in
  (fix subcalls (cs : list Call) : ArenaM unit :=
     match cs with
     | [] => mret tt
     | subcall :: cs =>
         process_call_and_subcalls tx_result subcall new_parent_idx;; subcalls cs
     end) calls.

Definition build_call_trace_arena (calls : list Call) (tx_result : VmResult) :
    outcome CallTraceArena Empty_set unit :=
  let arena := default_arena in
  let arena :=
    match arena !! 0%nat with
    | Some root_node =>
        <[0%nat := set_trace (set_execution_result (trace_result_of (vr_result tx_result))
                                (trace root_node)) root_node]> arena
    | None => arena
    end in
  for_each (λ c, process_call_and_subcalls tx_result c 0) calls arena.
End Building.

(** ** Filtering *)
Definition should_include_call (address : Address) (verbosity : Z) : bool :=
  if (verbosity =? 0) || (verbosity =? 1) then false
  else if verbosity =? 2 then negb (is_system address || is_precompile address)
  else if verbosity =? 3 then negb (is_precompile address)
  else true.

Definition include_log (verbosity : Z) (log : L2L1Logs) : bool :=
  match ll_raw_log log with
  | UserLog _ => 2 <=? verbosity
  | SystemLog _ => 3 <=? verbosity
  end.

(** The copy of a child that is kept. *)
Definition filtered_copy (verbosity : Z) (new_idx : nat) (parent_idx : option nat)
    (child : CallTraceNode) : CallTraceNode :=
  let child_copy := set_children [] (set_parent parent_idx (set_idx new_idx child)) in
  let child_copy := set_ordering [] child_copy in
  set_l2_l1_logs (filter (λ log, include_log verbosity log = true) (l2_l1_logs child_copy))
    child_copy.

(** The recursion follows the children of the original arena, one level per
    unit of fuel. *)
Fixpoint filter_node_recursively (fuel : nat) (orig_arena : CallTraceArena) (verbosity : Z)
    (orig_node : CallTraceNode) (parent_idx : option nat) : ArenaM unit :=
  match fuel with
  | O => panic "stack overflow"
  | S fuel =>
      for_each (λ child_idx,
        child ← expect "index out of bounds" (orig_arena !! child_idx);
        if should_include_call (ct_address (trace child)) verbosity then
          new_idx ← gets length;
          modify (λ a, a ++ [filtered_copy verbosity new_idx parent_idx child]);;
          match parent_idx with
          | Some p_idx => update_node p_idx (push_child new_idx)
          | None => mret tt
          end;;
          filter_node_recursively fuel orig_arena verbosity child (Some new_idx)
        else
          filter_node_recursively fuel orig_arena verbosity child parent_idx)
        (children orig_node)
  end.

Definition member_order (n_logs n_l2_l1 n_children : nat) : list TraceMemberOrder :=
  (OLog <$> seq 0 n_logs) ++ (OL1L2Log <$> seq 0 n_l2_l1) ++ (OCall <$> seq 0 n_children).

Definition rebuild_ordering (n : CallTraceNode) : CallTraceNode :=
  set_ordering (member_order (length (logs n)) (length (l2_l1_logs n)) (length (children n))) n.

Section FilterArena.
Context `{TraceText}.

Definition filter_call_trace_arena (arena : CallTraceArena) (verbosity : Z) :
    outcome CallTraceArena Empty_set unit :=
  let filtered := default_arena in
  match arena with
  | [] => Ret tt filtered
  | root :: _ =>
      let root_copy := set_children [] (set_idx 0 (set_parent None root)) in
      let root_copy := set_ordering [] root_copy in
      (filter_node_recursively (S (length arena)) arena verbosity root (Some 0%nat);;
       modify (λ filtered, rebuild_ordering <$> filtered)) (filtered ++ [root_copy])
  end.
End FilterArena.

(** ** Trees

    The tree that an arena lays out: a trace with its logs, and the trees of
    the calls it makes. *)
Inductive CallTree :=
| TreeNode (t : CallTrace) (ls : list CallLog) (l2s : list L2L1Logs) (kids : list CallTree).

Section TreeInd.
Variable P : CallTree → Prop.
Hypothesis Hnode : ∀ t ls l2s kids, Forall P kids → P (TreeNode t ls l2s kids).

Fixpoint CallTree_ind' (tree : CallTree) : P tree :=
  let '(TreeNode t ls l2s kids) := tree in
  Hnode t ls l2s kids
    ((fix all (kids : list CallTree) : Forall P kids :=
        match kids with
        | [] => @List.Forall_nil _ P
        | k :: kids => @List.Forall_cons _ P k kids (CallTree_ind' k) (all kids)
        end) kids).
End TreeInd.

Section CallInd.
Variable P : Call → Prop.
Hypothesis Hcall : ∀ ty from to gas used value input output error reason calls,
  Forall P calls → P (mkCall ty from to gas used value input output error reason calls).

Fixpoint Call_ind' (c : Call) : P c :=
  let '(mkCall ty from to gas used value input output error reason calls) := c in
  Hcall ty from to gas used value input output error reason calls
    ((fix all (calls : list Call) : Forall P calls :=
        match calls with
        | [] => @List.Forall_nil _ P
        | k :: calls => @List.Forall_cons _ P k calls (Call_ind' k) (all calls)
        end) calls).
End CallInd.

(** The number of nodes. *)
Fixpoint tree_size (tree : CallTree) : nat :=
  let '(TreeNode _ _ _ kids) := tree in S (sum_list (map tree_size kids)).

Definition forest_size (kids : list CallTree) : nat := sum_list (map tree_size kids).

(** Where the trees of a forest start, when the first starts at [i]. *)
Fixpoint offsets (i : nat) (kids : list CallTree) : list nat :=
  match kids with
  | [] => []
  | k :: kids => i :: offsets (i + tree_size k) kids
  end.

(** The layout, in preorder.  [ord] is the ordering of a node's members, of
    which there are two: with and without the L2-L1 logs. *)
Section Layout.
Variable ord : nat → nat → nat → list TraceMemberOrder.

Fixpoint flat (i : nat) (p : option nat) (tree : CallTree) : CallTraceArena :=
  let '(TreeNode t ls l2s kids) := tree in
  mkNode p (offsets (S i) kids) i t ls l2s (ord (length ls) (length l2s) (length kids)) ::
  (fix flats (j : nat) (kids : list CallTree) : CallTraceArena :=
     match kids with
     | [] => []
     | k :: kids => flat j (Some i) k ++ flats (j + tree_size k)%nat kids
     end) (S i) kids.

Fixpoint flats (j : nat) (p : option nat) (kids : list CallTree) : CallTraceArena :=
  match kids with
  | [] => []
  | k :: kids => flat j p k ++ flats (j + tree_size k) p kids
  end.

Lemma flat_unfold i p t ls l2s kids :
  flat i p (TreeNode t ls l2s kids) =
  mkNode p (offsets (S i) kids) i t ls l2s (ord (length ls) (length l2s) (length kids)) ::
  flats (S i) (Some i) kids.
Proof.
  cbn [flat]. f_equal. generalize (S i) as j.
  induction kids as [|k kids IH]; intros j; [done|]. cbn [flats]. by rewrite IH.
Qed.

Lemma length_flat tree : ∀ i p, length (flat i p tree) = tree_size tree.
Proof.
  induction tree as [t ls l2s kids IH] using CallTree_ind'; intros i p.
  rewrite flat_unfold. cbn [length tree_size]. f_equal. generalize (S i) as j.
  induction IH as [|k kids Hk _ IHk]; intros j; [done|].
  cbn [flats map sum_list]. rewrite length_app, Hk, IHk. done.
Qed.

Lemma length_flats j p kids : length (flats j p kids) = forest_size kids.
Proof.
  revert j; induction kids as [|k kids IH]; intros j; [done|].
  cbn [flats]. by rewrite length_app, length_flat, IH.
Qed.

Lemma flats_app j p kids kids' :
  flats j p (kids ++ kids') = flats j p kids ++ flats (j + forest_size kids) p kids'.
Proof.
  revert j; induction kids as [|k kids IH]; intros j; cbn [flats app].
  { unfold forest_size; simpl. by rewrite Nat.add_0_r. }
  rewrite IH, app_assoc. do 2 f_equal. unfold forest_size; simpl. lia.
Qed.
End Layout.

Lemma offsets_app i kids kids' :
  offsets i (kids ++ kids') = offsets i kids ++ offsets (i + forest_size kids) kids'.
Proof.
  revert i; induction kids as [|k kids IH]; intros i; cbn [offsets app].
  { unfold forest_size; simpl. by rewrite Nat.add_0_r. }
  rewrite IH. cbn [app]. do 3 f_equal. unfold forest_size; simpl. lia.
Qed.

Lemma length_offsets i kids : length (offsets i kids) = length kids.
Proof. revert i; induction kids as [|k kids IH]; intros i; simpl; auto. Qed.

(** The order that [add_node] makes leaves the L2-L1 logs out. *)
Definition build_order (n_logs n_l2_l1 n_children : nat) : list TraceMemberOrder :=
  (OLog <$> seq 0 n_logs) ++ (OCall <$> seq 0 n_children).

Definition no_order (n_logs n_l2_l1 n_children : nat) : list TraceMemberOrder := [].

(** ** What building computes *)
Section BuildingProofs.
Context `{TraceText} (tx_result : VmResult).

(** The tree of a call. *)
Fixpoint tree_of_call (c : Call) : CallTree :=
  TreeNode (convert_call_to_call_trace c) (logs_for_call tx_result c)
    (l2_l1_logs_for_call tx_result c)
    (let '(mkCall _ _ _ _ _ _ _ _ _ _ calls) := c in map tree_of_call calls).

Lemma process_unfold c p a :
  process_call_and_subcalls tx_result c p a =
  (new_parent_idx ← add_node (Some p) (node_for_call tx_result c);
   for_each (λ sub, process_call_and_subcalls tx_result sub new_parent_idx) (c_calls c)) a.
Proof.
  destruct c as [ty from to gas used value input output error reason calls].
  cbn [process_call_and_subcalls c_calls]. unfold mbind, M_bind.
  destruct (add_node _ _ a) as [j a'| | |]; [|done..]. revert a'.
  induction calls as [|c calls IH]; intros a'; [done|]. cbn [for_each]. unfold mbind, M_bind.
  destruct (process_call_and_subcalls tx_result c j a') as [[] a''| | |]; [apply IH|done..].
Qed.

(** A node that got more children. *)
Definition attach_all (js : list nat) (n : CallTraceNode) : CallTraceNode :=
  set_ordering (ordering n ++ (OCall <$> seq (length (children n)) (length js)))
    (set_children (children n ++ js) n).

Lemma attach_all_app js js' n : attach_all js' (attach_all js n) = attach_all (js ++ js') n.
Proof.
  unfold attach_all, set_ordering, set_children. cbn.
  rewrite <-!app_assoc, !length_app, seq_app, fmap_app. done.
Qed.

Lemma attach_all_nil n : attach_all [] n = n.
Proof. destruct n. unfold attach_all, set_ordering, set_children. cbn. by rewrite !app_nil_r. Qed.

Lemma process_forest_run (kids : list Call) :
  Forall (λ c, ∀ p a pn, a !! p = Some pn →
    process_call_and_subcalls tx_result c p a =
    Ret tt (<[p := attach_all [length a] pn]> a
            ++ flat build_order (length a) (Some p) (tree_of_call c))) kids →
  ∀ p a pn, a !! p = Some pn →
  for_each (λ c, process_call_and_subcalls tx_result c p) kids a =
  Ret tt (<[p := attach_all (offsets (length a) (map tree_of_call kids)) pn]> a
          ++ flats build_order (length a) (Some p) (map tree_of_call kids)).
Proof.
  induction 1 as [|c kids Hc _ IH]; intros p a pn Hp; cbn [for_each map offsets flats].
  { rewrite attach_all_nil, list_insert_id, app_nil_r by done. done. }
  pose proof (lookup_lt_Some _ _ _ Hp) as Hlt.
  step_m ltac:(by apply Hc).
  rewrite (IH _ _ (attach_all [length a] pn)).
  2: { rewrite lookup_app_l by (rewrite length_insert; lia). by apply list_lookup_insert_eq. }
  rewrite insert_app_l by (rewrite length_insert; lia).
  rewrite list_insert_insert_eq, attach_all_app, length_app, length_insert, length_flat.
  by rewrite <-app_assoc.
Qed.

Lemma process_run c : ∀ p a pn,
  a !! p = Some pn →
  process_call_and_subcalls tx_result c p a =
  Ret tt (<[p := attach_all [length a] pn]> a
          ++ flat build_order (length a) (Some p) (tree_of_call c)).
Proof.
  induction c as [ty from to gas used value input output error reason calls IH] using Call_ind'.
  intros p a pn Hp. rewrite process_unfold. step_m ltac:(by apply add_node_run).
  pose proof (lookup_lt_Some _ _ _ Hp) as Hlt. cbn [c_calls].
  erewrite process_forest_run; [|exact IH|].
  2: { rewrite lookup_app_r by (rewrite length_insert; lia).
       by rewrite length_insert, Nat.sub_diag. }
  rewrite insert_app_r_alt by (rewrite length_insert; lia).
  rewrite length_insert, Nat.sub_diag, length_app, length_insert. cbn [length list_insert].
  cbn [tree_of_call]. rewrite flat_unfold, <-app_assoc. do 2 f_equal.
  unfold attach_all, build_order, set_ordering, set_children, set_parent, set_idx, node_for_call.
  cbn [parent children idx trace logs l2_l1_logs ordering app length].
  by rewrite length_offsets, Nat.add_1_r.
Qed.

(** The tree of the whole transaction: a root with its result, and the calls. *)
Definition tree_of_tx (calls : list Call) : CallTree :=
  TreeNode (set_execution_result (trace_result_of (vr_result tx_result)) default_trace)
    [] [] (map tree_of_call calls).

Lemma build_run calls :
  build_call_trace_arena calls tx_result =
  Ret tt (flat build_order 0 None (tree_of_tx calls)).
Proof.
  unfold build_call_trace_arena, default_arena. cbn [lookup list_lookup insert list_insert].
  erewrite process_forest_run; [|apply Forall_true, process_run|done].
  unfold tree_of_tx. rewrite flat_unfold. cbn [length]. cbn [list_insert insert app].
  unfold attach_all, build_order. cbn. by rewrite length_offsets.
Qed.
End BuildingProofs.

(** ** Reading an arena back

    [read_tree] follows the children from a node on, one level per unit of
    fuel. *)
Fixpoint read_tree (fuel : nat) (a : CallTraceArena) (i : nat) : option CallTree :=
  match fuel with
  | O => None
  | S fuel =>
      n ← a !! i;
      kids ← mapM (read_tree fuel a) (children n);
      Some (TreeNode (trace n) (logs n) (l2_l1_logs n) kids)
  end.

(** [lays ord a i p t]: the arena [a] has the tree [t] laid out from [i] on. *)
Definition lays ord (a : CallTraceArena) (i : nat) (p : option nat) (t : CallTree) : Prop :=
  ∃ pre post, length pre = i ∧ a = pre ++ flat ord i p t ++ post.

Lemma lays_root ord a i p t ls l2s kids :
  lays ord a i p (TreeNode t ls l2s kids) →
  a !! i = Some (mkNode p (offsets (S i) kids) i t ls l2s
                   (ord (length ls) (length l2s) (length kids))).
Proof.
  intros (pre & post & Hl & ->). rewrite flat_unfold, lookup_app_r, Hl by lia.
  by rewrite Nat.sub_diag.
Qed.

Lemma lays_forest ord a p kids : ∀ pre post j,
  length pre = j → a = pre ++ flats ord j p kids ++ post →
  Forall2 (λ o k, lays ord a o p k) (offsets j kids) kids.
Proof.
  induction kids as [|k kids IH]; intros pre post j Hl Ha; [constructor|].
  cbn [offsets flats] in *. constructor.
  - exists pre, (flats ord (j + tree_size k) p kids ++ post). split; [done|]. by rewrite Ha, <-app_assoc.
  - apply (IH (pre ++ flat ord j p k) post); [by rewrite length_app, length_flat, Hl|].
    by rewrite Ha, <-!app_assoc.
Qed.

Lemma lays_kids ord a i p t ls l2s kids :
  lays ord a i p (TreeNode t ls l2s kids) →
  Forall2 (λ o k, lays ord a o (Some i) k) (offsets (S i) kids) kids.
Proof.
  intros (pre & post & Hl & Ha). rewrite flat_unfold in Ha.
  eapply (lays_forest ord a (Some i) kids (pre ++ [_]) post).
  - by rewrite length_app, Hl, Nat.add_1_r.
  - rewrite Ha, <-!app_assoc. reflexivity.
Qed.

Lemma kid_size t ls l2s kids k : k ∈ kids → (tree_size k < tree_size (TreeNode t ls l2s kids))%nat.
Proof.
  cbn [tree_size]. induction 1 as [kids|k k' kids _ IH]; simpl in *; lia.
Qed.

(** Reading back is the inverse of laying out. *)
Lemma read_tree_lays ord a t : ∀ fuel i p,
  lays ord a i p t → (tree_size t <= fuel)%nat → read_tree fuel a i = Some t.
Proof.
  induction t as [t ls l2s kids IH] using CallTree_ind'; intros [|fuel] i p Hl Hf.
  { simpl in Hf; lia. }
  cbn [read_tree]. rewrite (lays_root _ _ _ _ _ _ _ _ Hl). cbn [mbind option_bind children].
  assert (Hk : mapM (read_tree fuel a) (offsets (S i) kids) = Some kids).
  { apply mapM_Some, (Forall2_impl (λ o k, lays ord a o (Some i) k ∧ k ∈ kids)).
    - apply lays_kids in Hl. apply Forall2_same_length_lookup. split; [by eapply Forall2_length|].
      intros j o k Ho Hk. split; [|by eapply list_elem_of_lookup_2].
      exact (Forall2_lookup_lr _ _ _ _ _ _ Hl Ho Hk).
    - intros o k [Ho Hin]. rewrite Forall_forall in IH.
      eapply IH; [done..|]. pose proof (kid_size t ls l2s kids k Hin). lia. }
  rewrite Hk. done.
Qed.

(** ** Well-formed arenas

    Every node knows its place, its children come after it and know it, and
    its parent lists it. *)
Definition node_wf (a : CallTraceArena) (i : nat) (n : CallTraceNode) : Prop :=
  idx n = i ∧
  (∀ c, c ∈ children n → (i < c)%nat ∧ ∃ m, a !! c = Some m ∧ parent m = Some i) ∧
  match parent n with
  | Some q => (q < i)%nat ∧ ∃ m, a !! q = Some m ∧ i ∈ children m
  | None => i = 0%nat
  end.

Definition arena_wf (a : CallTraceArena) : Prop :=
  ∀ i n, a !! i = Some n → node_wf a i n.

Lemma offsets_ge j kids c : c ∈ offsets j kids → (j <= c)%nat.
Proof.
  revert j; induction kids as [|k kids IH]; intros j; cbn [offsets].
  { by intros ?%elem_of_nil. }
  intros [->|Hc]%elem_of_cons; [lia|]. apply IH in Hc. lia.
Qed.

Lemma lays_parent ord a i p t : lays ord a i p t → ∃ n, a !! i = Some n ∧ parent n = p.
Proof. destruct t. intros H%lays_root. by eexists. Qed.

(** The nodes of a tree that is laid out in an arena are well-formed. *)
Lemma lays_wf ord a t : ∀ i p,
  lays ord a i p t →
  match p with
  | Some q => (q < i)%nat ∧ ∃ m, a !! q = Some m ∧ i ∈ children m
  | None => i = 0%nat
  end →
  ∀ k n, (i <= k < i + tree_size t)%nat → a !! k = Some n → node_wf a k n.
Proof.
  induction t as [t ls l2s kids IH] using CallTree_ind'; intros i p Hl Hp k n Hk Hn.
  pose proof (lays_root _ _ _ _ _ _ _ _ Hl) as Hroot. pose proof (lays_kids _ _ _ _ _ _ _ _ Hl) as Hkids.
  destruct (decide (k = i)) as [->|Hne].
  - rewrite Hroot in Hn. injection Hn as <-. split; [done|]. cbn [children parent]. split.
    + intros c Hc. split; [by apply offsets_ge in Hc|].
      apply list_elem_of_lookup_1 in Hc as [j Hj].
      destruct (Forall2_lookup_l _ _ _ _ _ Hkids Hj) as (kid & _ & Hkid). by eapply lays_parent.
    + exact Hp.
  - clear Hl Hp. cbn [tree_size] in Hk.
    assert (Hoff : ∀ c, c ∈ offsets (S i) kids → ∃ m, a !! i = Some m ∧ c ∈ children m)
      by (intros c Hc; by eexists).
    clear Hroot. assert (HSk : (S i <= k < S i + sum_list (map tree_size kids))%nat) by lia. clear Hk.
    assert (Hi : (i < S i)%nat) by lia. revert Hkids HSk Hoff Hi. generalize (S i) as j.
    induction IH as [|kid kids Hkid _ IHk]; intros j Hkids HSk Hoff Hi; [simpl in *; lia|].
    cbn [offsets] in *. simpl in HSk. apply Forall2_cons in Hkids as [Hk1 Hkids].
    destruct (decide (k < j + tree_size kid)%nat) as [Hlt|Hge].
    + eapply Hkid; [exact Hk1| |by split; [apply HSk|]|done].
      split; [done|]. apply Hoff. left.
    + eapply IHk; [exact Hkids|lia| |lia]. intros c Hc. apply Hoff. by right.
Qed.

Lemma flat_wf ord t : arena_wf (flat ord 0 None t).
Proof.
  intros i n Hi. apply lookup_lt_Some in Hi as Hlt. rewrite length_flat in Hlt.
  eapply (lays_wf ord _ t 0 None); [|done|lia|done].
  exists [], []. by rewrite app_nil_r.
Qed.

Lemma read_tree_flat ord t : read_tree (length (flat ord 0 None t)) (flat ord 0 None t) 0 = Some t.
Proof.
  eapply (read_tree_lays ord _ t _ 0 None); [|by rewrite length_flat].
  exists [], []. by rewrite app_nil_r.
Qed.

(** ** What filtering computes

    [prune] keeps the nodes that the verbosity level includes; the children
    of a node that is left out take its place. *)
Section Pruning.
Variable verbosity : Z.

Fixpoint prune (tree : CallTree) : list CallTree :=
  let '(TreeNode t ls l2s kids) := tree in
  let kids' := flat_map prune kids in
  if should_include_call (ct_address t) verbosity
  then [TreeNode t ls (filter (λ log, include_log verbosity log = true) l2s) kids']
  else kids'.

Definition prune_forest (kids : list CallTree) : list CallTree := flat_map prune kids.

(** The calls of a tree in the order they were made. *)
Fixpoint calls_of (tree : CallTree) : list CallTrace :=
  let '(TreeNode t _ _ kids) := tree in t :: flat_map calls_of kids.

Definition calls_of_forest (kids : list CallTree) : list CallTrace := flat_map calls_of kids.

Definition included (t : CallTrace) : Prop :=
  should_include_call (ct_address t) verbosity = true.

#[export] Instance included_dec t : Decision (included t).
Proof. unfold included. apply _. Defined.

Lemma calls_of_forest_app kids kids' :
  calls_of_forest (kids ++ kids') = calls_of_forest kids ++ calls_of_forest kids'.
Proof. unfold calls_of_forest. by apply flat_map_app. Qed.

(** Pruning keeps exactly the included calls, in order. *)
Lemma prune_calls tree : calls_of_forest (prune tree) = filter included (calls_of tree).
Proof.
  induction tree as [t ls l2s kids IH] using CallTree_ind'.
  assert (Hk : calls_of_forest (flat_map prune kids) = filter included (calls_of_forest kids)).
  { induction IH as [|k kids Hk _ IHk]; [done|]. cbn [flat_map].
    rewrite calls_of_forest_app, Hk, IHk. unfold calls_of_forest. cbn [flat_map].
    by rewrite filter_app. }
  cbn [prune calls_of]. fold (calls_of_forest kids).
  destruct (should_include_call _ _) eqn:E.
  - rewrite filter_cons_True by exact E. unfold calls_of_forest at 1. cbn [flat_map].
    rewrite app_nil_r. cbn [calls_of]. fold (calls_of_forest (flat_map prune kids)). by rewrite Hk.
  - rewrite filter_cons_False; [done|]. unfold included. by rewrite E.
Qed.

Lemma prune_forest_calls kids :
  calls_of_forest (prune_forest kids) = filter included (calls_of_forest kids).
Proof.
  unfold prune_forest, calls_of_forest. induction kids as [|k kids IH]; [done|].
  cbn [flat_map]. rewrite flat_map_app, filter_app, <-prune_calls, <-IH. done.
Qed.

(** The body of the loop over the children. *)
Definition visit_child (fuel : nat) (orig_arena : CallTraceArena) (parent_idx : option nat)
    (child_idx : nat) : ArenaM unit :=
  child ← expect "index out of bounds" (orig_arena !! child_idx);
  if should_include_call (ct_address (trace child)) verbosity then
    new_idx ← gets length;
    modify (λ a, a ++ [filtered_copy verbosity new_idx parent_idx child]);;
    match parent_idx with
    | Some p_idx => update_node p_idx (push_child new_idx)
    | None => mret tt
    end;;
    filter_node_recursively fuel orig_arena verbosity child (Some new_idx)
  else
    filter_node_recursively fuel orig_arena verbosity child parent_idx.

Lemma filter_unfold fuel a n p :
  filter_node_recursively (S fuel) a verbosity n p = for_each (visit_child fuel a p) (children n).
Proof. done. Qed.

Definition add_children (js : list nat) (n : CallTraceNode) : CallTraceNode :=
  set_children (children n ++ js) n.

(** What filtering a forest adds to a filtered arena. *)
Definition grown (f : CallTraceArena) (q : nat) (qn : CallTraceNode) (kids : list CallTree) :
    CallTraceArena :=
  <[q := add_children (offsets (length f) kids) qn]> f ++ flats no_order (length f) (Some q) kids.

Lemma grown_nil f q qn : f !! q = Some qn → grown f q qn [] = f.
Proof.
  intros Hq. unfold grown, add_children. cbn [offsets flats]. rewrite !app_nil_r.
  rewrite list_insert_id; [done|]. by destruct qn.
Qed.

Lemma grown_lookup f q qn kids :
  f !! q = Some qn → grown f q qn kids !! q = Some (add_children (offsets (length f) kids) qn).
Proof.
  intros Hq%lookup_lt_Some. unfold grown.
  rewrite lookup_app_l by by rewrite length_insert. by apply list_lookup_insert_eq.
Qed.

Lemma grown_app f q qn kids kids' :
  f !! q = Some qn →
  grown (grown f q qn kids) q (add_children (offsets (length f) kids) qn) kids' =
  grown f q qn (kids ++ kids').
Proof.
  intros Hq%lookup_lt_Some. unfold grown.
  rewrite insert_app_l by by rewrite length_insert. rewrite list_insert_insert_eq.
  rewrite length_app, length_insert, length_flats, offsets_app, flats_app, <-app_assoc.
  unfold add_children, set_children. cbn. by rewrite <-app_assoc.
Qed.

(** Adding a copy, then its children, adds the tree. *)
Lemma grown_child f q qn n t ls l2s kids :
  f !! q = Some qn → n = mkNode (Some q) [] (length f) t ls l2s [] →
  grown (<[q := push_child (length f) qn]> (f ++ [n])) (length f) n kids =
  grown f q qn [TreeNode t ls l2s kids].
Proof.
  intros Hq%lookup_lt_Some ->. unfold grown. rewrite insert_app_l by done.
  rewrite insert_app_r_alt by (rewrite length_insert; lia).
  rewrite length_app, length_insert, Nat.sub_diag, Nat.add_1_r. cbn [list_insert insert flats offsets].
  rewrite flat_unfold, app_nil_r, <-app_assoc. done.
Qed.

Definition visits ord (tree : CallTree) : Prop :=
  ∀ fuel a i p f q qn,
    lays ord a i p tree → (tree_size tree <= fuel)%nat → f !! q = Some qn →
    visit_child fuel a (Some q) i f = Ret tt (grown f q qn (prune tree)).

Lemma visit_forest ord kids :
  Forall (visits ord) kids → ∀ fuel a js p f q qn,
  Forall2 (λ o k, lays ord a o p k) js kids → (forest_size kids <= fuel)%nat → f !! q = Some qn →
  for_each (visit_child fuel a (Some q)) js f = Ret tt (grown f q qn (prune_forest kids)).
Proof.
  induction 1 as [|k kids Hk _ IH]; intros fuel a js p f q qn Hl Hf Hq.
  { apply Forall2_nil_inv_r in Hl as ->. cbn. by rewrite grown_nil. }
  apply Forall2_cons_inv_r in Hl as (j & js' & Hj & Hl & ->). unfold forest_size in Hf; simpl in Hf.
  cbn [for_each]. step_m ltac:(eapply Hk; [exact Hj|lia|done]).
  erewrite IH; [|exact Hl|unfold forest_size; lia|by apply grown_lookup].
  rewrite grown_app by done. done.
Qed.

Lemma visit_tree ord tree : visits ord tree.
Proof.
  induction tree as [t ls l2s kids IH] using CallTree_ind'; intros fuel a i p f q qn Hl Hf Hq.
  pose proof (lays_kids _ _ _ _ _ _ _ _ Hl) as Hkids. apply lays_root in Hl.
  destruct fuel as [|fuel]; [simpl in Hf; lia|]. cbn [tree_size] in Hf.
  unfold visit_child. rewrite Hl. cbn [prune].
  change (expect ?m (Some ?x)) with (mret (M := M CallTraceArena Empty_set) x).
  step_m ltac:(reflexivity). cbn [trace].
  destruct (should_include_call (ct_address t) verbosity).
  - pose proof (lookup_lt_Some _ _ _ Hq) as Hlt.
    step_m ltac:(reflexivity). step_m ltac:(reflexivity).
    step_m ltac:(apply update_node_run; rewrite lookup_app_l; [exact Hq|done]).
    rewrite filter_unfold. cbn [children].
    erewrite visit_forest; [|exact IH|exact Hkids|unfold forest_size; lia|].
    2: { rewrite list_lookup_insert_ne, lookup_app_r, Nat.sub_diag by lia. reflexivity. }
    f_equal. by apply grown_child.
  - rewrite filter_unfold. cbn [children].
    eapply visit_forest; [exact IH|exact Hkids|unfold forest_size; lia|done].
Qed.
End Pruning.

Lemma rebuild_flat tree : ∀ i p,
  rebuild_ordering <$> flat no_order i p tree = flat member_order i p tree.
Proof.
  induction tree as [t ls l2s kids IH] using CallTree_ind'; intros i p.
  rewrite !flat_unfold, fmap_cons. f_equal.
  { unfold rebuild_ordering, set_ordering. cbn. by rewrite length_offsets. }
  generalize (S i) as j. induction IH as [|k kids Hk _ IHk]; intros j; [done|].
  cbn [flats]. by rewrite fmap_app, Hk, IHk.
Qed.

Lemma rebuild_flats j p kids :
  rebuild_ordering <$> flats no_order j p kids = flats member_order j p kids.
Proof.
  revert j; induction kids as [|k kids IH]; intros j; [done|].
  cbn [flats]. by rewrite fmap_app, rebuild_flat, IH.
Qed.

Lemma length_calls_of tree : length (calls_of tree) = tree_size tree.
Proof.
  induction tree as [t ls l2s kids IH] using CallTree_ind'. cbn [calls_of tree_size length].
  f_equal. induction IH as [|k kids Hk _ IHk]; [done|].
  cbn [flat_map map]. rewrite length_app, Hk, IHk. done.
Qed.

Lemma length_calls_of_forest kids : forest_size kids = length (calls_of_forest kids).
Proof.
  unfold forest_size, calls_of_forest. induction kids as [|k kids IH]; [done|].
  cbn [flat_map map]. rewrite length_app, length_calls_of, <-IH. done.
Qed.

Lemma read_tree_S fuel a i :
  read_tree (S fuel) a i =
  (n ← a !! i; kids ← mapM (read_tree fuel a) (children n);
   Some (TreeNode (trace n) (logs n) (l2_l1_logs n) kids)).
Proof. done. Qed.

Lemma read_forest_lays ord a p fuel js kids :
  Forall2 (λ o k, lays ord a o p k) js kids → Forall (λ k, tree_size k <= fuel)%nat kids →
  mapM (read_tree fuel a) js = Some kids.
Proof.
  intros Hl Hf. apply mapM_Some. revert Hf.
  induction Hl as [|o k os kids Ho _ IH]; intros Hf; [constructor|].
  apply Forall_cons in Hf as [Hk Hf]. constructor; [by eapply read_tree_lays|by apply IH].
Qed.

Section FilterProofs.
Context `{TraceText}.

(** The filtered arena: the default root with the pruned forest, and the copy
    of the original root beside it. *)
Definition filtered_arena (kids : list CallTree) (t : CallTrace) ls l2s : CallTraceArena :=
  mkNode None (offsets 2 kids) 0 default_trace [] [] (member_order 0 0 (length kids)) ::
  mkNode None [] 0 t ls l2s (member_order (length ls) (length l2s) 0) ::
  flats member_order 2 (Some 0%nat) kids.

Lemma filter_run ord t ls l2s kids verbosity :
  filter_call_trace_arena (flat ord 0 None (TreeNode t ls l2s kids)) verbosity =
  Ret tt (filtered_arena (prune_forest verbosity kids) t ls l2s).
Proof.
  assert (Hl : lays ord (flat ord 0 None (TreeNode t ls l2s kids)) 0 None (TreeNode t ls l2s kids))
    by (exists [], []; by rewrite app_nil_r).
  pose proof (lays_kids _ _ _ _ _ _ _ _ Hl) as Hkids. clear Hl.
  rewrite flat_unfold in *. unfold filter_call_trace_arena, default_arena.
  set (arena := _ :: _) in *. rewrite filter_unfold. cbn [children]. cbn [app].
  step_m ltac:(eapply visit_forest; [apply Forall_true, visit_tree|exact Hkids| |reflexivity]).
  2: { unfold arena. cbn [length]. rewrite length_flats. lia. }
  unfold modify, grown. cbn [length insert list_insert app]. rewrite !fmap_cons, rebuild_flats.
  unfold filtered_arena, rebuild_ordering, add_children, set_ordering, set_children, set_idx, set_parent.
  cbn [children logs l2_l1_logs length parent idx trace default_node app ordering].
  by rewrite length_offsets.
Qed.

Lemma read_filtered kids t ls l2s :
  read_tree (length (filtered_arena kids t ls l2s)) (filtered_arena kids t ls l2s) 0 =
  Some (TreeNode default_trace [] [] kids).
Proof.
  assert (Hkids : Forall2 (λ o k, lays member_order (filtered_arena kids t ls l2s) o (Some 0%nat) k)
                    (offsets 2 kids) kids)
    by (eapply (lays_forest _ _ _ kids [_; _] [] 2); [done|by rewrite app_nil_r]).
  set (a := filtered_arena kids t ls l2s) in *.
  assert (Hn : a !! 0%nat = Some (mkNode None (offsets 2 kids) 0 default_trace [] []
                                    (member_order 0 0 (length kids)))) by done.
  assert (Hlen : length a = S (S (forest_size kids)))
    by (unfold a; cbn [filtered_arena length]; by rewrite length_flats).
  clearbody a. rewrite Hlen, read_tree_S, Hn. cbn [mbind option_bind children].
  assert (mapM (read_tree (S (forest_size kids)) a) (offsets 2 kids) = Some kids) as ->; [|done].
  eapply read_forest_lays; [exact Hkids|]. apply Forall_forall. intros k Hin.
  pose proof (kid_size t ls l2s kids k Hin) as Hk. cbn [tree_size] in Hk. unfold forest_size. lia.
Qed.

(** C27: Building the arena of a transaction: it never panics, the arena has one
    node per call and the root, every node knows its index, its parent and
    its children, children come after parents, and the tree read from the
    root is exactly the tree of the calls with their results, logs and
    L2-L1 logs. *)
Theorem build_call_trace_arena_spec calls tx_result :
  ∃ arena,
    build_call_trace_arena calls tx_result = Ret tt arena ∧
    arena_wf arena ∧
    length arena = S (length (calls_of_forest (map (tree_of_call tx_result) calls))) ∧
    read_tree (length arena) arena 0 = Some (tree_of_tx tx_result calls).
Proof.
  exists (flat build_order 0 None (tree_of_tx tx_result calls)).
  split_and!; [apply build_run|apply flat_wf| |apply read_tree_flat].
  rewrite length_flat. cbn [tree_of_tx tree_size]. f_equal. apply length_calls_of_forest.
Qed.

(** C28: What a verbosity level shows of a transaction: filtering the arena that
    was built ends without a panic, and the tree left under the root has
    exactly the calls that the level includes, in the order they were made,
    each under its nearest caller that is included, with the L2-L1 logs of the
    level.  The root that is kept is a fresh one: the result of the
    transaction is left on a copy at index 1 that says it has index 0 and that
    nothing refers to. *)
Theorem filter_call_trace_arena_spec calls tx_result verbosity :
  let forest := map (tree_of_call tx_result) calls in
  ∃ arena filtered,
    build_call_trace_arena calls tx_result = Ret tt arena ∧
    filter_call_trace_arena arena verbosity = Ret tt filtered ∧
    read_tree (length filtered) filtered 0
      = Some (TreeNode default_trace [] [] (prune_forest verbosity forest)) ∧
    calls_of_forest (prune_forest verbosity forest)
      = filter (included verbosity) (calls_of_forest forest) ∧
    (∃ orphan, filtered !! 1%nat = Some orphan ∧ idx orphan = 0%nat ∧ children orphan = [] ∧
       ct_execution_result (trace orphan) = trace_result_of (vr_result tx_result)).
Proof.
  intros forest. eexists _, _. split_and!.
  - apply build_run.
  - apply filter_run.
  - apply read_filtered.
  - apply prune_forest_calls.
  - by eexists.
Qed.
End FilterProofs.
