(* ===== verification/TraceWriter.v ===== *)
(** * Rendering of call traces

    [crates/traces/src/writer.rs] and [crates/traces/src/format/mod.rs]: the
    writer that prints an arena as an indented tree, to a buffer as
    [render_trace_arena_inner] uses it.  The styles of the terminal are an
    interface. *)
From S2P Require Import Prelude Types Utils Text AddressMap TraceTypes Traces.
From Stdlib Require Import Ascii.
Local Open Scope Z_scope.

(** ** Values with hints *)
Inductive Style := DefaultStyle | TRACE_KIND_STYLE | LOG_STYLE | GreenStyle | RedStyle.

Inductive ColorChoice := ColorAuto | ColorAlwaysAnsi | ColorAlways | ColorNever.

(** The terminal: [{style}] and [{style:#}] of [anstyle], [dimmed] of
    [colored], and whether standard output is a terminal. *)
Class Terminal := {
  style_on : Style → string;
  style_off : Style → string;
  dimmed : string → string;
  is_terminal : bool;
}.

(** [{:?}] of a string: the text in quotes; a single quote is not escaped. *)
Definition quote : ascii := ascii_of_nat 34.

Definition debug_char (c : ascii) : string :=
  if Ascii.eqb c (ascii_of_nat 39) then String c EmptyString else escape_char c.

Fixpoint debug_text (s : string) : string :=
  match s with
  | EmptyString => EmptyString
  | String c s => debug_char c +:+ debug_text s
  end.

Definition debug_string (s : string) : string :=
  String quote EmptyString +:+ debug_text s +:+ String quote EmptyString.

Section Pretty.
Context `{Terminal}.

(** [Display for PrettyDecodedValue] *)
Fixpoint pretty_value (v : DecodedValue) : string :=
  match v with
  | DvInt n => pretty_number dimmed (exponential n)
  | DvUint n => pretty_number dimmed (exponential (signed_of_u256 n))
  | DvString s => debug_string s
  | DvCustomStruct name prop_names tuple =>
      name +:+
        (if (length prop_names =? length tuple)%nat then
           "({ " +:+
             write_interspersed ", "
               (zip_with (λ prop_name value, prop_name +:+ ": " +:+ value) prop_names
                  (map pretty_value tuple))
             +:+ " })"
         else write_interspersed "," (map pretty_value tuple))
  | DvArray vs | DvFixedArray vs => "[" +:+ write_interspersed ", " (map pretty_value vs) +:+ "]"
  | DvTuple vs => "(" +:+ write_interspersed ", " (map pretty_value vs) +:+ ")"
  | other => value_display other
  end.
End Pretty.

(** ** The writer *)
Definition PIPE : string := "  │ ".
Definition EDGE : string := "  └─ ".
Definition BRANCH : string := "  ├─ ".
Definition CALL : string := "→ ".
Definition RETURN : string := "← ".

Definition newline : string := String (ascii_of_nat 10) EmptyString.

Record TraceWriterConfig := mkWriterConfig {
  cfg_use_colors : bool;
  cfg_write_bytecodes : bool;
}.

Record TraceWriter := mkTraceWriter {
  writer : string;
  indentation_level : Z;
  config : TraceWriterConfig;
}.

Definition set_indentation (i : Z) (w : TraceWriter) : TraceWriter :=
  mkTraceWriter (writer w) i (config w).

(** Writing to a buffer does not fail. *)
Abbreviation WriterM := (M TraceWriter Empty_set).

(** [write_all], [write!] *)
Definition write (s : string) : WriterM unit :=
  modify (λ w, mkTraceWriter (writer w +:+ s) (indentation_level w) (config w)).

Section Configuration.
Context `{Terminal}.

Definition use_colors (choice : ColorChoice) : bool :=
  match choice with
  | ColorAuto => is_terminal
  | ColorAlwaysAnsi | ColorAlways => true
  | ColorNever => false
  end.

Definition TraceWriterConfig_new : TraceWriterConfig :=
  mkWriterConfig (use_colors ColorAuto) false.

Definition config_color_choice (choice : ColorChoice) (c : TraceWriterConfig) : TraceWriterConfig :=
  mkWriterConfig (use_colors choice) (cfg_write_bytecodes c).

Definition config_write_bytecodes (yes : bool) (c : TraceWriterConfig) : TraceWriterConfig :=
  mkWriterConfig (cfg_use_colors c) yes.

Definition with_config (w : string) (c : TraceWriterConfig) : TraceWriter := mkTraceWriter w 0 c.

Definition TraceWriter_new (w : string) : TraceWriter := with_config w TraceWriterConfig_new.

Definition writer_use_colors (choice : ColorChoice) (w : TraceWriter) : TraceWriter :=
  mkTraceWriter (writer w) (indentation_level w) (config_color_choice choice (config w)).

Definition with_indentation_level (level : Z) (w : TraceWriter) : TraceWriter :=
  set_indentation level w.

Definition write_bytecodes (yes : bool) (w : TraceWriter) : TraceWriter :=
  mkTraceWriter (writer w) (indentation_level w) (config_write_bytecodes yes (config w)).
End Configuration.

(** Prefixes of a line. *)
Definition write_indentation : WriterM unit :=
  write "  ";;
  level ← gets indentation_level;
  for_each (λ _, write PIPE) (seqZ 1 (level - 1)).

Definition write_branch : WriterM unit :=
  write_indentation;;
  level ← gets indentation_level;
  if negb (level =? 0) then write BRANCH else mret tt.

Definition write_pipes : WriterM unit := write_indentation;; write PIPE.

Definition write_edge : WriterM unit := write_indentation;; write EDGE.

Section Styles.
Variable c : TraceWriterConfig.

Definition trace_style (t : CallTrace) : Style :=
  if negb (cfg_use_colors c) then DefaultStyle
  else if ct_success t then GreenStyle else RedStyle.

Definition trace_kind_style : Style :=
  if negb (cfg_use_colors c) then DefaultStyle else TRACE_KIND_STYLE.

Definition log_style : Style := if negb (cfg_use_colors c) then DefaultStyle else LOG_STYLE.
End Styles.

(** [signature.split('(').next()] *)
Fixpoint before_paren (s : string) : string :=
  match s with
  | EmptyString => EmptyString
  | String c s => if Ascii.eqb c "("%char then EmptyString else String c (before_paren s)
  end.

(** [opt.as_deref().unwrap_or(s)] *)
Definition unwrap_or {A} (o : option A) (a : A) : A := match o with Some b => b | None => a end.

Section Lines.
Context `{Terminal} `{TraceText}.

(** The name and the arguments of a call. *)
Definition call_inputs (decoded : option DecodedCallData) (input : Bytes) : string * string :=
  match decoded with
  | Some (mkDecodedCallData signature args) =>
      (before_paren signature, write_interspersed ", " (pretty_value <$> args))
  | None =>
      if (length input <? 4)%nat then ("fallback", hex_encode input)
      else (hex_encode (take 4 input), hex_encode (drop 4 input))
  end.

Definition call_action (ty : CallType) : option string :=
  match ty with
  | CallKind FarNormal => None
  | CallKind FarDelegate => Some " [delegatecall]"
  | CallKind FarMimic => Some " [mimiccall]"
  | NearCallKind => Some "[nearcall]"
  | CreateKind => None
  end.

Definition write_trace_header (t : CallTrace) : WriterM unit :=
  let '(mkCall ty _ to _ gas_used value input _ _ _ _) := ct_call t in
  write ("[" +:+ dec gas_used +:+ "] ");;
  c ← gets config;
  let kind := trace_kind_style c in
  let address := "0x" +:+ hex_address to in
  match ty with
  | CreateKind =>
      write (style_on kind +:+ CALL +:+ "new" +:+ style_off kind +:+ " "
             +:+ unwrap_or (dt_label (ct_decoded t)) "<unknown>" +:+ "@" +:+ address);;
      if cfg_write_bytecodes c then write ("(" +:+ hex_encode input +:+ ")") else mret tt
  | CallKind _ | NearCallKind =>
      let '(func_name, inputs) := call_inputs (dt_call_data (ct_decoded t)) input in
      let style := trace_style c t in
      write (style_on style +:+ unwrap_or (dt_label (ct_decoded t)) address +:+ style_off style
             +:+ "::" +:+ style_on style +:+ func_name +:+ style_off style);;
      (if negb (value =? 0) then write ("{value: " +:+ dec value +:+ "}") else mret tt);;
      write ("(" +:+ inputs +:+ ")");;
      match call_action ty with
      | Some action => write (style_on kind +:+ action +:+ style_off kind)
      | None => mret tt
      end
  end.

Definition write_l1_l2_log (log : L2L1Logs) : WriterM unit :=
  c ← gets config;
  let style := log_style c in
  write_branch;;
  let '(log_type, l2_log) :=
    match ll_raw_log log with
    | UserLog user_log => ("UserL2L1Log", user_log)
    | SystemLog system_log => ("SystemL2L1Log", system_log)
    end in
  write (log_type +:+ "(" +:+ style_on style +:+ "key: " +:+ h256_debug (ul_key l2_log)
         +:+ ", value: " +:+ h256_debug (ul_value l2_log) +:+ style_off style +:+ ")");;
  write newline.

Definition write_log (log : CallLog) : WriterM unit :=
  c ← gets config;
  let style := log_style c in
  write_branch;;
  match de_name (cl_decoded log) with
  | Some name =>
      write ("emit " +:+ name +:+ "(" +:+ style_on style);;
      match de_params (cl_decoded log) with
      | Some params =>
          for_each (λ '(i, (param_name, value)),
            (if (0 <? i)%nat then write ", " else mret tt);;
            write (param_name +:+ ": " +:+ value_display value)) (enumerate params)
      | None => mret tt
      end;;
      write (style_off style +:+ ")" +:+ newline)
  | None =>
      for_each (λ '(i, topic),
        (if (i =? 0)%nat then write " emit topic 0"
         else write_pipes;; write ("       topic " +:+ dec (Z.of_nat i)));;
        write (": " +:+ style_on style +:+ h256_display topic +:+ style_off style +:+ newline))
        (enumerate (ev_indexed_topics (cl_raw_log log)));;
      (if (length (ev_indexed_topics (cl_raw_log log)) =? 0)%nat then mret tt else write_pipes);;
      write ("          data: " +:+ style_on style +:+ hex_encode (ev_value (cl_raw_log log))
             +:+ style_off style +:+ newline)
  end.

Definition write_trace_footer (t : CallTrace) : WriterM unit :=
  let '(mkCall ty _ _ _ _ _ _ output _ _ _) := ct_call t in
  c ← gets config;
  let status_str := trace_result_display (ct_execution_result t) in
  let style := trace_style c t in
  write (style_on style +:+ RETURN +:+ "[" +:+ status_str +:+ "]" +:+ style_off style);;
  let decoded_return_data := return_data_display (dt_return_data (ct_decoded t)) in
  if negb (String.eqb decoded_return_data "") then
    write " ";; write decoded_return_data
  else if negb (cfg_write_bytecodes c)
          && match ty with CreateKind => true | _ => false end
          && negb (trace_failed (ct_execution_result t)) then
    write (" " +:+ dec (Z.of_nat (length output)) +:+ " bytes of code")
  else if negb (length output =? 0)%nat then write (" " +:+ hex_encode output)
  else mret tt.

(** ** Items and nodes

    [write_node] and [write_item] call each other: [write_child] is the call
    back, which [write_node] provides with one unit of fuel less. *)
Section Items.
Variable write_child : nat → WriterM unit.
Variable nodes : list CallTraceNode.

Definition write_item (node_idx item_idx : nat) : WriterM nat :=
  node ← expect "index out of bounds" (nodes !! node_idx);
  item ← expect "index out of bounds" (ordering node !! item_idx);
  match item with
  | OLog index =>
      log ← expect "index out of bounds" (logs node !! index);
      write_log log;;
      mret (S item_idx)
  | OCall index =>
      child ← expect "Call index out of bounds" (children node !! index);
      write_child child;;
      mret (S item_idx)
  | OL1L2Log index =>
      log ← expect "index out of bounds" (l2_l1_logs node !! index);
      write_l1_l2_log log;;
      mret (S item_idx)
  end.

(** [while !f(item_idx)], one item per unit of fuel. *)
Fixpoint write_items_until (fuel : nat) (node_idx item_idx : nat) (f : nat → bool) :
    WriterM nat :=
  if f item_idx then mret item_idx
  else
    match fuel with
    | O => panic "the loop does not end"
    | S fuel =>
        item_idx ← write_item node_idx item_idx;
        write_items_until fuel node_idx item_idx f
    end.

Definition write_items (node_idx : nat) : WriterM unit :=
  node ← expect "index out of bounds" (nodes !! node_idx);
  let items_cnt := length (ordering node) in
  write_items_until items_cnt node_idx 0 (λ i, (i =? items_cnt)%nat);;
  mret tt.
End Items.

Fixpoint write_node (fuel : nat) (nodes : list CallTraceNode) (i : nat) : WriterM unit :=
  match fuel with
  | O => panic "stack overflow"
  | S fuel =>
      node ← expect "index out of bounds" (nodes !! i);
      write_branch;;
      write_trace_header (trace node);;
      write newline;;
      modify (λ w, set_indentation (as_u16 (indentation_level w + 1)) w);;
      write_items (write_node fuel nodes) nodes i;;
      write_edge;;
      write_trace_footer (trace node);;
      write newline;;
      modify (λ w, set_indentation (as_u16 (indentation_level w - 1)) w)
  end.

Definition write_arena (arena : CallTraceArena) : WriterM unit :=
  root_node ← expect "index out of bounds" (arena !! 0%nat);
  for_each (write_node (length arena) arena) (children root_node).

(** The buffer is UTF-8, since only strings are written to it. *)
Definition render_trace_arena_inner (arena : CallTraceArena) (with_bytecodes : bool) :
    option string :=
  match write_arena arena (write_bytecodes with_bytecodes (TraceWriter_new EmptyString)) with
  | Ret _ w => Some (writer w)
  | _ => None
  end.
End Lines.

(** ** Writers that append

    Everything that writes a line only appends to the buffer, and what it
    appends depends on the configuration and the indentation alone. *)
Definition emit (s : string) (w : TraceWriter) : TraceWriter :=
  mkTraceWriter (writer w +:+ s) (indentation_level w) (config w).

Definition appends {A} (m : WriterM A) : Prop :=
  ∀ c level, ∃ a s, ∀ w, config w = c → indentation_level w = level → m w = Ret a (emit s w).

(** What a writer appends. *)
Definition text_of {A} (m : WriterM A) (c : TraceWriterConfig) (level : Z) : string :=
  match m (mkTraceWriter EmptyString level c) with Ret _ w => writer w | _ => EmptyString end.

Lemma app_empty_r (s : string) : s +:+ "" = s.
Proof. induction s as [|c s IH]; [done|]. exact (f_equal (String c) IH). Qed.

Lemma app_assoc_string (s1 s2 s3 : string) : s1 +:+ s2 +:+ s3 = (s1 +:+ s2) +:+ s3.
Proof. induction s1 as [|c s IH]; [done|]. exact (f_equal (String c) IH). Qed.

Lemma emit_emit s1 s2 w : emit s2 (emit s1 w) = emit (s1 +:+ s2) w.
Proof. unfold emit. cbn. by rewrite app_assoc_string. Qed.

Lemma emit_empty w : emit "" w = w.
Proof. destruct w. unfold emit; cbn. by rewrite app_empty_r. Qed.

Lemma appends_text (m : WriterM unit) w :
  appends m → m w = Ret tt (emit (text_of m (config w) (indentation_level w)) w).
Proof.
  intros Hm. destruct (Hm (config w) (indentation_level w)) as ([] & s & Hs).
  unfold text_of. rewrite (Hs (mkTraceWriter _ _ _)) by done. by rewrite Hs.
Qed.

Lemma appends_write s : appends (write s).
Proof. intros c l. by exists tt, s. Qed.

Lemma appends_ret {A} (a : A) : appends (mret a).
Proof. intros c l. exists a, "". intros w _ _. by rewrite emit_empty. Qed.

Lemma appends_config : appends (gets config).
Proof. intros c l. exists c, "". intros w <- _. by rewrite emit_empty. Qed.

Lemma appends_level : appends (gets indentation_level).
Proof. intros c l. exists l, "". intros w _ <-. by rewrite emit_empty. Qed.

Lemma appends_bind {A B} (m : WriterM A) (k : A → WriterM B) :
  appends m → (∀ a, appends (k a)) → appends (m ≫= k).
Proof.
  intros Hm Hk c l. destruct (Hm c l) as (a & s & Hs). destruct (Hk a c l) as (b & s' & Hs').
  exists b, (s +:+ s'). intros w Hc Hl. rewrite (bind_run _ _ _ _ _ (Hs w Hc Hl)).
  rewrite Hs' by done. by rewrite emit_emit.
Qed.

Lemma appends_for_each {A} (f : A → WriterM unit) xs :
  (∀ x, appends (f x)) → appends (for_each f xs).
Proof.
  intros Hf. induction xs as [|x xs IH]; [apply appends_ret|].
  by apply appends_bind.
Qed.

Create HintDb writer discriminated.
#[export] Hint Resolve appends_write appends_ret appends_config appends_level appends_bind
  appends_for_each : writer.
Ltac appends :=
  repeat match goal with
  | |- appends (_ ≫= _) => apply appends_bind; [|intros ?]
  | |- appends (for_each _ _) => apply appends_for_each; intros ?
  | |- appends (if ?b then _ else _) => destruct b
  | |- appends (match ?x with _ => _ end) => destruct x
  | |- appends (let '(_, _) := ?p in _) => destruct p
  | |- appends _ => first [progress cbv zeta | progress cbv beta | solve [auto with writer]]
  end.

Lemma appends_indentation : appends write_indentation.
Proof. unfold write_indentation. appends. Qed.
#[export] Hint Resolve appends_indentation : writer.
Lemma appends_branch : appends write_branch.
Proof. unfold write_branch. appends. Qed.
Lemma appends_pipes : appends write_pipes.
Proof. unfold write_pipes. appends. Qed.
Lemma appends_edge : appends write_edge.
Proof. unfold write_edge. appends. Qed.
#[export] Hint Resolve appends_branch appends_pipes appends_edge : writer.

Section AppendsLines.
Context `{Terminal} `{TraceText}.

Lemma appends_header t : appends (write_trace_header t).
Proof. unfold write_trace_header. appends. Qed.
Lemma appends_l1_l2_log log : appends (write_l1_l2_log log).
Proof. unfold write_l1_l2_log. appends. Qed.
Lemma appends_log log : appends (write_log log).
Proof. unfold write_log. appends. Qed.
Lemma appends_footer t : appends (write_trace_footer t).
Proof. unfold write_trace_footer. appends. Qed.
End AppendsLines.

(** ** The reference rendering

    A call is a header, its logs, its L2-L1 logs and its calls one level
    deeper, and a footer at the level of those. *)
Definition concat_text {A} (f : A → string) (xs : list A) : string :=
  foldr (λ x s, f x +:+ s) "" xs.

Section Reference.
Context `{Terminal} `{TraceText} (c : TraceWriterConfig).

Fixpoint render_tree (level : Z) (tree : CallTree) : string :=
  let '(TreeNode t ls l2s kids) := tree in
  text_of write_branch c level +:+ text_of (write_trace_header t) c level +:+ newline
  +:+ concat_text (λ log, text_of (write_log log) c (level + 1)) ls
  +:+ concat_text (λ log, text_of (write_l1_l2_log log) c (level + 1)) l2s
  +:+ (fix kids_text (kids : list CallTree) : string :=
         match kids with
         | [] => ""
         | k :: kids => render_tree (level + 1) k +:+ kids_text kids
         end) kids
  +:+ text_of write_edge c (level + 1) +:+ text_of (write_trace_footer t) c (level + 1)
  +:+ newline.

Lemma render_tree_unfold level t ls l2s kids :
  render_tree level (TreeNode t ls l2s kids) =
  text_of write_branch c level +:+ text_of (write_trace_header t) c level +:+ newline
  +:+ concat_text (λ log, text_of (write_log log) c (level + 1)) ls
  +:+ concat_text (λ log, text_of (write_l1_l2_log log) c (level + 1)) l2s
  +:+ concat_text (render_tree (level + 1)) kids
  +:+ text_of write_edge c (level + 1) +:+ text_of (write_trace_footer t) c (level + 1)
  +:+ newline.
Proof. cbn [render_tree]. done. Qed.
End Reference.

Fixpoint tree_depth (tree : CallTree) : Z :=
  let '(TreeNode _ _ _ kids) := tree in 1 + foldr Z.max 0 (map tree_depth kids).

Lemma kid_depth t ls l2s kids k :
  k ∈ kids → 0 <= tree_depth k → tree_depth k < tree_depth (TreeNode t ls l2s kids).
Proof. cbn [tree_depth]. induction 1 as [kids|k k' kids _ IH]; simpl in *; lia. Qed.

Lemma tree_depth_pos tree : 1 <= tree_depth tree.
Proof.
  induction tree as [t ls l2s kids IH] using CallTree_ind'. cbn [tree_depth].
  induction IH; simpl in *; lia.
Qed.

(** ** The writer renders the tree *)
Section WriterProofs.
Context `{Terminal} `{TraceText}.

(** What one item of a node writes. *)
Definition write_member (write_child : nat → WriterM unit) (node : CallTraceNode)
    (item : TraceMemberOrder) : WriterM unit :=
  match item with
  | OLog index => log ← expect "index out of bounds" (logs node !! index); write_log log
  | OCall index =>
      child ← expect "Call index out of bounds" (children node !! index); write_child child
  | OL1L2Log index =>
      log ← expect "index out of bounds" (l2_l1_logs node !! index); write_l1_l2_log log
  end.

Lemma write_item_member write_child nodes i node k item w :
  nodes !! i = Some node → ordering node !! k = Some item →
  write_item write_child nodes i k w = (write_member write_child node item;; mret (S k)) w.
Proof.
  intros Hn Hk. unfold write_item. rewrite Hn. change (expect ?m (Some ?x)) with
    (mret (M := M TraceWriter Empty_set) x). step_m ltac:(reflexivity). rewrite Hk.
  change (expect ?m (Some ?x)) with (mret (M := M TraceWriter Empty_set) x).
  step_m ltac:(reflexivity).
  destruct item as [index|index|index]; cbn [write_member]; unfold mbind, M_bind, expect;
    (destruct (_ !! index); [|done]); reflexivity.
Qed.

(** The loop over the items, from the [k]-th on. *)
Lemma write_items_until_run write_child nodes i node :
  nodes !! i = Some node → ∀ rest done_ fuel w w',
  ordering node = done_ ++ rest → (length rest <= fuel)%nat →
  for_each (write_member write_child node) rest w = Ret tt w' →
  write_items_until write_child nodes fuel i (length done_)
    (λ j, (j =? length (ordering node))%nat) w = Ret (length (ordering node)) w'.
Proof.
  intros Hn. induction rest as [|item rest IH]; intros done_ fuel w w' Ho Hf Hw.
  { injection Hw as <-. rewrite app_nil_r in Ho.
    destruct fuel; cbn [write_items_until]; rewrite Ho, Nat.eqb_refl; done. }
  destruct fuel as [|fuel]; [simpl in Hf; lia|]. cbn [write_items_until].
  assert (Hk : ordering node !! length done_ = Some item).
  { rewrite Ho, lookup_app_r, Nat.sub_diag by lia. done. }
  assert (Hlt : (length done_ =? length (ordering node))%nat = false).
  { apply Nat.eqb_neq. rewrite Ho, length_app. simpl. lia. }
  rewrite Hlt. apply bind_Ret in Hw as ([] & w1 & Hw1 & Hw).
  assert (E : write_item write_child nodes i (length done_) w = Ret (S (length done_)) w1).
  { rewrite (write_item_member _ _ _ _ _ _ _ Hn Hk). by step_m ltac:(exact Hw1). }
  step_m ltac:(exact E). replace (S (length done_)) with (length (done_ ++ [item]))
    by (rewrite length_app; simpl; lia).
  apply IH; [by rewrite Ho, <-app_assoc|simpl in Hf; lia|done].
Qed.

Lemma write_items_run write_child nodes i node w w' :
  nodes !! i = Some node →
  for_each (write_member write_child node) (ordering node) w = Ret tt w' →
  write_items write_child nodes i w = Ret tt w'.
Proof.
  intros Hn Hw. unfold write_items. rewrite Hn.
  change (expect ?m (Some ?x)) with (mret (M := M TraceWriter Empty_set) x).
  step_m ltac:(reflexivity). cbv zeta.
  step_m ltac:(by apply (write_items_until_run _ _ _ node Hn (ordering node) [])). done.
Qed.

(** [xs] is what the members [mk 0], [mk 1], ... of a node stand for. *)
Lemma for_each_members {A} write_child node (mk : nat → TraceMemberOrder) (text : A → string)
    c level (xs : list A) :
  (∀ k x w, xs !! k = Some x → config w = c → indentation_level w = level →
     write_member write_child node (mk k) w = Ret tt (emit (text x) w)) →
  ∀ w, config w = c → indentation_level w = level →
  for_each (write_member write_child node) (mk <$> seq 0 (length xs)) w
  = Ret tt (emit (concat_text text xs) w).
Proof.
  intros Hstep.
  assert (Hgen : ∀ ys n w, (∀ k x, ys !! k = Some x → xs !! (n + k)%nat = Some x) →
    config w = c → indentation_level w = level →
    for_each (write_member write_child node) (mk <$> seq n (length ys)) w
    = Ret tt (emit (concat_text text ys) w)).
  { induction ys as [|y ys IH]; intros n w Hys Hc Hl; cbn [length seq fmap list_fmap for_each].
    { cbn. by rewrite emit_empty. }
    step_m ltac:(eapply Hstep; [|exact Hc|exact Hl]).
    2: { rewrite <-(Nat.add_0_r n). by apply (Hys 0%nat). }
    erewrite IH; [|intros k x Hk; rewrite Nat.add_succ_comm; by apply Hys|exact Hc|exact Hl].
    by rewrite emit_emit. }
  intros w Hc Hl. by apply Hgen.
Qed.

Lemma for_each_app {S E A} (f : A → M S E unit) xs ys s s' :
  for_each f xs s = Ret tt s' → for_each f (xs ++ ys) s = for_each f ys s'.
Proof.
  revert s; induction xs as [|x xs IH]; intros s Hs; cbn [for_each app] in *.
  { by injection Hs as <-. }
  apply bind_Ret in Hs as ([] & s1 & H1 & Hs). step_m ltac:(exact H1). by apply IH.
Qed.

(** A member that is there. *)
Lemma expect_some {A B} msg (o : option A) (a : A) (k : A → WriterM B) w :
  o = Some a → (expect msg o ≫= k) w = k a w.
Proof. by intros ->. Qed.

(** The items of a node whose children are written as [kids_text] says. *)
Lemma write_members_run write_child node c level kids (text : CallTree → string) w :
  ordering node = member_order (length (logs node)) (length (l2_l1_logs node)) (length kids) →
  (∀ k kid w, kids !! k = Some kid → config w = c → indentation_level w = level →
     ∃ o, children node !! k = Some o ∧ write_child o w = Ret tt (emit (text kid) w)) →
  config w = c → indentation_level w = level →
  for_each (write_member write_child node) (ordering node) w
  = Ret tt (emit (concat_text (λ log, text_of (write_log log) c level) (logs node)
      +:+ concat_text (λ log, text_of (write_l1_l2_log log) c level) (l2_l1_logs node)
      +:+ concat_text text kids) w).
Proof.
  intros Ho Hkids Hc Hl. rewrite Ho. unfold member_order.
  erewrite for_each_app;
    [|apply (for_each_members _ _ _ (λ log, text_of (write_log log) c level) c level); [|done..]].
  2: { intros k x w' Hx <- <-. cbn [write_member]. rewrite (expect_some _ _ _ _ _ Hx).
       apply appends_text, appends_log. }
  erewrite for_each_app;
    [|apply (for_each_members _ _ _ (λ log, text_of (write_l1_l2_log log) c level) c level); [|done..]].
  2: { intros k x w' Hx <- <-. cbn [write_member]. rewrite (expect_some _ _ _ _ _ Hx).
       apply appends_text, appends_l1_l2_log. }
  erewrite (for_each_members _ _ OCall text c level); [by rewrite !emit_emit, app_assoc_string| |done..].
  intros k x w' Hx Hc' Hl'. cbn [write_member]. destruct (Hkids k x w' Hx Hc' Hl') as (o & Hk & Hw).
  by rewrite (expect_some _ _ _ _ _ Hk).
Qed.

(** [emit] on the level below. *)
Lemma emit_indent s i w : emit s (set_indentation i w) = set_indentation i (emit s w).
Proof. done. Qed.

Lemma write_node_run a tree : ∀ fuel i p w,
  lays member_order a i p tree → (tree_size tree <= fuel)%nat →
  0 <= indentation_level w → indentation_level w + tree_depth tree < 2 ^ 16 →
  write_node fuel a i w = Ret tt (emit (render_tree (config w) (indentation_level w) tree) w).
Proof.
  induction tree as [t ls l2s kids IH] using CallTree_ind'; intros fuel i p w Hl Hf Hlev Hdep.
  destruct fuel as [|fuel]; [simpl in Hf; lia|]. cbn [write_node].
  pose proof (lays_root _ _ _ _ _ _ _ _ Hl) as Hn. apply lays_kids in Hl.
  pose proof (tree_depth_pos (TreeNode t ls l2s kids)).
  rewrite (expect_some _ _ _ _ _ Hn). cbn [trace].
  step_m ltac:(apply appends_text, appends_branch).
  step_m ltac:(apply appends_text, appends_header).
  step_m ltac:(apply appends_text, appends_write).
  step_m ltac:(reflexivity). cbn [config indentation_level emit].
  assert (Hup : as_u16 (indentation_level w + 1) = indentation_level w + 1)
    by (apply Z.mod_small; lia).
  rewrite Hup. step_m ltac:(eapply write_items_run; [exact Hn|
    apply (write_members_run _ _ (config w) (indentation_level w + 1) kids
             (render_tree (config w) (indentation_level w + 1))); [reflexivity| |done..]]).
  2: { intros k kid w' Hk Hc' Hl'. cbn [children].
       destruct (Forall2_lookup_r _ _ _ _ _ Hl Hk) as (o & Ho & Hlay). exists o. split; [done|].
       apply list_elem_of_lookup_2 in Hk. rewrite Forall_forall in IH.
       pose proof (kid_size t ls l2s kids kid Hk). pose proof (tree_depth_pos kid).
       pose proof (kid_depth t ls l2s kids kid Hk).
       rewrite <-Hc', <-Hl'. eapply IH; [done|exact Hlay|lia..]. }
  cbn [config indentation_level set_indentation logs l2_l1_logs].
  step_m ltac:(apply appends_text, appends_edge).
  step_m ltac:(apply appends_text, appends_footer).
  step_m ltac:(apply appends_text, appends_write).
  unfold modify. cbn [config indentation_level set_indentation emit].
  replace (as_u16 (indentation_level w + 1 - 1)) with (indentation_level w).
  2: { rewrite Z.add_simpl_r. symmetry. apply Z.mod_small; lia. }
  rewrite render_tree_unfold. unfold emit, set_indentation. cbn [writer config indentation_level].
  rewrite <-!app_assoc_string. done.
Qed.

Lemma write_forest_run a kids : ∀ fuel p js w,
  Forall2 (λ o k, lays member_order a o p k) js kids →
  Forall (λ k, tree_size k <= fuel)%nat kids → Forall (λ k, tree_depth k < 2 ^ 16) kids →
  indentation_level w = 0 →
  for_each (write_node fuel a) js w = Ret tt (emit (concat_text (render_tree (config w) 0) kids) w).
Proof.
  intros fuel p js w Hl. revert w.
  induction Hl as [|o k js kids Ho _ IH]; intros w Hs Hd Hlev; cbn [for_each].
  { cbn. by rewrite emit_empty. }
  apply Forall_cons in Hs as [Hs1 Hs]. apply Forall_cons in Hd as [Hd1 Hd].
  step_m ltac:(eapply write_node_run; [exact Ho|exact Hs1|lia|lia]).
  rewrite IH, Hlev by done. by rewrite emit_emit.
Qed.

Lemma render_filtered kids t ls l2s with_bytecodes :
  Forall (λ k, tree_depth k < 2 ^ 16) kids →
  render_trace_arena_inner (filtered_arena kids t ls l2s) with_bytecodes =
  Some (concat_text (render_tree (mkWriterConfig (use_colors ColorAuto) with_bytecodes) 0) kids).
Proof.
  intros Hd. unfold render_trace_arena_inner, write_arena.
  assert (Hkids : Forall2 (λ o k, lays member_order (filtered_arena kids t ls l2s) o (Some 0%nat) k)
                    (offsets 2 kids) kids)
    by (eapply (lays_forest _ _ _ kids [_; _] [] 2); [done|by rewrite app_nil_r]).
  assert (Hlen : length (filtered_arena kids t ls l2s) = S (S (forest_size kids)))
    by (cbn [filtered_arena length]; by rewrite length_flats).
  rewrite (expect_some _ _ _ _ _ (eq_refl : filtered_arena kids t ls l2s !! 0%nat = Some _)).
  cbn [children]. rewrite (write_forest_run _ kids _ (Some 0%nat)); [done|exact Hkids| |done|done].
  rewrite Hlen. apply Forall_forall. intros k Hin.
  pose proof (kid_size t ls l2s kids k Hin) as Hk. cbn [tree_size] in Hk. unfold forest_size. lia.
Qed.
End WriterProofs.

(** Pruning does not make a tree deeper. *)
Lemma prune_depth verbosity tree :
  Forall (λ k, tree_depth k <= tree_depth tree) (prune verbosity tree).
Proof.
  induction tree as [t ls l2s kids IH] using CallTree_ind'.
  assert (Hk : Forall (λ k, tree_depth k <= foldr Z.max 0 (map tree_depth kids))
                 (flat_map (prune verbosity) kids)).
  { induction IH as [|k kids Hk _ IHk]; [constructor|]. cbn [flat_map]. apply Forall_app. split.
    - eapply Forall_impl; [exact Hk|]. simpl. lia.
    - eapply Forall_impl; [exact IHk|]. simpl. lia. }
  cbn [prune]. destruct (should_include_call _ _).
  - apply Forall_singleton. cbn [tree_depth].
    enough (foldr Z.max 0 (map tree_depth (flat_map (prune verbosity) kids))
            <= Z.max 0 (foldr Z.max 0 (map tree_depth kids))).
    { assert (0 <= foldr Z.max 0 (map tree_depth kids)) by (clear; induction kids; simpl; lia). lia. }
    clear -Hk. induction Hk; simpl; lia.
  - eapply Forall_impl; [exact Hk|]. cbn [tree_depth]. lia.
Qed.

Lemma prune_forest_depth verbosity kids n :
  Forall (λ k, tree_depth k < n) kids → Forall (λ k, tree_depth k < n) (prune_forest verbosity kids).
Proof.
  unfold prune_forest. induction 1 as [|k kids Hk _ IH]; [constructor|].
  cbn [flat_map]. apply Forall_app. split; [|done].
  eapply Forall_impl; [apply prune_depth|]. simpl. lia.
Qed.
