(* ===== verification/Resolver.v ===== *)
(** * Selectors

    [crates/common/src/resolver.rs]: names of functions and events by their
    selector, from a table, a cache and a remote database; and
    [crates/traces/src/identifier/signatures.rs], the signatures that the trace
    decoder knows.

    The network is a state of its own: a request answers with a text or an
    error and leaves the network in another state.  Parsing of the answer is
    an interface. *)
From S2P Require Import Prelude Types Utils Text Pool Cache.
From Stdlib Require Import Ascii.
Local Open Scope Z_scope.

Inductive SelectorType := SelFunction | SelEvent | SelError.

(** The table [data/abi_map.json], in the order of the file. *)
Definition abi_map_json : list (string * string) := [
  ("0x00000000", "0x00000000");
  ("0x310ab089", "getImmutable(address, uint256)");
  ("0xad7e232e", "setImmutables(address, tuple[])");
  ("0xdf9c1589", "executeTransaction(bytes32, bytes32, tuple)");
  ("0xeeb8cb09", "executeTransactionFromOutside(tuple)");
  ("0xe2f318e3", "payForTransaction(bytes32, bytes32, tuple)");
  ("0xa28c1aee", "prepareForPaymaster(bytes32, bytes32, tuple)");
  ("0x202bcce7", "validateTransaction(bytes32, bytes32, tuple)");
  ("0x9c4d535b", "create(bytes32, bytes32, bytes)");
  ("0x3cda3351", "create2(bytes32, bytes32, bytes)");
  ("0x5d382700", "create2Account(bytes32, bytes32, bytes, uint8)");
  ("0xecf95b8a", "createAccount(bytes32, bytes32, bytes, uint8)");
  ("0xbb0fd610", "extendedAccountVersion(address)");
  ("0xf3385fb6", "forceDeployOnAddress(tuple, address)");
  ("0xe9f18c17", "forceDeployOnAddresses(tuple[])");
  ("0x7b510fe8", "getAccountInfo(address)");
  ("0x187598a5", "getNewAddressCreate(address, uint256)");
  ("0x84da1fb4", "getNewAddressCreate2(address, bytes32, bytes32, bytes)");
  ("0x57180981", "updateAccountVersion(uint8)");
  ("0xec8067c7", "updateNonceOrdering(uint8)");
  ("0x62f84b24", "sendToL1(bytes)");
  ("0xfb1a9a57", "getDeploymentNonce(address)");
  ("0x896909dc", "getMinNonce(address)");
  ("0x5aa9b6b5", "getRawNonce(address)");
  ("0x55d35d18", "getValueUnderNonce(uint256)");
  ("0x38a78092", "increaseMinNonce(uint256)");
  ("0x306395c6", "incrementDeploymentNonce(address)");
  ("0xe1239cd8", "incrementMinNonceIfEquals(uint256)");
  ("0xcab7e8eb", "isNonceUsed(address, uint256)");
  ("0x155fd27a", "setValueUnderNonce(uint256, uint256)");
  ("0x6ee1dc20", "validateNonceUsage(address, uint256, bool)");
  ("0x9cc7f708", "balanceOf(uint256)");
  ("0x313ce567", "decimals()");
  ("0x40c10f19", "mint(address, uint256)");
  ("0x06fdde03", "name()");
  ("0x95d89b41", "symbol()");
  ("0x18160ddd", "totalSupply()");
  ("0x579952fc", "transferFromTo(address, address, uint256)");
  ("0x51cff8d9", "withdraw(address)");
  ("0xebe4a3d7", "getTransactionHashes(tuple)");
  ("0x6ef25c3a", "baseFee()");
  ("0x7877a797", "blockGasLimit()");
  ("0x85df51fd", "blockHash(uint256)");
  ("0x9a8a0592", "chainId()");
  ("0xa6ae0aac", "coinbase()");
  ("0xa0803ef7", "currentBlockInfo()");
  ("0x19cae462", "difficulty()");
  ("0xfe173b97", "gasPrice()");
  ("0x80b41246", "getBlockHashEVM(uint256)");
  ("0x42cbb15c", "getBlockNumber()");
  ("0xd4a4ca0d", "getBlockNumberAndTimestamp()");
  ("0x796b89b9", "getBlockTimestamp()");
  ("0x938b5f32", "origin()");
  ("0xbf1fe420", "setGasPrice(uint256)");
  ("0x9e830ad3", "setNewBlock(bytes32, uint256, uint256, uint256)");
  ("0xa851ae78", "setTxOrigin(address)");
  ("0x4d59979f", "unsafeOverrideBlock(uint256, uint256, uint256)");
  ("0xe03fe177", "getCodeHash(uint256)");
  ("0x1806aa18", "getCodeSize(uint256)");
  ("0x4de2e468", "getRawCodeHash(address)");
  ("0xc2e4ff97", "markAccountCodeHashAsConstructed(address)");
  ("0x0d4651aa", "storeAccountConstructedCodeHash(address, bytes32)");
  ("0x4f1e1be0", "storeAccountConstructingCodeHash(address, bytes32)");
  ("0xf5e69a47", "publishCompressedBytecode(bytes, bytes)");
  ("0x1c9d7eb3", "log(uint256, bool)");
  ("0x2a110e83", "log(bool, bool)");
  ("0x2c2ecbc2", "log(address)");
  ("0x319af333", "log(string, address)");
  ("0x32458eed", "log(bool)");
  ("0x399174d3", "log(bool, uint256)");
  ("0x41304fac", "log(string)");
  ("0x4b5c4277", "log(string, string)");
  ("0x51973ec9", "log()");
  ("0x643fd0df", "log(uint256, string)");
  ("0x69276c86", "log(uint256, address)");
  ("0x759f86bb", "log(address, string)");
  ("0x75b605d3", "log(address, bool)");
  ("0x8309e8a8", "log(address, uint256)");
  ("0x853c4849", "log(bool, address)");
  ("0x8feac525", "log(bool, string)");
  ("0xb60e72cc", "log(string, uint256)");
  ("0xc3b55635", "log(string, bool)");
  ("0xdaf0d4aa", "log(address, address)");
  ("0xf666715a", "log(uint256, uint256)");
  ("0xf82c50f1", "log(uint256)");
  ("0x5f91b0af", "logAddress(address)");
  ("0xba7ab84e", "logBool(bool)");
  ("0xe17bf956", "logBytes(bytes)");
  ("0x6f4171c9", "logBytes1(bytes1)");
  ("0x9b5e943e", "logBytes2(bytes2)");
  ("0x7782fa2d", "logBytes3(bytes3)");
  ("0xfba3ad39", "logBytes4(bytes4)");
  ("0x6525b5f5", "logInt(int256)");
  ("0x0bb563d6", "logString(string)");
  ("0x9905b744", "logUint(uint256)");
  ("0x4c6314f0", "getMarker(bytes32)");
  ("0x24a55db9", "markBytecodeAsPublished(bytes32, bytes32, uint256)");
  ("0xe516761e", "markFactoryDeps(bool, bytes32[])")
].

Definition KNOWN_SIGNATURES : gmap string string := extend ∅ abi_map_json.

(** ** The client *)
Definition SELECTOR_DATABASE_URL : string :=
  "https://api.openchain.xyz/signature-database/v1/lookup".

Definition MAX_TIMEDOUT_REQ : Z := 4.

(** What [on_reqwest_err] asks of an error. *)
Record ReqError := mkReqError {
  re_is_timeout : bool;
  re_is_connect : bool;
  re_status : option Z;
  re_text : string;
}.

(** The answer of the database, for one kind of selector: a list of names per
    selector, or nothing.  [d_filtered] is only sent for a single selector. *)
Record Decoded := mkDecoded {
  d_name : string;
  d_filtered : bool;
}.

Record ApiResponse := mkApiResponse {
  ar_ok : bool;
  ar_event : gmap string (option (list Decoded));
  ar_function : gmap string (option (list Decoded));
}.

(** The HTTP client and the parser of its answers. *)
Class SelectorDatabase (Net : Type) := {
  http_get : string → Net → result string ReqError * Net;
  parse_api_response : string → option ApiResponse;
}.

(** The counters of the client; the cache is that of [Cache]. *)
Record SignEthClient := mkSignEthClient {
  spurious_connection : bool;
  timedout_requests : Z;
  max_timedout_requests : Z;
}.

Definition SignEthClient_new : SignEthClient := mkSignEthClient false 0 MAX_TIMEDOUT_REQ.

Definition is_connectivity_err (err : ReqError) : bool :=
  if re_is_timeout err || re_is_connect err then true
  else
    match re_status err with
    | Some code => (500 <=? code) && (code <? 600)
    | None => false
    end.

Definition on_reqwest_err (err : ReqError) (c : SignEthClient) : SignEthClient :=
  if is_connectivity_err err then
    let previous := timedout_requests c in
    let c := mkSignEthClient (spurious_connection c) (wrapping_add_u64 previous 1)
               (max_timedout_requests c) in
    if max_timedout_requests c <=? previous
    then mkSignEthClient true (timedout_requests c) (max_timedout_requests c) else c
  else c.

(** Messages of the [eyre] errors; an error of the HTTP client is passed on. *)
Inductive ResolveError :=
| RequestFailed (err : ReqError)
| SpuriousConnection
| CouldNotDecodeResponse (res : string)
| FailedToDecode (res : string)
| NoSignatureFound
| InvalidSelector (s : string) (expected_len : Z)
| InvalidFunctionSelector (len : Z).

Section Client.
Context {Net : Type} {DB : SelectorDatabase Net}.

(** The client together with the network it talks to. *)
Abbreviation ClientM := (M (SignEthClient * Net) ResolveError).

Definition get_text (url : string) : ClientM string := λ '(c, net),
  match http_get url net with
  | (Ok res, net) => Ret res (c, net)
  | (Err err, net) => Throw (RequestFailed err) (on_reqwest_err err c, net)
  end.

Definition ensure_not_spurious : ClientM unit :=
  spurious ← gets (λ s, spurious_connection s.1);
  if (spurious : bool) then throw SpuriousConnection else mret tt.

Definition fetch_response (url : string) : ClientM ApiResponse :=
  res ← get_text url;
  api_response ← try_option (CouldNotDecodeResponse res) (parse_api_response res);
  if negb (ar_ok api_response) then throw (FailedToDecode res) else mret api_response.

Definition response_for (selector_type : SelectorType) (r : ApiResponse) :
    gmap string (option (list Decoded)) :=
  match selector_type with
  | SelFunction | SelError => ar_function r
  | SelEvent => ar_event r
  end.

Definition decode_selector (selector : string) (selector_type : SelectorType) :
    ClientM (option string) :=
  ensure_not_spurious;;
  let url :=
    match selector_type with
    | SelFunction | SelError =>
        SELECTOR_DATABASE_URL +:+ "?function=" +:+ selector +:+ "&filter=true"
    | SelEvent => SELECTOR_DATABASE_URL +:+ "?event=" +:+ selector +:+ "&filter=true"
    end in
  api_response ← fetch_response url;
  let decoded := response_for selector_type api_response in
  let default_decoded := [mkDecoded selector false] in
  found ← try_option NoSignatureFound (decoded !! selector);
  let names := d_name <$> filter (λ d, d_filtered d = false)
                 (match found with Some names => names | None => default_decoded end) in
  mret (head names).

(** [s.starts_with("0x")] *)
Definition prefixed (s : string) : string :=
  if String.prefix "0x" s then s else "0x" +:+ s.

Definition expected_len (selector_type : SelectorType) : Z :=
  match selector_type with SelFunction | SelError => 10 | SelEvent => 66 end.

Definition wrong_length (selector_type : SelectorType) (s : string) : bool :=
  negb (Z.of_nat (String.length s) =? expected_len selector_type).

Definition names_in (decoded : gmap string (option (list Decoded))) (selector : string) :
    option (list string) :=
  match decoded !! selector with
  | Some (Some r) => Some (map d_name r)
  | _ => None
  end.

Definition decode_selectors (selector_type : SelectorType) (selectors : list string) :
    ClientM (list (option (list string))) :=
  let selectors := map (λ s, prefixed (lower s)) selectors in
  match selectors with
  | [] => mret []
  | _ =>
      ensure_not_spurious;;
      match find (wrong_length selector_type) selectors with
      | Some s => throw (InvalidSelector s (expected_len selector_type))
      | None =>
          let ltype := match selector_type with SelFunction | SelError => "function" | SelEvent => "event" end in
          api_response ← fetch_response
            (SELECTOR_DATABASE_URL +:+ "?" +:+ ltype +:+ "=" +:+ write_interspersed "," selectors);
          let decoded := response_for selector_type api_response in
          mret (map (names_in decoded) selectors)
      end
  end.

(** [selector.strip_prefix("0x").unwrap_or(selector)] *)
Definition strip_0x (s : string) : string :=
  match s with
  | String a (String b rest) =>
      if Ascii.eqb a "0" && Ascii.eqb b "x" then rest else s
  | _ => s
  end.

Definition client_decode_function_selector (selector : string) : ClientM (option string) :=
  let prefixed_selector := "0x" +:+ strip_0x selector in
  if negb (Z.of_nat (String.length prefixed_selector) =? 10)
  then throw (InvalidFunctionSelector (Z.of_nat (String.length prefixed_selector)))
  else
    match KNOWN_SIGNATURES !! prefixed_selector with
    | Some r => mret (Some r)
    | None => decode_selector (str_take 10 prefixed_selector) SelFunction
    end.
End Client.

(** ** Lookups with the cache on disk

    The free functions make a client of their own, whose cache is read from
    the default directory and written to it. *)
Section Lookup.
Context {Net : Type} {DB : SelectorDatabase Net}.

Abbreviation LookupM := (M (DiskState * Net) ResolveError).

Definition lookup_with (selector : string)
    (request : M (SignEthClient * Net) ResolveError (option string)) : LookupM (option string) :=
  λ '(d, net),
  let '(cache, d) := Cache_new default_CacheConfig d in
  match get_resolver_selector cache selector with
  | Some resolved_selector => Ret (Some resolved_selector) (d, net)
  | None =>
      match request (SignEthClient_new, net) with
      | Ret result_ (_, net) =>
          let '(_, d) := insert_resolver_selector selector
                           (match result_ with Some name => name | None => "" end) (cache, d) in
          Ret result_ (d, net)
      | Throw e (_, net) => Throw e (d, net)
      | Panic msg => Panic msg
      | Deadlock => Deadlock
      end
  end.

Definition decode_function_selector (selector : string) : LookupM (option string) :=
  lookup_with selector (client_decode_function_selector selector).

Definition decode_event_selector (selector : string) : LookupM (option string) :=
  lookup_with selector (decode_selector selector SelEvent).
End Lookup.

(** ** Known signatures ([signatures.rs]) *)
Record CachedSignatures := mkCachedSignatures {
  cs_errors : gmap string string;
  cs_events : gmap string string;
  cs_functions : gmap string string;
}.

Definition default_signatures : CachedSignatures := mkCachedSignatures ∅ ∅ ∅.

Record SignaturesIdentifier := mkIdentifier {
  si_cached : CachedSignatures;
  si_cached_path : option string;
  si_unavailable : gmap string string;
  si_client : option SignEthClient;
}.

(** Files by path, the JSON of the cached signatures, and whether a path can be
    written to. *)
Abbreviation Files := (gmap string string).

Class SignaturesFile := {
  signatures_to_json : CachedSignatures → string;
  signatures_of_json : string → option CachedSignatures;
  can_write : string → bool;
}.

Section Identifier.
Context {Net : Type} {DB : SelectorDatabase Net}.

Definition signatures_load `{SignaturesFile} (cache_path : string) (files : Files) : CachedSignatures :=
  let path := cache_path +:+ "/signatures" in
  match files !! path with
  | Some contents =>
      match signatures_of_json contents with Some s => s | None => default_signatures end
  | None => default_signatures
  end.

Definition SignaturesIdentifier_new `{SignaturesFile} (cache_path : option string) (offline : bool)
    (files : Files) : SignaturesIdentifier :=
  let client := if negb offline then Some SignEthClient_new else None in
  match cache_path with
  | Some cache_path =>
      mkIdentifier (signatures_load cache_path files) (Some (cache_path +:+ "/signatures")) ∅ client
  | None => mkIdentifier default_signatures None ∅ client
  end.

(** [save], also run when the identifier is dropped; a failure is logged. *)
Definition signatures_save `{SignaturesFile} (self : SignaturesIdentifier) (files : Files) : Files :=
  match si_cached_path self with
  | Some cached_path =>
      if can_write cached_path then <[cached_path := signatures_to_json (si_cached self)]> files
      else files
  | None => files
  end.

Definition cache_of (t : SelectorType) (c : CachedSignatures) : gmap string string :=
  match t with
  | SelFunction => cs_functions c
  | SelEvent => cs_events c
  | SelError => cs_errors c
  end.

Definition set_cache (t : SelectorType) (m : gmap string string) (c : CachedSignatures) :
    CachedSignatures :=
  match t with
  | SelFunction => mkCachedSignatures (cs_errors c) (cs_events c) m
  | SelEvent => mkCachedSignatures (cs_errors c) m (cs_functions c)
  | SelError => mkCachedSignatures m (cs_events c) (cs_functions c)
  end.

(** The body of the loop over the answers. *)
Definition record_answer (acc : gmap string string * gmap string string)
    (answer : string * option (list string)) : gmap string string * gmap string string :=
  let '(cache, unavailable) := acc in
  let '(hex_id, selector_result) := answer in
  match selector_result with
  | Some (decoded_result :: _) => (<[hex_id := decoded_result]> cache, unavailable)
  | _ => (cache, <[hex_id := hex_id]> unavailable)
  end.

Definition hex_id (identifier : Bytes) : string := "0x" +:+ hex_encode identifier.

Definition query_of (t : SelectorType) (self : SignaturesIdentifier) (ids : list string) :
    list string :=
  filter (λ v, si_unavailable self !! v = None)
    (filter (λ v, cache_of t (si_cached self) !! v = None) ids).

Definition identify {T} (t : SelectorType) (get_type : string → option T)
    (identifiers : list Bytes) :
    M (SignaturesIdentifier * Net) Empty_set (list (option T)) := λ '(self, net),
  let cache := cache_of t (si_cached self) in
  let hex_identifiers := map hex_id identifiers in
  let answer (cache : gmap string string) :=
    map (λ v, cache !! v ≫= get_type) hex_identifiers in
  match si_client self with
  | None => Ret (answer cache) (self, net)
  | Some client =>
      let query := query_of t self hex_identifiers in
      match decode_selectors t query (client, net) with
      | Ret res (client, net) =>
          let '(cache, unavailable) :=
            foldl record_answer (cache, si_unavailable self) (zip query res) in
          Ret (answer cache)
            (mkIdentifier (set_cache t cache (si_cached self)) (si_cached_path self) unavailable
               (Some client), net)
      | Throw _ (client, net) =>
          Ret (answer cache)
            (mkIdentifier (si_cached self) (si_cached_path self) (si_unavailable self)
               (Some client), net)
      | Panic msg => Panic msg
      | Deadlock => Deadlock
      end
  end.

(** [.pop().unwrap()] of the answers for one identifier. *)
Definition identify_one {T} (t : SelectorType) (get_type : string → option T) (identifier : Bytes) :
    M (SignaturesIdentifier * Net) Empty_set (option T) :=
  res ← identify t get_type [identifier];
  expect "called `Option::unwrap()` on a `None` value" (last res).
End Identifier.

(** ** Requests of a client *)
Section ClientProofs.
Context {Net : Type} {DB : SelectorDatabase Net}.

(** Operations of the client return or fail, they do not panic. *)
Definition settles {S E A} (m : M S E A) : Prop :=
  ∀ s, (∃ a s', m s = Ret a s') ∨ (∃ e s', m s = Throw e s').

Lemma settles_bind {S E A B} (m : M S E A) (k : A → M S E B) :
  settles m → (∀ a, settles (k a)) → settles (m ≫= k).
Proof.
  intros Hm Hk s. unfold mbind, M_bind.
  destruct (Hm s) as [(a & s' & ->)|(e & s' & ->)]; [apply Hk|right; eauto].
Qed.
Lemma settles_ret {S E A} (a : A) : settles (mret (M := M S E) a).
Proof. left; eauto. Qed.
Lemma settles_throw {S E A} (e : E) : settles (throw (S := S) (A := A) e).
Proof. right; eauto. Qed.

Lemma settles_fetch url : settles (fetch_response url).
Proof.
  unfold fetch_response. apply settles_bind.
  { intros [c net]. unfold get_text. destruct (http_get url net) as [[] ?]; eauto 6. }
  intros res. apply settles_bind; [destruct (parse_api_response res); eauto using settles_ret, settles_throw|].
  intros r. destruct (negb _); eauto using settles_ret, settles_throw.
Qed.

Lemma settles_not_spurious : settles (ensure_not_spurious (Net := Net)).
Proof.
  unfold ensure_not_spurious. apply settles_bind; [left; by eexists _, _|].
  intros []; eauto using settles_ret, settles_throw.
Qed.

Lemma settles_decode_selectors t selectors : settles (decode_selectors t selectors).
Proof.
  unfold decode_selectors. destruct (map _ selectors) as [|s ss]; [apply settles_ret|].
  apply settles_bind; [apply settles_not_spurious|intros _].
  destruct (find _ _); [apply settles_throw|].
  apply settles_bind; [apply settles_fetch|intros r; apply settles_ret].
Qed.

(** An answer has one entry per selector. *)
Lemma decode_selectors_length t selectors s res s' :
  decode_selectors t selectors s = Ret res s' → length res = length selectors.
Proof.
  unfold decode_selectors. destruct selectors as [|x xs]; cbn [map].
  { by injection 1 as <- _. }
  intros H. apply bind_Ret in H as ([] & s1 & _ & H). destruct (find _ _); [done|].
  apply bind_Ret in H as (r & s2 & _ & H). injection H as <- _. cbn [length map]. by rewrite !length_map.
Qed.

(** A client that found the connection spurious makes no more requests. *)
Lemma spurious_client_silent t selector selectors c net :
  spurious_connection c = true →
  decode_selector selector t (c, net) = Throw SpuriousConnection (c, net) ∧
  (selectors ≠ [] → decode_selectors t selectors (c, net) = Throw SpuriousConnection (c, net)).
Proof.
  intros Hs. assert (He : ensure_not_spurious (c, net) = Throw SpuriousConnection (c, net)).
  { unfold ensure_not_spurious. step_m ltac:(reflexivity). cbn. by rewrite Hs. }
  split.
  - unfold decode_selector, mbind, M_bind. by rewrite He.
  - intros Hne. unfold decode_selectors. destruct selectors; [done|]. cbn [map].
    unfold mbind, M_bind. by rewrite He.
Qed.

(** The connection is spurious after the fifth connectivity error, not
    before. *)
Definition client_after (n : nat) (err : ReqError) : SignEthClient :=
  Nat.iter n (on_reqwest_err err) SignEthClient_new.

Lemma client_after_spec err n :
  is_connectivity_err err = true → Z.of_nat n <= u64_max →
  client_after n err = mkSignEthClient (4 <? Z.of_nat n) (Z.of_nat n) MAX_TIMEDOUT_REQ.
Proof.
  intros He. unfold client_after. induction n as [|n IH]; intros Hn; [done|].
  rewrite Nat2Z.inj_succ in *.
  change (Nat.iter (S n) ?f ?x) with (f (Nat.iter n f x)). rewrite IH by lia.
  unfold on_reqwest_err. rewrite He. cbn [timedout_requests max_timedout_requests spurious_connection].
  rewrite wrapping_add_u64_small by lia. unfold MAX_TIMEDOUT_REQ.
  destruct (Z.leb_spec 4 (Z.of_nat n)), (Z.ltb_spec 4 (Z.succ (Z.of_nat n))),
    (Z.ltb_spec 4 (Z.of_nat n)); f_equal; lia.
Qed.
End ClientProofs.

(** ** Identified signatures *)
Section IdentifyProofs.
Context (t : SelectorType).

Lemma cache_of_set m c : cache_of t (set_cache t m c) = m.
Proof. by destruct t. Qed.

(** Recording answers changes the cache at the selectors asked for only,
    removes nothing, and leaves no selector that was asked for unknown. *)
Lemma record_answers l : ∀ acc,
  let acc' := foldl record_answer acc l in
  (∀ k, k ∉ l.*1 → acc'.1 !! k = acc.1 !! k) ∧
  (∀ k, is_Some (acc.1 !! k) → is_Some (acc'.1 !! k)) ∧
  (∀ k, is_Some (acc.2 !! k) → is_Some (acc'.2 !! k)) ∧
  (∀ k, k ∈ l.*1 → is_Some (acc'.1 !! k) ∨ is_Some (acc'.2 !! k)).
Proof.
  induction l as [|[id r] l IH]; intros [cache un]; [by split_and!; [..|intros k ?%elem_of_nil]|].
  cbn [foldl]. destruct (IH (record_answer (cache, un) (id, r))) as (H1 & H2 & H3 & H4). cbv zeta.
  assert (Hc : ∀ k, is_Some (cache !! k) → is_Some ((record_answer (cache, un) (id, r)).1 !! k)).
  { intros k. destruct r as [[|name names]|]; cbn; [done| |done].
    rewrite lookup_insert_is_Some'. auto. }
  assert (Hu : ∀ k, is_Some (un !! k) → is_Some ((record_answer (cache, un) (id, r)).2 !! k)).
  { intros k. destruct r as [[|name names]|]; cbn; rewrite ?lookup_insert_is_Some'; auto. }
  split_and!; csimpl.
  - intros k Hk. apply not_elem_of_cons in Hk as [Hne Hk]. rewrite H1 by done.
    destruct r as [[|name names]|]; cbn; [done| |done]. by rewrite lookup_insert_ne.
  - intros k Hk. by apply H2, Hc.
  - intros k Hk. by apply H3, Hu.
  - intros k [->|Hk]%elem_of_cons; [|by apply H4].
    destruct r as [[|name names]|]; cbn in *;
      [right; apply H3|left; apply H2|right; apply H3]; by rewrite lookup_insert_eq.
Qed.

Lemma query_of_spec self ids q :
  q ∈ query_of t self ids ↔
  q ∈ ids ∧ cache_of t (si_cached self) !! q = None ∧ si_unavailable self !! q = None.
Proof. unfold query_of. rewrite !list_elem_of_filter. tauto. Qed.

Lemma query_of_nil self ids :
  (∀ v, v ∈ ids → is_Some (cache_of t (si_cached self) !! v) ∨ is_Some (si_unavailable self !! v)) →
  query_of t self ids = [].
Proof.
  intros H. destruct (query_of t self ids) as [|q qs] eqn:E; [done|].
  assert (Hq : q ∈ query_of t self ids) by (rewrite E; left).
  apply query_of_spec in Hq as (Hin & Hc & Hu).
  destruct (H q Hin) as [[? Hs]|[? Hs]]; congruence.
Qed.

Context {Net : Type} {DB : SelectorDatabase Net} {T : Type} (get_type : string → option T).

(** What identifying leaves behind. *)
Lemma identify_state identifiers self net :
  ∃ out self' net',
    identify t get_type identifiers (self, net) = Ret out (self', net') ∧
    out = map (λ v, cache_of t (si_cached self') !! hex_id v ≫= get_type) identifiers ∧
    (∀ k v, cache_of t (si_cached self) !! k = Some v → cache_of t (si_cached self') !! k = Some v) ∧
    (∀ t', t' ≠ t → cache_of t' (si_cached self') = cache_of t' (si_cached self)) ∧
    (∀ client res s, si_client self = Some client →
       decode_selectors t (query_of t self (map hex_id identifiers)) (client, net) = Ret res s →
       ∀ v, v ∈ identifiers →
       is_Some (cache_of t (si_cached self') !! hex_id v) ∨ is_Some (si_unavailable self' !! hex_id v)).
Proof.
  unfold identify. destruct (si_client self) as [client|] eqn:Hc.
  2: { eexists _, _, _. split_and!; [reflexivity|by rewrite map_map|done|done|done]. }
  set (query := query_of t self (map hex_id identifiers)).
  destruct (settles_decode_selectors t query (client, net)) as [(res & [c' net'] & E)|(e & [c' net'] & E)];
    rewrite E.
  2: { eexists _, _, _. split_and!; [reflexivity|by rewrite map_map|done|done|].
       intros ? ? ? [= <-] E'. congruence. }
  pose proof (decode_selectors_length _ _ _ _ _ E) as Hlen.
  pose proof (record_answers (zip query res) (cache_of t (si_cached self), si_unavailable self)) as Hr.
  destruct (foldl _ _ _) as [cache un]. destruct Hr as (H1 & _ & H3 & H4). cbn [fst snd] in *.
  rewrite fst_zip in H1, H4 by lia.
  eexists _, (mkIdentifier (set_cache t cache (si_cached self)) (si_cached_path self) un (Some c')), net'.
  cbn [si_cached si_unavailable]. rewrite cache_of_set. split_and!.
  - reflexivity.
  - by rewrite map_map.
  - intros k v Hk. rewrite H1; [done|]. unfold query. rewrite query_of_spec. intros (_ & Hn & _). congruence.
  - intros t' Ht'. by destruct t, t'.
  - intros ? ? ? _ _ v Hv. destruct (decide (hex_id v ∈ query)) as [Hq|Hq]; [by apply H4|].
    assert (Hin : hex_id v ∈ map hex_id identifiers) by (by apply list_elem_of_fmap_2).
    unfold query in Hq. rewrite query_of_spec in Hq.
    destruct (cache_of t (si_cached self) !! hex_id v) as [x|] eqn:Ec.
    { left. rewrite H1; [by rewrite Ec|]. unfold query. rewrite query_of_spec. intros (_ & Hn & _). congruence. }
    destruct (si_unavailable self !! hex_id v) as [x|] eqn:Eu; [right; by apply H3; rewrite Eu|].
    tauto.
Qed.
End IdentifyProofs.

(** Identifying selectors: the answers are what the cache of that kind holds
    afterwards, in the order of the selectors; what was known stays known and
    the other kinds are not touched; and once the database has answered, asking
    for the same selectors again gives the same answers without a request. *)
Theorem identify_spec {Net} {DB : SelectorDatabase Net} {T} (t : SelectorType)
    (get_type : string → option T) identifiers self net :
  ∃ out self' net',
    identify t get_type identifiers (self, net) = Ret out (self', net') ∧
    out = map (λ v, cache_of t (si_cached self') !! hex_id v ≫= get_type) identifiers ∧
    cache_of t (si_cached self) ⊆ cache_of t (si_cached self') ∧
    (∀ t', t' ≠ t → cache_of t' (si_cached self') = cache_of t' (si_cached self)) ∧
    (∀ client res s, si_client self = Some client →
       decode_selectors t (query_of t self (map hex_id identifiers)) (client, net) = Ret res s →
       ∀ net2, identify t get_type identifiers (self', net2) = Ret out (self', net2)).
Proof.
  destruct (identify_state t get_type identifiers self net)
    as (out & self' & net' & E & Ho & Hk & Ht & Hq).
  exists out, self', net'. split_and!; [done|done| |done|].
  { apply map_subseteq_spec. exact Hk. }
  intros client res s Hc Hres net2. unfold identify.
  rewrite query_of_nil.
  2: { intros v (x & -> & Hx)%list_elem_of_fmap. by eapply Hq. }
  destruct self' as [cached path un client']. cbn [si_client si_cached si_unavailable si_cached_path] in *.
  destruct client' as [client'|]; cbn.
  - rewrite map_map, Ho. do 3 f_equal. by destruct t, cached.
  - by rewrite map_map, Ho.
Qed.

(** ** Lookups and the cache on disk *)
Section LookupProofs.
Context {Net : Type} {DB : SelectorDatabase Net}.

(** A fresh client finds what the directory holds. *)
Lemma fresh_cache_reads d :
  ∃ cache, Cache_new default_CacheConfig d = (cache, d) ∧
    (∀ selector, get_resolver_selector cache selector = disk_resolver_selectors d !! selector) ∧
    (∀ selector name, insert_resolver_selector selector name (cache, d) =
       ((insert_resolver_selector selector name (cache, d)).1,
        mkDisk (disk_blocks_full d) (disk_blocks_min d) (disk_block_raw_transactions d)
          (disk_transactions d) (<[selector := name]> (disk_resolver_selectors d))
          (disk_bridge_addresses d))).
Proof.
  eexists. split; [reflexivity|]. split; [|done]. intros selector. unfold get_resolver_selector. cbn.
  by rewrite extend_map_to_list, map_union_empty.
Qed.

Lemma lookup_with_again selector request d (net : Net) r d' net' :
  lookup_with selector request (d, net) = Ret r (d', net') →
  ∀ net2, lookup_with selector request (d', net2) =
    Ret (Some (match r with Some name => name | None => "" end)) (d', net2).
Proof.
  unfold lookup_with. destruct (fresh_cache_reads d) as (cache & -> & Hget & Hins).
  rewrite Hget. intros H net2. destruct (fresh_cache_reads d') as (cache' & -> & Hget' & _).
  rewrite Hget'. destruct (disk_resolver_selectors d !! selector) as [name|] eqn:E.
  { injection H as <- <- _. by rewrite E. }
  destruct (request _) as [r' [c2 net3]|? [? ?]| |]; [|done..].
  rewrite Hins in H. injection H as <- <- _. cbn. by rewrite lookup_insert_eq.
Qed.
End LookupProofs.

(** A selector is looked up once: after a lookup that gave an answer, every
    later one answers from the cache on disk without a request, with the same
    name. A selector that the database does not know, however, is reported as
    unknown the first time only: later lookups report the empty name. *)
Theorem selector_cached {Net} {DB : SelectorDatabase Net} selector d net r d' net' :
  decode_function_selector selector (d, net) = Ret r (d', net') →
  ∀ net2, decode_function_selector selector (d', net2) =
    Ret (Some (match r with Some name => name | None => "" end)) (d', net2).
Proof. apply lookup_with_again. Qed.

(** ** The signature file *)

(** A saved cache is loaded again, when the JSON of it reads back and the file
    can be written. *)
Lemma save_load {SF : SignaturesFile} cache_path offline self files :
  (∀ c, signatures_of_json (signatures_to_json c) = Some c) →
  can_write (cache_path +:+ "/signatures") = true →
  si_cached_path self = Some (cache_path +:+ "/signatures") →
  si_cached (SignaturesIdentifier_new (Some cache_path) offline (signatures_save self files))
    = si_cached self.
Proof.
  intros Hjson Hw Hp. unfold SignaturesIdentifier_new, signatures_load, signatures_save.
  rewrite Hp, Hw. cbn. by rewrite lookup_insert_eq, Hjson.
Qed.

(** ** A database that computes

    It counts the requests, knows one function, and fails to connect on the
    seventh request. *)
Module SampleDatabase.
#[export] Instance database : SelectorDatabase nat := {|
  http_get url net :=
    if (net =? 6)%nat then (Err (mkReqError false true None "connect"), S net) else (Ok url, S net);
  parse_api_response url :=
    Some (mkApiResponse true ∅ {["0x70a08231" := Some [mkDecoded "balanceOf(address)" false];
                                 "0x12345678" := Some []]});
|}.

Definition balance_of : Bytes := [112; 160; 130; 49].
Definition unknown : Bytes := [18; 52; 86; 120].
End SampleDatabase.

(** The unknown selector, looked up twice with one request. *)
Definition disk_with (selector name : string) : DiskState :=
  mkDisk ∅ ∅ ∅ ∅ {[selector := name]} None.

Lemma selector_cached_witness :
  decode_function_selector (DB := SampleDatabase.database) "12345678" (empty_disk, 0%nat)
    = Ret None (disk_with "12345678" "", 1%nat) ∧
  decode_function_selector (DB := SampleDatabase.database) "12345678"
    (disk_with "12345678" "", 1%nat) = Ret (Some "") (disk_with "12345678" "", 1%nat).
Proof.
  assert (H : decode_function_selector (DB := SampleDatabase.database) "12345678" (empty_disk, 0%nat)
    = Ret None (disk_with "12345678" "", 1%nat)) by (vm_compute; reflexivity).
  split; [exact H|]. exact (selector_cached _ _ _ _ _ _ H 1%nat).
Defined.

(** Two selectors are asked for with one request; the second time there is
    none. *)
Lemma identify_spec_witness :
  let self := mkIdentifier default_signatures None ∅ (Some SignEthClient_new) in
  let ids := [SampleDatabase.balance_of; SampleDatabase.unknown] in
  ∃ self', identify (DB := SampleDatabase.database) SelFunction Some ids (self, 0%nat)
      = Ret [Some "balanceOf(address)"; None] (self', 1%nat) ∧
    identify (DB := SampleDatabase.database) SelFunction Some ids (self', 1%nat)
      = Ret [Some "balanceOf(address)"; None] (self', 1%nat).
Proof.
  intros self ids.
  destruct (identify_spec (DB := SampleDatabase.database) SelFunction Some ids self 0%nat)
    as (out & self' & net' & E & Ho & _ & _ & H).
  assert (Hout : ∃ s, identify (DB := SampleDatabase.database) SelFunction Some ids (self, 0%nat)
    = Ret [Some "balanceOf(address)"; None] (s, 1%nat)) by (eexists; vm_compute; reflexivity).
  destruct Hout as [s Hs]. rewrite Hs in E. injection E as <- <- <-. exists s. split; [exact Hs|].
  assert (Hr : match decode_selectors (DB := SampleDatabase.database) SelFunction
                       (query_of SelFunction self (map hex_id ids)) (SignEthClient_new, 0%nat)
               with Ret _ _ => true | _ => false end = true) by (vm_compute; reflexivity).
  destruct (decode_selectors _ _ _) as [res st| | |] eqn:D; [|discriminate Hr..].
  exact (H SignEthClient_new res st eq_refl D 1%nat).
Defined.
