(* ===== verification/TraceDecode.v ===== *)
(** * Decoding of call traces

    [crates/traces/src/decode/mod.rs], [decode/revert_decoder.rs] and
    [abi_utils.rs]: names and values for the calls and events of an arena.  The
    ABI coder ([alloy]) is an interface; the signatures come from the decoder's
    tables or from the identifier of [Resolver]. *)
From S2P Require Import Prelude Types Utils Text AddressMap TraceTypes Traces TraceWriter.
From S2P Require Import Cache Resolver.
From Stdlib Require Import Ascii.
Local Open Scope Z_scope.

(** ** Values of the ABI coder *)
Inductive DynSolValue :=
| SolBool (b : bool)
| SolInt (i : Z) (size : Z)
| SolUint (u : Z) (size : Z)
| SolFixedBytes (word : Bytes) (size : nat)
| SolAddress (a : Address)
| SolFunction (f : Bytes)
| SolBytes (bs : Bytes)
| SolString (s : string)
| SolArray (vs : list DynSolValue)
| SolFixedArray (vs : list DynSolValue)
| SolTuple (vs : list DynSolValue)
| SolCustomStruct (name : string) (prop_names : list string) (tuple : list DynSolValue).

Record Param := mkParam {
  p_name : string;
  p_ty : string;
  p_indexed : bool;
}.

Record Event := mkEvent {
  e_name : string;
  e_inputs : list Param;
  e_anonymous : bool;
}.

(** [ContractError::<Infallible>]: [Error(string)] or [Panic(uint256)]. *)
Inductive ContractError :=
| CeRevert (reason : string)
| CePanic (text : string).

Class AbiApi := {
  Function : Type;
  fn_signature : Function → string;
  fn_abi_decode_input : Function → Bytes → option (list DynSolValue);
  fn_abi_decode_output : Function → Bytes → option (list DynSolValue);
  AbiError : Type;
  err_name : AbiError → string;
  err_selector : AbiError → Bytes;
  err_abi_decode_input : AbiError → Bytes → option (list DynSolValue);
  (** [event.decode_log(&log, false)]: indexed values and values of the body. *)
  event_decode_log : Event → list H256 → Bytes → option (list DynSolValue * list DynSolValue);
  contract_error_abi_decode : Bytes → option ContractError;
  string_abi_decode : Bytes → option string;
  parse_function : string → option Function;
  parse_event : string → option Event;
}.

(** ** Values *)
Fixpoint decode_value (v : DynSolValue) : DecodedValue :=
  match v with
  | SolBool b => DvBool b
  | SolInt i _ =>
      if i <? 0 then DvInt (mkSignedU256 Negative (Z.abs i)) else DvInt (signed_of_u256 i)
  | SolUint u _ => DvUint u
  | SolFixedBytes word size => DvFixedBytes word size
  | SolAddress addr => DvAddress (mkLabeledAddress None addr)
  | SolFunction f => DvFunction f
  | SolBytes bs => DvBytes bs
  | SolString s => DvString s
  | SolArray vs => DvArray (map decode_value vs)
  | SolFixedArray vs => DvFixedArray (map decode_value vs)
  | SolTuple vs => DvTuple (map decode_value vs)
  | SolCustomStruct name prop_names tuple =>
      DvCustomStruct name prop_names (map decode_value tuple)
  end.

Fixpoint label_value (labeler : Address → option string) (v : DecodedValue) : DecodedValue :=
  match v with
  | DvAddress (mkLabeledAddress None address) =>
      DvAddress (mkLabeledAddress (labeler address) address)
  | DvArray vs => DvArray (map (label_value labeler) vs)
  | DvFixedArray vs => DvFixedArray (map (label_value labeler) vs)
  | DvTuple vs => DvTuple (map (label_value labeler) vs)
  | DvCustomStruct name prop_names tuple =>
      DvCustomStruct name prop_names (map (label_value labeler) tuple)
  | other => other
  end.

(** ** Events *)
Fixpoint reconstruct_params_from (inputs : list Param) (indexed body : list DynSolValue) :
    list DynSolValue :=
  match inputs with
  | [] => []
  | input :: inputs =>
      match p_indexed input, indexed, body with
      | true, v :: indexed, _ => v :: reconstruct_params_from inputs indexed body
      | _, _, v :: body => v :: reconstruct_params_from inputs indexed body
      | _, _, [] => reconstruct_params_from inputs indexed body
      end
  end.

Definition reconstruct_params (event : Event) (decoded : list DynSolValue * list DynSolValue) :
    list DynSolValue :=
  reconstruct_params_from (e_inputs event) decoded.1 decoded.2.

(** The body of the loop over the parameters. *)
Definition index_param (num_inputs num_address_params indexed_params index : nat) (param : Param) :
    Param :=
  let name :=
    if String.eqb (p_name param) "" then "param" +:+ dec (Z.of_nat index) else p_name param in
  let indexed :=
    if (num_inputs =? indexed_params)%nat
       || ((num_address_params =? indexed_params)%nat && String.eqb (p_ty param) "address")
    then true else p_indexed param in
  mkParam name (p_ty param) indexed.

(** [get_indexed_event] of [abi_utils.rs] and [get_indexed_event_from_vm_event]
    are the same function of the number of topics. *)
Definition get_indexed_event (event : Event) (topics : list H256) : Event :=
  if negb (e_anonymous event) && (1 <? length topics)%nat then
    let indexed_params := (length topics - 1)%nat in
    let num_inputs := length (e_inputs event) in
    let num_address_params := length (filter (λ p, p_ty p = "address") (e_inputs event)) in
    mkEvent (e_name event)
      (imap (index_param num_inputs num_address_params indexed_params) (e_inputs event))
      (e_anonymous event)
  else event.

Definition get_indexed_event_from_vm_event (event : Event) (vm_event : VmEvent) : Event :=
  get_indexed_event event (ev_indexed_topics vm_event).

(** ** Reverts *)
Section Decoding.
Context `{AbiApi}.

(** The errors by selector. *)
Abbreviation RevertDecoder := (gmap (list Z) (list AbiError)).

Definition push_error (error : AbiError) (self : RevertDecoder) : RevertDecoder :=
  <[err_selector error := (match self !! err_selector error with Some es => es | None => [] end)
                            ++ [error]]> self.

Definition extend_from_abi (errors : list AbiError) (self : RevertDecoder) : RevertDecoder :=
  foldl (λ self e, push_error e self) self errors.

Definition extend_from_abis (abis : list (list AbiError)) (self : RevertDecoder) : RevertDecoder :=
  foldl (λ self abi, extend_from_abi abi self) self abis.

Definition SELECTOR_LEN : nat := 4.

Definition is_ascii (bs : Bytes) : bool := forallb (λ b, b <? 128) bs.

(** The first error that decodes the data. *)
Fixpoint first_error (errors : list AbiError) (data : Bytes) : option DecodedError :=
  match errors with
  | [] => None
  | error :: errors =>
      match err_abi_decode_input error data with
      | Some decoded => Some (DeCustomError (err_name error) (map decode_value decoded))
      | None => first_error errors data
      end
  end.

Definition maybe_decode (self : RevertDecoder) (err : Bytes) : option DecodedError :=
  if (length err <? SELECTOR_LEN)%nat then
    match err with [] => None | _ => Some (DeRaw err) end
  else
    let selector := take SELECTOR_LEN err in
    let data := drop SELECTOR_LEN err in
    match contract_error_abi_decode err with
    | Some (CeRevert reason) => Some (DeRevert reason)
    | Some (CePanic text) => Some (DePanic text)
    | None =>
        match first_error (match self !! selector with Some es => es | None => [] end) data with
        | Some e => Some e
        | None =>
            match string_abi_decode err with
            | Some s => Some (DeRevert s)
            | None =>
                if is_ascii err then Some (DeRevert (text_of_bytes err))
                else Some (DeGenericCustomError selector data)
            end
        end
    end.

Definition decode (self : RevertDecoder) (err : Bytes) : DecodedError :=
  match maybe_decode self err with
  | Some e => e
  | None => match err with [] => DeEmpty | _ => DeRaw err end
  end.

(** ** The decoder *)
Record CallTraceDecoder := mkDecoder {
  td_labels : gmap Address string;
  td_receive_contracts : list Address;
  td_fallback_contracts : gmap Address (list string);
  td_events : gmap (H256 * nat) (list Event);
  td_revert_decoder : RevertDecoder;
  td_functions : gmap (list Z) (list Function);
  td_has_identifier : bool;
}.

Definition CallTraceDecoder_new (functions : gmap (list Z) (list Function))
    (events : gmap (H256 * nat) (list Event)) : CallTraceDecoder :=
  mkDecoder (ka_name <$> KNOWN_ADDRESSES) [] ∅ events ∅ functions false.

Definition with_labels (labels : list (Address * string)) (d : CallTraceDecoder) :
    CallTraceDecoder :=
  mkDecoder (extend (td_labels d) labels) (td_receive_contracts d) (td_fallback_contracts d)
    (td_events d) (td_revert_decoder d) (td_functions d) (td_has_identifier d).

Definition with_signature_identifier (d : CallTraceDecoder) : CallTraceDecoder :=
  mkDecoder (td_labels d) (td_receive_contracts d) (td_fallback_contracts d) (td_events d)
    (td_revert_decoder d) (td_functions d) true.

Section Decoder.
Context {Net : Type} {DB : SelectorDatabase Net} (self : CallTraceDecoder).

(** The state is that of the identifier, when the decoder has one. *)
Abbreviation DecodeM := (M (SignaturesIdentifier * Net) Empty_set).

Definition td_decode_value (v : DynSolValue) : DecodedValue :=
  label_value (λ addr, td_labels self !! addr) (decode_value v).

Definition call_input (c : Call) : Bytes :=
  let '(mkCall _ _ _ _ _ _ input _ _ _ _) := c in input.
Definition call_output (c : Call) : Bytes :=
  let '(mkCall _ _ _ _ _ _ _ output _ _ _) := c in output.

Definition td_default_return_data (t : CallTrace) : DecodedReturnData :=
  if ct_success t then NormalReturn []
  else RevertReturn (RevertError (decode (td_revert_decoder self) (call_output (ct_call t)))).

Definition decode_function_input (t : CallTrace) (func : Function) : DecodedCallData :=
  let input := call_input (ct_call t) in
  let args :=
    if (SELECTOR_LEN <=? length input)%nat then
      map td_decode_value <$> fn_abi_decode_input func (drop SELECTOR_LEN input)
    else None in
  mkDecodedCallData (fn_signature func) (match args with Some args => args | None => [] end).

(** [funcs.iter().find_map(..)] *)
Fixpoint first_output (funcs : list Function) (output : Bytes) : option (list DynSolValue) :=
  match funcs with
  | [] => None
  | func :: funcs =>
      match fn_abi_decode_output func output with
      | Some values => Some values
      | None => first_output funcs output
      end
  end.

Definition decode_function_output (t : CallTrace) (funcs : list Function) : DecodedReturnData :=
  if negb (ct_success t) then td_default_return_data t
  else
    match first_output funcs (call_output (ct_call t)) with
    | Some values => NormalReturn (map td_decode_value values)
    | None => NormalReturn []
    end.

(** [self.functions.get(selector)] or the identifier's answer. *)
Definition functions_for (selector : Bytes) : DecodeM (list Function) :=
  match td_functions self !! selector with
  | Some fs => mret fs
  | None =>
      if td_has_identifier self then
        function ← identify_one SelFunction parse_function selector;
        mret (match function with Some f => [f] | None => [] end)
      else mret []
  end.

Definition decode_function (t : CallTrace) : DecodeM DecodedCallTrace :=
  let label := td_labels self !! ct_address t in
  let cdata := call_input (ct_call t) in
  if (SELECTOR_LEN <=? length cdata)%nat then
    functions ← functions_for (take SELECTOR_LEN cdata);
    match functions with
    | [] => mret (mkDecodedCallTrace label (td_default_return_data t) None)
    | func :: _ =>
        let call_data := decode_function_input t func in
        let call_data :=
          match td_fallback_contracts self !! ct_address t with
          | Some fallback_functions =>
              if bool_decide (fn_signature func ∈ fallback_functions) then call_data
              else mkDecodedCallData "fallback()" (cd_args call_data)
          | None => call_data
          end in
        mret (mkDecodedCallTrace label (decode_function_output t functions) (Some call_data))
    end
  else
    let has_receive := bool_decide (ct_address t ∈ td_receive_contracts self) in
    let signature :=
      if (length cdata =? 0)%nat && has_receive then "receive()" else "fallback()" in
    let args := match cdata with [] => [] | _ => [DvBytes cdata] end in
    mret (mkDecodedCallTrace label (td_default_return_data t)
            (Some (mkDecodedCallData signature args))).

Definition events_for (t0 : H256) (vm_event : VmEvent) : DecodeM (list Event) :=
  match td_events self !! (t0, (length (ev_indexed_topics vm_event) - 1)%nat) with
  | Some es => mret es
  | None =>
      if td_has_identifier self then
        event ← identify_one SelEvent parse_event (be_bytes 32 t0);
        mret (match event with
              | Some event => [get_indexed_event_from_vm_event event vm_event]
              | None => []
              end)
      else mret []
  end.

(** The first event that decodes the log. *)
Fixpoint first_event (events : list Event) (vm_event : VmEvent) : DecodedCallEvent :=
  match events with
  | [] => default_decoded_event
  | event :: events =>
      match event_decode_log event (ev_indexed_topics vm_event) (ev_value vm_event) with
      | Some decoded =>
          let params := reconstruct_params event decoded in
          mkDecodedEvent (Some (e_name event))
            (Some (zip_with (λ param input, (p_name input, td_decode_value param)) params
                     (e_inputs event)))
      | None => first_event events vm_event
      end
  end.

Definition decode_event (vm_event : VmEvent) : DecodeM DecodedCallEvent :=
  match ev_indexed_topics vm_event with
  | [] => mret default_decoded_event
  | t0 :: _ =>
      events ← events_for t0 vm_event;
      mret (first_event events vm_event)
  end.

Definition set_log_decoded (d : DecodedCallEvent) (l : CallLog) : CallLog :=
  mkCallLog (cl_raw_log l) d (cl_position l).

Definition populate_node (node : CallTraceNode) : DecodeM CallTraceNode :=
  decoded ← decode_function (trace node);
  let node := set_trace (set_decoded decoded (trace node)) node in
  ls ← map_m (λ log, d ← decode_event (cl_raw_log log); mret (set_log_decoded d log)) (logs node);
  mret (set_logs ls node).

Definition populate_traces (traces : list CallTraceNode) : DecodeM (list CallTraceNode) :=
  map_m populate_node traces.

(** [unique()]: the first of equal items. *)
Fixpoint unique (seen xs : list H256) : list H256 :=
  match xs with
  | [] => []
  | x :: xs => if bool_decide (x ∈ seen) then unique seen xs else x :: unique (x :: seen) xs
  end.

Definition first_topics (nodes : list CallTraceNode) : list H256 :=
  unique [] (mjoin (map (λ node, omap (λ log, head (ev_indexed_topics (cl_raw_log log))) (logs node))
                      nodes)).

Definition unknown_selectors (nodes : list CallTraceNode) : list Bytes :=
  filter (λ s, td_functions self !! s = None)
    (omap (λ n, let input := call_input (ct_call (trace n)) in
                if (SELECTOR_LEN <=? length input)%nat then Some (take SELECTOR_LEN input) else None)
       nodes).

Definition prefetch_signatures (nodes : list CallTraceNode) : DecodeM unit :=
  if td_has_identifier self then
    identify SelEvent parse_event (map (be_bytes 32) (first_topics nodes));;
    identify SelFunction parse_function (unknown_selectors nodes);;
    mret tt
  else mret tt.

Definition decode_trace_arena (arena : CallTraceArena) : DecodeM CallTraceArena :=
  prefetch_signatures arena;;
  populate_traces arena.
End Decoder.
End Decoding.

(** ** Values keep their contents *)

(** A value without its labels. *)
Fixpoint unlabel (v : DecodedValue) : DecodedValue :=
  match v with
  | DvAddress a => DvAddress (mkLabeledAddress None (la_address a))
  | DvArray vs => DvArray (map unlabel vs)
  | DvFixedArray vs => DvFixedArray (map unlabel vs)
  | DvTuple vs => DvTuple (map unlabel vs)
  | DvCustomStruct name prop_names tuple => DvCustomStruct name prop_names (map unlabel tuple)
  | other => other
  end.

Lemma map_Forall_eq {A B} (f g : A → B) xs : Forall (λ x, f x = g x) xs → map f xs = map g xs.
Proof. induction 1; simpl; congruence. Qed.

(** Labelling changes labels only, and doing it again changes nothing. *)
Lemma label_value_spec labeler v :
  unlabel (label_value labeler v) = unlabel v ∧
  label_value labeler (label_value labeler v) = label_value labeler v.
Proof.
  induction v using DecodedValue_ind'; try done.
  1: { destruct a as [[label|] address]; cbn; [done|]. destruct (labeler address) eqn:E; cbn; by rewrite ?E. }
  all: apply Forall_and in H as [H1 H2]; cbn; rewrite !map_map; split; f_equal; by apply map_Forall_eq.
Qed.

(** ** Parameters of events *)
Definition param_counts (b : bool) (inputs : list Param) : nat :=
  length (filter (λ p, p_indexed p = b) inputs).

(** The values of the inputs of one kind, in order. *)
Definition values_of (b : bool) (inputs : list Param) (vs : list DynSolValue) : list DynSolValue :=
  snd <$> filter (λ pv, p_indexed pv.1 = b) (zip inputs vs).

Lemma reconstruct_params_from_spec inputs indexed body :
  length indexed = param_counts true inputs → length body = param_counts false inputs →
  let vs := reconstruct_params_from inputs indexed body in
  length vs = length inputs ∧ values_of true inputs vs = indexed ∧ values_of false inputs vs = body.
Proof.
  unfold values_of, param_counts. revert indexed body.
  induction inputs as [|[name ty b] inputs IH]; intros indexed body Hi Hb.
  { by destruct indexed, body. }
  cbn [reconstruct_params_from p_indexed]. destruct b.
  - rewrite filter_cons_True in Hi by done. rewrite filter_cons_False in Hb by done.
    destruct indexed as [|v indexed]; [done|]. injection Hi as Hi.
    destruct (IH indexed body Hi Hb) as (Hl & H1 & H2). cbn [length zip zip_with].
    rewrite filter_cons_True, filter_cons_False, fmap_cons by done. by rewrite H1, H2, Hl.
  - rewrite filter_cons_False in Hi by done. rewrite filter_cons_True in Hb by done.
    destruct body as [|v body]; [done|]. injection Hb as Hb.
    destruct (IH indexed body Hi Hb) as (Hl & H1 & H2). cbv zeta. cbn [length zip zip_with].
    rewrite filter_cons_False, filter_cons_True, fmap_cons by done. by rewrite H1, H2, Hl.
Qed.

(** ** Reverts *)
Section RevertProofs.
Context `{AbiApi}.

(** Nothing of the revert data is lost when it is not understood, and empty
    data is reported as such. *)
Lemma decode_faithful self err :
  match decode self err with
  | DeEmpty => err = []
  | DeRaw data => data = err ∧ (0 < length err < 4)%nat
  | DeGenericCustomError selector raw =>
      selector ++ raw = err ∧ length selector = 4%nat ∧ is_ascii err = false
  | DeString _ => False
  | _ => (4 <= length err)%nat
  end.
Proof.
  unfold decode, maybe_decode, SELECTOR_LEN. destruct (Nat.ltb_spec (length err) 4) as [Hlt|Hge].
  { destruct err as [|b err]; [done|]. split; [done|]. simpl in *; lia. }
  destruct (contract_error_abi_decode err) as [[]|]; [done..|].
  destruct (first_error _ _) as [e|] eqn:E.
  - assert (He : ∃ n fs, e = DeCustomError n fs).
    { revert E. generalize (match self !! take 4 err with Some es => es | None => [] end) as es.
      induction es as [|x es IH]; cbn; [done|]. destruct (err_abi_decode_input _ _); [|done].
      injection 1 as <-. eauto. }
    destruct He as (n & fs & ->). done.
  - destruct (string_abi_decode err); [done|]. destruct (is_ascii err) eqn:Ea; [done|].
    rewrite take_drop, length_take. split_and!; [done|lia|done].
Qed.
End RevertProofs.

(** ** Decoding an arena *)

(** A node, a tree without what the decoder writes. *)
Definition erase_trace (t : CallTrace) : CallTrace := set_decoded default_decoded_trace t.
Definition erase_log (l : CallLog) : CallLog := set_log_decoded default_decoded_event l.

Fixpoint erase_tree (tree : CallTree) : CallTree :=
  let '(TreeNode t ls l2s kids) := tree in
  TreeNode (erase_trace t) (map erase_log ls) l2s (map erase_tree kids).

Lemma tree_size_erase tree : tree_size (erase_tree tree) = tree_size tree.
Proof.
  induction tree as [t ls l2s kids IH] using CallTree_ind'. cbn [erase_tree tree_size].
  rewrite map_map. do 2 f_equal. by apply map_Forall_eq.
Qed.

Lemma tree_depth_erase tree : tree_depth (erase_tree tree) = tree_depth tree.
Proof.
  induction tree as [t ls l2s kids IH] using CallTree_ind'. cbn [erase_tree tree_depth].
  rewrite map_map. do 2 f_equal. by apply map_Forall_eq.
Qed.

Lemma same_size tree tree' : erase_tree tree' = erase_tree tree → tree_size tree' = tree_size tree.
Proof. intros E. by rewrite <-tree_size_erase, E, tree_size_erase. Qed.

Lemma same_depth tree tree' : erase_tree tree' = erase_tree tree → tree_depth tree' = tree_depth tree.
Proof. intros E. by rewrite <-tree_depth_erase, E, tree_depth_erase. Qed.

Lemma same_offsets kids kids' j :
  map erase_tree kids' = map erase_tree kids → offsets j kids' = offsets j kids.
Proof.
  revert kids' j; induction kids as [|k kids IH]; intros [|k' kids'] j E; [done..|].
  injection E as Ek E. cbn [offsets]. rewrite (same_size _ _ Ek). f_equal. by apply IH.
Qed.

Section PopulateProofs.
Context `{AbiApi} {Net : Type} {DB : SelectorDatabase Net} (self : CallTraceDecoder).
Abbreviation DecodeM := (M (SignaturesIdentifier * Net) Empty_set).

(** Decoding never fails: what is unknown stays undecoded. *)
Definition total {A} (m : DecodeM A) : Prop := ∀ s, ∃ a s', m s = Ret a s'.

Lemma total_bind {A B} (m : DecodeM A) (k : A → DecodeM B) :
  total m → (∀ a, total (k a)) → total (m ≫= k).
Proof.
  intros Hm Hk s. destruct (Hm s) as (a & s1 & E). destruct (Hk a s1) as (b & s2 & E2).
  exists b, s2. by rewrite (bind_run _ _ _ _ _ E).
Qed.
Lemma total_ret {A} (a : A) : total (mret a).
Proof. intros s. by eexists _, _. Qed.

Lemma total_identify {T} t (get : string → option T) ids : total (identify t get ids).
Proof.
  intros [si net]. destruct (identify_state t get ids si net) as (out & si' & net' & E & _).
  by eexists _, _.
Qed.

Lemma total_identify_one {T} t (get : string → option T) id : total (identify_one t get id).
Proof.
  intros [si net]. unfold identify_one.
  destruct (identify_state t get [id] si net) as (out & si' & net' & E & Ho & _).
  step_m ltac:(exact E). rewrite Ho. by eexists _, _.
Qed.

Lemma total_decode_function t : total (decode_function self t).
Proof.
  unfold decode_function. case_match; [|apply total_ret]. apply total_bind.
  - unfold functions_for. case_match; [apply total_ret|]. case_match; [|apply total_ret].
    apply total_bind; [apply total_identify_one|intros f; apply total_ret].
  - intros [|f fs]; apply total_ret.
Qed.

Lemma total_decode_event e : total (decode_event self e).
Proof.
  unfold decode_event. case_match; [apply total_ret|]. apply total_bind.
  - unfold events_for. case_match; [apply total_ret|]. case_match; [|apply total_ret].
    apply total_bind; [apply total_identify_one|intros f; apply total_ret].
  - intros es; apply total_ret.
Qed.
Lemma total_map_m {A B} (f : A → DecodeM B) xs : (∀ x, total (f x)) → total (map_m f xs).
Proof.
  intros Hf. induction xs as [|x xs IH]; [apply total_ret|].
  apply total_bind; [apply Hf|intros y]. apply total_bind; [apply IH|intros ys; apply total_ret].
Qed.

Lemma total_prefetch nodes : total (prefetch_signatures self nodes).
Proof.
  unfold prefetch_signatures. case_match; [|apply total_ret].
  apply total_bind; [apply total_identify|intros _].
  apply total_bind; [apply total_identify|intros _; apply total_ret].
Qed.

(** The logs of a node keep everything but their decoding. *)
Lemma decode_logs_run ls s :
  ∃ ls' s', map_m (λ log, d ← decode_event self (cl_raw_log log);
                          mret (set_log_decoded d log)) ls s = Ret ls' s' ∧
    map erase_log ls' = map erase_log ls.
Proof.
  revert s; induction ls as [|l ls IH]; intros s; [by eexists _, _|]. cbn [map_m].
  destruct (total_decode_event (cl_raw_log l) s) as (d & s1 & E).
  destruct (IH s1) as (ls' & s' & E' & He). exists (set_log_decoded d l :: ls'), s'. split.
  - step_m ltac:(step_m ltac:(exact E); reflexivity). step_m ltac:(exact E'). done.
  - cbn [map]. by rewrite He.
Qed.

Lemma populate_node_run n s :
  ∃ d ls' s', populate_node self n s = Ret (set_logs ls' (set_trace (set_decoded d (trace n)) n)) s' ∧
    map erase_log ls' = map erase_log (logs n).
Proof.
  unfold populate_node. destruct (total_decode_function (trace n) s) as (d & s1 & E).
  destruct (decode_logs_run (logs n) s1) as (ls' & s2 & E2 & He). exists d, ls', s2.
  split; [|done]. step_m ltac:(exact E). cbv zeta. step_m ltac:(exact E2). done.
Qed.

Lemma map_m_app {S E A B} (f : A → M S E B) xs ys s zs s1 zs' s2 :
  map_m f xs s = Ret zs s1 → map_m f ys s1 = Ret zs' s2 → map_m f (xs ++ ys) s = Ret (zs ++ zs') s2.
Proof.
  revert s zs; induction xs as [|x xs IH]; intros s zs H1 H2; cbn [map_m app] in *.
  { injection H1 as <- <-. done. }
  apply bind_Ret in H1 as (y & s3 & Hx & H1). apply bind_Ret in H1 as (ys' & s4 & Hxs & Hr).
  injection Hr as <- <-. step_m ltac:(exact Hx). step_m ltac:(by eapply IH). done.
Qed.

(** Decoding a tree that is laid out gives the layout of a tree that differs
    in what was decoded only. *)
Definition populates ord (tree : CallTree) : Prop := ∀ i p s, ∃ tree' s',
  populate_traces self (flat ord i p tree) s = Ret (flat ord i p tree') s' ∧
  erase_tree tree' = erase_tree tree.

Lemma populate_forest ord kids :
  Forall (populates ord) kids → ∀ j p s, ∃ kids' s',
  populate_traces self (flats ord j p kids) s = Ret (flats ord j p kids') s' ∧
  map erase_tree kids' = map erase_tree kids.
Proof.
  induction 1 as [|k kids Hk _ IH]; intros j p s; [by exists [], s|].
  destruct (Hk j p s) as (k' & s1 & E & He). destruct (IH (j + tree_size k)%nat p s1) as (kids' & s2 & E2 & He2).
  exists (k' :: kids'), s2. cbn [flats map]. rewrite (same_size _ _ He), He, He2. split; [|done].
  by eapply map_m_app.
Qed.

Lemma populate_tree ord tree : populates ord tree.
Proof.
  induction tree as [t ls l2s kids IH] using CallTree_ind'; intros i p s. rewrite flat_unfold.
  destruct (populate_node_run (mkNode p (offsets (S i) kids) i t ls l2s
    (ord (length ls) (length l2s) (length kids))) s) as (d & ls' & s1 & E & He).
  destruct (populate_forest ord kids IH (S i) (Some i) s1) as (kids' & s2 & E2 & Hk).
  cbn [trace logs] in *. exists (TreeNode (set_decoded d t) ls' l2s kids'), s2. split.
  - unfold populate_traces in *. cbn [map_m]. step_m ltac:(exact E). step_m ltac:(exact E2).
    rewrite flat_unfold, (same_offsets _ _ _ Hk).
    assert (length ls' = length ls) as -> by (by rewrite <-(length_map erase_log), He, length_map).
    assert (length kids' = length kids) as -> by (by rewrite <-(length_map erase_tree), Hk, length_map).
    done.
  - cbn [erase_tree]. by rewrite He, Hk.
Qed.

Lemma decode_trace_arena_run ord tree s :
  ∃ tree' s', decode_trace_arena self (flat ord 0 None tree) s = Ret (flat ord 0 None tree') s' ∧
    erase_tree tree' = erase_tree tree.
Proof.
  unfold decode_trace_arena. destruct (total_prefetch (flat ord 0 None tree) s) as ([] & s1 & E).
  destruct (populate_tree ord tree 0%nat None s1) as (tree' & s2 & E2 & He).
  exists tree', s2. split; [|done]. by step_m ltac:(exact E).
Qed.
End PopulateProofs.

Lemma same_depths kids kids' n :
  map erase_tree kids' = map erase_tree kids →
  Forall (λ k, tree_depth k < n) kids → Forall (λ k, tree_depth k < n) kids'.
Proof.
  intros E H. revert kids' E. induction H as [|k kids Hk _ IH]; intros [|k' kids'] E; try done.
  injection E as Ek E. constructor; [by rewrite (same_depth _ _ Ek)|by apply IH].
Qed.

(** ** From calls to text *)
Section Pipeline.
Context `{AbiApi} {TT : TraceText} {TM : Terminal} {Net : Type} {DB : SelectorDatabase Net}.

(** C21: The trace of a transaction, from its calls to the text: building,
    decoding, filtering and rendering all succeed, and the text is the
    rendering of the pruned tree of the calls, in which decoding has filled in
    names and values and changed nothing else.  (Calls nest less than 2^16
    deep, the range of the writer's indentation.) *)
Theorem trace_pipeline_spec (self : CallTraceDecoder) calls tx_result verbosity with_bytecodes s :
  Forall (λ c, tree_depth (tree_of_call tx_result c) < 2 ^ 16) calls →
  ∃ arena decoded s' filtered forest,
    build_call_trace_arena calls tx_result = Ret tt arena ∧
    decode_trace_arena self arena s = Ret decoded s' ∧
    filter_call_trace_arena decoded verbosity = Ret tt filtered ∧
    map erase_tree forest = map erase_tree (map (tree_of_call tx_result) calls) ∧
    render_trace_arena_inner filtered with_bytecodes =
      Some (concat_text (render_tree (mkWriterConfig (use_colors ColorAuto) with_bytecodes) 0)
              (prune_forest verbosity forest)).
Proof.
  intros Hd. destruct (decode_trace_arena_run self build_order (tree_of_tx tx_result calls) s)
    as ([t ls l2s forest] & s' & E & He).
  assert (Hf : map erase_tree forest = map erase_tree (map (tree_of_call tx_result) calls))
    by (by injection He).
  exists (flat build_order 0 None (tree_of_tx tx_result calls)), (flat build_order 0 None (TreeNode t ls l2s forest)), s'.
  eexists _, forest. split_and!; [apply build_run|exact E|apply filter_run|exact Hf|].
  apply render_filtered, prune_forest_depth.
  eapply same_depths; [exact Hf|]. by apply List.Forall_map.
Qed.
End Pipeline.

(** ** Concrete parameters

    A coder that knows one function and one error, and styles that print
    nothing. *)
Module SampleTrace.
#[export] Instance abi : AbiApi := {|
  Function := string;
  fn_signature f := f;
  fn_abi_decode_input f data := Some [SolUint (of_be_bytes data) 256];
  fn_abi_decode_output f data := Some [SolUint (of_be_bytes data) 256];
  AbiError := string;
  err_name e := e;
  err_selector e := [1; 2; 3; 4];
  err_abi_decode_input e data := Some [];
  event_decode_log e topics data := None;
  contract_error_abi_decode data := None;
  string_abi_decode data := None;
  parse_function s := Some s;
  parse_event s := None;
|}.

#[export] Instance text : TraceText := {|
  to_user_friendly_string r := revert_display r;
  halt_debug h := match h with VmHalt r => r | TracerCustom m => m end;
  h256_display h := "0x" +:+ hex_h256 h;
  h256_debug h := "0x" +:+ hex_h256 h;
  call_default := mkCall (CallKind FarNormal) 0 0 0 0 0 [] [] None None [];
|}.

#[export] Instance terminal : Terminal := {|
  style_on _ := ""; style_off _ := ""; dimmed s := s; is_terminal := false;
|}.

(** A call of contract 0x77 through the nonce holder, with an event of 0x77. *)
Definition inner_call : Call :=
  mkCall (CallKind FarDelegate) 5 0x77 100 50 0 (SampleDatabase.balance_of ++ [42]) [9] None None [].
Definition outer_call : Call :=
  mkCall (CallKind FarNormal) 5 0x8003 200 90 1 [] [] None None [inner_call].
Definition tx_result : VmResult :=
  mkVmResult (Success []) [] [mkVmEvent 0x77 [] [1; 2]] [] [] 0 0 0 0 [].
Definition decoder : CallTraceDecoder := with_signature_identifier (CallTraceDecoder_new ∅ ∅).
Definition identifier : SignaturesIdentifier :=
  mkIdentifier default_signatures None ∅ (Some SignEthClient_new).
End SampleTrace.
Import SampleDatabase SampleTrace.

(** At level 2 the system contract is left out; its call is shown at the top,
    decoded with the name that the database knows. *)
Lemma trace_pipeline_spec_witness :
  ∃ arena decoded s' filtered forest,
    build_call_trace_arena [outer_call] tx_result = Ret tt arena ∧
    decode_trace_arena decoder arena (identifier, 0%nat) = Ret decoded s' ∧
    filter_call_trace_arena decoded 2 = Ret tt filtered ∧
    map erase_tree forest = map erase_tree (map (tree_of_call tx_result) [outer_call]) ∧
    render_trace_arena_inner filtered false =
      Some (concat_text (render_tree (mkWriterConfig (use_colors ColorAuto) false) 0)
              (prune_forest 2 forest)).
Proof.
  apply (trace_pipeline_spec decoder [outer_call] tx_result 2 false (identifier, 0%nat)).
  apply Forall_singleton. vm_compute. reflexivity.
Defined.

Definition sample_text : option string :=
  match build_call_trace_arena [outer_call] tx_result with
  | Ret _ arena =>
      match decode_trace_arena decoder arena (identifier, 0%nat) with
      | Ret decoded _ =>
          match filter_call_trace_arena decoded 2 with
          | Ret _ filtered => render_trace_arena_inner filtered false
          | _ => None
          end
      | _ => None
      end
  | _ => None
  end.

Example sample_text_is :
  sample_text = Some
    ("  [50] 0x0000000000000000000000000000000000000077::balanceOf(42) [delegatecall]" +:+ newline
     +:+ "    ├─           data: 0102" +:+ newline
     +:+ "    └─ ← [Success] 9" +:+ newline).
Proof. vm_compute. reflexivity. Qed.
