(* ===== verification/AbiUtils.v ===== *)
(** * Texts and calldata

    The helpers of [crates/traces/src/abi_utils.rs] that go between texts and
    calldata: arguments given as texts are encoded for a function, and calldata in
    hexadecimal is decoded with the signature of one.  Types, their values and
    their encoding are those of [alloy]. *)
From S2P Require Import Prelude Types Text AddressMap TraceTypes Traces TraceWriter Resolver TraceDecode.
Local Open Scope string_scope.
Local Open Scope list_scope.
Local Open Scope Z_scope.

Class AbiCoder {AA : AbiApi} := {
  fn_inputs : Function → list Param;
  (** [input.selector_type()] *)
  selector_type : Param → string;
  SolType : Type;
  (** [DynSolType::parse] and [coerce_str] *)
  parse_type : string → option SolType;
  coerce_str : SolType → string → option DynSolValue;
  (** [func.abi_encode_input(..)], with the selector in front, and
      [value.abi_encode_packed()] *)
  abi_encode_input : Function → list DynSolValue → option Bytes;
  abi_encode_packed : DynSolValue → Bytes;
  parse_error : string → option AbiError;
}.

(** What goes wrong: a signature, something of [alloy] or [hex], or nothing there *)
Inductive AbiUtilError :=
| CouldNotParse (context : string)
| CoderError
| NoDataDecoded.
Abbreviation eyre A := (Prelude.result A AbiUtilError).

Definition or_fail {A} (e : AbiUtilError) (o : option A) : eyre A :=
  match o with Some a => Ok a | None => Err e end.
Definition and_then {A B} (r : eyre A) (f : A → eyre B) : eyre B :=
  match r with Ok a => f a | Err e => Err e end.

(** [.collect::<Result<Vec<_>>>()] *)
Fixpoint collect_results {A} (l : list (eyre A)) : eyre (list A) :=
  match l with
  | [] => Ok []
  | r :: l => and_then r (λ a, and_then (collect_results l) (λ as_, Ok (a :: as_)))
  end.

Section Helpers.
Context {AA : AbiApi} {AC : AbiCoder}.

Definition coerce_value (ty arg : string) : eyre DynSolValue :=
  and_then (or_fail CoderError (parse_type ty)) (λ ty, or_fail CoderError (coerce_str ty arg)).

(** [std::iter::zip] stops at the shorter one. *)
Definition encode_args (inputs : list Param) (args : list string) : eyre (list DynSolValue) :=
  collect_results (zip_with (λ input arg, coerce_value (selector_type input) arg) inputs args).

Definition encode_function_args (func : Function) (args : list string) : eyre Bytes :=
  and_then (encode_args (fn_inputs func) args) (λ values, or_fail CoderError (abi_encode_input func values)).

Definition encode_function_args_packed (func : Function) (args : list string) : eyre Bytes :=
  and_then (collect_results (zip_with (λ input arg, coerce_value (selector_type input) arg) (fn_inputs func) args))
    (λ values, Ok (mjoin (abi_encode_packed <$> values))).

Definition get_func (sig : string) : eyre Function :=
  or_fail (CouldNotParse "could not parse function signature") (parse_function sig).
Definition get_event (sig : string) : eyre Event :=
  or_fail (CouldNotParse "could not parse event signature") (parse_event sig).
Definition get_error (sig : string) : eyre AbiError :=
  or_fail (CouldNotParse "could not parse event signature") (parse_error sig).

(** [alloy::primitives::hex::decode]: a leading [0x] is optional. *)
Definition hex_bytes (s : string) : eyre Bytes :=
  match hex_decode (Resolver.strip_0x s) with Ok bs => Ok bs | Err _ => Err CoderError end.

Definition abi_decode_calldata (sig calldata : string) (input fn_selector : bool) : eyre (list DecodedValue) :=
  and_then (get_func sig) (λ func,
  and_then (hex_bytes calldata) (λ calldata,
  let calldata :=
    if input && fn_selector && (4 <=? length calldata)%nat then drop 4 calldata else calldata in
  and_then
    (or_fail CoderError
       (if input then fn_abi_decode_input func calldata else fn_abi_decode_output func calldata))
    (λ res, match res with [] => Err NoDataDecoded | _ => Ok (decode_value <$> res) end))).

(** The laws of the coder: what is encoded starts with the four bytes of the
    selector and reads back. *)
Class CoderLaws : Prop := {
  encode_selector func values bs : abi_encode_input func values = Some bs → (4 <= length bs)%nat ∧ Forall is_byte bs;
  encode_decode func values bs :
    abi_encode_input func values = Some bs → fn_abi_decode_input func (drop 4 bs) = Some values;
}.

Lemma collect_results_Ok {A} (l : list (eyre A)) r : collect_results l = Ok r ↔ l = Ok <$> r.
Proof.
  revert r. induction l as [|x l IH]; intros r; cbn.
  { split; [by intros [= <-]|]. by destruct r. }
  destruct x as [a|e]; cbn; [|by destruct r].
  destruct (collect_results l) as [as_|e] eqn:E; cbn.
  - split; [intros [= <-]; cbn; f_equal; by apply IH|].
    destruct r as [|b r]; [done|]. cbn. intros [= -> Hl]. apply IH in Hl. congruence.
  - destruct r as [|b r]; [done|]. split; [done|]. cbn. intros [= _ Hl]. apply IH in Hl. congruence.
Qed.

(** Texts become values one by one, and the arguments that are too many, or the
    inputs for which there is none, are ignored. *)
Lemma encode_args_spec inputs args values :
  encode_args inputs args = Ok values ↔
  zip_with (λ input arg, coerce_value (selector_type input) arg) inputs args = Ok <$> values.
Proof. apply collect_results_Ok. Qed.

Lemma strip_hex bs : Resolver.strip_0x ("0x" +:+ hex_encode bs) = hex_encode bs.
Proof. reflexivity. Qed.

(** The calldata that [encode_function_args] makes is decoded, given in hexadecimal
    with its prefix and with the selector, to the values of the arguments. *)
Theorem calldata_roundtrip {CL : CoderLaws} sig func args values bs :
  parse_function sig = Some func → encode_args (fn_inputs func) args = Ok values →
  encode_function_args func args = Ok bs →
  abi_decode_calldata sig ("0x" +:+ hex_encode bs) true true =
    match values with [] => Err NoDataDecoded | _ => Ok (decode_value <$> values) end.
Proof.
  intros Hf Hv Hb. unfold encode_function_args in Hb. rewrite Hv in Hb. cbn in Hb.
  destruct (abi_encode_input func values) as [bs'|] eqn:E; [|done]. injection Hb as ->.
  destruct (encode_selector _ _ _ E) as [Hlen Hbytes]. pose proof (encode_decode _ _ _ E) as Hd.
  unfold abi_decode_calldata, get_func, hex_bytes. rewrite Hf, strip_hex, hex_decode_encode by done.
  cbn [or_fail and_then andb]. rewrite (proj2 (Nat.leb_le _ _)) by done. rewrite Hd. reflexivity.
Qed.
End Helpers.

(** ** A coder of one number *)
Module SampleCoder.
Export SampleTrace.

Definition encode_number (values : list DynSolValue) : option Bytes :=
  match values with
  | [SolUint n size] =>
      if (size =? 256) && (0 <=? n) && (n <? 2 ^ 256) then Some ([9; 9; 9; 9] ++ be_bytes 32 n) else None
  | _ => None
  end.

Lemma encode_number_Some values bs :
  encode_number values = Some bs → ∃ n, values = [SolUint n 256] ∧ 0 <= n < 2 ^ 256 ∧ bs = [9; 9; 9; 9] ++ be_bytes 32 n.
Proof.
  intros E. destruct values as [|[] []]; try discriminate E. cbn [encode_number] in E.
  destruct (Z.eqb_spec size 256); [|discriminate E]. destruct (Z.leb_spec 0 u); [|discriminate E].
  destruct (Z.ltb_spec u (2 ^ 256)); [|discriminate E]. subst size. injection E as <-. by exists u.
Qed.

#[export] Instance coder : AbiCoder := {|
  fn_inputs _ := [mkParam "x" "uint256" false];
  selector_type p := p_ty p;
  SolType := unit;
  parse_type _ := Some ();
  coerce_str _ s := Some (SolUint (Z.of_nat (String.length s)) 256);
  abi_encode_input _ values := encode_number values;
  abi_encode_packed _ := [];
  parse_error _ := None;
|}.

#[export] Instance laws : CoderLaws.
Proof.
  split; intros func values bs (n & -> & Hn & ->)%encode_number_Some.
  - split; [rewrite length_app, length_be_bytes; cbn; lia|]. apply Forall_app.
    split; [repeat constructor; lia|apply be_bytes_range].
  - change (drop 4 ([9; 9; 9; 9] ++ be_bytes 32 n)) with (be_bytes 32 n).
    change (fn_abi_decode_input func (be_bytes 32 n)) with (Some [SolUint (of_be_bytes (be_bytes 32 n)) 256]).
    rewrite of_be_bytes_be_bytes, Z.mod_small; [done|]. exact Hn.
Qed.

Lemma calldata_roundtrip_witness :
  ∃ bs, encode_function_args "f(uint256)" ["seven.."; "more"] = Ok bs ∧
    abi_decode_calldata "f(uint256)" ("0x" +:+ hex_encode bs) true true = Ok [DvUint 7].
Proof.
  eexists. split; [reflexivity|].
  exact (calldata_roundtrip "f(uint256)" "f(uint256)" ["seven.."; "more"] [SolUint 7 256] _ eq_refl eq_refl eq_refl).
Defined.
End SampleCoder.
