(* ===== verification/Config.v ===== *)
(** * Configuration

    [crates/config/src/config.rs] and [crates/config/src/types]: the options of
    the node, their defaults and the builder methods, and the generator of the
    development accounts.  Key derivation is an interface. *)
From S2P Require Import Prelude Types Utils Text Pool Cache Fork Storage Blockchain Inner.
From Stdlib Require Import Ascii.
Local Open Scope Z_scope.

Inductive SystemContractsOptions := BuiltIn | LocalContracts | BuiltInWithoutSecurity.

#[global] Instance SystemContractsOptions_eq_dec : EqDecision SystemContractsOptions.
Proof. solve_decision. Defined.

Inductive ShowStorageLogs := StorageNone | StorageRead | StorageWrite | StoragePaid | StorageAll.
Inductive ShowVMDetails := VMNone | VMAll.
Inductive ShowGasDetails := GasNone | GasAll.
Inductive LogLevel := LogTrace | LogDebug | LogInfo | LogWarn | LogError | LogNone.

(** [FromStr] and [Display] of the levels of detail. *)
Definition storage_logs_from_str (s : string) : result ShowStorageLogs string :=
  let l := lower s in
  if bool_decide (l = "none") then Ok StorageNone
  else if bool_decide (l = "read") then Ok StorageRead
  else if bool_decide (l = "write") then Ok StorageWrite
  else if bool_decide (l = "paid") then Ok StoragePaid
  else if bool_decide (l = "all") then Ok StorageAll
  else Err ("Unknown ShowStorageLogs value " +:+ s +:+ " - expected one of none|read|write|paid|all.").

Definition storage_logs_display (v : ShowStorageLogs) : string :=
  match v with
  | StorageNone => "None" | StorageRead => "Read" | StorageWrite => "Write"
  | StoragePaid => "Paid" | StorageAll => "All"
  end.

Definition vm_details_from_str (s : string) : result ShowVMDetails string :=
  let l := lower s in
  if bool_decide (l = "none") then Ok VMNone
  else if bool_decide (l = "all") then Ok VMAll
  else Err ("Unknown ShowVMDetails value " +:+ s +:+ " - expected one of none|all.").

Definition vm_details_display (v : ShowVMDetails) : string :=
  match v with VMNone => "None" | VMAll => "All" end.

Definition gas_details_from_str (s : string) : result ShowGasDetails string :=
  let l := lower s in
  if bool_decide (l = "none") then Ok GasNone
  else if bool_decide (l = "all") then Ok GasAll
  else Err ("Unknown ShowGasDetails value " +:+ s +:+ " - expected one of none|all.").

Definition gas_details_display (v : ShowGasDetails) : string :=
  match v with GasNone => "None" | GasAll => "All" end.

Definition log_level_display (v : LogLevel) : string :=
  match v with
  | LogTrace => "TRACE" | LogDebug => "DEBUG" | LogInfo => "INFO"
  | LogWarn => "WARN" | LogError => "ERROR" | LogNone => "NONE"
  end.

(** What was printed is read back. *)
Lemma show_details_roundtrip :
  (∀ v, storage_logs_from_str (storage_logs_display v) = Ok v) ∧
  (∀ v, vm_details_from_str (vm_details_display v) = Ok v) ∧
  (∀ v, gas_details_from_str (gas_details_display v) = Ok v).
Proof. split_and!; intros []; reflexivity. Qed.

Record BoojumConfig := mkBoojumConfig {
  use_boojum_os : bool;
  boojum_bin_path : option string;
}.

Inductive L1Config :=
| L1Spawn (port : Z)
| L1External (address : string).

Record BaseTokenConfig := mkBaseTokenConfig {
  bt_symbol : string;
  bt_ratio : BaseTokenConversionRatio;
}.

Definition default_base_token : BaseTokenConfig := mkBaseTokenConfig "ETH" default_ratio.

(** An address of the network by its text, a duration in nanoseconds. *)
Abbreviation IpAddr := string.
Abbreviation Duration := Z.
Definition LOCALHOST : IpAddr := "127.0.0.1".

Definition DEFAULT_PROTOCOL_VERSION : Z := 27.
Definition NODE_PORT : Z := 8011.
Definition DERIVATION_PATH : string := "m/44'/60'/0'/0/0".
Definition DEFAULT_LOG_FILE_PATH : string := "anvil-zksync.log".
Definition DEFAULT_MNEMONIC : string :=
  "test test test test test test test test test test test junk".
Definition DEFAULT_DISK_CACHE_DIR : string := ".cache".

(** ** Accounts *)
Record AccountGenerator := mkAccountGenerator {
  ag_chain_id : Z;
  ag_amount : nat;
  ag_phrase : string;
  ag_derivation_path : option string;
}.

(** Wallets: a signer is built from a phrase and a derivation path; phrases are
    drawn at random, or from a seed. *)
Class WalletApi := {
  Signer : Type;
  signer_address : Signer → Address;
  (** [MnemonicBuilder] with a phrase and a path, and [with_chain_id]; [None]
      when the phrase or the path is refused *)
  build_signer : string → string → Z → option Signer;
  random_phrase : string;
  random_phrase_with_count : nat → option string;
  seeded_phrase : Z → string;
}.

Section Config.
Context `{WalletApi}.

Definition AccountGenerator_new (amount : nat) : AccountGenerator :=
  mkAccountGenerator TEST_NODE_NETWORK_ID amount random_phrase None.

Definition gen_phrase (phrase : string) (g : AccountGenerator) : AccountGenerator :=
  mkAccountGenerator (ag_chain_id g) (ag_amount g) phrase (ag_derivation_path g).

Definition gen_chain_id (chain_id : Z) (g : AccountGenerator) : AccountGenerator :=
  mkAccountGenerator chain_id (ag_amount g) (ag_phrase g) (ag_derivation_path g).

(** [s.ends_with('/')] *)
Fixpoint ends_with_slash (s : string) : bool :=
  match s with
  | EmptyString => false
  | String c EmptyString => Ascii.eqb c "/"
  | String _ s => ends_with_slash s
  end.

Definition gen_derivation_path (derivation_path : string) (g : AccountGenerator) : AccountGenerator :=
  let derivation_path :=
    if ends_with_slash derivation_path then derivation_path else derivation_path +:+ "/" in
  mkAccountGenerator (ag_chain_id g) (ag_amount g) (ag_phrase g) (Some derivation_path).

Definition get_derivation_path (g : AccountGenerator) : string :=
  default DERIVATION_PATH (ag_derivation_path g).

Definition account_path (g : AccountGenerator) (idx : nat) : string :=
  get_derivation_path g +:+ dec (Z.of_nat idx).

Definition UNWRAP_ERR : string := "called `Result::unwrap()` on an `Err` value".

Definition gen {S E} (g : AccountGenerator) : M S E (list Signer) :=
  map_m (λ idx, expect UNWRAP_ERR (build_signer (ag_phrase g) (account_path g idx) (ag_chain_id g)))
    (seq 0 (ag_amount g)).

(** ** The configuration *)
Record TestNodeConfig := mkTestNodeConfig {
  tc_config_out : option string;
  tc_port : Z;
  tc_show_node_config : bool;
  tc_show_storage_logs : ShowStorageLogs;
  tc_show_vm_details : ShowVMDetails;
  tc_show_gas_details : ShowGasDetails;
  tc_verbosity : Z;
  tc_silent : bool;
  tc_system_contracts_options : SystemContractsOptions;
  tc_system_contracts_path : option string;
  tc_protocol_version : option Z;
  tc_override_bytecodes_dir : option string;
  tc_bytecode_compression : bool;
  tc_use_evm_interpreter : bool;
  tc_boojum : BoojumConfig;
  tc_chain_id : option Z;
  tc_l1_gas_price : option Z;
  tc_l2_gas_price : option Z;
  tc_l1_pubdata_price : option Z;
  tc_price_scale_factor : option f64;
  tc_limit_scale_factor : option f32;
  tc_log_level : LogLevel;
  tc_log_file_path : string;
  tc_cache_dir : string;
  tc_cache_config : CacheConfig;
  tc_genesis_accounts : list Signer;
  tc_genesis_balance : Z;
  tc_account_generator : option AccountGenerator;
  tc_signer_accounts : list Signer;
  tc_genesis : option Genesis;
  tc_genesis_timestamp : option Z;
  tc_enable_auto_impersonate : bool;
  tc_offline : bool;
  tc_host : list IpAddr;
  tc_health_check_endpoint : bool;
  tc_block_time : option Duration;
  tc_max_transactions : nat;
  tc_no_mining : bool;
  tc_allow_origin : string;
  tc_no_cors : bool;
  tc_transaction_order : TransactionOrder;
  tc_state : option string;
  tc_dump_state : option string;
  tc_state_interval : option Z;
  tc_preserve_historical_states : bool;
  tc_load_state : option string;
  tc_l1_config : option L1Config;
  tc_auto_execute_l1 : bool;
  tc_base_token_config : BaseTokenConfig;
}.

(** A configuration from its fields, and the same with one field replaced. *)
Definition config_eta (c : TestNodeConfig) : TestNodeConfig :=
  mkTestNodeConfig
    (tc_config_out c) (tc_port c) (tc_show_node_config c) (tc_show_storage_logs c)
    (tc_show_vm_details c) (tc_show_gas_details c) (tc_verbosity c) (tc_silent c)
    (tc_system_contracts_options c) (tc_system_contracts_path c) (tc_protocol_version c)
    (tc_override_bytecodes_dir c) (tc_bytecode_compression c) (tc_use_evm_interpreter c)
    (tc_boojum c) (tc_chain_id c) (tc_l1_gas_price c) (tc_l2_gas_price c) (tc_l1_pubdata_price c)
    (tc_price_scale_factor c) (tc_limit_scale_factor c) (tc_log_level c) (tc_log_file_path c)
    (tc_cache_dir c) (tc_cache_config c) (tc_genesis_accounts c) (tc_genesis_balance c)
    (tc_account_generator c) (tc_signer_accounts c) (tc_genesis c) (tc_genesis_timestamp c)
    (tc_enable_auto_impersonate c) (tc_offline c) (tc_host c) (tc_health_check_endpoint c)
    (tc_block_time c) (tc_max_transactions c) (tc_no_mining c) (tc_allow_origin c) (tc_no_cors c)
    (tc_transaction_order c) (tc_state c) (tc_dump_state c) (tc_state_interval c)
    (tc_preserve_historical_states c) (tc_load_state c) (tc_l1_config c) (tc_auto_execute_l1 c)
    (tc_base_token_config c).

Ltac with_field proj v c :=
  let e := eval cbv beta delta [config_eta] in (config_eta c) in
  match eval pattern (proj c) in e with
  | ?f _ => let r := eval cbv beta in (f v) in exact r
  end.

Definition set_tc_config_out (v : option string) (c : TestNodeConfig) : TestNodeConfig :=
  ltac:(with_field tc_config_out v c).

Definition set_tc_port (v : Z) (c : TestNodeConfig) : TestNodeConfig :=
  ltac:(with_field tc_port v c).

Definition set_tc_show_node_config (v : bool) (c : TestNodeConfig) : TestNodeConfig :=
  ltac:(with_field tc_show_node_config v c).

Definition set_tc_show_storage_logs (v : ShowStorageLogs) (c : TestNodeConfig) : TestNodeConfig :=
  ltac:(with_field tc_show_storage_logs v c).

Definition set_tc_show_vm_details (v : ShowVMDetails) (c : TestNodeConfig) : TestNodeConfig :=
  ltac:(with_field tc_show_vm_details v c).

Definition set_tc_show_gas_details (v : ShowGasDetails) (c : TestNodeConfig) : TestNodeConfig :=
  ltac:(with_field tc_show_gas_details v c).

Definition set_tc_verbosity (v : Z) (c : TestNodeConfig) : TestNodeConfig :=
  ltac:(with_field tc_verbosity v c).

Definition set_tc_silent (v : bool) (c : TestNodeConfig) : TestNodeConfig :=
  ltac:(with_field tc_silent v c).

Definition set_tc_system_contracts_options (v : SystemContractsOptions) (c : TestNodeConfig) : TestNodeConfig :=
  ltac:(with_field tc_system_contracts_options v c).

Definition set_tc_system_contracts_path (v : option string) (c : TestNodeConfig) : TestNodeConfig :=
  ltac:(with_field tc_system_contracts_path v c).

Definition set_tc_protocol_version (v : option Z) (c : TestNodeConfig) : TestNodeConfig :=
  ltac:(with_field tc_protocol_version v c).

Definition set_tc_override_bytecodes_dir (v : option string) (c : TestNodeConfig) : TestNodeConfig :=
  ltac:(with_field tc_override_bytecodes_dir v c).

Definition set_tc_bytecode_compression (v : bool) (c : TestNodeConfig) : TestNodeConfig :=
  ltac:(with_field tc_bytecode_compression v c).

Definition set_tc_use_evm_interpreter (v : bool) (c : TestNodeConfig) : TestNodeConfig :=
  ltac:(with_field tc_use_evm_interpreter v c).

Definition set_tc_boojum (v : BoojumConfig) (c : TestNodeConfig) : TestNodeConfig :=
  ltac:(with_field tc_boojum v c).

Definition set_tc_chain_id (v : option Z) (c : TestNodeConfig) : TestNodeConfig :=
  ltac:(with_field tc_chain_id v c).

Definition set_tc_l1_gas_price (v : option Z) (c : TestNodeConfig) : TestNodeConfig :=
  ltac:(with_field tc_l1_gas_price v c).

Definition set_tc_l2_gas_price (v : option Z) (c : TestNodeConfig) : TestNodeConfig :=
  ltac:(with_field tc_l2_gas_price v c).

Definition set_tc_l1_pubdata_price (v : option Z) (c : TestNodeConfig) : TestNodeConfig :=
  ltac:(with_field tc_l1_pubdata_price v c).

Definition set_tc_price_scale_factor (v : option f64) (c : TestNodeConfig) : TestNodeConfig :=
  ltac:(with_field tc_price_scale_factor v c).

Definition set_tc_limit_scale_factor (v : option f32) (c : TestNodeConfig) : TestNodeConfig :=
  ltac:(with_field tc_limit_scale_factor v c).

Definition set_tc_log_level (v : LogLevel) (c : TestNodeConfig) : TestNodeConfig :=
  ltac:(with_field tc_log_level v c).

Definition set_tc_log_file_path (v : string) (c : TestNodeConfig) : TestNodeConfig :=
  ltac:(with_field tc_log_file_path v c).

Definition set_tc_cache_dir (v : string) (c : TestNodeConfig) : TestNodeConfig :=
  ltac:(with_field tc_cache_dir v c).

Definition set_tc_cache_config (v : CacheConfig) (c : TestNodeConfig) : TestNodeConfig :=
  ltac:(with_field tc_cache_config v c).

Definition set_tc_genesis_accounts (v : list Signer) (c : TestNodeConfig) : TestNodeConfig :=
  ltac:(with_field tc_genesis_accounts v c).

Definition set_tc_genesis_balance (v : Z) (c : TestNodeConfig) : TestNodeConfig :=
  ltac:(with_field tc_genesis_balance v c).

Definition set_tc_account_generator (v : option AccountGenerator) (c : TestNodeConfig) : TestNodeConfig :=
  ltac:(with_field tc_account_generator v c).

Definition set_tc_signer_accounts (v : list Signer) (c : TestNodeConfig) : TestNodeConfig :=
  ltac:(with_field tc_signer_accounts v c).

Definition set_tc_genesis (v : option Genesis) (c : TestNodeConfig) : TestNodeConfig :=
  ltac:(with_field tc_genesis v c).

Definition set_tc_genesis_timestamp (v : option Z) (c : TestNodeConfig) : TestNodeConfig :=
  ltac:(with_field tc_genesis_timestamp v c).

Definition set_tc_enable_auto_impersonate (v : bool) (c : TestNodeConfig) : TestNodeConfig :=
  ltac:(with_field tc_enable_auto_impersonate v c).

Definition set_tc_offline (v : bool) (c : TestNodeConfig) : TestNodeConfig :=
  ltac:(with_field tc_offline v c).

Definition set_tc_host (v : list IpAddr) (c : TestNodeConfig) : TestNodeConfig :=
  ltac:(with_field tc_host v c).

Definition set_tc_health_check_endpoint (v : bool) (c : TestNodeConfig) : TestNodeConfig :=
  ltac:(with_field tc_health_check_endpoint v c).

Definition set_tc_block_time (v : option Duration) (c : TestNodeConfig) : TestNodeConfig :=
  ltac:(with_field tc_block_time v c).

Definition set_tc_no_mining (v : bool) (c : TestNodeConfig) : TestNodeConfig :=
  ltac:(with_field tc_no_mining v c).

Definition set_tc_allow_origin (v : string) (c : TestNodeConfig) : TestNodeConfig :=
  ltac:(with_field tc_allow_origin v c).

Definition set_tc_no_cors (v : bool) (c : TestNodeConfig) : TestNodeConfig :=
  ltac:(with_field tc_no_cors v c).

Definition set_tc_transaction_order (v : TransactionOrder) (c : TestNodeConfig) : TestNodeConfig :=
  ltac:(with_field tc_transaction_order v c).

Definition set_tc_state (v : option string) (c : TestNodeConfig) : TestNodeConfig :=
  ltac:(with_field tc_state v c).

Definition set_tc_dump_state (v : option string) (c : TestNodeConfig) : TestNodeConfig :=
  ltac:(with_field tc_dump_state v c).

Definition set_tc_state_interval (v : option Z) (c : TestNodeConfig) : TestNodeConfig :=
  ltac:(with_field tc_state_interval v c).

Definition set_tc_preserve_historical_states (v : bool) (c : TestNodeConfig) : TestNodeConfig :=
  ltac:(with_field tc_preserve_historical_states v c).

Definition set_tc_load_state (v : option string) (c : TestNodeConfig) : TestNodeConfig :=
  ltac:(with_field tc_load_state v c).

Definition set_tc_l1_config (v : option L1Config) (c : TestNodeConfig) : TestNodeConfig :=
  ltac:(with_field tc_l1_config v c).

Definition set_tc_auto_execute_l1 (v : bool) (c : TestNodeConfig) : TestNodeConfig :=
  ltac:(with_field tc_auto_execute_l1 v c).

Definition set_tc_base_token_config (v : BaseTokenConfig) (c : TestNodeConfig) : TestNodeConfig :=
  ltac:(with_field tc_base_token_config v c).

(** The defaults, with the accounts of the default phrase. *)
Definition default_with (accounts : list Signer) : TestNodeConfig :=
  mkTestNodeConfig
    None NODE_PORT true StorageNone VMNone GasNone 0 false BuiltIn None None None false false
    (mkBoojumConfig false None) None None None None None None LogNone DEFAULT_LOG_FILE_PATH
    DEFAULT_DISK_CACHE_DIR default_CacheConfig accounts (100 * 10 ^ 18) None accounts None
    (Some NON_FORK_FIRST_BLOCK_TIMESTAMP) false false [LOCALHOST] false None 1000 false "*" false
    Fifo None None None false None None false default_base_token.

Definition default_config {S E} : M S E TestNodeConfig :=
  genesis_accounts ← gen (gen_phrase DEFAULT_MNEMONIC (AccountGenerator_new 10));
  mret (default_with genesis_accounts).

(** ** Builder methods *)
Definition set_config_out (config_out : option string) (c : TestNodeConfig) : TestNodeConfig :=
  set_tc_config_out config_out c.

Definition with_port (port : option Z) (c : TestNodeConfig) : TestNodeConfig :=
  match port with Some port => set_tc_port port c | None => c end.

Definition with_chain_id (chain_id : option Z) (c : TestNodeConfig) : TestNodeConfig :=
  match chain_id with Some chain_id => set_tc_chain_id (Some chain_id) c | None => c end.

Definition update_chain_id (chain_id : option Z) (c : TestNodeConfig) : TestNodeConfig :=
  set_tc_chain_id chain_id c.

Definition with_system_contracts (option_ : option SystemContractsOptions) (c : TestNodeConfig) : TestNodeConfig :=
  match option_ with Some option_ => set_tc_system_contracts_options option_ c | None => c end.

Definition with_system_contracts_path (path : option string) (c : TestNodeConfig) : TestNodeConfig :=
  match path with Some path => set_tc_system_contracts_path (Some path) c | None => c end.

Definition with_protocol_version (protocol_version : option Z) (c : TestNodeConfig) : TestNodeConfig :=
  set_tc_protocol_version protocol_version c.

Definition with_override_bytecodes_dir (dir : option string) (c : TestNodeConfig) : TestNodeConfig :=
  match dir with Some dir => set_tc_override_bytecodes_dir (Some dir) c | None => c end.

Definition with_enforce_bytecode_compression (enforce : option bool) (c : TestNodeConfig) : TestNodeConfig :=
  match enforce with Some enforce => set_tc_bytecode_compression enforce c | None => c end.

Definition with_evm_interpreter (enable : option bool) (c : TestNodeConfig) : TestNodeConfig :=
  match enable with Some enable => set_tc_use_evm_interpreter enable c | None => c end.

Definition with_boojum (boojum : BoojumConfig) (c : TestNodeConfig) : TestNodeConfig :=
  set_tc_boojum boojum c.

Definition with_l1_gas_price (price : option Z) (c : TestNodeConfig) : TestNodeConfig :=
  match price with Some price => set_tc_l1_gas_price (Some price) c | None => c end.

Definition update_l1_gas_price (price : option Z) (c : TestNodeConfig) : TestNodeConfig :=
  set_tc_l1_gas_price price c.

Definition with_l2_gas_price (price : option Z) (c : TestNodeConfig) : TestNodeConfig :=
  match price with Some price => set_tc_l2_gas_price (Some price) c | None => c end.

Definition update_l2_gas_price (price : option Z) (c : TestNodeConfig) : TestNodeConfig :=
  set_tc_l2_gas_price price c.

Definition with_l1_pubdata_price (price : option Z) (c : TestNodeConfig) : TestNodeConfig :=
  set_tc_l1_pubdata_price price c.

Definition update_l1_pubdata_price (price : option Z) (c : TestNodeConfig) : TestNodeConfig :=
  set_tc_l1_pubdata_price price c.

Definition with_log_level (level : option LogLevel) (c : TestNodeConfig) : TestNodeConfig :=
  match level with Some level => set_tc_log_level level c | None => c end.

Definition with_cache_dir (dir : option string) (c : TestNodeConfig) : TestNodeConfig :=
  match dir with Some dir => set_tc_cache_dir dir c | None => c end.

Definition with_cache_config (config_ : option CacheConfig) (c : TestNodeConfig) : TestNodeConfig :=
  match config_ with Some config_ => set_tc_cache_config config_ c | None => c end.

Definition with_log_file_path (path : option string) (c : TestNodeConfig) : TestNodeConfig :=
  match path with Some path => set_tc_log_file_path path c | None => c end.

Definition with_verbosity_level (verbosity : Z) (c : TestNodeConfig) : TestNodeConfig :=
  set_tc_verbosity verbosity c.

Definition with_silent (silent : option bool) (c : TestNodeConfig) : TestNodeConfig :=
  match silent with Some silent => set_tc_silent silent c | None => c end.

Definition with_show_node_config (show : option bool) (c : TestNodeConfig) : TestNodeConfig :=
  match show with Some show => set_tc_show_node_config show c | None => c end.

Definition with_show_storage_logs (show : option ShowStorageLogs) (c : TestNodeConfig) : TestNodeConfig :=
  match show with Some show => set_tc_show_storage_logs show c | None => c end.

Definition with_vm_log_detail (detail : option ShowVMDetails) (c : TestNodeConfig) : TestNodeConfig :=
  match detail with Some detail => set_tc_show_vm_details detail c | None => c end.

Definition with_show_gas_details (show : option ShowGasDetails) (c : TestNodeConfig) : TestNodeConfig :=
  match show with Some show => set_tc_show_gas_details show c | None => c end.

Definition with_gas_limit_scale (scale : option f32) (c : TestNodeConfig) : TestNodeConfig :=
  match scale with Some scale => set_tc_limit_scale_factor (Some scale) c | None => c end.

Definition update_gas_limit_scale (scale : option f32) (c : TestNodeConfig) : TestNodeConfig :=
  set_tc_limit_scale_factor scale c.

Definition with_price_scale (scale : option f64) (c : TestNodeConfig) : TestNodeConfig :=
  match scale with Some scale => set_tc_price_scale_factor (Some scale) c | None => c end.

Definition update_price_scale (scale : option f64) (c : TestNodeConfig) : TestNodeConfig :=
  set_tc_price_scale_factor scale c.

Definition with_genesis_balance (balance : Z) (c : TestNodeConfig) : TestNodeConfig :=
  set_tc_genesis_balance balance c.

Definition with_genesis_accounts (accounts : list Signer) (c : TestNodeConfig) : TestNodeConfig :=
  set_tc_genesis_accounts accounts c.

Definition with_signer_accounts (accounts : list Signer) (c : TestNodeConfig) : TestNodeConfig :=
  set_tc_signer_accounts accounts c.

Definition with_account_generator {S E} (generator : AccountGenerator) (c : TestNodeConfig) : M S E TestNodeConfig :=
  accounts ← gen generator;
  let c := set_tc_account_generator (Some generator) c in
  mret (with_genesis_accounts accounts (with_signer_accounts accounts c)).

Definition with_genesis_timestamp (timestamp : option Z) (c : TestNodeConfig) : TestNodeConfig :=
  set_tc_genesis_timestamp timestamp c.

Definition with_genesis (genesis : option Genesis) (c : TestNodeConfig) : TestNodeConfig :=
  set_tc_genesis genesis c.

Definition with_auto_impersonate (enable : bool) (c : TestNodeConfig) : TestNodeConfig :=
  set_tc_enable_auto_impersonate enable c.

Definition with_offline (offline : option bool) (c : TestNodeConfig) : TestNodeConfig :=
  match offline with Some offline => set_tc_offline offline c | None => c end.

Definition with_host (host : list IpAddr) (c : TestNodeConfig) : TestNodeConfig :=
  set_tc_host (match host with [] => [LOCALHOST] | _ => host end) c.

Definition with_health_check_endpoint (health_check : option bool) (c : TestNodeConfig) : TestNodeConfig :=
  match health_check with Some health_check => set_tc_health_check_endpoint health_check c | None => c end.

Definition with_block_time (block_time : option Duration) (c : TestNodeConfig) : TestNodeConfig :=
  set_tc_block_time block_time c.

Definition with_no_mining (no_mining : bool) (c : TestNodeConfig) : TestNodeConfig :=
  set_tc_no_mining no_mining c.

Definition with_transaction_order (order : TransactionOrder) (c : TestNodeConfig) : TestNodeConfig :=
  set_tc_transaction_order order c.

Definition with_allow_origin (allow_origin : string) (c : TestNodeConfig) : TestNodeConfig :=
  set_tc_allow_origin allow_origin c.

Definition with_no_cors (no_cors : bool) (c : TestNodeConfig) : TestNodeConfig :=
  set_tc_no_cors no_cors c.

Definition with_state (state : option string) (c : TestNodeConfig) : TestNodeConfig :=
  set_tc_state state c.

Definition with_dump_state (dump_state : option string) (c : TestNodeConfig) : TestNodeConfig :=
  set_tc_dump_state dump_state c.

Definition with_state_interval (interval : option Z) (c : TestNodeConfig) : TestNodeConfig :=
  set_tc_state_interval interval c.

Definition with_preserve_historical_states (preserve : bool) (c : TestNodeConfig) : TestNodeConfig :=
  set_tc_preserve_historical_states preserve c.

Definition with_load_state (load_state : option string) (c : TestNodeConfig) : TestNodeConfig :=
  set_tc_load_state load_state c.

Definition with_l1_config (l1_config : option L1Config) (c : TestNodeConfig) : TestNodeConfig :=
  set_tc_l1_config l1_config c.

Definition with_auto_execute_l1 (auto : option bool) (c : TestNodeConfig) : TestNodeConfig :=
  set_tc_auto_execute_l1 (default false auto) c.

Definition with_base_token_config (base_token_config : BaseTokenConfig) (c : TestNodeConfig) : TestNodeConfig :=
  set_tc_base_token_config base_token_config c.

(** [protocol_version]: local contracts need an explicit version. *)
Definition get_protocol_version {S E} (c : TestNodeConfig) : M S E Z :=
  match tc_system_contracts_options c with
  | BuiltIn | BuiltInWithoutSecurity => mret (default DEFAULT_PROTOCOL_VERSION (tc_protocol_version c))
  | LocalContracts =>
      expect "cannot deduce protocol version when using local contracts; please specify --protocol-version explicitly"
        (tc_protocol_version c)
  end.

Definition get_chain_id (c : TestNodeConfig) : Z := default TEST_NODE_NETWORK_ID (tc_chain_id c).
Definition get_l1_gas_price (c : TestNodeConfig) : Z := default DEFAULT_L1_GAS_PRICE (tc_l1_gas_price c).
Definition get_l2_gas_price (c : TestNodeConfig) : Z := default DEFAULT_L2_GAS_PRICE (tc_l2_gas_price c).
Definition get_l1_pubdata_price (c : TestNodeConfig) : Z :=
  default DEFAULT_FAIR_PUBDATA_PRICE (tc_l1_pubdata_price c).
Definition get_gas_limit_scale (c : TestNodeConfig) : f32 :=
  default DEFAULT_ESTIMATE_GAS_SCALE_FACTOR (tc_limit_scale_factor c).
Definition get_price_scale (c : TestNodeConfig) : f64 :=
  default DEFAULT_ESTIMATE_GAS_PRICE_SCALE_FACTOR (tc_price_scale_factor c).
Definition get_genesis_timestamp (c : TestNodeConfig) : Z :=
  default NON_FORK_FIRST_BLOCK_TIMESTAMP (tc_genesis_timestamp c).

(** What the node keeps of the configuration; the contracts to deploy are read
    from the artifacts. *)
Definition node_config_of (deployed : Z → list DeployedContract) (c : TestNodeConfig) : NodeConfig :=
  mkConfig (tc_genesis c) (tc_genesis_timestamp c) (tc_chain_id c) deployed
    (map signer_address (tc_genesis_accounts c)) (map signer_address (tc_signer_accounts c))
    (tc_genesis_balance c) (tc_cache_config c) (tc_max_transactions c) (tc_use_evm_interpreter c).
End Config.
