(* ===== verification/Cli.v ===== *)
(** * Command line

    [crates/cli/src/cli.rs] and [crates/cli/src/utils.rs]: the arguments, the
    networks that can be forked by name, what the arguments mean for the
    configuration, and what of them is reported by telemetry.  The grammar of
    the command line is [clap]'s; URLs, telemetry properties and the debug text
    of the arguments are interfaces. *)
From S2P Require Import Prelude Types Utils Text Pool Cache Fork Storage Blockchain Inner Config.
From Stdlib Require Import Ascii SpecFloat.
Local Open Scope Z_scope.

Definition DEFAULT_PORT : string := "8011".
Definition DEFAULT_HOST : string := "0.0.0.0".
Definition DEFAULT_ACCOUNTS : string := "10".
Definition DEFAULT_BALANCE : string := "10000".
Definition DEFAULT_ALLOW_ORIGIN : string := "*".
Definition DEFAULT_TX_ORDER : string := "fifo".

Inductive CacheType := CacheTypeNone | CacheTypeMemory | CacheTypeDisk.

Record BoojumGroup := mkBoojumGroup {
  bg_use_boojum : bool;
  bg_boojum_bin_path : option string;
}.

Definition boojum_config_of (group : BoojumGroup) : BoojumConfig :=
  mkBoojumConfig (bg_use_boojum group) (bg_boojum_bin_path group).

Record L1Group := mkL1Group {
  spawn_l1 : option Z;
  external_l1 : option string;
}.

(** Networks with a name of their own. *)
Inductive BuiltinNetwork :=
| Era | EraTestnet | Abstract | AbstractTestnet | Sophon | SophonTestnet
| Cronos | CronosTestnet | Lens | LensTestnet | Openzk | OpenzkTestnet
| WonderchainTestnet | Zkcandy.

Inductive ForkUrl :=
| Builtin (net : BuiltinNetwork)
| CustomUrl (url : string).

Record ForkArgs := mkForkArgs {
  fa_fork_url : ForkUrl;
  fork_block_number : option Z;
  fork_transaction_hash : option H256;
}.

Record ReplayArgs := mkReplayArgs {
  ra_fork_url : ForkUrl;
  replay_tx_hash : H256;
}.

Inductive Command :=
| Run
| ForkCommand (args : ForkArgs)
| ReplayTx (args : ReplayArgs).

(** [num::rational::Ratio<u64>] *)
Record Ratio := mkRatioU64 { numer : Z; denom : Z }.
Definition Ratio_ONE : Ratio := mkRatioU64 1 1.

Record Cli := mkCli {
  cli_command : option Command;
  cli_offline : bool;
  cli_health_check_endpoint : bool;
  cli_config_out : option string;
  cli_port : option Z;
  cli_host : list IpAddr;
  cli_chain_id : option Z;
  cli_show_node_config : option bool;
  cli_show_storage_logs : option ShowStorageLogs;
  cli_show_vm_details : option ShowVMDetails;
  cli_show_gas_details : option ShowGasDetails;
  cli_verbosity : Z;
  cli_l1_gas_price : option Z;
  cli_l2_gas_price : option Z;
  cli_l1_pubdata_price : option Z;
  cli_price_scale_factor : option f64;
  cli_limit_scale_factor : option f32;
  cli_override_bytecodes_dir : option string;
  cli_enforce_bytecode_compression : option bool;
  cli_dev_system_contracts : option SystemContractsOptions;
  cli_system_contracts_path : option string;
  cli_protocol_version : option Z;
  cli_evm_interpreter : bool;
  cli_boojum_group : BoojumGroup;
  cli_log : option LogLevel;
  cli_log_file_path : option string;
  cli_silent : option bool;
  cli_cache : option CacheType;
  cli_reset_cache : option bool;
  cli_cache_dir : option string;
  cli_accounts : Z;
  cli_balance : Z;
  cli_timestamp : option Z;
  cli_init : option Genesis;
  cli_state : option string;
  cli_state_interval : option Z;
  cli_dump_state : option string;
  cli_preserve_historical_states : bool;
  cli_load_state : option string;
  cli_mnemonic : option string;
  cli_mnemonic_random : option nat;
  cli_mnemonic_seed : option Z;
  cli_derivation_path : option string;
  cli_auto_impersonate : bool;
  cli_block_time : option Duration;
  cli_no_mining : bool;
  cli_allow_origin : string;
  cli_no_cors : bool;
  cli_order : TransactionOrder;
  cli_l1_group : option L1Group;
  cli_auto_execute_l1 : option bool;
  cli_base_token_symbol : option string;
  cli_base_token_ratio : option Ratio;
}.

(** The error of [AnvilEnvironmentError] that the arguments can cause. *)
Inductive EnvError := InvalidArguments (details arguments : string).

(** ** Networks *)
Definition all_networks : list BuiltinNetwork :=
  [Era; EraTestnet; Abstract; AbstractTestnet; Sophon; SophonTestnet; Cronos; CronosTestnet;
   Lens; LensTestnet; Openzk; OpenzkTestnet; WonderchainTestnet; Zkcandy].

(** The names of a network on the command line, its aliases last. *)
Definition network_names (net : BuiltinNetwork) : list string :=
  match net with
  | Era => ["era"; "mainnet"]
  | EraTestnet => ["era-testnet"; "sepolia-testnet"]
  | Abstract => ["abstract"]
  | AbstractTestnet => ["abstract-testnet"]
  | Sophon => ["sophon"; "sophon-mainnet"]
  | SophonTestnet => ["sophon-testnet"]
  | Cronos => ["cronos"]
  | CronosTestnet => ["cronos-testnet"]
  | Lens => ["lens"]
  | LensTestnet => ["lens-testnet"]
  | Openzk => ["openzk"]
  | OpenzkTestnet => ["openzk-testnet"]
  | WonderchainTestnet => ["wonderchain-testnet"]
  | Zkcandy => ["zkcandy"]
  end.

(** [BuiltinNetwork::from_str(s, true)]: the first network with that name,
    whatever the case of its letters. *)
Definition network_from_str (s : string) : option BuiltinNetwork :=
  head (filter (λ net, lower s ∈ network_names net) all_networks).

Definition network_url (net : BuiltinNetwork) : string :=
  match net with
  | Era => "https://mainnet.era.zksync.io"
  | EraTestnet => "https://sepolia.era.zksync.dev"
  | Abstract => "https://api.mainnet.abs.xyz"
  | AbstractTestnet => "https://api.testnet.abs.xyz"
  | Sophon => "https://rpc.sophon.xyz"
  | SophonTestnet => "https://rpc.testnet.sophon.xyz"
  | Cronos => "https://mainnet.zkevm.cronos.org"
  | CronosTestnet => "https://testnet.zkevm.cronos.org"
  | Lens => "https://rpc.lens.xyz"
  | LensTestnet => "https://rpc.testnet.lens.xyz"
  | Openzk => "https://rpc.openzk.net"
  | OpenzkTestnet => "https://openzk-testnet.rpc.caldera.xyz/http"
  | WonderchainTestnet => "https://rpc.testnet.wonderchain.org"
  | Zkcandy => "https://rpc.zkcandy.io"
  end.

(** 1.5, 2.0 and, in single precision, 1.3. *)
Definition f64_1_5 : f64 := S754_finite false 6755399441055744 (-52).
Definition f64_2_0 : f64 := S754_finite false 4503599627370496 (-51).
Definition f32_1_3 : f32 := S754_finite false 10905190 (-23).

Definition network_price_scale (net : BuiltinNetwork) : f64 :=
  match net with EraTestnet => f64_2_0 | _ => f64_1_5 end.

(** Debug texts derived from the names of the constructors. *)
Definition network_debug (net : BuiltinNetwork) : string :=
  match net with
  | Era => "Era" | EraTestnet => "EraTestnet" | Abstract => "Abstract"
  | AbstractTestnet => "AbstractTestnet" | Sophon => "Sophon" | SophonTestnet => "SophonTestnet"
  | Cronos => "Cronos" | CronosTestnet => "CronosTestnet" | Lens => "Lens"
  | LensTestnet => "LensTestnet" | Openzk => "Openzk" | OpenzkTestnet => "OpenzkTestnet"
  | WonderchainTestnet => "WonderchainTestnet" | Zkcandy => "Zkcandy"
  end.

Definition contracts_debug (o : SystemContractsOptions) : string :=
  match o with
  | BuiltIn => "BuiltIn" | LocalContracts => "Local" | BuiltInWithoutSecurity => "BuiltInWithoutSecurity"
  end.

Definition cache_debug (c : CacheType) : string :=
  match c with CacheTypeNone => "None" | CacheTypeMemory => "Memory" | CacheTypeDisk => "Disk" end.

(** ** Libraries

    URLs ([url::Url], by the text they normalise to), the properties of
    [zksync_telemetry], the debug text of the arguments and the names and
    numbers of protocol versions. *)
Inductive PropValue (P : Type) :=
| PropBool (b : bool)
| PropString (s : string)
| PropNumber (n : Z)
| PropFloat (x : f64)
| PropNested (p : P).
Arguments PropBool {_} _.
Arguments PropString {_} _.
Arguments PropNumber {_} _.
Arguments PropFloat {_} _.
Arguments PropNested {_} _.

Class CliApi := {
  parse_url : string → result string string;
  TelemetryProps : Type;
  props_new : TelemetryProps;
  (** [insert(key, value)]: with [None] the property is left out. *)
  props_insert : string → option (PropValue TelemetryProps) → TelemetryProps → TelemetryProps;
  cli_debug_text : Cli → string;
  protocol_version_display : Z → string;
  protocol_version_try_from : Z → option Z;
}.

Section Cli.
Context {WA : WalletApi} {CLA : CliApi}.

Definition to_fork_config {S E} (net : BuiltinNetwork) : M S E ForkConfig :=
  url ← expect UNWRAP_ERR (match parse_url (network_url net) with Ok u => Some u | Err _ => None end);
  mret (mkForkConfig url (network_price_scale net) f32_1_3).

Definition to_config {S E} (u : ForkUrl) : M S E ForkConfig :=
  match u with
  | Builtin net => to_fork_config net
  | CustomUrl url => mret (ForkConfig_unknown url)
  end.

Definition fork_url_from_str (s : string) : result ForkUrl string :=
  match network_from_str s with
  | Some net => Ok (Builtin net)
  | None =>
      match parse_url s with
      | Ok url => Ok (CustomUrl url)
      | Err e => Err ("`" +:+ s +:+ "` is neither a known network nor a valid URL: " +:+ e)
      end
  end.

(** ** Deprecated options *)
Definition nl : string := String "010" EmptyString.

Definition VERBOSITY_HINT : string :=
  nl +:+ "-vv  → Show user calls" +:+ nl +:+ "-vvv → Show system calls".

Definition deprecated_flags : list (string * string) :=
  [("--config", "⚠ The '--config' option has been removed. Please migrate to using other configuration options or defaults.");
   ("--show-calls", "⚠ The '--show-calls' option is deprecated. Use verbosity levels instead:" +:+ VERBOSITY_HINT);
   ("--show-event-logs", "⚠ The '--show-event-logs' option is deprecated. Event logs are now included in traces by default."
      +:+ nl +:+ "Use verbosity levels instead:" +:+ VERBOSITY_HINT);
   ("--resolve-hashes", "⚠ The '--resolve-hashes' option is deprecated. Automatic decoding of function and event selectors"
      +:+ nl +:+ "using OpenChain is now enabled by default, unless running in offline mode."
      +:+ nl +:+ "If needed, disable it explicitly with `--offline`.");
   ("--show-outputs", "⚠ The '--show-outputs' option has been deprecated. Output logs are now included in traces by default.");
   ("--debug", "⚠ The '--debug' (or '-d') option is deprecated. Use verbosity levels instead:" +:+ VERBOSITY_HINT);
   ("-d", "⚠ The '-d' option is deprecated. Use verbosity levels instead:" +:+ VERBOSITY_HINT)].

Definition prefix_flags : list string :=
  ["--config="; "--show-calls="; "--resolve-hashes="; "--show-outputs="; "--show-event-logs="].

Fixpoint assoc (k : string) (l : list (string * string)) : option string :=
  match l with
  | [] => None
  | (k', v) :: l => if bool_decide (k = k') then Some v else assoc k l
  end.

(** [s.trim_end_matches("=")] *)
Fixpoint trim_end_equals (s : string) : string :=
  match s with
  | EmptyString => EmptyString
  | String c s =>
      let s' := trim_end_equals s in
      if bool_decide (c = "="%char) && bool_decide (s' = EmptyString) then EmptyString else String c s'
  end.

Definition DETECTED : list string :=
  ["⚠ Deprecated CLI Options Detected (as of v0.4.0):" +:+ nl;
   "[Options below will be removed in v0.4.1]" +:+ nl].

Definition UNKNOWN_DEPRECATED : string := "⚠ Unknown deprecated option.".

(** The warning for one argument. *)
Definition warning_for (arg : string) : option string :=
  match assoc arg deprecated_flags with
  | Some warning => Some warning
  | None =>
      match head (filter (λ p, String.prefix p arg = true) prefix_flags) with
      | Some base_flag => Some (default UNKNOWN_DEPRECATED (assoc (trim_end_equals base_flag) deprecated_flags))
      | None => None
      end
  end.

(** The loop over the arguments, with its flag; the warnings in order. *)
Fixpoint warn_loop (detected : bool) (args : list string) : list string :=
  match args with
  | [] => []
  | arg :: args =>
      match warning_for arg with
      | Some warning => (if detected then [] else DETECTED) ++ warning :: warn_loop true args
      | None => warn_loop detected args
      end
  end.

Definition deprecated_config_option (args : list string) : list string := warn_loop false args.

(** ** From the arguments to the configuration *)
Definition account_generator (c : Cli) : AccountGenerator :=
  let gen := gen_chain_id (default TEST_NODE_NETWORK_ID (cli_chain_id c))
               (gen_phrase DEFAULT_MNEMONIC (AccountGenerator_new (Z.to_nat (cli_accounts c)))) in
  let gen :=
    match cli_mnemonic c, cli_mnemonic_random c, cli_mnemonic_seed c with
    | Some mnemonic, _, _ => gen_phrase mnemonic gen
    | None, Some count, _ => gen_phrase (default DEFAULT_MNEMONIC (random_phrase_with_count count)) gen
    | None, None, Some seed => gen_phrase (seeded_phrase seed) gen
    | None, None, None => gen
    end in
  match cli_derivation_path c with
  | Some derivation => gen_derivation_path derivation gen
  | None => gen
  end.

Definition cache_config_of (c : Cli) : option CacheConfig :=
  cache_type ← cli_cache c;
  Some match cache_type with
       | CacheTypeNone => CacheNone
       | CacheTypeMemory => CacheMemory
       | CacheTypeDisk =>
           CacheDisk (default DEFAULT_DISK_CACHE_DIR (cli_cache_dir c)) (default false (cli_reset_cache c))
       end.

Definition l1_config_of (group : option L1Group) : option L1Config :=
  group ← group;
  match spawn_l1 group with
  | Some port => Some (L1Spawn port)
  | None => address ← external_l1 group; Some (L1External address)
  end.

Definition NUMERATOR_ZERO : string := "base token conversion ratio cannot have 0 as numerator".
Definition DENOMINATOR_ZERO : string := "base token conversion ratio cannot have 0 as denominator".

(** [NonZeroU64::new(n)] *)
Definition non_zero (n : Z) : option Z := if n =? 0 then None else Some n.

Definition base_token_of {S E} (c : Cli) : M S E BaseTokenConfig :=
  let ratio := default Ratio_ONE (cli_base_token_ratio c) in
  n ← expect NUMERATOR_ZERO (non_zero (numer ratio));
  d ← expect DENOMINATOR_ZERO (non_zero (denom ratio));
  mret (mkBaseTokenConfig (default "ETH" (cli_base_token_symbol c)) (mkRatio n d)).

Definition flag (b : bool) : option bool := if b then Some true else None.

(** The options of the first half of the chain of builders. *)
Definition with_cli_options (c : Cli) (t : TestNodeConfig) : TestNodeConfig :=
  with_log_file_path (cli_log_file_path c)
  (with_log_level (cli_log c)
  (with_enforce_bytecode_compression (cli_enforce_bytecode_compression c)
  (with_override_bytecodes_dir (cli_override_bytecodes_dir c)
  (with_protocol_version (cli_protocol_version c)
  (with_system_contracts_path (cli_system_contracts_path c)
  (with_system_contracts (cli_dev_system_contracts c)
  (with_silent (cli_silent c)
  (with_show_node_config (cli_show_node_config c)
  (with_verbosity_level (cli_verbosity c)
  (with_price_scale (cli_price_scale_factor c)
  (with_gas_limit_scale (cli_limit_scale_factor c)
  (with_show_gas_details (cli_show_gas_details c)
  (with_show_storage_logs (cli_show_storage_logs c)
  (with_vm_log_detail (cli_show_vm_details c)
  (with_l1_pubdata_price (cli_l1_pubdata_price c)
  (with_l2_gas_price (cli_l2_gas_price c)
  (with_l1_gas_price (cli_l1_gas_price c)
  (with_offline (flag (cli_offline c))
  (with_port (cli_port c) t))))))))))))))))))).

(** The options that follow the accounts. *)
Definition with_cli_chain (genesis_balance : Z) (c : Cli) (t : TestNodeConfig) : TestNodeConfig :=
  with_auto_execute_l1 (cli_auto_execute_l1 c)
  (with_l1_config (l1_config_of (cli_l1_group c))
  (with_load_state (cli_load_state c)
  (with_preserve_historical_states (cli_preserve_historical_states c)
  (with_dump_state (cli_dump_state c)
  (with_state_interval (cli_state_interval c)
  (with_state (cli_state c)
  (with_transaction_order (cli_order c)
  (with_no_cors (cli_no_cors c)
  (with_allow_origin (cli_allow_origin c)
  (with_no_mining (cli_no_mining c)
  (with_block_time (cli_block_time c)
  (with_health_check_endpoint (flag (cli_health_check_endpoint c))
  (with_boojum (boojum_config_of (cli_boojum_group c))
  (with_evm_interpreter (flag (cli_evm_interpreter c))
  (with_host (cli_host c)
  (set_config_out (cli_config_out c)
  (with_chain_id (cli_chain_id c)
  (with_genesis (cli_init c)
  (with_genesis_timestamp (cli_timestamp c)
  (with_cache_config (cache_config_of c)
  (with_cache_dir (cli_cache_dir c)
  (with_genesis_balance genesis_balance
  (with_auto_impersonate (cli_auto_impersonate c) t))))))))))))))))))))))).

Definition EVM_NEEDS_27 : string := "EVM interpreter requires protocol version 27 or higher".

(** [self.balance as u128 * 10u128.pow(18)] *)
Definition genesis_balance_of (c : Cli) : Z := (cli_balance c * 10 ^ 18) mod 2 ^ 128.

Definition into_test_node_config {S} (c : Cli) : M S EnvError TestNodeConfig :=
  let genesis_balance := genesis_balance_of c in
  t ← default_config;
  t ← with_account_generator (account_generator c) (with_cli_options c t);
  base_token ← base_token_of c;
  let t := with_base_token_config base_token (with_cli_chain genesis_balance c t) in
  if cli_evm_interpreter c then
    version ← get_protocol_version t;
    if version <? 27 then throw (InvalidArguments EVM_NEEDS_27 (cli_debug_text c)) else mret t
  else mret t.

(** ** Telemetry *)
Definition TELEMETRY_SENSITIVE_VALUE : string := "***".

Abbreviation Value := (PropValue TelemetryProps).

(** A chain of [insert]s. *)
Definition props_of (l : list (string * option Value)) : TelemetryProps :=
  foldl (λ p kv, props_insert kv.1 kv.2 p) props_new l.

Definition hidden {A} (v : option A) : option Value := (λ _, PropString TELEMETRY_SENSITIVE_VALUE) <$> v.
Definition when_set (b : bool) : option Value := if b then Some (PropBool b) else None.
Definition number (v : option Z) : option Value := PropNumber <$> v.
Definition text {A} (show : A → string) (v : option A) : option Value := (λ a, PropString (show a)) <$> v.

(** [Number::from_f64(v).unwrap_or(Number::from(0))] *)
Definition float (v : f64) : Value :=
  match v with S754_infinity _ | S754_nan => PropNumber 0 | _ => PropFloat v end.

(** [v as f64] *)
Definition f32_as_f64 (v : f32) : f64 :=
  match v with
  | S754_finite s m e => binary_normalize 53 1024 (if s then - Zpos m else Zpos m) e s
  | _ => v
  end.

(** [Debug] of a duration: the largest unit with an integral part, the fraction
    without trailing zeros. *)
Fixpoint pad_zeros (n : nat) (s : string) : string :=
  match n with O => s | S n => String "0" (pad_zeros n s) end.

Definition fmt_decimal (integral fractional : Z) (width : nat) : string :=
  let digits := dec fractional in
  let fraction := trim_end_zeros (pad_zeros (width - String.length digits) digits) in
  if fractional =? 0 then dec integral else dec integral +:+ "." +:+ fraction.

Definition duration_debug (d : Duration) : string :=
  let secs := d / 10 ^ 9 in
  let nanos := d mod 10 ^ 9 in
  if 0 <? secs then fmt_decimal secs nanos 9 +:+ "s"
  else if 10 ^ 6 <=? nanos then fmt_decimal (nanos / 10 ^ 6) (nanos mod 10 ^ 6) 6 +:+ "ms"
  else if 10 ^ 3 <=? nanos then fmt_decimal (nanos / 10 ^ 3) (nanos mod 10 ^ 3) 3 +:+ "µs"
  else dec nanos +:+ "ns".

Definition sensitive_fork_url (u : ForkUrl) : option Value :=
  match u with
  | CustomUrl _ => Some (PropString TELEMETRY_SENSITIVE_VALUE)
  | Builtin net => Some (PropString ("Builtin(" +:+ network_debug net +:+ ")"))
  end.

Definition get_cli_command_telemetry_props (command : option Command) : option TelemetryProps :=
  match command with
  | Some Run => Some (props_of [("name", Some (PropString "run")); ("args", None)])
  | Some (ForkCommand args) =>
      let command_args := props_of
        [("fork_url", sensitive_fork_url (fa_fork_url args));
         ("fork_block_number", number (fork_block_number args));
         ("fork_transaction_hash", hidden (fork_transaction_hash args))] in
      Some (props_of [("name", Some (PropString "fork")); ("args", Some (PropNested command_args))])
  | Some (ReplayTx args) =>
      let command_args := props_of
        [("fork_url", sensitive_fork_url (ra_fork_url args));
         ("tx", Some (PropString TELEMETRY_SENSITIVE_VALUE))] in
      Some (props_of [("name", Some (PropString "replay_tx")); ("args", Some (PropNested command_args))])
  | None => None
  end.

(** Reported unless it is the default. *)
Definition port_prop (port : option Z) : option Value :=
  match port with
  | Some p => if bool_decide (dec p = DEFAULT_PORT) then None else Some (PropString TELEMETRY_SENSITIVE_VALUE)
  | None => None
  end.

Definition host_prop (host : list IpAddr) : option Value :=
  match host with
  | [] => None
  | h :: rest =>
      if bool_decide (h ≠ DEFAULT_HOST) || negb (bool_decide (length host = 1%nat))
      then Some (PropString TELEMETRY_SENSITIVE_VALUE) else None
  end.

Definition number_unless (dflt : string) (v : Z) : option Value :=
  if bool_decide (dec v = dflt) then None else Some (PropNumber v).

Definition into_telemetry_props (c : Cli) : TelemetryProps := props_of
  [("command", PropNested <$> get_cli_command_telemetry_props (cli_command c));
   ("offline", when_set (cli_offline c));
   ("health_check_endpoint", when_set (cli_health_check_endpoint c));
   ("config_out", hidden (cli_config_out c));
   ("port", port_prop (cli_port c));
   ("host", host_prop (cli_host c));
   ("chain_id", hidden (cli_chain_id c));
   ("show_node_config", if default false (cli_show_node_config c) then None else Some (PropBool false));
   ("show_storage_logs", text storage_logs_display (cli_show_storage_logs c));
   ("show_vm_details", text vm_details_display (cli_show_vm_details c));
   ("show_gas_details", text gas_details_display (cli_show_gas_details c));
   ("l1_gas_price", number (cli_l1_gas_price c));
   ("l2_gas_price", number (cli_l2_gas_price c));
   ("l1_pubdata_price", number (cli_l1_pubdata_price c));
   ("price_scale_factor", float <$> cli_price_scale_factor c);
   ("limit_scale_factor", (λ v, float (f32_as_f64 v)) <$> cli_limit_scale_factor c);
   ("override_bytecodes_dir", hidden (cli_override_bytecodes_dir c));
   ("dev_system_contracts", text contracts_debug (cli_dev_system_contracts c));
   ("protocol_version", text protocol_version_display (cli_protocol_version c));
   ("evm_interpreter", when_set (cli_evm_interpreter c));
   ("log", text log_level_display (cli_log c));
   ("log_file_path", hidden (cli_log_file_path c));
   ("silent", PropBool <$> cli_silent c);
   ("cache", text cache_debug (cli_cache c));
   ("reset_cache", PropBool <$> cli_reset_cache c);
   ("cache_dir", hidden (cli_cache_dir c));
   ("accounts", number_unless DEFAULT_ACCOUNTS (cli_accounts c));
   ("balance", number_unless DEFAULT_BALANCE (cli_balance c));
   ("timestamp", number (cli_timestamp c));
   ("init", hidden (cli_init c));
   ("state", hidden (cli_state c));
   ("state_interval", number (cli_state_interval c));
   ("dump_state", hidden (cli_dump_state c));
   ("preserve_historical_states", when_set (cli_preserve_historical_states c));
   ("load_state", hidden (cli_load_state c));
   ("mnemonic", hidden (cli_mnemonic c));
   ("mnemonic_random", hidden (cli_mnemonic_random c));
   ("mnemonic_seed", hidden (cli_mnemonic_seed c));
   ("derivation_path", hidden (cli_derivation_path c));
   ("auto_impersonate", when_set (cli_auto_impersonate c));
   ("block_time", text duration_debug (cli_block_time c));
   ("no_mining", when_set (cli_no_mining c));
   ("allow_origin", if bool_decide (cli_allow_origin c = DEFAULT_ALLOW_ORIGIN) then None
                    else Some (PropString TELEMETRY_SENSITIVE_VALUE));
   ("no_cors", when_set (cli_no_cors c));
   ("order", if bool_decide (order_display (cli_order c) = DEFAULT_TX_ORDER) then None
             else Some (PropString (order_display (cli_order c))))].

(** [s.parse::<u16>()] and [ProtocolVersionId::try_from] *)
Fixpoint parse_digits (acc : Z) (s : string) : option Z :=
  match s with
  | EmptyString => Some acc
  | String c s =>
      let d := digit_value c in
      if (0 <=? d) && (d <=? 9) then
        let acc := acc * 10 + d in if acc <=? u16_max then parse_digits acc s else None
      else None
  end.

Definition parse_u16 (s : string) : option Z :=
  let s := match s with String "+" s => s | _ => s end in
  match s with EmptyString => None | _ => parse_digits 0 s end.

Definition protocol_version_from_str (s : string) : option Z :=
  version ← parse_u16 s; protocol_version_try_from version.

(** ** Accounts *)

(** Generation panics when a wallet is refused, and otherwise gives the
    accounts of the indices below the amount, each with a path of its own. *)
Lemma map_m_expect {S E A B} msg (f : A → option B) (xs : list A) (s : S) :
  match map_m (E := E) (λ x, expect msg (f x)) xs s with
  | Ret ys s' => s' = s ∧ Forall2 (λ x y, f x = Some y) xs ys
  | Panic m => m = msg ∧ ∃ x, x ∈ xs ∧ f x = None
  | Throw _ _ | Deadlock => False
  end.
Proof.
  induction xs as [|x xs IH]; [done|]. unfold mbind, M_bind in *. cbn [map_m].
  unfold mbind, M_bind. destruct (f x) as [y|] eqn:Hx; cbn.
  - destruct (map_m _ xs s); try done.
    + destruct IH as [-> IH]. split; [done|]. by constructor.
    + destruct IH as (-> & x' & ? & ?). split; [done|]. exists x'. set_solver.
  - split; [done|]. exists x. set_solver.
Qed.

Definition account_of (g : AccountGenerator) (i : nat) : option Signer :=
  build_signer (ag_phrase g) (account_path g i) (ag_chain_id g).

Lemma gen_outcome {S E} g (s : S) :
  match gen (E := E) g s with
  | Ret accounts s' => s' = s ∧ Forall2 (λ i a, account_of g i = Some a) (seq 0 (ag_amount g)) accounts
  | Panic _ => ∃ i, account_of g i = None
  | Throw _ _ | Deadlock => False
  end.
Proof.
  pose proof (map_m_expect (E := E) UNWRAP_ERR (account_of g) (seq 0 (ag_amount g)) s) as Hm.
  unfold gen. fold (account_of g). change (λ idx, expect _ _) with (λ x, expect (S := S) (E := E) UNWRAP_ERR (account_of g x)).
  destruct (map_m _ _ s); [done..| |done]. destruct Hm as (_ & i & _ & Hi). eauto.
Qed.

Lemma account_path_inj g i j :
  Z.of_nat i <= u256_max → Z.of_nat j <= u256_max → account_path g i = account_path g j → i = j.
Proof.
  intros Hi Hj He. unfold account_path in He. apply (inj (String.app _)) in He.
  apply dec_inj in He; lia.
Qed.

(** ** Reading a configuration that builders made *)

(** Steps over a builder that leaves a field alone. *)
Ltac skip_builder :=
  match goal with
  | |- ?f (?w ?o ?c) = _ =>
      let H := fresh in
      assert (H : ∀ x y, f (w x y) = f y)
        by first [intros ? ?; reflexivity | intros [] ?; reflexivity];
      rewrite (H o c); clear H
  end.

(** Reads a field out of a chain of builders. *)
Ltac read_field :=
  repeat skip_builder;
  first [reflexivity
        | match goal with
          | |- ?f (?w ?o ?c) = _ =>
              destruct o; [reflexivity|];
              first [reflexivity | match goal with |- _ = ?r => change (f c = r) end; read_field]
          end].

(** The same for a flag of the command line. *)
Ltac read_flag b :=
  repeat skip_builder; destruct b; [reflexivity|];
  match goal with |- ?f (?w ?o ?c) = ?r => change (f c = r) end; read_field.

(** What a configuration says about the arguments it was made from. *)
Record configured (c : Cli) (t : TestNodeConfig) : Prop := {
  cd_port : tc_port t = default NODE_PORT (cli_port c);
  cd_host : tc_host t = match cli_host c with [] => [LOCALHOST] | h => h end;
  cd_offline : tc_offline t = cli_offline c;
  cd_chain_id : tc_chain_id t = cli_chain_id c;
  cd_l1_gas_price : tc_l1_gas_price t = cli_l1_gas_price c;
  cd_l2_gas_price : tc_l2_gas_price t = cli_l2_gas_price c;
  cd_l1_pubdata_price : tc_l1_pubdata_price t = cli_l1_pubdata_price c;
  cd_price_scale : tc_price_scale_factor t = cli_price_scale_factor c;
  cd_limit_scale : tc_limit_scale_factor t = cli_limit_scale_factor c;
  cd_contracts : tc_system_contracts_options t = default BuiltIn (cli_dev_system_contracts c);
  cd_contracts_path : tc_system_contracts_path t = cli_system_contracts_path c;
  cd_protocol_version : tc_protocol_version t = cli_protocol_version c;
  cd_evm : tc_use_evm_interpreter t = cli_evm_interpreter c;
  cd_balance : tc_genesis_balance t = cli_balance c * 10 ^ 18;
  cd_accounts : Forall2 (λ i a, account_of (account_generator c) i = Some a)
                  (seq 0 (Z.to_nat (cli_accounts c))) (tc_genesis_accounts t);
  cd_signers : tc_signer_accounts t = tc_genesis_accounts t;
  cd_cache : tc_cache_config t = default default_CacheConfig (cache_config_of c);
  cd_l1 : tc_l1_config t = l1_config_of (cli_l1_group c);
  cd_base_token : let r := default Ratio_ONE (cli_base_token_ratio c) in
    bt_ratio (tc_base_token_config t) = mkRatio (numer r) (denom r) ∧ numer r ≠ 0 ∧ denom r ≠ 0;
  cd_no_mining : tc_no_mining t = cli_no_mining c;
  cd_block_time : tc_block_time t = cli_block_time c;
  cd_load_state : tc_load_state t = cli_load_state c;
  cd_state : tc_state t = cli_state c;
  cd_dump_state : tc_dump_state t = cli_dump_state c;
  cd_silent : tc_silent t = default false (cli_silent c);
  cd_override : tc_override_bytecodes_dir t = cli_override_bytecodes_dir c;
  cd_boojum : tc_boojum t = boojum_config_of (cli_boojum_group c);
}.

(** The protocol version that the arguments choose. *)
Definition version_of (c : Cli) : option Z :=
  match default BuiltIn (cli_dev_system_contracts c) with
  | LocalContracts => cli_protocol_version c
  | _ => Some (default DEFAULT_PROTOCOL_VERSION (cli_protocol_version c))
  end.

Lemma genesis_balance_fits c : is_u64 (cli_balance c) → genesis_balance_of c = cli_balance c * 10 ^ 18.
Proof. unfold is_u64, u64_max, genesis_balance_of. intros. apply Z.mod_small. lia. Qed.

Lemma ag_amount_of c : ag_amount (account_generator c) = Z.to_nat (cli_accounts c).
Proof.
  unfold account_generator.
  destruct (cli_mnemonic c), (cli_mnemonic_random c), (cli_mnemonic_seed c), (cli_derivation_path c); done.
Qed.

(** The configuration that the chain of builders makes. *)
Definition built (c : Cli) (defaults accounts : list Signer) (base_token : BaseTokenConfig) : TestNodeConfig :=
  with_base_token_config base_token
    (with_cli_chain (genesis_balance_of c) c
      (with_genesis_accounts accounts (with_signer_accounts accounts
        (set_tc_account_generator (Some (account_generator c))
          (with_cli_options c (default_with defaults)))))).

Ltac read_built := unfold built, with_cli_chain, with_cli_options; read_field.

Lemma built_accounts c defaults accounts b :
  tc_genesis_accounts (built c defaults accounts b) = accounts ∧
  tc_signer_accounts (built c defaults accounts b) = accounts.
Proof. split; read_built. Qed.

Lemma built_version {S E} c defaults accounts b (s : S) :
  get_protocol_version (E := E) (built c defaults accounts b) s =
  match version_of c with
  | Some v => Ret v s
  | None => Panic "cannot deduce protocol version when using local contracts; please specify --protocol-version explicitly"
  end.
Proof.
  unfold get_protocol_version, version_of.
  replace (tc_system_contracts_options _) with (default BuiltIn (cli_dev_system_contracts c)) by (symmetry; read_built).
  replace (tc_protocol_version _) with (cli_protocol_version c) by (symmetry; read_built).
  destruct (default _ _), (cli_protocol_version c); done.
Qed.

Lemma built_configured c defaults accounts n d :
  is_u64 (cli_balance c) →
  Forall2 (λ i a, account_of (account_generator c) i = Some a)
    (seq 0 (Z.to_nat (cli_accounts c))) accounts →
  let r := default Ratio_ONE (cli_base_token_ratio c) in
  non_zero (numer r) = Some n → non_zero (denom r) = Some d →
  configured c (built c defaults accounts (mkBaseTokenConfig (default "ETH" (cli_base_token_symbol c)) (mkRatio n d))).
Proof.
  intros Hb Ha r Hn Hd. unfold non_zero in Hn, Hd.
  destruct (Z.eqb_spec (numer r) 0) as [|Hn0]; [done|]. destruct (Z.eqb_spec (denom r) 0) as [|Hd0]; [done|].
  simplify_eq. constructor; try done; try read_built; rewrite ?(proj1 (built_accounts _ _ _ _)), ?(proj2 (built_accounts _ _ _ _)); try done.
  - unfold built, with_cli_chain, with_cli_options. read_flag (cli_offline c).
  - unfold built, with_cli_chain, with_cli_options. read_flag (cli_evm_interpreter c).
  - rewrite <-genesis_balance_fits by done. read_built.
Qed.

Definition config_outcome {S} (c : Cli) (s : S) (o : outcome S EnvError TestNodeConfig) : Prop :=
  match o with
  | Ret t s' =>
      s' = s ∧ configured c t ∧ 0 <= tc_genesis_balance t <= u128_max ∧
      (cli_evm_interpreter c = true → ∃ v, version_of c = Some v ∧ 27 <= v)
  | Throw e s' =>
      s' = s ∧ e = InvalidArguments EVM_NEEDS_27 (cli_debug_text c) ∧
      cli_evm_interpreter c = true ∧ ∃ v, version_of c = Some v ∧ v < 27
  | Panic _ =>
      (∃ phrase path chain_id, build_signer phrase path chain_id = None) ∨
      (let r := default Ratio_ONE (cli_base_token_ratio c) in numer r = 0 ∨ denom r = 0) ∨
      (cli_evm_interpreter c = true ∧ version_of c = None)
  | Deadlock => False
  end.

Lemma into_config_outcome {S} (c : Cli) (s : S) :
  is_u64 (cli_balance c) → config_outcome c s (into_test_node_config c s).
Proof.
  intros Hb. unfold config_outcome, into_test_node_config, default_config, with_account_generator, mbind, M_bind.
  pose proof (gen_outcome (E := EnvError) (gen_phrase DEFAULT_MNEMONIC (AccountGenerator_new 10)) s) as Hd.
  destruct (gen _ s) as [defaults s1| | |]; [|done| |done].
  2:{ left. destruct Hd as (i & Hi). unfold account_of in Hi. eauto. }
  destruct Hd as [-> _]. cbn [mret M_ret]. pose proof (gen_outcome (E := EnvError) (account_generator c) s) as Ha.
  unfold mret, M_ret. destruct (gen _ s) as [accounts s1| | |]; [|done| |done].
  2:{ left. destruct Ha as (i & Hi). unfold account_of in Hi. eauto. }
  destruct Ha as [-> Ha]. rewrite ag_amount_of in Ha.
  unfold base_token_of, mbind, M_bind. set (r := default Ratio_ONE _).
  destruct (non_zero (numer r)) as [n|] eqn:Hn; cbn.
  2:{ right; left; left. unfold non_zero in Hn. by destruct (Z.eqb_spec (numer r) 0). }
  destruct (non_zero (denom r)) as [d|] eqn:Hdn; cbn.
  2:{ right; left; right. unfold non_zero in Hdn. by destruct (Z.eqb_spec (denom r) 0). }
  pose proof (built_configured c defaults accounts n d Hb Ha Hn Hdn) as Hc.
  assert (Hr : 0 <= tc_genesis_balance (built c defaults accounts (mkBaseTokenConfig (default "ETH" (cli_base_token_symbol c)) (mkRatio n d))) <= u128_max).
  { rewrite (cd_balance _ _ Hc). unfold is_u64, u64_max, u128_max in *. lia. }
  destruct (cli_evm_interpreter c) eqn:Hevm; [|done].
  pose proof (built_version (E := EnvError) c defaults accounts (mkBaseTokenConfig (default "ETH" (cli_base_token_symbol c)) (mkRatio n d)) s) as Hv.
  unfold built in Hv. rewrite Hv. destruct (version_of c) as [v|]; [|by right; right].
  destruct (Z.ltb_spec v 27); split_and!; try done; first [apply Hr | eauto].
Qed.


(** Every name of a network, in any case, is that network; other text is a URL
    or an error. *)
Theorem fork_url_names (net : BuiltinNetwork) (s : string) :
  (lower s ∈ network_names net → fork_url_from_str s = Ok (Builtin net)) ∧
  ((∀ net', lower s ∉ network_names net') →
   fork_url_from_str s = match parse_url s with
                         | Ok url => Ok (CustomUrl url)
                         | Err e => Err ("`" +:+ s +:+ "` is neither a known network nor a valid URL: " +:+ e)
                         end).
Proof.
  unfold fork_url_from_str, network_from_str. generalize (lower s) as l. intros l. split.
  - destruct net; cbn [network_names]; intros Hl;
      repeat (apply elem_of_cons in Hl as [->|Hl]; [reflexivity|]); by apply elem_of_nil in Hl.
  - intros Hno. destruct (filter (λ net, l ∈ network_names net) all_networks) as [|n ns] eqn:Hf; [done|].
    assert (Hn : n ∈ filter (λ net, l ∈ network_names net) all_networks) by (rewrite Hf; set_solver).
    apply list_elem_of_filter in Hn as [Hn _]. by destruct (Hno n).
Qed.

(** The heading is printed once, before the first warning, and there is a text
    for every deprecated option. *)
Lemma warn_loop_spec detected args :
  warn_loop detected args =
  (if negb detected && existsb (λ a, bool_decide (is_Some (warning_for a))) args then DETECTED else [])
  ++ omap warning_for args.
Proof.
  revert detected. induction args as [|a args IH]; intros detected; [by destruct detected|].
  cbn. destruct (warning_for a) as [w|] eqn:Hw.
  - rewrite bool_decide_true by eauto. rewrite IH. by destruct detected.
  - rewrite bool_decide_false by (intros [? ?]; done). by rewrite IH.
Qed.

Theorem deprecated_warnings (args : list string) :
  deprecated_config_option args =
    (if existsb (λ a, bool_decide (is_Some (warning_for a))) args then DETECTED else [])
    ++ omap warning_for args ∧
  ∀ a w, warning_for a = Some w → w ∈ map snd deprecated_flags.
Proof.
  split; [by unfold deprecated_config_option; rewrite warn_loop_spec|].
  intros a w. unfold warning_for.
  assert (Hassoc : ∀ k v l, assoc k l = Some v → v ∈ map snd l).
  { intros k v l. induction l as [|[k' v'] l IH]; [done|]. cbn [assoc map snd].
    case_bool_decide; intros Hv; [simplify_eq; constructor|constructor; auto]. }
  destruct (assoc a deprecated_flags) eqn:Ha; [intros [= <-]; by eapply Hassoc|].
  destruct (head _) as [p|] eqn:Hp; [|done]. intros [= <-].
  assert (Hin : p ∈ prefix_flags).
  { destruct (filter _ prefix_flags) as [|p' l] eqn:Hf; [done|]. simplify_eq/=.
    assert (p ∈ filter (λ p, String.prefix p a = true) prefix_flags) as Hp by (rewrite Hf; set_solver).
    by apply list_elem_of_filter in Hp as [_ ?]. }
  clear Ha Hp. unfold prefix_flags in Hin.
  repeat (apply elem_of_cons in Hin as [->|Hin]; [apply (bool_decide_unpack _); vm_compute; exact I|]). by apply elem_of_nil in Hin.
Qed.

(** ** What telemetry does not see *)

(** The arguments without what is private: the values of paths, addresses,
    hashes, phrases and identifiers (but not whether they were given), and the
    options that are not reported at all. *)
Definition redact_url (u : ForkUrl) : ForkUrl :=
  match u with Builtin net => Builtin net | CustomUrl _ => CustomUrl "" end.

Definition redact_command (c : Command) : Command :=
  match c with
  | Run => Run
  | ForkCommand a =>
      ForkCommand (mkForkArgs (redact_url (fa_fork_url a)) (fork_block_number a) ((λ _, 0) <$> fork_transaction_hash a))
  | ReplayTx a => ReplayTx (mkReplayArgs (redact_url (ra_fork_url a)) 0)
  end.

Definition redact_port (p : Z) : Z := if bool_decide (dec p = DEFAULT_PORT) then p else 0.

Definition redact_host (h : list IpAddr) : list IpAddr :=
  match h with
  | [] => []
  | _ => if bool_decide (h = [DEFAULT_HOST]) then h else ["127.0.0.1"]
  end.

Definition redact_origin (o : string) : string :=
  if bool_decide (o = DEFAULT_ALLOW_ORIGIN) then o else "".

Definition given {A B} (b : B) (o : option A) : option B := (λ _, b) <$> o.

Definition redact (c : Cli) : Cli :=
  mkCli (redact_command <$> cli_command c) (cli_offline c) (cli_health_check_endpoint c)
    (given "" (cli_config_out c)) (redact_port <$> cli_port c) (redact_host (cli_host c))
    (given 0 (cli_chain_id c)) (cli_show_node_config c) (cli_show_storage_logs c)
    (cli_show_vm_details c) (cli_show_gas_details c) 0 (cli_l1_gas_price c) (cli_l2_gas_price c)
    (cli_l1_pubdata_price c) (cli_price_scale_factor c) (cli_limit_scale_factor c)
    (given "" (cli_override_bytecodes_dir c)) None (cli_dev_system_contracts c) None
    (cli_protocol_version c) (cli_evm_interpreter c) (mkBoojumGroup false None) (cli_log c)
    (given "" (cli_log_file_path c)) (cli_silent c) (cli_cache c) (cli_reset_cache c)
    (given "" (cli_cache_dir c)) (cli_accounts c) (cli_balance c) (cli_timestamp c)
    (given (mkGenesis None None None None None None None None) (cli_init c)) (given "" (cli_state c))
    (cli_state_interval c) (given "" (cli_dump_state c)) (cli_preserve_historical_states c)
    (given "" (cli_load_state c)) (given "" (cli_mnemonic c)) (given 0%nat (cli_mnemonic_random c))
    (given 0 (cli_mnemonic_seed c)) (given "" (cli_derivation_path c)) (cli_auto_impersonate c)
    (cli_block_time c) (cli_no_mining c) (redact_origin (cli_allow_origin c)) (cli_no_cors c)
    (cli_order c) None None None None.

Lemma hidden_given {A B} (b : B) (o : option A) : hidden (given b o) = hidden o.
Proof. by destruct o. Qed.

Lemma port_prop_redact o : port_prop (redact_port <$> o) = port_prop o.
Proof.
  destruct o as [p|]; [|done]. cbn [fmap option_fmap option_map]. unfold port_prop, redact_port.
  destruct (bool_decide (dec p = DEFAULT_PORT)) eqn:Hp; [by rewrite Hp|reflexivity].
Qed.

Lemma host_prop_redact h : host_prop (redact_host h) = host_prop h.
Proof.
  destruct h as [|h rest]; [done|]. unfold redact_host.
  case_bool_decide as Hh; [done|]. unfold host_prop.
  rewrite (bool_decide_true ("127.0.0.1" ≠ DEFAULT_HOST)) by done. cbn [orb].
  case_bool_decide as Hd; [done|]. subst h.
  case_bool_decide as Hl; [|done]. destruct rest; [by destruct Hh|done].
Qed.

Lemma command_redact o :
  get_cli_command_telemetry_props (redact_command <$> o) = get_cli_command_telemetry_props o.
Proof.
  destruct o as [[|[u n h]|[u h]]|]; try done; cbn [fmap option_fmap option_map redact_command].
  - unfold get_cli_command_telemetry_props. cbn [fa_fork_url fork_block_number fork_transaction_hash].
    replace (sensitive_fork_url (redact_url u)) with (sensitive_fork_url u) by (by destruct u).
    by destruct h.
  - unfold get_cli_command_telemetry_props. cbn [ra_fork_url].
    by replace (sensitive_fork_url (redact_url u)) with (sensitive_fork_url u) by (by destruct u).
Qed.

(** Telemetry reports nothing private: the properties of the arguments are those
    of the redacted arguments, so arguments that differ only in what redaction
    removes are reported alike. *)
Theorem telemetry_private (c c' : Cli) :
  redact c = redact c' → into_telemetry_props c = into_telemetry_props c'.
Proof.
  assert (Hr : ∀ c, into_telemetry_props (redact c) = into_telemetry_props c).
  { clear. intros c. unfold into_telemetry_props. cbn [redact cli_command cli_offline].
    assert (Ho : bool_decide (redact_origin (cli_allow_origin c) = DEFAULT_ALLOW_ORIGIN) =
                 bool_decide (cli_allow_origin c = DEFAULT_ALLOW_ORIGIN)).
    { unfold redact_origin. destruct (bool_decide (cli_allow_origin c = _)) eqn:Ho; [done|reflexivity]. }
    cbn [redact cli_config_out cli_port cli_host cli_chain_id cli_override_bytecodes_dir cli_log_file_path
         cli_cache_dir cli_init cli_state cli_dump_state cli_load_state cli_mnemonic cli_mnemonic_random
         cli_mnemonic_seed cli_derivation_path cli_allow_origin].
    rewrite command_redact, port_prop_redact, host_prop_redact, !hidden_given, Ho. reflexivity. }
  intros He. by rewrite <-(Hr c), <-(Hr c'), He.
Qed.
End Cli.

(** ** A sample command line *)
Module SampleCli.
#[export] Instance wallet : WalletApi := {|
  Signer := string * Z;
  signer_address := λ a, Z.of_nat (String.length (fst a));
  build_signer := λ phrase path chain_id, Some (phrase +:+ path, chain_id);
  random_phrase := "random";
  random_phrase_with_count := λ n, if bool_decide (n = 12%nat) then Some "random" else None;
  seeded_phrase := λ _, "seeded";
|}.

(** Properties as the list of what was inserted. *)
Inductive Props := mkProps (l : list (string * PropValue Props)).

#[export] Instance api : CliApi := {|
  parse_url := λ s, if String.prefix "http" s then Ok (s +:+ "/") else Err "relative URL without a base";
  TelemetryProps := Props;
  props_new := mkProps [];
  props_insert := λ k v p, let 'mkProps l := p in
    match v with Some v => mkProps (l ++ [(k, v)]) | None => p end;
  cli_debug_text := λ _, "Cli { .. }";
  protocol_version_display := λ v, "Version" +:+ dec v;
  protocol_version_try_from := λ v, if v <=? 28 then Some v else None;
|}.

(** [anvil-zksync --offline --mnemonic phrase -a 2 ...] *)
Definition args (phrase : string) (evm : bool) : Cli :=
  mkCli None true false None (Some 8011) ["0.0.0.0"] None (Some true) None None None 2
    (Some 7) None None None None None None None None None evm (mkBoojumGroup false None)
    None None None None None (Some "dir") 2 10000 None None None None None false None
    (Some phrase) None None (Some "m/44'/60'/0'/0") false None false "*" false Fifo None None None None.

Example reported : into_telemetry_props (args "secret" true) =
  mkProps [("offline", PropBool true); ("l1_gas_price", PropNumber 7); ("evm_interpreter", PropBool true);
           ("cache_dir", PropString "***"); ("accounts", PropNumber 2);
           ("mnemonic", PropString "***"); ("derivation_path", PropString "***")].
Proof. vm_compute. reflexivity. Qed.

(** The accounts that the sample is configured with. *)
Example sample_accounts :
  match into_test_node_config (args "secret" true) tt with
  | Ret t _ => map fst (tc_genesis_accounts t)
  | _ => []
  end = ["secretm/44'/60'/0'/0/0"; "secretm/44'/60'/0'/0/1"].
Proof. vm_compute. reflexivity. Qed.


Lemma telemetry_private_witness :
  redact (args "secret" false) = redact (args "other" false) ∧
  into_telemetry_props (args "secret" false) = into_telemetry_props (args "other" false).
Proof. split; [reflexivity|]. apply telemetry_private. reflexivity. Defined.
End SampleCli.
