(* ===== verification/ErrorDefs.v ===== *)
(** * Errors: components

    [crates/zksync_error/src/error/definitions.rs]: the errors of every
    component with their codes, names, messages and JSON.  The text of hashes and
    the JSON of large integers are those of other crates. *)
From S2P Require Import Prelude Types Utils Text.
From Stdlib Require Import Ascii.
Local Open Scope Z_scope.

(** [serde_json::Value] *)
Inductive Json :=
| JNull
| JBool (b : bool)
| JNumber (n : Z)
| JString (s : string)
| JArray (l : list Json)
| JObject (fields : list (string * Json)).

Definition as_object (v : Json) : option (list (string * Json)) :=
  match v with JObject fields => Some fields | _ => None end.

(** [Display] and JSON of [H256]; JSON of [U64] and [U256]. *)
Class ErrorText := {
  h256_display : H256 → string;
  h256_json : H256 → Json;
  uint_json : Z → Json;
}.

Section ErrorDefs.
Context {ET : ErrorText}.

Definition nl : string := String "010" EmptyString.

(** *** [AnvilEnvironment] *)
Inductive AnvilEnvironmentError :=
| AnvilEnvironmentError_InvalidArguments (details : string) (arguments : string)
| AnvilEnvironmentError_ServerStartupFailed (host_requested : string) (port_requested : Z) (details : string)
| AnvilEnvironmentError_LogFileAccessFailed (log_file_path : string) (wrapped_error : string)
| AnvilEnvironmentError_LogFileWriteFailed (log_filename : string) (wrapped_error : string)
| AnvilEnvironmentError_GenericError (message : string).

(** Discriminants and their names. *)
Definition AnvilEnvironmentCode : list (Z * string) :=
  [(1, "InvalidArguments");
   (2, "ServerStartupFailed");
   (10, "LogFileAccessFailed");
   (11, "LogFileWriteFailed");
   (0, "GenericError")].

Definition AnvilEnvironmentError_code (e : AnvilEnvironmentError) : Z :=
  match e with
  | AnvilEnvironmentError_InvalidArguments _ _ => 1
  | AnvilEnvironmentError_ServerStartupFailed _ _ _ => 2
  | AnvilEnvironmentError_LogFileAccessFailed _ _ => 10
  | AnvilEnvironmentError_LogFileWriteFailed _ _ => 11
  | AnvilEnvironmentError_GenericError _ => 0
  end.

Definition AnvilEnvironmentError_name (e : AnvilEnvironmentError) : string :=
  match e with
  | AnvilEnvironmentError_InvalidArguments _ _ => "InvalidArguments"
  | AnvilEnvironmentError_ServerStartupFailed _ _ _ => "ServerStartupFailed"
  | AnvilEnvironmentError_LogFileAccessFailed _ _ => "LogFileAccessFailed"
  | AnvilEnvironmentError_LogFileWriteFailed _ _ => "LogFileWriteFailed"
  | AnvilEnvironmentError_GenericError _ => "GenericError"
  end.

Definition AnvilEnvironmentError_message (e : AnvilEnvironmentError) : string :=
  match e with
  | AnvilEnvironmentError_InvalidArguments details _ =>
      "[anvil_zksync-env-1] Invalid arguments: " +:+ details +:+ "."
  | AnvilEnvironmentError_ServerStartupFailed host_requested port_requested details =>
      "[anvil_zksync-env-2] Failed to start server at " +:+ host_requested +:+ ":" +:+ dec port_requested +:+ ": " +:+ details +:+ "."
  | AnvilEnvironmentError_LogFileAccessFailed log_file_path wrapped_error =>
      "[anvil_zksync-env-10] Unable to access log file: " +:+ log_file_path +:+ ". Details: " +:+ wrapped_error
  | AnvilEnvironmentError_LogFileWriteFailed log_filename wrapped_error =>
      "[anvil_zksync-env-11] Unable to append more lines to the log file `" +:+ log_filename +:+ "`: " +:+ wrapped_error
  | AnvilEnvironmentError_GenericError message =>
      "[anvil_zksync-env-0] Generic error: " +:+ message
  end.

Definition AnvilEnvironmentError_json (e : AnvilEnvironmentError) : Json :=
  match e with
  | AnvilEnvironmentError_InvalidArguments details arguments =>
      JObject [("InvalidArguments", JObject [("details", JString details); ("arguments", JString arguments)])]
  | AnvilEnvironmentError_ServerStartupFailed host_requested port_requested details =>
      JObject [("ServerStartupFailed", JObject [("host_requested", JString host_requested); ("port_requested", JNumber port_requested); ("details", JString details)])]
  | AnvilEnvironmentError_LogFileAccessFailed log_file_path wrapped_error =>
      JObject [("LogFileAccessFailed", JObject [("log_file_path", JString log_file_path); ("wrapped_error", JString wrapped_error)])]
  | AnvilEnvironmentError_LogFileWriteFailed log_filename wrapped_error =>
      JObject [("LogFileWriteFailed", JObject [("log_filename", JString log_filename); ("wrapped_error", JString wrapped_error)])]
  | AnvilEnvironmentError_GenericError message =>
      JObject [("GenericError", JObject [("message", JString message)])]
  end.

Definition AnvilEnvironmentError_of_anyhow (debug : string) : AnvilEnvironmentError := AnvilEnvironmentError_GenericError debug.

(** *** [AnvilGeneric] *)
Inductive AnvilGenericError :=
| AnvilGenericError_GenericError (message : string).

(** Discriminants and their names. *)
Definition AnvilGenericCode : list (Z * string) :=
  [(0, "GenericError")].

Definition AnvilGenericError_code (e : AnvilGenericError) : Z :=
  match e with
  | AnvilGenericError_GenericError _ => 0
  end.

Definition AnvilGenericError_name (e : AnvilGenericError) : string :=
  match e with
  | AnvilGenericError_GenericError _ => "GenericError"
  end.

Definition AnvilGenericError_message (e : AnvilGenericError) : string :=
  match e with
  | AnvilGenericError_GenericError message =>
      "[anvil_zksync-gen-0] Generic error: " +:+ message
  end.

Definition AnvilGenericError_json (e : AnvilGenericError) : Json :=
  match e with
  | AnvilGenericError_GenericError message =>
      JObject [("GenericError", JObject [("message", JString message)])]
  end.

Definition AnvilGenericError_of_anyhow (debug : string) : AnvilGenericError := AnvilGenericError_GenericError debug.

(** *** [Halt] *)
Inductive HaltError :=
| HaltError_ValidationFailed (msg : string) (data : string)
| HaltError_PaymasterValidationFailed (msg : string) (data : string)
| HaltError_PrePaymasterPreparationFailed (msg : string) (data : string)
| HaltError_PayForTxFailed (msg : string) (data : string)
| HaltError_FailedToMarkFactoryDependencies (msg : string) (data : string)
| HaltError_FailedToChargeFee (msg : string) (data : string)
| HaltError_FromIsNotAnAccount
| HaltError_InnerTxError
| HaltError_Unknown (msg : string) (data : string)
| HaltError_UnexpectedVMBehavior (problem : string)
| HaltError_BootloaderOutOfGas
| HaltError_ValidationOutOfGas
| HaltError_TooBigGasLimit
| HaltError_NotEnoughGasProvided
| HaltError_MissingInvocationLimitReached
| HaltError_FailedToSetL2Block (msg : string)
| HaltError_FailedToAppendTransactionToL2Block (msg : string)
| HaltError_VMPanic
| HaltError_TracerCustom (msg : string)
| HaltError_FailedToPublishCompressedBytecodes
| HaltError_FailedBlockTimestampAssertion
| HaltError_GenericError (message : string).

(** Discriminants and their names. *)
Definition HaltCode : list (Z * string) :=
  [(1, "ValidationFailed");
   (2, "PaymasterValidationFailed");
   (3, "PrePaymasterPreparationFailed");
   (4, "PayForTxFailed");
   (5, "FailedToMarkFactoryDependencies");
   (6, "FailedToChargeFee");
   (7, "FromIsNotAnAccount");
   (8, "InnerTxError");
   (9, "Unknown");
   (10, "UnexpectedVMBehavior");
   (11, "BootloaderOutOfGas");
   (12, "ValidationOutOfGas");
   (13, "TooBigGasLimit");
   (14, "NotEnoughGasProvided");
   (15, "MissingInvocationLimitReached");
   (16, "FailedToSetL2Block");
   (17, "FailedToAppendTransactionToL2Block");
   (18, "VMPanic");
   (19, "TracerCustom");
   (20, "FailedToPublishCompressedBytecodes");
   (21, "FailedBlockTimestampAssertion");
   (0, "GenericError")].

Definition HaltError_code (e : HaltError) : Z :=
  match e with
  | HaltError_ValidationFailed _ _ => 1
  | HaltError_PaymasterValidationFailed _ _ => 2
  | HaltError_PrePaymasterPreparationFailed _ _ => 3
  | HaltError_PayForTxFailed _ _ => 4
  | HaltError_FailedToMarkFactoryDependencies _ _ => 5
  | HaltError_FailedToChargeFee _ _ => 6
  | HaltError_FromIsNotAnAccount => 7
  | HaltError_InnerTxError => 8
  | HaltError_Unknown _ _ => 9
  | HaltError_UnexpectedVMBehavior _ => 10
  | HaltError_BootloaderOutOfGas => 11
  | HaltError_ValidationOutOfGas => 12
  | HaltError_TooBigGasLimit => 13
  | HaltError_NotEnoughGasProvided => 14
  | HaltError_MissingInvocationLimitReached => 15
  | HaltError_FailedToSetL2Block _ => 16
  | HaltError_FailedToAppendTransactionToL2Block _ => 17
  | HaltError_VMPanic => 18
  | HaltError_TracerCustom _ => 19
  | HaltError_FailedToPublishCompressedBytecodes => 20
  | HaltError_FailedBlockTimestampAssertion => 21
  | HaltError_GenericError _ => 0
  end.

Definition HaltError_name (e : HaltError) : string :=
  match e with
  | HaltError_ValidationFailed _ _ => "ValidationFailed"
  | HaltError_PaymasterValidationFailed _ _ => "PaymasterValidationFailed"
  | HaltError_PrePaymasterPreparationFailed _ _ => "PrePaymasterPreparationFailed"
  | HaltError_PayForTxFailed _ _ => "PayForTxFailed"
  | HaltError_FailedToMarkFactoryDependencies _ _ => "FailedToMarkFactoryDependencies"
  | HaltError_FailedToChargeFee _ _ => "FailedToChargeFee"
  | HaltError_FromIsNotAnAccount => "FromIsNotAnAccount"
  | HaltError_InnerTxError => "InnerTxError"
  | HaltError_Unknown _ _ => "Unknown"
  | HaltError_UnexpectedVMBehavior _ => "UnexpectedVMBehavior"
  | HaltError_BootloaderOutOfGas => "BootloaderOutOfGas"
  | HaltError_ValidationOutOfGas => "ValidationOutOfGas"
  | HaltError_TooBigGasLimit => "TooBigGasLimit"
  | HaltError_NotEnoughGasProvided => "NotEnoughGasProvided"
  | HaltError_MissingInvocationLimitReached => "MissingInvocationLimitReached"
  | HaltError_FailedToSetL2Block _ => "FailedToSetL2Block"
  | HaltError_FailedToAppendTransactionToL2Block _ => "FailedToAppendTransactionToL2Block"
  | HaltError_VMPanic => "VMPanic"
  | HaltError_TracerCustom _ => "TracerCustom"
  | HaltError_FailedToPublishCompressedBytecodes => "FailedToPublishCompressedBytecodes"
  | HaltError_FailedBlockTimestampAssertion => "FailedBlockTimestampAssertion"
  | HaltError_GenericError _ => "GenericError"
  end.

Definition HaltError_message (e : HaltError) : string :=
  match e with
  | HaltError_ValidationFailed msg data =>
      "[anvil_zksync-halt-1] Account validation error: " +:+ msg +:+ ": " +:+ data
  | HaltError_PaymasterValidationFailed msg data =>
      "[anvil_zksync-halt-2] Paymaster validation error: " +:+ msg +:+ ": " +:+ data +:+ "."
  | HaltError_PrePaymasterPreparationFailed msg data =>
      "[anvil_zksync-halt-3] Pre-paymaster preparation error: " +:+ msg +:+ ": " +:+ data
  | HaltError_PayForTxFailed msg data =>
      "[anvil_zksync-halt-4] Failed to pay for the transaction: " +:+ msg +:+ ": " +:+ data
  | HaltError_FailedToMarkFactoryDependencies msg data =>
      "[anvil_zksync-halt-5] Failed to mark factory dependencies: " +:+ msg +:+ ": " +:+ data
  | HaltError_FailedToChargeFee msg data =>
      "[anvil_zksync-halt-6] Failed to charge fee: " +:+ msg +:+ ": " +:+ data
  | HaltError_FromIsNotAnAccount =>
      "[anvil_zksync-halt-7] Sender is not an account"
  | HaltError_InnerTxError =>
      "[anvil_zksync-halt-8] Bootloader-based tx failed"
  | HaltError_Unknown msg data =>
      "[anvil_zksync-halt-9] Unknown reason: " +:+ msg +:+ ": " +:+ data
  | HaltError_UnexpectedVMBehavior problem =>
      "[anvil_zksync-halt-10] Virtual machine entered unexpected state. Error description: " +:+ problem
  | HaltError_BootloaderOutOfGas =>
      "[anvil_zksync-halt-11] Bootloader out of gas"
  | HaltError_ValidationOutOfGas =>
      "[anvil_zksync-halt-12] Validation run out of gas"
  | HaltError_TooBigGasLimit =>
      "[anvil_zksync-halt-13] Transaction has a too big ergs limit and will not be executed by the server"
  | HaltError_NotEnoughGasProvided =>
      "[anvil_zksync-halt-14] Bootloader does not have enough gas to proceed with the transaction."
  | HaltError_MissingInvocationLimitReached =>
      "[anvil_zksync-halt-15] Transaction produced too much storage accesses."
  | HaltError_FailedToSetL2Block msg =>
      "[anvil_zksync-halt-16] Failed to set information about the L2 block: " +:+ msg
  | HaltError_FailedToAppendTransactionToL2Block msg =>
      "[anvil_zksync-halt-17] Failed to append the transaction to the current L2 block: " +:+ msg
  | HaltError_VMPanic =>
      "[anvil_zksync-halt-18] VM panicked"
  | HaltError_TracerCustom msg =>
      "[anvil_zksync-halt-19] Tracer aborted execution: " +:+ msg
  | HaltError_FailedToPublishCompressedBytecodes =>
      "[anvil_zksync-halt-20] Failed to publish compressed bytecodes"
  | HaltError_FailedBlockTimestampAssertion =>
      "[anvil_zksync-halt-21] Transaction failed `block.timestamp` assertion"
  | HaltError_GenericError message =>
      "[anvil_zksync-halt-0] Generic error: " +:+ message
  end.

Definition HaltError_json (e : HaltError) : Json :=
  match e with
  | HaltError_ValidationFailed msg data =>
      JObject [("ValidationFailed", JObject [("msg", JString msg); ("data", JString data)])]
  | HaltError_PaymasterValidationFailed msg data =>
      JObject [("PaymasterValidationFailed", JObject [("msg", JString msg); ("data", JString data)])]
  | HaltError_PrePaymasterPreparationFailed msg data =>
      JObject [("PrePaymasterPreparationFailed", JObject [("msg", JString msg); ("data", JString data)])]
  | HaltError_PayForTxFailed msg data =>
      JObject [("PayForTxFailed", JObject [("msg", JString msg); ("data", JString data)])]
  | HaltError_FailedToMarkFactoryDependencies msg data =>
      JObject [("FailedToMarkFactoryDependencies", JObject [("msg", JString msg); ("data", JString data)])]
  | HaltError_FailedToChargeFee msg data =>
      JObject [("FailedToChargeFee", JObject [("msg", JString msg); ("data", JString data)])]
  | HaltError_FromIsNotAnAccount => JString "FromIsNotAnAccount"
  | HaltError_InnerTxError => JString "InnerTxError"
  | HaltError_Unknown msg data =>
      JObject [("Unknown", JObject [("msg", JString msg); ("data", JString data)])]
  | HaltError_UnexpectedVMBehavior problem =>
      JObject [("UnexpectedVMBehavior", JObject [("problem", JString problem)])]
  | HaltError_BootloaderOutOfGas => JString "BootloaderOutOfGas"
  | HaltError_ValidationOutOfGas => JString "ValidationOutOfGas"
  | HaltError_TooBigGasLimit => JString "TooBigGasLimit"
  | HaltError_NotEnoughGasProvided => JString "NotEnoughGasProvided"
  | HaltError_MissingInvocationLimitReached => JString "MissingInvocationLimitReached"
  | HaltError_FailedToSetL2Block msg =>
      JObject [("FailedToSetL2Block", JObject [("msg", JString msg)])]
  | HaltError_FailedToAppendTransactionToL2Block msg =>
      JObject [("FailedToAppendTransactionToL2Block", JObject [("msg", JString msg)])]
  | HaltError_VMPanic => JString "VMPanic"
  | HaltError_TracerCustom msg =>
      JObject [("TracerCustom", JObject [("msg", JString msg)])]
  | HaltError_FailedToPublishCompressedBytecodes => JString "FailedToPublishCompressedBytecodes"
  | HaltError_FailedBlockTimestampAssertion => JString "FailedBlockTimestampAssertion"
  | HaltError_GenericError message =>
      JObject [("GenericError", JObject [("message", JString message)])]
  end.

Definition HaltError_of_anyhow (debug : string) : HaltError := HaltError_GenericError debug.

(** *** [TransactionValidation] *)
Inductive TransactionValidationError :=
| TransactionValidationError_InvalidGasLimit (tx_gas_limit : Z) (max_gas : Z)
| TransactionValidationError_GasPerPubdataLimit (tx_gas_per_pubdata_limit : Z) (max_gas : Z)
| TransactionValidationError_MaxFeePerGasTooLow (max_fee_per_gas : Z) (l2_gas_price : Z)
| TransactionValidationError_MaxPriorityFeeGreaterThanMaxFee (max_fee_per_gas : Z) (max_priority_fee_per_gas : Z)
| TransactionValidationError_GenericError (message : string).

(** Discriminants and their names. *)
Definition TransactionValidationCode : list (Z * string) :=
  [(1, "InvalidGasLimit");
   (2, "GasPerPubdataLimit");
   (3, "MaxFeePerGasTooLow");
   (4, "MaxPriorityFeeGreaterThanMaxFee");
   (0, "GenericError")].

Definition TransactionValidationError_code (e : TransactionValidationError) : Z :=
  match e with
  | TransactionValidationError_InvalidGasLimit _ _ => 1
  | TransactionValidationError_GasPerPubdataLimit _ _ => 2
  | TransactionValidationError_MaxFeePerGasTooLow _ _ => 3
  | TransactionValidationError_MaxPriorityFeeGreaterThanMaxFee _ _ => 4
  | TransactionValidationError_GenericError _ => 0
  end.

Definition TransactionValidationError_name (e : TransactionValidationError) : string :=
  match e with
  | TransactionValidationError_InvalidGasLimit _ _ => "InvalidGasLimit"
  | TransactionValidationError_GasPerPubdataLimit _ _ => "GasPerPubdataLimit"
  | TransactionValidationError_MaxFeePerGasTooLow _ _ => "MaxFeePerGasTooLow"
  | TransactionValidationError_MaxPriorityFeeGreaterThanMaxFee _ _ => "MaxPriorityFeeGreaterThanMaxFee"
  | TransactionValidationError_GenericError _ => "GenericError"
  end.

Definition TransactionValidationError_message (e : TransactionValidationError) : string :=
  match e with
  | TransactionValidationError_InvalidGasLimit tx_gas_limit max_gas =>
      "[anvil_zksync-tx_invalid-1] Gas limit for transaction is " +:+ dec tx_gas_limit +:+ " which exceeds maximum allowed gas " +:+ dec max_gas
  | TransactionValidationError_GasPerPubdataLimit tx_gas_per_pubdata_limit max_gas =>
      "[anvil_zksync-tx_invalid-2] Gas per pubdata limit is " +:+ dec tx_gas_per_pubdata_limit +:+ " which exceeds maximum allowed gas " +:+ dec max_gas
  | TransactionValidationError_MaxFeePerGasTooLow max_fee_per_gas l2_gas_price =>
      "[anvil_zksync-tx_invalid-3] Max fee per gas: " +:+ dec max_fee_per_gas +:+ ", current L2 gas price " +:+ dec l2_gas_price +:+ " is too expensive."
  | TransactionValidationError_MaxPriorityFeeGreaterThanMaxFee max_fee_per_gas max_priority_fee_per_gas =>
      "[anvil_zksync-tx_invalid-4] maxPriorityFeePerGas=" +:+ dec max_priority_fee_per_gas +:+ " exceeds the limit value maxFeePerGas=" +:+ dec max_fee_per_gas
  | TransactionValidationError_GenericError message =>
      "[anvil_zksync-tx_invalid-0] Generic error: " +:+ message
  end.

Definition TransactionValidationError_json (e : TransactionValidationError) : Json :=
  match e with
  | TransactionValidationError_InvalidGasLimit tx_gas_limit max_gas =>
      JObject [("InvalidGasLimit", JObject [("tx_gas_limit", uint_json tx_gas_limit); ("max_gas", uint_json max_gas)])]
  | TransactionValidationError_GasPerPubdataLimit tx_gas_per_pubdata_limit max_gas =>
      JObject [("GasPerPubdataLimit", JObject [("tx_gas_per_pubdata_limit", uint_json tx_gas_per_pubdata_limit); ("max_gas", uint_json max_gas)])]
  | TransactionValidationError_MaxFeePerGasTooLow max_fee_per_gas l2_gas_price =>
      JObject [("MaxFeePerGasTooLow", JObject [("max_fee_per_gas", uint_json max_fee_per_gas); ("l2_gas_price", uint_json l2_gas_price)])]
  | TransactionValidationError_MaxPriorityFeeGreaterThanMaxFee max_fee_per_gas max_priority_fee_per_gas =>
      JObject [("MaxPriorityFeeGreaterThanMaxFee", JObject [("max_fee_per_gas", uint_json max_fee_per_gas); ("max_priority_fee_per_gas", uint_json max_priority_fee_per_gas)])]
  | TransactionValidationError_GenericError message =>
      JObject [("GenericError", JObject [("message", JString message)])]
  end.

Definition TransactionValidationError_of_anyhow (debug : string) : TransactionValidationError := TransactionValidationError_GenericError debug.

(** *** [Revert] *)
Inductive RevertError :=
| RevertError_General (msg : string) (data : Bytes)
| RevertError_InnerTxError
| RevertError_VmError
| RevertError_Unknown (function_selector : string) (data : string)
| RevertError_GenericError (message : string).

(** Discriminants and their names. *)
Definition RevertCode : list (Z * string) :=
  [(1, "General");
   (2, "InnerTxError");
   (3, "VmError");
   (4, "Unknown");
   (0, "GenericError")].

Definition RevertError_code (e : RevertError) : Z :=
  match e with
  | RevertError_General _ _ => 1
  | RevertError_InnerTxError => 2
  | RevertError_VmError => 3
  | RevertError_Unknown _ _ => 4
  | RevertError_GenericError _ => 0
  end.

Definition RevertError_name (e : RevertError) : string :=
  match e with
  | RevertError_General _ _ => "General"
  | RevertError_InnerTxError => "InnerTxError"
  | RevertError_VmError => "VmError"
  | RevertError_Unknown _ _ => "Unknown"
  | RevertError_GenericError _ => "GenericError"
  end.

Definition RevertError_message (e : RevertError) : string :=
  match e with
  | RevertError_General msg _ =>
      "[anvil_zksync-revert-1] Execution reverted with message: " +:+ msg
  | RevertError_InnerTxError =>
      "[anvil_zksync-revert-2] Bootloader-based transaction failed."
  | RevertError_VmError =>
      "[anvil_zksync-revert-3] VM Error"
  | RevertError_Unknown function_selector data =>
      "[anvil_zksync-revert-4] Unknown VM revert reason: function_selector=" +:+ function_selector +:+ ", data=" +:+ data
  | RevertError_GenericError message =>
      "[anvil_zksync-revert-0] Generic error: " +:+ message
  end.

Definition RevertError_json (e : RevertError) : Json :=
  match e with
  | RevertError_General msg data =>
      JObject [("General", JObject [("msg", JString msg); ("data", JArray (map JNumber data))])]
  | RevertError_InnerTxError => JString "InnerTxError"
  | RevertError_VmError => JString "VmError"
  | RevertError_Unknown function_selector data =>
      JObject [("Unknown", JObject [("function_selector", JString function_selector); ("data", JString data)])]
  | RevertError_GenericError message =>
      JObject [("GenericError", JObject [("message", JString message)])]
  end.

Definition RevertError_of_anyhow (debug : string) : RevertError := RevertError_GenericError debug.

(** *** [GasEstimation] *)
Inductive GasEstimationError :=
| GasEstimationError_ExceedsLimitForPublishedPubdata (pubdata_published : Z) (pubdata_limit : Z)
| GasEstimationError_ExceedsBlockGasLimit (overhead : Z) (gas_for_pubdata : Z) (estimated_body_cost : Z)
| GasEstimationError_TransactionHalt (inner : HaltError)
| GasEstimationError_TransactionRevert (inner : RevertError) (data : Bytes)
| GasEstimationError_TransactionAlwaysHalts (inner : HaltError)
| GasEstimationError_TransactionAlwaysReverts (inner : RevertError) (data : Bytes)
| GasEstimationError_GenericError (message : string).

(** Discriminants and their names. *)
Definition GasEstimationCode : list (Z * string) :=
  [(1, "ExceedsLimitForPublishedPubdata");
   (2, "ExceedsBlockGasLimit");
   (10, "TransactionHalt");
   (11, "TransactionRevert");
   (20, "TransactionAlwaysHalts");
   (21, "TransactionAlwaysReverts");
   (0, "GenericError")].

Definition GasEstimationError_code (e : GasEstimationError) : Z :=
  match e with
  | GasEstimationError_ExceedsLimitForPublishedPubdata _ _ => 1
  | GasEstimationError_ExceedsBlockGasLimit _ _ _ => 2
  | GasEstimationError_TransactionHalt _ => 10
  | GasEstimationError_TransactionRevert _ _ => 11
  | GasEstimationError_TransactionAlwaysHalts _ => 20
  | GasEstimationError_TransactionAlwaysReverts _ _ => 21
  | GasEstimationError_GenericError _ => 0
  end.

Definition GasEstimationError_name (e : GasEstimationError) : string :=
  match e with
  | GasEstimationError_ExceedsLimitForPublishedPubdata _ _ => "ExceedsLimitForPublishedPubdata"
  | GasEstimationError_ExceedsBlockGasLimit _ _ _ => "ExceedsBlockGasLimit"
  | GasEstimationError_TransactionHalt _ => "TransactionHalt"
  | GasEstimationError_TransactionRevert _ _ => "TransactionRevert"
  | GasEstimationError_TransactionAlwaysHalts _ => "TransactionAlwaysHalts"
  | GasEstimationError_TransactionAlwaysReverts _ _ => "TransactionAlwaysReverts"
  | GasEstimationError_GenericError _ => "GenericError"
  end.

Definition GasEstimationError_message (e : GasEstimationError) : string :=
  match e with
  | GasEstimationError_ExceedsLimitForPublishedPubdata pubdata_published pubdata_limit =>
      "[anvil_zksync-gas_estim-1] Transaction has published " +:+ dec pubdata_published +:+ " bytes which exceeds limit for published pubdata (" +:+ dec pubdata_limit +:+ ")."
  | GasEstimationError_ExceedsBlockGasLimit overhead gas_for_pubdata estimated_body_cost =>
      "[anvil_zksync-gas_estim-2] Estimating full gas limit overflows while adding up additional gas (" +:+ dec gas_for_pubdata +:+ "), overhead (" +:+ dec overhead +:+ "), and estimated transaction body gas cost (" +:+ dec estimated_body_cost +:+ ")."
  | GasEstimationError_TransactionHalt inner =>
      "[anvil_zksync-gas_estim-10] Gas estimation failed because the transaction exhibits exotic gas behavior and reverts, burning all gas: " +:+ HaltError_message inner
  | GasEstimationError_TransactionRevert inner _ =>
      "[anvil_zksync-gas_estim-11] Gas estimation failed because the transaction exhibits exotic gas behavior and reverts, returning unspent gas: " +:+ RevertError_message inner
  | GasEstimationError_TransactionAlwaysHalts inner =>
      "[anvil_zksync-gas_estim-20] Gas estimation is impossible because the transaction can not be executed with maximum gas, it reverts and returns unspent gas:" +:+ nl +:+ HaltError_message inner
  | GasEstimationError_TransactionAlwaysReverts inner _ =>
      "[anvil_zksync-gas_estim-21] Gas estimation is impossible because the transaction can not be executed with maximum gas, it reverts and burns all gas:" +:+ nl +:+ RevertError_message inner
  | GasEstimationError_GenericError message =>
      "[anvil_zksync-gas_estim-0] Generic error: " +:+ message
  end.

Definition GasEstimationError_json (e : GasEstimationError) : Json :=
  match e with
  | GasEstimationError_ExceedsLimitForPublishedPubdata pubdata_published pubdata_limit =>
      JObject [("ExceedsLimitForPublishedPubdata", JObject [("pubdata_published", JNumber pubdata_published); ("pubdata_limit", JNumber pubdata_limit)])]
  | GasEstimationError_ExceedsBlockGasLimit overhead gas_for_pubdata estimated_body_cost =>
      JObject [("ExceedsBlockGasLimit", JObject [("overhead", uint_json overhead); ("gas_for_pubdata", uint_json gas_for_pubdata); ("estimated_body_cost", uint_json estimated_body_cost)])]
  | GasEstimationError_TransactionHalt inner =>
      JObject [("TransactionHalt", JObject [("inner", HaltError_json inner)])]
  | GasEstimationError_TransactionRevert inner data =>
      JObject [("TransactionRevert", JObject [("inner", RevertError_json inner); ("data", JArray (map JNumber data))])]
  | GasEstimationError_TransactionAlwaysHalts inner =>
      JObject [("TransactionAlwaysHalts", JObject [("inner", HaltError_json inner)])]
  | GasEstimationError_TransactionAlwaysReverts inner data =>
      JObject [("TransactionAlwaysReverts", JObject [("inner", RevertError_json inner); ("data", JArray (map JNumber data))])]
  | GasEstimationError_GenericError message =>
      JObject [("GenericError", JObject [("message", JString message)])]
  end.

Definition GasEstimationError_of_anyhow (debug : string) : GasEstimationError := GasEstimationError_GenericError debug.

(** *** [AnvilNode] *)
Inductive AnvilNodeError :=
| AnvilNodeError_TransactionHalt (inner : HaltError) (transaction_hash : H256)
| AnvilNodeError_TransactionValidationFailed (inner : TransactionValidationError) (transaction_hash : H256)
| AnvilNodeError_TransactionGasEstimationFailed (inner : GasEstimationError) (transaction_data : Bytes)
| AnvilNodeError_TimestampBackwardsError (timestamp_requested : Z) (timestamp_now : Z)
| AnvilNodeError_SerializationError (transaction_type : string) (from : H256) (to : H256) (reason : string)
| AnvilNodeError_GenericError (message : string).

(** Discriminants and their names. *)
Definition AnvilNodeCode : list (Z * string) :=
  [(1, "TransactionHalt");
   (10, "TransactionValidationFailed");
   (11, "TransactionGasEstimationFailed");
   (20, "TimestampBackwardsError");
   (30, "SerializationError");
   (0, "GenericError")].

Definition AnvilNodeError_code (e : AnvilNodeError) : Z :=
  match e with
  | AnvilNodeError_TransactionHalt _ _ => 1
  | AnvilNodeError_TransactionValidationFailed _ _ => 10
  | AnvilNodeError_TransactionGasEstimationFailed _ _ => 11
  | AnvilNodeError_TimestampBackwardsError _ _ => 20
  | AnvilNodeError_SerializationError _ _ _ _ => 30
  | AnvilNodeError_GenericError _ => 0
  end.

Definition AnvilNodeError_name (e : AnvilNodeError) : string :=
  match e with
  | AnvilNodeError_TransactionHalt _ _ => "TransactionHalt"
  | AnvilNodeError_TransactionValidationFailed _ _ => "TransactionValidationFailed"
  | AnvilNodeError_TransactionGasEstimationFailed _ _ => "TransactionGasEstimationFailed"
  | AnvilNodeError_TimestampBackwardsError _ _ => "TimestampBackwardsError"
  | AnvilNodeError_SerializationError _ _ _ _ => "SerializationError"
  | AnvilNodeError_GenericError _ => "GenericError"
  end.

Definition AnvilNodeError_message (e : AnvilNodeError) : string :=
  match e with
  | AnvilNodeError_TransactionHalt inner transaction_hash =>
      "[anvil_zksync-node-1] Transaction " +:+ h256_display transaction_hash +:+ " execution reverted and gas was burned:" +:+ nl +:+ HaltError_message inner
  | AnvilNodeError_TransactionValidationFailed inner transaction_hash =>
      "[anvil_zksync-node-10] Transaction " +:+ h256_display transaction_hash +:+ ": validation failed:" +:+ nl +:+ TransactionValidationError_message inner
  | AnvilNodeError_TransactionGasEstimationFailed inner _ =>
      "[anvil_zksync-node-11] Gas estimation failed:" +:+ nl +:+ GasEstimationError_message inner
  | AnvilNodeError_TimestampBackwardsError timestamp_requested timestamp_now =>
      "[anvil_zksync-node-20] Failed to force the next timestamp to value " +:+ dec timestamp_requested +:+ ". It should be greater than the last timestamp " +:+ dec timestamp_now +:+ "."
  | AnvilNodeError_SerializationError transaction_type from to reason =>
      "[anvil_zksync-node-30] Failed to parse a " +:+ transaction_type +:+ " transaction from request (from=" +:+ h256_display from +:+ ", to=" +:+ h256_display to +:+ "): " +:+ reason +:+ "."
  | AnvilNodeError_GenericError message =>
      "[anvil_zksync-node-0] Generic error: " +:+ message
  end.

Definition AnvilNodeError_json (e : AnvilNodeError) : Json :=
  match e with
  | AnvilNodeError_TransactionHalt inner transaction_hash =>
      JObject [("TransactionHalt", JObject [("inner", HaltError_json inner); ("transaction_hash", h256_json transaction_hash)])]
  | AnvilNodeError_TransactionValidationFailed inner transaction_hash =>
      JObject [("TransactionValidationFailed", JObject [("inner", TransactionValidationError_json inner); ("transaction_hash", h256_json transaction_hash)])]
  | AnvilNodeError_TransactionGasEstimationFailed inner transaction_data =>
      JObject [("TransactionGasEstimationFailed", JObject [("inner", GasEstimationError_json inner); ("transaction_data", JArray (map JNumber transaction_data))])]
  | AnvilNodeError_TimestampBackwardsError timestamp_requested timestamp_now =>
      JObject [("TimestampBackwardsError", JObject [("timestamp_requested", uint_json timestamp_requested); ("timestamp_now", uint_json timestamp_now)])]
  | AnvilNodeError_SerializationError transaction_type from to reason =>
      JObject [("SerializationError", JObject [("transaction_type", JString transaction_type); ("from", h256_json from); ("to", h256_json to); ("reason", JString reason)])]
  | AnvilNodeError_GenericError message =>
      JObject [("GenericError", JObject [("message", JString message)])]
  end.

Definition AnvilNodeError_of_anyhow (debug : string) : AnvilNodeError := AnvilNodeError_GenericError debug.

(** *** [StateLoader] *)
Inductive StateLoaderError :=
| StateLoaderError_LoadingStateOverExistingState
| StateLoaderError_LoadEmptyState
| StateLoaderError_StateDecompression (details : string)
| StateLoaderError_StateDeserialization (details : string)
| StateLoaderError_UnknownStateVersion (version : Z)
| StateLoaderError_StateFileAccess (path : string) (reason : string)
| StateLoaderError_GenericError (message : string).

(** Discriminants and their names. *)
Definition StateLoaderCode : list (Z * string) :=
  [(1, "LoadingStateOverExistingState");
   (2, "LoadEmptyState");
   (3, "StateDecompression");
   (4, "StateDeserialization");
   (5, "UnknownStateVersion");
   (6, "StateFileAccess");
   (0, "GenericError")].

Definition StateLoaderError_code (e : StateLoaderError) : Z :=
  match e with
  | StateLoaderError_LoadingStateOverExistingState => 1
  | StateLoaderError_LoadEmptyState => 2
  | StateLoaderError_StateDecompression _ => 3
  | StateLoaderError_StateDeserialization _ => 4
  | StateLoaderError_UnknownStateVersion _ => 5
  | StateLoaderError_StateFileAccess _ _ => 6
  | StateLoaderError_GenericError _ => 0
  end.

Definition StateLoaderError_name (e : StateLoaderError) : string :=
  match e with
  | StateLoaderError_LoadingStateOverExistingState => "LoadingStateOverExistingState"
  | StateLoaderError_LoadEmptyState => "LoadEmptyState"
  | StateLoaderError_StateDecompression _ => "StateDecompression"
  | StateLoaderError_StateDeserialization _ => "StateDeserialization"
  | StateLoaderError_UnknownStateVersion _ => "UnknownStateVersion"
  | StateLoaderError_StateFileAccess _ _ => "StateFileAccess"
  | StateLoaderError_GenericError _ => "GenericError"
  end.

Definition StateLoaderError_message (e : StateLoaderError) : string :=
  match e with
  | StateLoaderError_LoadingStateOverExistingState =>
      "[anvil_zksync-state-1] Loading state into a node with existing state is not allowed."
  | StateLoaderError_LoadEmptyState =>
      "[anvil_zksync-state-2] Loading a state without blocks is not allowed."
  | StateLoaderError_StateDecompression details =>
      "[anvil_zksync-state-3] Failed to decompress state: " +:+ details +:+ "."
  | StateLoaderError_StateDeserialization details =>
      "[anvil_zksync-state-4] Failed to deserialize state: " +:+ details
  | StateLoaderError_UnknownStateVersion version =>
      "[anvil_zksync-state-5] Unknown version of the state: " +:+ dec version +:+ "."
  | StateLoaderError_StateFileAccess path reason =>
      "[anvil_zksync-state-6] Error while accessing the state located at `" +:+ path +:+ "`: " +:+ reason +:+ "."
  | StateLoaderError_GenericError message =>
      "[anvil_zksync-state-0] Generic error: " +:+ message
  end.

Definition StateLoaderError_json (e : StateLoaderError) : Json :=
  match e with
  | StateLoaderError_LoadingStateOverExistingState => JString "LoadingStateOverExistingState"
  | StateLoaderError_LoadEmptyState => JString "LoadEmptyState"
  | StateLoaderError_StateDecompression details =>
      JObject [("StateDecompression", JObject [("details", JString details)])]
  | StateLoaderError_StateDeserialization details =>
      JObject [("StateDeserialization", JObject [("details", JString details)])]
  | StateLoaderError_UnknownStateVersion version =>
      JObject [("UnknownStateVersion", JObject [("version", JNumber version)])]
  | StateLoaderError_StateFileAccess path reason =>
      JObject [("StateFileAccess", JObject [("path", JString path); ("reason", JString reason)])]
  | StateLoaderError_GenericError message =>
      JObject [("GenericError", JObject [("message", JString message)])]
  end.

Definition StateLoaderError_of_anyhow (debug : string) : StateLoaderError := StateLoaderError_GenericError debug.

(** *** [LLVM_EVM] *)
Inductive LLVM_EVMError :=
| LLVM_EVMError_GenericError (message : string).

(** Discriminants and their names. *)
Definition LLVM_EVMCode : list (Z * string) :=
  [(0, "GenericError")].

Definition LLVM_EVMError_code (e : LLVM_EVMError) : Z :=
  match e with
  | LLVM_EVMError_GenericError _ => 0
  end.

Definition LLVM_EVMError_name (e : LLVM_EVMError) : string :=
  match e with
  | LLVM_EVMError_GenericError _ => "GenericError"
  end.

Definition LLVM_EVMError_message (e : LLVM_EVMError) : string :=
  match e with
  | LLVM_EVMError_GenericError message =>
      "[compiler-llvm+evm-0] Generic error: " +:+ message
  end.

Definition LLVM_EVMError_json (e : LLVM_EVMError) : Json :=
  match e with
  | LLVM_EVMError_GenericError message =>
      JObject [("GenericError", JObject [("message", JString message)])]
  end.

Definition LLVM_EVMError_of_anyhow (debug : string) : LLVM_EVMError := LLVM_EVMError_GenericError debug.

(** *** [LLVM_Era] *)
Inductive LLVM_EraError :=
| LLVM_EraError_GenericError (message : string).

(** Discriminants and their names. *)
Definition LLVM_EraCode : list (Z * string) :=
  [(0, "GenericError")].

Definition LLVM_EraError_code (e : LLVM_EraError) : Z :=
  match e with
  | LLVM_EraError_GenericError _ => 0
  end.

Definition LLVM_EraError_name (e : LLVM_EraError) : string :=
  match e with
  | LLVM_EraError_GenericError _ => "GenericError"
  end.

Definition LLVM_EraError_message (e : LLVM_EraError) : string :=
  match e with
  | LLVM_EraError_GenericError message =>
      "[compiler-llvm+era-0] Generic error: " +:+ message
  end.

Definition LLVM_EraError_json (e : LLVM_EraError) : Json :=
  match e with
  | LLVM_EraError_GenericError message =>
      JObject [("GenericError", JObject [("message", JString message)])]
  end.

Definition LLVM_EraError_of_anyhow (debug : string) : LLVM_EraError := LLVM_EraError_GenericError debug.

(** *** [Solc] *)
Inductive SolcError :=
| SolcError_GenericError (message : string).

(** Discriminants and their names. *)
Definition SolcCode : list (Z * string) :=
  [(0, "GenericError")].

Definition SolcError_code (e : SolcError) : Z :=
  match e with
  | SolcError_GenericError _ => 0
  end.

Definition SolcError_name (e : SolcError) : string :=
  match e with
  | SolcError_GenericError _ => "GenericError"
  end.

Definition SolcError_message (e : SolcError) : string :=
  match e with
  | SolcError_GenericError message =>
      "[compiler-solc-0] Generic error: " +:+ message
  end.

Definition SolcError_json (e : SolcError) : Json :=
  match e with
  | SolcError_GenericError message =>
      JObject [("GenericError", JObject [("message", JString message)])]
  end.

Definition SolcError_of_anyhow (debug : string) : SolcError := SolcError_GenericError debug.

(** *** [SolcFork] *)
Inductive SolcForkError :=
| SolcForkError_GenericError (message : string).

(** Discriminants and their names. *)
Definition SolcForkCode : list (Z * string) :=
  [(0, "GenericError")].

Definition SolcForkError_code (e : SolcForkError) : Z :=
  match e with
  | SolcForkError_GenericError _ => 0
  end.

Definition SolcForkError_name (e : SolcForkError) : string :=
  match e with
  | SolcForkError_GenericError _ => "GenericError"
  end.

Definition SolcForkError_message (e : SolcForkError) : string :=
  match e with
  | SolcForkError_GenericError message =>
      "[compiler-solc+fork-0] Generic error: " +:+ message
  end.

Definition SolcForkError_json (e : SolcForkError) : Json :=
  match e with
  | SolcForkError_GenericError message =>
      JObject [("GenericError", JObject [("message", JString message)])]
  end.

Definition SolcForkError_of_anyhow (debug : string) : SolcForkError := SolcForkError_GenericError debug.

(** *** [Zksolc] *)
Inductive ZksolcError :=
| ZksolcError_GenericError (message : string).

(** Discriminants and their names. *)
Definition ZksolcCode : list (Z * string) :=
  [(0, "GenericError")].

Definition ZksolcError_code (e : ZksolcError) : Z :=
  match e with
  | ZksolcError_GenericError _ => 0
  end.

Definition ZksolcError_name (e : ZksolcError) : string :=
  match e with
  | ZksolcError_GenericError _ => "GenericError"
  end.

Definition ZksolcError_message (e : ZksolcError) : string :=
  match e with
  | ZksolcError_GenericError message =>
      "[compiler-zksolc-0] Generic error: " +:+ message
  end.

Definition ZksolcError_json (e : ZksolcError) : Json :=
  match e with
  | ZksolcError_GenericError message =>
      JObject [("GenericError", JObject [("message", JString message)])]
  end.

Definition ZksolcError_of_anyhow (debug : string) : ZksolcError := ZksolcError_GenericError debug.

(** *** [Zkvyper] *)
Inductive ZkvyperError :=
| ZkvyperError_GenericError (message : string).

(** Discriminants and their names. *)
Definition ZkvyperCode : list (Z * string) :=
  [(0, "GenericError")].

Definition ZkvyperError_code (e : ZkvyperError) : Z :=
  match e with
  | ZkvyperError_GenericError _ => 0
  end.

Definition ZkvyperError_name (e : ZkvyperError) : string :=
  match e with
  | ZkvyperError_GenericError _ => "GenericError"
  end.

Definition ZkvyperError_message (e : ZkvyperError) : string :=
  match e with
  | ZkvyperError_GenericError message =>
      "[compiler-zkvyper-0] Generic error: " +:+ message
  end.

Definition ZkvyperError_json (e : ZkvyperError) : Json :=
  match e with
  | ZkvyperError_GenericError message =>
      JObject [("GenericError", JObject [("message", JString message)])]
  end.

Definition ZkvyperError_of_anyhow (debug : string) : ZkvyperError := ZkvyperError_GenericError debug.

(** *** [API] *)
Inductive APIError :=
| APIError_GenericError (message : string).

(** Discriminants and their names. *)
Definition APICode : list (Z * string) :=
  [(0, "GenericError")].

Definition APIError_code (e : APIError) : Z :=
  match e with
  | APIError_GenericError _ => 0
  end.

Definition APIError_name (e : APIError) : string :=
  match e with
  | APIError_GenericError _ => "GenericError"
  end.

Definition APIError_message (e : APIError) : string :=
  match e with
  | APIError_GenericError message =>
      "[core-api-0] Generic error: " +:+ message
  end.

Definition APIError_json (e : APIError) : Json :=
  match e with
  | APIError_GenericError message =>
      JObject [("GenericError", JObject [("message", JString message)])]
  end.

Definition APIError_of_anyhow (debug : string) : APIError := APIError_GenericError debug.

(** *** [EraVM] *)
Inductive EraVMError :=
| EraVMError_GenericError (message : string).

(** Discriminants and their names. *)
Definition EraVMCode : list (Z * string) :=
  [(0, "GenericError")].

Definition EraVMError_code (e : EraVMError) : Z :=
  match e with
  | EraVMError_GenericError _ => 0
  end.

Definition EraVMError_name (e : EraVMError) : string :=
  match e with
  | EraVMError_GenericError _ => "GenericError"
  end.

Definition EraVMError_message (e : EraVMError) : string :=
  match e with
  | EraVMError_GenericError message =>
      "[core-eravm-0] Generic error: " +:+ message
  end.

Definition EraVMError_json (e : EraVMError) : Json :=
  match e with
  | EraVMError_GenericError message =>
      JObject [("GenericError", JObject [("message", JString message)])]
  end.

Definition EraVMError_of_anyhow (debug : string) : EraVMError := EraVMError_GenericError debug.

(** *** [ExecutionPlatform] *)
Inductive ExecutionPlatformError :=
| ExecutionPlatformError_GenericError (message : string).

(** Discriminants and their names. *)
Definition ExecutionPlatformCode : list (Z * string) :=
  [(0, "GenericError")].

Definition ExecutionPlatformError_code (e : ExecutionPlatformError) : Z :=
  match e with
  | ExecutionPlatformError_GenericError _ => 0
  end.

Definition ExecutionPlatformError_name (e : ExecutionPlatformError) : string :=
  match e with
  | ExecutionPlatformError_GenericError _ => "GenericError"
  end.

Definition ExecutionPlatformError_message (e : ExecutionPlatformError) : string :=
  match e with
  | ExecutionPlatformError_GenericError message =>
      "[core-exec-0] Generic error: " +:+ message
  end.

Definition ExecutionPlatformError_json (e : ExecutionPlatformError) : Json :=
  match e with
  | ExecutionPlatformError_GenericError message =>
      JObject [("GenericError", JObject [("message", JString message)])]
  end.

Definition ExecutionPlatformError_of_anyhow (debug : string) : ExecutionPlatformError := ExecutionPlatformError_GenericError debug.

(** *** [Sequencer] *)
Inductive SequencerError :=
| SequencerError_GenericSequencerError (message : string)
| SequencerError_GenericError (message : string).

(** Discriminants and their names. *)
Definition SequencerCode : list (Z * string) :=
  [(1, "GenericSequencerError");
   (0, "GenericError")].

Definition SequencerError_code (e : SequencerError) : Z :=
  match e with
  | SequencerError_GenericSequencerError _ => 1
  | SequencerError_GenericError _ => 0
  end.

Definition SequencerError_name (e : SequencerError) : string :=
  match e with
  | SequencerError_GenericSequencerError _ => "GenericSequencerError"
  | SequencerError_GenericError _ => "GenericError"
  end.

Definition SequencerError_message (e : SequencerError) : string :=
  match e with
  | SequencerError_GenericSequencerError message =>
      "[core-seq-1] Generic error: " +:+ message
  | SequencerError_GenericError message =>
      "[core-seq-0] Generic error: " +:+ message
  end.

Definition SequencerError_json (e : SequencerError) : Json :=
  match e with
  | SequencerError_GenericSequencerError message =>
      JObject [("GenericSequencerError", JObject [("message", JString message)])]
  | SequencerError_GenericError message =>
      JObject [("GenericError", JObject [("message", JString message)])]
  end.

Definition SequencerError_of_anyhow (debug : string) : SequencerError := SequencerError_GenericError debug.

(** *** [FoundryUpstream] *)
Inductive FoundryUpstreamError :=
| FoundryUpstreamError_GenericError (message : string).

(** Discriminants and their names. *)
Definition FoundryUpstreamCode : list (Z * string) :=
  [(0, "GenericError")].

Definition FoundryUpstreamError_code (e : FoundryUpstreamError) : Z :=
  match e with
  | FoundryUpstreamError_GenericError _ => 0
  end.

Definition FoundryUpstreamError_name (e : FoundryUpstreamError) : string :=
  match e with
  | FoundryUpstreamError_GenericError _ => "GenericError"
  end.

Definition FoundryUpstreamError_message (e : FoundryUpstreamError) : string :=
  match e with
  | FoundryUpstreamError_GenericError message =>
      "[foundry-upstream-0] Generic error: " +:+ message
  end.

Definition FoundryUpstreamError_json (e : FoundryUpstreamError) : Json :=
  match e with
  | FoundryUpstreamError_GenericError message =>
      JObject [("GenericError", JObject [("message", JString message)])]
  end.

Definition FoundryUpstreamError_of_anyhow (debug : string) : FoundryUpstreamError := FoundryUpstreamError_GenericError debug.

(** *** [FoundryZksync] *)
Inductive FoundryZksyncError :=
| FoundryZksyncError_GenericError (message : string).

(** Discriminants and their names. *)
Definition FoundryZksyncCode : list (Z * string) :=
  [(0, "GenericError")].

Definition FoundryZksyncError_code (e : FoundryZksyncError) : Z :=
  match e with
  | FoundryZksyncError_GenericError _ => 0
  end.

Definition FoundryZksyncError_name (e : FoundryZksyncError) : string :=
  match e with
  | FoundryZksyncError_GenericError _ => "GenericError"
  end.

Definition FoundryZksyncError_message (e : FoundryZksyncError) : string :=
  match e with
  | FoundryZksyncError_GenericError message =>
      "[foundry-zksync-0] Generic error: " +:+ message
  end.

Definition FoundryZksyncError_json (e : FoundryZksyncError) : Json :=
  match e with
  | FoundryZksyncError_GenericError message =>
      JObject [("GenericError", JObject [("message", JString message)])]
  end.

Definition FoundryZksyncError_of_anyhow (debug : string) : FoundryZksyncError := FoundryZksyncError_GenericError debug.

(** *** [HardhatUpstream] *)
Inductive HardhatUpstreamError :=
| HardhatUpstreamError_GenericError (message : string).

(** Discriminants and their names. *)
Definition HardhatUpstreamCode : list (Z * string) :=
  [(0, "GenericError")].

Definition HardhatUpstreamError_code (e : HardhatUpstreamError) : Z :=
  match e with
  | HardhatUpstreamError_GenericError _ => 0
  end.

Definition HardhatUpstreamError_name (e : HardhatUpstreamError) : string :=
  match e with
  | HardhatUpstreamError_GenericError _ => "GenericError"
  end.

Definition HardhatUpstreamError_message (e : HardhatUpstreamError) : string :=
  match e with
  | HardhatUpstreamError_GenericError message =>
      "[hardhat-upstream-0] Generic error: " +:+ message
  end.

Definition HardhatUpstreamError_json (e : HardhatUpstreamError) : Json :=
  match e with
  | HardhatUpstreamError_GenericError message =>
      JObject [("GenericError", JObject [("message", JString message)])]
  end.

Definition HardhatUpstreamError_of_anyhow (debug : string) : HardhatUpstreamError := HardhatUpstreamError_GenericError debug.

(** *** [HardhatZksync] *)
Inductive HardhatZksyncError :=
| HardhatZksyncError_GenericError (message : string).

(** Discriminants and their names. *)
Definition HardhatZksyncCode : list (Z * string) :=
  [(0, "GenericError")].

Definition HardhatZksyncError_code (e : HardhatZksyncError) : Z :=
  match e with
  | HardhatZksyncError_GenericError _ => 0
  end.

Definition HardhatZksyncError_name (e : HardhatZksyncError) : string :=
  match e with
  | HardhatZksyncError_GenericError _ => "GenericError"
  end.

Definition HardhatZksyncError_message (e : HardhatZksyncError) : string :=
  match e with
  | HardhatZksyncError_GenericError message =>
      "[hardhat-zksync-0] Generic error: " +:+ message
  end.

Definition HardhatZksyncError_json (e : HardhatZksyncError) : Json :=
  match e with
  | HardhatZksyncError_GenericError message =>
      JObject [("GenericError", JObject [("message", JString message)])]
  end.

Definition HardhatZksyncError_of_anyhow (debug : string) : HardhatZksyncError := HardhatZksyncError_GenericError debug.
End ErrorDefs.
