(* ===== verification/Errors.v ===== *)
(** * Errors of the system

    [crates/zksync_error]: the hierarchy of errors ([error/domains.rs],
    [kind.rs]), their identifiers ([identifier.rs]) and documentation
    ([documentation.rs]), packed and serialised errors ([packed.rs],
    [serialized.rs], [untyped.rs]) and the conversions of [lib.rs]. *)
From S2P Require Import Prelude Types Utils Text ErrorDefs.
From Stdlib Require Import Ascii.
Local Open Scope Z_scope.

Section Errors.
Context {ET : ErrorText}.

Inductive AnvilZksyncError :=
| AnvilZksync_AnvilEnvironment (e : AnvilEnvironmentError)
| AnvilZksync_AnvilGeneric (e : AnvilGenericError)
| AnvilZksync_AnvilNode (e : AnvilNodeError)
| AnvilZksync_GasEstimation (e : GasEstimationError)
| AnvilZksync_Halt (e : HaltError)
| AnvilZksync_Revert (e : RevertError)
| AnvilZksync_StateLoader (e : StateLoaderError)
| AnvilZksync_TransactionValidation (e : TransactionValidationError).

Inductive AnvilZksyncCode :=
| AnvilZksyncCode_AnvilEnvironment | AnvilZksyncCode_AnvilGeneric | AnvilZksyncCode_AnvilNode | AnvilZksyncCode_GasEstimation | AnvilZksyncCode_Halt | AnvilZksyncCode_Revert | AnvilZksyncCode_StateLoader | AnvilZksyncCode_TransactionValidation.

Definition AnvilZksyncCode_repr (c : AnvilZksyncCode) : Z :=
  match c with
  | AnvilZksyncCode_AnvilEnvironment => 0 | AnvilZksyncCode_AnvilGeneric => 1 | AnvilZksyncCode_AnvilNode => 2 | AnvilZksyncCode_GasEstimation => 3 | AnvilZksyncCode_Halt => 4 | AnvilZksyncCode_Revert => 5 | AnvilZksyncCode_StateLoader => 6 | AnvilZksyncCode_TransactionValidation => 7
  end.

Definition AnvilZksyncCode_from_repr (n : Z) : option AnvilZksyncCode :=
  if n =? 0 then Some AnvilZksyncCode_AnvilEnvironment
  else if n =? 1 then Some AnvilZksyncCode_AnvilGeneric
  else if n =? 2 then Some AnvilZksyncCode_AnvilNode
  else if n =? 3 then Some AnvilZksyncCode_GasEstimation
  else if n =? 4 then Some AnvilZksyncCode_Halt
  else if n =? 5 then Some AnvilZksyncCode_Revert
  else if n =? 6 then Some AnvilZksyncCode_StateLoader
  else if n =? 7 then Some AnvilZksyncCode_TransactionValidation
  else None.

Definition AnvilZksyncError_name (e : AnvilZksyncError) : string :=
  match e with
  | AnvilZksync_AnvilEnvironment _ => "AnvilEnvironment"
  | AnvilZksync_AnvilGeneric _ => "AnvilGeneric"
  | AnvilZksync_AnvilNode _ => "AnvilNode"
  | AnvilZksync_GasEstimation _ => "GasEstimation"
  | AnvilZksync_Halt _ => "Halt"
  | AnvilZksync_Revert _ => "Revert"
  | AnvilZksync_StateLoader _ => "StateLoader"
  | AnvilZksync_TransactionValidation _ => "TransactionValidation"
  end.

Definition AnvilZksyncError_json (e : AnvilZksyncError) : Json :=
  match e with
  | AnvilZksync_AnvilEnvironment e => JObject [("AnvilEnvironment", AnvilEnvironmentError_json e)]
  | AnvilZksync_AnvilGeneric e => JObject [("AnvilGeneric", AnvilGenericError_json e)]
  | AnvilZksync_AnvilNode e => JObject [("AnvilNode", AnvilNodeError_json e)]
  | AnvilZksync_GasEstimation e => JObject [("GasEstimation", GasEstimationError_json e)]
  | AnvilZksync_Halt e => JObject [("Halt", HaltError_json e)]
  | AnvilZksync_Revert e => JObject [("Revert", RevertError_json e)]
  | AnvilZksync_StateLoader e => JObject [("StateLoader", StateLoaderError_json e)]
  | AnvilZksync_TransactionValidation e => JObject [("TransactionValidation", TransactionValidationError_json e)]
  end.

Definition AnvilZksyncError_display (e : AnvilZksyncError) : string :=
  match e with
  | AnvilZksync_AnvilEnvironment e => AnvilEnvironmentError_message e
  | AnvilZksync_AnvilGeneric e => AnvilGenericError_message e
  | AnvilZksync_AnvilNode e => AnvilNodeError_message e
  | AnvilZksync_GasEstimation e => GasEstimationError_message e
  | AnvilZksync_Halt e => HaltError_message e
  | AnvilZksync_Revert e => RevertError_message e
  | AnvilZksync_StateLoader e => StateLoaderError_message e
  | AnvilZksync_TransactionValidation e => TransactionValidationError_message e
  end.

Inductive CompilerError :=
| Compiler_LLVM_EVM (e : LLVM_EVMError)
| Compiler_LLVM_Era (e : LLVM_EraError)
| Compiler_Solc (e : SolcError)
| Compiler_SolcFork (e : SolcForkError)
| Compiler_Zksolc (e : ZksolcError)
| Compiler_Zkvyper (e : ZkvyperError).

Inductive CompilerCode :=
| CompilerCode_LLVM_EVM | CompilerCode_LLVM_Era | CompilerCode_Solc | CompilerCode_SolcFork | CompilerCode_Zksolc | CompilerCode_Zkvyper.

Definition CompilerCode_repr (c : CompilerCode) : Z :=
  match c with
  | CompilerCode_LLVM_EVM => 0 | CompilerCode_LLVM_Era => 1 | CompilerCode_Solc => 2 | CompilerCode_SolcFork => 3 | CompilerCode_Zksolc => 4 | CompilerCode_Zkvyper => 5
  end.

Definition CompilerCode_from_repr (n : Z) : option CompilerCode :=
  if n =? 0 then Some CompilerCode_LLVM_EVM
  else if n =? 1 then Some CompilerCode_LLVM_Era
  else if n =? 2 then Some CompilerCode_Solc
  else if n =? 3 then Some CompilerCode_SolcFork
  else if n =? 4 then Some CompilerCode_Zksolc
  else if n =? 5 then Some CompilerCode_Zkvyper
  else None.

Definition CompilerError_name (e : CompilerError) : string :=
  match e with
  | Compiler_LLVM_EVM _ => "LLVM_EVM"
  | Compiler_LLVM_Era _ => "LLVM_Era"
  | Compiler_Solc _ => "Solc"
  | Compiler_SolcFork _ => "SolcFork"
  | Compiler_Zksolc _ => "Zksolc"
  | Compiler_Zkvyper _ => "Zkvyper"
  end.

Definition CompilerError_json (e : CompilerError) : Json :=
  match e with
  | Compiler_LLVM_EVM e => JObject [("LLVM_EVM", LLVM_EVMError_json e)]
  | Compiler_LLVM_Era e => JObject [("LLVM_Era", LLVM_EraError_json e)]
  | Compiler_Solc e => JObject [("Solc", SolcError_json e)]
  | Compiler_SolcFork e => JObject [("SolcFork", SolcForkError_json e)]
  | Compiler_Zksolc e => JObject [("Zksolc", ZksolcError_json e)]
  | Compiler_Zkvyper e => JObject [("Zkvyper", ZkvyperError_json e)]
  end.

Definition CompilerError_display (e : CompilerError) : string :=
  match e with
  | Compiler_LLVM_EVM e => LLVM_EVMError_message e
  | Compiler_LLVM_Era e => LLVM_EraError_message e
  | Compiler_Solc e => SolcError_message e
  | Compiler_SolcFork e => SolcForkError_message e
  | Compiler_Zksolc e => ZksolcError_message e
  | Compiler_Zkvyper e => ZkvyperError_message e
  end.

Inductive CoreError :=
| Core_API (e : APIError)
| Core_EraVM (e : EraVMError)
| Core_ExecutionPlatform (e : ExecutionPlatformError)
| Core_Sequencer (e : SequencerError).

Inductive CoreCode :=
| CoreCode_API | CoreCode_EraVM | CoreCode_ExecutionPlatform | CoreCode_Sequencer.

Definition CoreCode_repr (c : CoreCode) : Z :=
  match c with
  | CoreCode_API => 0 | CoreCode_EraVM => 1 | CoreCode_ExecutionPlatform => 2 | CoreCode_Sequencer => 3
  end.

Definition CoreCode_from_repr (n : Z) : option CoreCode :=
  if n =? 0 then Some CoreCode_API
  else if n =? 1 then Some CoreCode_EraVM
  else if n =? 2 then Some CoreCode_ExecutionPlatform
  else if n =? 3 then Some CoreCode_Sequencer
  else None.

Definition CoreError_name (e : CoreError) : string :=
  match e with
  | Core_API _ => "API"
  | Core_EraVM _ => "EraVM"
  | Core_ExecutionPlatform _ => "ExecutionPlatform"
  | Core_Sequencer _ => "Sequencer"
  end.

Definition CoreError_json (e : CoreError) : Json :=
  match e with
  | Core_API e => JObject [("API", APIError_json e)]
  | Core_EraVM e => JObject [("EraVM", EraVMError_json e)]
  | Core_ExecutionPlatform e => JObject [("ExecutionPlatform", ExecutionPlatformError_json e)]
  | Core_Sequencer e => JObject [("Sequencer", SequencerError_json e)]
  end.

Definition CoreError_display (e : CoreError) : string :=
  match e with
  | Core_API e => APIError_message e
  | Core_EraVM e => EraVMError_message e
  | Core_ExecutionPlatform e => ExecutionPlatformError_message e
  | Core_Sequencer e => SequencerError_message e
  end.

Inductive FoundryError :=
| Foundry_FoundryUpstream (e : FoundryUpstreamError)
| Foundry_FoundryZksync (e : FoundryZksyncError).

Inductive FoundryCode :=
| FoundryCode_FoundryUpstream | FoundryCode_FoundryZksync.

Definition FoundryCode_repr (c : FoundryCode) : Z :=
  match c with
  | FoundryCode_FoundryUpstream => 0 | FoundryCode_FoundryZksync => 1
  end.

Definition FoundryCode_from_repr (n : Z) : option FoundryCode :=
  if n =? 0 then Some FoundryCode_FoundryUpstream
  else if n =? 1 then Some FoundryCode_FoundryZksync
  else None.

Definition FoundryError_name (e : FoundryError) : string :=
  match e with
  | Foundry_FoundryUpstream _ => "FoundryUpstream"
  | Foundry_FoundryZksync _ => "FoundryZksync"
  end.

Definition FoundryError_json (e : FoundryError) : Json :=
  match e with
  | Foundry_FoundryUpstream e => JObject [("FoundryUpstream", FoundryUpstreamError_json e)]
  | Foundry_FoundryZksync e => JObject [("FoundryZksync", FoundryZksyncError_json e)]
  end.

Definition FoundryError_display (e : FoundryError) : string :=
  match e with
  | Foundry_FoundryUpstream e => FoundryUpstreamError_message e
  | Foundry_FoundryZksync e => FoundryZksyncError_message e
  end.

Inductive HardhatError :=
| Hardhat_HardhatUpstream (e : HardhatUpstreamError)
| Hardhat_HardhatZksync (e : HardhatZksyncError).

Inductive HardhatCode :=
| HardhatCode_HardhatUpstream | HardhatCode_HardhatZksync.

Definition HardhatCode_repr (c : HardhatCode) : Z :=
  match c with
  | HardhatCode_HardhatUpstream => 0 | HardhatCode_HardhatZksync => 1
  end.

Definition HardhatCode_from_repr (n : Z) : option HardhatCode :=
  if n =? 0 then Some HardhatCode_HardhatUpstream
  else if n =? 1 then Some HardhatCode_HardhatZksync
  else None.

Definition HardhatError_name (e : HardhatError) : string :=
  match e with
  | Hardhat_HardhatUpstream _ => "HardhatUpstream"
  | Hardhat_HardhatZksync _ => "HardhatZksync"
  end.

Definition HardhatError_json (e : HardhatError) : Json :=
  match e with
  | Hardhat_HardhatUpstream e => JObject [("HardhatUpstream", HardhatUpstreamError_json e)]
  | Hardhat_HardhatZksync e => JObject [("HardhatZksync", HardhatZksyncError_json e)]
  end.

Definition HardhatError_display (e : HardhatError) : string :=
  match e with
  | Hardhat_HardhatUpstream e => HardhatUpstreamError_message e
  | Hardhat_HardhatZksync e => HardhatZksyncError_message e
  end.

Inductive ZksyncError :=
| Zksync_AnvilZksync (e : AnvilZksyncError)
| Zksync_Compiler (e : CompilerError)
| Zksync_Core (e : CoreError)
| Zksync_Foundry (e : FoundryError)
| Zksync_Hardhat (e : HardhatError).

Inductive Kind :=
| Kind_AnvilZksync (c : AnvilZksyncCode)
| Kind_Compiler (c : CompilerCode)
| Kind_Core (c : CoreCode)
| Kind_Foundry (c : FoundryCode)
| Kind_Hardhat (c : HardhatCode).

Definition domain_code (k : Kind) : Z :=
  match k with
  | Kind_AnvilZksync _ => 5
  | Kind_Compiler _ => 2
  | Kind_Core _ => 1
  | Kind_Foundry _ => 4
  | Kind_Hardhat _ => 3
  end.

Definition component_code (k : Kind) : Z :=
  match k with
  | Kind_AnvilZksync c => AnvilZksyncCode_repr c
  | Kind_Compiler c => CompilerCode_repr c
  | Kind_Core c => CoreCode_repr c
  | Kind_Foundry c => FoundryCode_repr c
  | Kind_Hardhat c => HardhatCode_repr c
  end.

Definition get_kind (e : ZksyncError) : Kind :=
  match e with
  | Zksync_AnvilZksync (AnvilZksync_AnvilEnvironment _) => Kind_AnvilZksync AnvilZksyncCode_AnvilEnvironment
  | Zksync_AnvilZksync (AnvilZksync_AnvilGeneric _) => Kind_AnvilZksync AnvilZksyncCode_AnvilGeneric
  | Zksync_AnvilZksync (AnvilZksync_AnvilNode _) => Kind_AnvilZksync AnvilZksyncCode_AnvilNode
  | Zksync_AnvilZksync (AnvilZksync_GasEstimation _) => Kind_AnvilZksync AnvilZksyncCode_GasEstimation
  | Zksync_AnvilZksync (AnvilZksync_Halt _) => Kind_AnvilZksync AnvilZksyncCode_Halt
  | Zksync_AnvilZksync (AnvilZksync_Revert _) => Kind_AnvilZksync AnvilZksyncCode_Revert
  | Zksync_AnvilZksync (AnvilZksync_StateLoader _) => Kind_AnvilZksync AnvilZksyncCode_StateLoader
  | Zksync_AnvilZksync (AnvilZksync_TransactionValidation _) => Kind_AnvilZksync AnvilZksyncCode_TransactionValidation
  | Zksync_Compiler (Compiler_LLVM_EVM _) => Kind_Compiler CompilerCode_LLVM_EVM
  | Zksync_Compiler (Compiler_LLVM_Era _) => Kind_Compiler CompilerCode_LLVM_Era
  | Zksync_Compiler (Compiler_Solc _) => Kind_Compiler CompilerCode_Solc
  | Zksync_Compiler (Compiler_SolcFork _) => Kind_Compiler CompilerCode_SolcFork
  | Zksync_Compiler (Compiler_Zksolc _) => Kind_Compiler CompilerCode_Zksolc
  | Zksync_Compiler (Compiler_Zkvyper _) => Kind_Compiler CompilerCode_Zkvyper
  | Zksync_Core (Core_API _) => Kind_Core CoreCode_API
  | Zksync_Core (Core_EraVM _) => Kind_Core CoreCode_EraVM
  | Zksync_Core (Core_ExecutionPlatform _) => Kind_Core CoreCode_ExecutionPlatform
  | Zksync_Core (Core_Sequencer _) => Kind_Core CoreCode_Sequencer
  | Zksync_Foundry (Foundry_FoundryUpstream _) => Kind_Foundry FoundryCode_FoundryUpstream
  | Zksync_Foundry (Foundry_FoundryZksync _) => Kind_Foundry FoundryCode_FoundryZksync
  | Zksync_Hardhat (Hardhat_HardhatUpstream _) => Kind_Hardhat HardhatCode_HardhatUpstream
  | Zksync_Hardhat (Hardhat_HardhatZksync _) => Kind_Hardhat HardhatCode_HardhatZksync
  end.

Definition get_code (e : ZksyncError) : Z :=
  match e with
  | Zksync_AnvilZksync (AnvilZksync_AnvilEnvironment e) => AnvilEnvironmentError_code e
  | Zksync_AnvilZksync (AnvilZksync_AnvilGeneric e) => AnvilGenericError_code e
  | Zksync_AnvilZksync (AnvilZksync_AnvilNode e) => AnvilNodeError_code e
  | Zksync_AnvilZksync (AnvilZksync_GasEstimation e) => GasEstimationError_code e
  | Zksync_AnvilZksync (AnvilZksync_Halt e) => HaltError_code e
  | Zksync_AnvilZksync (AnvilZksync_Revert e) => RevertError_code e
  | Zksync_AnvilZksync (AnvilZksync_StateLoader e) => StateLoaderError_code e
  | Zksync_AnvilZksync (AnvilZksync_TransactionValidation e) => TransactionValidationError_code e
  | Zksync_Compiler (Compiler_LLVM_EVM e) => LLVM_EVMError_code e
  | Zksync_Compiler (Compiler_LLVM_Era e) => LLVM_EraError_code e
  | Zksync_Compiler (Compiler_Solc e) => SolcError_code e
  | Zksync_Compiler (Compiler_SolcFork e) => SolcForkError_code e
  | Zksync_Compiler (Compiler_Zksolc e) => ZksolcError_code e
  | Zksync_Compiler (Compiler_Zkvyper e) => ZkvyperError_code e
  | Zksync_Core (Core_API e) => APIError_code e
  | Zksync_Core (Core_EraVM e) => EraVMError_code e
  | Zksync_Core (Core_ExecutionPlatform e) => ExecutionPlatformError_code e
  | Zksync_Core (Core_Sequencer e) => SequencerError_code e
  | Zksync_Foundry (Foundry_FoundryUpstream e) => FoundryUpstreamError_code e
  | Zksync_Foundry (Foundry_FoundryZksync e) => FoundryZksyncError_code e
  | Zksync_Hardhat (Hardhat_HardhatUpstream e) => HardhatUpstreamError_code e
  | Zksync_Hardhat (Hardhat_HardhatZksync e) => HardhatZksyncError_code e
  end.

Definition get_message (e : ZksyncError) : string :=
  match e with
  | Zksync_AnvilZksync (AnvilZksync_AnvilEnvironment e) => AnvilEnvironmentError_message e
  | Zksync_AnvilZksync (AnvilZksync_AnvilGeneric e) => AnvilGenericError_message e
  | Zksync_AnvilZksync (AnvilZksync_AnvilNode e) => AnvilNodeError_message e
  | Zksync_AnvilZksync (AnvilZksync_GasEstimation e) => GasEstimationError_message e
  | Zksync_AnvilZksync (AnvilZksync_Halt e) => HaltError_message e
  | Zksync_AnvilZksync (AnvilZksync_Revert e) => RevertError_message e
  | Zksync_AnvilZksync (AnvilZksync_StateLoader e) => StateLoaderError_message e
  | Zksync_AnvilZksync (AnvilZksync_TransactionValidation e) => TransactionValidationError_message e
  | Zksync_Compiler (Compiler_LLVM_EVM e) => LLVM_EVMError_message e
  | Zksync_Compiler (Compiler_LLVM_Era e) => LLVM_EraError_message e
  | Zksync_Compiler (Compiler_Solc e) => SolcError_message e
  | Zksync_Compiler (Compiler_SolcFork e) => SolcForkError_message e
  | Zksync_Compiler (Compiler_Zksolc e) => ZksolcError_message e
  | Zksync_Compiler (Compiler_Zkvyper e) => ZkvyperError_message e
  | Zksync_Core (Core_API e) => APIError_message e
  | Zksync_Core (Core_EraVM e) => EraVMError_message e
  | Zksync_Core (Core_ExecutionPlatform e) => ExecutionPlatformError_message e
  | Zksync_Core (Core_Sequencer e) => SequencerError_message e
  | Zksync_Foundry (Foundry_FoundryUpstream e) => FoundryUpstreamError_message e
  | Zksync_Foundry (Foundry_FoundryZksync e) => FoundryZksyncError_message e
  | Zksync_Hardhat (Hardhat_HardhatUpstream e) => HardhatUpstreamError_message e
  | Zksync_Hardhat (Hardhat_HardhatZksync e) => HardhatZksyncError_message e
  end.

Definition error_name (e : ZksyncError) : string :=
  match e with
  | Zksync_AnvilZksync (AnvilZksync_AnvilEnvironment e) => AnvilEnvironmentError_name e
  | Zksync_AnvilZksync (AnvilZksync_AnvilGeneric e) => AnvilGenericError_name e
  | Zksync_AnvilZksync (AnvilZksync_AnvilNode e) => AnvilNodeError_name e
  | Zksync_AnvilZksync (AnvilZksync_GasEstimation e) => GasEstimationError_name e
  | Zksync_AnvilZksync (AnvilZksync_Halt e) => HaltError_name e
  | Zksync_AnvilZksync (AnvilZksync_Revert e) => RevertError_name e
  | Zksync_AnvilZksync (AnvilZksync_StateLoader e) => StateLoaderError_name e
  | Zksync_AnvilZksync (AnvilZksync_TransactionValidation e) => TransactionValidationError_name e
  | Zksync_Compiler (Compiler_LLVM_EVM e) => LLVM_EVMError_name e
  | Zksync_Compiler (Compiler_LLVM_Era e) => LLVM_EraError_name e
  | Zksync_Compiler (Compiler_Solc e) => SolcError_name e
  | Zksync_Compiler (Compiler_SolcFork e) => SolcForkError_name e
  | Zksync_Compiler (Compiler_Zksolc e) => ZksolcError_name e
  | Zksync_Compiler (Compiler_Zkvyper e) => ZkvyperError_name e
  | Zksync_Core (Core_API e) => APIError_name e
  | Zksync_Core (Core_EraVM e) => EraVMError_name e
  | Zksync_Core (Core_ExecutionPlatform e) => ExecutionPlatformError_name e
  | Zksync_Core (Core_Sequencer e) => SequencerError_name e
  | Zksync_Foundry (Foundry_FoundryUpstream e) => FoundryUpstreamError_name e
  | Zksync_Foundry (Foundry_FoundryZksync e) => FoundryZksyncError_name e
  | Zksync_Hardhat (Hardhat_HardhatUpstream e) => HardhatUpstreamError_name e
  | Zksync_Hardhat (Hardhat_HardhatZksync e) => HardhatZksyncError_name e
  end.

Definition error_display (e : ZksyncError) : string :=
  match e with
  | Zksync_AnvilZksync e => AnvilZksyncError_display e
  | Zksync_Compiler e => CompilerError_display e
  | Zksync_Core e => CoreError_display e
  | Zksync_Foundry e => FoundryError_display e
  | Zksync_Hardhat e => HardhatError_display e
  end.

Definition error_json (e : ZksyncError) : Json :=
  match e with
  | Zksync_AnvilZksync e => JObject [("AnvilZksync", AnvilZksyncError_json e)]
  | Zksync_Compiler e => JObject [("Compiler", CompilerError_json e)]
  | Zksync_Core e => JObject [("Core", CoreError_json e)]
  | Zksync_Foundry e => JObject [("Foundry", FoundryError_json e)]
  | Zksync_Hardhat e => JObject [("Hardhat", HardhatError_json e)]
  end.

(** [ICustomError]: every error as the error of the whole system. *)
Class ICustomError (T : Type) := to_unified : T → ZksyncError.

#[export] Instance AnvilZksyncError_unified : ICustomError AnvilZksyncError := λ e, Zksync_AnvilZksync e.
#[export] Instance AnvilEnvironmentError_unified : ICustomError AnvilEnvironmentError := λ e, to_unified (AnvilZksync_AnvilEnvironment e).
#[export] Instance AnvilGenericError_unified : ICustomError AnvilGenericError := λ e, to_unified (AnvilZksync_AnvilGeneric e).
#[export] Instance AnvilNodeError_unified : ICustomError AnvilNodeError := λ e, to_unified (AnvilZksync_AnvilNode e).
#[export] Instance GasEstimationError_unified : ICustomError GasEstimationError := λ e, to_unified (AnvilZksync_GasEstimation e).
#[export] Instance HaltError_unified : ICustomError HaltError := λ e, to_unified (AnvilZksync_Halt e).
#[export] Instance RevertError_unified : ICustomError RevertError := λ e, to_unified (AnvilZksync_Revert e).
#[export] Instance StateLoaderError_unified : ICustomError StateLoaderError := λ e, to_unified (AnvilZksync_StateLoader e).
#[export] Instance TransactionValidationError_unified : ICustomError TransactionValidationError := λ e, to_unified (AnvilZksync_TransactionValidation e).
#[export] Instance CompilerError_unified : ICustomError CompilerError := λ e, Zksync_Compiler e.
#[export] Instance LLVM_EVMError_unified : ICustomError LLVM_EVMError := λ e, to_unified (Compiler_LLVM_EVM e).
#[export] Instance LLVM_EraError_unified : ICustomError LLVM_EraError := λ e, to_unified (Compiler_LLVM_Era e).
#[export] Instance SolcError_unified : ICustomError SolcError := λ e, to_unified (Compiler_Solc e).
#[export] Instance SolcForkError_unified : ICustomError SolcForkError := λ e, to_unified (Compiler_SolcFork e).
#[export] Instance ZksolcError_unified : ICustomError ZksolcError := λ e, to_unified (Compiler_Zksolc e).
#[export] Instance ZkvyperError_unified : ICustomError ZkvyperError := λ e, to_unified (Compiler_Zkvyper e).
#[export] Instance CoreError_unified : ICustomError CoreError := λ e, Zksync_Core e.
#[export] Instance APIError_unified : ICustomError APIError := λ e, to_unified (Core_API e).
#[export] Instance EraVMError_unified : ICustomError EraVMError := λ e, to_unified (Core_EraVM e).
#[export] Instance ExecutionPlatformError_unified : ICustomError ExecutionPlatformError := λ e, to_unified (Core_ExecutionPlatform e).
#[export] Instance SequencerError_unified : ICustomError SequencerError := λ e, to_unified (Core_Sequencer e).
#[export] Instance FoundryError_unified : ICustomError FoundryError := λ e, Zksync_Foundry e.
#[export] Instance FoundryUpstreamError_unified : ICustomError FoundryUpstreamError := λ e, to_unified (Foundry_FoundryUpstream e).
#[export] Instance FoundryZksyncError_unified : ICustomError FoundryZksyncError := λ e, to_unified (Foundry_FoundryZksync e).
#[export] Instance HardhatError_unified : ICustomError HardhatError := λ e, Zksync_Hardhat e.
#[export] Instance HardhatUpstreamError_unified : ICustomError HardhatUpstreamError := λ e, to_unified (Hardhat_HardhatUpstream e).
#[export] Instance HardhatZksyncError_unified : ICustomError HardhatZksyncError := λ e, to_unified (Hardhat_HardhatZksync e).

(** [to_generic] and [to_domain] of every component. *)
Definition AnvilEnvironment_to_generic (err : string) : AnvilEnvironmentError := AnvilEnvironmentError_GenericError err.
Definition AnvilEnvironment_to_domain (err : string) : AnvilZksyncError := AnvilZksync_AnvilEnvironment (AnvilEnvironmentError_GenericError err).
Definition AnvilGeneric_to_generic (err : string) : AnvilGenericError := AnvilGenericError_GenericError err.
Definition AnvilGeneric_to_domain (err : string) : AnvilZksyncError := AnvilZksync_AnvilGeneric (AnvilGenericError_GenericError err).
Definition AnvilNode_to_generic (err : string) : AnvilNodeError := AnvilNodeError_GenericError err.
Definition AnvilNode_to_domain (err : string) : AnvilZksyncError := AnvilZksync_AnvilNode (AnvilNodeError_GenericError err).
Definition GasEstimation_to_generic (err : string) : GasEstimationError := GasEstimationError_GenericError err.
Definition GasEstimation_to_domain (err : string) : AnvilZksyncError := AnvilZksync_GasEstimation (GasEstimationError_GenericError err).
Definition Halt_to_generic (err : string) : HaltError := HaltError_GenericError err.
Definition Halt_to_domain (err : string) : AnvilZksyncError := AnvilZksync_Halt (HaltError_GenericError err).
Definition Revert_to_generic (err : string) : RevertError := RevertError_GenericError err.
Definition Revert_to_domain (err : string) : AnvilZksyncError := AnvilZksync_Revert (RevertError_GenericError err).
Definition StateLoader_to_generic (err : string) : StateLoaderError := StateLoaderError_GenericError err.
Definition StateLoader_to_domain (err : string) : AnvilZksyncError := AnvilZksync_StateLoader (StateLoaderError_GenericError err).
Definition TransactionValidation_to_generic (err : string) : TransactionValidationError := TransactionValidationError_GenericError err.
Definition TransactionValidation_to_domain (err : string) : AnvilZksyncError := AnvilZksync_TransactionValidation (TransactionValidationError_GenericError err).
Definition LLVM_EVM_to_generic (err : string) : LLVM_EVMError := LLVM_EVMError_GenericError err.
Definition LLVM_EVM_to_domain (err : string) : CompilerError := Compiler_LLVM_EVM (LLVM_EVMError_GenericError err).
Definition LLVM_Era_to_generic (err : string) : LLVM_EraError := LLVM_EraError_GenericError err.
Definition LLVM_Era_to_domain (err : string) : CompilerError := Compiler_LLVM_Era (LLVM_EraError_GenericError err).
Definition Solc_to_generic (err : string) : SolcError := SolcError_GenericError err.
Definition Solc_to_domain (err : string) : CompilerError := Compiler_Solc (SolcError_GenericError err).
Definition SolcFork_to_generic (err : string) : SolcForkError := SolcForkError_GenericError err.
Definition SolcFork_to_domain (err : string) : CompilerError := Compiler_SolcFork (SolcForkError_GenericError err).
Definition Zksolc_to_generic (err : string) : ZksolcError := ZksolcError_GenericError err.
Definition Zksolc_to_domain (err : string) : CompilerError := Compiler_Zksolc (ZksolcError_GenericError err).
Definition Zkvyper_to_generic (err : string) : ZkvyperError := ZkvyperError_GenericError err.
Definition Zkvyper_to_domain (err : string) : CompilerError := Compiler_Zkvyper (ZkvyperError_GenericError err).
Definition API_to_generic (err : string) : APIError := APIError_GenericError err.
Definition API_to_domain (err : string) : CoreError := Core_API (APIError_GenericError err).
Definition EraVM_to_generic (err : string) : EraVMError := EraVMError_GenericError err.
Definition EraVM_to_domain (err : string) : CoreError := Core_EraVM (EraVMError_GenericError err).
Definition ExecutionPlatform_to_generic (err : string) : ExecutionPlatformError := ExecutionPlatformError_GenericError err.
Definition ExecutionPlatform_to_domain (err : string) : CoreError := Core_ExecutionPlatform (ExecutionPlatformError_GenericError err).
Definition Sequencer_to_generic (err : string) : SequencerError := SequencerError_GenericError err.
Definition Sequencer_to_domain (err : string) : CoreError := Core_Sequencer (SequencerError_GenericError err).
Definition FoundryUpstream_to_generic (err : string) : FoundryUpstreamError := FoundryUpstreamError_GenericError err.
Definition FoundryUpstream_to_domain (err : string) : FoundryError := Foundry_FoundryUpstream (FoundryUpstreamError_GenericError err).
Definition FoundryZksync_to_generic (err : string) : FoundryZksyncError := FoundryZksyncError_GenericError err.
Definition FoundryZksync_to_domain (err : string) : FoundryError := Foundry_FoundryZksync (FoundryZksyncError_GenericError err).
Definition HardhatUpstream_to_generic (err : string) : HardhatUpstreamError := HardhatUpstreamError_GenericError err.
Definition HardhatUpstream_to_domain (err : string) : HardhatError := Hardhat_HardhatUpstream (HardhatUpstreamError_GenericError err).
Definition HardhatZksync_to_generic (err : string) : HardhatZksyncError := HardhatZksyncError_GenericError err.
Definition HardhatZksync_to_domain (err : string) : HardhatError := Hardhat_HardhatZksync (HardhatZksyncError_GenericError err).

(** ** Identifiers *)
Record StructuredErrorCode := mkStructured {
  sc_domain_code : Z;
  sc_component_code : Z;
  sc_error_code : Z;
}.

Definition structured_encode (c : StructuredErrorCode) : Z :=
  (sc_domain_code c * 10000 + sc_component_code c * 1000 + sc_error_code c) mod 2 ^ 32.

Definition structured_decode (raw_code : Z) : StructuredErrorCode :=
  mkStructured ((raw_code / 10000) mod 10) ((raw_code / 1000) mod 10) (raw_code mod 1000).

Record Identifier := mkIdentifier {
  id_kind : Kind;
  id_code : Z;
}.

Definition identifier_encode (i : Identifier) : Z :=
  (domain_code (id_kind i) * 10000 + component_code (id_kind i) * 1000 + id_code i) mod 2 ^ 32.

Definition kind_decode (domain component : Z) : option Kind :=
  if domain =? 5 then Kind_AnvilZksync <$> AnvilZksyncCode_from_repr component
  else if domain =? 2 then Kind_Compiler <$> CompilerCode_from_repr component
  else if domain =? 1 then Kind_Core <$> CoreCode_from_repr component
  else if domain =? 4 then Kind_Foundry <$> FoundryCode_from_repr component
  else if domain =? 3 then Kind_Hardhat <$> HardhatCode_from_repr component
  else None.

Definition identifier_decode (c : StructuredErrorCode) : option Identifier :=
  kind ← kind_decode (sc_domain_code c) (sc_component_code c);
  Some (mkIdentifier kind (sc_error_code c)).

Definition kind_repr (k : Kind) : string :=
  match k with
  | Kind_AnvilZksync AnvilZksyncCode_AnvilEnvironment => "anvil_zksync-env"
  | Kind_AnvilZksync AnvilZksyncCode_AnvilGeneric => "anvil_zksync-gen"
  | Kind_AnvilZksync AnvilZksyncCode_AnvilNode => "anvil_zksync-node"
  | Kind_AnvilZksync AnvilZksyncCode_GasEstimation => "anvil_zksync-gas_estim"
  | Kind_AnvilZksync AnvilZksyncCode_Halt => "anvil_zksync-halt"
  | Kind_AnvilZksync AnvilZksyncCode_Revert => "anvil_zksync-revert"
  | Kind_AnvilZksync AnvilZksyncCode_StateLoader => "anvil_zksync-state"
  | Kind_AnvilZksync AnvilZksyncCode_TransactionValidation => "anvil_zksync-tx_invalid"
  | Kind_Compiler CompilerCode_LLVM_EVM => "compiler-llvm+evm"
  | Kind_Compiler CompilerCode_LLVM_Era => "compiler-llvm+era"
  | Kind_Compiler CompilerCode_Solc => "compiler-solc"
  | Kind_Compiler CompilerCode_SolcFork => "compiler-solc+fork"
  | Kind_Compiler CompilerCode_Zksolc => "compiler-zksolc"
  | Kind_Compiler CompilerCode_Zkvyper => "compiler-zkvyper"
  | Kind_Core CoreCode_API => "core-api"
  | Kind_Core CoreCode_EraVM => "core-eravm"
  | Kind_Core CoreCode_ExecutionPlatform => "core-exec"
  | Kind_Core CoreCode_Sequencer => "core-seq"
  | Kind_Foundry FoundryCode_FoundryUpstream => "foundry-upstream"
  | Kind_Foundry FoundryCode_FoundryZksync => "foundry-zksync"
  | Kind_Hardhat HardhatCode_HardhatUpstream => "hardhat-upstream"
  | Kind_Hardhat HardhatCode_HardhatZksync => "hardhat-zksync"
  end.

Definition get_identifier_repr (i : Identifier) : string :=
  "[" +:+ kind_repr (id_kind i) +:+ "-" +:+ dec (id_code i) +:+ "]".

(** The table of codes and names of a component. *)
Definition codes_of (k : Kind) : list (Z * string) :=
  match k with
  | Kind_AnvilZksync AnvilZksyncCode_AnvilEnvironment => AnvilEnvironmentCode
  | Kind_AnvilZksync AnvilZksyncCode_AnvilGeneric => AnvilGenericCode
  | Kind_AnvilZksync AnvilZksyncCode_AnvilNode => AnvilNodeCode
  | Kind_AnvilZksync AnvilZksyncCode_GasEstimation => GasEstimationCode
  | Kind_AnvilZksync AnvilZksyncCode_Halt => HaltCode
  | Kind_AnvilZksync AnvilZksyncCode_Revert => RevertCode
  | Kind_AnvilZksync AnvilZksyncCode_StateLoader => StateLoaderCode
  | Kind_AnvilZksync AnvilZksyncCode_TransactionValidation => TransactionValidationCode
  | Kind_Compiler CompilerCode_LLVM_EVM => LLVM_EVMCode
  | Kind_Compiler CompilerCode_LLVM_Era => LLVM_EraCode
  | Kind_Compiler CompilerCode_Solc => SolcCode
  | Kind_Compiler CompilerCode_SolcFork => SolcForkCode
  | Kind_Compiler CompilerCode_Zksolc => ZksolcCode
  | Kind_Compiler CompilerCode_Zkvyper => ZkvyperCode
  | Kind_Core CoreCode_API => APICode
  | Kind_Core CoreCode_EraVM => EraVMCode
  | Kind_Core CoreCode_ExecutionPlatform => ExecutionPlatformCode
  | Kind_Core CoreCode_Sequencer => SequencerCode
  | Kind_Foundry FoundryCode_FoundryUpstream => FoundryUpstreamCode
  | Kind_Foundry FoundryCode_FoundryZksync => FoundryZksyncCode
  | Kind_Hardhat HardhatCode_HardhatUpstream => HardhatUpstreamCode
  | Kind_Hardhat HardhatCode_HardhatZksync => HardhatZksyncCode
  end.

Fixpoint from_repr (code : Z) (l : list (Z * string)) : option string :=
  match l with
  | [] => None
  | (c, name) :: l => if code =? c then Some name else from_repr code l
  end.

(** [get_error_name] of an identifier *)
Definition identifier_name {S E} (i : Identifier) : M S E string :=
  expect "Internal error" (from_repr (id_code i) (codes_of (id_kind i))).

Definition get_identifier (e : ZksyncError) : Identifier := mkIdentifier (get_kind e) (get_code e).

(** ** Documentation

    The identifiers in the dump of the error model, and whether they have
    documentation. *)
Definition model_errors : list (string * bool) :=
  [("[anvil_zksync-env-0]", false);
   ("[anvil_zksync-env-10]", true);
   ("[anvil_zksync-env-11]", true);
   ("[anvil_zksync-env-1]", true);
   ("[anvil_zksync-env-2]", true);
   ("[anvil_zksync-gas_estim-0]", false);
   ("[anvil_zksync-gas_estim-10]", true);
   ("[anvil_zksync-gas_estim-11]", true);
   ("[anvil_zksync-gas_estim-1]", true);
   ("[anvil_zksync-gas_estim-20]", true);
   ("[anvil_zksync-gas_estim-21]", true);
   ("[anvil_zksync-gas_estim-2]", true);
   ("[anvil_zksync-gen-0]", false);
   ("[anvil_zksync-halt-0]", false);
   ("[anvil_zksync-halt-10]", true);
   ("[anvil_zksync-halt-11]", true);
   ("[anvil_zksync-halt-12]", true);
   ("[anvil_zksync-halt-13]", true);
   ("[anvil_zksync-halt-14]", true);
   ("[anvil_zksync-halt-15]", true);
   ("[anvil_zksync-halt-16]", true);
   ("[anvil_zksync-halt-17]", true);
   ("[anvil_zksync-halt-18]", true);
   ("[anvil_zksync-halt-19]", true);
   ("[anvil_zksync-halt-1]", true);
   ("[anvil_zksync-halt-20]", true);
   ("[anvil_zksync-halt-21]", true);
   ("[anvil_zksync-halt-2]", true);
   ("[anvil_zksync-halt-3]", true);
   ("[anvil_zksync-halt-4]", true);
   ("[anvil_zksync-halt-5]", true);
   ("[anvil_zksync-halt-6]", true);
   ("[anvil_zksync-halt-7]", true);
   ("[anvil_zksync-halt-8]", true);
   ("[anvil_zksync-halt-9]", true);
   ("[anvil_zksync-node-0]", false);
   ("[anvil_zksync-node-10]", true);
   ("[anvil_zksync-node-11]", true);
   ("[anvil_zksync-node-1]", true);
   ("[anvil_zksync-node-20]", true);
   ("[anvil_zksync-node-30]", true);
   ("[anvil_zksync-revert-0]", false);
   ("[anvil_zksync-revert-1]", true);
   ("[anvil_zksync-revert-2]", true);
   ("[anvil_zksync-revert-3]", true);
   ("[anvil_zksync-revert-4]", true);
   ("[anvil_zksync-state-0]", false);
   ("[anvil_zksync-state-1]", true);
   ("[anvil_zksync-state-2]", true);
   ("[anvil_zksync-state-3]", true);
   ("[anvil_zksync-state-4]", true);
   ("[anvil_zksync-state-5]", true);
   ("[anvil_zksync-state-6]", true);
   ("[anvil_zksync-tx_invalid-0]", false);
   ("[anvil_zksync-tx_invalid-1]", true);
   ("[anvil_zksync-tx_invalid-2]", true);
   ("[anvil_zksync-tx_invalid-3]", true);
   ("[anvil_zksync-tx_invalid-4]", true);
   ("[compiler-llvm+era-0]", false);
   ("[compiler-llvm+evm-0]", false);
   ("[compiler-solc+fork-0]", false);
   ("[compiler-solc-0]", false);
   ("[compiler-zksolc-0]", false);
   ("[compiler-zkvyper-0]", false);
   ("[core-api-0]", false);
   ("[core-eravm-0]", false);
   ("[core-exec-0]", false);
   ("[core-seq-0]", false);
   ("[core-seq-1]", false);
   ("[foundry-upstream-0]", false);
   ("[foundry-zksync-0]", false);
   ("[hardhat-upstream-0]", false);
   ("[hardhat-zksync-0]", false)].

Inductive DocumentationError := IncompleteModel (msg : string).

Fixpoint model_get (repr : string) (l : list (string * bool)) : option bool :=
  match l with
  | [] => None
  | (k, documented) :: l => if bool_decide (repr = k) then Some documented else model_get repr l
  end.

(** The documentation of an identifier, by its key in the model. *)
Definition get_documentation (i : Identifier) : result (option string) DocumentationError :=
  let repr := get_identifier_repr i in
  match model_get repr model_errors with
  | Some documented => Ok (if documented then Some repr else None)
  | None => Err (IncompleteModel ("Can not fetch description for error " +:+ repr +:+ "."))
  end.

(** ** Packed and serialised errors *)
Record PackedError (U : Type) := mkPacked {
  pe_identifier : Identifier;
  pe_message : string;
  pe_data : U;
}.
#[global] Arguments mkPacked {_} _ _ _.
#[global] Arguments pe_identifier {_} _.
#[global] Arguments pe_message {_} _.
#[global] Arguments pe_data {_} _.

Definition pack_unified (e : ZksyncError) : PackedError ZksyncError :=
  mkPacked (get_identifier e) (get_message e) e.

Definition pack {T} `{ICustomError T} (e : T) : PackedError ZksyncError := pack_unified (to_unified e).

Record SerializedError := mkSerialized {
  se_code : Z;
  se_message : string;
  se_data : Json;
}.

Definition new_custom (kind : Kind) (code : Z) (message : string) (unified_error_json : Json) : SerializedError :=
  mkSerialized (identifier_encode (mkIdentifier kind code)) message unified_error_json.

Definition serialize (e : PackedError ZksyncError) : SerializedError :=
  mkSerialized (identifier_encode (pe_identifier e)) (pe_message e) (error_json (pe_data e)).

Record UntypedErrorObject := mkUntyped {
  uo_identifier : Identifier;
  uo_name : string;
  uo_fields : list (string * Json);
  uo_raw : Json;
}.

Definition UNWRAP_NONE : string := "called `Option::unwrap()` on a `None` value".

(** [v.as_object().unwrap().values().next().unwrap()] *)
Definition first_value {S E} (v : Json) : M S E (string * Json) :=
  fields ← expect UNWRAP_NONE (as_object v);
  expect UNWRAP_NONE (head fields).

Definition unpack_untyped {S E} (se : SerializedError) : M S E UntypedErrorObject :=
  identifier ← expect UNWRAP_NONE (identifier_decode (structured_decode (se_code se)));
  skip_domain ← first_value (se_data se);
  skip_subdomain ← first_value skip_domain.2;
  entry ← first_value skip_subdomain.2;
  fields ← expect UNWRAP_NONE (as_object entry.2);
  mret (mkUntyped identifier entry.1 fields (se_data se)).

(** [IError] for a serialised error: [get_identifier] and [get_data]. *)
Definition serialized_identifier {S E} (se : SerializedError) : M S E Identifier :=
  expect UNWRAP_NONE (identifier_decode (structured_decode (se_code se))).
Definition serialized_data {S E} (se : SerializedError) : M S E UntypedErrorObject := unpack_untyped se.

(** ** Identifiers and codes *)
Lemma structured_roundtrip d c e :
  0 <= d < 10 → 0 <= c < 10 → 0 <= e < 1000 →
  structured_decode (structured_encode (mkStructured d c e)) = mkStructured d c e.
Proof.
  intros Hd Hc He. unfold structured_encode, structured_decode; cbn [sc_domain_code sc_component_code sc_error_code].
  rewrite (Z.mod_small _ (2 ^ 32)) by lia. f_equal.
  - replace (d * 10000 + c * 1000 + e) with (d * 10000 + (c * 1000 + e)) by lia.
    rewrite Z.div_add_l, (Z.div_small (c * 1000 + e)), Z.add_0_r by lia. by apply Z.mod_small.
  - replace (d * 10000 + c * 1000 + e) with ((d * 10 + c) * 1000 + e) by lia.
    rewrite Z.div_add_l, (Z.div_small e), Z.add_0_r by lia.
    rewrite Z.add_comm, Z.mod_add by lia. by apply Z.mod_small.
  - replace (d * 10000 + c * 1000 + e) with (e + (d * 10 + c) * 1000) by lia.
    rewrite Z.mod_add by lia. by apply Z.mod_small.
Qed.

Lemma kind_codes (k : Kind) :
  0 <= domain_code k < 10 ∧ 0 <= component_code k < 10 ∧ kind_decode (domain_code k) (component_code k) = Some k.
Proof. destruct k as [[]|[]|[]|[]|[]]; cbn; split_and!; try lia; reflexivity. Qed.

Lemma identifier_roundtrip k code :
  0 <= code < 1000 →
  identifier_decode (structured_decode (identifier_encode (mkIdentifier k code))) = Some (mkIdentifier k code).
Proof.
  intros Hc. destruct (kind_codes k) as (Hd & Hcomp & Hk).
  change (identifier_encode (mkIdentifier k code))
    with (structured_encode (mkStructured (domain_code k) (component_code k) code)).
  rewrite structured_roundtrip by done. unfold identifier_decode.
  cbn [sc_domain_code sc_component_code sc_error_code]. by rewrite Hk.
Qed.

(** What is checked of one error: its code is small, its name is that of the
    code, its identifier is documented, and its message starts with the
    identifier. *)
Definition well_identified (e : ZksyncError) : Prop :=
  let i := get_identifier e in
  0 <= id_code i < 1000 ∧
  from_repr (id_code i) (codes_of (id_kind i)) = Some (error_name e) ∧
  is_Some (model_get (get_identifier_repr i) model_errors) ∧
  ∃ rest, get_message e = get_identifier_repr i +:+ rest.

(** A text that begins with a given one: the rest, by computation. *)
Ltac split_prefix :=
  eexists; cbn [get_message get_identifier get_kind get_code]; reflexivity.

Lemma all_identified e : well_identified e.
Proof.
  destruct e as [[e|e|e|e|e|e|e|e]|[e|e|e|e|e|e]|[e|e|e|e]|[e|e]|[e|e]]; destruct e.
  all: split_and!; [cbn; lia|cbn; lia|reflexivity|vm_compute; eauto|].
  all: try split_prefix.
Qed.


(** ** Serialised errors *)

(** The JSON of the error in its component: an object with its fields, or its
    name when it has none. *)
Definition inner_json (e : ZksyncError) : Json :=
  match error_json e with
  | JObject [(_, JObject [(_, inner)])] => inner
  | v => v
  end.

Lemma error_json_shape e :
  ∃ domain component, error_json e = JObject [(domain, JObject [(component, inner_json e)])] ∧
    ((∃ fields, inner_json e = JObject [(error_name e, JObject fields)]) ∨ inner_json e = JString (error_name e)).
Proof.
  destruct e as [[e|e|e|e|e|e|e|e]|[e|e|e|e|e|e]|[e|e|e|e]|[e|e]|[e|e]]; destruct e; do 2 eexists;
    (split; [reflexivity|first [right; reflexivity | left; eexists; reflexivity]]).
Qed.

(** Unpacking a serialised error.  Code and message are kept; an error with
    fields is recovered with its identifier, its name and its fields; an error
    without fields is serialised as a bare name, and taking it apart panics. *)
Theorem serialized_unpack {T S E} `{ICustomError T} (x : T) (s : S) :
  let e := to_unified x in
  let se := serialize (pack x) in
  serialized_identifier (E := E) se s = Ret (get_identifier e) s ∧
  se_message se = get_message e ∧
  ((∃ fields, inner_json e = JObject [(error_name e, JObject fields)] ∧
     unpack_untyped (E := E) se s = Ret (mkUntyped (get_identifier e) (error_name e) fields (error_json e)) s) ∨
   (inner_json e = JString (error_name e) ∧ unpack_untyped (E := E) se s = Panic UNWRAP_NONE)).
Proof.
  cbn zeta. set (e := to_unified x). unfold pack. fold e.
  destruct (all_identified e) as (Hc & _).
  assert (Hid : identifier_decode (structured_decode (identifier_encode (get_identifier e))) = Some (get_identifier e))
    by by apply identifier_roundtrip.
  split; [unfold serialized_identifier; cbn; by rewrite Hid|]. split; [done|].
  destruct (error_json_shape e) as (d & c & Hj & Hin).
  unfold unpack_untyped, first_value, mbind, M_bind. cbn [se_code se_data serialize pe_identifier pe_data pack_unified].
  rewrite Hid, Hj. destruct Hin as [[fields Hin]|Hin]; rewrite Hin.
  - left. exists fields. split; [done|reflexivity].
  - right. split; reflexivity.
Qed.
End Errors.

(** ** Samples *)
Module SampleErrors.
#[export] Instance text : ErrorText := {|
  h256_display h := "0x" +:+ hex_h256 h;
  h256_json h := JString ("0x" +:+ hex_h256 h);
  uint_json n := JString ("0x" +:+ dec n);
|}.

(** An error without fields cannot be taken apart. *)
Example unit_error_panics :
  unpack_untyped (S := unit) (E := unit) (serialize (pack StateLoaderError_LoadEmptyState)) tt = Panic UNWRAP_NONE.
Proof. vm_compute. reflexivity. Qed.

(** The messages of the two errors of a transaction that fails with any amount
    of gas have their texts exchanged: halting burns all gas. *)
Example always_fails_messages (h : HaltError) (r : RevertError) :
  (∃ rest, GasEstimationError_message (GasEstimationError_TransactionAlwaysHalts h) =
     "[anvil_zksync-gas_estim-20] Gas estimation is impossible because the transaction can not be executed with maximum gas, it reverts and returns unspent gas:" +:+ rest) ∧
  (∃ rest, GasEstimationError_message (GasEstimationError_TransactionAlwaysReverts r []) =
     "[anvil_zksync-gas_estim-21] Gas estimation is impossible because the transaction can not be executed with maximum gas, it reverts and burns all gas:" +:+ rest).
Proof. split; eexists; reflexivity. Qed.

(** A code of a thousand or more is another error's. *)
Example large_code_collides :
  identifier_encode (mkIdentifier (Kind_Core CoreCode_API) 1003) =
  identifier_encode (mkIdentifier (Kind_Core CoreCode_EraVM) 3).
Proof. reflexivity. Qed.

End SampleErrors.
