(* ===== verification/NodeErrors.v ===== *)
(** * Errors of the node

    [crates/core/src/node/error.rs]: how the reasons for which a transaction
    reverts or halts become errors of the system, with their selectors resolved;
    and [crates/api_server/src/error.rs]: how errors become objects of the
    JSON-RPC protocol.  The numbers of the protocol and the texts of the errors
    of other crates are interfaces. *)
From S2P Require Import Prelude Types Utils Text Cache Resolver ErrorDefs Errors.
From Stdlib Require Import Ascii.
Local Open Scope Z_scope.

(** ** Reasons of the virtual machine

    [VmRevertReason] and [Halt] of [zksync_multivm]; the first is marked as not
    exhaustive, hence a last constructor for other reasons. *)
Inductive RevertReason :=
| ReasonGeneral (msg : string) (data : Bytes)
| ReasonInnerTxError
| ReasonVmError
| ReasonUnknown (function_selector data : Bytes)
| ReasonOther.

Inductive VmHalt :=
| VmHalt_ValidationFailed (reason : RevertReason)
| VmHalt_PaymasterValidationFailed (reason : RevertReason)
| VmHalt_PrePaymasterPreparationFailed (reason : RevertReason)
| VmHalt_PayForTxFailed (reason : RevertReason)
| VmHalt_FailedToMarkFactoryDependencies (reason : RevertReason)
| VmHalt_FailedToChargeFee (reason : RevertReason)
| VmHalt_Unknown (reason : RevertReason)
| VmHalt_UnexpectedVMBehavior (msg : string)
| VmHalt_FailedToSetL2Block (msg : string)
| VmHalt_FailedToAppendTransactionToL2Block (msg : string)
| VmHalt_TracerCustom (msg : string)
| VmHalt_FromIsNotAnAccount
| VmHalt_InnerTxError
| VmHalt_BootloaderOutOfGas
| VmHalt_ValidationOutOfGas
| VmHalt_TooBigGasLimit
| VmHalt_NotEnoughGasProvided
| VmHalt_MissingInvocationLimitReached
| VmHalt_VMPanic
| VmHalt_FailedToPublishCompressedBytecodes
| VmHalt_FailedBlockTimestampAssertion.

Section NodeErrors.
Context {Net : Type} {DB : SelectorDatabase Net}.
(** [Display] of the errors of the resolver. *)
Context (resolve_error_display : ResolveError → string).

(** Operations that look selectors up and do not fail. *)
Abbreviation ErrM := (M (DiskState * Net) Empty_set).

Definition handle_vm_revert_reason (reason : RevertReason) : ErrM (string * Bytes) :=
  match reason with
  | ReasonGeneral msg data => mret (msg, data)
  | ReasonInnerTxError => mret ("Inner transaction error", [])
  | ReasonVmError => mret ("VM Error", [])
  | ReasonUnknown function_selector data =>
      match function_selector with
      | [] => mret ("Error: no function selector available", [])
      | _ =>
          let hex_selector := hex_encode function_selector in
          decoded ← capture (decode_function_selector (DB := DB) hex_selector);
          mret (match decoded with
                | Ok (Some decoded_name) => decoded_name
                | Ok None => "Error with function selector: 0x" +:+ hex_selector
                | Err e => "Error with function selector: 0x" +:+ hex_selector +:+ ". Decode failure: "
                           +:+ resolve_error_display e
                end, data)
      end
  | ReasonOther => mret (EmptyString, [])
  end.

Definition revert_reason (halt : VmHalt) : option RevertReason :=
  match halt with
  | VmHalt_ValidationFailed reason | VmHalt_PaymasterValidationFailed reason
  | VmHalt_PrePaymasterPreparationFailed reason | VmHalt_PayForTxFailed reason
  | VmHalt_FailedToMarkFactoryDependencies reason | VmHalt_FailedToChargeFee reason
  | VmHalt_Unknown reason => Some reason
  | _ => None
  end.

(** The bytes of a text: [String] into [Vec<u8>]. *)
Fixpoint text_bytes (s : string) : Bytes :=
  match s with
  | EmptyString => []
  | String c s => Z.of_nat (nat_of_ascii c) :: text_bytes s
  end.

Definition to_revert_reason (self : RevertReason) : ErrM RevertError :=
  md ← handle_vm_revert_reason self;
  let '(message, data) := md in
  mret match self with
       | ReasonGeneral _ _ => RevertError_General message (text_bytes (hex_encode data))
       | ReasonInnerTxError => RevertError_InnerTxError
       | ReasonVmError => RevertError_VmError
       | ReasonUnknown _ _ | ReasonOther => RevertError_Unknown message (hex_encode data)
       end.

Definition to_halt_error (self : VmHalt) : ErrM HaltError :=
  md ← match revert_reason self with
       | Some reason =>
           md ← handle_vm_revert_reason reason; mret (md.1, hex_encode md.2)
       | None => mret ("Unknown revert reason", EmptyString)
       end;
  let '(msg, data) := md in
  mret match self with
       | VmHalt_ValidationFailed _ => HaltError_ValidationFailed msg data
       | VmHalt_PaymasterValidationFailed _ => HaltError_PaymasterValidationFailed msg data
       | VmHalt_PrePaymasterPreparationFailed _ => HaltError_PrePaymasterPreparationFailed msg data
       | VmHalt_PayForTxFailed _ => HaltError_PayForTxFailed msg data
       | VmHalt_FailedToMarkFactoryDependencies _ => HaltError_FailedToMarkFactoryDependencies msg data
       | VmHalt_FailedToChargeFee _ => HaltError_FailedToChargeFee msg data
       | VmHalt_Unknown _ => HaltError_Unknown msg data
       | VmHalt_UnexpectedVMBehavior msg => HaltError_UnexpectedVMBehavior msg
       | VmHalt_FailedToSetL2Block msg => HaltError_FailedToSetL2Block msg
       | VmHalt_FailedToAppendTransactionToL2Block msg => HaltError_FailedToAppendTransactionToL2Block msg
       | VmHalt_TracerCustom msg => HaltError_TracerCustom msg
       | VmHalt_FromIsNotAnAccount => HaltError_FromIsNotAnAccount
       | VmHalt_InnerTxError => HaltError_InnerTxError
       | VmHalt_BootloaderOutOfGas => HaltError_BootloaderOutOfGas
       | VmHalt_ValidationOutOfGas => HaltError_ValidationOutOfGas
       | VmHalt_TooBigGasLimit => HaltError_TooBigGasLimit
       | VmHalt_NotEnoughGasProvided => HaltError_NotEnoughGasProvided
       | VmHalt_MissingInvocationLimitReached => HaltError_MissingInvocationLimitReached
       | VmHalt_VMPanic => HaltError_VMPanic
       | VmHalt_FailedToPublishCompressedBytecodes => HaltError_FailedToPublishCompressedBytecodes
       | VmHalt_FailedBlockTimestampAssertion => HaltError_FailedBlockTimestampAssertion
       end.
End NodeErrors.

(** ** Objects of the protocol *)
Inductive RpcErrorCode :=
| InvalidParams | InternalError | MethodNotFound | ServerIsBusy | ServerError (code : Z).

(** [Web3Error] of [zksync_web3_decl]; what the cases carry is only printed, but
    for the data of a transaction. *)
Inductive Web3Error :=
| Web3_InternalError (text : string)
| Web3_MethodNotImplemented
| Web3_NoBlock
| Web3_PrunedBlock (block : Z)
| Web3_PrunedL1Batch (batch : Z)
| Web3_ProxyError (text : string)
| Web3_TooManyTopics
| Web3_FilterNotFound
| Web3_LogsLimitExceeded (limit from to : Z)
| Web3_InvalidFilterBlockHash
| Web3_TreeApiUnavailable
| Web3_SubmitTransactionError (msg : string) (data : Bytes)
| Web3_SerializationError (text : string)
| Web3_ServerShuttingDown.

Class RpcApi := {
  (** [ErrorCode::code] *)
  rpc_code : RpcErrorCode → Z;
  web3_display : Web3Error → string;
}.

Record ErrorObject := mkErrorObject {
  eo_code : Z;
  eo_message : string;
  eo_data : option Json;
}.

(** [x as i32] *)
Definition as_i32 (x : Z) : Z :=
  let y := x mod 2 ^ 32 in if y <? 2 ^ 31 then y else y - 2 ^ 32.

Section Rpc.
Context {ET : ErrorText} {RP : RpcApi}.

(** [to_rpc]; [json] is the error as data. *)
Definition to_rpc {T} `{ICustomError T} (json : T → Json) (code : option Z) (error : T) : ErrorObject :=
  mkErrorObject (default (as_i32 (identifier_encode (get_identifier (to_unified error)))) code)
    (get_message (to_unified error)) (Some (json error)).

Definition state_loader_rpc (error : StateLoaderError) : ErrorObject :=
  let error_code :=
    match error with
    | StateLoaderError_GenericError _ => InternalError
    | _ => InvalidParams
    end in
  to_rpc StateLoaderError_json (Some (rpc_code error_code)) error.

Definition web3_rpc_code (e : Web3Error) : RpcErrorCode :=
  match e with
  | Web3_InternalError _ => InternalError
  | Web3_MethodNotImplemented => MethodNotFound
  | Web3_NoBlock | Web3_PrunedBlock _ | Web3_PrunedL1Batch _ | Web3_ProxyError _ | Web3_TooManyTopics
  | Web3_FilterNotFound | Web3_LogsLimitExceeded _ _ _ | Web3_InvalidFilterBlockHash
  | Web3_TreeApiUnavailable => InvalidParams
  | Web3_SubmitTransactionError _ _ | Web3_SerializationError _ => ServerError 3
  | Web3_ServerShuttingDown => ServerIsBusy
  end.

Definition web3_rpc (error : Web3Error) : ErrorObject :=
  mkErrorObject (rpc_code (web3_rpc_code error))
    (match error with Web3_InternalError e => e | _ => web3_display error end)
    (match error with
     | Web3_SubmitTransactionError _ data => Some (JString ("0x" +:+ hex_encode data))
     | _ => None
     end).

Definition gas_estimation_data (inner : GasEstimationError) : Bytes :=
  match inner with
  | GasEstimationError_TransactionRevert _ data | GasEstimationError_TransactionAlwaysReverts _ data => data
  | _ => []
  end.

Definition anvil_node_rpc (error : AnvilNodeError) : ErrorObject :=
  match error with
  | AnvilNodeError_TransactionGasEstimationFailed inner _ =>
      web3_rpc (Web3_SubmitTransactionError (get_message (to_unified error)) (gas_estimation_data inner))
  | AnvilNodeError_SerializationError _ _ _ _ =>
      web3_rpc (Web3_SubmitTransactionError (get_message (to_unified error)) [])
  | _ => to_rpc AnvilNodeError_json (Some (rpc_code InternalError)) error
  end.

Definition anyhow_rpc (text : string) : ErrorObject := mkErrorObject (rpc_code InternalError) text None.
Definition rpc_invalid_params (msg : string) : ErrorObject := mkErrorObject (rpc_code InvalidParams) msg None.
Definition rpc_unsupported {A} (method_name : string) : result A ErrorObject :=
  Err (mkErrorObject (rpc_code MethodNotFound) ("Method not found: " +:+ method_name) None).
End Rpc.

(** ** Total conversions *)
Section Total.
Context {Net : Type} {DB : SelectorDatabase Net} (show : ResolveError → string).

(** A lookup answers or fails; it does not panic. *)
Lemma lookup_ends selector (st : DiskState * Net) :
  (∃ r st', decode_function_selector (DB := DB) selector st = Ret r st') ∨
  (∃ e st', decode_function_selector (DB := DB) selector st = Throw e st').
Proof.
  destruct st as [d net]. unfold decode_function_selector, lookup_with.
  destruct (Cache_new default_CacheConfig d) as [cache d'].
  destruct (get_resolver_selector cache selector); [by left; eauto|].
  assert (Hreq : ∀ c, (∃ r c', client_decode_function_selector (DB := DB) selector c = Ret r c') ∨
                      (∃ e c', client_decode_function_selector (DB := DB) selector c = Throw e c')).
  { intros [c n]. unfold client_decode_function_selector.
    destruct (negb _); [right; by do 2 eexists|]. destruct (KNOWN_SIGNATURES !! _); [left; by do 2 eexists|].
    unfold decode_selector, ensure_not_spurious, fetch_response, get_text, mbind, M_bind, gets, throw, mret, M_ret, try_option.
    repeat case_match; simplify_eq; first [left; by do 2 eexists | right; by do 2 eexists]. }
  destruct (Hreq (SignEthClient_new, net)) as [(r & [c' n'] & ->)|(e & [c' n'] & ->)]; [left|right; eauto].
  destruct (insert_resolver_selector _ _ _); eauto.
Qed.

Lemma reason_handled reason (st : DiskState * Net) :
  ∃ msg data st', handle_vm_revert_reason (DB := DB) show reason st = Ret (msg, data) st'.
Proof.
  destruct reason as [msg data| | |[|b sel] data|]; cbn [handle_vm_revert_reason]; try by do 3 eexists.
  unfold capture, mbind, M_bind.
  destruct (lookup_ends (hex_encode (b :: sel)) st) as [(r & st' & ->)|(e & st' & ->)]; by do 3 eexists.
Qed.

(** The name of the case of a halt. *)
Definition vm_halt_name (h : VmHalt) : string :=
  match h with
  | VmHalt_ValidationFailed _ => "ValidationFailed"
  | VmHalt_PaymasterValidationFailed _ => "PaymasterValidationFailed"
  | VmHalt_PrePaymasterPreparationFailed _ => "PrePaymasterPreparationFailed"
  | VmHalt_PayForTxFailed _ => "PayForTxFailed"
  | VmHalt_FailedToMarkFactoryDependencies _ => "FailedToMarkFactoryDependencies"
  | VmHalt_FailedToChargeFee _ => "FailedToChargeFee"
  | VmHalt_Unknown _ => "Unknown"
  | VmHalt_UnexpectedVMBehavior _ => "UnexpectedVMBehavior"
  | VmHalt_FailedToSetL2Block _ => "FailedToSetL2Block"
  | VmHalt_FailedToAppendTransactionToL2Block _ => "FailedToAppendTransactionToL2Block"
  | VmHalt_TracerCustom _ => "TracerCustom"
  | VmHalt_FromIsNotAnAccount => "FromIsNotAnAccount"
  | VmHalt_InnerTxError => "InnerTxError"
  | VmHalt_BootloaderOutOfGas => "BootloaderOutOfGas"
  | VmHalt_ValidationOutOfGas => "ValidationOutOfGas"
  | VmHalt_TooBigGasLimit => "TooBigGasLimit"
  | VmHalt_NotEnoughGasProvided => "NotEnoughGasProvided"
  | VmHalt_MissingInvocationLimitReached => "MissingInvocationLimitReached"
  | VmHalt_VMPanic => "VMPanic"
  | VmHalt_FailedToPublishCompressedBytecodes => "FailedToPublishCompressedBytecodes"
  | VmHalt_FailedBlockTimestampAssertion => "FailedBlockTimestampAssertion"
  end.

(** Halts and reverts always become errors, of the same name, whatever the
    lookup of a selector does; the selector is looked up only for a reason that
    has one, and the data of a revert with a message are the characters of its
    hexadecimal text instead of its bytes. *)
Theorem vm_errors_total (h : VmHalt) (reason : RevertReason) (st : DiskState * Net) :
  (∃ e st', to_halt_error (DB := DB) show h st = Ret e st' ∧ HaltError_name e = vm_halt_name h ∧
     (revert_reason h = None → st' = st)) ∧
  (∃ e st', to_revert_reason (DB := DB) show reason st = Ret e st') ∧
  (∀ msg data, to_revert_reason (DB := DB) show (ReasonGeneral msg data) st =
     Ret (RevertError_General msg (text_bytes (hex_encode data))) st) ∧
  (∀ data, to_revert_reason (DB := DB) show (ReasonUnknown [] data) st =
     Ret (RevertError_Unknown "Error: no function selector available" EmptyString) st).
Proof.
  split_and!; [|..|done|done].
  - unfold to_halt_error, mbind, M_bind. destruct (revert_reason h) as [r|] eqn:Hr.
    + destruct (reason_handled r st) as (msg & data & st' & ->). destruct h; cbn in Hr; try done; by do 2 eexists.
    + destruct h; cbn in Hr; try done; by do 2 eexists.
  - unfold to_revert_reason, mbind, M_bind. destruct (reason_handled reason st) as (msg & data & st' & ->).
    by do 2 eexists.
Qed.
End Total.

Lemma text_bytes_hex_length bs : length (text_bytes (hex_encode bs)) = (2 * length bs)%nat.
Proof. induction bs as [|b bs IH]; [done|]. cbn [hex_encode text_bytes length]. rewrite IH. lia. Qed.

(** A failed gas estimation is reported to a client with code 3, its message
    with the identifier, and as data the revert data in hexadecimal, which
    decode to it; other errors of the node keep their message and carry
    themselves as data. *)
Theorem node_error_reported {ET : ErrorText} {RP : RpcApi} (error : AnvilNodeError) :
  match error with
  | AnvilNodeError_TransactionGasEstimationFailed inner _ =>
      eo_code (anvil_node_rpc error) = rpc_code (ServerError 3) ∧
      eo_data (anvil_node_rpc error) = Some (JString ("0x" +:+ hex_encode (gas_estimation_data inner))) ∧
      (Forall is_byte (gas_estimation_data inner) →
       hex_decode (hex_encode (gas_estimation_data inner)) = Ok (gas_estimation_data inner))
  | AnvilNodeError_SerializationError _ _ _ _ =>
      eo_code (anvil_node_rpc error) = rpc_code (ServerError 3) ∧ eo_data (anvil_node_rpc error) = Some (JString "0x")
  | _ =>
      anvil_node_rpc error = mkErrorObject (rpc_code InternalError) (get_message (to_unified error))
                               (Some (AnvilNodeError_json error))
  end.
Proof. destruct error; try reflexivity; split_and!; try reflexivity. apply hex_decode_encode. Qed.
