(* ===== verification/L1Anvil.v ===== *)
(** * The L1 of the sidecar: its configuration and its process

    [crates/l1_sidecar/src/zkstack_config/], [upgrade_tx.rs] and [anvil.rs]:
    the contracts an L1 was set up with, the upgrade it expects first, and the
    [anvil] process (or external node) that plays the L1.  The files embedded
    with [include_bytes!] are arguments ([Embedded]), already parsed where the
    code parses them with [unwrap]; the L1 node is the interface [L1Provider]
    over an abstract world [W], which also holds the processes and the clock. *)
From S2P Require Import Prelude Types Text.
From Stdlib Require Import Ascii.
Local Open Scope string_scope.
Local Open Scope Z_scope.

(** ** [zkstack_config] *)
Record EcosystemContracts := mkEcosystem {
  ec_bridgehub_proxy_addr : Address;
  ec_state_transition_proxy_addr : Address;
  ec_transparent_proxy_admin_addr : Address;
  ec_stm_deployment_tracker_proxy_addr : option Address;
  ec_validator_timelock_addr : Address;
  ec_diamond_cut_data : string;
  ec_force_deployments_data : option string;
  ec_native_token_vault_addr : option Address;
  ec_l1_bytecodes_supplier_addr : option Address;
  ec_expected_rollup_l2_da_validator : option Address;
  ec_l1_wrapped_base_token_store : option Address;
}.

Record BridgeContractsDefinition := mkBridge {
  bc_l1_address : Address;
  bc_l2_address : option Address;
}.

Record BridgesContracts := mkBridges {
  br_erc20 : BridgeContractsDefinition;
  br_shared : BridgeContractsDefinition;
  br_l1_nullifier_addr : option Address;
}.

Record L1Contracts := mkL1Contracts {
  l1c_default_upgrade_addr : Address;
  l1c_diamond_proxy_addr : Address;
  l1c_governance_addr : Address;
  l1c_chain_admin_addr : Address;
  l1c_access_control_restriction_addr : option Address;
  l1c_chain_proxy_admin_addr : option Address;
  l1c_multicall3_addr : Address;
  l1c_verifier_addr : Address;
  l1c_validator_timelock_addr : Address;
  l1c_base_token_addr : Address;
  l1c_base_token_asset_id : option H256;
  l1c_rollup_l1_da_validator_addr : option Address;
  l1c_avail_l1_da_validator_addr : option Address;
  l1c_no_da_validium_l1_validator_addr : option Address;
  l1c_transaction_filterer_addr : option Address;
}.

Record L2Contracts := mkL2Contracts {
  l2c_testnet_paymaster_addr : Address;
  l2c_default_l2_upgrader : Address;
  l2c_da_validator_addr : option Address;
  l2c_l2_native_token_vault_proxy_addr : option Address;
  l2c_legacy_shared_bridge_addr : option Address;
  l2c_consensus_registry : option Address;
  l2c_multicall3 : option Address;
  l2c_timestamp_asserter_addr : option Address;
}.

Record ContractsConfig := mkContractsConfig {
  cc_create2_factory_addr : Address;
  cc_create2_factory_salt : H256;
  cc_ecosystem_contracts : EcosystemContracts;
  cc_bridges : BridgesContracts;
  cc_l1 : L1Contracts;
  cc_l2 : L2Contracts;
}.

Record GenesisConfig := mkGenesisConfig {
  gc_genesis_root : H256;
  gc_genesis_rollup_leaf_index : Z;
  gc_genesis_batch_commitment : H256;
  gc_genesis_protocol_version : Z;
  gc_default_aa_hash : H256;
  gc_bootloader_hash : H256;
  gc_evm_emulator_hash : option H256;
  gc_l1_chain_id : Z;
  gc_l2_chain_id : Z;
  gc_fee_account : Address;
}.

(** A wallet, with its private key. *)
Record Wallet := mkWallet {
  wl_address : Address;
  wl_private_key : Z;
}.

Record WalletsConfig := mkWallets {
  wc_deployer : option Wallet;
  wc_operator : Wallet;
  wc_blob_operator : Wallet;
  wc_fee_account : Wallet;
  wc_governor : Wallet;
  wc_token_multiplier_setter : option Wallet;
}.

Record ZkstackConfig := mkZkstack {
  zc_contracts : ContractsConfig;
  zc_genesis : GenesisConfig;
  zc_wallets : WalletsConfig;
}.

(** [UpgradeTx] *)
Record UpgradeTx := mkUpgradeTx {
  ut_data : Execute;
  ut_hash : H256;
  ut_gas_limit : Z;
  ut_l1_tx_mint : Z;
  ut_l1_block_number : Z;
  ut_max_fee_per_gas : Z;
  ut_initiator_address : Address;
  ut_gas_per_pubdata_limit : Z;
  ut_l1_tx_refund_recipient : Address;
}.

(** The files of [l1-setup], one function per kind of file and one value per
    protocol version. *)
Class Embedded := {
  wallets_yaml : WalletsConfig;
  contracts_yaml : Z → ContractsConfig;
  genesis_yaml : Z → GenesisConfig;
  upgrade_tx_json : Z → UpgradeTx;
  l1_state_json : Z → Bytes;
  l1_state_payload : Z → string;
}.

(** The versions the tables are filled with: [Version26], [Version27] and
    [Version28]. *)
Definition BUILTIN_VERSIONS : list Z := [26; 27; 28].

Definition builtin_table {A} (entry : Z → A) : gmap Z A := extend ∅ ((λ v, (v, entry v)) <$> BUILTIN_VERSIONS).

Definition BUILTIN_ZKSTACK_CONFIGS `{Embedded} : gmap Z ZkstackConfig :=
  builtin_table (λ v, mkZkstack (contracts_yaml v) (genesis_yaml v) wallets_yaml).
Definition BUILTIN_UPGRADE_TXS `{Embedded} : gmap Z UpgradeTx := builtin_table upgrade_tx_json.
Definition L1_STATES `{Embedded} : gmap Z Bytes := builtin_table l1_state_json.
Definition L1_PAYLOADS `{Embedded} : gmap Z string := builtin_table l1_state_payload.

Definition UNSUPPORTED_VERSION : string := "unsupported protocol version".
Definition UNSUPPORTED_CONFIG_VERSION : string := "zkstack config refers to an unsupported protocol version".

(** [ZkstackConfig::builtin] and [UpgradeTx::builtin] *)
Definition zkstack_builtin `{Embedded} {S E} (protocol_version : Z) : M S E ZkstackConfig :=
  expect UNSUPPORTED_VERSION (BUILTIN_ZKSTACK_CONFIGS !! protocol_version).
Definition upgrade_builtin `{Embedded} {S E} (protocol_version : Z) : M S E UpgradeTx :=
  expect UNSUPPORTED_VERSION (BUILTIN_UPGRADE_TXS !! protocol_version).

(** ** The L1 node *)

(** [RpcError] of the provider, as far as it is told apart. *)
Inductive RpcError :=
| ErrorResp (code : Z) (message : string)
| TransportError (message : string)
| OtherError (message : string).

Definition is_transport_error (e : RpcError) : bool :=
  match e with TransportError _ => true | _ => false end.

(** The call of a transaction to the validator timelock ([IExecutor.sol]): the
    chain, the first and the last batch, and the encoded rest. *)
Inductive SolCall :=
| CommitBatchesSharedBridge (chain_id process_from process_to : Z) (commit_data : Bytes)
| ProveBatchesSharedBridge (chain_id process_from process_to : Z) (proof_data : Bytes)
| ExecuteBatchesSharedBridge (chain_id process_from process_to : Z) (execute_data : Bytes).

(** [TransactionRequest]; the blob sidecar, when there is one, holds its data. *)
Record TransactionRequest := mkTransactionRequest {
  rq_to : Address;
  rq_value : option Z;
  rq_max_fee_per_blob_gas : option Z;
  rq_max_fee_per_gas : option Z;
  rq_max_priority_fee_per_gas : option Z;
  rq_gas_limit : option Z;
  rq_call : option SolCall;
  rq_blob_sidecar : option Bytes;
}.

Record Eip1559Estimation := mkEip1559 {
  est_max_fee_per_gas : Z;
  est_max_priority_fee_per_gas : Z;
}.

Record L1Receipt := mkL1Receipt {
  l1r_status : bool;
  l1r_transaction_hash : H256;
  l1r_block_number : option Z;
}.

(** [Filter] of [eth_getLogs] *)
Record L1Filter := mkL1Filter {
  lf_from_block : Z;
  lf_to_block : Z;
  lf_event_signature : H256;
  lf_addresses : list Address;
}.

(** A log of the L1, as the provider returns it. *)
Record L1Log := mkL1Log {
  ll_address : Address;
  ll_topics : list H256;
  ll_data : Bytes;
  ll_block_number : option Z;
}.

(** The node at the other end, the processes of the machine and its clock in
    milliseconds. *)
Class L1Provider (W : Type) := {
  connect : string → Wallet → M W RpcError unit;
  get_accounts : M W RpcError (list Address);
  get_gas_price : M W RpcError Z;
  estimate_eip1559_fees : M W RpcError Eip1559Estimation;
  (** the hash of the pending transaction *)
  send_transaction : TransactionRequest → M W RpcError H256;
  get_receipt : H256 → M W RpcError L1Receipt;
  (** the number of the latest block *)
  get_latest_block : M W RpcError (option Z);
  get_logs : L1Filter → M W RpcError (list L1Log);
  anvil_load_state : Bytes → M W RpcError bool;
  rpc_error_display : RpcError → string;
  (** [anvil --version]: its output, if it could be run *)
  anvil_version_output : M W string string;
  (** [Version::parse]: the major number and the version as it prints *)
  version_parse : string → Prelude.result (Z * string) string;
  (** a temporary directory with a file of these contents: its path *)
  write_temp_file : string → Bytes → M W string string;
  create_log_file : string → M W string unit;
  (** [anvil --port .. --load-state ..] *)
  spawn_anvil : Z → string → M W string unit;
  (** the child exits; [ctrl_c] *)
  wait_child : M W string unit;
  ctrl_c : M W string unit;
  l1_now : W → Z;
  l1_sleep : Z → W → W;
}.

Section Anvil.
Context {W : Type} {P : L1Provider W} {EM : Embedded}.

(** [provider.call().await?] in a function that returns [anyhow::Result]. *)
Definition rpc {A} (m : M W RpcError A) : M W string A := map_err rpc_error_display m.

(** ** The version of [anvil] *)

(** [lines().next()]: the text before the first end of line, without the
    carriage return before it; there is none in an empty text. *)
Fixpoint line_of (s : string) : string :=
  match s with
  | "" => ""
  | String c s' =>
      if bool_decide (c = "010"%char) then ""
      else match s' with
           | String c' _ =>
               if bool_decide (c = "013"%char ∧ c' = "010"%char) then "" else String c (line_of s')
           | "" => String c ""
           end
  end.
Definition first_line (s : string) : option string :=
  match s with "" => None | _ => Some (line_of s) end.

(** [strip_prefix] *)
Fixpoint strip_prefix (prefix s : string) : option string :=
  match prefix, s with
  | "", s => Some s
  | String p prefix, String c s => if bool_decide (p = c) then strip_prefix prefix s else None
  | String _ _, "" => None
  end.

Definition ensure_anvil_1_x_x : M W string unit :=
  output ← map_err (λ _, "could not detect `anvil` version; make sure it is installed on your machine")
             anvil_version_output;
  version_line ← try_option ("`anvil --version` output did not contain any lines: " +:+ output) (first_line output);
  version ← try_option ("`anvil --version` output started with unexpected prefix: " +:+ version_line)
              (strip_prefix "anvil Version: " version_line);
  '(major, shown) ← try_result (version_parse version);
  if 1 <=? major then mret tt
  else throw ("unsupported `anvil` version (" +:+ shown +:+ "), please upgrade to >=1.0.0").

(** ** Waiting for the node *)
Definition ANVIL_START_TIMEOUT : Z := 60000.
Definition ANVIL_POLL_INTERVAL : Z := 500.

(** The loop under [tokio::time::timeout]: [None] is the elapsed timeout,
    otherwise the answer of the loop.  It runs out of fuel as [Deadlock]. *)
Fixpoint wait_for_anvil (fuel : nat) (deadline : Z) : M W string (option (Prelude.result unit RpcError)) :=
  match fuel with
  | O => deadlock
  | S fuel =>
      answer ← capture get_accounts;
      now ← gets l1_now;
      if deadline <? now then mret None
      else match answer with
           | Ok _ => mret (Some (Ok tt))
           | Err err =>
               if is_transport_error err then
                 modify (l1_sleep ANVIL_POLL_INTERVAL);;
                 now ← gets l1_now;
                 if deadline <? now then mret None else wait_for_anvil fuel deadline
               else mret (Some (Err err))
           end
  end.

(** As many rounds as sleeps fit before the deadline, and the one that ends. *)
Definition WAIT_FUEL : nat := 122.

Definition setup_provider (address : string) (config : ZkstackConfig) : M W string unit :=
  rpc (connect address (wc_blob_operator (zc_wallets config)));;
  start ← gets l1_now;
  waited ← wait_for_anvil WAIT_FUEL (start + ANVIL_START_TIMEOUT);
  match waited with
  | None => throw "L1 anvil failed to start"
  | Some (Err _) => throw "unexpected response from L1 anvil"
  | Some (Ok _) => mret tt
  end.

(** ** Starting *)
Inductive L1AnvilEnv := Process | External.

Record AnvilHandle := mkAnvilHandle { ah_env : L1AnvilEnv }.

(** [AnvilHandle::run] *)
Definition anvil_run (h : AnvilHandle) : M W string unit :=
  match ah_env h with
  | Process => wait_child
  | External => ctrl_c
  end.

Definition spawn_process (port : Z) (zkstack_config : ZkstackConfig) : M W string AnvilHandle :=
  ensure_anvil_1_x_x;;
  state ← expect UNSUPPORTED_CONFIG_VERSION (L1_STATES !! gc_genesis_protocol_version (zc_genesis zkstack_config));
  anvil_state_path ← write_temp_file "l1-state.json" state;
  create_log_file "./anvil-zksync-l1.log";;
  spawn_anvil port anvil_state_path;;
  setup_provider ("http://localhost:" +:+ dec port) zkstack_config;;
  mret (mkAnvilHandle Process).

(** [trim]: white space of ASCII, at both ends. *)
Definition is_space (c : Ascii.ascii) : bool :=
  let n := Ascii.nat_of_ascii c in ((9 <=? n) && (n <=? 13) || (n =? 32))%nat.
Fixpoint trim_start (s : string) : string :=
  match s with String c s' => if is_space c then trim_start s' else s | "" => "" end.
Fixpoint trim_end (s : string) : string :=
  match s with
  | "" => ""
  | String c s' => match trim_end s' with "" => if is_space c then "" else String c "" | t => String c t end
  end.
Definition trim (s : string) : string := trim_end (trim_start s).

(** [&s[2..]], which panics in a shorter text *)
Definition skip_2 {S E} (s : string) : M S E string :=
  match s with
  | String _ (String _ s) => mret s
  | _ => panic "byte index 2 is out of bounds"
  end.

(** [str::contains] *)
Fixpoint contains (needle s : string) : bool :=
  String.prefix needle s || match s with "" => false | String _ s => contains needle s end.

Definition inject_l1_state (protocol_version : Z) : M W string unit :=
  payload ← expect UNSUPPORTED_CONFIG_VERSION (L1_PAYLOADS !! protocol_version);
  state_payload ← skip_2 (trim payload);
  state_payload ← try_result (hex_decode state_payload);
  answer ← capture (anvil_load_state state_payload);
  match answer with
  | Ok true => mret tt
  | Ok false => throw "`anvil` refused to inject L1 state; see its logs for more details"
  | Err e =>
      let rejected :=
        match e with
        | ErrorResp code message => (code =? -32600) && contains "Invalid request" message
        | _ => false
        end in
      if rejected then
        throw ("`anvil` rejected `anvil_loadState` request; likely because of the request size limit - try running it with `--no-request-size-limit`: "
                 +:+ rpc_error_display e)
      else throw (rpc_error_display e)
  end.

(** [u128] arithmetic of the fee of the first transaction *)
Definition times_million (fee : Z) : Z := (fee * 1000000) mod 2 ^ 128.

Definition external (address : string) (zkstack_config : ZkstackConfig) : M W string AnvilHandle :=
  setup_provider address zkstack_config;;
  inject_l1_state (gc_genesis_protocol_version (zc_genesis zkstack_config));;
  fees ← rpc estimate_eip1559_fees;
  pending ← rpc (send_transaction
    (mkTransactionRequest 0 (Some 1) None (Some (times_million (est_max_fee_per_gas fees)))
       (Some (times_million (est_max_priority_fee_per_gas fees))) None None None));
  rpc (get_receipt pending);;
  mret (mkAnvilHandle External).

(** ** Theorems *)

(** What the wait relies on: the clock does not run backwards, a sleep lasts,
    and a request is answered. *)
Class ClockLaws : Prop := {
  sleep_lasts d w : l1_now w + d <= l1_now (l1_sleep d w);
  accounts_answered w : ∃ w', l1_now w <= l1_now w' ∧
    ((∃ a, get_accounts w = Ret a w') ∨ ∃ e, get_accounts w = Throw e w');
}.

Lemma wait_settles `{ClockLaws} fuel deadline w :
  deadline - l1_now w < ANVIL_POLL_INTERVAL * Z.of_nat fuel → (0 < fuel)%nat →
  ∃ r w', wait_for_anvil fuel deadline w = Ret r w' ∧ (r = None ↔ deadline < l1_now w').
Proof.
  revert w. induction fuel as [|fuel IH]; intros w Hf Hpos; [lia|]. unfold ANVIL_POLL_INTERVAL in *.
  destruct (accounts_answered w) as (w' & Hle & [[a Ha]|[e He]]); cbn [wait_for_anvil].
  - do 2 (erewrite bind_run; [cbv beta|by unfold capture, gets; rewrite ?Ha]).
    destruct (Z.ltb_spec deadline (l1_now w')); do 2 eexists; (split; [reflexivity|]); split; (done || lia).
  - do 2 (erewrite bind_run; [cbv beta|by unfold capture, gets; rewrite ?He]).
    destruct (Z.ltb_spec deadline (l1_now w')); [do 2 eexists; split; [reflexivity|]; split; (done || lia)|].
    destruct (is_transport_error e); [|do 2 eexists; split; [reflexivity|]; split; (done || lia)].
    do 2 (erewrite bind_run; [cbv beta|reflexivity]).
    pose proof (sleep_lasts 500 w') as Hs. unfold ANVIL_POLL_INTERVAL.
    destruct (Z.ltb_spec deadline (l1_now (l1_sleep 500 w'))); [do 2 eexists; split; [reflexivity|]; split; (done || lia)|].
    apply IH; lia.
Qed.

(** Waiting for the L1 ends: with an answer in time, or with the timeout when
    the minute has passed. *)
Theorem anvil_wait_ends `{ClockLaws} w :
  let deadline := l1_now w + ANVIL_START_TIMEOUT in
  ∃ r w', wait_for_anvil WAIT_FUEL deadline w = Ret r w' ∧ (r = None ↔ deadline < l1_now w').
Proof. intros deadline. apply wait_settles; unfold ANVIL_POLL_INTERVAL, WAIT_FUEL, deadline, ANVIL_START_TIMEOUT; lia. Qed.
End Anvil.

Lemma builtin_table_lookup {A} (entry : Z → A) v :
  builtin_table entry !! v = if bool_decide (v ∈ BUILTIN_VERSIONS) then Some (entry v) else None.
Proof.
  unfold builtin_table, BUILTIN_VERSIONS. cbn [fmap list_fmap extend foldl].
  case_bool_decide as Hv.
  - rewrite !elem_of_cons, elem_of_nil in Hv. destruct Hv as [->|[->|[->|[]]]]; reflexivity.
  - rewrite !not_elem_of_cons in Hv. destruct Hv as (? & ? & ? & _).
    by rewrite !lookup_insert_ne, lookup_empty by done.
Qed.

(** The sidecar starts for the built-in versions and panics for any other:
    every table has exactly these versions, so a configuration that is found
    for a version also finds the state, the payload and the upgrade. *)
Theorem builtin_spec `{Embedded} {S E} v (s : S) :
  (v ∈ BUILTIN_VERSIONS →
   zkstack_builtin (E := E) v s = Ret (mkZkstack (contracts_yaml v) (genesis_yaml v) wallets_yaml) s ∧
   upgrade_builtin (E := E) v s = Ret (upgrade_tx_json v) s ∧
   L1_STATES !! v = Some (l1_state_json v) ∧ L1_PAYLOADS !! v = Some (l1_state_payload v)) ∧
  (v ∉ BUILTIN_VERSIONS →
   zkstack_builtin (E := E) v s = Panic UNSUPPORTED_VERSION ∧
   upgrade_builtin (E := E) v s = Panic UNSUPPORTED_VERSION).
Proof.
  unfold zkstack_builtin, upgrade_builtin, BUILTIN_ZKSTACK_CONFIGS, BUILTIN_UPGRADE_TXS, L1_STATES, L1_PAYLOADS.
  rewrite !builtin_table_lookup. split; intros Hv.
  - by rewrite !bool_decide_eq_true_2.
  - by rewrite !bool_decide_eq_false_2.
Qed.
