(* ===== verification/L1Commit.v ===== *)
(** * Batches for the L1: metadata and calls

    [crates/l1_sidecar/src/commitment_generator.rs] and
    [crates/l1_sidecar/src/contracts/mod.rs]: the metadata of a sealed batch,
    computed once and kept, and the calls to the validator timelock that commit,
    prove and execute a batch.  The computation of a commitment, the Merkle tree
    of priority operations and the ABI encoding come from libraries
    ([CommitmentApi], [MerkleApi], [CallAbi]); the random root hash of a batch
    is drawn from the world ([Random]). *)
From S2P Require Import Prelude Types Text Blockchain L1Anvil.
Local Open Scope string_scope.
Local Open Scope list_scope.
Local Open Scope Z_scope.

(** ** Data of [zksync_types::commitment] *)
Record AuxCommitments := mkAux {
  aux_events_queue_commitment : H256;
  aux_bootloader_initial_content_commitment : H256;
}.

Record CommitmentCommonInput := mkCommonInput {
  ci_l2_to_l1_logs : list UserL2ToL1Log;
  ci_rollup_last_leaf_index : Z;
  ci_rollup_root_hash : H256;
  ci_bootloader_code_hash : H256;
  ci_default_aa_code_hash : H256;
  ci_evm_emulator_code_hash : option H256;
  ci_protocol_version : Z;
}.

Record L1BatchCommitmentArtifacts := mkArtifacts {
  ca_compressed_initial_writes : option Bytes;
  ca_compressed_repeated_writes : option Bytes;
  ca_compressed_state_diffs : option Bytes;
  ca_commitment : H256;
  ca_aux_output : H256;
  ca_meta_parameters : H256;
  ca_pass_through_data : H256;
  ca_l2_l1_merkle_root : H256;
  ca_aux_commitments : option AuxCommitments;
  ca_state_diff_hash : H256;
  ca_local_root : H256;
  ca_aggregation_root : H256;
}.

Record L1BatchMetaParameters := mkMetaParameters {
  mp_zkporter_is_available : bool;
  mp_bootloader_code_hash : H256;
  mp_default_aa_code_hash : H256;
  mp_evm_emulator_code_hash : option H256;
  mp_protocol_version : option Z;
}.

Record L1BatchMetadata := mkMetadata {
  md_root_hash : H256;
  md_rollup_last_leaf_index : Z;
  md_initial_writes_compressed : option Bytes;
  md_repeated_writes_compressed : option Bytes;
  md_commitment : H256;
  md_l2_l1_merkle_root : H256;
  md_block_meta_params : L1BatchMetaParameters;
  md_aux_data_hash : H256;
  md_meta_parameters_hash : H256;
  md_pass_through_data_hash : H256;
  md_events_queue_commitment : option H256;
  md_bootloader_initial_content_commitment : option H256;
  md_state_diffs_compressed : Bytes;
  md_state_diff_hash : option H256;
  md_local_root : option H256;
  md_aggregation_root : option H256;
  md_da_inclusion_data : option Bytes;
}.

Record L1BatchWithMetadata := mkWithMetadata {
  bm_header : L1BatchHeader;
  bm_metadata : L1BatchMetadata;
  bm_raw_published_factory_deps : list Bytes;
}.

Record L1BatchTreeData := mkTreeData {
  td_hash : H256;
  td_rollup_last_leaf_index : Z;
}.

Class CommitmentApi := {
  CommitmentInput : Type;
  (** [CommitmentInput::PostBoojum]: common input, system logs, state diffs,
      auxiliary commitments, blob hashes and aggregation root *)
  PostBoojum : CommitmentCommonInput → list H256 → list (Address * Z * Z * Z) → AuxCommitments →
               list (H256 * H256) → H256 → CommitmentInput;
  for_genesis_batch : H256 → Z → BaseSystemContractsHashes → Z → CommitmentInput;
  input_common : CommitmentInput → CommitmentCommonInput;
  L1BatchCommitment : Type;
  commitment_new : CommitmentInput → L1BatchCommitment;
  artifacts : L1BatchCommitment → L1BatchCommitmentArtifacts;
  meta_parameters : L1BatchCommitment → L1BatchMetaParameters;
  num_blobs_required : Z → Z;
  (** [L1BatchHeader::priority_ops_onchain_data_hash] *)
  priority_ops_onchain_data_hash : L1BatchHeader → H256;
  (** the field of [PriorityOpOnchainData] *)
  onchain_data_hash : Bytes → H256;
  serialize_commitments : list H256 → Bytes;
}.

(** A commitment input has its common part, and the artifacts of a post-Boojum
    input have its auxiliary commitments. *)
Class CommitmentLaws `{CommitmentApi} : Prop := {
  common_post c logs diffs aux blobs root : input_common (PostBoojum c logs diffs aux blobs root) = c;
  artifacts_post c logs diffs aux blobs root :
    ca_aux_commitments (artifacts (commitment_new (PostBoojum c logs diffs aux blobs root))) = Some aux;
}.

Class MerkleApi := {
  MerkleTree : Type;
  tree_empty : MerkleTree;
  push_hash : H256 → MerkleTree → MerkleTree;
  (** [merkle_root_and_paths_for_range(..count)]: none where it panics *)
  merkle_root_and_paths_for_range : nat → MerkleTree → option (H256 * list (option H256) * list (option H256));
  hashes_prefix : nat → MerkleTree → list H256;
}.

(** The tree has the hashes that were pushed, in order, and has paths for every
    prefix of them. *)
Class MerkleLaws `{MerkleApi} := {
  leaves : MerkleTree → list H256;
  leaves_empty : leaves tree_empty = [];
  leaves_push h t : leaves (push_hash h t) = leaves t ++ [h];
  hashes_prefix_take n t : hashes_prefix n t = take n (leaves t);
  paths_defined n t : (n <= length (leaves t))%nat → is_Some (merkle_root_and_paths_for_range n t);
}.

Class Random (W : Type) := h256_random : W → H256 * W.

(** ** [contracts/mod.rs]: the calls *)
Record StoredBatchInfo := mkStoredBatchInfo {
  sbi_batchNumber : Z;
  sbi_batchHash : H256;
  sbi_indexRepeatedStorageChanges : Z;
  sbi_numberOfLayer1Txs : Z;
  sbi_priorityOperationsHash : H256;
  sbi_l2LogsTreeRoot : H256;
  sbi_timestamp : Z;
  sbi_commitment : H256;
}.

Record CommitBatchInfo := mkCommitBatchInfo {
  cbi_batchNumber : Z;
  cbi_timestamp : Z;
  cbi_indexRepeatedStorageChanges : Z;
  cbi_newStateRoot : H256;
  cbi_numberOfLayer1Txs : Z;
  cbi_priorityOperationsHash : H256;
  cbi_bootloaderHeapInitialContentsHash : H256;
  cbi_eventsQueueStateHash : H256;
  cbi_systemLogs : Bytes;
  cbi_operatorDAInput : Bytes;
}.

Record PriorityOpsBatchInfo := mkPriorityOps {
  po_leftPath : list H256;
  po_rightPath : list H256;
  po_itemHashes : list H256;
}.

(** [abi_encode_params] at the three types it is used at, and
    [SidecarBuilder::from_slice(..).build()] *)
Class CallAbi := {
  build_blob_sidecar : Bytes → Prelude.result Bytes string;
  encode_commit : StoredBatchInfo → list CommitBatchInfo → Bytes;
  encode_prove : StoredBatchInfo → list StoredBatchInfo → list Z → Bytes;
  encode_execute : list StoredBatchInfo → list PriorityOpsBatchInfo → Bytes;
}.

Section Calls.
Context {CMA : CommitmentApi} {MA : MerkleApi} {AB : CallAbi} {S E : Type}.

Definition SUPPORTED_ENCODING_VERSION : Z := 0.

(** [StoredBatchInfo::from] *)
Definition stored_batch_info (value : L1BatchWithMetadata) : StoredBatchInfo :=
  let header := bm_header value in
  let metadata := bm_metadata value in
  mkStoredBatchInfo (bh_number header) (md_root_hash metadata) (md_rollup_last_leaf_index metadata)
    (bh_l1_tx_count header) (priority_ops_onchain_data_hash header) (md_l2_l1_merkle_root metadata)
    (bh_timestamp header) (md_commitment metadata).

Definition UNWRAP_NONE : string := "called `Option::unwrap()` on a `None` value".
Definition NO_STATE_DIFF_HASH : string := "Failed to get state_diff_hash from metadata".

(** [CommitBatchInfo::from], which needs the parts of the metadata of a
    post-Boojum batch *)
Definition commit_batch_info (batch : L1BatchWithMetadata) : M S E CommitBatchInfo :=
  let header := bm_header batch in
  let metadata := bm_metadata batch in
  bootloader ← expect UNWRAP_NONE (md_bootloader_initial_content_commitment metadata);
  events ← expect UNWRAP_NONE (md_events_queue_commitment metadata);
  state_diff_hash ← expect NO_STATE_DIFF_HASH (md_state_diff_hash metadata);
  mret (mkCommitBatchInfo (bh_number header) (bh_timestamp header) (md_rollup_last_leaf_index metadata)
          (md_root_hash metadata) (bh_l1_tx_count header) (priority_ops_onchain_data_hash header)
          bootloader events (serialize_commitments (bh_system_logs header)) (be_bytes 32 state_diff_hash)).

Definition commit_calldata (last_committed_l1_batch batch : L1BatchWithMetadata) : M S E Bytes :=
  info ← commit_batch_info batch;
  mret (SUPPORTED_ENCODING_VERSION :: encode_commit (stored_batch_info last_committed_l1_batch) [info]).

Definition commit_batches_shared_bridge_call (l2_chain_id : Z)
    (last_committed_l1_batch batch : L1BatchWithMetadata) : M S E SolCall :=
  let next := wrapping_add_u32 (bh_number (bm_header last_committed_l1_batch)) 1 in
  data ← commit_calldata last_committed_l1_batch batch;
  mret (CommitBatchesSharedBridge l2_chain_id next next data).

Definition prove_calldata (last_proved_l1_batch batch : L1BatchWithMetadata) : Bytes :=
  SUPPORTED_ENCODING_VERSION ::
    encode_prove (stored_batch_info last_proved_l1_batch) [stored_batch_info batch] [].

Definition prove_batches_shared_bridge_call (l2_chain_id : Z)
    (last_proved_l1_batch batch : L1BatchWithMetadata) : SolCall :=
  let next := wrapping_add_u32 (bh_number (bm_header last_proved_l1_batch)) 1 in
  ProveBatchesSharedBridge l2_chain_id next next (prove_calldata last_proved_l1_batch batch).

(** The proofs of the priority operations: of the first [count] of all that
    were ever pushed. *)
Definition priority_ops_proofs (batch : L1BatchWithMetadata) (l1_tx_merkle_tree : MerkleTree)
    : M S E (list PriorityOpsBatchInfo) :=
  let count := Z.to_nat (bh_l1_tx_count (bm_header batch)) in
  if (0 <? count)%nat then
    '(_, left_path, right_path) ← expect "range is out of bounds" (merkle_root_and_paths_for_range count l1_tx_merkle_tree);
    mret [mkPriorityOps (default 0 <$> left_path) (default 0 <$> right_path) (hashes_prefix count l1_tx_merkle_tree)]
  else mret [mkPriorityOps [] [] []].

Definition execute_calldata (batch : L1BatchWithMetadata) (l1_tx_merkle_tree : MerkleTree) : M S E Bytes :=
  proofs ← priority_ops_proofs batch l1_tx_merkle_tree;
  mret (SUPPORTED_ENCODING_VERSION :: encode_execute [stored_batch_info batch] proofs).

Definition execute_batches_shared_bridge_call (l2_chain_id : Z) (batch : L1BatchWithMetadata)
    (l1_tx_merkle_tree : MerkleTree) : M S E SolCall :=
  data ← execute_calldata batch l1_tx_merkle_tree;
  mret (ExecuteBatchesSharedBridge l2_chain_id (bh_number (bm_header batch)) (bh_number (bm_header batch)) data).
End Calls.

(** ** The commitment generator *)
Record CommitmentGenerator := mkGenerator {
  cg_base_system_contracts_hashes : BaseSystemContractsHashes;
  cg_fee_address : Address;
  (** batches with already known metadata *)
  cg_batches : gmap Z L1BatchWithMetadata;
}.

Definition set_batches (b : gmap Z L1BatchWithMetadata) (g : CommitmentGenerator) : CommitmentGenerator :=
  mkGenerator (cg_base_system_contracts_hashes g) (cg_fee_address g) b.

Definition patch_header (hashes : BaseSystemContractsHashes) (fee_address : Address) (h : L1BatchHeader)
    : L1BatchHeader :=
  mkBatchHeader (bh_number h) (bh_timestamp h) (bh_l1_tx_count h) (bh_l2_tx_count h)
    (bh_priority_ops_onchain_data h) (bh_l2_to_l1_logs h) (bh_l2_to_l1_messages h)
    (bh_used_contract_hashes h) hashes (bh_system_logs h) (bh_protocol_version h) (bh_pubdata_input h)
    fee_address.

Definition set_fee_address (fee_address : Address) (h : L1BatchHeader) : L1BatchHeader :=
  patch_header (bh_base_system_contracts_hashes h) fee_address h.

(** What the generator works on: its own cache, the chain it reads and the
    world it draws from. *)
Record GeneratorState (W : Type) := mkGeneratorState {
  gs_generator : CommitmentGenerator;
  gs_chain : BlockchainState;
  gs_world : W;
}.
Arguments mkGeneratorState {_} _ _ _.
Arguments gs_generator {_} _.
Arguments gs_chain {_} _.
Arguments gs_world {_} _.

Section Generator.
Context {CMA : CommitmentApi} {CA : ChainApi} {W : Type} {R : Random W}.

Definition generate_metadata_inner (header : L1BatchHeader) (commitment_input : CommitmentInput)
    : L1BatchWithMetadata :=
  let root_hash := ci_rollup_root_hash (input_common commitment_input) in
  let rollup_last_leaf_index := ci_rollup_last_leaf_index (input_common commitment_input) in
  let commitment := commitment_new commitment_input in
  let a := artifacts commitment in
  let l2_l1_merkle_root := if bh_number header =? 0 then 0 else ca_l2_l1_merkle_root a in
  mkWithMetadata header
    (mkMetadata root_hash rollup_last_leaf_index (ca_compressed_initial_writes a)
       (ca_compressed_repeated_writes a) (ca_commitment a) l2_l1_merkle_root (meta_parameters commitment)
       (ca_aux_output a) (ca_meta_parameters a) (ca_pass_through_data a)
       (aux_events_queue_commitment <$> ca_aux_commitments a)
       (aux_bootloader_initial_content_commitment <$> ca_aux_commitments a)
       (default [] (ca_compressed_state_diffs a)) (Some (ca_state_diff_hash a)) (Some (ca_local_root a))
       (Some (ca_aggregation_root a)) None)
    [].

(** [CommitmentGenerator::new] *)
Definition COMMITMENT_MISMATCH : string := "Computed genesis batch commitment does not match zkstack config".

Definition generator_new {S E} (zkstack_config : ZkstackConfig) : M S E CommitmentGenerator :=
  let g := zc_genesis zkstack_config in
  let hashes := mkContractHashes (gc_bootloader_hash g) (gc_default_aa_hash g) (gc_evm_emulator_hash g) in
  let genesis_batch_header :=
    set_fee_address (gc_fee_account g) (L1BatchHeader_new 0 0 hashes (gc_genesis_protocol_version g)) in
  let commitment_input :=
    for_genesis_batch (gc_genesis_root g) (gc_genesis_rollup_leaf_index g) hashes
      (gc_genesis_protocol_version g) in
  let genesis_metadata := generate_metadata_inner genesis_batch_header commitment_input in
  if gc_genesis_batch_commitment g =? md_commitment (bm_metadata genesis_metadata) then
    mret (mkGenerator hashes (gc_fee_account g) {[ 0 := genesis_metadata ]})
  else panic COMMITMENT_MISMATCH.

Definition generate_metadata {S E} (self : CommitmentGenerator) (header : L1BatchHeader)
    (state_diffs : list (Address * Z * Z * Z)) (aggregation_root : H256) (tree_data : L1BatchTreeData)
    : M S E L1BatchWithMetadata :=
  protocol_version ← expect "batch header is missing protocol version" (bh_protocol_version header);
  let hashes := cg_base_system_contracts_hashes self in
  let common :=
    mkCommonInput (bh_l2_to_l1_logs header) (td_rollup_last_leaf_index tree_data) (td_hash tree_data)
      (bootloader_hash hashes) (default_aa_hash hashes) (evm_emulator_hash hashes) protocol_version in
  let commitment_input :=
    PostBoojum common (bh_system_logs header) state_diffs (mkAux 0 0)
      (replicate (Z.to_nat (num_blobs_required protocol_version)) (0, 0)) aggregation_root in
  mret (generate_metadata_inner header commitment_input).

Abbreviation GeneratorM := (M (GeneratorState W)).

Definition of_chain {E A} (m : M BlockchainState E A) : GeneratorM E A :=
  zoom gs_chain (λ c s, mkGeneratorState (gs_generator s) c (gs_world s)) m.

(** [self.batches.read().unwrap().get(&batch_number)] *)
Definition known_metadata {E} (batch_number : Z) : GeneratorM E (option L1BatchWithMetadata) :=
  gets (λ s, cg_batches (gs_generator s) !! batch_number).

(** [H256::random()] *)
Definition draw {E} : GeneratorM E H256 := λ s,
  let '(h, w) := h256_random (gs_world s) in
  Ret h (mkGeneratorState (gs_generator s) (gs_chain s) w).

Definition remember {E} (batch_number : Z) (metadata : L1BatchWithMetadata) : GeneratorM E unit :=
  modify (λ s, mkGeneratorState
    (set_batches (<[batch_number := metadata]> (cg_batches (gs_generator s))) (gs_generator s))
    (gs_chain s) (gs_world s)).

(** The part of [get_or_generate_metadata] after the cache was found empty. *)
Definition generate_missing {E} (batch_number : Z) : GeneratorM E (option L1BatchWithMetadata) :=
  found ← of_chain (get_batch_header batch_number);
  match found with
  | None => mret None
  | Some found =>
      self ← gets gs_generator;
      let header := patch_header (cg_base_system_contracts_hashes self) (cg_fee_address self) found in
      diffs ← of_chain (get_batch_state_diffs batch_number);
      match diffs with
      | None => mret None
      | Some state_diffs =>
          root ← of_chain (get_batch_aggregation_root batch_number);
          match root with
          | None => mret None
          | Some aggregation_root =>
              hash ← draw;
              metadata ← generate_metadata self header state_diffs aggregation_root (mkTreeData hash 42);
              remember batch_number metadata;;
              mret (Some metadata)
          end
      end
  end.

Definition get_or_generate_metadata {E} (batch_number : Z) : GeneratorM E (option L1BatchWithMetadata) :=
  known ← known_metadata batch_number;
  match known with
  | Some metadata => mret (Some metadata)
  | None => generate_missing batch_number
  end.
End Generator.

(** ** Theorems about the generator *)
Section GeneratorLaws.
Context {CMA : CommitmentApi} {CML : CommitmentLaws} {CA : ChainApi} {W : Type} {R : Random W}.

(** The metadata of a stored batch with a protocol version, for a root hash. *)
Definition metadata_of (g : CommitmentGenerator) (info : StoredL1BatchInfo) (version : Z) (hash : H256)
    : L1BatchWithMetadata :=
  let header := patch_header (cg_base_system_contracts_hashes g) (cg_fee_address g) (sb_header info) in
  let hashes := cg_base_system_contracts_hashes g in
  generate_metadata_inner header
    (PostBoojum
       (mkCommonInput (bh_l2_to_l1_logs header) 42 hash (bootloader_hash hashes) (default_aa_hash hashes)
          (evm_emulator_hash hashes) version)
       (bh_system_logs header) (sb_state_diffs info) (mkAux 0 0)
       (replicate (Z.to_nat (num_blobs_required version)) (0, 0)) (sb_aggregation_root info)).

(** The state after the metadata of a batch were generated. *)
Definition with_metadata (n : Z) (m : L1BatchWithMetadata) (w : W) (s : GeneratorState W) : GeneratorState W :=
  mkGeneratorState (set_batches (<[n := m]> (cg_batches (gs_generator s))) (gs_generator s)) (gs_chain s) w.

Lemma state_eta (s : GeneratorState W) : mkGeneratorState (gs_generator s) (gs_chain s) (gs_world s) = s.
Proof. by destruct s. Qed.

(** Every outcome of a request, by what the cache and the chain know. *)
Lemma get_metadata_outcome {E} n (s : GeneratorState W) :
  get_or_generate_metadata (E := E) n s =
  match cg_batches (gs_generator s) !! n with
  | Some m => Ret (Some m) s
  | None =>
      match batches (gs_chain s) !! n with
      | None => Ret None s
      | Some info =>
          match bh_protocol_version (sb_header info) with
          | None => Panic "batch header is missing protocol version"
          | Some version =>
              let '(hash, w) := h256_random (gs_world s) in
              let m := metadata_of (gs_generator s) info version hash in
              Ret (Some m) (with_metadata n m w s)
          end
      end
  end.
Proof.
  unfold get_or_generate_metadata. erewrite bind_run; [cbv beta|reflexivity].
  destruct (cg_batches (gs_generator s) !! n) as [m|]; [done|]. unfold generate_missing.
  erewrite bind_run; [cbv beta|unfold of_chain, zoom, get_batch_header, inspect_batch, gets; rewrite state_eta; reflexivity].
  destruct (batches (gs_chain s) !! n) as [info|] eqn:Hi; cbn [fmap option_fmap option_map]; [|done].
  erewrite bind_run; [cbv beta|reflexivity].
  do 2 (erewrite bind_run; [cbv beta|unfold of_chain, zoom, get_batch_state_diffs, get_batch_aggregation_root,
    inspect_batch, gets; rewrite state_eta, Hi; reflexivity]; cbn [fmap option_fmap option_map]).
  unfold draw. destruct (h256_random (gs_world s)) as [hash w] eqn:Hr.
  erewrite bind_run; [cbv beta|by rewrite Hr]. unfold generate_metadata, mbind at 1, M_bind.
  cbn [bh_protocol_version patch_header].
  destruct (bh_protocol_version (sb_header info)) as [version|]; [|done]. cbn [expect mret M_ret mbind M_bind].
  reflexivity.
Qed.

(** What the metadata of a generated batch say. *)
Definition generated (g : CommitmentGenerator) (info : StoredL1BatchInfo) (hash : H256) (m : L1BatchWithMetadata) : Prop :=
  bm_header m = patch_header (cg_base_system_contracts_hashes g) (cg_fee_address g) (sb_header info) ∧
  md_root_hash (bm_metadata m) = hash ∧ md_rollup_last_leaf_index (bm_metadata m) = 42 ∧
  ∀ S E (s : S), ∃ i, commit_batch_info (E := E) m s = Ret i s ∧
    cbi_batchNumber i = bh_number (sb_header info) ∧ cbi_newStateRoot i = hash.

Lemma metadata_generated g info version hash : generated g info hash (metadata_of g info version hash).
Proof.
  split_and!.
  - done.
  - unfold metadata_of, generate_metadata_inner. cbn [bm_metadata md_root_hash]. by rewrite common_post.
  - unfold metadata_of, generate_metadata_inner. cbn [bm_metadata md_rollup_last_leaf_index]. by rewrite common_post.
  - intros S E s. unfold commit_batch_info, metadata_of, generate_metadata_inner.
    cbn [bm_metadata bm_header md_bootloader_initial_content_commitment md_events_queue_commitment md_state_diff_hash].
    rewrite artifacts_post. eexists; split; [reflexivity|]. cbn. by rewrite common_post.
Qed.

(** Requests of other components, and whatever happens to the chain and to the
    world between them. *)
Inductive generator_step : GeneratorState W → GeneratorState W → Prop :=
| step_request {E} n r s s' : get_or_generate_metadata (E := E) n s = Ret r s' → generator_step s s'
| step_environment s c w : generator_step s (mkGeneratorState (gs_generator s) c w).

Lemma known_kept n m s s' :
  generator_step s s' → cg_batches (gs_generator s) !! n = Some m → cg_batches (gs_generator s') !! n = Some m.
Proof.
  intros [E n' r s1 s2 H|s1 c w] Hm; [|done]. rewrite get_metadata_outcome in H.
  destruct (cg_batches (gs_generator s1) !! n') eqn:Hn; [by simplify_eq|].
  destruct (batches (gs_chain s1) !! n') as [info|]; [|by simplify_eq].
  destruct (bh_protocol_version (sb_header info)) as [v|]; [|done].
  destruct (h256_random (gs_world s1)) as [hash w]. injection H as _ <-.
  cbn [with_metadata gs_generator set_batches cg_batches]. rewrite lookup_insert_ne by congruence. done.
Qed.

End GeneratorLaws.
