(* ===== verification/L1Sender.v ===== *)
(** * Sending batches to the L1

    [crates/l1_sidecar/src/l1_sender.rs] and
    [crates/l1_sidecar/src/l1_executor.rs]: the task that commits, proves and
    executes batches on the L1 on request, its handle, and the task that does
    all three for every batch as it is sealed. *)
From S2P Require Import Prelude Types Text Blockchain L1Anvil L1Commit.
Local Open Scope string_scope.
Local Open Scope list_scope.
Local Open Scope Z_scope.

(** ** The sender *)
Record L1Sender `{MerkleApi} := mkL1Sender {
  ls_l2_chain_id : Z;
  ls_validator_timelock_addr : Address;
  ls_last_committed_l1_batch : L1BatchWithMetadata;
  ls_last_proved_l1_batch : L1BatchWithMetadata;
  (** all priority transactions ever processed *)
  ls_l1_tx_merkle_tree : MerkleTree;
}.

(** [Command], without the channel of the reply *)
Inductive L1Command :=
| Commit (batch : L1BatchWithMetadata)
| Prove (batch : L1BatchWithMetadata)
| ExecuteBatch (batch : L1BatchWithMetadata).

(** The tasks of the sidecar work on the generator's state, which has the chain
    and the world, and on the sender; the handle of the sender fails once its
    task has ended. *)
Record L1State `{MerkleApi} (W : Type) := mkL1State {
  st_generator : GeneratorState W;
  st_sender : L1Sender;
  st_sender_running : bool;
}.
Arguments mkL1State {_ _} _ _ _.
Arguments st_generator {_ _} _.
Arguments st_sender {_ _} _.
Arguments st_sender_running {_ _} _.

Section Sender.
Context {CMA : CommitmentApi} {MA : MerkleApi} {AB : CallAbi} {CA : ChainApi}.
Context {W : Type} {R : Random W} {P : L1Provider W}.
Abbreviation L1M := (M (L1State W)).

(** [L1Sender::new] *)
Definition L1Sender_new (zkstack_config : ZkstackConfig) (genesis_metadata : L1BatchWithMetadata) : L1Sender :=
  mkL1Sender _ (gc_l2_chain_id (zc_genesis zkstack_config))
    (l1c_validator_timelock_addr (cc_l1 (zc_contracts zkstack_config))) genesis_metadata genesis_metadata tree_empty.

Definition set_sender (x : L1Sender) (s : L1State W) : L1State W :=
  mkL1State (st_generator s) x (st_sender_running s).

Definition l1_world (s : L1State W) : W := gs_world (st_generator s).
Definition set_l1_world (w : W) (s : L1State W) : L1State W :=
  mkL1State (mkGeneratorState (gs_generator (st_generator s)) (gs_chain (st_generator s)) w) (st_sender s)
    (st_sender_running s).

Definition on_l1 {A} (m : M W RpcError A) : L1M string A := zoom l1_world set_l1_world (rpc m).
Definition on_generator {E A} (m : M (GeneratorState W) E A) : L1M E A :=
  zoom st_generator (λ g s, mkL1State g (st_sender s) (st_sender_running s)) m.

(** The default of [max_aggregated_tx_gas] *)
Definition L1_GAS_LIMIT : Z := 15000000.

Definition l1_request (to : Address) (gas_price : Z) (est : Eip1559Estimation) (call : SolCall) (sidecar : Bytes)
    : TransactionRequest :=
  mkTransactionRequest to None (Some gas_price) (Some (est_max_fee_per_gas est))
    (Some (est_max_priority_fee_per_gas est)) (Some L1_GAS_LIMIT) (Some call) (Some sidecar).

(** The second half of [commit_fallible], [prove_fallible] and
    [execute_fallible], which are the same but for the name of the action. *)
Definition send_to_timelock (action : string) (sidecar : Bytes) (call : SolCall) : L1M string H256 :=
  gas_price ← on_l1 get_gas_price;
  eip1559_est ← on_l1 estimate_eip1559_fees;
  to ← gets (λ s, ls_validator_timelock_addr (st_sender s));
  pending_tx ← on_l1 (send_transaction (l1_request to gas_price eip1559_est call sidecar));
  receipt ← on_l1 (get_receipt pending_tx);
  expect UNWRAP_NONE (l1r_block_number receipt);;
  if l1r_status receipt then mret (l1r_transaction_hash receipt)
  else throw (action +:+ " transaction failed, see L1 transaction's trace for more details (tx_hash='0x"
                +:+ hex_h256 (l1r_transaction_hash receipt) +:+ "')").

Definition commit_fallible (batch : L1BatchWithMetadata) : L1M string H256 :=
  sidecar ← try_result (build_blob_sidecar []);
  self ← gets st_sender;
  call ← commit_batches_shared_bridge_call (ls_l2_chain_id self) (ls_last_committed_l1_batch self) batch;
  send_to_timelock "commit" sidecar call.

Definition prove_fallible (batch : L1BatchWithMetadata) : L1M string H256 :=
  sidecar ← try_result (build_blob_sidecar []);
  self ← gets st_sender;
  let call := prove_batches_shared_bridge_call (ls_l2_chain_id self) (ls_last_proved_l1_batch self) batch in
  send_to_timelock "prove" sidecar call.

Definition push_priority_ops (batch : L1BatchWithMetadata) (t : MerkleTree) : MerkleTree :=
  foldl (λ t op, push_hash (onchain_data_hash op) t) t (bh_priority_ops_onchain_data (bm_header batch)).

Definition set_tree (t : MerkleTree) (x : L1Sender) : L1Sender :=
  mkL1Sender _ (ls_l2_chain_id x) (ls_validator_timelock_addr x) (ls_last_committed_l1_batch x)
    (ls_last_proved_l1_batch x) t.

Definition execute_fallible (batch : L1BatchWithMetadata) : L1M string H256 :=
  sidecar ← try_result (build_blob_sidecar []);
  modify (λ s, set_sender (set_tree (push_priority_ops batch (ls_l1_tx_merkle_tree (st_sender s))) (st_sender s)) s);;
  self ← gets st_sender;
  call ← execute_batches_shared_bridge_call (ls_l2_chain_id self) batch (ls_l1_tx_merkle_tree self);
  send_to_timelock "execute" sidecar call.

Definition set_committed (b : L1BatchWithMetadata) (x : L1Sender) : L1Sender :=
  mkL1Sender _ (ls_l2_chain_id x) (ls_validator_timelock_addr x) b (ls_last_proved_l1_batch x)
    (ls_l1_tx_merkle_tree x).
Definition set_proved (b : L1BatchWithMetadata) (x : L1Sender) : L1Sender :=
  mkL1Sender _ (ls_l2_chain_id x) (ls_validator_timelock_addr x) (ls_last_committed_l1_batch x) b
    (ls_l1_tx_merkle_tree x).

Definition is_ok {A E} (r : Prelude.result A E) : bool := match r with Ok _ => true | Err _ => false end.

(** [commit], [prove] and [execute]: the result is the reply *)
Definition sender_commit {E} (batch : L1BatchWithMetadata) : L1M E (Prelude.result H256 string) :=
  result ← capture (commit_fallible batch);
  (if is_ok result then modify (λ s, set_sender (set_committed batch (st_sender s)) s) else mret tt);;
  mret result.
Definition sender_prove {E} (batch : L1BatchWithMetadata) : L1M E (Prelude.result H256 string) :=
  result ← capture (prove_fallible batch);
  (if is_ok result then modify (λ s, set_sender (set_proved batch (st_sender s)) s) else mret tt);;
  mret result.
Definition sender_execute {E} (batch : L1BatchWithMetadata) : L1M E (Prelude.result H256 string) :=
  capture (execute_fallible batch).

(** One round of [L1Sender::run] *)
Definition handle_l1_command {E} (c : L1Command) : L1M E (Prelude.result H256 string) :=
  match c with
  | Commit batch => sender_commit batch
  | Prove batch => sender_prove batch
  | ExecuteBatch batch => sender_execute batch
  end.

(** ** The handle *)

(** The command goes to the task and the reply is waited for; without the task
    either fails. *)
Definition request_l1 (action : string) (c : L1Command) : L1M string H256 :=
  running ← gets st_sender_running;
  if (running : bool) then
    reply ← handle_l1_command c;
    try_result reply
  else throw ("failed to " +:+ action +:+ " a batch as L1 sender is dropped").

Definition commit_sync (batch : L1BatchWithMetadata) : L1M string H256 := request_l1 "commit" (Commit batch).
Definition prove_sync (batch : L1BatchWithMetadata) : L1M string H256 := request_l1 "prove" (Prove batch).
Definition execute_sync (batch : L1BatchWithMetadata) : L1M string H256 := request_l1 "execute" (ExecuteBatch batch).

(** ** The executor *)
Inductive L1ExecutorMode :=
| Manual
| Auto (last_executed_batch : Z).

(** [L1Executor::manual] and [L1Executor::auto] *)
Definition executor_manual : L1ExecutorMode := Manual.
Definition executor_auto : L1ExecutorMode := Auto 0.

(** One round of the loop of [L1ExecutorModeAuto::run] that was not stopped:
    the number of the last executed batch. *)
Definition auto_round (last_executed_batch : Z) : L1M string Z :=
  let next_batch := wrapping_add_u32 last_executed_batch 1 in
  found ← on_generator (get_or_generate_metadata next_batch);
  match found with
  | None => mret last_executed_batch
  | Some batch_with_metadata =>
      commit_sync batch_with_metadata;;
      prove_sync batch_with_metadata;;
      execute_sync batch_with_metadata;;
      mret next_batch
  end.

(** The loop, for as many rounds as there are readings of the stop signal: the
    last executed batch, and whether the loop was stopped. *)
Fixpoint auto_run (stops : list bool) (last_executed_batch : Z) : L1M string (Z * bool) :=
  match stops with
  | [] => mret (last_executed_batch, false)
  | true :: _ => mret (last_executed_batch, true)
  | false :: stops => last ← auto_round last_executed_batch; auto_run stops last
  end.

(** [L1Executor::run]: without automatic execution it waits for the signal. *)
Definition executor_run (mode : L1ExecutorMode) (stops : list bool) : L1M string (Z * bool) :=
  match mode with
  | Manual => mret (0, existsb id stops)
  | Auto last => auto_run stops last
  end.
End Sender.

(** ** Theorems *)
Section SenderLaws.
Context {CMA : CommitmentApi} {MA : MerkleApi} {AB : CallAbi} {CA : ChainApi}.
Context {W : Type} {R : Random W} {P : L1Provider W}.

(** The L1 keeps what is sent to it: a transaction is recorded when sending it
    succeeds, and nothing else is. *)
Class L1Records := {
  sent : W → list TransactionRequest;
  gas_price_quiet w : match get_gas_price w with Ret _ w' | Throw _ w' => sent w' = sent w | _ => True end;
  fees_quiet w : match estimate_eip1559_fees w with Ret _ w' | Throw _ w' => sent w' = sent w | _ => True end;
  receipt_quiet h w : match get_receipt h w with Ret _ w' | Throw _ w' => sent w' = sent w | _ => True end;
  random_quiet w : sent (snd (h256_random w)) = sent w;
  send_recorded q w :
    match send_transaction q w with
    | Ret _ w' => sent w' = sent w ++ [q]
    | Throw _ w' => sent w' = sent w
    | _ => True
    end;
}.

(** An L1 that accepts everything. *)
Class L1Accepts : Prop := {
  gas_price_answered w : ∃ g w', get_gas_price w = Ret g w';
  fees_answered w : ∃ f w', estimate_eip1559_fees w = Ret f w';
  send_answered q w : ∃ h w', send_transaction q w = Ret h w';
  receipt_answered h w : ∃ r w', get_receipt h w = Ret r w' ∧ l1r_status r = true ∧ is_Some (l1r_block_number r);
  sidecar_built : ∃ b, build_blob_sidecar [] = Ok b;
}.

Context {LR : L1Records}.

(** The calls the L1 has received. *)
Definition l1_calls (s : L1State W) : list SolCall := omap rq_call (sent (l1_world s)).

Lemma on_l1_run {A} (m : M W RpcError A) (s : L1State W) :
  on_l1 m s =
  match m (l1_world s) with
  | Ret a w => Ret a (set_l1_world w s)
  | Throw e w => Throw (rpc_error_display e) (set_l1_world w s)
  | Panic msg => Panic msg
  | Deadlock => Deadlock
  end.
Proof. unfold on_l1, zoom, rpc, map_err. by destruct (m (l1_world s)). Qed.

Lemma on_l1_ret {A} (m : M W RpcError A) (s : L1State W) a w :
  m (l1_world s) = Ret a w → on_l1 m s = Ret a (set_l1_world w s).
Proof. intros H. by rewrite on_l1_run, H. Qed.

(** What sending a call does: one call more, unless it was not sent at all. *)
Definition sends (call : SolCall) (s : L1State W) {A} (o : outcome (L1State W) string A) : Prop :=
  match o with
  | Ret _ s' => l1_calls s' = l1_calls s ++ [call] ∧ ∃ w, s' = set_l1_world w s
  | Throw _ s' => (l1_calls s' = l1_calls s ∨ l1_calls s' = l1_calls s ++ [call]) ∧ ∃ w, s' = set_l1_world w s
  | _ => True
  end.

(** The calls after a step of the world that recorded nothing more. *)
Ltac by_records :=
  cbn [sends throw mret M_ret]; unfold l1_calls; cbn [set_l1_world l1_world st_generator gs_world];
  split; [repeat match goal with H : sent _ = _ |- _ => rewrite H; clear H end;
          rewrite ?omap_app; first [reflexivity | left; reflexivity | right; reflexivity]|by eexists].

Lemma send_spec action sidecar call (s : L1State W) : sends call s (send_to_timelock action sidecar call s).
Proof.
  unfold send_to_timelock, mbind, M_bind. rewrite on_l1_run.
  pose proof (gas_price_quiet (l1_world s)) as H1. destruct (get_gas_price _) as [g w1|e w1| |]; try done; [|by_records].
  rewrite on_l1_run. change (l1_world (set_l1_world w1 s)) with w1.
  pose proof (fees_quiet w1) as H2. destruct (estimate_eip1559_fees _) as [f w2|e w2| |]; try done; [|by_records].
  cbn [gets]. rewrite on_l1_run. change (l1_world (set_l1_world w2 _)) with w2.
  match goal with |- context [send_transaction ?q w2] => pose proof (send_recorded q w2) as H3 end.
  destruct (send_transaction _ w2) as [h w3|e w3| |]; try done; [|by_records].
  rewrite on_l1_run. change (l1_world (set_l1_world w3 _)) with w3.
  pose proof (receipt_quiet h w3) as H4. destruct (get_receipt h w3) as [r w4|e w4| |]; try done; [|by_records].
  destruct (l1r_block_number r); [|done]. cbn [expect mret M_ret]. destruct (l1r_status r); by_records.
Qed.

(** An accepting L1 takes the call. *)
Lemma send_accepted `{L1Accepts} action sidecar call (s : L1State W) :
  ∃ h s', send_to_timelock action sidecar call s = Ret h s'.
Proof.
  unfold send_to_timelock.
  destruct (gas_price_answered (l1_world s)) as (g & w1 & H1). step_m ltac:(exact (on_l1_ret _ _ _ _ H1)).
  destruct (fees_answered w1) as (f & w2 & H2). step_m ltac:(exact (on_l1_ret _ _ _ _ H2)).
  step_m ltac:(reflexivity).
  match goal with |- context [send_transaction ?q] => destruct (send_answered q w2) as (h & w3 & H3) end.
  step_m ltac:(exact (on_l1_ret _ _ _ _ H3)).
  destruct (receipt_answered h w3) as (r & w4 & H4 & Hs & [b Hb]). step_m ltac:(exact (on_l1_ret _ _ _ _ H4)).
  rewrite Hb. step_m ltac:(reflexivity). rewrite Hs. do 2 eexists. reflexivity.
Qed.

(** ** The calls of a request *)

(** The calls do not depend on the state they are built in. *)
Abbreviation commit_call := (commit_batches_shared_bridge_call (S := unit) (E := string)).
Abbreviation execute_call := (execute_batches_shared_bridge_call (S := unit) (E := string)).

Lemma commit_call_anywhere {S} id prev b (s : S) :
  commit_batches_shared_bridge_call (E := string) id prev b s =
  match commit_call id prev b tt with
  | Ret c _ => Ret c s
  | Throw e _ => Throw e s
  | Panic msg => Panic msg
  | Deadlock => Deadlock
  end.
Proof.
  unfold commit_batches_shared_bridge_call, commit_calldata, commit_batch_info.
  destruct (md_bootloader_initial_content_commitment _); [|done].
  destruct (md_events_queue_commitment _); [|done]. by destruct (md_state_diff_hash _).
Qed.

Lemma execute_call_anywhere {S} id b t (s : S) :
  execute_batches_shared_bridge_call (E := string) id b t s =
  match execute_call id b t tt with
  | Ret c _ => Ret c s
  | Throw e _ => Throw e s
  | Panic msg => Panic msg
  | Deadlock => Deadlock
  end.
Proof.
  unfold execute_batches_shared_bridge_call, execute_calldata, priority_ops_proofs.
  destruct (0 <? _)%nat; [|done]. by destruct (merkle_root_and_paths_for_range _ _) as [[[]]|].
Qed.

(** A request that succeeded has sent its call, built on the last batch, and
    the batch is the last one now. *)
Lemma commit_sync_ret b h s s' :
  commit_sync b s = Ret h s' →
  ∃ c w, commit_call (ls_l2_chain_id (st_sender s)) (ls_last_committed_l1_batch (st_sender s)) b tt = Ret c tt ∧
    l1_calls s' = l1_calls s ++ [c] ∧ s' = set_sender (set_committed b (st_sender s)) (set_l1_world w s).
Proof.
  unfold commit_sync, request_l1. intros (running & s0 & [= <- <-] & H)%bind_Ret.
  destruct (st_sender_running s); [|done]. apply bind_Ret in H as (reply & s1 & H & Hr). cbn [handle_l1_command] in H.
  apply bind_Ret in H as (res & s2 & H & Hm). destruct reply as [h'|e]; [|done]. injection Hr as -> ->.
  unfold capture in H. destruct (commit_fallible b s) as [h1 s3|e s3| |] eqn:Hc; [| |done..]; injection H as <- <-.
  2:{ apply bind_Ret in Hm as (? & ? & [= <- <-] & [= ?]). }
  apply bind_Ret in Hm as (? & ? & [= _ <-] & [= -> <-]). unfold commit_fallible in Hc.
  apply bind_Ret in Hc as (sidecar & s4 & Hb & Hc). destruct (build_blob_sidecar []); [|done]. injection Hb as -> <-.
  apply bind_Ret in Hc as (self & s5 & [= <- <-] & Hc). apply bind_Ret in Hc as (c & s6 & Hcall & Hc).
  rewrite commit_call_anywhere in Hcall. destruct (commit_call _ _ _ tt) as [c' []| | |] eqn:Hu; [|done..].
  injection Hcall as -> <-. pose proof (send_spec "commit" sidecar c s) as Hs. rewrite Hc in Hs.
  destruct Hs as (Hl & w & ->). exists c, w. split_and!; [done|exact Hl|reflexivity].
Qed.

Lemma prove_sync_ret b h s s' :
  prove_sync b s = Ret h s' →
  ∃ w, l1_calls s' = l1_calls s ++ [prove_batches_shared_bridge_call (ls_l2_chain_id (st_sender s))
         (ls_last_proved_l1_batch (st_sender s)) b] ∧
    s' = set_sender (set_proved b (st_sender s)) (set_l1_world w s).
Proof.
  unfold prove_sync, request_l1. intros (running & s0 & [= <- <-] & H)%bind_Ret.
  destruct (st_sender_running s); [|done]. apply bind_Ret in H as (reply & s1 & H & Hr). cbn [handle_l1_command] in H.
  apply bind_Ret in H as (res & s2 & H & Hm). destruct reply as [h'|e]; [|done]. injection Hr as -> ->.
  unfold capture in H. destruct (prove_fallible b s) as [h1 s3|e s3| |] eqn:Hc; [| |done..]; injection H as <- <-.
  2:{ apply bind_Ret in Hm as (? & ? & [= <- <-] & [= ?]). }
  apply bind_Ret in Hm as (? & ? & [= _ <-] & [= -> <-]). unfold prove_fallible in Hc.
  apply bind_Ret in Hc as (sidecar & s4 & Hb & Hc). destruct (build_blob_sidecar []); [|done]. injection Hb as -> <-.
  apply bind_Ret in Hc as (self & s5 & [= <- <-] & Hc).
  match type of Hc with send_to_timelock _ _ ?c _ = _ => pose proof (send_spec "prove" sidecar c s) as Hs end.
  rewrite Hc in Hs. destruct Hs as (Hl & w & ->). exists w. split; [exact Hl|reflexivity].
Qed.

Lemma execute_sync_ret b h s s' :
  execute_sync b s = Ret h s' →
  let tree := push_priority_ops b (ls_l1_tx_merkle_tree (st_sender s)) in
  ∃ c w, execute_call (ls_l2_chain_id (st_sender s)) b tree tt = Ret c tt ∧
    l1_calls s' = l1_calls s ++ [c] ∧ s' = set_sender (set_tree tree (st_sender s)) (set_l1_world w s).
Proof.
  intros H tree. unfold execute_sync, request_l1 in H. apply bind_Ret in H as (running & s0 & [= <- <-] & H).
  destruct (st_sender_running s); [|done]. apply bind_Ret in H as (reply & s1 & H & Hr).
  cbn [handle_l1_command] in H. unfold sender_execute in H. destruct reply as [h'|e]; [|done]. injection Hr as -> ->.
  unfold capture in H. destruct (execute_fallible b s) as [h1 s3|e s3| |] eqn:Hc; [| |done..]; [|done]. injection H as -> ->.
  unfold execute_fallible in Hc.
  apply bind_Ret in Hc as (sidecar & s4 & Hb & Hc). destruct (build_blob_sidecar []); [|done]. injection Hb as -> <-.
  apply bind_Ret in Hc as (? & s5 & [= _ <-] & Hc).
  apply bind_Ret in Hc as (self & s6 & [= <- <-] & Hc). apply bind_Ret in Hc as (c & s7 & Hcall & Hc).
  rewrite execute_call_anywhere in Hcall. cbn [set_sender st_sender set_tree ls_l1_tx_merkle_tree ls_l2_chain_id] in Hcall.
  fold tree in Hcall, Hc. destruct (execute_call _ b tree tt) as [c' []| | |] eqn:Hu; [|done..].
  injection Hcall as -> <-. pose proof (send_spec "execute" sidecar c (set_sender (set_tree tree (st_sender s)) s)) as Hs.
  rewrite Hc in Hs. destruct Hs as (Hl & w & ->). exists c, w. split_and!; [done|exact Hl|reflexivity].
Qed.

(** ** Automatic execution *)

(** The calls that bring batches to the L1 one after the other, on top of the
    genesis batch: every batch is committed and proved on the batch before it
    and executed with the tree of all priority operations up to it, once. *)
Inductive l1_history (id : Z) (genesis : L1BatchWithMetadata) :
    list L1BatchWithMetadata → MerkleTree → list SolCall → Prop :=
| history_start : l1_history id genesis [] tree_empty []
| history_batch ms tree calls b c e :
    let prev := default genesis (last ms) in
    l1_history id genesis ms tree calls →
    commit_call id prev b tt = Ret c tt →
    execute_call id b (push_priority_ops b tree) tt = Ret e tt →
    l1_history id genesis (ms ++ [b]) (push_priority_ops b tree)
      (calls ++ [c; prove_batches_shared_bridge_call id prev b; e]).

(** The rounds of the executor, while there are less than 2^32 batches, and
    what goes on beside them: the chain changes and others ask for metadata, but
    nobody else sends batches. *)
Inductive auto_step : Z * L1State W → Z * L1State W → Prop :=
| step_round n s n' s' : n < u32_max → auto_round n s = Ret n' s' → auto_step (n, s) (n', s')
| step_beside n s g :
    generator_step (st_generator s) g → sent (gs_world g) = sent (l1_world s) →
    auto_step (n, s) (n, mkL1State g (st_sender s) (st_sender_running s)).

(** The batches up to [n] are on the L1. *)
Definition on_l1_up_to (id : Z) (genesis : L1BatchWithMetadata) (before : list SolCall) (n : Z) (s : L1State W) : Prop :=
  ∃ ms calls, Z.of_nat (length ms) = n ∧
    l1_history id genesis ms (ls_l1_tx_merkle_tree (st_sender s)) calls ∧
    l1_calls s = before ++ calls ∧ ls_l2_chain_id (st_sender s) = id ∧
    ls_last_committed_l1_batch (st_sender s) = default genesis (last ms) ∧
    ls_last_proved_l1_batch (st_sender s) = default genesis (last ms) ∧
    ∀ i b, ms !! i = Some b → cg_batches (gs_generator (st_generator s)) !! (Z.of_nat i + 1) = Some b.

(** A request for metadata sends nothing, and afterwards the cache has what it
    returned. *)
Lemma metadata_request {E} n r s s' :
  on_generator (get_or_generate_metadata (E := E) n) s = Ret r s' →
  ∃ g, s' = mkL1State g (st_sender s) (st_sender_running s) ∧ generator_step (st_generator s) g ∧
    sent (gs_world g) = sent (l1_world s) ∧ cg_batches (gs_generator g) !! n = r.
Proof.
  unfold on_generator, zoom. destruct (get_or_generate_metadata n (st_generator s)) as [r' g| | |] eqn:H; [|done..].
  intros [= -> <-]. exists g. split; [done|]. split; [by econstructor|].
  rewrite get_metadata_outcome in H. destruct (cg_batches _ !! n) as [m|] eqn:Hn; [by injection H as <- <-|].
  destruct (batches _ !! n) as [info|]; [|by injection H as <- <-].
  destruct (bh_protocol_version _) as [v|]; [|done].
  pose proof (random_quiet (gs_world (st_generator s))) as Hq.
  destruct (h256_random _) as [hash w]. injection H as <- <-. split; [done|]. apply lookup_insert_eq.
Qed.

Lemma beside_kept id genesis before n s g :
  generator_step (st_generator s) g → sent (gs_world g) = sent (l1_world s) →
  on_l1_up_to id genesis before n s →
  on_l1_up_to id genesis before n (mkL1State g (st_sender s) (st_sender_running s)).
Proof.
  intros Hstep Hsent (ms & calls & Hn & Hh & Hc & Hid & Hcm & Hpr & Hms). exists ms, calls. split_and!; try done.
  - rewrite <- Hc. unfold l1_calls. by rewrite <- Hsent.
  - intros i b Hi. eapply known_kept; eauto.
Qed.

Lemma round_running n n' s s' :
  auto_round n s = Ret n' s' → st_sender_running s = true → st_sender_running s' = true.
Proof.
  intros H Hr. unfold auto_round in H. apply bind_Ret in H as (found & s1 & Hg & H).
  apply metadata_request in Hg as (g & -> & _). destruct found as [b|]; [|by injection H as <- <-].
  apply bind_Ret in H as (h1 & s2 & Hcommit & H). apply commit_sync_ret in Hcommit as (c & w1 & _ & _ & ->).
  apply bind_Ret in H as (h2 & s3 & Hprove & H). apply prove_sync_ret in Hprove as (w2 & _ & ->).
  apply bind_Ret in H as (h3 & s4 & Hexec & H). apply execute_sync_ret in Hexec as (e & w3 & _ & _ & ->).
  injection H as <- <-. exact Hr.
Qed.

(** One more batch. *)
Lemma round_kept id genesis before n n' s s' :
  n < u32_max → auto_round n s = Ret n' s' →
  on_l1_up_to id genesis before n s → on_l1_up_to id genesis before n' s'.
Proof.
  intros Hlt H Hinv. unfold auto_round in H. apply bind_Ret in H as (found & s1 & Hg & H).
  apply metadata_request in Hg as (g & -> & Hstep & Hsent & Hknown).
  pose proof (beside_kept _ _ _ _ _ _ Hstep Hsent Hinv) as Hinv'. destruct found as [b|]; [|by injection H as <- <-].
  destruct Hinv' as (ms & calls & Hn & Hh & Hc & Hid & Hcm & Hpr & Hms).
  set (s1 := mkL1State g _ _) in *.
  apply bind_Ret in H as (h1 & s2 & Hcommit & H). apply commit_sync_ret in Hcommit as (c & w1 & Hcall & Hl1 & ->).
  apply bind_Ret in H as (h2 & s3 & Hprove & H). apply prove_sync_ret in Hprove as (w2 & Hl2 & ->).
  apply bind_Ret in H as (h3 & s4 & Hexec & H). apply execute_sync_ret in Hexec as (e & w3 & Hexec & Hl3 & ->).
  injection H as <- <-. cbn [set_sender set_committed set_proved set_l1_world st_sender ls_l2_chain_id
    ls_last_proved_l1_batch ls_l1_tx_merkle_tree] in *.
  rewrite Hid, ?Hcm, ?Hpr in *.
  assert (Hnext : wrapping_add_u32 n 1 = n + 1) by (unfold wrapping_add_u32, u32_max in *; rewrite Z.mod_small; lia).
  eexists (ms ++ [b]), _. split_and!; cbn [set_sender set_tree set_committed set_proved set_l1_world st_sender ls_l2_chain_id
    ls_last_committed_l1_batch ls_last_proved_l1_batch ls_l1_tx_merkle_tree st_generator gs_generator]; try done.
  - rewrite length_app, Hnext. cbn [length]. lia.
  - econstructor; [exact Hh|exact Hcall|exact Hexec].
  - refine (eq_trans Hl3 _). rewrite Hl2, Hl1, Hc, <- !app_assoc. done.
  - by rewrite last_snoc.
  - by rewrite last_snoc.
  - intros i x Hi. apply lookup_app_Some in Hi as [Hi|[Hge Hi]]; [by apply Hms|].
    apply list_lookup_singleton_Some in Hi as [Hi <-].
    replace (Z.of_nat i + 1) with (n + 1) by lia. by rewrite <- Hnext.
Qed.

(** ** Progress *)

(** A batch that can be committed, and whose priority operations are there. *)
Definition committable (b : L1BatchWithMetadata) : Prop :=
  (∃ i, commit_batch_info (S := unit) (E := string) b tt = Ret i tt) ∧
  (Z.to_nat (bh_l1_tx_count (bm_header b)) <= length (bh_priority_ops_onchain_data (bm_header b)))%nat.

(** Batch [n] is sealed, or its metadata were asked for before. *)
Definition ready (n : Z) (g : GeneratorState W) : Prop :=
  match cg_batches (gs_generator g) !! n with
  | Some b => committable b
  | None => ∃ info, batches (gs_chain g) !! n = Some info ∧ is_Some (bh_protocol_version (sb_header info)) ∧
      (Z.to_nat (bh_l1_tx_count (sb_header info)) <= length (bh_priority_ops_onchain_data (sb_header info)))%nat
  end.

Lemma ready_metadata {CML : CommitmentLaws} {E} n g :
  ready n g → ∃ b g', get_or_generate_metadata (E := E) n g = Ret (Some b) g' ∧ committable b.
Proof.
  unfold ready. rewrite get_metadata_outcome. destruct (cg_batches _ !! n) as [b|]; [eauto|].
  intros (info & -> & [v ->] & Hle). destruct (h256_random _) as [hash w].
  do 2 eexists. split; [reflexivity|]. split; [|exact Hle].
  destruct (metadata_generated (gs_generator g) info v hash) as (_ & _ & _ & Hi).
  destruct (Hi unit string tt) as (i & Hi' & _). by exists i.
Qed.

Lemma push_leaves {ML : MerkleLaws} b t :
  leaves (push_priority_ops b t) = leaves t ++ (onchain_data_hash <$> bh_priority_ops_onchain_data (bm_header b)).
Proof.
  unfold push_priority_ops. generalize (bh_priority_ops_onchain_data (bm_header b)) as ops. intros ops. revert t.
  induction ops as [|op ops IH]; intros t; cbn; [by rewrite app_nil_r|]. rewrite IH, leaves_push, <- app_assoc. done.
Qed.

Lemma commit_accepted `{L1Accepts} b s :
  st_sender_running s = true → committable b → ∃ h s', commit_sync b s = Ret h s' ∧ st_sender_running s' = true.
Proof.
  intros Hr [[i Hi] _]. unfold commit_sync, request_l1. step_m ltac:(reflexivity). rewrite Hr.
  cbn [handle_l1_command]. unfold sender_commit.
  assert (∃ c, commit_call (ls_l2_chain_id (st_sender s)) (ls_last_committed_l1_batch (st_sender s)) b tt = Ret c tt) as [c Hc].
  { unfold commit_batches_shared_bridge_call, commit_calldata. eexists.
    step_m ltac:(step_m ltac:(exact Hi); reflexivity). reflexivity. }
  destruct sidecar_built as [sc Hsc]. destruct (send_accepted "commit" sc c s) as (h & s' & Hs).
  assert (Hf : commit_fallible b s = Ret h s').
  { unfold commit_fallible. rewrite Hsc. step_m ltac:(reflexivity). step_m ltac:(reflexivity).
    step_m ltac:(rewrite commit_call_anywhere, Hc; reflexivity). exact Hs. }
  step_m ltac:(step_m ltac:(unfold capture; rewrite Hf; reflexivity); step_m ltac:(reflexivity); reflexivity).
  do 2 eexists. split; [reflexivity|]. cbn [set_sender st_sender_running].
  pose proof (send_spec "commit" sc c s) as Hq. rewrite Hs in Hq. destruct Hq as (_ & w & ->). done.
Qed.

Lemma prove_accepted `{L1Accepts} b s :
  st_sender_running s = true → ∃ h s', prove_sync b s = Ret h s' ∧ st_sender_running s' = true.
Proof.
  intros Hr. unfold prove_sync, request_l1. step_m ltac:(reflexivity). rewrite Hr.
  cbn [handle_l1_command]. unfold sender_prove.
  set (c := prove_batches_shared_bridge_call (ls_l2_chain_id (st_sender s)) (ls_last_proved_l1_batch (st_sender s)) b).
  destruct sidecar_built as [sc Hsc]. destruct (send_accepted "prove" sc c s) as (h & s' & Hs).
  assert (Hf : prove_fallible b s = Ret h s')
    by (unfold prove_fallible; rewrite Hsc; do 2 step_m ltac:(reflexivity); exact Hs).
  step_m ltac:(step_m ltac:(unfold capture; rewrite Hf; reflexivity); step_m ltac:(reflexivity); reflexivity).
  do 2 eexists. split; [reflexivity|]. cbn [set_sender st_sender_running].
  pose proof (send_spec "prove" sc c s) as Hq. rewrite Hs in Hq. destruct Hq as (_ & w & ->). done.
Qed.

Lemma execute_accepted `{L1Accepts} {ML : MerkleLaws} b s :
  st_sender_running s = true → committable b → ∃ h s', execute_sync b s = Ret h s' ∧ st_sender_running s' = true.
Proof.
  intros Hr [_ Hle]. unfold execute_sync, request_l1. step_m ltac:(reflexivity). rewrite Hr.
  cbn [handle_l1_command]. unfold sender_execute.
  set (t := push_priority_ops b (ls_l1_tx_merkle_tree (st_sender s))).
  assert (∃ c, execute_call (ls_l2_chain_id (st_sender s)) b t tt = Ret c tt) as [c Hc].
  { unfold execute_batches_shared_bridge_call, execute_calldata, priority_ops_proofs. destruct (0 <? _)%nat; [|by eexists].
    destruct (paths_defined (Z.to_nat (bh_l1_tx_count (bm_header b))) t) as [[[r l] r'] Hp].
    { unfold t. rewrite push_leaves, length_app, length_fmap. lia. }
    rewrite Hp. by eexists. }
  destruct sidecar_built as [sc Hsc]. set (s1 := set_sender (set_tree t (st_sender s)) s).
  destruct (send_accepted "execute" sc c s1) as (h & s' & Hs).
  assert (Hf : execute_fallible b s = Ret h s').
  { unfold execute_fallible. rewrite Hsc. do 3 step_m ltac:(reflexivity). fold t s1.
    step_m ltac:(rewrite execute_call_anywhere; cbn [s1 set_sender st_sender set_tree ls_l2_chain_id ls_l1_tx_merkle_tree];
      rewrite Hc; reflexivity). exact Hs. }
  step_m ltac:(unfold capture; rewrite Hf; reflexivity). do 2 eexists. split; [reflexivity|].
  pose proof (send_spec "execute" sc c s1) as Hq. rewrite Hs in Hq. destruct Hq as (_ & w & ->). exact Hr.
Qed.

Lemma round_accepted `{L1Accepts} {CML : CommitmentLaws} {ML : MerkleLaws} n s :
  st_sender_running s = true → n < u32_max → 0 <= n → ready (n + 1) (st_generator s) →
  ∃ s', auto_round n s = Ret (n + 1) s'.
Proof.
  intros Hr Hlt Hge Hready. unfold auto_round.
  replace (wrapping_add_u32 n 1) with (n + 1) by (unfold wrapping_add_u32, u32_max in *; rewrite Z.mod_small; lia).
  destruct (ready_metadata (E := string) _ _ Hready) as (b & g & Hg & Hb).
  step_m ltac:(unfold on_generator, zoom; rewrite Hg; reflexivity).
  destruct (commit_accepted b (mkL1State g (st_sender s) (st_sender_running s))) as (h1 & s1 & H1 & Hr1); [exact Hr|done|]. step_m ltac:(exact H1).
  edestruct (prove_accepted b) as (h2 & s2 & H2 & Hr2); [exact Hr1|]. step_m ltac:(exact H2).
  edestruct (execute_accepted b) as (h3 & s3 & H3 & Hr3); [exact Hr2|done|]. step_m ltac:(exact H3).
  by eexists.
Qed.

(** C22: automatic execution.  Starting with a new sender, whatever happens
    beside it, the executor has sent to the L1, in order and once each, the
    commit, the proof and the execution of the batches 1 to [n], where [n] is
    the batch it remembers, each built on the batch before it and on the
    metadata that the generator keeps.  And when the next batch is sealed, an L1
    that accepts transactions gets it in the next round. *)
Theorem auto_execution_spec {CML : CommitmentLaws} {ML : MerkleLaws} zk genesis s0 n s :
  st_sender s0 = L1Sender_new zk genesis → st_sender_running s0 = true →
  rtc auto_step (0, s0) (n, s) →
  on_l1_up_to (gc_l2_chain_id (zc_genesis zk)) genesis (l1_calls s0) n s ∧
  (L1Accepts → n < u32_max → ready (n + 1) (st_generator s) → ∃ s', auto_round n s = Ret (n + 1) s').
Proof.
  intros Hs0 Hr0 Hsteps.
  assert (Hinv : on_l1_up_to (gc_l2_chain_id (zc_genesis zk)) genesis (l1_calls s0) n s ∧ st_sender_running s = true).
  { apply (rtc_ind_r (λ x, on_l1_up_to (gc_l2_chain_id (zc_genesis zk)) genesis (l1_calls s0) x.1 x.2 ∧
      st_sender_running x.2 = true) (0, s0)) in Hsteps; [exact Hsteps| |].
    - cbn [fst snd]. split; [|done]. exists [], []. rewrite Hs0, app_nil_r. split_and!; try done. constructor.
    - intros y z _ Hstep [Hi Hr]. destruct Hstep as [m t m' t' Hlt Hround|m t g Hg Hsent]; cbn [fst snd] in *.
      + split; [by eapply round_kept|by eapply round_running].
      + split; [by apply beside_kept|done]. }
  destruct Hinv as [Hi Hr]. split; [done|]. intros Ha Hlt Hready. apply round_accepted; try done.
  destruct Hi as (ms & _ & <- & _). lia.
Qed.

(** The priority operations that the execution of a batch proves: as many as
    the batch has, but the first ones of all batches. *)
Theorem execute_proof_spec {ML : MerkleLaws} {E S} b t (s : S) proofs :
  (0 < Z.to_nat (bh_l1_tx_count (bm_header b)))%nat →
  priority_ops_proofs (E := E) b (push_priority_ops b t) s = Ret proofs s →
  po_itemHashes <$> proofs =
    [take (Z.to_nat (bh_l1_tx_count (bm_header b)))
       (leaves t ++ (onchain_data_hash <$> bh_priority_ops_onchain_data (bm_header b)))].
Proof.
  intros Hpos. unfold priority_ops_proofs. rewrite (proj2 (Nat.ltb_lt _ _) Hpos).
  destruct (merkle_root_and_paths_for_range _ _) as [[[r l] r']|]; [|done]. cbn [expect].
  intros (x & s1 & [= <- <-] & [= <-])%bind_Ret. cbn. by rewrite hashes_prefix_take, push_leaves.
Qed.
End SenderLaws.

(** ** A sample L1

    It keeps what is sent, draws root hashes from a counter, has a list of logs,
    and refuses a transaction when [refuses] says so of what was sent up to it. *)
Module SampleL1.
Record World := mkWorld {
  w_sent : list TransactionRequest;
  w_seed : Z;
  w_latest : Z;
  w_logs : list L1Log;
}.

Definition in_range (f : L1Filter) (l : L1Log) : bool :=
  match ll_block_number l with
  | Some n => (lf_from_block f <=? n) && (n <=? lf_to_block f)
  | None => false
  end && bool_decide (head (ll_topics l) = Some (lf_event_signature f)) && bool_decide (ll_address l ∈ lf_addresses f).

Definition provider (refuses : list TransactionRequest → bool) : L1Provider World := {|
  connect _ _ := mret tt;
  get_accounts := mret [];
  get_gas_price := mret 7;
  estimate_eip1559_fees := mret (mkEip1559 9 1);
  send_transaction q := λ w, Ret (Z.of_nat (length (w_sent w)))
    (mkWorld (w_sent w ++ [q]) (w_seed w) (w_latest w) (w_logs w));
  get_receipt h := gets (λ w, mkL1Receipt (negb (refuses (w_sent w))) h (Some 1));
  get_latest_block := gets (λ w, Some (w_latest w));
  get_logs f := gets (λ w, List.filter (in_range f) (w_logs w));
  anvil_load_state _ := mret true;
  rpc_error_display _ := "error";
  anvil_version_output := mret "anvil Version: 1.0.0";
  version_parse s := Ok (1, s);
  write_temp_file name _ := mret name;
  create_log_file _ := mret tt;
  spawn_anvil _ _ := mret tt;
  wait_child := mret tt;
  ctrl_c := mret tt;
  l1_now _ := 0;
  l1_sleep _ w := w;
|}.
Definition accepting : L1Provider World := provider (λ _, false).

#[export] Instance random : Random World :=
  λ w, (w_seed w, mkWorld (w_sent w) (w_seed w + 1) (w_latest w) (w_logs w)).

#[export] Instance commitments : CommitmentApi := {|
  CommitmentInput := CommitmentCommonInput * AuxCommitments;
  PostBoojum c _ _ aux _ _ := (c, aux);
  for_genesis_batch root index h v :=
    (mkCommonInput [] index root (bootloader_hash h) (default_aa_hash h) (evm_emulator_hash h) v, mkAux 0 0);
  input_common := fst;
  L1BatchCommitment := CommitmentCommonInput * AuxCommitments;
  commitment_new i := i;
  artifacts i := mkArtifacts None None None (ci_rollup_root_hash (fst i) + 1) 2 3 4 5 (Some (snd i)) 6 7 8;
  meta_parameters i := mkMetaParameters false 0 0 None (Some (ci_protocol_version (fst i)));
  num_blobs_required _ := 16;
  priority_ops_onchain_data_hash h := Z.of_nat (length (bh_priority_ops_onchain_data h));
  onchain_data_hash d := default 0 (head d);
  serialize_commitments logs := logs;
|}.
#[export] Instance commitment_laws : CommitmentLaws.
Proof. split; reflexivity. Defined.

#[export] Instance merkle : MerkleApi := {|
  MerkleTree := list H256;
  tree_empty := [];
  push_hash h t := t ++ [h];
  merkle_root_and_paths_for_range n t := if (n <=? length t)%nat then Some (0, [], []) else None;
  hashes_prefix := take;
|}.
#[export] Instance merkle_laws : MerkleLaws.
Proof.
  unshelve econstructor; [exact (λ t, t)|reflexivity..|].
  intros n t Hn. cbn. rewrite (proj2 (Nat.leb_le _ _) Hn). by eexists.
Defined.

(** The numbers of the batches, and the proved operations, as they are. *)
#[export] Instance abi : CallAbi := {|
  build_blob_sidecar b := Ok b;
  encode_commit prev infos := sbi_batchNumber prev :: (cbi_batchNumber <$> infos);
  encode_prove prev infos _ := sbi_batchNumber prev :: (sbi_batchNumber <$> infos);
  encode_execute infos ops := (sbi_batchNumber <$> infos) ++ mjoin (po_itemHashes <$> ops);
|}.

Definition records (refuses : list TransactionRequest → bool) : L1Records (P := provider refuses).
Proof. refine {| sent := w_sent |}; reflexivity. Defined.
Definition accepts : L1Accepts (P := accepting).
Proof. split; intros; repeat eexists; reflexivity. Defined.

Definition zk : ZkstackConfig := mkZkstack
  (mkContractsConfig 1 2 (mkEcosystem 3 4 5 None 6 "cut" None None None None None)
     (mkBridges (mkBridge 7 None) (mkBridge 8 None) None)
     (mkL1Contracts 9 10 11 12 None None 13 14 15 16 None None None None None)
     (mkL2Contracts 17 18 None None None None None None))
  (mkGenesisConfig 100 54 101 27 20 21 None 9 270 22)
  (mkWallets None (mkWallet 30 31) (mkWallet 32 33) (mkWallet 34 35) (mkWallet 36 37) None).

(** A chain with two batches of one priority operation each. *)
Definition batch (n op : Z) : StoredL1BatchInfo :=
  mkBatchInfo (mkBatchHeader n (1000 + n) 1 0 [[op]] [] [] [] (mkContractHashes 0 0 None) [] (Some 27) None 0) [] 0.
Definition chain : BlockchainState :=
  mkChain 27 2 2 0 ∅ ∅ ∅ {[ 1 := batch 1 71; 2 := batch 2 72 ]}.

Definition generator : CommitmentGenerator :=
  match generator_new (CA := SampleChain.chain_api) (S := unit) (E := unit) zk tt with
  | Ret g _ => g
  | _ => mkGenerator (mkContractHashes 0 0 None) 0 ∅
  end.
Definition genesis : L1BatchWithMetadata :=
  generate_metadata_inner
    (set_fee_address 22 (@L1BatchHeader_new SampleChain.chain_api 0 0 (mkContractHashes 21 20 None) 27))
    (for_genesis_batch 100 54 (mkContractHashes 21 20 None) 27).

Example generator_has_genesis : cg_batches generator !! 0 = Some genesis.
Proof. vm_compute. reflexivity. Qed.

Definition start : L1State World :=
  mkL1State (mkGeneratorState generator chain (mkWorld [] 1000 0 [])) (L1Sender_new zk genesis) true.

Definition calls (s : L1State World) : list SolCall := omap rq_call (w_sent (l1_world s)).

(** Two rounds of automatic execution.  The last number of the sixth call is
    the priority operation that is proved: that of the first batch. *)
Example two_batches :
  match auto_run (P := accepting) [false; false; false] 0 start with
  | Ret (n, stopped) s => n = 2 ∧ stopped = false ∧ calls s =
      [CommitBatchesSharedBridge 270 1 1 [0; 0; 1]; ProveBatchesSharedBridge 270 1 1 [0; 0; 1];
       ExecuteBatchesSharedBridge 270 1 1 [0; 1; 71];
       CommitBatchesSharedBridge 270 2 2 [0; 1; 2]; ProveBatchesSharedBridge 270 2 2 [0; 1; 2];
       ExecuteBatchesSharedBridge 270 2 2 [0; 2; 71]]
  | _ => False
  end.
Proof. vm_compute. split_and!; reflexivity. Qed.

(** An execution that fails on the L1 has already pushed its operations: the
    next attempt pushes them again. *)
Definition refuse_third : L1Provider World := provider (λ sent, bool_decide (length sent = 3%nat)).

Example retried_execution :
  match auto_round (P := refuse_third) 0 start with
  | Throw _ s =>
      match auto_round (P := refuse_third) 0 s with
      | Ret n s' => n = 1 ∧ ls_l1_tx_merkle_tree (st_sender s') = [71; 71]
      | _ => False
      end
  | _ => False
  end.
Proof. vm_compute. split; reflexivity. Qed.

(** Two requests for one batch that both found the cache empty: the first is
    answered with metadata that are replaced. *)
Example racing_requests :
  let g := st_generator start in
  match known_metadata (E := unit) 1 g with
  | Ret None g =>
      match known_metadata (E := unit) 1 g with
      | Ret None g =>
          match generate_missing (E := unit) 1 g with
          | Ret (Some m1) g =>
              match generate_missing (E := unit) 1 g with
              | Ret (Some m2) g =>
                  md_root_hash (bm_metadata m1) = 1000 ∧ md_root_hash (bm_metadata m2) = 1001 ∧
                  cg_batches (gs_generator g) !! 1 = Some m2
              | _ => False
              end
          | _ => False
          end
      | _ => False
      end
  | _ => False
  end.
Proof. vm_compute. split_and!; reflexivity. Qed.

Definition after_round (s : L1State World) : L1State World :=
  match auto_round (P := accepting) 0 s with Ret _ s' => s' | _ => s end.

Example first_round : auto_round (P := accepting) 0 start = Ret 1 (after_round start).
Proof. vm_compute. reflexivity. Qed.

Example second_ready : ready 2 (st_generator (after_round start)).
Proof.
  unfold ready. assert (H : cg_batches (gs_generator (st_generator (after_round start))) !! 2 = None) by (vm_compute; reflexivity).
  rewrite H. exists (batch 2 72). split; [vm_compute; reflexivity|]. split; [by eexists|]. vm_compute. lia.
Qed.

Lemma auto_execution_witness :
  on_l1_up_to (LR := records (λ _, false)) 270 genesis [] 1 (after_round start) ∧
  ∃ s', auto_round (P := accepting) 1 (after_round start) = Ret 2 s'.
Proof.
  destruct (auto_execution_spec (P := accepting) (LR := records (λ _, false))
    zk genesis start 1 (after_round start)) as [H1 H2].
  - reflexivity.
  - reflexivity.
  - eapply rtc_l; [|apply rtc_refl]. apply step_round; [vm_compute; reflexivity|exact first_round].
  - split; [exact H1|]. apply H2; [exact accepts|vm_compute; reflexivity|exact second_ready].
Defined.

End SampleL1.
