(* ===== verification/L1Watcher.v ===== *)
(** * Watching the L1

    [crates/l1_sidecar/src/l1_watcher.rs]: the task that reads the priority
    requests of the L1 and puts them into the transaction pool. *)
From S2P Require Import Prelude Types Impersonate Pool L1Anvil.
Local Open Scope string_scope.
Local Open Scope list_scope.
Local Open Scope Z_scope.

(** [zksync_types::l1::L1Tx]; [l1tx_try_from] includes the conversion of the
    log through JSON. *)
Class L1TxApi := {
  L1Tx : Type;
  l1tx_try_from : L1Log → Prelude.result L1Tx string;
  serial_id : L1Tx → Z;
  eth_block : L1Tx → Z;
  l1tx_into : L1Tx → Transaction;
  NEW_PRIORITY_REQUEST : H256;
  L2_MESSAGE_ROOT_ADDRESS : Address;
}.

Record L1Watcher := mkL1Watcher {
  wt_addresses : list Address;
  wt_next_expected_priority_id : Z;
  wt_from_block : Z;
}.

Section Watcher.
Context {LT : L1TxApi} {TA : TransactionApi} {CH : Channel} {W : Type} {P : L1Provider W}.

Record WatcherState := mkWatcherState {
  ws_watcher : L1Watcher;
  ws_pool : TxPool;
  ws_world : W;
}.
Abbreviation WatcherM := (M WatcherState string).

(** [L1Watcher::new] *)
Definition L1Watcher_new (zkstack_config : ZkstackConfig) : L1Watcher :=
  let contracts := zc_contracts zkstack_config in
  mkL1Watcher
    [l1c_diamond_proxy_addr (cc_l1 contracts); l1c_governance_addr (cc_l1 contracts);
     ec_state_transition_proxy_addr (cc_ecosystem_contracts contracts);
     l1c_chain_admin_addr (cc_l1 contracts); L2_MESSAGE_ROOT_ADDRESS]
    0 0.

Definition ask {A} (m : M W RpcError A) : WatcherM A :=
  zoom ws_world (λ w s, mkWatcherState (ws_watcher s) (ws_pool s) w) (rpc m).

(** [iter.skip_while(..)] *)
Fixpoint skip_while {A} (f : A → bool) (l : list A) : list A :=
  match l with
  | x :: l' => if f x then skip_while f l' else l
  | [] => []
  end.

Definition ensure {S} (b : bool) (msg : string) : M S string unit := if b then mret tt else throw msg.

Definition watch_filter (self : L1Watcher) (to_block : Z) : L1Filter :=
  mkL1Filter (wt_from_block self) to_block NEW_PRIORITY_REQUEST (wt_addresses self).

(** The first part of [poll]: the new requests and the block they were read up
    to, if there are any. *)
Definition fetch_new : WatcherM (option (list L1Tx * Z)) :=
  latest_block ← ask get_latest_block;
  to_block ← try_option "L1 does not have any block" latest_block;
  self ← gets ws_watcher;
  if to_block <? wt_from_block self then mret None else
  events ← ask (get_logs (watch_filter self to_block));
  priority_txs ← map_m (λ event, try_result (l1tx_try_from event)) events;
  match head priority_txs, last priority_txs with
  | Some first, Some last =>
      ensure (wrapping_add_u64 (wrapping_sub_u64 (serial_id last) (serial_id first)) 1
                =? Z.of_nat (length priority_txs))
        "there is a gap in priority transactions received";;
      let new_txs := skip_while (λ tx, serial_id tx <? wt_next_expected_priority_id self) priority_txs in
      match head new_txs with
      | None => mret None
      | Some first =>
          ensure (serial_id first =? wt_next_expected_priority_id self) "priority transaction serial id mismatch";;
          mret (Some (new_txs, to_block))
      end
  | _, _ => mret None
  end.

Definition next_id (new_txs : list L1Tx) (otherwise : Z) : Z :=
  match last new_txs with Some last => wrapping_add_u64 (serial_id last) 1 | None => otherwise end.

(** [poll] *)
Definition poll : WatcherM unit :=
  found ← fetch_new;
  match found with
  | None => mret tt
  | Some (new_txs, to_block) =>
      modify (λ s, mkWatcherState (ws_watcher s) (add_txs (l1tx_into <$> new_txs) (ws_pool s)) (ws_world s));;
      modify (λ s, mkWatcherState
        (mkL1Watcher (wt_addresses (ws_watcher s)) (next_id new_txs (wt_next_expected_priority_id (ws_watcher s)))
           (wrapping_add_u64 to_block 1))
        (ws_pool s) (ws_world s))
  end.

(** [run] for as many ticks of its timer: an error ends it. *)
Fixpoint watcher_run (ticks : nat) : WatcherM unit :=
  match ticks with
  | O => mret tt
  | S ticks => poll;; watcher_run ticks
  end.
End Watcher.

(** ** Theorems *)

(** The elements a predicate picks, when it picks the indices from [a] to [b]. *)
Lemma filter_index_range {A} (f : A → bool) (l : list A) a b :
  (a <= b)%nat → (∀ i x, l !! i = Some x → f x = true ↔ (a <= i < b)%nat) →
  List.filter f l = take (b - a) (drop a l).
Proof.
  revert a b. induction l as [|x l IH]; intros a b Hab H; [by rewrite drop_nil, take_nil|].
  pose proof (H 0%nat x eq_refl) as H0.
  assert (Hl : List.filter f l = take (pred b - pred a) (drop (pred a) l)).
  { destruct (decide (a = 0%nat ∧ b = 0%nat)) as [[-> ->]|Hne].
    - apply (IH 0%nat 0%nat); [lia|]. intros i y Hi. rewrite (H (S i) y Hi). lia.
    - apply IH; [lia|]. intros i y Hi. rewrite (H (S i) y Hi). lia. }
  cbn [List.filter]. rewrite Hl. destruct (f x) eqn:Hx.
  - destruct (proj1 H0 eq_refl). destruct a; [|lia]. destruct b; [lia|]. cbn. by rewrite Nat.sub_0_r.
  - destruct a as [|a].
    + destruct b; [done|]. destruct H0 as [_ H0]. discriminate H0. lia.
    + destruct b; [lia|]. done.
Qed.

Section WatcherLaws.
Context {LT : L1TxApi} {TA : TransactionApi} {CH : Channel} {W : Type} {P : L1Provider W}.

(** What the watcher relies on.  The L1 has a queue of priority requests,
    numbered from 0; its logs of a range of blocks
    are the requests of these blocks; requests and blocks are only added, and a
    later request is in a later block than was the latest before it. *)
Class QueueLaws := {
  requests : W → list L1Tx;
  height : W → Z;
  evolves (w w' : W) : Prop :=
    height w <= height w' ∧ ∃ new, requests w' = requests w ++ new ∧ ∀ tx, tx ∈ new → height w < eth_block tx;
  height_range w : 0 <= height w < u64_max;
  requests_few w : Z.of_nat (length (requests w)) <= u64_max;
  requests_numbered w i tx : requests w !! i = Some tx → serial_id tx = Z.of_nat i;
  requests_mined w tx : tx ∈ requests w → 0 <= eth_block tx <= height w;
  latest_answered w : ∃ w', get_latest_block w = Ret (Some (height w)) w' ∧ evolves w w';
  logs_answered watcher to w :
    ∃ ls w', get_logs (watch_filter watcher to) w = Ret ls w' ∧ evolves w w' ∧
      mapM (λ l, match l1tx_try_from l with Ok tx => Some tx | Err _ => None end) ls =
      Some (List.filter (λ tx, (wt_from_block watcher <=? eth_block tx) && (eth_block tx <=? to)) (requests w));
}.
Context {Q : QueueLaws}.

(** The watcher has read the requests before its next block, and these are the
    requests before its next number. *)
Definition watcher_inv (s : WatcherState) : Prop :=
  let next := wt_next_expected_priority_id (ws_watcher s) in
  let from := wt_from_block (ws_watcher s) in
  0 <= next <= Z.of_nat (length (requests (ws_world s))) ∧ 0 <= from <= height (ws_world s) + 1 ∧
  ∀ i tx, requests (ws_world s) !! i = Some tx → Z.of_nat i < next ↔ eth_block tx < from.

Lemma new_watcher_inv zk p w : watcher_inv (mkWatcherState (L1Watcher_new zk) p w).
Proof.
  pose proof (height_range w). split_and!; cbn; [lia|lia|lia|lia|].
  intros i tx Hi. apply list_elem_of_lookup_2, requests_mined in Hi. lia.
Qed.

Lemma evolves_trans w1 w2 w3 : evolves w1 w2 → evolves w2 w3 → evolves w1 w3.
Proof.
  intros (H1 & n1 & E1 & N1) (H2 & n2 & E2 & N2). split; [lia|]. exists (n1 ++ n2). split.
  - by rewrite E2, E1, app_assoc.
  - intros tx [Hx|Hx]%elem_of_app; [by apply N1|]. specialize (N2 tx Hx). lia.
Qed.

Lemma evolves_lookup w w' i tx :
  evolves w w' → requests w' !! i = Some tx →
  requests w !! i = Some tx ∨ ((length (requests w) <= i)%nat ∧ height w < eth_block tx).
Proof.
  intros (_ & new & E & N) Hi. rewrite E in Hi. apply lookup_app_Some in Hi as [Hi|[Hle Hi]]; [by left|].
  right. split; [done|]. apply N. by eapply list_elem_of_lookup_2.
Qed.

(** The invariant does not depend on the pool, and survives the growth of the L1. *)
Lemma watcher_inv_evolves s p w :
  evolves (ws_world s) w → watcher_inv s → watcher_inv (mkWatcherState (ws_watcher s) p w).
Proof.
  intros He (Hn & Hf & Hi). pose proof He as (Hh & new & E & _). split_and!; cbn; try lia.
  - rewrite E, length_app. lia.
  - intros i tx Hx. destruct (evolves_lookup _ _ _ _ He Hx) as [Hy|[Hge Hb]]; [by apply Hi|]. lia.
Qed.

Lemma map_m_decode {S} (s : S) ls txs :
  mapM (λ l, match l1tx_try_from l with Ok tx => Some tx | Err _ => None end) ls = Some txs →
  map_m (E := string) (λ event, try_result (l1tx_try_from event)) ls s = Ret txs s.
Proof.
  revert txs. induction ls as [|l ls IH]; intros txs H; cbn in H; [by injection H as <-|].
  cbn [map_m]. destruct (l1tx_try_from l) as [tx|]; [|done]. cbn in H.
  destruct (mapM _ ls) as [txs'|] eqn:Hm; [|done]. injection H as <-.
  step_m ltac:(reflexivity). step_m ltac:(by apply IH). done.
Qed.

(** A stretch of the queue: where it starts and ends. *)
Lemma stretch_numbers w a b :
  (a < b <= length (requests w))%nat →
  let l := take (b - a) (drop a (requests w)) in
  ∃ first end_, head l = Some first ∧ last l = Some end_ ∧ length l = (b - a)%nat ∧
    serial_id first = Z.of_nat a ∧ serial_id end_ = Z.of_nat b - 1.
Proof.
  intros Hab l.
  assert (Hlen : length l = (b - a)%nat) by (unfold l; rewrite length_take, length_drop; lia).
  assert (Hl : ∀ k, (k < b - a)%nat → l !! k = requests w !! (a + k)%nat)
    by (intros k Hk; unfold l; by rewrite lookup_take_lt, lookup_drop).
  destruct (lookup_lt_is_Some_2 (requests w) a) as [x Hx]; [lia|].
  destruct (lookup_lt_is_Some_2 (requests w) (pred b)) as [y Hy]; [lia|].
  exists x, y. split_and!.
  - rewrite <- Hx, head_lookup, Hl by lia. f_equal. lia.
  - rewrite <- Hy, last_lookup, Hlen, Hl by lia. f_equal. lia.
  - done.
  - by apply requests_numbered in Hx.
  - apply requests_numbered in Hy. lia.
Qed.

(** The checks of [poll] pass for a stretch that starts at the next number. *)
Lemma fetch_stretch {S} w a m next (to : Z) (s : S) :
  a = Z.to_nat next → 0 <= next → (a < m <= length (requests w))%nat →
  let txs := take (m - a) (drop a (requests w)) in
  (match head txs, last txs with
  | Some first, Some last =>
      ensure (wrapping_add_u64 (wrapping_sub_u64 (serial_id last) (serial_id first)) 1 =? Z.of_nat (length txs))
        "there is a gap in priority transactions received";;
      match head (skip_while (λ tx, serial_id tx <? next) txs) with
      | None => mret None
      | Some first =>
          ensure (serial_id first =? next) "priority transaction serial id mismatch";;
          mret (Some (skip_while (λ tx, serial_id tx <? next) txs, to))
      end
  | _, _ => mret None
  end : M S string (option (list L1Tx * Z))) s = Ret (Some (txs, to)) s.
Proof.
  intros Ha Hn Hm txs. destruct (stretch_numbers w a m Hm) as (x & y & Hh & Hl & Hlen & Hx & Hy). fold txs in Hh, Hl, Hlen.
  rewrite Hh, Hl. pose proof (requests_few w) as Hfew. unfold u64_max in Hfew.
  assert (Hgap : wrapping_add_u64 (wrapping_sub_u64 (serial_id y) (serial_id x)) 1 = Z.of_nat (length txs)).
  { unfold wrapping_add_u64, wrapping_sub_u64. rewrite Hlen, Hx, Hy.
    rewrite (Z.mod_small (Z.of_nat m - 1 - Z.of_nat a)) by lia. rewrite Z.mod_small; lia. }
  rewrite Hgap, Z.eqb_refl. step_m ltac:(reflexivity).
  assert (Hskip : skip_while (λ tx, serial_id tx <? next) txs = txs).
  { destruct txs as [|z txs]; [done|]. injection Hh as ->. cbn [skip_while]. rewrite Hx.
    destruct (Z.ltb_spec (Z.of_nat a) next); [lia|done]. }
  rewrite Hskip, Hh, Hx. replace (Z.of_nat a =? next) with true by (symmetry; apply Z.eqb_eq; lia).
  step_m ltac:(reflexivity). done.
Qed.

(** What a poll finds: the rest of the queue, from the next number on. *)
Lemma fetch_new_spec s :
  watcher_inv s →
  let a := Z.to_nat (wt_next_expected_priority_id (ws_watcher s)) in
  let R := requests (ws_world s) in
  ∃ w, evolves (ws_world s) w ∧
    fetch_new s = Ret (if (a <? length R)%nat then Some (drop a R, height (ws_world s)) else None)
      (mkWatcherState (ws_watcher s) (ws_pool s) w).
Proof.
  intros (Hn & Hf & Hi) a R. fold R in Hn, Hi. set (next := wt_next_expected_priority_id (ws_watcher s)) in *.
  set (from := wt_from_block (ws_watcher s)) in *. set (h := height (ws_world s)) in *.
  assert (Hmined : ∀ i tx, R !! i = Some tx → eth_block tx <= h)
    by (intros i tx Hx; apply list_elem_of_lookup_2, requests_mined in Hx; apply Hx).
  destruct (latest_answered (ws_world s)) as (w1 & Hlatest & Hev1). fold h in Hlatest.
  unfold fetch_new. step_m ltac:(unfold ask, zoom, rpc, map_err; rewrite Hlatest; reflexivity).
  cbn [try_option]. do 2 step_m ltac:(reflexivity). cbn [ws_watcher]. fold from.
  destruct (Z.ltb_spec h from) as [Hlt|Hge].
  { exists w1. split; [done|]. destruct (Nat.ltb_spec a (length R)) as [Ha|]; [|done].
    destruct (lookup_lt_is_Some_2 R a Ha) as [tx Htx].
    assert (¬ eth_block tx < from) by (rewrite <- (Hi a tx Htx); unfold a; lia). pose proof (Hmined a tx Htx). lia. }
  destruct (logs_answered (ws_watcher s) h w1) as (ls & w2 & Hlogs & Hev2 & Hdec). fold from in Hdec.
  assert (Hevs : List.filter (λ tx, (from <=? eth_block tx) && (eth_block tx <=? h)) (requests w1) =
                 take (length R - a) (drop a R)).
  { rewrite (filter_index_range _ _ a (length R)); [|unfold a; lia|].
    - destruct Hev1 as (_ & new & -> & _). fold R. rewrite drop_app_le by (unfold a; lia).
      rewrite take_app_le; [done|]. rewrite length_drop. lia.
    - intros i tx Hx. rewrite andb_true_iff, !Z.leb_le.
      destruct (evolves_lookup _ _ _ _ Hev1 Hx) as [Hy|[Hlen Hb]]; [|fold R h in Hlen, Hb; lia].
      fold R in Hy. pose proof (Hmined i tx Hy). pose proof (Hi i tx Hy). apply lookup_lt_Some in Hy. unfold a. lia. }
  rewrite Hevs in Hdec. exists w2. split; [by eapply evolves_trans|].
  step_m ltac:(unfold ask, zoom, rpc, map_err; cbn [ws_world]; rewrite Hlogs; reflexivity).
  step_m ltac:(by apply map_m_decode). cbn [ws_watcher ws_pool].
  destruct (Nat.ltb_spec a (length R)) as [Hlt|].
  - rewrite (fetch_stretch (ws_world s) a (length R) next h _ eq_refl ltac:(lia) ltac:(fold R; lia)). fold R.
    by rewrite <- length_drop, firstn_all.
  - replace (length R - a)%nat with 0%nat by lia. done.
Qed.

(** What a poll found. *)
Definition new_of (found : option (list L1Tx * Z)) : list L1Tx :=
  match found with Some (new_txs, _) => new_txs | None => [] end.

Lemma poll_run s :
  watcher_inv s →
  ∃ found s1 s', fetch_new s = Ret found s1 ∧ poll s = Ret tt s' ∧ watcher_inv s' ∧
    evolves (ws_world s) (ws_world s') ∧
    new_of found = drop (Z.to_nat (wt_next_expected_priority_id (ws_watcher s))) (requests (ws_world s)) ∧
    ws_pool s' = add_txs (l1tx_into <$> new_of found) (ws_pool s) ∧
    wt_next_expected_priority_id (ws_watcher s') = Z.of_nat (length (requests (ws_world s))).
Proof.
  intros Hinv. destruct (fetch_new_spec s Hinv) as (w & Hev & Hf). pose proof Hinv as (Hn & Hfrom & Hi).
  set (next := wt_next_expected_priority_id (ws_watcher s)) in *. set (R := requests (ws_world s)) in *.
  destruct (Nat.ltb_spec (Z.to_nat next) (length R)) as [Hlt|Hge].
  2:{ eexists _, _, _. split; [exact Hf|]. split; [unfold poll; step_m ltac:(exact Hf); reflexivity|].
      split; [by apply watcher_inv_evolves|]. cbn [new_of ws_watcher ws_pool ws_world]. split; [done|].
      rewrite drop_ge by lia. split_and!; [done|done|]. fold next. lia. }
  eexists _, _, _. split; [exact Hf|]. split; [unfold poll; step_m ltac:(exact Hf); reflexivity|]. cbn [new_of].
  destruct (stretch_numbers (ws_world s) (Z.to_nat next) (length R)) as (x & y & _ & Hl & _ & _ & Hy); [fold R; lia|].
  fold R in Hl. rewrite <- length_drop, firstn_all in Hl.
  pose proof (requests_few (ws_world s)) as Hfew. pose proof (height_range (ws_world s)) as Hh. fold R in Hfew.
  assert (Hnext : wrapping_add_u64 (serial_id y) 1 = Z.of_nat (length R)).
  { rewrite Hy. unfold wrapping_add_u64, u64_max in *. rewrite Z.mod_small; lia. }
  cbn [ws_watcher ws_pool ws_world wt_next_expected_priority_id].
  unfold next_id. rewrite Hl, Hnext. split_and!; try done.
  apply (watcher_inv_evolves (mkWatcherState (mkL1Watcher _ _ _) (ws_pool s) (ws_world s))); [exact Hev|]. split_and!; cbn; try (fold R; lia).
  - unfold wrapping_add_u64, u64_max in *. rewrite Z.mod_small; lia.
  - unfold wrapping_add_u64, u64_max in *. rewrite Z.mod_small; lia.
  - intros i tx Hx. pose proof (lookup_lt_Some _ _ _ Hx) as Hlen. fold R in Hlen.
    apply list_elem_of_lookup_2, requests_mined in Hx. unfold wrapping_add_u64, u64_max in *. rewrite Z.mod_small; lia.
Qed.

(** A run of the watcher, with what it has added: polls, and between them the
    L1 grows and others use the pool. *)
Inductive watch_run (s0 : WatcherState) : list L1Tx → WatcherState → Prop :=
| run_start : watch_run s0 [] s0
| run_poll added s found s1 s' :
    watch_run s0 added s → fetch_new s = Ret found s1 → poll s = Ret tt s' →
    watch_run s0 (added ++ new_of found) s'
| run_beside added s p w :
    watch_run s0 added s → evolves (ws_world s) w → watch_run s0 added (mkWatcherState (ws_watcher s) p w).

(** C23: the watcher mirrors the priority queue of the L1.  What a new watcher
    has added to the pool is, at any time, the beginning of the queue, in order
    and without repetition; a further poll succeeds, and with it the pool has
    been given the whole queue. *)
Theorem watcher_mirrors_queue zk p w added s :
  watch_run (mkWatcherState (L1Watcher_new zk) p w) added s →
  added `prefix_of` requests (ws_world s) ∧
  ∃ found s1 s', fetch_new s = Ret found s1 ∧ poll s = Ret tt s' ∧
    ws_pool s' = add_txs (l1tx_into <$> new_of found) (ws_pool s) ∧
    added ++ new_of found = requests (ws_world s).
Proof.
  intros Hrun.
  assert (H : watcher_inv s ∧
    added = take (Z.to_nat (wt_next_expected_priority_id (ws_watcher s))) (requests (ws_world s))).
  { induction Hrun as [|added s found s1 s' Hrun [Hinv IH] Hf Hp|added s q w' Hrun [Hinv IH] Hev].
    - split; [apply new_watcher_inv|done].
    - destruct (poll_run s Hinv) as (f & t1 & t' & Hf' & Hp' & Hinv' & Hev & Hnew & _ & Hnext).
      rewrite Hf in Hf'. injection Hf' as <- <-. rewrite Hp in Hp'. injection Hp' as <-.
      split; [done|]. rewrite Hnext, Nat2Z.id, Hnew, IH, take_drop.
      destruct Hev as (_ & new & -> & _). by rewrite take_app_le, firstn_all.
    - split; [by apply watcher_inv_evolves|]. cbn [ws_watcher ws_world]. rewrite IH.
      destruct Hinv as (Hn & _). destruct Hev as (_ & new & -> & _). rewrite take_app_le; [done|lia]. }
  destruct H as [Hinv Hadded].
  destruct (poll_run s Hinv) as (found & s1 & s' & Hf & Hp & _ & _ & Hnew & Hpool & _). split.
  - rewrite Hadded. apply prefix_take.
  - exists found, s1, s'. split_and!; try done. by rewrite Hnew, Hadded, take_drop.
Qed.
End WatcherLaws.

(** ** A sample queue

    The world is a number of blocks, up to a hundred, with one request each;
    the fee of a later request is higher. *)
Module SampleQueue.
#[local] Existing Instances Sample.api SamplePool.channel.

#[export] Instance l1_tx : L1TxApi := {|
  L1Tx := Z;
  l1tx_try_from l := match ll_data l with id :: _ => Ok id | [] => Err "no data" end;
  serial_id id := id;
  eth_block id := id + 1;
  l1tx_into id := mkTransaction (L1 (mkL1Data 100 (10 + id) 0 [id])) (mkExecute None [] 0 []) 0 (Some [id]);
  NEW_PRIORITY_REQUEST := 5;
  L2_MESSAGE_ROOT_ADDRESS := 6;
|}.

Definition queue (w : nat) : list Z := Z.of_nat <$> seq 0 (Nat.min w 100).
Definition blocks (w : nat) : Z := Z.of_nat (Nat.min w 100).
Definition log_of (id : Z) : L1Log := mkL1Log 10 [5] [id] (Some (id + 1)).

#[export] Instance provider : L1Provider nat := {|
  connect _ _ := mret tt;
  get_accounts := mret [];
  get_gas_price := mret 7;
  estimate_eip1559_fees := mret (mkEip1559 9 1);
  send_transaction _ := mret 0;
  get_receipt h := mret (mkL1Receipt true h (Some 1));
  get_latest_block := gets (λ w, Some (blocks w));
  get_logs f := gets (λ w, log_of <$>
    List.filter (λ id, (lf_from_block f <=? id + 1) && (id + 1 <=? lf_to_block f)) (queue w));
  anvil_load_state _ := mret true;
  rpc_error_display _ := "error";
  anvil_version_output := mret "anvil Version: 1.0.0";
  version_parse s := Ok (1, s);
  write_temp_file name _ := mret name;
  create_log_file _ := mret tt;
  spawn_anvil _ _ := mret tt;
  wait_child := mret tt;
  ctrl_c := mret tt;
  l1_now _ := 0;
  l1_sleep _ w := w;
|}.

Lemma decode_logs ids :
  mapM (λ l, match l1tx_try_from l with Ok tx => Some tx | Err _ => None end) (log_of <$> ids) = Some ids.
Proof. induction ids as [|id ids IH]; [done|]. cbn in *. by rewrite IH. Qed.

Lemma queue_lookup w i (id : Z) : queue w !! i = Some id → id = Z.of_nat i ∧ Z.of_nat i < blocks w.
Proof.
  unfold queue, blocks. rewrite list_lookup_fmap. intros (k & Hk & ->)%fmap_Some.
  apply lookup_seq in Hk as [-> Hlt]. lia.
Qed.

#[export] Instance queue_laws : QueueLaws.
Proof.
  unshelve econstructor; [exact queue|exact blocks|..].
  - intros w. unfold blocks, u64_max. lia.
  - intros w. unfold queue, u64_max. rewrite length_fmap, length_seq. lia.
  - intros w i tx H. by apply queue_lookup in H as [-> _].
  - intros w tx H. apply list_elem_of_lookup in H as [i H]. apply queue_lookup in H as [-> H]. cbn. lia.
  - intros w. exists w. split; [reflexivity|]. split; [lia|]. exists []. rewrite app_nil_r. split; [done|]. intros ? []%elem_of_nil.
  - intros watcher to w. eexists _, w. split; [reflexivity|].
    split; [split; [lia|]; exists []; rewrite app_nil_r; split; [done|]; intros ? []%elem_of_nil|]. apply decode_logs.
Defined.

Definition zk : ZkstackConfig := mkZkstack
  (mkContractsConfig 1 2 (mkEcosystem 3 4 5 None 6 "cut" None None None None None)
     (mkBridges (mkBridge 7 None) (mkBridge 8 None) None)
     (mkL1Contracts 9 10 11 12 None None 13 14 15 16 None None None None None)
     (mkL2Contracts 17 18 None None None None None None))
  (mkGenesisConfig 100 54 101 27 20 21 None 9 270 22)
  (mkWallets None (mkWallet 30 31) (mkWallet 32 33) (mkWallet 34 35) (mkWallet 36 37) None).

Definition start (o : TransactionOrder) : WatcherState := mkWatcherState (L1Watcher_new zk) (TxPool_new o) 2%nat.
Definition polled (o : TransactionOrder) : WatcherState :=
  match poll (start o) with Ret _ s => s | _ => start o end.

Example first_fetch : fetch_new (start Fifo) = Ret (Some ([0; 1], 2)) (start Fifo).
Proof. vm_compute. reflexivity. Qed.
Example first_poll : poll (start Fifo) = Ret tt (polled Fifo).
Proof. vm_compute. reflexivity. Qed.

(** With the pool ordered by fees the requests leave it in another order than
    that of the queue. *)
Example fees_reorder_queue :
  let taken o := (λ b, tx_hash <$> txs b) <$> fst (take_uniform default_impersonation 10 (ws_pool (polled o))) in
  taken Fifo = Some [0; 1] ∧ taken Fees = Some [1; 0].
Proof. vm_compute. split; reflexivity. Qed.

(** Two polls, with three blocks between them. *)
Lemma watcher_mirrors_witness :
  let s := mkWatcherState (ws_watcher (polled Fifo)) (ws_pool (polled Fifo)) 5%nat in
  ∃ found s1 s', fetch_new s = Ret found s1 ∧ poll s = Ret tt s' ∧ [0; 1] ++ new_of found = [0; 1; 2; 3; 4].
Proof.
  intros s.
  destruct (watcher_mirrors_queue (LT := l1_tx) zk (TxPool_new Fifo) 2%nat [0; 1] s) as [_ (found & s1 & s' & Hf & Hp & _ & Hall)].
  - apply run_beside.
    + exact (run_poll (LT := l1_tx) _ [] (start Fifo) (Some ([0; 1], 2)) (start Fifo) (polled Fifo) (run_start _) first_fetch first_poll).
    + split; [vm_compute; discriminate|]. exists [2; 3; 4]. split; [reflexivity|].
      intros tx Htx. rewrite !elem_of_cons, elem_of_nil in Htx. destruct Htx as [->|[->|[->|[]]]]; vm_compute; reflexivity.
  - exists found, s1, s'. split; [exact Hf|]. split; [exact Hp|]. exact Hall.
Defined.
End SampleQueue.
