(* ===== verification/L1Sidecar.v ===== *)
(** * The L1 sidecar

    [crates/l1_sidecar/src/lib.rs]: the sidecar that the API talks to, the
    upgrade every fresh L1 expects first, and the runner of the sidecar's tasks;
    with the methods of [crates/api_server/src/impls/anvil_zks.rs] and
    [impls/zks.rs] that ask the sidecar. *)
From S2P Require Import Prelude Types Text Impersonate Pool Cache Fork Storage Blockchain Inner Sealing VmRunner Executor.
From S2P Require Import NodeErrors L1Anvil L1Commit L1Sender L1Watcher.
Local Open Scope string_scope.
Local Open Scope list_scope.
Local Open Scope Z_scope.

(** ** The upgrade *)

(** The transaction that [upgrade] runs. *)
Definition upgrade_transaction (protocol_version : Z) (u : UpgradeTx) : Transaction :=
  mkTransaction
    (ProtocolUpgrade
       (mkUpgradeData (ut_initiator_address u) protocol_version (ut_max_fee_per_gas u) (ut_gas_limit u)
          (ut_gas_per_pubdata_limit u) (ut_l1_block_number u) (ut_hash u) (ut_l1_tx_mint u)
          (ut_l1_tx_refund_recipient u)))
    (ut_data u) 0 None.

Section Upgrade.
Context {EM : Embedded}.
Context {TA : TransactionApi} {FA : FeeApi} {KA : KeyApi} {CA : ChainApi} {BA : BlockApi} {RA : VmResultApi}.
Context {Client : Type} {R : Remote (Client := Client)}.
Context {VM : VmApi (StorageState (Client := Client))}.

(** [upgrade]: a block with the one transaction *)
Definition upgrade (node_handle : NodeExecutor) (protocol_version : Z) : M (ExecutorTask (Client := Client)) NodeError Z :=
  upgrade_tx ← upgrade_builtin protocol_version;
  seal_block_sync node_handle (mkTxBatch false [upgrade_transaction protocol_version upgrade_tx]).
End Upgrade.

(** ** The sidecar *)
Section Sidecar.
Context {CMA : CommitmentApi} {MA : MerkleApi} {AB : CallAbi} {CA : ChainApi} {LT : L1TxApi} {EM : Embedded}.
Context {W : Type} {RN : Random W} {P : L1Provider W}.

(** The configuration of a sidecar that has an L1; its generator and its sender
    are in the state of the tasks. *)
Record L1Sidecar := mkL1Sidecar { sc_inner : option ZkstackConfig }.

Definition sidecar_none : L1Sidecar := mkL1Sidecar None.

(** The tasks of [L1SidecarRunner], as they start; the sender is in the state. *)
Record L1SidecarRunner := mkRunner {
  rn_anvil_handle : AnvilHandle;
  rn_l1_watcher : L1Watcher;
  rn_l1_executor : L1ExecutorMode;
}.

Definition GENESIS_MISSING : string := "genesis is missing from local storage, can't start L1 sidecar".

(** [L1Sidecar::new]: the state the tasks start in is the answer's last part. *)
Definition sidecar_new (blockchain : BlockchainState) (zkstack_config : ZkstackConfig) (anvil_handle : AnvilHandle)
    (auto_execute_l1 : bool) : M W string (L1Sidecar * L1SidecarRunner * (W → L1State W)) := λ w,
  match generator_new (E := string) zkstack_config tt with
  | Ret generator _ =>
      match get_or_generate_metadata (E := string) 0 (mkGeneratorState generator blockchain w) with
      | Ret (Some genesis_with_metadata) g =>
          Ret (mkL1Sidecar (Some zkstack_config),
               mkRunner anvil_handle (L1Watcher_new zkstack_config) (if auto_execute_l1 then executor_auto else executor_manual),
               λ w, mkL1State (mkGeneratorState (gs_generator g) (gs_chain g) w)
                      (L1Sender_new zkstack_config genesis_with_metadata) true)
            (gs_world g)
      | Ret None g => Throw GENESIS_MISSING (gs_world g)
      | Throw e g => Throw e (gs_world g)
      | Panic msg => Panic msg
      | Deadlock => Deadlock
      end
  | Throw e _ => Throw e w
  | Panic msg => Panic msg
  | Deadlock => Deadlock
  end.

(** [L1Sidecar::process] and [L1Sidecar::external] *)
Definition sidecar_process (protocol_version port : Z) (blockchain : BlockchainState) (auto_execute_l1 : bool) :=
  zkstack_config ← zkstack_builtin protocol_version;
  anvil_handle ← spawn_process port zkstack_config;
  sidecar_new blockchain zkstack_config anvil_handle auto_execute_l1.
Definition sidecar_external (protocol_version : Z) (address : string) (blockchain : BlockchainState)
    (auto_execute_l1 : bool) :=
  zkstack_config ← zkstack_builtin protocol_version;
  anvil_handle ← external address zkstack_config;
  sidecar_new blockchain zkstack_config anvil_handle auto_execute_l1.

(** [L1SidecarRunner::run]: the upgrade comes first; then the task that ends
    first, with its result, ends them all. *)
Definition runner_run (upgraded finished : Prelude.result unit string) : Prelude.result unit string :=
  match upgraded with
  | Err e => Err e
  | Ok _ => finished
  end.

(** The batch of a request, if there is an L1 and the batch exists. *)
Definition requested_batch (self : L1Sidecar) (action : string) (batch_number : Z)
    : M (L1State W) string L1BatchWithMetadata :=
  match sc_inner self with
  | None => throw ("cannot " +:+ action +:+ " a batch as there is no L1 configured")
  | Some _ =>
      found ← on_generator (get_or_generate_metadata batch_number);
      try_option ("batch #" +:+ dec batch_number +:+ " does not exist") found
  end.

Definition commit_batch (self : L1Sidecar) (batch_number : Z) : M (L1State W) string H256 :=
  batch_with_metadata ← requested_batch self "commit" batch_number;
  commit_sync batch_with_metadata.
Definition prove_batch (self : L1Sidecar) (batch_number : Z) : M (L1State W) string H256 :=
  batch_with_metadata ← requested_batch self "prove" batch_number;
  prove_sync batch_with_metadata.
Definition execute_batch (self : L1Sidecar) (batch_number : Z) : M (L1State W) string H256 :=
  batch_with_metadata ← requested_batch self "execute" batch_number;
  execute_sync batch_with_metadata.

Definition contracts_config (self : L1Sidecar) : Prelude.result ContractsConfig string :=
  match sc_inner self with
  | None => Err "cannot get contracts config as there is no L1 configured"
  | Some zk => Ok (zc_contracts zk)
  end.
Definition genesis_config (self : L1Sidecar) : Prelude.result GenesisConfig string :=
  match sc_inner self with
  | None => Err "cannot get genesis config as there is no L1 configured"
  | Some zk => Ok (zc_genesis zk)
  end.
End Sidecar.

(** ** Theorems *)
Section SidecarLaws.
Context {CMA : CommitmentApi} {MA : MerkleApi} {AB : CallAbi} {CA : ChainApi} {LT : L1TxApi} {EM : Embedded}.
Context {W : Type} {RN : Random W} {P : L1Provider W}.

(** The genesis metadata a configuration gives. *)
Definition genesis_of (zk : ZkstackConfig) : L1BatchWithMetadata :=
  let g := zc_genesis zk in
  let hashes := mkContractHashes (gc_bootloader_hash g) (gc_default_aa_hash g) (gc_evm_emulator_hash g) in
  generate_metadata_inner
    (set_fee_address (gc_fee_account g) (L1BatchHeader_new 0 0 hashes (gc_genesis_protocol_version g)))
    (for_genesis_batch (gc_genesis_root g) (gc_genesis_rollup_leaf_index g) hashes (gc_genesis_protocol_version g)).

(** The start of the sidecar.  It panics exactly if the configured
    commitment of the genesis batch is not the computed one; otherwise, whatever
    the chain holds, it starts: nothing is drawn or sent, the sender stands at
    the genesis batch, and the executor executes batches if it was asked to. *)
Theorem sidecar_new_spec blockchain zk anvil auto (w : W) :
  if gc_genesis_batch_commitment (zc_genesis zk) =? md_commitment (bm_metadata (genesis_of zk)) then
    ∃ tasks, sidecar_new blockchain zk anvil auto w =
        Ret (mkL1Sidecar (Some zk),
             mkRunner anvil (L1Watcher_new zk) (if auto then Auto 0 else Manual), tasks) w ∧
      st_sender (tasks w) = L1Sender_new zk (genesis_of zk) ∧ st_sender_running (tasks w) = true ∧
      cg_batches (gs_generator (st_generator (tasks w))) = {[ 0 := genesis_of zk ]} ∧
      gs_chain (st_generator (tasks w)) = blockchain ∧ l1_world (tasks w) = w
  else sidecar_new blockchain zk anvil auto w = Panic COMMITMENT_MISMATCH.
Proof.
  unfold sidecar_new, generator_new. fold (genesis_of zk).
  destruct (gc_genesis_batch_commitment (zc_genesis zk) =? _); [|done]. cbn [mret M_ret].
  rewrite get_metadata_outcome. cbn [gs_generator cg_batches]. rewrite lookup_singleton_eq.
  eexists. split; [reflexivity|]. done.
Qed.

Lemma requested_run (self : L1Sidecar) action n (s : L1State W) :
  is_Some (sc_inner self) →
  requested_batch self action n s =
  match get_or_generate_metadata (E := string) n (st_generator s) with
  | Ret (Some b) g => Ret b (mkL1State g (st_sender s) (st_sender_running s))
  | Ret None g => Throw ("batch #" +:+ dec n +:+ " does not exist") (mkL1State g (st_sender s) (st_sender_running s))
  | Throw e g => Throw e (mkL1State g (st_sender s) (st_sender_running s))
  | Panic msg => Panic msg
  | Deadlock => Deadlock
  end.
Proof.
  intros [zk Hz]. unfold requested_batch, on_generator, zoom, mbind, M_bind. rewrite Hz.
  by destruct (get_or_generate_metadata n (st_generator s)) as [[b|] g| | |].
Qed.

(** The requests of the API.  Without an L1, or for a batch that does not
    exist, they fail with the reason and change nothing; otherwise they are the
    sender's commit, proof or execution of the metadata that the generator keeps
    for the batch. *)
Theorem sidecar_requests_spec (self : L1Sidecar) n (s : L1State W) :
  (sc_inner self = None →
   commit_batch self n s = Throw "cannot commit a batch as there is no L1 configured" s ∧
   prove_batch self n s = Throw "cannot prove a batch as there is no L1 configured" s ∧
   execute_batch self n s = Throw "cannot execute a batch as there is no L1 configured" s) ∧
  (is_Some (sc_inner self) →
   match get_or_generate_metadata (E := string) n (st_generator s) with
   | Ret (Some b) g =>
       let s' := mkL1State g (st_sender s) (st_sender_running s) in
       cg_batches (gs_generator g) !! n = Some b ∧
       commit_batch self n s = commit_sync b s' ∧ prove_batch self n s = prove_sync b s' ∧
       execute_batch self n s = execute_sync b s'
   | Ret None _ =>
       batches (gs_chain (st_generator s)) !! n = None ∧
       ∀ request, request ∈ [commit_batch; prove_batch; execute_batch] →
         request self n s = Throw ("batch #" +:+ dec n +:+ " does not exist") s
   | _ => batches (gs_chain (st_generator s)) !! n ≠ None
   end).
Proof.
  unfold commit_batch, prove_batch, execute_batch.
  split; [intros Hz; unfold requested_batch; by rewrite Hz|]. intros Hz.
  pose proof (λ action, requested_run self action n s Hz) as Hr. rewrite get_metadata_outcome in *.
  destruct (cg_batches (gs_generator (st_generator s)) !! n) as [b|] eqn:Hn.
  { split; [done|]. split_and!; erewrite bind_run by apply Hr; done. }
  destruct (batches (gs_chain (st_generator s)) !! n) as [info|] eqn:Hb.
  - destruct (bh_protocol_version (sb_header info)) as [v|]; [|done].
    destruct (h256_random (gs_world (st_generator s))) as [hash w]. split; [apply lookup_insert_eq|].
    split_and!; erewrite bind_run by apply Hr; done.
  - split; [done|]. intros request Hreq. rewrite !elem_of_cons, elem_of_nil in Hreq.
    replace s with (mkL1State (st_generator s) (st_sender s) (st_sender_running s)) at 2 by (by destruct s).
    destruct Hreq as [->|[->|[->|[]]]]; unfold commit_batch, prove_batch, execute_batch, mbind, M_bind; by rewrite Hr.
Qed.
End SidecarLaws.
