(* ===== verification/Diagnostics.v ===== *)
(** * Diagnostics of a transaction

    What the node works out about a transaction it ran, in order to show it:
    [node/storage_logs.rs] with [formatter/pubdata_bytes.rs] (what each storage
    write costs), [node/diagnostics/] (which balances changed),
    [bootloader_debug.rs] with the first part of [formatter/log.rs] (where the
    gas went) and [node/traces/call_error.rs], all in [crates/core/src].

    Compression of values and the reading of the bootloader's memory are
    arguments. *)
From S2P Require Import Prelude Types Utils Text AddressMap Storage TraceTypes Config.
From Stdlib Require Import Ascii.
From stdpp Require Import sorting.
Local Open Scope string_scope.
Local Open Scope list_scope.
Local Open Scope Z_scope.

(** ** Storage logs *)
Inductive StorageLogKind := LogRead | InitialWrite | RepeatedWrite.

#[export] Instance StorageLogKind_eq_dec : EqDecision StorageLogKind.
Proof. solve_decision. Defined.

(** [StorageLogWithPreviousValue] *)
Record StorageLogEntry := mkLogEntry {
  le_kind : StorageLogKind;
  le_key : StorageKey;
  le_value : H256;
  le_previous_value : H256;
}.

(** [StorageLog::is_write] *)
Definition le_is_write (e : StorageLogEntry) : bool :=
  match le_kind e with LogRead => false | InitialWrite | RepeatedWrite => true end.

Class PubdataApi := {
  (** [compress_with_best_strategy(previous, value).len()] *)
  compressed_len : Z → Z → Z;
  BYTES_PER_DERIVED_KEY : Z;
  BYTES_PER_ENUMERATION_INDEX : Z;
  BOOTLOADER_ADDRESS : Address;
  SYSTEM_CONTEXT : Address;
}.

Inductive PubdataBytesInfo :=
| FreeSlot
| Paid (cost : Z)
| AdditionalPayment (additional_cost total_cost : Z)
| PaidAlready.

(** [to_human_size] as text *)
Definition human (n : Z) : string := string_of_list (to_human_size n).

Definition pubdata_display (p : PubdataBytesInfo) : string :=
  match p with
  | FreeSlot => "Free Slot (no cost)"
  | Paid cost => "Paid: " +:+ human cost +:+ " bytes"
  | AdditionalPayment additional_cost total_cost =>
      "Additional Payment: " +:+ human additional_cost +:+ " bytes (Total: " +:+ human total_cost +:+ " bytes)"
  | PaidAlready => "Already Paid (no additional cost)"
  end.

Definition does_cost (p : PubdataBytesInfo) : bool :=
  match p with FreeSlot | PaidAlready => false | Paid _ | AdditionalPayment _ _ => true end.

Section Pubdata.
Context {KA : KeyApi} {PA : PubdataApi}.

Definition is_storage_key_free (key : StorageKey) : bool :=
  (key.1 =? SYSTEM_CONTEXT) || bool_decide (key = storage_key_for_eth_balance BOOTLOADER_ADDRESS).

(** The bytes a write takes. *)
Definition final_pubdata_cost (e : StorageLogEntry) : Z :=
  let compressed_value_size := as_u32 (compressed_len (le_previous_value e) (le_value e)) in
  if bool_decide (le_kind e = InitialWrite) then wrapping_add_u32 BYTES_PER_DERIVED_KEY compressed_value_size
  else wrapping_add_u32 BYTES_PER_ENUMERATION_INDEX compressed_value_size.

Definition compute_and_update_pubdata_cost (cost_paid : gmap StorageKey Z) (e : StorageLogEntry)
    : PubdataBytesInfo * gmap StorageKey Z :=
  if is_storage_key_free (le_key e) then (FreeSlot, cost_paid)
  else
    let cost := final_pubdata_cost e in
    let result :=
      match cost_paid !! le_key e with
      | Some already_paid =>
          let to_pay := Z.max 0 (cost - already_paid) in
          if 0 <? to_pay then AdditionalPayment to_pay cost else PaidAlready
      | None => Paid cost
      end in
    (result, <[le_key e := cost]> cost_paid).

Definition should_print (show : ShowStorageLogs) (e : StorageLogEntry) (info : option PubdataBytesInfo) : bool :=
  match show with
  | StorageWrite => le_is_write e
  | StoragePaid => match info with Some i => does_cost i | None => false end
  | StorageRead => bool_decide (le_kind e = LogRead)
  | StorageAll => true
  | StorageNone => false
  end.

(** The loop of [print_storage_logs_details]: what is printed of each log, with
    its number and whether it is the last. *)
Fixpoint storage_log_items (show : ShowStorageLogs) (total index : nat) (cost_paid : gmap StorageKey Z)
    (logs : list StorageLogEntry) : list (StorageLogEntry * option PubdataBytesInfo * nat * bool) :=
  match logs with
  | [] => []
  | e :: logs =>
      let '(info, cost_paid) :=
        if le_is_write e then
          let '(i, paid) := compute_and_update_pubdata_cost cost_paid e in (Some i, paid)
        else (None, cost_paid) in
      let rest := storage_log_items show total (S index) cost_paid logs in
      if should_print show e info then (e, info, S index, (index =? total - 1)%nat) :: rest else rest
  end.

Definition print_storage_logs_details (show : ShowStorageLogs) (logs : list StorageLogEntry) :=
  storage_log_items show (length logs) 0 ∅ logs.
End Pubdata.

(** ** Balances *)
Record BalanceDiff := mkBalanceDiff {
  bd_address : LabeledAddress;
  bd_balance_before : Z;
  bd_balance_after : Z;
}.

Record BalanceDiffStaging := mkStaging {
  bs_address : LabeledAddress;
  bs_balance_before : option H256;
  bs_balance_after : option H256;
}.

(** [BalanceDiffStaging::new] *)
Definition staging_new (address : Address) (label : option string) : BalanceDiffStaging :=
  mkStaging (mkLabeledAddress label address) None None.

(** [BalanceDiff::from] *)
Definition diff_of_staging (d : BalanceDiffStaging) : BalanceDiff :=
  mkBalanceDiff (bs_address d) (default 0 (bs_balance_before d)) (default 0 (bs_balance_after d)).

(** The order of [StorageKey]: by account, then by slot. *)
Definition key_le (a b : StorageKey * BalanceDiffStaging) : Prop :=
  a.1.1 < b.1.1 ∨ (a.1.1 = b.1.1 ∧ a.1.2 <= b.1.2).
#[export] Instance key_le_dec a b : Decision (key_le a b).
Proof. unfold key_le. apply _. Defined.
#[export] Instance key_le_total : Total key_le.
Proof. intros a b. unfold key_le. lia. Qed.
#[export] Instance key_le_trans : Transitive key_le.
Proof. intros a b c. unfold key_le. lia. Qed.

(** [BTreeMap::into_values] *)
Definition into_values (m : gmap StorageKey BalanceDiffStaging) : list BalanceDiffStaging :=
  snd <$> merge_sort key_le (map_to_list m).

Section Balances.
Context {KA : KeyApi}.

(** One entry of the log. *)
Definition note_write (diffs : gmap StorageKey BalanceDiffStaging) (e : StorageLogEntry)
    : gmap StorageKey BalanceDiffStaging :=
  if le_is_write e then
    alter (λ d, mkStaging (bs_address d)
             (match bs_balance_before d with Some b => Some b | None => Some (le_previous_value e) end)
             (Some (le_value e)))
      (le_key e) diffs
  else diffs.

Definition stagings (addresses : gmap Address (option string)) : gmap StorageKey BalanceDiffStaging :=
  extend ∅ ((λ '(a, label), (storage_key_for_eth_balance a, staging_new a label)) <$> map_to_list addresses).

Definition extract_balance_diffs (addresses : gmap Address (option string)) (log : list StorageLogEntry)
    : list BalanceDiff :=
  let diffs := foldl note_write (stagings addresses) log in
  diff_of_staging <$>
    filter (λ d, is_system (la_address (bs_address d)) = false)
      (filter (λ d, bs_balance_after d ≠ bs_balance_before d) (into_values diffs)).

(** [account_has_code], on the value of the account's code key *)
Definition account_has_code {S E} (read_value : StorageKey → M S E H256) (address : Address) : M S E bool :=
  bytecode_hash ← read_value (get_code_key address);
  mret (negb (bytecode_hash =? 0)).
End Balances.

(** [entry(address).or_insert(label)] *)
Definition or_insert {V} (a : Address) (label : V) (m : gmap Address V) : gmap Address V :=
  match m !! a with Some _ => m | None => <[a := label]> m end.

Definition known_addresses_after_transaction `{TransactionApi} (tx : Transaction) : gmap Address (option string) :=
  let known := (λ k, Some (ka_name k)) <$> KNOWN_ADDRESSES in
  foldl (λ m a, or_insert a None m) known
    (omap id [Some (payer tx); Some (initiator_account tx); recipient_account tx]).

(** The addresses among the arguments of a call. *)
Definition add_argument (known : gmap Address (option string)) (arg : DecodedValue) : gmap Address (option string) :=
  match arg with
  | DvAddress a => or_insert (la_address a) (la_label a) known
  | _ => known
  end.
Definition extract_addresses (arena : list CallTraceNode) (known_addresses : gmap Address (option string))
    : gmap Address (option string) :=
  foldl (λ known node,
           match dt_call_data (ct_decoded (trace node)) with
           | Some call_data => foldl add_argument known (cd_args call_data)
           | None => known
           end) known_addresses arena.

(** ** The bootloader's debug data *)
Definition DEBUG_START_SENTINEL : Z := 1337.
Definition MAX_MEMORY_BYTES : Z := 63800000.
Definition MAX_TRANSACTIONS : Z := 10000.
Definition RESULTS_BYTES_OFFSET : Z := MAX_MEMORY_BYTES - MAX_TRANSACTIONS * 32.
Definition VM_HOOKS_PARAMS : Z := 3.
Definition VM_HOOKS_START : Z := RESULTS_BYTES_OFFSET - (VM_HOOKS_PARAMS + 1) * 32.
Definition DEBUG_SLOTS : Z := 32.
Definition DEBUG_START_BYTE : Z := VM_HOOKS_START - DEBUG_SLOTS * 32.
Definition DEBUG_START_SLOT : Z := DEBUG_START_BYTE / 32.

Record BootloaderDebug := mkBootloaderDebug {
  bld_total_gas_limit_from_user : Z;
  bld_reserved_gas : Z;
  bld_gas_per_pubdata : Z;
  bld_gas_limit_after_intrinsic : Z;
  bld_gas_after_validation : Z;
  bld_gas_spent_on_execution : Z;
  bld_gas_spent_on_bytecode_preparation : Z;
  bld_refund_computed : Z;
  bld_refund_by_operator : Z;
  bld_intrinsic_overhead : Z;
  bld_required_overhead : Z;
  bld_operator_overhead : Z;
  bld_overhead_for_length : Z;
  bld_overhead_for_slot : Z;
}.

(** The heap of the bootloader, by slots. *)
Definition load_debug_slot (memory : Z → Z) (slot : Z) : Z := memory (DEBUG_START_SLOT + slot).

Definition load_from_memory (memory : Z → Z) : Prelude.result BootloaderDebug string :=
  let slot := load_debug_slot memory in
  if negb (slot 0 =? DEBUG_START_SENTINEL) then
    Err "Debug slot has wrong value. Probably bootloader slot mapping has changed."
  else
    Ok {|
      bld_total_gas_limit_from_user := slot 1;
      bld_reserved_gas := slot 2;
      bld_gas_per_pubdata := slot 3;
      bld_gas_limit_after_intrinsic := slot 4;
      bld_gas_after_validation := slot 5;
      bld_gas_spent_on_execution := slot 6;
      bld_gas_spent_on_bytecode_preparation := slot 7;
      bld_refund_computed := slot 8;
      bld_refund_by_operator := slot 9;
      bld_intrinsic_overhead := slot 10;
      bld_operator_overhead := slot 11;
      bld_required_overhead := slot 12;
      bld_overhead_for_length := slot 13;
      bld_overhead_for_slot := slot 14;
    |}.

(** [after_vm_execution] of the tracer *)
Definition debug_after_vm_execution (memory : Z → Z) (result : Prelude.result BootloaderDebug string)
    : Prelude.result BootloaderDebug string := load_from_memory memory.

(** ** Gas details *)
Record GasDetails := mkGasDetails {
  gd_total_gas_limit : Z;
  gd_intrinsic_gas : Z;
  gd_gas_for_validation : Z;
  gd_gas_spent_on_compute : Z;
  gd_gas_used : Z;
  gd_bytes_published : Z;
  gd_spent_on_pubdata : Z;
  gd_gas_spent_on_bytecode_preparation : Z;
  gd_refund_computed : Z;
  gd_refund_by_operator : Z;
  gd_required_overhead : Z;
  gd_operator_overhead : Z;
  gd_intrinsic_overhead : Z;
  gd_overhead_for_length : Z;
  gd_overhead_for_slot : Z;
  gd_gas_per_pubdata : Z;
  gd_total_gas_limit_from_user : Z;
  gd_gas_spent_on_execution : Z;
  gd_gas_limit_after_intrinsic : Z;
  gd_gas_after_validation : Z;
  gd_reserved_gas : Z;
}.

Section Gas.
Context {S E : Type}.

(** [-], [+], [*] and [/] of [U256], and [as_u64] *)
Definition sub_u256 (a b : Z) : M S E Z := if b <=? a then mret (a - b) else panic "arithmetic operation overflow".
Definition add_u256 (a b : Z) : M S E Z := if a + b <=? u256_max then mret (a + b) else panic "arithmetic operation overflow".
Definition mul_u256 (a b : Z) : M S E Z := if a * b <=? u256_max then mret (a * b) else panic "arithmetic operation overflow".
Definition div_u256 (a b : Z) : M S E Z := if b =? 0 then panic "division by zero" else mret (a / b).
Definition to_u64 (a : Z) : M S E Z := if a <=? u64_max then mret a else panic "Integer overflow when casting to u64".
Definition div_u64 (a b : Z) : M S E Z := if b =? 0 then panic "attempt to divide by zero" else mret (a / b).

Definition compute_gas_details (d : BootloaderDebug) (spent_on_pubdata : Z) : M S E GasDetails :=
  let total_gas_limit := Z.max 0 (bld_total_gas_limit_from_user d - bld_reserved_gas d) in
  intrinsic_gas ← sub_u256 total_gas_limit (bld_gas_limit_after_intrinsic d);
  gas_for_validation ← sub_u256 (bld_gas_limit_after_intrinsic d) (bld_gas_after_validation d);
  gas_spent_on_compute ← sub_u256 (bld_gas_spent_on_execution d) (bld_gas_spent_on_bytecode_preparation d);
  used ← add_u256 intrinsic_gas gas_for_validation;
  used ← add_u256 used (bld_gas_spent_on_bytecode_preparation d);
  gas_used ← add_u256 used gas_spent_on_compute;
  per_pubdata ← to_u64 (bld_gas_per_pubdata d);
  bytes_published ← div_u64 spent_on_pubdata per_pubdata;
  mret {|
    gd_total_gas_limit := total_gas_limit;
    gd_intrinsic_gas := intrinsic_gas;
    gd_gas_for_validation := gas_for_validation;
    gd_gas_spent_on_compute := gas_spent_on_compute;
    gd_gas_used := gas_used;
    gd_bytes_published := bytes_published;
    gd_spent_on_pubdata := spent_on_pubdata;
    gd_gas_spent_on_bytecode_preparation := bld_gas_spent_on_bytecode_preparation d;
    gd_refund_computed := bld_refund_computed d;
    gd_refund_by_operator := bld_refund_by_operator d;
    gd_required_overhead := bld_required_overhead d;
    gd_operator_overhead := bld_operator_overhead d;
    gd_intrinsic_overhead := bld_intrinsic_overhead d;
    gd_overhead_for_length := bld_overhead_for_length d;
    gd_overhead_for_slot := bld_overhead_for_slot d;
    gd_gas_per_pubdata := bld_gas_per_pubdata d;
    gd_total_gas_limit_from_user := bld_total_gas_limit_from_user d;
    gd_gas_spent_on_execution := bld_gas_spent_on_execution d;
    gd_gas_limit_after_intrinsic := bld_gas_limit_after_intrinsic d;
    gd_gas_after_validation := bld_gas_after_validation d;
    gd_reserved_gas := bld_reserved_gas d;
  |}.
End Gas.

(** ** The tracer of call errors

    The [OnceCell] keeps what is set first; a set of flags is empty or not. *)
Definition call_error_after_decoding {Flags} (is_empty : Flags → bool) (result : option Flags) (flags : Flags)
    : option Flags :=
  if negb (is_empty flags) then
    match result with
    | Some first => Some first
    | None => Some flags
    end
  else result.

(** ** Theorems *)

(** The account of the gas.  The details are computed exactly when the
    numbers of the bootloader are in order, and panic otherwise; the parts add up
    to the gas used, which is what was taken from the limit up to validation and
    what execution spent; and the published bytes are those that were paid for. *)
Theorem gas_details_spec {S E} (d : BootloaderDebug) spent (s : S) :
  let total := Z.max 0 (bld_total_gas_limit_from_user d - bld_reserved_gas d) in
  let used := total - bld_gas_after_validation d + bld_gas_spent_on_execution d in
  0 <= bld_gas_spent_on_bytecode_preparation d → 0 <= bld_gas_per_pubdata d → 0 <= spent →
  (bld_gas_after_validation d <= bld_gas_limit_after_intrinsic d <= total ∧
   bld_gas_spent_on_bytecode_preparation d <= bld_gas_spent_on_execution d ∧
   used <= u256_max ∧ 0 < bld_gas_per_pubdata d <= u64_max →
   ∃ g, compute_gas_details (E := E) d spent s = Ret g s ∧ gd_gas_used g = used ∧
     gd_intrinsic_gas g + gd_gas_for_validation g + gd_gas_spent_on_bytecode_preparation g
       + gd_gas_spent_on_compute g = used ∧
     gd_bytes_published g * bld_gas_per_pubdata d <= spent < (gd_bytes_published g + 1) * bld_gas_per_pubdata d) ∧
  (¬ (bld_gas_after_validation d <= bld_gas_limit_after_intrinsic d <= total ∧
      bld_gas_spent_on_bytecode_preparation d <= bld_gas_spent_on_execution d ∧
      used <= u256_max ∧ 0 < bld_gas_per_pubdata d <= u64_max) →
   ∃ msg, compute_gas_details (E := E) d spent s = Panic msg).
Proof.
  intros total used Hprep Hper Hspent. unfold compute_gas_details. fold total. unfold sub_u256, add_u256, to_u64, div_u64, mbind, M_bind.
  split.
  - intros ((Hv & Hi) & He & Hu & Hp).
    repeat (match goal with |- context [?a <=? ?b] => rewrite (proj2 (Z.leb_le a b)) by (unfold used in Hu; lia) end;
            cbn [mret M_ret]).
    rewrite (proj2 (Z.eqb_neq _ _)) by lia. eexists. split; [reflexivity|]. cbn. unfold used. split_and!; [lia|lia| |].
    + rewrite Z.mul_comm. apply Z.mul_div_le. lia.
    + rewrite Z.mul_comm. pose proof (Z.mul_succ_div_gt spent (bld_gas_per_pubdata d) ltac:(lia)). lia.
  - intros Hn.
    repeat (match goal with |- context [?a <=? ?b] => destruct (Z.leb_spec a b) end; [cbn [mret M_ret]|by eexists]).
    match goal with |- context [?a =? 0] => destruct (Z.eqb_spec a 0) end; [by eexists|].
    exfalso. apply Hn. unfold used. lia.
Qed.

(** *** Balances *)

(** The storage a log leads to, and a log whose previous values are those of
    the storage at that point. *)
Definition store_write (st : StorageKey → H256) (e : StorageLogEntry) : StorageKey → H256 :=
  if le_is_write e then λ k, if bool_decide (k = le_key e) then le_value e else st k else st.
Definition store_after (st : StorageKey → H256) (log : list StorageLogEntry) : StorageKey → H256 :=
  foldl store_write st log.
Fixpoint consistent (st : StorageKey → H256) (log : list StorageLogEntry) : Prop :=
  match log with
  | [] => True
  | e :: log => (le_is_write e = true → le_previous_value e = st (le_key e)) ∧ consistent (store_write st e) log
  end.

Section BalanceLaws.
Context {KA : KeyApi}.

(** What is noted for a key when the storage went from [st0] to [st]. *)
Definition tracked (st0 st : StorageKey → H256) (k : StorageKey) (d : BalanceDiffStaging) : Prop :=
  (bs_balance_before d = None ∧ bs_balance_after d = None ∧ st k = st0 k) ∨
  (bs_balance_before d = Some (st0 k) ∧ bs_balance_after d = Some (st k)).

Lemma note_write_tracked st0 st e m k d :
  (le_is_write e = true → le_previous_value e = st (le_key e)) →
  (∀ k d, m !! k = Some d → tracked st0 st k d) →
  note_write m e !! k = Some d →
  tracked st0 (store_write st e) k d ∧ bs_address <$> m !! k = Some (bs_address d).
Proof.
  intros Hprev Hm. unfold note_write, store_write. destruct (le_is_write e) eqn:Hw; [|intros Hd; rewrite Hd; eauto].
  destruct (decide (k = le_key e)) as [->|Hne].
  - rewrite lookup_alter_eq. intros (d0 & Hd0 & ->)%fmap_Some. rewrite Hd0. split; [|done]. right. cbn.
    rewrite bool_decide_eq_true_2 by done. split; [|done].
    destruct (Hm _ _ Hd0) as [(-> & _ & Hst)|(-> & _)]; [|done]. by rewrite (Hprev eq_refl), Hst.
  - rewrite lookup_alter_ne by done. intros Hd. rewrite Hd. split; [|done]. specialize (Hm _ _ Hd).
    unfold tracked in *. by rewrite bool_decide_eq_false_2.
Qed.

Lemma note_write_dom m e k : is_Some (note_write m e !! k) ↔ is_Some (m !! k).
Proof.
  unfold note_write. destruct (le_is_write e); [|done]. rewrite <- !elem_of_dom, dom_alter_L. done.
Qed.

Lemma log_tracked st0 log st m :
  consistent st log → (∀ k d, m !! k = Some d → tracked st0 st k d) →
  ∀ k, (is_Some (foldl note_write m log !! k) ↔ is_Some (m !! k)) ∧
    ∀ d, foldl note_write m log !! k = Some d →
      tracked st0 (store_after st log) k d ∧ bs_address <$> m !! k = Some (bs_address d).
Proof.
  revert st m. induction log as [|e log IH]; intros st m Hc Hm k; cbn.
  { split; [done|]. intros d Hd. rewrite Hd. eauto. }
  destruct Hc as [Hprev Hc].
  destruct (IH (store_write st e) (note_write m e) Hc) with (k := k) as [Hdom Hd].
  { intros k' d' Hd'. by apply (note_write_tracked st0 st e m k' d'). }
  split; [by rewrite Hdom, note_write_dom|]. intros d Hfd. destruct (Hd d Hfd) as [Ht Ha]. split; [done|].
  apply fmap_Some in Ha as (d1 & Hd1 & ->). by apply (note_write_tracked st0 st e m k d1).
Qed.

(** Different addresses have their balances under different keys. *)
Context {KI : Inj (=) (=) storage_key_for_eth_balance}.

Lemma stagings_lookup addresses k d :
  stagings addresses !! k = Some d ↔
  ∃ a label, addresses !! a = Some label ∧ k = storage_key_for_eth_balance a ∧ d = staging_new a label.
Proof.
  unfold stagings. set (l := _ <$> _).
  assert (Hnd : NoDup l.*1).
  { unfold l. rewrite <- list_fmap_compose.
    replace (_ <$> map_to_list addresses) with (storage_key_for_eth_balance <$> (map_to_list addresses).*1).
    - apply (NoDup_fmap_2 _), NoDup_fst_map_to_list.
    - rewrite <- list_fmap_compose. apply list_fmap_ext. by intros i [a label] _. }
  assert (Hin : ∀ x, (k, x) ∈ l ↔ ∃ a label, addresses !! a = Some label ∧ k = storage_key_for_eth_balance a ∧ x = staging_new a label).
  { intros x. unfold l. rewrite list_elem_of_fmap. split.
    - intros ([a label] & [= -> ->] & Hm%elem_of_map_to_list). eauto.
    - intros (a & label & Hm & -> & ->). exists (a, label). split; [done|]. by apply elem_of_map_to_list. }
  rewrite <- Hin. split; [|by apply lookup_extend_in].
  intros H. destruct (decide (k ∈ l.*1)) as [Hk|Hk].
  - apply list_elem_of_fmap in Hk as ([k' x] & -> & Hx). cbn in *.
    rewrite (lookup_extend_in _ _ _ _ Hnd Hx) in H. by injection H as ->.
  - by rewrite lookup_extend_notin in H.
Qed.

(** What was noted for a watched address. *)
Lemma noted addresses log st k :
  consistent st log →
  let m := foldl note_write (stagings addresses) log in
  (is_Some (m !! k) ↔ is_Some (stagings addresses !! k)) ∧
  ∀ x, m !! k = Some x →
    ∃ a label, addresses !! a = Some label ∧ k = storage_key_for_eth_balance a ∧
      bs_address x = mkLabeledAddress label a ∧ tracked st (store_after st log) k x.
Proof.
  intros Hc m.
  assert (Hm0 : ∀ k d, stagings addresses !! k = Some d → tracked st st k d)
    by (intros k' d (a & label & _ & _ & ->)%stagings_lookup; by left).
  destruct (log_tracked st log st (stagings addresses) Hc Hm0 k) as [Hdom Ht]. split; [done|]. intros x Hx.
  destruct (Ht x Hx) as [Ht' Ha].
  apply fmap_Some in Ha as (d0 & (a & label & Hl & -> & ->)%stagings_lookup & Heq). exists a, label. eauto.
Qed.

Lemma noted_inj addresses log st k x k' x' :
  consistent st log →
  let m := foldl note_write (stagings addresses) log in
  m !! k = Some x → m !! k' = Some x' → bs_address x = bs_address x' → k = k' ∧ x = x'.
Proof.
  intros Hc m Hx Hx' Heq. destruct (noted addresses log st k Hc) as [_ H]. destruct (H x Hx) as (a & l & _ & Hk & Ha & _).
  destruct (noted addresses log st k' Hc) as [_ H']. destruct (H' x' Hx') as (a' & l' & _ & Hk' & Ha' & _).
  rewrite Ha, Ha' in Heq. injection Heq as -> ->. subst k k'. rewrite Hx in Hx'. by injection Hx' as ->.
Qed.

Lemma into_values_elem m x : x ∈ into_values m ↔ ∃ k, m !! k = Some x.
Proof.
  unfold into_values. rewrite merge_sort_Permutation, list_elem_of_fmap. split.
  - intros ([k y] & -> & Hy%elem_of_map_to_list). eauto.
  - intros (k & Hk). exists (k, x). split; [done|]. by apply elem_of_map_to_list.
Qed.

(** C25: the balances that are shown.  For a log whose previous values are right,
    the report has exactly the addresses that are watched, are not system
    contracts and have another balance after the log than before it, once each,
    with these two balances. *)
Theorem balance_diffs_spec (addresses : gmap Address (option string)) (log : list StorageLogEntry)
    (st : StorageKey → H256) :
  consistent st log →
  let before a := st (storage_key_for_eth_balance a) in
  let after a := store_after st log (storage_key_for_eth_balance a) in
  NoDup (extract_balance_diffs addresses log) ∧
  ∀ d, d ∈ extract_balance_diffs addresses log ↔
    ∃ a label, addresses !! a = Some label ∧ is_system a = false ∧ before a ≠ after a ∧
      d = mkBalanceDiff (mkLabeledAddress label a) (before a) (after a).
Proof.
  intros Hc before after. unfold extract_balance_diffs. set (m := foldl _ _ log).
  pose proof (λ k, noted addresses log st k Hc) as Hnoted. pose proof (into_values_elem m) as Hval.
  pose proof (λ k x k' x', noted_inj addresses log st k x k' x' Hc) as Hinj. fold m in Hnoted, Hinj.
  split.
  - apply NoDup_fmap_2_strong.
    + intros x y [_ [_ (k & Hx)%Hval]%list_elem_of_filter]%list_elem_of_filter
        [_ [_ (k' & Hy)%Hval]%list_elem_of_filter]%list_elem_of_filter Heq.
      apply (Hinj _ _ _ _ Hx Hy). by injection Heq.
    + do 2 apply NoDup_filter. unfold into_values. rewrite merge_sort_Permutation. apply NoDup_fmap_2_strong; [|apply NoDup_map_to_list].
      intros [k x] [k' y] Hx%elem_of_map_to_list Hy%elem_of_map_to_list Heq. cbn in Heq. subst y.
      destruct (Hinj _ _ _ _ Hx Hy eq_refl) as [-> _]. done.
  - intros d. rewrite list_elem_of_fmap. split.
    + intros (x & -> & [Hsys [Hne (k & Hx)%Hval]%list_elem_of_filter]%list_elem_of_filter).
      destruct (Hnoted k) as [_ Hk]. destruct (Hk x Hx) as (a & label & Hl & -> & Ha & Ht). exists a, label. rewrite Ha in Hsys.
      destruct Ht as [(Hb & Hf & _)|(Hb & Hf)]; [congruence|]. rewrite Hb, Hf in Hne. unfold diff_of_staging. rewrite Ha, Hb, Hf.
      split_and!; try done. unfold before, after. congruence.
    + intros (a & label & Hl & Hsys & Hne & ->).
      destruct (Hnoted (storage_key_for_eth_balance a)) as [Hdom Hk].
      destruct (proj2 Hdom) as [x Hx]. { eexists. apply stagings_lookup. eauto. }
      destruct (Hk x Hx) as (a' & label' & Hl' & Heq%KI & Ha & Ht). subst a'. rewrite Hl in Hl'. injection Hl' as <-.
      exists x. destruct Ht as [(_ & _ & Heq)|(Hb & Hf)]; [done|]. unfold diff_of_staging. rewrite Ha, Hb, Hf. split; [done|].
      rewrite !list_elem_of_filter, Hval, Ha, Hb, Hf. split_and!; [done|unfold before, after in Hne; congruence|eauto].
Qed.
End BalanceLaws.

(** *** Pubdata *)

(** The bytes a line shows as paid, and their sum over the lines of a slot. *)
Definition payment (p : PubdataBytesInfo) : Z :=
  match p with Paid cost => cost | AdditionalPayment additional _ => additional | FreeSlot | PaidAlready => 0 end.

Definition shown_for (k : StorageKey) (items : list (StorageLogEntry * option PubdataBytesInfo * nat * bool)) : Z :=
  foldr (λ '(e, info, _, _) sum,
           (if bool_decide (le_key e = k) then match info with Some p => payment p | None => 0 end else 0) + sum) 0 items.

Lemma shown_for_cons k e info n b items :
  shown_for k ((e, info, n, b) :: items) =
  (if bool_decide (le_key e = k) then match info with Some p => payment p | None => 0 end else 0) + shown_for k items.
Proof. done. Qed.

Section PubdataLaws.
Context {KA : KeyApi} {PA : PubdataApi}.

(** The costs of the writes to a slot, in order. *)
Definition costs (k : StorageKey) (logs : list StorageLogEntry) : list Z :=
  final_pubdata_cost <$> filter (λ e, le_is_write e = true ∧ le_key e = k) logs.

Lemma final_pubdata_cost_nonneg e : 0 <= final_pubdata_cost e.
Proof.
  unfold final_pubdata_cost, wrapping_add_u32. destruct (bool_decide _); apply Z.mod_pos_bound; lia.
Qed.

Lemma shown_from k total index paid logs :
  is_storage_key_free k = false →
  StronglySorted Z.le (option_list (paid !! k) ++ costs k logs) →
  shown_for k (storage_log_items StorageAll total index paid logs) + default 0 (paid !! k) =
  default (default 0 (paid !! k)) (last (costs k logs)).
Proof.
  intros Hfree. revert index paid. induction logs as [|e logs IH]; intros index paid Hs; cbn [storage_log_items]; [cbn; lia|].
  destruct (le_is_write e) eqn:Hw.
  2:{ assert (Hcs : costs k (e :: logs) = costs k logs) by (unfold costs; rewrite filter_cons_False; [done|by rewrite Hw; intros [? _]]).
      rewrite Hcs in *. cbn [should_print]. rewrite shown_for_cons.
      rewrite <- (IH (S index) paid Hs). destruct (bool_decide _); lia. }
  destruct (decide (le_key e = k)) as [Hk|Hk].
  - assert (Hcs : costs k (e :: logs) = final_pubdata_cost e :: costs k logs)
      by (unfold costs; by rewrite filter_cons_True). rewrite Hcs in *.
    unfold compute_and_update_pubdata_cost. rewrite Hk, Hfree.
    cbn [should_print]. rewrite shown_for_cons. rewrite bool_decide_eq_true_2 by done. clear Hk.
    set (c := final_pubdata_cost e) in *. pose proof (final_pubdata_cost_nonneg e) as Hc. fold c in Hc.
    specialize (IH (S index) (<[k:=c]> paid)). rewrite lookup_insert_eq in IH. cbn [option_list default] in IH.
    rewrite last_cons.
    assert (Hrest : shown_for k (storage_log_items StorageAll total (S index) (<[k:=c]> paid) logs) + c =
                    default c (last (costs k logs))).
    { apply IH. cbn. by destruct (paid !! k); cbn in Hs; inversion Hs. }
    destruct (paid !! k) as [p|]; cbn in Hs |- *.
    + inversion Hs as [|? ? Hs' Hall]; subst. inversion Hall; subst.
      destruct (0 <? _) eqn:Hlt; cbn [payment];
        [apply Z.ltb_lt in Hlt|apply Z.ltb_ge in Hlt]; destruct (last (costs k logs)); cbn in *; lia.
    + cbn [payment]. destruct (last (costs k logs)); cbn in *; lia.
  - assert (Hcs : costs k (e :: logs) = costs k logs) by (unfold costs; rewrite filter_cons_False; [done|by intros [_ ?]]).
    rewrite Hcs in *.
    destruct (compute_and_update_pubdata_cost paid e) as [i paid'] eqn:Hcu. cbn [should_print]. rewrite shown_for_cons.
    rewrite bool_decide_eq_false_2 by done.
    assert (Hp : paid' !! k = paid !! k).
    { unfold compute_and_update_pubdata_cost in Hcu. 
      destruct (is_storage_key_free (le_key e)); simplify_eq; rewrite ?lookup_insert_ne by done; done. }
    rewrite <- Hp in Hs |- *. rewrite <- (IH (S index) paid' Hs). lia.
Qed.

(** The pubdata that is shown as paid for a slot, over all the writes of a
    transaction, is the cost of the last write, when the costs of the writes do
    not decrease. *)
Theorem pubdata_shown_spec k logs :
  is_storage_key_free k = false → StronglySorted Z.le (costs k logs) →
  shown_for k (print_storage_logs_details StorageAll logs) = default 0 (last (costs k logs)).
Proof.
  intros Hfree Hs. unfold print_storage_logs_details.
  pose proof (shown_from k (length logs) 0 ∅ logs Hfree) as H. rewrite lookup_empty in H. cbn [option_list default app] in H.
  rewrite <- (H Hs). lia.
Qed.
End PubdataLaws.

(** *** Call errors *)

(** The flags that are kept are the first that are not empty. *)
Theorem call_error_first {Flags} (is_empty : Flags → bool) (l : list Flags) :
  foldl (call_error_after_decoding is_empty) None l = head (filter (λ f, is_empty f = false) l).
Proof.
  assert (Hkeep : ∀ l x, foldl (call_error_after_decoding is_empty) (Some x) l = Some x).
  { induction l0 as [|y l0 IH]; intros x; [done|]. cbn. unfold call_error_after_decoding at 2. by destruct (is_empty y); cbn. }
  induction l as [|x l IH]; [done|]. cbn [foldl]. unfold call_error_after_decoding at 2.
  destruct (is_empty x) eqn:Hx; cbn [negb].
  - rewrite filter_cons_False by (rewrite Hx; done). done.
  - rewrite filter_cons_True by done. apply Hkeep.
Qed.

(** ** Samples *)
Module SampleDiagnostics.
#[local] Existing Instance SampleKeys.keys.
#[export] Instance balance_key_inj : Inj (=) (=) (storage_key_for_eth_balance (KeyApi := SampleKeys.keys)).
Proof. intros a b H. injection H as ->. reflexivity. Qed.

#[export] Instance pubdata : PubdataApi := {|
  compressed_len previous value := Z.abs (value - previous);
  BYTES_PER_DERIVED_KEY := 32;
  BYTES_PER_ENUMERATION_INDEX := 5;
  BOOTLOADER_ADDRESS := 32769;
  SYSTEM_CONTEXT := 32779;
|}.

Definition write (k : StorageKey) (previous value : Z) : StorageLogEntry := mkLogEntry RepeatedWrite k value previous.

(** Account 7 pays 30 to account 8 and gets 5 back. *)
Definition transfers : list StorageLogEntry :=
  [write (32778, 7) 100 70; write (32778, 8) 0 30; write (32778, 8) 30 25; write (32778, 7) 70 75;
   write (5, 5) 0 1].
Definition balances (k : StorageKey) : Z := if bool_decide (k = (32778, 7)) then 100 else 0.
Definition watched : gmap Address (option string) := {[ 7 := Some "payer"; 8 := None; 9 := None ]}.

Example transfers_consistent : consistent balances transfers.
Proof. repeat split. Qed.

Lemma balance_diffs_witness :
  mkBalanceDiff (mkLabeledAddress (Some "payer") 7) 100 75 ∈ extract_balance_diffs watched transfers ∧
  extract_balance_diffs watched transfers =
    [mkBalanceDiff (mkLabeledAddress (Some "payer") 7) 100 75; mkBalanceDiff (mkLabeledAddress None 8) 0 25].
Proof.
  split; [|vm_compute; reflexivity].
  destruct (balance_diffs_spec watched transfers balances transfers_consistent) as [_ H].
  apply H. exists 7, (Some "payer"). split; [reflexivity|]. split; [vm_compute; reflexivity|].
  split; [vm_compute; discriminate|reflexivity].
Defined.

Definition gas : BootloaderDebug := mkBootloaderDebug 1000 100 10 800 750 300 100 0 0 0 0 0 0 0.

Lemma gas_details_witness :
  ∃ g, compute_gas_details (S := unit) (E := unit) gas 95 tt = Ret g tt ∧ gd_gas_used g = 450 ∧ gd_bytes_published g = 9.
Proof.
  destruct (gas_details_spec (S := unit) (E := unit) gas 95 tt) as [H _]; [cbn; lia..|].
  destruct H as (g & Hg & Hu & _ & Hb); [vm_compute; intuition discriminate|].
  exists g. split; [exact Hg|]. split; [exact Hu|]. cbn in Hb. lia.
Defined.

(** Three writes to one slot: the second is cheaper than what was paid, but it
    is what the third is compared with. *)
Definition slot_writes (a b c : Z) : list StorageLogEntry :=
  [write (5, 5) 0 a; write (5, 5) 0 b; write (5, 5) 0 c].

Example cheaper_write_forgets_payment :
  (λ '(_, info, _, _), info) <$> print_storage_logs_details StorageAll (slot_writes 10 5 10) =
    [Some (Paid 15); Some PaidAlready; Some (AdditionalPayment 5 15)].
Proof. vm_compute. reflexivity. Qed.

Lemma pubdata_shown_witness :
  StronglySorted Z.le (costs (5, 5) (slot_writes 3 7 7)) ∧
  shown_for (5, 5) (print_storage_logs_details StorageAll (slot_writes 3 7 7)) = 12.
Proof.
  assert (H : StronglySorted Z.le (costs (5, 5) (slot_writes 3 7 7))).
  { vm_compute. repeat constructor; discriminate. }
  split; [exact H|]. exact (pubdata_shown_spec (5, 5) (slot_writes 3 7 7) eq_refl H).
Defined.

(** Flags of a later frame do not replace those of an earlier one. *)
Example first_flags_kept : foldl (call_error_after_decoding (λ f : Z, f =? 0)) None [0; 4; 8] = Some 4.
Proof. reflexivity. Qed.
End SampleDiagnostics.
