(* ===== verification/SystemContracts.v ===== *)
(** * System contracts

    [crates/core/src/deps/system_contracts.rs], the contracts that are deployed at
    the start and the code that is built in for every protocol version, and
    [crates/core/src/system_contracts.rs], the bootloaders and accounts for the
    different ways to run a transaction ([contracts] and its users are in
    [Inner]).

    The archives with the built-in code are files of the repository; their
    directories are written out here, and the contents of their files, the
    JSON parser and the repository of contracts on disk are arguments. *)
From S2P Require Import Prelude Types Text Storage Inner Config ErrorDefs.
Local Open Scope string_scope.
Local Open Scope list_scope.
Local Open Scope Z_scope.

(** ** The built-in archives *)
Definition V26 : Z := 26.
Definition V27 : Z := 27.
Definition V28 : Z := 28.

(** The files of [builtin-contracts-v26.tar.gz], and those that version 27 and
    version 28 add. *)
Definition archive_v26 : list string :=
  ["AccountCodeStorage.json"; "BootloaderUtilities.json"; "Bridgehub.json"; "CodeOracle.json";
   "ComplexUpgrader.json"; "Compressor.json"; "ContractDeployer.json"; "Create2Factory.json";
   "DefaultAccount.json"; "DefaultAccountNoSecurity.json"; "EcAdd.json"; "EcMul.json"; "EcPairing.json";
   "Ecrecover.json"; "EmptyContract.json"; "EventWriter.json"; "ImmutableSimulator.json"; "Keccak256.json";
   "KnownCodesStorage.json"; "L1Messenger.json"; "L2AssetRouter.json"; "L2BaseToken.json";
   "L2GenesisUpgrade.json"; "L2NativeTokenVault.json"; "L2WrappedBaseToken.json"; "MessageRoot.json";
   "MsgValueSimulator.json"; "NonceHolder.json"; "P256Verify.json"; "PubdataChunkPublisher.json";
   "SHA256.json"; "SloadContract.json"; "SystemContext.json"; "TimestampAsserter.json"; "fee_estimate.json";
   "fee_estimate_impersonating.json"; "gas_test.json"; "playground_batch.json"; "proved_batch.json";
   "proved_batch_impersonating.json"].
Definition archive_added_v27 : list string :=
  ["EvmEmulator.json"; "EvmGasManager.json"; "EvmHashesStorage.json"; "EvmPredeploysManager.json";
   "Identity.json"].
Definition archive_added_v28 : list string :=
  ["Modexp.json"].

Definition BUILTIN_CONTRACT_ARCHIVES : list (Z * list string) :=
  [(V26, archive_v26); (V27, archive_v26 ++ archive_added_v27);
   (V28, archive_v26 ++ archive_added_v27 ++ archive_added_v28)].

Inductive ContractLanguage := Sol | Yul.

Class ArtifactApi := {
  (** the contents of a file of the archive of a version *)
  artifact_contents : Z → string → Bytes;
  (** [serde_json::from_slice] *)
  parse_json : Bytes → option Json;
  (** [SystemContractsRepo::read_sys_contract_bytecode] of a repository *)
  repo_read : string → string → string → option string → ContractLanguage → Bytes;
  (** [SystemContractsRepo::default().root] *)
  default_repo_root : string;
  (** the free function [read_sys_contract_bytecode] *)
  read_sys_contract_bytecode : string → string → ContractLanguage → Bytes;
  get_system_smart_contracts_from_dir : string → list (Address * Bytes);
  get_system_smart_contracts : list (Address * Bytes);
  (** [ProtocolVersionId::latest] *)
  latest_version : Z;
  (** the addresses of system contracts that [zksync_types] defines *)
  const_address : string → Address;
}.

Section Contracts.
Context {AA : ArtifactApi} {KA : KeyApi}.

Definition BUILTIN_CONTRACT_ARTIFACTS : gmap Z (gmap string Bytes) :=
  extend ∅ ((λ '(v, files), (v, extend ∅ ((λ f, (f, artifact_contents v f)) <$> files))) <$> BUILTIN_CONTRACT_ARCHIVES).

(** [fields.get(key)], and [artifact[key]], which is [Null] where there is none *)
Definition json_get (key : string) (fields : list (string * Json)) : option Json :=
  (λ f, f.2.2) <$> list_find (λ f, f.1 = key) fields.
Definition json_index (key : string) (v : Json) : Json :=
  match v with
  | JObject fields => default JNull (json_get key fields)
  | _ => JNull
  end.

Section Loading.
Context {S E : Type}.

Definition bytecode_from_slice (artifact_name : string) (contents : Bytes) : M S E Bytes :=
  artifact ← expect artifact_name (parse_json contents);
  fields ← expect ("Bytecode not found in " +:+ artifact_name) (as_object (json_index "bytecode" artifact));
  object ← expect ("Bytecode object not found in " +:+ artifact_name) (json_get "object" fields);
  text ← expect ("Bytecode object is not a string in " +:+ artifact_name) (match object with JString s => Some s | _ => None end);
  match hex_decode text with
  | Ok bytes => mret bytes
  | Err _ => panic ("Can't decode bytecode in " +:+ artifact_name)
  end.

Definition not_supported (protocol_version : Z) : string :=
  "protocol version '" +:+ dec protocol_version +:+ "' is not supported".

Definition load_builtin_contract (protocol_version : Z) (artifact_name : string) : M S E Bytes :=
  let artifact_path := artifact_name +:+ ".json" in
  files ← expect (not_supported protocol_version) (BUILTIN_CONTRACT_ARTIFACTS !! protocol_version);
  contents ← expect ("failed to find built-in contract artifact at '" +:+ artifact_path +:+ "'") (files !! artifact_path);
  bytecode_from_slice artifact_name contents.
End Loading.

(** ** Where the contracts are *)
Definition TIMESTAMP_ASSERTER_ADDRESS : Address := 0x808012.

Definition BUILTIN_CONTRACT_LOCATIONS : list (string * Address * Z) :=
  [("AccountCodeStorage", const_address "ACCOUNT_CODE_STORAGE_ADDRESS", V26);
   ("NonceHolder", const_address "NONCE_HOLDER_ADDRESS", V26);
   ("KnownCodesStorage", const_address "KNOWN_CODES_STORAGE_ADDRESS", V26);
   ("ImmutableSimulator", const_address "IMMUTABLE_SIMULATOR_STORAGE_ADDRESS", V26);
   ("ContractDeployer", const_address "CONTRACT_DEPLOYER_ADDRESS", V26);
   ("L1Messenger", const_address "L1_MESSENGER_ADDRESS", V26);
   ("MsgValueSimulator", const_address "MSG_VALUE_SIMULATOR_ADDRESS", V26);
   ("L2BaseToken", const_address "L2_BASE_TOKEN_ADDRESS", V26);
   ("SystemContext", const_address "SYSTEM_CONTEXT_ADDRESS", V26);
   ("BootloaderUtilities", const_address "BOOTLOADER_UTILITIES_ADDRESS", V26);
   ("EventWriter", const_address "EVENT_WRITER_ADDRESS", V26);
   ("Compressor", const_address "COMPRESSOR_ADDRESS", V26);
   ("ComplexUpgrader", const_address "COMPLEX_UPGRADER_ADDRESS", V26);
   ("PubdataChunkPublisher", const_address "PUBDATA_CHUNK_PUBLISHER_ADDRESS", V26);
   ("EvmGasManager", const_address "EVM_GAS_MANAGER_ADDRESS", V27);
   ("EvmPredeploysManager", const_address "EVM_PREDEPLOYS_MANAGER_ADDRESS", V27);
   ("EvmHashesStorage", const_address "EVM_HASHES_STORAGE_ADDRESS", V27);
   ("Keccak256", const_address "KECCAK256_PRECOMPILE_ADDRESS", V26);
   ("SHA256", const_address "SHA256_PRECOMPILE_ADDRESS", V26);
   ("Ecrecover", const_address "ECRECOVER_PRECOMPILE_ADDRESS", V26);
   ("EcAdd", const_address "EC_ADD_PRECOMPILE_ADDRESS", V26);
   ("EcMul", const_address "EC_MUL_PRECOMPILE_ADDRESS", V26);
   ("EcPairing", const_address "EC_PAIRING_PRECOMPILE_ADDRESS", V26);
   ("CodeOracle", const_address "CODE_ORACLE_ADDRESS", V26);
   ("P256Verify", const_address "SECP256R1_VERIFY_PRECOMPILE_ADDRESS", V26);
   ("Identity", const_address "IDENTITY_ADDRESS", V27);
   ("Modexp", const_address "MODEXP_PRECOMPILE_ADDRESS", V28);
   ("TimestampAsserter", TIMESTAMP_ASSERTER_ADDRESS, V26);
   ("EmptyContract", 0, V26);
   ("EmptyContract", const_address "BOOTLOADER_ADDRESS", V26)].

Definition NON_KERNEL_CONTRACT_LOCATIONS : list (string * Address * Z) :=
  [("Create2Factory", const_address "CREATE2_FACTORY_ADDRESS", V26);
   ("L2GenesisUpgrade", const_address "L2_GENESIS_UPGRADE_ADDRESS", V26);
   ("Bridgehub", const_address "L2_BRIDGEHUB_ADDRESS", V26);
   ("L2AssetRouter", const_address "L2_ASSET_ROUTER_ADDRESS", V26);
   ("L2NativeTokenVault", const_address "L2_NATIVE_TOKEN_VAULT_ADDRESS", V26);
   ("MessageRoot", const_address "L2_MESSAGE_ROOT_ADDRESS", V26);
   ("SloadContract", const_address "SLOAD_CONTRACT_ADDRESS", V26);
   ("L2WrappedBaseToken", const_address "L2_WRAPPED_BASE_TOKEN_IMPL", V26)].

(** ** The deployed contracts *)
Section Deployed.
Context {S E : Type}.

(** The contracts of a list of locations that the version has. *)
Definition load_locations (protocol_version : Z) (locations : list (string * Address * Z)) : M S E (list (Address * Bytes)) :=
  map_m (λ '(artifact_name, address, _),
           bytecode ← load_builtin_contract protocol_version artifact_name;
           mret (address, bytecode))
    (filter (λ '(_, _, min_version), min_version <= protocol_version) locations).

(** All versions are loaded when one is asked for. *)
Definition BUILTIN_CONTRACTS : M S E (gmap Z (list (Address * Bytes))) :=
  loaded ← map_m (λ '(protocol_version, _),
                    kernel ← load_locations protocol_version BUILTIN_CONTRACT_LOCATIONS;
                    non_kernel ← load_locations protocol_version NON_KERNEL_CONTRACT_LOCATIONS;
                    mret (protocol_version, kernel ++ non_kernel))
             BUILTIN_CONTRACT_ARCHIVES;
  mret (extend ∅ loaded).

Definition get_deployed_contracts (options : SystemContractsOptions) (protocol_version : Z)
    (system_contracts_path : option string) : M S E (list (Address * Bytes)) :=
  match options with
  | BuiltIn | BuiltInWithoutSecurity =>
      all ← BUILTIN_CONTRACTS;
      expect (not_supported protocol_version) (all !! protocol_version)
  | LocalContracts =>
      mret (match system_contracts_path with
            | Some path => get_system_smart_contracts_from_dir path
            | None => get_system_smart_contracts
            end)
  end.

(** ** Bootloaders *)
Definition bsc_load_with_bootloader (bootloader_bytecode : Bytes) (options : SystemContractsOptions)
    (protocol_version : Z) (use_evm_emulator : bool) (system_contracts_path : string) : M S E BaseSystemContracts :=
  aa_bytecode ← match options with
                | BuiltIn => load_builtin_contract protocol_version "DefaultAccount"
                | LocalContracts => mret (repo_read system_contracts_path "" "DefaultAccount" None Sol)
                | BuiltInWithoutSecurity => load_builtin_contract protocol_version "DefaultAccountNoSecurity"
                end;
  evm_emulator ← (if use_evm_emulator then
                    bytecode ← match options with
                               | LocalContracts => mret (read_sys_contract_bytecode "" "EvmEmulator" Yul)
                               | BuiltIn | BuiltInWithoutSecurity => load_builtin_contract protocol_version "EvmEmulator"
                               end;
                    mret (Some bytecode)
                  else mret None);
  mret (mkSystemContracts (bootloader_bytecode, aa_bytecode, evm_emulator)
          (mkContractHashes (hash_for_bytecode bootloader_bytecode) (hash_for_bytecode aa_bytecode)
             (hash_for_bytecode <$> evm_emulator))).

(** [playground], [fee_estimate_contracts], [baseline_contracts] and their
    variants for impersonated accounts: the names of their bootloaders, built in
    and on disk *)
Definition load_with (builtin_name local_name : string) (options : SystemContractsOptions) (protocol_version : Z)
    (use_evm_emulator : bool) (system_contracts_path : string) : M S E BaseSystemContracts :=
  bootloader_bytecode ← match options with
                        | BuiltIn | BuiltInWithoutSecurity => load_builtin_contract protocol_version builtin_name
                        | LocalContracts => mret (repo_read system_contracts_path "bootloader" local_name (Some "Bootloader") Yul)
                        end;
  bsc_load_with_bootloader bootloader_bytecode options protocol_version use_evm_emulator system_contracts_path.

Definition load_playground := load_with "playground_batch" "playground_batch".
Definition load_fee_estimate_contracts := load_with "fee_estimate" "fee_estimate".
Definition load_fee_estimate_impersonating_contracts := load_with "fee_estimate_impersonating" "fee_estimate".
Definition load_baseline_contracts := load_with "proved_batch" "proved_batch".
Definition load_baseline_impersonating_contracts := load_with "proved_batch_impersonating" "proved_batch".

(** [SystemContracts::from_options] *)
Definition from_options (options : SystemContractsOptions) (system_contracts_path : option string)
    (protocol_version : Z) (use_evm_emulator use_boojum : bool) : M S E SystemContracts :=
  let path := default default_repo_root system_contracts_path in
  baseline ← load_baseline_contracts options protocol_version use_evm_emulator path;
  playground ← load_playground options protocol_version use_evm_emulator path;
  fee_estimate ← load_fee_estimate_contracts options protocol_version use_evm_emulator path;
  baseline_impersonating ← load_baseline_impersonating_contracts options protocol_version use_evm_emulator path;
  fee_estimate_impersonating ← load_fee_estimate_impersonating_contracts options protocol_version use_evm_emulator path;
  mret (mkContracts protocol_version baseline playground fee_estimate baseline_impersonating
          fee_estimate_impersonating use_evm_emulator use_boojum).
End Deployed.

(** ** The builder *)
Record SystemContractsBuilder := mkBuilder {
  bu_system_contracts_options : option SystemContractsOptions;
  bu_system_contracts_path : option string;
  bu_protocol_version : option Z;
  bu_use_evm_interpreter : bool;
  bu_use_boojum : bool;
}.

Definition builder_new : SystemContractsBuilder := mkBuilder None None None false false.
Definition builder_options (o : SystemContractsOptions) (b : SystemContractsBuilder) : SystemContractsBuilder :=
  mkBuilder (Some o) (bu_system_contracts_path b) (bu_protocol_version b) (bu_use_evm_interpreter b) (bu_use_boojum b).
Definition builder_path (p : option string) (b : SystemContractsBuilder) : SystemContractsBuilder :=
  mkBuilder (bu_system_contracts_options b) p (bu_protocol_version b) (bu_use_evm_interpreter b) (bu_use_boojum b).
Definition builder_protocol_version (v : Z) (b : SystemContractsBuilder) : SystemContractsBuilder :=
  mkBuilder (bu_system_contracts_options b) (bu_system_contracts_path b) (Some v) (bu_use_evm_interpreter b) (bu_use_boojum b).
Definition builder_evm_interpreter (f : bool) (b : SystemContractsBuilder) : SystemContractsBuilder :=
  mkBuilder (bu_system_contracts_options b) (bu_system_contracts_path b) (bu_protocol_version b) f (bu_use_boojum b).
Definition builder_boojum (f : bool) (b : SystemContractsBuilder) : SystemContractsBuilder :=
  mkBuilder (bu_system_contracts_options b) (bu_system_contracts_path b) (bu_protocol_version b) (bu_use_evm_interpreter b) f.

(** [SystemContractsBuilder::build] *)
Definition build {S E} (b : SystemContractsBuilder) : M S E SystemContracts :=
  options ← expect "SystemContractsOptions must be provided" (bu_system_contracts_options b);
  from_options options (bu_system_contracts_path b) (default latest_version (bu_protocol_version b))
    (bu_use_evm_interpreter b) (bu_use_boojum b).

(** ** Theorems *)

(** Every file of the archives holds a bytecode. *)
Class WellFormedArtifacts := {
  artifact_code : Z → string → Bytes;
  artifacts_decode {S E} v name files (s : S) :
    (v, files) ∈ BUILTIN_CONTRACT_ARCHIVES → name +:+ ".json" ∈ files →
    bytecode_from_slice (E := E) name (artifact_contents v (name +:+ ".json")) s = Ret (artifact_code v name) s;
}.

(** The files of the archive of a version. *)
Definition archive_of (v : Z) : list string :=
  if v =? 26 then archive_v26 else if v =? 27 then archive_v26 ++ archive_added_v27
  else if v =? 28 then archive_v26 ++ archive_added_v27 ++ archive_added_v28 else [].

Definition builtin_version (v : Z) : bool := (26 <=? v) && (v <=? 28).

Lemma artifacts_lookup v :
  BUILTIN_CONTRACT_ARTIFACTS !! v =
  if builtin_version v then Some (extend ∅ ((λ f, (f, artifact_contents v f)) <$> archive_of v)) else None.
Proof.
  unfold BUILTIN_CONTRACT_ARTIFACTS, BUILTIN_CONTRACT_ARCHIVES. cbn [fmap list_fmap extend foldl fst snd].
  destruct (decide (v = 26)) as [->|?]; [done|]. destruct (decide (v = 27)) as [->|?]; [done|].
  destruct (decide (v = 28)) as [->|?]; [done|].
  rewrite !lookup_insert_ne, lookup_empty by (unfold V26, V27, V28; lia). unfold builtin_version.
  destruct (Z.leb_spec 26 v), (Z.leb_spec v 28); [exfalso; lia|reflexivity..].
Qed.

Lemma extend_tabulate {A} (g : string → A) (l : list string) (m : gmap string A) k :
  extend m ((λ f, (f, g f)) <$> l) !! k = if decide (k ∈ l) then Some (g k) else m !! k.
Proof.
  revert m. induction l as [|f l IH]; intros m; [done|].
  cbn [fmap list_fmap]. change (extend m _) with (extend (<[f := g f]> m) ((λ f, (f, g f)) <$> l)).
  rewrite IH. destruct (decide (k ∈ l)) as [Hk|Hk].
  - by rewrite decide_True by (by right).
  - destruct (decide (k = f)) as [->|Hne].
    + rewrite decide_True by (by left). apply lookup_insert_eq.
    + rewrite decide_False by (by intros [->|?]%elem_of_cons). by apply lookup_insert_ne.
Qed.

Lemma archive_of_listed v : builtin_version v = true → (v, archive_of v) ∈ BUILTIN_CONTRACT_ARCHIVES.
Proof.
  unfold builtin_version. intros [?%Z.leb_le ?%Z.leb_le]%andb_prop.
  assert (v = 26 ∨ v = 27 ∨ v = 28) as [->|[->| ->]] by lia; repeat constructor.
Qed.

(** The first archive is part of the others. *)
Lemma archive_v26_sub v f : builtin_version v = true → f ∈ archive_v26 → f ∈ archive_of v.
Proof.
  unfold builtin_version. intros [?%Z.leb_le ?%Z.leb_le]%andb_prop Hf.
  assert (v = 26 ∨ v = 27 ∨ v = 28) as [->|[->| ->]] by lia; unfold archive_of; cbn [Z.eqb Pos.eqb];
    rewrite ?elem_of_app; auto.
Qed.

Section Built.
Context {WF : WellFormedArtifacts} {S E : Type}.

Lemma load_builtin_spec v name (s : S) :
  load_builtin_contract (E := E) v name s =
  if builtin_version v then
    if decide (name +:+ ".json" ∈ archive_of v) then Ret (artifact_code v name) s
    else Panic ("failed to find built-in contract artifact at '" +:+ (name +:+ ".json") +:+ "'")
  else Panic (not_supported v).
Proof.
  unfold load_builtin_contract. rewrite artifacts_lookup.
  destruct (builtin_version v) eqn:Hv; [|done]. unfold mbind at 1, M_bind at 1. cbn.
  rewrite extend_tabulate, lookup_empty. destruct (decide _) as [Hin|]; [|done]. cbn.
  apply artifacts_decode with (archive_of v); [by apply archive_of_listed|done].
Qed.

Lemma load_basic v name (s : S) :
  builtin_version v = true → bool_decide (name +:+ ".json" ∈ archive_v26) = true →
  load_builtin_contract (E := E) v name s = Ret (artifact_code v name) s.
Proof.
  intros Hv Hn%bool_decide_eq_true. rewrite load_builtin_spec, Hv.
  by rewrite decide_True by (by apply archive_v26_sub).
Qed.

(** Every location that a version has names a file of its archive. *)
Lemma locations_in_archive v name a m :
  builtin_version v = true → (name, a, m) ∈ BUILTIN_CONTRACT_LOCATIONS ++ NON_KERNEL_CONTRACT_LOCATIONS → m <= v →
  name +:+ ".json" ∈ archive_of v.
Proof.
  unfold builtin_version. intros [?%Z.leb_le ?%Z.leb_le]%andb_prop Hin Hm.
  set (names := (λ l : string * Address * Z, (l.1.1, l.2)) <$> BUILTIN_CONTRACT_LOCATIONS ++ NON_KERNEL_CONTRACT_LOCATIONS).
  assert ((name, m) ∈ names) as Hn by (apply list_elem_of_fmap; by exists (name, a, m)).
  assert (bool_decide (Forall (λ l, l.2 <= v → l.1 +:+ ".json" ∈ archive_of v) names) = true) as Hall%bool_decide_eq_true.
  { assert (v = 26 ∨ v = 27 ∨ v = 28) as [->|[->| ->]] by lia; vm_compute; reflexivity. }
  by apply (proj1 (Forall_forall _ _) Hall (name, m)).
Qed.

(** The contracts of the locations [locations] that version [v] has. *)
Definition located (v : Z) (locations : list (string * Address * Z)) : list (Address * Bytes) :=
  (λ '(name, address, _), (address, artifact_code v name)) <$> filter (λ '(_, _, m), m <= v) locations.

Lemma load_locations_spec v locations (s : S) :
  builtin_version v = true → locations ⊆ BUILTIN_CONTRACT_LOCATIONS ++ NON_KERNEL_CONTRACT_LOCATIONS →
  load_locations (E := E) v locations s = Ret (located v locations) s.
Proof.
  intros Hv Hsub. apply map_m_ret. intros [[n a] m] [? Hin]%list_elem_of_filter.
  erewrite bind_run; [done|]. rewrite load_builtin_spec, Hv.
  by rewrite decide_True by (eapply locations_in_archive; eauto).
Qed.

Lemma builtin_contracts_run (s : S) :
  BUILTIN_CONTRACTS (E := E) s =
  Ret (extend ∅ ((λ a, (a.1, located a.1 BUILTIN_CONTRACT_LOCATIONS ++ located a.1 NON_KERNEL_CONTRACT_LOCATIONS))
                 <$> BUILTIN_CONTRACT_ARCHIVES)) s.
Proof.
  unfold BUILTIN_CONTRACTS. erewrite bind_run; [reflexivity|]. apply map_m_ret. intros [v files] Hin.
  assert (builtin_version v = true) as Hv.
  { apply list_elem_of_fmap_2 with (f := fst) in Hin. cbn in Hin. rewrite !elem_of_cons, elem_of_nil in Hin.
    by destruct Hin as [->|[->|[->|[]]]]. }
  do 2 (erewrite bind_run; [|apply load_locations_spec; [done|intros ? ?; rewrite elem_of_app; auto]]). done.
Qed.

(** With built-in contracts, every version from 26 to 28 has all of its
    contracts, each at the address and with the code of its artifact, and the
    list of no other version is given: the call panics. *)
Theorem builtin_contracts_load options v path (s : S) :
  options ≠ LocalContracts →
  get_deployed_contracts (E := E) options v path s =
  if builtin_version v then Ret (located v (BUILTIN_CONTRACT_LOCATIONS ++ NON_KERNEL_CONTRACT_LOCATIONS)) s
  else Panic (not_supported v).
Proof.
  intros Hlocal.
  transitivity ((all ← BUILTIN_CONTRACTS; expect (E := E) (not_supported v) (all !! v)) s); [by destruct options|].
  rewrite (bind_run _ _ _ _ _ (builtin_contracts_run s)). unfold BUILTIN_CONTRACT_ARCHIVES.
  cbn [fmap list_fmap extend foldl fst snd]. unfold located. rewrite filter_app, fmap_app.
  destruct (decide (v = 26)) as [->|?]; [done|]. destruct (decide (v = 27)) as [->|?]; [done|].
  destruct (decide (v = 28)) as [->|?]; [done|].
  rewrite !lookup_insert_ne, lookup_empty by (unfold V26, V27, V28; lia). unfold builtin_version.
  destruct (Z.leb_spec 26 v), (Z.leb_spec v 28); [exfalso; lia|reflexivity..].
Qed.

(** ** What the builder makes *)
Definition with_code (bootloader account : Bytes) (emulator : option Bytes) : BaseSystemContracts :=
  mkSystemContracts (bootloader, account, emulator)
    (mkContractHashes (hash_for_bytecode bootloader) (hash_for_bytecode account) (hash_for_bytecode <$> emulator)).

(** The contracts of a version when the code of each is known. *)
Definition assembled (bootloader : string → Bytes) (account emulator : Bytes) (v : Z) (evm boojum : bool) : SystemContracts :=
  let base name := with_code (bootloader name) account (if evm then Some emulator else None) in
  mkContracts v (base "proved_batch") (base "playground_batch") (base "fee_estimate")
    (base "proved_batch_impersonating") (base "fee_estimate_impersonating") evm boojum.

Definition account_name (options : SystemContractsOptions) : string :=
  match options with BuiltInWithoutSecurity => "DefaultAccountNoSecurity" | _ => "DefaultAccount" end.

Lemma load_emulator v (s : S) :
  builtin_version v = true →
  load_builtin_contract (E := E) v "EvmEmulator" s =
  if v =? 26 then Panic "failed to find built-in contract artifact at 'EvmEmulator.json'"
  else Ret (artifact_code v "EvmEmulator") s.
Proof.
  intros Hv. rewrite load_builtin_spec, Hv. apply andb_prop in Hv as [?%Z.leb_le ?%Z.leb_le].
  assert (v = 26 ∨ v = 27 ∨ v = 28) as [->|[->| ->]] by lia; [rewrite decide_False|rewrite decide_True..];
    try reflexivity; apply (bool_decide_unpack _); by vm_compute.
Qed.

Lemma with_bootloader_spec bootloader options v (evm : bool) path (s : S) :
  options ≠ LocalContracts → builtin_version v = true →
  bsc_load_with_bootloader (E := E) bootloader options v evm path s =
  if evm && (v =? 26) then Panic "failed to find built-in contract artifact at 'EvmEmulator.json'"
  else Ret (with_code bootloader (artifact_code v (account_name options))
              (if evm then Some (artifact_code v "EvmEmulator") else None)) s.
Proof.
  intros Hlocal Hv. unfold bsc_load_with_bootloader.
  rewrite (bind_run _ _ s (artifact_code v (account_name options)) s)
    by (destruct options; try done; by apply load_basic).
  destruct evm; [|done]. cbn [andb]. unfold mbind, M_bind.
  destruct options; try done; rewrite (load_emulator v s Hv); by destruct (v =? 26).
Qed.

Lemma load_with_spec builtin_name local_name options v (evm : bool) path (s : S) :
  options ≠ LocalContracts → bool_decide (builtin_name +:+ ".json" ∈ archive_v26) = true →
  load_with (E := E) builtin_name local_name options v evm path s =
  if builtin_version v then
    if evm && (v =? 26) then Panic "failed to find built-in contract artifact at 'EvmEmulator.json'"
    else Ret (with_code (artifact_code v builtin_name) (artifact_code v (account_name options))
                (if evm then Some (artifact_code v "EvmEmulator") else None)) s
  else Panic (not_supported v).
Proof.
  intros Hlocal Hname. unfold load_with. destruct (builtin_version v) eqn:Hv.
  - rewrite (bind_run _ _ s (artifact_code v builtin_name) s) by (destruct options; try done; by apply load_basic).
    by apply with_bootloader_spec.
  - unfold mbind, M_bind. destruct options; try done; by rewrite load_builtin_spec, Hv.
Qed.

Lemma from_options_spec options path v (evm boojum : bool) (s : S) :
  options ≠ LocalContracts →
  from_options (E := E) options path v evm boojum s =
  if builtin_version v then
    if evm && (v =? 26) then Panic "failed to find built-in contract artifact at 'EvmEmulator.json'"
    else Ret (assembled (artifact_code v) (artifact_code v (account_name options)) (artifact_code v "EvmEmulator")
                v evm boojum) s
  else Panic (not_supported v).
Proof.
  intros Hlocal. unfold from_options, load_baseline_contracts, load_playground, load_fee_estimate_contracts,
    load_baseline_impersonating_contracts, load_fee_estimate_impersonating_contracts.
  destruct (builtin_version v) eqn:Hv; [destruct (evm && (v =? 26)) eqn:He|].
  - unfold mbind at 1, M_bind at 1. by rewrite load_with_spec, Hv, He.
  - repeat (erewrite bind_run; [|rewrite load_with_spec, Hv, He by done; reflexivity]). done.
  - unfold mbind at 1, M_bind at 1. by rewrite load_with_spec, Hv.
Qed.

(** What the contracts on disk give; the emulator comes from the repository of
    the home directory, whatever the path is. *)
Definition local_contracts (path : string) (v : Z) (evm boojum : bool) : SystemContracts :=
  let bootloader name := repo_read path "bootloader" name (Some "Bootloader") Yul in
  let base name := with_code (bootloader name) (repo_read path "" "DefaultAccount" None Sol)
                     (if evm then Some (read_sys_contract_bytecode "" "EvmEmulator" Yul) else None) in
  mkContracts v (base "proved_batch") (base "playground_batch") (base "fee_estimate")
    (base "proved_batch") (base "fee_estimate") evm boojum.


(** What can be relied on when the builder returns. *)
Lemma build_Ret (b : SystemContractsBuilder) (s : S) sc s' :
  build (E := E) b s = Ret sc s' →
  s' = s ∧ sc_protocol_version sc = default latest_version (bu_protocol_version b) ∧
  use_boojum sc = bu_use_boojum b ∧
  (bu_system_contracts_options b ≠ Some LocalContracts → builtin_version (sc_protocol_version sc) = true).
Proof.
  unfold build. intros (options & s1 & Ho & H)%bind_Ret.
  destruct (bu_system_contracts_options b) as [o|]; [|done]. injection Ho as -> <-.
  destruct (decide (options = LocalContracts)) as [->|Hl].
  { by destruct (bu_use_evm_interpreter b); injection H as <- <-. }
  rewrite from_options_spec in H by done. destruct (builtin_version _) eqn:Hv; [|done].
  destruct (_ && _); [done|]. by injection H as <- <-.
Qed.
End Built.

(** Loading the deployed contracts does not depend on the state. *)
Lemma deployed_Ret {WF : WellFormedArtifacts} {S E S' E'} options v path (s : S) contracts s' (t : S') :
  get_deployed_contracts (E := E) options v path s = Ret contracts s' →
  s' = s ∧ get_deployed_contracts (E := E') options v path t = Ret contracts t.
Proof.
  destruct (decide (options = LocalContracts)) as [->|Hl].
  { by intros [= <- <-]. }
  rewrite !builtin_contracts_load by done. by destruct (builtin_version v); intros [= <- <-].
Qed.
End Contracts.

(** ** A small instance *)
Module SampleArtifacts.
#[local] Existing Instance SampleKeys.keys.
(** Every artifact holds one word of code that names the version. *)
Definition sample_json : Json := JObject [("bytecode", JObject [("object", JString "001b")])].

#[local] Instance sample_artifacts : ArtifactApi := {|
  artifact_contents v _ := [v];
  parse_json _ := Some sample_json;
  repo_read root _ _ _ _ := [Z.of_nat (String.length root)];
  default_repo_root := "contracts";
  read_sys_contract_bytecode _ _ _ := [6];
  get_system_smart_contracts_from_dir _ := [(1, [5])];
  get_system_smart_contracts := [(1, [6])];
  latest_version := 28;
  const_address name := Z.of_nat (String.length name);
|}.

#[local] Instance sample_well_formed : WellFormedArtifacts.
Proof. by exists (λ _ _, [0; 27]). Defined.

Definition sample_builder (v : Z) (evm : bool) : SystemContractsBuilder :=
  builder_evm_interpreter evm (builder_protocol_version v (builder_options BuiltInWithoutSecurity builder_new)).


(** Version 26 has 25 of the kernel contracts and the 8 others. *)
Lemma builtin_contracts_witness :
  ∃ contracts, get_deployed_contracts (E := unit) BuiltIn 26 None tt = Ret contracts tt ∧ length contracts = 33%nat ∧
    get_deployed_contracts (E := unit) BuiltIn 29 None tt = Panic "protocol version '29' is not supported".
Proof.
  eexists. split; [exact (builtin_contracts_load BuiltIn 26 None tt ltac:(discriminate))|]. split; [reflexivity|].
  exact (builtin_contracts_load BuiltIn 29 None tt ltac:(discriminate)).
Defined.

(** The path of the contracts on disk is not used for the emulator. *)
Example emulator_ignores_path :
  ∃ built, build (E := unit) (builder_evm_interpreter true (builder_path (Some "mine") (builder_options LocalContracts builder_new))) tt =
    Ret built tt ∧
  bsc_code (playground_contracts built) = ([4], [4], Some (read_sys_contract_bytecode "" "EvmEmulator" Yul)).
Proof. eexists. split; reflexivity. Qed.
End SampleArtifacts.
