(* ===== verification/BatchThread.v ===== *)
(** * The thread of a batch

    [crates/core/src/node/batch/factory.rs] and [executor.rs]: the VM of a batch
    runs in a thread of its own, which serves the commands of a
    [MainBatchExecutor] one by one; what the commands do to the VM is in
    [VmRunner].  Here are the choice of the VM ([BatchVm]), the tracers it is
    given, and the protocol of the two tasks as a step relation: the command
    channel, the channel of each answer, and the ways the thread can end.

    The legacy and the fast VM are arguments.  BoojumOS is in the repository
    ([boojumos.rs]), but its constructor and every operation are [todo!()]: there
    is no such VM, and making one panics. *)
From S2P Require Import Prelude Types Utils Text Filters Impersonate Time Pool Cache Fork Storage.
From S2P Require Import FeeModel Blockchain Inner Sealing VmRunner Running.
Local Open Scope string_scope.
Local Open Scope list_scope.
Local Open Scope Z_scope.

(** ** The VM of a batch *)
Inductive FastVmMode := ModeOld | ModeNew | ModeShadow.

(** The tracers of [inspect_transaction], in the order they are pushed. *)
Inductive LegacyTracer := TraceCallTracer | TraceBootloaderDebug | TraceCallErrors.

#[export] Instance LegacyTracer_eq_dec : EqDecision LegacyTracer.
Proof. solve_decision. Defined.

(** What a VM of the [zksync_multivm] crate can do, whichever it is. *)
Class VmInstance (S : Type) := {
  inst : Type;
  inst_make_snapshot : inst → inst;
  inst_rollback : inst → option inst;
  inst_pop_snapshot : inst → inst;
  inst_start_new_l2_block : inst → L2BlockEnv → inst;
  inst_finish_batch : inst → M S string (FinishedL1Batch * inst);
  (** [inspect(&mut Default::default(), InspectExecutionMode::Bootloader)] *)
  inst_bootloader : inst → M S string (VmResult * inst);
  inst_modified_storage_keys : inst → list (StorageKey * StorageValue);
}.
Arguments inst _ : clear implicits.
Arguments inst {_} _.

(** The VMs with what is particular to each.  An inspection says whether
    the bytecodes were compressed, the result, and what the tracer of calls put
    in its cell. *)
Class BatchVms (S : Type) := {
  legacy_vm : VmInstance S;
  fast_vm : VmInstance S;
  legacy_new : L1BatchEnv → SystemEnv → inst legacy_vm;
  fast_new : L1BatchEnv → SystemEnv → inst fast_vm;
  fast_shadowed : L1BatchEnv → SystemEnv → inst fast_vm;
  (** [inspect_transaction_with_bytecode_compression] *)
  legacy_inspect : inst legacy_vm → list LegacyTracer → Transaction → bool →
    M S string (bool * VmResult * option (list Call) * inst legacy_vm);
  (** the fast VM also has a tracer of its own, with calls if they are traced *)
  fast_inspect : inst fast_vm → list LegacyTracer → bool → Transaction → bool →
    M S string (bool * VmResult * option (list Call) * list Call * inst fast_vm);
  (** [FastVmInstance::Shadowed], and the comparison of the two traces there *)
  is_shadowed : inst fast_vm → bool;
  compare_call_traces : inst fast_vm → list Call → list Call → inst fast_vm;
  skip_signature_verification_of : inst fast_vm → inst fast_vm;
  (** [set_divergence_handler] of a shadowed VM *)
  set_divergence_handler : inst fast_vm → inst fast_vm;
  is_supported_by_fast_vm : Z → bool;
  mock_batch : FinishedL1Batch;
}.

(** [BoojumOsVM]: no value of it is ever made. *)
Inductive BoojumOsVM := .

Section BatchVm.
Context {S : Type} {B : BatchVms S}.

Inductive BatchVm :=
| Legacy (v : inst legacy_vm)
| Fast (v : inst fast_vm)
| BoojumOS (v : BoojumOsVM).

(** [BatchVm::new]; [None] is the panic, of [all_values.unwrap()] or of
    [BoojumOsVM::new] *)
Definition BatchVm_new (l1_batch_env : L1BatchEnv) (system_env : SystemEnv) (mode : FastVmMode) (boojum : bool)
    (all_values : option InMemoryStorage) : option BatchVm :=
  if boojum then match all_values with Some _ => None | None => None end
  else if negb (is_supported_by_fast_vm (se_version system_env)) then Some (Legacy (legacy_new l1_batch_env system_env))
  else match mode with
       | ModeOld => Some (Legacy (legacy_new l1_batch_env system_env))
       | ModeNew => Some (Fast (fast_new l1_batch_env system_env))
       | ModeShadow => Some (Fast (fast_shadowed l1_batch_env system_env))
       end.

(** [dispatch_batch_vm!] for an operation that gives back the VM, one that can
    panic and one that runs code *)
Definition dispatch (f : ∀ V : VmInstance S, inst V → inst V) (v : BatchVm) : BatchVm :=
  match v with
  | Legacy v => Legacy (f _ v)
  | Fast v => Fast (f _ v)
  | BoojumOS v => match v with end
  end.
Definition dispatch_option (f : ∀ V : VmInstance S, inst V → option (inst V)) (v : BatchVm) : option BatchVm :=
  match v with
  | Legacy v => Legacy <$> f _ v
  | Fast v => Fast <$> f _ v
  | BoojumOS v => match v with end
  end.
Definition dispatch_run {A} (f : ∀ V : VmInstance S, inst V → M S string (A * inst V)) (v : BatchVm)
    : M S string (A * BatchVm) :=
  match v with
  | Legacy v => r ← f _ v; mret (r.1, Legacy r.2)
  | Fast v => r ← f _ v; mret (r.1, Fast r.2)
  | BoojumOS v => match v with end
  end.

(** [BatchVm::inspect_transaction]; [trace_calls] is [Tr::TRACE_CALLS]. *)
Definition legacy_tracers (trace_calls : bool) : list LegacyTracer :=
  (if trace_calls then [TraceCallTracer] else []) ++ [TraceBootloaderDebug; TraceCallErrors].

Definition inspect_transaction (trace_calls : bool) (v : BatchVm) (tx : Transaction) (with_compression : bool)
    : M S string (BatchTxResult * BatchVm) :=
  let tracers := legacy_tracers trace_calls in
  match v with
  | Legacy v =>
      r ← legacy_inspect v tracers tx with_compression;
      let '(compression_ok, tx_result, legacy_traces, v) := r in
      mret (mkBatchTxResult tx_result compression_ok (default [] legacy_traces), Legacy v)
  | BoojumOS v => match v with end
  | Fast v =>
      r ← fast_inspect v tracers trace_calls tx with_compression;
      let '(compression_ok, tx_result, legacy_traces, fast_traces, v) := r in
      let v := if is_shadowed v then compare_call_traces v (default [] legacy_traces) fast_traces else v in
      mret (mkBatchTxResult tx_result compression_ok fast_traces, Fast v)
  end.

(** ** The factory *)
Record MainBatchExecutorFactory := mkFactory {
  fa_enforced_bytecode_compression : bool;
  fa_fast_vm_mode : FastVmMode;
  fa_skip_signature_verification : bool;
  (** whether there is a handler *)
  fa_divergence_handler : bool;
  fa_boojum : bool;
}.

(** [MainBatchExecutorFactory::new] *)
Definition factory_new (enforced_bytecode_compression boojum : bool) : MainBatchExecutorFactory :=
  mkFactory enforced_bytecode_compression ModeOld false false boojum.

(** The VM that [CommandReceiver::run] starts with *)
Definition receiver_vm (f : MainBatchExecutorFactory) (l1_batch_params : L1BatchEnv) (system_env : SystemEnv)
    (all_values : option InMemoryStorage) : option BatchVm :=
  v ← BatchVm_new l1_batch_params system_env (fa_fast_vm_mode f) (fa_boojum f) all_values;
  let v := if fa_skip_signature_verification f then
             match v with Fast v => Fast (skip_signature_verification_of v) | v => v end
           else v in
  Some (match v with
        | Fast v => Fast (if is_shadowed v && fa_divergence_handler f then set_divergence_handler v else v)
        | v => v
        end).

(** The VM of a batch as the VM of [VmRunner].  Where [BatchVm::new] panics the
    thread ends at once; [factory_vm_spec] says that this occurs only with
    BoojumOS. *)
Definition batch_vm_api (f : MainBatchExecutorFactory) (trace_calls : bool) : VmApi S := {|
  vm := BatchVm;
  vm_new env se all := default (Legacy (legacy_new env se)) (receiver_vm f env se all);
  vm_inspect_transaction := inspect_transaction trace_calls;
  vm_make_snapshot := dispatch (λ V, inst_make_snapshot);
  vm_rollback := dispatch_option (λ V, inst_rollback);
  vm_pop_snapshot := dispatch (λ V, inst_pop_snapshot);
  vm_start_new_l2_block v env := dispatch (λ V v, inst_start_new_l2_block v env) v;
  vm_finish_batch := dispatch_run (λ V, inst_finish_batch);
  vm_bootloader := dispatch_run (λ V, inst_bootloader);
  vm_modified_storage_keys v :=
    match v with
    | Legacy v => inst_modified_storage_keys v
    | Fast v => inst_modified_storage_keys v
    | BoojumOS v => match v with end
    end;
  FinishedL1Batch_mock := mock_batch;
|}.
End BatchVm.

(** ** The VM of a batch meets the interface of the runner

    Each VM keeps its snapshots on a stack ([InstanceLaws]), and then the VM of a
    batch does: this discharges [VmLaws], on which the theorems of [Running]
    rest. *)
Class InstanceLaws {S : Type} (V : VmInstance S) := {
  inst_snapshots : inst V → list (inst V);
  inst_make_snapshot_spec : ∀ v, inst_snapshots (inst_make_snapshot v) = v :: inst_snapshots v;
  inst_rollback_spec : ∀ v, inst_rollback v = head (inst_snapshots v);
  inst_pop_snapshot_spec : ∀ v, inst_snapshots (inst_pop_snapshot v) = tail (inst_snapshots v);
}.

Class BatchVmsLaws {S : Type} (B : BatchVms S) := {
  legacy_laws :: InstanceLaws legacy_vm;
  fast_laws :: InstanceLaws fast_vm;
  legacy_new_snapshots : ∀ env se, inst_snapshots (legacy_new env se) = [];
  fast_new_snapshots : ∀ env se, inst_snapshots (fast_new env se) = [];
  fast_shadowed_snapshots : ∀ env se, inst_snapshots (fast_shadowed env se) = [];
  legacy_inspect_snapshots : ∀ v ts tx c s r v' s',
    legacy_inspect v ts tx c s = Ret (r, v') s' → inst_snapshots v' = inst_snapshots v;
  fast_inspect_snapshots : ∀ v ts t tx c s r v' s',
    fast_inspect v ts t tx c s = Ret (r, v') s' → inst_snapshots v' = inst_snapshots v;
  compare_snapshots : ∀ v l f, inst_snapshots (compare_call_traces v l f) = inst_snapshots v;
  skip_snapshots : ∀ v, inst_snapshots (skip_signature_verification_of v) = inst_snapshots v;
  handler_snapshots : ∀ v, inst_snapshots (set_divergence_handler v) = inst_snapshots v;
}.

Section BatchVmLaws.
Context {S : Type} {B : BatchVms S} {L : BatchVmsLaws B}.

Definition batch_snapshots (v : BatchVm) : list BatchVm :=
  match v with
  | Legacy v => Legacy <$> inst_snapshots v
  | Fast v => Fast <$> inst_snapshots v
  | BoojumOS v => match v with end
  end.

Lemma batch_new_snapshots f env se all v : receiver_vm f env se all = Some v → batch_snapshots v = [].
Proof.
  unfold receiver_vm, BatchVm_new.
  destruct (fa_boojum f), all, (is_supported_by_fast_vm (se_version se)), (fa_fast_vm_mode f), (fa_skip_signature_verification f);
    cbn; intros [= <-]; cbn; try case_match;
    by rewrite ?handler_snapshots, ?skip_snapshots, ?legacy_new_snapshots, ?fast_new_snapshots,
      ?fast_shadowed_snapshots.
Qed.

Lemma batch_inspect_snapshots trace v tx c s r v' s' :
  inspect_transaction trace v tx c s = Ret (r, v') s' → batch_snapshots v' = batch_snapshots v.
Proof.
  destruct v as [v|v|[]]; cbn; intros (x&s1&Hi&Hr)%bind_Ret.
  - destruct x as [[[? ?] ?] ?]. injection Hr as _ <- _; cbn. by rewrite (legacy_inspect_snapshots _ _ _ _ _ _ _ _ Hi).
  - destruct x as [[[[? ?] ?] ?] ?]. injection Hr as _ <- _; cbn.
    case_match; rewrite ?compare_snapshots; by rewrite (fast_inspect_snapshots _ _ _ _ _ _ _ _ _ Hi).
Qed.

#[refine] Instance batch_vm_laws f trace : VmLaws S (VM := batch_vm_api f trace) :=
  {| vm_snapshots := batch_snapshots : vm (VmApi := batch_vm_api f trace) → _ |}.
Proof.
  - intros env se all. cbn. destruct (receiver_vm f env se all) eqn:Hv; cbn.
    + by apply batch_new_snapshots in Hv.
    + by rewrite legacy_new_snapshots.
  - intros [v|v|[]]; cbn; by rewrite inst_make_snapshot_spec.
  - intros [v|v|[]]; cbn; rewrite inst_rollback_spec; by destruct (inst_snapshots v).
  - intros [v|v|[]]; cbn; rewrite inst_pop_snapshot_spec; by destruct (inst_snapshots v).
  - intros v tx c s r v' s' H. exact (batch_inspect_snapshots _ _ _ _ _ _ _ _ H).
Defined.

(** The factory of the node makes the legacy VM, and panics for BoojumOS. *)
Lemma factory_vm_spec enforced boojum env se all :
  receiver_vm (factory_new enforced boojum) env se all =
  if boojum then None else Some (Legacy (legacy_new env se)).
Proof. unfold receiver_vm, BatchVm_new. cbn. destruct boojum, all, (is_supported_by_fast_vm (se_version se)); done. Qed.

Lemma vm_new_defined enforced trace env se all :
  receiver_vm (factory_new enforced false) env se all =
  Some (vm_new (VmApi := batch_vm_api (factory_new enforced false) trace) env se all).
Proof. unfold vm_new, batch_vm_api. by rewrite factory_vm_spec. Qed.
End BatchVmLaws.

(** ** The two tasks

    An [anyhow] error is the list of its messages, the outermost first. *)
Abbreviation ErrorChain := (list string).

Inductive BatchCommand :=
| ExecuteTx (tx : Transaction)
| StartNextL2Block (env : L2BlockEnv)
| RollbackLastTx
| FinishBatch
| RunBootloader.

Inductive BatchAnswer :=
| TxDone (r : BatchTxResult)
| Confirmed
| BatchFinished (b : FinishedL1Batch)
| BootloaderRan (r : VmResult).

(** The commands after which the loop ends. *)
Definition ends_batch (c : BatchCommand) : bool :=
  match c with
  | FinishBatch | RunBootloader => true
  | ExecuteTx _ | StartNextL2Block _ | RollbackLastTx => false
  end.

Section Tasks.
Context {TA : TransactionApi} {S : Type} {VM : VmApi S}.
(** [CommandReceiver::enforced_bytecode_compression] *)
Context (enforced : bool).
(** Whether the VM leaves a reference to the view of the storage behind. *)
Context (leaks_view : vm → bool).
Abbreviation ServeM := (M S ErrorChain).

(** [with_context] of an [anyhow] result, and an error without one *)
Definition with_context {A} (context : ErrorChain) (m : M S string A) : ServeM A := λ s,
  match m s with
  | Ret a s' => Ret a s'
  | Throw e s' => Throw (context ++ [e]) s'
  | Panic msg => Panic msg
  | Deadlock => Deadlock
  end.

(** What the loop does for a command, before it answers *)
Definition serve (c : BatchCommand) (v : vm) : ServeM (BatchAnswer * vm) :=
  match c with
  | ExecuteTx tx =>
      r ← with_context ["fatal error executing transaction 0x" +:+ hex_h256 (tx_hash tx)] (execute_tx enforced tx v);
      mret (TxDone r.1, r.2)
  | RollbackLastTx => v ← with_context [] (rollback_last_tx v); mret (Confirmed, v)
  | StartNextL2Block env => mret (Confirmed, vm_start_new_l2_block v env)
  | FinishBatch => r ← with_context [] (finish_batch v); mret (BatchFinished r.1, r.2)
  | RunBootloader => r ← with_context [] (bootloader v); mret (BootloaderRan r.1, r.2)
  end.

(** The end of the loop: the VM is dropped and the view of the storage is given
    back, here as the VM that wrote to it. *)
Definition release (v : vm) : Prelude.result vm ErrorChain :=
  if leaks_view v then Err ["storage view leaked"] else Ok v.

(** The thread: it waits for a command, serves one, is about to end, or has
    ended. *)
Inductive Receiver :=
| Receiving (v : vm)
| ServingCmd (c : BatchCommand) (v : vm)
| Leaving (v : vm)
| Returned (r : Prelude.result vm ErrorChain)
| Panicked (msg : string).

(** The state of an answer's channel, as its receiver sees it. *)
Inductive Oneshot := Pending | Sent (a : BatchAnswer) | SenderDropped.

(** The client, in one of the methods of [MainBatchExecutor]: it sends a
    command, waits for the answer, for the error of the thread
    ([wait_for_error]) or for its end ([wait]), or has returned; or it was
    dropped, with the method that was running. *)
Inductive Caller :=
| Sending (c : BatchCommand)
| AwaitAnswer (c : BatchCommand)
| AwaitError
| AwaitEnd (a : BatchAnswer)
| CallerDone (r : Prelude.result (BatchAnswer * option vm) ErrorChain)
| CallerDropped.

(** [HandleOrError] is [None] for [Handle]. *)
Record BatchSystem := mkSystem {
  caller : Caller;
  handle_error : option ErrorChain;
  commands : option BatchCommand;
  answer : Oneshot;
  receiver : Receiver;
  view : S;
}.

Definition receiver_ended (t : Receiver) : bool :=
  match t with Returned _ | Panicked _ => true | _ => false end.

(** [wait_for_error] and [wait], given how the thread ended *)
Definition error_of_end (t : Receiver) : option ErrorChain :=
  match t with
  | Returned (Ok _) => Some ["batch executor unexpectedly stopped"]
  | Returned (Err e) => Some e
  | Panicked msg => Some ["batch executor panicked"; msg]
  | _ => None
  end.
Definition result_of_end (t : Receiver) : option (Prelude.result vm ErrorChain) :=
  match t with
  | Returned r => Some r
  | Panicked msg => Some (Err ["batch executor panicked"; msg])
  | _ => None
  end.

(** A step of the caller or of the thread. *)
Inductive batch_step : BatchSystem → BatchSystem → Prop :=
(** [self.commands.send(..).await]: the channel has room for one *)
| step_send c h a t s :
    receiver_ended t = false →
    batch_step (mkSystem (Sending c) h None a t s) (mkSystem (AwaitAnswer c) h (Some c) Pending t s)
| step_send_fails c h q a t s :
    receiver_ended t = true →
    batch_step (mkSystem (Sending c) h q a t s) (mkSystem AwaitError h q a t s)
(** [response_receiver.await] *)
| step_answered c h q a t s :
    batch_step (mkSystem (AwaitAnswer c) h q (Sent a) t s)
      (mkSystem (if ends_batch c then AwaitEnd a else CallerDone (Ok (a, None))) h q (Sent a) t s)
| step_no_answer c h q t s :
    batch_step (mkSystem (AwaitAnswer c) h q SenderDropped t s) (mkSystem AwaitError h q SenderDropped t s)
| step_error q a t e s :
    error_of_end t = Some e →
    batch_step (mkSystem AwaitError None q a t s) (mkSystem (CallerDone (Err e)) (Some e) q a t s)
| step_error_again q a t e s :
    batch_step (mkSystem AwaitError (Some e) q a t s) (mkSystem (CallerDone (Err e)) (Some e) q a t s)
| step_ended x q a t r s :
    result_of_end t = Some r →
    batch_step (mkSystem (AwaitEnd x) None q a t s)
      (mkSystem (CallerDone (match r with Ok v => Ok (x, Some v) | Err e => Err e end)) None q a t s)
| step_ended_error x q a t e s :
    batch_step (mkSystem (AwaitEnd x) (Some e) q a t s) (mkSystem (CallerDone (Err e)) (Some e) q a t s)
(** the executor is dropped: the command channel and the answer are closed *)
| step_drop k h q a t s :
    k ≠ CallerDropped →
    batch_step (mkSystem k h q a t s) (mkSystem CallerDropped h q a t s)
(** [self.commands.blocking_recv()] *)
| step_receive k h c a v s :
    batch_step (mkSystem k h (Some c) a (Receiving v) s) (mkSystem k h None a (ServingCmd c v) s)
| step_closed h a v s :
    batch_step (mkSystem CallerDropped h None a (Receiving v) s) (mkSystem CallerDropped h None a (Leaving v) s)
(** the command is served and answered, unless no one waits for the answer *)
| step_serve k h q a c v s x v' s' :
    serve c v s = Ret (x, v') s' → k ≠ CallerDropped →
    batch_step (mkSystem k h q a (ServingCmd c v) s)
      (mkSystem k h q (Sent x) (if ends_batch c then Leaving v' else Receiving v') s')
| step_serve_dropped h q a c v s x v' s' :
    serve c v s = Ret (x, v') s' →
    batch_step (mkSystem CallerDropped h q a (ServingCmd c v) s) (mkSystem CallerDropped h q a (Leaving v') s')
| step_serve_error k h q a c v s e s' :
    serve c v s = Throw e s' →
    batch_step (mkSystem k h q a (ServingCmd c v) s) (mkSystem k h q SenderDropped (Returned (Err e)) s')
| step_serve_panic k h q a c v s msg :
    serve c v s = Panic msg →
    batch_step (mkSystem k h q a (ServingCmd c v) s) (mkSystem k h q SenderDropped (Panicked msg) s)
| step_leave k h q a v s :
    batch_step (mkSystem k h q a (Leaving v) s) (mkSystem k h q a (Returned (release v)) s).

(** ** The protocol as one operation

    What a request gives when no other is under way, and what it leaves: the
    error remembered by the handle, the thread and the storage. *)
Definition ask (c : BatchCommand) (h : option ErrorChain) (t : Receiver) (s : S)
    : option (Prelude.result (BatchAnswer * option vm) ErrorChain * (option ErrorChain * Receiver * S)) :=
  match t with
  | Receiving v =>
      match serve c v s with
      | Ret (x, v') s' =>
          if ends_batch c then
            Some (match release v' with Ok v => Ok (x, Some v) | Err e => Err e end, (h, Returned (release v'), s'))
          else Some (Ok (x, None), (h, Receiving v', s'))
      | Throw e s' => Some (Err e, (Some e, Returned (Err e), s'))
      | Panic msg => Some (Err ["batch executor panicked"; msg], (Some ["batch executor panicked"; msg], Panicked msg, s))
      | Deadlock => None
      end
  | ServingCmd _ _ | Leaving _ => None
  | Returned _ | Panicked _ =>
      (λ e, (Err e, (Some e, t, s))) <$> (match h with Some e => Some e | None => error_of_end t end)
  end.

(** A state between two requests. *)
Definition at_rest (h : option ErrorChain) (t : Receiver) : Prop :=
  match t with Receiving _ => h = None | Returned _ | Panicked _ => True | _ => False end.

Definition request (c : BatchCommand) (h : option ErrorChain) (a : Oneshot) (t : Receiver) (s : S) : BatchSystem :=
  mkSystem (Sending c) h None a t s.

(** A step that does not drop the executor. *)
Definition live_step (x y : BatchSystem) : Prop := batch_step x y ∧ caller y ≠ CallerDropped.

(** The system has answered as [o] says. *)
Definition answers (sys : BatchSystem) (o : option (Prelude.result (BatchAnswer * option vm) ErrorChain
    * (option ErrorChain * Receiver * S))) : Prop :=
  match o with
  | Some (r, (h, t, s)) =>
      caller sys = CallerDone r ∧ handle_error sys = h ∧ commands sys = None ∧ receiver sys = t ∧ view sys = s
  | None => False
  end.

(** Every step brings the two tasks closer to rest. *)
Definition caller_weight (k : Caller) : nat :=
  match k with
  | Sending _ => 7
  | AwaitAnswer _ => 3
  | AwaitError | AwaitEnd _ => 2
  | CallerDone _ => 1
  | CallerDropped => 0
  end.
Definition receiver_weight (t : Receiver) : nat :=
  match t with
  | ServingCmd _ _ => 3
  | Receiving _ => 2
  | Leaving _ => 1
  | Returned _ | Panicked _ => 0
  end.
Definition system_weight (x : BatchSystem) : nat :=
  caller_weight (caller x) + receiver_weight (receiver x) + (if commands x is Some _ then 2 else 0).

Lemma step_weight x y : batch_step x y → (system_weight y < system_weight x)%nat.
Proof.
  destruct 1; unfold system_weight; cbn; repeat (case_match; cbn); try congruence; try lia;
    destruct k; cbn; congruence || lia.
Qed.

Lemma ended_error t : receiver_ended t = true → ∃ e, error_of_end t = Some e.
Proof. destruct t as [| | |[]|]; try done; eauto. Qed.

(** Inversion of a step that does not drop the executor. *)
Ltac invert_live H :=
  let Hstep := fresh "Hstep" in
  let Hlive := fresh "Hlive" in
  destruct H as [Hstep Hlive]; inversion Hstep; simplify_eq/=; try done.

Ltac by_serve := match goal with H : serve _ _ _ = _ |- _ => by rewrite H end.

(** A request to a thread that waits for commands. *)
Section Alive.
Context (c : BatchCommand) (v : vm) (s : S) (a : Oneshot).

(** How the thread stands after a command that returned. *)
Definition after_command (v' : vm) (t : Receiver) : Prop :=
  ends_batch c = false ∧ t = Receiving v' ∨ ends_batch c = true ∧ (t = Leaving v' ∨ t = Returned (release v')).

(** The states between the request and its answer. *)
Inductive stage : BatchSystem → Prop :=
| at_send : stage (request c None a (Receiving v) s)
| at_queue : stage (mkSystem (AwaitAnswer c) None (Some c) Pending (Receiving v) s)
| at_serve : stage (mkSystem (AwaitAnswer c) None None Pending (ServingCmd c v) s)
| at_sent x v' s' t :
    serve c v s = Ret (x, v') s' → after_command v' t →
    stage (mkSystem (AwaitAnswer c) None None (Sent x) t s')
| at_end x v' s' t :
    serve c v s = Ret (x, v') s' → ends_batch c = true → after_command v' t →
    stage (mkSystem (AwaitEnd x) None None (Sent x) t s')
| at_error k t s' e :
    k = AwaitAnswer c ∨ k = AwaitError →
    error_of_end t = Some e → ask c None (Receiving v) s = Some (Err e, (Some e, t, s')) →
    stage (mkSystem k None None SenderDropped t s')
| at_answer sys : answers sys (ask c None (Receiving v) s) → stage sys.

Lemma answer_stable x y : answers x (ask c None (Receiving v) s) → ¬ live_step x y.
Proof.
  unfold ask, answers. destruct (serve c v s) as [[z v'] s'|e s'|msg|]; try done.
  - destruct (ends_batch c); intros (Hk&Hh&Hq&Ht&Hs) H; invert_live H; congruence.
  - intros (Hk&Hh&Hq&Ht&Hs) H; invert_live H; congruence.
  - intros (Hk&Hh&Hq&Ht&Hs) H; invert_live H; congruence.
Qed.

Lemma stage_step x y : stage x → live_step x y → stage y.
Proof.
  destruct 1 as [| | |z v' s' t Hs Ht|z v' s' t Hs He Ht|k t s' e Hk He Ha|sys Ha]; intros H.
  - invert_live H. constructor.
  - invert_live H. constructor.
  - invert_live H.
    + eapply at_sent; [done|]. unfold after_command. destruct (ends_batch c); auto.
    + eapply at_error; [by left|done|]. unfold ask. by_serve.
    + eapply at_error; [by left|done|]. unfold ask. by_serve.
  - destruct Ht as [[Hc ->]|[Hc [->| ->]]]; invert_live H; rewrite ?Hc.
    + apply at_answer. unfold ask. by rewrite Hs, Hc.
    + eapply at_end; [done..|]. right. auto.
    + eapply at_sent; [done|]. right. auto.
    + eapply at_end; [done..|]. right. auto.
  - destruct Ht as [[Hc ->]|[Hc [->| ->]]]; invert_live H.
    + eapply at_end; [done..|]. right. auto.
    + apply at_answer. unfold ask. by rewrite Hs, Hc.
  - destruct Hk as [-> | ->]; invert_live H.
    all: try (eapply at_error; [by right|done..]).
    apply at_answer. cbn. by rewrite Ha.
  - by destruct (answer_stable _ _ Ha H).
Qed.

(** Until the answer is there, some task can go on. *)
Lemma stage_progress x :
  stage x → serve c v s ≠ Deadlock → answers x (ask c None (Receiving v) s) ∨ ∃ y, live_step x y.
Proof.
  destruct 1 as [| | |z v' s' t Hs Ht|z v' s' t Hs He Ht|k t s' e Hk He Ha|sys Ha]; intros Hd.
  - right. eexists. split; [by apply step_send|done].
  - right. eexists. split; [apply step_receive|done].
  - right. destruct (serve c v s) as [[z v'] s'|e s'|msg|] eqn:Hs; [| | |done]; eexists; (split; [|]);
      try (by eapply step_serve); try (by eapply step_serve_error); by eapply step_serve_panic || done.
  - right. eexists. split; [apply step_answered|]. by destruct (ends_batch c).
  - right. destruct Ht as [[Hc ->]|[Hc [->| ->]]]; [congruence| |].
    + eexists. split; [apply step_leave|done].
    + eexists. split; [by apply step_ended|done].
  - right. destruct Hk as [-> | ->]; eexists; (split; [|]);
      try apply step_no_answer; try (by apply step_error); done.
  - by left.
Qed.
End Alive.

(** A request to a thread that has ended. *)
Section Ended.
Context (c : BatchCommand) (h : option ErrorChain) (t : Receiver) (s : S) (a : Oneshot).

Inductive end_stage : BatchSystem → Prop :=
| end_send : end_stage (request c h a t s)
| end_wait : end_stage (mkSystem AwaitError h None a t s)
| end_answer sys : answers sys (ask c h t s) → end_stage sys.

Lemma ask_ended :
  receiver_ended t = true →
  ∃ e, ask c h t s = Some (Err e, (Some e, t, s)) ∧ (h = Some e ∨ h = None ∧ error_of_end t = Some e).
Proof.
  intros [e He]%ended_error. exists (default e h). unfold ask. destruct t as [| | |[]|]; try done; destruct h; simplify_eq/=; auto.
Qed.

Lemma end_stage_step x y : receiver_ended t = true → end_stage x → live_step x y → end_stage y.
Proof.
  intros Ht [| |sys Ha] H; destruct (ask_ended Ht) as (e&Hask&Hh).
  - unfold request in H. invert_live H; [congruence|constructor|..]; by destruct t.
  - invert_live H; try (by destruct t); destruct Hh as [?|[??]]; apply end_answer; rewrite Hask; repeat split; cbn; congruence.
  - rewrite Hask in Ha. destruct Ha as (Hk&Hh'&Hq&Ht'&Hs). invert_live H; by destruct t.
Qed.

Lemma end_stage_progress x :
  receiver_ended t = true → end_stage x → answers x (ask c h t s) ∨ ∃ y, live_step x y.
Proof.
  intros Ht [| |sys Ha]; [| |by left]; right.
  - eexists. split; [by apply step_send_fails|done].
  - destruct (ask_ended Ht) as (e&_&[->|[-> He]]); eexists; (split; [|]);
      try apply step_error_again; try (by apply step_error); done.
Qed.
End Ended.

(** Steps that keep [P], and can be taken until [Q] holds, lead to [Q]. *)
Lemma steps_reach (R : BatchSystem → BatchSystem → Prop) (P Q : BatchSystem → Prop) x :
  (∀ x y, R x y → batch_step x y) → (∀ x y, P x → R x y → P y) → (∀ x, P x → Q x ∨ ∃ y, R x y) →
  P x → ∃ y, rtc R x y ∧ Q y.
Proof.
  intros Hsub Hkeep Hgo. induction (Wf_nat.well_founded_ltof _ system_weight x) as [x _ IH]. intros Hx.
  destruct (Hgo x Hx) as [HQ|[y Hy]]; [by exists x|].
  destruct (IH y) as (z&Hz&HQ); [by apply step_weight, Hsub|by eapply Hkeep|].
  exists z. split; [by eapply rtc_l|done].
Qed.

Lemma steps_bounded n x y : nsteps live_step n x y → (n + system_weight y <= system_weight x)%nat.
Proof.
  induction 1 as [|n x y z Hstep _ IH]; [lia|]. pose proof (step_weight _ _ (proj1 Hstep)). lia.
Qed.

(** C17: a request to the thread of a batch is answered as [ask] says, whichever
    way the two tasks are interleaved: after at most nine steps there is an
    answer, it is that of the command served by the VM, and when the thread has
    ended, in whatever way, it is the error it ended with, at every later
    request again. *)
Theorem request_refines (c : BatchCommand) (h : option ErrorChain) (a : Oneshot) (t : Receiver) (s : S) :
  at_rest h t → (∀ v, t = Receiving v → serve c v s ≠ Deadlock) →
  (∀ n x, nsteps live_step n (request c h a t s) x → (n <= 9)%nat) ∧
  (∀ x, rtc live_step (request c h a t s) x →
     (∃ y, rtc live_step x y ∧ answers y (ask c h t s)) ∧
     (∀ r, caller x = CallerDone r → answers x (ask c h t s))).
Proof.
  intros Hrest Hd. split.
  { intros n x Hn%steps_bounded. change (system_weight (request c h a t s)) with (7 + receiver_weight t + 0)%nat in Hn.
    destruct t; cbn in *; done || lia. }
  intros x Hx. destruct (receiver_ended t) eqn:Ht.
  - assert (end_stage c h t s a x) as Hst.
    { revert Hx. apply (rtc_ind_r (λ x, end_stage c h t s a x)); [constructor|].
      intros y z _ Hyz IH. by eapply end_stage_step. }
    split.
    + apply (steps_reach live_step (end_stage c h t s a)); [by intros ? ? []| |intros y Hy; by apply (end_stage_progress c h t s a)|done].
      intros; by eapply end_stage_step.
    + intros r Hr. by destruct Hst.
  - destruct t as [v| | | |]; try done. cbn in Hrest. subst h.
    assert (stage c v s a x) as Hst.
    { revert Hx. apply (rtc_ind_r (λ x, stage c v s a x)); [constructor|].
      intros y z _ Hyz IH. by eapply stage_step. }
    split.
    + apply (steps_reach live_step (stage c v s a)); [by intros ? ? []| |intros y Hy; apply (stage_progress c v s a); auto|done].
      intros; by eapply stage_step.
    + intros r Hr. destruct Hst as [| | | | |k ? ? ? Hk|]; try done. by destruct Hk as [-> | ->].
Qed.

(** C18: when the executor is dropped, with a request under way or not, the
    thread ends: it serves the command it has, finds that no one waits for the
    answer or for more, and gives the storage back. *)
Theorem dropped_thread_ends (x : BatchSystem) :
  caller x = CallerDropped → (∀ c v s, serve c v s ≠ Deadlock) →
  (∃ y, rtc batch_step x y ∧ receiver_ended (receiver y) = true) ∧
  (∀ n y, nsteps batch_step n x y → (n <= 5)%nat ∧ (receiver_ended (receiver y) = true ∨ ∃ z, batch_step y z)).
Proof.
  intros Hx Hd.
  assert (∀ y z, caller y = CallerDropped → batch_step y z → caller z = CallerDropped) as Hkeep.
  { intros y z Hy Hyz. inversion Hyz; subst; cbn in *; congruence. }
  assert (∀ y, caller y = CallerDropped → receiver_ended (receiver y) = true ∨ ∃ z, batch_step y z) as Hgo.
  { intros [k h q a [v|c v|v|r|m] s] Hy; cbn in *; subst; auto; right.
    - destruct q; eexists; [apply step_receive|apply step_closed].
    - destruct (serve c v s) as [[z v'] s'|e s'|msg|] eqn:Hs; [| | |by destruct (Hd c v s)]; eexists;
        [by eapply step_serve_dropped|by eapply step_serve_error|by eapply step_serve_panic].
    - eexists. apply step_leave. }
  split; [by apply (steps_reach batch_step (λ y, caller y = CallerDropped))|].
  intros n y Hn. split; [|apply Hgo; clear -Hn Hx Hkeep; induction Hn; eauto].
  assert (n + system_weight y <= system_weight x)%nat as Hw.
  { clear -Hn. induction Hn as [|n x y z Hstep _ IH]; [lia|]. pose proof (step_weight _ _ Hstep). lia. }
  assert (system_weight x <= 5)%nat; [|lia]. unfold system_weight. rewrite Hx.
  destruct (receiver x), (commands x); cbn; lia.
Qed.

(** [VmRunner] takes the thread as the operation [in_thread]: that is what the
    protocol amounts to. *)
Lemma ask_execute_tx tx v s :
  match in_thread (execute_tx enforced tx v) s with
  | Ret (r, v') s' => ask (ExecuteTx tx) None (Receiving v) s = Some (Ok (TxDone r, None), (None, Receiving v', s'))
  | Throw _ s' => ∃ e t, ask (ExecuteTx tx) None (Receiving v) s = Some (Err e, (Some e, t, s')) ∧ receiver_ended t = true
  | Panic _ => False
  | Deadlock => ask (ExecuteTx tx) None (Receiving v) s = None
  end.
Proof.
  unfold in_thread, ask. cbn [serve ends_batch]. unfold mbind, M_bind, with_context.
  destruct (execute_tx enforced tx v s) as [[r v'] s'|e s'|msg|]; cbn; eauto.
Qed.
End Tasks.

(** ** A small instance *)
Module SampleThread.
Export SampleVm.

(** The VM that records what it executed, in the place of both. *)
#[export] Instance sample_instance : VmInstance (StorageState (Client := unit)) := {|
  inst := Vm;
  inst_make_snapshot v := mkVm (executed v) (Some v);
  inst_rollback := saved;
  inst_pop_snapshot v := mkVm (executed v) (saved v ≫= saved);
  inst_start_new_l2_block v _ := v;
  inst_finish_batch v := mret (SampleChain.finished, v);
  inst_bootloader v := mret (vm_result 0, v);
  inst_modified_storage_keys v := (λ h, ((100, h), 1)) <$> executed v;
|}.

#[export] Instance sample_vms : BatchVms (StorageState (Client := unit)) := {|
  legacy_vm := sample_instance;
  fast_vm := sample_instance;
  legacy_new _ _ := mkVm [] None;
  fast_new _ _ := mkVm [] None;
  fast_shadowed _ _ := mkVm [] None;
  (** transaction 12 cannot be compressed *)
  legacy_inspect v ts tx c :=
    mret (negb (c && (tx_hash tx =? 12)), vm_result (tx_hash tx),
          if bool_decide (TraceCallTracer ∈ ts) then Some [] else None, mkVm (tx_hash tx :: executed v) (saved v));
  fast_inspect v ts t tx c := mret (true, vm_result (tx_hash tx), None, [], mkVm (tx_hash tx :: executed v) (saved v));
  is_shadowed _ := false;
  compare_call_traces v _ _ := v;
  skip_signature_verification_of v := v;
  set_divergence_handler v := v;
  is_supported_by_fast_vm _ := true;
  mock_batch := SampleChain.finished;
|}.

#[export, refine] Instance sample_instance_laws : InstanceLaws sample_instance := {| inst_snapshots := snapshots |}.
Proof.
  - by intros [].
  - by intros [? []].
  - by intros [? [[? []]|]].
Defined.

#[export, refine] Instance sample_vms_laws : BatchVmsLaws sample_vms := {|
  legacy_laws := sample_instance_laws; fast_laws := sample_instance_laws |}.
Proof.
  all: try done.
  - intros [] ts tx c s r v' s' [= <- <- <-]. done.
  - intros [] ts t tx c s r v' s' [= <- <- <-]. done.
Defined.

Definition sample_factory : MainBatchExecutorFactory := factory_new false false.
Definition sample_api : VmApi (StorageState (Client := unit)) := batch_vm_api sample_factory true.
#[local] Existing Instance sample_api.

Definition fresh_vm : vm (VmApi := sample_api) := Legacy (mkVm [] None).
Definition sample_store : StorageState (Client := unit) := (fork_storage node, fork node).
Definition no_leak : vm (VmApi := sample_api) → bool := λ _, false.

Lemma sample_serves c v s : serve false c v s ≠ Deadlock.
Proof.
  destruct c as [tx|env| | |], v as [v|v|[]]; try done; try (by destruct v as [? []]).
  unfold serve, with_context, execute_tx, execute_tx_in_vm_with_optional_compression, rollback_vm, mbind, M_bind. cbn.
  unfold mbind, M_bind. cbn. by destruct (_ =? 12).
Qed.

(** Transaction 12 is served a second time without compression; the storage
    view is given back with the end of the batch, after a rollback without the
    transaction. *)
Example sample_batch :
  ∃ r v2, ask false no_leak (ExecuteTx (tx 12)) None (Receiving fresh_vm) sample_store =
    Some (Ok (TxDone r, None), (None, Receiving v2, sample_store)) ∧ v2 = Legacy (mkVm [12] (Some (mkVm [] None))) ∧
  ask false no_leak RollbackLastTx None (Receiving v2) sample_store =
    Some (Ok (Confirmed, None), (None, Receiving fresh_vm, sample_store)) ∧
  ask false no_leak FinishBatch None (Receiving fresh_vm) sample_store =
    Some (Ok (BatchFinished SampleChain.finished, Some fresh_vm), (None, Returned (Ok fresh_vm), sample_store)).
Proof. eexists _, _. by split_and!. Qed.

(** A rollback without a transaction ends the thread; a later request gets the
    same error. *)
Definition no_snapshot : ErrorChain :=
  ["batch executor panicked"; "Snapshot should be created before rolling it back"].

Lemma request_refines_witness :
  (∃ y, rtc (live_step false no_leak) (request RollbackLastTx None Pending (Receiving fresh_vm) sample_store) y ∧
     caller y = CallerDone (Err no_snapshot) ∧ handle_error y = Some no_snapshot) ∧
  (∃ y, rtc (live_step false no_leak)
     (request FinishBatch (Some no_snapshot) Pending (Panicked "Snapshot should be created before rolling it back") sample_store) y ∧
     caller y = CallerDone (Err no_snapshot)).
Proof.
  split.
  - destruct (request_refines false no_leak RollbackLastTx None Pending (Receiving fresh_vm) sample_store)
      as [_ H]; [reflexivity|intros v _; apply sample_serves|].
    destruct (H _ (rtc_refl _ _)) as [(y&Hy&Hk&Hh&_) _]. exists y. exact (conj Hy (conj Hk Hh)).
  - destruct (request_refines false no_leak FinishBatch (Some no_snapshot) Pending
                (Panicked "Snapshot should be created before rolling it back") sample_store)
      as [_ H]; [exact I|intros v Hv; discriminate Hv|].
    destruct (H _ (rtc_refl _ _)) as [(y&Hy&Hk&_) _]. exists y. exact (conj Hy Hk).
Defined.

(** The executor is dropped with a command in the channel. *)
Lemma dropped_thread_witness :
  ∃ y, rtc (batch_step false no_leak)
         (mkSystem CallerDropped None (Some (ExecuteTx (tx 11))) Pending (Receiving fresh_vm) sample_store) y ∧
    receiver_ended (receiver y) = true.
Proof.
  exact (proj1 (dropped_thread_ends false no_leak
    (mkSystem CallerDropped None (Some (ExecuteTx (tx 11))) Pending (Receiving fresh_vm) sample_store)
    eq_refl sample_serves)).
Defined.
End SampleThread.
