(* ===== verification/Printing.v ===== *)
(** * Text on the console

    [crates/core/src/formatter]: the writer that indents lines
    ([util/indenting_writer.rs]), the tree of log lines ([log.rs]) with the gas
    details, the storage logs and the results of the VM, known addresses
    ([address.rs]), and the summary of a transaction ([transaction/]).

    The colours of the terminal and the printing of amounts are arguments. *)
From S2P Require Import Prelude Types Utils Text Filters Impersonate Time Pool Cache Fork Storage.
From S2P Require Import FeeModel Blockchain Inner AddressMap TraceTypes Traces TraceWriter Config Diagnostics.
From Stdlib Require Import Ascii.
Local Open Scope string_scope.
Local Open Scope list_scope.
Local Open Scope Z_scope.

(** ** The indenting writer

    The writer below it is a [String], which never fails.  A text is a list of
    its characters; [write_chunk] is [write_str] of the writer below. *)
Definition new_line : ascii := ascii_of_nat 10.
Definition chars (s : string) : list ascii := String.list_ascii_of_string s.

Record IndentingWriter := mkWriter {
  iw_out : list ascii;
  iw_indent : nat;
  iw_prefix : list (list ascii);
  iw_newline : bool;
}.

Definition TABULATION : list ascii := chars "   ".

Definition writer_new (prefix : option (list ascii)) (out : list ascii) : IndentingWriter :=
  mkWriter out 0 (option_list prefix) true.
Definition push_prefix (p : list ascii) (w : IndentingWriter) : IndentingWriter :=
  mkWriter (iw_out w) (iw_indent w) (iw_prefix w ++ [p]) (iw_newline w).
Definition pop_prefix (w : IndentingWriter) : IndentingWriter :=
  mkWriter (iw_out w) (iw_indent w) (take (pred (length (iw_prefix w))) (iw_prefix w)) (iw_newline w).
Definition iw_more (w : IndentingWriter) : IndentingWriter :=
  mkWriter (iw_out w) (Datatypes.S (iw_indent w)) (iw_prefix w) (iw_newline w).
Definition iw_less (w : IndentingWriter) : IndentingWriter :=
  mkWriter (iw_out w) (pred (iw_indent w)) (iw_prefix w) (iw_newline w).

Definition write_chunk (c : list ascii) (w : IndentingWriter) : IndentingWriter :=
  mkWriter (iw_out w ++ c) (iw_indent w) (iw_prefix w) (iw_newline w).
Definition set_newline (b : bool) (w : IndentingWriter) : IndentingWriter :=
  mkWriter (iw_out w) (iw_indent w) (iw_prefix w) b.

Fixpoint write_tabs (n : nat) (w : IndentingWriter) : IndentingWriter :=
  match n with
  | O => w
  | Datatypes.S n => write_tabs n (write_chunk TABULATION w)
  end.

(** [do_indent] *)
Definition do_indent (w : IndentingWriter) : IndentingWriter :=
  if iw_newline w then
    let w := write_tabs (iw_indent w) w in
    set_newline false (write_chunk (default [] (last (iw_prefix w))) w)
  else w.

(** [write_str]: the loop over the characters; [chunk] is [&s[start..i]]. *)
Fixpoint write_loop (s chunk : list ascii) (w : IndentingWriter) : IndentingWriter :=
  match s with
  | [] => w
  | c :: s =>
      let w := do_indent w in
      if bool_decide (c = new_line) then
        write_loop s [] (write_chunk (chunk ++ [c]) (set_newline true w))
      else
        let w := match s with
                 | [] => write_chunk (chunk ++ [c]) w
                 | _ => w
                 end in
        write_loop s (chunk ++ [c]) w
  end.
Definition iw_write_str (s : list ascii) (w : IndentingWriter) : IndentingWriter := write_loop s [] w.

(** ** What the writer writes

    The reference: one character after the other, with the start of the line
    before the first one. *)
Definition line_start (w : IndentingWriter) : list ascii :=
  concat (replicate (iw_indent w) TABULATION) ++ default [] (last (iw_prefix w)).

Fixpoint indented (start : list ascii) (newline : bool) (s : list ascii) : list ascii :=
  match s with
  | [] => []
  | c :: s => (if newline then start else []) ++ c :: indented start (bool_decide (c = new_line)) s
  end.
(** Whether the next character is the first of its line. *)
Definition newline_after (newline : bool) (s : list ascii) : bool :=
  match last s with Some c => bool_decide (c = new_line) | None => newline end.

Lemma newline_after_cons nl c s : newline_after nl (c :: s) = newline_after (bool_decide (c = new_line)) s.
Proof. unfold newline_after. rewrite last_cons. by destruct (last s). Qed.

Lemma indented_app start nl s1 s2 :
  indented start nl (s1 ++ s2) = indented start nl s1 ++ indented start (newline_after nl s1) s2.
Proof.
  revert nl. induction s1 as [|c s1 IH]; intros nl; [done|]. cbn [app indented].
  by rewrite IH, newline_after_cons, <-app_assoc.
Qed.

Lemma newline_after_app nl s1 s2 : newline_after nl (s1 ++ s2) = newline_after (newline_after nl s1) s2.
Proof. unfold newline_after. rewrite last_app. by destruct (last s2). Qed.

Lemma write_tabs_spec n w :
  write_tabs n w =
  mkWriter (iw_out w ++ concat (replicate n TABULATION)) (iw_indent w) (iw_prefix w) (iw_newline w).
Proof.
  revert w. induction n as [|n IH]; intros w; cbn [write_tabs replicate concat].
  - rewrite app_nil_r. by destruct w.
  - rewrite IH. unfold write_chunk. cbn [iw_out iw_indent iw_prefix iw_newline]. by rewrite <-app_assoc.
Qed.

Lemma do_indent_spec w :
  do_indent w = mkWriter (iw_out w ++ if iw_newline w then line_start w else []) (iw_indent w) (iw_prefix w) false.
Proof.
  unfold do_indent. destruct w as [out n p [|]]; cbn [iw_newline iw_out iw_indent iw_prefix].
  - rewrite write_tabs_spec. unfold set_newline, write_chunk, line_start. cbn. by rewrite <-app_assoc.
  - by rewrite app_nil_r.
Qed.

(** The characters of [chunk] are those of the line that were not written yet. *)
Lemma write_loop_spec s chunk w :
  s ≠ [] → (chunk ≠ [] → iw_newline w = false) →
  write_loop s chunk w =
  mkWriter (iw_out w ++ (if iw_newline w then line_start w else []) ++ chunk ++ indented (line_start w) false s)
    (iw_indent w) (iw_prefix w) (newline_after (iw_newline w) s).
Proof.
  revert chunk w. induction s as [|c s IH]; intros chunk w Hs Hc; [done|]. clear Hs.
  cbn [write_loop]. rewrite do_indent_spec, newline_after_cons. cbn [indented].
  case_bool_decide as Hnl; (destruct s as [|d s]; [unfold write_chunk; cbn; f_equal; by rewrite <-?app_assoc|]).
  - rewrite IH by done. cbn [iw_out iw_newline iw_indent iw_prefix write_chunk set_newline]. f_equal.
    cbn [indented]. by rewrite <-!app_assoc.
  - rewrite IH by done. cbn [iw_out iw_newline iw_indent iw_prefix]. f_equal.
    cbn [indented]. by rewrite <-!app_assoc.
Qed.

Lemma write_str_spec s w :
  iw_write_str s w =
  mkWriter (iw_out w ++ indented (line_start w) (iw_newline w) s) (iw_indent w) (iw_prefix w) (newline_after (iw_newline w) s).
Proof.
  unfold iw_write_str. destruct s as [|c s].
  - cbn. rewrite app_nil_r. by destruct w.
  - rewrite write_loop_spec by done. cbn [indented]. by destruct (iw_newline w).
Qed.

(** Removes the first [k] characters of every line; [skip] are left of this one. *)
Fixpoint unindent (k skip : nat) (s : list ascii) : list ascii :=
  match s with
  | [] => []
  | c :: s =>
      match skip with
      | Datatypes.S skip => unindent k skip s
      | O => c :: unindent k (if bool_decide (c = new_line) then k else O) s
      end
  end.

Lemma unindent_start k p s : unindent k (length p) (p ++ s) = unindent k 0 s.
Proof. by induction p. Qed.

Lemma unindent_indented start (nl : bool) s :
  unindent (length start) (if nl then length start else O) (indented start nl s) = s.
Proof.
  revert nl. induction s as [|c s IH]; intros nl; [done|]. cbn [indented].
  assert (unindent (length start) 0 (c :: indented start (bool_decide (c = new_line)) s) = c :: s) as Hrest.
  { cbn [unindent]. by rewrite IH. }
  destruct nl; [by rewrite unindent_start|done].
Qed.

(** What is written to the indenting writer comes out with the indentation
    and the latest prefix before every line, empty ones included, and otherwise
    unchanged, so that the text can be read back from the lines; writing a text
    in pieces is the same as writing it at once. *)
Theorem writer_spec (w : IndentingWriter) (s s' : list ascii) :
  let out := indented (line_start w) (iw_newline w) s in
  iw_out (iw_write_str s w) = iw_out w ++ out ∧
  unindent (length (line_start w)) (if iw_newline w then length (line_start w) else O) out = s ∧
  iw_write_str (s ++ s') w = iw_write_str s' (iw_write_str s w).
Proof.
  cbv zeta. rewrite !write_str_spec. split_and!; [done|apply unindent_indented|].
  cbn [iw_out iw_indent iw_prefix iw_newline].
  by rewrite indented_app, newline_after_app, <-app_assoc.
Qed.

(** ** Colours *)
Inductive Paint :=
| Bold | Dimmed | Underline | Red | Green | Blue | Cyan | Magenta | BrightRed | BrightBlue | BrightGreen.

Class Colors := {
  (** [colored]: a text with styles, in the order they are given *)
  paint : list Paint → string → string;
}.

(** ** Known addresses *)
Section Console.
Context {CO : Colors}.

Definition contract_paint (t : ContractType) : list Paint :=
  match t with
  | System => [Bold; BrightBlue]
  | Precompile => [Bold; Magenta]
  | Popular => [Bold; BrightGreen]
  | Unknown => [Dimmed]
  end.

Definition format_known_address (address : Address) : option string :=
  (λ known, paint (contract_paint (ka_contract_type known)) (ka_name known) +:+ paint [Dimmed] "@"
     +:+ paint [Dimmed] ("0x" +:+ hex_address address)) <$> KNOWN_ADDRESSES !! address.
Definition address_to_human_readable (address : Address) : option string := format_known_address address.

(** ** The tree of log lines *)
Record Formatter := mkFormatter {
  sibling_stack : list bool;
  printed : list string;
}.
Definition formatter_new : Formatter := mkFormatter [] [].

Definition build_prefix (sibling_stack : list bool) (is_last_sibling : bool) : string :=
  match sibling_stack with
  | [] => EmptyString
  | _ => foldr (λ (is_last : bool) rest, (if is_last then "    " else "│   ") +:+ rest)
           (if is_last_sibling then "└─ " else "├─ ") sibling_stack
  end.

Section Log.
Context {E : Type}.
Abbreviation LogM := (M Formatter E).

(** [sh_println!] *)
Definition sh_println (line : string) : LogM unit :=
  modify (λ f, mkFormatter (sibling_stack f) (printed f ++ [line])).

Definition format_log (is_last_sibling : bool) (message : string) : LogM unit :=
  stack ← gets sibling_stack;
  sh_println (build_prefix stack is_last_sibling +:+ message).
Definition format_error (is_last_sibling : bool) (message : string) : LogM unit :=
  stack ← gets sibling_stack;
  sh_println (paint [Red] (build_prefix stack is_last_sibling +:+ message)).
Definition enter_scope (has_more_siblings : bool) : LogM unit :=
  modify (λ f, mkFormatter (sibling_stack f ++ [has_more_siblings]) (printed f)).
Definition exit_scope : LogM unit :=
  modify (λ f, mkFormatter (take (pred (length (sibling_stack f))) (sibling_stack f)) (printed f)).
Definition section (title : string) (is_last_sibling : bool) (f : LogM unit) : LogM unit :=
  format_log is_last_sibling title;;
  enter_scope is_last_sibling;;
  f;;
  exit_scope.
Definition key_value (key value : string) : string := paint [Bold] key +:+ ": " +:+ paint [Dimmed] value.
Definition item (is_last_sibling : bool) (key value : string) : LogM unit :=
  format_log is_last_sibling (key_value key value).

(** [for (i, (key, value)) in items.into_iter().enumerate()], with the last one
    marked *)
Fixpoint print_items (items : list (string * string)) : LogM unit :=
  match items with
  | [] => mret tt
  | (key, value) :: items => item (bool_decide (items = [])) key value;; print_items items
  end.

(** [{:>2}] *)
Definition pad2 (s : string) : string := if (String.length s <? 2)%nat then " " +:+ s else s.

(** ** Gas details *)
Definition percent (part whole : Z) : LogM Z := p ← mul_u256 part 100; div_u256 p whole.
Definition gas_percent (amount percentage : Z) : string :=
  human amount +:+ " gas (" +:+ pad2 (dec percentage) +:+ "%)".

Definition gas_warnings (d : GasDetails) : list string :=
  (if negb (gd_refund_computed d =? gd_refund_by_operator d) then
     ["WARNING: Refund by VM: " +:+ human (gd_refund_computed d) +:+ ", but operator refunded: "
        +:+ human (gd_refund_by_operator d)]
   else []) ++
  (if negb (gd_total_gas_limit_from_user d =? gd_total_gas_limit d) then
     ["WARNING: User provided more gas (" +:+ human (gd_total_gas_limit_from_user d)
        +:+ "), but system had a lower max limit."]
   else []).

Fixpoint print_warnings (item_index total_items : nat) (warnings : list string) : LogM unit :=
  match warnings with
  | [] => mret tt
  | warning :: warnings =>
      format_error (item_index =? total_items - 1)%nat warning;;
      print_warnings (Datatypes.S item_index) total_items warnings
  end.

(** The five sections of the gas details *)
Definition print_gas_summary (d : GasDetails) (is_last_sibling : bool) : LogM unit :=
  section "Gas Summary" is_last_sibling (
    paid ← sub_u256 (gd_total_gas_limit d) (gd_refund_by_operator d);
    print_items [("Limit", human (gd_total_gas_limit d)); ("Used", human (gd_gas_used d));
                 ("Refunded", human (gd_refund_by_operator d)); ("Paid:", human paid)]).
Definition print_execution_gas (d : GasDetails) (is_last_sibling : bool) : LogM unit :=
  section "Execution Gas Breakdown" is_last_sibling (
    p1 ← percent (gd_intrinsic_gas d) (gd_gas_used d);
    p2 ← percent (gd_gas_spent_on_bytecode_preparation d) (gd_gas_used d);
    p3 ← percent (gd_gas_for_validation d) (gd_gas_used d);
    p4 ← percent (gd_gas_spent_on_compute d) (gd_gas_used d);
    print_items [("Transaction Setup", gas_percent (gd_intrinsic_gas d) p1);
                 ("Bytecode Preparation", gas_percent (gd_gas_spent_on_bytecode_preparation d) p2);
                 ("Account Validation", gas_percent (gd_gas_for_validation d) p3);
                 ("Computations (Opcodes)", gas_percent (gd_gas_spent_on_compute d) p4)]).
Definition print_setup_cost (d : GasDetails) (is_last_sibling : bool) : LogM unit :=
  section "Transaction Setup Cost Breakdown" is_last_sibling (
    p1 ← percent (gd_intrinsic_overhead d) (gd_intrinsic_gas d);
    p2 ← percent (gd_operator_overhead d) (gd_intrinsic_gas d);
    print_items [("Total Setup Cost", human (gd_intrinsic_gas d) +:+ " gas");
                 ("Fixed Cost", gas_percent (gd_intrinsic_overhead d) p1);
                 ("Operator Cost", gas_percent (gd_operator_overhead d) p2)]).
Definition print_publishing_costs (d : GasDetails) (is_last_sibling : bool) : LogM unit :=
  section "L1 Publishing Costs" is_last_sibling (
    print_items [("Published", human (gd_bytes_published d) +:+ " bytes");
                 ("Cost per Byte", human (gd_gas_per_pubdata d) +:+ " gas");
                 ("Total Gas Cost", human (gd_spent_on_pubdata d) +:+ " gas")]).
Definition print_block_contribution (d : GasDetails) (batch_overhead_l1_gas : Z) (is_last_sibling : bool) : LogM unit :=
  section "Block Contribution" is_last_sibling (
    full_block_cost ← mul_u256 (gd_gas_per_pubdata d) batch_overhead_l1_gas;
    print_items [("Length Overhead", human (gd_overhead_for_length d) +:+ " gas");
                 ("Slot Overhead", human (gd_overhead_for_slot d) +:+ " gas");
                 ("Full Block Cost", "~" +:+ human full_block_cost +:+ " L2 gas")]).

(** [print_gas_details]; of the fee model only [batch_overhead_l1_gas] is used *)
Definition print_gas_details (d : GasDetails) (batch_overhead_l1_gas : Z) : LogM unit :=
  section "[Gas Details]" true (
    let warnings := gas_warnings d in
    let n := length warnings in
    let total_items := (5 + n)%nat in
    let is_last index := (index =? total_items - 1)%nat in
    print_gas_summary d (is_last 0%nat);;
    print_warnings 1 total_items warnings;;
    print_execution_gas d (is_last (1 + n)%nat);;
    print_setup_cost d (is_last (2 + n)%nat);;
    print_publishing_costs d (is_last (3 + n)%nat);;
    print_block_contribution d batch_overhead_l1_gas (is_last (4 + n)%nat)).

(** ** Storage logs *)
Definition kind_debug (k : StorageLogKind) : string :=
  match k with LogRead => "Read" | InitialWrite => "InitialWrite" | RepeatedWrite => "RepeatedWrite" end.
(** [{:#066x}] *)
Definition word_text (h : H256) : string := "0x" +:+ hex_h256 h.

Definition storage_log_entries (e : StorageLogEntry) (pubdata_bytes : option PubdataBytesInfo) : list (string * string) :=
  [("Kind", kind_debug (le_kind e));
   ("Address", default ("0x" +:+ hex_address (le_key e).1) (address_to_human_readable (le_key e).1));
   ("Key", word_text (le_key e).2);
   ("Read Value", word_text (le_previous_value e))]
  ++ (if le_is_write e then [("Written Value", word_text (le_value e))] else [])
  ++ [("Pubdata Bytes", default "None" (pubdata_display <$> pubdata_bytes))].

Definition print_storage_logs (e : StorageLogEntry) (pubdata_bytes : option PubdataBytesInfo) (log_index : nat) (is_last : bool)
    : LogM unit :=
  section ("Log #" +:+ dec (Z.of_nat log_index)) is_last (print_items (storage_log_entries e pubdata_bytes)).

(** ** Results of the VM

    [cycles_used], [computational_gas_used] and [contracts_used] of the
    statistics are arguments. *)
Definition print_vm_details (cycles_used computational_gas_used contracts_used : Z) (result : ExecutionResult)
    (user_friendly : VmRevertReason → string) : LogM unit :=
  section "[VM Execution Results]" true (
    item false "Cycles Used" (human cycles_used);;
    item false "Computation Gas Used" (human computational_gas_used);;
    item false "Contracts Used" (human contracts_used);;
    match result with
    | Success _ => item true "Execution Outcome" "Success"
    | Revert output =>
        item false "Execution Outcome" "Failure";;
        format_error true ("Revert Reason: " +:+ user_friendly output)
    | Halt reason =>
        item false "Execution Outcome" "Failure";;
        format_error true ("Halt Reason: " +:+ reason)
    end).
End Log.

(** ** The trees that are drawn

    The reference: a tree of titles and lines, and how it is drawn below the
    branches [stack], each of which goes on unless it was the last. *)
Inductive LogTree :=
| Entry (text : string)
| Alert (text : string)
| Branch (title : string) (children : list LogTree).

(** [f] on every element, told whether it is the last one *)
Section Lastly.
Context {A B : Type} (f : bool → A → list B).
Fixpoint lastly (l : list A) : list B :=
  match l with
  | [] => []
  | x :: l => f (match l with [] => true | _ => false end) x ++ lastly l
  end.
End Lastly.

Fixpoint draw (stack : list bool) (is_last : bool) (t : LogTree) : list string :=
  match t with
  | Entry text => [build_prefix stack is_last +:+ text]
  | Alert text => [paint [Red] (build_prefix stack is_last +:+ text)]
  | Branch title children =>
      (build_prefix stack is_last +:+ title) :: lastly (draw (stack ++ [is_last])) children
  end.

Definition entries (items : list (string * string)) : list LogTree := (λ i, Entry (key_value i.1 i.2)) <$> items.

Definition percent_of (part whole : Z) : Z := part * 100 / whole.

Definition gas_tree (d : GasDetails) (batch_overhead_l1_gas : Z) : LogTree :=
  Branch "[Gas Details]"
    ([Branch "Gas Summary" (entries
        [("Limit", human (gd_total_gas_limit d)); ("Used", human (gd_gas_used d));
         ("Refunded", human (gd_refund_by_operator d));
         ("Paid:", human (gd_total_gas_limit d - gd_refund_by_operator d))])]
     ++ (Alert <$> gas_warnings d) ++
     [Branch "Execution Gas Breakdown" (entries
        ((λ i, (i.1, gas_percent i.2 (percent_of i.2 (gd_gas_used d)))) <$>
         [("Transaction Setup", gd_intrinsic_gas d);
          ("Bytecode Preparation", gd_gas_spent_on_bytecode_preparation d);
          ("Account Validation", gd_gas_for_validation d);
          ("Computations (Opcodes)", gd_gas_spent_on_compute d)]));
      Branch "Transaction Setup Cost Breakdown" (entries
        (("Total Setup Cost", human (gd_intrinsic_gas d) +:+ " gas") ::
         ((λ i, (i.1, gas_percent i.2 (percent_of i.2 (gd_intrinsic_gas d)))) <$>
          [("Fixed Cost", gd_intrinsic_overhead d); ("Operator Cost", gd_operator_overhead d)])));
      Branch "L1 Publishing Costs" (entries
        [("Published", human (gd_bytes_published d) +:+ " bytes");
         ("Cost per Byte", human (gd_gas_per_pubdata d) +:+ " gas");
         ("Total Gas Cost", human (gd_spent_on_pubdata d) +:+ " gas")]);
      Branch "Block Contribution" (entries
        [("Length Overhead", human (gd_overhead_for_length d) +:+ " gas");
         ("Slot Overhead", human (gd_overhead_for_slot d) +:+ " gas");
         ("Full Block Cost", "~" +:+ human (gd_gas_per_pubdata d * batch_overhead_l1_gas) +:+ " L2 gas")])]).

(** When all amounts can be computed. *)
Definition percent_ok (whole : Z) (part : Z) : bool := (part * 100 <=? u256_max) && negb (whole =? 0).
Definition gas_printable (d : GasDetails) (batch_overhead_l1_gas : Z) : bool :=
  (gd_refund_by_operator d <=? gd_total_gas_limit d)
  && forallb (percent_ok (gd_gas_used d))
       [gd_intrinsic_gas d; gd_gas_spent_on_bytecode_preparation d; gd_gas_for_validation d; gd_gas_spent_on_compute d]
  && forallb (percent_ok (gd_intrinsic_gas d)) [gd_intrinsic_overhead d; gd_operator_overhead d]
  && (gd_gas_per_pubdata d * batch_overhead_l1_gas <=? u256_max).

Section Drawing.
Context {E : Type}.
Abbreviation LogM := (M Formatter E).

(** If [b], the operation prints the lines, and leaves the branches as they
    were; otherwise it panics. *)
Definition prints (m : LogM unit) (b : bool) (lines : list bool → list string) : Prop :=
  ∀ f, if b then m f = Ret tt (mkFormatter (sibling_stack f) (printed f ++ lines (sibling_stack f)))
       else ∃ msg, m f = Panic msg.
(** If [b], the operation gives [a]; otherwise it panics. *)
Definition gives {A} (m : LogM A) (b : bool) (a : A) : Prop :=
  ∀ f, if b then m f = Ret a f else ∃ msg, m f = Panic msg.

Lemma prints_ret : prints (mret tt) true (λ _, []).
Proof. intros [st out]. cbn. by rewrite app_nil_r. Qed.
Lemma prints_log l msg : prints (format_log l msg) true (λ st, [build_prefix st l +:+ msg]).
Proof. done. Qed.
Lemma prints_error l msg : prints (format_error l msg) true (λ st, [paint [Red] (build_prefix st l +:+ msg)]).
Proof. done. Qed.
Lemma prints_ext m b b' d d' : prints m b d → b = b' → (∀ st, d st = d' st) → prints m b' d'.
Proof. intros H <- He f. specialize (H f). destruct b; [|done]. by rewrite H, He. Qed.
Lemma prints_seq m1 m2 b1 b2 d1 d2 :
  prints m1 b1 d1 → prints m2 b2 d2 → prints (m1;; m2) (b1 && b2) (λ st, d1 st ++ d2 st).
Proof.
  intros H1 H2 f. specialize (H1 f). unfold mbind, M_bind. destruct b1; cbn.
  - rewrite H1. specialize (H2 (mkFormatter (sibling_stack f) (printed f ++ d1 (sibling_stack f)))).
    destruct b2; [|done]. rewrite H2. cbn. by rewrite <-app_assoc.
  - destruct H1 as [msg ->]. by exists msg.
Qed.
Lemma prints_bind {A} (m : LogM A) a k b1 b2 d :
  gives m b1 a → prints (k a) b2 d → prints (m ≫= k) (b1 && b2) d.
Proof.
  intros Hm Hk f. specialize (Hm f). specialize (Hk f). unfold mbind, M_bind. destruct b1; cbn.
  - by rewrite Hm.
  - destruct Hm as [msg ->]. by exists msg.
Qed.
Lemma prints_section title l m b d :
  prints m b d → prints (section title l m) b (λ st, (build_prefix st l +:+ title) :: d (st ++ [l])).
Proof.
  intros H f. unfold section. erewrite bind_run; [|apply prints_log]. erewrite bind_run; [|done].
  specialize (H (mkFormatter (sibling_stack f ++ [l]) (printed f ++ [build_prefix (sibling_stack f) l +:+ title]))).
  unfold mbind, M_bind, exit_scope, modify. cbn [sibling_stack printed]. destruct b.
  - rewrite H. cbn [sibling_stack printed]. rewrite length_app, Nat.add_comm. cbn [length Nat.add pred].
    by rewrite take_app_length, <-app_assoc.
  - destruct H as [msg ->]. by exists msg.
Qed.
Lemma prints_items items : prints (print_items items) true (λ st, lastly (draw st) (entries items)).
Proof.
  induction items as [|[k v] items IH]; [apply prints_ret|]. cbn [print_items].
  eapply prints_ext; [apply prints_seq; [apply prints_log|apply IH]|done|]. intros st. by destruct items.
Qed.
Lemma prints_warnings ws rest index total :
  (index + length ws + rest = total)%nat → (0 < rest)%nat →
  prints (print_warnings index total ws) true (λ st, concat (draw st false <$> (Alert <$> ws))).
Proof.
  revert index. induction ws as [|w ws IH]; intros index Ht Hr; [apply prints_ret|]. cbn [length print_warnings] in *.
  eapply prints_ext; [apply prints_seq; [apply prints_error|apply IH; lia]|done|].
  intros st. cbn. destruct (Nat.eqb_spec index (total - 1)); [lia|done].
Qed.

Lemma gives_sub a b : gives (sub_u256 a b) (b <=? a) (a - b).
Proof. intros f. unfold sub_u256. destruct (b <=? a); [done|by eexists]. Qed.
Lemma gives_mul a b : gives (mul_u256 a b) (a * b <=? u256_max) (a * b).
Proof. intros f. unfold mul_u256. destruct (_ <=? _); [done|by eexists]. Qed.
Lemma gives_percent part whole : gives (percent part whole) (percent_ok whole part) (percent_of part whole).
Proof.
  intros f. unfold percent, percent_ok, mul_u256, div_u256, mbind, M_bind.
  destruct (_ <=? _); [|by eexists]. cbn. destruct (whole =? 0); [by eexists|done].
Qed.

(** The gas details are drawn as the tree [gas_tree], every last child
    closing its branch, when the refund is within the limit and neither the gas
    used nor the gas of the setup is zero (and no product overflows); otherwise
    the call panics. *)
Theorem print_gas_details_spec (d : GasDetails) (overhead : Z) (f : Formatter) :
  if gas_printable d overhead then
    print_gas_details d overhead f =
    Ret (E := E) tt (mkFormatter (sibling_stack f) (printed f ++ draw (sibling_stack f) true (gas_tree d overhead)))
  else ∃ msg, print_gas_details d overhead f = Panic (E := E) msg.
Proof.
  revert f. change (prints (print_gas_details d overhead) (gas_printable d overhead)
                      (λ st, draw st true (gas_tree d overhead))).
  unfold print_gas_details. eapply prints_ext.
  { apply prints_section. cbv zeta. apply prints_seq.
    { apply prints_section. eapply prints_bind; [apply gives_sub|apply prints_items]. }
    apply prints_seq.
    { apply (prints_warnings _ 4); lia. }
    apply prints_seq.
    { apply prints_section. do 4 (eapply prints_bind; [apply gives_percent|]). apply prints_items. }
    apply prints_seq.
    { apply prints_section. do 2 (eapply prints_bind; [apply gives_percent|]). apply prints_items. }
    apply prints_seq.
    { apply prints_section, prints_items. }
    apply prints_section. eapply prints_bind; [apply gives_mul|apply prints_items]. }
  { unfold gas_printable. cbn [forallb]. rewrite !andb_true_r, <-!andb_assoc. done. }
  intros st. unfold gas_tree. cbn [draw]. f_equal.
  assert (length (gas_warnings d) <= 2)%nat as Hws.
  { unfold gas_warnings. by destruct (negb _), (negb _); cbn; lia. }
  destruct (gas_warnings d) as [|w1 [|w2 [|]]]; [reflexivity..|cbn in Hws; lia].
Qed.

(** The other logs are drawn as trees, always. *)
Definition storage_log_tree (e : StorageLogEntry) (pubdata_bytes : option PubdataBytesInfo) (log_index : nat) : LogTree :=
  Branch ("Log #" +:+ dec (Z.of_nat log_index)) (entries (storage_log_entries e pubdata_bytes)).

Lemma prints_storage_logs e pubdata_bytes log_index is_last :
  prints (print_storage_logs e pubdata_bytes log_index is_last) true
    (λ st, draw st is_last (storage_log_tree e pubdata_bytes log_index)).
Proof. exact (prints_section _ _ _ _ _ (prints_items _)). Qed.

Definition vm_details_tree (cycles_used computational_gas_used contracts_used : Z) (result : ExecutionResult)
    (user_friendly : VmRevertReason → string) : LogTree :=
  Branch "[VM Execution Results]"
    (entries [("Cycles Used", human cycles_used); ("Computation Gas Used", human computational_gas_used);
              ("Contracts Used", human contracts_used);
              ("Execution Outcome", if is_failed result then "Failure" else "Success")]
     ++ match result with
        | Success _ => []
        | Revert output => [Alert ("Revert Reason: " +:+ user_friendly output)]
        | Halt reason => [Alert ("Halt Reason: " +:+ reason)]
        end).

Lemma prints_vm_details cycles gas used result user_friendly :
  prints (print_vm_details cycles gas used result user_friendly) true
    (λ st, draw st true (vm_details_tree cycles gas used result user_friendly)).
Proof.
  destruct result; (eapply prints_ext;
    [apply prints_section; do 3 (apply prints_seq; [apply prints_log|]);
     first [apply prints_log|apply prints_seq; [apply prints_log|apply prints_error]]|done|done]).
Qed.
End Drawing.

End Console.
