(* ===== verification/Reports.v ===== *)
(** * Summaries and error reports

    [crates/core/src/formatter/transaction] (the summary of a transaction, its
    balance changes and details), [crates/core/src/formatter/errors] (error
    reports and the documentation in them) and
    [crates/common/src/utils/cost.rs] (amounts).

    The printing of decimal units ([alloy]), the layout of tables ([tabled]) and
    the contents of the error documentation are arguments. *)
From S2P Require Import Prelude Types Utils Text Filters Impersonate Time Pool Cache Fork Storage.
From S2P Require Import FeeModel Blockchain Inner AddressMap TraceTypes Traces TraceWriter Config.
From S2P Require Import ErrorDefs Errors Diagnostics Printing.
From Stdlib Require Import Ascii.
Local Open Scope string_scope.
Local Open Scope list_scope.
Local Open Scope Z_scope.

(** ** Amounts *)
Class CostText := {
  (** [format_ether(value)] and [format_units(value, "gwei").unwrap()] *)
  format_ether : Z → string;
  format_units_gwei : Z → string;
}.

Section Amounts.
Context {CT : CostText}.

Definition format_eth (value : Z) : string := format_ether value +:+ " ETH".
(** [{:.8}] of a string: its first eight characters *)
Definition format_gwei (value : Z) : string := str_take 8 (format_units_gwei value) +:+ " gwei".

Definition compute_delta (before after : Z) : string :=
  match Z.compare before after with
  | Lt => "+" +:+ format_gwei (after - before)
  | Eq => "0"
  | Gt => "-" +:+ format_gwei (before - after)
  end.
End Amounts.

(** [format_units] for gwei: all digits of the whole part, and nine more. *)
Class UnitsLaws {CT : CostText} := {
  gwei_fraction : Z → string;
  format_units_spec : ∀ v, 0 <= v <= u256_max →
    format_units_gwei v = dec (v / 10 ^ 9) +:+ "." +:+ gwei_fraction v;
}.

Lemma str_take_app_short n a b :
  (String.length a <= n)%nat → str_take n (a +:+ b) = a +:+ str_take (n - String.length a) b.
Proof.
  revert n. induction a as [|c a IH]; intros n H; [by rewrite Nat.sub_0_r|].
  destruct n as [|n]; cbn [String.length] in *; [lia|]. change (String c a +:+ b) with (String c (a +:+ b)). cbn [str_take].
  by rewrite IH by lia.
Qed.
Lemma str_take_app_long n a b : (n <= String.length a)%nat → str_take n (a +:+ b) = str_take n a.
Proof.
  revert n. induction a as [|c a IH]; intros [|n] H; [by destruct b|cbn in H; lia|done|].
  change (String c a +:+ b) with (String c (a +:+ b)). cbn [str_take String.length] in *. by rewrite IH by lia.
Qed.

(** Amounts below a hundred million gwei are shown with their whole part;
    of a larger amount only the first eight digits are, so that what is shown is
    at most a tenth of the amount. *)
Theorem format_gwei_spec {CT : CostText} {UL : UnitsLaws} (v : Z) :
  0 <= v <= u256_max →
  if v <? 10 ^ 17 then ∃ rest, format_gwei v = dec (v / 10 ^ 9) +:+ rest
  else ∃ digits, format_gwei v = digits +:+ " gwei" ∧ 10 * read_digits 0 digits <= v / 10 ^ 9.
Proof.
  intros Hv. unfold format_gwei. rewrite format_units_spec by done. set (q := v / 10 ^ 9).
  assert (0 <= q <= u256_max) as Hq.
  { split; [apply Z.div_pos; lia|]. apply Z.div_le_upper_bound; [lia|]. unfold u256_max in *. lia. }
  assert ((v <? 10 ^ 17) = (q <? 10 ^ 8)) as ->.
  { apply eq_true_iff_eq. rewrite !Z.ltb_lt. unfold q. split; intros H.
    - apply Z.div_lt_upper_bound; lia.
    - pose proof (Z.mul_succ_div_gt v (10 ^ 9)). lia. }
  destruct (decimal_spec q Hq) as (ds & Hds & Hdig & Hval & Hlen & Hmin).
  assert (dec q = digits_text ds) as Hdec by (unfold dec; by rewrite Hds).
  destruct (Z.ltb_spec q (10 ^ 8)) as [Hlt|Hge].
  - assert (length ds <= 8)%nat.
    { destruct (decide (q = 0)) as [H0|H0].
      - rewrite H0 in Hds. apply (f_equal length) in Hds. rewrite length_fmap in Hds. rewrite <-Hds. vm_compute. lia.
      - specialize (Hmin ltac:(lia)). destruct (le_lt_dec (length ds) 8) as [?|Hl]; [done|exfalso].
        assert (10 ^ 8 <= 10 ^ Z.of_nat (length ds - 1)) by (apply Z.pow_le_mono_r; lia). lia. }
    rewrite Hdec, str_take_app_short by (by rewrite length_digits_text). rewrite <-app_assoc_string. by eexists.
  - assert (8 < length ds)%nat as Hl.
    { destruct (le_lt_dec (length ds) 8) as [Hl|?]; [exfalso|done].
      pose proof (of_digits_range ds Hdig). assert (10 ^ Z.of_nat (length ds) <= 10 ^ 8) by (apply Z.pow_le_mono_r; lia). lia. }
    rewrite Hdec, str_take_app_long by (rewrite length_digits_text; lia). rewrite str_take_text.
    eexists. split; [reflexivity|].
    rewrite read_digits_text by (by apply Forall_take).
    change (foldl (λ acc d, acc * 10 + d) 0 (take 8 ds)) with (of_digits (take 8 ds)).
    pose proof (of_digits_take 8 ds Hdig) as [Ht _]. rewrite Hval in Ht.
    pose proof (of_digits_range (take 8 ds) (Forall_take _ _ _ Hdig)) as [H0 _].
    assert (10 ^ 1 <= 10 ^ Z.of_nat (length ds - 8)) by (apply Z.pow_le_mono_r; lia). nia.
Qed.

(** ** Transactions *)
Inductive TransactionStatus := TxSuccess | TxFailure | TxHalt.

Definition status_of (r : ExecutionResult) : TransactionStatus :=
  match r with Success _ => TxSuccess | Revert _ => TxFailure | Halt _ => TxHalt end.
Definition emoji (s : TransactionStatus) : string :=
  match s with TxSuccess => "✅" | TxFailure => "❌" | TxHalt => "⏸️" end.
Definition status_display (s : TransactionStatus) : string :=
  match s with TxSuccess => "SUCCESS" | TxFailure => "FAILED" | TxHalt => "HALTED" end.

(** What the views of a transaction need beyond [TransactionApi]: its nonce if
    it has one, the paymaster parameters of an L2 transaction, and the debug
    text of its format; and a table of balance changes. *)
Class ViewApi := {
  tx_nonce : Transaction → option Z;
  paymaster : L2TxCommonData → Address;
  paymaster_input : L2TxCommonData → Bytes;
  tx_format_debug : Transaction → string;
  (** [tabled::Table] in the modern style *)
  table : list (string * string * string * string) → string;
}.

Section Views.
Context {CO : Colors} {CT : CostText} {TA : TransactionApi} {VA : ViewApi}.

(** [{:?}] of hashes and addresses *)
Definition hash_debug (h : H256) : string := "0x" +:+ hex_h256 h.
Definition address_debug (a : Address) : string := "0x" +:+ hex_address a.

Record TransactionSummary := mkSummary {
  su_status : TransactionStatus;
  su_tx_hash : H256;
  su_initiator : Address;
  su_payer : Address;
  su_l2_gas_price : Z;
  su_gas_limit : Z;
  su_gas_used : Z;
  su_gas_refunded : Z;
  su_balance_diffs : option (list BalanceDiff);
}.

(** [TransactionSummary::new]; the subtraction of [U256] panics on underflow *)
Definition summary_new {S E} (l2_gas_price : Z) (tx : Transaction) (tx_result : VmResult)
    (balance_diffs : option (list BalanceDiff)) : M S E TransactionSummary :=
  used ← sub_u256 (tx_gas_limit tx) (vr_gas_refunded tx_result);
  mret (mkSummary (status_of (vr_result tx_result)) (tx_hash tx) (initiator_account tx) (payer tx) l2_gas_price
          (tx_gas_limit tx) used (vr_gas_refunded tx_result) balance_diffs).

(** [BalanceDiffRepr::from] *)
Definition balance_diff_repr (d : BalanceDiff) : string * string * string * string :=
  (labeled_address_display (bd_address d), format_eth (bd_balance_before d), format_eth (bd_balance_after d),
   compute_delta (bd_balance_before d) (bd_balance_after d)).

(** [Display for TransactionSummary] *)
Definition summary_display {S E} (s : TransactionSummary) : M S E string :=
  paid ← mul_u256 (su_l2_gas_price s) (su_gas_used s);
  refunded ← mul_u256 (su_l2_gas_price s) (su_gas_refunded s);
  mret (newline +:+ emoji (su_status s) +:+ " [" +:+ status_display (su_status s) +:+ "] Hash: " +:+ hash_debug (su_tx_hash s) +:+ newline
    +:+ "Initiator: " +:+ address_debug (su_initiator s) +:+ newline
    +:+ "Payer: " +:+ address_debug (su_payer s) +:+ newline
    +:+ "Gas Limit: " +:+ human (su_gas_limit s) +:+ " | Used: " +:+ human (su_gas_used s)
    +:+ " | Refunded: " +:+ human (su_gas_refunded s) +:+ newline
    +:+ "Paid: " +:+ format_eth paid +:+ " (" +:+ dec (su_gas_used s) +:+ " gas * " +:+ format_gwei (su_l2_gas_price s) +:+ ")" +:+ newline
    +:+ "Refunded: " +:+ format_eth refunded +:+ newline
    +:+ match su_balance_diffs s with
        | None | Some [] => EmptyString
        | Some diffs => newline +:+ table (balance_diff_repr <$> diffs)
        end).

(** ** Writing lines *)
Definition writeln (s : string) (w : IndentingWriter) : IndentingWriter := iw_write_str (chars (s +:+ newline)) w.

(** [writeln!] for every line of a list *)
Definition write_lines (ls : list string) (w : IndentingWriter) : IndentingWriter := foldl (λ w s, writeln s w) w ls.

Definition paymaster_lines (d : L2TxCommonData) : list string :=
  if negb (paymaster d =? 0) || negb (bool_decide (paymaster_input d = [])) then
    [paint [Cyan] "Paymaster details:";
     "Paymaster Address: " +:+ address_debug (paymaster d);
     "Paymaster Input: 0x" +:+ (if bool_decide (paymaster_input d = []) then "None" else hex_encode (paymaster_input d))]
  else [].

Definition input_lines (tx : Transaction) : list string :=
  match common_data tx with
  | L2 d => match l2_input d with
            | Some (_, data) => ["Input Data: 0x" +:+ hex_encode data; "Hash: " +:+ hash_debug (tx_hash tx)]
            | None => []
            end
  | _ => []
  end.
Definition common_lines (tx : Transaction) : list string :=
  (match tx_nonce tx with Some n => ["Nonce: " +:+ dec n] | None => [] end)
  ++ (match recipient_account tx with Some a => ["To: " +:+ address_debug a] | None => [] end)
  ++ ["From: " +:+ address_debug (initiator_account tx)]
  ++ input_lines tx.
Definition paymaster_part (tx : Transaction) : list string :=
  match common_data tx with L2 d => paymaster_lines d | _ => [] end.

(** [PrettyTransaction] and [PrettyTransactionEstimationView] *)
Definition pretty_transaction (tx : Transaction) : list ascii :=
  let head := chars (newline +:+ " " +:+ paint [Cyan] "Transaction details:" +:+ newline
                     +:+ "   Transaction Type: " +:+ tx_format_debug tx +:+ newline) in
  iw_out (write_lines
    (common_lines tx
     ++ ["gas limit: " +:+ dec (tx_gas_limit tx);
         "Gas Price: " +:+ format_gwei (tx_max_fee_per_gas tx);
         "Gas Per Pubdata Limit: " +:+ dec (gas_per_pubdata_byte_limit tx)]
     ++ paymaster_part tx)
    (iw_more (writer_new None head))).
Definition pretty_transaction_estimation (tx : Transaction) : list ascii :=
  let head := chars (newline +:+ paint [Cyan] "Transaction details:" +:+ newline) in
  iw_out (write_lines (["Transaction Type: " +:+ tx_format_debug tx] ++ common_lines tx ++ paymaster_part tx)
    (iw_more (writer_new None head))).
End Views.

(** ** Documentation of errors *)
Record LikelyCause := mkCause {
  lc_cause : string;
  lc_fixes : list string;
  lc_references : list string;
}.
Record ErrorDocumentation := mkDocumentation {
  ed_summary : string;
  ed_description : string;
  ed_likely_causes : list LikelyCause;
}.

Class DocumentationApi := {
  (** the entry of the error model under a key *)
  doc_contents : string → ErrorDocumentation;
}.

Section Documentation.
Context {CO : Colors} {DA : DocumentationApi} {ET : ErrorText}.

(** [AnvilErrorDocumentation::get_documentation]: an error of the lookup is
    logged, and there is no documentation *)
Definition documentation_of (e : ZksyncError) : option ErrorDocumentation :=
  match get_documentation (get_identifier e) with
  | Ok key => doc_contents <$> key
  | Err _ => None
  end.

Definition bullets (items : list string) : string :=
  foldr (λ i rest, "  - " +:+ i +:+ newline +:+ rest) EmptyString items.

Definition format_likely_causes (doc : ErrorDocumentation) : string :=
  if bool_decide (length (ed_likely_causes doc) ≠ 0%nat) then
    newline +:+ paint [Cyan] "Likely causes:" +:+ newline +:+ bullets (lc_cause <$> ed_likely_causes doc)
  else EmptyString.

Definition has_some (f : LikelyCause → list string) (doc : ErrorDocumentation) : bool :=
  existsb (λ c, match f c with [] => false | _ => true end) (ed_likely_causes doc).

Definition format_fixes (doc : ErrorDocumentation) : string :=
  if has_some lc_fixes doc then
    paint [Green; Bold] (newline +:+ "Possible fixes:") +:+ newline +:+ bullets (ed_likely_causes doc ≫= lc_fixes)
  else EmptyString.

Definition format_references (doc : ErrorDocumentation) : string :=
  if has_some lc_references doc then
    newline +:+ paint [Cyan; Bold] "For more information about this error, visit:" +:+ " " +:+ newline
      +:+ bullets (paint [Underline] <$> (ed_likely_causes doc ≫= lc_references))
  else EmptyString.

Definition format_summary (doc : ErrorDocumentation) : string := ed_summary doc.
Definition format_description (doc : ErrorDocumentation) : string := paint [Blue] "note:" +:+ " " +:+ ed_description doc.

(** The views; a [Display] is its text *)
Definition full_documentation (e : ZksyncError) : string :=
  match documentation_of e with
  | Some doc =>
      format_summary doc
        +:+ (if bool_decide (length (ed_likely_causes doc) ≠ 0%nat) then
               newline +:+ format_likely_causes doc +:+ newline +:+ format_fixes doc +:+ newline
                 +:+ format_references doc +:+ newline
             else EmptyString)
        +:+ format_description doc
  | None => EmptyString
  end.
Definition summary_view (e : ZksyncError) : string :=
  match documentation_of e with
  | Some doc => format_summary doc
  | None => paint [BrightRed] "error:" +:+ " An unknown error occurred"
  end.
Definition causes_view (e : ZksyncError) : string :=
  match documentation_of e with
  | Some doc =>
      if bool_decide (length (ed_likely_causes doc) ≠ 0%nat) then
        format_likely_causes doc +:+ format_fixes doc +:+ format_references doc
      else EmptyString
  | None => EmptyString
  end.
Definition description_view (e : ZksyncError) : string :=
  match documentation_of e with Some doc => format_description doc | None => EmptyString end.
(** [ErrorMessageView] and [format_message] *)
Definition error_message_view (e : ZksyncError) : string :=
  paint [Red; Bold] "error" +:+ ": " +:+ paint [Red] (get_message e).

(** ** Reports *)
Context {CT : CostText} {TA : TransactionApi} {VA : ViewApi}.

Definition bar : list ascii := chars "│ ".
Definition equals_sign : list ascii := chars "= ".

(** [ExecutionErrorReport] *)
Definition execution_error_report (e : ZksyncError) (tx : Transaction) : list ascii :=
  let wr := writer_new (Some bar) [] in
  let wr := writeln (error_message_view e) wr in
  let wr := iw_more wr in
  let wr := writeln (summary_view e) wr in
  let wr := iw_write_str (pretty_transaction tx ++ [new_line]) wr in
  let wr := writeln (causes_view e) wr in
  let wr := writeln (description_view e) wr in
  let wr := writeln (paint [Red] "error:" +:+ " transaction execution halted due to the above error") wr in
  iw_out wr.

(** [EstimationErrorReport]: the branch for an error [inner] of the VM, which is
    [generic] or not *)
Definition estimation_inner_report (error inner : ZksyncError) (generic : bool) (tx : Transaction) : list ascii :=
  let w := writer_new (Some bar) (chars (newline +:+ error_message_view error +:+ newline)) in
  let w := writeln (summary_view error) w in
  let w := push_prefix equals_sign (iw_more w) in
  let w := writeln (error_message_view inner) w in
  let w := pop_prefix w in
  let w := if generic then w else writeln (summary_view inner) w in
  let w := writeln (causes_view inner) w in
  let w := iw_write_str (pretty_transaction_estimation tx ++ [new_line]) w in
  let w := if generic then w else writeln (description_view inner) w in
  let w := iw_less w in
  let w := writeln (description_view error) w in
  iw_out w.

Definition halt_is_generic (e : HaltError) : bool := match e with HaltError_GenericError _ => true | _ => false end.
Definition revert_is_generic (e : RevertError) : bool := match e with RevertError_GenericError _ => true | _ => false end.

Definition estimation_error_report (error : GasEstimationError) (tx : Transaction) : list ascii :=
  match error with
  | GasEstimationError_TransactionHalt inner | GasEstimationError_TransactionAlwaysHalts inner =>
      estimation_inner_report (to_unified error) (to_unified inner) (halt_is_generic inner) tx
  | GasEstimationError_TransactionRevert inner _ | GasEstimationError_TransactionAlwaysReverts inner _ =>
      estimation_inner_report (to_unified error) (to_unified inner) (revert_is_generic inner) tx
  | other =>
      let e := to_unified other in
      let w := push_prefix equals_sign (writer_new (Some bar) (chars newline)) in
      let w := writeln (error_message_view e) w in
      let w := pop_prefix (iw_more w) in
      let w := writeln (summary_view e) w in
      let w := writeln (causes_view e) w in
      let w := iw_write_str (pretty_transaction_estimation tx ++ [new_line]) w in
      let w := writeln (description_view e) w in
      iw_out w
  end.

(** ** How a report reads *)
Lemma chars_app s t : chars (s +:+ t) = chars s ++ chars t.
Proof. unfold chars. induction s as [|c s IH]; [done|]. cbn. by rewrite <-IH. Qed.

Lemma newline_after_line nl t : newline_after nl (t ++ [new_line]) = true.
Proof. unfold newline_after. rewrite last_snoc. by apply bool_decide_true. Qed.

(** [line_start], by what it depends on *)
Definition start_of (n : nat) (p : list (list ascii)) : list ascii :=
  concat (replicate n TABULATION) ++ default [] (last p).

Lemma write_line t out n p :
  iw_write_str (t ++ [new_line]) (mkWriter out n p true) =
  mkWriter (out ++ indented (start_of n p) true (t ++ [new_line])) n p true.
Proof. rewrite write_str_spec. cbn [iw_out iw_indent iw_prefix iw_newline]. by rewrite newline_after_line. Qed.

Lemma writeln_line s out n p :
  writeln s (mkWriter out n p true) =
  mkWriter (out ++ indented (start_of n p) true (chars s ++ [new_line])) n p true.
Proof. unfold writeln. rewrite chars_app. apply write_line. Qed.

Lemma push_prefix_mk q out n p b : push_prefix q (mkWriter out n p b) = mkWriter out n (p ++ [q]) b.
Proof. done. Qed.
Lemma pop_prefix_mk q out n p b : pop_prefix (mkWriter out n (p ++ [q]) b) = mkWriter out n p b.
Proof.
  unfold pop_prefix. cbn [iw_out iw_indent iw_prefix iw_newline]. rewrite length_app, Nat.add_comm.
  cbn [length Nat.add pred]. by rewrite take_app_length.
Qed.
Lemma iw_more_mk out n p b : iw_more (mkWriter out n p b) = mkWriter out (Datatypes.S n) p b.
Proof. done. Qed.
Lemma iw_less_mk out n p b : iw_less (mkWriter out n p b) = mkWriter out (pred n) p b.
Proof. done. Qed.

(** Runs a report to the writer it ends with. *)
Ltac run_writer :=
  repeat first [rewrite writeln_line|rewrite write_line|rewrite pop_prefix_mk|rewrite push_prefix_mk
               |rewrite iw_more_mk|rewrite iw_less_mk]; cbn [iw_out].

(** The lines of texts that follow each other, with the same start. *)
Definition paragraph (start : list ascii) (texts : list (list ascii)) : list ascii :=
  indented start true (texts ≫= λ t, t ++ [new_line]).

Lemma paragraph_nil start : paragraph start [] = [].
Proof. done. Qed.
Lemma paragraph_cons start t ts :
  paragraph start (t :: ts) = indented start true (t ++ [new_line]) ++ paragraph start ts.
Proof. unfold paragraph. cbn [mbind list_bind]. by rewrite indented_app, newline_after_line. Qed.

Lemma paragraph_read start texts :
  unindent (length start) (length start) (paragraph start texts) = texts ≫= λ t, t ++ [new_line].
Proof. exact (unindent_indented start true _). Qed.

(** The report of a failed transaction has the message after a bar, and
    below it, indented, the summary, the transaction, the causes and the
    description, every line after a bar, from which the texts can be read back. *)
Theorem execution_report_spec (e : ZksyncError) (tx : Transaction) :
  let start := TABULATION ++ bar in
  let texts := [chars (summary_view e); pretty_transaction tx; chars (causes_view e); chars (description_view e);
                chars (paint [Red] "error:" +:+ " transaction execution halted due to the above error")] in
  execution_error_report e tx = paragraph bar [chars (error_message_view e)] ++ paragraph start texts ∧
  unindent (length start) (length start) (paragraph start texts) = texts ≫= λ t, t ++ [new_line].
Proof.
  cbv zeta. split; [|apply paragraph_read]. rewrite !paragraph_cons, !paragraph_nil, !app_nil_r.
  unfold execution_error_report, writer_new. run_writer. by rewrite <-!app_assoc.
Qed.

(** The report of a failed estimation: the message of the estimation, its
    summary after a bar, then indented the message of the error of the VM after
    an equals sign and its causes, the transaction and, unless it is a generic
    one, its documentation after bars, and the description of the estimation's
    error after a bar again. *)
Theorem estimation_report_spec (error : GasEstimationError) (inner : ZksyncError) (generic : bool) (tx : Transaction) :
  (∃ h, (error = GasEstimationError_TransactionHalt h ∨ error = GasEstimationError_TransactionAlwaysHalts h) ∧
        inner = to_unified h ∧ generic = halt_is_generic h) ∨
  (∃ r data, (error = GasEstimationError_TransactionRevert r data ∨ error = GasEstimationError_TransactionAlwaysReverts r data) ∧
        inner = to_unified r ∧ generic = revert_is_generic r) →
  let e := to_unified error in
  let documented view := if generic then [] else [chars (view inner)] in
  estimation_error_report error tx =
  chars (newline +:+ error_message_view e +:+ newline)
  ++ paragraph bar [chars (summary_view e)]
  ++ paragraph (TABULATION ++ equals_sign) [chars (error_message_view inner)]
  ++ paragraph (TABULATION ++ bar)
       (documented summary_view ++ [chars (causes_view inner); pretty_transaction_estimation tx] ++ documented description_view)
  ++ paragraph bar [chars (description_view e)].
Proof.
  intros Herror. cbv zeta.
  transitivity (estimation_inner_report (to_unified error) inner generic tx).
  { by destruct Herror as [(h&[-> | ->]&->& ->)|(r&data&[-> | ->]&->& ->)]. }
  unfold estimation_inner_report, writer_new.
  destruct generic; run_writer; cbn [app]; rewrite !paragraph_cons, !paragraph_nil, !app_nil_r, <-!app_assoc.
  - reflexivity.
  - reflexivity.
Qed.
End Documentation.

(** ** A small instance *)
Module SampleReports.
(** A terminal without colours, and units as [alloy] prints them. *)
#[export] Instance plain : Colors := {| paint _ s := s |}.

Fixpoint zeros (n : nat) : string := match n with O => EmptyString | Datatypes.S n => "0" +:+ zeros n end.
Definition fraction (v : Z) : string :=
  let d := dec (v mod 10 ^ 9) in zeros (9 - String.length d) +:+ d.

#[export] Instance sample_costs : CostText := {|
  format_ether v := dec (v / 10 ^ 18);
  format_units_gwei v := dec (v / 10 ^ 9) +:+ "." +:+ fraction v;
|}.
#[export, refine] Instance sample_units : UnitsLaws := {| gwei_fraction := fraction |}.
Proof. done. Defined.

(** The default gas price is shown in full; one ether, a billion gwei, is shown
    as a hundredth of it. *)
Lemma format_gwei_witness :
  (∃ rest, format_gwei 45250000 = dec 0 +:+ rest) ∧
  (∃ digits, format_gwei (10 ^ 18) = digits +:+ " gwei" ∧ 10 * read_digits 0 digits <= 10 ^ 9).
Proof.
  split.
  - exact (format_gwei_spec 45250000 ltac:(vm_compute; split; discriminate)).
  - exact (format_gwei_spec (10 ^ 18) ltac:(vm_compute; split; discriminate)).
Defined.

Example gwei_shown :
  format_gwei 45250000 = "0.045250 gwei" ∧
  compute_delta 0 (10 ^ 18) = "+10000000 gwei" ∧ compute_delta 0 (10 ^ 16) = "+10000000 gwei".
Proof. by vm_compute. Qed.

(** The test of [indenting_writer.rs]. *)
Example multiline_write :
  iw_out (iw_write_str (chars (" Hello " +:+ newline +:+ newline +:+ " world " +:+ newline))
            (iw_more (writer_new (Some (chars "|")) []))) =
  chars ("   | Hello " +:+ newline +:+ "   |" +:+ newline +:+ "   | world " +:+ newline).
Proof. by vm_compute. Qed.

(** A tree with a branch that goes on and one that does not. *)
Example drawn :
  draw [] true (Branch "a" [Branch "b" [Entry "c"]; Branch "d" [Entry "e"; Entry "f"]]) =
  ["a"; "    ├─ b"; "    │   └─ c"; "    └─ d"; "        ├─ e"; "        └─ f"].
Proof. by vm_compute. Qed.

(** Without gas for the setup there is nothing to divide by. *)
Example zero_setup_panics :
  print_gas_details (E := unit) (mkGasDetails 1000 0 0 10 10 0 0 0 0 0 0 0 0 0 0 1 1000 10 1000 1000 0) 1 formatter_new =
  Panic "division by zero".
Proof. by vm_compute. Qed.

#[export] Instance sample_documentation : DocumentationApi := {|
  doc_contents key := mkDocumentation ("summary of " +:+ key) "a description" [mkCause "a cause" ["a fix"] []];
|}.
#[export] Instance sample_views : ViewApi := {|
  tx_nonce _ := Some 0;
  paymaster _ := 0;
  paymaster_input _ := [];
  tx_format_debug _ := "EIP_1559_TX_TYPE";
  table _ := EmptyString;
|}.
#[export] Instance sample_error_text : ErrorText := {|
  h256_display := hash_debug; h256_json _ := JNull; uint_json _ := JNull |}.
#[local] Existing Instance Sample.api.

Definition out_of_gas : HaltError := HaltError_GenericError "out of gas".

(** A generic halt: its summary and description are left out. *)
Lemma estimation_report_witness :
  estimation_error_report (GasEstimationError_TransactionHalt out_of_gas) (Sample.l2 11 5 50000000) =
  chars (newline +:+ error_message_view (to_unified (GasEstimationError_TransactionHalt out_of_gas)) +:+ newline)
  ++ paragraph bar [chars (summary_view (to_unified (GasEstimationError_TransactionHalt out_of_gas)))]
  ++ paragraph (TABULATION ++ equals_sign) [chars (error_message_view (to_unified out_of_gas))]
  ++ paragraph (TABULATION ++ bar)
       [chars (causes_view (to_unified out_of_gas)); pretty_transaction_estimation (Sample.l2 11 5 50000000)]
  ++ paragraph bar [chars (description_view (to_unified (GasEstimationError_TransactionHalt out_of_gas)))].
Proof.
  exact (estimation_report_spec (GasEstimationError_TransactionHalt out_of_gas) (to_unified out_of_gas) true
    (Sample.l2 11 5 50000000)
    (or_introl (ex_intro _ out_of_gas (conj (or_introl eq_refl) (conj eq_refl eq_refl))))).
Defined.
End SampleReports.
