(* ===== verification/Logging.v ===== *)
(** * Logging and the shell

    [crates/core/src/observability.rs], the log filter that can be changed while
    the node runs, and [crates/common/src/shell.rs], through which everything is
    printed.

    The syntax of filter directives ([tracing_subscriber]) and the terminal are
    arguments. *)
From S2P Require Import Prelude Types Utils Text AddressMap TraceTypes Traces TraceWriter Config.
From Stdlib Require Import Ascii.
Local Open Scope string_scope.
Local Open Scope list_scope.
Local Open Scope Z_scope.

(** ** The log filter *)
Inductive LevelFilter := TRACE | DEBUG | INFO | WARN | ERROR | OFF.

#[export] Instance LevelFilter_eq_dec : EqDecision LevelFilter.
Proof. solve_decision. Defined.

Definition level_of_log (l : LogLevel) : LevelFilter :=
  match l with
  | LogTrace => TRACE | LogDebug => DEBUG | LogInfo => INFO | LogWarn => WARN | LogError => ERROR | LogNone => OFF
  end.

(** [level.to_string().to_lowercase()] *)
Definition level_text (l : LevelFilter) : string :=
  match l with
  | TRACE => "trace" | DEBUG => "debug" | INFO => "info" | WARN => "warn" | ERROR => "error" | OFF => "off"
  end.

(** [EnvFilter]: the level of each target that has one. *)
Abbreviation EnvFilter := (gmap string LevelFilter).

Class DirectiveApi := {
  (** [directive.parse()], with the message of its error *)
  parse_directive : string → Prelude.result (string * LevelFilter) string;
  (** [EnvFilter::from_default_env()] and [EnvFilter::new("off")] *)
  from_default_env : EnvFilter;
  filter_off : EnvFilter;
}.

(** [s.split(c)] *)
Fixpoint split_on (c : ascii) (s : string) : list string :=
  match s with
  | EmptyString => [EmptyString]
  | String d s =>
      if Ascii.eqb c d then EmptyString :: split_on c s
      else match split_on c s with
           | [] => [String d EmptyString]
           | piece :: pieces => String d piece :: pieces
           end
  end.

Definition comma : ascii := ascii_of_nat 44.

Section Observability.
Context {D : DirectiveApi}.

(** The filter that the subscriber uses is [ob_filter]; the subscriber lives as
    long as the program, so that a reload does not fail. *)
Record Observability := mkObservability {
  ob_binary_names : list string;
  ob_filter : EnvFilter;
  ob_last_directives : string;
}.

(** [parse_filter] *)
Fixpoint add_directives (filter : EnvFilter) (directives : list string) : Prelude.result EnvFilter string :=
  match directives with
  | [] => Ok filter
  | d :: ds =>
      match parse_directive d with
      | Ok (target, level) => add_directives (<[target := level]> filter) ds
      | Err e => Err e
      end
  end.
Definition parse_filter (directives : string) : Prelude.result EnvFilter string :=
  add_directives from_default_env (split_on comma directives).

(** [Observability::init], without the layers that print *)
Definition observability_init (binary_names : list string) (log_level_filter : LevelFilter) (disabled : bool)
    : Prelude.result Observability string :=
  let directives := write_interspersed "," ((λ x, x +:+ "=" +:+ level_text log_level_filter) <$> binary_names) in
  match (if disabled then Ok filter_off else parse_filter directives) with
  | Ok filter => Ok (mkObservability binary_names filter directives)
  | Err e => Err e
  end.

Section Operations.
Abbreviation ObsM := (M Observability string).

Definition reload (filter : EnvFilter) : ObsM unit :=
  modify (λ o, mkObservability (ob_binary_names o) filter (ob_last_directives o)).
Definition set_last_directives (directives : string) : ObsM unit :=
  modify (λ o, mkObservability (ob_binary_names o) (ob_filter o) directives).

Definition observability_set_logging (directives : string) : ObsM unit :=
  new_filter ← try_result (parse_filter directives);
  reload new_filter;;
  set_last_directives directives.

Definition level_directives (binary_names : list string) (level : LevelFilter) : string :=
  write_interspersed ("=" +:+ level_text level +:+ ",") binary_names.
Definition observability_set_log_level (level : LogLevel) : ObsM unit :=
  names ← gets ob_binary_names;
  let directives := level_directives names (level_of_log level) in
  new_filter ← try_result (parse_filter directives);
  reload new_filter;;
  set_last_directives directives.

Definition enable_logging : ObsM unit :=
  last_directives ← gets ob_last_directives;
  new_filter ← try_result (parse_filter last_directives);
  reload new_filter.
Definition disable_logging : ObsM unit := reload filter_off.
End Operations.
End Observability.

(** ** Theorems on the filter

    Directives as [tracing_subscriber] documents them: a target with a level,
    and a target alone, which enables everything. *)
Class DirectiveLaws {D : DirectiveApi} := {
  is_target : string → Prop;
  target_plain : ∀ n, is_target n → split_on comma n = [n];
  parse_leveled : ∀ n l, is_target n → parse_directive (n +:+ "=" +:+ level_text l) = Ok (n, l);
  parse_alone : ∀ n, is_target n → parse_directive n = Ok (n, TRACE);
}.

Lemma split_on_nonempty c s : ∃ p ps, split_on c s = p :: ps.
Proof.
  induction s as [|d s (p&ps&IH)]; [by eexists _, _|]. cbn. rewrite IH.
  destruct (Ascii.eqb c d); by eexists _, _.
Qed.

Lemma split_on_app c a b :
  split_on c (a +:+ String c b) = split_on c a ++ split_on c b.
Proof.
  induction a as [|d a IH].
  - change (split_on c (String c b) = [EmptyString] ++ split_on c b). cbn [split_on]. by rewrite Ascii.eqb_refl.
  - change (String d a +:+ String c b) with (String d (a +:+ String c b)). cbn [split_on]. rewrite IH.
    destruct (Ascii.eqb c d); [done|]. destruct (split_on_nonempty c a) as (p&ps&->). done.
Qed.

Lemma split_interspersed c items :
  items ≠ [] → Forall (λ i, split_on c i = [i]) items →
  split_on c (write_interspersed (String c EmptyString) items) = items.
Proof.
  intros Hne Hall. destruct items as [|i items]; [done|]. clear Hne. cbn [write_interspersed].
  revert i Hall. induction items as [|j items IH]; intros i Hall; cbn [concat_sep].
  - apply Forall_cons in Hall as [Hi _]. by rewrite app_empty_r.
  - apply Forall_cons in Hall as [Hi Hall].
    change (String c EmptyString +:+ j +:+ concat_sep (String c EmptyString) items)
      with (String c (j +:+ concat_sep (String c EmptyString) items)).
    rewrite split_on_app, Hi, IH by done. done.
Qed.

Lemma split_plain_app c a b : split_on c a = [a] → split_on c b = [b] → split_on c (a +:+ b) = [a +:+ b].
Proof.
  intros Ha Hb. revert Ha. induction a as [|d a IH]; intros Ha; [done|].
  change (String d a +:+ b) with (String d (a +:+ b)). cbn [split_on] in *.
  destruct (split_on_nonempty c a) as (p&ps&Hp). rewrite Hp in *.
  destruct (Ascii.eqb c d); [discriminate|]. injection Ha as -> ->. by rewrite IH.
Qed.

(** [Vec::join] puts the level after every name but the last. *)
Fixpoint all_but_last (suffix : string) (names : list string) : list string :=
  match names with
  | [] => []
  | [n] => [n]
  | n :: names => (n +:+ suffix) :: all_but_last suffix names
  end.

Lemma join_levels suffix names :
  write_interspersed (suffix +:+ ",") names = write_interspersed "," (all_but_last suffix names).
Proof.
  destruct names as [|n names]; [done|]. revert n. induction names as [|m names IH]; intros n; [done|].
  cbn [write_interspersed concat_sep all_but_last]. specialize (IH m). cbn [write_interspersed] in IH.
  change (n +:+ (suffix +:+ ",") +:+ m +:+ concat_sep (suffix +:+ ",") names =
          (n +:+ suffix) +:+ concat_sep "," (all_but_last suffix (m :: names))).
  destruct (all_but_last suffix (m :: names)) as [|x xs] eqn:Hx; [by destruct names|].
  change (concat_sep "," (x :: xs)) with ("," +:+ (x +:+ concat_sep "," xs)).
  cbn [write_interspersed] in IH. rewrite IH. by rewrite <-!app_assoc_string.
Qed.

Section FilterLaws.
Context {D : DirectiveApi} {L : DirectiveLaws}.

Lemma leveled_plain n l : is_target n → split_on comma (n +:+ "=" +:+ level_text l) = [n +:+ "=" +:+ level_text l].
Proof. intros Hn. apply split_plain_app; [by apply target_plain|by destruct l]. Qed.

(** The filter of a list of directives that parse. *)
Lemma add_directives_ok filter ds ps :
  Forall2 (λ d p, parse_directive d = Ok p) ds ps → add_directives filter ds = Ok (extend filter ps).
Proof.
  intros H. revert filter. induction H as [|d [t l] ds ps Hd _ IH]; intros filter; [done|]. cbn. by rewrite Hd, IH.
Qed.

Definition levels_but_last (l : LevelFilter) : list string → list (string * LevelFilter) :=
  fix go names := match names with [] => [] | [n] => [(n, TRACE)] | n :: names => (n, l) :: go names end.

Lemma parse_all_but_last l names :
  Forall is_target names →
  Forall2 (λ d p, parse_directive d = Ok p) (all_but_last ("=" +:+ level_text l) names) (levels_but_last l names).
Proof.
  induction 1 as [|n names Hn Hall IH]; [constructor|]. destruct names as [|m names].
  - constructor; [by apply parse_alone|constructor].
  - constructor; [by apply parse_leveled|exact IH].
Qed.

Lemma all_but_last_plain l names :
  Forall is_target names → Forall (λ i, split_on comma i = [i]) (all_but_last ("=" +:+ level_text l) names).
Proof.
  induction 1 as [|n names Hn Hall IH]; [constructor|]. destruct names as [|m names].
  - constructor; [by apply target_plain|constructor].
  - constructor; [by apply leveled_plain|exact IH].
Qed.

Lemma levels_keys l names : (levels_but_last l names).*1 = names.
Proof. induction names as [|n [|m names] IH]; [done..|]. cbn in *. by rewrite IH. Qed.

Lemma levels_lookup l names n :
  NoDup names → n ∈ names → (n, if bool_decide (last names = Some n) then TRACE else l) ∈ levels_but_last l names.
Proof.
  induction names as [|a [|b names] IH]; intros Hnd; [by intros ?%elem_of_nil|..].
  - intros ->%list_elem_of_singleton. rewrite bool_decide_true by done. by left.
  - apply NoDup_cons in Hnd as [Ha Hnd]. rewrite last_cons_cons. intros [->|Hn]%elem_of_cons.
    + rewrite bool_decide_false by (intros Hl; by apply Ha, last_Some_elem_of). by left.
    + right. by apply IH.
Qed.

Lemma level_directives_filter l names :
  names ≠ [] → Forall is_target names →
  parse_filter (level_directives names l) = Ok (extend from_default_env (levels_but_last l names)).
Proof.
  intros Hne Hall. unfold parse_filter, level_directives.
  rewrite app_assoc_string, join_levels, split_interspersed.
  - by apply add_directives_ok, parse_all_but_last.
  - by destruct names as [|? [|]].
  - by apply all_but_last_plain.
Qed.

(** At the start every binary logs at the chosen level.  A later change of
    the level reaches all of them but the last one, of which everything is
    logged, whatever the level. *)
Theorem log_level_spec (names : list string) (start : LevelFilter) (level : LogLevel) :
  names ≠ [] → NoDup names → Forall is_target names →
  ∃ o o', observability_init names start false = Ok o ∧ observability_set_log_level level o = Ret tt o' ∧
    (∀ n, n ∈ names → ob_filter o !! n = Some start) ∧
    (∀ n, n ∈ names → ob_filter o' !! n =
       Some (if bool_decide (last names = Some n) then TRACE else level_of_log level)).
Proof.
  intros Hne Hnd Hall. set (ps := (λ n, (n, start)) <$> names).
  assert (parse_filter (write_interspersed "," ((λ x, x +:+ "=" +:+ level_text start) <$> names)) =
          Ok (extend from_default_env ps)) as Hinit.
  { unfold parse_filter. rewrite split_interspersed.
    - apply add_directives_ok, Forall2_fmap, Forall_Forall2_diag.
      eapply Forall_impl; [exact Hall|]. intros n Hn. by apply parse_leveled.
    - by destruct names.
    - apply Forall_fmap. eapply Forall_impl; [exact Hall|]. intros n Hn. by apply leveled_plain. }
  eexists _, _. unfold observability_init. rewrite Hinit. split_and!; [reflexivity| | |].
  - unfold observability_set_log_level. erewrite bind_run; [|reflexivity]. cbv zeta. cbn [ob_binary_names].
    rewrite level_directives_filter by done. erewrite bind_run; [|reflexivity]. reflexivity.
  - intros n Hn. cbn. apply lookup_extend_in.
    + unfold ps. by rewrite <-list_fmap_compose, list_fmap_id.
    + apply list_elem_of_fmap. by exists n.
  - intros n Hn. cbn. apply lookup_extend_in; [by rewrite levels_keys|by apply levels_lookup].
Qed.
End FilterLaws.

(** Logging that is switched off and on again is as it was before, for any
    directives that were accepted; directives that do not parse change nothing. *)
Theorem logging_toggle {D : DirectiveApi} (directives : string) (o : Observability) :
  match parse_filter directives with
  | Ok _ =>
      ∃ o', observability_set_logging directives o = Ret tt o' ∧ ob_last_directives o' = directives ∧
        (disable_logging;; enable_logging) o' = Ret tt o'
  | Err e => observability_set_logging directives o = Throw e o
  end.
Proof.
  unfold observability_set_logging. destruct (parse_filter directives) as [f|e] eqn:Hf; [|done].
  eexists. split; [reflexivity|]. split; [done|]. unfold disable_logging, enable_logging.
  do 2 (erewrite bind_run; [|reflexivity]). cbn [ob_last_directives]. rewrite Hf. reflexivity.
Qed.

(** ** The shell *)
Inductive OutputMode := NormalOutput | QuietOutput.
Inductive ShellColor := ColorsAuto | ColorsAlways | ColorsNever.

(** The streams that it writes to, as what was written *)
Record Shell := mkShell {
  sh_verbosity : Z;
  sh_output_mode : OutputMode;
  sh_color_choice : ShellColor;
  sh_stdout : list string;
  sh_stderr : list string;
}.

Class ShellTerminal := {
  (** [std::io::stdout().is_terminal()] *)
  stdout_is_terminal : bool;
  (** the styles [WARN] and [ERROR] and [Reset], as text *)
  warn_style : string;
  error_style : string;
  reset_style : string;
}.

Section Shell.
Context {ST : ShellTerminal}.

Definition shell_new : Shell := mkShell 0 NormalOutput ColorsAuto [] [].

Definition quiet (s : Shell) : bool := match sh_output_mode s with QuietOutput => true | NormalOutput => false end.
Definition out (texts : list string) (s : Shell) : Shell :=
  mkShell (sh_verbosity s) (sh_output_mode s) (sh_color_choice s) (sh_stdout s ++ texts) (sh_stderr s).
Definition err (texts : list string) (s : Shell) : Shell :=
  mkShell (sh_verbosity s) (sh_output_mode s) (sh_color_choice s) (sh_stdout s) (sh_stderr s ++ texts).

Definition print_out (args : string) (s : Shell) : Shell := if quiet s then s else out [args] s.
Definition println_out (args : string) (s : Shell) : Shell := if quiet s then s else out [args; newline] s.
Definition print_err (args : string) (s : Shell) : Shell := if quiet s then s else err [args] s.
Definition println_err (args : string) (s : Shell) : Shell := if quiet s then s else err [args; newline] s.

Definition should_color (s : Shell) : bool :=
  match sh_color_choice s with
  | ColorsAlways => true
  | ColorsNever => false
  | ColorsAuto => stdout_is_terminal
  end.
Definition warn (args : string) (s : Shell) : Shell :=
  if quiet s then s
  else err [if should_color s then warn_style +:+ "Warning:" +:+ reset_style +:+ " " else "Warning: "; args; newline] s.
Definition error (args : string) (s : Shell) : Shell :=
  err [if should_color s then error_style +:+ "Error:" +:+ reset_style +:+ " " else "Error: "; args; newline] s.

(** The shell of the program ([GLOBAL_SHELL]): it is set once, and made with the
    defaults when it is needed first. *)
Definition get_shell (global : option Shell) : Shell := default shell_new global.
Definition set_shell (shell : Shell) (global : option Shell) : option Shell :=
  match global with Some s => Some s | None => Some shell end.

(** What the macros print through the global shell *)
Inductive Message :=
| ShPrint (text : string)
| ShPrintln (text : string)
| ShEprint (text : string)
| ShEprintln (text : string)
| ShWarn (text : string)
| ShErr (text : string).

Definition emit (global : option Shell) (m : Message) : option Shell :=
  let s := get_shell global in
  Some match m with
       | ShPrint t => print_out t s
       | ShPrintln t => println_out t s
       | ShEprint t => print_err t s
       | ShEprintln t => println_err t s
       | ShWarn t => warn t s
       | ShErr t => error t s
       end.

Definition is_error (m : Message) : bool := match m with ShErr _ => true | _ => false end.
Definition message_text (m : Message) : string :=
  match m with ShPrint t | ShPrintln t | ShEprint t | ShEprintln t | ShWarn t | ShErr t => t end.

(** The texts of the messages that a stream shows *)
Definition error_lines (s : Shell) (text : string) : list string :=
  [if should_color s then error_style +:+ "Error:" +:+ reset_style +:+ " " else "Error: "; text; newline].
Definition error_texts (s : Shell) (ms : list Message) : list string :=
  ms ≫= λ m, if is_error m then error_lines s (message_text m) else [].

Lemma err_err t l s : err t (err l s) = err (l ++ t) s.
Proof. unfold err. cbn. by rewrite <-app_assoc. Qed.
Lemma err_nil s : err [] s = s.
Proof. unfold err. rewrite app_nil_r. by destruct s. Qed.

Lemma quiet_emits s ms l :
  sh_output_mode s = QuietOutput → foldl emit (Some (err l s)) ms = Some (err (l ++ error_texts s ms) s).
Proof.
  intros Hq. revert l. induction ms as [|m ms IH]; intros l; [cbn; by rewrite app_nil_r|].
  assert (emit (Some (err l s)) m = Some (err (l ++ if is_error m then error_lines s (message_text m) else []) s)) as Hm.
  { assert (quiet (err l s) = true) as Hq' by (unfold quiet; cbn; by rewrite Hq).
    destruct m; unfold emit, print_out, println_out, print_err, println_err, warn, error, get_shell, default, id;
      rewrite ?Hq', ?err_err; cbn [is_error]; by rewrite ?app_nil_r. }
  cbn [foldl]. rewrite Hm, IH, <-app_assoc. done.
Qed.

(** A shell set to be quiet before anything is printed stays quiet, whatever
    is printed and set later, and shows errors only. *)
Theorem quiet_shell_spec (s : Shell) (later : Shell) (ms ms' : list Message) :
  sh_output_mode s = QuietOutput →
  let g := foldl emit (set_shell later (foldl emit (set_shell s None) ms)) ms' in
  g = Some (err (error_texts s (ms ++ ms')) s).
Proof.
  intros Hq. cbv zeta. cbn [set_shell]. rewrite <-(err_nil s) at 1. rewrite quiet_emits by done.
  cbn [set_shell]. rewrite quiet_emits by done. unfold error_texts. by rewrite bind_app.
Qed.
End Shell.

(** ** A small instance *)
Module SampleLogging.
(** A name, or a name and a level with an equals sign between them. *)
Definition equals : ascii := ascii_of_nat 61.
Definition level_named (t : string) : option LevelFilter :=
  snd <$> find (λ p, String.eqb t p.1) ((λ l, (level_text l, l)) <$> [TRACE; DEBUG; INFO; WARN; ERROR; OFF]).

#[export] Instance sample_directives : DirectiveApi := {|
  parse_directive d :=
    match split_on equals d with
    | [n] => Ok (n, TRACE)
    | [n; t] => match level_named t with Some l => Ok (n, l) | None => Err "invalid level" end
    | _ => Err "invalid directive"
    end;
  from_default_env := ∅;
  filter_off := ∅;
|}.

#[export, refine] Instance sample_directive_laws : DirectiveLaws := {|
  is_target n := split_on comma n = [n] ∧ split_on equals n = [n] |}.
Proof.
  - by intros n [].
  - intros n l [_ Hn]. cbn [parse_directive sample_directives].
    change (n +:+ "=" +:+ level_text l) with (n +:+ String equals (level_text l)).
    rewrite split_on_app, Hn. by destruct l.
  - intros n [_ Hn]. cbn [parse_directive sample_directives]. by rewrite Hn.
Defined.

(** The node has one binary: a change of its level switches everything on. *)
Lemma log_level_witness :
  ∃ o o', observability_init ["anvil_zksync"] INFO false = Ok o ∧
    observability_set_log_level LogError o = Ret tt o' ∧
    ob_filter o !! "anvil_zksync" = Some INFO ∧ ob_filter o' !! "anvil_zksync" = Some TRACE.
Proof.
  destruct (log_level_spec ["anvil_zksync"] INFO LogError) as (o&o'&Ho&Ho'&Hi&Hl).
  - discriminate.
  - apply NoDup_singleton.
  - apply Forall_singleton. split; reflexivity.
  - exists o, o'. refine (conj Ho (conj Ho' (conj (Hi _ _) (Hl _ _)))); left.
Defined.

#[export] Instance sample_terminal : ShellTerminal := {|
  stdout_is_terminal := false; warn_style := EmptyString; error_style := EmptyString; reset_style := EmptyString |}.

Definition quiet_shell : Shell := mkShell 0 QuietOutput ColorsNever [] [].

Lemma quiet_shell_witness :
  foldl emit (set_shell shell_new (foldl emit (set_shell quiet_shell None) [ShPrintln "hello"; ShErr "bad"])) [ShWarn "late"] =
  Some (mkShell 0 QuietOutput ColorsNever [] ["Error: "; "bad"; newline]).
Proof. exact (quiet_shell_spec quiet_shell shell_new [ShPrintln "hello"; ShErr "bad"] [ShWarn "late"] eq_refl). Defined.
End SampleLogging.
