(* ===== verification/ServerBuild.v ===== *)
(** * Building the server

    The names of the methods that [crates/api_decl/src/namespaces] declares, and
    [crates/api_server/src/server.rs]: the module that is merged from the
    namespaces, the builder of the server with its layers, and the reporter of
    calls.  What the methods do is in [RpcServer].

    The declarations of the namespaces of [zksync_web3_decl] and the binding of
    an address are arguments. *)
From S2P Require Import Prelude Types Text.
From Stdlib Require Import Ascii.
Local Open Scope string_scope.
Local Open Scope list_scope.
Local Open Scope Z_scope.

(** ** Names of methods *)

(** [#[method(name = .., aliases = [..])] fn ..] *)
Record MethodDecl := mkMethod {
  md_name : string;
  md_aliases : list string;
  md_function : string;
}.

Definition anvil_methods : list MethodDecl := [
  mkMethod "dumpState" ["hardhat_dumpState"] "dump_state";
  mkMethod "loadState" ["hardhat_loadState"] "load_state";
  mkMethod "mine_detailed" ["evm_mine_detailed"] "mine_detailed";
  mkMethod "setRpcUrl" [] "set_rpc_url";
  mkMethod "setNextBlockBaseFeePerGas" ["hardhat_setNextBlockBaseFeePerGas"] "set_next_block_base_fee_per_gas";
  mkMethod "dropTransaction" ["hardhat_dropTransaction"] "drop_transaction";
  mkMethod "dropAllTransactions" ["hardhat_dropAllTransactions"] "drop_all_transactions";
  mkMethod "removePoolTransactions" [] "remove_pool_transactions";
  mkMethod "getAutomine" ["hardhat_getAutomine"] "get_auto_mine";
  mkMethod "setAutomine" ["evm_setAutomine"] "set_auto_mine";
  mkMethod "setIntervalMining" ["evm_setIntervalMining"] "set_interval_mining";
  mkMethod "setBlockTimestampInterval" [] "set_block_timestamp_interval";
  mkMethod "removeBlockTimestampInterval" [] "remove_block_timestamp_interval";
  mkMethod "setMinGasPrice" ["hardhat_setMinGasPrice"] "set_min_gas_price";
  mkMethod "setLoggingEnabled" ["hardhat_setLoggingEnabled"] "set_logging_enabled";
  mkMethod "snapshot" ["evm_snapshot"] "snapshot";
  mkMethod "revert" ["evm_revert"] "revert";
  mkMethod "setTime" ["evm_setTime"] "set_time";
  mkMethod "increaseTime" ["evm_increaseTime"] "increase_time";
  mkMethod "setNextBlockTimestamp" ["evm_setNextBlockTimestamp"] "set_next_block_timestamp";
  mkMethod "autoImpersonateAccount" ["hardhat_autoImpersonateAccount"] "auto_impersonate_account";
  mkMethod "setBalance" ["hardhat_setBalance"] "set_balance";
  mkMethod "setNonce" ["hardhat_setNonce"; "evm_setAccountNonce"] "set_nonce";
  mkMethod "mine" ["hardhat_mine"] "anvil_mine";
  mkMethod "reset" ["hardhat_reset"] "reset_network";
  mkMethod "impersonateAccount" ["hardhat_impersonateAccount"] "impersonate_account";
  mkMethod "stopImpersonatingAccount" ["hardhat_stopImpersonatingAccount"] "stop_impersonating_account";
  mkMethod "setCode" ["hardhat_setCode"] "set_code";
  mkMethod "setStorageAt" ["hardhat_setStorageAt"] "set_storage_at";
  mkMethod "setChainId" [] "set_chain_id"].

Definition anvil_zks_methods : list MethodDecl := [
  mkMethod "commitBatch" [] "commit_batch";
  mkMethod "proveBatch" [] "prove_batch";
  mkMethod "executeBatch" [] "execute_batch";
  mkMethod "getBoojumWitness" [] "get_boojum_witness"].

Definition config_methods : list MethodDecl := [
  mkMethod "getCurrentTimestamp" [] "get_current_timestamp";
  mkMethod "setShowStorageLogs" [] "set_show_storage_logs";
  mkMethod "setShowVmDetails" [] "set_show_vm_details";
  mkMethod "setShowGasDetails" [] "set_show_gas_details";
  mkMethod "setShowNodeConfig" [] "set_show_node_config";
  mkMethod "setLogLevel" [] "set_log_level";
  mkMethod "setLogging" [] "set_logging"].

Definition evm_methods : list MethodDecl := [mkMethod "mine" [] "mine"].
Definition eth_test_methods : list MethodDecl := [mkMethod "sendTransaction" [] "send_transaction"].

(** The namespaces that [zksync_web3_decl] declares *)
Inductive EraNamespace := EraEth | EraDebug | EraNet | EraZks | EraWeb3.
Definition era_namespace_name (n : EraNamespace) : string :=
  match n with EraEth => "eth" | EraDebug => "debug" | EraNet => "net" | EraZks => "zks" | EraWeb3 => "web3" end.
Class EraApi := era_methods : EraNamespace → list MethodDecl.

(** ** The module *)

(** A registered method: the function of a namespace that it calls *)
Definition Registered : Type := string * string.
Abbreviation RpcModule := (gmap string Registered).

(** A declared method is registered as [namespace_name] and, as they are, by its
    aliases. *)
Definition method_names (namespace : string) (d : MethodDecl) : list string :=
  (namespace +:+ "_" +:+ md_name d) :: md_aliases d.
Definition registrations (namespace : string) (ds : list MethodDecl) : list (string * Registered) :=
  ds ≫= λ d, (λ name, (name, (namespace, md_function d))) <$> method_names namespace d.
Definition into_rpc (namespace : string) (ds : list MethodDecl) : RpcModule :=
  list_to_map (registrations namespace ds).

(** [rpc.merge(other).unwrap()]: a name can be registered once. *)
Definition merge_unwrap {S E} (other rpc : RpcModule) : M S E RpcModule :=
  if bool_decide (dom other ∩ dom rpc = ∅) then mret (other ∪ rpc)
  else panic "called `Result::unwrap()` on an `Err` value: AlreadyRegistered".

Section Build.
Context {EN : EraApi}.

Definition era_rpc (n : EraNamespace) : RpcModule := into_rpc (era_namespace_name n) (era_methods n).

(** [NodeServerBuilder::default_rpc] *)
Definition default_rpc {S E} : M S E RpcModule :=
  rpc ← merge_unwrap (era_rpc EraEth) ∅;
  rpc ← merge_unwrap (into_rpc "eth" eth_test_methods) rpc;
  rpc ← merge_unwrap (into_rpc "anvil" anvil_methods) rpc;
  rpc ← merge_unwrap (into_rpc "anvil_zks" anvil_zks_methods) rpc;
  rpc ← merge_unwrap (into_rpc "evm" evm_methods) rpc;
  rpc ← merge_unwrap (era_rpc EraDebug) rpc;
  rpc ← merge_unwrap (era_rpc EraNet) rpc;
  rpc ← merge_unwrap (into_rpc "config" config_methods) rpc;
  rpc ← merge_unwrap (era_rpc EraZks) rpc;
  rpc ← merge_unwrap (era_rpc EraWeb3) rpc;
  mret rpc.

(** ** The server *)
Context {Node L1Sidecar AllowOrigin SocketAddr : Type}.

Record NodeServerBuilder := mkServerBuilder {
  nb_node : Node;
  nb_l1_sidecar : L1Sidecar;
  nb_health_api_enabled : bool;
  nb_cors_enabled : bool;
  nb_allow_origin : AllowOrigin;
}.
Definition server_builder_new (node : Node) (l1_sidecar : L1Sidecar) (allow_origin : AllowOrigin) : NodeServerBuilder :=
  mkServerBuilder node l1_sidecar false false allow_origin.
Definition enable_health_api (b : NodeServerBuilder) : NodeServerBuilder :=
  mkServerBuilder (nb_node b) (nb_l1_sidecar b) true (nb_cors_enabled b) (nb_allow_origin b).
Definition enable_cors (b : NodeServerBuilder) : NodeServerBuilder :=
  mkServerBuilder (nb_node b) (nb_l1_sidecar b) (nb_health_api_enabled b) true (nb_allow_origin b).

(** The layers around the server *)
Record CorsLayer := mkCors {
  cl_allow_origin : AllowOrigin;
  cl_allow_headers : list string;
  cl_allow_methods : list string;
}.
Record ProxyGetRequestLayer := mkProxy { pg_path : string; pg_method : string }.
Inductive RpcMiddleware := RpcLogger (max_length : Z) | TelemetryReporter.

(** [ProxyGetRequestLayer::new]: the path starts with a slash. *)
Definition proxy_new (path method : string) : Prelude.result ProxyGetRequestLayer string :=
  if String.prefix "/" path then Ok (mkProxy path method)
  else Err "ProxyGetRequestLayer path must start with `/`".

(** [ServerBuilder]: setting the middleware replaces what was set before. *)
Record ServerBuilder := mkServerConf {
  sb_http_only : bool;
  sb_http_middleware : option CorsLayer * option ProxyGetRequestLayer;
  sb_rpc_middleware : option RpcMiddleware;
}.
Definition set_http_middleware (l : option CorsLayer * option ProxyGetRequestLayer) (b : ServerBuilder) : ServerBuilder :=
  mkServerConf (sb_http_only b) l (sb_rpc_middleware b).
Definition set_rpc_middleware (m : RpcMiddleware) (b : ServerBuilder) : ServerBuilder :=
  mkServerConf (sb_http_only b) (sb_http_middleware b) (Some m).

(** A server that is bound and not yet started *)
Record NodeServer := mkNodeServer {
  ns_local_addr : SocketAddr;
  ns_server : ServerBuilder;
  ns_rpc : RpcModule;
}.

Definition cors_layers (self : NodeServerBuilder) : option CorsLayer :=
  if nb_cors_enabled self then Some (mkCors (nb_allow_origin self) ["content-type"] ["GET"; "POST"]) else None.
Definition health_api_layer {S E} (self : NodeServerBuilder) : M S E (option ProxyGetRequestLayer) :=
  if nb_health_api_enabled self then
    match proxy_new "/health" "web3_clientVersion" with
    | Ok layer => mret (Some layer)
    | Err e => panic e
    end
  else mret None.

(** [NodeServerBuilder::build]; [bind] is [server_builder.build(addr)]. *)
Definition server_build {S} (bind : SocketAddr → M S string SocketAddr) (show : SocketAddr → string)
    (self : NodeServerBuilder) (addr : SocketAddr) : M S string NodeServer :=
  health ← health_api_layer self;
  let server_builder :=
    set_rpc_middleware TelemetryReporter
      (set_rpc_middleware (RpcLogger 100)
        (set_http_middleware (cors_layers self, health) (mkServerConf true (None, None) None))) in
  local_addr ← map_err (λ e, "Failed to bind to address " +:+ show addr +:+ ": " +:+ e) (bind addr);
  rpc ← default_rpc;
  mret (mkNodeServer local_addr server_builder rpc).

Definition local_addr (self : NodeServer) : SocketAddr := ns_local_addr self.
(** [NodeServer::run]: what the server is started with *)
Definition server_run (self : NodeServer) : ServerBuilder * RpcModule := (ns_server self, ns_rpc self).

(** ** The reporter of calls *)

(** "Report only anvil and config API usage" *)
Definition reported (method : string) : bool := String.prefix "anvil_" method || String.prefix "config_" method.

(** [TelemetryReporter::call]; a report that fails is dropped. *)
Definition reporter_call {S E A} (telemetry : option (string → list (string * string) → M S string unit))
    (service : string → M S E A) (method : string) : M S E A :=
  telemetry ← expect "telemetry is not initialized" telemetry;
  (if reported method then capture (telemetry "rpc_call" [("method", method)]);; mret tt else mret tt);;
  service method.
End Build.

(** ** Theorems *)

(** What [zksync_web3_decl] declares: methods without aliases, none of which is
    the node's own [eth_sendTransaction]; and the method that the health check
    calls. *)
Class EraLaws {EN : EraApi} : Prop := {
  era_no_aliases : ∀ n d, d ∈ era_methods n → md_aliases d = [];
  era_no_send_transaction : ∀ d, d ∈ era_methods EraEth → md_name d ≠ "sendTransaction";
  era_client_version : ∃ d, d ∈ era_methods EraWeb3 ∧ md_name d = "clientVersion";
}.

Section BuildLaws.
Context {EN : EraApi} {EL : EraLaws}.

Lemma prefix_app (p s : string) : String.prefix p (p +:+ s) = true.
Proof. induction p as [|c p IH]; [by destruct s|]. 
  change (String.prefix (String c p) (String c (p +:+ s)) = true). cbn [String.prefix].
  destruct (Ascii.ascii_dec c c); [exact IH|congruence].
Qed.

Lemma registrations_names ns ds name r :
  (name, r) ∈ registrations ns ds → ∃ d, d ∈ ds ∧ name ∈ method_names ns d ∧ r = (ns, md_function d).
Proof.
  unfold registrations. rewrite list_elem_of_bind. intros (d&(x&Heq&Hx)%list_elem_of_fmap&Hd).
  injection Heq as -> ->. eauto.
Qed.

Lemma into_rpc_names ns ds name r :
  into_rpc ns ds !! name = Some r → ∃ d, d ∈ ds ∧ name ∈ method_names ns d ∧ r = (ns, md_function d).
Proof. intros H%elem_of_list_to_map_2. by apply registrations_names. Qed.

(** The names of the other crate start with their namespace. *)
Lemma era_names n name r :
  era_rpc n !! name = Some r → ∃ d, d ∈ era_methods n ∧ name = era_namespace_name n +:+ "_" +:+ md_name d.
Proof.
  intros (d&Hd&Hn&_)%into_rpc_names. unfold method_names in Hn. rewrite (era_no_aliases n d Hd) in Hn.
  apply list_elem_of_singleton in Hn. eauto.
Qed.

Lemma disjoint_by (q : string → bool) (m1 m2 : RpcModule) :
  (∀ name r, m1 !! name = Some r → q name = true) → (∀ name r, m2 !! name = Some r → q name = false) → m1 ##ₘ m2.
Proof. intros H1 H2. apply map_disjoint_spec. intros name r1 r2 Hr1%H1 Hr2%H2. congruence. Qed.

Definition era_prefix (n : EraNamespace) : string := era_namespace_name n +:+ "_".
Lemma era_prefixed n name r : era_rpc n !! name = Some r → String.prefix (era_prefix n) name = true.
Proof.
  intros (d&_&->)%era_names. unfold era_prefix. replace (_ +:+ "_" +:+ _) with ((era_namespace_name n +:+ "_") +:+ md_name d);
    [apply prefix_app|by destruct n].
Qed.

Lemma era_own n ns ds :
  forallb (λ x, negb (String.prefix (era_prefix n) x.1)) (registrations ns ds) = true →
  era_rpc n ##ₘ into_rpc ns ds.
Proof.
  intros H. apply (disjoint_by (String.prefix (era_prefix n))); [apply era_prefixed|].
  intros name r Hr%elem_of_list_to_map_2. rewrite List.forallb_forall in H.
  by apply negb_true_iff, (H (name, r)), list_elem_of_In.
Qed.

Lemma era_era n n' : n ≠ n' → era_rpc n ##ₘ era_rpc n'.
Proof.
  intros Hn. apply (disjoint_by (String.prefix (era_prefix n))); [apply era_prefixed|].
  intros name r (d&_&->)%era_names. by destruct n, n'.
Qed.

Lemma era_eth_test : era_rpc EraEth ##ₘ into_rpc "eth" eth_test_methods.
Proof.
  apply map_disjoint_spec. intros name r1 r2 (d&Hd&->)%era_names Hr. apply into_rpc_names in Hr as (d'&Hd'&Hn&_).
  apply list_elem_of_singleton in Hd' as ->. apply list_elem_of_singleton in Hn.
  injection Hn as Hn. by apply (era_no_send_transaction d).
Qed.

Lemma own_own ns ds ns' ds' :
  forallb (λ x, forallb (λ y, negb (String.eqb x.1 y.1)) (registrations ns' ds')) (registrations ns ds) = true →
  into_rpc ns ds ##ₘ into_rpc ns' ds'.
Proof.
  intros H. apply map_disjoint_spec. intros name r1 r2 H1%elem_of_list_to_map_2 H2%elem_of_list_to_map_2.
  rewrite List.forallb_forall in H. apply list_elem_of_In, H in H1. rewrite List.forallb_forall in H1.
  apply list_elem_of_In, H1 in H2. cbn in H2. by rewrite String.eqb_refl in H2.
Qed.

Lemma merge_disjoint {S E} (other rpc : RpcModule) (s : S) :
  other ##ₘ rpc → merge_unwrap (E := E) other rpc s = Ret (other ∪ rpc) s.
Proof.
  intros H%map_disjoint_dom. unfold merge_unwrap. rewrite bool_decide_true; [done|].
  apply disjoint_intersection_L. exact H.
Qed.

(** A module with the methods of these modules and no others *)
Definition covers (ms : list RpcModule) (rpc : RpcModule) : Prop :=
  ∀ name r, rpc !! name = Some r ↔ ∃ m, m ∈ ms ∧ m !! name = Some r.

Lemma merge_covers {S E} other ms rpc (s : S) :
  covers ms rpc → Forall (λ m, other ##ₘ m) ms →
  ∃ rpc', merge_unwrap (E := E) other rpc s = Ret rpc' s ∧ covers (other :: ms) rpc'.
Proof.
  intros Hc Hd. assert (Hdis : other ##ₘ rpc).
  { apply map_disjoint_spec. intros name r1 r2 H1 (m&Hm&H2)%Hc. rewrite Forall_forall in Hd.
    exact (proj1 (map_disjoint_spec _ _) (Hd m Hm) name r1 r2 H1 H2). }
  eexists. split; [by apply merge_disjoint|]. intros name r. rewrite lookup_union_Some by done.
  setoid_rewrite elem_of_cons. rewrite (Hc name r). split.
  - intros [H|(m&Hm&H)]; eauto.
  - intros (m&[->|Hm]&H); eauto.
Qed.

(** The modules, in the order in which they are merged *)
Definition namespaces : list RpcModule := [
  era_rpc EraEth; into_rpc "eth" eth_test_methods; into_rpc "anvil" anvil_methods;
  into_rpc "anvil_zks" anvil_zks_methods; into_rpc "evm" evm_methods; era_rpc EraDebug; era_rpc EraNet;
  into_rpc "config" config_methods; era_rpc EraZks; era_rpc EraWeb3].

Ltac disjoint_namespaces :=
  repeat (apply Forall_cons_2; [lazymatch goal with
    | |- into_rpc "eth" _ ##ₘ era_rpc EraEth => symmetry; exact era_eth_test
    | |- era_rpc _ ##ₘ era_rpc _ => apply era_era; discriminate
    | |- era_rpc ?n ##ₘ into_rpc ?ns ?ds => apply (era_own n ns ds); vm_compute; reflexivity
    | |- into_rpc ?ns ?ds ##ₘ era_rpc ?n => symmetry; apply (era_own n ns ds); vm_compute; reflexivity
    | |- into_rpc ?ns ?ds ##ₘ into_rpc ?ns' ?ds' => apply (own_own ns ds ns' ds'); vm_compute; reflexivity
    end|]); apply Forall_nil_2.
Ltac merge_next Hc :=
  match goal with
  | |- context [((@merge_unwrap ?S ?E ?other ?rpc) ≫= _) ?s] =>
      let rpc' := fresh "rpc" in
      let H := fresh "H" in
      let Hc' := fresh "Hc" in
      destruct (@merge_covers S E other _ rpc s Hc) as (rpc'&H&Hc'); [disjoint_namespaces|];
      rewrite (bind_run _ _ _ _ _ H); clear H Hc; rename Hc' into Hc
  end.

Lemma default_rpc_run {S E} (s : S) :
  ∃ rpc, default_rpc (E := E) s = Ret rpc s ∧ covers (reverse namespaces) rpc.
Proof.
  assert (Hc : covers [] ∅) by (intros name r; rewrite lookup_empty; split; [done|intros (m&[]%elem_of_nil&_)]). unfold default_rpc.
  do 10 merge_next Hc.
  eexists. split; [reflexivity|exact Hc].
Qed.

(** A call that is reported: one of the three namespaces, by its own name *)
Definition reports (name : string) (r : Registered) : bool :=
  bool_decide (r.1 ∈ ["anvil"; "anvil_zks"; "config"]) && String.prefix (r.1 +:+ "_") name.
Lemma reported_own ns ds name r :
  forallb (λ x, Bool.eqb (reported x.1) (reports x.1 x.2)) (registrations ns ds) = true →
  into_rpc ns ds !! name = Some r → reported name = reports name r.
Proof.
  intros H Hr%elem_of_list_to_map_2. rewrite List.forallb_forall in H. apply list_elem_of_In, H in Hr.
  by apply Bool.eqb_prop in Hr.
Qed.
Lemma reported_era n name r : era_rpc n !! name = Some r → reported name = reports name r.
Proof.
  intros H. apply into_rpc_names in H as H'. destruct H' as (d'&_&_&->).
  apply era_names in H as (d&_&->). by destruct n.
Qed.

Lemma reported_all : Forall (λ m : RpcModule, ∀ name r, m !! name = Some r → reported name = reports name r) namespaces.
Proof.
  repeat (apply Forall_cons_2; [intros name r Hr; lazymatch type of Hr with
    | era_rpc ?n !! _ = _ => exact (reported_era n _ _ Hr)
    | into_rpc ?ns ?ds !! _ = _ => apply (reported_own ns ds _ _); [vm_compute; reflexivity|exact Hr]
    end|]); apply Forall_nil_2.
Qed.
Lemma health_method : is_Some (era_rpc EraWeb3 !! "web3_clientVersion").
Proof.
  destruct era_client_version as (d&Hd&Hn). destruct (era_rpc EraWeb3 !! "web3_clientVersion") as [r|] eqn:Hr; [by eexists|].
  exfalso. apply not_elem_of_list_to_map_2 in Hr. apply Hr, list_elem_of_fmap.
  exists ("web3_clientVersion", ("web3", md_function d)). split; [done|].
  apply list_elem_of_bind. exists d. split; [|done]. apply list_elem_of_fmap. exists "web3_clientVersion".
  split; [done|]. unfold method_names. rewrite Hn. by left.
Qed.

(** C40: the server starts with all its methods.  No two namespaces declare the
    same name, so that merging them does not panic; the merged module has the
    methods of the ten namespaces and no others, the health check's among them;
    and the calls that are reported are those of the namespaces [anvil],
    [anvil_zks] and [config] by their own names, never by an alias. *)
Theorem default_rpc_spec {S E} (s : S) :
  ∃ rpc, default_rpc (E := E) s = Ret rpc s ∧
    (∀ name r, rpc !! name = Some r ↔ ∃ m, m ∈ namespaces ∧ m !! name = Some r) ∧
    is_Some (rpc !! "web3_clientVersion") ∧
    (∀ name r, rpc !! name = Some r → reported name = reports name r).
Proof.
  destruct (default_rpc_run (E := E) s) as (rpc&Hrun&Hc). exists rpc.
  assert (Hc' : ∀ name r, rpc !! name = Some r ↔ ∃ m, m ∈ namespaces ∧ m !! name = Some r).
  { intros name r. rewrite (Hc name r). by setoid_rewrite elem_of_reverse. }
  split_and!; [done..| |].
  - destruct health_method as [r Hr]. exists r. apply Hc'. exists (era_rpc EraWeb3). split; [unfold namespaces; do 9 right; by left|done].
  - intros name r (m&Hm&Hr)%Hc'. pose proof reported_all as H. rewrite Forall_forall in H. by apply (H m Hm).
Qed.

(** A server that is built.  If the address cannot be bound, the error says so;
    otherwise the server has the merged module, the layers that were asked for,
    with a health check whose method exists, and only the reporter as middleware:
    the logger of calls that is set before it is replaced. *)
Theorem server_build_spec {Node L1Sidecar AllowOrigin SocketAddr S : Type} (bind : SocketAddr → M S string SocketAddr)
    (show : SocketAddr → string) (self : NodeServerBuilder (Node := Node) (L1Sidecar := L1Sidecar) (AllowOrigin := AllowOrigin))
    (addr : SocketAddr) (s : S) :
  match bind addr s with
  | Ret local s' =>
      ∃ server, server_build bind show self addr s = Ret server s' ∧ local_addr server = local ∧
        sb_rpc_middleware (server_run server).1 = Some TelemetryReporter ∧
        default_rpc (E := string) s' = Ret (server_run server).2 s' ∧
        (sb_http_middleware (server_run server).1).1 = cors_layers self ∧
        (nb_health_api_enabled self = false → (sb_http_middleware (server_run server).1).2 = None) ∧
        (nb_health_api_enabled self = true → ∃ layer, (sb_http_middleware (server_run server).1).2 = Some layer ∧
           pg_path layer = "/health" ∧ is_Some ((server_run server).2 !! pg_method layer))
  | Throw e s' => server_build bind show self addr s = Throw ("Failed to bind to address " +:+ show addr +:+ ": " +:+ e) s'
  | Panic msg => server_build bind show self addr s = Panic msg
  | Deadlock => server_build bind show self addr s = Deadlock
  end.
Proof.
  assert (Hh : ∃ h, health_api_layer (E := string) self s = Ret h s ∧
    h = if nb_health_api_enabled self then Some (mkProxy "/health" "web3_clientVersion") else None).
  { unfold health_api_layer. destruct (nb_health_api_enabled self); eauto. }
  destruct Hh as (h&Hh&Hlayer). unfold server_build. erewrite bind_run by exact Hh. cbv zeta.
  unfold map_err, mbind, M_bind. destruct (bind addr s) as [local s'|e s'|msg|]; [|reflexivity..].
  destruct (default_rpc_run (E := string) s') as (rpc&Hr&Hc). rewrite Hr.
  eexists. split; [reflexivity|]. cbn. split_and!; [done|done|done|done|intros Hen; by rewrite Hlayer, Hen|].
  intros Hen. rewrite Hen in Hlayer. eexists. split; [exact Hlayer|]. split; [done|]. cbn.
  destruct health_method as [r Hm]. exists r. apply Hc. exists (era_rpc EraWeb3).
  split; [apply elem_of_reverse; unfold namespaces; do 9 right; by left|exact Hm].
Qed.

(** The reporter does not change what the service answers: it sees the state
    after the report, whether that failed or not. *)
Lemma reporter_transparent {S E A} (track : string → list (string * string) → M S string unit)
    (service : string → M S E A) method (s : S) :
  reporter_call (Some track) service method s =
  if reported method then
    match track "rpc_call" [("method", method)] s with
    | Ret _ s' | Throw _ s' => service method s'
    | Panic msg => Panic msg
    | Deadlock => Deadlock
    end
  else service method s.
Proof.
  unfold reporter_call, capture, mbind, M_bind. cbn. destruct (reported method); [|done].
  by destruct (track _ _ s).
Qed.
End BuildLaws.

Module SampleBuild.
#[export] Instance era : EraApi := λ n,
  match n with
  | EraEth => [mkMethod "blockNumber" [] "get_block_number"; mkMethod "sendRawTransaction" [] "send_raw_transaction"]
  | EraDebug => [mkMethod "traceCall" [] "trace_call"]
  | EraNet => [mkMethod "version" [] "version"]
  | EraZks => [mkMethod "estimateFee" [] "estimate_fee"]
  | EraWeb3 => [mkMethod "clientVersion" [] "client_version"]
  end.
Definition era_laws : EraLaws.
Proof.
  split.
  - intros [] d Hd; repeat (apply elem_of_cons in Hd as [->|Hd]; [reflexivity|]); by apply elem_of_nil in Hd.
  - intros d Hd. repeat (apply elem_of_cons in Hd as [->|Hd]; [discriminate|]). by apply elem_of_nil in Hd.
  - eexists. split; [left; reflexivity|reflexivity].
Qed.

Lemma default_rpc_witness :
  ∃ rpc : RpcModule, default_rpc (S := unit) (E := unit) tt = Ret rpc tt ∧ is_Some (rpc !! "web3_clientVersion").
Proof. destruct (@default_rpc_spec era era_laws unit unit tt) as (rpc&H&_&Hw&_). exists rpc. split; [exact H|exact Hw]. Defined.

(** The aliases of other tools are answered by the same function, but their use
    is not reported. *)
Example aliases :
  match default_rpc (S := unit) (E := unit) tt with
  | Ret rpc _ =>
      rpc !! "hardhat_setBalance" = Some ("anvil", "set_balance") ∧
      rpc !! "anvil_setBalance" = Some ("anvil", "set_balance") ∧
      rpc !! "evm_setAccountNonce" = Some ("anvil", "set_nonce") ∧
      rpc !! "evm_mine" = Some ("evm", "mine") ∧ rpc !! "hardhat_mine" = Some ("anvil", "anvil_mine") ∧
      reported "anvil_setBalance" = true ∧ reported "hardhat_setBalance" = false
  | _ => False
  end.
Proof. vm_compute. split_and!; reflexivity. Qed.
End SampleBuild.
