(* ===== verification/Predeploys.v ===== *)
(** * Contracts deployed at start

    [crates/common/src/utils/predeploys.rs] with the table it embeds,
    [crates/common/src/data/predeploys.json]: the contracts that a node with the
    EVM interpreter deploys when it starts.  The ABI encoding of the call that
    deploys one is an interface. *)
From S2P Require Import Prelude Types Utils Text.
From Stdlib Require Import Ascii.
Local Open Scope string_scope.
Local Open Scope list_scope.
Local Open Scope Z_scope.

Record Predeploy := mkPredeploy {
  pd_address : Address;
  constructor_input : string;
}.

(** The call of [deployPredeployedContract], encoded. *)
Class PredeployAbi := encode_deploy_predeployed : Address → Bytes → Bytes.

(** [s.trim_start_matches("0x")] *)
Fixpoint trim_start_0x (s : string) : string :=
  match s with
  | String "0" (String "x" rest) => trim_start_0x rest
  | _ => s
  end.

Definition encode_manager_call {PA : PredeployAbi} (pd : Predeploy) : option Bytes :=
  match hex_decode (trim_start_0x (constructor_input pd)) with
  | Ok ctor_bytes => Some (encode_deploy_predeployed (pd_address pd) ctor_bytes)
  | Err _ => None
  end.

Definition PREDEPLOYS : list Predeploy :=
  [
   mkPredeploy 112414603630893407680662136650044836222245388018 "0x608060405234801561001057600080fd5b5061001a3361002c565b6000805460ff60a01b1916905561007c565b600080546001600160a01b038381166001600160a01b0319831681178455604051919092169283917f8be0079c531659141344cd1fd0a4f28419497f9722a3daafe3b4186f6b6457e09190a35050565b610aab8061008b6000396000f3fe6080604052600436106100a05760003560e01c80636447045411610064578063644704541461016a57806366cfa0571461018a578063715018a6146101aa5780638456cb59146101bf5780638da5cb5b146101d4578063f2fde38b146101f257600080fd5b8063076c37b2146100ac5780633f4ba83a146100ce578063481286e6146100e357806356299481146101205780635c975abb1461014057600080fd5b366100a757005b600080fd5b3480156100b857600080fd5b506100cc6100c736600461077b565b610212565b005b3480156100da57600080fd5b506100cc610277565b3480156100ef57600080fd5b506101036100fe36600461077b565b6102ab565b6040516001600160a01b0390911681526020015b60405180910390f35b34801561012c57600080fd5b5061010361013b3660046107b2565b610311565b34801561014c57600080fd5b50600054600160a01b900460ff166040519015158152602001610117565b34801561017657600080fd5b506100cc6101853660046107eb565b610372565b34801561019657600080fd5b506100cc6101a536600461081e565b6103de565b3480156101b657600080fd5b506100cc610419565b3480156101cb57600080fd5b506100cc61044d565b3480156101e057600080fd5b506000546001600160a01b0316610103565b3480156101fe57600080fd5b506100cc61020d3660046107eb565b61047f565b600054600160a01b900460ff16156102455760405162461bcd60e51b815260040161023c906108e2565b60405180910390fd5b61027282826040518060200161025a9061076e565b601f1982820381018352601f9091011660405261051a565b505050565b6000546001600160a01b031633146102a15760405162461bcd60e51b815260040161023c9061090c565b6102a961061c565b565b600061030a8383604080516001600160f81b03196020808301919091526bffffffffffffffffffffffff193060601b16602183015260358201859052605580830185905283518084039091018152607590920190925280519101206000905b9392505050565b604080516001600160f81b03196020808301919091526bffffffffffffffffffffffff19606085901b16602183015260358201869052605580830186905283518084039091018152607590920190925280519101206000905b949350505050565b6000546001600160a01b0316331461039c5760405162461bcd60e51b815260040161023c9061090c565b6040516001600160a01b038216904780156108fc02916000818181858888f193505050501580156103d1573d6000803e3d6000fd5b50806001600160a01b0316ff5b600054600160a01b900460ff16156104085760405162461bcd60e51b815260040161023c906108e2565b61041383838361051a565b50505050565b6000546001600160a01b031633146104435760405162461bcd60e51b815260040161023c9061090c565b6102a960006106b9565b6000546001600160a01b031633146104775760405162461bcd60e51b815260040161023c9061090c565b6102a9610709565b6000546001600160a01b031633146104a95760405162461bcd60e51b815260040161023c9061090c565b6001600160a01b03811661050e5760405162461bcd60e51b815260206004820152602660248201527f4f776e61626c653a206e6577206f776e657220697320746865207a65726f206160448201526564647265737360d01b606482015260840161023c565b610517816106b9565b50565b6000808447101561056d5760405162461bcd60e51b815260206004820152601d60248201527f437265617465323a20696e73756666696369656e742062616c616e6365000000604482015260640161023c565b82516105bb5760405162461bcd60e51b815260206004820181905260248201527f437265617465323a2062797465636f6465206c656e677468206973207a65726f604482015260640161023c565b8383516020850187f590506001600160a01b03811661036a5760405162461bcd60e51b815260206004820152601960248201527f437265617465323a204661696c6564206f6e206465706c6f7900000000000000604482015260640161023c565b600054600160a01b900460ff1661066c5760405162461bcd60e51b815260206004820152601460248201527314185d5cd8589b194e881b9bdd081c185d5cd95960621b604482015260640161023c565b6000805460ff60a01b191690557f5db9ee0a495bf2e6ff9c91a7834c1ba4fdd244a5e8aa4e537bd38aeae4b073aa335b6040516001600160a01b03909116815260200160405180910390a1565b600080546001600160a01b038381166001600160a01b0319831681178455604051919092169283917f8be0079c531659141344cd1fd0a4f28419497f9722a3daafe3b4186f6b6457e09190a35050565b600054600160a01b900460ff16156107335760405162461bcd60e51b815260040161023c906108e2565b6000805460ff60a01b1916600160a01b1790557f62e78cea01bee320cd4e420270b5ea74000d11b0c9f74754ebdbfc544b05a25861069c3390565b6101348061094283390190565b6000806040838503121561078e57600080fd5b50508035926020909101359150565b6001600160a01b038116811461051757600080fd5b6000806000606084860312156107c757600080fd5b833592506020840135915060408401356107e08161079d565b809150509250925092565b6000602082840312156107fd57600080fd5b813561030a8161079d565b634e487b7160e01b600052604160045260246000fd5b60008060006060848603121561083357600080fd5b8335925060208401359150604084013567ffffffffffffffff8082111561085957600080fd5b818601915086601f83011261086d57600080fd5b81358181111561087f5761087f610808565b604051601f8201601f19908116603f011681019083821181831017156108a7576108a7610808565b816040528281528960208487010111156108c057600080fd5b8260208601602083013760006020848301015280955050505050509250925092565b60208082526010908201526f14185d5cd8589b194e881c185d5cd95960821b604082015260600190565b6020808252818101527f4f776e61626c653a2063616c6c6572206973206e6f7420746865206f776e657260408201526060019056fe608060405234801561001057600080fd5b50610114806100206000396000f3fe6080604052348015600f57600080fd5b506004361060285760003560e01c8063249cb3fa14602d575b600080fd5b603c603836600460a4565b604e565b60405190815260200160405180910390f35b6000828152602081815260408083206001600160a01b038516845290915281205460ff16607b576000609d565b7fa2ef4600d742022d532d4747cb3547474667d6f13804902513b2ec01c848f4b45b9392505050565b6000806040838503121560b657600080fd5b8235915060208301356001600160a01b038116811460d357600080fd5b80915050925092905056fea2646970667358221220a5a496558254ee0cf3c67a46f475274d2a4e7c3fcd0a6926c382539e9f4e747f64736f6c63430008090033a264697066735822122058b32e980f80f9510cb90f6ad481aa6ca33b3d34a29adff4a2381aa52879574b64736f6c63430008090033";
   mkPredeploy 447301751254033913445893214690834296930546521452 "0x604580600e600039806000f350fe7fffffffffffffffffffffffffffffffffffffffffffffffffffffffffffffffe03601600081602082378035828234f58015156039578182fd5b8082525050506014600cf3";
   mkPredeploy 696799759831992006717120340905155991868692000018 "0x601f80600e600039806000f350fe60003681823780368234f58015156014578182fd5b80825250506014600cf3";
   mkPredeploy 1176057910951026893497525218661832897077947781023 "0x608060405234801561001057600080fd5b50610134806100206000396000f3fe6080604052348015600f57600080fd5b506004361060285760003560e01c80634af63f0214602d575b600080fd5b60cf60048036036040811015604157600080fd5b810190602081018135640100000000811115605b57600080fd5b820183602082011115606c57600080fd5b80359060200191846001830284011164010000000083111715608d57600080fd5b91908080601f016020809104026020016040519081016040528093929190818152602001838380828437600092019190915250929550509135925060eb915050565b604080516001600160a01b039092168252519081900360200190f35b6000818351602085016000f5939250505056fea26469706673582212206b44f8a82cb6b156bfcc3dc6aadd6df4eefd204bc928a4397fd15dacf6d5320564736f6c63430006020033";
   mkPredeploy 1153611788939004710816649274463142904956676655633 "0x608060405234801561001057600080fd5b50610ee0806100206000396000f3fe6080604052600436106100f35760003560e01c80634d2301cc1161008a578063a8b0574e11610059578063a8b0574e1461025a578063bce38bd714610275578063c3077fa914610288578063ee82ac5e1461029b57600080fd5b80634d2301cc146101ec57806372425d9d1461022157806382ad56cb1461023457806386d516e81461024757600080fd5b80633408e470116100c65780633408e47014610191578063399542e9146101a45780633e64a696146101c657806342cbb15c146101d957600080fd5b80630f28c97d146100f8578063174dea711461011a578063252dba421461013a57806327e86d6e1461015b575b600080fd5b34801561010457600080fd5b50425b6040519081526020015b60405180910390f35b61012d610128366004610a85565b6102ba565b6040516101119190610bbe565b61014d610148366004610a85565b6104ef565b604051610111929190610bd8565b34801561016757600080fd5b50437fffffffffffffffffffffffffffffffffffffffffffffffffffffffffffffffff0140610107565b34801561019d57600080fd5b5046610107565b6101b76101b2366004610c60565b610690565b60405161011193929190610cba565b3480156101d257600080fd5b5048610107565b3480156101e557600080fd5b5043610107565b3480156101f857600080fd5b50610107610207366004610ce2565b73ffffffffffffffffffffffffffffffffffffffff163190565b34801561022d57600080fd5b5044610107565b61012d610242366004610a85565b6106ab565b34801561025357600080fd5b5045610107565b34801561026657600080fd5b50604051418152602001610111565b61012d610283366004610c60565b61085a565b6101b7610296366004610a85565b610a1a565b3480156102a757600080fd5b506101076102b6366004610d18565b4090565b60606000828067ffffffffffffffff8111156102d8576102d8610d31565b60405190808252806020026020018201604052801561031e57816020015b6040805180820190915260008152606060208201528152602001906001900390816102f65790505b5092503660005b8281101561047757600085828151811061034157610341610d60565b6020026020010151905087878381811061035d5761035d610d60565b905060200281019061036f9190610d8f565b6040810135958601959093506103886020850185610ce2565b73ffffffffffffffffffffffffffffffffffffffff16816103ac6060870187610dcd565b6040516103ba929190610e32565b60006040518083038185875af1925050503d80600081146103f7576040519150601f19603f3d011682016040523d82523d6000602084013e6103fc565b606091505b50602080850191909152901515808452908501351761046d577f08c379a000000000000000000000000000000000000000000000000000000000600052602060045260176024527f4d756c746963616c6c333a2063616c6c206661696c656400000000000000000060445260846000fd5b5050600101610325565b508234146104e6576040517f08c379a000000000000000000000000000000000000000000000000000000000815260206004820152601a60248201527f4d756c746963616c6c333a2076616c7565206d69736d6174636800000000000060448201526064015b60405180910390fd5b50505092915050565b436060828067ffffffffffffffff81111561050c5761050c610d31565b60405190808252806020026020018201604052801561053f57816020015b606081526020019060019003908161052a5790505b5091503660005b8281101561068657600087878381811061056257610562610d60565b90506020028101906105749190610e42565b92506105836020840184610ce2565b73ffffffffffffffffffffffffffffffffffffffff166105a66020850185610dcd565b6040516105b4929190610e32565b6000604051808303816000865af19150503d80600081146105f1576040519150601f19603f3d011682016040523d82523d6000602084013e6105f6565b606091505b5086848151811061060957610609610d60565b602090810291909101015290508061067d576040517f08c379a000000000000000000000000000000000000000000000000000000000815260206004820152601760248201527f4d756c746963616c6c333a2063616c6c206661696c656400000000000000000060448201526064016104dd565b50600101610546565b5050509250929050565b43804060606106a086868661085a565b905093509350939050565b6060818067ffffffffffffffff8111156106c7576106c7610d31565b60405190808252806020026020018201604052801561070d57816020015b6040805180820190915260008152606060208201528152602001906001900390816106e55790505b5091503660005b828110156104e657600084828151811061073057610730610d60565b6020026020010151905086868381811061074c5761074c610d60565b905060200281019061075e9190610e76565b925061076d6020840184610ce2565b73ffffffffffffffffffffffffffffffffffffffff166107906040850185610dcd565b60405161079e929190610e32565b6000604051808303816000865af19150503d80600081146107db576040519150601f19603f3d011682016040523d82523d6000602084013e6107e0565b606091505b506020808401919091529015158083529084013517610851577f08c379a000000000000000000000000000000000000000000000000000000000600052602060045260176024527f4d756c746963616c6c333a2063616c6c206661696c656400000000000000000060445260646000fd5b50600101610714565b6060818067ffffffffffffffff81111561087657610876610d31565b6040519080825280602002602001820160405280156108bc57816020015b6040805180820190915260008152606060208201528152602001906001900390816108945790505b5091503660005b82811015610a105760008482815181106108df576108df610d60565b602002602001015190508686838181106108fb576108fb610d60565b905060200281019061090d9190610e42565b925061091c6020840184610ce2565b73ffffffffffffffffffffffffffffffffffffffff1661093f6020850185610dcd565b60405161094d929190610e32565b6000604051808303816000865af19150503d806000811461098a576040519150601f19603f3d011682016040523d82523d6000602084013e61098f565b606091505b506020830152151581528715610a07578051610a07576040517f08c379a000000000000000000000000000000000000000000000000000000000815260206004820152601760248201527f4d756c746963616c6c333a2063616c6c206661696c656400000000000000000060448201526064016104dd565b506001016108c3565b5050509392505050565b6000806060610a2b60018686610690565b919790965090945092505050565b60008083601f840112610a4b57600080fd5b50813567ffffffffffffffff811115610a6357600080fd5b6020830191508360208260051b8501011115610a7e57600080fd5b9250929050565b60008060208385031215610a9857600080fd5b823567ffffffffffffffff811115610aaf57600080fd5b610abb85828601610a39565b90969095509350505050565b6000815180845260005b81811015610aed57602081850181015186830182015201610ad1565b81811115610aff576000602083870101525b50601f017fffffffffffffffffffffffffffffffffffffffffffffffffffffffffffffffe0169290920160200192915050565b600082825180855260208086019550808260051b84010181860160005b84811015610bb1578583037fffffffffffffffffffffffffffffffffffffffffffffffffffffffffffffffe001895281518051151584528401516040858501819052610b9d81860183610ac7565b9a86019a9450505090830190600101610b4f565b5090979650505050505050565b602081526000610bd16020830184610b32565b9392505050565b600060408201848352602060408185015281855180845260608601915060608160051b870101935082870160005b82811015610c52577fffffffffffffffffffffffffffffffffffffffffffffffffffffffffffffffa0888703018452610c40868351610ac7565b95509284019290840190600101610c06565b509398975050505050505050565b600080600060408486031215610c7557600080fd5b83358015158114610c8557600080fd5b9250602084013567ffffffffffffffff811115610ca157600080fd5b610cad86828701610a39565b9497909650939450505050565b838152826020820152606060408201526000610cd96060830184610b32565b95945050505050565b600060208284031215610cf457600080fd5b813573ffffffffffffffffffffffffffffffffffffffff81168114610bd157600080fd5b600060208284031215610d2a57600080fd5b5035919050565b7f4e487b7100000000000000000000000000000000000000000000000000000000600052604160045260246000fd5b7f4e487b7100000000000000000000000000000000000000000000000000000000600052603260045260246000fd5b600082357fffffffffffffffffffffffffffffffffffffffffffffffffffffffffffffff81833603018112610dc357600080fd5b9190910192915050565b60008083357fffffffffffffffffffffffffffffffffffffffffffffffffffffffffffffffe1843603018112610e0257600080fd5b83018035915067ffffffffffffffff821115610e1d57600080fd5b602001915036819003821315610a7e57600080fd5b8183823760009101908152919050565b600082357fffffffffffffffffffffffffffffffffffffffffffffffffffffffffffffffc1833603018112610dc357600080fd5b600082357fffffffffffffffffffffffffffffffffffffffffffffffffffffffffffffffa1833603018112610dc357600080fdfea2646970667358221220bb2b5c71a328032f97c676ae39a1ec2148d3e5d6f73d95e9b17910152d61f16264736f6c634300080c0033";
   mkPredeploy 829531962858489614935023290140657454690604565463 "0x604580600e600039806000f350fe7fffffffffffffffffffffffffffffffffffffffffffffffffffffffffffffffe03601600081602082378035828234f58015156039578182fd5b8082525050506014600cf3"].

(** The constructors of the table are hexadecimal: every call can be encoded,
    so that the [unwrap] at start does not panic. *)
Lemma predeploys_encode {PA : PredeployAbi} pd : pd ∈ PREDEPLOYS → is_Some (encode_manager_call pd).
Proof.
  assert (H : forallb (λ pd, match hex_decode (trim_start_0x (constructor_input pd)) with Ok _ => true | Err _ => false end)
    PREDEPLOYS = true) by (vm_compute; reflexivity).
  rewrite forallb_forall in H. intros Hpd%list_elem_of_In. specialize (H pd Hpd). unfold encode_manager_call.
  destruct (hex_decode _); [eauto|discriminate].
Qed.

(** No address is deployed twice. *)
Lemma predeploys_distinct : NoDup (pd_address <$> PREDEPLOYS).
Proof. apply (bool_decide_unpack _). vm_compute. exact I. Qed.
