(* ===== verification/Start.v ===== *)
(** * Start-up

    [crates/cli/src/main.rs] with [bytecode_override.rs], the periodic dumper of
    [cli.rs], [update_with_fork_details] of [utils.rs] and the builder of
    transactions [crates/types/src/l2_tx_builder.rs]: from the arguments to a
    running node and its servers.  The system contracts are those of
    [SystemContracts], the L1 is that of [L1Sidecar], the servers are those of
    [ServerBuild]; files, sockets and the signing of transactions are interfaces. *)
From S2P Require Import L1Anvil L1Commit L1Sender L1Watcher L1Sidecar SystemContracts ServerBuild Predeploys.
From S2P Require Import Prelude Types Utils Text Filters Impersonate Time Pool Cache Fork Storage FeeModel.
From S2P Require Import Sealer Blockchain Inner Sealing VmRunner Running Executor GasEstim Node Api Serving Config Cli.
From Stdlib Require Import Ascii SpecFloat.
Local Open Scope Z_scope.

Inductive StartError :=
| StartEnv (e : EnvError)
| LogFileAccessFailed (log_file_path wrapped_error : string)
| StartFork (e : ForkError)
| StartGeneric (msg : string)
| StartNode (e : ApiError)
| StartSidecar (msg : string)
| ServerStartupFailed (host_requested : string) (port_requested : Z) (details : string)
| StateFileAccess (path reason : string).

Record DirEntry := mkDirEntry {
  entry_path : string;
  entry_is_file : bool;
  (** [None] when the name is not UTF-8 *)
  entry_name : option string;
}.

(** The operating system. *)
Class HostApi := {
  zksync_home : option string;
  path_exists : string → bool;
  path_is_dir : string → bool;
  create_file : string → Prelude.result unit string;
  read_file : string → Prelude.result Bytes string;
  read_text : string → Prelude.result string string;
  read_dir : string → Prelude.result (list DirEntry) string;
  (** Binding a socket to an address, after the ones that are bound already;
      the port it listens on. *)
  bind_server : list (IpAddr * Z) → IpAddr → Z → Prelude.result Z string;
  (** [SocketAddr] as it prints *)
  socket_text : IpAddr * Z → string;
  (** [allow_origin.parse()] *)
  parse_origin : string → Prelude.result unit string;
}.

(** What start-up uses of other crates. *)
Class StartApi := {
  (** [L2Tx::new], the request of a transaction with a chain id, signed by a
      random key: the signature, the bytes and the hash. *)
  L2Tx_new : option Address → Bytes → Z → Fee → Address → Z → list Bytes → L2Tx;
  sign_with_random_key : L2Tx → Z → Bytes * Bytes * H256;
  CONTRACT_DEPLOYER : Address;
  EVM_PREDEPLOYS_MANAGER : Address;
  address_from_str : string → option Address;
  (** The bytecode in the JSON of a contract. *)
  contract_object : string → Prelude.result string string;
}.

(** A dump in progress: polling it leaves it pending ([Some]) or ends it; and
    [Interval::reset], after which the next tick is a period away. *)
Class DumpApi {TI : Ticker} := {
  dump : Type;
  spawn_dump : string → bool → dump;
  poll_dump : dump → option dump;
  reset_ticker : ticker → ticker;
}.

(** ** Building transactions *)
Record L2TxBuilder := mkL2TxBuilder {
  lb_from : Address;
  lb_to : option Address;
  lb_nonce : Z;
  lb_value : Z;
  lb_gas_limit : Z;
  lb_max_fee_per_gas : Z;
  lb_max_priority_fee_per_gas : Z;
  lb_calldata : Bytes;
  lb_factory_deps : list Bytes;
  lb_chain_id : Z;
}.

Definition L2TxBuilder_new (from : Address) (nonce gas_limit max_fee_per_gas chain_id : Z) : L2TxBuilder :=
  mkL2TxBuilder from None nonce 0 gas_limit max_fee_per_gas max_fee_per_gas [] [] chain_id.

Definition with_to (to : Address) (b : L2TxBuilder) : L2TxBuilder :=
  mkL2TxBuilder (lb_from b) (Some to) (lb_nonce b) (lb_value b) (lb_gas_limit b) (lb_max_fee_per_gas b)
    (lb_max_priority_fee_per_gas b) (lb_calldata b) (lb_factory_deps b) (lb_chain_id b).

Definition with_calldata (calldata : Bytes) (b : L2TxBuilder) : L2TxBuilder :=
  mkL2TxBuilder (lb_from b) (lb_to b) (lb_nonce b) (lb_value b) (lb_gas_limit b) (lb_max_fee_per_gas b)
    (lb_max_priority_fee_per_gas b) calldata (lb_factory_deps b) (lb_chain_id b).

Definition with_max_priority_fee_per_gas (fee : Z) (b : L2TxBuilder) : L2TxBuilder :=
  mkL2TxBuilder (lb_from b) (lb_to b) (lb_nonce b) (lb_value b) (lb_gas_limit b) (lb_max_fee_per_gas b)
    fee (lb_calldata b) (lb_factory_deps b) (lb_chain_id b).

(** [build_impersonated]: the signature of a random key, which nobody checks. *)
Definition build_impersonated {QA : RequestApi} {SA : StartApi} (b : L2TxBuilder) : L2Tx :=
  let tx := L2Tx_new (lb_to b) (lb_calldata b) (lb_nonce b)
    (mkFee (lb_gas_limit b) (lb_max_fee_per_gas b) (lb_max_priority_fee_per_gas b) 50000)
    (lb_from b) (lb_value b) (lb_factory_deps b) in
  let '(sig, raw, hash) := sign_with_random_key tx (lb_chain_id b) in
  let tx := l2tx_set_input raw hash tx in
  let d := l2tx_common tx in
  mkL2Tx (mkL2Data (l2_nonce d) (l2_fee d) (l2_initiator_address d) sig (l2_transaction_type d) (l2_input d))
    (l2tx_execute tx) (l2tx_received tx) (l2tx_raw tx).

Definition PSEUDO_CALLER : Address := 2 ^ 160 - 1.

(** The selector of [setAllowedBytecodeTypesToDeploy] and its argument 1. *)
Definition EVM_EMULATOR_ENABLER_CALLDATA : Bytes := [254; 6; 56; 12] ++ replicate 31 0 ++ [1].

Section Resolve.
Context {TA : TransactionApi} {FA : FeeApi}.
Context {Client : Type} {R : Remote (Client := Client)}.
Context {WA : WalletApi} {CLA : CliApi} {HA : HostApi}.
Abbreviation FC := (ForkClient (Client := Client)).
Abbreviation SM := (M unit StartError).

(** [a.or(Some(b))] *)
Definition or_some {A} (a : option A) (b : A) : option A := Some (default b a).

(** Options that were not given, from the values at hand. *)
Definition fill_options (l1_gas_price l2_gas_price pubdata_price : Z) (c : TestNodeConfig) : TestNodeConfig :=
  with_chain_id (or_some (tc_chain_id c) TEST_NODE_NETWORK_ID)
  (with_l1_pubdata_price (or_some (tc_l1_pubdata_price c) pubdata_price)
  (with_gas_limit_scale (or_some (tc_limit_scale_factor c) DEFAULT_ESTIMATE_GAS_SCALE_FACTOR)
  (with_price_scale (or_some (tc_price_scale_factor c) DEFAULT_ESTIMATE_GAS_PRICE_SCALE_FACTOR)
  (with_l2_gas_price (or_some (tc_l2_gas_price c) l2_gas_price)
  (with_l1_gas_price (or_some (tc_l1_gas_price c) l1_gas_price) c))))).

Definition update_with_fork_details (fd : ForkDetails) (c : TestNodeConfig) : TestNodeConfig :=
  update_chain_id (or_some (tc_chain_id c) (as_u32 (fd_chain_id fd)))
  (update_gas_limit_scale (or_some (tc_limit_scale_factor c) (fd_estimate_gas_scale_factor fd))
  (update_price_scale (or_some (tc_price_scale_factor c) (fd_estimate_gas_price_scale_factor fd))
  (update_l1_pubdata_price (or_some (tc_l1_pubdata_price c) (fd_fair_pubdata_price fd))
  (update_l2_gas_price (or_some (tc_l2_gas_price c) (fd_l2_fair_gas_price fd))
  (update_l1_gas_price (or_some (tc_l1_gas_price c) (fd_l1_gas_price fd)) c))))).

(** The configuration, the fork and the transactions to replay. *)
Record Prepared := mkPrepared {
  pr_config : TestNodeConfig;
  pr_fork_client : option FC;
  pr_transactions_to_replay : list Transaction;
}.

(** The [match] on the command. *)
Definition resolve (command : Command) (c : TestNodeConfig) : SM Prepared :=
  match command with
  | Run =>
      if tc_offline c then
        mret (mkPrepared (fill_options DEFAULT_L1_GAS_PRICE DEFAULT_L2_GAS_PRICE DEFAULT_FAIR_PUBDATA_PRICE c) None [])
      else
        config ← to_config (Builtin Era);
        client ← map_err StartFork (fork_at_block_number (R := R) config None);
        fee ← map_err StartFork (try_result (get_fee_params client));
        match fee with
        | ParamsV2 fee_v2 =>
            mret (mkPrepared (fill_options (v2_l1_gas_price fee_v2) (minimal_l2_gas_price (v2_config fee_v2))
                                (v2_l1_pubdata_price fee_v2) c) None [])
        | ParamsV1 _ => throw (StartGeneric "Unsupported FeeParams::V1 in this context")
        end
  | ForkCommand fork =>
      config ← to_config (fa_fork_url fork);
      r ← match fork_transaction_hash fork with
          | Some tx_hash => map_err StartFork (fork_at_before_tx (R := R) config tx_hash)
          | None =>
              client ← map_err StartFork (fork_at_block_number (R := R) config (as_u32 <$> fork_block_number fork));
              mret (client, [])
          end;
      mret (mkPrepared (update_with_fork_details (client_details r.1) c) (Some r.1) r.2)
  | ReplayTx replay =>
      config ← to_config (ra_fork_url replay);
      r ← map_err StartFork (fork_at_before_tx (R := R) config (replay_tx_hash replay));
      mret (mkPrepared (update_with_fork_details (client_details r.1) c) (Some r.1) r.2)
  end.

Definition CONTRACTS_PATH_NEEDS_LOCAL : string :=
  "The --system-contracts-path option can only be specified when --dev-system-contracts is set to 'local'.".

Definition check_contracts_path (c : TestNodeConfig) : SM unit :=
  if bool_decide (tc_system_contracts_options c ≠ LocalContracts) && bool_decide (is_Some (tc_system_contracts_path c))
  then throw (StartGeneric CONTRACTS_PATH_NEEDS_LOCAL)
  else
    match tc_system_contracts_options c with
    | LocalContracts =>
        match match tc_system_contracts_path c with Some p => Some p | None => zksync_home end with
        | Some path =>
            if negb (path_exists path) || negb (path_is_dir path)
            then throw (StartGeneric ("The specified system contracts path '" +:+ path
                         +:+ "' does not exist or is not a directory."))
            else mret tt
        | None => mret tt
        end
    | _ => mret tt
    end.

(** [ForkPrintInfo]; its figures are text but for the fee model. *)
Record ForkPrintInfo := mkForkPrintInfo {
  network_rpc : string;
  info_l1_block : string;
  info_l2_block : string;
  info_block_timestamp : string;
  info_fork_block_hash : string;
  info_fee_model : FeeModelConfigV2;
}.

Definition fork_print_info (client : option FC) : SM (option ForkPrintInfo) :=
  match client with
  | Some client =>
      match fd_fee_params (client_details client) with
      | ParamsV2 p =>
          let d := client_details client in
          mret (Some (mkForkPrintInfo (client_url client) (dec (fd_batch_number d)) (dec (fd_block_number d))
                       (dec (fd_block_timestamp d)) ("0x" +:+ hex_h256 (fd_block_hash d)) (v2_config p)))
      | ParamsV1 _ => throw (StartGeneric "fork is using unsupported fee parameters")
      end
  | None => mret None
  end.

(** The file of the log is created. *)
Definition open_log_file (config : TestNodeConfig) : SM unit :=
  match create_file (tc_log_file_path config) with
  | Ok _ => mret tt
  | Err e => throw (LogFileAccessFailed (tc_log_file_path config) e)
  end.

(** From the command to the fork, if there is one, and the final options. *)
Definition prepare_network (command : option Command) (config : TestNodeConfig) : SM (Prepared * option ForkPrintInfo) :=
  p ← resolve (default Run command) config;
  check_contracts_path (pr_config p);;
  info ← fork_print_info (pr_fork_client p);
  mret (p, info).

(** [start_program] up to the creation of the node, without the shell and the
    log filter. *)
Definition prepare (c : Cli) : SM (Prepared * option ForkPrintInfo) :=
  config ← map_err StartEnv (into_test_node_config c);
  open_log_file config;;
  prepare_network (cli_command c) config.

(** ** Precedence of options *)

(** A configuration without the options that start-up fills in. *)
Definition unfilled (c : TestNodeConfig) : TestNodeConfig :=
  set_tc_chain_id None (set_tc_limit_scale_factor None (set_tc_price_scale_factor None
    (set_tc_l1_pubdata_price None (set_tc_l2_gas_price None (set_tc_l1_gas_price None c))))).

(** [filled c c' ...]: what was set stays, the rest has the given values, and
    the other options are as before. *)
Record filled (c c' : TestNodeConfig) (l1 l2 pubdata : Z) (price : f64) (limit : f32) (chain_id : Z) : Prop := {
  fi_l1_gas_price : tc_l1_gas_price c' = Some (default l1 (tc_l1_gas_price c));
  fi_l2_gas_price : tc_l2_gas_price c' = Some (default l2 (tc_l2_gas_price c));
  fi_pubdata : tc_l1_pubdata_price c' = Some (default pubdata (tc_l1_pubdata_price c));
  fi_price : tc_price_scale_factor c' = Some (default price (tc_price_scale_factor c));
  fi_limit : tc_limit_scale_factor c' = Some (default limit (tc_limit_scale_factor c));
  fi_chain_id : tc_chain_id c' = Some (default chain_id (tc_chain_id c));
  fi_rest : unfilled c' = unfilled c;
}.

Lemma filled_contracts c c' l1 l2 pubdata price limit chain_id :
  filled c c' l1 l2 pubdata price limit chain_id → tc_system_contracts_options c' = tc_system_contracts_options c.
Proof. intros Hf. exact (f_equal tc_system_contracts_options (fi_rest _ _ _ _ _ _ _ _ Hf)). Qed.

Lemma filled_path c c' l1 l2 pubdata price limit chain_id :
  filled c c' l1 l2 pubdata price limit chain_id → tc_system_contracts_path c' = tc_system_contracts_path c.
Proof. intros Hf. exact (f_equal tc_system_contracts_path (fi_rest _ _ _ _ _ _ _ _ Hf)). Qed.

Lemma fill_options_filled l1 l2 pubdata c :
  filled c (fill_options l1 l2 pubdata c) l1 l2 pubdata DEFAULT_ESTIMATE_GAS_PRICE_SCALE_FACTOR
    DEFAULT_ESTIMATE_GAS_SCALE_FACTOR TEST_NODE_NETWORK_ID.
Proof. destruct c. constructor; reflexivity. Qed.

Lemma fork_details_filled fd c :
  filled c (update_with_fork_details fd c) (fd_l1_gas_price fd) (fd_l2_fair_gas_price fd)
    (fd_fair_pubdata_price fd) (fd_estimate_gas_price_scale_factor fd) (fd_estimate_gas_scale_factor fd)
    (as_u32 (fd_chain_id fd)).
Proof. destruct c. constructor; reflexivity. Qed.

Lemma map_err_Ret {S E E' A} (f : E → E') (m : M S E A) s a s' : map_err f m s = Ret a s' ↔ m s = Ret a s'.
Proof. unfold map_err. by destruct (m s); split; intros; simplify_eq. Qed.

Lemma to_config_Ret {S E} u (s : S) fc s' : to_config (E := E) u s = Ret fc s' → s' = s.
Proof. destruct u as [net|url]; cbn; [unfold to_fork_config|]; run_m; [by destruct (parse_url _); intros; simplify_eq|by intros [= ]]. Qed.

(** Where a command takes what is filled in from. *)
Definition resolved (command : Command) (c : TestNodeConfig) (p : Prepared) : Prop :=
  match command with
  | Run =>
      pr_fork_client p = None ∧ pr_transactions_to_replay p = [] ∧
      ∃ l1 l2 pubdata,
        filled c (pr_config p) l1 l2 pubdata DEFAULT_ESTIMATE_GAS_PRICE_SCALE_FACTOR
          DEFAULT_ESTIMATE_GAS_SCALE_FACTOR TEST_NODE_NETWORK_ID ∧
        (if tc_offline c
         then l1 = DEFAULT_L1_GAS_PRICE ∧ l2 = DEFAULT_L2_GAS_PRICE ∧ pubdata = DEFAULT_FAIR_PUBDATA_PRICE
         else ∃ client fee, rpc_get_fee_params client = Ok (ParamsV2 fee) ∧ l1 = v2_l1_gas_price fee ∧
                l2 = minimal_l2_gas_price (v2_config fee) ∧ pubdata = v2_l1_pubdata_price fee)
  | ForkCommand _ | ReplayTx _ =>
      ∃ fc, pr_fork_client p = Some fc ∧
        let fd := client_details fc in
        filled c (pr_config p) (fd_l1_gas_price fd) (fd_l2_fair_gas_price fd) (fd_fair_pubdata_price fd)
          (fd_estimate_gas_price_scale_factor fd) (fd_estimate_gas_scale_factor fd) (as_u32 (fd_chain_id fd))
  end.

Lemma resolve_resolved command c u p u' : resolve command c u = Ret p u' → resolved command c p.
Proof.
  destruct command as [|fork|replay]; cbn [resolve resolved].
  - destruct (tc_offline c) eqn:Hoff.
    { intros [= <- _]. split_and!; [done..|]. do 3 eexists. split; [apply fill_options_filled|done]. }
    intros (config & u1 & _ & (client & u2 & _ & (fee & u3 & Hfee & H)%bind_Ret)%bind_Ret)%bind_Ret.
    apply map_err_Ret in Hfee. unfold get_fee_params in Hfee.
    destruct (rpc_get_fee_params (l2_client client)) as [f|] eqn:Hf; [|done]. injection Hfee as -> _.
    destruct fee as [|fee]; [done|]. injection H as <- _. split_and!; [done..|].
    do 3 eexists. split; [apply fill_options_filled|]. by exists (l2_client client), fee.
  - intros (config & u1 & _ & (r & u2 & _ & [= <- _])%bind_Ret)%bind_Ret.
    eexists. split; [done|apply fork_details_filled].
  - intros (config & u1 & _ & (r & u2 & _ & [= <- _])%bind_Ret)%bind_Ret.
    eexists. split; [done|apply fork_details_filled].
Qed.

Lemma resolved_filled command c p :
  resolved command c p → ∃ l1 l2 pub price limit chain, filled c (pr_config p) l1 l2 pub price limit chain.
Proof. destruct command; [intros (_&_&?&?&?&?&_)|intros (?&_&?)..]; eauto 10. Qed.

End Resolve.

Section Start.
Context {TA : TransactionApi} {FA : FeeApi} {KA : KeyApi} {CA : ChainApi} {BA : BlockApi} {RA : VmResultApi}.
Context {NA : NodeApi} {QA : RequestApi} {CH : Channel} {TI : Ticker}.
Context {Client : Type} {R : Remote (Client := Client)}.
Context {VM : VmApi (StorageState (Client := Client))} {CV : CallVm (StorageState (Client := Client))}.
Context {WA : WalletApi} {CLA : CliApi} {HA : HostApi} {SA : StartApi} {DA : DumpApi}.
Context {AA : ArtifactApi} {PA : PredeployAbi} {EN : EraApi}.
Context {CMA : CommitmentApi} {MA : MerkleApi} {AB : CallAbi} {LT : L1TxApi} {EM : Embedded}.
Context {W : Type} {RN : Random W} {P : L1Provider W}.
Abbreviation Node := (InMemoryNode (Client := Client)).
Abbreviation Builder := (NodeServerBuilder (Node := NodeExecutor) (L1Sidecar := L1Sidecar) (AllowOrigin := string)).
Abbreviation Server := (NodeServer (AllowOrigin := string) (SocketAddr := IpAddr * Z)).

(** ** Creating the node *)
Definition sealing_mode (c : TestNodeConfig) (pool : TxPool) : BlockSealerMode * TxPool :=
  if tc_no_mining c then (mode_noop, pool)
  else match tc_block_time c with
       | Some block_time => (mode_fixed_time (tc_max_transactions c) block_time, pool)
       | None =>
           let '(listener, pool) := add_tx_listener pool in
           (mode_immediate (tc_max_transactions c) listener, pool)
       end.

Definition L1_IN_FORK : string := "Running L1 in forking mode is unsupported".

(** The L1 sidecar: refused with a fork, started if configured.  The tasks it
    runs and the state they start in come with it. *)
Definition l1_sidecar (c : TestNodeConfig) (version : Z) (forked : bool) (arguments : string) (blockchain : BlockchainState)
    : M W StartError (L1Sidecar * option (L1SidecarRunner * (W → L1State W))) :=
  match tc_l1_config c with
  | None => mret (sidecar_none, None)
  | Some l1 =>
      if forked then throw (StartEnv (InvalidArguments L1_IN_FORK arguments))
      else
        r ← map_err StartSidecar
              (match l1 with
               | L1Spawn port => sidecar_process version port blockchain (tc_auto_execute_l1 c)
               | L1External address => sidecar_external version address blockchain (tc_auto_execute_l1 c)
               end);
        mret (r.1.1, Some (r.1.2, r.2))
  end.

(** The contracts that the node starts from, for a version that has them. *)
Definition deployed_contracts (c : TestNodeConfig) (version : Z) : list DeployedContract :=
  match get_deployed_contracts (S := unit) (E := unit) (tc_system_contracts_options c) version (tc_system_contracts_path c) tt with
  | Ret contracts _ => (λ d, mkDeployed d.1 d.2) <$> contracts
  | _ => []
  end.

(** The calls of the builder of system contracts. *)
Definition contracts_builder (c : TestNodeConfig) (version : Z) : SystemContractsBuilder :=
  builder_boojum (use_boojum_os (tc_boojum c))
    (builder_evm_interpreter (tc_use_evm_interpreter c)
      (builder_protocol_version version
        (builder_path (tc_system_contracts_path c)
          (builder_options (tc_system_contracts_options c) builder_new)))).

(** The node, its executor and the sidecar. *)
Record Created := mkCreated {
  cr_executor : NodeExecutor;
  cr_node : Node;
  cr_sidecar : L1Sidecar;
  cr_l1_tasks : option (L1SidecarRunner * (W → L1State W));
}.

(** From the configuration to the node and its executor; [identifier] and [disk]
    are the signature identifier and the cache on disk that they start with.
    [init] loads the deployed contracts, which panics for a version without. *)
Definition create_node (arguments : string) (identifier : Prelude.result unit string) (disk : DiskState)
    (p : Prepared (Client := Client)) : M W StartError Created :=
  let c := pr_config p in
  let impersonation :=
    if tc_enable_auto_impersonate c then set_auto_impersonation true default_impersonation else default_impersonation in
  let pool := TxPool_new (tc_transaction_order c) in
  provider ← from_fork (client_details <$> pr_fork_client p) (bt_ratio (tc_base_token_config c));
  version ← get_protocol_version c;
  system_contracts ← build (contracts_builder c version);
  let layout := if use_boojum_os (tc_boojum c) then BoojumOs else ZkEra in
  get_deployed_contracts (tc_system_contracts_options c) version (tc_system_contracts_path c);;
  let inner := init (pr_fork_client p) provider empty_filters (node_config_of (deployed_contracts c) c) impersonation
                 system_contracts layout disk in
  let runner := mkVmRunner (tc_bytecode_compression c) (bool_decide (is_Some (tc_l1_config c))) identifier in
  sidecar ← l1_sidecar c version (bool_decide (is_Some (pr_fork_client p))) arguments (blockchain inner);
  let '(mode, pool) := sealing_mode c pool in
  mret (mkCreated (mkExecutor runner layout) (mkNode (mkTask inner true) [] pool mode) sidecar.1 sidecar.2).

(** ** The EVM interpreter *)
Definition enabler_tx (chain_id : Z) : L2Tx :=
  build_impersonated
    (with_calldata EVM_EMULATOR_ENABLER_CALLDATA
      (with_to CONTRACT_DEPLOYER (L2TxBuilder_new PSEUDO_CALLER 0 300000 u32_max chain_id))).

Definition predeploy_tx (chain_id nonce : Z) (data : Bytes) : L2Tx :=
  build_impersonated
    (with_calldata data
      (with_to EVM_PREDEPLOYS_MANAGER (L2TxBuilder_new PSEUDO_CALLER nonce 10000000 u32_max chain_id))).

(** The loop over [PREDEPLOYS], with its nonce. *)
Fixpoint predeploy_txs {S E} (chain_id nonce : Z) (pds : list Predeploy) : M S E (list L2Tx) :=
  match pds with
  | [] => mret []
  | pd :: pds =>
      data ← expect UNWRAP_ERR (encode_manager_call pd);
      txs ← predeploy_txs chain_id (wrapping_add_u32 nonce 1) pds;
      mret (predeploy_tx chain_id nonce data :: txs)
  end.

(** [unwrap()] of an operation, and the change of the error of one that has
    none. *)
Definition unwrap {S E E' A} (m : M S E A) : M S E' A := λ s,
  match m s with
  | Ret a s' => Ret a s'
  | Throw _ _ => Panic UNWRAP_ERR
  | Panic msg => Panic msg
  | Deadlock => Deadlock
  end.

Section Running.
Context (exec : NodeExecutor).
Abbreviation StM := (M Node StartError).

Definition enable_evm_interpreter (is_fork_mode : bool) : StM unit :=
  unwrap (impersonate_account PSEUDO_CALLER);;
  unwrap (node_set_rich_account PSEUDO_CALLER 1000000000000);;
  chain_id ← unwrap node_chain_id;
  predeploys ← (if is_fork_mode then mret [] else predeploy_txs chain_id 1 PREDEPLOYS);
  map_err StartNode
    (on_handle (seal_block_sync exec (mkTxBatch true (tx_of_l2 <$> enabler_tx chain_id :: predeploys))));;
  unwrap (node_set_rich_account PSEUDO_CALLER 0);;
  unwrap (stop_impersonating_account PSEUDO_CALLER);;
  mret tt.

(** ** Overriding bytecodes *)
Definition strip_json (s : string) : option string :=
  (fix go s := if bool_decide (s = ".json") then Some EmptyString
               else match s with
                    | EmptyString => None
                    | String c s => String c <$> go s
                    end) s.

Definition anyhow {A} (o : option A) (msg : string) : M Node ApiError A := try_option (Anyhow msg) o.
Definition anyhow_result {A} (r : Prelude.result A string) : M Node ApiError A :=
  match r with Ok a => mret a | Err e => throw (Anyhow e) end.

Definition override_entry (e : DirEntry) : M Node ApiError unit :=
  if entry_is_file e then
    filename ← anyhow (entry_name e) ("Invalid filename " +:+ entry_path e);
    match strip_json filename with
    | Some filename =>
        address ← anyhow (address_from_str filename) ("Cannot parse " +:+ filename +:+ " as address");
        file_content ← anyhow_result (read_text (entry_path e));
        object ← match contract_object file_content with
                 | Ok o => mret o
                 | Err _ => throw (Anyhow ("Failed to  parse json file " +:+ entry_path e))
                 end;
        bytecode ← match hex_decode object with
                   | Ok b => mret b
                   | Err _ => throw (Anyhow ("Failed to parse hex from " +:+ entry_path e))
                   end;
        unwrap (override_bytecode exec address bytecode)
    | None => mret tt
    end
  else mret tt.

Definition override_bytecodes (bytecodes_dir : string) : M Node ApiError unit :=
  entries ← anyhow_result (read_dir bytecodes_dir);
  for_each override_entry entries.

(** ** Servers

    Each host is bound to the port of the last server, at first the configured
    one, and to any port when that fails.  The port at the end and the
    addresses. *)
Definition bind_socket (bound : list (IpAddr * Z)) (addr : IpAddr * Z) : M Node string (IpAddr * Z) :=
  match bind_server bound addr.1 addr.2 with
  | Ok port => mret (addr.1, port)
  | Err e => throw e
  end.

(** The node that a server has is the handle of the shared one. *)
Definition server_builder (sidecar : L1Sidecar) (c : TestNodeConfig) : Builder :=
  let b := server_builder_new exec sidecar (tc_allow_origin c) in
  let b := if tc_health_check_endpoint c then enable_health_api b else b in
  if tc_no_cors c then b else enable_cors b.

Fixpoint bind_servers (builder : Builder) (servers : list Server) (port : Z) (hosts : list IpAddr)
    : StM (list Server * Z) :=
  match hosts with
  | [] => mret (servers, port)
  | host :: hosts =>
      let build_at port := capture (server_build (bind_socket (local_addr <$> servers)) socket_text builder (host, port)) in
      built ← build_at port;
      match built with
      | Ok server => bind_servers builder (servers ++ [server]) (local_addr server).2 hosts
      | Err _ =>
          built ← build_at 0;
          match built with
          | Ok server => bind_servers builder (servers ++ [server]) (local_addr server).2 hosts
          | Err e => throw (ServerStartupFailed host port e)
          end
      end
  end.

(** ** Dumping the state from time to time *)
Record PeriodicStateDumper := mkDumper {
  in_progress_dump : option dump;
  pd_dump_state : option string;
  pd_preserve_historical_states : bool;
  pd_interval : ticker;
}.

(** [dir.join("state.json")] *)
Definition join_state_json (dir : string) : string :=
  if ends_with_slash dir then dir +:+ "state.json" else dir +:+ "/state.json".

Definition PeriodicStateDumper_new (dump_state : option string) (interval : Duration) (preserve : bool)
    : PeriodicStateDumper :=
  mkDumper None ((λ p, if path_is_dir p then join_state_json p else p) <$> dump_state) preserve (interval_at interval).

(** The loop of [poll]; the answer is always that it is pending.  The second
    component: how many dumps were started and ended. *)
Fixpoint dumper_loop (fuel : nat) (path : string) (d : PeriodicStateDumper) : option (PeriodicStateDumper * (nat * nat)) :=
  match fuel with
  | O => None
  | S fuel =>
      let next ended d :=
        let '(ready, interval) := poll_tick (pd_interval d) in
        let d := mkDumper None (pd_dump_state d) (pd_preserve_historical_states d) interval in
        if ready then
          r ← dumper_loop fuel path
                (mkDumper (Some (spawn_dump path (pd_preserve_historical_states d))) (pd_dump_state d)
                   (pd_preserve_historical_states d) interval);
          Some (r.1, (S r.2.1, r.2.2 + ended)%nat)
        else Some (d, (0, ended)%nat) in
      match in_progress_dump d with
      | Some flush =>
          match poll_dump flush with
          | None =>
              next 1%nat (mkDumper None (pd_dump_state d) (pd_preserve_historical_states d) (reset_ticker (pd_interval d)))
          | Some flush =>
              Some (mkDumper (Some flush) (pd_dump_state d) (pd_preserve_historical_states d) (pd_interval d), (0, 0)%nat)
          end
      | None => next 0%nat d
      end
  end.

(** Two rounds: a dump that ends resets the interval, so that the next tick is
    not there yet. *)
Definition dumper_poll (d : PeriodicStateDumper) : option (PeriodicStateDumper * (nat * nat)) :=
  match pd_dump_state d with
  | None => Some (d, (0, 0)%nat)
  | Some path => dumper_loop 2 path d
  end.

(** [dump_state] of the dumper: the state that is written to the file, [None]
    when something failed and was only reported. *)
Definition dump_to_file (preserve : bool) : M Node ApiError (option VersionedState) := λ s,
  match node_dump_state preserve s with
  | Ret state_bytes s' =>
      match gz_decode state_bytes with
      | Ok json =>
          match state_of_json json with
          | Ok state => Ret (Some state) s'
          | Err _ => Ret None s'
          end
      | Err _ => Ret None s'
      end
  | Throw _ s' => Ret None s'
  | Panic msg => Panic msg
  | Deadlock => Deadlock
  end.

(** ** The program *)
Inductive Started :=
| Replayed
| Serving (servers : list Server) (config : TestNodeConfig) (dumper : PeriodicStateDumper).

Definition rich_accounts_of (c : TestNodeConfig) : list Address :=
  map signer_address (tc_genesis_accounts c) ++ map signer_address (tc_signer_accounts c)
  ++ LEGACY_RICH_WALLETS ++ RICH_WALLETS.

(** The state that is loaded before the node serves, and the task that dumps it *)
Definition load_initial_state (c : TestNodeConfig) : StM unit :=
  match match tc_load_state c with Some path => Some path | None => tc_state c end with
  | Some path =>
      match read_file path with
      | Ok bytes => map_err StartNode (node_load_state bytes);; mret tt
      | Err e => throw (StateFileAccess path e)
      end
  | None => mret tt
  end.
Definition state_dumper (c : TestNodeConfig) : PeriodicStateDumper :=
  let dump_path := match tc_dump_state c with Some p => Some p | None => tc_state c end in
  let interval := default 60 (tc_state_interval c) * 10 ^ 9 in
  PeriodicStateDumper_new dump_path interval (tc_preserve_historical_states c).

(** [start_program] from the creation of the node to the running servers. *)
Definition run_node (sidecar : L1Sidecar) (p : Prepared (Client := Client)) : StM Started :=
  let c := pr_config p in
  (if tc_use_evm_interpreter c then enable_evm_interpreter (bool_decide (is_Some (pr_fork_client p))) else mret tt);;
  (match tc_override_bytecodes_dir c with
   | Some dir => unwrap (override_bytecodes dir)
   | None => mret tt
   end);;
  if bool_decide (pr_transactions_to_replay p ≠ []) then
    map_err StartNode (replay_txs exec (pr_transactions_to_replay p));;
    mret Replayed
  else
    for_each (λ a, unwrap (node_set_rich_account a (tc_genesis_balance c))) (rich_accounts_of c);;
    (match parse_origin (tc_allow_origin c) with
     | Ok _ => mret tt
     | Err _ => throw (StartGeneric "allow origin is malformed")
     end);;
    servers ← bind_servers (server_builder sidecar c) [] (tc_port c) (tc_host c);
    let c := set_tc_port servers.2 c in
    load_initial_state c;;
    mret (Serving servers.1 c (state_dumper c)).
End Running.

(** ** What the options do to the node *)
Lemma from_fork_state {S E} fork ratio (s : S) provider s' :
  from_fork (E := E) fork ratio s = Ret provider s' →
  s' = s ∧ ∀ s1 : S, from_fork (E := E) fork ratio s1 = Ret provider s1.
Proof.
  unfold from_fork. destruct fork as [fd|].
  - unfold from_fee_params_and_estimate_scale_factors. destruct (fd_fee_params fd); [done|]. by intros [= <- <-].
  - unfold expect_u64. intros (l1 & s1 & H1 & (pub & s2 & H2 & [= <- <-])%bind_Ret)%bind_Ret.
    destruct (_ <=? u64_max); [|done]. injection H1 as <- <-.
    destruct (DEFAULT_FAIR_PUBDATA_PRICE * _ / _ <=? u64_max); [|done]. injection H2 as <- <-.
    done.
Qed.

Section Contracts.
Context {WF : WellFormedArtifacts}.

(** A node that is created has the contracts that the builder makes, starts from
    the deployed contracts of its version, and has the sidecar as it was
    started. *)
Lemma create_node_Ret arguments identifier disk p (w : W) cr w' :
  create_node arguments identifier disk p w = Ret cr w' →
  let c := pr_config p in
  ∃ provider version sc contracts,
    from_fork (E := StartError) (client_details <$> pr_fork_client p) (bt_ratio (tc_base_token_config c)) w = Ret provider w ∧
    get_protocol_version (E := StartError) c w = Ret version w ∧
    build (E := StartError) (contracts_builder c version) w = Ret sc w ∧ sc_protocol_version sc = version ∧
    get_deployed_contracts (S := W) (E := StartError) (tc_system_contracts_options c) version
      (tc_system_contracts_path c) w = Ret contracts w ∧
    deployed_contracts c version = (λ d, mkDeployed d.1 d.2) <$> contracts ∧
    let layout := if use_boojum_os (tc_boojum c) then BoojumOs else ZkEra in
    let inner := init (pr_fork_client p) provider empty_filters (node_config_of (deployed_contracts c) c)
      (if tc_enable_auto_impersonate c then set_auto_impersonation true default_impersonation else default_impersonation)
      sc layout disk in
    let sealing := sealing_mode c (TxPool_new (tc_transaction_order c)) in
    l1_sidecar c version (bool_decide (is_Some (pr_fork_client p))) arguments (blockchain inner) w =
      Ret (cr_sidecar cr, cr_l1_tasks cr) w' ∧
    cr_executor cr = mkExecutor (mkVmRunner (tc_bytecode_compression c) (bool_decide (is_Some (tc_l1_config c))) identifier) layout ∧
    cr_node cr = mkNode (mkTask inner true) [] sealing.2 sealing.1.
Proof.
  intros H c. unfold create_node in H. fold c in H.
  apply bind_Ret in H as (provider & w1 & Hp & (version & w2 & Hv & (sc & w3 & Hsc & (contracts & w4 & Hd & H)%bind_Ret)%bind_Ret)%bind_Ret).
  pose proof (proj1 (from_fork_state _ _ _ _ _ Hp)) as ->.
  assert (w2 = w) as ->.
  { unfold get_protocol_version, expect, panic, mret, M_ret in Hv.
    destruct (tc_system_contracts_options c); [|destruct (tc_protocol_version c)|]; congruence. }
  apply build_Ret in Hsc as Hb. destruct Hb as (-> & Hver & _). cbn in Hver.
  destruct (deployed_Ret (E' := unit) _ _ _ _ _ _ tt Hd) as [-> Hd'].
  apply bind_Ret in H as ([sidecar tasks] & w5 & Hl1 & H).
  exists provider, version, sc, contracts. destruct (sealing_mode _ _) as [mode pool]. injection H as <- <-.
  split_and!; try done. unfold deployed_contracts. by rewrite Hd'.
Qed.

(** The prices on the command line do not reach the node: two configurations
    with the same fork and the same ratio of the base token give nodes with the
    same fee provider, and without a fork and with the usual base token it is
    the default one, whatever the options for prices, scale factors or the fee
    parameters of the main network were. *)
Theorem prices_do_not_reach_node (arguments : string) (identifier : Prelude.result unit string) (disk : DiskState)
    (p p' : Prepared) (w w1 w2 : W) (cr cr' : Created) :
  pr_fork_client p = pr_fork_client p' →
  bt_ratio (tc_base_token_config (pr_config p)) = bt_ratio (tc_base_token_config (pr_config p')) →
  create_node arguments identifier disk p w = Ret cr w1 →
  create_node arguments identifier disk p' w = Ret cr' w2 →
  fee_input_provider (nd_inner (cr_node cr)) = fee_input_provider (nd_inner (cr_node cr')) ∧
  (pr_fork_client p = None → bt_ratio (tc_base_token_config (pr_config p)) = default_ratio →
   fee_input_provider (nd_inner (cr_node cr)) = default_provider).
Proof.
  intros Hf Hr (provider & v & sc & l & Hp & _ & _ & _ & _ & _ & _ & _ & ->)%create_node_Ret
    (provider' & v' & sc' & l' & Hp' & _ & _ & _ & _ & _ & _ & _ & ->)%create_node_Ret. cbn.
  split.
  - rewrite Hf, Hr in Hp. congruence.
  - intros H1 H2. rewrite H1, H2 in Hp. by injection Hp.
Qed.
End Contracts.

(** ** Servers *)
Section Servers.
Context {EL : EraLaws}.

(** What a server is built of, but for its address. *)
Definition built (builder : Builder) (addr : IpAddr * Z) (server : Server) : Prop :=
  local_addr server = addr ∧ (∀ name r, ns_rpc server !! name = Some r ↔ ∃ m, m ∈ namespaces ∧ m !! name = Some r) ∧
  (sb_http_middleware (ns_server server)).1 = cors_layers builder ∧
  (is_Some (sb_http_middleware (ns_server server)).2 ↔ nb_health_api_enabled builder = true).

(** Every host is served, in order, on the port that was asked for or on one
    the system chose when that failed; the port of the configuration ends up
    being that of the last server, so that a host after a failure follows the
    new port. *)
Fixpoint served (builder : Builder) (bound : list (IpAddr * Z)) (port : Z) (hosts : list IpAddr) (servers : list Server) : Prop :=
  match hosts, servers with
  | [], [] => True
  | host :: hosts, server :: servers =>
      ∃ p, built builder (host, p) server ∧
      (bind_server bound host port = Ok p ∨
       (∃ e, bind_server bound host port = Err e) ∧ bind_server bound host 0 = Ok p) ∧
      served builder (bound ++ [(host, p)]) p hosts servers
  | _, _ => False
  end.

Lemma server_build_run (builder : Builder) bound host port (s : Node) :
  match bind_server bound host port with
  | Ok p => ∃ server, server_build (bind_socket bound) socket_text builder (host, port) s = Ret server s ∧
              built builder (host, p) server
  | Err e => ∃ details, server_build (bind_socket bound) socket_text builder (host, port) s = Throw details s
  end.
Proof.
  pose proof (server_build_spec (bind_socket bound) socket_text builder (host, port) s) as H.
  unfold bind_socket at 1 in H. cbn [fst snd] in H. destruct (bind_server bound host port) as [p|e].
  - destruct H as (server & Hs & Ha & _ & Hrpc & Hcors & Hno & Hyes). exists server. split; [exact Hs|].
    split; [exact Ha|]. split; [|split; [exact Hcors|]].
    + destruct (default_rpc_run (S := Node) (E := string) s) as (rpc & Hr & Hc).
      unfold server_run in Hrpc. cbn [snd] in Hrpc. rewrite Hr in Hrpc. injection Hrpc as <-. intros name r.
      rewrite (Hc name r). by setoid_rewrite elem_of_reverse.
    + destruct (nb_health_api_enabled builder).
      * destruct (Hyes eq_refl) as (layer & Hl & _). unfold server_run in Hl. cbn [fst] in Hl. rewrite Hl. split; eauto.
      * specialize (Hno eq_refl). unfold server_run in Hno. cbn [fst] in Hno. rewrite Hno. by split; [intros []|].
  - eexists. exact H.
Qed.

Lemma bind_servers_spec builder servers port hosts (s : Node) :
  match bind_servers builder servers port hosts s with
  | Ret (servers', port') s' =>
      s' = s ∧ ∃ new, servers' = servers ++ new ∧ served builder (local_addr <$> servers) port hosts new ∧
        port' = default port (snd ∘ local_addr <$> last new)
  | Throw e s' =>
      s' = s ∧ ∃ host requested details bound e', e = ServerStartupFailed host requested details ∧ host ∈ hosts ∧
        bind_server bound host 0 = Err e'
  | Panic _ | Deadlock => False
  end.
Proof.
  revert servers port. induction hosts as [|host hosts IH]; intros servers port; cbn [bind_servers].
  { split; [done|]. exists []. by rewrite app_nil_r. }
  assert (Hstep : ∀ p server, built builder (host, p) server →
      (bind_server (local_addr <$> servers) host port = Ok p ∨
       (∃ e, bind_server (local_addr <$> servers) host port = Err e) ∧ bind_server (local_addr <$> servers) host 0 = Ok p) →
    match bind_servers builder (servers ++ [server]) (local_addr server).2 hosts s with
    | Ret (servers', port') s' =>
        s' = s ∧ ∃ new, servers' = servers ++ new ∧ served builder (local_addr <$> servers) port (host :: hosts) new ∧
          port' = default port (snd ∘ local_addr <$> last new)
    | Throw e s' =>
        s' = s ∧ ∃ h requested details bound e', e = ServerStartupFailed h requested details ∧ h ∈ host :: hosts ∧
          bind_server bound h 0 = Err e'
    | Panic _ | Deadlock => False
    end).
  { intros p server Hbuilt Hp. specialize (IH (servers ++ [server]) (local_addr server).2).
    pose proof (proj1 Hbuilt) as Ha. rewrite fmap_app in IH. cbn [fmap list_fmap] in IH. rewrite Ha in IH |- *. cbn [snd] in *.
    destruct (bind_servers builder _ p hosts s) as [[servers' port'] s'|e s'| |]; try done.
    - destruct IH as (-> & new & -> & Hs & ->). split; [done|]. exists (server :: new).
      split; [by rewrite <-app_assoc|]. split; [by exists p|].
      destruct new as [|a new]; [cbn; by rewrite Ha|]. rewrite last_cons_cons.
      destruct (last (a :: new)) eqn:Hl; [done|]. by apply last_None in Hl.
    - destruct IH as (-> & h & r & d & b & e' & -> & Hh & Hb). split; [done|].
      exists h, r, d, b, e'. split_and!; [done|by constructor|done]. }
  pose proof (server_build_run builder (local_addr <$> servers) host port s) as Hb.
  destruct (bind_server (local_addr <$> servers) host port) as [p|e] eqn:Hbind.
  { destruct Hb as (server & Hrun & Hbuilt). erewrite bind_run by (unfold capture; rewrite Hrun; reflexivity). apply (Hstep p); auto. }
  destruct Hb as (details & Hrun). erewrite bind_run by (unfold capture; rewrite Hrun; reflexivity).
  pose proof (server_build_run builder (local_addr <$> servers) host 0 s) as Hb0.
  destruct (bind_server (local_addr <$> servers) host 0) as [p|e'] eqn:Hbind0.
  { destruct Hb0 as (server & Hrun0 & Hbuilt). erewrite bind_run by (unfold capture; rewrite Hrun0; reflexivity).
    apply (Hstep p); eauto. }
  destruct Hb0 as (details0 & Hrun0). erewrite bind_run by (unfold capture; rewrite Hrun0; reflexivity).
  split; [done|]. exists host, port, details0, (local_addr <$> servers), e'. split_and!; [done|constructor|done].
Qed.
End Servers.

(** ** The dumper *)
Section Dumper.
Context (reset_law : ∀ t, (poll_tick (reset_ticker t)).1 = false).

(** The dumps in progress. *)
Definition running (d : PeriodicStateDumper) : nat :=
  match in_progress_dump d with Some _ => 1 | None => 0 end.

(** Polling the dumper ends, and never has more than one dump at a time: a new
    one is started only on a tick and when none is running, and when one has
    ended no other is started in the same poll. *)
Theorem dumper_poll_total (d : PeriodicStateDumper) :
  ∃ d' started ended, dumper_poll d = Some (d', (started, ended)) ∧
    pd_dump_state d' = pd_dump_state d ∧
    (started + running d = ended + running d')%nat ∧
    (started <= 1)%nat ∧ (ended <= 1)%nat ∧
    (pd_dump_state d = None → d' = d) ∧
    (is_Some (in_progress_dump d) → started = 0%nat).
Proof.
  unfold dumper_poll. destruct (pd_dump_state d) as [path|] eqn:Hpath.
  2:{ exists d, 0%nat, 0%nat. split_and!; try done; try lia. }
  destruct d as [[flush|] path' preserve interval]; cbn [dumper_loop in_progress_dump pd_interval pd_dump_state pd_preserve_historical_states] in *.
  - destruct (poll_dump flush) as [flush'|].
    + do 3 eexists. split_and!; try done; cbn; lia.
    + specialize (reset_law interval). destruct (poll_tick (reset_ticker interval)) as [ready i]. cbn in reset_law. subst ready.
      do 3 eexists. split_and!; try done; cbn; lia.
  - destruct (poll_tick interval) as [[] i].
    2:{ do 3 eexists. split_and!; try done; cbn; try lia; by intros []. }
    destruct (poll_dump (spawn_dump path preserve)) as [flush'|]; cbn.
    + do 3 eexists. split_and!; try done; cbn; try lia; by intros [].
    + specialize (reset_law i). destruct (poll_tick (reset_ticker i)) as [ready i']. cbn in reset_law. subst ready.
      do 3 eexists. split_and!; try done; cbn; try lia; by intros [].
Qed.
End Dumper.

(** What is written is the state of the node, which stays as it is. *)
Lemma dump_to_file_spec preserve (s : Node) :
  (∀ b c, gz_encode b = Ok c → gz_decode c = Ok b) →
  (∀ st j, state_to_json st = Ok j → state_of_json j = Ok st) →
  dump_to_file preserve s = Ret (Some (dump_state preserve (nd_inner s))) s ∨ dump_to_file preserve s = Ret None s.
Proof.
  intros Hgz Hjson. unfold dump_to_file, node_dump_state, generic_result, mbind, M_bind; cbn [gets].
  destruct (state_to_json _) as [j|] eqn:Hj; cbn; [|by right].
  destruct (gz_encode j) as [b|] eqn:Hb; cbn; [|by right]. left. by rewrite (Hgz _ _ Hb), (Hjson _ _ Hj).
Qed.

(** ** Serving *)
Lemma rich_accounts_run balance l (s : Node) :
  storage_key_layout (nd_inner s) = ZkEra →
  ∃ st, let n := nd_inner s in
    for_each (λ a, unwrap (E' := StartError) (node_set_rich_account a balance)) l s =
      Ret tt (set_inner (set_rich_accounts (list_to_set l ∪ rich_accounts n) (set_storage (st, fork n) n)) s) ∧
    (∀ a, a ∈ l → Storage.state (raw_storage st) !! storage_key_for_eth_balance a = Some balance) ∧
    (∀ k, (∀ a, a ∈ l → k ≠ storage_key_for_eth_balance a) →
       Storage.state (raw_storage st) !! k = Storage.state (raw_storage (fork_storage n)) !! k).
Proof.
  intros Hlay. destruct (set_rich_accounts_run balance l (nd_inner s) Hlay) as (st & Hrun & Hin & Hout & _).
  exists st. split_and!; [|done|done].
  assert (Hgen : ∀ (s : Node) n', for_each (λ a, set_rich_account a balance) l (nd_inner s) = Ret tt n' →
    for_each (λ a, unwrap (E' := StartError) (node_set_rich_account a balance)) l s = Ret tt (set_inner n' s));
    [|by apply Hgen].
  clear. induction l as [|a l IH]; intros s n' H; cbn [for_each] in *.
  - injection H as <-. by destruct s as [[]].
  - apply bind_Ret in H as ([] & n1 & Ha & H). step_m ltac:(unfold unwrap, node_set_rich_account, on_inner, zoom, map_err;
      rewrite Ha; reflexivity).
    rewrite (IH (set_inner n1 s) n'); [by destruct s as [[]]|done].
Qed.

Section Served.
Context {EL : EraLaws}.

(** What serving starts with, when nothing is loaded or overridden: nothing was
    replayed, the rich accounts have the configured balance and no other slot of
    the storage and nothing else of the node has changed, every host is served,
    and the dumper is idle with the path of the configuration. *)
Theorem serving_spec (exec : NodeExecutor) (sidecar : L1Sidecar) (p : Prepared) (s s' : Node) (servers : list Server)
    (c' : TestNodeConfig) (d : PeriodicStateDumper) :
  let c := pr_config p in
  let n := nd_inner s in
  tc_use_evm_interpreter c = false → tc_override_bytecodes_dir c = None →
  tc_load_state c = None → tc_state c = None →
  storage_key_layout n = ZkEra →
  run_node exec sidecar p s = Ret (Serving servers c' d) s' →
  pr_transactions_to_replay p = [] ∧
  (∃ st, s' = set_inner (set_rich_accounts (list_to_set (rich_accounts_of c) ∪ rich_accounts n) (set_storage (st, fork n) n)) s ∧
     (∀ a, a ∈ rich_accounts_of c →
        Storage.state (raw_storage st) !! storage_key_for_eth_balance a = Some (tc_genesis_balance c)) ∧
     (∀ k, (∀ a, a ∈ rich_accounts_of c → k ≠ storage_key_for_eth_balance a) →
        Storage.state (raw_storage st) !! k = Storage.state (raw_storage (fork_storage n)) !! k)) ∧
  served (server_builder exec sidecar c) [] (tc_port c) (tc_host c) servers ∧
  c' = set_tc_port (default (tc_port c) (snd ∘ local_addr <$> last servers)) c ∧
  in_progress_dump d = None ∧
  (is_Some (pd_dump_state d) ↔ is_Some (tc_dump_state c)).
Proof.
  intros c n Hevm Hov Hload Hst Hlay. unfold run_node, load_initial_state, state_dumper. fold c. rewrite Hevm, Hov.
  intros ([] & s1 & [= <-] & ([] & s2 & [= <-] & H)%bind_Ret)%bind_Ret.
  case_bool_decide as Htx.
  { by apply bind_Ret in H as ([] & s3 & _ & ?). }
  split; [by destruct (pr_transactions_to_replay p); [|destruct Htx]|].
  destruct (rich_accounts_run (tc_genesis_balance c) (rich_accounts_of c) s Hlay) as (st & Hrun & Hin & Hout).
  apply bind_Ret in H as ([] & s3 & H3 & ([] & s4 & H4 & ([srv port] & s5 & H5 & H)%bind_Ret)%bind_Ret).
  rewrite Hrun in H3. injection H3 as <-. destruct (parse_origin _); [injection H4 as <-|done].
  pose proof (bind_servers_spec (server_builder exec sidecar c) [] (tc_port c) (tc_host c)
    (set_inner (set_rich_accounts (list_to_set (rich_accounts_of c) ∪ rich_accounts (nd_inner s))
      (set_storage (st, fork (nd_inner s)) (nd_inner s))) s)) as Hb.
  rewrite H5 in Hb. destruct Hb as (-> & new & -> & Hserved & ->).
  change (tc_load_state (set_tc_port _ c)) with (tc_load_state c) in H.
  change (tc_state (set_tc_port _ c)) with (tc_state c) in H. rewrite Hload, Hst in H.
  apply bind_Ret in H as ([] & s6 & [= <-] & [= <- <- <- <-]).
  split; [by exists st|]. split_and!; try done. cbn. by destruct (tc_dump_state c); split; intros []; try done; eauto.
Qed.
End Served.

(** The transactions that deploy contracts for the EVM have consecutive nonces. *)
Lemma predeploy_txs_spec {S E} chain_id nonce pds (s : S) txs s' :
  0 <= nonce → nonce + Z.of_nat (length pds) <= u32_max →
  predeploy_txs (E := E) chain_id nonce pds s = Ret txs s' →
  s' = s ∧ length txs = length pds ∧
  ∀ i pd, pds !! i = Some pd → ∃ data, encode_manager_call pd = Some data ∧
    txs !! i = Some (predeploy_tx chain_id (nonce + Z.of_nat i) data).
Proof.
  revert nonce txs. induction pds as [|pd pds IH]; intros nonce txs Hn Hmax; cbn [predeploy_txs length] in *.
  { by intros [= <- <-]. }
  intros (data & s1 & Hd & (txs' & s2 & Ht & [= <- <-])%bind_Ret)%bind_Ret.
  destruct (encode_manager_call pd) as [data'|] eqn:He; [|done]. injection Hd as -> <-.
  rewrite wrapping_add_u32_small in Ht by lia. apply IH in Ht as (-> & Hl & Hi); [|lia..].
  split_and!; [done|cbn; lia|]. intros [|i] pd' Hpd; cbn in Hpd.
  - simplify_eq. exists data. split; [done|]. cbn. do 2 f_equal. lia.
  - destruct (Hi i pd' Hpd) as (d' & ? & Htx). exists d'. split; [done|]. etrans; [exact Htx|]. do 2 f_equal. lia.
Qed.
End Start.

(** ** A sample start *)
Module SampleStart.
Export SampleServing SampleCli.
#[export] Existing Instances SampleRemote.remote SampleArtifacts.sample_artifacts SampleArtifacts.sample_well_formed.
#[export] Existing Instances SampleBuild.era SampleBuild.era_laws SampleQueue.l1_tx.
#[export] Existing Instances SampleL1.random SampleL1.commitments SampleL1.merkle SampleL1.abi SampleL1.accepting.

#[export] Instance predeploy_abi : PredeployAbi := λ a bs, a :: bs.
#[export] Instance embedded : Embedded := {|
  wallets_yaml := zc_wallets SampleL1.zk;
  contracts_yaml _ := zc_contracts SampleL1.zk;
  genesis_yaml _ := zc_genesis SampleL1.zk;
  upgrade_tx_json _ := mkUpgradeTx (mkExecute None [] 0 []) 1 2 3 4 5 6 7 8;
  l1_state_json _ := [1];
  l1_state_payload _ := "01";
|}.
Definition world : SampleL1.World := SampleL1.mkWorld [] 1000 0 [].

#[export] Instance host : HostApi := {|
  zksync_home := None;
  path_exists _ := true;
  path_is_dir p := bool_decide (p = "dir");
  create_file _ := Ok tt;
  read_file _ := Err "No such file or directory";
  read_text _ := Ok "60";
  read_dir _ := Ok [];
  bind_server _ _ port :=
    if port =? 8011 then Err "Address in use" else Ok (if port =? 0 then 40000 else port);
  parse_origin _ := Ok tt;
  socket_text a := a.1 +:+ ":" +:+ dec a.2;
|}.

#[export] Instance start_api : StartApi := {|
  L2Tx_new to data nonce fee from value deps :=
    mkL2Tx (mkL2Data nonce fee from [] EIP1559Transaction None) (mkExecute to data value deps) 0 None;
  sign_with_random_key tx _ := ([], [], l2_nonce (l2tx_common tx));
  CONTRACT_DEPLOYER := 32774;
  EVM_PREDEPLOYS_MANAGER := 65543;
  address_from_str _ := Some 9;
  contract_object _ := Ok "60";
|}.

#[export] Instance dump_api : DumpApi (TI := SampleSealer.ticks) := {|
  dump := nat;
  spawn_dump _ _ := 1%nat;
  poll_dump n := match n with O => None | S n => Some n end;
  reset_ticker _ := 1%nat;
|}.

(** A run without network, and a fork of block 5. *)
Definition offline_args : Cli := args "secret" false.


(** Two configurations that differ in the price of gas. *)
Definition priced (price : Z) : Prepared (Client := unit) :=
  mkPrepared (set_tc_l2_gas_price (Some price) (default_with [])) None [].

Abbreviation SampleCreated := (Created (Client := unit) (W := SampleL1.World)).
Definition created (p : Prepared (Client := unit)) : outcome SampleL1.World StartError SampleCreated :=
  create_node "" (Ok tt) empty_disk p world.

Lemma created_Ret (p : Prepared (Client := unit)) :
  match created p with Ret _ _ => true | _ => false end = true → ∃ cr w, created p = Ret cr w.
Proof. destruct (created p) as [cr w| | |]; try discriminate. by exists cr, w. Qed.

Lemma prices_do_not_reach_node_witness :
  ∃ cr w cr' w', created (priced 1) = Ret cr w ∧ created (priced 2) = Ret cr' w' ∧
    fee_input_provider (nd_inner (cr_node cr)) = default_provider ∧
    fee_input_provider (nd_inner (cr_node cr')) = default_provider.
Proof.
  destruct (created_Ret (priced 1) ltac:(vm_compute; reflexivity)) as (cr & w & Hc1).
  destruct (created_Ret (priced 2) ltac:(vm_compute; reflexivity)) as (cr' & w' & Hc2).
  destruct (prices_do_not_reach_node "" (Ok tt) empty_disk (priced 1) (priced 2) world w w' cr cr' eq_refl eq_refl Hc1 Hc2)
    as [He Hd].
  specialize (Hd eq_refl eq_refl). exists cr, w, cr', w'. rewrite <-He. split_and!; [exact Hc1|exact Hc2|exact Hd|exact Hd].
Defined.

Lemma dumper_poll_total_witness :
  ∃ d' started ended,
    dumper_poll (PeriodicStateDumper_new (Some "dir") 60 true) = Some (d', (started, ended)) ∧
    pd_dump_state d' = Some "dir/state.json" ∧ running d' = 1%nat.
Proof.
  destruct (dumper_poll_total (TI := SampleSealer.ticks) (DA := dump_api) (λ t, eq_refl) (PeriodicStateDumper_new (Some "dir") 60 true))
    as (d' & started & ended & Hp & Hs & _).
  exists d', started, ended. split; [exact Hp|]. split; [exact Hs|].
  vm_compute in Hp. injection Hp as <- _ _. reflexivity.
Defined.

Definition is_zk_era (l : StorageKeyLayout) : bool := match l with ZkEra => true | BoojumOs => false end.
Lemma layout_zk_era l : is_zk_era l = true → l = ZkEra.
Proof. by destruct l. Qed.

Definition served_node : outcome (InMemoryNode (Client := unit)) StartError Started :=
  match created (priced 1) with
  | Ret cr _ => run_node (cr_executor cr) (cr_sidecar cr) (priced 1) (cr_node cr)
  | _ => Deadlock
  end.

Definition serves (addrs : list (IpAddr * Z)) (o : outcome (InMemoryNode (Client := unit)) StartError Started) : bool :=
  match o with Ret (Serving servers _ _) _ => bool_decide (local_addr <$> servers = addrs) | _ => false end.
Lemma serves_Ret addrs o : serves addrs o = true →
  ∃ servers c' d n', o = Ret (Serving servers c' d) n' ∧ local_addr <$> servers = addrs.
Proof.
  destruct o as [[|servers c' d] n'| | |]; try discriminate. intros H%bool_decide_eq_true. by exists servers, c', d, n'.
Qed.

Lemma serving_spec_witness :
  ∃ cr w servers c' d n', created (priced 1) = Ret cr w ∧
    run_node (cr_executor cr) (cr_sidecar cr) (priced 1) (cr_node cr) = Ret (Serving servers c' d) n' ∧
    local_addr <$> servers = [("127.0.0.1", 40000)] ∧
    Storage.state (raw_storage (fork_storage (nd_inner n'))) !!
      storage_key_for_eth_balance 310456771025820669616026695872740475403597889609 = Some (100 * 10 ^ 18).
Proof.
  assert (Hok : serves [("127.0.0.1", 40000)] served_node = true) by (vm_compute; reflexivity).
  unfold served_node in Hok.
  assert (Hl : match created (priced 1) with
               | Ret cr _ => is_zk_era (storage_key_layout (nd_inner (cr_node cr)))
               | _ => false end = true)
    by (vm_compute; reflexivity).
  destruct (created_Ret (priced 1) ltac:(vm_compute; reflexivity)) as (cr & w & Hc). rewrite Hc in Hok, Hl.
  apply layout_zk_era in Hl as Hz.
  apply serves_Ret in Hok as (servers & c' & d & n' & Hr & Haddr).
  destruct (serving_spec (cr_executor cr) (cr_sidecar cr) (priced 1) (cr_node cr) n' servers c' d
    eq_refl eq_refl eq_refl eq_refl Hz Hr) as (_ & (st & Hn' & Hrich & _) & _).
  exists cr, w, servers, c', d, n'. split; [exact Hc|]. split; [exact Hr|]. split; [exact Haddr|].
  rewrite Hn'. apply Hrich. apply (bool_decide_unpack _). vm_compute. exact I.
Defined.

(** With an L1: the sidecar has its configuration, and its tasks start with the
    commitment of the genesis batch. *)
Example created_with_l1 :
  match created (mkPrepared (set_tc_l1_config (Some (L1Spawn 8012)) (default_with [])) None []) with
  | Ret cr _ => bool_decide (gc_l1_chain_id ∘ zc_genesis <$> sc_inner (cr_sidecar cr) = Some 9)
                && bool_decide (is_Some (cr_l1_tasks cr)) && generate_system_logs (vm_runner (cr_executor cr))
  | _ => false
  end = true.
Proof. vm_compute. reflexivity. Qed.
End SampleStart.
