(* ===== verification/RpcServer.v ===== *)
(** * The JSON-RPC server

    [crates/api_decl] (the namespaces and their methods) and
    [crates/api_server/src/impls] (what every method calls).  The server that is
    put together from the namespaces is in [ServerBuild].  The methods themselves
    are in [Node], [Api], [L1Sidecar] and [Logging]; how their errors become
    objects of the protocol is in [NodeErrors].

    The namespaces [eth], [zks], [debug], [net] and [web3] are declared in
    another crate: the names of their methods are arguments, as is the library
    that binds to an address and serves requests. *)
From S2P Require Import Prelude Types Utils Text Filters Impersonate Time Pool Cache Fork Storage.
From S2P Require Import FeeModel Sealer Blockchain Inner Sealing VmRunner Running Executor GasEstim Node Api Serving.
From S2P Require Import AddressMap TraceTypes Traces TraceWriter Resolver Config ErrorDefs Errors NodeErrors.
From S2P Require Import L1Anvil L1Commit L1Sender L1Watcher L1Sidecar Logging.
From Stdlib Require Import Ascii.
Local Open Scope string_scope.
Local Open Scope list_scope.
Local Open Scope Z_scope.

(** ** The methods, by namespace

    A method is indexed by the type of its answer. *)
Inductive Numeric :=
| NumericU64 (value : Z)
| NumericNum (value : Z).
Definition u64_of_numeric (n : Numeric) : Z := match n with NumericU64 v => v | NumericNum v => v end.

Inductive AnvilMethod : Type → Type :=
| anvil_dump_state (preserve_historical_states : option bool) : AnvilMethod Bytes
| anvil_load_state (bytes : Bytes) : AnvilMethod bool
| anvil_mine_detailed : AnvilMethod (Block DetailedTransaction)
| anvil_set_rpc_url (url : string) : AnvilMethod unit
| anvil_set_next_block_base_fee_per_gas (base_fee : Z) : AnvilMethod unit
| anvil_drop_transaction (hash : H256) : AnvilMethod (option H256)
| anvil_drop_all_transactions : AnvilMethod unit
| anvil_remove_pool_transactions (address : Address) : AnvilMethod unit
| anvil_get_auto_mine : AnvilMethod bool
| anvil_set_auto_mine (enable : bool) : AnvilMethod unit
| anvil_set_interval_mining (seconds : Z) : AnvilMethod unit
| anvil_set_block_timestamp_interval (seconds : Z) : AnvilMethod unit
| anvil_remove_block_timestamp_interval : AnvilMethod bool
| anvil_set_min_gas_price (gas : Z) : AnvilMethod unit
| anvil_set_logging_enabled (enable : bool) : AnvilMethod unit
| anvil_snapshot : AnvilMethod Z
| anvil_revert (id : Z) : AnvilMethod bool
| anvil_set_time (timestamp : Numeric) : AnvilMethod Z
| anvil_increase_time (seconds : Numeric) : AnvilMethod Z
| anvil_set_next_block_timestamp (timestamp : Numeric) : AnvilMethod unit
| anvil_auto_impersonate_account (enabled : bool) : AnvilMethod unit
| anvil_set_balance (address : Address) (balance : Z) : AnvilMethod bool
| anvil_set_nonce (address : Address) (nonce : Z) : AnvilMethod bool
| anvil_mine (num_blocks interval : option Z) : AnvilMethod unit
| anvil_reset_network (reset_spec : option ResetRequest) : AnvilMethod bool
| anvil_impersonate_account (address : Address) : AnvilMethod unit
| anvil_stop_impersonating_account (address : Address) : AnvilMethod unit
| anvil_set_code (address : Address) (code : string) : AnvilMethod unit
| anvil_set_storage_at (address : Address) (slot value : Z) : AnvilMethod bool
| anvil_set_chain_id (id : Z) : AnvilMethod unit.

Inductive AnvilZksMethod : Type → Type :=
| zks_commit_batch (batch_number : Z) : AnvilZksMethod H256
| zks_prove_batch (batch_number : Z) : AnvilZksMethod H256
| zks_execute_batch (batch_number : Z) : AnvilZksMethod H256
| zks_get_boojum_witness (batch_number : Z) : AnvilZksMethod Bytes.

Inductive ConfigMethod : Type → Type :=
| config_get_current_timestamp : ConfigMethod Z
| config_set_show_storage_logs (value : ShowStorageLogs) : ConfigMethod string
| config_set_show_vm_details (value : ShowVMDetails) : ConfigMethod string
| config_set_show_gas_details (value : ShowGasDetails) : ConfigMethod string
| config_set_show_node_config (value : bool) : ConfigMethod bool
| config_set_log_level (level : LogLevel) : ConfigMethod bool
| config_set_logging (directive : string) : ConfigMethod bool.

Inductive EvmMethod : Type → Type := evm_mine : EvmMethod string.
Inductive EthTestMethod : Type → Type := eth_send_transaction (tx : CallRequest) : EthTestMethod H256.

Inductive EthMethod : Type → Type :=
| eth_get_block_number : EthMethod Z
| eth_chain_id : EthMethod Z
| eth_call (req : CallRequest) (block : option BlockIdVariant) (state_override : option (list (Address * OverrideAccount))) : EthMethod Bytes
| eth_estimate_gas (req : CallRequest) (block : option BlockNumber) (state_override : option (list (Address * OverrideAccount))) : EthMethod Z
| eth_gas_price : EthMethod Z
| eth_new_filter (filter : LogRequest) : EthMethod Z
| eth_new_block_filter : EthMethod Z
| eth_uninstall_filter (idx : Z) : EthMethod bool
| eth_new_pending_transaction_filter : EthMethod Z
| eth_get_logs (filter : LogRequest) : EthMethod (list Log)
| eth_get_filter_logs (filter_index : Z) : EthMethod FilterChanges
| eth_get_filter_changes (filter_index : Z) : EthMethod FilterChanges
| eth_get_balance (address : Address) (block : option BlockIdVariant) : EthMethod Z
| eth_get_block_by_number (block_number : BlockNumber) (full_transactions : bool) : EthMethod (option ApiBlock)
| eth_get_block_by_hash (hash : H256) (full_transactions : bool) : EthMethod (option ApiBlock)
| eth_get_block_transaction_count_by_number (block_number : BlockNumber) : EthMethod (option Z)
| eth_get_block_receipts (block_id : BlockId) : EthMethod (option (list TransactionReceipt))
| eth_get_block_transaction_count_by_hash (block_hash : H256) : EthMethod (option Z)
| eth_get_code (address : Address) (block : option BlockIdVariant) : EthMethod Bytes
| eth_get_storage_at (address : Address) (idx : Z) (block : option BlockIdVariant) : EthMethod H256
| eth_get_transaction_count (address : Address) (block : option BlockIdVariant) : EthMethod Z
| eth_get_transaction_by_hash (hash : H256) : EthMethod (option ApiTransaction)
| eth_get_transaction_by_block_hash_and_index (block_hash : H256) (index : Z) : EthMethod (option ApiTransaction)
| eth_get_transaction_by_block_number_and_index (block_number : BlockNumber) (index : Z) : EthMethod (option ApiTransaction)
| eth_get_transaction_receipt (hash : H256) : EthMethod (option TransactionReceipt)
| eth_protocol_version : EthMethod string
| eth_send_raw_transaction (tx_bytes : Bytes) : EthMethod H256
| eth_syncing : EthMethod bool
| eth_accounts : EthMethod (list Address)
| eth_coinbase : EthMethod Address
| eth_compilers : EthMethod (list string)
| eth_hashrate : EthMethod Z
| eth_get_uncle_count_by_block_hash (hash : H256) : EthMethod (option Z)
| eth_get_uncle_count_by_block_number (number : BlockNumber) : EthMethod (option Z)
| eth_mining : EthMethod bool
| eth_fee_history (block_count : Z) (newest_block : BlockNumber) (reward_percentiles : option nat) : EthMethod FeeHistory
| eth_max_priority_fee_per_gas : EthMethod Z.

Inductive ZksMethod : Type → Type :=
| zks_estimate_fee (req : CallRequest) : ZksMethod Fee
| zks_estimate_gas_l1_to_l2 (req : CallRequest) : ZksMethod Z
| zks_get_bridgehub_contract : ZksMethod (option Address)
| zks_get_main_l1_contract : ZksMethod Address
| zks_get_testnet_paymaster : ZksMethod (option Address)
| zks_get_bridge_contracts : ZksMethod BridgeAddresses
| zks_get_base_token_l1_address : ZksMethod Address
| zks_l1_chain_id : ZksMethod Z
| zks_get_confirmed_tokens (from limit : Z) : ZksMethod (list Token)
| zks_get_all_account_balances (address : Address) : ZksMethod (gmap Address Z)
| zks_get_l2_to_l1_msg_proof (block : Z) (sender : Address) (msg : H256) (l2_log_position : option nat) : ZksMethod (option L2ToL1LogProof)
| zks_get_l2_to_l1_log_proof (tx_hash : H256) (index : option nat) : ZksMethod (option L2ToL1LogProof)
| zks_get_l1_batch_number : ZksMethod Z
| zks_get_l2_block_range (batch : Z) : ZksMethod (option (Z * Z))
| zks_get_block_details (block_number : Z) : ZksMethod (option BlockDetails)
| zks_get_transaction_details (hash : H256) : ZksMethod (option TransactionDetails)
| zks_get_raw_block_transactions (block_number : Z) : ZksMethod (list Transaction)
| zks_get_l1_batch_details (batch : Z) : ZksMethod (option unit)
| zks_get_bytecode_by_hash (hash : H256) : ZksMethod (option Bytes)
| zks_get_l1_gas_price : ZksMethod Z
| zks_get_fee_params : ZksMethod unit
| zks_get_protocol_version (version_id : option Z) : ZksMethod (option unit)
| zks_get_proof (address : Address) (keys : list H256) (l1_batch_number : Z) : ZksMethod (option unit)
| zks_get_batch_fee_input : ZksMethod unit
| zks_send_raw_transaction_with_detailed_output (tx_bytes : Bytes) : ZksMethod unit
| zks_get_timestamp_asserter : ZksMethod (option Address)
| zks_get_l2_multicall3 : ZksMethod (option Address).

Inductive DebugMethod : Type → Type :=
| debug_trace_block_by_number (block : BlockNumber) (only_top : bool) : DebugMethod (list DebugCall)
| debug_trace_block_by_hash (hash : H256) (only_top : bool) : DebugMethod (list DebugCall)
| debug_trace_call (request : CallRequest) (block : option BlockId) (only_top : bool) : DebugMethod DebugCall
| debug_trace_transaction (tx_hash : H256) (only_top : bool) : DebugMethod (option DebugCall).

Inductive NetMethod : Type → Type :=
| net_version : NetMethod string
| net_peer_count : NetMethod Z
| net_is_listening : NetMethod bool.
Inductive Web3Method : Type → Type := web3_client_version : Web3Method string.

(** A request to the server *)
Inductive RpcMethod (A : Type) :=
| AnvilNamespace (m : AnvilMethod A)
| AnvilZksNamespace (m : AnvilZksMethod A)
| ConfigNamespace (m : ConfigMethod A)
| EvmNamespace (m : EvmMethod A)
| EthTestNamespace (m : EthTestMethod A)
| EthNamespace (m : EthMethod A)
| ZksNamespace (m : ZksMethod A)
| DebugNamespace (m : DebugMethod A)
| NetNamespace (m : NetMethod A)
| Web3Namespace (m : Web3Method A).
#[global] Arguments AnvilNamespace {_} _.
#[global] Arguments AnvilZksNamespace {_} _.
#[global] Arguments ConfigNamespace {_} _.
#[global] Arguments EvmNamespace {_} _.
#[global] Arguments EthTestNamespace {_} _.
#[global] Arguments EthNamespace {_} _.
#[global] Arguments ZksNamespace {_} _.
#[global] Arguments DebugNamespace {_} _.
#[global] Arguments NetNamespace {_} _.
#[global] Arguments Web3Namespace {_} _.

(** ** What every method does *)

(** A request that fails: with an error of the node, which an adapter of
    [NodeErrors] makes an object of the protocol, or with an object that the
    method itself makes. *)
Inductive RpcFault :=
| Adapted (e : ApiError)
| Object (o : ErrorObject).

(** The fields of the node's configuration that say what is printed. *)
Record Shown := mkShown {
  show_storage_logs : ShowStorageLogs;
  show_vm_details : ShowVMDetails;
  show_gas_details : ShowGasDetails;
  show_node_config : bool;
}.

Section Rpc.
Context {TA : TransactionApi} {FA : FeeApi} {KA : KeyApi} {CA : ChainApi} {BA : BlockApi} {RA : VmResultApi}.
Context {NA : NodeApi} {QA : RequestApi} {EA : EstimationApi} {CH : Channel} {TI : Ticker}.
Context {Client : Type} {R : Remote (Client := Client)}.
Context {VM : VmApi (StorageState (Client := Client))} {CV : CallVm (StorageState (Client := Client))}.
Context {SV : SandboxVm (StorageState (Client := Client))}.
Context {CMA : CommitmentApi} {MA : MerkleApi} {AB : CallAbi}.
Context {W : Type} {RN : Random W} {P : L1Provider W}.
Context {RP : RpcApi} {DA : DirectiveApi}.
Context (exec : NodeExecutor) (l1_sidecar : L1Sidecar).
Abbreviation Node := (InMemoryNode (Client := Client)).

(** What the tasks of the sidecar hold between requests; the chain they read is
    the node's. *)
Record L1Tasks := mkL1Tasks {
  lt_generator : CommitmentGenerator;
  lt_world : W;
  lt_sender : L1Sender;
  lt_sender_running : bool;
}.

(** What the namespaces share: the node, with what it prints and the filter of
    its log, and the tasks of the sidecar, which are not looked at when there is
    no L1. *)
Record Server := mkServer {
  sv_node : Node;
  sv_shown : Shown;
  sv_observability : option Observability;
  sv_l1 : L1Tasks;
}.
Abbreviation SM := (M Server RpcFault).

Definition set_sv_node (n : Node) (s : Server) : Server := mkServer n (sv_shown s) (sv_observability s) (sv_l1 s).
Definition set_sv_shown (x : Shown) (s : Server) : Server := mkServer (sv_node s) x (sv_observability s) (sv_l1 s).
Definition set_sv_observability (o : option Observability) (s : Server) : Server :=
  mkServer (sv_node s) (sv_shown s) o (sv_l1 s).

(** [.map_err(RpcErrorAdapter::into)] of a method of the node *)
Definition on_node {A} (m : M Node ApiError A) : SM A := zoom sv_node set_sv_node (map_err Adapted m).

(** The state that a request to the sidecar works on *)
Definition l1_of (s : Server) : L1State W :=
  let l := sv_l1 s in
  mkL1State (mkGeneratorState (lt_generator l) (blockchain (nd_inner (sv_node s))) (lt_world l)) (lt_sender l)
    (lt_sender_running l).
Definition set_l1 (x : L1State W) (s : Server) : Server :=
  let g := st_generator x in
  mkServer (sv_node s) (sv_shown s) (sv_observability s)
    (mkL1Tasks (gs_generator g) (gs_world g) (st_sender x) (st_sender_running x)).
Definition on_sidecar {A} (m : M (L1State W) string A) : SM A :=
  zoom l1_of set_l1 (map_err (λ e, Object (anyhow_rpc e)) m).

Definition unsupported {A} (method_name : string) : SM A :=
  match rpc_unsupported method_name with Ok a => mret a | Err o => throw (Object o) end.

(** [set_logging_enabled] and the methods that change the filter *)
Definition with_observability {A} (missing : ApiError) (failed : string → ApiError) (m : M Observability string A) : SM A :=
  λ s,
  match sv_observability s with
  | None => Throw (Adapted missing) s
  | Some o =>
      match m o with
      | Ret a o => Ret a (set_sv_observability (Some o) s)
      | Throw e o => Throw (Adapted (failed e)) (set_sv_observability (Some o) s)
      | Panic msg => Panic msg
      | Deadlock => Deadlock
      end
  end.
Definition set_logging_enabled (enable : bool) : SM unit :=
  with_observability (Anyhow "Node's logging is not set up") Anyhow
    (if enable then enable_logging else disable_logging).
Definition generic (e : string) : ApiError := NodeFailed (GenericError e).
Definition set_log_level (level : LogLevel) : SM bool :=
  with_observability (generic "Node's logging is not set up.") generic (observability_set_log_level level);; mret true.
Definition set_logging (directive : string) : SM bool :=
  with_observability (generic "Node's logging is not set up.") generic (observability_set_logging directive);; mret true.

Definition on_shown {A} (f : Shown → A * Shown) : SM A := λ s,
  let r := f (sv_shown s) in Ret r.1 (set_sv_shown r.2 s).
Definition set_show_storage_logs (v : ShowStorageLogs) : SM string :=
  on_shown (λ x, (storage_logs_display v, mkShown v (show_vm_details x) (show_gas_details x) (show_node_config x))).
Definition set_show_vm_details (v : ShowVMDetails) : SM string :=
  on_shown (λ x, (vm_details_display v, mkShown (show_storage_logs x) v (show_gas_details x) (show_node_config x))).
Definition set_show_gas_details (v : ShowGasDetails) : SM string :=
  on_shown (λ x, (gas_details_display v, mkShown (show_storage_logs x) (show_vm_details x) v (show_node_config x))).
Definition set_show_node_config (v : bool) : SM bool :=
  on_shown (λ x, (v, mkShown (show_storage_logs x) (show_vm_details x) (show_gas_details x) v)).

(** *** [impls/anvil.rs] *)
Definition anvil_namespace {A} (m : AnvilMethod A) : SM A :=
  match m in AnvilMethod A return SM A with
  | anvil_dump_state preserve => on_node (node_dump_state (default false preserve))
  | anvil_load_state bytes => on_node (node_load_state bytes)
  | anvil_mine_detailed => on_node (mine_detailed exec)
  | anvil_set_rpc_url url => on_node (set_rpc_url exec url)
  | anvil_set_next_block_base_fee_per_gas base_fee => on_node (Node.set_next_block_base_fee_per_gas exec base_fee)
  | anvil_drop_transaction hash => on_node (node_drop_transaction hash)
  | anvil_drop_all_transactions => on_node drop_all_transactions
  | anvil_remove_pool_transactions address => on_node (remove_pool_transactions address)
  | anvil_get_auto_mine => on_node get_immediate_sealing
  | anvil_set_auto_mine enable => on_node (set_immediate_sealing enable)
  | anvil_set_interval_mining seconds => on_node (set_interval_sealing seconds)
  | anvil_set_block_timestamp_interval seconds => on_node (node_set_block_timestamp_interval exec seconds)
  | anvil_remove_block_timestamp_interval => on_node (node_remove_block_timestamp_interval exec)
  | anvil_set_min_gas_price _ => unsupported "set_min_gas_price"
  | anvil_set_logging_enabled enable => set_logging_enabled enable
  | anvil_snapshot => on_node node_snapshot
  | anvil_revert id => on_node (revert_snapshot id)
  | anvil_set_time timestamp => on_node (node_set_time exec (u64_of_numeric timestamp))
  | anvil_increase_time seconds => on_node (node_increase_time exec (u64_of_numeric seconds))
  | anvil_set_next_block_timestamp timestamp => on_node (Node.set_next_block_timestamp exec (u64_of_numeric timestamp))
  | anvil_auto_impersonate_account enabled => on_node (auto_impersonate_account enabled)
  | anvil_set_balance address balance => on_node (node_set_balance exec address balance)
  | anvil_set_nonce address nonce => on_node (node_set_nonce exec address nonce)
  | anvil_mine num_blocks interval => on_node (mine_blocks exec num_blocks interval)
  | anvil_reset_network reset_spec => on_node (reset_network exec reset_spec)
  | anvil_impersonate_account address => on_node (impersonate_account address);; mret tt
  | anvil_stop_impersonating_account address => on_node (stop_impersonating_account address);; mret tt
  | anvil_set_code address code => on_node (node_set_code exec address code)
  | anvil_set_storage_at address slot value => on_node (set_storage_at exec address slot value)
  | anvil_set_chain_id id => on_node (node_set_chain_id id)
  end.

(** *** [impls/anvil_zks.rs]

    [boojumos_get_batch_witness] is [todo!()]. *)
Definition anvil_zks_namespace {A} (m : AnvilZksMethod A) : SM A :=
  match m in AnvilZksMethod A return SM A with
  | zks_commit_batch n => on_sidecar (commit_batch l1_sidecar n)
  | zks_prove_batch n => on_sidecar (prove_batch l1_sidecar n)
  | zks_execute_batch n => on_sidecar (execute_batch l1_sidecar n)
  | zks_get_boojum_witness _ => panic "not yet implemented"
  end.

(** *** [impls/config.rs] *)
Definition config_namespace {A} (m : ConfigMethod A) : SM A :=
  match m in ConfigMethod A return SM A with
  | config_get_current_timestamp => on_node get_current_timestamp
  | config_set_show_storage_logs v => set_show_storage_logs v
  | config_set_show_vm_details v => set_show_vm_details v
  | config_set_show_gas_details v => set_show_gas_details v
  | config_set_show_node_config v => set_show_node_config v
  | config_set_log_level level => set_log_level level
  | config_set_logging directive => set_logging directive
  end.

(** *** [impls/evm.rs] and [impls/eth_test.rs] *)
Definition evm_namespace {A} (m : EvmMethod A) : SM A :=
  match m in EvmMethod A return SM A with
  | evm_mine => on_node (mine_block exec);; mret "0x0"
  end.
Definition eth_test_namespace {A} (m : EthTestMethod A) : SM A :=
  match m in EthTestMethod A return SM A with
  | eth_send_transaction tx => on_node (send_transaction_impl tx)
  end.

(** *** [impls/eth.rs] *)
(** [SyncState::NotSyncing] *)
Definition syncing_impl : bool := false.
Definition eth_namespace {A} (m : EthMethod A) : SM A :=
  match m in EthMethod A return SM A with
  | eth_get_block_number => on_node get_block_number_impl
  | eth_chain_id => on_node Node.get_chain_id
  | eth_call req _ state_override => on_node (call_impl req state_override)
  | eth_estimate_gas req _ _ => on_node (eth_estimate_gas_impl req)
  | eth_gas_price => on_node gas_price_impl
  | eth_new_filter filter => on_node (new_filter_impl filter)
  | eth_new_block_filter => on_node new_block_filter_impl
  | eth_uninstall_filter idx => on_node (uninstall_filter_impl idx)
  | eth_new_pending_transaction_filter => on_node new_pending_transaction_filter_impl
  | eth_get_logs filter => on_node (get_logs_impl filter)
  | eth_get_filter_logs i => on_node (get_filter_logs_impl i)
  | eth_get_filter_changes i => on_node (get_filter_changes_impl i)
  | eth_get_balance address _ => on_node (get_balance_impl address)
  | eth_get_block_by_number n full => on_node (get_block_impl (IdNumber n) full)
  | eth_get_block_by_hash h full => on_node (get_block_impl (IdHash h) full)
  | eth_get_block_transaction_count_by_number n => on_node (get_block_transaction_count_impl (IdNumber n))
  | eth_get_block_receipts _ => unsupported "get_block_receipts"
  | eth_get_block_transaction_count_by_hash h => on_node (get_block_transaction_count_impl (IdHash h))
  | eth_get_code address _ => on_node (get_code_impl address)
  | eth_get_storage_at address idx block => on_node (get_storage_impl address idx block)
  | eth_get_transaction_count address _ => on_node (get_transaction_count_impl address)
  | eth_get_transaction_by_hash h => on_node (get_transaction_by_hash_impl h)
  | eth_get_transaction_by_block_hash_and_index h i => on_node (get_transaction_by_block_and_index_impl (IdHash h) i)
  | eth_get_transaction_by_block_number_and_index n i =>
      on_node (get_transaction_by_block_and_index_impl (IdNumber n) i)
  | eth_get_transaction_receipt h => on_node (get_transaction_receipt_impl h)
  | eth_protocol_version => mret protocol_version_impl
  | eth_send_raw_transaction tx_bytes => on_node (send_raw_transaction_impl tx_bytes)
  | eth_syncing => mret syncing_impl
  | eth_accounts => on_node accounts_impl
  | eth_coinbase => unsupported "coinbase"
  | eth_compilers => unsupported "compilers"
  | eth_hashrate => unsupported "hashrate"
  | eth_get_uncle_count_by_block_hash _ => unsupported "get_uncle_count_by_block_hash"
  | eth_get_uncle_count_by_block_number _ => unsupported "get_uncle_count_by_block_number"
  | eth_mining => unsupported "mining"
  | eth_fee_history block_count _ reward_percentiles => on_node (fee_history_impl block_count reward_percentiles)
  | eth_max_priority_fee_per_gas => unsupported "max_priority_fee_per_gas"
  end.

(** *** [impls/zks.rs] *)

(** [contracts_config().map_err(RpcErrorAdapter::into)?] *)
Definition sidecar_config {A} (r : Prelude.result A string) : SM A :=
  match r with Ok a => mret a | Err e => throw (Object (anyhow_rpc e)) end.

Definition bridges_of (c : ContractsConfig) : BridgeAddresses :=
  let shared := br_shared (cc_bridges c) in
  let erc20 := br_erc20 (cc_bridges c) in
  mkBridgeAddresses (Some (bc_l1_address shared)) (bc_l2_address shared) (Some (bc_l1_address erc20))
    (bc_l2_address erc20) None None (l2c_legacy_shared_bridge_addr (cc_l2 c)).
Definition get_bridge_contracts : SM BridgeAddresses :=
  match contracts_config l1_sidecar with
  | Ok c => mret (bridges_of c)
  | Err _ => on_node get_bridge_contracts_impl
  end.

Definition zks_namespace {A} (m : ZksMethod A) : SM A :=
  match m in ZksMethod A return SM A with
  | zks_estimate_fee req => on_node (estimate_fee_impl req)
  | zks_estimate_gas_l1_to_l2 req => on_node (estimate_gas_l1_to_l2 req)
  | zks_get_bridgehub_contract =>
      c ← sidecar_config (contracts_config l1_sidecar);
      mret (Some (ec_bridgehub_proxy_addr (cc_ecosystem_contracts c)))
  | zks_get_main_l1_contract => unsupported "get_main_l1_contract"
  | zks_get_testnet_paymaster => unsupported "get_testnet_paymaster"
  | zks_get_bridge_contracts => get_bridge_contracts
  | zks_get_base_token_l1_address => on_node get_base_token_l1_address_impl
  | zks_l1_chain_id => g ← sidecar_config (genesis_config l1_sidecar); mret (gc_l1_chain_id g)
  | zks_get_confirmed_tokens from limit => on_node (get_confirmed_tokens_impl from limit)
  | zks_get_all_account_balances address => on_node (get_all_account_balances_impl address)
  | zks_get_l2_to_l1_msg_proof _ _ _ _ => unsupported "get_l2_to_l1_msg_proof"
  | zks_get_l2_to_l1_log_proof h index => on_node (get_l2_to_l1_log_proof_impl h index)
  | zks_get_l1_batch_number => unsupported "get_l1_batch_number"
  | zks_get_l2_block_range _ => unsupported "get_l2_block_range"
  | zks_get_block_details n => on_node (get_block_details_impl n)
  | zks_get_transaction_details h => on_node (get_transaction_details_impl h)
  | zks_get_raw_block_transactions n => on_node (get_raw_block_transactions_impl n)
  | zks_get_l1_batch_details _ => unsupported "get_l1_batch_details"
  | zks_get_bytecode_by_hash h => on_node (get_bytecode_by_hash_impl h)
  | zks_get_l1_gas_price => unsupported "get_l1_gas_price"
  | zks_get_fee_params => unsupported "get_fee_params"
  | zks_get_protocol_version _ => unsupported "get_protocol_version"
  | zks_get_proof _ _ _ => unsupported "get_proof"
  | zks_get_batch_fee_input => unsupported "get_batch_fee_input"
  | zks_send_raw_transaction_with_detailed_output _ => unsupported "send_raw_transaction_with_detailed_output"
  | zks_get_timestamp_asserter => unsupported "get_timestamp_asserter"
  | zks_get_l2_multicall3 => unsupported "get_l2_multicall3"
  end.

(** *** [impls/debug.rs], [impls/net.rs] and [impls/web3.rs] *)
Definition debug_namespace {A} (m : DebugMethod A) : SM A :=
  match m in DebugMethod A return SM A with
  | debug_trace_block_by_number n only_top => on_node (trace_block_impl (IdNumber n) only_top)
  | debug_trace_block_by_hash h only_top => on_node (trace_block_impl (IdHash h) only_top)
  | debug_trace_call request block only_top => on_node (trace_call_impl request block only_top)
  | debug_trace_transaction h only_top => on_node (trace_transaction_impl h only_top)
  end.
Definition net_namespace {A} (m : NetMethod A) : SM A :=
  match m in NetMethod A return SM A with
  | net_version => chain_id ← on_node Node.get_chain_id; mret (dec chain_id)
  | net_peer_count => mret 0
  | net_is_listening => mret false
  end.
Definition web3_namespace {A} (m : Web3Method A) : SM A :=
  match m in Web3Method A return SM A with web3_client_version => mret "zkSync/v2.0" end.

(** The server answers a request. *)
Definition handle {A} (m : RpcMethod A) : SM A :=
  match m with
  | AnvilNamespace m => anvil_namespace m
  | AnvilZksNamespace m => anvil_zks_namespace m
  | ConfigNamespace m => config_namespace m
  | EvmNamespace m => evm_namespace m
  | EthTestNamespace m => eth_test_namespace m
  | EthNamespace m => eth_namespace m
  | ZksNamespace m => zks_namespace m
  | DebugNamespace m => debug_namespace m
  | NetNamespace m => net_namespace m
  | Web3Namespace m => web3_namespace m
  end.

(** ** What a request can change and how it can fail *)

(** The part of the server that a request is about *)
Inductive Part := PartNode | PartShown | PartLog | PartL1 | PartNone.
Definition part_of {A} (m : RpcMethod A) : Part :=
  match m with
  | AnvilNamespace (anvil_set_logging_enabled _) => PartLog
  | AnvilNamespace (anvil_set_min_gas_price _) => PartNone
  | AnvilZksNamespace _ => PartL1
  | ConfigNamespace config_get_current_timestamp => PartNode
  | ConfigNamespace (config_set_log_level _ | config_set_logging _) => PartLog
  | ConfigNamespace _ => PartShown
  | Web3Namespace _ => PartNone
  | _ => PartNode
  end.

Definition only (p : Part) (s s' : Server) : Prop :=
  (p ≠ PartNode → sv_node s' = sv_node s) ∧ (p ≠ PartShown → sv_shown s' = sv_shown s) ∧
  (p ≠ PartLog → sv_observability s' = sv_observability s) ∧ (p ≠ PartL1 → sv_l1 s' = sv_l1 s).
Definition keeps {A} (p : Part) (m : SM A) : Prop := ∀ s s', final_state (m s) = Some s' → only p s s'.

(** The methods that are not there *)
Definition refusal {A} (m : RpcMethod A) : option string :=
  match m with
  | AnvilNamespace (anvil_set_min_gas_price _) => Some "set_min_gas_price"
  | EthNamespace (eth_get_block_receipts _) => Some "get_block_receipts"
  | EthNamespace eth_coinbase => Some "coinbase"
  | EthNamespace eth_compilers => Some "compilers"
  | EthNamespace eth_hashrate => Some "hashrate"
  | EthNamespace (eth_get_uncle_count_by_block_hash _) => Some "get_uncle_count_by_block_hash"
  | EthNamespace (eth_get_uncle_count_by_block_number _) => Some "get_uncle_count_by_block_number"
  | EthNamespace eth_mining => Some "mining"
  | EthNamespace eth_max_priority_fee_per_gas => Some "max_priority_fee_per_gas"
  | ZksNamespace zks_get_main_l1_contract => Some "get_main_l1_contract"
  | ZksNamespace zks_get_testnet_paymaster => Some "get_testnet_paymaster"
  | ZksNamespace (zks_get_l2_to_l1_msg_proof _ _ _ _) => Some "get_l2_to_l1_msg_proof"
  | ZksNamespace zks_get_l1_batch_number => Some "get_l1_batch_number"
  | ZksNamespace (zks_get_l2_block_range _) => Some "get_l2_block_range"
  | ZksNamespace (zks_get_l1_batch_details _) => Some "get_l1_batch_details"
  | ZksNamespace zks_get_l1_gas_price => Some "get_l1_gas_price"
  | ZksNamespace zks_get_fee_params => Some "get_fee_params"
  | ZksNamespace (zks_get_protocol_version _) => Some "get_protocol_version"
  | ZksNamespace (zks_get_proof _ _ _) => Some "get_proof"
  | ZksNamespace zks_get_batch_fee_input => Some "get_batch_fee_input"
  | ZksNamespace (zks_send_raw_transaction_with_detailed_output _) => Some "send_raw_transaction_with_detailed_output"
  | ZksNamespace zks_get_timestamp_asserter => Some "get_timestamp_asserter"
  | ZksNamespace zks_get_l2_multicall3 => Some "get_l2_multicall3"
  | _ => None
  end.

(** The methods that ask the sidecar and have no other answer *)
Definition asks_l1 {A} (m : RpcMethod A) : bool :=
  match m with
  | AnvilZksNamespace _ | ZksNamespace zks_get_bridgehub_contract | ZksNamespace zks_l1_chain_id => true
  | _ => false
  end.

(** An error object that a request answers is an internal error, of the sidecar. *)
Definition internal_error (o : ErrorObject) : Prop := eo_code o = rpc_code InternalError ∧ eo_data o = None.
Definition faults {A} (sidecar : bool) (m : SM A) : Prop :=
  ∀ s o s', m s = Throw (Object o) s' → sidecar = true ∧ internal_error o.

Lemma only_refl p s : only p s s.
Proof. by split_and!. Qed.
Lemma only_trans p s1 s2 s3 : only p s1 s2 → only p s2 s3 → only p s1 s3.
Proof. intros (H1&H2&H3&H4) (H5&H6&H7&H8). split_and!; intros H; [rewrite H5|rewrite H6|rewrite H7|rewrite H8]; auto. Qed.

Lemma keeps_node {A} (m : M Node ApiError A) : keeps PartNode (on_node m).
Proof. intros s s' [n ->]%final_zoom. by split_and!. Qed.
Lemma keeps_sidecar {A} (m : M (L1State W) string A) : keeps PartL1 (on_sidecar m).
Proof. intros s s' [n ->]%final_zoom. by split_and!. Qed.
Lemma keeps_shown {A} (f : Shown → A * Shown) : keeps PartShown (on_shown f).
Proof. intros s s' [= <-]. by split_and!. Qed.
Lemma keeps_log {A} e f (m : M Observability string A) : keeps PartLog (with_observability e f m).
Proof.
  intros s s'. unfold with_observability. destruct (sv_observability s) as [o|]; [|intros [= <-]; apply only_refl].
  destruct (m o); intros [= <-]; by split_and!.
Qed.
Lemma keeps_ret {A} p (a : A) : keeps p (mret a).
Proof. intros s s' [= <-]. apply only_refl. Qed.
Lemma keeps_throw {A} p e : keeps (A := A) p (throw e).
Proof. intros s s' [= <-]. apply only_refl. Qed.
Lemma keeps_panic {A} p msg : keeps (A := A) p (panic msg).
Proof. by intros s s' [=]. Qed.
Lemma keeps_bind {A B} p (m : SM A) (f : A → SM B) : keeps p m → (∀ a, keeps p (f a)) → keeps p (m ≫= f).
Proof.
  intros Hm Hf s s' [[e H]|(a&s1&H1&H)]%final_bind.
  - apply Hm. by rewrite H.
  - eapply only_trans; [apply Hm; by rewrite H1|eapply Hf; done].
Qed.
Lemma keeps_config {A} p (r : Prelude.result A string) : keeps p (sidecar_config r).
Proof. destruct r; [apply keeps_ret|apply keeps_throw]. Qed.
Lemma keeps_bridges : keeps PartNode get_bridge_contracts.
Proof. unfold get_bridge_contracts. destruct (contracts_config _); [apply keeps_ret|apply keeps_node]. Qed.

Lemma faults_node {A} b (m : M Node ApiError A) : faults b (on_node m).
Proof. intros s o s'. unfold on_node, zoom, map_err. by destruct (m _). Qed.
Lemma faults_sidecar {A} (m : M (L1State W) string A) : faults true (on_sidecar m).
Proof. intros s o s'. unfold on_sidecar, zoom, map_err. destruct (m _); by intros [= <- _]. Qed.
Lemma faults_shown {A} b (f : Shown → A * Shown) : faults b (on_shown f).
Proof. by intros s o s'. Qed.
Lemma faults_log {A} b e f (m : M Observability string A) : faults b (with_observability e f m).
Proof. intros s o s'. unfold with_observability. destruct (sv_observability s) as [x|]; [by destruct (m x)|done]. Qed.
Lemma faults_ret {A} b (a : A) : faults b (mret a).
Proof. by intros s o s'. Qed.
Lemma faults_panic {A} b msg : faults (A := A) b (panic msg).
Proof. by intros s o s'. Qed.
Lemma faults_bind {A B} b (m : SM A) (f : A → SM B) : faults b m → (∀ a, faults b (f a)) → faults b (m ≫= f).
Proof.
  intros Hm Hf s o s'. unfold mbind, M_bind. destruct (m s) eqn:H; try done; [apply Hf|].
  intros [= -> ->]. by eapply Hm.
Qed.
Lemma faults_config {A} (r : Prelude.result A string) : faults true (sidecar_config r).
Proof. destruct r; [apply faults_ret|]. by intros s o s' [= <- _]. Qed.
Lemma faults_bridges : faults false get_bridge_contracts.
Proof. unfold get_bridge_contracts. destruct (contracts_config _); [apply faults_ret|apply faults_node]. Qed.
End Rpc.

Create HintDb rpc.
#[export] Hint Resolve keeps_node keeps_sidecar keeps_shown keeps_log keeps_ret keeps_throw keeps_panic keeps_bind
  keeps_config keeps_bridges faults_node faults_sidecar faults_shown faults_log faults_ret faults_panic faults_bind
  faults_config faults_bridges : rpc.

(** Follow a request to what it calls. *)
Ltac follow_request :=
  cbn [handle anvil_namespace anvil_zks_namespace config_namespace evm_namespace eth_test_namespace eth_namespace
       zks_namespace debug_namespace net_namespace web3_namespace part_of asks_l1];
  unfold set_logging_enabled, set_log_level, set_logging, set_show_storage_logs, set_show_vm_details,
    set_show_gas_details, set_show_node_config, unsupported, rpc_unsupported;
  eauto with rpc.

Section RpcLaws.
Context {TA : TransactionApi} {FA : FeeApi} {KA : KeyApi} {CA : ChainApi} {BA : BlockApi} {RA : VmResultApi}.
Context {NA : NodeApi} {QA : RequestApi} {EA : EstimationApi} {CH : Channel} {TI : Ticker}.
Context {Client : Type} {R : Remote (Client := Client)}.
Context {VM : VmApi (StorageState (Client := Client))} {CV : CallVm (StorageState (Client := Client))}.
Context {SV : SandboxVm (StorageState (Client := Client))}.
Context {CMA : CommitmentApi} {MA : MerkleApi} {AB : CallAbi}.
Context {W : Type} {RN : Random W} {P : L1Provider W}.
Context {RP : RpcApi} {DA : DirectiveApi}.
Context (exec : NodeExecutor) (l1_sidecar : L1Sidecar).

Lemma request_keeps {A} (m : RpcMethod A) : keeps (W := W) (part_of m) (handle exec l1_sidecar m).
Proof. destruct m as [m|m|m|m|m|m|m|m|m|m]; destruct m; follow_request. Qed.

Lemma request_faults {A} (m : RpcMethod A) :
  refusal m = None → faults (W := W) (asks_l1 m) (handle exec l1_sidecar m).
Proof. destruct m as [m|m|m|m|m|m|m|m|m|m]; destruct m; intros H; try discriminate H; follow_request. Qed.


Abbreviation TheServer := (Server (Client := Client) (W := W)).
Lemma set_l1_of (s : TheServer) : set_l1 (l1_of s) s = s.
Proof. by destruct s as [? ? ? []]. Qed.

(** The answer to a request, from that of the sidecar *)
Definition answer_l1 {A} (s : TheServer) (o : outcome (L1State W) string A) : outcome TheServer RpcFault A :=
  match o with
  | Ret a x => Ret a (set_l1 x s)
  | Throw e x => Throw (Object (anyhow_rpc e)) (set_l1 x s)
  | Panic msg => Panic msg
  | Deadlock => Deadlock
  end.
Lemma on_sidecar_run {A} (m : M (L1State W) string A) s : on_sidecar m s = answer_l1 s (m (l1_of s)).
Proof. unfold on_sidecar, zoom, map_err. by destruct (m (l1_of s)). Qed.

(** The requests for a batch: their method, their name, and what the sender does *)
Definition l1_requests (n : Z) : list (AnvilZksMethod H256 * string * (L1BatchWithMetadata → M (L1State W) string H256)) :=
  [(zks_commit_batch n, "commit", commit_sync); (zks_prove_batch n, "prove", prove_sync);
   (zks_execute_batch n, "execute", execute_sync)].

(** Batches through the API.  Without an L1 the requests are refused with the
    reason; with one, a batch that neither the node's chain nor the sidecar
    knows is refused by its number.  Neither changes anything.  A batch that the
    node has sealed is sent to the L1, with the metadata that the sidecar keeps
    for it. *)
Theorem l1_requests_spec (n : Z) (s : TheServer) m what send :
  (m, what, send) ∈ l1_requests n →
  (sc_inner l1_sidecar = None →
   handle exec l1_sidecar (AnvilZksNamespace m) s =
     Throw (Object (anyhow_rpc ("cannot " +:+ what +:+ " a batch as there is no L1 configured"))) s) ∧
  (is_Some (sc_inner l1_sidecar) →
   match get_or_generate_metadata (E := string) n (st_generator (l1_of s)) with
   | Ret None _ =>
       batches (blockchain (nd_inner (sv_node s))) !! n = None ∧
       handle exec l1_sidecar (AnvilZksNamespace m) s =
         Throw (Object (anyhow_rpc ("batch #" +:+ dec n +:+ " does not exist"))) s
   | Ret (Some b) g =>
       cg_batches (gs_generator g) !! n = Some b ∧
       handle exec l1_sidecar (AnvilZksNamespace m) s =
         answer_l1 s (send b (mkL1State g (lt_sender (sv_l1 s)) (lt_sender_running (sv_l1 s))))
   | _ => batches (blockchain (nd_inner (sv_node s))) !! n ≠ None
   end).
Proof.
  intros Hm. destruct (sidecar_requests_spec l1_sidecar n (l1_of s)) as [Hno Hyes]. split.
  - intros (H1&H2&H3)%Hno. unfold l1_requests in Hm. rewrite !elem_of_cons, elem_of_nil in Hm.
    destruct Hm as [Hm|[Hm|[Hm|[]]]]; injection Hm as -> -> ->; cbn [handle anvil_zks_namespace];
      rewrite on_sidecar_run; [rewrite H1|rewrite H2|rewrite H3]; cbn [answer_l1]; by rewrite set_l1_of.
  - intros H%Hyes. destruct (get_or_generate_metadata n (st_generator (l1_of s))) as [[b|] g| | |]; [| |done..];
      unfold l1_requests in Hm; rewrite !elem_of_cons, elem_of_nil in Hm.
    + destruct H as (Hb&H1&H2&H3). split; [done|].
      destruct Hm as [Hm|[Hm|[Hm|[]]]]; injection Hm as -> -> ->; cbn [handle anvil_zks_namespace];
        rewrite on_sidecar_run; [by rewrite H1|by rewrite H2|by rewrite H3].
    + destruct H as [Hb H]. split; [done|].
      destruct Hm as [Hm|[Hm|[Hm|[]]]]; injection Hm as -> -> ->; cbn [handle anvil_zks_namespace];
        rewrite on_sidecar_run, H by (rewrite !elem_of_cons; eauto); cbn [answer_l1]; by rewrite set_l1_of.
Qed.
End RpcLaws.

(** ** A server to talk to *)
Module SampleRpc.
Import SampleNode SampleServing SampleLogging.
#[local] Existing Instances SampleL1.accepting SampleL1.random SampleL1.commitments SampleL1.merkle SampleL1.abi.
#[export] Instance rpc_api : RpcApi := {|
  rpc_code c := match c with MethodNotFound => -32601 | InvalidParams => -32602 | InternalError => -32603 | _ => -32000 end;
  web3_display _ := "error";
|}.
Definition sidecar : L1Sidecar := mkL1Sidecar (Some SampleL1.zk).
Definition server : Server (Client := unit) (W := SampleL1.World) :=
  mkServer start_node (mkShown StorageNone VMNone GasNone false) None
    (mkL1Tasks SampleL1.generator (SampleL1.mkWorld [] 1000 0 []) (L1Sender_new SampleL1.zk SampleL1.genesis) true).
Definition serve {A} (m : RpcMethod A) := handle exec sidecar m.

(** A block is mined; its batch is sent to the L1, and there is no other. *)
Example batch_through_api :
  match serve (EvmNamespace evm_mine) server with
  | Ret answer s =>
      answer = "0x0" ∧
      (match serve (AnvilZksNamespace (zks_commit_batch 1)) s with
       | Ret _ s' => omap rq_call (SampleL1.w_sent (lt_world (sv_l1 s'))) = [CommitBatchesSharedBridge 270 1 1 [0; 0; 1]]
       | _ => False
       end) ∧
      serve (AnvilZksNamespace (zks_commit_batch 2)) s = Throw (Object (anyhow_rpc "batch #2 does not exist")) s
  | _ => False
  end.
Proof. vm_compute. split_and!; reflexivity. Qed.

Lemma l1_requests_witness :
  serve (AnvilZksNamespace (zks_prove_batch 5)) server = Throw (Object (anyhow_rpc "batch #5 does not exist")) server.
Proof.
  destruct (l1_requests_spec exec sidecar 5 server (zks_prove_batch 5) "prove" prove_sync) as [_ H].
  - right. left.
  - destruct (H (ex_intro _ SampleL1.zk eq_refl)) as [_ Hp]. exact Hp.
Defined.
End SampleRpc.
