(* ===== verification/Notices.v ===== *)
(** * What the program tells its user

    The report that follows a transaction (the second half of [run_tx_pretty]
    in [crates/core/src/node/inner/vm_runner.rs]), the description of the
    configuration at start ([TestNodeConfig::print] and [as_json] in
    [crates/config/src/config.rs]), the names of the executor's commands
    ([node_executor.rs]) and the frame of the program ([main] in
    [crates/cli/src/main.rs]). *)
From S2P Require Import Prelude Types Utils Text Pool Cache Fork Storage FeeModel Blockchain Inner Sealing VmRunner Executor.
From S2P Require Import AddressMap TraceTypes Traces TraceWriter Config Start ErrorDefs Errors Diagnostics Printing Reports.
From S2P Require Import Logging.
From Stdlib Require Import Ascii.
Local Open Scope string_scope.
Local Open Scope list_scope.
Local Open Scope Z_scope.

(** What was printed, and what was printed as an error *)
Record Console := mkConsole {
  co_out : list string;
  co_err : list string;
}.

(** ** The report of a transaction *)

(** What the report is made of, besides the transaction and its result: the
    statistics, the storage logs, the balance differences and the rendered
    trace. *)
Record TxOutput := mkTxOutput {
  to_result : VmResult;
  to_gas_used : Z;
  to_computational_gas_used : Z;
  to_cycles_used : Z;
  to_contracts_used : Z;
  to_storage_logs : list StorageLogEntry;
  to_balance_diffs : list BalanceDiff;
  to_trace : option string;
}.

Section TxReport.
Context {KA : KeyApi} {PA : PubdataApi} {CO : Colors} {CT : CostText} {TA : TransactionApi} {VA : ViewApi}.
Context {WA : WalletApi} (user_friendly : VmRevertReason → string).

Section Report.
Context {E : Type}.
Abbreviation CM := (M Console E).

Definition println (s : string) : CM unit := modify (λ c, mkConsole (co_out c ++ [s]) (co_err c)).
Definition errln (s : string) : CM unit := modify (λ c, mkConsole (co_out c) (co_err c ++ [s])).
(** [let mut formatter = Formatter::new(); ..] *)
Definition with_formatter {E A} (m : M Formatter E A) : M Console E A :=
  zoom (λ c, mkFormatter [] (co_out c)) (λ f c, mkConsole (printed f) (co_err c)) m.

(** [VmRunner::display_detailed_gas_info] *)
Definition display_detailed_gas_info (bootloader_debug_result : option (Prelude.result BootloaderDebug string))
    (spent_on_pubdata batch_overhead_l1_gas : Z) : M Console string unit :=
  match bootloader_debug_result with
  | Some bootloader_result =>
      bootloader_debug ← try_result bootloader_result;
      gas_details ← compute_gas_details bootloader_debug spent_on_pubdata;
      with_formatter (print_gas_details gas_details batch_overhead_l1_gas)
  | None => throw "Bootloader tracer didn't finish."
  end.

(** [print_storage_logs_details], with a formatter for every log *)
Definition print_storage_details (show : ShowStorageLogs) (logs : list StorageLogEntry) : CM unit :=
  println (newline);;
  println ("[Storage Logs] (" +:+ dec (Z.of_nat (length logs)) +:+ " entries)");;
  for_each (λ '(e, info, index, is_last), with_formatter (print_storage_logs e info index is_last))
    (print_storage_logs_details show logs).

Definition storage_none (s : ShowStorageLogs) : bool := match s with StorageNone => true | _ => false end.
Definition gas_none (s : ShowGasDetails) : bool := match s with GasNone => true | GasAll => false end.
Definition vm_none (s : ShowVMDetails) : bool := match s with VMNone => true | VMAll => false end.

(** [run_tx_pretty] after the transaction was executed *)
Definition tx_report (c : TestNodeConfig) (verbosity : Z) (bootloader_debug : Prelude.result BootloaderDebug string)
    (batch_overhead_l1_gas : Z) (tx : Transaction) (o : TxOutput) : CM unit :=
  let spent_on_pubdata := wrapping_sub_u64 (to_gas_used o) (to_computational_gas_used o) in
  summary ← summary_new (get_l2_gas_price c) tx (to_result o)
              (if 1 <=? verbosity then Some (to_balance_diffs o) else None);
  text ← summary_display summary;
  println text;;
  (match (if 2 <=? verbosity then to_trace o else None) with
   | Some trace_output => println (newline +:+ "Traces:" +:+ newline +:+ trace_output)
   | None => mret tt
   end);;
  (if gas_none (tc_show_gas_details c) then mret tt
   else r ← capture (display_detailed_gas_info (Some bootloader_debug) spent_on_pubdata batch_overhead_l1_gas);
        match r with
        | Ok _ => mret tt
        | Err err => errln ("Cannot display gas details: " +:+ err)
        end);;
  (if storage_none (tc_show_storage_logs c) then mret tt
   else print_storage_details (tc_show_storage_logs c) (to_storage_logs o));;
  (if vm_none (tc_show_vm_details c) then mret tt
   else with_formatter (print_vm_details (to_cycles_used o) (to_computational_gas_used o) (to_contracts_used o)
          (vr_result (to_result o)) user_friendly)).
End Report.

(** *** What a report prints *)

(** A computation that neither reads nor writes a state and does not fail: its
    value, or [None] if it panics *)
Definition computes {A} (m : ∀ S E : Type, M S E A) (r : option A) : Prop :=
  ∀ S E (s : S), match r with Some a => m S E s = Ret a s | None => ∃ msg, m S E s = Panic msg end.
Definition computation {A} (m : ∀ S E : Type, M S E A) : Prop := ∃ r, computes m r.
Definition value_of {A} (m : ∀ S E : Type, M S E A) : option A :=
  match m unit unit tt with Ret a _ => Some a | _ => None end.

Lemma computation_value {A} (m : ∀ S E, M S E A) : computation m → computes m (value_of m).
Proof.
  intros [r Hr]. pose proof (Hr unit unit tt) as Hu. unfold value_of. destruct r as [a|].
  - rewrite Hu. exact Hr.
  - destruct Hu as [msg ->]. exact Hr.
Qed.
Lemma value_of_ret {A} (m : ∀ S E, M S E A) a : m unit unit tt = Ret a tt → value_of m = Some a.
Proof. unfold value_of. by intros ->. Qed.
Lemma computation_ret {A} (a : A) : computation (λ S E, mret a).
Proof. by exists (Some a). Qed.
Lemma computation_bind {A B} (m : ∀ S E, M S E A) (k : ∀ S E, A → M S E B) :
  computation m → (∀ a, computation (λ S E, k S E a)) → computation (λ S E, m S E ≫= k S E).
Proof.
  intros [[a|] Hm] Hk.
  - destruct (Hk a) as [r Hr]. exists r. intros S E s. specialize (Hm S E s). cbn in Hm.
    unfold mbind, M_bind. rewrite Hm. apply Hr.
  - exists None. intros S E s. destruct (Hm S E s) as [msg Hmsg]. exists msg. unfold mbind, M_bind. by rewrite Hmsg.
Qed.
Lemma computation_if {A} (b : bool) (m1 m2 : ∀ S E, M S E A) :
  computation m1 → computation m2 → computation (λ S E, if b then m1 S E else m2 S E).
Proof. by destruct b. Qed.
Lemma computation_panic {A} msg : computation (A := A) (λ S E, panic msg).
Proof. exists None. by eexists. Qed.

Lemma summary_new_computes price tx result diffs : computation (λ S E, summary_new (S := S) (E := E) price tx result diffs).
Proof.
  apply (computation_bind (λ S E, sub_u256 _ _)); [|intros; apply computation_ret].
  apply computation_if; [apply computation_ret|apply computation_panic].
Qed.
Lemma summary_display_computes s : computation (λ S E, summary_display (S := S) (E := E) s).
Proof.
  do 2 (apply (computation_bind (λ S E, mul_u256 _ _));
    [apply computation_if; [apply computation_ret|apply computation_panic]|intros]).
  apply computation_ret.
Qed.
Lemma gas_details_computes d spent : computation (λ S E, compute_gas_details (S := S) (E := E) d spent).
Proof.
  unfold compute_gas_details. cbv zeta.
  do 3 (apply (computation_bind (λ S E, sub_u256 _ _));
    [apply computation_if; [apply computation_ret|apply computation_panic]|intros]).
  do 3 (apply (computation_bind (λ S E, add_u256 _ _));
    [apply computation_if; [apply computation_ret|apply computation_panic]|intros]).
  apply (computation_bind (λ S E, to_u64 _)); [apply computation_if; [apply computation_ret|apply computation_panic]|intros].
  apply (computation_bind (λ S E, div_u64 _ _)); [apply computation_if; [apply computation_panic|apply computation_ret]|intros].
  apply computation_ret.
Qed.

Definition gas_lines (debug : Prelude.result BootloaderDebug string) (spent overhead : Z)
    : option (list string * list string) :=
  match debug with
  | Err e => Some ([], ["Cannot display gas details: " +:+ e])
  | Ok d =>
      g ← value_of (λ S E, compute_gas_details (S := S) (E := E) d spent);
      if gas_printable g overhead then Some (draw [] true (gas_tree g overhead), []) else None
  end.
Definition storage_lines (show : ShowStorageLogs) (logs : list StorageLogEntry) : list string :=
  [newline; "[Storage Logs] (" +:+ dec (Z.of_nat (length logs)) +:+ " entries)"]
  ++ concat ((λ '(e, info, index, is_last), draw [] is_last (storage_log_tree e info index))
       <$> print_storage_logs_details show logs).
Definition report_lines (c : TestNodeConfig) (verbosity : Z) (debug : Prelude.result BootloaderDebug string)
    (overhead : Z) (tx : Transaction) (o : TxOutput) : option (list string * list string) :=
  summary ← value_of (λ S E, summary_new (S := S) (E := E) (get_l2_gas_price c) tx (to_result o)
              (if 1 <=? verbosity then Some (to_balance_diffs o) else None));
  text ← value_of (λ S E, summary_display (S := S) (E := E) summary);
  gas ← (if gas_none (tc_show_gas_details c) then Some ([], [])
         else gas_lines debug (wrapping_sub_u64 (to_gas_used o) (to_computational_gas_used o)) overhead);
  Some ([text]
        ++ (match (if 2 <=? verbosity then to_trace o else None) with
            | Some t => [newline +:+ "Traces:" +:+ newline +:+ t] | None => [] end)
        ++ gas.1
        ++ (if storage_none (tc_show_storage_logs c) then [] else storage_lines (tc_show_storage_logs c) (to_storage_logs o))
        ++ (if vm_none (tc_show_vm_details c) then []
            else draw [] true (vm_details_tree (to_cycles_used o) (to_computational_gas_used o) (to_contracts_used o)
                   (vr_result (to_result o)) user_friendly)), gas.2).

Section Writes.
Context {E : Type}.
(** The operation adds these lines, or panics. *)
Definition writes (m : M Console E unit) (r : option (list string * list string)) : Prop :=
  ∀ c, match r with
       | Some w => m c = Ret tt (mkConsole (co_out c ++ w.1) (co_err c ++ w.2))
       | None => ∃ msg, m c = Panic msg
       end.

Lemma writes_nothing : writes (mret tt) (Some ([], [])).
Proof. intros [out err]. cbn. by rewrite !app_nil_r. Qed.
Lemma writes_println s : writes (println s) (Some ([s], [])).
Proof. intros [out err]. cbn. by rewrite app_nil_r. Qed.
Lemma writes_errln s : writes (errln s) (Some ([], [s])).
Proof. intros [out err]. cbn. by rewrite app_nil_r. Qed.
Lemma writes_seq m1 m2 r1 r2 :
  writes m1 r1 → writes m2 r2 →
  writes (m1;; m2) (w1 ← r1; w2 ← r2; Some (w1.1 ++ w2.1, w1.2 ++ w2.2)).
Proof.
  intros H1 H2 c. specialize (H1 c). destruct r1 as [w1|]; cbn [mbind option_bind].
  - rewrite (bind_run _ _ _ _ _ H1). specialize (H2 (mkConsole (co_out c ++ w1.1) (co_err c ++ w1.2))).
    destruct r2 as [w2|]; cbn in *; [|exact H2]. by rewrite H2, !app_assoc.
  - destruct H1 as [msg H]. exists msg. unfold mbind, M_bind. by rewrite H.
Qed.
Lemma writes_ext m r r' : writes m r → r = r' → writes m r'.
Proof. by intros H <-. Qed.
Lemma writes_if (b : bool) m w : writes m (Some (w, [])) → writes (if b then mret tt else m) (Some (if b then [] else w, [])).
Proof. destruct b; [intros; apply writes_nothing|done]. Qed.
Lemma writes_compute {A} (m : ∀ S E, M S E A) (k : A → M Console E unit) (f : A → option (list string * list string)) :
  computation m → (∀ a, writes (k a) (f a)) → writes (m _ _ ≫= k) (value_of m ≫= f).
Proof.
  intros Hm%computation_value Hk c. specialize (Hm Console E c). destruct (value_of m) as [a|].
  - erewrite bind_run by exact Hm. apply Hk.
  - destruct Hm as [msg Hm]. exists msg. unfold mbind, M_bind. by rewrite Hm.
Qed.
Lemma writes_formatter (m : M Formatter E unit) b d :
  prints m b d → writes (with_formatter m) (if b then Some (d [], []) else None).
Proof.
  intros H c. unfold with_formatter, zoom. specialize (H (mkFormatter [] (co_out c))). cbn in H. destruct b.
  - rewrite H. cbn. by rewrite app_nil_r.
  - destruct H as [msg ->]. by exists msg.
Qed.
Lemma writes_for_each {A} (body : A → M Console E unit) (f : A → list string) xs :
  (∀ x, writes (body x) (Some (f x, []))) → writes (for_each body xs) (Some (concat (f <$> xs), [])).
Proof.
  intros H. induction xs as [|x xs IH]; [apply writes_nothing|]. exact (writes_seq _ _ _ _ (H x) IH).
Qed.
End Writes.

Lemma writes_gas {E} debug spent overhead :
  writes (E := E) (r ← capture (display_detailed_gas_info (Some debug) spent overhead);
          match r with Ok _ => mret tt | Err e => errln ("Cannot display gas details: " +:+ e) end)
    (gas_lines debug spent overhead).
Proof.
  intros c. unfold display_detailed_gas_info, gas_lines. destruct debug as [d|e]; [|apply writes_errln].
  pose proof (computation_value _ (gas_details_computes d spent) Console string c) as Hg. cbn beta in Hg.
  destruct (value_of _) as [g|]; cbn [mbind option_bind].
  - pose proof (writes_formatter (E := string) (print_gas_details g overhead) (gas_printable g overhead)
      (λ st, draw st true (gas_tree g overhead)) (print_gas_details_spec g overhead) c) as Hp.
    destruct (gas_printable g overhead); [|destruct Hp as [msg Hp]; exists msg];
      unfold capture, mbind, M_bind, try_result, mret, M_ret; rewrite Hg, Hp; done.
  - destruct Hg as [msg Hg]. exists msg. unfold capture, mbind, M_bind, try_result, mret, M_ret. by rewrite Hg.
Qed.

Lemma writes_gas_shown {E} show debug spent overhead :
  writes (E := E) (if gas_none show then mret tt
    else r ← capture (display_detailed_gas_info (Some debug) spent overhead);
         match r with Ok _ => mret tt | Err e => errln ("Cannot display gas details: " +:+ e) end)
    (if gas_none show then Some ([], []) else gas_lines debug spent overhead).
Proof. destruct (gas_none show); [apply writes_nothing|apply writes_gas]. Qed.
Lemma writes_trace {E} (t : option string) :
  writes (E := E) (match t with Some t => println (newline +:+ "Traces:" +:+ newline +:+ t) | None => mret tt end)
    (Some (match t with Some t => [newline +:+ "Traces:" +:+ newline +:+ t] | None => [] end, [])).
Proof. destruct t; [apply writes_println|apply writes_nothing]. Qed.
Lemma writes_storage {E} show logs :
  writes (E := E) (print_storage_details show logs) (Some (storage_lines show logs, [])).
Proof.
  unfold print_storage_details. eapply writes_ext.
  - apply writes_seq; [apply writes_println|]. apply writes_seq; [apply writes_println|].
    apply (writes_for_each _ (λ '(e, info, index, is_last), draw [] is_last (storage_log_tree e info index))).
    intros [[[e info] index] is_last]. exact (writes_formatter _ true _ (prints_storage_logs _ _ _ _)).
  - done.
Qed.

(** The report that follows a transaction is complete, or the node panics.
    With a refund within the limit and amounts that fit a word, it has the
    summary, the trace from the second level of verbosity on, the gas details,
    storage logs and VM details that are asked for, in this order and each as
    its tree; a bootloader that has not reported is an error message, and not
    the end.  A refund above the limit, or gas details that cannot be divided,
    end the run of the batch with a panic. *)
Theorem tx_report_spec {E} (c : TestNodeConfig) (verbosity : Z) debug overhead (tx : Transaction) (o : TxOutput)
    (s : Console) :
  match report_lines c verbosity debug overhead tx o with
  | Some (out, err) =>
      tx_report (E := E) c verbosity debug overhead tx o s =
      Ret tt (mkConsole (co_out s ++ out) (co_err s ++ err))
  | None => ∃ msg, tx_report (E := E) c verbosity debug overhead tx o s = Panic msg
  end.
Proof.
  assert (Hw : writes (E := E) (tx_report c verbosity debug overhead tx o)
                 (report_lines c verbosity debug overhead tx o)).
  { unfold tx_report, report_lines. cbv zeta.
    apply (writes_compute (λ S E, summary_new _ _ _ _)); [apply summary_new_computes|intros summary].
    apply (writes_compute (λ S E, summary_display _)); [apply summary_display_computes|intros text].
    eapply writes_ext.
    { apply writes_seq; [apply writes_println|]. apply writes_seq; [apply (writes_trace _)|].
      apply writes_seq; [apply (writes_gas_shown (tc_show_gas_details c))|].
      apply writes_seq; [apply writes_if, writes_storage|].
      apply writes_if. exact (writes_formatter _ true _ (prints_vm_details _ _ _ _ _)). }
    destruct (if gas_none (tc_show_gas_details c) then _ else _) as [[out err]|]; cbn; [|done].
    by rewrite !app_nil_r. }
  specialize (Hw s). by destruct (report_lines _ _ _ _ _ _) as [[out err]|].
Qed.

(** Without gas details there is always a report, as long as the refund is
    within the limit and the price of all gas fits a word. *)
Lemma report_defined c verbosity debug overhead tx o :
  gas_none (tc_show_gas_details c) = true → 0 <= vr_gas_refunded (to_result o) <= tx_gas_limit tx →
  0 <= get_l2_gas_price c → get_l2_gas_price c * tx_gas_limit tx <= u256_max →
  is_Some (report_lines c verbosity debug overhead tx o).
Proof.
  intros Hg Hr Hp Hm. unfold report_lines. rewrite Hg. erewrite value_of_ret.
  2: { unfold summary_new. erewrite bind_run; [reflexivity|].
       unfold sub_u256. rewrite (proj2 (Z.leb_le (vr_gas_refunded (to_result o)) (tx_gas_limit tx))) by lia. reflexivity. }
  cbn [mbind option_bind]. erewrite value_of_ret; [cbn [mbind option_bind]; by eexists|].
  unfold summary_display. cbn [su_l2_gas_price su_gas_used su_gas_refunded].
  erewrite bind_run; [|unfold mul_u256; rewrite (proj2 (Z.leb_le _ u256_max)) by nia; reflexivity].
  erewrite bind_run; [reflexivity|]. unfold mul_u256. rewrite (proj2 (Z.leb_le _ u256_max)) by nia. reflexivity.
Qed.
End TxReport.

(** ** The description of the configuration

    The version is that of the build; the texts of accounts and of floating-point
    numbers are arguments. *)
Class ConfigText `{WalletApi} := {
  VERSION_MESSAGE : string;
  (** [account.address()] displayed, [{:?}] of it, and the hexadecimal digits of
      [account.credential().to_bytes()] *)
  signer_display : Signer → string;
  signer_debug : Signer → string;
  signer_key : Signer → string;
  f64_display : f64 → string;
  f32_display : f32 → string;
  (** [custom_color(color)] *)
  banner_color : string → string;
  (** [File::create] of the description, and writing the JSON to it *)
  create_description : string → Prelude.result unit string;
  write_description : string → Json → Prelude.result unit string;
  fee_config_json : FeeModelConfigV2 → Json;
}.

Definition BANNER : string := write_interspersed newline [
  "";
  "                      _  _         _____ _  __";
  "  __ _  _ __  __   __(_)| |       |__  /| |/ / ___  _   _  _ __    ___";
  " / _` || '_ \ \ \ / /| || | _____   / / | ' / / __|| | | || '_ \  / __|";
  "| (_| || | | | \ V / | || ||_____| / /_ | . \ \__ \| |_| || | | || (__";
  " \__,_||_| |_|  \_/  |_||_|       /____||_|\_\|___/ \__, ||_| |_| \___|";
  "                                                    |___/";
  ""].

Section ConfigPrint.
Context {WA : WalletApi} {CO : Colors} {CT : CostText} {XT : ConfigText}.

Definition green : string → string := paint [Green].
Definition red : string → string := paint [Red].
Definition enabled (b : bool) : string := if b then green "Enabled" else red "Disabled".
(** A raw string literal, from the line after its start *)
Definition paragraph_text (lines : list string) : string := write_interspersed newline ([EmptyString] ++ lines ++ [EmptyString]).
Definition ruler : string := "========================".

(** [for (idx, account) in self.genesis_accounts.iter().enumerate()] *)
Fixpoint numbered (show : Signer → string) (idx : nat) (accounts : list Signer) : string :=
  match accounts with
  | [] => EmptyString
  | account :: accounts =>
      "(" +:+ dec (Z.of_nat idx) +:+ ") " +:+ show account +:+ newline +:+ numbered show (S idx) accounts
  end.

Definition fork_section (c : TestNodeConfig) (fd : ForkPrintInfo) : string :=
  let m := info_fee_model fd in
  paragraph_text ["Fork Details"; ruler;
    "Network RPC:               " +:+ green (network_rpc fd);
    "Chain ID:                  " +:+ green (dec (get_chain_id c));
    "L1 Batch #:                " +:+ green (info_l1_block fd);
    "L2 Block #:                " +:+ green (info_l2_block fd);
    "Block Timestamp:           " +:+ green (info_block_timestamp fd);
    "Fork Block Hash:           " +:+ green (info_fork_block_hash fd);
    "Compute Overhead Part:     " +:+ green (f64_display (compute_overhead_part m));
    "Pubdata Overhead Part:     " +:+ green (f64_display (pubdata_overhead_part m));
    "Batch Overhead L1 Gas:     " +:+ green (dec (batch_overhead_l1_gas m));
    "Max Gas Per Batch:         " +:+ green (dec (max_gas_per_batch m));
    "Max Pubdata Per Batch:     " +:+ green (dec (max_pubdata_per_batch m))].

Definition node_section (c : TestNodeConfig) : string :=
  paragraph_text ["Node Configuration"; ruler;
    "Port:                  " +:+ dec (tc_port c);
    "EVM Interpreter:       " +:+ enabled (tc_use_evm_interpreter c);
    "Health Check Endpoint: " +:+ enabled (tc_health_check_endpoint c);
    "BoojumOS:              " +:+ enabled (use_boojum_os (tc_boojum c));
    "L1:                    " +:+ enabled (bool_decide (is_Some (tc_l1_config c)))].

Definition l1_section (c : TestNodeConfig) : list string :=
  match tc_l1_config c with
  | Some (L1Spawn port) => [paragraph_text ["L1 Configuration (Spawned)"; ruler; "Port: " +:+ dec port]]
  | Some (L1External address) => [paragraph_text ["L1 Configuration (External)"; ruler; "Address: " +:+ address]]
  | None => []
  end.

Definition listening_section (c : TestNodeConfig) : string :=
  let line := "========================================" +:+ newline in
  newline +:+ line
  +:+ String.concat EmptyString ((λ host, "  Listening on " +:+ green host +:+ ":" +:+ green (dec (tc_port c)) +:+ newline) <$> tc_host c)
  +:+ line.

(** What [print] prints, one text per call of [sh_println!] *)
Definition config_sections (c : TestNodeConfig) (fork_details : option ForkPrintInfo) : list string :=
  [paragraph_text [banner_color BANNER +:+ " "; "Version:        " +:+ green VERSION_MESSAGE;
     "Repository:     " +:+ green "https://github.com/matter-labs/anvil-zksync"; EmptyString];
   paragraph_text ["Rich Accounts"; ruler;
     numbered (λ a, signer_display a +:+ " (" +:+ format_eth (tc_genesis_balance c) +:+ ")") 0 (tc_genesis_accounts c)];
   paragraph_text ["Private Keys"; ruler; numbered (λ a, "0x" +:+ signer_key a) 0 (tc_genesis_accounts c)]]
  ++ (match tc_account_generator c with
      | Some g => [paragraph_text ["Wallet"; ruler; "Mnemonic:            " +:+ green (ag_phrase g);
                     "Derivation path:     " +:+ green (get_derivation_path g)]]
      | None => []
      end)
  ++ [match fork_details with
      | Some fd => fork_section c fd
      | None => paragraph_text ["Network Configuration"; ruler; "Chain ID: " +:+ green (dec (default TEST_NODE_NETWORK_ID (tc_chain_id c)))]
      end;
      paragraph_text ["Gas Configuration"; ruler;
        "L1 Gas Price (gwei):               " +:+ green (format_gwei (get_l1_gas_price c));
        "L2 Gas Price (gwei):               " +:+ green (format_gwei (get_l2_gas_price c));
        "L1 Pubdata Price (gwei):           " +:+ green (format_gwei (get_l1_pubdata_price c));
        "Estimated Gas Price Scale Factor:  " +:+ green (f64_display (get_price_scale c));
        "Estimated Gas Limit Scale Factor:  " +:+ green (f32_display (get_gas_limit_scale c))];
      paragraph_text ["Genesis Timestamp"; ruler; green (dec (get_genesis_timestamp c))];
      node_section c]
  ++ l1_section c
  ++ [listening_section c].

(** [as_json]; an object with the last of two fields of the same name *)
Definition wallet_description (c : TestNodeConfig) : list (string * Json) :=
  match tc_account_generator c with
  | Some g => [("derivation_path", JString (get_derivation_path g)); ("mnemonic", JString (ag_phrase g))]
  | None => []
  end.
Definition as_json (c : TestNodeConfig) (fork : option ForkPrintInfo) : list (string * Json) :=
  let available_accounts := JArray ((λ a, JString (signer_debug a)) <$> tc_genesis_accounts c) in
  let private_keys := JArray ((λ a, JString ("0x" +:+ signer_key a)) <$> tc_genesis_accounts c) in
  let prices :=
    [("l1_gas_price", JString (dec (get_l1_gas_price c))); ("l2_gas_price", JString (dec (get_l2_gas_price c)));
     ("l1_pubdata_price", JString (dec (get_l1_pubdata_price c)));
     ("price_scale_factor", JString (f64_display (get_price_scale c)));
     ("limit_scale_factor", JString (f32_display (get_gas_limit_scale c)))] in
  match fork with
  | Some fork =>
      [("available_accounts", available_accounts); ("private_keys", private_keys);
       ("endpoint", JString (network_rpc fork)); ("l1_block", JString (info_l1_block fork));
       ("l2_block", JString (info_l2_block fork)); ("block_hash", JString (info_fork_block_hash fork));
       ("chain_id", JNumber (get_chain_id c)); ("wallet", JObject (wallet_description c))]
      ++ prices ++ [("fee_model_config_v2", fee_config_json (info_fee_model fork))]
  | None =>
      [("available_accounts", available_accounts); ("private_keys", private_keys);
       ("wallet", JObject (wallet_description c)); ("chain_id", JNumber (get_chain_id c))] ++ prices
  end.

(** [TestNodeConfig::print] *)
Definition config_print {E} (c : TestNodeConfig) (fork_details : option ForkPrintInfo) : M Console E unit :=
  (match tc_config_out c with
   | Some config_out =>
       (match create_description config_out with
        | Ok _ => mret tt
        | Err e => panic ("Unable to create anvil-zksync config description file: " +:+ e)
        end);;
       (match write_description config_out (JObject (as_json c fork_details)) with
        | Ok _ => mret tt
        | Err e => panic ("Failed writing json: " +:+ e)
        end)
   | None => mret tt
   end);;
  if tc_silent c || negb (tc_show_node_config c) then mret tt
  else for_each println (config_sections c fork_details).

Lemma for_each_println {E} texts (s : Console) :
  for_each (println (E := E)) texts s = Ret tt (mkConsole (co_out s ++ texts) (co_err s)).
Proof.
  revert s. induction texts as [|t texts IH]; intros [out err]; [by rewrite app_nil_r|].
  cbn [for_each]. erewrite bind_run; [|reflexivity]. rewrite IH. cbn. by rewrite <-app_assoc.
Qed.

(** Whether the description can be written *)
Definition description_written (c : TestNodeConfig) (fork_details : option ForkPrintInfo) : bool :=
  match tc_config_out c with
  | Some path =>
      match create_description path, write_description path (JObject (as_json c fork_details)) with
      | Ok _, Ok _ => true
      | _, _ => false
      end
  | None => true
  end.

Lemma json_of_fork c fd : Forall (λ field, field ∈ as_json c (Some fd)) (as_json c None).
Proof.
  unfold as_json. cbn [app]. set (accounts := JArray _). set (keys := JArray _). clearbody accounts keys.
  generalize (JObject (wallet_description c)) (JNumber (get_chain_id c)) (JString (dec (get_l1_gas_price c)))
    (JString (dec (get_l2_gas_price c))) (JString (dec (get_l1_pubdata_price c)))
    (JString (f64_display (get_price_scale c))) (JString (f32_display (get_gas_limit_scale c))).
  intros wallet chain_id p1 p2 p3 p4 p5.
  repeat (apply Forall_cons_2; [repeat (apply list_elem_of_here || apply list_elem_of_further)|]). apply Forall_nil_2.
Qed.

(** The description of the configuration.  A file that was asked for is
    written also by a silent node, and the node panics if it cannot be; what is
    printed are the sections of [config_sections], unless the node is silent or
    its configuration is not to be shown.  The JSON of a fork has every field
    of the JSON without one, with the same value, and five more; no field is
    there twice. *)
Theorem config_print_spec {E} (c : TestNodeConfig) (fork_details : option ForkPrintInfo) (s : Console) :
  (if description_written c fork_details then
     config_print (E := E) c fork_details s =
     Ret tt (mkConsole (co_out s ++ if tc_silent c || negb (tc_show_node_config c) then []
                                    else config_sections c fork_details) (co_err s))
   else ∃ msg, config_print (E := E) c fork_details s = Panic msg) ∧
  NoDup (as_json c fork_details).*1 ∧
  (∀ fd, fork_details = Some fd →
     (∀ field, field ∈ as_json c None → field ∈ as_json c (Some fd)) ∧
     (∀ name, name ∈ (as_json c (Some fd)).*1 →
        name ∈ (as_json c None).*1 ∨ name ∈ ["endpoint"; "l1_block"; "l2_block"; "block_hash"; "fee_model_config_v2"])).
Proof.
  split_and!.
  - unfold config_print, description_written.
    assert (Hp : (if tc_silent c || negb (tc_show_node_config c) then mret tt
                  else for_each (println (E := E)) (config_sections c fork_details)) s =
       Ret tt (mkConsole (co_out s ++ if tc_silent c || negb (tc_show_node_config c) then []
                                    else config_sections c fork_details) (co_err s))).
    { destruct (_ || _); [destruct s; cbn; by rewrite app_nil_r|apply for_each_println]. }
    destruct (tc_config_out c) as [path|]; [|erewrite bind_run by reflexivity; exact Hp].
    destruct (create_description path); [|by eexists].
    destruct (write_description path _); [|by eexists].
    erewrite bind_run by reflexivity. exact Hp.
  - destruct fork_details; apply (bool_decide_unpack _); vm_compute; done.
  - intros fd ->. split; [apply Forall_forall, json_of_fork|].
    apply Forall_forall. apply (bool_decide_unpack _). vm_compute. done.
Qed.
End ConfigPrint.

(** ** The names of commands *)
Class ActionText := {
  (** [Display] of hashes and addresses, which shortens them *)
  hash_short : H256 → string;
  address_short : Address → string;
  (** [StorageKey::hashed_key] *)
  hashed_key : StorageKey → H256;
}.

Section Actions.
Context {TA : TransactionApi} {AT : ActionText}.

(** [{:?}] of a list of texts without characters to escape *)
Definition quote_mark : string := String (ascii_of_nat 34) EmptyString.
Definition quoted (s : string) : string := quote_mark +:+ s +:+ quote_mark.
Definition list_debug (items : list string) : string := "[" +:+ write_interspersed ", " (quoted <$> items) +:+ "]".
Definition batch_repr (batch : TxBatch) : string := list_debug ((λ tx, hash_short (tx_hash tx)) <$> txs batch).
(** [{:?}] of a text with quotation marks in it *)
Fixpoint escape (s : string) : string :=
  match s with
  | EmptyString => EmptyString
  | String c s => if Ascii.eqb c (ascii_of_nat 34) then "\" +:+ String c (escape s) else String c (escape s)
  end.

(** [Command::readable_action_name] *)
Definition readable_action_name {A} (c : Command A) : string :=
  match c with
  | SealBlock tx_batch => "seal a block with transactions " +:+ batch_repr tx_batch
  | SealBlocks tx_batches interval =>
      "seal blocks with intervals of " +:+ dec interval +:+ " seconds between consecutive blocks: "
      +:+ list_debug ((λ b, escape (batch_repr b)) <$> tx_batches)
  | SetCode address _ => "set bytecode for address " +:+ address_short address
  | SetStorage key value => "set storage " +:+ hash_short (hashed_key key) +:+ "=" +:+ dec value
  | SetBalance account balance => "set balance of account " +:+ address_short account +:+ " to " +:+ dec balance
  | SetNonce account nonce => "set nonce of account " +:+ address_short account +:+ " to " +:+ dec nonce
  | ResetFork url block_number =>
      "reset fork to url " +:+ url +:+ " and block number "
      +:+ match block_number with Some n => "Some(L2BlockNumber(" +:+ dec n +:+ "))" | None => "None" end
  | ResetForkBlockNumber n => "reset fork block number to " +:+ dec n
  | SetForkUrl url => "set fork RPC URL to " +:+ url
  | RemoveFork => "remove fork if there was one"
  | IncreaseTime delta => "increase time by " +:+ dec delta +:+ " seconds"
  | EnforceNextTimestamp timestamp => "enforce next block's timestamp to " +:+ dec timestamp +:+ " seconds"
  | SetCurrentTimestamp timestamp => "set current timestamp to " +:+ dec timestamp +:+ " seconds"
  | SetTimestampInterval interval => "set block timestamp interval to " +:+ dec interval +:+ " seconds"
  | RemoveTimestampInterval => "remove timestamp interval"
  | EnforceNextBaseFeePerGas base_fee => "enforce next block's base fee per gas to " +:+ dec base_fee
  | SetProgressReport => "set progress report"
  end.

(** The text of [node_executor_dropped_error]: in a raw literal, a backslash at
    the end of a line and the indentation of the next are part of the text. *)
Definition dropped_error_text (request_or_receive action_name : string) : string :=
  write_interspersed (newline +:+ "         ") [
    "Failed to " +:+ request_or_receive +:+ " " +:+ action_name +:+ " because node executor is dropped. \";
    "Another error was likely propagated from the main execution loop. \";
    "If this is not the case, please, report this as a bug."].
End Actions.

(** ** The frame of the program

    [main]: what the error is told to the telemetry does not matter, but it is
    told before the message is printed. *)
Section Main.
Context {ProgramError : Type} (generic_error : string → ProgramError) (message : ProgramError → string).
Context {S : Type} (init_telemetry : M S string unit) (track_error : ProgramError → M S string unit).
Context (sh_eprintln : string → S → S) (start_program : M S ProgramError unit).

Definition main : M S ProgramError unit :=
  map_err (λ inner, generic_error ("Failed to initialize telemetry collection subsystem: " +:+ inner +:+ ".")) init_telemetry;;
  r ← capture start_program;
  match r with
  | Ok _ => mret tt
  | Err err =>
      capture (E' := ProgramError) (track_error err);;
      modify (sh_eprintln (message err));;
      throw err
  end.

(** The program ends as [start_program] does; an error is printed once, after
    it was reported, whether the report succeeded or not. *)
Lemma main_spec (s s1 : S) :
  init_telemetry s = Ret tt s1 →
  main s = match start_program s1 with
           | Ret _ s2 => Ret tt s2
           | Throw err s2 =>
               match track_error err s2 with
               | Ret _ s3 | Throw _ s3 => Throw err (sh_eprintln (message err) s3)
               | Panic msg => Panic msg
               | Deadlock => Deadlock
               end
           | Panic msg => Panic msg
           | Deadlock => Deadlock
           end.
Proof.
  intros Hi. unfold main, map_err, mbind, M_bind. rewrite Hi. unfold capture.
  destruct (start_program s1) as [[] s2|err s2|msg|]; try done. by destruct (track_error err s2).
Qed.
End Main.
