(* ===== verification/ConsoleAbi.v ===== *)
(** * The console interfaces

    [crates/console/src/ds.rs] (the events of DSTest-style logs and how they are
    shown) and [crates/core/src/node/traces/decoder.rs] (the decoder that traces
    start from), with the functions of [hh.rs], which are those of its ABI file
    [Console.json].  Selectors and the printing of units are arguments. *)
From S2P Require Import Prelude Types Text AddressMap TraceTypes Traces TraceWriter Resolver TraceDecode.
From Stdlib Require Import Ascii.
Local Open Scope string_scope.
Local Open Scope list_scope.
Local Open Scope Z_scope.

(** ** The events *)
Definition param (name ty : string) : Param := mkParam name ty false.
Definition val_event (name ty : string) : Event := mkEvent name [param "val" ty] false.
Definition named_event (name ty : string) : Event := mkEvent name [param "key" "string"; param "val" ty] false.
Definition decimal_event (name ty : string) : Event :=
  mkEvent name [param "key" "string"; param "val" ty; param "decimals" "uint256"] false.

(** [ds::abi::events()], of all names *)
Definition ds_events : list Event := [
  val_event "log" "string"; val_event "logs" "bytes"; val_event "log_address" "address";
  val_event "log_bytes32" "bytes32"; val_event "log_int" "int256"; val_event "log_uint" "uint256";
  val_event "log_bytes" "bytes"; val_event "log_string" "string";
  val_event "log_array" "uint256[]"; val_event "log_array" "int256[]"; val_event "log_array" "address[]";
  named_event "log_named_address" "address"; named_event "log_named_bytes32" "bytes32";
  decimal_event "log_named_decimal_int" "int256"; decimal_event "log_named_decimal_uint" "uint256";
  named_event "log_named_int" "int256"; named_event "log_named_uint" "uint256";
  named_event "log_named_bytes" "bytes"; named_event "log_named_string" "string";
  named_event "log_named_array" "uint256[]"; named_event "log_named_array" "int256[]";
  named_event "log_named_array" "address[]"].

(** An event with its values *)
Inductive DsEvent :=
| DsLog (val : string)
| DsLogs (val : Bytes)
| DsLogAddress (val : Address)
| DsLogBytes32 (val : Z)
| DsLogInt (val : Z)
| DsLogUint (val : Z)
| DsLogBytes (val : Bytes)
| DsLogString (val : string)
| DsLogArrayUint (val : list Z)
| DsLogArrayInt (val : list Z)
| DsLogArrayAddress (val : list Address)
| DsLogNamedAddress (key : string) (val : Address)
| DsLogNamedBytes32 (key : string) (val : Z)
| DsLogNamedDecimalInt (key : string) (val decimals : Z)
| DsLogNamedDecimalUint (key : string) (val decimals : Z)
| DsLogNamedInt (key : string) (val : Z)
| DsLogNamedUint (key : string) (val : Z)
| DsLogNamedBytes (key : string) (val : Bytes)
| DsLogNamedString (key val : string)
| DsLogNamedArrayUint (key : string) (val : list Z)
| DsLogNamedArrayInt (key : string) (val : list Z)
| DsLogNamedArrayAddress (key : string) (val : list Address).

Class DsText := {
  (** [ParseUnits::U256(x).format_units(units)] *)
  format_units : Z → Z → string;
  ds_address : Address → string;
}.

Section Display.
Context {DT : DsText}.

(** [decimals.saturating_to::<u8>()] and [Unit::new]: at most 77 decimals *)
Definition saturating_u8 (n : Z) : Z := Z.min n 255.
Definition unit_new (decimals : Z) : option Z := if decimals <=? 77 then Some decimals else None.

Definition format_units_uint (x decimals : Z) : string :=
  match unit_new (saturating_u8 decimals) with
  | Some units => format_units x units
  | None => dec x
  end.
(** [into_sign_and_abs] *)
Definition format_units_int (x decimals : Z) : string :=
  (if x <? 0 then "-" else EmptyString) +:+ format_units_uint (Z.abs x) decimals.

Definition int_text (x : Z) : string := (if x <? 0 then "-" else EmptyString) +:+ dec (Z.abs x).
Definition word_hex (x : Z) : string := "0x" +:+ hex_h256 x.
Definition bytes_hex (bs : Bytes) : string := "0x" +:+ hex_encode bs.
Definition bracketed (items : list string) : string := "[" +:+ write_interspersed ", " items +:+ "]".
Definition keyed (key text : string) : string := key +:+ ": " +:+ text.

Definition ds_display (e : DsEvent) : string :=
  match e with
  | DsLog val | DsLogString val => val
  | DsLogs val | DsLogBytes val => bytes_hex val
  | DsLogAddress val => ds_address val
  | DsLogBytes32 val => word_hex val
  | DsLogInt val => int_text val
  | DsLogUint val => dec val
  | DsLogArrayUint val => bracketed (dec <$> val)
  | DsLogArrayInt val => bracketed (int_text <$> val)
  | DsLogArrayAddress val => bracketed (ds_address <$> val)
  | DsLogNamedAddress key val => keyed key (ds_address val)
  | DsLogNamedBytes32 key val => keyed key (word_hex val)
  | DsLogNamedDecimalInt key val decimals => keyed key (format_units_int val decimals)
  | DsLogNamedDecimalUint key val decimals => keyed key (format_units_uint val decimals)
  | DsLogNamedInt key val => keyed key (int_text val)
  | DsLogNamedUint key val => keyed key (dec val)
  | DsLogNamedBytes key val => keyed key (bytes_hex val)
  | DsLogNamedString key val => keyed key val
  | DsLogNamedArrayUint key val => keyed key (bracketed (dec <$> val))
  | DsLogNamedArrayInt key val => keyed key (bracketed (int_text <$> val))
  | DsLogNamedArrayAddress key val => keyed key (bracketed (ds_address <$> val))
  end.

(** Decimals beyond a byte or beyond what a word has digits for leave the amount
    as it is. *)
Lemma many_decimals x decimals : 77 < decimals → format_units_uint x decimals = dec x.
Proof.
  intros H. unfold format_units_uint, unit_new, saturating_u8. by rewrite (proj2 (Z.leb_gt _ _)) by lia.
Qed.
End Display.

(** A list with different images *)
Lemma NoDup_fmap_elem {A B} (f : A → B) (l : list A) x y :
  NoDup (f <$> l) → x ∈ l → y ∈ l → f x = f y → x = y.
Proof.
  intros Hd [i Hi]%list_elem_of_lookup_1 [j Hj]%list_elem_of_lookup_1 H.
  assert (i = j) as ->; [|congruence].
  eapply (NoDup_lookup _ _ _ (f x) Hd); rewrite list_lookup_fmap; [by rewrite Hi|rewrite Hj; cbn; by rewrite H].
Qed.

(** ** The functions

    Every overload of [console.log] in [Console.json]: up to four arguments of four
    types, one of any fixed size of bytes, and a few more *)
Definition log_types : list string := ["uint256"; "string"; "bool"; "address"].
Fixpoint log_products (n : nat) : list (list string) :=
  match n with
  | O => [[]]
  | S n => log_types ≫= λ ty, cons ty <$> log_products n
  end.
Definition fixed_bytes : list string := (λ n, "bytes" +:+ dec n) <$> seqZ 1 32.
Definition hh_inputs : list (list string) :=
  (seq 0 5 ≫= log_products) ++ ((λ ty, [ty]) <$> "bytes" :: "int256" :: fixed_bytes) ++ [["string"; "int256"]].
Definition input (ty : string) : Param := param EmptyString ty.
Definition log_signature (tys : list string) : string := "log(" +:+ write_interspersed "," tys +:+ ")".

(** They are as many as in the file, and no two have the same signature. *)
Lemma hh_inputs_count : length hh_inputs = 376%nat.
Proof. vm_compute. reflexivity. Qed.
Lemma log_signatures_distinct : NoDup (log_signature <$> hh_inputs).
Proof. apply (bool_decide_unpack _). vm_compute. done. Qed.

(** ** The decoder *)
Section Decoder.
Context {AA : AbiApi}.
(** [event.selector()], of the name and the types of the inputs; [func.selector()];
    and a [Function] of a name and inputs, without outputs *)
Context (signature_hash : string → H256) (fn_selector : Function → list Z)
  (mk_function : string → list Param → Function).

(** [hh::abi::functions()], all of one name *)
Definition hh_functions : list Function := (λ tys, mk_function "log" (input <$> tys)) <$> hh_inputs.

Definition event_signature (e : Event) : string :=
  e_name e +:+ "(" +:+ write_interspersed "," (p_ty <$> e_inputs e) +:+ ")".
Definition event_selector (e : Event) : H256 := signature_hash (event_signature e).
Definition indexed_inputs (e : Event) : nat := length (filter (λ p, p_indexed p = true) (e_inputs e)).

(** [CallTraceDecoderBuilder::default().build()]; a later entry of a key replaces
    an earlier one *)
Definition default_decoder : CallTraceDecoder :=
  CallTraceDecoder_new
    (list_to_map (reverse ((λ f, (fn_selector f, [f])) <$> hh_functions)))
    (list_to_map (reverse ((λ e, ((event_selector e, indexed_inputs e), [e])) <$> ds_events))).

Lemma signatures_differ e e' :
  e ∈ ds_events → e' ∈ ds_events → event_signature e = event_signature e' → e = e'.
Proof. apply NoDup_fmap_elem. apply (bool_decide_unpack _). vm_compute. done. Qed.
Lemma none_indexed : Forall (λ e, indexed_inputs e = 0%nat) ds_events.
Proof. repeat (apply Forall_cons_2; [reflexivity|]). apply Forall_nil_2. Qed.

(** The decoder knows every log event, if their selectors are different: the
    overloads of one name have different signatures, and no input is indexed. *)
Theorem ds_events_known :
  (∀ e e', e ∈ ds_events → e' ∈ ds_events → event_selector e = event_selector e' →
     event_signature e = event_signature e') →
  ∀ e, e ∈ ds_events → td_events default_decoder !! (event_selector e, 0%nat) = Some [e].
Proof.
  intros Hsel e He. pose proof none_indexed as Hx. rewrite Forall_forall in Hx. apply elem_of_list_to_map_1'.
  - intros y Hy. rewrite elem_of_reverse in Hy. apply list_elem_of_fmap in Hy as (e'&Heq&He').
    injection Heq as Hs _ ->. by rewrite (signatures_differ e e' He He' (Hsel _ _ He He' Hs)).
  - rewrite elem_of_reverse. apply list_elem_of_fmap. exists e. by rewrite (Hx e He).
Qed.

(** Every overload of [console.log] is known to the decoder under its selector, and
    nothing else is, if the selectors of different signatures are different. *)
Theorem hh_functions_known :
  (∀ tys tys', tys ∈ hh_inputs → tys' ∈ hh_inputs →
     fn_selector (mk_function "log" (input <$> tys)) = fn_selector (mk_function "log" (input <$> tys')) →
     log_signature tys = log_signature tys') →
  (∀ tys, tys ∈ hh_inputs →
     td_functions default_decoder !! fn_selector (mk_function "log" (input <$> tys)) =
     Some [mk_function "log" (input <$> tys)]) ∧
  (∀ selector fs, td_functions default_decoder !! selector = Some fs →
     ∃ tys, tys ∈ hh_inputs ∧ fs = [mk_function "log" (input <$> tys)] ∧ selector = fn_selector (mk_function "log" (input <$> tys))).
Proof.
  intros Hsel. split.
  - intros tys Ht. apply elem_of_list_to_map_1'.
    + intros y Hy. rewrite elem_of_reverse in Hy. apply list_elem_of_fmap in Hy as (f & Heq & Hf).
      apply list_elem_of_fmap in Hf as (tys' & -> & Ht'). injection Heq as Hs ->.
      pose proof (NoDup_fmap_elem log_signature hh_inputs tys tys' log_signatures_distinct Ht Ht' (Hsel _ _ Ht Ht' Hs)) as <-.
      reflexivity.
    + rewrite elem_of_reverse. apply list_elem_of_fmap. eexists. split; [reflexivity|].
      apply list_elem_of_fmap. by exists tys.
  - intros selector fs Hl. apply elem_of_list_to_map_2 in Hl. rewrite elem_of_reverse in Hl.
    apply list_elem_of_fmap in Hl as (f & [= -> ->] & Hf). apply list_elem_of_fmap in Hf as (tys & -> & Ht).
    by exists tys.
Qed.
End Decoder.

(** ** Functions that are their signatures *)
Module SampleConsole.
Import SampleTrace.
Definition text_selector (f : string) : list Z := (λ c, Z.of_nat (nat_of_ascii c)) <$> String.list_ascii_of_string f.
Definition text_function (name : string) (inputs : list Param) : string :=
  name +:+ "(" +:+ write_interspersed "," (p_ty <$> inputs) +:+ ")".

Lemma text_selector_inj f f' : text_selector f = text_selector f' → f = f'.
Proof.
  unfold text_selector. revert f'. induction f as [|c f IH]; intros [|c' f'] E; try done.
  cbn in E. injection E as Hc E. apply IH in E as ->. apply Nat2Z.inj in Hc.
  by rewrite <-(ascii_nat_embedding c), Hc, ascii_nat_embedding.
Qed.

Lemma hh_functions_known_witness :
  td_functions (default_decoder (AA := abi) (λ _, 0) text_selector text_function)
    !! text_selector "log(string,uint256)" = Some ["log(string,uint256)"].
Proof.
  apply (hh_functions_known (AA := abi) (λ _, 0) text_selector text_function) with (tys := ["string"; "uint256"]).
  - intros tys tys' _ _ E. apply text_selector_inj in E. unfold text_function, input in E.
    rewrite <-!list_fmap_compose in E. unfold compose in E. cbn in E. rewrite !list_fmap_id in E. exact E.
  - apply (bool_decide_unpack _). vm_compute. done.
Defined.
End SampleConsole.
