(* ===== verification/Program.v ===== *)
(** * The program

    [start_program] and [main] of [crates/cli/src/main.rs], put together from the
    parts: the arguments ([Cli]), the shell and the log filter ([Logging]), the
    network and the node ([Start]), the server ([ServerBuild], [RpcServer]), the
    description of the configuration ([Notices]).

    What the program changes outside the node is the shell and the world of the
    L1.  What [run_node] prints on its way (a host that could not be bound, the
    replay of transactions) is left out. *)
From S2P Require Import Prelude Types Utils Text Filters Impersonate Time Pool Cache Fork Storage FeeModel.
From S2P Require Import Sealer Blockchain Inner Sealing VmRunner Running Executor GasEstim Node Api Serving Config Cli.
From S2P Require Import AddressMap TraceTypes Traces TraceWriter ErrorDefs NodeErrors L1Anvil L1Commit L1Sender L1Watcher L1Sidecar SystemContracts Predeploys.
From S2P Require Import Printing Reports Logging ServerBuild Start RpcServer Notices.
Local Open Scope string_scope.
Local Open Scope list_scope.
Local Open Scope Z_scope.

Create HintDb silence.

Section Program.
Context {TA : TransactionApi} {FA : FeeApi} {KA : KeyApi} {CA : ChainApi} {BA : BlockApi} {RA : VmResultApi}.
Context {NA : NodeApi} {QA : RequestApi} {EA : EstimationApi} {CH : Channel} {TI : Ticker}.
Context {Client : Type} {R : Remote (Client := Client)}.
Context {VM : VmApi (StorageState (Client := Client))} {CV : CallVm (StorageState (Client := Client))}.
Context {SV : SandboxVm (StorageState (Client := Client))}.
Context {WA : WalletApi} {CLA : CliApi} {HA : HostApi} {SA : StartApi} {DU : DumpApi}.
Context {AA : ArtifactApi} {PA : PredeployAbi} {EN : EraApi}.
Context {CMA : CommitmentApi} {MA : MerkleApi} {AB : CallAbi} {LT : L1TxApi} {EM : Embedded}.
Context {W : Type} {RN : Random W} {P : L1Provider W}.
Context {RP : RpcApi} {DA : DirectiveApi} {ST : ShellTerminal} {CO : Colors} {CT : CostText} {XT : ConfigText}.
Abbreviation Node := (InMemoryNode (Client := Client)).

Record ProgramState := mkProgram {
  pg_shell : option Shell;
  pg_world : W;
}.
Abbreviation PM := (M ProgramState StartError).

(** [sh_warn!] and the other macros, and a change of the shell itself *)
Definition say (m : Message) : PM unit := modify (λ s, mkProgram (emit (pg_shell s) m) (pg_world s)).
Definition on_shell (f : Shell → Shell) : PM unit :=
  modify (λ s, mkProgram (Some (f (get_shell (pg_shell s)))) (pg_world s)).
Definition set_output_mode (mode : OutputMode) (s : Shell) : Shell :=
  mkShell (sh_verbosity s) mode (sh_color_choice s) (sh_stdout s) (sh_stderr s).
Definition set_verbosity (verbosity : Z) (s : Shell) : Shell :=
  mkShell verbosity (sh_output_mode s) (sh_color_choice s) (sh_stdout s) (sh_stderr s).

(** A step that needs neither, one on the world, and one that prints *)
Definition step {A} (m : M unit StartError A) : PM A := zoom (λ _, tt) (λ _ s, s) m.
Definition on_world {E A} (m : M W E A) : M ProgramState E A :=
  zoom pg_world (λ w s, mkProgram (pg_shell s) w) m.
Definition printing (m : M Console StartError unit) : PM unit := λ s,
  match m (mkConsole [] []) with
  | Ret _ console => for_each (λ line, say (ShPrintln line)) (co_out console) s
  | Throw e _ => Throw e s
  | Panic msg => Panic msg
  | Deadlock => Deadlock
  end.

(** What runs when the start is over *)
Record Running := mkRunning {
  rp_executor : NodeExecutor;
  rp_node : Node;
  rp_sidecar : L1Sidecar;
  rp_l1_tasks : option (L1SidecarRunner * (W → L1State W));
  rp_servers : list (NodeServer (AllowOrigin := string) (SocketAddr := IpAddr * Z));
  rp_config : TestNodeConfig;
  rp_dumper : PeriodicStateDumper;
  rp_observability : Observability;
}.

Definition OFFLINE_WARNING : string := "Running in offline mode: default fee parameters will be used.".
Definition OBSERVABILITY_FAILED : string := "Internal error: Unable to set up observability. Please report. ".

(** [telemetry.track_event], whose failure is ignored *)
Context (track_event : string → TelemetryProps → M W string unit).

(** The arguments as configuration, with the shell and the filter of the log *)
Definition configure (c : Cli) : PM (TestNodeConfig * Observability) :=
  config ← step (map_err StartEnv (into_test_node_config c));
  on_shell (λ s, set_output_mode (if tc_silent config then QuietOutput else NormalOutput)
                   (set_verbosity (tc_verbosity config) s));;
  step (open_log_file config);;
  observability ←
    match observability_init ["anvil_zksync"] (level_of_log (tc_log_level config)) (tc_silent config) with
    | Ok o => mret o
    | Err e => throw (StartGeneric (OBSERVABILITY_FAILED +:+ newline +:+ e))
    end;
  mret (config, observability).

(** [start_program] up to the wait: [None] if transactions were replayed.
    [raw_args] are the arguments as given, [c] what they parse to. *)
Definition launch (raw_args : list string) (c : Cli) (identifier : Prelude.result unit string) (disk : DiskState)
    : PM (option Running) :=
  for_each (λ warning, say (ShWarn warning)) (deprecated_config_option raw_args);;
  (if default false (cli_silent c) then on_shell (set_output_mode QuietOutput) else mret tt);;
  capture (on_world (track_event "node_started"
                       (props_insert "params" (Some (PropNested (into_telemetry_props c))) props_new)));;
  configured ← configure c;
  let '(config, observability) := configured in
  (match default Run (cli_command c) with
   | Run => if tc_offline config then say (ShWarn OFFLINE_WARNING) else mret tt
   | _ => mret tt
   end);;
  prepared ← step (prepare_network (cli_command c) config);
  created ← on_world (create_node (cli_debug_text c) identifier disk prepared.1);
  match run_node (cr_executor created) (cr_sidecar created) prepared.1 (cr_node created) with
  | Ret Replayed _ => mret None
  | Ret (Start.Serving servers config dumper) node =>
      printing (config_print config prepared.2);;
      mret (Some (mkRunning (cr_executor created) node (cr_sidecar created) (cr_l1_tasks created)
                    servers config dumper observability))
  | Throw e _ => throw e
  | Panic msg => panic msg
  | Deadlock => deadlock
  end.

(** How the wait ends *)
Inductive Stopped :=
| ShutdownSignal
| ServerStopped
| ServiceStopped (result : Prelude.result unit string).

Definition wind_up (stopped : Stopped) : PM unit :=
  match stopped with
  | ServiceStopped (Err e) => throw (StartGeneric e)
  | _ => mret tt
  end.

(** [start_program]; [wait] says how the running program ends. *)
Definition start_program (wait : Running → Stopped) (raw_args : list string) (c : Cli)
    (identifier : Prelude.result unit string) (disk : DiskState) : PM unit :=
  launched ← launch raw_args c identifier disk;
  match launched with
  | Some running => wind_up (wait running)
  | None => mret tt
  end.

(** ** What a program that runs serves *)
Lemma step_Ret {A} (m : M unit StartError A) s a s' : step m s = Ret a s' → m tt = Ret a tt ∧ s' = s.
Proof. unfold step, zoom. destruct (m tt) as [x []| | |]; try done. by intros [= <- <-]. Qed.

Lemma on_world_Ret {E A} (m : M W E A) s a s' :
  on_world m s = Ret a s' → ∃ w, m (pg_world s) = Ret a w ∧ s' = mkProgram (pg_shell s) w.
Proof. unfold on_world, zoom. destruct (m (pg_world s)); try done. intros [= <- <-]. eauto. Qed.

(** The steps of a launch that ends with a running program *)
Record launched (c : Cli) (identifier : Prelude.result unit string) (disk : DiskState) (r : Running)
    (t : TestNodeConfig) (p : Prepared (Client := Client)) (cr : Created) : Prop := {
  la_configured : into_test_node_config (S := unit) c tt = Ret t tt;
  la_resolved : resolve (default Run (cli_command c)) t tt = Ret p tt;
  la_create : ∃ w w', create_node (cli_debug_text c) identifier disk p w = Ret cr w';
  la_run : run_node (rp_executor r) (rp_sidecar r) p (cr_node cr) =
    Ret (Start.Serving (rp_servers r) (rp_config r) (rp_dumper r)) (rp_node r);
  la_executor : cr_executor cr = rp_executor r;
  la_sidecar : cr_sidecar cr = rp_sidecar r;
  la_tasks : cr_l1_tasks cr = rp_l1_tasks r;
}.

Lemma configure_Ret c s t o s' :
  configure c s = Ret (t, o) s' → into_test_node_config (S := unit) c tt = Ret t tt.
Proof.
  unfold configure. intros (t' & s1 & [Ht ->]%step_Ret & ([] & s2 & _ & ([] & s3 & _ & (o' & s4 & _ & [= -> _ _])%bind_Ret)%bind_Ret)%bind_Ret)%bind_Ret.
  by apply map_err_Ret in Ht.
Qed.

Lemma launch_Ret raw_args c identifier disk s r s' :
  launch raw_args c identifier disk s = Ret (Some r) s' → ∃ t p cr, launched c identifier disk r t p cr.
Proof.
  unfold launch.
  intros ([] & s1 & _ & ([] & s2 & _ & (tracked & s3 & _ & ([t o] & s4 & Ht%configure_Ret & H)%bind_Ret)%bind_Ret)%bind_Ret)%bind_Ret.
  apply bind_Ret in H as ([] & s5 & _ & ([p info] & s6 & [Hp ->]%step_Ret & (cr & s7 & (w' & Hc & ->)%on_world_Ret & H)%bind_Ret)%bind_Ret).
  unfold prepare_network in Hp. apply bind_Ret in Hp as (p' & u & Hp & ([] & u1 & _ & (info' & u2 & _ & [= -> -> _])%bind_Ret)%bind_Ret).
  cbn [fst snd] in *. destruct (run_node _ _ p (cr_node cr)) as [[|servers t' d] n| | |] eqn:Hr; try done.
  apply bind_Ret in H as ([] & s8 & _ & [= <- <-]).
  exists t, p, cr. destruct u. constructor; eauto.
Qed.

(** A server of the running program: it has the node and the log filter that the
    launch ended with. *)
Definition server_of (r : Running) (sv : Server (Client := Client) (W := W)) : Prop :=
  sv_node sv = rp_node r ∧ sv_observability sv = Some (rp_observability r).

Section Launch.
Context {WF : WellFormedArtifacts} {EL : EraLaws}.

(** The options that the launch leaves as they are *)
Lemma filled_other {A} (f : TestNodeConfig → A) c c' l1 l2 pub price limit chain :
  filled c c' l1 l2 pub price limit chain → (∀ x, f (unfilled x) = f x) → f c' = f c.
Proof. intros Hf Hu. rewrite <-(Hu c'), <-(Hu c). by rewrite (fi_rest _ _ _ _ _ _ _ _ Hf). Qed.

(** The options of the arguments that the node itself is not changed by *)
Record plain_start (c : Cli) : Prop := {
  pl_balance : is_u64 (cli_balance c);
  pl_evm : cli_evm_interpreter c = false;
  pl_override : cli_override_bytecodes_dir c = None;
  pl_load_state : cli_load_state c = None;
  pl_state : cli_state c = None;
  pl_boojum : bg_use_boojum (cli_boojum_group c) = false;
}.

(** The configuration of a plain launch *)
Lemma launched_config c identifier disk r t p cr :
  plain_start c → launched c identifier disk r t p cr →
  tc_use_evm_interpreter (pr_config p) = false ∧ tc_override_bytecodes_dir (pr_config p) = None ∧
  tc_load_state (pr_config p) = None ∧ tc_state (pr_config p) = None ∧
  use_boojum_os (tc_boojum (pr_config p)) = false ∧
  tc_genesis_balance (pr_config p) = cli_balance c * 10 ^ 18 ∧
  tc_host (pr_config p) = match cli_host c with [] => [LOCALHOST] | h => h end ∧
  tc_l1_config (pr_config p) = l1_config_of (cli_l1_group c) ∧
  (∀ id, cli_chain_id c = Some id → tc_chain_id (pr_config p) = Some id) ∧
  (default Run (cli_command c) = Run → pr_fork_client p = None).
Proof.
  intros [Hb Hevm Hov Hload Hst Hboo] L.
  pose proof (into_config_outcome c tt Hb) as Ho. rewrite (la_configured _ _ _ _ _ _ _ L) in Ho. destruct Ho as (_ & Hc & _).
  pose proof (resolve_resolved _ _ _ _ _ (la_resolved _ _ _ _ _ _ _ L)) as Hres.
  destruct (resolved_filled _ _ _ Hres) as (l1 & l2 & pub & price & limit & chain & Hf).
  pose proof (λ A (f : TestNodeConfig → A), filled_other f _ _ _ _ _ _ _ _ Hf) as Hsame.
  split_and!.
  - rewrite (Hsame _ tc_use_evm_interpreter) by done. by rewrite (cd_evm _ _ Hc).
  - rewrite (Hsame _ tc_override_bytecodes_dir) by done. by rewrite (cd_override _ _ Hc).
  - rewrite (Hsame _ tc_load_state) by done. by rewrite (cd_load_state _ _ Hc).
  - rewrite (Hsame _ tc_state) by done. by rewrite (cd_state _ _ Hc).
  - rewrite (Hsame _ tc_boojum) by done. by rewrite (cd_boojum _ _ Hc).
  - rewrite (Hsame _ tc_genesis_balance) by done. by rewrite (cd_balance _ _ Hc).
  - rewrite (Hsame _ tc_host) by done. by rewrite (cd_host _ _ Hc).
  - rewrite (Hsame _ tc_l1_config) by done. by rewrite (cd_l1 _ _ Hc).
  - intros id Hid. by rewrite (fi_chain_id _ _ _ _ _ _ _ _ Hf), (cd_chain_id _ _ Hc), Hid.
  - intros Hrun. rewrite Hrun in Hres. apply Hres.
Qed.

(** The node that a plain launch ends with *)
Lemma launched_node c identifier disk r t p cr :
  plain_start c → launched c identifier disk r t p cr →
  let n := nd_inner (rp_node r) in
  storage_key_layout n = ZkEra ∧
  (∀ a, a ∈ rich_accounts_of (rp_config r) →
     view (nd_storage (rp_node r)) (storage_key_for_eth_balance a) = Ok (cli_balance c * 10 ^ 18)) ∧
  cfg_chain_id (Inner.config n) = tc_chain_id (pr_config p) ∧
  (default Run (cli_command c) = Run → current_block (blockchain n) = 0) ∧
  (l1_config_of (cli_l1_group c) = None → rp_sidecar r = sidecar_none) ∧
  served (server_builder (rp_executor r) (rp_sidecar r) (pr_config p)) [] (tc_port (pr_config p)) (tc_host (pr_config p))
    (rp_servers r).
Proof.
  intros Hpl L. destruct (launched_config _ _ _ _ _ _ _ Hpl L) as (Hevm & Hov & Hload & Hst & Hboo & Hbal & _ & Hl1 & _ & Hfork).
  destruct (la_create _ _ _ _ _ _ _ L) as (w & w' & Hcr).
  destruct (create_node_Ret _ _ _ _ _ _ _ Hcr) as (provider & version & sc & contracts & _ & _ & _ & _ & _ & _ & Hside & _ & Hn).
  rewrite Hboo in Hn. pose proof (la_run _ _ _ _ _ _ _ L) as Hrun.
  assert (Hlay : storage_key_layout (nd_inner (cr_node cr)) = ZkEra) by (by rewrite Hn).
  destruct (serving_spec _ _ _ _ _ _ _ _ Hevm Hov Hload Hst Hlay Hrun) as (_ & (st & Hs & Hrich & _) & Hserved & Hcfg & _).
  rewrite Hs. split_and!.
  - exact Hlay.
  - intros a Ha. rewrite Hcfg in Ha. rewrite <-Hbal. unfold view. cbn. by rewrite (Hrich a Ha).
  - by rewrite Hn.
  - intros Hr. cbn. rewrite Hn. cbn. unfold fork_details. cbn. rewrite (Hfork Hr). cbn.
    by destruct (tc_genesis (pr_config p)).
  - intros Hno. rewrite <-(la_sidecar _ _ _ _ _ _ _ L). unfold l1_sidecar in Hside. rewrite Hl1, Hno in Hside. by injection Hside.
  - done.
Qed.

Lemma served_servers builder bound port hosts servers :
  served builder bound port hosts servers →
  fst ∘ local_addr <$> servers = hosts ∧
  ∀ server, server ∈ servers → ∃ addr, built builder addr server.
Proof.
  revert bound port servers. induction hosts as [|h hosts IH]; intros bound port [|server servers]; cbn [served]; try done.
  { intros _. split; [done|]. by intros server []%elem_of_nil. }
  intros (q & Hb & _ & Hs). destruct (IH _ _ _ Hs) as [H1 H2]. split.
  - cbn [fmap list_fmap]. f_equal; [|exact H1]. cbn. by rewrite (proj1 Hb).
  - intros x [->|Hx]%elem_of_cons; eauto.
Qed.

(** Requests that read the node *)
Lemma balance_answer exec sidecar (sv : Server) a v :
  storage_key_layout (nd_inner (sv_node sv)) = ZkEra →
  view (nd_storage (sv_node sv)) (storage_key_for_eth_balance a) = Ok v →
  ∃ sv', RpcServer.handle exec sidecar (EthNamespace (eth_get_balance a None)) sv = Ret v sv'.
Proof.
  intros Hlay Hv. destruct (read_value_alt_run _ _ _ Hv) as (n & Hr & _).
  exists (set_sv_node n sv). cbn [RpcServer.handle eth_namespace]. unfold on_node, zoom, map_err, get_balance_impl.
  erewrite bind_run; [by rewrite Hr|]. unfold layout_key. erewrite bind_run; [|reflexivity]. by rewrite Hlay.
Qed.

(** C8: a program that was launched serves the network it was asked for.  With
    arguments that neither enable the EVM interpreter nor load or override
    state, every server of the running program answers: the balance of each rich
    account is the one of the arguments, the chain id is the one of the
    arguments, a fresh network is at block 0, and without an L1 the batches
    cannot be committed.  There is one server for each host, in order, with the
    methods of all namespaces. *)
Theorem launch_spec (raw_args : list string) (c : Cli) (identifier : Prelude.result unit string) (disk : DiskState)
    (s s' : ProgramState) (r : Running) (sv : Server) :
  plain_start c → launch raw_args c identifier disk s = Ret (Some r) s' → server_of r sv →
  let request {A} (m : RpcMethod A) := RpcServer.handle (rp_executor r) (rp_sidecar r) m sv in
  (∀ a, a ∈ rich_accounts_of (rp_config r) →
     ∃ sv', request (EthNamespace (eth_get_balance a None)) = Ret (cli_balance c * 10 ^ 18) sv') ∧
  (∀ id, cli_chain_id c = Some id → request (EthNamespace eth_chain_id) = Ret id sv) ∧
  (default Run (cli_command c) = Run → request (EthNamespace eth_get_block_number) = Ret 0 sv) ∧
  (∀ n, l1_config_of (cli_l1_group c) = None →
     request (AnvilZksNamespace (zks_commit_batch n)) =
       Throw (Object (anyhow_rpc "cannot commit a batch as there is no L1 configured")) sv) ∧
  fst ∘ local_addr <$> rp_servers r = match cli_host c with [] => [LOCALHOST] | h => h end ∧
  (∀ server name registered, server ∈ rp_servers r →
     ns_rpc server !! name = Some registered ↔ ∃ m, m ∈ namespaces ∧ m !! name = Some registered).
Proof.
  intros Hpl (t & p & cr & L)%launch_Ret (Hnode & _) request.
  destruct (launched_config _ _ _ _ _ _ _ Hpl L) as (_ & _ & _ & _ & _ & _ & Hhost & _ & Hchain & _).
  destruct (launched_node _ _ _ _ _ _ _ Hpl L) as (Hlay & Hview & Hid & Hblock & Hside & Hserved).
  rewrite <-Hnode in Hlay, Hview, Hid, Hblock.
  split_and!.
  - intros a Ha. by apply balance_answer; [|apply Hview].
  - intros id Hc. destruct sv. cbn in *. unfold on_node, zoom, map_err, get_chain_id, gets. cbn. by rewrite Hid, (Hchain id Hc).
  - intros Hr. destruct sv. cbn in *. unfold on_node, zoom, map_err, get_block_number_impl, gets. cbn. by rewrite (Hblock Hr).
  - intros n Hno. unfold request. rewrite (Hside Hno). by destruct sv as [? ? ? []].
  - by rewrite (proj1 (served_servers _ _ _ _ _ Hserved)).
  - intros server name registered Hin. by destruct (proj2 (served_servers _ _ _ _ _ Hserved) _ Hin) as (addr & _ & Hm & _).
Qed.
End Launch.

(** ** A silent program *)

(** What was written so far *)
Definition streams (s : ProgramState) : list string * list string :=
  let shell := get_shell (pg_shell s) in (sh_stdout shell, sh_stderr shell).
Definition silent (s : ProgramState) : Prop := quiet (get_shell (pg_shell s)) = true.

(** A part that keeps a quiet shell quiet and writes nothing to it *)
Definition writes_nothing {E A} (m : M ProgramState E A) : Prop := ∀ s,
  silent s →
  match m s with
  | Ret _ s' | Throw _ s' => silent s' ∧ streams s' = streams s
  | Panic _ | Deadlock => True
  end.

Lemma nothing_ret {E A} (a : A) : writes_nothing (E := E) (mret a).
Proof. by intros s Hs. Qed.
Lemma nothing_throw {E A} (e : E) : writes_nothing (A := A) (throw e).
Proof. by intros s Hs. Qed.
Lemma nothing_bind {E A B} (m : M ProgramState E A) (f : A → M ProgramState E B) :
  writes_nothing m → (∀ a, writes_nothing (f a)) → writes_nothing (m ≫= f).
Proof.
  intros Hm Hf s Hs. specialize (Hm s Hs). unfold mbind, M_bind. destruct (m s) as [a s1| | |]; try done.
  destruct Hm as [Hs1 Hstr]. specialize (Hf a s1 Hs1). rewrite <-Hstr. exact Hf.
Qed.
Lemma nothing_say m : is_error m = false → writes_nothing (say m).
Proof.
  intros Hm s Hs. unfold silent in Hs. unfold say, modify, silent, streams, emit. cbn [pg_shell].
  destruct m; try done; cbn [get_shell default from_option id]; unfold print_out, println_out, print_err, println_err, warn; by rewrite Hs.
Qed.
Lemma nothing_step {A} (m : M unit StartError A) : writes_nothing (step m).
Proof. intros s Hs. unfold step, zoom. by destruct (m tt). Qed.
Lemma nothing_world {E A} (m : M W E A) : writes_nothing (on_world m).
Proof. intros s Hs. unfold on_world, zoom. by destruct (m (pg_world s)). Qed.
Lemma nothing_capture {E E' A} (m : M ProgramState E A) : writes_nothing m → writes_nothing (capture (E' := E') m).
Proof. intros Hm s Hs. specialize (Hm s Hs). unfold capture. by destruct (m s). Qed.
Lemma nothing_for_each {E A} (f : A → M ProgramState E unit) l :
  (∀ a, writes_nothing (f a)) → writes_nothing (for_each f l).
Proof. intros Hf. induction l as [|a l IH]; cbn [for_each]; [apply nothing_ret|]. by apply nothing_bind. Qed.
Lemma nothing_printing m : writes_nothing (printing m).
Proof.
  intros s Hs. unfold printing. destruct (m _) as [? console| | |]; try done.
  apply nothing_for_each; [|done]. intros line. by apply nothing_say.
Qed.
#[local] Hint Resolve nothing_ret nothing_throw nothing_bind nothing_say nothing_step nothing_world nothing_capture
  nothing_printing : silence.

(** The shell that a configuration sets is quiet if the arguments say so. *)
Lemma nothing_configure c : is_u64 (cli_balance c) → cli_silent c = Some true → writes_nothing (configure c).
Proof.
  intros Hb Hq s Hs. unfold configure. pose proof (into_config_outcome c tt Hb) as Ho. unfold mbind at 1, M_bind at 1.
  unfold step at 1, zoom, map_err. destruct (into_test_node_config c tt) as [t []| | |]; try done.
  destruct Ho as (_ & Hc & _). pose proof (cd_silent _ _ Hc) as Hsil. rewrite Hq in Hsil. cbn in Hsil. rewrite Hsil.
  revert s Hs. change (writes_nothing (on_shell (λ s, set_output_mode QuietOutput (set_verbosity (tc_verbosity t) s));;
    step (open_log_file t);;
    observability ← match observability_init ["anvil_zksync"] (level_of_log (tc_log_level t)) true with
      | Ok o => mret o
      | Err e => throw (StartGeneric (OBSERVABILITY_FAILED +:+ newline +:+ e))
      end;
    mret (t, observability))).
  apply nothing_bind; [by intros s Hs|]. intros []. apply nothing_bind; [apply nothing_step|]. intros [].
  apply nothing_bind; [by destruct (observability_init _ _ _); auto with silence|auto with silence].
Qed.

(** With [--silent] the launch writes nothing to the terminal but the warnings
    about deprecated options, which come before the arguments are looked at. *)
Theorem silent_launch (raw_args : list string) (c : Cli) (identifier : Prelude.result unit string) (disk : DiskState)
    (s : ProgramState) :
  is_u64 (cli_balance c) → cli_silent c = Some true →
  let warned := foldl (λ shell w, emit shell (ShWarn w)) (pg_shell s) (deprecated_config_option raw_args) in
  match launch raw_args c identifier disk s with
  | Ret _ s' | Throw _ s' => silent s' ∧ streams s' = streams (mkProgram warned (pg_world s))
  | Panic _ | Deadlock => True
  end.
Proof.
  intros Hb Hq warned. unfold launch.
  assert (Hw : ∀ l sh, for_each (λ warning, say (ShWarn warning)) l (mkProgram sh (pg_world s)) =
    Ret tt (mkProgram (foldl (λ shell w, emit shell (ShWarn w)) sh l) (pg_world s))).
  { induction l as [|w l IH]; intros sh; [done|]. cbn [for_each foldl]. erewrite bind_run by reflexivity. by rewrite IH. }
  destruct s as [sh w]. cbn [pg_world pg_shell] in *. erewrite bind_run by apply Hw. rewrite Hq. cbn [default].
  erewrite bind_run by reflexivity. cbn [pg_shell pg_world].
  match goal with |- match ?m ?s1 with _ => _ end => enough (Hm : writes_nothing m) by exact (Hm s1 eq_refl) end.
  apply nothing_bind; [auto with silence|intros tracked]. apply nothing_bind; [by apply nothing_configure|intros [t o]].
  apply nothing_bind; [destruct (default Run _); [destruct (tc_offline t)|..]; auto with silence|intros []].
  apply nothing_bind; [auto with silence|intros prepared]. apply nothing_bind; [auto with silence|intros cr].
  destruct (run_node _ _ _ _) as [[|servers t' d] n| | |]; [auto with silence| |auto with silence|by intros ? ?..].
  apply nothing_bind; auto with silence.
Qed.

(** ** The whole program

    [main] around [start_program]; what an error is told as, and the telemetry,
    are arguments. *)
Section Whole.
Context (message : StartError → string) (init_telemetry : M W string unit) (track_error : StartError → M W string unit).

Definition program (wait : Running → Stopped) (raw_args : list string) (c : Cli) (identifier : Prelude.result unit string)
    (disk : DiskState) : PM unit :=
  main StartGeneric message (on_world init_telemetry) (λ e, on_world (track_error e))
    (λ text s, mkProgram (emit (pg_shell s) (ShEprintln text)) (pg_world s))
    (start_program wait raw_args c identifier disk).

(** A silent program that cannot start, or whose services fail, ends with the
    error and writes nothing to the terminal itself. *)
Theorem silent_failure wait raw_args c identifier disk (s : ProgramState) e s' :
  is_u64 (cli_balance c) → cli_silent c = Some true → deprecated_config_option raw_args = [] →
  program wait raw_args c identifier disk s = Throw e s' →
  streams s' = streams s.
Proof.
  intros Hb Hq Hd. unfold program, main. unfold mbind at 1, M_bind at 1, map_err, on_world at 1, zoom.
  destruct (init_telemetry (pg_world s)) as [[] w|inner w| |]; try done; [|by intros [= _ <-]].
  set (s1 := mkProgram (pg_shell s) w).
  assert (Hstart : match start_program wait raw_args c identifier disk s1 with
    | Ret _ s2 | Throw _ s2 => silent s2 ∧ streams s2 = streams s | _ => True end).
  { pose proof (silent_launch raw_args c identifier disk s1 Hb Hq) as Hl. rewrite Hd in Hl. cbv zeta in Hl.
    cbn [foldl] in Hl. unfold start_program, mbind, M_bind.
    destruct (launch raw_args c identifier disk s1) as [[r|] s2|e' s2| |]; try done.
    by destruct (wait r) as [| |[]]. }
  unfold mbind, M_bind, capture. destruct (start_program wait raw_args c identifier disk s1) as [[] s2|e' s2| |]; try done.
  destruct Hstart as [Hsil Hstr]. pose proof (nothing_capture (E' := StartError) _ (nothing_world (track_error e')) s2 Hsil) as Ht.
  unfold capture in Ht. destruct (on_world (track_error e') s2) as [[] s3|inner s3| |]; try done; destruct Ht as [Hs3 Hstr3];
    intros [= <- <-]; rewrite <-Hstr, <-Hstr3; exact (proj2 (nothing_say (ShEprintln (message e')) eq_refl s3 Hs3)).
Qed.
End Whole.
End Program.

(** ** A sample program *)
Module SampleProgram.
Export SampleStart SampleReports SampleLogging.
#[export] Existing Instances SampleRpc.rpc_api SampleEstim.estimation_api SampleEstim.sandbox.

#[export] Instance config_text : ConfigText := {|
  VERSION_MESSAGE := "0.6";
  signer_display _ := "0x";
  signer_debug _ := "0x";
  signer_key _ := "00";
  f64_display _ := "1";
  f32_display _ := "1";
  banner_color s := s;
  create_description _ := Ok tt;
  write_description _ _ := Ok tt;
  fee_config_json _ := JObject [];
|}.

Definition track (event : string) (props : TelemetryProps) : M SampleL1.World string unit := throw "no network".
Definition empty_program : ProgramState (W := SampleL1.World) := mkProgram None world.

Abbreviation sample_launch c := (launch (R := SampleRemote.remote) track ["--debug"] c (Ok tt) empty_disk empty_program).

Definition runs (o : outcome (ProgramState (W := SampleL1.World)) StartError (option (Running (Client := unit) (W := SampleL1.World)))) : bool :=
  match o with Ret (Some _) _ => true | _ => false end.
Lemma runs_Ret o : runs o = true → ∃ r s, o = Ret (Some r) s.
Proof. destruct o as [[r|] s| | |]; try discriminate. by exists r, s. Qed.

Definition sample_server (r : Running (Client := unit) (W := SampleL1.World)) : Server (Client := unit) (W := SampleL1.World) :=
  mkServer (rp_node r) (mkShown StorageNone VMNone GasNone false) (Some (rp_observability r))
    (mkL1Tasks SampleL1.generator world (L1Sender_new SampleL1.zk SampleL1.genesis) true).

(** The first of the rich wallets *)
Definition wallet : Address := 310456771025820669616026695872740475403597889609.

Lemma wallet_rich c : wallet ∈ rich_accounts_of c.
Proof. do 2 (apply elem_of_app; right). apply (bool_decide_unpack _). vm_compute. exact I. Qed.

Lemma sample_plain : plain_start offline_args.
Proof. constructor; try reflexivity. unfold is_u64, u64_max. cbn. lia. Qed.

Lemma sample_runs : runs (sample_launch offline_args) = true.
Proof. vm_compute. reflexivity. Qed.

Lemma launch_spec_witness :
  ∃ r s sv, sample_launch offline_args = Ret (Some r) s ∧
    RpcServer.handle (rp_executor r) (rp_sidecar r) (EthNamespace (eth_get_balance wallet None)) (sample_server r) =
      Ret (10000 * 10 ^ 18) sv ∧
    fst ∘ local_addr <$> rp_servers r = ["0.0.0.0"].
Proof.
  destruct (runs_Ret _ sample_runs) as (r & s & Hr).
  assert (Hs : server_of r (sample_server r)) by (split; reflexivity).
  destruct (launch_spec track ["--debug"] offline_args (Ok tt) empty_disk empty_program s r (sample_server r) sample_plain Hr Hs)
    as (Hbal & _ & _ & _ & Hhost & _).
  destruct (Hbal wallet) as [sv Hsv]; [apply wallet_rich|].
  exists r, s, sv. split; [exact Hr|]. split; [exact Hsv|exact Hhost].
Defined.

(** What the sample has told its user: the deprecated option, then the mode. *)
Example sample_output :
  match sample_launch offline_args with
  | Ret (Some r) s =>
      filter (λ t, bool_decide (t = OFFLINE_WARNING) = true) (sh_stderr (get_shell (pg_shell s))) = [OFFLINE_WARNING] ∧
      local_addr <$> rp_servers r = [("0.0.0.0", 40000)]
  | _ => False
  end.
Proof. vm_compute. split; reflexivity. Qed.
End SampleProgram.
