(* ===== verification/Tasks.v ===== *)
(** * The tasks of the node and how they interleave

    The executor ([NodeExecutor::run]), its handle ([NodeExecutorHandle]), the
    sealer ([BlockSealer::run]) and the requests of the API run as tasks of their
    own.  They share the transaction pool behind its lock, the node behind its
    lock, and a channel of commands.  The other files take a request for one
    operation; here is the system of tasks as a step relation, in which any task
    may move next, and what holds of every run of it.

    A step is what a task does between two points at which another can come in:
    one access to the pool or to the node under its lock, one message into or out
    of the channel.  The executor holds the lock of the node while it handles a
    command, so that this is one step.

    Which task is woken when is the business of the runtime: a step that is
    possible may be taken.  A command that panics has no step. *)
From S2P Require Import Prelude Types Utils Filters Impersonate Time Pool Cache Fork Storage.
From S2P Require Import FeeModel Sealer Blockchain Inner Sealing VmRunner Running Executor.
Local Open Scope Z_scope.

Create Rewrite HintDb reply.

(** [mpsc::channel(128)] *)
Definition COMMAND_CAPACITY : nat := 128.

Inductive AnyCommand :=
| any_command {A : Type} (c : Command A).

(** The transactions that a command brings to the node *)
Definition command_txs (c : AnyCommand) : list Transaction :=
  match c with
  | any_command (SealBlock tx_batch) => txs tx_batch
  | any_command (SealBlocks tx_batches _) => mjoin (txs <$> tx_batches)
  | any_command _ => []
  end.

(** How a request for a command ends: with the answer to it, or because the
    executor is gone, before or after the command was sent *)
Inductive Answer :=
| Answered {A : Type} (c : Command A) (a : A)
| Refused
| NoResponse.

(** [mine_block] and [mine_blocks] *)
Inductive Mining := MineOne | MineMany (interval : Z).

Definition mining_command (m : Mining) (taken : list TxBatch) : AnyCommand :=
  match m with
  | MineOne => any_command (SealBlock (default (mkTxBatch false []) (head taken)))
  | MineMany interval => any_command (SealBlocks taken interval)
  end.

(** Where a request is: taking batches from the pool (how many more, and how
    large), at [command_sender.send(..)], at [response_receiver.await], done.
    A request that does not wait for an answer is done once it has sent.  A request
    is abandoned when its caller goes away before it is done. *)
Inductive Request :=
| Collecting (m : Mining) (max_transactions left : nat) (taken : list TxBatch)
| Sending (c : AnyCommand) (waits : bool)
| Waiting (c : AnyCommand)
| Done (a : option Answer)
| Abandoned.

Definition finished (r : Request) : bool :=
  match r with Done _ | Abandoned => true | Collecting _ _ _ _ | Sending _ _ | Waiting _ => false end.

(** The transactions that a request has in its hands *)
Definition request_txs (r : Request) : list Transaction :=
  match r with
  | Collecting _ _ _ taken => mjoin (txs <$> taken)
  | Sending c _ => command_txs c
  | Waiting _ | Done _ | Abandoned => []
  end.

(** Where the sealer is: polling, at [node_handle.seal_block(..)], or ended *)
Inductive SealerTask := Polling | Handing (tx_batch : TxBatch) | SealerEnded.

Section System.
Context {TA : TransactionApi} {FA : FeeApi} {KA : KeyApi} {CA : ChainApi} {BA : BlockApi} {RA : VmResultApi}.
Context {CH : Channel} {TI : Ticker}.
Context {Client : Type} {R : Remote (Client := Client)}.
Context {VM : VmApi (StorageState (Client := Client))}.
Context (exec : NodeExecutor).
Abbreviation Node := (InMemoryNodeInner (Client := Client)).

(** A queued command has the number of the request that waits for its answer. *)
Record Tasks := mkTasks {
  ts_pool : TxPool;
  ts_mode : BlockSealerMode;
  ts_sealer : SealerTask;
  ts_queue : list (option nat * AnyCommand);
  ts_executor : ExecutorTask (Client := Client);
  ts_requests : list Request;
}.

Definition node_of (s : Tasks) : Node := task_node (ts_executor s).
Definition is_running (s : Tasks) : bool := task_running (ts_executor s).
Definition room (s : Tasks) : Prop := (length (ts_queue s) < COMMAND_CAPACITY)%nat.

Definition with_pool (p : TxPool) (s : Tasks) : Tasks :=
  mkTasks p (ts_mode s) (ts_sealer s) (ts_queue s) (ts_executor s) (ts_requests s).
Definition with_mode (m : BlockSealerMode) (s : Tasks) : Tasks :=
  mkTasks (ts_pool s) m (ts_sealer s) (ts_queue s) (ts_executor s) (ts_requests s).
Definition with_sealer (t : SealerTask) (s : Tasks) : Tasks :=
  mkTasks (ts_pool s) (ts_mode s) t (ts_queue s) (ts_executor s) (ts_requests s).
Definition with_queue (q : list (option nat * AnyCommand)) (s : Tasks) : Tasks :=
  mkTasks (ts_pool s) (ts_mode s) (ts_sealer s) q (ts_executor s) (ts_requests s).
Definition with_task (t : ExecutorTask) (s : Tasks) : Tasks :=
  mkTasks (ts_pool s) (ts_mode s) (ts_sealer s) (ts_queue s) t (ts_requests s).
Definition with_requests (l : list Request) (s : Tasks) : Tasks :=
  mkTasks (ts_pool s) (ts_mode s) (ts_sealer s) (ts_queue s) (ts_executor s) l.
Definition with_request (i : nat) (r : Request) (s : Tasks) : Tasks := with_requests (<[i := r]> (ts_requests s)) s.
Definition new_request (r : Request) (s : Tasks) : Tasks := with_requests (ts_requests s ++ [r]) s.
Definition send (entry : option nat * AnyCommand) (s : Tasks) : Tasks := with_queue (ts_queue s ++ [entry]) s.

(** [reply_sender.send(result)]: the answer goes to the request that waits for it,
    if there is one and it still waits. *)
Definition reply (to : option nat) (a : Answer) (s : Tasks) : Tasks :=
  match to with
  | Some i =>
      match ts_requests s !! i with
      | Some (Waiting _) => with_request i (Done (Some a)) s
      | _ => s
      end
  | None => s
  end.

(** What happened in a step.  [Asked] is a request that has only come in, [Idle]
    a poll of the sealer for nothing, and [Silent] what only the task itself sees. *)
Inductive Event :=
| Submitted (l : list Transaction)
| Dropped (l : list Transaction)
| GivenUp (l : list Transaction)
| Brought (c : AnyCommand)
| Enqueued (entry : option nat * AnyCommand)
| Handled (to : option nat) (c : AnyCommand) (a : Answer)
| Stopped (to : option nat) (c : AnyCommand) (lost : list (option nat * AnyCommand))
| Lost (l : list Transaction)
| Direct (n n' : Node)
| Asked
| Idle
| Silent.

(** What comes from outside: transactions, from requests and from the watcher of
    the L1, and orders to drop some ([clear] is to drop all); a request that reads
    or changes the node itself, under its lock; [BlockSealerState::set_mode]; and a
    caller that goes away *)
Inductive outside_step : Tasks → Event → Tasks → Prop :=
| step_submit l s :
    outside_step s (Submitted l) (with_pool (add_txs l (ts_pool s)) s)
| step_drop f l p s :
    drop_transactions f (ts_pool s) = (l, p) → outside_step s (Dropped l) (with_pool p s)
| step_direct {A : Type} (m : M Node NodeError A) a n' s :
    m (node_of s) = Ret a n' →
    outside_step s (Direct (node_of s) n') (with_task (mkTask n' (is_running s)) s)
| step_mode m s : outside_step s Asked (with_mode m s)
| step_cancel i r s :
    ts_requests s !! i = Some r → finished r = false →
    outside_step s (GivenUp (request_txs r)) (with_request i Abandoned s).

(** [BlockSealer::run]: it polls until a batch is ready, and hands that to the
    executor; an error ends it. *)
Inductive sealer_step : Tasks → Event → Tasks → Prop :=
| step_poll b m p s :
    ts_sealer s = Polling → mode_poll (impersonation (node_of s)) (ts_mode s) (ts_pool s) = (Ready b, m, p) →
    sealer_step s Silent (with_sealer (Handing b) (with_mode m (with_pool p s)))
| step_poll_pending m p s :
    ts_sealer s = Polling → mode_poll (impersonation (node_of s)) (ts_mode s) (ts_pool s) = (NotReady, m, p) →
    sealer_step s Idle (with_mode m (with_pool p s))
| step_hand b s :
    ts_sealer s = Handing b → is_running s = true → room s →
    sealer_step s (Enqueued (None, any_command (SealBlock b)))
      (with_sealer Polling (send (None, any_command (SealBlock b)) s))
| step_hand_fails b s :
    ts_sealer s = Handing b → is_running s = false → sealer_step s (Lost (txs b)) (with_sealer SealerEnded s).

(** [mine_block] and [mine_blocks], up to the command: the pool is locked for one
    batch at a time. *)
Inductive mining_step : Tasks → Event → Tasks → Prop :=
| step_mine_block s :
    mining_step s Asked (new_request (Collecting MineOne (cfg_max_transactions (config (node_of s))) 1 []) s)
| step_mine_blocks num_blocks interval s :
    num_blocks ≠ 0%nat → num_blocks = 1%nat ∨ interval ≠ 0 →
    mining_step s Asked
      (new_request (Collecting (MineMany interval) (cfg_max_transactions (config (node_of s))) num_blocks []) s)
| step_collect i m max left taken b p s :
    ts_requests s !! i = Some (Collecting m max (S left) taken) →
    take_uniform (impersonation (node_of s)) max (ts_pool s) = (b, p) →
    mining_step s Silent
      (with_request i (Collecting m max left (taken ++ [default (mkTxBatch false []) b])) (with_pool p s))
| step_collected i m max taken s :
    ts_requests s !! i = Some (Collecting m max 0 taken) →
    mining_step s Silent (with_request i (Sending (mining_command m taken) true) s).

(** [execute_with_response] and [execute_without_response] of any command *)
Inductive handle_step : Tasks → Event → Tasks → Prop :=
| step_request c waits s : handle_step s (Brought c) (new_request (Sending c waits) s)
| step_send i c (waits : bool) s :
    ts_requests s !! i = Some (Sending c waits) → is_running s = true → room s →
    let entry := (if waits then Some i else None, c) in
    handle_step s (Enqueued entry) (with_request i (if waits then Waiting c else Done None) (send entry s))
| step_send_fails i c waits s :
    ts_requests s !! i = Some (Sending c waits) → is_running s = false →
    handle_step s (Lost (command_txs c)) (with_request i (Done (Some Refused)) s)
| step_no_response i c s :
    ts_requests s !! i = Some (Waiting c) → is_running s = false →
    handle_step s Silent (with_request i (Done (Some NoResponse)) s).

(** [NodeExecutor::run]: an error ends the loop, and drops the channel. *)
Inductive executor_step : Tasks → Event → Tasks → Prop :=
| step_handle {A : Type} to (c : Command A) a n' q s :
    ts_queue s = (to, any_command c) :: q → is_running s = true → handle exec c (node_of s) = Ret a n' →
    executor_step s (Handled to (any_command c) (Answered c a))
      (reply to (Answered c a) (with_queue q (with_task (mkTask n' true) s)))
| step_stop {A : Type} to (c : Command A) e n' q s :
    ts_queue s = (to, any_command c) :: q → is_running s = true → handle exec c (node_of s) = Throw e n' →
    executor_step s (Stopped to (any_command c) q) (with_queue [] (with_task (mkTask n' false) s)).

(** Any task may move next. *)
Inductive task_step : Tasks → Event → Tasks → Prop :=
| outside s e s' : outside_step s e s' → task_step s e s'
| sealer s e s' : sealer_step s e s' → task_step s e s'
| mining s e s' : mining_step s e s' → task_step s e s'
| requester s e s' : handle_step s e s' → task_step s e s'
| executor s e s' : executor_step s e s' → task_step s e s'.

(** The cases of a step *)
Ltac case_step H := destruct H as [? ? ? H|? ? ? H|? ? ? H|? ? ? H|? ? ? H]; destruct H.

(** A run, with what happened in it *)
Inductive task_run : Tasks → list Event → Tasks → Prop :=
| run_nil s : task_run s [] s
| run_snoc s es s' e s'' : task_run s es s' → task_step s' e s'' → task_run s (es ++ [e]) s''.

(** The system when the program has started *)
Definition starts (s : Tasks) : Prop :=
  pool_inner (ts_pool s) = [] ∧ pool_submission_number (ts_pool s) = 0 ∧ ts_sealer s = Polling ∧
  ts_queue s = [] ∧ is_running s = true ∧ ts_requests s = [].

(** ** The channel and the answers

    The commands in the order in which they were sent, and in the order in which
    the executor received them; what it drops when it ends counts as received. *)
Definition enqueued (es : list Event) : list (option nat * AnyCommand) :=
  es ≫= λ e, match e with Enqueued entry => [entry] | _ => [] end.
Definition received (es : list Event) : list (option nat * AnyCommand) :=
  es ≫= λ e, match e with
             | Handled to c _ => [(to, c)]
             | Stopped to c lost => (to, c) :: lost
             | _ => []
             end.

(** The requests that wait, and some that have been abandoned, are those that have
    a command in the channel. *)
Record channel_inv (s : Tasks) : Prop := {
  ci_bound : (length (ts_queue s) <= COMMAND_CAPACITY)%nat;
  ci_stopped : is_running s = false → ts_queue s = [];
  ci_sealer : ts_sealer s = SealerEnded → is_running s = false;
  ci_waits : ∀ i c, (Some i, c) ∈ ts_queue s →
    ts_requests s !! i = Some (Waiting c) ∨ ts_requests s !! i = Some Abandoned;
  ci_once : NoDup (omap fst (ts_queue s));
  ci_queued : is_running s = true → ∀ i c, ts_requests s !! i = Some (Waiting c) → (Some i, c) ∈ ts_queue s;
}.


Lemma queue_ids (q : list (option nat * AnyCommand)) i : i ∈ omap fst q ↔ ∃ c, (Some i, c) ∈ q.
Proof.
  rewrite list_elem_of_omap. split.
  - intros ([to c] & Hin & Hf). cbn in Hf. subst to. by exists c.
  - intros (c & Hin). by exists (Some i, c).
Qed.

(** A step that changes neither the channel nor who waits. *)
Lemma channel_same s s' :
  channel_inv s → ts_queue s' = ts_queue s → is_running s' = is_running s →
  (ts_sealer s' = SealerEnded → is_running s = false) →
  (∀ i c, ts_requests s' !! i = Some (Waiting c) ↔ ts_requests s !! i = Some (Waiting c)) →
  (∀ i, ts_requests s' !! i = Some Abandoned ↔ ts_requests s !! i = Some Abandoned) →
  channel_inv s'.
Proof.
  intros [Hb Hst Hse Hw Ho Hq] Eq Er Es Erq Era. split; rewrite ?Eq, ?Er; try done.
  - intros i c Hi. rewrite Erq, Era. by apply Hw.
  - intros Hr i c Hi. apply Hq; [done|]. by apply Erq.
Qed.

Lemma lookup_new {A} (l : list A) x y i : x ≠ y → (l ++ [y]) !! i = Some x ↔ l !! i = Some x.
Proof.
  intros Hne. destruct (decide (i < length l)%nat) as [Hi|Hi].
  - by rewrite lookup_app_l.
  - rewrite lookup_app_r by lia. rewrite (lookup_ge_None_2 l i) by lia. split; [|done].
    destruct (i - length l)%nat as [|n]; intros Hl; [injection Hl; congruence|by destruct n].

Qed.

Lemma lookup_changed {A} (l : list A) x y z i j :
  l !! i = Some z → z ≠ x → y ≠ x → <[i := y]> l !! j = Some x ↔ l !! j = Some x.
Proof.
  intros Hz Hzx Hyx. destruct (decide (i = j)) as [<-|Hne].
  - rewrite list_lookup_insert_eq by (by eapply lookup_lt_Some). split; congruence.
  - by rewrite list_lookup_insert_ne.
Qed.

(** Where the answer goes *)
Lemma reply_requests to a s i :
  ts_requests (reply to a s) !! i =
    match ts_requests s !! i with
    | Some (Waiting c) => if decide (to = Some i) then Some (Done (Some a)) else Some (Waiting c)
    | r => r
    end.
Proof.
  destruct to as [j|]; unfold reply; [|by destruct (ts_requests s !! i) as [[]|]].
  destruct (decide (j = i)) as [->|Hne].
  - destruct (ts_requests s !! i) as [[| | | |]|] eqn:E; cbn; try done.
    rewrite decide_True by done. apply list_lookup_insert_eq. by eapply lookup_lt_Some.
  - transitivity (ts_requests s !! i).
    + destruct (ts_requests s !! j) as [[| | | |]|]; try done. cbn. by rewrite list_lookup_insert_ne.
    + destruct (ts_requests s !! i) as [[| | | |]|]; try done. by rewrite decide_False by congruence.
Qed.

Lemma reply_cases to a s :
  reply to a s = s ∨ ∃ i c, ts_requests s !! i = Some (Waiting c) ∧ reply to a s = with_request i (Done (Some a)) s.
Proof.
  destruct to as [i|]; [|by left]. unfold reply. destruct (ts_requests s !! i) as [[| |c| |]|] eqn:E; auto.
  right. by exists i, c.
Qed.
Ltac reply_same := intros; match goal with |- _ (reply ?to ?a ?s) = _ =>
  by destruct (reply_cases to a s) as [-> |(i & c & _ & ->)] end.
Lemma reply_queue to a s : ts_queue (reply to a s) = ts_queue s.
Proof. reply_same. Qed.
Lemma reply_executor to a s : ts_executor (reply to a s) = ts_executor s.
Proof. reply_same. Qed.
Lemma reply_pool to a s : ts_pool (reply to a s) = ts_pool s.
Proof. reply_same. Qed.
Lemma reply_sealer to a s : ts_sealer (reply to a s) = ts_sealer s.
Proof. reply_same. Qed.
Lemma reply_mode to a s : ts_mode (reply to a s) = ts_mode s.
Proof. reply_same. Qed.
#[local] Hint Rewrite reply_queue reply_executor reply_pool reply_sealer reply_mode : reply.
#[local] Arguments reply : simpl never.

(** A command leaves the channel: its request waits no more. *)
Lemma channel_pop s to c q a t :
  channel_inv s → ts_queue s = (to, c) :: q → task_running t = true →
  ts_sealer s ≠ SealerEnded →
  channel_inv (reply to a (with_queue q (with_task t s))).
Proof.
  intros [Hb Hst Hse Hw Ho Hq] E Ht Hne. rewrite E in *.
  assert (∀ i d, (Some i, d) ∈ q → to ≠ Some i) as Hfresh.
  { intros i d Hi ->. cbn in Ho. apply NoDup_cons in Ho as [Hn _]. apply Hn, queue_ids. by exists d. }
  split; unfold is_running; autorewrite with reply; try (cbn in *; lia || congruence || done).
  - intros i d Hi. rewrite !reply_requests. cbn.
    destruct (Hw i d ltac:(by right)) as [-> | ->]; [|by right].
    rewrite decide_False by (by eapply Hfresh). by left.
  - cbn. destruct to; [by apply NoDup_cons in Ho as [_ ?]|done].
  - intros _ i d. rewrite reply_requests. cbn. destruct (ts_requests s !! i) as [[| |d'| |]|] eqn:Ei; try done.
    destruct (decide (to = Some i)) as [|Hto]; [done|]. intros [= <-].
    destruct (is_running s) eqn:Er; [|by specialize (Hst eq_refl)].
    apply (Hq eq_refl) in Ei. apply elem_of_cons in Ei as [Ei|Ei]; [congruence|done].
Qed.

(** A command enters the channel, and its request waits, if it has one. *)
Lemma channel_push s s' to c :
  channel_inv s → is_running s = true → room s →
  ts_queue s' = ts_queue s ++ [(to, c)] → ts_executor s' = ts_executor s → ts_sealer s' ≠ SealerEnded →
  (∀ i, to = Some i → ∀ d, ts_requests s !! i ≠ Some (Waiting d) ∧ ts_requests s !! i ≠ Some Abandoned) →
  (∀ i d, ts_requests s' !! i = Some (Waiting d) ↔ ts_requests s !! i = Some (Waiting d) ∨ to = Some i ∧ d = c) →
  (∀ i, ts_requests s !! i = Some Abandoned → ts_requests s' !! i = Some Abandoned) →
  channel_inv s'.
Proof.
  intros [Hb Hst Hse Hw Ho Hq] Hr Hroom Eq Et Hs Hnew Hreq Hab.
  assert (is_running s' = true) as Hr' by (unfold is_running; by rewrite Et).
  split; rewrite ?Eq, ?Hr'; try done.
  - unfold room in Hroom. rewrite length_app; cbn; lia.
  - intros i d [Hi|Hi]%elem_of_app.
    + destruct (Hw i d Hi); [left; apply Hreq|right]; auto.
    + left. apply Hreq. right. apply list_elem_of_singleton in Hi. split; congruence.
  - rewrite omap_app. destruct to as [i|]; cbn; [|by rewrite app_nil_r].
    apply NoDup_app. split_and!; [done| |apply NoDup_singleton].
    intros j (d & Hj)%queue_ids Hji. apply list_elem_of_singleton in Hji. subst j.
    destruct (Hnew i eq_refl d) as [Hn1 Hn2]. by destruct (Hw i d Hj).
  - intros _ i d [Hi|[-> ->]]%Hreq; apply elem_of_app; [left; by apply Hq|right].
    by apply list_elem_of_singleton.
Qed.

(** The executor is gone, and the channel with it. *)
Lemma channel_gone s : is_running s = false → ts_queue s = [] → channel_inv s.
Proof.
  intros Hr Eq. split; rewrite ?Eq, ?Hr; try done.
  - cbn. lia.
  - intros i c Hi. by apply elem_of_nil in Hi.
  - apply NoDup_nil_2.
Qed.

(** A caller goes away. *)
Lemma channel_cancel s i : channel_inv s → channel_inv (with_request i Abandoned s).
Proof.
  intros [Hb Hst Hse Hw Ho Hq]. split; try done.
  - intros j c Hj. cbn. destruct (Hw j c Hj) as [Hr|Hr];
      (destruct (decide (i = j)) as [->|Hne];
       [right; apply list_lookup_insert_eq; by eapply lookup_lt_Some|rewrite list_lookup_insert_ne by done; auto]).
  - intros Hr j c Hj. cbn in Hj. apply list_lookup_insert_Some in Hj as [(_ & Hj & _)|[_ Hj]]; [done|by apply Hq].
Qed.

Lemma channel_step s e s' : channel_inv s → task_step s e s' → channel_inv s'.
Proof.
  intros H Hstep. pose proof H as [Hb Hst Hse Hw Ho Hq].
  case_step Hstep.
  all: try (eapply channel_same; [exact H|reflexivity|reflexivity|try done; cbn; congruence|intros j d; cbn;
    first [reflexivity|apply lookup_new; congruence|eapply lookup_changed; [eassumption|congruence..]]|intros j; cbn;
    first [reflexivity|apply lookup_new; congruence|eapply lookup_changed; [eassumption|congruence..]]]).
  - by apply channel_cancel.
  - eapply channel_push; [exact H|done..| |done]. intros i d. cbn. intuition congruence.
  - eapply (channel_push s _ _ c H); [done|done|reflexivity|reflexivity|by cbn; intros ?%Hse; congruence| | |].
    + destruct waits; [|done]. intros j [= <-] d. split; congruence.
    + intros j d. cbn. destruct (decide (i = j)) as [<-|Hne].
      * rewrite list_lookup_insert_eq by (by eapply lookup_lt_Some). destruct waits; intuition congruence.
      * rewrite list_lookup_insert_ne by done. destruct waits; intuition congruence.
    + intros j Hj. cbn. rewrite list_lookup_insert_ne; congruence.
  - apply channel_gone; [done|]. by apply Hst.
  - eapply channel_pop; [done|done|done|]. intros ?%Hse; congruence.
  - by apply channel_gone.
Qed.

Lemma starts_channel s : starts s → channel_inv s.
Proof.
  intros (_ & _ & Hs & Hq & Hr & Hreq). split; rewrite ?Hs, ?Hq, ?Hr, ?Hreq; try done.
  - cbn. lia.
  - intros i c Hi. by apply elem_of_nil in Hi.
  - apply NoDup_nil_2.
Qed.

Lemma run_channel s es s' : channel_inv s → task_run s es s' → channel_inv s'.
Proof. intros H Hr. induction Hr; eauto using channel_step. Qed.

(** ** One command after the other

    What the tasks do to the node, as operations that do not overlap: the
    commands through [execute_with_response] of the executor, and what requests do
    to the node themselves. *)
Inductive seq_step : ExecutorTask → Event → ExecutorTask → Prop :=
| seq_handled {A : Type} to (c : Command A) a t t' :
    execute_with_response exec c t = Ret a t' → seq_step t (Handled to (any_command c) (Answered c a)) t'
| seq_stopped {A : Type} to (c : Command A) lost e t t' :
    execute_with_response exec c t = Throw e t' → task_running t' = false →
    seq_step t (Stopped to (any_command c) lost) t'
| seq_direct {A : Type} (m : M Node NodeError A) a n' t :
    m (task_node t) = Ret a n' → seq_step t (Direct (task_node t) n') (mkTask n' (task_running t))
| seq_other e t :
    match e with Handled _ _ _ | Stopped _ _ _ | Direct _ _ => False | _ => True end → seq_step t e t.

Inductive seq_run : ExecutorTask → list Event → ExecutorTask → Prop :=
| seq_nil t : seq_run t [] t
| seq_snoc t es t' e t'' : seq_run t es t' → seq_step t' e t'' → seq_run t (es ++ [e]) t''.

Lemma step_seq s e s' : task_step s e s' → seq_step (ts_executor s) e (ts_executor s').
Proof.
  intros Hstep. case_step Hstep; try by apply seq_other.
  - by eapply (seq_direct m).
  - apply seq_handled. unfold execute_with_response. unfold is_running, node_of in *.
    rewrite H0, H1. by autorewrite with reply.
  - eapply seq_stopped; [|done]. unfold execute_with_response. unfold is_running, node_of in *.
    by rewrite H0, H1.
Qed.

Lemma run_seq s es s' : task_run s es s' → seq_run (ts_executor s) es (ts_executor s').
Proof. induction 1; econstructor; eauto using step_seq. Qed.

Lemma step_fifo s e s' :
  task_step s e s' → ts_queue s ++ enqueued [e] = received [e] ++ ts_queue s'.
Proof.
  intros Hstep. case_step Hstep; cbn; rewrite ?app_nil_r; try done.
  by autorewrite with reply.
Qed.

Lemma run_fifo s es s' : task_run s es s' → ts_queue s ++ enqueued es = received es ++ ts_queue s'.
Proof.
  induction 1 as [|s es s' e s'' _ IH Hstep]; [by cbn; rewrite app_nil_r|].
  unfold enqueued, received in *. rewrite !bind_app, app_assoc, IH, <-!app_assoc. f_equal.
  by apply step_fifo.
Qed.

Lemma ended_step s e s' : task_step s e s' → is_running s = false → is_running s' = false.
Proof. intros Hstep. case_step Hstep; unfold is_running in *; autorewrite with reply; cbn; try done; congruence. Qed.

(** A request that is finished stays as it is. *)
Lemma finished_stays s e s' i r :
  task_step s e s' → ts_requests s !! i = Some r → finished r = true → ts_requests s' !! i = Some r.
Proof.
  intros Hstep Hi Hr. pose proof (lookup_lt_Some _ _ _ Hi) as Hlt.
  case_step Hstep; cbn; try done;
    try (rewrite lookup_app_l by done; done);
    try (rewrite list_lookup_insert_ne by (intros ->; simplify_eq; first [done|congruence]); done).
  rewrite reply_requests. cbn. rewrite Hi. by destruct r.
Qed.

(** What a request is told is the answer to its command, or that there is no executor. *)
Definition answer_from (es : list Event) (s : Tasks) (i : nat) (x : Answer) : Prop :=
  match x with
  | Answered c a => Handled (Some i) (any_command c) x ∈ es
  | Refused | NoResponse => is_running s = false
  end.

Lemma answer_comes s e s' i x :
  task_step s e s' → ts_requests s' !! i = Some (Done (Some x)) →
  ts_requests s !! i = Some (Done (Some x)) ∨ answer_from [e] s' i x.
Proof.
  intros Hstep Hi. case_step Hstep; cbn in Hi; try (by left);
    try (left; by apply lookup_new in Hi);
    try (apply list_lookup_insert_Some in Hi as [(<- & Hx & _)|(_ & Hi)]; [|by left]);
    try (by destruct waits); try discriminate Hx.
  - right. by injection Hx as <-.
  - right. by injection Hx as <-.
  - rewrite reply_requests in Hi. cbn in Hi. destruct (ts_requests s !! i) as [[| | | |]|]; try done; try (by left).
    destruct (decide (to = Some i)) as [->|]; [|done]. right. injection Hi as <-. by apply list_elem_of_singleton.
Qed.

Lemma answer_given s e s' :
  channel_inv s → task_step s e s' →
  match e with
  | Handled (Some i) _ x => ts_requests s' !! i = Some (Done (Some x)) ∨ ts_requests s' !! i = Some Abandoned
  | _ => True
  end.
Proof.
  intros H Hstep. case_step Hstep; try done. destruct to as [i|]; [|done].
  rewrite reply_requests. cbn -[reply].
  destruct (ci_waits _ H i (any_command c)) as [-> | ->]; [rewrite H0; by left| |by right].
  left. by rewrite decide_True.
Qed.

Lemma run_answers s es s' i x :
  channel_inv s → ts_requests s !! i = None → task_run s es s' →
  (ts_requests s' !! i = Some (Done (Some x)) → answer_from es s' i x) ∧
  (∀ c, Handled (Some i) c x ∈ es →
     ts_requests s' !! i = Some (Done (Some x)) ∨ ts_requests s' !! i = Some Abandoned).
Proof.
  intros H Hnew Hrun. induction Hrun as [s|s es s' e s'' Hrun IH Hstep].
  { split; [congruence|]. intros c Hc. by apply elem_of_nil in Hc. }
  specialize (IH H Hnew) as [IH1 IH2]. pose proof (run_channel _ _ _ H Hrun) as H'. split.
  - intros Hi. destruct (answer_comes _ _ _ _ _ Hstep Hi) as [Hi'|Hi']; unfold answer_from in *; destruct x;
      try (apply elem_of_app); eauto using ended_step.
  - intros c [Hc|Hc]%elem_of_app.
    + destruct (IH2 c Hc) as [Hi|Hi]; [left|right]; by eapply finished_stays.
    + apply list_elem_of_singleton in Hc. subst e. exact (answer_given _ _ _ H' Hstep).
Qed.

(** C5: Whatever the order in which the tasks move, from the start on: the node
    is as it is after the commands one by one, each carried out on its own
    with the other uses of the node between them, in the order in which they were
    sent; the channel never holds more than 128; a request is told [Answered] with
    exactly the answer of the executor to its own command, only if that was
    handled and always once it was, unless its caller has gone away; it is told that there is no executor only when
    there is none; and while there is one, a request that waits has its command in
    the channel. *)
Theorem tasks_linearize s es s' :
  starts s → task_run s es s' →
  seq_run (ts_executor s) es (ts_executor s') ∧
  enqueued es = received es ++ ts_queue s' ∧
  (length (ts_queue s') <= COMMAND_CAPACITY)%nat ∧
  (∀ i x, ts_requests s' !! i = Some (Done (Some x)) → answer_from es s' i x) ∧
  (∀ i c x, Handled (Some i) c x ∈ es →
     ts_requests s' !! i = Some (Done (Some x)) ∨ ts_requests s' !! i = Some Abandoned) ∧
  (is_running s' = true → ∀ i c, ts_requests s' !! i = Some (Waiting c) → (Some i, c) ∈ ts_queue s').
Proof.
  intros Hs Hrun. pose proof (starts_channel _ Hs) as H. pose proof (run_channel _ _ _ H Hrun) as H'.
  destruct Hs as (_ & _ & _ & Hq & _ & Hreq).
  assert (∀ i, ts_requests s !! i = None) as Hnew by (by rewrite Hreq).
  split_and!.
  - by apply run_seq.
  - apply run_fifo in Hrun. by rewrite Hq in Hrun.
  - apply H'.
  - intros i x. by apply (run_answers s).
  - intros i c x Hc. by eapply (run_answers s).
  - apply H'.
Qed.
(** ** No transaction is lost or doubled

    Where the transactions are: in the pool, with the sealer, with a request, in
    the channel *)
Definition pool_txs (p : TxPool) : list Transaction := transaction <$> pool_inner p.
Definition sealer_txs (t : SealerTask) : list Transaction :=
  match t with Handing b => txs b | Polling | SealerEnded => [] end.
Definition entry_txs (entry : option nat * AnyCommand) : list Transaction := command_txs entry.2.
Definition held (s : Tasks) : list Transaction :=
  pool_txs (ts_pool s) ++ sealer_txs (ts_sealer s) ++ (ts_requests s ≫= request_txs) ++ (ts_queue s ≫= entry_txs).

(** What came in, what came to the pool, what the executor carried out, what was
    dropped on request or given up with the request that had it, and what was lost
    with the executor *)
Definition submitted (es : list Event) : list Transaction :=
  es ≫= λ e, match e with Submitted l => l | _ => [] end.
Definition brought (es : list Event) : list Transaction :=
  es ≫= λ e, match e with Submitted l => l | Brought c => command_txs c | _ => [] end.
Definition carried_out (es : list Event) : list Transaction :=
  es ≫= λ e, match e with Handled _ c _ => command_txs c | _ => [] end.
Definition dropped (es : list Event) : list Transaction :=
  es ≫= λ e, match e with Dropped l | GivenUp l => l | _ => [] end.
Definition lost (es : list Event) : list Transaction :=
  es ≫= λ e, match e with Lost l => l | Stopped _ c q => command_txs c ++ (q ≫= entry_txs) | _ => [] end.

(** The numbers in the pool are at most that of the last submission. *)
Definition pool_numbered (p : TxPool) : Prop :=
  0 <= pool_submission_number p ∧
  Forall (λ t, submission_number t <= pool_submission_number p) (pool_inner p).

Lemma add_tx_numbered tx p :
  pool_numbered p → pool_submission_number p + 1 < 2 ^ 64 →
  pool_numbered (add_tx tx p) ∧ pool_submission_number (add_tx tx p) = pool_submission_number p + 1 ∧
  pool_txs (add_tx tx p) ≡ₚ tx :: pool_txs p.
Proof.
  intros [Hn Hall] Hlt.
  assert (wrapping_add_u64 (pool_submission_number p) 1 = pool_submission_number p + 1) as E.
  { apply wrapping_add_u64_small. unfold u64_max. lia. }
  unfold pool_numbered, pool_txs, add_tx. cbn [pool_inner pool_submission_number]. rewrite E, bt_insert_perm.
  - split_and!; [lia| |done|done]. constructor; [cbn; lia|].
    eapply Forall_impl; [exact Hall|]. intros t Ht. cbn in Ht. lia.
  - eapply Forall_impl; [exact Hall|]. intros t Ht. cbn in Ht. apply pool_lt_cmp. cbn. lia.
Qed.

Lemma add_txs_numbered l p :
  pool_numbered p → pool_submission_number p + Z.of_nat (length l) < 2 ^ 64 →
  pool_numbered (add_txs l p) ∧
  pool_submission_number (add_txs l p) = pool_submission_number p + Z.of_nat (length l) ∧
  pool_txs (add_txs l p) ≡ₚ l ++ pool_txs p.
Proof.
  revert p. induction l as [|tx l IH]; intros p Hn Hlt; [by cbn; rewrite Z.add_0_r|].
  rewrite length_cons in Hlt |- *.
  destruct (add_tx_numbered tx p Hn ltac:(lia)) as (Hn' & En & Hp).
  destruct (IH (add_tx tx p) Hn' ltac:(lia)) as (Hn'' & En' & Hp').
  split_and!; [done|cbn; unfold add_txs in *; lia|].
  unfold add_txs in *. cbn. rewrite Hp', Hp. solve_Permutation.
Qed.

(** [l] is taken out of the pool, nothing else changes in it. *)
Definition taken_out (p : TxPool) (l : list Transaction) (p' : TxPool) : Prop :=
  pool_submission_number p' = pool_submission_number p ∧
  ∃ taken, l = transaction <$> taken ∧ pool_inner p ≡ₚ taken ++ pool_inner p'.

Lemma taken_out_nil p : taken_out p [] p.
Proof. split; [done|]. by exists []. Qed.

Lemma taken_out_numbered p l p' :
  taken_out p l p' → pool_numbered p → pool_numbered p' ∧ pool_txs p ≡ₚ l ++ pool_txs p'.
Proof.
  intros (En & taken & -> & Hp) [Hn Hall]. unfold pool_numbered, pool_txs. rewrite En, Hp, fmap_app.
  rewrite Hp in Hall. by apply Forall_app in Hall as [_ ?].
Qed.

Lemma take_uniform_out st n p b p' :
  take_uniform st n p = (b, p') → taken_out p (txs (default (mkTxBatch false []) b)) p'.
Proof.
  intros E. pose proof (take_uniform_run st n p) as H. rewrite E in H. destruct b as [b|].
  - destruct H as (taken & rest & Hp & -> & Ht & _). split; [done|]. exists taken. split; [done|].
    cbn. rewrite Hp, Permutation_app_comm. by rewrite <-Permutation_rev.
  - destruct H as [-> _]. apply taken_out_nil.
Qed.

Lemma drop_transactions_out f p l p' : drop_transactions f p = (l, p') → taken_out p l p'.
Proof.
  unfold drop_transactions. intros [= <- <-]. split; [done|]. eexists. split; [done|]. cbn.
  induction (pool_inner p) as [|t r IH]; [done|]. rewrite !filter_cons.
  destruct (f t); cbn; rewrite IH at 1; solve_Permutation.
Qed.

Lemma mode_poll_out st m p r m' p' :
  mode_poll st m p = (r, m', p') → taken_out p (match r with Ready b => txs b | NotReady => [] end) p'.
Proof.
  intros E. destruct m as [|i|f]; cbn [mode_poll] in E.
  - injection E as <- <- <-. apply taken_out_nil.
  - destruct (immediate_poll st i p) as [[r0 s0] p0] eqn:Ei. injection E as <- _ <-.
    unfold immediate_poll in Ei. destruct (take_uniform st (imm_max_transactions i) p) as [[b|] p1] eqn:Et.
    + rewrite (immediate_poll_busy _ _ _ _ _ Et) in Ei. cbn in Ei. injection Ei as <- <- <-.
      exact (take_uniform_out _ _ _ _ _ Et).
    + apply take_uniform_None in Et as [_ Hi]. destruct (immediate_poll_idle st i p Hi) as (rx & Ef & _).
      rewrite Ef in Ei. cbn in Ei. injection Ei as <- <- <-. apply taken_out_nil.
  - unfold fixed_time_poll in E. destruct (poll_tick (ft_interval f)) as [[] t].
    + destruct (take_uniform st _ p) as [b p1] eqn:Et. injection E as <- _ <-.
      exact (take_uniform_out _ _ _ _ _ Et).
    + injection E as <- _ <-. apply taken_out_nil.
Qed.
(** A request for one block takes one batch. *)
Record stock_inv (s : Tasks) : Prop := {
  si_numbered : pool_numbered (ts_pool s);
  si_one i max left taken :
    ts_requests s !! i = Some (Collecting MineOne max left taken) → (left + length taken = 1)%nat;
}.

Lemma insert_request_txs l i r r' :
  l !! i = Some r →
  ∃ rest, l ≫= request_txs ≡ₚ request_txs r ++ rest ∧ <[i := r']> l ≫= request_txs ≡ₚ request_txs r' ++ rest.
Proof.
  intros Hi. exists ((take i l ≫= request_txs) ++ (drop (S i) l ≫= request_txs)).
  rewrite (insert_take_drop l i r') by (by eapply lookup_lt_Some).
  split; [rewrite <-(take_drop_middle l i r) at 1 by done|]; rewrite bind_app; cbn; solve_Permutation.
Qed.

Lemma reply_txs to a s : ts_requests (reply to a s) ≫= request_txs ≡ₚ ts_requests s ≫= request_txs.
Proof.
  destruct (reply_cases to a s) as [-> |(i & c & Hi & ->)]; [done|]. cbn.
  by destruct (insert_request_txs _ _ _ (Done (Some a)) Hi) as (rest & -> & ->).
Qed.

Lemma new_request_txs l r : (l ++ [r]) ≫= request_txs = (l ≫= request_txs) ++ request_txs r.
Proof. rewrite bind_app. cbn. by rewrite app_nil_r. Qed.

Lemma mining_command_txs m max taken s i :
  stock_inv s → ts_requests s !! i = Some (Collecting m max 0 taken) →
  command_txs (mining_command m taken) = mjoin (txs <$> taken).
Proof.
  intros H Hi. destruct m as [|interval]; [|done].
  pose proof (si_one _ H _ _ _ _ Hi) as Hl. destruct taken as [|b [|b' taken]]; [done| |done].
  cbn. by rewrite app_nil_r.
Qed.

Definition small (e : Event) (s : Tasks) : Prop :=
  match e with
  | Submitted l => pool_submission_number (ts_pool s) + Z.of_nat (length l) < 2 ^ 64
  | _ => True
  end.

Lemma stock_step s e s' : stock_inv s → small e s → task_step s e s' → stock_inv s'.
Proof.
  intros H Hsmall Hstep. pose proof H as [Hn Ho]. split.
  - case_step Hstep; cbn in *; try done.
    + by apply add_txs_numbered.
    + by eapply taken_out_numbered, Hn; eapply drop_transactions_out.
    + by eapply taken_out_numbered, Hn; eapply (mode_poll_out _ _ _ (Ready b)).
    + by eapply taken_out_numbered, Hn; eapply (mode_poll_out _ _ _ NotReady).
    + by eapply taken_out_numbered, Hn; eapply take_uniform_out.
    + by autorewrite with reply.
  - intros j max' left' taken' Hj. case_step Hstep; cbn in Hj; try (by eapply Ho);
      try (apply lookup_snoc_Some in Hj as [[_ Hj]|[_ Hj]]; [by eapply Ho|]; simplify_eq; try done);
      try (apply list_lookup_insert_Some in Hj as [(<- & Hj & _)|(_ & Hj)]; [|by eapply Ho]; simplify_eq).
    + rewrite length_app. apply Ho in H0. cbn. lia.
    + by destruct waits.
    + rewrite reply_requests in Hj. cbn in Hj. destruct (ts_requests s !! j) as [[]|] eqn:Ej; try done.
      * injection Hj as -> -> -> ->. by eapply Ho.
      * by destruct (decide (to = Some j)).
Qed.

(** The goal with one request changed, as a permutation of what the others hold. *)
Ltac change_request Hi :=
  match goal with
  | |- context [<[_ := ?r]> (ts_requests _) ≫= request_txs] =>
      destruct (insert_request_txs _ _ _ r Hi) as (others & -> & ->); cbn
  end.

Lemma conserved_step s e s' :
  channel_inv s → stock_inv s → small e s → task_step s e s' →
  held s ++ brought [e] ≡ₚ held s' ++ carried_out [e] ++ dropped [e] ++ lost [e].
Proof.
  intros Hc H Hsmall Hstep. pose proof H as [Hn Ho]. unfold held.
  case_step Hstep; cbn; rewrite ?new_request_txs; cbn; rewrite ?app_nil_r; try done.
  - destruct (add_txs_numbered l _ Hn Hsmall) as (_ & _ & ->). solve_Permutation.
  - destruct (taken_out_numbered _ _ _ (drop_transactions_out _ _ _ _ H0) Hn) as [_ ->]. solve_Permutation.
  - change_request H0. solve_Permutation.
  - destruct (taken_out_numbered _ _ _ (mode_poll_out _ _ _ _ _ _ H1) Hn) as [_ ->]. rewrite H0. solve_Permutation.
  - by destruct (taken_out_numbered _ _ _ (mode_poll_out _ _ _ _ _ _ H1) Hn) as [_ ->].
  - rewrite H0, bind_app. cbn. rewrite app_nil_r. solve_Permutation.
  - rewrite H0. solve_Permutation.
  - destruct (taken_out_numbered _ _ _ (take_uniform_out _ _ _ _ _ H1) Hn) as [_ ->].
    change_request H0. rewrite fmap_app, join_app. cbn. rewrite app_nil_r. solve_Permutation.
  - change_request H0. by rewrite (mining_command_txs m max taken s i).
  - solve_Permutation.
  - destruct waits; change_request H0; rewrite bind_app; cbn; rewrite app_nil_r; solve_Permutation.
  - change_request H0. solve_Permutation.
  - by change_request H0.
  - autorewrite with reply. rewrite reply_txs. cbn. rewrite H0. cbn. solve_Permutation.
  - rewrite H0. cbn. solve_Permutation.
Qed.

(** The sizes along a run: the last number is the count of the submissions. *)
Lemma submitted_snoc es e : submitted (es ++ [e]) = submitted es ++ submitted [e].
Proof. unfold submitted. by rewrite bind_app. Qed.

Lemma number_step s e s' :
  pool_numbered (ts_pool s) → small e s → task_step s e s' →
  pool_submission_number (ts_pool s') = pool_submission_number (ts_pool s) + Z.of_nat (length (submitted [e])).
Proof.
  intros Hn Hsmall Hstep. case_step Hstep; cbn; rewrite ?app_nil_r; try (cbn; lia).
  - by apply add_txs_numbered.
  - destruct (drop_transactions_out _ _ _ _ H) as [-> _]. cbn. lia.
  - destruct (mode_poll_out _ _ _ _ _ _ H0) as [-> _]. cbn. lia.
  - destruct (mode_poll_out _ _ _ _ _ _ H0) as [-> _]. cbn. lia.
  - destruct (take_uniform_out _ _ _ _ _ H0) as [-> _]. cbn. lia.
  - autorewrite with reply. cbn. lia.
Qed.

Lemma starts_stock s : starts s → stock_inv s.
Proof.
  intros (Hp & Hn & _ & _ & _ & Hr). split; [|by rewrite Hr].
  unfold pool_numbered. rewrite Hp, Hn. split; [lia|constructor].
Qed.

Lemma perm_chain {A} (b h x d l b' h' x' d' l' : list A) :
  b ≡ₚ h ++ x ++ d ++ l → h ++ b' ≡ₚ h' ++ x' ++ d' ++ l' →
  b ++ b' ≡ₚ h' ++ (x ++ x') ++ (d ++ d') ++ (l ++ l').
Proof.
  intros -> H. trans ((h ++ b') ++ x ++ d ++ l); [solve_Permutation|]. rewrite H. solve_Permutation.
Qed.

Lemma run_stock s es s' :
  starts s → task_run s es s' → Z.of_nat (length (submitted es)) < 2 ^ 64 →
  stock_inv s' ∧ pool_submission_number (ts_pool s') = Z.of_nat (length (submitted es)) ∧
  brought es ≡ₚ held s' ++ carried_out es ++ dropped es ++ lost es.
Proof.
  intros Hs Hrun. pose proof (starts_channel _ Hs) as Hc.
  induction Hrun as [s|s es s' e s'' Hrun IH Hstep]; intros Hlt.
  { split_and!; [by apply starts_stock|by destruct Hs as (_ & -> & _)|].
    destruct Hs as (Hp & _ & Hse & Hq & _ & Hr). unfold held, pool_txs. by rewrite Hp, Hse, Hq, Hr. }
  rewrite submitted_snoc, length_app in Hlt |- *.
  destruct (IH Hs Hc ltac:(lia)) as (Hst & Hn & Hp). pose proof (run_channel _ _ _ Hc Hrun) as Hc'.
  assert (small e s') as Hsmall.
  { destruct e; try done. cbn in *. rewrite app_nil_r in Hlt. lia. }
  pose proof (conserved_step _ _ _ Hc' Hst Hsmall Hstep) as Hstep'.
  split_and!; [by eapply stock_step| |].
  - rewrite (number_step _ _ _ (si_numbered _ Hst) Hsmall Hstep). lia.
  - unfold brought, carried_out, dropped, lost in *. rewrite !bind_app, Hp.
    eapply perm_chain; [reflexivity|exact Hstep'].
Qed.

(** Transactions are lost only with the executor. *)
Lemma lost_ended s es s' : channel_inv s → task_run s es s' → is_running s' = true → lost es = [].
Proof.
  intros Hc Hrun. induction Hrun as [|s es s' e s'' Hrun IH Hstep]; intros Hr; [done|].
  unfold lost in *. destruct (is_running s') eqn:Er; [|by rewrite (ended_step _ _ _ Hstep Er) in Hr].
  rewrite bind_app, (IH Hc eq_refl). case_step Hstep; try done; congruence.
Qed.

(** ** The work comes to an end

    What the tasks do on their own, with no new request *)
Definition own_work (e : Event) : Prop :=
  match e with
  | Enqueued _ | Handled _ _ _ | Stopped _ _ _ | Lost _ | Silent => True
  | Submitted _ | Dropped _ | GivenUp _ | Brought _ | Direct _ _ | Asked | Idle => False
  end.

(** How many steps are left at most *)
Definition request_work (r : Request) : nat :=
  match r with
  | Collecting _ _ n _ => 4 + n
  | Sending _ _ => 3
  | Waiting _ => 1
  | Done _ | Abandoned => 0
  end.
Definition sealer_work (t : SealerTask) : nat :=
  match t with Handing _ => 2 | Polling | SealerEnded => 0 end.
Definition work_left (s : Tasks) : nat :=
  3 * length (pool_inner (ts_pool s)) + sealer_work (ts_sealer s) + length (ts_queue s) +
  sum_list_with request_work (ts_requests s).

(** Automatic mining, as [BlockSealerMode::immediate] *)
Definition automines (s : Tasks) : Prop :=
  match ts_mode s with Immediate i => imm_max_transactions i ≠ 0%nat | Noop | FixedTime _ => False end.

(** Nothing is left to do; or the executor is at a command that does not return. *)
Record settled (s : Tasks) : Prop := {
  se_queue : ts_queue s = [];
  se_sealer : sealer_work (ts_sealer s) = 0%nat;
  se_requests : Forall (λ r, finished r = true) (ts_requests s);
  se_pool : is_running s = true → pool_inner (ts_pool s) = [];
}.
Definition stuck (s : Tasks) : Prop :=
  ∃ (A : Type) to (c : Command A) q,
    is_running s = true ∧ ts_queue s = (to, any_command c) :: q ∧
    ((∃ msg, handle exec c (node_of s) = Panic msg) ∨ handle exec c (node_of s) = Deadlock).

Lemma insert_work l i r r' :
  l !! i = Some r →
  (sum_list_with request_work (<[i := r']> l) + request_work r = sum_list_with request_work l + request_work r')%nat.
Proof.
  revert i. induction l as [|x l IH]; intros [|i] Hi; try done.
  - injection Hi as ->. cbn. lia.
  - change (request_work x + sum_list_with request_work (<[i := r']> l) + request_work r =
            request_work x + sum_list_with request_work l + request_work r')%nat.
    specialize (IH i Hi). lia.
Qed.

Lemma reply_work to a s :
  (sum_list_with request_work (ts_requests (reply to a s)) <= sum_list_with request_work (ts_requests s))%nat.
Proof.
  destruct (reply_cases to a s) as [-> |(i & c & Hi & ->)]; [done|].
  pose proof (insert_work _ _ _ (Done (Some a)) Hi) as H. cbn in *. lia.
Qed.

Lemma take_uniform_fewer st n p b p' :
  take_uniform st n p = (b, p') → (length (pool_inner p') <= length (pool_inner p))%nat.
Proof.
  intros (_ & taken & _ & Hp)%take_uniform_out. rewrite Hp, length_app. lia.
Qed.

Lemma automine_poll st i p r m p' :
  imm_max_transactions i ≠ 0%nat → mode_poll st (Immediate i) p = (r, m, p') →
  match r with
  | Ready b => m = Immediate i ∧ (length (pool_inner p') < length (pool_inner p))%nat
  | NotReady => pool_inner p = [] ∧ p' = p
  end.
Proof.
  intros Hi E. destruct (decide (length (pool_inner p) = 0%nat)) as [H0|H0].
  - apply length_zero_iff_nil in H0. cbn [mode_poll] in E. unfold immediate_poll in E.
    destruct (immediate_poll_idle st i p (or_intror H0)) as (rx & Ef & _). rewrite Ef in E.
    cbn in E. by injection E as <- <- <-.
  - destruct (mode_poll_immediate_busy st i p Hi) as (b & taken & rest & E' & Hp & _ & Hl & _).
    { intros Hnil. by rewrite Hnil in H0. }
    rewrite E' in E. injection E as <- <- <-. split; [done|].
    rewrite Hp, length_app, length_rev. cbn. lia.
Qed.

Lemma automines_step s e s' : automines s → own_work e → task_step s e s' → automines s'.
Proof.
  unfold automines. intros Ha He Hstep. destruct (ts_mode s) as [|im|] eqn:Em; try done.
  case_step Hstep; try done; cbn; rewrite ?Em; try done.
  - rewrite Em in H0. by apply automine_poll in H0 as [-> _].
  - autorewrite with reply. cbn. by rewrite Em.
Qed.

Lemma work_step s e s' :
  automines s → own_work e → task_step s e s' → (work_left s' < work_left s)%nat.
Proof.
  intros Ha He Hstep. unfold automines in Ha. destruct (ts_mode s) as [|im|] eqn:Em; try done.
  unfold work_left.
  case_step Hstep; try done; cbn -[Nat.mul];
    try match goal with
        | Hi : ts_requests _ !! ?i = Some _ |- context [<[?i := ?r]> _] =>
            pose proof (insert_work _ _ _ r Hi) as Hw; cbn [request_work] in Hw
        end.
  - rewrite Em in H0. apply automine_poll in H0 as [_ Hl]; [|done]. rewrite H. cbn. lia.
  - rewrite H, length_app. cbn. lia.
  - rewrite H. cbn. lia.
  - apply take_uniform_fewer in H0. lia.
  - lia.
  - rewrite length_app. destruct waits; cbn in *; lia.
  - lia.
  - lia.
  - autorewrite with reply. pose proof (reply_work to (Answered c a) (with_queue q (with_task (mkTask n' true) s))).
    cbn -[Nat.mul] in *. rewrite H. cbn -[Nat.mul]. lia.
  - rewrite H. cbn -[Nat.mul]. lia.
Qed.

(** A run of the tasks on their own has at most [work_left] steps. *)
Definition runs_on (s : Tasks) (es : list Event) (s' : Tasks) : Prop := task_run s es s' ∧ Forall own_work es.

Lemma runs_on_bound s es s' :
  automines s → runs_on s es s' → automines s' ∧ (length es + work_left s' <= work_left s)%nat.
Proof.
  intros Ha [Hrun He]. induction Hrun as [s|s es s' e s'' Hrun IH Hstep]; [done|].
  apply Forall_app in He as [He He1]. rewrite Forall_singleton in He1.
  destruct (IH Ha He) as [Ha' Hl]. split; [exact (automines_step _ _ _ Ha' He1 Hstep)|].
  pose proof (work_step _ _ _ Ha' He1 Hstep). rewrite length_app. cbn [length]. lia.
Qed.

Definition can_work (s : Tasks) : Prop := ∃ e s', own_work e ∧ task_step s e s'.

(** The executor moves, or waits for a command, or is at one that does not return. *)
Lemma executor_progress s :
  is_running s = true → ts_queue s = [] ∨ stuck s ∨ can_work s.
Proof.
  intros Hr. destruct (ts_queue s) as [|[to [A c]] q] eqn:Eq; [by left|right].
  destruct (handle exec c (node_of s)) as [a n'|e n'|msg|] eqn:Eh.
  - right. eexists _, _. by split; [|eapply executor, step_handle].
  - right. eexists _, _. by split; [|eapply executor, step_stop].
  - left. exists A, to, c, q. eauto.
  - left. exists A, to, c, q. eauto.
Qed.

Lemma room_empty s : ts_queue s = [] → room s.
Proof. unfold room, COMMAND_CAPACITY. intros ->. cbn. lia. Qed.

(** A request that is not done moves, or waits for the executor. *)
Lemma request_progress s i r :
  channel_inv s → (is_running s = true → ts_queue s = []) → ts_requests s !! i = Some r →
  finished r = true ∨ can_work s.
Proof.
  intros H Hq Hi. destruct r as [m max n taken|c waits|c|a|]; [right..|by left|by left].
  - destruct n as [|n]; [by eexists _, _; split; [|eapply mining, step_collected]|].
    destruct (take_uniform (impersonation (node_of s)) max (ts_pool s)) as [b p] eqn:Et.
    by eexists _, _; split; [|eapply mining, step_collect].
  - destruct (is_running s) eqn:Er; [|by eexists _, _; split; [|eapply requester, step_send_fails]].
    eexists _, _. split; [|eapply requester, step_send; [done|done|]]; [done|]. apply room_empty. by apply Hq.
  - destruct (is_running s) eqn:Er; [|by eexists _, _; split; [|eapply requester, step_no_response]].
    pose proof (ci_queued _ H Er i c Hi) as Hin. rewrite Hq in Hin by done. by apply elem_of_nil in Hin.
Qed.

(** So does the sealer. *)
Lemma sealer_progress s :
  channel_inv s → automines s → (is_running s = true → ts_queue s = []) →
  can_work s ∨ sealer_work (ts_sealer s) = 0%nat ∧ (is_running s = true → pool_inner (ts_pool s) = []).
Proof.
  intros H Ha Hq. unfold automines in Ha. destruct (ts_mode s) as [|im|] eqn:Em; try done.
  destruct (ts_sealer s) as [|b|] eqn:Es.
  - destruct (mode_poll (impersonation (node_of s)) (ts_mode s) (ts_pool s)) as [[[b|] m] p] eqn:Ep.
    + left. by eexists _, _; split; [|eapply sealer, step_poll].
    + right. rewrite Em in Ep. by apply automine_poll in Ep as [-> _].
  - left. destruct (is_running s) eqn:Er; [|by eexists _, _; split; [|eapply sealer, step_hand_fails]].
    eexists _, _. split; [|eapply sealer, step_hand; [done|done|]]; [done|]. apply room_empty. by apply Hq.
  - right. split; [done|]. intros Hr. apply (ci_sealer _ H) in Es. congruence.
Qed.

Lemma work_progress s : channel_inv s → automines s → stuck s ∨ settled s ∨ can_work s.
Proof.
  intros H Ha.
  assert ((is_running s = true → ts_queue s = []) ∨ stuck s ∨ can_work s) as Hcase.
  { destruct (is_running s) eqn:Er; [|by left]. destruct (executor_progress s Er) as [?|?]; auto. }
  destruct Hcase as [Hq|[?|?]]; [|by auto..].
  right. destruct (sealer_progress s H Ha Hq) as [?|[Hs Hp]]; [by right|].
  assert (ts_queue s = []) as Hq' by (destruct (is_running s) eqn:Er; [by auto|by apply (ci_stopped _ H)]).
  destruct (list_find (λ r, finished r = false) (ts_requests s)) as [[i r]|] eqn:Ef.
  - apply list_find_Some in Ef as (Hi & Hw & _).
    destruct (request_progress s i r H Hq Hi) as [?|?]; [congruence|by right].
  - apply list_find_None in Ef. left. split; [done..| |done]. eapply Forall_impl; [exact Ef|].
    intros r Hr. cbn in Hr. by destruct (finished r).
Qed.

Lemma run_app s es s' es' s'' : task_run s es s' → task_run s' es' s'' → task_run s (es ++ es') s''.
Proof.
  intros H H'. induction H' as [|s' es' s'' e t _ IH Hstep]; [by rewrite app_nil_r|].
  rewrite app_assoc. econstructor; eauto.
Qed.

Lemma run_cons s e s' es s'' : task_step s e s' → task_run s' es s'' → task_run s (e :: es) s''.
Proof. intros H. apply (run_app s [e] s'). eapply (run_snoc s []); [constructor|done]. Qed.

(** What the tasks do on their own brings no transaction in, and drops none. *)
Lemma own_work_quiet es : Forall own_work es → submitted es = [] ∧ brought es = [] ∧ dropped es = [].
Proof.
  induction 1 as [|e es He _ (IH1 & IH2 & IH3)]; [done|].
  unfold submitted, brought, dropped in *. rewrite !bind_cons, IH1, IH2, IH3. by destruct e.
Qed.

Lemma settled_held s : settled s → is_running s = true → held s = [].
Proof.
  intros [Hq Hs Hr Hp] Hrun. unfold held, pool_txs. rewrite Hq, (Hp Hrun).
  assert (ts_requests s ≫= request_txs = []) as ->.
  { induction Hr as [|r l Hf _ IH]; [done|]. rewrite bind_cons, IH. by destruct r. }
  by destruct (ts_sealer s).
Qed.

Lemma settled_conserved s0 es0 s es s' :
  starts s0 → task_run s0 es0 s → Z.of_nat (length (submitted es0)) < 2 ^ 64 → runs_on s es s' →
  settled s' → is_running s' = true → brought es0 ≡ₚ carried_out (es0 ++ es) ++ dropped es0.
Proof.
  intros Hs Hrun0 Hlt [Hrun He] Hset Hr. destruct (own_work_quiet _ He) as (Es & Eb & Ed).
  pose proof (run_app _ _ _ _ _ Hrun0 Hrun) as Hrun'.
  destruct (run_stock _ _ _ Hs Hrun') as (_ & _ & Hp).
  { unfold submitted in *. by rewrite bind_app, Es, app_nil_r. }
  rewrite (settled_held _ Hset Hr), (lost_ended _ _ _ (starts_channel _ Hs) Hrun' Hr) in Hp.
  unfold brought, dropped in *. rewrite !bind_app, Eb, Ed, !app_nil_r in Hp. exact Hp.
Qed.


(** ** Two that mine at a time

    A request for a block takes a batch from the pool before it sends its command,
    and so does the sealer: between the two, the other can take the next batch and
    send that first. *)
Lemma mode_poll_ready st i p b p' :
  take_uniform st (imm_max_transactions i) p = (Some b, p') → mode_poll st (Immediate i) p = (Ready b, Immediate i, p').
Proof. intros H. cbn [mode_poll]. unfold immediate_poll. by rewrite (immediate_poll_busy _ _ _ _ _ H). Qed.

Lemma batches_overtake s i a b p1 p2 :
  is_running s = true → ts_queue s = [] → ts_sealer s = Polling → ts_requests s = [] →
  ts_mode s = Immediate i → imm_max_transactions i = cfg_max_transactions (config (node_of s)) →
  take_uniform (impersonation (node_of s)) (imm_max_transactions i) (ts_pool s) = (Some a, p1) →
  take_uniform (impersonation (node_of s)) (imm_max_transactions i) p1 = (Some b, p2) →
  ∃ es s', task_run s es s' ∧
    enqueued es = [(None, any_command (SealBlock b)); (Some 0%nat, any_command (SealBlock a))].
Proof.
  destruct s as [p m t q x l]. unfold is_running, node_of. cbn.
  intros Hr -> -> -> -> Hi Ha Hb.
  eexists [Asked; Silent; Silent; Silent; Enqueued _; Enqueued _], _.
  split; [|reflexivity].
  eapply run_cons; [apply mining, step_mine_block|].
  eapply run_cons; [eapply mining, (step_collect 0); [done|rewrite Hi in Ha; exact Ha]|].
  eapply run_cons; [by eapply mining, (step_collected 0)|].
  eapply run_cons; [by eapply sealer, step_poll, mode_poll_ready|].
  eapply run_cons; [by eapply sealer, step_hand; [..|apply room_empty]|].
  eapply run_cons; [|apply run_nil].
  apply requester, (step_send 0 _ true); [done|done|]. unfold room, COMMAND_CAPACITY. cbn. lia.
Qed.
End System.

(** ** A run of the sample node *)
Module SampleTasks.
Export SampleExecutor.
#[export] Existing Instances SamplePool.channel SampleSealer.ticks.

Definition start : Tasks (Client := unit) :=
  mkTasks (TxPool_new Fifo) (mode_immediate 10 (chan_new 9)) Polling [] (mkTask node true) [].

Lemma start_starts : starts start.
Proof. split_and!; reflexivity. Qed.

Abbreviation b := (mkTxBatch false batch).
Abbreviation p1 := (add_txs batch (TxPool_new Fifo)).

Lemma is_Ret {S E A} (o : outcome S E A) :
  match o with Ret _ _ => true | _ => false end = true → ∃ a s, o = Ret a s.
Proof. destruct o as [a s| | |]; try discriminate. by exists a, s. Qed.

Lemma seals : ∃ a n, handle exec (SealBlock b) node = Ret a n.
Proof. apply is_Ret. vm_compute. reflexivity. Qed.

(** Three transactions come in, and a request to move the clock; the sealer takes
    the transactions, and both commands are carried out. *)
Abbreviation asked := [Submitted batch; Brought (any_command (IncreaseTime 5))].
Abbreviation before := (new_request (Sending (any_command (IncreaseTime 5)) true) (with_pool p1 start)).

Lemma submits : task_run exec start asked before.
Proof.
  eapply run_cons; [apply outside, step_submit|]. eapply run_cons; [apply requester, step_request|]. apply run_nil.
Qed.

Lemma polls : ∃ p2, mode_poll (impersonation node) (mode_immediate 10 (chan_new 9)) p1 =
    (Ready b, mode_immediate 10 (chan_new 9), p2) ∧ pool_inner p2 = [].
Proof. eexists. split; vm_compute; reflexivity. Qed.

Lemma finishes : ∃ es s',
  runs_on exec before es s' ∧
  settled s' ∧ is_running s' = true ∧ carried_out es = batch ∧
  received es = [(None, any_command (SealBlock b)); (Some 0%nat, any_command (IncreaseTime 5))].
Proof.
  destruct seals as (a & n & Ha). destruct polls as (p2 & Hp & Hnil).
  eexists [Silent; Enqueued _; Enqueued _; Handled _ _ _; Handled _ _ _], _. split_and!.
  - split; [|by repeat constructor].
    eapply run_cons; [by eapply sealer, step_poll|].
    eapply run_cons; [by eapply sealer, step_hand; [..|apply room_empty]|].
    eapply run_cons; [eapply requester, (step_send 0 _ true); [reflexivity|reflexivity|by apply Nat.ltb_lt]|].
    eapply run_cons; [by eapply executor, step_handle|].
    eapply run_cons; [by eapply executor, step_handle|].
    apply run_nil.
  - split; [done..| |by intros _]. by repeat econstructor.
  - done.
  - done.
  - done.
Qed.
Lemma tasks_linearize_witness : ∃ es s',
  task_run exec start es s' ∧ seq_run exec (mkTask node true) es (ts_executor s') ∧
  enqueued es = [(None, any_command (SealBlock b)); (Some 0%nat, any_command (IncreaseTime 5))].
Proof.
  destruct finishes as (es & s' & [Hrun He] & Hset & Hr & _ & Hrec).
  pose proof (run_app _ _ _ _ _ _ submits Hrun) as Hrun'.
  exists (asked ++ es), s'. split; [exact Hrun'|].
  destruct (tasks_linearize exec start (asked ++ es) s' start_starts Hrun') as (Hseq & Hfifo & _).
  split; [exact Hseq|]. rewrite Hfifo, (se_queue _ Hset), app_nil_r. exact Hrec.
Defined.


End SampleTasks.
